(* ===== verification/_CoqProject ===== *)
-Q . S2P
Prelude.v
GoStr.v
GoNum.v
GoPath.v
GoFS.v
GoCodec.v
Host.v
ExtPkg.v
GoJson.v
ClusterGraph.v
ClusterDaemon.v
ClusterMesh.v
ClusterRouter.v
FileServer.v
OpenFGA.v
SSELines.v
SamlSession.v
SamlConfig.v
SamlFilter.v
PolicyInput.v
OPA.v
Cedar.v
TokenExchange.v
JweDecrypt.v
Bedrock.v
AzureParsers.v
AzureSafety.v
OpenAPI.v
Waf.v
WafLife.v
WafShared.v
LLMParsers.v
LLMProxy.v
DecoderFilter.v
AnthropicDecoder.v
ChatDecoder.v
FaultConfig.v
FaultDistribution.v
FaultFilter.v
GoPlugin.v
CliPackage.v
CliManifest.v
CliCache.v
CliDownload.v
CliExtension.v
CliConfig.v
CliLogs.v
CliFlags.v
CliRun.v
CliDebug.v
CliRunner.v
CliDocker.v
CliExport.v
UiServer.v
CliCreate.v
CliRoot.v
DeadCode.v
DocGen.v
Examples.v
FaultLoad.v
CliFollow.v
CliMain.v
