(* ===== verification/Prelude.v ===== *)
(** * Built On Envoy: a verification library

    Built On Envoy is a marketplace of Envoy extensions with a command line tool
    that runs them.  The extensions under src/extensions/composer are Go filters
    loaded into the proxy: the host calls a filter with headers, body chunks and
    callout replies, and the filter answers with a status and with calls on its
    handle (local responses, headers, metadata, metrics, callouts).  The command line
    tool under src/cli packs, downloads and builds extensions, resolves the versions that
    fit together, renders the configuration of Envoy and runs it with the servers,
    libraries and debuggers the extensions need, on the host or in a container.  This
    library models the Go code of both that carries the program's own logic, with the
    server of the web interface under src/ui, the linter under src/tools and the programs
    that print reference pages, and proves
    what makes it correct.

    ** The files

    - [Prelude]: scope, tactics, hint databases, machine integers, lists, error
      values ([result]) and reachability ([steps]).
    - [GoStr], [GoNum], [GoPath]: what the code uses of the Go library: string
      functions, strconv and time.Duration, float64 as IEEE 754 doubles, cleaned
      paths and URL queries.
    - [GoFS]: file systems as maps from paths to nodes, with symbolic links, and the
      operations of package os on them; what a change leaves alone ([grows], frames).
    - [GoCodec]: base64, hexadecimal, URL escaping and form values, URLs, with their
      round trips.
    - [GoJson]: encoding/json: the scanner over the text with the raw text of each value,
      strings and their UTF-8 repair, decoding into Go types (class [Decodable]), string
      escaping, and the round trip of encoded objects.
    - [Host]: the host.  Header maps are the class [HeaderMap] with laws
      [HeaderMapLaws] and an instance on association lists; the calls on the handle
      are the output of a writer monad, [Host].  Log lines are not recorded.
    - [ExtPkg]: composer/pkg/config.go and metrics.go, shared by the extensions.
    - [ClusterGraph]: cluster-router/graph/types.go, table.go, bestpath.go: the
      routing table and the best-path computation ([Compute], [AdvertiseTo]).
    - [ClusterDaemon]: cluster-router/graph/daemon.go and peer.go: one polling round
      ([tick]) over peers polled by concurrent goroutines, with the stale cache.
    - [ClusterMesh]: a mesh of such daemons as a step relation in which any node ticks
      at any time and any request can be lost.
    - [ClusterRouter]: cluster-router/cluster_router.go: configuration and filter.
    - [FileServer]: file-server/plugin.go: path mapping, ranges, the handler over a
      file system that is a parameter.
    - [OpenFGA]: openfga/config.go and plugin.go: rules, value sources, the request
      and the callout callback, composed in [handle_request].
    - [SamlSession], [SamlConfig], [SamlFilter]: saml: signed session tokens and cookies,
      configuration, service provider metadata, the login redirect, the assertion
      consumer, the metadata fetch and the filter.  The XML and SAML library is the class
      [SamlLib], clock, randomness and compression the class [SamlEnv].
    - [PolicyInput]: the request as opa and cedar show it to a policy, and the decision
      table both enforce ([follows_table]).
    - [OPA], [Cedar]: opa/plugin.go and cedar/plugin.go over an engine that is a parameter.
    - [TokenExchange]: token-exchange/config.go and plugin.go.
    - [JweDecrypt]: jwe-decrypt/plugin.go and jwe/jwe.go over a JOSE library that is a
      parameter.
    - [Bedrock]: bedrock-guardrails/plugin.go, callback.go, openai.go and types.go: a chain
      of callouts, one guardrail after the other.
    - [AzureParsers]: azure-content-safety/parser.go, openai.go, anthropic.go and
      openai_responses.go: three request formats behind the record [Parser].
    - [AzureSafety]: azure-content-safety/client.go and plugin.go: the client, the
      goroutines and what they schedule, and the filter as a step relation.
    - [OpenAPI]: openapi-validator/plugin.go over an OpenAPI library that is a parameter.
    - [Waf], [WafLife]: waf/waf.go, config.go, metrics.go and metrics_config.go over the
      engine as the class [Coraza], and whole streams of callbacks.
    - [WafShared]: waf/coraza/shared.go, recording_fs.go and directives_fs.go: the cache of
      engines behind weak pointers, with the garbage collector as a step.
    - [SSELines]: the line loop of the event-stream parsers (bytes.TrimSpace, complete
      lines, the reference on a whole stream).
    - [LLMParsers], [LLMProxy]: llm-proxy: the event-stream parsers behind the class
      [SSEParser], and the filter as a state machine over the host's callbacks.
    - [DecoderFilter]: the callbacks and the metadata that anthropic-decoder/plugin.go and
      chat-completions-decoder/plugin.go share, against the record [Decoder] of a format
      and its laws [DecoderLaws]; the metadata keys and what they describe.
    - [AnthropicDecoder]: anthropic-decoder/anthropic.go and plugin.go.
    - [ChatDecoder]: chat-completions-decoder/openai.go and plugin.go.
    - [FaultConfig], [FaultDistribution], [FaultFilter]: dynamic-fault-injection:
      configuration checks, random distributions, and the filter with the in-flight
      counter all filters share.
    - [GoPlugin]: goplugin-loader/config.go, goplugin.go and imagefetcher: plugins fetched
      from a registry, their compatibility with the host, and the factories around them.
    - [CliPackage]: cli/internal/oci/package.go: packing and extracting archives.
    - [CliManifest]: cli/internal/extensions/manifest.go: manifests, validation, parents,
      inherited versions and the Envoy version that fits all extensions.
    - [CliCache]: directories.go, registry.go, libcomposer.go, dynamic_module.go,
      ext_proc.go and wasm.go there: the slots of the cache, annotations, and the builds.
    - [CliDownload]: repository.go and downloader.go: the registry client, the choice of
      artifacts and tags, and downloads with their fall back to sources.
    - [CliExtension], [CliConfig]: cli/internal/envoy/extension.go and config.go: the
      filters of each type of extension and the rendered configuration.
    - [CliLogs]: cli/cmd/logs.go and clean.go, and the descriptions of list.go.
    - [CliFlags], [CliRun]: cli/cmd/flags.go, run.go and download.go: positions,
      references, and the plan of a run in a state monad over the file system ([Task]).
    - [CliDebug]: cli/internal/envoy/debug.go, debug_delve.go, debug_gdbremote.go and
      cli/cmd/debug.go: debug servers, and the sessions of the remote server as a step
      relation ([gdb_step]) with [stop] running beside them.
    - [CliRunner]: cli/internal/envoy/runner.go on the host and cli/internal/version.go:
      the search path of modules, the servers and Envoy as a list of events.
    - [CliDocker]: runner.go in a container: mounts and rewritten arguments.
    - [CliExport]: cli/cmd/genconfig.go: exported configurations.
    - [UiServer]: ui/server.go and executor.go: the handlers, the conversion of coloured
      output to HTML, and the executor as a step relation over its calls.
    - [CliCreate]: cli/cmd/create.go: the files of a new extension.
    - [CliRoot]: cli/cmd/root.go, list.go and ui.go: directories, the log, the table of the
      index, and the parameters of the web interface.
    - [DeadCode]: tools/deadcode-lint-plugin: reachability from the exports of extensions,
      the discovery of targets, and the diagnostics.
    - [DocGen]: cli/tools/gen-manifest-reference and gen-cli-docs: the reference pages.
    - [Examples]: composer/example/example.go and example-ext-proc/processor.go.
    - [FaultLoad]: dynamic-fault-injection/internal/config/loader.go and the factories of
      plugin.go: the loader all filters share, with its schema.
    - [CliFollow]: the following of logs.go, findEnvoyPid of envoy/debug.go, and the hints
      of cmd/debug.go about paths through symbolic links.
    - [CliMain]: the commands of run.go and cmd/debug.go from the command line to the
      runners: [CliFlags], [CliRun], [CliConfig], [CliRunner] and [CliDocker] composed.

    ** How the code is modelled

    A struct is a Record and a closed set of cases an Inductive, with the names of the
    source where Rocq allows them; a method is a function of the receiver that returns
    it changed.  An [int] is a Z with [wrap64], [u32] or [u64] written where the code
    computes; a float64 is a spec_float with the operations of precision 53.  A Go map
    is a gmap, or the list of its entries when the iteration order can be observed.
    sort.Slice is a stable merge sort; the theorems on [Compute] and [AdvertiseTo]
    show that stability and iteration order do not matter there, and
    [percentile_order_dependent] that they do in one place.  A panic (an index out of
    range, a nil pointer) is [None] of an option, and the theorems show that it does not
    happen, or exactly when it does.  Random
    numbers, clock readings, the results of the host and the contents of files are
    arguments.  Goroutines are steps of a relation or a permutation of jobs.

    Code outside the repository is a parameter of the section that uses it: the policy
    engines, the SAML and JOSE libraries, the HTTP transport, the host's buffers, YAML and
    protobuf, the registry, the processes that are started and, for the extensions, the
    file system.  Of the Go library, regular expressions, url.Parse, httpguts,
    strconv.ParseFloat and, except where [GoJson] is used, JSON coding are parameters
    too.  What is assumed of a parameter is a hypothesis of the theorem
    and its witness instantiates it.

    Recursion is structural, except for ParseDuration, whose fuel is the length of its
    input ([parse_components_fuel] shows that more changes nothing), the JSON scanner,
    whose fuel is twice the length of the text and one ([scan_fuel] shows the same),
    [forward] in the mesh, whose fuel is the hop count the theorem proves to be enough,
    the resolution of symbolic links in [GoFS], whose fuel is the limit of 40 links the
    system has, the way up to a module file, whose fuel is the depth of the directory
    ([find_module_enough]), the elements two paths end with ([strip_links_spec]), and the
    scans over a text that consume a byte at each step, whose fuel is its length and one.

    ** What the theorems show

    - Routing: in every reachable mesh state the stored routes are real loop-free
      paths ([mesh_routes_valid]); rounds without loss reach shortest routes
      ([mesh_converges]) and then forwarding delivers ([mesh_delivers]).  Below that,
      [Compute] picks the best offer, does not depend on orders, is loop free and
      bounded; split horizon; goroutine interleavings and failed peers do not matter
      beyond the stale cache.  The filter cannot be spoofed and accepted configurations
      meet the hypotheses of the graph theorems.
    - File server: a response depends only on files below the configured prefixes
      ([OnRequestHeaders_confined]); ranges are exact; one complete response.
    - Authorization: openfga fails closed ([handle_request_fail_closed]) and
      realises the documented decision table, the responses to the client included
      ([handle_request_decision]); opa and cedar
      enforce their table once on every request, however its body is cut
      ([opa_follows_table], [cedar_follows_table]).
    - Authentication: a session token is accepted exactly if it is signed and not expired
      ([validateSessionToken_accepts]); every saml request has one outcome
      ([saml_one_outcome]), a login lets the user in ([saml_login_session]) and the
      redirect carries what was signed ([authn_redirect_roundtrip]); a request goes on
      with an exchanged token or not at all ([token_exchange_fail_closed]); decrypted
      payloads replace only the configured header ([jwe_output]).
    - Content filters: a request passes bedrock only through every guardrail in order
      ([bedrock_all_guardrails]); with azure, in block mode, only what every enabled
      check has cleared is continued ([azure_fail_closed]), each direction is decided
      once in every interleaving ([azure_one_decision]) and the service reads the texts
      the filter found ([azure_requests_roundtrip]); the format of a body depends on the
      names of its members alone ([detectRequestFormat_spec]).  A request has the outcome
      the OpenAPI configuration prescribes, however its body is cut ([openapi_decision]).
    - Firewall: what goes on has been through every phase of the engine, except for a response
      whose request never reached the filter, which goes on without a transaction
      ([waf_screened]); a transaction is created, logged and closed once in every stream that
      has one, and no stream panics ([waf_lifecycle]); a shared engine is the one a new build
      would give, up to the errors of reads that failed ([shared_waf_current],
      [read_failures_collapsed]), and is neither closed nor evicted while it is used
      ([shared_waf_kept]).
    - LLM proxy: however a stream is cut into chunks the parsers compute the reference
      on the whole stream; in every stream of callbacks requests, errors and tokens
      are counted once ([requests_counted_once]).
    - Decoders: a streamed response leaves the metadata of the same response sent in one
      piece, however it is cut ([anthropic_streamed_as_buffered],
      [chat_streamed_as_buffered]); each side is decoded once ([decoded_once]); the
      metadata describes the request; the inputs that panic are exactly
      characterised.
    - Fault injection: accepted configurations build and sample without failing;
      the stateful distribution is exact over its cycles, weighted selection is exact,
      spikes last as configured, responses take the sampled time and the in-flight
      counter never leaks ([in_flight_exact]); the schema is compiled once and what is
      loaded does not depend on what was loaded before ([schema_compiled_once], [Load_Ok]).
    - Packages and the cache: extraction stays below its destination as long as links lead
      inside ([extract_confined]; [extract_link_escapes] shows one that does not) and gives
      back the packed tree with its permission bits, within the limits on sizes and for names
      without leading dots ([package_roundtrip], [package_dots_refused]); builds
      that differ have slots of their own ([cache_slots_separate]), and downloads stay in
      the cache ([DownloadExtension_confined]).
    - Running: the Envoy version fits every extension ([resolve_compatible]); when the command
      starts Envoy, it does so once, with the configuration of exactly the extensions of its
      command line in their order and after the servers they need ([run_starts_envoy], on the
      plan of [run_plan_ordered]); the configuration has exactly the filters and clusters of the
      extensions and flags in their order, the router last, and a route to a cluster that
      exists ([full_config_sound]); the search path has the modules Envoy loads and the
      composer of the plugins, and nothing else ([search_path_complete]); servers are stopped
      when a run ends, except where one has no binary ([servers_managed],
      [servers_left_running]); debug sessions come one at a time and end ([gdb_sessions]); local
      extensions are mounted where the arguments look for them
      ([docker_locals_mounted]); an export is complete ([export_complete]); the log is cut
      at its last lines ([printLastLines_spec]) and followed without loss from where the
      following starts ([followFile_out]); path mappings map resolved paths back
      ([symlink_mapping]).
    - Plugins: the loader opens a library only if it was built for the host, unless it is told
      otherwise ([loader_opens_compatible]), and the fetcher installs exactly the library of
      the newest layer that has one ([fetch_plugin_exact]).
    - Web interface: the output of a command becomes HTML that is balanced and has no markup
      but spans ([ansi_html_safe]); a run has the extensions of the page in their order
      ([ui_command_order]); the executor knows the process that runs ([executor_tracks]).
    - New extensions: the command writes every file of its table and, where it tidies the
      module, go.mod and go.sum, and nothing else ([create_complete], under the documented
      behaviour of go mod tidy: it writes those two files and the caches of the toolchain).
    - Linter: exactly the dead functions are reported ([lint_exact]), and exports are never
      among them ([exports_live]); every extension asked for is analysed
      ([DiscoverComposer_included]).
    - Reference pages: plain conditions are put into words that mean what the schema means
      ([describe_sound]); pages do not depend on the order of maps whose entries differ in
      title ([reference_order]); a variable of a global flag is described by it
      ([env_map_global]).
    - Examples: the body of a response is wrapped once, however it is cut
      ([response_wrapped_once]); the processor answers every message ([Process_answers]).
    - Divergences: a stale time of zero, an open end for a malformed range, 33 hops,
      events after message_stop, NaN and duplicate percentiles, rounded-down counts,
      unchecked block and choice indices, null blocks; uncounted saml requests, a lost
      query after login, client-supplied attribute headers; response headers on dry-run
      requests; guardrail replies without assessments and conversations cut to their user
      messages; chat requests that pass unscreened behind a null [input]; requests
      validated against no operation; negations described as something else and schemas
      without a title in random order; lines of the log that are appended between the copy
      of its end and the start of the following ([follow_skips_between]); servers left running
      when a later one has no binary ([servers_left_running]); read failures that a shared
      engine cannot tell apart ([read_failures_collapsed]).

    ** What is not modelled

    Of the command line tool, the flag parser, the messages to the user, the template
    engine, the health check, and the delivery of signals and sockets of debug servers
    below their step relation, which hand their work to libraries; web pages, tests and
    what helps them under internal/testing; the Rust extensions and the Lua and Wasm
    examples, and the servers that host the Go ones.  Sockets, tickers, logging and the
    registration of filters are left out of the modelled extensions. *)

From stdpp Require Export base tactics list gmap strings sorting.
From Stdlib Require Export ZArith.
From Stdlib Require Import Lia Ascii.

(** ** Scope and automation *)

Declare Scope go_scope.
Delimit Scope go_scope with go.

(** The hint databases of the development: [boe] resolves the side conditions
    shared by the components, [gostr] rewrites with the equations of the Go
    string functions. *)
Create HintDb boe.
Create Rewrite HintDb gostr.

(** Splits every conditional and match of the goal that is driven by a decidable
    test, clearing impossible branches. *)
Ltac split_ifs :=
  repeat (case_match; simplify_eq/=; try done).

(** Turns boolean tests in the hypotheses into propositions. *)
Ltac reflect_bools :=
  repeat match goal with
  | H : _ && _ = true |- _ => apply andb_true_iff in H; destruct H
  | H : _ || _ = false |- _ => apply orb_false_iff in H; destruct H
  | H : negb _ = true |- _ => apply negb_true_iff in H
  | H : negb _ = false |- _ => apply negb_false_iff in H
  | H : bool_decide _ = true |- _ => apply bool_decide_eq_true in H
  | H : bool_decide _ = false |- _ => apply bool_decide_eq_false in H
  | H : (_ <? _)%Z = true |- _ => apply Z.ltb_lt in H
  | H : (_ <? _)%Z = false |- _ => apply Z.ltb_ge in H
  | H : (_ <=? _)%Z = true |- _ => apply Z.leb_le in H
  | H : (_ <=? _)%Z = false |- _ => apply Z.leb_gt in H
  | H : (_ =? _)%Z = true |- _ => apply Z.eqb_eq in H
  | H : (_ =? _)%Z = false |- _ => apply Z.eqb_neq in H
  end.

(** Proves a closed decidable proposition by evaluating its decision. *)
Ltac decide_now :=
  lazymatch goal with
  | |- ?P => apply (bool_decide_eq_true_1 P); vm_compute; reflexivity
  end.

(** ** Machine integers *)

(** The two's complement value of a 64-bit Go [int]. *)
Definition wrap64 (z : Z) : Z := ((z + 2 ^ 63) mod 2 ^ 64 - 2 ^ 63)%Z.

(** Unsigned 32- and 64-bit arithmetic. *)
Definition u32 (z : Z) : Z := (z mod 2 ^ 32)%Z.
Definition u64 (z : Z) : Z := (z mod 2 ^ 64)%Z.

Definition int64_min : Z := (- 2 ^ 63)%Z.
Definition int64_max : Z := (2 ^ 63 - 1)%Z.

Lemma wrap64_id z : (int64_min <= z <= int64_max)%Z -> wrap64 z = z.
Proof. unfold wrap64, int64_min, int64_max. intros H. rewrite Z.mod_small; lia. Qed.

Lemma wrap64_range z : (int64_min <= wrap64 z <= int64_max)%Z.
Proof.
  unfold wrap64, int64_min, int64_max.
  pose proof (Z.mod_pos_bound (z + 2 ^ 63) (2 ^ 64)). lia.
Qed.

Lemma u64_id z : (0 <= z < 2 ^ 64)%Z -> u64 z = z.
Proof. intros H. by apply Z.mod_small. Qed.

Lemma u32_id z : (0 <= z < 2 ^ 32)%Z -> u32 z = z.
Proof. intros H. by apply Z.mod_small. Qed.

Lemma u32_range z : (0 <= u32 z < 2 ^ 32)%Z.
Proof. apply Z.mod_pos_bound. lia. Qed.

#[export] Hint Resolve wrap64_range u32_range : boe.

(** The length of a slice or map as a Go [int]. *)
Abbreviation zlen l := (Z.of_nat (length l)).

(** ** Lists *)

Lemma filter_head_Some {A} (P : A -> Prop) `{!forall x, Decision (P x)} (l : list A) x :
  head (filter P l) = Some x -> x ∈ l /\ P x.
Proof.
  intros Hh. assert (x ∈ filter P l) as Hx.
  { destruct (filter P l); simplify_eq/=. by left. }
  apply list_elem_of_filter in Hx. tauto.
Qed.

Lemma filter_head_None {A} (P : A -> Prop) `{!forall x, Decision (P x)} (l : list A) :
  head (filter P l) = None -> forall x, x ∈ l -> ~ P x.
Proof.
  intros Hh x Hx HP. assert (x ∈ filter P l) as Hf by by apply list_elem_of_filter.
  destruct (filter P l); [by apply not_elem_of_nil in Hf | done].
Qed.

Lemma existsb_false {A} (f : A -> bool) (l : list A) :
  existsb f l = false <-> Forall (fun x => f x = false) l.
Proof.
  induction l as [|x l IH]; cbn; [by split|]. by rewrite orb_false_iff, IH, Forall_cons.
Qed.

Lemma existsb_true {A} (f : A -> bool) (l : list A) :
  existsb f l = true <-> Exists (fun x => f x = true) l.
Proof.
  induction l as [|x l IH]; cbn; [by rewrite Exists_nil|].
  by rewrite orb_true_iff, IH, Exists_cons.
Qed.

(** In a list whose keys are distinct the first element with a given key is the
    only one. *)
Lemma filter_key_unique {A B} (f : A -> B) `{!EqDecision B} (l : list A) x :
  NoDup (f <$> l) -> x ∈ l -> filter (fun y => f y = f x) l = [x].
Proof.
  induction l as [|y l IH]; intros Hnd Hin; [by apply not_elem_of_nil in Hin|].
  apply NoDup_cons in Hnd as [Hny Hnd]. rewrite filter_cons.
  apply elem_of_cons in Hin as [->|Hin].
  - rewrite decide_True by done. f_equal.
    destruct (filter (fun y0 => f y0 = f y) l) as [|z l'] eqn:E; [done|].
    assert (z ∈ filter (fun y0 => f y0 = f y) l) as Hz by (rewrite E; left).
    apply list_elem_of_filter in Hz as [Hz1 Hz2].
    destruct Hny. rewrite <- Hz1. by apply list_elem_of_fmap_2.
  - rewrite decide_False; [by apply IH|].
    intros E. apply Hny. rewrite E. by apply list_elem_of_fmap_2.
Qed.

(** Steps that commute pairwise may be run in any order. *)
Lemma foldl_Permutation {A B} `{!EqDecision A} (f : B -> A -> B) (l1 l2 : list A) (b : B) :
  (forall a1 a2 b', a1 ∈ l1 -> a2 ∈ l1 -> a1 <> a2 -> f (f b' a1) a2 = f (f b' a2) a1) ->
  l1 ≡ₚ l2 -> foldl f b l1 = foldl f b l2.
Proof.
  intros Hc Hp. revert b Hc.
  induction Hp as [|x l1 l2 Hp IH|x y l|l1 l2 l3 Hp1 IH1 Hp2 IH2]; intros b Hc; simpl.
  - done.
  - apply IH. intros. apply Hc; set_solver.
  - f_equal. destruct (decide (x = y)) as [->|Hne]; [done|]. apply Hc; set_solver.
  - rewrite IH1 by done. apply IH2. intros. apply Hc; [rewrite Hp1..|]; done.
Qed.

(** ** Options and errors *)

(** The result of a fallible Go function: [Ok v] for [(v, nil)], [Err e] for a
    non-nil error. *)
Inductive result (E A : Type) : Type :=
| Ok (a : A)
| Err (e : E).
Arguments Ok {E A} a.
Arguments Err {E A} e.

#[export] Instance result_eq_dec {E A} `{EqDecision E, EqDecision A} : EqDecision (result E A).
Proof. solve_decision. Defined.

Definition is_ok {E A} (r : result E A) : bool :=
  match r with Ok _ => true | Err _ => false end.

Definition rbind {E A B} (r : result E A) (k : A -> result E B) : result E B :=
  match r with Ok a => k a | Err e => Err e end.

Notation "'try' x <- r ; k" := (rbind r (fun x => k))
  (at level 10, x name, r at level 100, k at level 200) : go_scope.

(** ** Reachability *)

(** Zero or more transitions of a step relation. *)
Inductive steps {S : Type} (step : S -> S -> Prop) : S -> S -> Prop :=
| steps_nil s : steps step s s
| steps_snoc s1 s2 s3 : steps step s1 s2 -> step s2 s3 -> steps step s1 s3.

Lemma steps_cons {S} (step : S -> S -> Prop) s1 s2 s3 : step s1 s2 -> steps step s2 s3 -> steps step s1 s3.
Proof. intros H1 H2. induction H2 as [s|s s' s'' _ IH Hs]; [by eapply steps_snoc; [apply steps_nil|]|by eapply steps_snoc; [apply IH|]]. Qed.

Lemma steps_invariant {S} (step : S -> S -> Prop) (I : S -> Prop) s0 s :
  (forall s1 s2, I s1 -> step s1 s2 -> I s2) -> I s0 -> steps step s0 s -> I s.
Proof. intros Hpres H0 Hs. induction Hs; eauto. Qed.
