(* ===== verification/GoStr.v ===== *)
(** * Go strings, byte slices and paths

    The functions of the Go packages strings, bytes, strconv and path/filepath
    that the components call, on [string] as a sequence of bytes (which is what
    a Go string is), with the lemmas the components share. *)

From S2P Require Import Prelude.
From Stdlib Require Import Lia Ascii.

(** ** Byte order: the [<] of Go strings *)

Definition byteZ (c : ascii) : Z := Z.of_N (N_of_ascii c).

Fixpoint str_ltb (a b : string) : bool :=
  match a, b with
  | EmptyString, String _ _ => true
  | String x a', String y b' =>
      if decide (x = y) then str_ltb a' b' else (N_of_ascii x <? N_of_ascii y)%N
  | _, EmptyString => false
  end.

Definition str_lt (a b : string) : Prop := str_ltb a b = true.
Definition str_le (a b : string) : Prop := str_ltb b a = false.

#[export] Instance str_lt_dec a b : Decision (str_lt a b).
Proof. unfold str_lt. apply _. Defined.
#[export] Instance str_le_dec a b : Decision (str_le a b).
Proof. unfold str_le. apply _. Defined.

Lemma N_of_ascii_inj x y : N_of_ascii x = N_of_ascii y -> x = y.
Proof. intros H. by rewrite <- (ascii_N_embedding x), H, ascii_N_embedding. Qed.

Lemma str_ltb_irrefl a : str_ltb a a = false.
Proof. induction a; simpl; [done|]. by rewrite decide_True. Qed.

Lemma str_ltb_trans a b c : str_ltb a b = true -> str_ltb b c = true -> str_ltb a c = true.
Proof.
  revert b c. induction a as [|x a IH]; intros [|y b] [|z c]; simpl; try done.
  repeat case_decide; subst; try done; eauto; intros ?%N.ltb_lt ?%N.ltb_lt;
    try (apply N.ltb_lt); lia.
Qed.

Lemma str_ltb_total a b : str_ltb a b = false -> str_ltb b a = false -> a = b.
Proof.
  revert b. induction a as [|x a IH]; intros [|y b]; simpl; try done.
  repeat case_decide; subst; try done.
  - intros. f_equal. by apply IH.
  - intros ?%N.ltb_ge ?%N.ltb_ge. destruct H. apply N_of_ascii_inj. lia.
Qed.

Lemma str_ltb_asym a b : str_ltb a b = true -> str_ltb b a = false.
Proof.
  intros H. destruct (str_ltb b a) eqn:E; [|done].
  pose proof (str_ltb_trans _ _ _ H E) as C. by rewrite str_ltb_irrefl in C.
Qed.

#[export] Instance str_le_trans : Transitive str_le.
Proof.
  intros a b c. unfold str_le. intros H1 H2. destruct (str_ltb c a) eqn:E; [|done].
  destruct (str_ltb c b) eqn:E1; [done|].
  destruct (str_ltb b c) eqn:E2.
  - by rewrite (str_ltb_trans _ _ _ E2 E) in H1.
  - rewrite (str_ltb_total _ _ E1 E2) in E. congruence.
Qed.

#[export] Instance str_le_total : Total str_le.
Proof.
  intros a b. unfold str_le. destruct (str_ltb b a) eqn:E; [right|by left].
  by apply str_ltb_asym.
Qed.

#[export] Instance str_le_antisymm : AntiSymm (=) str_le.
Proof. intros a b H1 H2. by apply str_ltb_total. Qed.

(** ** Concatenation and length *)

#[global] Arguments String.append !_ _ /.
#[global] Arguments String.prefix !_ !_ /.
#[global] Arguments ascii_dec : simpl never.

Lemma str_app_assoc (a b c : string) : (a +:+ b) +:+ c = a +:+ (b +:+ c).
Proof. induction a; simpl; congruence. Qed.

Lemma str_app_nil_r (a : string) : a +:+ "" = a.
Proof. induction a; simpl; congruence. Qed.

Lemma str_length_app (a b : string) :
  String.length (a +:+ b) = String.length a + String.length b.
Proof. induction a; simpl; congruence. Qed.

#[export] Hint Rewrite str_app_assoc str_app_nil_r str_length_app : gostr.

(** ** Prefixes and suffixes *)

(** [strings.HasPrefix s p]. *)
Definition HasPrefix (s p : string) : bool := String.prefix p s.

(** [strings.TrimPrefix s p]. *)
Fixpoint drop_bytes (n : nat) (s : string) : string :=
  match n, s with
  | 0, _ => s
  | S n', String _ s' => drop_bytes n' s'
  | S _, EmptyString => EmptyString
  end.

Fixpoint take_bytes (n : nat) (s : string) : string :=
  match n, s with
  | 0, _ => EmptyString
  | S n', String c s' => String c (take_bytes n' s')
  | S _, EmptyString => EmptyString
  end.

Definition TrimPrefix (s p : string) : string :=
  if HasPrefix s p then drop_bytes (String.length p) s else s.

(** [strings.HasSuffix s p]. *)
Definition HasSuffix (s p : string) : bool :=
  bool_decide (String.length p <= String.length s /\
               drop_bytes (String.length s - String.length p) s = p).

(** [strings.CutPrefix s p]. *)
Definition CutPrefix (s p : string) : string * bool :=
  if HasPrefix s p then (drop_bytes (String.length p) s, true) else (s, false).

Lemma HasPrefix_spec s p : HasPrefix s p = true <-> exists t, s = p +:+ t.
Proof.
  unfold HasPrefix. revert s. induction p as [|c p IH]; intros s; simpl.
  - split; [by exists s | destruct s; done].
  - destruct s as [|d s]; [split; [done | intros [t ?]; done]|].
    simpl. destruct (ascii_dec c d) as [->|Hne].
    + rewrite IH. split; intros [t Ht]; exists t; by simplify_eq/=.
    + split; [done|]. intros [t Ht]. by simplify_eq/=.
Qed.

Lemma HasPrefix_cons c s d p :
  HasPrefix (String c s) (String d p) = bool_decide (d = c) && HasPrefix s p.
Proof.
  unfold HasPrefix. simpl. destruct (ascii_dec d c).
  - by rewrite bool_decide_true.
  - by rewrite bool_decide_false.
Qed.

Lemma drop_bytes_app p t : drop_bytes (String.length p) (p +:+ t) = t.
Proof. induction p; simpl; done. Qed.

Lemma HasPrefix_app p t : HasPrefix (p +:+ t) p = true.
Proof. apply HasPrefix_spec. by exists t. Qed.

Lemma TrimPrefix_app p t : TrimPrefix (p +:+ t) p = t.
Proof. unfold TrimPrefix. rewrite HasPrefix_app. apply drop_bytes_app. Qed.

Lemma HasPrefix_empty s : HasPrefix s "" = true.
Proof. by destruct s. Qed.

#[export] Hint Rewrite drop_bytes_app HasPrefix_app TrimPrefix_app HasPrefix_empty : gostr.

(** ** Searching and splitting on a byte *)

(** [strings.IndexByte s c]; [None] is the -1 of Go. *)
Fixpoint IndexByte (s : string) (c : ascii) : option nat :=
  match s with
  | EmptyString => None
  | String d s' => if decide (d = c) then Some 0 else S <$> IndexByte s' c
  end.

(** [strings.LastIndexByte s c], and a backward search for a byte. *)
Fixpoint LastIndexByte (s : string) (c : ascii) : option nat :=
  match s with
  | EmptyString => None
  | String d s' =>
      match LastIndexByte s' c with
      | Some i => Some (S i)
      | None => if decide (d = c) then Some 0%nat else None
      end
  end.

(** The byte occurs in the string: [strings.Contains] with a one-byte needle. *)
Fixpoint ContainsByte (s : string) (c : ascii) : bool :=
  match s with
  | EmptyString => false
  | String d s' => bool_decide (d = c) || ContainsByte s' c
  end.

(** [strings.Contains s sub]. *)
Fixpoint Contains (s sub : string) : bool :=
  HasPrefix s sub ||
  match s with
  | EmptyString => false
  | String _ s' => Contains s' sub
  end.

(** [strings.Cut s c] for a one-byte separator. *)
Fixpoint Cut (s : string) (c : ascii) : string * string * bool :=
  match s with
  | EmptyString => (EmptyString, EmptyString, false)
  | String d s' =>
      if decide (d = c) then (EmptyString, s', true)
      else match Cut s' c with
           | (before, after, found) => (String d before, after, found)
           end
  end.

(** [strings.Split s c] for a one-byte separator; never empty. *)
Fixpoint Split (s : string) (c : ascii) : list string :=
  match s with
  | EmptyString => [EmptyString]
  | String d s' =>
      if decide (d = c) then EmptyString :: Split s' c
      else match Split s' c with
           | [] => [String d EmptyString]
           | w :: ws => String d w :: ws
           end
  end.

(** [strings.Join ws sep]. *)
Definition Join (ws : list string) (sep : string) : string := String.concat sep ws.

(** The part before the first occurrence of a byte, the whole string when the
    byte is absent. *)
Definition before_byte (s : string) (c : ascii) : string :=
  match IndexByte s c with
  | Some i => take_bytes i s
  | None => s
  end.

Lemma Cut_before s c : (Cut s c).1.1 = before_byte s c.
Proof.
  unfold before_byte. induction s as [|d s IH]; simpl; [done|].
  destruct (decide (d = c)); [done|].
  destruct (Cut s c) as [[b a] f]; simpl in *. subst b.
  by destruct (IndexByte s c); simpl.
Qed.

Lemma ContainsByte_IndexByte s c : ContainsByte s c = true <-> is_Some (IndexByte s c).
Proof.
  induction s as [|d s IH]; simpl; [split; [done | by intros []]|].
  case_decide as E.
  - rewrite bool_decide_true by done. simpl. split; eauto.
  - rewrite bool_decide_false by done. simpl. rewrite IH. by rewrite fmap_is_Some.
Qed.

Lemma before_byte_absent s c : ContainsByte (before_byte s c) c = false.
Proof.
  unfold before_byte. induction s as [|d s IH]; simpl; [done|].
  destruct (decide (d = c)); simpl; [done|].
  destruct (IndexByte s c); simpl in *; rewrite bool_decide_false by done; done.
Qed.

Lemma Split_nonempty s c : Split s c <> [].
Proof. induction s as [|d s IH]; simpl; [done|]. case_decide; [done|]. by destruct (Split s c). Qed.

(** The parts of a split do not contain the separator. *)
Lemma Split_no_sep s c w : w ∈ Split s c -> ContainsByte w c = false.
Proof.
  revert w. induction s as [|d s IH]; simpl; intros w.
  - intros ->%list_elem_of_singleton. done.
  - case_decide as E.
    + intros [->|Hw]%elem_of_cons; [done|]. by apply IH.
    + destruct (Split s c) as [|w0 ws] eqn:ES; [by destruct (Split_nonempty s c)|].
      intros [->|Hw]%elem_of_cons.
      * simpl. rewrite bool_decide_false by done. simpl. apply IH. by left.
      * apply IH. by right.
Qed.

(** Joining the parts with the separator gives back the string. *)
Lemma Join_Split s c : Join (Split s c) (String c EmptyString) = s.
Proof.
  unfold Join. induction s as [|d s IH]; simpl; [done|].
  destruct (Split s c) as [|w ws] eqn:ES; [by destruct (Split_nonempty s c)|].
  case_decide as E.
  - subst d. rewrite <- IH. by simpl.
  - destruct ws; simpl in *; by rewrite IH.
Qed.

Lemma Cut_app a b c : ContainsByte a c = false -> Cut (a +:+ String c b) c = (a, b, true).
Proof.
  induction a as [|d a IH]; cbn.
  - by rewrite decide_True.
  - intros [Hd Ha]%orb_false_iff. apply bool_decide_eq_false in Hd.
    rewrite decide_False by done. by rewrite (IH Ha).
Qed.

Lemma Split_app a b c : Split (a +:+ String c b) c = Split a c ++ Split b c.
Proof.
  induction a as [|d a IH]; simpl.
  - by rewrite decide_True.
  - case_decide; [by rewrite IH|]. rewrite IH.
    destruct (Split a c) eqn:E; [by destruct (Split_nonempty a c)|]. done.
Qed.

Lemma Cut_absent s c : ContainsByte s c = false -> Cut s c = (s, "", false).
Proof.
  induction s as [|d s IH]; cbn; [done|]. intros [Hd Hs]%orb_false_iff.
  apply bool_decide_eq_false in Hd. rewrite decide_False by done. by rewrite (IH Hs).
Qed.

Lemma ContainsByte_app a b c : ContainsByte (a +:+ b) c = ContainsByte a c || ContainsByte b c.
Proof. induction a as [|d a IH]; cbn; [done|]. by rewrite IH, orb_assoc. Qed.

(** ** Slices *)

Lemma take_drop_bytes n s : take_bytes n s +:+ drop_bytes n s = s.
Proof. revert s; induction n as [|n IH]; intros [|c s]; cbn; [done..|]. by rewrite IH. Qed.

Lemma length_take_bytes n s : String.length (take_bytes n s) = Nat.min n (String.length s).
Proof. revert s; induction n as [|n IH]; intros [|c s]; cbn; auto. Qed.

Lemma length_drop_bytes n s : String.length (drop_bytes n s) = (String.length s - n)%nat.
Proof. revert s; induction n as [|n IH]; intros [|c s]; cbn; auto. Qed.

(** [part] is the [len] bytes of [s] from [off]. *)
Definition slice (s : string) (off len : Z) (part : string) : Prop :=
  exists pre post, s = pre +:+ part +:+ post /\
    Z.of_nat (String.length pre) = off /\ Z.of_nat (String.length part) = len.

Lemma slice_take_drop s off len :
  (0 <= off)%Z -> (0 <= len)%Z -> (off + len <= Z.of_nat (String.length s))%Z ->
  slice s off len (take_bytes (Z.to_nat len) (drop_bytes (Z.to_nat off) s)).
Proof.
  intros Ho Hl Hs. exists (take_bytes (Z.to_nat off) s), (drop_bytes (Z.to_nat len) (drop_bytes (Z.to_nat off) s)).
  rewrite !take_drop_bytes, !length_take_bytes, length_drop_bytes. split; [done|]. lia.
Qed.

(** Concatenation without a separator. *)
Lemma Join_cons w ws : Join (w :: ws) "" = w +:+ Join ws "".
Proof. unfold Join. destruct ws; cbn; [by rewrite str_app_nil_r|done]. Qed.

Lemma Split_absent s c : ContainsByte s c = false -> Split s c = [s].
Proof.
  induction s as [|d s IH]; cbn; [done|]. intros [Hd Hs]%orb_false_iff.
  apply bool_decide_eq_false in Hd. rewrite decide_False by done. by rewrite (IH Hs).
Qed.

Lemma LastIndexByte_app a b c :
  ContainsByte b c = false -> LastIndexByte (a +:+ String c b) c = Some (String.length a).
Proof.
  intros Hb. assert (Hn : LastIndexByte b c = None).
  { induction b as [|d b IH]; [done|]. cbn in *. apply orb_false_iff in Hb as [Hd Hb].
    rewrite IH by done. apply bool_decide_eq_false in Hd. by rewrite decide_False. }
  induction a as [|d a IH]; cbn; [rewrite Hn; by rewrite decide_True|]. by rewrite IH.
Qed.

Lemma LastIndexByte_Some s c i :
  LastIndexByte s c = Some i ->
  s = take_bytes i s +:+ String c (drop_bytes (S i) s) /\ ContainsByte (drop_bytes (S i) s) c = false.
Proof.
  assert (Habs : forall t, LastIndexByte t c = None -> ContainsByte t c = false).
  { induction t as [|d t IH]; [done|]. cbn. destruct (LastIndexByte t c); [done|].
    case_decide; [done|]. intros _. rewrite IH by done. by rewrite bool_decide_eq_false_2. }
  revert i. induction s as [|d s IH]; [done|]. intros i. cbn [LastIndexByte].
  destruct (LastIndexByte s c) as [j|] eqn:Hj.
  - intros [= <-]. destruct (IH j eq_refl) as [He Ha]. cbn [take_bytes drop_bytes String.append]. split; [|done].
    by rewrite He at 1.
  - case_decide; [|done]. intros [= <-]. subst. cbn. split; [done|]. by apply Habs.
Qed.
