(* ===== verification/GoNum.v ===== *)
(** * Go numbers: float64, strconv and time.Duration

    float64 is IEEE 754 binary64, by the executable specification of the Standard
    Library ([SpecFloat]); the conversions are those of Go on amd64.  Also
    strconv.Atoi, ParseUint and the formatting of integers, and
    time.ParseDuration and Duration.String. *)

From S2P Require Import Prelude GoStr.
From stdpp Require Import pretty.
From Stdlib Require Import Lia Ascii SpecFloat.

Local Open Scope Z_scope.

(** ** float64 *)

Definition float64 : Type := spec_float.

Definition prec64 : Z := 53.
Definition emax64 : Z := 1024.

Definition f_add : float64 -> float64 -> float64 := SFadd prec64 emax64.
Definition f_sub : float64 -> float64 -> float64 := SFsub prec64 emax64.
Definition f_mul : float64 -> float64 -> float64 := SFmul prec64 emax64.
Definition f_div : float64 -> float64 -> float64 := SFdiv prec64 emax64.
Definition f_lt (a b : float64) : bool := SFltb a b.
Definition f_le (a b : float64) : bool := SFleb a b.
Definition f_eq (a b : float64) : bool := SFeqb a b.

(** [float64(z)], rounded to nearest, ties to even. *)
Definition f_of_Z (z : Z) : float64 := binary_normalize prec64 emax64 z 0 false.

Definition f_zero : float64 := S754_zero false.
Definition f_one : float64 := f_of_Z 1.

(** The built-in [max] and [min] of two floats that are not NaN. *)
Definition f_max (a b : float64) : float64 := if f_lt a b then b else a.
Definition f_min (a b : float64) : float64 := if f_lt b a then b else a.

(** The integer part of a finite float; [None] for infinities and NaN. *)
Definition f_trunc (f : float64) : option Z :=
  match f with
  | S754_zero _ => Some 0
  | S754_finite s m e =>
      let v := if 0 <=? e then Z.pos m * 2 ^ e else Z.pos m / 2 ^ (- e) in
      Some (if s then - v else v)
  | _ => None
  end.

(** [int64(f)]: truncation, and the smallest integer when the value does not fit
    (what the amd64 instruction gives). *)
Definition f_to_int64 (f : float64) : Z :=
  match f_trunc f with
  | Some v => if (int64_min <=? v) && (v <=? int64_max) then v else int64_min
  | None => int64_min
  end.

Lemma f_to_int64_range f : int64_min <= f_to_int64 f <= int64_max.
Proof.
  unfold f_to_int64, int64_min, int64_max. destruct (f_trunc f); [|lia].
  case_match; reflect_bools; lia.
Qed.

Example f_third : f_to_int64 (f_mul (f_div (f_of_Z 1) (f_of_Z 3)) (f_of_Z 1000)) = 333.
Proof. reflexivity. Qed.

(** ** strconv *)

Definition digit (c : ascii) : option Z :=
  let n := Z.of_N (N_of_ascii c) in
  if (48 <=? n) && (n <=? 57) then Some (n - 48) else None.

(** The value of a string of decimal digits; [None] if a byte is not a digit. *)
Fixpoint digits_value (s : string) (acc : Z) : option Z :=
  match s with
  | EmptyString => Some acc
  | String c s' =>
      match digit c with
      | Some d => digits_value s' (acc * 10 + d)
      | None => None
      end
  end.

(** [strconv.ParseUint(s, 10, 64)]. *)
Definition ParseUint (s : string) : option Z :=
  match s with
  | EmptyString => None
  | _ => match digits_value s 0 with
         | Some v => if v <? 2 ^ 64 then Some v else None
         | None => None
         end
  end.

(** [strconv.Atoi(s)]. *)
Definition Atoi (s : string) : option Z :=
  let '(neg, body) :=
    match s with
    | String "-" s' => (true, s')
    | String "+" s' => (false, s')
    | _ => (false, s)
    end in
  match body with
  | EmptyString => None
  | _ => match digits_value body 0 with
         | Some v =>
             let r := if neg : bool then - v else v in
             if (int64_min <=? r) && (r <=? int64_max) then Some r else None
         | None => None
         end
  end.

(** [strconv.FormatInt(z, 10)], [FormatUint] and the verb [%d]. *)
Definition FormatInt (z : Z) : string := pretty z.

Lemma digits_value_mono s acc v : 0 <= acc -> digits_value s acc = Some v -> acc <= v.
Proof.
  revert acc. induction s as [|c s IH]; intros acc Ha; simpl; [by intros [= ->]|].
  destruct (digit c) as [d|] eqn:Hd; [|done]. unfold digit in Hd.
  destruct (_ && _) eqn:E; simplify_eq. reflect_bools. intros Hv%IH; lia.
Qed.

Lemma ParseUint_range s v : ParseUint s = Some v -> 0 <= v < 2 ^ 64.
Proof.
  unfold ParseUint. destruct s as [|c s]; [done|].
  destruct (digits_value _ 0) as [x|] eqn:E; [|done].
  apply digits_value_mono in E; [|lia].
  destruct (Z.ltb_spec x (2 ^ 64)); [|done]. intros [= <-]. lia.
Qed.

Lemma digits_value_no_byte s acc v c :
  digits_value s acc = Some v -> digit c = None -> ContainsByte s c = false.
Proof.
  revert acc. induction s as [|d s IH]; intros acc; cbn; [done|].
  destruct (digit d) eqn:Hd; [|done]. intros Hv Hc. apply orb_false_iff. split; [|eauto].
  apply bool_decide_eq_false. congruence.
Qed.

Lemma ParseUint_no_byte s v c :
  ParseUint s = Some v -> digit c = None -> ContainsByte s c = false.
Proof.
  unfold ParseUint. destruct s as [|d s]; [done|].
  destruct (digits_value _ _) eqn:Hv; [|done]. intros _. by eapply digits_value_no_byte.
Qed.

(** The bytes of a formatted integer are digits and the minus sign. *)
Lemma pretty_N_char_digit x : digit (pretty_N_char x) <> None.
Proof. unfold pretty_N_char. repeat case_match; vm_compute; discriminate. Qed.

Lemma pretty_N_go_no_byte c x s :
  digit c = None -> ContainsByte s c = false -> ContainsByte (pretty_N_go x s) c = false.
Proof.
  intros Hc. revert s. induction (N.lt_wf_0 x) as [x _ IH]; intros s Hs.
  assert (x = 0 \/ 0 < x)%N as [->|Hx] by lia; [by rewrite pretty_N_go_0|].
  rewrite pretty_N_go_step by done. apply IH; [by apply N.div_lt|]. cbn [ContainsByte].
  rewrite Hs, orb_false_r. apply bool_decide_eq_false. intros <-. by apply pretty_N_char_digit in Hc.
Qed.

Lemma FormatInt_no_byte z c : digit c = None -> c <> "-"%char -> ContainsByte (FormatInt z) c = false.
Proof.
  intros Hc Hm. unfold FormatInt, pretty, pretty_Z.
  assert (H0 : ContainsByte "0" c = false).
  { cbn [ContainsByte]. rewrite orb_false_r. apply bool_decide_eq_false. by intros <-. }
  assert (Hn : forall x : N, ContainsByte (pretty x) c = false).
  { intros x. unfold pretty, pretty_N. case_decide; [done|]. by apply pretty_N_go_no_byte. }
  destruct z as [|x|x]; [done|exact (Hn (N.pos x))|].
  cbn [String.append ContainsByte]. rewrite bool_decide_eq_false_2 by congruence. exact (Hn (N.pos x)).
Qed.

(** ** time.Duration *)

Definition Nanosecond : Z := 1.
Definition Microsecond : Z := 1000 * Nanosecond.
Definition Millisecond : Z := 1000 * Microsecond.
Definition Second : Z := 1000 * Millisecond.
Definition Minute : Z := 60 * Second.
Definition Hour : Z := 60 * Minute.

Definition is_digit (c : ascii) : bool :=
  match digit c with Some _ => true | None => false end.

(** [leadingInt]: [None] on overflow. *)
Fixpoint leadingInt (s : string) (x : Z) : option (Z * string) :=
  match s with
  | EmptyString => Some (x, s)
  | String c s' =>
      match digit c with
      | None => Some (x, s)
      | Some d =>
          if 2 ^ 63 / 10 <? x then None
          else let x' := x * 10 + d in
               if 2 ^ 63 <? x' then None else leadingInt s' x'
      end
  end.

(** [leadingFraction]: the digits that fit, and their scale. *)
Fixpoint leadingFraction (s : string) (x : Z) (scale : float64) (overflow : bool)
    : Z * float64 * string :=
  match s with
  | EmptyString => (x, scale, s)
  | String c s' =>
      match digit c with
      | None => (x, scale, s)
      | Some d =>
          if overflow then leadingFraction s' x scale true
          else if (2 ^ 63 - 1) / 10 <? x then leadingFraction s' x scale true
          else let y := x * 10 + d in
               if 2 ^ 63 <? y then leadingFraction s' x scale true
               else leadingFraction s' y (f_mul scale (f_of_Z 10)) false
      end
  end.

(** The unit is everything up to the next digit or period. *)
Fixpoint span_unit (s : string) : string * string :=
  match s with
  | EmptyString => (EmptyString, EmptyString)
  | String c s' =>
      if bool_decide (c = "."%char) || is_digit c then (EmptyString, s)
      else let '(u, r) := span_unit s' in (String c u, r)
  end.

Definition micro_sign : string := String "194" (String "181" "s").
Definition greek_mu : string := String "206" (String "188" "s").

Definition unitMap (u : string) : option Z :=
  if decide (u = "ns") then Some Nanosecond
  else if decide (u = "us") then Some Microsecond
  else if decide (u = micro_sign) then Some Microsecond
  else if decide (u = greek_mu) then Some Microsecond
  else if decide (u = "ms") then Some Millisecond
  else if decide (u = "s") then Some Second
  else if decide (u = "m") then Some Minute
  else if decide (u = "h") then Some Hour
  else None.

(** One number with its unit: the value in nanoseconds and the rest. *)
Definition parse_component (s : string) : option (Z * string) :=
  match s with
  | EmptyString => None
  | String c _ =>
      if negb (bool_decide (c = "."%char) || is_digit c) then None
      else
        match leadingInt s 0 with
        | None => None
        | Some (v, s1) =>
            let pre := negb (Nat.eqb (String.length s1) (String.length s)) in
            let '(f, scale, s2, post) :=
              match s1 with
              | String "." s1' =>
                  let '(f, scale, s2) := leadingFraction s1' 0 f_one false in
                  (f, scale, s2, negb (Nat.eqb (String.length s2) (String.length s1')))
              | _ => (0, f_one, s1, false)
              end in
            if negb pre && negb post then None
            else
              let '(u, s3) := span_unit s2 in
              if decide (u = "") then None
              else
                match unitMap u with
                | None => None
                | Some unit =>
                    if 2 ^ 63 / unit <? v then None
                    else
                      let v1 := v * unit in
                      let v2 :=
                        if 0 <? f
                        then v1 + f_to_int64 (f_mul (f_of_Z f) (f_div (f_of_Z unit) scale))
                        else v1 in
                      if (0 <? f) && (2 ^ 63 <? v2) then None else Some (v2, s3)
                end
        end
  end.

(** The loop over the components; a component consumes at least one byte, so the
    length of the string is enough fuel. *)
Fixpoint parse_components (fuel : nat) (s : string) (d : Z) : option Z :=
  match s with
  | EmptyString => Some d
  | _ =>
      match fuel with
      | O => None
      | S fuel' =>
          match parse_component s with
          | None => None
          | Some (v, s') =>
              let d' := d + v in
              if 2 ^ 63 <? d' then None else parse_components fuel' s' d'
          end
      end
  end.

(** [time.ParseDuration]; [None] for an error. *)
Definition ParseDuration (s : string) : option Z :=
  let '(neg, s) :=
    match s with
    | String "-" s' => (true, s')
    | String "+" s' => (false, s')
    | _ => (false, s)
    end in
  if decide (s = "0") then Some 0
  else if decide (s = "") then None
  else
    match parse_components (String.length s) s 0 with
    | None => None
    | Some d =>
        if neg : bool then Some (- d)
        else if 2 ^ 63 - 1 <? d then None else Some d
    end.

Example ParseDuration_ex :
  ParseDuration "10s" = Some (10 * Second) /\ ParseDuration "1h15m30.918s" = Some 4530918000000 /\
  ParseDuration "-1.5h" = Some (- 90 * Minute) /\ ParseDuration "1.00000000000000000000s" = Some Second /\
  ParseDuration "100ms" = Some (100 * Millisecond) /\ ParseDuration "3" = None /\
  ParseDuration "" = None /\ ParseDuration "9223372036854775808ns" = None /\
  ParseDuration "1x" = None /\ ParseDuration "." = None.
Proof. vm_compute. done. Qed.

(** ** The fuel of the loop is enough *)

Lemma leadingInt_length s x v r :
  leadingInt s x = Some (v, r) -> (String.length r <= String.length s)%nat.
Proof.
  revert x. induction s as [|c s IH]; intros x; simpl; [by intros [= <- <-]|].
  destruct (digit c); [|by intros [= <- <-]].
  repeat case_match; try done. intros Hr%IH. lia.
Qed.

Lemma leadingFraction_length s x sc o v sc' r :
  leadingFraction s x sc o = (v, sc', r) -> (String.length r <= String.length s)%nat.
Proof.
  revert x sc o. induction s as [|c s IH]; intros x sc o; simpl; [by intros [= <- <- <-]|].
  destruct (digit c); [|by intros [= <- <- <-]].
  repeat case_match; intros Hr%IH; lia.
Qed.

Lemma span_unit_length s u r :
  span_unit s = (u, r) -> (String.length u + String.length r = String.length s)%nat.
Proof.
  revert u r. induction s as [|c s IH]; intros u r; simpl; [by intros [= <- <-]|].
  case_match; [by intros [= <- <-]|]. destruct (span_unit s) as [u' r'].
  intros [= <- <-]. simpl. by rewrite IH.
Qed.

Lemma parse_component_shorter s v r :
  parse_component s = Some (v, r) -> (String.length r < String.length s)%nat.
Proof.
  unfold parse_component. destruct s as [|c s]; [done|]. set (s0 := String c s).
  destruct (negb _); [done|].
  destruct (leadingInt s0 0) as [[x s1]|] eqn:H1; [|done]. apply leadingInt_length in H1.
  assert (forall f scale s2 post, (String.length s2 <= String.length s1)%nat ->
    (if negb (negb (Nat.eqb (String.length s1) (String.length s0))) && negb post then None else
      let '(u, s3) := span_unit s2 in
      if decide (u = "") then None else
      match unitMap u with
      | None => None
      | Some unit =>
        if 2 ^ 63 / unit <? x then None else
        let v1 := x * unit in
        let v2 := if 0 <? f then v1 + f_to_int64 (f_mul (f_of_Z f) (f_div (f_of_Z unit) scale)) else v1 in
        if (0 <? f) && (2 ^ 63 <? v2) then None else Some (v2, s3)
      end) = Some (v, r) -> (String.length r < String.length s0)%nat) as Hrest.
  { intros f scale s2 post Hs2. destruct (_ && negb post); [done|].
    destruct (span_unit s2) as [u s3] eqn:H3. apply span_unit_length in H3.
    destruct (decide (u = "")) as [|Hu]; [done|]. destruct (unitMap u); [|done].
    cbv zeta. destruct (_ <? x); [done|]. destruct (_ && _); [done|]. intros Heq. simplify_eq.
    destruct u; [done|]. simpl in H3. lia. }
  destruct s1 as [|c1 s1']; [apply Hrest; simpl; lia|].
  destruct (decide (c1 = "."%char)) as [->|Hc].
  - destruct (leadingFraction s1' 0 f_one false) as [[f sc] s2] eqn:H2.
    apply leadingFraction_length in H2. apply Hrest. simpl. lia.
  - destruct c1 as [b0 b1 b2 b3 b4 b5 b6 b7].
    destruct b0, b1, b2, b3, b4, b5, b6, b7; solve [apply Hrest; simpl; lia | done].
Qed.

(** Any fuel at least the length of the string gives the same result, so the loop
    of the model never stops for lack of fuel. *)
Lemma parse_components_fuel n1 n2 s d :
  (String.length s <= n1)%nat -> (String.length s <= n2)%nat ->
  parse_components n1 s d = parse_components n2 s d.
Proof.
  revert n2 s d. induction n1 as [|n1 IH]; intros [|n2] [|c s] d H1 H2; try done;
    try (simpl in *; lia).
  cbn [parse_components]. destruct (parse_component (String c s)) as [[v r]|] eqn:Hc; [|done].
  apply parse_component_shorter in Hc. simpl in H1, H2, Hc.
  destruct (_ <? _); [done|]. apply IH; lia.
Qed.

(** ** Duration.String *)

(** The fraction of [u] on [prec] digits without trailing zeros, with its point, and
    what is left of [u]; [printing] is whether a digit was kept already. *)
Fixpoint fmtFrac (prec : nat) (u : Z) (printing : bool) : string * Z :=
  match prec with
  | O => (if printing then "." else "", u)
  | S prec' =>
      let d := u mod 10 in
      let printing' := printing || negb (d =? 0) in
      let '(s, u') := fmtFrac prec' (u / 10) printing' in
      (if printing' then s +:+ FormatInt d else s, u')
  end.

Definition format_small (u : Z) : string :=
  if u =? 0 then "0s"
  else if u <? Microsecond then FormatInt u +:+ "ns"
  else if u <? Millisecond then
    let '(f, u') := fmtFrac 3 u false in FormatInt u' +:+ f +:+ String "194" (String "181" "s")
  else let '(f, u') := fmtFrac 6 u false in FormatInt u' +:+ f +:+ "ms".

Definition format_large (u : Z) : string :=
  let '(f, secs) := fmtFrac 9 u false in
  let tail := FormatInt (secs mod 60) +:+ f +:+ "s" in
  let mins := secs / 60 in
  if mins =? 0 then tail
  else
    let tail := FormatInt (mins mod 60) +:+ "m" +:+ tail in
    let hours := mins / 60 in
    if hours =? 0 then tail else FormatInt hours +:+ "h" +:+ tail.

(** [Duration.String]. *)
Definition DurationString (d : Z) : string :=
  let u := Z.abs d in
  let s := if u <? Second then format_small u else format_large u in
  if d <? 0 then "-" +:+ s else s.

Example DurationString_ex :
  DurationString 0 = "0s" /\ DurationString 1500000 = "1.5ms" /\ DurationString 90 = "90ns" /\
  DurationString (- 61 * Second) = "-1m1s" /\ DurationString 3723004000000 = "1h2m3.004s" /\
  DurationString Hour = "1h0m0s" /\ DurationString (10 * Second) = "10s".
Proof. vm_compute. done. Qed.
