(* ===== verification/GoPath.v ===== *)
(** * Go paths: path/filepath and url.PathUnescape

    Clean, Join, Ext and Base on slash-separated paths, as lists of components,
    and the percent-decoding of a URL path. *)

From S2P Require Import Prelude GoStr.
From Stdlib Require Import Lia Ascii.

Local Open Scope Z_scope.

Definition slash : ascii := "/"%char.

(** ** Clean and Join *)

Definition is_rooted (p : string) : bool := HasPrefix p "/".

(** One component of a path being cleaned; [out] is the result so far, last
    component first. *)
Definition clean_step (rooted : bool) (out : list string) (seg : string) : list string :=
  if decide (seg = "") then out
  else if decide (seg = ".") then out
  else if decide (seg = "..") then
    match out with
    | [] => if rooted then [] else [".."]
    | t :: rest => if decide (t = "..") then ".." :: out else rest
    end
  else seg :: out.

(** The components of the cleaned path. *)
Definition clean_segs (p : string) : list string :=
  reverse (foldl (clean_step (is_rooted p)) [] (Split p slash)).

Definition render_path (rooted : bool) (segs : list string) : string :=
  if rooted then "/" +:+ Join segs "/"
  else match segs with [] => "." | _ => Join segs "/" end.

(** [filepath.Clean]. *)
Definition Clean (p : string) : string :=
  if decide (p = "") then "." else render_path (is_rooted p) (clean_segs p).

(** [filepath.Join(a, b)]. *)
Definition Join2 (a b : string) : string :=
  if decide (a = "") then if decide (b = "") then "" else Clean b
  else Clean (a +:+ "/" +:+ b).

(** ** Ext and Base *)

(** The part after the last occurrence of a byte, with [None] when absent. *)
Fixpoint after_last (s : string) (c : ascii) : option string :=
  match s with
  | EmptyString => None
  | String d s' =>
      match after_last s' c with
      | Some r => Some r
      | None => if decide (d = c) then Some s' else None
      end
  end.

(** The last component of a path that does not end in a slash. *)
Definition last_elem (p : string) : string := default p (after_last p slash).

(** [filepath.Ext]: from the last period of the last component. *)
Definition Ext (p : string) : string :=
  match after_last (last_elem p) "."%char with
  | Some e => "." +:+ e
  | None => ""
  end.

Fixpoint trim_trailing_slashes (s : string) : string :=
  match s with
  | EmptyString => EmptyString
  | String c s' =>
      match trim_trailing_slashes s' with
      | EmptyString => if decide (c = slash) then EmptyString else String c EmptyString
      | r => String c r
      end
  end.

(** [filepath.Base]. *)
Definition Base (p : string) : string :=
  if decide (p = "") then "."
  else let b := last_elem (trim_trailing_slashes p) in
       if decide (b = "") then "/" else b.

Example path_ex :
  Clean "/a//b/../c/." = "/a/c" /\ Clean "../../x" = "../../x" /\ Clean "/.." = "/" /\
  Clean "a/.." = "." /\ Join2 "/var/www/" "img/x.png" = "/var/www/img/x.png" /\
  Join2 "/var/www" "" = "/var/www" /\ Ext "/a.b/c.tar.gz" = ".gz" /\ Ext "/a.b/c" = "" /\
  Base "/a/b//" = "b" /\ Base "/" = "/".
Proof. vm_compute. done. Qed.

(** ** url.PathUnescape *)

Definition unhex (c : ascii) : option N :=
  let n := N_of_ascii c in
  if ((48 <=? n) && (n <=? 57))%N then Some (n - 48)%N
  else if ((97 <=? n) && (n <=? 102))%N then Some (n - 87)%N
  else if ((65 <=? n) && (n <=? 70))%N then Some (n - 55)%N
  else None.

Fixpoint PathUnescape (s : string) : option string :=
  match s with
  | EmptyString => Some EmptyString
  | String c s' =>
      if decide (c = "%"%char) then
        match s' with
        | String a (String b s'') =>
            match unhex a, unhex b with
            | Some x, Some y => String (ascii_of_N (x * 16 + y)) <$> PathUnescape s''
            | _, _ => None
            end
        | _ => None
        end
      else String c <$> PathUnescape s'
  end.

(** ** Lemmas *)

(** A component that is a plain name. *)
Definition plain_seg (s : string) : Prop := s <> "" /\ s <> "." /\ s <> "..".

Lemma clean_plain rooted segs out :
  Forall plain_seg segs -> foldl (clean_step rooted) out segs = reverse segs ++ out.
Proof.
  revert out. induction segs as [|s segs IH]; intros out Hf; simpl; [done|].
  apply Forall_cons in Hf as [(H1 & H2 & H3) Hf]. rewrite IH by done.
  unfold clean_step. rewrite !decide_False by done. by rewrite reverse_cons, <- app_assoc.
Qed.

Lemma is_rooted_app a b : a <> "" -> is_rooted (a +:+ b) = is_rooted a.
Proof.
  destruct a as [|c a]; intros Ha; [done|]. unfold is_rooted. cbn [String.append].
  by rewrite !HasPrefix_cons, !HasPrefix_empty.
Qed.

(** Joining plain components below a prefix only appends them: the result stays
    in the subtree of the cleaned prefix. *)
Lemma Join2_below prefix rest :
  prefix <> "" -> Forall plain_seg (Split rest slash) ->
  Join2 prefix rest = render_path (is_rooted prefix) (clean_segs prefix ++ Split rest slash).
Proof.
  intros Hp Hs. unfold Join2, Clean. rewrite decide_False by done.
  rewrite decide_False by (by destruct prefix). rewrite is_rooted_app by done.
  unfold clean_segs. rewrite is_rooted_app by done.
  change (prefix +:+ "/" +:+ rest) with (prefix +:+ String slash rest).
  rewrite Split_app, foldl_app, clean_plain by done. by rewrite reverse_app, reverse_involutive.
Qed.

Lemma Join2_empty prefix :
  prefix <> "" -> Join2 prefix "" = render_path (is_rooted prefix) (clean_segs prefix).
Proof.
  intros Hp. unfold Join2, Clean. rewrite decide_False by done.
  rewrite decide_False by (by destruct prefix). rewrite is_rooted_app by done.
  unfold clean_segs. rewrite is_rooted_app by done.
  change (prefix +:+ "/" +:+ "") with (prefix +:+ String slash "").
  by rewrite Split_app, foldl_app.
Qed.

(** ** Clean is idempotent on components *)

(** The components a cleaned path can have, last one first: no empty or [.]
    component, and [..] only at the front of a relative path. *)
Fixpoint clean_out (rooted : bool) (out : list string) : Prop :=
  match out with
  | [] => True
  | t :: rest =>
      t <> "" /\ t <> "." /\ (t = ".." -> rooted = false /\ Forall (.=  "..") rest) /\
      clean_out rooted rest
  end.

Lemma clean_step_out rooted out seg :
  clean_out rooted out -> clean_out rooted (clean_step rooted out seg).
Proof.
  intros Ho. unfold clean_step. repeat case_decide; try done.
  destruct out as [|t rest]; [destruct rooted; cbn; naive_solver|]. case_decide; [|apply Ho].
  subst. cbn in Ho |- *. destruct Ho as (? & ? & Hd & ?). destruct (Hd eq_refl).
  repeat split; auto.
Qed.

Lemma foldl_clean_out rooted segs out :
  clean_out rooted out -> clean_out rooted (foldl (clean_step rooted) out segs).
Proof. revert out; induction segs as [|s segs IH]; intros out Ho; cbn; [done|]. by apply IH, clean_step_out. Qed.

Lemma clean_out_fix rooted out :
  clean_out rooted out -> foldl (clean_step rooted) [] (reverse out) = out.
Proof.
  induction out as [|t rest IH]; [done|]. intros (H1 & H2 & H3 & Hr).
  rewrite reverse_cons, foldl_app, IH by done. cbn. unfold clean_step.
  rewrite !decide_False by done. case_decide as Hd; [|done]. destruct (H3 Hd) as [-> Hf]. subst.
  destruct rest as [|t' rest]; [done|]. apply Forall_cons in Hf as [-> _]. by rewrite decide_True.
Qed.

Lemma clean_out_plain rooted segs out :
  Forall plain_seg segs -> clean_out rooted out -> clean_out rooted (reverse segs ++ out).
Proof.
  revert out; induction segs as [|s segs IH]; intros out Hs Ho; [done|].
  apply Forall_cons in Hs as [(? & ? & ?) Hs].
  rewrite reverse_cons, <-app_assoc. apply IH; [done|]. cbn. naive_solver.
Qed.

(** A cleaned path extended with plain components is its own cleaning. *)
Lemma clean_segs_fix p segs :
  Forall plain_seg segs ->
  foldl (clean_step (is_rooted p)) [] (clean_segs p ++ segs) = reverse (clean_segs p ++ segs).
Proof.
  intros Hs. rewrite <-(reverse_involutive (clean_segs p ++ segs)) at 1.
  apply clean_out_fix. rewrite reverse_app. apply clean_out_plain; [done|].
  unfold clean_segs. rewrite reverse_involutive. by apply foldl_clean_out.
Qed.

Definition slash_free (s : string) : Prop := ContainsByte s slash = false.

Lemma Split_slash_free s : slash_free s -> Split s slash = [s].
Proof.
  unfold slash_free. induction s as [|c s IH]; [done|]. cbn.
  intros [Hc Hs]%orb_false_iff. apply bool_decide_eq_false in Hc.
  rewrite decide_False by done. by rewrite IH.
Qed.

Lemma Split_Join segs :
  segs <> [] -> Forall slash_free segs -> Split (Join segs "/") slash = segs.
Proof.
  intros Hne Hs. induction Hs as [|s segs Hs Hf IH]; [done|]. destruct segs as [|s' segs].
  - unfold Join. cbn [String.concat]. by apply Split_slash_free.
  - change (Join (s :: s' :: segs) "/") with (s +:+ String slash (Join (s' :: segs) "/")).
    rewrite Split_app, IH by done. by rewrite Split_slash_free.
Qed.

Lemma clean_segs_slash_free p : Forall slash_free (clean_segs p).
Proof.
  unfold clean_segs. apply Forall_reverse.
  assert (Hs : Forall slash_free (Split p slash))
    by (apply Forall_forall; intros w Hw; by apply (Split_no_sep p)).
  revert Hs. generalize (is_rooted p) as r, (Split p slash) as segs. intros r segs.
  assert (Ho : Forall slash_free []) by constructor. revert Ho. generalize (@nil string) as out.
  induction segs as [|s segs IH]; intros out Ho Hs; [done|]. apply Forall_cons in Hs as [Hs1 Hs].
  cbn. apply IH; [|done]. unfold clean_step. repeat case_decide; try done; [|by constructor].
  destruct out as [|t rest]; [destruct r; by repeat constructor|].
  case_decide; [by constructor|]. by apply Forall_cons in Ho as [_ Ho].
Qed.

Lemma Join_not_rooted segs :
  Forall slash_free segs -> Forall (fun s => s <> "") segs -> is_rooted (Join segs "/") = false.
Proof.
  intros Hf Hn. destruct segs as [|s segs]; [done|].
  apply Forall_cons in Hf as [Hf _]. apply Forall_cons in Hn as [Hn _].
  destruct s as [|c s]; [done|]. apply orb_false_iff in Hf as [Hf _]. apply bool_decide_eq_false in Hf.
  unfold is_rooted. destruct segs; unfold Join; cbn [String.concat String.append];
    rewrite HasPrefix_cons; rewrite bool_decide_eq_false_2 by (by intros <-); done.
Qed.

Lemma clean_out_nonempty rooted out : clean_out rooted out -> Forall (fun s => s <> "") out.
Proof. induction out as [|t rest IH]; cbn; [done|]. intros (? & _ & _ & ?). constructor; auto. Qed.

Lemma clean_segs_nonempty p : Forall (fun s => s <> "") (clean_segs p).
Proof.
  unfold clean_segs. apply Forall_reverse. apply (clean_out_nonempty (is_rooted p)).
  by apply foldl_clean_out.
Qed.

(** The paths of the subtree of [p]: its components followed by plain ones. *)
Definition below (p path : string) : Prop :=
  exists segs, Forall plain_seg segs /\ Forall slash_free segs /\
    path = render_path (is_rooted p) (clean_segs p ++ segs).

Lemma render_path_segs p segs (path := render_path (is_rooted p) (clean_segs p ++ segs)) :
  Forall plain_seg segs -> Forall slash_free segs ->
  path <> "" /\ is_rooted path = is_rooted p /\ clean_segs path = clean_segs p ++ segs.
Proof.
  intros Hp Hf. subst path. pose proof (clean_segs_fix p segs Hp) as Hfix.
  assert (HF : Forall slash_free (clean_segs p ++ segs))
    by (apply Forall_app; split; [apply clean_segs_slash_free|done]).
  assert (HN : Forall (fun s => s <> "") (clean_segs p ++ segs))
    by (apply Forall_app; split; [apply clean_segs_nonempty|];
        eapply Forall_impl; [apply Hp|]; by intros s [? _]).
  revert Hfix HF HN. generalize (clean_segs p ++ segs) as S. intros S Hfix HF HN.
  destruct (is_rooted p) eqn:Hr; unfold render_path.
  - assert (HR : is_rooted ("/" +:+ Join S "/") = true) by apply HasPrefix_app.
    split; [done|]. split; [done|]. unfold clean_segs. rewrite HR.
    change ("/" +:+ Join S "/") with ("" +:+ String slash (Join S "/")).
    rewrite Split_app. destruct S as [|s S]; [done|]. rewrite Split_Join by done.
    change (foldl (clean_step true) [] (Split "" slash ++ s :: S))
      with (foldl (clean_step true) [] (s :: S)).
    by rewrite Hfix, reverse_involutive.
  - destruct S as [|s S]; [done|]. rewrite Join_not_rooted by done.
    split; [|split; [done|]].
    + apply Forall_cons in HN as [HN _]. destruct s; [done|]. by destruct S.
    + unfold clean_segs. rewrite Join_not_rooted, Split_Join by done.
      by rewrite Hfix, reverse_involutive.
Qed.

Lemma below_Join2 p path rest :
  below p path -> plain_seg rest -> slash_free rest -> below p (Join2 path rest).
Proof.
  intros (segs & Hp & Hf & ->) Hr Hrf.
  destruct (render_path_segs p segs Hp Hf) as (Hne & Hroot & Hsegs).
  exists (segs ++ [rest]). split; [|split].
  - apply Forall_app; auto.
  - apply Forall_app; auto.
  - rewrite Join2_below, Hroot, Hsegs; rewrite ?Split_slash_free by done; auto.
    by rewrite app_assoc.
Qed.

Lemma below_Join2_segs p rest :
  p <> "" -> rest = "" \/ Forall plain_seg (Split rest slash) -> below p (Join2 p rest).
Proof.
  intros Hp [->|Hr].
  - exists []. rewrite app_nil_r. auto using Join2_empty.
  - exists (Split rest slash). split; [done|]. split; [|by apply Join2_below].
    apply Forall_forall. intros w Hw. by apply (Split_no_sep rest).
Qed.

(** ** url.ParseQuery *)

Fixpoint plus_to_space (s : string) : string :=
  match s with
  | EmptyString => EmptyString
  | String c s' => String (if decide (c = "+"%char) then " "%char else c) (plus_to_space s')
  end.

(** [url.QueryUnescape]: a plus sign is a space; a decoded one is kept. *)
Definition QueryUnescape (s : string) : option string := PathUnescape (plus_to_space s).

(** The number of parameters [url.ParseQuery] accepts by default. *)
Definition urlMaxQueryParams : Z := 10000.

(** One [key=value] part; [None] for an error, [Some None] for an empty part. *)
Definition parse_param (part : string) : option (option (string * string)) :=
  if ContainsByte part ";"%char then None
  else if decide (part = "") then Some None
  else
    let '(k, v, _) := Cut part "="%char in
    match QueryUnescape k, QueryUnescape v with
    | Some k', Some v' => Some (Some (k', v'))
    | _, _ => None
    end.

(** [url.ParseQuery] as its pairs in order; [None] if any part is an error. *)
Definition ParseQuery (query : string) : option (list (string * string)) :=
  let parts := Split query "&"%char in
  if urlMaxQueryParams <? zlen parts then None
  else omap id <$> mapM parse_param parts.

(** [Values.Get]. *)
Definition query_get (vals : list (string * string)) (name : string) : string :=
  default "" (snd <$> head (filter (fun kv => kv.1 = name) vals)).

Example ParseQuery_ex :
  ParseQuery "a=1&b=x%20y+z&a=2&&c" = Some [("a", "1"); ("b", "x y z"); ("a", "2"); ("c", "")] /\
  ParseQuery "a=1;b=2" = None /\ ParseQuery "a=%zz" = None /\ ParseQuery "" = Some [].
Proof. vm_compute. done. Qed.

(** ** Host and port *)

(** [net.SplitHostPort]; [None] is an error. *)
Definition SplitHostPort (hostport : string) : option (string * string) :=
  match LastIndexByte hostport ":"%char with
  | None => None
  | Some i =>
      let port := drop_bytes (S i) hostport in
      match hostport with
      | String "[" _ =>
          match IndexByte hostport "]"%char with
          | None => None
          | Some e =>
              if negb (bool_decide (S e = i)) then None
              else if ContainsByte (drop_bytes 1 hostport) "["%char || ContainsByte (drop_bytes (S e) hostport) "]"%char
              then None
              else Some (take_bytes (e - 1) (drop_bytes 1 hostport), port)
          end
      | _ =>
          let host := take_bytes i hostport in
          if ContainsByte host ":"%char || ContainsByte hostport "["%char || ContainsByte hostport "]"%char then None
          else Some (host, port)
      end
  end.

Example SplitHostPort_ex :
  SplitHostPort "10.0.0.1:80" = Some ("10.0.0.1", "80") /\ SplitHostPort "[::1]:443" = Some ("::1", "443") /\
  SplitHostPort "::1:443" = None /\ SplitHostPort "host" = None /\ SplitHostPort "[a]b:1" = None.
Proof. vm_compute. repeat split. Qed.
