(* ===== verification/GoFS.v ===== *)
(** * Go file systems: filepath.Rel and Dir, and the os package

    A file system is a map from the components of a path to directories, files and symbolic
    links; the root is a directory.  Paths are resolved the way the kernel does it, component
    by component through links, at most [max_links] of them; a relative path starts at the
    root. *)

From S2P Require Import Prelude GoStr GoPath.
From Stdlib Require Import Lia Ascii.

(** ** Paths *)

(** [filepath.Dir]. *)
Definition Dir (p : string) : string :=
  match LastIndexByte p slash with
  | Some i => Clean (take_bytes (S i) p)
  | None => "."
  end.

(** [filepath.Join] of any number of elements. *)
Fixpoint JoinAll (elems : list string) : string :=
  match elems with
  | [] => ""
  | e :: rest => if decide (e = "") then JoinAll rest else Clean (Join elems "/")
  end.

Fixpoint strip_common (b t : list string) : list string * list string :=
  match b, t with
  | x :: b', y :: t' => if decide (x = y) then strip_common b' t' else (b, t)
  | _, _ => (b, t)
  end.

(** [filepath.Rel]; [None] is an error. *)
Definition Rel (base targ : string) : option string :=
  if decide (Clean targ = Clean base) then Some "."
  else if negb (bool_decide (is_rooted base = is_rooted targ)) then None
  else match strip_common (clean_segs base) (clean_segs targ) with
  | (b :: _, _ :: _) as st => if decide (b = "..") then None else Some (Join (((fun _ => "..") <$> st.1) ++ st.2) "/")
  | (bs, ts) => Some (Join (((fun _ => "..") <$> bs) ++ ts) "/")
  end.

Example Rel_ex :
  Rel "/a/b" "/a/b/c/d" = Some "c/d" /\ Rel "/a/b" "/a/c" = Some "../c" /\ Rel "a" "b" = Some "../b" /\
  Rel "/a" "b" = None /\ Rel "../x" "y" = None /\ Rel "/a/" "/a" = Some "." /\ Rel "." "x" = Some "x" /\
  Rel "../.." ".." = Some "..".
Proof. vm_compute. repeat split. Qed.

Example Dir_ex : Dir "/a/b" = "/a" /\ Dir "/a" = "/" /\ Dir "a" = "." /\ Dir "a/b/" = "a/b" /\ Dir "/" = "/".
Proof. vm_compute. repeat split. Qed.

Lemma clean_segs_plain p : is_rooted p = true -> Forall plain_seg (clean_segs p).
Proof.
  intros Hr. unfold clean_segs. rewrite Hr. apply Forall_reverse.
  pose proof (foldl_clean_out true (Split p slash) [] I) as Ho. revert Ho. generalize (foldl (clean_step true) [] (Split p slash)) as out.
  induction out as [|t out IH]; [done|]. intros (H1 & H2 & H3 & Ho). constructor; [|by apply IH]. split_and!; try done.
  intros Hd. by destruct (H3 Hd).
Qed.

Lemma clean_segs_Clean p : p <> "" -> clean_segs (Clean p) = clean_segs p /\ is_rooted (Clean p) = is_rooted p.
Proof.
  intros Hp. unfold Clean. rewrite decide_False by done.
  destruct (render_path_segs p [] (Forall_nil_2 _) (Forall_nil_2 _)) as (_ & H1 & H2). rewrite app_nil_r in *. done.
Qed.

Lemma Join_cons_slash base elems : elems <> [] -> Join (base :: elems) "/" = base +:+ "/" +:+ Join elems "/".
Proof. by destruct elems. Qed.

Lemma Join_snoc S x : S <> [] -> Join (S ++ [x]) "/" = Join S "/" +:+ "/" +:+ x.
Proof.
  induction S as [|s S IH]; [done|]. intros _. destruct S as [|s' S]; [done|].
  change (Join ((s :: s' :: S) ++ [x]) "/") with (s +:+ "/" +:+ Join ((s' :: S) ++ [x]) "/"). rewrite IH by done.
  change (Join (s :: s' :: S) "/") with (s +:+ "/" +:+ Join (s' :: S) "/"). by rewrite !str_app_assoc.
Qed.

(** Joining plain names below a directory only appends them. *)
Lemma JoinAll_below base elems :
  base <> "" -> Forall plain_seg elems -> Forall slash_free elems ->
  JoinAll (base :: elems) = render_path (is_rooted base) (clean_segs base ++ elems).
Proof.
  intros Hb Hp Hf. cbn [JoinAll]. rewrite decide_False by done. destruct elems as [|e elems].
  { rewrite app_nil_r. unfold Join, Clean. cbn [String.concat]. by rewrite decide_False. }
  rewrite Join_cons_slash by done. unfold Clean. rewrite decide_False by (by destruct base).
  rewrite is_rooted_app by done. f_equal. unfold clean_segs. rewrite is_rooted_app by done.
  change (base +:+ "/" +:+ Join (e :: elems) "/") with (base +:+ String slash (Join (e :: elems) "/")).
  rewrite Split_app, foldl_app, Split_Join, clean_plain by done. by rewrite reverse_app, reverse_involutive.
Qed.

Lemma JoinAll_segs base elems :
  base <> "" -> Forall plain_seg elems -> Forall slash_free elems ->
  JoinAll (base :: elems) <> "" /\ is_rooted (JoinAll (base :: elems)) = is_rooted base /\
  clean_segs (JoinAll (base :: elems)) = clean_segs base ++ elems.
Proof. intros Hb Hp Hf. rewrite JoinAll_below by done. by apply render_path_segs. Qed.

Lemma Clean_nonempty p : Clean p <> "".
Proof.
  unfold Clean. case_decide; [done|]. destruct (render_path_segs p [] (Forall_nil_2 _) (Forall_nil_2 _)) as [Hne _].
  by rewrite app_nil_r in Hne.
Qed.

Lemma Clean_idem p : Clean (Clean p) = Clean p.
Proof.
  destruct (decide (p = "")) as [->|Hp]; [done|]. destruct (clean_segs_Clean p Hp) as [Hs Hr]. unfold Clean at 1. rewrite decide_False by apply Clean_nonempty.
  rewrite Hs, Hr. unfold Clean. by rewrite decide_False.
Qed.

Lemma Clean_rooted p : is_rooted p = true -> is_rooted (Clean p) = true.
Proof. intros Hr. assert (Hp : p <> "") by (by intros ->). by rewrite (proj2 (clean_segs_Clean p Hp)). Qed.

Lemma Dir_nonempty p : Dir p <> "".
Proof. unfold Dir. destruct (LastIndexByte p slash); [apply Clean_nonempty|done]. Qed.

Lemma JoinAll_rooted base elems : is_rooted base = true -> is_rooted (JoinAll (base :: elems)) = true.
Proof.
  intros Hr. assert (Hb : base <> "") by (by intros ->). cbn [JoinAll]. rewrite decide_False by done.
  assert (Hj : Join (base :: elems) "/" <> "" /\ is_rooted (Join (base :: elems) "/") = true).
  { destruct elems as [|e elems]; [by unfold Join; cbn|]. rewrite Join_cons_slash, is_rooted_app by done. by destruct base. }
  destruct Hj as [Hj1 Hj2]. by rewrite (proj2 (clean_segs_Clean _ Hj1)).
Qed.

Lemma JoinAll_nonempty base elems : base <> "" -> JoinAll (base :: elems) <> "".
Proof. intros Hb. cbn [JoinAll]. rewrite decide_False by done. apply Clean_nonempty. Qed.

Lemma trim_trailing_kept a x : x <> "" -> slash_free x -> trim_trailing_slashes (a +:+ x) = a +:+ x.
Proof.
  intros Hx Hf. assert (Hbase : trim_trailing_slashes x = x).
  { clear a. induction x as [|c x IH]; [done|]. pose proof Hf as [Hc%bool_decide_eq_false Hs]%orb_false_iff. cbn [trim_trailing_slashes].
    destruct x as [|d x]; [cbn; by rewrite decide_False|]. by rewrite IH. }
  induction a as [|c a IH]; [done|]. cbn [String.append trim_trailing_slashes]. rewrite IH. by destruct a, x.
Qed.

Lemma after_last_app a x : slash_free x -> after_last (a +:+ String slash x) slash = Some x.
Proof.
  intros Hf. assert (Hn : after_last x slash = None).
  { clear a. induction x as [|c x IH]; [done|]. pose proof Hf as [Hc%bool_decide_eq_false Hs]%orb_false_iff. cbn. by rewrite IH, decide_False. }
  induction a as [|c a IH]; cbn [String.append after_last]; [by rewrite Hn, decide_True|]. by rewrite IH.
Qed.

Lemma Base_app a x : x <> "" -> slash_free x -> Base (a +:+ String slash x) = x.
Proof.
  intros Hx Hf. unfold Base. rewrite decide_False by (by destruct a).
  change (a +:+ String slash x) with (a +:+ "/" +:+ x). rewrite <- str_app_assoc, trim_trailing_kept by done. rewrite str_app_assoc.
  change ("/" +:+ x) with (String slash x). unfold last_elem. rewrite after_last_app by done. cbn. by rewrite decide_False.
Qed.

Lemma clean_segs_slash p : p <> "" -> clean_segs (p +:+ "/") = clean_segs p.
Proof.
  intros Hp. unfold clean_segs. rewrite is_rooted_app by done.
  change (p +:+ "/") with (p +:+ String slash ""). by rewrite Split_app, foldl_app.
Qed.

Lemma take_bytes_app_length a b : take_bytes (String.length a) (a +:+ b) = a.
Proof. induction a as [|c a IH]; cbn; [by destruct b|]. by rewrite IH. Qed.

(** The directory of a cleaned path. *)
Lemma clean_segs_Dir target S x :
  is_rooted target = true -> target = Clean target -> clean_segs target = S ++ [x] ->
  clean_segs (Dir target) = S.
Proof.
  intros Hr Hc Hs. assert (Hne : target <> "") by (by intros ->).
  pose proof (clean_segs_slash_free target) as Hf. rewrite Hs in Hf. apply Forall_app in Hf as [HfS [Hfx _]%Forall_cons].
  pose proof (clean_segs_plain target Hr) as Hp. rewrite Hs in Hp. apply Forall_app in Hp as [HpS _].
  assert (Ht : target = "/" +:+ Join (S ++ [x]) "/").
  { rewrite Hc. unfold Clean. rewrite decide_False by done. by rewrite Hr, Hs. }
  set (pre := match S with [] => "" | _ => "/" +:+ Join S "/" end).
  assert (Hpre : target = pre +:+ String slash x).
  { rewrite Ht. subst pre. destruct S as [|s S]; [done|]. rewrite Join_snoc by done. done. }
  unfold Dir. rewrite Hpre. rewrite LastIndexByte_app by done.
  assert (Htake : take_bytes (Datatypes.S (String.length pre)) (pre +:+ String slash x) = pre +:+ "/").
  { clear. induction pre as [|c pre IH]; cbn; [by destruct x|]. by f_equal. }
  rewrite Htake. rewrite (proj1 (clean_segs_Clean (pre +:+ "/") ltac:(by destruct pre))). subst pre.
  destruct S as [|s S]; [done|]. rewrite clean_segs_slash by done.
  destruct (render_path_segs "/" (s :: S)) as (_ & _ & Hrs); [done|done|].
  change (clean_segs "/") with (@nil string) in Hrs. change (is_rooted "/") with true in Hrs. exact Hrs.
Qed.

(** The path of a file with a plain name. *)
Lemma JoinAll_file base elems x (p := JoinAll (base :: elems ++ [x])) :
  is_rooted base = true -> Forall plain_seg (elems ++ [x]) -> Forall slash_free (elems ++ [x]) ->
  clean_segs p = (clean_segs base ++ elems) ++ [x] /\ clean_segs (Dir p) = clean_segs base ++ elems /\ Base p = x /\ is_rooted (Dir p) = true.
Proof.
  intros Hr Hp Hf. assert (Hb : base <> "") by (by intros ->). destruct (JoinAll_segs base (elems ++ [x]) Hb Hp Hf) as (Hne & Hroot & Hsegs).
  fold p in Hne, Hroot, Hsegs. rewrite Hr in Hroot. rewrite app_assoc in Hsegs.
  assert (Hc : p = Clean p).
  { unfold Clean. rewrite decide_False by done. rewrite Hroot, Hsegs, <- app_assoc. subst p. rewrite JoinAll_below by done. by rewrite Hr. }
  split_and!; [done|by apply (clean_segs_Dir p _ x)| |].
  - apply Forall_app in Hp as [Hp [Hx _]%Forall_cons], Hf as [Hf [Hfx _]%Forall_cons]. subst p. rewrite JoinAll_below by (rewrite ?Forall_app, ?Forall_singleton; done).
    rewrite Hr, app_assoc. unfold render_path. destruct (clean_segs base ++ elems) as [|s segs]; [by apply (Base_app ""); [destruct Hx|]|].
    rewrite Join_snoc by done. change ("/" +:+ Join (s :: segs) "/" +:+ "/" +:+ x) with (("/" +:+ Join (s :: segs) "/") +:+ String slash x).
    apply Base_app; [by destruct Hx|done].
  - unfold Dir. destruct (LastIndexByte p slash) as [i|] eqn:Hi.
    + destruct p as [|c p']; [done|]. unfold is_rooted, HasPrefix in Hroot. cbn in Hroot.
      cbn [take_bytes]. rewrite (proj2 (clean_segs_Clean (String c (take_bytes i p')) ltac:(done))). unfold is_rooted, HasPrefix. cbn. by destruct (Ascii.ascii_dec _ c), (take_bytes i p').
    + exfalso. destruct p as [|c p']; [done|]. unfold is_rooted, HasPrefix in Hroot. cbn in Hroot, Hi. destruct (Ascii.ascii_dec "/" c) as [<-|]; [|done].
      destruct (LastIndexByte p' slash); [done|]. by rewrite decide_True in Hi.
Qed.

Lemma Base_JoinAll base x : is_rooted base = true -> plain_seg x -> slash_free x -> Base (JoinAll [base; x]) = x.
Proof. intros Hr Hp Hf. apply (JoinAll_file base [] x); rewrite ?app_nil_l, ?Forall_singleton; done. Qed.

(** ** Files *)

Inductive Node : Type :=
| NDir
| NFile (content : string)
| NLink (target : string).

#[export] Instance Node_eq_dec : EqDecision Node.
Proof. solve_decision. Defined.

Abbreviation Path := (list string) (only parsing).
Abbreviation FileSystem := (gmap (list string) Node) (only parsing).

(** What is at a path, links not followed. *)
Definition node_at (fs : FileSystem) (p : Path) : option Node :=
  match p with [] => Some NDir | _ => fs !! p end.

(** The number of links the kernel follows. *)
Definition max_links : nat := 40.

Definition parent (p : Path) : Path := take (pred (length p)) p.

(** The path that [todo], read from the directory [done], leads to; its last component need not
    exist. *)
Fixpoint follow (links : nat) (fs : FileSystem) : Path -> Path -> option Path :=
  fix go (done todo : Path) {struct todo} : option Path :=
    match todo with
    | [] => Some done
    | seg :: rest =>
        if decide (seg = "" \/ seg = ".") then go done rest
        else if decide (seg = "..") then go (parent done) rest
        else match fs !! (done ++ [seg]) with
        | Some (NLink target) =>
            match links with
            | O => None
            | S links' => follow links' fs (if is_rooted target then [] else done) (Split target slash ++ rest)
            end
        | Some NDir => go (done ++ [seg]) rest
        | Some (NFile _) | None => match rest with [] => Some (done ++ [seg]) | _ => None end
        end
    end.

Definition resolve (fs : FileSystem) (p : Path) : option Path := follow max_links fs [] p.

(** [os.Stat] follows links, [os.Lstat] does not follow the last one. *)
Definition Stat (fs : FileSystem) (p : Path) : option Node :=
  match resolve fs p with Some q => node_at fs q | None => None end.

(** A path whose directory exists: that directory, resolved, and its last component. *)
Definition in_directory (fs : FileSystem) (p : Path) : option Path :=
  match last p, resolve fs (parent p) with
  | Some name, Some d => match node_at fs d with Some NDir => Some (d ++ [name]) | _ => None end
  | _, _ => None
  end.

Definition Lstat (fs : FileSystem) (p : Path) : option Node :=
  match p with [] => Some NDir | _ => match in_directory fs p with Some q => node_at fs q | None => None end end.

(** A new node; the operations fail with [None]. *)
Definition create_at (fs : FileSystem) (p : Path) (n : Node) : option FileSystem :=
  match in_directory fs p with
  | Some q => match node_at fs q with None => Some (<[q := n]> fs) | Some _ => None end
  | None => None
  end.

(** [os.Mkdir] and [os.Symlink]. *)
Definition Mkdir (fs : FileSystem) (p : Path) : option FileSystem := create_at fs p NDir.
Definition Symlink (fs : FileSystem) (target : string) (p : Path) : option FileSystem := create_at fs p (NLink target).

Definition prefixes (p : Path) : list Path := (fun n => take (S n) p) <$> seq 0 (length p).

(** [os.MkdirAll]: what it has created stays when it fails ([false]). *)
Definition mkdir_step (acc : FileSystem * bool) (d : Path) : FileSystem * bool :=
  let '(fs, ok) := acc in
  if ok then
    match Stat fs d with
    | Some NDir => (fs, true)
    | Some _ => (fs, false)
    | None => match Mkdir fs d with Some fs' => (fs', true) | None => (fs, false) end
    end
  else (fs, false).

Definition MkdirAll (fs : FileSystem) (p : Path) : FileSystem * bool := foldl mkdir_step (fs, true) (prefixes p).

(** [os.OpenFile] with O_CREATE|O_WRONLY|O_TRUNC, then a write of the content. *)
Definition WriteFile (fs : FileSystem) (p : Path) (content : string) : option FileSystem :=
  match resolve fs p with
  | Some q =>
      match node_at fs q, node_at fs (parent q) with
      | Some (NFile _), _ | None, Some NDir => Some (<[q := NFile content]> fs)
      | _, _ => None
      end
  | None => None
  end.

(** Whether there is something at a path, and the content of the file there. *)
Definition exists_path (fs : FileSystem) (p : string) : bool := bool_decide (is_Some (Stat fs (clean_segs p))).
Definition ReadFile (fs : FileSystem) (p : string) : option string :=
  match Stat fs (clean_segs p) with Some (NFile c) => Some c | _ => None end.

(** What follows a prefix of a path. *)
Fixpoint strip_prefix (d p : Path) : option Path :=
  match d, p with
  | [], _ => Some p
  | x :: d', y :: p' => if decide (x = y) then strip_prefix d' p' else None
  | _ :: _, [] => None
  end.

(** [os.Rename]. *)
Definition moved (a b : Path) (p : Path) : Path := match strip_prefix a p with Some r => b ++ r | None => p end.
Definition Rename (fs : FileSystem) (src dst : string) : option FileSystem :=
  match in_directory fs (clean_segs src), in_directory fs (clean_segs dst) with
  | Some a, Some b =>
      match node_at fs a, node_at fs b with
      | None, _ | Some NDir, Some _ | Some _, Some NDir => None
      | Some _, _ =>
          if bool_decide (a = b) then Some fs
          else if bool_decide (is_Some (strip_prefix a b)) then None
          else Some (list_to_map ((fun pn => (moved a b pn.1, pn.2)) <$> map_to_list (delete b fs)))
      end
  | _, _ => None
  end.

(** [os.RemoveAll]. *)
Definition RemoveAll (fs : FileSystem) (dir : string) : FileSystem :=
  match in_directory fs (clean_segs dir) with
  | Some q => filter (fun kv => strip_prefix q kv.1 = None) fs
  | None => fs
  end.

(** ** Resolution without links *)

Lemma follow_nil links fs d : follow links fs d [] = Some d.
Proof. by destruct links. Qed.

Lemma follow_plain_cons links fs d seg rest :
  plain_seg seg ->
  follow links fs d (seg :: rest) =
    match fs !! (d ++ [seg]) with
    | Some (NLink target) =>
        match links with
        | O => None
        | S links' => follow links' fs (if is_rooted target then [] else d) (Split target slash ++ rest)
        end
    | Some NDir => follow links fs (d ++ [seg]) rest
    | Some (NFile _) | None => match rest with [] => Some (d ++ [seg]) | _ => None end
    end.
Proof. intros (H1 & H2 & H3). destruct links; cbn; by rewrite !decide_False by naive_solver. Qed.

(** No link lies on the way from [d] along [todo]. *)
Definition linkless (fs : FileSystem) (d todo : Path) : Prop :=
  forall pre target, pre `prefix_of` todo -> fs !! (d ++ pre) <> Some (NLink target).

Lemma linkless_cons fs d seg rest : linkless fs d (seg :: rest) -> linkless fs (d ++ [seg]) rest.
Proof. intros Hl pre t Hp. rewrite <- app_assoc. apply Hl. by apply prefix_cons. Qed.

Lemma follow_linkless links fs d todo q :
  Forall plain_seg todo -> linkless fs d todo -> follow links fs d todo = Some q -> q = d ++ todo.
Proof.
  revert d. induction todo as [|seg rest IH]; intros d Hp Hl.
  { rewrite follow_nil, app_nil_r. by intros [= <-]. }
  apply Forall_cons in Hp as [Hs Hp]. rewrite follow_plain_cons by done.
  destruct (fs !! (d ++ [seg])) as [[| |target]|] eqn:Hn.
  - intros Hf. rewrite (IH (d ++ [seg]) Hp (linkless_cons _ _ _ _ Hl) Hf). by rewrite <- app_assoc.
  - destruct rest; [by intros [= <-]|done].
  - exfalso. eapply (Hl [seg]); [|done]. by exists rest.
  - destruct rest; [by intros [= <-]|done].
Qed.

(** A path whose proper prefixes are directories is found. *)
Lemma follow_dirs links fs d todo :
  Forall plain_seg todo ->
  (forall pre, pre <> [] -> pre `prefix_of` todo -> pre <> todo -> fs !! (d ++ pre) = Some NDir) ->
  (forall target, fs !! (d ++ todo) <> Some (NLink target)) ->
  follow links fs d todo = Some (d ++ todo).
Proof.
  revert d. induction todo as [|seg rest IH]; intros d Hp Hd Hlast; [by rewrite follow_nil, app_nil_r|].
  apply Forall_cons in Hp as [Hs Hp]. rewrite follow_plain_cons by done. destruct rest as [|seg' rest].
  - destruct (fs !! (d ++ [seg])) as [[| |target]|] eqn:Hn; rewrite ?follow_nil; try done. by destruct (Hlast target).
  - rewrite (Hd [seg]) by (done || by eexists). rewrite IH.
    + by rewrite <- app_assoc.
    + done.
    + intros pre Hne Hpre Hneq. rewrite <- app_assoc. apply Hd; [done|by apply prefix_cons|]. intros [= ?]. done.
    + intros target. rewrite <- app_assoc. apply Hlast.
Qed.

Lemma parent_snoc (p : Path) x : parent (p ++ [x]) = p.
Proof. unfold parent. rewrite length_app. cbn. replace (pred (length p + 1)) with (length p) by lia. by rewrite take_app_length. Qed.

Lemma parent_prefix p : parent p `prefix_of` p.
Proof. unfold parent. apply prefix_take. Qed.

Lemma linkless_prefix fs d p q : linkless fs d q -> p `prefix_of` q -> linkless fs d p.
Proof. intros Hl Hp pre t Hpre. apply Hl. by etrans. Qed.

(** What an operation on a path without links may change: the path itself. *)
Lemma create_at_linkless fs p n fs' :
  Forall plain_seg p -> linkless fs [] p -> create_at fs p n = Some fs' ->
  fs' = <[p := n]> fs /\ node_at fs p = None.
Proof.
  intros Hp Hl. unfold create_at, in_directory. destruct (last p) as [name|] eqn:Hlast; [|done].
  apply last_Some in Hlast as [d ->]. rewrite parent_snoc. destruct (resolve fs d) as [q|] eqn:Hr; [|done].
  apply Forall_app in Hp as [Hd _]. apply follow_linkless in Hr as ->; [|done|eapply linkless_prefix; [done|by eexists]].
  destruct (node_at fs ([] ++ d)) as [[]|]; try done. destruct (node_at fs (([] ++ d) ++ [name])) eqn:Hn; [done|]. by intros [= <-].
Qed.

Lemma WriteFile_linkless fs p content fs' :
  Forall plain_seg p -> linkless fs [] p -> WriteFile fs p content = Some fs' -> fs' = <[p := NFile content]> fs.
Proof.
  intros Hp Hl. unfold WriteFile. destruct (resolve fs p) as [q|] eqn:Hr; [|done].
  apply follow_linkless in Hr as ->; [|done..]. cbn [app].
  destruct (node_at fs p) as [[]|], (node_at fs (parent p)) as [[]|]; try done; by intros [= <-].
Qed.

(** Only missing directories appear. *)
Definition only_dirs (p : Path) (fs fs' : FileSystem) : Prop :=
  forall q, fs' !! q = fs !! q \/ (q `prefix_of` p /\ q <> [] /\ fs !! q = None /\ fs' !! q = Some NDir).

Lemma only_dirs_trans p fs1 fs2 fs3 : only_dirs p fs1 fs2 -> only_dirs p fs2 fs3 -> only_dirs p fs1 fs3.
Proof.
  intros H1 H2 q. destruct (H1 q) as [E1|(P1 & N1 & E1 & F1)], (H2 q) as [E2|(P2 & N2 & E2 & F2)].
  - left. congruence.
  - right. split_and!; try done. congruence.
  - right. split_and!; try done. congruence.
  - congruence.
Qed.

Lemma only_dirs_linkless p fs fs' d todo : only_dirs p fs fs' -> linkless fs d todo -> linkless fs' d todo.
Proof. intros Ho Hl pre t Hp. destruct (Ho (d ++ pre)) as [-> |(_ & _ & _ & ->)]; [by apply Hl|done]. Qed.

Lemma mkdir_steps_failed fs ds : foldl mkdir_step (fs, false) ds = (fs, false).
Proof. by induction ds. Qed.

Lemma mkdir_step_linkless p fs d :
  Forall plain_seg p -> linkless fs [] p -> d `prefix_of` p -> only_dirs p fs (mkdir_step (fs, true) d).1.
Proof.
  intros Hp Hl Hd. cbn. destruct (Stat fs d) as [[]|]; [intros q; by left..|].
  destruct (Mkdir fs d) as [fs1|] eqn:Hm; [|intros q; by left]. apply create_at_linkless in Hm as [-> Hn].
  - destruct d as [|x d]; [done|]. intros q. cbn [fst]. destruct (decide (q = x :: d)) as [->|Hne].
    + right. rewrite lookup_insert_eq. by split_and!.
    + left. by rewrite lookup_insert_ne.
  - destruct Hd as [k ->]. by apply Forall_app in Hp as [Hp _].
  - by eapply linkless_prefix.
Qed.

Lemma MkdirAll_linkless fs p :
  Forall plain_seg p -> linkless fs [] p -> only_dirs p fs (MkdirAll fs p).1.
Proof.
  intros Hp Hl. unfold MkdirAll.
  assert (Hds : Forall (fun d => d `prefix_of` p) (prefixes p))
    by (apply Forall_fmap, Forall_true; intros n; apply prefix_take).
  revert fs Hl Hds. generalize (prefixes p) as ds. induction ds as [|d ds IH]; intros fs Hl Hds.
  { cbn. intros q. by left. }
  apply Forall_cons in Hds as [Hd Hds]. cbn [foldl].
  pose proof (mkdir_step_linkless p fs d Hp Hl Hd) as Ho. destruct (mkdir_step (fs, true) d) as [fs1 []].
  - eapply only_dirs_trans; [done|]. apply IH; [|done]. by eapply only_dirs_linkless.
  - by rewrite mkdir_steps_failed.
Qed.

Lemma prefix_snoc_inv (pre p : Path) x : pre `prefix_of` p ++ [x] -> pre `prefix_of` p \/ pre = p ++ [x].
Proof.
  intros [k Hk]. destruct k as [|y k _] using rev_ind; [right; by rewrite app_nil_r in Hk|left].
  rewrite app_assoc in Hk. apply app_inj_tail in Hk as [-> _]. by exists k.
Qed.

Lemma prefixes_snoc p x : prefixes (p ++ [x]) = prefixes p ++ [p ++ [x]].
Proof.
  unfold prefixes. rewrite length_app. cbn [length]. rewrite seq_app, fmap_app. cbn. f_equal.
  - apply list_fmap_ext. intros i n Hn%lookup_seq. by rewrite take_app_le by lia.
  - f_equal. apply take_ge. rewrite length_app. cbn. lia.
Qed.

(** A directory whose parents exist needs nothing. *)
Lemma Stat_dirs fs p :
  Forall plain_seg p -> (forall pre, pre <> [] -> pre `prefix_of` p -> fs !! pre = Some NDir) -> Stat fs p = Some NDir.
Proof.
  intros Hp Hd. destruct p as [|x p]; [done|]. unfold Stat, resolve. rewrite follow_dirs; cbn [app]; try done.
  - by apply Hd.
  - intros; by apply Hd.
  - intros t Hn. by rewrite Hd in Hn.
Qed.

Lemma MkdirAll_existing fs p :
  Forall plain_seg p -> (forall pre, pre <> [] -> pre `prefix_of` p -> fs !! pre = Some NDir) -> MkdirAll fs p = (fs, true).
Proof.
  intros Hp Hd. unfold MkdirAll.
  assert (Hds : Forall (fun d => d `prefix_of` p) (prefixes p))
    by (apply Forall_fmap, Forall_true; intros n; apply prefix_take).
  revert Hds. generalize (prefixes p) as ds. induction ds as [|d ds IH]; [done|]. intros [Hpre Hds]%Forall_cons. cbn.
  rewrite Stat_dirs; [by apply IH| |].
  - destruct Hpre as [k ->]. by apply Forall_app in Hp as [? _].
  - intros pre Hne Hpr. apply Hd; [done|]. by etrans.
Qed.

(** A node in a directory that exists. *)
Lemma create_at_new fs p x n :
  Forall plain_seg (p ++ [x]) -> (forall pre, pre <> [] -> pre `prefix_of` p -> fs !! pre = Some NDir) ->
  fs !! (p ++ [x]) = None -> create_at fs (p ++ [x]) n = Some (<[p ++ [x] := n]> fs).
Proof.
  intros [Hp Hx]%Forall_app Hd Hn. unfold create_at, in_directory. rewrite last_snoc, parent_snoc.
  pose proof (Stat_dirs fs p Hp Hd) as Hs. unfold Stat in Hs.
  assert (Hr : resolve fs p = Some p).
  { destruct p as [|y p]; [done|]. unfold resolve. apply follow_dirs; [done|intros; by apply Hd|].
    intros t. cbn [app]. by rewrite Hd. }
  rewrite Hr in *. rewrite Hs. unfold node_at. rewrite Hn. by destruct p.
Qed.

Lemma MkdirAll_new fs p x :
  Forall plain_seg (p ++ [x]) -> (forall pre, pre <> [] -> pre `prefix_of` p -> fs !! pre = Some NDir) ->
  fs !! (p ++ [x]) = None -> MkdirAll fs (p ++ [x]) = (<[p ++ [x] := NDir]> fs, true).
Proof.
  intros Hp Hd Hn. unfold MkdirAll. rewrite prefixes_snoc, foldl_app. fold (MkdirAll fs p).
  rewrite MkdirAll_existing; [|by apply Forall_app in Hp as [? _]|done]. cbn [foldl mkdir_step].
  assert (Hs : Stat fs (p ++ [x]) = None).
  { unfold Stat, resolve. rewrite follow_dirs; cbn [app]; [|done| |by rewrite Hn].
    - unfold node_at. rewrite Hn. by destruct p.
    - intros pre Hne Hpre Hneq. apply Hd; [done|]. apply prefix_snoc_inv in Hpre as [?|?]; done. }
  rewrite Hs. unfold Mkdir. by rewrite create_at_new.
Qed.

Lemma WriteFile_new fs p x content :
  Forall plain_seg (p ++ [x]) -> (forall pre, pre <> [] -> pre `prefix_of` p -> fs !! pre = Some NDir) ->
  fs !! (p ++ [x]) = None -> WriteFile fs (p ++ [x]) content = Some (<[p ++ [x] := NFile content]> fs).
Proof.
  intros Hp Hd Hn. unfold WriteFile, resolve. rewrite follow_dirs; cbn [app]; [|done| |by rewrite Hn].
  - rewrite parent_snoc. replace (node_at fs (p ++ [x])) with (@None Node) by (unfold node_at; rewrite Hn; by destruct p).
    replace (node_at fs p) with (Some NDir); [done|]. destruct p; [done|]. symmetry. by apply Hd.
  - intros pre Hne Hpre Hneq. apply Hd; [done|]. apply prefix_snoc_inv in Hpre as [?|?]; done.
Qed.

(** ** What is there stays there *)

(** Every node is kept; a file may get another content. *)
Definition grows (fs fs' : FileSystem) : Prop :=
  forall p n, fs !! p = Some n ->
    match n with NFile _ => exists c, fs' !! p = Some (NFile c) | _ => fs' !! p = Some n end.

Lemma grows_refl fs : grows fs fs.
Proof. intros p [] Hp; eauto. Qed.

Lemma grows_trans fs1 fs2 fs3 : grows fs1 fs2 -> grows fs2 fs3 -> grows fs1 fs3.
Proof.
  intros H1 H2 p n Hp. specialize (H1 p n Hp). destruct n as [|c|t]; [by apply (H2 p NDir)| |by apply (H2 p (NLink t))].
  destruct H1 as [c' H1]. by apply (H2 p (NFile c')).
Qed.

Lemma app_cons_not_nil' (d : Path) x : d ++ [x] <> [].
Proof. by destruct d. Qed.

Lemma follow_grows links fs fs' d todo q :
  grows fs fs' -> (q <> [] -> fs !! q = None -> forall t, fs' !! q <> Some (NLink t)) -> follow links fs d todo = Some q -> follow links fs' d todo = Some q.
Proof.
  intros Hg Hq. revert d todo. induction links as [|links IHl]; intros d todo; revert d;
    induction todo as [|seg rest IHt]; intros d; cbn; try done;
    (destruct (decide (seg = "" \/ seg = ".")); [apply IHt|]); (destruct (decide (seg = "..")); [apply IHt|]);
    (destruct (fs !! (d ++ [seg])) as [nd|] eqn:Hn;
     [pose proof (Hg _ _ Hn) as Hn'; destruct nd as [|c|t]; [rewrite Hn'; apply IHt|by destruct Hn' as [c' ->]|rewrite Hn'; try done; apply IHl]|]);
    (destruct rest; [|done]); intros [= <-]; destruct (fs' !! (d ++ [seg])) as [[| |t]|] eqn:Hn'; try done; destruct (Hq (app_cons_not_nil' d seg) Hn t); done.
Qed.

Lemma node_at_grows fs fs' q n :
  grows fs fs' -> node_at fs q = Some n ->
  match n with NFile _ => exists c, node_at fs' q = Some (NFile c) | _ => node_at fs' q = Some n end.
Proof. intros Hg. destruct q; cbn; [by intros [= <-]|apply Hg]. Qed.


Lemma Stat_grows fs fs' p n :
  grows fs fs' -> Stat fs p = Some n ->
  match n with NFile _ => exists c, Stat fs' p = Some (NFile c) | _ => Stat fs' p = Some n end.
Proof.
  intros Hg. unfold Stat, resolve. destruct (follow max_links fs [] p) as [q|] eqn:Hf; [|done]. intros Hn.
  rewrite (follow_grows _ _ fs' _ _ q Hg); [by eapply node_at_grows| |done].
  intros Hq Hnone. destruct q; [done|cbn in Hn; congruence].
Qed.

Lemma grows_insert fs p n : fs !! p = None -> grows fs (<[p := n]> fs).
Proof.
  intros Hp q m Hq. assert (p <> q) by congruence. rewrite lookup_insert_ne by done. destruct m; eauto.
Qed.

Lemma grows_write fs p c c' : fs !! p = Some (NFile c) -> grows fs (<[p := NFile c']> fs).
Proof.
  intros Hp q m Hq. destruct (decide (p = q)) as [<-|Hne].
  - rewrite lookup_insert_eq. rewrite Hp in Hq. injection Hq as <-. by eexists.
  - rewrite lookup_insert_ne by done. destruct m; eauto.
Qed.

Lemma create_at_grows fs p n fs' : create_at fs p n = Some fs' -> grows fs fs'.
Proof.
  unfold create_at. destruct (in_directory fs p) as [q|]; [|done]. destruct (node_at fs q) eqn:Hn; [done|].
  intros [= <-]. apply grows_insert. by destruct q.
Qed.

Lemma mkdir_steps_grow fs ok ds : grows fs (foldl mkdir_step (fs, ok) ds).1.
Proof.
  revert fs ok. induction ds as [|d ds IH]; intros fs ok; cbn [foldl]; [apply grows_refl|].
  destruct (mkdir_step (fs, ok) d) as [fs1 ok1] eqn:Hm. eapply grows_trans; [|apply IH].
  unfold mkdir_step in Hm. destruct ok; [|injection Hm as <- _; apply grows_refl].
  destruct (Stat fs d) as [[]|]; [injection Hm as <- _; apply grows_refl..|].
  destruct (Mkdir fs d) as [fs2|] eqn:Hd; injection Hm as <- _; [by eapply create_at_grows|apply grows_refl].
Qed.

Lemma MkdirAll_grows fs p : grows fs (MkdirAll fs p).1.
Proof. apply mkdir_steps_grow. Qed.

(** A file that was written is there. *)
Lemma WriteFile_grows fs p c fs' : WriteFile fs p c = Some fs' -> grows fs fs' /\ Stat fs' p = Some (NFile c).
Proof.
  unfold WriteFile. destruct (resolve fs p) as [q|] eqn:Hr; [|done]. intros Hw.
  assert (Hq : q <> [] /\ fs' = <[q := NFile c]> fs /\ (fs !! q = None \/ exists c', fs !! q = Some (NFile c'))).
  { destruct q as [|x q]; [by destruct (node_at fs (parent []))|]. cbn [node_at] in Hw. split; [done|].
    destruct (fs !! (x :: q)) as [[|c'|]|], (node_at fs (parent (x :: q))) as [[]|]; try done; injection Hw as <-; eauto. }
  destruct Hq as (Hne & -> & Hq).
  assert (Hg : grows fs (<[q := NFile c]> fs)) by (destruct Hq as [?|[c' ?]]; [by apply grows_insert|by eapply grows_write]).
  split; [done|]. unfold Stat, resolve. rewrite (follow_grows _ fs _ _ _ q Hg); [|by intros _ _ t; rewrite lookup_insert_eq|done].
  destruct q; [done|]. cbn [node_at]. by rewrite lookup_insert_eq.
Qed.

Lemma exists_path_grows fs fs' p : grows fs fs' -> exists_path fs p = true -> exists_path fs' p = true.
Proof.
  unfold exists_path. intros Hg [n Hn]%bool_decide_eq_true. apply bool_decide_eq_true.
  pose proof (Stat_grows _ _ _ _ Hg Hn) as Hs. destruct n; [by eexists|destruct Hs as [c Hs]; by eexists|by eexists].
Qed.

(** ** Removal and renaming *)

Lemma strip_prefix_Some d p r : strip_prefix d p = Some r <-> p = d ++ r.
Proof.
  revert p. induction d as [|x d IH]; intros p; cbn; [naive_solver|]. destruct p as [|y p]; [naive_solver|].
  case_decide; [subst; rewrite IH; naive_solver|]. naive_solver.
Qed.

(** Everything is in a directory. *)
Definition tree (fs : FileSystem) : Prop :=
  forall p n, fs !! p = Some n -> p <> [] /\ forall pre, pre <> [] -> pre `prefix_of` p -> pre <> p -> fs !! pre = Some NDir.

Lemma strip_prefix_spec d p : is_Some (strip_prefix d p) <-> d `prefix_of` p.
Proof.
  revert p. induction d as [|x d IH]; intros [|y p]; cbn.
  - split; [intros _; apply prefix_nil|by eexists].
  - split; [intros _; apply prefix_nil|by eexists].
  - split; [by intros []|by intros ?%prefix_nil_inv].
  - case_decide as Hx; [subst; rewrite IH; split; [apply prefix_cons|apply prefix_cons_inv_2]|].
    split; [by intros []|]. intros Hp. by apply prefix_cons_inv_1 in Hp.
Qed.

(** A directory that is reached without links. *)
Definition direct (fs : FileSystem) (dir : string) : Prop :=
  is_rooted dir = true /\ clean_segs dir <> [] /\ linkless fs [] (clean_segs dir).

Lemma RemoveAll_lookup fs dir q :
  tree fs -> direct fs dir -> RemoveAll fs dir !! q = if decide (clean_segs dir `prefix_of` q) then None else fs !! q.
Proof.
  intros Ht (Hr & Hne & Hl). pose proof (clean_segs_plain dir Hr) as Hp. unfold RemoveAll. revert Hne Hl Hp.
  generalize (clean_segs dir) as d. intros d Hne Hl Hp.
  destruct d as [|x d _] using rev_ind; [done|]. apply Forall_app in Hp as [Hp _].
  unfold in_directory. rewrite last_snoc, parent_snoc.
  assert (Hmiss : (forall q, d ++ [x] `prefix_of` q -> fs !! q = None) -> forall q, fs !! q = if decide (d ++ [x] `prefix_of` q) then None else fs !! q).
  { intros Hm q'. destruct (decide _); [by apply Hm|done]. }
  assert (Hno : node_at fs d <> Some NDir -> forall q', d ++ [x] `prefix_of` q' -> fs !! q' = None).
  { intros Hn q' Hq'. destruct (fs !! q') eqn:Hf; [|done]. destruct Hn. destruct (Ht _ _ Hf) as [_ Hdir].
    destruct d as [|y d]; [done|]. apply (Hdir (y :: d)); [done|etrans; [|exact Hq']; by eexists|].
    intros E. rewrite <- E in Hq'. apply prefix_length in Hq'. rewrite length_app in Hq'. cbn in Hq'. lia. }
  destruct (resolve fs d) as [d'|] eqn:Hres.
  - pose proof Hres as Hres'. apply follow_linkless in Hres' as ->; [|done|eapply linkless_prefix; [exact Hl|by eexists]]. cbn [app].
    destruct (node_at fs d) as [[]|] eqn:Hn; [|apply Hmiss, Hno; congruence..].
    destruct (fs !! q) as [n|] eqn:Hq; [|rewrite (proj2 (map_lookup_filter_None _ _ _)) by (by left); by case_decide].
    destruct (decide (d ++ [x] `prefix_of` q)) as [Hpre|Hpre].
    + apply map_lookup_filter_None_2. right. intros n' _. cbn. apply strip_prefix_spec in Hpre as [r Hr']. by rewrite Hr'.
    + apply map_lookup_filter_Some_2; [done|]. cbn. destruct (strip_prefix (d ++ [x]) q) eqn:Hs; [|done].
      destruct Hpre. apply strip_prefix_spec. by rewrite Hs.
  - apply Hmiss. intros q' Hq'. destruct (fs !! q') eqn:Hf; [|done]. exfalso. destruct (Ht _ _ Hf) as [_ Hdir].
    unfold resolve in Hres. rewrite follow_dirs in Hres; [done|done|..].
    + intros pre Hpn Hpp Hpd. cbn [app]. apply Hdir; [done|etrans; [exact Hpp|]; etrans; [|exact Hq']; by eexists|].
      intros ->. apply prefix_length in Hpp. apply prefix_length in Hq'. rewrite length_app in Hq'. cbn in Hq'. lia.
    + intros t. cbn [app]. apply (Hl d). by eexists.
Qed.

(** A directory that is reached through directories alone. *)
Definition dirs_to (fs : FileSystem) (d : Path) : Prop := forall pre, pre <> [] -> pre `prefix_of` d -> fs !! pre = Some NDir.

Lemma in_directory_dirs fs d x : Forall plain_seg d -> dirs_to fs d -> in_directory fs (d ++ [x]) = Some (d ++ [x]).
Proof.
  intros Hp Hd. unfold in_directory. rewrite last_snoc, parent_snoc. pose proof (Stat_dirs fs d Hp Hd) as Hs. unfold Stat in Hs.
  assert (Hr : resolve fs d = Some d).
  { destruct d as [|y d]; [done|]. unfold resolve. apply follow_dirs; [done|intros; by apply Hd|]. intros t. cbn [app]. by rewrite Hd. }
  rewrite Hr in *. by rewrite Hs.
Qed.

Lemma snoc_not_below (d r : Path) x y : x <> y -> strip_prefix (d ++ [x]) (d ++ [y] ++ r) = None.
Proof.
  intros Hne. destruct (strip_prefix _ _) as [r'|] eqn:Hs; [|done]. apply strip_prefix_Some in Hs.
  rewrite <- app_assoc in Hs. apply app_inv_head in Hs. by injection Hs as ->.
Qed.

(** What [Rename] of a file moves. *)
Section Moved.
Context (fs : FileSystem) (a b : Path) (c : string).
Context (Hne : a <> b) (Ha : fs !! a = Some (NFile c)).
Context (Hbelow : forall q n, fs !! q = Some n -> a `prefix_of` q -> q = a).

Lemma moved_key q n : fs !! q = Some n -> moved a b q = if decide (q = a) then b else q.
Proof.
  intros Hq. unfold moved. case_decide as Hqa.
  - rewrite (proj2 (strip_prefix_Some _ q [])) by (by rewrite app_nil_r). by rewrite app_nil_r.
  - destruct (strip_prefix a q) as [r|] eqn:Hsp; [|done]. destruct Hqa. eapply Hbelow; [done|]. apply strip_prefix_spec. by rewrite Hsp.
Qed.

Lemma elem_of_moved q n :
  (q, n) ∈ (fun pn : Path * Node => (moved a b pn.1, pn.2)) <$> map_to_list (delete b fs) <->
  (q = b /\ n = NFile c) \/ (q <> a /\ q <> b /\ fs !! q = Some n).
Proof.
  rewrite list_elem_of_fmap. split.
  - intros ([p m] & [= -> ->] & Hm%elem_of_map_to_list). apply lookup_delete_Some in Hm as [Hpy Hm]. rewrite (moved_key _ _ Hm).
    case_decide; [subst; left; split; congruence|right]. by split_and!.
  - intros [[-> ->]|(Hqx & Hqy & Hq)].
    + exists (a, NFile c). cbn. rewrite (moved_key _ _ Ha), decide_True by done. split; [done|]. by apply elem_of_map_to_list, lookup_delete_Some.
    + exists (q, n). cbn. rewrite (moved_key _ _ Hq), decide_False by done. split; [done|]. by apply elem_of_map_to_list, lookup_delete_Some.
Qed.

Lemma NoDup_moved : NoDup ((fun pn : Path * Node => (moved a b pn.1, pn.2)) <$> map_to_list (delete b fs)).*1.
Proof.
  replace (((fun pn : Path * Node => (moved a b pn.1, pn.2)) <$> map_to_list (delete b fs)).*1) with (moved a b <$> (map_to_list (delete b fs)).*1)
    by (by rewrite <- !list_fmap_compose).
  apply NoDup_fmap_2_strong; [|apply NoDup_fst_map_to_list].
  intros p q ([p' n] & -> & [Hpy Hp']%elem_of_map_to_list%lookup_delete_Some)%list_elem_of_fmap
    ([q' m] & -> & [Hqy Hq']%elem_of_map_to_list%lookup_delete_Some)%list_elem_of_fmap.
  cbn. rewrite (moved_key _ _ Hp'), (moved_key _ _ Hq'). repeat case_decide; congruence.
Qed.

Lemma moved_lookup q :
  (list_to_map ((fun pn : Path * Node => (moved a b pn.1, pn.2)) <$> map_to_list (delete b fs)) : FileSystem) !! q =
  if decide (q = b) then Some (NFile c) else if decide (q = a) then None else fs !! q.
Proof.
  apply option_eq. intros n. rewrite <- elem_of_list_to_map by apply NoDup_moved. rewrite elem_of_moved.
  repeat case_decide; subst; naive_solver.
Qed.
End Moved.

(** A file is renamed within a directory: the target is replaced. *)
Lemma Rename_file fs src dst d x y c :
  tree fs -> clean_segs src = d ++ [x] -> clean_segs dst = d ++ [y] -> Forall plain_seg d -> dirs_to fs d -> x <> y ->
  fs !! (d ++ [x]) = Some (NFile c) -> fs !! (d ++ [y]) <> Some NDir ->
  exists fs', Rename fs src dst = Some fs' /\
    forall q, fs' !! q = if decide (q = d ++ [y]) then Some (NFile c) else if decide (q = d ++ [x]) then None else fs !! q.
Proof.
  intros Ht Hs Hd Hp Hdirs Hxy Hx Hy. unfold Rename. rewrite Hs, Hd, !in_directory_dirs by done.
  assert (Hat : forall z, node_at fs (d ++ [z]) = fs !! (d ++ [z])) by (intros z; unfold node_at; by destruct d).
  assert (Hab : d ++ [x] <> d ++ [y]) by (intros [= E]%app_inv_head; done).
  rewrite !Hat, Hx. eexists. split.
  { destruct (fs !! (d ++ [y])) as [[]|]; try done; (rewrite bool_decide_eq_false_2 by done);
      rewrite (snoc_not_below d [] x y Hxy : strip_prefix (d ++ [x]) (d ++ [y]) = None); done. }
  intros q. apply moved_lookup; [done|done|]. intros q' n Hq' Hpre. destruct (decide (q' = d ++ [x])) as [|Hne]; [done|].
  destruct (Ht _ _ Hq') as [_ Hdir]. rewrite (Hdir (d ++ [x])) in Hx; [done|by destruct d|done|done].
Qed.

Lemma dirs_to_prefix fs d d' : dirs_to fs d -> d' `prefix_of` d -> dirs_to fs d'.
Proof. intros Hd Hp pre Hne Hpre. apply Hd; [done|]. by etrans. Qed.

Lemma dirs_to_snoc fs d x : dirs_to fs d -> fs !! (d ++ [x]) = Some NDir -> dirs_to fs (d ++ [x]).
Proof. intros Hd Hx pre Hne [Hpre| ->]%prefix_snoc_inv; [by apply Hd|done]. Qed.

Lemma dirs_to_insert fs d p n : dirs_to fs d -> fs !! p <> Some NDir -> dirs_to (<[p := n]> fs) d.
Proof. intros Hd Hp pre Hne Hpre. rewrite lookup_insert_ne; [by apply Hd|]. intros ->. by rewrite (Hd pre) in Hp. Qed.

(** A node in a directory keeps everything in directories, if it does not replace one. *)
Lemma tree_insert fs d x n : tree fs -> dirs_to fs d -> fs !! (d ++ [x]) <> Some NDir -> tree (<[d ++ [x] := n]> fs).
Proof.
  intros Ht Hd Hx p m Hp. apply lookup_insert_Some in Hp as [[<- _]|[Hne Hp]].
  - split; [by destruct d|]. intros pre Hpne Hpre Hneq. apply prefix_snoc_inv in Hpre as [Hpre|?]; [|done].
    rewrite lookup_insert_ne by done. by apply Hd.
  - destruct (Ht p m Hp) as [Hpn Hdir]. split; [done|]. intros pre Hpne Hpre Hneq.
    rewrite lookup_insert_ne; [by apply Hdir|]. intros <-. by rewrite (Hdir (d ++ [x])) in Hx.
Qed.

Lemma Stat_snoc fs d x : Forall plain_seg (d ++ [x]) -> dirs_to fs d -> (forall t, fs !! (d ++ [x]) <> Some (NLink t)) -> Stat fs (d ++ [x]) = fs !! (d ++ [x]).
Proof.
  intros Hp Hd Hx. unfold Stat, resolve. rewrite follow_dirs; cbn [app]; [by destruct d|done| |done].
  intros pre Hne [Hpre|?]%prefix_snoc_inv Hneq; [by apply Hd|done].
Qed.

(** The directories [MkdirAll] promises. *)
Lemma MkdirAll_dirs fs p fs' :
  tree fs -> Forall plain_seg p -> linkless fs [] p -> MkdirAll fs p = (fs', true) -> tree fs' /\ dirs_to fs' p.
Proof.
  intros Ht. revert fs'. induction p as [|x p IH] using rev_ind; intros fs' Hp Hl Hm.
  { injection Hm as <-. split; [done|]. by intros pre Hne ?%prefix_nil_inv. }
  assert (Hlp : linkless fs [] p) by (eapply linkless_prefix; [exact Hl|by eexists]).
  assert (Hpp : Forall plain_seg p) by (by apply Forall_app in Hp as [? _]).
  pose proof (MkdirAll_linkless fs p Hpp Hlp) as Ho.
  unfold MkdirAll in Hm. rewrite prefixes_snoc, foldl_app in Hm. fold (MkdirAll fs p) in Hm.
  destruct (MkdirAll fs p) as [fs1 []]; [|done]. destruct (IH fs1 Hpp Hlp eq_refl) as [Ht1 Hd1].
  cbn [fst] in Ho. cbn [foldl mkdir_step] in Hm.
  assert (Hnl : forall t, fs1 !! (p ++ [x]) <> Some (NLink t)) by (intros t; by apply (only_dirs_linkless _ _ _ [] _ Ho Hl (p ++ [x]))).
  rewrite Stat_snoc in Hm by done. destruct (fs1 !! (p ++ [x])) as [[]|] eqn:Hx; try done.
  - injection Hm as <-. split; [done|]. by apply dirs_to_snoc.
  - unfold Mkdir in Hm. rewrite create_at_new in Hm by done. injection Hm as <-.
    split; [apply tree_insert; [done|done|by rewrite Hx]|]. apply dirs_to_snoc; [|by rewrite lookup_insert_eq].
    apply dirs_to_insert; [done|by rewrite Hx].
Qed.

Lemma tree_Stat fs p n : tree fs -> Forall plain_seg p -> linkless fs [] p -> fs !! p = Some n -> Stat fs p = Some n.
Proof.
  intros Ht Hp Hl Hn. destruct (Ht p n Hn) as [Hne Hd]. destruct p as [|x p _] using rev_ind; [done|].
  rewrite Stat_snoc; [done|done| |intros t; by apply (Hl (p ++ [x]))].
  intros pre Hpne Hpre. apply Hd; [done|etrans; [exact Hpre|by eexists]|]. intros ->. apply prefix_length in Hpre. rewrite length_app in Hpre. cbn in Hpre. lia.
Qed.

Lemma dirs_to_linkless fs d x : dirs_to fs d -> (forall t, fs !! (d ++ [x]) <> Some (NLink t)) -> fs !! [] = None -> linkless fs [] (d ++ [x]).
Proof.
  intros Hd Hx Hn pre t [Hpre| ->]%prefix_snoc_inv; cbn [app]; [|done]. destruct pre as [|y pre]; [by rewrite Hn|]. by rewrite Hd.
Qed.
