(* ===== verification/GoCodec.v ===== *)
(** * Encodings of the Go library: base64, hexadecimal and URLs

    What the extensions use of encoding/base64, encoding/hex and net/url, on
    [string] as a sequence of bytes, with the round trips the components rely
    on.  The decoders follow the library: base64 skips carriage returns and line
    feeds and does not check trailing bits, hexadecimal takes both cases. *)

From S2P Require Import Prelude GoStr GoPath.
From Stdlib Require Import Lia Ascii.

Local Open Scope N_scope.

(** ** base64 *)

(** An encoding is a choice of the last two digits and of padding. *)
Record Base64 : Type := mkBase64 { url_alphabet : bool; padded : bool }.

Definition StdEncoding : Base64 := mkBase64 false true.
Definition RawURLEncoding : Base64 := mkBase64 true false.

(** The digit of a six-bit value. *)
Definition b64_digit (enc : Base64) (n : N) : ascii :=
  if n <? 26 then ascii_of_N (n + 65)
  else if n <? 52 then ascii_of_N (n + 71)
  else if n <? 62 then ascii_of_N (n - 4)
  else if n =? 62 then (if url_alphabet enc then "-" else "+")%char
  else (if url_alphabet enc then "_" else "/")%char.

(** The value of a digit. *)
Definition b64_value (enc : Base64) (c : ascii) : option N :=
  let n := N_of_ascii c in
  if (65 <=? n) && (n <=? 90) then Some (n - 65)
  else if (97 <=? n) && (n <=? 122) then Some (n - 71)
  else if (48 <=? n) && (n <=? 57) then Some (n + 4)
  else if decide (c = (if url_alphabet enc then "-" else "+")%char) then Some 62
  else if decide (c = (if url_alphabet enc then "_" else "/")%char) then Some 63
  else None.

(** Digit [i] of a 24-bit group, and byte [i] of one. *)
Definition sextet (enc : Base64) (v : N) (i : N) : ascii := b64_digit enc (v / 64 ^ (3 - i) mod 64).
Definition octet (v : N) (i : N) : ascii := ascii_of_N (v / 256 ^ (2 - i) mod 256).

Definition b64_pad : ascii := "="%char.

(** [Encoding.EncodeToString]. *)
Fixpoint b64_encode (enc : Base64) (s : string) : string :=
  match s with
  | EmptyString => EmptyString
  | String a EmptyString =>
      let v := N_of_ascii a * 65536 in
      String (sextet enc v 0) (String (sextet enc v 1) (if padded enc then "==" else ""))
  | String a (String b EmptyString) =>
      let v := N_of_ascii a * 65536 + N_of_ascii b * 256 in
      String (sextet enc v 0) (String (sextet enc v 1) (String (sextet enc v 2)
        (if padded enc then "=" else "")))
  | String a (String b (String c s')) =>
      let v := N_of_ascii a * 65536 + N_of_ascii b * 256 + N_of_ascii c in
      String (sextet enc v 0) (String (sextet enc v 1) (String (sextet enc v 2)
        (String (sextet enc v 3) (b64_encode enc s'))))
  end.

(** The decoder skips line breaks. *)
Fixpoint skip_newlines (s : string) : string :=
  match s with
  | EmptyString => EmptyString
  | String c s' =>
      if decide (c = "010"%char \/ c = "013"%char) then skip_newlines s'
      else String c (skip_newlines s')
  end.

(** The last group of an input: two digits are one byte, three are two. *)
Definition b64_last2 (enc : Base64) (a b : ascii) : option string :=
  match b64_value enc a, b64_value enc b with
  | Some x, Some y => Some (String (octet (x * 262144 + y * 4096) 0) EmptyString)
  | _, _ => None
  end.

Definition b64_last3 (enc : Base64) (a b c : ascii) : option string :=
  match b64_value enc a, b64_value enc b, b64_value enc c with
  | Some x, Some y, Some z =>
      let v := x * 262144 + y * 4096 + z * 64 in
      Some (String (octet v 0) (String (octet v 1) EmptyString))
  | _, _, _ => None
  end.

Definition b64_group (enc : Base64) (a b c d : ascii) : option (string -> string) :=
  match b64_value enc a, b64_value enc b, b64_value enc c, b64_value enc d with
  | Some x, Some y, Some z, Some w =>
      let v := x * 262144 + y * 4096 + z * 64 + w in
      Some (fun rest => String (octet v 0) (String (octet v 1) (String (octet v 2) rest)))
  | _, _, _, _ => None
  end.

Fixpoint b64_groups (enc : Base64) (s : string) : option string :=
  match s with
  | EmptyString => Some EmptyString
  | String a (String b EmptyString) => if padded enc then None else b64_last2 enc a b
  | String a (String b (String c EmptyString)) => if padded enc then None else b64_last3 enc a b c
  | String a (String b (String c (String d s'))) =>
      if padded enc && bool_decide (c = b64_pad) then
        if bool_decide (d = b64_pad /\ s' = EmptyString) then b64_last2 enc a b else None
      else if padded enc && bool_decide (d = b64_pad) then
        if bool_decide (s' = EmptyString) then b64_last3 enc a b c else None
      else
        match b64_group enc a b c d, b64_groups enc s' with
        | Some f, Some rest => Some (f rest)
        | _, _ => None
        end
  | String _ EmptyString => None
  end.

(** [Encoding.DecodeString]; [None] is its error. *)
Definition b64_decode (enc : Base64) (s : string) : option string := b64_groups enc (skip_newlines s).

Example b64_ex :
  b64_encode StdEncoding "Hello, W" = "SGVsbG8sIFc=" /\ b64_encode RawURLEncoding "Hello, W" = "SGVsbG8sIFc" /\
  b64_decode StdEncoding "SGVsbG8sIFc=" = Some "Hello, W" /\ b64_decode StdEncoding "SGVsbG8sIFc" = None /\
  b64_decode StdEncoding "TQ==" = Some "M" /\ b64_decode StdEncoding "TQ=" = None /\
  b64_decode StdEncoding "TQ==TQ==" = None /\ b64_decode RawURLEncoding "TQ" = Some "M" /\
  b64_decode RawURLEncoding "TR" = Some "M" /\ b64_decode RawURLEncoding "T" = None /\
  b64_decode RawURLEncoding "T+" = None /\ b64_decode RawURLEncoding "_-8" = Some (String "255" (String "239" "")).
Proof. vm_compute. repeat split. Qed.

(** A digit of the encoding. *)
Definition is_b64_digit (enc : Base64) (c : ascii) : bool :=
  match b64_value enc c with Some _ => true | None => false end.

(** A property of the 64 digits holds by running through them. *)
Lemma below_64 (P : N -> bool) :
  forallb P (N.of_nat <$> seq 0 64) = true -> forall n, n < 64 -> P n = true.
Proof.
  intros Hf n Hn. rewrite forallb_forall in Hf. apply Hf, list_elem_of_In.
  apply list_elem_of_fmap. exists (N.to_nat n). rewrite N2Nat.id. split; [done|].
  apply elem_of_seq. lia.
Qed.

Lemma b64_value_digit enc n : n < 64 -> b64_value enc (b64_digit enc n) = Some n.
Proof.
  intros Hn. apply (bool_decide_eq_true_1 (b64_value enc (b64_digit enc n) = Some n)).
  revert n Hn. apply below_64. destruct enc as [[] []]; vm_compute; reflexivity.
Qed.

Lemma sextet_value enc v i : b64_value enc (sextet enc v i) = Some (v / 64 ^ (3 - i) mod 64).
Proof. apply b64_value_digit, N.mod_lt. done. Qed.

Lemma sextet_is_digit enc v i : is_b64_digit enc (sextet enc v i) = true.
Proof. unfold is_b64_digit. by rewrite sextet_value. Qed.

Lemma digit_not enc c d : is_b64_digit enc c = true -> is_b64_digit enc d = false -> c <> d.
Proof. congruence. Qed.

Lemma newline_not_digit enc : is_b64_digit enc "010"%char = false /\ is_b64_digit enc "013"%char = false.
Proof. by destruct enc as [[] []]. Qed.

Lemma pad_not_digit enc : is_b64_digit enc b64_pad = false.
Proof. by destruct enc as [[] []]. Qed.

#[export] Hint Resolve sextet_is_digit pad_not_digit : boe.

(** A byte as a number. *)
Lemma N_of_ascii_lt c : N_of_ascii c < 256.
Proof. apply N_ascii_bounded. Qed.

(** The arithmetic of groups: division by constants. *)
#[local] Ltac Zify.zify_post_hook ::= Z.to_euclidean_division_equations.

Lemma group_digits v :
  v < 16777216 ->
  v / 262144 mod 64 * 262144 + v / 4096 mod 64 * 4096 + v / 64 mod 64 * 64 + v mod 64 = v.
Proof. intros H. lia. Qed.

Lemma group_bytes a b c (v := a * 65536 + b * 256 + c) :
  a < 256 -> b < 256 -> c < 256 ->
  v / 65536 mod 256 = a /\ v / 256 mod 256 = b /\ v mod 256 = c.
Proof. intros. subst v. lia. Qed.

Lemma octet_bytes (a b c : ascii) (v := N_of_ascii a * 65536 + N_of_ascii b * 256 + N_of_ascii c) :
  octet v 0 = a /\ octet v 1 = b /\ octet v 2 = c.
Proof.
  destruct (group_bytes _ _ _ (N_of_ascii_lt a) (N_of_ascii_lt b) (N_of_ascii_lt c)) as (Ha & Hb & Hc).
  fold v in Ha, Hb, Hc. unfold octet.
  change (256 ^ (2 - 0)) with 65536. change (256 ^ (2 - 1)) with 256. change (256 ^ (2 - 2)) with 1.
  rewrite N.div_1_r, Ha, Hb, Hc. by rewrite !ascii_N_embedding.
Qed.

(** The value of the digits of a group is the group. *)
Lemma sextets_value enc v :
  v < 16777216 ->
  exists x y z w,
    b64_value enc (sextet enc v 0) = Some x /\ b64_value enc (sextet enc v 1) = Some y /\
    b64_value enc (sextet enc v 2) = Some z /\ b64_value enc (sextet enc v 3) = Some w /\
    x * 262144 + y * 4096 + z * 64 + w = v /\ w = v mod 64 /\ z = v / 64 mod 64.
Proof.
  intros Hv. rewrite !sextet_value. change (64 ^ (3 - 0)) with 262144. change (64 ^ (3 - 1)) with 4096.
  change (64 ^ (3 - 2)) with 64. change (64 ^ (3 - 3)) with 1. rewrite N.div_1_r.
  do 4 eexists. repeat (split; [reflexivity|]). split; [by apply group_digits|done].
Qed.

(** Induction over three bytes at a time. *)
Lemma string_ind3 (P : string -> Prop) :
  P "" -> (forall a, P (String a "")) -> (forall a b, P (String a (String b ""))) ->
  (forall a b c s, P s -> P (String a (String b (String c s)))) -> forall s, P s.
Proof.
  intros H0 H1 H2 H3. fix IH 1. intros [|a [|b [|c s]]]; [exact H0|apply H1|apply H2|apply H3, IH].
Qed.

Lemma b64_groups_encode enc s : b64_groups enc (b64_encode enc s) = Some s.
Proof.
  induction s as [|a|a b|a b c s IH] using string_ind3; [done|..].
  - cbn [b64_encode]. pose proof (octet_bytes a "000"%char "000"%char) as (Ha & _ & _).
    change (N_of_ascii "000") with 0 in Ha. rewrite N.mul_0_l, !N.add_0_r in Ha.
    set (v := N_of_ascii a * 65536) in *.
    assert (Hv : v < 16777216) by (pose proof (N_of_ascii_lt a); lia).
    destruct (sextets_value enc v Hv) as (x & y & z & w & Hx & Hy & _ & _ & E & Ew & Ez).
    assert (z = 0 /\ w = 0) as [-> ->] by lia. rewrite N.mul_0_l, !N.add_0_r in E.
    assert (b64_last2 enc (sextet enc v 0) (sextet enc v 1) = Some (String a "")) as Hl.
    { unfold b64_last2. by rewrite Hx, Hy, E, Ha. }
    destruct (padded enc) eqn:Hp; cbn [b64_groups]; rewrite Hp; exact Hl.
  - cbn [b64_encode]. pose proof (octet_bytes a b "000"%char) as (Ha & Hb & _).
    change (N_of_ascii "000") with 0 in Ha, Hb. rewrite !N.add_0_r in Ha, Hb.
    set (v := N_of_ascii a * 65536 + N_of_ascii b * 256) in *.
    assert (Hv : v < 16777216) by (pose proof (N_of_ascii_lt a); pose proof (N_of_ascii_lt b); lia).
    destruct (sextets_value enc v Hv) as (x & y & z & w & Hx & Hy & Hz & _ & E & Ew & _).
    assert (w = 0) as -> by lia. rewrite N.add_0_r in E.
    assert (b64_last3 enc (sextet enc v 0) (sextet enc v 1) (sextet enc v 2) = Some (String a (String b ""))) as Hl.
    { unfold b64_last3. rewrite Hx, Hy, Hz. cbv zeta. by rewrite E, Ha, Hb. }
    destruct (padded enc) eqn:Hp; cbn [b64_groups]; rewrite Hp; [|exact Hl].
    rewrite bool_decide_eq_false_2 by eauto using digit_not with boe. exact Hl.
  - cbn [b64_encode]. pose proof (octet_bytes a b c) as (Ha & Hb & Hc).
    set (v := N_of_ascii a * 65536 + N_of_ascii b * 256 + N_of_ascii c) in *.
    assert (Hv : v < 16777216).
    { pose proof (N_of_ascii_lt a). pose proof (N_of_ascii_lt b). pose proof (N_of_ascii_lt c). lia. }
    destruct (sextets_value enc v Hv) as (x & y & z & w & Hx & Hy & Hz & Hw & E & _ & _).
    cbn [b64_groups]. rewrite !(bool_decide_eq_false_2 (sextet _ _ _ = b64_pad)) by eauto using digit_not with boe.
    rewrite andb_false_r. unfold b64_group. rewrite Hx, Hy, Hz, Hw, IH. cbv zeta.
    by rewrite E, Ha, Hb, Hc.
Qed.

(** Every byte of an encoding is a digit or padding. *)
Fixpoint all_bytes (p : ascii -> bool) (s : string) : bool :=
  match s with EmptyString => true | String c s' => p c && all_bytes p s' end.

Lemma all_bytes_app p a b : all_bytes p (a +:+ b) = all_bytes p a && all_bytes p b.
Proof. induction a as [|c a IH]; [done|]. cbn. by rewrite IH, andb_assoc. Qed.

Lemma all_bytes_absent p s c : all_bytes p s = true -> p c = false -> ContainsByte s c = false.
Proof.
  intros Hs Hc. induction s as [|d s IH]; [done|]. cbn in *. apply andb_true_iff in Hs as [Hd Hs].
  rewrite IH by done. rewrite bool_decide_eq_false_2; [done|]. congruence.
Qed.

Definition b64_byte (enc : Base64) (c : ascii) : bool :=
  is_b64_digit enc c || (padded enc && bool_decide (c = b64_pad)).

Lemma b64_encode_bytes enc s : all_bytes (b64_byte enc) (b64_encode enc s) = true.
Proof.
  induction s as [|a|a b|a b c s IH] using string_ind3; [done|..]; cbn [b64_encode all_bytes];
    unfold b64_byte at 1; rewrite ?sextet_is_digit; unfold b64_byte; rewrite ?sextet_is_digit, ?orb_true_l, ?andb_true_l.
  - destruct (padded enc); [|done]. cbn [all_bytes]. by rewrite orb_true_r.
  - destruct (padded enc); [|done]. cbn [all_bytes]. by rewrite orb_true_r.
  - exact IH.
Qed.

Lemma skip_newlines_id enc s : all_bytes (b64_byte enc) s = true -> skip_newlines s = s.
Proof.
  induction s as [|c s IH]; [done|]. cbn [all_bytes skip_newlines]. intros [Hc Hs]%andb_true_iff.
  rewrite IH by done. rewrite decide_False; [done|].
  destruct enc as [[] []]; intros [->| ->]; by vm_compute in Hc.
Qed.

(** Decoding inverts encoding, for every alphabet and padding. *)
Lemma b64_roundtrip enc s : b64_decode enc (b64_encode enc s) = Some s.
Proof.
  unfold b64_decode. rewrite (skip_newlines_id enc) by apply b64_encode_bytes. apply b64_groups_encode.
Qed.

Lemma b64_encode_inj enc s t : b64_encode enc s = b64_encode enc t -> s = t.
Proof. intros E. pose proof (b64_roundtrip enc s) as H. rewrite E, b64_roundtrip in H. congruence. Qed.

Lemma RawURLEncoding_no_byte s c :
  is_b64_digit RawURLEncoding c = false -> ContainsByte (b64_encode RawURLEncoding s) c = false.
Proof.
  intros Hc. apply (all_bytes_absent (b64_byte RawURLEncoding)); [apply b64_encode_bytes|].
  unfold b64_byte. by rewrite Hc.
Qed.

(** ** Hexadecimal *)

Definition hex_digit (upper : bool) (n : N) : ascii :=
  if n <? 10 then ascii_of_N (n + 48)
  else if upper then ascii_of_N (n + 55) else ascii_of_N (n + 87).

(** [hex.EncodeToString], and the verb [%x] of fmt on bytes. *)
Fixpoint hex_encode (s : string) : string :=
  match s with
  | EmptyString => EmptyString
  | String c s' =>
      String (hex_digit false (N_of_ascii c / 16))
        (String (hex_digit false (N_of_ascii c mod 16)) (hex_encode s'))
  end.

(** [hex.DecodeString]; an odd length is an error. *)
Fixpoint hex_decode (s : string) : option string :=
  match s with
  | EmptyString => Some EmptyString
  | String a (String b s') =>
      match unhex a, unhex b with
      | Some x, Some y => String (ascii_of_N (x * 16 + y)) <$> hex_decode s'
      | _, _ => None
      end
  | String _ EmptyString => None
  end.

Lemma unhex_hex_digit upper n : n < 16 -> unhex (hex_digit upper n) = Some n.
Proof.
  intros Hn. apply (bool_decide_eq_true_1 (unhex (hex_digit upper n) = Some n)).
  assert (Hf : forallb (fun m => bool_decide (unhex (hex_digit upper m) = Some m) || (16 <=? m))
                 (N.of_nat <$> seq 0 64) = true) by (destruct upper; vm_compute; reflexivity).
  pose proof (below_64 _ Hf n) as H. rewrite orb_true_iff, N.leb_le in H. destruct H; [lia|done|lia].
Qed.

Lemma unhex_byte upper c :
  unhex (hex_digit upper (N_of_ascii c / 16)) = Some (N_of_ascii c / 16) /\
  unhex (hex_digit upper (N_of_ascii c mod 16)) = Some (N_of_ascii c mod 16) /\
  ascii_of_N (N_of_ascii c / 16 * 16 + N_of_ascii c mod 16) = c.
Proof.
  pose proof (N_of_ascii_lt c). rewrite !unhex_hex_digit by lia. split; [done|]. split; [done|].
  replace (_ / 16 * 16 + _) with (N_of_ascii c) by lia. apply ascii_N_embedding.
Qed.

Lemma hex_roundtrip s : hex_decode (hex_encode s) = Some s.
Proof.
  induction s as [|c s IH]; [done|]. cbn [hex_encode hex_decode].
  destruct (unhex_byte false c) as (-> & -> & ->). by rewrite IH.
Qed.

Lemma hex_decode_length s t : hex_decode s = Some t -> String.length s = (2 * String.length t)%nat.
Proof.
  revert s. induction t as [|c t IH]; intros [|a [|b s]]; cbn [hex_decode]; try done;
    destruct (unhex a), (unhex b); try done; destruct (hex_decode s) eqn:E; try done.
  intros [= _ ->]. apply IH in E. cbn [String.length]. lia.
Qed.

(** ** URL escaping *)

Definition is_alnum (c : ascii) : bool :=
  let n := N_of_ascii c in
  ((48 <=? n) && (n <=? 57)) || ((65 <=? n) && (n <=? 90)) || ((97 <=? n) && (n <=? 122)).

(** [url.escape] with the bytes that are kept: those that [shouldEscape] spares. *)
Fixpoint url_escape (keep : ascii -> bool) (s : string) : string :=
  match s with
  | EmptyString => EmptyString
  | String c s' =>
      if keep c then String c (url_escape keep s')
      else String "%" (String (hex_digit true (N_of_ascii c / 16))
             (String (hex_digit true (N_of_ascii c mod 16)) (url_escape keep s')))
  end.

Definition unreserved (c : ascii) : bool := is_alnum c || ContainsByte "-_.~" c.

(** A query component keeps the unreserved bytes; a space becomes a plus sign. *)
Fixpoint QueryEscape (s : string) : string :=
  match s with
  | EmptyString => EmptyString
  | String c s' =>
      if decide (c = " "%char) then String "+" (QueryEscape s')
      else url_escape unreserved (String c EmptyString) +:+ QueryEscape s'
  end.

Definition keep_path (c : ascii) : bool := unreserved c || ContainsByte "$&+,/:;=@" c.
Definition keep_host (c : ascii) : bool := unreserved c || ContainsByte "!$&'()*+,;=:[]<>" c || bool_decide (c = "034"%char).

(** A property of the 256 bytes holds by running through them. *)
Lemma all_ascii (P : ascii -> bool) :
  forallb (fun n => P (ascii_of_N (N.of_nat n))) (seq 0 256) = true -> forall c, P c = true.
Proof.
  intros Hf c. rewrite forallb_forall in Hf. specialize (Hf (N.to_nat (N_of_ascii c))).
  rewrite N2Nat.id, ascii_N_embedding in Hf. apply Hf, list_elem_of_In, elem_of_seq.
  pose proof (N_of_ascii_lt c). lia.
Qed.

Lemma PathUnescape_cons c s :
  c <> "%"%char -> PathUnescape (String c s) = String c <$> PathUnescape s.
Proof. intros Hc. cbn [PathUnescape]. by rewrite decide_False. Qed.

Lemma PathUnescape_escaped c s :
  PathUnescape (String "%" (String (hex_digit true (N_of_ascii c / 16))
    (String (hex_digit true (N_of_ascii c mod 16)) s))) = String c <$> PathUnescape s.
Proof.
  cbn [PathUnescape]. rewrite decide_True by done. by destruct (unhex_byte true c) as (-> & -> & ->).
Qed.

(** What the query escape of one byte is made of. *)
Lemma hex_digit_not_plus c :
  hex_digit true (N_of_ascii c / 16) <> "+"%char /\ hex_digit true (N_of_ascii c mod 16) <> "+"%char.
Proof.
  apply (bool_decide_eq_true_1 (_ /\ _)). revert c. apply all_ascii. vm_compute. reflexivity.
Qed.

Lemma unreserved_not c : unreserved c = true -> c <> "+"%char /\ c <> "%"%char.
Proof. intros H. split; intros ->; by vm_compute in H. Qed.

Lemma QueryUnescape_QueryEscape s : QueryUnescape (QueryEscape s) = Some s.
Proof.
  unfold QueryUnescape. induction s as [|c s IH]; [done|]. cbn [QueryEscape url_escape].
  destruct (decide (c = " "%char)) as [->|Hs].
  - cbn [plus_to_space]. rewrite decide_True, PathUnescape_cons, IH by done. done.
  - destruct (unreserved c) eqn:Hu; cbn [String.append plus_to_space].
    + destruct (unreserved_not c Hu). by rewrite decide_False, PathUnescape_cons, IH by done.
    + destruct (hex_digit_not_plus c). rewrite !decide_False by done.
      by rewrite PathUnescape_escaped, IH.
Qed.

(** The bytes that separate parameters never occur in an escaped component. *)
Definition query_byte (c : ascii) : bool := unreserved c || ContainsByte "+%" c.

Lemma QueryEscape_bytes s : all_bytes query_byte (QueryEscape s) = true.
Proof.
  induction s as [|c s IH]; [done|]. cbn [QueryEscape url_escape]. case_decide; [done|].
  destruct (unreserved c) eqn:Hu; cbn [String.append all_bytes]; rewrite IH.
  - unfold query_byte. by rewrite Hu.
  - assert (Hd : forall d, query_byte (hex_digit true (N_of_ascii d / 16)) &&
                     query_byte (hex_digit true (N_of_ascii d mod 16)) = true)
      by (apply all_ascii; vm_compute; reflexivity).
    specialize (Hd c). apply andb_true_iff in Hd as [-> ->]. done.
Qed.

Lemma QueryEscape_no_byte s c : query_byte c = false -> ContainsByte (QueryEscape s) c = false.
Proof. apply all_bytes_absent, QueryEscape_bytes. Qed.

(** ** url.Values *)

(** The pairs of a [url.Values], the values of a key in their order. *)
Abbreviation Values := (list (string * string)).

(** [Values.Set]. *)
Definition values_set (q : Values) (k v : string) : Values :=
  filter (fun kv => kv.1 <> k) q ++ [(k, v)].

(** [URL.Query]: the parts that do not parse are left out. *)
Definition url_query (raw : string) : Values :=
  let parts := Split raw "&"%char in
  if (urlMaxQueryParams <? zlen parts)%Z then []
  else omap (fun p => mjoin (parse_param p)) parts.

(** The pairs of [q] in the order [Values.Encode] writes them: by sorted key. *)
Definition sorted_pairs (q : Values) : Values :=
  merge_sort str_le (remove_dups q.*1) ≫= (fun k => filter (fun kv => kv.1 = k) q).

Definition encode_pair (kv : string * string) : string := QueryEscape kv.1 +:+ "=" +:+ QueryEscape kv.2.

(** [Values.Encode]. *)
Definition values_encode (q : Values) : string := Join (encode_pair <$> sorted_pairs q) "&".

Example values_encode_ex :
  values_encode [("b", "x y"); ("a", "1&2"); ("b", "=")] = "a=1%262&b=x+y&b=%3D" /\
  url_query "a=1%262&b=x+y&;&b=%3D" = [("a", "1&2"); ("b", "x y"); ("b", "=")].
Proof. vm_compute. done. Qed.

Lemma filter_none {A} (P : A -> Prop) `{!forall x, Decision (P x)} (l : list A) :
  (forall x, x ∈ l -> ~ P x) -> filter P l = [].
Proof.
  intros Hn. destruct (filter P l) as [|x l'] eqn:E; [done|]. exfalso.
  assert (x ∈ filter P l) as [? ?]%list_elem_of_filter by (rewrite E; left). by apply (Hn x).
Qed.

Lemma filter_False {A} (l : list A) : filter (fun _ => False) l = [].
Proof. apply filter_none. tauto. Qed.

Lemma filter_sorted_pairs_keys q ks k :
  NoDup ks ->
  filter (fun kv : string * string => kv.1 = k) (ks ≫= (fun k' => filter (fun kv => kv.1 = k') q)) =
  if decide (k ∈ ks) then filter (fun kv => kv.1 = k) q else [].
Proof.
  induction 1 as [|k' ks Hk' Hnd IH]; [done|]. cbn [mbind list_bind]. rewrite filter_app, IH.
  rewrite list_filter_filter. destruct (decide (k = k')) as [->|Hne].
  - rewrite decide_False, app_nil_r by done. rewrite decide_True by set_solver.
    apply list_filter_iff. tauto.
  - rewrite (list_filter_iff _ (fun _ => False)) by (intros [? ?]; cbn; intuition congruence).
    rewrite filter_False.
    destruct (decide (k ∈ ks)); [rewrite decide_True by set_solver|rewrite decide_False by set_solver]; done.
Qed.

(** Encoding keeps the values of every key, in order. *)
Lemma filter_sorted_pairs q k :
  filter (fun kv => kv.1 = k) (sorted_pairs q) = filter (fun kv => kv.1 = k) q.
Proof.
  unfold sorted_pairs. rewrite filter_sorted_pairs_keys.
  2: { rewrite merge_sort_Permutation. apply NoDup_remove_dups. }
  case_decide as Hk; [done|]. rewrite merge_sort_Permutation, elem_of_remove_dups in Hk.
  symmetry. apply filter_none. intros [k' v] Hin Heq. apply Hk. rewrite <- Heq.
  by apply (list_elem_of_fmap_2 fst).
Qed.

Lemma length_filter_cons_keys q k ks :
  k ∉ ks ->
  length (filter (fun kv : string * string => kv.1 ∈ k :: ks) q) =
  (length (filter (fun kv => kv.1 = k) q) + length (filter (fun kv => kv.1 ∈ ks) q))%nat.
Proof.
  intros Hk. induction q as [|kv q IH]; [done|]. rewrite !filter_cons.
  destruct (decide (kv.1 = k)) as [->|Hne].
  - rewrite decide_True by set_solver. rewrite decide_False by done. cbn [length]. lia.
  - destruct (decide (kv.1 ∈ ks)); [rewrite decide_True by set_solver|rewrite decide_False by set_solver];
      cbn [length]; lia.
Qed.

Lemma length_sorted_pairs q : (length (sorted_pairs q) <= length q)%nat.
Proof.
  unfold sorted_pairs. assert (Hnd : NoDup (merge_sort str_le (remove_dups q.*1))).
  { rewrite merge_sort_Permutation. apply NoDup_remove_dups. }
  assert (Hlen : length (merge_sort str_le (remove_dups q.*1) ≫= (fun k => filter (fun kv => kv.1 = k) q)) =
    length (filter (fun kv : string * string => kv.1 ∈ merge_sort str_le (remove_dups q.*1)) q)).
  { induction Hnd as [|k ks Hk Hnd IH]; cbn [mbind list_bind].
    - rewrite filter_none; [done|]. intros ? _ ?%not_elem_of_nil. done.
    - rewrite length_app, IH. symmetry. by apply length_filter_cons_keys. }
  rewrite Hlen. apply length_filter.
Qed.

Lemma length_values_set q k v : (length (values_set q k v) <= S (length q))%nat.
Proof.
  unfold values_set. rewrite length_app. cbn [length].
  pose proof (length_filter (fun kv : string * string => kv.1 <> k) q). lia.
Qed.

Lemma parse_encode_pair kv : parse_param (encode_pair kv) = Some (Some kv).
Proof.
  destruct kv as [k v]. unfold parse_param, encode_pair. cbn [fst snd String.append].
  rewrite ContainsByte_app. cbn [ContainsByte]. rewrite !QueryEscape_no_byte by done. cbn [orb].
  rewrite bool_decide_eq_false_2 by done. cbn [orb].
  rewrite decide_False by (by destruct (QueryEscape k)).
  by rewrite Cut_app, !QueryUnescape_QueryEscape by (by apply QueryEscape_no_byte).
Qed.

Lemma encode_pair_no_amp kv : ContainsByte (encode_pair kv) "&"%char = false.
Proof.
  unfold encode_pair. cbn [String.append]. rewrite ContainsByte_app. cbn [ContainsByte].
  by rewrite !QueryEscape_no_byte.
Qed.

Lemma Split_Join_amp ws :
  ws <> [] -> Forall (fun w => ContainsByte w "&"%char = false) ws -> Split (Join ws "&") "&"%char = ws.
Proof.
  intros Hne Hf. induction Hf as [|w ws Hw Hf IH]; [done|]. destruct ws as [|w' ws].
  - by apply Split_absent.
  - change (Join (w :: w' :: ws) "&") with (w +:+ String "&" (Join (w' :: ws) "&")).
    rewrite Split_app, (Split_absent w) by done. by rewrite IH.
Qed.

Lemma mapM_parse_encode l : mapM parse_param (encode_pair <$> l) = Some (Some <$> l).
Proof. induction l as [|kv l IH]; [done|]. cbn. by rewrite parse_encode_pair; cbn; rewrite IH. Qed.

Lemma omap_id_Some {A} (l : list A) : omap id (Some <$> l) = l.
Proof. induction l as [|x l IH]; [done|]. cbn. by f_equal. Qed.

(** A parsed encoding has the pairs that were encoded, as long as there are not too
    many. *)
Lemma ParseQuery_encode q :
  (zlen (sorted_pairs q) <= urlMaxQueryParams)%Z -> ParseQuery (values_encode q) = Some (sorted_pairs q).
Proof.
  unfold ParseQuery, values_encode. intros Hlen. set (l := sorted_pairs q) in *.
  destruct (decide (l = [])) as [->|Hne]; [done|].
  rewrite Split_Join_amp.
  - rewrite length_fmap. destruct (Z.ltb_spec urlMaxQueryParams (zlen l)); [lia|].
    rewrite mapM_parse_encode. cbn [fmap option_fmap option_map]. by rewrite omap_id_Some.
  - by intros ?%fmap_nil_inv.
  - apply Forall_fmap, Forall_true. intros. apply encode_pair_no_amp.
Qed.

Lemma query_get_encode q vals k :
  ParseQuery (values_encode q) = Some vals -> (zlen (sorted_pairs q) <= urlMaxQueryParams)%Z ->
  query_get vals k = query_get q k.
Proof.
  intros Hp Hl. rewrite ParseQuery_encode in Hp by done. injection Hp as <-.
  unfold query_get. by rewrite filter_sorted_pairs.
Qed.

(** One more parameter may be appended to an encoding. *)
Lemma ParseQuery_encode_snoc q kv :
  sorted_pairs q <> [] -> (zlen (sorted_pairs q) < urlMaxQueryParams)%Z ->
  ParseQuery (values_encode q +:+ "&" +:+ encode_pair kv) = Some (sorted_pairs q ++ [kv]).
Proof.
  unfold ParseQuery, values_encode. intros Hne Hlen. set (l := sorted_pairs q) in *.
  change ("&" +:+ encode_pair kv) with (String "&" (encode_pair kv)).
  rewrite Split_app, (Split_absent (encode_pair kv)) by apply encode_pair_no_amp.
  rewrite Split_Join_amp;
    [|by intros ?%fmap_nil_inv|apply Forall_fmap, Forall_true; intros; apply encode_pair_no_amp].
  change [encode_pair kv] with (encode_pair <$> [kv]). rewrite <- fmap_app, mapM_parse_encode, length_fmap, length_app.
  cbn [length]. destruct (Z.ltb_spec urlMaxQueryParams (Z.of_nat (length l + 1))); [lia|].
  cbn [fmap option_fmap option_map]. by rewrite omap_id_Some.
Qed.

Lemma filter_values_set_ne q k k' v :
  k <> k' -> filter (fun kv => kv.1 = k') (values_set q k v) = filter (fun kv => kv.1 = k') q.
Proof.
  intros Hne. unfold values_set. rewrite filter_app, list_filter_filter.
  rewrite filter_cons_False by done. rewrite filter_nil, app_nil_r.
  apply list_filter_iff. intros [? ?]; cbn; intuition congruence.
Qed.

Lemma query_get_set_eq q k v : query_get (values_set q k v) k = v.
Proof.
  unfold query_get, values_set. rewrite filter_app, list_filter_filter.
  rewrite (list_filter_iff _ (fun _ => False)) by (intros [? ?]; cbn; tauto).
  rewrite filter_False.
  rewrite filter_cons_True by done. done.
Qed.

Lemma query_get_set_ne q k k' v : k <> k' -> query_get (values_set q k v) k' = query_get q k'.
Proof.
  intros Hne. unfold query_get. by rewrite filter_values_set_ne.
Qed.

#[export] Hint Rewrite query_get_set_eq : gostr.

(** ** url.URL *)

(** The fields of [url.URL]; [User] is the encoded user information. *)
Record URL : Type := mkURL {
  Scheme : string;
  Opaque_ : string;
  UserInfo : option string;
  URLHost : string;
  Path : string;
  RawPath : string;
  OmitHost : bool;
  ForceQuery : bool;
  RawQuery : string;
  Fragment : string;
  RawFragment : string;
}.

Definition set_Path (u : URL) (p : string) : URL :=
  mkURL (Scheme u) (Opaque_ u) (UserInfo u) (URLHost u) p (RawPath u) (OmitHost u) (ForceQuery u)
    (RawQuery u) (Fragment u) (RawFragment u).
Definition set_RawQuery (u : URL) (q : string) : URL :=
  mkURL (Scheme u) (Opaque_ u) (UserInfo u) (URLHost u) (Path u) (RawPath u) (OmitHost u) (ForceQuery u)
    q (Fragment u) (RawFragment u).

(** [validEncoded] for a path and for a fragment. *)
Definition valid_encoded (keep : ascii -> bool) (s : string) : bool :=
  all_bytes (fun c => ContainsByte "!$&'()*+,;=:@[]%" c || keep c) s.

Definition keep_fragment (c : ascii) : bool := unreserved c || ContainsByte "$&+,/:;=?@!()*" c.

(** The raw form of a path or fragment is used if it is a valid encoding of it. *)
Definition use_raw (keep : ascii -> bool) (raw cooked : string) : bool :=
  bool_decide (raw <> "") && valid_encoded keep raw && bool_decide (PathUnescape raw = Some cooked).

Definition EscapedPath (u : URL) : string :=
  if use_raw keep_path (RawPath u) (Path u) then RawPath u
  else if decide (Path u = "*") then "*"
  else url_escape keep_path (Path u).

Definition EscapedFragment (u : URL) : string :=
  if use_raw keep_fragment (RawFragment u) (Fragment u) then RawFragment u
  else url_escape keep_fragment (Fragment u).

(** [URL.String]. *)
Definition URL_String (u : URL) : string :=
  let scheme := if decide (Scheme u = "") then "" else Scheme u +:+ ":" in
  let body :=
    if decide (Opaque_ u = "") then
      let authority :=
        if decide (Scheme u = "" /\ URLHost u = "" /\ UserInfo u = None) then ""
        else if decide (OmitHost u = true /\ URLHost u = "" /\ UserInfo u = None) then ""
        else
          (if decide (URLHost u = "" /\ Path u = "" /\ UserInfo u = None) then "" else "//") +:+
          match UserInfo u with Some ui => ui +:+ "@" | None => "" end +:+
          url_escape keep_host (URLHost u) in
      let path := EscapedPath u in
      authority +:+
      (if bool_decide (path <> "") && negb (HasPrefix path "/") && bool_decide (URLHost u <> "") then "/" else "") +:+
      (if bool_decide (scheme +:+ authority = "") && ContainsByte (before_byte path "/"%char) ":"%char
       then "./" else "") +:+ path
    else Opaque_ u in
  scheme +:+ body +:+
  (if ForceQuery u || bool_decide (RawQuery u <> "") then "?" +:+ RawQuery u else "") +:+
  (if decide (Fragment u = "") then "" else "#" +:+ EscapedFragment u).

(** [URL.RequestURI]. *)
Definition RequestURI (u : URL) : string :=
  let result :=
    if decide (Opaque_ u = "") then (if decide (EscapedPath u = "") then "/" else EscapedPath u)
    else if HasPrefix (Opaque_ u) "//" then Scheme u +:+ ":" +:+ Opaque_ u
    else Opaque_ u in
  if ForceQuery u || bool_decide (RawQuery u <> "") then result +:+ "?" +:+ RawQuery u else result.

Example URL_String_ex :
  URL_String (mkURL "https" "" None "a.b:8" "/x y/z?q=1" "" false false "" "" "") = "https://a.b:8/x%20y/z%3Fq=1" /\
  URL_String (mkURL "https" "" (Some "u") "a.b" "/x" "" false false "k=v" "f" "") = "https://u@a.b/x?k=v#f".
Proof. vm_compute. done. Qed.
