(* ===== verification/Host.v ===== *)
(** * The Envoy host as the filters see it

    The dynamic-modules SDK (package shared) is not part of this repository.
    Header maps are an interface, [HeaderMap], with the laws the filters rely
    on; the calls a filter makes on its handle are recorded, in order, as the
    output of a writer monad.  Log lines are not recorded. *)

From S2P Require Import Prelude GoStr.
From Stdlib Require Import Lia Ascii.

(** ** Callback results *)

Inductive HeadersStatus : Type :=
| HeadersStatusContinue
| HeadersStatusStop
| HeadersStatusStopAllAndBuffer.

Inductive BodyStatus : Type :=
| BodyStatusContinue
| BodyStatusStopAndBuffer
| BodyStatusStopNoBuffer.

Inductive TrailersStatus : Type :=
| TrailersStatusContinue
| TrailersStatusStop.

Inductive HttpCalloutInitResult : Type :=
| HttpCalloutInitSuccess
| HttpCalloutInitFailure.

Inductive HttpCalloutResult : Type :=
| HttpCalloutSuccess
| HttpCalloutReset
| HttpCalloutExceedResponseBufferLimit.

#[export] Instance HeadersStatus_eq_dec : EqDecision HeadersStatus.
Proof. solve_decision. Defined.
#[export] Instance BodyStatus_eq_dec : EqDecision BodyStatus.
Proof. solve_decision. Defined.
#[export] Instance TrailersStatus_eq_dec : EqDecision TrailersStatus.
Proof. solve_decision. Defined.
#[export] Instance HttpCalloutInitResult_eq_dec : EqDecision HttpCalloutInitResult.
Proof. solve_decision. Defined.
#[export] Instance HttpCalloutResult_eq_dec : EqDecision HttpCalloutResult.
Proof. solve_decision. Defined.

(** ** Header maps *)

(** ASCII lower-casing of a header name. *)
Definition lower_byte (c : ascii) : ascii :=
  let n := N_of_ascii c in
  if ((65 <=? n) && (n <=? 90))%N then ascii_of_N (n + 32) else c.

Fixpoint ToLower (s : string) : string :=
  match s with
  | EmptyString => EmptyString
  | String c s' => String (lower_byte c) (ToLower s')
  end.

(** The operations of [shared.HeaderMap] the filters use.  [GetOne] returns the
    empty string for an absent header, as [ToUnsafeString] of the null buffer. *)
Class HeaderMap (H : Type) : Type := {
  GetOne : H -> string -> string;
  HSet : H -> string -> string -> H;
  HRemove : H -> string -> H;
}.

(** Header names are case-insensitive. *)
Class HeaderMapLaws (H : Type) `{!HeaderMap H} : Prop := {
  get_ci (h : H) k k' : ToLower k = ToLower k' -> GetOne h k = GetOne h k';
  get_set_eq (h : H) k v : GetOne (HSet h k v) k = v;
  get_set_ne (h : H) k k' v :
    ToLower k <> ToLower k' -> GetOne (HSet h k v) k' = GetOne h k';
  get_remove_eq (h : H) k : GetOne (HRemove h k) k = "";
  get_remove_ne (h : H) k k' :
    ToLower k <> ToLower k' -> GetOne (HRemove h k) k' = GetOne h k';
}.

(** A concrete header map: an association list keyed by lower-case names. *)
Abbreviation Headers := (list (string * string)).

Fixpoint assoc_get (h : Headers) (k : string) : string :=
  match h with
  | [] => ""
  | (k', v) :: h' => if decide (k' = k) then v else assoc_get h' k
  end.

Definition assoc_remove (h : Headers) (k : string) : Headers :=
  filter (fun kv => kv.1 <> k) h.

#[export] Instance assoc_headers : HeaderMap Headers := {
  GetOne h k := assoc_get h (ToLower k);
  HSet h k v := (ToLower k, v) :: assoc_remove h (ToLower k);
  HRemove h k := assoc_remove h (ToLower k);
}.

Lemma assoc_get_remove_eq h k : assoc_get (assoc_remove h k) k = "".
Proof.
  induction h as [|[k' v] h IH]; [done|]. unfold assoc_remove in *. rewrite filter_cons.
  case_decide; simpl in *; [|done]. by rewrite decide_False.
Qed.

Lemma assoc_get_remove_ne h k k' :
  k <> k' -> assoc_get (assoc_remove h k) k' = assoc_get h k'.
Proof.
  intros Hne. induction h as [|[k0 v] h IH]; [done|].
  unfold assoc_remove in *. rewrite filter_cons. case_decide; simpl in *.
  - by rewrite IH.
  - rewrite decide_False by naive_solver. done.
Qed.

#[export] Instance assoc_headers_laws : HeaderMapLaws Headers.
Proof.
  split; simpl.
  - by intros h k k' ->.
  - intros h k v. by rewrite decide_True.
  - intros h k k' v Hne. rewrite decide_False by done. by apply assoc_get_remove_ne.
  - intros h k. apply assoc_get_remove_eq.
  - intros h k k' Hne. by apply assoc_get_remove_ne.
Qed.

(** Header maps that can be listed. *)
Class HeaderList (H : Type) : Type := GetAll : H -> list (string * string).

#[export] Instance assoc_header_list : HeaderList Headers := fun h => h.

(** [HeaderMap.Get]: all the values of a header. *)
Definition header_values {H} `{!HeaderList H} (h : H) (k : string) : list string :=
  (filter (fun kv => ToLower kv.1 = ToLower k) (GetAll h)).*2.

(** ** Handle calls *)

(** A value written to dynamic metadata. *)
Inductive MetaValue : Type :=
| MetaString (s : string)
| MetaInt (z : Z)
| MetaBool (b : bool).

(** A metric is named by its definition, standing for the [MetricID] the host
    returned for it. *)
Inductive HandleCall : Type :=
| SendLocalResponse (status : Z) (headers : list (string * string)) (body detail : string)
| SendResponseHeaders (headers : list (string * string)) (end_stream : bool)
| SendResponseData (body : string) (end_stream : bool)
| ClearRouteCache
| SetMetadata (ns key : string) (v : MetaValue)
| SetRequestHeader (key value : string)
| IncrementCounterValue (metric : string) (n : Z) (tags : list string)
| RecordHistogramValue (metric : string) (n : Z) (tags : list string)
| IncrementGaugeValue (metric : string) (n : Z) (tags : list string)
| DecrementGaugeValue (metric : string) (n : Z) (tags : list string)
| HttpCallout (cluster : string) (headers : list (string * string)) (body : string) (timeout_ms : Z)
| SetTag (key value : string)
| RemoveRequestHeader (key : string)
| DrainRequestBody (buffered : bool) (n : Z)
| AppendRequestBody (buffered : bool) (data : string)
| SetBufferLimit (n : Z)
| ContinueRequest
| ContinueResponse.

#[export] Instance MetaValue_eq_dec : EqDecision MetaValue.
Proof. solve_decision. Defined.
#[export] Instance HandleCall_eq_dec : EqDecision HandleCall.
Proof. solve_decision. Defined.

(** The writer monad of handle calls. *)
Definition Host (A : Type) : Type := (A * list HandleCall)%type.

Definition hret {A} (a : A) : Host A := (a, []).
Definition hcall (c : HandleCall) : Host unit := (tt, [c]).
Definition hbind {A B} (m : Host A) (k : A -> Host B) : Host B :=
  let '(a, l1) := m in let '(b, l2) := k a in (b, l1 ++ l2).
Definition hwhen (b : bool) (m : Host unit) : Host unit := if b then m else hret tt.

Notation "'do' x <- m ; k" := (hbind m (fun x => k))
  (at level 10, x name, m at level 100, k at level 200) : go_scope.
Notation "'do' ' p <- m ; k" := (hbind m (fun p => k))
  (at level 10, p strict pattern, m at level 100, k at level 200) : go_scope.
Notation "'run' m ; k" := (hbind m (fun _ => k))
  (at level 10, m at level 100, k at level 200) : go_scope.

(** The value and the calls of a computation. *)
Definition val_of {A} (m : Host A) : A := m.1.
Definition calls_of {A} (m : Host A) : list HandleCall := m.2.

Lemma hbind_ret_l {A B} (a : A) (k : A -> Host B) : hbind (hret a) k = k a.
Proof. unfold hbind, hret. by destruct (k a). Qed.

Lemma hbind_assoc {A B C} (m : Host A) (k : A -> Host B) (g : B -> Host C) :
  hbind (hbind m k) g = hbind m (fun a => hbind (k a) g).
Proof.
  destruct m as [a l1]; simpl. destruct (k a) as [b l2]; simpl.
  destruct (g b) as [c l3]; simpl. by rewrite app_assoc.
Qed.

Lemma val_hbind {A B} (m : Host A) (k : A -> Host B) :
  val_of (hbind m k) = val_of (k (val_of m)).
Proof. unfold val_of, hbind. destruct m as [a l]; simpl. by destruct (k a). Qed.

Lemma calls_hbind {A B} (m : Host A) (k : A -> Host B) :
  calls_of (hbind m k) = calls_of m ++ calls_of (k (val_of m)).
Proof. unfold calls_of, val_of, hbind. destruct m as [a l]; simpl. by destruct (k a). Qed.

(** A local response was sent. *)
Definition is_local_response (c : HandleCall) : bool :=
  match c with SendLocalResponse _ _ _ _ => true | _ => false end.

(** ** The order of callbacks *)

(** How far one side of a stream is. *)
Inductive Phase : Type := NotStarted | Open_ | Closed.

#[export] Instance Phase_eq_dec : EqDecision Phase.
Proof. solve_decision. Defined.

Definition closed_if (eos : bool) : Phase := if eos then Closed else Open_.

(** The callbacks of a filter, with their end-of-stream flags. *)
Inductive Callback : Type :=
| CReqHeaders (eos : bool)
| CReqBody (eos : bool)
| CReqTrailers
| CRespHeaders (eos : bool)
| CRespBody (eos : bool)
| CRespTrailers.

(** The order in which the host calls a filter: the request headers come before
    everything else of the request, each side is open from its headers to its end of
    stream or trailers, and the response may start before the request has ended.  The
    response may also start when the request never reached the filter (a local reply
    of an earlier filter or a downstream error: the case the nil-transaction guards of
    [OnResponseHeaders], [OnResponseBody] and [OnResponseTrailers] of waf.go are for);
    the request callbacks do not come after that. *)
Definition callback_order (ph : Phase * Phase) (c : Callback) : option (Phase * Phase) :=
  match ph, c with
  | (NotStarted, NotStarted), CReqHeaders eos => Some (closed_if eos, NotStarted)
  | (Open_, rs), CReqBody eos => Some (closed_if eos, rs)
  | (Open_, rs), CReqTrailers => Some (Closed, rs)
  | (rq, NotStarted), CRespHeaders eos => Some (rq, closed_if eos)
  | (rq, Open_), CRespBody eos => Some (rq, closed_if eos)
  | (rq, Open_), CRespTrailers => Some (rq, Closed)
  | _, _ => None
  end.

Lemma callback_order_cases rq rs c rq' rs' :
  callback_order (rq, rs) c = Some (rq', rs') ->
  match c with
  | CReqHeaders eos => rq = NotStarted /\ rs = NotStarted /\ rq' = closed_if eos /\ rs' = rs
  | CReqBody eos => rq = Open_ /\ rq' = closed_if eos /\ rs' = rs
  | CReqTrailers => rq = Open_ /\ rq' = Closed /\ rs' = rs
  | CRespHeaders eos => rs = NotStarted /\ rq' = rq /\ rs' = closed_if eos
  | CRespBody eos => rs = Open_ /\ rq' = rq /\ rs' = closed_if eos
  | CRespTrailers => rs = Open_ /\ rq' = rq /\ rs' = Closed
  end.
Proof. destruct rq, rs, c; cbn; try done; intros [= <- <-]; auto. Qed.

(** How a request ends: with its headers, with the last of its body chunks, or with
    trailers. *)
Inductive RequestEnd : Type := EndHeaders | EndBody | EndTrailers.

#[export] Instance RequestEnd_eq_dec : EqDecision RequestEnd.
Proof. solve_decision. Defined.
