(* ===== verification/ExtPkg.v ===== *)
(** * pkg: configuration helpers shared by the extensions

    extensions/composer/pkg/config.go and metrics.go: metadata keys, data
    sources, local responses, string matchers, per-route configuration and
    metrics.  The file system and the regular expression engine are
    parameters. *)

From S2P Require Import Prelude GoStr GoPath Host.
From Stdlib Require Import Lia.

Local Open Scope Z_scope.
Local Open Scope go_scope.

(** ** Metadata keys *)

Record MetadataKey : Type := mkMetadataKey {
  Namespace : string;
  Key : string;
}.

(** [Validate] returns whether the key is valid; the only error is
    [ErrMetadataKeyInvalid]. *)
Definition MetadataKey_Validate (k : MetadataKey) : bool :=
  negb (bool_decide (Namespace k = "") || bool_decide (Key k = "")).

(** ** Data sources *)

Record DataSource : Type := mkDataSource {
  Inline : string;
  File : string;
}.

Inductive DataSourceError : Type :=
| ErrDataSourceBothSet
| ErrDataSourceNeitherSet
| ErrReadFile.

Definition DataSource_Validate (d : DataSource) : option DataSourceError :=
  if negb (bool_decide (Inline d = "")) && negb (bool_decide (File d = ""))
  then Some ErrDataSourceBothSet
  else if bool_decide (Inline d = "") && bool_decide (File d = "")
  then Some ErrDataSourceNeitherSet
  else None.

(** [Content]; [read] is [os.ReadFile]. *)
Definition DataSource_Content (read : string -> option string) (d : DataSource)
    : result DataSourceError string :=
  if negb (bool_decide (Inline d = "")) then Ok (Inline d)
  else if negb (bool_decide (File d = "")) then
    match read (Clean (File d)) with
    | Some s => Ok s
    | None => Err ErrReadFile
    end
  else Err ErrDataSourceNeitherSet.

(** A data source that validates has exactly one origin, and its content is the
    inline string or the file at the cleaned path, never the neither-set error. *)
Theorem DataSource_Content_valid read d :
  DataSource_Validate d = None ->
  (Inline d <> "" /\ File d = "" /\ DataSource_Content read d = Ok (Inline d)) \/
  (Inline d = "" /\ File d <> "" /\
   DataSource_Content read d =
     match read (Clean (File d)) with Some s => Ok s | None => Err ErrReadFile end).
Proof.
  unfold DataSource_Validate, DataSource_Content.
  destruct (bool_decide_reflect (Inline d = "")), (bool_decide_reflect (File d = ""));
    cbn; intros ?; try done; [right|left]; auto.
Qed.

Lemma DataSource_Content_valid_witness :
  DataSource_Content (fun _ => None) (mkDataSource "data" "") = Ok "data".
Proof.
  destruct (DataSource_Content_valid (fun _ => None) (mkDataSource "data" "") eq_refl)
    as [(_ & _ & Hc)|(Hi & _)]; [exact Hc|discriminate Hi].
Defined.

(** ** Local responses *)

Record LocalResponse : Type := mkLocalResponse {
  Status : Z;
  Body : string;
  RespHeaders : gmap string string;
}.

(** [Validate]; the only error is [ErrInvalidHTTPStatus]. *)
Definition LocalResponse_Validate (r : LocalResponse) : bool :=
  negb ((Status r <? 100) || (599 <? Status r)).

(** ** String matchers *)

Section StringMatchers.
(** The compiled regular expressions: [regexp.Compile] and [MatchString]. *)
Context {Regexp : Type} (Compile : string -> option Regexp) (MatchString : Regexp -> string -> bool).

Record StringMatcher : Type := mkStringMatcher {
  Prefix : string;
  Suffix : string;
  Regex : string;
  re : option Regexp;
}.

Definition count_set (l : list string) : nat :=
  length (filter (fun s => s <> "") l).

(** [ValidateAndParse]: the matcher with its compiled expression, or whether the
    error was the expression ([inl]) or the number of fields set ([inr]). *)
Definition ValidateAndParse (m : StringMatcher) : result (string + nat) StringMatcher :=
  try m' <- (if decide (Regex m = "") then Ok m
             else match Compile (Regex m) with
                  | None => Err (inl (Regex m))
                  | Some r => Ok (mkStringMatcher (Prefix m) (Suffix m) (Regex m) (Some r))
                  end);
  let count := count_set [Prefix m; Suffix m; Regex m] in
  if (count =? 1)%nat then Ok m' else Err (inr count).

Definition Matches (m : StringMatcher) (path : string) : bool :=
  if decide (Prefix m <> "") then HasPrefix path (Prefix m)
  else if decide (Suffix m <> "") then HasSuffix path (Suffix m)
  else match re m with
       | Some r => MatchString r path
       | None => false
       end.
End StringMatchers.
Arguments StringMatcher : clear implicits.
Arguments mkStringMatcher {_}.

(** A matcher that [ValidateAndParse] accepts has exactly one of its three fields
    set and matches by that field, a regular expression being the compiled one. *)
Theorem ValidateAndParse_Matches {Regexp} Compile MatchString (m m' : StringMatcher Regexp) path :
  ValidateAndParse Compile m = Ok m' ->
  match Prefix m, Suffix m, Regex m with
  | p, "", "" => p <> "" /\ Matches MatchString m' path = HasPrefix path p
  | "", s, "" => s <> "" /\ Matches MatchString m' path = HasSuffix path s
  | "", "", r => exists e, Compile r = Some e /\ Matches MatchString m' path = MatchString e path
  | _, _, _ => False
  end.
Proof.
  destruct m as [[|pc p] [|sc s] [|rc r] e0]; unfold ValidateAndParse; cbn;
    repeat case_match; intros ?; simplify_eq/=; auto.
  eauto.
Qed.

Lemma ValidateAndParse_Matches_witness :
  Matches (fun r p => bool_decide (r = p)) (mkStringMatcher "" "" "/x" (Some "/x")) "/x" = true.
Proof.
  destruct (ValidateAndParse_Matches Some (fun r p => bool_decide (r = p))
    (mkStringMatcher "" "" "/x" None) (mkStringMatcher "" "" "/x" (Some "/x")) "/x" eq_refl)
    as (e & [= <-] & Hm).
  rewrite Hm. reflexivity.
Defined.

(** ** Per-route configuration *)

(** The most specific configuration the host holds, as an untyped value, and the
    type assertion to the extension's configuration type. *)
Definition GetMostSpecificConfig {Any T : Type} (assert : Any -> option T) (most_specific : option Any)
    : option T :=
  match most_specific with
  | None => None
  | Some c => assert c
  end.

(** ** Metrics *)

Inductive MetricsResult : Type :=
| MetricsSuccess | MetricsFrozen | MetricsNotFound | MetricsInvalidTags | MetricsOther.

#[export] Instance MetricsResult_eq_dec : EqDecision MetricsResult.
Proof. solve_decision. Defined.

Record Metric : Type := mkMetric {
  metric_id : string;
  metric_enabled : bool;
}.

(** [NewMetric]: the name stands for the id the host returned with the result. *)
Definition NewMetric (name : string) (defined : MetricsResult) : Metric :=
  mkMetric name (bool_decide (defined = MetricsSuccess)).

(** [Record] with the calls of counters, gauges and histograms. *)
Definition Metric_Count (m : Metric) (value : Z) (tags : list string) : Host unit :=
  hwhen (metric_enabled m) (hcall (IncrementCounterValue (metric_id m) value tags)).
Definition Metric_GaugeInc (m : Metric) (value : Z) (tags : list string) : Host unit :=
  hwhen (metric_enabled m) (hcall (IncrementGaugeValue (metric_id m) value tags)).
Definition Metric_GaugeDec (m : Metric) (value : Z) (tags : list string) : Host unit :=
  hwhen (metric_enabled m) (hcall (DecrementGaugeValue (metric_id m) value tags)).
Definition Metric_Histogram (m : Metric) (value : Z) (tags : list string) : Host unit :=
  hwhen (metric_enabled m) (hcall (RecordHistogramValue (metric_id m) value tags)).
