(* ===== verification/GoJson.v ===== *)
(** * encoding/json

    The decoder and the string encoder of encoding/json as the extensions use them: the
    scanner over the text, with the raw text of every value kept for [json.RawMessage], the
    unquoting of strings with their UTF-8 repair, the decoding into Go types (null leaves a
    value alone, a mismatch is remembered while decoding goes on, member names match exactly
    or else by case folding), the escaping of strings, and the decoders of the shared
    configuration types.  Not modelled: a slice decoded a
    third time from a repeated member sees the elements the first one left in its capacity. *)

From S2P Require Import Prelude GoStr GoNum GoPath GoCodec Host ExtPkg.
From Stdlib Require Import Lia Ascii.

Local Open Scope go_scope.

(** ** UTF-8 *)

Definition between (lo hi : N) (c : ascii) : bool := ((lo <=? N_of_ascii c) && (N_of_ascii c <=? hi))%N.

(** The number of bytes after the first of the rune at the head, [None] if it is not one. *)
Definition rune_tail (s : string) : option nat :=
  match s with
  | EmptyString => None
  | String a s1 =>
      if between 0 127 a then Some 0
      else match s1 with
      | EmptyString => None
      | String b s2 =>
          if between 194 223 a && between 128 191 b then Some 1
          else match s2 with
          | EmptyString => None
          | String c s3 =>
              if ((between 224 224 a && between 160 191 b) || (between 225 236 a && between 128 191 b) ||
                  (between 237 237 a && between 128 159 b) || (between 238 239 a && between 128 191 b)) &&
                 between 128 191 c
              then Some 2
              else match s3 with
              | EmptyString => None
              | String d _ =>
                  if ((between 240 240 a && between 144 191 b) || (between 241 243 a && between 128 191 b) ||
                      (between 244 244 a && between 128 143 b)) && between 128 191 c && between 128 191 d
                  then Some 3 else None
              end
          end
      end
  end.

(** U+FFFD. *)
Definition replacement (rest : string) : string := String "239" (String "191" (String "189" rest)).

(** Every byte that is not part of a rune is replaced; the next [n] bytes belong to one. *)
Fixpoint fix_from (n : nat) (s : string) : string :=
  match s with
  | EmptyString => EmptyString
  | String c s' =>
      match n with
      | S n' => String c (fix_from n' s')
      | 0 => match rune_tail s with
             | Some k => String c (fix_from k s')
             | None => replacement (fix_from 0 s')
             end
      end
  end.

Definition ToValidUTF8 (s : string) : string := fix_from 0 s.

(** [utf8.AppendRune]. *)
Definition encode_rune (r : N) (rest : string) : string :=
  (let byte n := ascii_of_N n in
   if r <? 128 then String (byte r) rest
   else if r <? 2048 then String (byte (192 + r / 64)) (String (byte (128 + r mod 64)) rest)
   else if r <? 65536 then
     String (byte (224 + r / 4096)) (String (byte (128 + r / 64 mod 64)) (String (byte (128 + r mod 64)) rest))
   else
     String (byte (240 + r / 262144)) (String (byte (128 + r / 4096 mod 64))
       (String (byte (128 + r / 64 mod 64)) (String (byte (128 + r mod 64)) rest))))%N.

(** ** Strings *)

(** What follows the byte [c] at the head. *)
Definition after_byte (c : ascii) (s : string) : option string :=
  match s with
  | String d s' => if bool_decide (d = c) then Some s' else None
  | EmptyString => None
  end.

Definition quote_byte : ascii := "034"%char.
Definition backslash : ascii := "\"%char.

Definition hex4 (a b c d : ascii) : option N :=
  match unhex a, unhex b, unhex c, unhex d with
  | Some x, Some y, Some z, Some w => Some (x * 4096 + y * 256 + z * 16 + w)%N
  | _, _, _, _ => None
  end.

(** The byte a one-letter escape stands for. *)
Definition unescape (e : ascii) : option ascii :=
  match e with
  | "b" => Some "008" | "f" => Some "012" | "n" => Some "010" | "r" => Some "013" | "t" => Some "009"
  | "/" => Some "/" | _ =>
      if bool_decide (e = quote_byte) then Some quote_byte
      else if bool_decide (e = backslash) then Some backslash else None
  end%char.

(** The text of a string up to its closing quote, and what follows. *)
Fixpoint scan_string (s : string) : option (string * string) :=
  match s with
  | EmptyString => None
  | String c s1 =>
      if bool_decide (c = quote_byte) then Some (EmptyString, s1)
      else if between 0 31 c then None
      else if bool_decide (c = backslash) then
        match s1 with
        | EmptyString => None
        | String e s2 =>
            match unescape e with
            | Some _ => (fun p => (String c (String e p.1), p.2)) <$> scan_string s2
            | None =>
                match s2 with
                | String x (String y (String z (String w s3))) =>
                    if bool_decide (e = "u"%char) && bool_decide (is_Some (hex4 x y z w)) then
                      (fun p => (String c (String e (String x (String y (String z (String w p.1))))), p.2))
                        <$> scan_string s3
                    else None
                | _ => None
                end
            end
        end
      else (fun p => (String c p.1, p.2)) <$> scan_string s1
  end.

Definition is_surrogate (r : N) : bool := ((55296 <=? r) && (r <=? 57343))%N.

(** [utf16.DecodeRune]. *)
Definition surrogate_pair (r1 r2 : N) : option N :=
  if ((55296 <=? r1) && (r1 <=? 56319) && (56320 <=? r2) && (r2 <=? 57343))%N
  then Some ((r1 - 55296) * 1024 + (r2 - 56320) + 65536)%N else None.

(** The escapes of a scanned string, expanded. *)
Fixpoint expand (s : string) : string :=
  match s with
  | EmptyString => EmptyString
  | String c s1 =>
      if bool_decide (c = backslash) then
        match s1 with
        | EmptyString => EmptyString
        | String e s2 =>
            match unescape e with
            | Some b => String b (expand s2)
            | None =>
                match s2 with
                | String x (String y (String z (String w s3))) =>
                    let r := default 0%N (hex4 x y z w) in
                    if is_surrogate r then
                      match s3 with
                      | String _ (String _ (String x' (String y' (String z' (String w' s4))))) =>
                          match (if HasPrefix s3 "\u" then surrogate_pair r (default 0%N (hex4 x' y' z' w')) else None) with
                          | Some r' => encode_rune r' (expand s4)
                          | None => replacement (expand s3)
                          end
                      | _ => replacement (expand s3)
                      end
                    else encode_rune r (expand s3)
                | _ => EmptyString
                end
            end
        end
      else String c (expand s1)
  end.

(** [unquote] of a scanned string: bytes that are not UTF-8 become U+FFFD. *)
Definition unquote (s : string) : string := ToValidUTF8 (expand s).

Definition html_safe (c : ascii) : bool :=
  negb (between 0 31 c) && negb (ContainsByte "\<>&" c) && negb (bool_decide (c = quote_byte)).

(** The escape of an ASCII byte that is not written as it is. *)
Definition escape_byte (c : ascii) (rest : string) : string :=
  String backslash
    match c with
    | "008" => String "b" rest | "012" => String "f" rest | "010" => String "n" rest
    | "013" => String "r" rest | "009" => String "t" rest
    | _ =>
        if bool_decide (c = quote_byte) || bool_decide (c = backslash) then String c rest
        else String "u" (String "0" (String "0"
               (String (hex_digit false (N_of_ascii c / 16)) (String (hex_digit false (N_of_ascii c mod 16)) rest))))
    end%char.

(** [appendString] with HTML escaping: the text between the quotes. *)
Fixpoint escape_from (n : nat) (s : string) : string :=
  match s with
  | EmptyString => EmptyString
  | String c s' =>
      match n with
      | S n' => String c (escape_from n' s')
      | 0 =>
          if between 0 127 c then
            if html_safe c then String c (escape_from 0 s') else escape_byte c (escape_from 0 s')
          else match rune_tail s with
          | None => "\ufffd" +:+ escape_from 0 s'
          | Some k =>
              match s' with
              | String d (String e s'') =>
                  if between 226 226 c && between 128 128 d && between 168 169 e
                  then "\u202" +:+ String (if between 168 168 e then "8" else "9") (escape_from 0 s'')
                  else String c (escape_from k s')
              | _ => String c (escape_from k s')
              end
          end
      end
  end.

Definition Quote (s : string) : string := String quote_byte (escape_from 0 s +:+ String quote_byte "").

(** ** Values *)

(** A value with its raw text; a number is its literal. *)
Inductive Json : Type :=
| JNull
| JBool (b : bool)
| JNumber (lit : string)
| JString (s : string)
| JArray (items : list (string * Json))
| JObject (members : list (string * (string * Json))).

Abbreviation Raw := (string * Json)%type.

Definition json_space (c : ascii) : bool := ContainsByte (String "009" (String "010" (String "013" " "))) c.

Fixpoint skip_space (s : string) : string :=
  match s with
  | EmptyString => EmptyString
  | String c s' => if json_space c then skip_space s' else s
  end.

Fixpoint span_digits (s : string) : string * string :=
  match s with
  | String c s' => if is_digit c then (String c (span_digits s').1, (span_digits s').2) else ("", s)
  | EmptyString => ("", "")
  end.

(** One digit at least. *)
Definition digits1 (s : string) : option (string * string) :=
  match span_digits s with (EmptyString, _) => None | p => Some p end.

Definition scan_int (s : string) : option (string * string) :=
  match after_byte "0" s with
  | Some s' => Some ("0", s')
  | None => digits1 s
  end.

Definition scan_frac (s : string) : option (string * string) :=
  match after_byte "." s with
  | Some s' => (fun p => (String "." p.1, p.2)) <$> digits1 s'
  | None => Some ("", s)
  end.

Definition scan_exp (s : string) : option (string * string) :=
  match s with
  | String e s' =>
      if bool_decide (e = "e"%char) || bool_decide (e = "E"%char) then
        match s' with
        | String sg s'' =>
            if bool_decide (sg = "+"%char) || bool_decide (sg = "-"%char)
            then (fun p => (String e (String sg p.1), p.2)) <$> digits1 s''
            else (fun p => (String e p.1, p.2)) <$> digits1 s'
        | EmptyString => None
        end
      else Some ("", s)
  | EmptyString => Some ("", s)
  end.

Definition scan_number (s : string) : option (string * string) :=
  let '(sign, s0) := match after_byte "-" s with Some s' => ("-", s') | None => ("", s) end in
  match scan_int s0 with
  | None => None
  | Some (i, s1) =>
      match scan_frac s1 with
      | None => None
      | Some (f, s2) =>
          match scan_exp s2 with
          | None => None
          | Some (e, s3) => Some (sign +:+ i +:+ f +:+ e, s3)
          end
      end
  end.

(** The part of [s] before its suffix [rest]. *)
Definition consumed (s rest : string) : string := take_bytes (String.length s - String.length rest) s.

Definition maxNestingDepth : N := 10000.

(** A value at the head of the text, the items of an array and the members of an object after
    their opening bracket or a comma; [depth] brackets may still be opened. *)
Fixpoint scan_value (fuel : nat) (depth : N) (s : string) : option (Json * string) :=
  match fuel with
  | 0 => None
  | S fuel' =>
      match s with
      | EmptyString => None
      | String c s1 =>
          if bool_decide (c = quote_byte) then (fun p => (JString (unquote p.1), p.2)) <$> scan_string s1
          else if bool_decide (c = "["%char) then
            if (depth =? 0)%N then None
            else match after_byte "]" (skip_space s1) with
            | Some rest => Some (JArray [], rest)
            | None => (fun p => (JArray p.1, p.2)) <$> scan_items fuel' (depth - 1) (skip_space s1)
            end
          else if bool_decide (c = "{"%char) then
            if (depth =? 0)%N then None
            else match after_byte "}" (skip_space s1) with
            | Some rest => Some (JObject [], rest)
            | None => (fun p => (JObject p.1, p.2)) <$> scan_members fuel' (depth - 1) (skip_space s1)
            end
          else if HasPrefix s "null" then Some (JNull, drop_bytes 4 s)
          else if HasPrefix s "true" then Some (JBool true, drop_bytes 4 s)
          else if HasPrefix s "false" then Some (JBool false, drop_bytes 5 s)
          else (fun p => (JNumber p.1, p.2)) <$> scan_number s
      end
  end
with scan_items (fuel : nat) (depth : N) (s : string) : option (list Raw * string) :=
  match fuel with
  | 0 => None
  | S fuel' =>
      match scan_value fuel' depth s with
      | None => None
      | Some (v, rest) =>
          match after_byte "]" (skip_space rest), after_byte "," (skip_space rest) with
          | Some rest', _ => Some ([(consumed s rest, v)], rest')
          | None, Some rest' =>
              (fun p => ((consumed s rest, v) :: p.1, p.2)) <$> scan_items fuel' depth (skip_space rest')
          | None, None => None
          end
      end
  end
with scan_members (fuel : nat) (depth : N) (s : string) : option (list (string * Raw) * string) :=
  match fuel with
  | 0 => None
  | S fuel' =>
      match s1 ← after_byte quote_byte s; scan_string s1 with
      | None => None
      | Some (key, s2) =>
          match after_byte ":" (skip_space s2) with
          | None => None
          | Some s3 =>
              match scan_value fuel' depth (skip_space s3) with
              | None => None
              | Some (v, rest) =>
                  let m := (unquote key, (consumed (skip_space s3) rest, v)) in
                  match after_byte "}" (skip_space rest), after_byte "," (skip_space rest) with
                  | Some rest', _ => Some ([m], rest')
                  | None, Some rest' =>
                      (fun p => (m :: p.1, p.2)) <$> scan_members fuel' depth (skip_space rest')
                  | None, None => None
                  end
              end
          end
      end
  end.

(** A whole text: one value between white space. *)
Definition scan_json (text : string) : option Raw :=
  let s := skip_space text in
  match scan_value (2 * String.length s + 1) maxNestingDepth s with
  | Some (v, rest) => if bool_decide (skip_space rest = "") then Some (consumed s rest, v) else None
  | None => None
  end.

(** ** Decoding into Go types *)

(** A type that can be decoded into: its zero value, and the value an existing one becomes,
    with [false] for an error. *)
Class Decodable (A : Type) : Type := {
  zero_value : A;
  decode_into : A -> Raw -> A * bool;
}.

#[export] Instance decode_string : Decodable string := {
  zero_value := "";
  decode_into old r :=
    match r.2 with JNull => (old, true) | JString s => (s, true) | _ => (old, false) end;
}.

#[export] Instance decode_bool : Decodable bool := {
  zero_value := false;
  decode_into old r :=
    match r.2 with JNull => (old, true) | JBool b => (b, true) | _ => (old, false) end;
}.

(** A Go [int]. *)
#[export] Instance decode_int : Decodable Z := {
  zero_value := 0%Z;
  decode_into old r :=
    match r.2 with
    | JNull => (old, true)
    | JNumber lit => match Atoi lit with Some z => (z, true) | None => (old, false) end
    | _ => (old, false)
    end;
}.

(** A pointer: null makes it nil. *)
#[export] Instance decode_pointer {A} `{!Decodable A} : Decodable (option A) := {
  zero_value := None;
  decode_into old r :=
    match r.2 with
    | JNull => (None, true)
    | _ => let '(a, ok) := decode_into (default zero_value old) r in (Some a, ok)
    end;
}.

(** The elements of a slice, decoded into the ones it had. *)
Fixpoint decode_items {A} `{!Decodable A} (old : list A) (items : list Raw) : list A * bool :=
  match items with
  | [] => ([], true)
  | r :: items' =>
      let '(a, ok) := decode_into (default zero_value (head old)) r in
      let '(l, ok') := decode_items (tail old) items' in
      (a :: l, ok && ok')
  end.

#[export] Instance decode_slice {A} `{!Decodable A} : Decodable (list A) := {
  zero_value := [];
  decode_into old r :=
    match r.2 with
    | JNull => ([], true)
    | JArray items => decode_items old items
    | _ => (old, false)
    end;
}.

(** A Go [uint64]. *)
Record Uint64 : Type := mkUint64 { uint64_value : Z }.

#[export] Instance decode_uint64 : Decodable Uint64 := {
  zero_value := mkUint64 0%Z;
  decode_into old r :=
    match r.2 with
    | JNull => (old, true)
    | JNumber lit => match ParseUint lit with Some z => (mkUint64 z, true) | None => (old, false) end
    | _ => (old, false)
    end;
}.

(** A map of strings: an entry whose value does not fit is set to the zero value. *)
#[export] Instance decode_string_map : Decodable (gmap string string) := {
  zero_value := ∅;
  decode_into old r :=
    match r.2 with
    | JNull => (∅, true)
    | JObject members =>
        foldl (fun (st : gmap string string * bool) m =>
                 let '(v, ok) := decode_into "" m.2 in (<[m.1 := v]> st.1, st.2 && ok)) (old, true) members
    | _ => (old, false)
    end;
}.

(** [json.RawMessage] keeps the text, null included; it is empty when the member is absent. *)
Record RawMessage : Type := mkRawMessage { raw_text : string }.

#[export] Instance decode_raw : Decodable RawMessage := {
  zero_value := mkRawMessage "";
  decode_into _ r := (mkRawMessage r.1, true);
}.

(** Case folding of member names: the long s and the Kelvin sign fold to ASCII letters. *)
Fixpoint fold_name (s : string) : string :=
  match s with
  | EmptyString => EmptyString
  | String "197" (String "191" s') => String "s" (fold_name s')
  | String "226" (String "132" (String "170" s')) => String "k" (fold_name s')
  | String c s' => String (lower_byte c) (fold_name s')
  end.

(** A struct as the list of its named fields, each with the decoder that sets it. *)
Definition Fields (A : Type) : Type := list (string * (A -> Raw -> A * bool)).

Definition field {A B} `{!Decodable B} (name : string) (get : A -> B) (set : B -> A -> A)
    : string * (A -> Raw -> A * bool) :=
  (name, fun a r => let '(b, ok) := decode_into (get a) r in (set b a, ok)).

Definition find_field {A} (fs : Fields A) (key : string) : option (A -> Raw -> A * bool) :=
  match filter (fun f => f.1 = key) fs with
  | f :: _ => Some f.2
  | [] => snd <$> head (filter (fun f => fold_name f.1 = fold_name key) fs)
  end.

Fixpoint decode_members {A} (fs : Fields A) (a : A) (members : list (string * Raw)) : A * bool :=
  match members with
  | [] => (a, true)
  | (key, r) :: members' =>
      let '(a', ok) := match find_field fs key with Some d => d a r | None => (a, true) end in
      let '(a'', ok') := decode_members fs a' members' in
      (a'', ok && ok')
  end.

Definition decode_struct {A} (fs : Fields A) (old : A) (r : Raw) : A * bool :=
  match r.2 with
  | JNull => (old, true)
  | JObject members => decode_members fs old members
  | _ => (old, false)
  end.

(** [json.Unmarshal] into a zero value: what is left there, with the error. *)
Definition Unmarshal {A} `{!Decodable A} (text : string) : A * bool :=
  match scan_json text with
  | Some r => decode_into zero_value r
  | None => (zero_value, false)
  end.

(** The value when there was no error. *)
Definition Unmarshal_ok {A} `{!Decodable A} (text : string) : option A :=
  let '(a, ok) := Unmarshal text in if ok : bool then Some a else None.

(** Texts with single quotes for the double ones. *)
Fixpoint dq (s : string) : string :=
  match s with
  | EmptyString => EmptyString
  | String c s' => String (if bool_decide (c = "'"%char) then quote_byte else c) (dq s')
  end.

Example scan_ex :
  scan_json (dq " {'a' : [1.5e3, -0, 'x\n\u00e9\ud83d\ude00\ud800'] , 'b':null}") =
    Some (dq "{'a' : [1.5e3, -0, 'x\n\u00e9\ud83d\ude00\ud800'] , 'b':null}",
      JObject [("a", (dq "[1.5e3, -0, 'x\n\u00e9\ud83d\ude00\ud800']",
          JArray [("1.5e3", JNumber "1.5e3"); ("-0", JNumber "-0");
            (dq "'x\n\u00e9\ud83d\ude00\ud800'",
             JString (String "x" (String "010" (String "195" (String "169" (String "240" (String "159"
               (String "152" (String "128" (String "239" (String "191" (String "189" ""))))))))))))]));
        ("b", ("null", JNull))]) /\
  scan_json "01" = None /\ scan_json "[1,]" = None /\ scan_json "tru" = None /\ scan_json "1." = None /\
  (Unmarshal (dq "['a',null,3,'b']") : list string * bool) = (["a"; ""; ""; "b"], false) /\
  Quote (dq "a<'") = dq "'a\u003c\'" +:+ String quote_byte "" .
Proof. vm_compute. repeat split. Qed.

(** ** The fuel of the scanner *)

Lemma length_skip_space s : (String.length (skip_space s) <= String.length s)%nat.
Proof. induction s as [|c s IH]; cbn [skip_space]; [done|]. destruct (json_space c); cbn [String.length]; lia. Qed.

Lemma skip_space_idem s : skip_space (skip_space s) = skip_space s.
Proof.
  induction s as [|c s IH]; [done|]. cbn [skip_space]. destruct (json_space c) eqn:E; [done|].
  cbn [skip_space]. by rewrite E.
Qed.

Lemma after_byte_Some c s s' : after_byte c s = Some s' <-> s = String c s'.
Proof.
  destruct s as [|d s]; cbn [after_byte]; [done|]. case_bool_decide as H; [subst d; split; congruence|].
  split; [done|congruence].
Qed.

Lemma after_byte_length c s s' : after_byte c s = Some s' -> String.length s = S (String.length s').
Proof. by intros ->%after_byte_Some. Qed.

(** A scanned string is its text and the closing quote. *)
Lemma scan_string_split s p : scan_string s = Some p -> s = p.1 +:+ String quote_byte p.2.
Proof.
  revert p. induction s as [s IH] using (induction_ltof1 _ String.length). unfold ltof in IH. intros p.
  assert (Hrec : forall s' (f : string -> string), (String.length s' < String.length s)%nat ->
    (forall a b, f (a +:+ b) = f a +:+ b) ->
    (fun q : string * string => (f q.1, q.2)) <$> scan_string s' = Some p -> f s' = p.1 +:+ String quote_byte p.2).
  { intros s' f Hlt Hf H. destruct (scan_string s') as [q|] eqn:E; [|done]. injection H as <-. cbn [fst snd].
    rewrite <- Hf. by rewrite <- (IH _ Hlt _ E). }
  destruct s as [|c s1]; [done|]. cbn [scan_string String.length] in *.
  case_bool_decide as Hq; [intros [= <-]; by subst c|].
  destruct (between 0 31 c); [done|]. case_bool_decide as Hb.
  - destruct s1 as [|e s2]; [done|]. destruct (unescape e).
    + apply (Hrec s2 (fun t => String c (String e t))); [cbn; lia|done].
    + destruct s2 as [|x [|y [|z [|w s3]]]]; try done. destruct (_ && _); [|done].
      apply (Hrec s3 (fun t => String c (String e (String x (String y (String z (String w t))))))); [cbn; lia|done].
  - apply (Hrec s1 (String c)); [lia|done].
Qed.

Lemma scan_string_length s p : scan_string s = Some p -> (String.length p.2 < String.length s)%nat.
Proof. intros ->%scan_string_split. rewrite str_length_app. cbn. lia. Qed.

Lemma span_digits_split s : s = (span_digits s).1 +:+ (span_digits s).2.
Proof.
  induction s as [|c s IH]; [done|]. cbn [span_digits]. destruct (is_digit c); [|done].
  cbn [fst snd]. rewrite IH at 1. done.
Qed.

Lemma digits1_length s p : digits1 s = Some p -> (String.length p.2 < String.length s)%nat.
Proof.
  unfold digits1. pose proof (span_digits_split s) as Hs. destruct (span_digits s) as [[|c a] b]; [done|].
  intros [= <-]. rewrite Hs. cbn [fst snd]. rewrite str_length_app. cbn. lia.
Qed.

Lemma scan_int_length s p : scan_int s = Some p -> (String.length p.2 < String.length s)%nat.
Proof.
  unfold scan_int. destruct (after_byte "0" s) eqn:E; [|by intros ?%digits1_length].
  apply after_byte_length in E. intros [= <-]. cbn [snd]. lia.
Qed.

Lemma scan_frac_length s p : scan_frac s = Some p -> (String.length p.2 <= String.length s)%nat.
Proof.
  unfold scan_frac. destruct (after_byte "." s) as [s'|] eqn:E; [|by intros [= <-]].
  apply after_byte_length in E. destruct (digits1 s') as [q|] eqn:Ed; [|done].
  apply digits1_length in Ed. intros [= <-]. cbn [snd]. lia.
Qed.

Lemma scan_exp_length s p : scan_exp s = Some p -> (String.length p.2 <= String.length s)%nat.
Proof.
  unfold scan_exp. destruct s as [|e s']; [by intros [= <-]|].
  destruct (_ || _); [|by intros [= <-]]. destruct s' as [|sg s'']; [done|].
  destruct (_ || _).
  - destruct (digits1 s'') as [q|] eqn:E; [|done]. apply digits1_length in E. intros [= <-]. cbn [snd String.length]. lia.
  - destruct (digits1 (String sg s'')) as [q|] eqn:E; [|done]. apply digits1_length in E. intros [= <-].
    cbn [snd String.length] in *. lia.
Qed.

Lemma scan_number_length s p : scan_number s = Some p -> (String.length p.2 < String.length s)%nat.
Proof.
  unfold scan_number. set (q := match after_byte "-" s with Some s' => ("-", s') | None => ("", s) end).
  assert (Hq : (String.length q.2 <= String.length s)%nat).
  { subst q. destruct (after_byte "-" s) eqn:E; [apply after_byte_length in E|]; cbn [snd]; lia. }
  destruct q as [sign s0]. cbn [snd] in Hq.
  destruct (scan_int s0) as [[i s1]|] eqn:E1; [|done]. destruct (scan_frac s1) as [[f s2]|] eqn:E2; [|done].
  destruct (scan_exp s2) as [[e s3]|] eqn:E3; [|done]. intros [= <-].
  apply scan_int_length in E1. apply scan_frac_length in E2. apply scan_exp_length in E3. cbn [snd] in *. lia.
Qed.

Lemma HasPrefix_length s p : HasPrefix s p = true -> (String.length p <= String.length s)%nat.
Proof. intros [t ->]%HasPrefix_spec. rewrite str_length_app. lia. Qed.

(** What a scan leaves is shorter than what it was given. *)
Lemma scan_shorter n :
  (forall d s p, scan_value n d s = Some p -> (String.length p.2 < String.length s)%nat) /\
  (forall d s p, scan_items n d s = Some p -> (String.length p.2 < String.length s)%nat) /\
  (forall d s p, scan_members n d s = Some p -> (String.length p.2 < String.length s)%nat).
Proof.
  induction n as [|n (IHv & IHi & IHm)]; [done|]. split_and!; intros d s p.
  - cbn [scan_value]. destruct s as [|c s1]; [done|]. set (s := String c s1).
    pose proof (length_skip_space s1) as Hsk. case_bool_decide.
    { destruct (scan_string s1) as [q|] eqn:E; [|done]. apply scan_string_length in E. intros [= <-]. cbn. lia. }
    case_bool_decide.
    { destruct (d =? 0)%N; [done|]. destruct (after_byte "]" _) eqn:E.
      - apply after_byte_length in E. intros [= <-]. cbn. lia.
      - destruct (scan_items _ _ _) as [q|] eqn:Ei; [|done]. apply IHi in Ei. intros [= <-]. cbn in *. lia. }
    case_bool_decide.
    { destruct (d =? 0)%N; [done|]. destruct (after_byte "}" _) eqn:E.
      - apply after_byte_length in E. intros [= <-]. cbn. lia.
      - destruct (scan_members _ _ _) as [q|] eqn:Ei; [|done]. apply IHm in Ei. intros [= <-]. cbn in *. lia. }
    assert (Hlit : forall lit v, HasPrefix s lit = true -> (0 < String.length lit)%nat ->
      Some (v, drop_bytes (String.length lit) s) = Some p -> (String.length p.2 < String.length s)%nat).
    { intros lit v Hp%HasPrefix_length Hl [= <-]. cbn [snd]. rewrite length_drop_bytes. lia. }
    destruct (HasPrefix s "null") eqn:E1; [apply (Hlit _ _ E1); cbn; lia|].
    destruct (HasPrefix s "true") eqn:E2; [apply (Hlit _ _ E2); cbn; lia|].
    destruct (HasPrefix s "false") eqn:E3; [apply (Hlit _ _ E3); cbn; lia|].
    destruct (scan_number s) as [q|] eqn:E; [|done]. apply scan_number_length in E. intros [= <-]. done.
  - cbn [scan_items]. destruct (scan_value n d s) as [[v rest]|] eqn:E; [|done]. apply IHv in E. cbn [snd] in E.
    pose proof (length_skip_space rest). destruct (after_byte "]" _) eqn:E1.
    { apply after_byte_length in E1. intros [= <-]. cbn [snd]. lia. }
    destruct (after_byte "," _) as [r'|] eqn:E2; [|done]. apply after_byte_length in E2.
    pose proof (length_skip_space r'). destruct (scan_items n d (skip_space r')) as [q|] eqn:Eq; [|done].
    apply IHi in Eq. intros [= <-]. cbn [snd]. lia.
  - cbn [scan_members]. destruct (after_byte quote_byte s) as [s1|] eqn:E0; [|done]. cbn [mbind option_bind].
    apply after_byte_length in E0. destruct (scan_string s1) as [[key s2]|] eqn:Es; [|done].
    apply scan_string_length in Es. cbn [snd] in Es. pose proof (length_skip_space s2).
    destruct (after_byte ":" _) as [s3|] eqn:E3; [|done]. apply after_byte_length in E3. pose proof (length_skip_space s3).
    destruct (scan_value n d (skip_space s3)) as [[v rest]|] eqn:E; [|done]. apply IHv in E. cbn [snd] in E.
    pose proof (length_skip_space rest). cbv zeta. destruct (after_byte "}" _) eqn:E1.
    { apply after_byte_length in E1. intros [= <-]. cbn [snd]. lia. }
    destruct (after_byte "," _) as [r'|] eqn:E2; [|done]. apply after_byte_length in E2.
    pose proof (length_skip_space r'). destruct (scan_members n d (skip_space r')) as [q|] eqn:Eq; [|done].
    apply IHm in Eq. intros [= <-]. cbn [snd]. lia.
Qed.

(** The fuel [scan_json] starts with is enough: from there on it does not matter. *)
Lemma scan_fuel n m :
  (forall d s, (2 * String.length s + 1 <= n)%nat -> (n <= m)%nat -> scan_value n d s = scan_value m d s) /\
  (forall d s, (2 * String.length s + 2 <= n)%nat -> (n <= m)%nat -> scan_items n d s = scan_items m d s) /\
  (forall d s, (2 * String.length s + 2 <= n)%nat -> (n <= m)%nat -> scan_members n d s = scan_members m d s).
Proof.
  revert m. induction n as [|n IH]; intros m; [split_and!; lia|].
  destruct m as [|m]; [split_and!; lia|]. destruct (IH m) as (IHv & IHi & IHm).
  destruct (scan_shorter m) as (Hv & _ & _). split_and!; intros d s Hn Hle.
  - cbn [scan_value]. destruct s as [|c s1]; [done|]. cbn [String.length] in Hn.
    pose proof (length_skip_space s1). rewrite IHi, IHm by lia. done.
  - cbn [scan_items]. rewrite IHv by lia. destruct (scan_value m d s) as [[v rest]|] eqn:E; [|done].
    apply Hv in E. cbn [snd] in E. pose proof (length_skip_space rest).
    destruct (after_byte "," _) as [r'|] eqn:E2; [|done]. apply after_byte_length in E2.
    pose proof (length_skip_space r'). rewrite IHi by lia. done.
  - cbn [scan_members]. destruct (after_byte quote_byte s) as [s1|] eqn:E0; [|done]. cbn [mbind option_bind].
    apply after_byte_length in E0. destruct (scan_string s1) as [[key s2]|] eqn:Es; [|done].
    apply scan_string_length in Es. cbn [snd] in Es. pose proof (length_skip_space s2).
    destruct (after_byte ":" _) as [s3|] eqn:E3; [|done]. apply after_byte_length in E3. pose proof (length_skip_space s3).
    rewrite IHv by lia. destruct (scan_value m d (skip_space s3)) as [[v rest]|] eqn:E; [|done].
    apply Hv in E. cbn [snd] in E. pose proof (length_skip_space rest).
    destruct (after_byte "," _) as [r'|] eqn:E2; [|done]. apply after_byte_length in E2.
    pose proof (length_skip_space r'). cbv zeta. rewrite IHm by lia. done.
Qed.


(** ** Strings survive escaping *)

(** The next [n] bytes are not ASCII. *)
Fixpoint high (n : nat) (s : string) : Prop :=
  match n with
  | 0 => True
  | S n' => match s with String c s' => between 0 127 c = false /\ high n' s' | EmptyString => False end
  end.

Lemma between_disjoint lo hi c : (128 <= lo)%N -> between lo hi c = true -> between 0 127 c = false.
Proof. unfold between. rewrite !andb_true_iff, andb_false_iff, !N.leb_le, !N.leb_gt. lia. Qed.

Lemma between_eq n c : between n n c = true -> c = ascii_of_N n.
Proof.
  unfold between. rewrite andb_true_iff, !N.leb_le. intros H. rewrite <- (ascii_N_embedding c). f_equal. lia.
Qed.

Lemma rune_tail_high c s k : rune_tail (String c s) = Some k -> high k s.
Proof.
  pose proof (fun d => between_disjoint 128 191 d ltac:(lia)) as H1.
  pose proof (fun d => between_disjoint 160 191 d ltac:(lia)) as H2.
  pose proof (fun d => between_disjoint 128 159 d ltac:(lia)) as H3.
  pose proof (fun d => between_disjoint 144 191 d ltac:(lia)) as H4.
  pose proof (fun d => between_disjoint 128 143 d ltac:(lia)) as H5.
  unfold rune_tail. repeat (case_match; try done); intros [= <-]; cbn [high];
    repeat match goal with
    | H : _ && _ = true |- _ => apply andb_true_iff in H as [? ?]
    | H : _ || _ = true |- _ => apply orb_true_iff in H as [H|H]
    end; auto 10.
Qed.

(** A rune at the head is told by its own bytes. *)
Lemma rune_tail_prefix c s k t :
  rune_tail (String c s) = Some k -> take_bytes k t = take_bytes k s -> (k <= String.length s)%nat ->
  rune_tail (String c t) = Some k.
Proof.
  intros Hr Ht Hk.
  assert (Hk3 : (k <= 3)%nat) by (unfold rune_tail in Hr; repeat (case_match; try done); injection Hr as <-; lia).
  destruct k as [|[|[|[|k]]]]; [| | | |lia];
    (destruct s as [|b s]; [try (cbn in Hk; lia)|]); try (destruct s as [|b1 s]; [try (cbn in Hk; lia)|]);
    try (destruct s as [|b2 s]; [try (cbn in Hk; lia)|]);
    destruct t as [|a1 [|a2 [|a3 t]]]; cbn [take_bytes] in Ht; simplify_eq;
    unfold rune_tail in *; repeat (case_match; try done); congruence.
Qed.

Lemma high_length n s : high n s -> (n <= String.length s)%nat.
Proof.
  revert s. induction n as [|n IH]; intros [|c s] Hh; cbn [high String.length] in *; try lia.
  destruct Hh as [_ Hh%IH]. lia.
Qed.

Lemma fix_from_take n s : high n s -> take_bytes n (fix_from n s) = take_bytes n s.
Proof.
  revert s. induction n as [|n IH]; intros [|c s] Hh; [done..|]. destruct Hh as [_ Hh].
  cbn [fix_from take_bytes]. by rewrite IH.
Qed.

Lemma fix_from_idem s n : high n s -> fix_from n (fix_from n s) = fix_from n s.
Proof.
  revert n. induction s as [|c s IH]; intros n Hh; [by destruct n|]. destruct n as [|n].
  - change (fix_from 0 (String c s)) with
      (match rune_tail (String c s) with Some k => String c (fix_from k s) | None => replacement (fix_from 0 s) end).
    destruct (rune_tail (String c s)) as [k|] eqn:Er.
    + pose proof (rune_tail_high _ _ _ Er) as Hk.
      change (fix_from 0 (String c (fix_from k s))) with
        (match rune_tail (String c (fix_from k s)) with
         | Some k' => String c (fix_from k' (fix_from k s)) | None => replacement (fix_from 0 (fix_from k s)) end).
      rewrite (rune_tail_prefix c s k) by eauto using fix_from_take, high_length. by rewrite IH.
    + change (fix_from 0 (replacement (fix_from 0 s))) with (replacement (fix_from 0 (fix_from 0 s))). by rewrite IH.
  - destruct Hh as [_ Hh]. cbn [fix_from]. by rewrite IH.
Qed.

Lemma ToValidUTF8_idem s : ToValidUTF8 (ToValidUTF8 s) = ToValidUTF8 s.
Proof. by apply fix_from_idem. Qed.

(** The escape of a byte stands for it. *)
Lemma escape_byte_cases c :
  between 0 127 c = true -> html_safe c = false ->
  (exists e, unescape e = Some c /\ forall t, escape_byte c t = String backslash (String e t)) \/
  (exists x y n, hex4 "0" "0" x y = Some n /\ is_surrogate n = false /\ (forall t, encode_rune n t = String c t) /\
     forall t, escape_byte c t = String backslash (String "u" (String "0" (String "0" (String x (String y t)))))).
Proof.
  destruct c as [[] [] [] [] [] [] [] []]; try discriminate; intros _ Hs; try discriminate Hs; clear Hs;
    first [left; eexists; split; [|intros t; reflexivity]; reflexivity
          |right; do 3 eexists; refine (conj _ (conj _ (conj _ (fun t => eq_refl)))); [reflexivity..|intros t; reflexivity]].
Qed.

Lemma expand_plain c t : c <> backslash -> expand (String c t) = String c (expand t).
Proof. intros Hc. cbn [expand]. by rewrite bool_decide_eq_false_2. Qed.

Lemma high_plain c : between 0 127 c = false -> c <> backslash /\ c <> quote_byte /\ between 0 31 c = false.
Proof.
  intros H. split_and!; [intros ->; discriminate H..|].
  unfold between in *. apply andb_false_iff in H. rewrite !N.leb_gt in H. apply andb_false_iff. rewrite !N.leb_gt. lia.
Qed.

Lemma safe_plain c : html_safe c = true -> c <> backslash /\ c <> quote_byte /\ between 0 31 c = false.
Proof.
  unfold html_safe. rewrite !andb_true_iff, !negb_true_iff, bool_decide_eq_false. intros [[H1 H2] H3].
  split_and!; [by intros ->|done|done].
Qed.

(** The shapes of what [escape_from] writes first. *)
Lemma escape_from_cases n c s :
  high n (String c s) ->
  (exists k, high k s /\ fix_from n (String c s) = String c (fix_from k s) /\
     escape_from n (String c s) = String c (escape_from k s) /\
     c <> backslash /\ c <> quote_byte /\ between 0 31 c = false) \/
  (n = 0%nat /\ between 0 127 c = true /\ html_safe c = false /\
     fix_from n (String c s) = String c (fix_from 0 s) /\ escape_from n (String c s) = escape_byte c (escape_from 0 s)) \/
  (fix_from n (String c s) = replacement (fix_from 0 s) /\ escape_from n (String c s) = "\ufffd" +:+ escape_from 0 s) \/
  (exists d e s' x r, s = String d (String e s') /\
     hex4 "2" "0" "2" x = Some r /\ is_surrogate r = false /\
     (forall t, encode_rune r t = String c (String d (String e t))) /\
     fix_from n (String c s) = String c (String d (String e (fix_from 0 s'))) /\
     escape_from n (String c s) = "\u202" +:+ String x (escape_from 0 s')).
Proof.
  intros Hh. destruct n as [|n]; cbn [high] in Hh.
  2:{ destruct Hh as [Hc Hh]. left. exists n. destruct (high_plain c Hc) as (? & ? & ?). by split_and!. }
  change (fix_from 0 (String c s)) with
    (match rune_tail (String c s) with Some k => String c (fix_from k s) | None => replacement (fix_from 0 s) end).
  cbn [escape_from]. destruct (between 0 127 c) eqn:Ha.
  { assert (rune_tail (String c s) = Some 0%nat) as -> by (cbn; by rewrite Ha).
    destruct (html_safe c) eqn:Hs; [|right; left; by split_and!].
    left. exists 0%nat. destruct (safe_plain c Hs) as (? & ? & ?). by split_and!. }
  destruct (rune_tail (String c s)) as [k|] eqn:Er; [|right; right; left; done].
  pose proof (rune_tail_high _ _ _ Er) as Hk. destruct (high_plain c Ha) as (? & ? & ?).
  destruct s as [|d [|e s']]; [left; exists k; by split_and!..|].
  destruct (between 226 226 c && _ && _) eqn:E; [|left; exists k; by split_and!].
  apply andb_true_iff in E as [[Ec%between_eq Ed%between_eq]%andb_true_iff Ee]. right; right; right.
  subst c d. assert (e = "168"%char \/ e = "169"%char) as He.
  { unfold between in Ee. apply andb_true_iff in Ee as [E1%N.leb_le E2%N.leb_le].
    destruct (decide (N_of_ascii e = 168%N)) as [E|E]; [left|right];
      rewrite <- (ascii_N_embedding e); [by rewrite E|].
    replace (N_of_ascii e) with 169%N by lia. done. }
  assert (Some 2%nat = Some k) as [= <-] by (rewrite <- Er; destruct He as [-> | ->]; reflexivity).
  destruct He as [-> | ->];
    [exists (ascii_of_N 128), "168"%char, s', "8"%char, 8232%N|exists (ascii_of_N 128), "169"%char, s', "9"%char, 8233%N];
    (refine (conj eq_refl (conj eq_refl (conj eq_refl (conj (fun t => eq_refl) (conj _ eq_refl))))); reflexivity).
Qed.

(** A quoted string is scanned as a whole, and decodes to the string with its UTF-8 repaired. *)
Lemma expand_escape s n : high n s -> expand (escape_from n s) = fix_from n s.
Proof.
  revert n. induction s as [s IH] using (induction_ltof1 _ String.length). unfold ltof in IH. intros n Hh.
  destruct s as [|c s]; [by destruct n|].
  destruct (escape_from_cases n c s Hh) as [(k & Hk & -> & -> & Hb & _)|[(-> & Ha & Hs & -> & ->)|
    [[-> ->]|(d & e & s' & x & r & -> & Hx & Hr & Henc & -> & ->)]]].
  - rewrite expand_plain by done. rewrite IH; [done|cbn; lia|done].
  - destruct (escape_byte_cases c Ha Hs) as [(e & He & ->)|(x & y & n & Hx & Hn & Henc & ->)]; cbn [expand].
    + rewrite bool_decide_eq_true_2 by done. rewrite He, IH; [done|cbn; lia|done].
    + rewrite bool_decide_eq_true_2 by done. change (unescape "u") with (@None ascii). cbv iota.
      rewrite Hx. cbv zeta. change (default 0%N (Some n)) with n. rewrite Hn, Henc, IH; [done|cbn; lia|done].
  - change (expand ("\ufffd" +:+ escape_from 0 s)) with (replacement (expand (escape_from 0 s))).
    rewrite IH; [done|cbn; lia|done].
  - change ("\u202" +:+ String x (escape_from 0 s')) with
      (String backslash (String "u" (String "2" (String "0" (String "2" (String x (escape_from 0 s'))))))).
    cbn [expand]. rewrite bool_decide_eq_true_2 by done. change (unescape "u") with (@None ascii). cbv iota.
    rewrite Hx. cbv zeta. change (default 0%N (Some r)) with r. rewrite Hr, Henc, IH; [done|cbn; lia|done].
Qed.

Lemma scan_escape s n rest :
  high n s -> scan_string (escape_from n s +:+ String quote_byte rest) = Some (escape_from n s, rest).
Proof.
  revert n. induction s as [s IH] using (induction_ltof1 _ String.length). unfold ltof in IH. intros n Hh.
  destruct s as [|c s]; [by destruct n|].
  assert (Hu : forall x y z w t r, hex4 x y z w = Some r ->
    scan_string (String backslash (String "u" (String x (String y (String z (String w t)))))) =
    (fun p => (String backslash (String "u" (String x (String y (String z (String w p.1))))), p.2)) <$> scan_string t).
  { intros x y z w t r Hx. cbn [scan_string]. rewrite bool_decide_eq_false_2 by done.
    change (between 0 31 backslash) with false. cbv iota. rewrite bool_decide_eq_true_2 by done.
    change (unescape "u") with (@None ascii). cbv iota. rewrite Hx. by rewrite !bool_decide_eq_true_2 by (try eexists; done). }
  destruct (escape_from_cases n c s Hh) as [(k & Hk & _ & -> & Hb & Hq & Hc)|[(-> & Ha & Hs & _ & ->)|
    [[_ ->]|(d & e & s' & x & r & -> & Hx & _ & _ & _ & ->)]]].
  - cbn [String.append scan_string]. rewrite !bool_decide_eq_false_2, Hc by done. rewrite IH; [done|cbn; lia|done].
  - destruct (escape_byte_cases c Ha Hs) as [(e & He & H)|(x & y & n & Hx & _ & _ & H)]; rewrite !H; cbn [String.append].
    + cbn [scan_string]. rewrite bool_decide_eq_false_2 by done.
      change (between 0 31 backslash) with false. cbv iota. rewrite bool_decide_eq_true_2 by done.
      rewrite He, IH; [done|cbn; lia|done].
    + rewrite (Hu _ _ _ _ _ _ Hx), IH; [done|cbn; lia|done].
  - change (("\ufffd" +:+ escape_from 0 s) +:+ String quote_byte rest) with
      (String backslash (String "u" (String "f" (String "f" (String "f" (String "d"
         (escape_from 0 s +:+ String quote_byte rest))))))).
    rewrite (Hu _ _ _ _ _ 65533%N), IH; [done|cbn; lia|done|done].
  - change (("\u202" +:+ String x (escape_from 0 s')) +:+ String quote_byte rest) with
      (String backslash (String "u" (String "2" (String "0" (String "2" (String x
         (escape_from 0 s' +:+ String quote_byte rest))))))).
    rewrite (Hu _ _ _ _ _ _ Hx), IH; [done|cbn; lia|done].
Qed.

Lemma unquote_escape s : unquote (escape_from 0 s) = ToValidUTF8 s.
Proof. unfold unquote. rewrite expand_escape by done. apply ToValidUTF8_idem. Qed.

(** ** Encoding *)

Definition json_array (texts : list string) : string := "[" +:+ Join texts "," +:+ "]".
Definition json_member (m : string * string) : string := Quote m.1 +:+ ":" +:+ m.2.
Definition json_object (members : list (string * string)) : string :=
  "{" +:+ Join (json_member <$> members) "," +:+ "}".

(** A slice; the ones that are encoded are nil when they are empty. *)
Definition json_slice {A} (enc : A -> string) (l : list A) : string :=
  match l with [] => "null" | _ => json_array (enc <$> l) end.

(** [text] is the text of [v], with at most [depth] brackets open at once. *)
Definition prints (text : string) (depth : N) (v : Json) : Prop :=
  skip_space text = text /\ text <> "" /\
  forall d rest, (depth <= d)%N -> exists n, forall m, (n <= m)%nat -> scan_value m d (text +:+ rest) = Some (v, rest).

Lemma consumed_app a b : consumed (a +:+ b) b = a.
Proof.
  unfold consumed. rewrite str_length_app.
  replace (String.length a + String.length b - String.length b)%nat with (String.length a) by lia.
  induction a as [|c a IH]; cbn; [by destruct b|by rewrite IH].
Qed.

Lemma skip_space_app a b : skip_space a = a -> a <> "" -> skip_space (a +:+ b) = a +:+ b.
Proof.
  destruct a as [|c a]; [done|]. cbn [skip_space]. intros H _. destruct (json_space c) eqn:E.
  - pose proof (length_skip_space a) as Hl. rewrite H in Hl. cbn in Hl. lia.
  - change (String c a +:+ b) with (String c (a +:+ b)). cbn [skip_space]. by rewrite E.
Qed.

Lemma prints_head text depth v c rest :
  prints text depth v -> c = "]"%char \/ c = "}"%char -> after_byte c (text +:+ rest) = None.
Proof.
  intros (_ & Hne & H) Hc. destruct text as [|d text]; [done|]. cbn [String.append after_byte].
  case_bool_decide as Hd; [subst d|done]. destruct (H depth rest ltac:(lia)) as [n Hn].
  specialize (Hn (S n) ltac:(lia)). destruct Hc as [-> | ->]; cbn in Hn; done.
Qed.

Lemma prints_string s : prints (Quote s) 0 (JString (ToValidUTF8 s)).
Proof.
  split; [done|]. split; [done|]. intros d rest _. exists 1%nat. intros m Hm. destruct m as [|m]; [lia|].
  unfold Quote. cbn [String.append scan_value]. rewrite bool_decide_eq_true_2 by done.
  rewrite str_app_assoc. cbn [String.append]. rewrite scan_escape by done.
  cbn [fmap option_fmap option_map fst snd]. by rewrite unquote_escape.
Qed.

Lemma prints_null : prints "null" 0 JNull.
Proof. split; [done|]. split; [done|]. intros d rest _. exists 1%nat. intros [|m] Hm; [lia|]. by destruct rest. Qed.

Lemma prints_weaken text d1 d2 v : prints text d1 v -> (d1 <= d2)%N -> prints text d2 v.
Proof. intros (? & ? & H) Hd. split; [done|]. split; [done|]. intros d rest Hle. apply H. lia. Qed.

(** The items of an array up to its closing bracket. *)
Lemma scan_items_print depth texts items d rest :
  Forall2 (fun t (r : Raw) => r.1 = t /\ prints t depth r.2) texts items -> texts <> [] -> (depth <= d)%N ->
  exists n, forall m, (n <= m)%nat ->
    scan_items m d (Join texts "," +:+ "]" +:+ rest) = Some (items, rest) /\
    skip_space (Join texts "," +:+ "]" +:+ rest) = Join texts "," +:+ "]" +:+ rest /\
    after_byte "]" (Join texts "," +:+ "]" +:+ rest) = None.
Proof.
  intros Hall Hne Hd. induction Hall as [|t [t' v] texts items [Hraw Hp] Hall IH]; [done|]. cbn [fst snd] in *. subst t'.
  pose proof Hp as (Hsk & Hnil & Hscan). destruct texts as [|t2 texts].
  - apply Forall2_nil_inv_l in Hall as ->. change (Join [t] ",") with t.
    destruct (Hscan d ("]" +:+ rest) Hd) as [n Hn]. exists (S n). intros m Hm. destruct m as [|m]; [lia|].
    split_and!; [|by apply skip_space_app|eapply prints_head; [done|by left]].
    cbn [scan_items]. rewrite Hn by lia. rewrite consumed_app. done.
  - destruct IH as [n2 IH]; [done|].
    assert (Hj : forall r, Join (t :: t2 :: texts) "," +:+ r = t +:+ "," +:+ (Join (t2 :: texts) "," +:+ r)).
    { intros r. change (Join (t :: t2 :: texts) ",") with (t +:+ "," +:+ Join (t2 :: texts) ","). by rewrite !str_app_assoc. }
    rewrite Hj. set (body := Join (t2 :: texts) "," +:+ "]" +:+ rest) in *.
    destruct (Hscan d ("," +:+ body) Hd) as [n Hn].
    exists (S (n + n2)). intros m Hm. destruct m as [|m]; [lia|].
    split_and!; [|by apply skip_space_app|eapply prints_head; [done|by left]].
    cbn [scan_items]. rewrite Hn by lia. rewrite consumed_app.
    destruct (IH m ltac:(lia)) as (Hi & Hs & _).
    change (skip_space ("," +:+ body)) with (String "," body).
    cbn [after_byte]. rewrite bool_decide_eq_false_2 by done.
    rewrite bool_decide_eq_true_2 by done. rewrite Hs, Hi. done.
Qed.

Lemma prints_array depth texts items :
  Forall2 (fun t (r : Raw) => r.1 = t /\ prints t depth r.2) texts items ->
  prints (json_array texts) (depth + 1) (JArray items).
Proof.
  intros Hall. split; [done|]. split; [done|]. intros d rest Hd. unfold json_array.
  destruct (decide (texts = [])) as [->|Hne].
  { apply Forall2_nil_inv_l in Hall as ->. exists 1%nat. intros [|m] Hm; [lia|]. cbn.
    destruct (d =? 0)%N eqn:E; [apply N.eqb_eq in E; lia|done]. }
  destruct (scan_items_print depth texts items (d - 1) rest Hall Hne ltac:(lia)) as [n Hn].
  exists (S n). intros m Hm. destruct m as [|m]; [lia|]. rewrite !str_app_assoc.
  destruct (Hn m ltac:(lia)) as (Hi & Hs & Ha). set (body := Join texts "," +:+ "]" +:+ rest) in *.
  change ("[" +:+ body) with (String "[" body). cbn [scan_value].
  rewrite bool_decide_eq_false_2, bool_decide_eq_true_2 by done.
  destruct (d =? 0)%N eqn:E; [apply N.eqb_eq in E; lia|]. rewrite Hs, Ha, Hi. done.
Qed.

(** A member that is written as [m] and scanned as [r]. *)
Definition prints_member (depth : N) (m : string * string) (r : string * Raw) : Prop :=
  r.1 = ToValidUTF8 m.1 /\ r.2.1 = m.2 /\ prints m.2 depth r.2.2.

Lemma scan_members_print depth ms members d rest :
  Forall2 (prints_member depth) ms members -> ms <> [] -> (depth <= d)%N ->
  exists n, forall m, (n <= m)%nat ->
    scan_members m d (Join (json_member <$> ms) "," +:+ "}" +:+ rest) = Some (members, rest) /\
    skip_space (Join (json_member <$> ms) "," +:+ "}" +:+ rest) = Join (json_member <$> ms) "," +:+ "}" +:+ rest /\
    after_byte "}" (Join (json_member <$> ms) "," +:+ "}" +:+ rest) = None.
Proof.
  intros Hall Hne Hd.
  assert (Hone : forall key text v tl, prints text depth v -> exists n, forall m, (n <= m)%nat ->
    (match after_byte quote_byte (json_member (key, text) +:+ tl) ≫= scan_string with
     | None => None
     | Some (k, s2) =>
         match after_byte ":" (skip_space s2) with
         | None => None
         | Some s3 => (fun p => ((unquote k, (consumed (skip_space s3) p.2, p.1)), p.2)) <$> scan_value m d (skip_space s3)
         end
     end) = Some ((ToValidUTF8 key, (text, v)), tl) /\
    skip_space (json_member (key, text) +:+ tl) = json_member (key, text) +:+ tl /\
    after_byte "}" (json_member (key, text) +:+ tl) = None).
  { intros key text v tl (Hsk & Hnil & Hscan). destruct (Hscan d tl Hd) as [n Hn]. exists n. intros m Hm.
    unfold json_member, Quote. cbn [fst snd]. split; [|done].
    change (after_byte quote_byte _) with
      (Some ((escape_from 0 key +:+ String quote_byte "") +:+ (":" +:+ text)) ≫= fun x => Some (x +:+ tl)).
    cbn [mbind option_bind]. rewrite !str_app_assoc. change (String quote_byte "" +:+ ?x) with (String quote_byte x).
    rewrite scan_escape by done. change (after_byte ":" (skip_space (":" +:+ ?x))) with (Some x). cbv iota.
    rewrite skip_space_app by done. rewrite (Hn m Hm). cbn [fmap option_fmap option_map fst snd].
    by rewrite consumed_app, unquote_escape. }
  assert (Hstep : forall m s, scan_members (S m) d s =
    match
      (match after_byte quote_byte s ≫= scan_string with
       | None => None
       | Some (k, s2) =>
           match after_byte ":" (skip_space s2) with
           | None => None
           | Some s3 => (fun p => ((unquote k, (consumed (skip_space s3) p.2, p.1)), p.2)) <$> scan_value m d (skip_space s3)
           end
       end)
    with
    | None => None
    | Some (x, tl) =>
        match after_byte "}" (skip_space tl), after_byte "," (skip_space tl) with
        | Some rest', _ => Some ([x], rest')
        | None, Some rest' => (fun p => (x :: p.1, p.2)) <$> scan_members m d (skip_space rest')
        | None, None => None
        end
    end).
  { intros m s. cbn [scan_members]. destruct (after_byte quote_byte s) as [s1|]; [|done]. cbn [mbind option_bind].
    destruct (scan_string s1) as [[k s2]|]; [|done]. destruct (after_byte ":" _) as [s3|]; [|done].
    by destruct (scan_value m d (skip_space s3)) as [[v tl]|]. }
  induction Hall as [|[key text] [key' [text' v]] ms members (Hk & Hraw & Hp) Hall IH]; [done|].
  cbn [fst snd] in *. subst key' text'. destruct ms as [|m2 ms].
  - apply Forall2_nil_inv_l in Hall as ->. change (Join (json_member <$> [(key, text)]) ",") with (json_member (key, text)).
    destruct (Hone key text v ("}" +:+ rest) Hp) as [n Hn]. exists (S n). intros m Hm. destruct m as [|m]; [lia|].
    destruct (Hn m ltac:(lia)) as (H1 & H2 & H3). split; [|done]. rewrite Hstep, H1. done.
  - destruct IH as [n2 IH]; [done|]. set (body := Join (json_member <$> m2 :: ms) "," +:+ "}" +:+ rest) in *.
    replace (Join (json_member <$> (key, text) :: m2 :: ms) "," +:+ "}" +:+ rest)
      with (json_member (key, text) +:+ "," +:+ body)
      by (subst body; rewrite !fmap_cons; cbn [String.concat Join]; unfold Join; cbn [String.concat]; by rewrite !str_app_assoc).
    destruct (Hone key text v ("," +:+ body) Hp) as [n Hn]. exists (S (n + n2)). intros m Hm. destruct m as [|m]; [lia|].
    destruct (Hn m ltac:(lia)) as (H1 & H2 & H3). split; [|done]. rewrite Hstep, H1.
    change (skip_space ("," +:+ body)) with (String "," body). cbn [after_byte].
    rewrite bool_decide_eq_false_2, bool_decide_eq_true_2 by done.
    destruct (IH m ltac:(lia)) as (Hi & Hs & _). by rewrite Hs, Hi.
Qed.

Lemma prints_object depth ms members :
  Forall2 (prints_member depth) ms members -> prints (json_object ms) (depth + 1) (JObject members).
Proof.
  intros Hall. split; [done|]. split; [done|]. intros d rest Hd. unfold json_object.
  destruct (decide (ms = [])) as [->|Hne].
  { apply Forall2_nil_inv_l in Hall as ->. exists 1%nat. intros [|m] Hm; [lia|]. cbn.
    destruct (d =? 0)%N eqn:E; [apply N.eqb_eq in E; lia|done]. }
  destruct (scan_members_print depth ms members (d - 1) rest Hall Hne ltac:(lia)) as [n Hn].
  exists (S n). intros m Hm. destruct m as [|m]; [lia|]. rewrite !str_app_assoc.
  destruct (Hn m ltac:(lia)) as (Hi & Hs & Ha). set (body := Join (json_member <$> ms) "," +:+ "}" +:+ rest) in *.
  change ("{" +:+ body) with (String "{" body). cbn [scan_value].
  rewrite !bool_decide_eq_false_2, bool_decide_eq_true_2 by done.
  destruct (d =? 0)%N eqn:E; [apply N.eqb_eq in E; lia|]. rewrite Hs, Ha, Hi. done.
Qed.

Lemma scan_json_print text depth v :
  prints text depth v -> (depth <= maxNestingDepth)%N -> scan_json text = Some (text, v).
Proof.
  intros (Hsk & Hne & H) Hd. unfold scan_json. rewrite Hsk. cbv zeta.
  destruct (H _ "" Hd) as [n Hn]. rewrite str_app_nil_r in Hn.
  set (f := (2 * String.length text + 1)%nat).
  destruct (scan_fuel f (f `max` n)) as (Hf & _ & _). rewrite Hf by lia. rewrite Hn by lia.
  rewrite bool_decide_eq_true_2 by done.
  pose proof (consumed_app text "") as Hc. rewrite str_app_nil_r in Hc. by rewrite Hc.
Qed.

(** A slice of strings comes back with each string repaired. *)
Definition quoted (s : string) : Raw := (Quote s, JString (ToValidUTF8 s)).

Lemma prints_strings l :
  prints (json_slice Quote l) 1 (match l with [] => JNull | _ => JArray (quoted <$> l) end).
Proof.
  destruct l as [|s l]; [eapply prints_weaken; [apply prints_null|lia]|]. unfold json_slice.
  apply (prints_array 0). apply Forall2_fmap, Forall_Forall2_diag, Forall_true. intros x. split; [done|apply prints_string].
Qed.

Lemma decode_quoted l : decode_items [] (quoted <$> l) = (ToValidUTF8 <$> l, true).
Proof. induction l as [|s l IH]; [done|]. rewrite !fmap_cons. cbn [decode_items head tail]. by rewrite IH. Qed.

(** ** The raw text of what was scanned *)

Lemma consumed_nonempty s rest : (String.length rest < String.length s)%nat -> consumed s rest <> "".
Proof.
  intros Hl H. apply (f_equal String.length) in H. unfold consumed in H. rewrite length_take_bytes in H. cbn in H. lia.
Qed.

Lemma scan_members_raw n d s p : scan_members n d s = Some p -> Forall (fun m : string * Raw => m.2.1 <> "") p.1.
Proof.
  revert s p. induction n as [|n IH]; intros s p; [done|]. cbn [scan_members].
  destruct (_ ≫= _) as [[key s2]|]; [|done]. destruct (after_byte ":" _) as [s3|]; [|done].
  destruct (scan_value n d (skip_space s3)) as [[v rest]|] eqn:E; [|done].
  destruct (scan_shorter n) as (Hv & _ & _). apply Hv in E. pose proof (consumed_nonempty _ _ E) as Hc. cbn [snd] in Hc.
  cbv zeta. destruct (after_byte "}" _); [intros [= <-]; by repeat constructor|].
  destruct (after_byte "," _) as [r'|]; [|done]. destruct (scan_members n d _) as [q|] eqn:Eq; [|done].
  intros [= <-]. constructor; [done|]. by apply IH in Eq.
Qed.

Lemma scan_json_members text t members :
  scan_json text = Some (t, JObject members) -> Forall (fun m : string * Raw => m.2.1 <> "") members.
Proof.
  unfold scan_json. cbv zeta. set (s := skip_space text). generalize (2 * String.length s + 1)%nat as n.
  intros n. destruct (scan_value n maxNestingDepth s) as [[v rest]|] eqn:E; [|done].
  case_bool_decide; [|done]. intros [= <- ->]. destruct n as [|n]; [done|]. cbn [scan_value] in E.
  destruct s as [|c s1]; [done|]. case_bool_decide; [by destruct (scan_string s1)|].
  case_bool_decide.
  { destruct (_ =? _)%N; [done|]. destruct (after_byte _ _); [done|]. by destruct (scan_items _ _ _). }
  case_bool_decide.
  { destruct (_ =? _)%N; [done|]. destruct (after_byte _ _); [injection E as <- _; constructor|].
    destruct (scan_members _ _ _) as [q|] eqn:Em; [|done]. injection E as <- _. by apply scan_members_raw in Em. }
  do 3 (case_match; [done|]). by destruct (scan_number _).
Qed.

(** ** Encoded structs decode *)

Definition strings_value (l : list string) : Json := match l with [] => JNull | _ => JArray (quoted <$> l) end.

Lemma decode_strings_value (l : list string) text :
  decode_into (A := list string) [] (text, strings_value l) = (ToValidUTF8 <$> l, true).
Proof. destruct l as [|s l]; [done|]. apply (decode_quoted (s :: l)). Qed.

(** A member named as the [i]-th field sets it. *)
Lemma decode_member (i : nat) {A B} `{!Decodable B} (fs : Fields A) a r ms name (get : A -> B) set b res :
  fs !! i = Some (field name get set) -> bool_decide (NoDup fs.*1) = true -> decode_into (get a) r = (b, true) ->
  decode_members fs (set b a) ms = (res, true) -> decode_members fs a ((name, r) :: ms) = (res, true).
Proof.
  intros Hi Hnd%bool_decide_eq_true_1 Hb Hr. cbn [decode_members].
  assert (find_field fs name = Some (field name get set).2) as ->.
  { unfold find_field, Fields in *. apply list_elem_of_lookup_2 in Hi.
    pose proof (filter_key_unique fst fs (field name get set) Hnd Hi) as H. cbn [fst field] in H. by rewrite H. }
  cbn [field snd]. by rewrite Hb, Hr.
Qed.

Lemma Unmarshal_object {A} `{!Decodable A} ms members (a : A) :
  Forall2 (prints_member 1) ms members -> decode_into zero_value (json_object ms, JObject members) = (a, true) ->
  Unmarshal_ok (json_object ms) = Some a.
Proof.
  intros Hall Hd. unfold Unmarshal_ok, Unmarshal.
  rewrite (scan_json_print _ _ _ (prints_object 1 ms members Hall)) by (vm_compute; done). by rewrite Hd.
Qed.

Lemma prints_member_string key s :
  ToValidUTF8 key = key -> prints_member 1 (key, Quote s) (key, (Quote s, JString (ToValidUTF8 s))).
Proof. split; [done|]. split; [done|]. eapply prints_weaken; [apply prints_string|lia]. Qed.

Lemma prints_member_strings key l :
  ToValidUTF8 key = key -> prints_member 1 (key, json_slice Quote l) (key, (json_slice Quote l, strings_value l)).
Proof. split; [done|]. split; [done|]. apply prints_strings. Qed.

(** ** The shared configuration types *)

#[export] Instance decode_DataSource : Decodable DataSource := {
  zero_value := mkDataSource zero_value zero_value;
  decode_into := decode_struct [
    field "inline" Inline (fun v d => mkDataSource v (File d));
    field "file" File (fun v d => mkDataSource (Inline d) v)];
}.

#[export] Instance decode_LocalResponse : Decodable LocalResponse := {
  zero_value := mkLocalResponse zero_value zero_value zero_value;
  decode_into := decode_struct [
    field "status" Status (fun v r => mkLocalResponse v (Body r) (RespHeaders r));
    field "body" Body (fun v r => mkLocalResponse (Status r) v (RespHeaders r));
    field "headers" RespHeaders (fun v r => mkLocalResponse (Status r) (Body r) v)];
}.
