(* ===== verification/ClusterGraph.v ===== *)
(** * cluster-router: the routing table and best-path selection

    extensions/composer/cluster-router/graph: types.go, table.go, bestpath.go. *)

From S2P Require Import Prelude GoStr.
From Stdlib Require Import Lia.

Local Open Scope Z_scope.

(** ** Data (types.go, table.go) *)

Record PeerSpec : Type := mkPeerSpec {
  p_ID : string;
  p_Endpoint : string;
  p_LocalCluster : string;
}.

Definition ClusterRole : Type := string.
Definition RoleTerminal : ClusterRole := "terminal".
Definition RolePeer : ClusterRole := "peer".
Definition RoleIgnore : ClusterRole := "ignore".

Record LocalCluster : Type := mkLocalCluster {
  lc_Name : string;
  lc_Role : ClusterRole;
  lc_PeerID : string;
}.

Record Route : Type := mkRoute {
  r_TargetCluster : string;
  r_NextHopLocalCluster : string;
  r_Distance : Z;
  r_ASPath : list string;
}.

Record Advertisement : Type := mkAdvertisement {
  a_EnvoyID : string;
  a_Routes : list Route;
}.

Record PeerAdvertisement : Type := mkPeerAdvertisement {
  pa_Peer : PeerSpec;
  pa_Adv : Advertisement;
}.

Record Table : Type := mkTable {
  t_EnvoyID : string;
  t_Routes : gmap string Route;
  t_LocalClusters : gmap string LocalCluster;
}.

#[export] Instance PeerSpec_eq_dec : EqDecision PeerSpec.
Proof. solve_decision. Defined.
#[export] Instance LocalCluster_eq_dec : EqDecision LocalCluster.
Proof. solve_decision. Defined.
#[export] Instance Route_eq_dec : EqDecision Route.
Proof. solve_decision. Defined.

(** [t.Lookup(target)], with [None] for a nil table. *)
Definition Lookup (t : option Table) (target : string) : option Route :=
  match t with
  | None => None
  | Some t => t_Routes t !! target
  end.

(** The table [NewAtomicTable] stores first. *)
Definition NewAtomicTable (envoyID : string) : Table :=
  mkTable envoyID ∅ ∅.

(** ** Best path (bestpath.go) *)

Definition MaxASPath : Z := 32.
Definition MaxDistance : Z := MaxASPath.
Definition hopCost : Z := 1.

Definition hasInPath (path : list string) (id : string) : bool :=
  existsb (fun p => bool_decide (p = id)) path.

Definition prepend (id : string) (path : list string) : list string := id :: path.

Definition validAdvertisedRoute (r : Route) : bool :=
  if bool_decide (r_TargetCluster r = "") then false
  else if (r_Distance r <? 0) || (MaxDistance <? r_Distance r) then false
  else if MaxASPath <? zlen (r_ASPath r) then false
  else true.

(** [a.ASPath[0]], or the empty string. *)
Definition first_hop (path : list string) : string :=
  match path with [] => "" | h :: _ => h end.

Definition better (a b : Route) : bool :=
  if negb (r_Distance a =? r_Distance b) then r_Distance a <? r_Distance b
  else if negb (zlen (r_ASPath a) =? zlen (r_ASPath b))
  then zlen (r_ASPath a) <? zlen (r_ASPath b)
  else str_ltb (first_hop (r_ASPath a)) (first_hop (r_ASPath b)).

(** The route of a local terminal cluster. *)
Definition local_route (name : string) : Route := mkRoute name name 0 [].

(** The first loop of [Compute], over the entries of [locals] in the order the
    map yields them. *)
Definition local_routes (entries : list (string * LocalCluster)) : gmap string Route :=
  foldl (fun out e =>
           if decide (lc_Role e.2 = RoleTerminal) then <[e.1 := local_route e.1]> out else out)
        ∅ entries.

(** The candidate route learned from route [r] of [peer]. *)
Definition candidate (peer : PeerSpec) (r : Route) : Route :=
  mkRoute (r_TargetCluster r) (p_LocalCluster peer)
          (wrap64 (r_Distance r + hopCost)) (prepend (p_ID peer) (r_ASPath r)).

(** The body of the loop over the routes of one advertisement; the state is
    [seenInAdv] and [out]. *)
Definition route_step (localEnvoyID : string) (peer : PeerSpec)
    (st : gset string * gmap string Route) (r : Route) : gset string * gmap string Route :=
  let '(seenInAdv, out) := st in
  if negb (validAdvertisedRoute r) then st
  else if decide (r_TargetCluster r ∈ seenInAdv) then st
  else
    let seen' := {[r_TargetCluster r]} ∪ seenInAdv in
    if hasInPath (r_ASPath r) localEnvoyID || hasInPath (r_ASPath r) (p_ID peer)
    then (seen', out)
    else
      let c := candidate peer r in
      match out !! r_TargetCluster r with
      | None => (seen', <[r_TargetCluster r := c]> out)
      | Some existing =>
          if zlen (r_ASPath existing) =? 0 then (seen', out)
          else if better c existing then (seen', <[r_TargetCluster r := c]> out)
          else (seen', out)
      end.

(** The body of the loop over the sorted advertisements. *)
Definition adv_step (localEnvoyID : string) (locals : gmap string LocalCluster)
    (out : gmap string Route) (pa : PeerAdvertisement) : gmap string Route :=
  match locals !! p_LocalCluster (pa_Peer pa) with
  | None => out
  | Some _ =>
      (foldl (route_step localEnvoyID (pa_Peer pa)) (∅, out) (a_Routes (pa_Adv pa))).2
  end.

Definition peer_le (a b : PeerAdvertisement) : Prop :=
  str_le (p_ID (pa_Peer a)) (p_ID (pa_Peer b)).
#[export] Instance peer_le_dec a b : Decision (peer_le a b).
Proof. unfold peer_le. apply _. Defined.

Definition Compute (localEnvoyID : string) (locals : gmap string LocalCluster)
    (advs : list PeerAdvertisement) : gmap string Route :=
  foldl (adv_step localEnvoyID locals)
        (local_routes (map_to_list locals)) (merge_sort peer_le advs).

Definition target_le (a b : Route) : Prop :=
  str_le (r_TargetCluster a) (r_TargetCluster b).
#[export] Instance target_le_dec a b : Decision (target_le a b).
Proof. unfold target_le. apply _. Defined.

Definition AdvertiseTo (t : option Table) (peerID : string) : list Route :=
  match t with
  | None => []
  | Some t =>
      merge_sort target_le
        (filter (fun r => hasInPath (r_ASPath r) peerID = false)
                (snd <$> map_to_list (t_Routes t)))
  end.

(** ** Specification of the selection *)

(** The route one advertisement offers for a target: its first valid row for the
    target, unless that row's path already contains this node or the peer. *)
Definition offer (localEnvoyID : string) (peer : PeerSpec) (t : string) (rs : list Route)
    : option Route :=
  match head (filter (fun r => validAdvertisedRoute r = true /\ r_TargetCluster r = t) rs) with
  | Some r =>
      if hasInPath (r_ASPath r) localEnvoyID || hasInPath (r_ASPath r) (p_ID peer)
      then None else Some (candidate peer r)
  | None => None
  end.

Definition offer_of (localEnvoyID : string) (locals : gmap string LocalCluster) (t : string)
    (pa : PeerAdvertisement) : option Route :=
  match locals !! p_LocalCluster (pa_Peer pa) with
  | None => None
  | Some _ => offer localEnvoyID (pa_Peer pa) t (a_Routes (pa_Adv pa))
  end.

(** Everything the peers offer for a target. *)
Definition offers (localEnvoyID : string) (locals : gmap string LocalCluster) (t : string)
    (advs : list PeerAdvertisement) : list Route :=
  omap (offer_of localEnvoyID locals t) advs.

Definition is_terminal (locals : gmap string LocalCluster) (t : string) : Prop :=
  lc_Role <$> locals !! t = Some RoleTerminal.
#[export] Instance is_terminal_dec locals t : Decision (is_terminal locals t).
Proof. unfold is_terminal. apply _. Defined.

(** ** The preference order *)

Lemma hasInPath_spec path id : hasInPath path id = true <-> id ∈ path.
Proof.
  unfold hasInPath. rewrite existsb_exists. split.
  - intros (p & Hp & ->%bool_decide_eq_true). by apply list_elem_of_In.
  - intros H. exists id. rewrite bool_decide_true by done. by rewrite <- list_elem_of_In.
Qed.

Lemma hasInPath_false path id : hasInPath path id = false <-> id ∉ path.
Proof. rewrite <- hasInPath_spec. destruct (hasInPath path id); naive_solver. Qed.

Lemma better_spec a b :
  better a b = true <->
  r_Distance a < r_Distance b \/
  (r_Distance a = r_Distance b /\
   (zlen (r_ASPath a) < zlen (r_ASPath b) \/
    (zlen (r_ASPath a) = zlen (r_ASPath b) /\
     str_ltb (first_hop (r_ASPath a)) (first_hop (r_ASPath b)) = true))).
Proof.
  unfold better. destruct (Z.eqb_spec (r_Distance a) (r_Distance b)); simpl.
  - destruct (Z.eqb_spec (zlen (r_ASPath a)) (zlen (r_ASPath b))); simpl.
    + intuition lia.
    + rewrite Z.ltb_lt. intuition lia.
  - rewrite Z.ltb_lt. intuition lia.
Qed.

Lemma better_irrefl a : better a a = false.
Proof. apply not_true_iff_false. rewrite better_spec, str_ltb_irrefl. intuition lia. Qed.

Lemma better_trans a b c : better a b = true -> better b c = true -> better a c = true.
Proof.
  rewrite !better_spec.
  pose proof (str_ltb_trans (first_hop (r_ASPath a)) (first_hop (r_ASPath b))
                            (first_hop (r_ASPath c))).
  intuition lia.
Qed.

(** Not being beaten is transitive: [better] is a strict weak order. *)
Lemma better_neg_trans a b c : better b a = false -> better c b = false -> better c a = false.
Proof.
  rewrite <- !not_true_iff_false, !better_spec.
  pose proof (str_le_trans (first_hop (r_ASPath a)) (first_hop (r_ASPath b))
                           (first_hop (r_ASPath c))) as Hs.
  unfold str_le in Hs.
  repeat match goal with |- context [str_ltb ?x ?y = true] => destruct (str_ltb x y) end;
    lia || (specialize (Hs eq_refl eq_refl); done).
Qed.

(** Two routes neither of which is preferred agree on all three criteria. *)
Lemma better_incomparable a b :
  better a b = false -> better b a = false ->
  r_Distance a = r_Distance b /\ first_hop (r_ASPath a) = first_hop (r_ASPath b).
Proof.
  rewrite <- !not_true_iff_false, !better_spec. intros H1 H2.
  assert (r_Distance a = r_Distance b) by lia.
  assert (zlen (r_ASPath a) = zlen (r_ASPath b)) by lia.
  split; [done|]. apply str_ltb_total; apply not_true_iff_false; intros E;
    rewrite E in *; lia.
Qed.

(** ** What the loops compute *)

(** The update of one table entry by one candidate. *)
Definition merge (o : option Route) (c : Route) : option Route :=
  match o with
  | None => Some c
  | Some e =>
      if zlen (r_ASPath e) =? 0 then Some e
      else if better c e then Some c else Some e
  end.

Lemma local_routes_lookup entries t r :
  local_routes entries !! t = Some r <->
  r = local_route t /\ exists c, (t, c) ∈ entries /\ lc_Role c = RoleTerminal.
Proof.
  unfold local_routes. induction entries as [|[n c] entries IH] using rev_ind; simpl.
  - rewrite lookup_empty. split; [done|].
    intros (_ & c & Hc & _). by apply not_elem_of_nil in Hc.
  - rewrite foldl_app; simpl. setoid_rewrite elem_of_app.
    setoid_rewrite list_elem_of_singleton.
    case_decide as Ec; [rewrite lookup_insert; case_decide as En|].
    + subst. naive_solver.
    + rewrite IH. naive_solver.
    + rewrite IH. naive_solver.
Qed.

Lemma local_routes_terminal locals entries t :
  entries ≡ₚ map_to_list locals ->
  local_routes entries !! t =
  if decide (is_terminal locals t) then Some (local_route t) else None.
Proof.
  intros Hp. apply option_eq. intros r. rewrite local_routes_lookup. setoid_rewrite Hp.
  setoid_rewrite elem_of_map_to_list. unfold is_terminal. case_decide as Ht.
  - apply fmap_Some in Ht as (c & Hc & Hr). naive_solver.
  - rewrite fmap_Some in Ht. naive_solver.
Qed.

Lemma offer_cons id peer t r rs :
  offer id peer t (r :: rs) =
  if decide (validAdvertisedRoute r = true /\ r_TargetCluster r = t)
  then if hasInPath (r_ASPath r) id || hasInPath (r_ASPath r) (p_ID peer)
       then None else Some (candidate peer r)
  else offer id peer t rs.
Proof. unfold offer. rewrite filter_cons. by destruct (decide _). Qed.

(** The effect of one row on the entry of a target. *)
Lemma route_step_lookup id peer seen out r t :
  let st := route_step id peer (seen, out) r in
  st.2 !! t =
  (if decide (validAdvertisedRoute r = true /\ r_TargetCluster r = t /\ t ∉ seen)
   then if hasInPath (r_ASPath r) id || hasInPath (r_ASPath r) (p_ID peer)
        then out !! t else merge (out !! t) (candidate peer r)
   else out !! t) /\
  (t ∈ st.1 <-> t ∈ seen \/ (validAdvertisedRoute r = true /\ r_TargetCluster r = t)).
Proof.
  unfold route_step. destruct (validAdvertisedRoute r) eqn:Hv; cbn [negb fst snd].
  2: { rewrite decide_False by naive_solver. naive_solver. }
  destruct (decide (r_TargetCluster r ∈ seen)) as [Hs|Hs]; cbn [fst snd].
  { rewrite decide_False by naive_solver. naive_solver. }
  destruct (hasInPath (r_ASPath r) id || hasInPath (r_ASPath r) (p_ID peer)); cbn [fst snd].
  { split; [by case_decide | set_solver]. }
  destruct (decide (r_TargetCluster r = t)) as [<-|Ht].
  - rewrite decide_True by done. unfold merge. split_ifs; split; try set_solver;
      by simplify_map_eq.
  - rewrite decide_False by naive_solver. split_ifs; split; try set_solver;
      by simplify_map_eq.
Qed.

(** One advertisement touches the entry of a target at most once, with its
    offer. *)
Lemma route_fold_lookup id peer rs seen out t :
  (foldl (route_step id peer) (seen, out) rs).2 !! t =
  if decide (t ∈ seen) then out !! t
  else match offer id peer t rs with
       | None => out !! t
       | Some c => merge (out !! t) c
       end.
Proof.
  revert seen out. induction rs as [|r rs IH]; intros seen out; [by case_decide|].
  cbn [foldl]. rewrite offer_cons.
  pose proof (route_step_lookup id peer seen out r t) as Hstep.
  destruct (route_step id peer (seen, out) r) as [seen' out']; cbn [fst snd] in Hstep.
  destruct Hstep as [Hl Hs].
  rewrite IH, Hl. clear IH Hl.
  destruct (decide (t ∈ seen)) as [Hin|Hin].
  { rewrite decide_True by tauto. by rewrite decide_False by naive_solver. }
  destruct (decide (validAdvertisedRoute r = true /\ r_TargetCluster r = t)) as [Hr|Hr].
  - rewrite decide_True by tauto. rewrite decide_True by tauto.
    by destruct (hasInPath _ _ || _).
  - rewrite decide_False by tauto. by rewrite decide_False by tauto.
Qed.

Lemma adv_step_lookup id locals out pa t :
  adv_step id locals out pa !! t =
  match offer_of id locals t pa with
  | None => out !! t
  | Some c => merge (out !! t) c
  end.
Proof.
  unfold adv_step, offer_of. destruct (locals !! _); [|done].
  rewrite route_fold_lookup. by rewrite decide_False by set_solver.
Qed.

Lemma adv_fold_lookup id locals advs out t :
  foldl (adv_step id locals) out advs !! t =
  foldl merge (out !! t) (offers id locals t advs).
Proof.
  revert out. induction advs as [|pa advs IH]; intros out; simpl; [done|].
  rewrite IH, adv_step_lookup. by destruct (offer_of id locals t pa).
Qed.

(** The entry of a target is its local route, or the fold of its offers. *)
Lemma Compute_lookup id locals advs t :
  Compute id locals advs !! t =
  if decide (is_terminal locals t) then Some (local_route t)
  else foldl merge None (offers id locals t (merge_sort peer_le advs)).
Proof.
  unfold Compute. rewrite adv_fold_lookup, (local_routes_terminal locals) by done.
  case_decide; [|done].
  induction (offers id locals t (merge_sort peer_le advs)); done.
Qed.

(** ** Properties of the selection *)

Lemma offer_of_Some id locals t pa c :
  offer_of id locals t pa = Some c ->
  exists r, r ∈ a_Routes (pa_Adv pa) /\ validAdvertisedRoute r = true /\
    r_TargetCluster r = t /\ id ∉ r_ASPath r /\ p_ID (pa_Peer pa) ∉ r_ASPath r /\
    is_Some (locals !! p_LocalCluster (pa_Peer pa)) /\ c = candidate (pa_Peer pa) r.
Proof.
  unfold offer_of, offer. intros H.
  destruct (locals !! p_LocalCluster (pa_Peer pa)) as [lc|] eqn:Hlc; [|done].
  destruct (head _) as [r|] eqn:Hh; [|done].
  apply filter_head_Some in Hh as (Hin & Hv & Ht).
  destruct (hasInPath (r_ASPath r) id) eqn:H1; [done|].
  destruct (hasInPath (r_ASPath r) (p_ID (pa_Peer pa))) eqn:H2; [done|].
  simplify_eq/=. apply hasInPath_false in H1, H2. exists r. eauto 10.
Qed.

Lemma elem_of_offers id locals t advs c :
  c ∈ offers id locals t advs <-> exists pa, pa ∈ advs /\ offer_of id locals t pa = Some c.
Proof. apply list_elem_of_omap. Qed.

Lemma offers_path id locals t advs c : c ∈ offers id locals t advs -> r_ASPath c <> [].
Proof.
  intros (pa & _ & H)%elem_of_offers. apply offer_of_Some in H as (r & ? & ? & ? & ? & ? & ? & ->).
  done.
Qed.

Lemma offers_Permutation id locals t advs1 advs2 :
  advs1 ≡ₚ advs2 -> offers id locals t advs1 ≡ₚ offers id locals t advs2.
Proof. intros H. unfold offers. by rewrite H. Qed.

Lemma merge_fold_spec l o :
  (forall c, c ∈ l -> r_ASPath c <> []) -> (forall e, o = Some e -> r_ASPath e <> []) ->
  match foldl merge o l with
  | Some r => (r ∈ l \/ o = Some r) /\ (forall c, c ∈ l \/ o = Some c -> better c r = false)
  | None => o = None /\ l = []
  end.
Proof.
  revert o. induction l as [|c l IH]; intros o Hl Ho; simpl.
  { destruct o as [e|]; [|done]. split; [by right|].
    intros c [Hc|Hc]; [by apply not_elem_of_nil in Hc|]. simplify_eq. apply better_irrefl. }
  assert (forall x, x ∈ l -> r_ASPath x <> []) as Hl' by (intros; apply Hl; by right).
  assert (r_ASPath c <> []) as Hc by (apply Hl; left).
  destruct o as [e|]; simpl.
  - destruct (Z.eqb_spec (zlen (r_ASPath e)) 0) as [E|_].
    { destruct (Ho e eq_refl). destruct (r_ASPath e); [done|]. simpl in E. lia. }
    destruct (better c e) eqn:Hb.
    + specialize (IH (Some c) Hl'). destruct (foldl merge (Some c) l) as [r|].
      * destruct IH as [Hin Hmin]; [by intros ? [= <-]|]. split; [set_solver|].
        assert (better c r = false) by (apply Hmin; by right).
        intros x [[->|Hx]%elem_of_cons|Hx]; [done | apply Hmin; by left |].
        simplify_eq. apply (better_neg_trans _ c); [done|].
        apply not_true_iff_false. intros Hxc.
        pose proof (better_trans _ _ _ Hxc Hb) as C. by rewrite better_irrefl in C.
      * by destruct IH as [? _]; [intros ? [= <-]|].
    + specialize (IH (Some e) Hl' Ho). destruct (foldl merge (Some e) l) as [r|].
      * destruct IH as [Hin Hmin]. split; [set_solver|].
        assert (better e r = false) by (apply Hmin; by right).
        intros x [[->|Hx]%elem_of_cons|Hx]; [|apply Hmin; by left|by simplify_eq].
        by apply (better_neg_trans _ e).
      * by destruct IH.
  - specialize (IH (Some c) Hl'). destruct (foldl merge (Some c) l) as [r|].
    + destruct IH as [Hin Hmin]; [by intros ? [= <-]|]. split; [set_solver|].
      intros x [[->|Hx]%elem_of_cons|Hx]; [apply Hmin; by right | apply Hmin; by left | done].
    + by destruct IH as [? _]; [intros ? [= <-]|].
Qed.

(** The entry of a non-terminal target is a best offer. *)
Lemma Compute_offer id locals advs t :
  ~ is_terminal locals t ->
  match Compute id locals advs !! t with
  | Some r => r ∈ offers id locals t advs /\
              forall c, c ∈ offers id locals t advs -> better c r = false
  | None => offers id locals t advs = []
  end.
Proof.
  intros Ht. rewrite Compute_lookup, decide_False by done.
  pose proof (offers_Permutation id locals t _ _ (merge_sort_Permutation peer_le advs)) as Hp.
  pose proof (merge_fold_spec (offers id locals t (merge_sort peer_le advs)) None) as Hm.
  destruct (foldl merge None _) as [r|].
  - destruct Hm as [[Hr|Hr] Hmin]; [by intros; eapply offers_path | done | | done].
    split; [by rewrite <- Hp|]. intros c Hc. apply Hmin. left. by rewrite Hp.
  - destruct Hm as [_ Hm]; [by intros; eapply offers_path | done |].
    rewrite Hm in Hp. symmetry in Hp. by apply Permutation_nil_r in Hp.
Qed.

(** Two advertisements of peers with distinct ids that make the same best offer
    are the same advertisement, so the best offer is unique. *)
Lemma offers_first_hop_inj id locals t advs c1 c2 :
  NoDup (p_ID ∘ pa_Peer <$> advs) ->
  c1 ∈ offers id locals t advs -> c2 ∈ offers id locals t advs ->
  first_hop (r_ASPath c1) = first_hop (r_ASPath c2) -> c1 = c2.
Proof.
  intros Hnd (pa1 & Hin1 & H1)%elem_of_offers (pa2 & Hin2 & H2)%elem_of_offers Hf.
  pose proof H1 as H1'. pose proof H2 as H2'.
  apply offer_of_Some in H1' as (r1 & ? & ? & ? & ? & ? & ? & ->).
  apply offer_of_Some in H2' as (r2 & ? & ? & ? & ? & ? & ? & ->). simpl in Hf.
  assert (pa1 = pa2) as ->; [|congruence].
  pose proof (filter_key_unique (p_ID ∘ pa_Peer) advs pa1 Hnd Hin1) as Hu.
  assert (pa2 ∈ filter (fun y => (p_ID ∘ pa_Peer) y = (p_ID ∘ pa_Peer) pa1) advs) as Hm.
  { apply list_elem_of_filter. by simpl. }
  rewrite Hu in Hm. by apply list_elem_of_singleton in Hm.
Qed.

(** Every entry of a computed table is keyed by its own target. *)
Lemma Compute_target id locals advs t r :
  Compute id locals advs !! t = Some r -> r_TargetCluster r = t.
Proof.
  intros Hr. destruct (decide (is_terminal locals t)) as [Ht|Ht].
  - rewrite Compute_lookup, decide_True in Hr by done. by simplify_eq/=.
  - pose proof (Compute_offer id locals advs t Ht) as Ho. rewrite Hr in Ho.
    destruct Ho as [(pa & _ & H)%elem_of_offers _].
    by apply offer_of_Some in H as (r' & _ & _ & <- & _ & _ & _ & ->).
Qed.

(** A computed entry is local, or a candidate made from a valid advertised row. *)
Lemma Compute_origin id locals advs t r :
  Compute id locals advs !! t = Some r ->
  (is_terminal locals t /\ r = local_route t) \/
  exists pa r', pa ∈ advs /\ r' ∈ a_Routes (pa_Adv pa) /\ validAdvertisedRoute r' = true /\
    r_TargetCluster r' = t /\ id ∉ r_ASPath r' /\ p_ID (pa_Peer pa) ∉ r_ASPath r' /\
    is_Some (locals !! p_LocalCluster (pa_Peer pa)) /\ r = candidate (pa_Peer pa) r'.
Proof.
  intros Hr. destruct (decide (is_terminal locals t)) as [Ht|Ht].
  - left. rewrite Compute_lookup, decide_True in Hr by done. by simplify_eq.
  - right. pose proof (Compute_offer id locals advs t Ht) as Ho. rewrite Hr in Ho.
    destruct Ho as [(pa & Hpa & H)%elem_of_offers _].
    apply offer_of_Some in H as (r' & ?). exists pa, r'. naive_solver.
Qed.

Lemma validAdvertisedRoute_spec r :
  validAdvertisedRoute r = true <->
  r_TargetCluster r <> "" /\ 0 <= r_Distance r <= MaxDistance /\ zlen (r_ASPath r) <= MaxASPath.
Proof.
  unfold validAdvertisedRoute, MaxDistance, MaxASPath.
  destruct (decide (r_TargetCluster r = "")) as [E|E];
    [rewrite bool_decide_true by done; naive_solver | rewrite bool_decide_false by done].
  destruct (Z.ltb_spec (r_Distance r) 0), (Z.ltb_spec 32 (r_Distance r)),
    (Z.ltb_spec 32 (zlen (r_ASPath r))); simpl; intuition (done || lia).
Qed.

Lemma candidate_distance peer r :
  validAdvertisedRoute r = true -> r_Distance (candidate peer r) = r_Distance r + 1.
Proof.
  intros (_ & Hd & _)%validAdvertisedRoute_spec. unfold MaxDistance, MaxASPath in Hd. simpl.
  apply wrap64_id. unfold int64_min, int64_max, hopCost. lia.
Qed.

(** Best path.  The entry [Compute] stores for a target is the local route
    when the target is a local terminal, whatever the peers say; otherwise it is
    one of the offers of the peers and no offer is preferred to it by [better];
    and there is no entry only when the target is not local and nobody offers a
    route to it. *)
Theorem Compute_best_path : forall id locals advs t,
  match Compute id locals advs !! t with
  | Some r =>
      (is_terminal locals t /\ r = local_route t) \/
      (~ is_terminal locals t /\ r ∈ offers id locals t advs /\
       forall c, c ∈ offers id locals t advs -> better c r = false)
  | None => ~ is_terminal locals t /\ offers id locals t advs = []
  end.
Proof.
  intros id locals advs t. destruct (decide (is_terminal locals t)) as [Ht|Ht].
  - rewrite Compute_lookup, decide_True by done. by left.
  - pose proof (Compute_offer id locals advs t Ht) as Ho.
    destruct (Compute id locals advs !! t); naive_solver.
Qed.

(** Determinism.  The table does not depend on the order in which Go iterates
    over the map of local clusters, nor on the order of the advertisements or on
    how the unstable sort.Slice orders them, when the peers have distinct ids. *)
Theorem Compute_order_independent : forall id locals advs advs' entries,
  NoDup (p_ID ∘ pa_Peer <$> advs) -> advs' ≡ₚ advs -> entries ≡ₚ map_to_list locals ->
  foldl (adv_step id locals) (local_routes entries) advs' = Compute id locals advs.
Proof.
  intros id locals advs advs' entries Hnd Hp He. apply map_eq. intros t.
  rewrite adv_fold_lookup, (local_routes_terminal locals) by done.
  destruct (decide (is_terminal locals t)) as [Ht|Ht].
  { rewrite Compute_lookup, decide_True by done. induction (offers id locals t advs'); done. }
  pose proof (Compute_offer id locals advs t Ht) as Ho.
  pose proof (offers_Permutation id locals t _ _ Hp) as Hpo.
  pose proof (merge_fold_spec (offers id locals t advs') None) as Hm.
  destruct (foldl merge None _) as [r1|], (Compute id locals advs !! t) as [r2|].
  - destruct Hm as [[Hr1|?] Hmin1]; [by intros; eapply offers_path | done | | done].
    destruct Ho as [Hr2 Hmin2]. rewrite Hpo in Hr1. f_equal.
    apply (offers_first_hop_inj id locals t advs); [done..|].
    apply better_incomparable; [by apply Hmin2|]. apply Hmin1. left. by rewrite Hpo.
  - rewrite Ho in Hpo. symmetry in Hpo. apply Permutation_nil_l in Hpo.
    destruct Hm as [[Hr|?] _]; [by intros; eapply offers_path | done | | done].
    rewrite <- Hpo in Hr. by apply not_elem_of_nil in Hr.
  - destruct Hm as [_ Hm]; [by intros; eapply offers_path | done |].
    rewrite Hm in Hpo. apply Permutation_nil_l in Hpo. rewrite <- Hpo in Ho.
    destruct Ho as [Ho _]. by apply not_elem_of_nil in Ho.
  - done.
Qed.

(** Loop freedom.  When every advertised path is free of repetitions and no
    peer carries this node's own id, no stored path visits this node or visits
    any node twice. *)
Theorem Compute_loop_free : forall id locals advs t r,
  (forall pa r', pa ∈ advs -> r' ∈ a_Routes (pa_Adv pa) -> NoDup (r_ASPath r')) ->
  (forall pa, pa ∈ advs -> p_ID (pa_Peer pa) <> id) ->
  Compute id locals advs !! t = Some r -> NoDup (id :: r_ASPath r).
Proof.
  intros id locals advs t r Hnd Hid Hr.
  destruct (Compute_origin _ _ _ _ _ Hr)
    as [[_ ->]|(pa & r' & Hpa & Hr' & _ & _ & Hlocal & Hpeer & _ & ->)]; simpl.
  { apply NoDup_singleton. }
  apply NoDup_cons. split; [specialize (Hid pa Hpa); set_solver|].
  apply NoDup_cons. eauto.
Qed.

(** C22: bounds.  The distance and the path of a stored route stay within one hop
    of the limits imposed on advertised routes, so the 64-bit addition of the hop
    cost never wraps. *)
Theorem Compute_bounds : forall id locals advs t r,
  Compute id locals advs !! t = Some r ->
  0 <= r_Distance r <= MaxDistance + hopCost /\ zlen (r_ASPath r) <= MaxASPath + 1.
Proof.
  intros id locals advs t r Hr.
  destruct (Compute_origin _ _ _ _ _ Hr) as [[_ ->]|(pa & r' & _ & _ & Hv & _ & _ & _ & _ & ->)].
  { unfold MaxDistance, MaxASPath, hopCost. simpl. lia. }
  rewrite candidate_distance by done. apply validAdvertisedRoute_spec in Hv.
  unfold hopCost. simpl length. lia.
Qed.

(** ** Advertisements *)

(** A table whose rows are keyed by their target, as [Compute] builds it. *)
Definition well_keyed (routes : gmap string Route) : Prop :=
  forall t r, routes !! t = Some r -> r_TargetCluster r = t.

#[export] Instance target_le_trans : Transitive target_le.
Proof. intros a b c. unfold target_le. apply str_le_trans. Qed.
#[export] Instance target_le_total : Total target_le.
Proof. intros a b. unfold target_le. apply str_le_total. Qed.

Lemma elem_of_AdvertiseTo t peerID r :
  r ∈ AdvertiseTo (Some t) peerID <->
  (exists k, t_Routes t !! k = Some r) /\ peerID ∉ r_ASPath r.
Proof.
  unfold AdvertiseTo. rewrite merge_sort_Permutation, list_elem_of_filter, hasInPath_false.
  rewrite list_elem_of_fmap.
  split.
  - intros [Hp ([k r0] & -> & H%elem_of_map_to_list)]; simpl in *. eauto.
  - intros [[k Hk] Hp]. split; [done|]. exists (k, r). by rewrite elem_of_map_to_list.
Qed.

Lemma map_to_list_targets routes :
  well_keyed routes -> r_TargetCluster <$> (map_to_list routes).*2 = (map_to_list routes).*1.
Proof.
  intros Hk. rewrite <- list_fmap_compose. apply list_fmap_ext. intros i [k r] H.
  apply list_elem_of_lookup_2, elem_of_map_to_list in H. by apply Hk.
Qed.

(** No two advertised rows have the same target. *)
Lemma AdvertiseTo_targets t peerID :
  well_keyed (t_Routes t) -> NoDup (r_TargetCluster <$> AdvertiseTo (Some t) peerID).
Proof.
  intros Hk. unfold AdvertiseTo. rewrite merge_sort_Permutation.
  eapply sublist_NoDup; [|apply fmap_sublist, sublist_filter].
  rewrite map_to_list_targets by done. apply NoDup_fst_map_to_list.
Qed.

(** Split horizon.  The advertisement made for a peer holds exactly the rows
    of the table whose path does not contain the peer, sorted by target with no
    target twice; and any sorted arrangement of the rows, in whatever order the
    map is iterated, is the same list. *)
Theorem AdvertiseTo_split_horizon : forall t peerID,
  well_keyed (t_Routes t) ->
  let out := AdvertiseTo (Some t) peerID in
  (forall r, r ∈ out <-> (exists k, t_Routes t !! k = Some r) /\ peerID ∉ r_ASPath r) /\
  StronglySorted target_le out /\ NoDup (r_TargetCluster <$> out) /\
  (forall out', StronglySorted target_le out' -> out' ≡ₚ out -> out' = out).
Proof.
  intros t peerID Hk out. split_and!.
  - intros r. apply elem_of_AdvertiseTo.
  - apply StronglySorted_merge_sort; apply _.
  - by apply AdvertiseTo_targets.
  - intros out' Hs Hp. eapply StronglySorted_unique_strong; [|done| |done].
    + intros r1 r2 H1 H2 L1 L2. rewrite Hp in H1.
      apply elem_of_AdvertiseTo in H1 as [[k1 H1] _], H2 as [[k2 H2] _].
      assert (r_TargetCluster r1 = r_TargetCluster r2) as E by by apply (anti_symm str_le).
      rewrite (Hk _ _ H1), (Hk _ _ H2) in E. congruence.
    + apply StronglySorted_merge_sort; apply _.
Qed.

(** ** Examples *)

(** Node a hears about "svc" from b (three hops) and from c (two hops). *)
Definition ex_locals : gmap string LocalCluster :=
  {["to-b" := mkLocalCluster "to-b" RolePeer "b"; "to-c" := mkLocalCluster "to-c" RolePeer "c";
    "db" := mkLocalCluster "db" RoleTerminal ""]}.
Definition ex_adv_b : PeerAdvertisement :=
  mkPeerAdvertisement (mkPeerSpec "b" "http://b" "to-b")
    (mkAdvertisement "b" [mkRoute "svc" "x" 2 ["d"; "e"]; mkRoute "db" "y" 0 []]).
Definition ex_adv_c : PeerAdvertisement :=
  mkPeerAdvertisement (mkPeerSpec "c" "http://c" "to-c")
    (mkAdvertisement "c" [mkRoute "svc" "x" 1 ["e"]; mkRoute "own" "y" 1 ["a"]]).
Definition ex_advs : list PeerAdvertisement := [ex_adv_b; ex_adv_c].

Example ex_compute :
  Compute "a" ex_locals ex_advs =
  {["db" := local_route "db"; "svc" := mkRoute "svc" "to-c" 2 ["c"; "e"]]}.
Proof. vm_compute. reflexivity. Qed.

Lemma Compute_order_independent_witness :
  foldl (adv_step "a" ex_locals) (local_routes (map_to_list ex_locals)) [ex_adv_c; ex_adv_b] =
  Compute "a" ex_locals ex_advs.
Proof.
  apply (Compute_order_independent "a" ex_locals ex_advs [ex_adv_c; ex_adv_b]).
  - decide_now.
  - apply Permutation_swap.
  - reflexivity.
Defined.

Lemma Compute_loop_free_witness : NoDup ["a"; "c"; "e"].
Proof.
  apply (Compute_loop_free "a" ex_locals ex_advs "svc" (mkRoute "svc" "to-c" 2 ["c"; "e"])).
  - intros pa r Hpa Hr. apply elem_of_cons in Hpa as [->|Hpa];
      [|apply list_elem_of_singleton in Hpa as ->];
      (apply elem_of_cons in Hr as [->|Hr]; [|apply list_elem_of_singleton in Hr as ->]);
      decide_now.
  - intros pa Hpa. apply elem_of_cons in Hpa as [->|Hpa];
      [|apply list_elem_of_singleton in Hpa as ->]; discriminate.
  - vm_compute. reflexivity.
Defined.

Lemma Compute_bounds_witness : 0 <= 2 <= MaxDistance + hopCost /\ zlen ["c"; "e"] <= MaxASPath + 1.
Proof.
  apply (Compute_bounds "a" ex_locals ex_advs "svc" (mkRoute "svc" "to-c" 2 ["c"; "e"])).
  vm_compute. reflexivity.
Defined.

Lemma AdvertiseTo_split_horizon_witness :
  let t := mkTable "a" (Compute "a" ex_locals ex_advs) ex_locals in
  NoDup (r_TargetCluster <$> AdvertiseTo (Some t) "c").
Proof.
  intros t. apply (AdvertiseTo_split_horizon t "c").
  intros k r Hk. apply (Compute_target "a" ex_locals ex_advs k r Hk).
Defined.

(** A route with the greatest accepted distance and path is stored with one hop
    more: 33 hops, where the comment on [MaxDistance] says at most 32. *)
Example Compute_stores_33_hops :
  let path := replicate 32 "x" in
  let adv := mkPeerAdvertisement (mkPeerSpec "b" "http://b" "to-b")
               (mkAdvertisement "b" [mkRoute "far" "x" 32 path]) in
  Compute "a" ex_locals [adv] !! "far" = Some (mkRoute "far" "to-b" 33 ("b" :: path)).
Proof. vm_compute. reflexivity. Qed.
