(* ===== verification/ClusterDaemon.v ===== *)
(** * cluster-router: the polling daemon

    extensions/composer/cluster-router/graph: peer.go and daemon.go.  A tick
    rebuilds the local clusters, polls every peer (one goroutine each, falling
    back to the cached advertisement while it is not stale) and stores a fresh
    table.  The HTTP round trip is a parameter; the JSON codec is the identity on
    the decoded value. *)

From S2P Require Import Prelude GoStr ClusterGraph.
From Stdlib Require Import Lia.

Local Open Scope Z_scope.

(** ** Serving and fetching advertisements (peer.go) *)

(** A reply as the client sees it: the status and the decoded body, [None] when
    the body does not decode (not JSON, or cut at [maxResponseBytes]). *)
Record Response : Type := mkResponse {
  resp_StatusCode : Z;
  resp_Adv : option Advertisement;
}.

Definition handle (envoyID : string) (t : Table) (method peerID : string) : Response :=
  if negb (bool_decide (method = "GET")) then mkResponse 405 None
  else mkResponse 200 (Some (mkAdvertisement envoyID (AdvertiseTo (Some t) peerID))).

Inductive FetchError : Type :=
| FetchRequestFailed
| FetchBadStatus (status : Z)
| FetchDecodeFailed.

(** [client endpoint method peer] performs the request, [None] on a transport
    error. *)
Definition FetchAdvertisement (client : string -> string -> string -> option Response)
    (peerEndpoint localEnvoyID : string) : result FetchError Advertisement :=
  match client peerEndpoint "GET" localEnvoyID with
  | None => Err FetchRequestFailed
  | Some resp =>
      if negb (resp_StatusCode resp =? 200) then Err (FetchBadStatus (resp_StatusCode resp))
      else match resp_Adv resp with
           | None => Err FetchDecodeFailed
           | Some adv => Ok adv
           end
  end.

(** ** The daemon (daemon.go) *)

Record DaemonConfig : Type := mkDaemonConfig {
  dc_EnvoyID : string;
  dc_AdvertiseListen : string;
  dc_Peers : list PeerSpec;
  dc_Terminals : list string;
  dc_PollInterval : Z;
  dc_StaleAfter : Z;
}.

Record peerCacheEntry : Type := mkPeerCacheEntry {
  ce_adv : Advertisement;
  ce_received : Z;
}.

Record Daemon : Type := mkDaemon {
  d_cfg : DaemonConfig;
  d_Table : Table;
  d_lastPeer : gmap string peerCacheEntry;
}.

Definition NewDaemon (cfg : DaemonConfig) : Daemon :=
  mkDaemon cfg (NewAtomicTable (dc_EnvoyID cfg)) ∅.

Definition buildLocals (cfg : DaemonConfig) : gmap string LocalCluster :=
  let out := foldl (fun out p =>
    <[p_LocalCluster p := mkLocalCluster (p_LocalCluster p) RolePeer (p_ID p)]> out)
    ∅ (dc_Peers cfg) in
  foldl (fun out name => <[name := mkLocalCluster name RoleTerminal ""]> out)
    out (dc_Terminals cfg).

(** [now.Sub(t)], saturating at the ends of the duration range. *)
Definition time_Sub (now t : Z) : Z := Z.max int64_min (Z.min int64_max (now - t)).

(** The body of the goroutine of peer [i]: its one step on the shared cache and
    its private slot of [results]. *)
Definition poll_peer (now staleAfter : Z) (fetch : PeerSpec -> result FetchError Advertisement)
    (job : nat * PeerSpec) (st : list (option PeerAdvertisement) * gmap string peerCacheEntry)
    : list (option PeerAdvertisement) * gmap string peerCacheEntry :=
  let '(i, p) := job in
  let '(results, lastPeer) := st in
  match fetch p with
  | Ok adv =>
      (<[i := Some (mkPeerAdvertisement p adv)]> results,
       <[p_ID p := mkPeerCacheEntry adv now]> lastPeer)
  | Err _ =>
      match lastPeer !! p_ID p with
      | Some entry =>
          if time_Sub now (ce_received entry) <=? staleAfter
          then (<[i := Some (mkPeerAdvertisement p (ce_adv entry))]> results, lastPeer)
          else st
      | None => st
      end
  end.

(** The goroutines in the order they take the lock. *)
Definition jobs (cfg : DaemonConfig) : list (nat * PeerSpec) := imap pair (dc_Peers cfg).

Definition collectPeers (sched : list (nat * PeerSpec)) (now : Z)
    (fetch : PeerSpec -> result FetchError Advertisement) (d : Daemon)
    : list PeerAdvertisement * gmap string peerCacheEntry :=
  let st := foldl (fun st job => poll_peer now (dc_StaleAfter (d_cfg d)) fetch job st)
                  (replicate (length (dc_Peers (d_cfg d))) None, d_lastPeer d) sched in
  (omap id st.1, st.2).

Definition tick (sched : list (nat * PeerSpec)) (now : Z)
    (fetch : PeerSpec -> result FetchError Advertisement) (d : Daemon) : Daemon :=
  let cfg := d_cfg d in
  let locals := buildLocals cfg in
  let '(advs, lastPeer) := collectPeers sched now fetch d in
  mkDaemon cfg (mkTable (dc_EnvoyID cfg) (Compute (dc_EnvoyID cfg) locals advs) locals) lastPeer.

(** ** Local clusters *)

Lemma fold_insert_lookup {A B} (key : A -> string) (f : A -> B) (l : list A)
    (m : gmap string B) k v :
  foldl (fun m x => <[key x := f x]> m) m l !! k = Some v ->
  (exists x, x ∈ l /\ key x = k /\ v = f x) \/ ((forall x, x ∈ l -> key x <> k) /\ m !! k = Some v).
Proof.
  revert m. induction l as [|x l IH]; intros m; simpl.
  { intros H. right. split; [|done]. intros y Hy. by apply not_elem_of_nil in Hy. }
  intros [(y & Hy & ? & ?)|[Hl H]]%IH.
  - left. exists y. set_solver.
  - rewrite lookup_insert in H. case_decide; simplify_eq.
    + left. exists x. set_solver.
    + right. set_solver.
Qed.

Lemma fold_insert_is_Some {A B} (key : A -> string) (f : A -> B) (l : list A)
    (m : gmap string B) k :
  (exists x, x ∈ l /\ key x = k) \/ is_Some (m !! k) ->
  is_Some (foldl (fun m x => <[key x := f x]> m) m l !! k).
Proof.
  revert m. induction l as [|x l IH]; intros m; simpl.
  - intros [(x & Hx & _)|?]; [by apply not_elem_of_nil in Hx|done].
  - intros H. apply IH. rewrite lookup_insert_is_Some'. set_solver.
Qed.

(** The terminals of a daemon are its configured terminals. *)
Lemma buildLocals_terminal cfg t :
  is_terminal (buildLocals cfg) t <-> t ∈ dc_Terminals cfg.
Proof.
  unfold is_terminal, buildLocals. split.
  - intros (lc & H & Hr)%fmap_Some.
    apply (fold_insert_lookup id (fun name => mkLocalCluster name RoleTerminal "")) in H
      as [(x & Hx & <- & _)|[_ H]]; [done|].
    apply (fold_insert_lookup p_LocalCluster
      (fun p => mkLocalCluster (p_LocalCluster p) RolePeer (p_ID p))) in H
      as [(p & _ & _ & ->)|[_ H]]; [done|]. by rewrite lookup_empty in H.
  - intros Ht. apply fmap_Some.
    destruct (fold_insert_is_Some id (fun name => mkLocalCluster name RoleTerminal "")
      (dc_Terminals cfg)
      (foldl (fun out p => <[p_LocalCluster p :=
         mkLocalCluster (p_LocalCluster p) RolePeer (p_ID p)]> out) ∅ (dc_Peers cfg)) t)
      as [lc Hlc]; [left; eauto|].
    exists lc. split; [done|].
    apply (fold_insert_lookup id (fun name => mkLocalCluster name RoleTerminal "")) in Hlc
      as [(x & _ & _ & ->)|[Hn _]]; [done|]. by destruct (Hn t).
Qed.

(** The local cluster of every peer is known. *)
Lemma buildLocals_peer cfg p :
  p ∈ dc_Peers cfg -> is_Some (buildLocals cfg !! p_LocalCluster p).
Proof.
  intros Hp. unfold buildLocals.
  apply (fold_insert_is_Some id (fun name => mkLocalCluster name RoleTerminal "")). right.
  apply (fold_insert_is_Some p_LocalCluster
    (fun p => mkLocalCluster (p_LocalCluster p) RolePeer (p_ID p))). eauto.
Qed.

(** ** Polling *)

#[export] Instance PeerSpec_job_eq_dec : EqDecision (nat * PeerSpec).
Proof. apply _. Defined.

Lemma elem_of_jobs cfg i p : (i, p) ∈ jobs cfg <-> dc_Peers cfg !! i = Some p.
Proof.
  unfold jobs. rewrite elem_of_lookup_imap. split.
  - by intros (i' & p' & [= -> ->] & H).
  - eauto.
Qed.

Lemma jobs_fst cfg : (jobs cfg).*1 = seq 0 (length (dc_Peers cfg)).
Proof.
  unfold jobs. rewrite fmap_imap.
  trans (imap (fun j (_ : PeerSpec) => id j) (dc_Peers cfg)); [by apply imap_ext|].
  rewrite imap_seq_0. apply list_fmap_id.
Qed.

(** The goroutines of two peers with different ids commute. *)
Lemma poll_peer_commute now stale fetch j1 j2 st :
  j1.1 <> j2.1 -> p_ID j1.2 <> p_ID j2.2 ->
  poll_peer now stale fetch j2 (poll_peer now stale fetch j1 st) =
  poll_peer now stale fetch j1 (poll_peer now stale fetch j2 st).
Proof.
  destruct j1 as [i1 p1], j2 as [i2 p2], st as [rs last]; simpl. intros Hi Hp.
  unfold poll_peer.
  destruct (fetch p1), (fetch p2); rewrite ?lookup_insert_ne by done;
    repeat (case_match; simplify_map_eq); try done;
    rewrite ?(list_insert_insert_ne _ i2 i1) by done; try done;
    rewrite ?(insert_insert_ne _ (p_ID p2) (p_ID p1)) by done; done.
Qed.

Lemma collectPeers_sched cfg_d now fetch sched d :
  d_cfg d = cfg_d -> NoDup (p_ID <$> dc_Peers cfg_d) -> sched ≡ₚ jobs cfg_d ->
  collectPeers sched now fetch d = collectPeers (jobs cfg_d) now fetch d.
Proof.
  intros <- Hnd Hp. unfold collectPeers. f_equal; f_equal; [f_equal|];
    symmetry; (apply foldl_Permutation; [|by symmetry]);
    intros [i1 p1] [i2 p2] st H1%elem_of_jobs H2%elem_of_jobs Hne;
    (apply poll_peer_commute; simpl; [congruence|]);
    intros E; apply Hne; assert (i1 = i2) as -> by
      (eapply (NoDup_lookup _ _ _ (p_ID p1)); [exact Hnd|..]; rewrite list_lookup_fmap;
       rewrite ?H1, ?H2; simpl; congruence); congruence.
Qed.

(** What is collected and what is cached comes from a successful fetch or from
    the cache. *)
Lemma poll_fold_invariant (Q : PeerSpec -> Advertisement -> Prop)
    (C : string -> Advertisement -> Prop) now stale fetch sched st :
  (forall i p adv, (i, p) ∈ sched -> fetch p = Ok adv -> Q p adv /\ C (p_ID p) adv) ->
  (forall i p adv, (i, p) ∈ sched -> C (p_ID p) adv -> Q p adv) ->
  (forall i pa, st.1 !! i = Some (Some pa) -> Q (pa_Peer pa) (pa_Adv pa)) ->
  (forall k e, st.2 !! k = Some e -> C k (ce_adv e)) ->
  let st' := foldl (fun st job => poll_peer now stale fetch job st) st sched in
  (forall i pa, st'.1 !! i = Some (Some pa) -> Q (pa_Peer pa) (pa_Adv pa)) /\
  (forall k e, st'.2 !! k = Some e -> C k (ce_adv e)).
Proof.
  revert st. induction sched as [|[i p] sched IH]; intros [rs last] Hf HC Hr Hl; simpl in *; [done|].
  apply IH; [set_solver..| |].
  - intros j pa Hj. destruct (fetch p) as [adv|err] eqn:Hp; simpl in Hj.
    + apply list_lookup_insert_Some in Hj as [(-> & [= <-] & _)|(_ & Hj)]; [|by eapply Hr].
      eapply Hf; [left|done].
    + destruct (last !! p_ID p) as [e|] eqn:He; [|by eapply Hr].
      destruct (_ <=? _); [|by eapply Hr]. simpl in Hj.
      apply list_lookup_insert_Some in Hj as [(-> & [= <-] & _)|(_ & Hj)]; [|by eapply Hr].
      eapply HC; [left|]. simpl. by apply Hl.
  - intros k e Hk. destruct (fetch p) as [adv|err] eqn:Hp; simpl in Hk.
    + apply lookup_insert_Some in Hk as [[<- <-]|[_ Hk]]; [|by apply Hl].
      simpl. eapply Hf; [left|done].
    + destruct (last !! p_ID p) as [e'|]; [|by apply Hl].
      destruct (_ <=? _); by apply Hl.
Qed.

(** The slot of a peer that answered holds its answer. *)
Lemma poll_fold_answer now stale fetch sched st i p adv :
  NoDup sched.*1 -> (i, p) ∈ sched -> fetch p = Ok adv -> (i < length st.1)%nat ->
  (foldl (fun st job => poll_peer now stale fetch job st) st sched).1 !! i =
  Some (Some (mkPeerAdvertisement p adv)).
Proof.
  assert (forall job st, length (poll_peer now stale fetch job st).1 = length st.1) as Hlen.
  { intros [j q] [rs last]; simpl. destruct (fetch q); simpl; [apply length_insert|].
    destruct (last !! p_ID q); [|done]. destruct (_ <=? _); simpl; [apply length_insert|done]. }
  induction sched as [|[j q] sched IH] using rev_ind; intros Hnd Hin Hf Hi.
  { by apply not_elem_of_nil in Hin. }
  rewrite fmap_app, NoDup_app in Hnd. destruct Hnd as (Hnd & Hdisj & _).
  rewrite foldl_app; simpl. apply elem_of_app in Hin as [Hin|Hin%list_elem_of_singleton].
  - assert (i <> j).
    { intros ->. apply (Hdisj j); [|simpl; left].
      apply list_elem_of_fmap. by exists (j, p). }
    specialize (IH Hnd Hin Hf Hi). revert IH.
    destruct (foldl _ st sched) as [rs last]; simpl. intros IH.
    destruct (fetch q); simpl; [by rewrite list_lookup_insert_ne|].
    destruct (last !! p_ID q); [|done].
    destruct (_ <=? _); simpl; [by rewrite list_lookup_insert_ne|done].
  - simplify_eq. assert (length (foldl (fun st job => poll_peer now stale fetch job st) st sched).1
      = length st.1) as Hl.
    { clear -Hlen. revert st. induction sched as [|x l IHl]; intros st; simpl; [done|].
      by rewrite IHl, Hlen. }
    destruct (foldl _ st sched) as [rs last]; simpl in *. rewrite Hf; simpl.
    apply list_lookup_insert_eq. lia.
Qed.

(** Goroutines of other peers leave a peer's slot and cache entry alone. *)
Lemma poll_fold_frame now stale fetch sched st i k :
  (forall j q, (j, q) ∈ sched -> j <> i /\ p_ID q <> k) ->
  let st' := foldl (fun st job => poll_peer now stale fetch job st) st sched in
  st'.1 !! i = st.1 !! i /\ st'.2 !! k = st.2 !! k.
Proof.
  revert st. induction sched as [|[j q] sched IH]; intros [rs last] Hs; [done|]. cbn [foldl].
  destruct (Hs j q) as [Hj Hq]; [left|].
  pose proof (IH (poll_peer now stale fetch (j, q) (rs, last))) as [-> ->]; [set_solver|].
  unfold poll_peer. destruct (fetch q); simpl.
  - by rewrite list_lookup_insert_ne, lookup_insert_ne.
  - destruct (last !! p_ID q); [|done].
    destruct (_ <=? _); simpl; [|done]. by rewrite list_lookup_insert_ne.
Qed.

(** The jobs with the one of peer [i] moved to the end, and the frame facts about
    the others. *)
Lemma jobs_split cfg i p :
  NoDup (p_ID <$> dc_Peers cfg) -> dc_Peers cfg !! i = Some p ->
  exists rest, rest ++ [(i, p)] ≡ₚ jobs cfg /\
    forall j q, (j, q) ∈ rest -> j <> i /\ p_ID q <> p_ID p.
Proof.
  intros Hnd Hi. set (l := dc_Peers cfg) in *.
  exists (take i (jobs cfg) ++ drop (S i) (jobs cfg)).
  assert (jobs cfg !! i = Some (i, p)) as Hj.
  { unfold jobs. rewrite list_lookup_imap. by fold l; rewrite Hi. }
  split.
  - rewrite <- (take_drop_middle _ _ _ Hj) at 3. solve_Permutation.
  - intros j q Hin.
    assert (j <> i /\ l !! j = Some q) as [Hne Hq].
    { apply elem_of_app in Hin as [Hin|Hin];
        apply list_elem_of_lookup in Hin as [x Hx].
      - apply lookup_take_Some in Hx as [Hx Hlt].
        apply list_lookup_imap_Some in Hx as (y & Hy & [= -> ->]). split; [lia|done].
      - rewrite lookup_drop in Hx.
        apply list_lookup_imap_Some in Hx as (y & Hy & [= -> ->]). split; [lia|done]. }
    split; [done|]. intros E. apply Hne.
    eapply (NoDup_lookup _ _ _ (p_ID p)); [exact Hnd|..]; rewrite list_lookup_fmap; fold l;
      rewrite ?Hi, ?Hq; simpl; congruence.
Qed.

(** ** Properties of a tick *)

(** Interleaving.  Whatever order the peer goroutines run in, a tick stores
    the same table and leaves the same cache, when the configured peers have
    distinct ids. *)
Theorem tick_interleaving_independent : forall sched now fetch d,
  NoDup (p_ID <$> dc_Peers (d_cfg d)) -> sched ≡ₚ jobs (d_cfg d) ->
  tick sched now fetch d = tick (jobs (d_cfg d)) now fetch d.
Proof.
  intros sched now fetch d Hnd Hp. unfold tick.
  by rewrite (collectPeers_sched (d_cfg d) now fetch sched d).
Qed.

(** Peer isolation.  A peer whose request fails contributes its cached
    advertisement exactly while the entry is no older than [StaleAfter], and
    nothing otherwise; its cache entry is left as it was. *)
Theorem collectPeers_failed_peer : forall now fetch d i p err,
  NoDup (p_ID <$> dc_Peers (d_cfg d)) -> dc_Peers (d_cfg d) !! i = Some p ->
  fetch p = Err err ->
  let out := collectPeers (jobs (d_cfg d)) now fetch d in
  out.2 !! p_ID p = d_lastPeer d !! p_ID p /\
  (forall adv, mkPeerAdvertisement p adv ∈ out.1 <->
     exists received, d_lastPeer d !! p_ID p = Some (mkPeerCacheEntry adv received) /\
       time_Sub now received <= dc_StaleAfter (d_cfg d)).
Proof.
  intros now fetch d i p err Hnd Hi Hf out.
  destruct (jobs_split _ _ _ Hnd Hi) as (rest & Hp & Hrest).
  subst out. rewrite <- (collectPeers_sched (d_cfg d) now fetch (rest ++ [(i, p)]) d) by done.
  unfold collectPeers. rewrite foldl_app. cbn [foldl].
  set (st0 := (replicate (length (dc_Peers (d_cfg d))) None, d_lastPeer d)).
  pose proof (poll_fold_frame now (dc_StaleAfter (d_cfg d)) fetch rest st0 i (p_ID p) Hrest)
    as [Hfi Hfk].
  destruct (poll_fold_invariant (fun q _ => q <> p) (fun _ _ => True) now
    (dc_StaleAfter (d_cfg d)) fetch rest st0) as [Hothers _]; [naive_solver..| |done|].
  { intros j pa Hj. by apply lookup_replicate in Hj as [? _]. }
  destruct (foldl _ st0 rest) as [rs last]; simpl in *.
  assert (rs !! i = Some None) as Hrs.
  { rewrite Hfi. apply lookup_replicate. split; [done|]. by apply lookup_lt_Some in Hi. }
  rewrite Hf. assert (forall adv, mkPeerAdvertisement p adv ∉ omap id rs) as Hnone.
  { intros adv (o & Ho & Eo)%list_elem_of_omap. simpl in Eo. subst o. apply list_elem_of_lookup in Ho as [j Hj].
    by eapply Hothers in Hj. }
  rewrite Hfk. destruct (d_lastPeer d !! p_ID p) as [[a rec]|] eqn:Hl; simpl;
    [|split; [congruence|]; intros adv; split; [by intros ?%Hnone | naive_solver]].
  destruct (Z.leb_spec (time_Sub now rec) (dc_StaleAfter (d_cfg d))); simpl;
    (split; [congruence|]; intros adv).
  - split.
    + intros (o & Ho & Eo)%list_elem_of_omap. simpl in Eo. subst o.
      apply list_elem_of_lookup in Ho as [j Hj].
      apply list_lookup_insert_Some in Hj as [(_ & [= ->] & _)|(_ & Hj)]; [eauto|].
      by eapply Hothers in Hj.
    + intros (rec' & [= -> ->] & _). apply list_elem_of_omap.
      exists (Some (mkPeerAdvertisement p adv)). split; [|done].
      apply list_elem_of_lookup. exists i. apply list_lookup_insert_eq.
      by eapply lookup_lt_Some.
  - split; [by intros ?%Hnone|]. intros (? & ? & ?). simplify_eq. lia.
Qed.

(** ** Examples *)

Definition ex_cfg : DaemonConfig :=
  mkDaemonConfig "a" ":1" [mkPeerSpec "b" "http://b" "to-b"; mkPeerSpec "c" "http://c" "to-c"]
    ["db"] 10 60.
Definition ex_cached : Advertisement := mkAdvertisement "b" [mkRoute "svc" "x" 0 []].
Definition ex_daemon : Daemon :=
  mkDaemon ex_cfg (NewAtomicTable "a") {["b" := mkPeerCacheEntry ex_cached 100]}.
(** b does not answer, c does. *)
Definition ex_fetch (p : PeerSpec) : result FetchError Advertisement :=
  if decide (p_ID p = "b") then Err FetchRequestFailed
  else Ok (mkAdvertisement "c" [mkRoute "svc" "y" 3 ["d"; "e"; "f"]]).

Lemma tick_interleaving_independent_witness :
  tick (reverse (jobs ex_cfg)) 150 ex_fetch ex_daemon = tick (jobs ex_cfg) 150 ex_fetch ex_daemon.
Proof.
  apply (tick_interleaving_independent (reverse (jobs ex_cfg)) 150 ex_fetch ex_daemon).
  - decide_now.
  - apply reverse_Permutation.
Defined.

Lemma collectPeers_failed_peer_witness :
  mkPeerAdvertisement (mkPeerSpec "b" "http://b" "to-b") ex_cached
    ∈ (collectPeers (jobs ex_cfg) 150 ex_fetch ex_daemon).1.
Proof.
  apply (collectPeers_failed_peer 150 ex_fetch ex_daemon 0
    (mkPeerSpec "b" "http://b" "to-b") FetchRequestFailed).
  - decide_now.
  - reflexivity.
  - reflexivity.
  - exists 100. split; [vm_compute; reflexivity | vm_compute; discriminate].
Defined.

(** Two ticks of the daemon: the cached advertisement is used at 150 and dropped
    at 161, 61 units after it was received. *)
Example ex_tick_stale :
  (fun r => (r_NextHopLocalCluster r, r_Distance r)) <$>
    t_Routes (d_Table (tick (jobs ex_cfg) 150 ex_fetch ex_daemon)) !! "svc" = Some ("to-b", 1) /\
  (fun r => (r_NextHopLocalCluster r, r_Distance r)) <$>
    t_Routes (d_Table (tick (jobs ex_cfg) 161 ex_fetch ex_daemon)) !! "svc" = Some ("to-c", 4).
Proof. vm_compute. done. Qed.
