(* ===== verification/ClusterMesh.v ===== *)
(** * cluster-router: a mesh of daemons

    The protocol the daemons run together: every node of a mesh runs the daemon
    of [ClusterDaemon] and its peers answer with the handler of peer.go.  A step
    of the mesh is one tick of one node, in which every request either fails or
    returns the advertisement the peer serves at that moment.  Safety holds along
    every such run, whatever fails; convergence holds when requests succeed. *)

From S2P Require Import Prelude GoStr ClusterGraph ClusterDaemon.
From Stdlib Require Import Lia.

Local Open Scope Z_scope.

(** ** Runs *)

(** What the node a peer specification names answers to [n].  Nodes are named by
    their envoy id, and a peer's id is the envoy id of the node behind its
    endpoint. *)
Definition serve (net : gmap string Daemon) (p : PeerSpec) (n : string)
    : result FetchError Advertisement :=
  FetchAdvertisement
    (fun _ method peer =>
       (fun d => handle (dc_EnvoyID (d_cfg d)) (d_Table d) method peer) <$> net !! p_ID p)
    (p_Endpoint p) n.

(** One tick of node [n]; a request may fail. *)
Inductive mesh_step (net : gmap string Daemon) : gmap string Daemon -> Prop :=
| mesh_tick n d sched now fetch :
    net !! n = Some d ->
    sched ≡ₚ jobs (d_cfg d) ->
    (forall p, p ∈ dc_Peers (d_cfg d) -> fetch p = serve net p n \/ exists e, fetch p = Err e) ->
    mesh_step net (<[n := tick sched now fetch d]> net).

(** A run in which no request is lost, with the nodes that ticked, latest first. *)
Inductive reliable_run (net : gmap string Daemon) : list string -> gmap string Daemon -> Prop :=
| reliable_nil : reliable_run net [] net
| reliable_tick ns net' n d sched now :
    reliable_run net ns net' ->
    net' !! n = Some d ->
    sched ≡ₚ jobs (d_cfg d) ->
    reliable_run net (n :: ns) (<[n := tick sched now (fun p => serve net' p n) d]> net').

(** The freshly started mesh. *)
Definition boot (topo : gmap string DaemonConfig) : gmap string Daemon := NewDaemon <$> topo.

(** What the plugin's configuration validation guarantees for one node. *)
Definition wf_config (n : string) (cfg : DaemonConfig) : Prop :=
  dc_EnvoyID cfg = n /\ NoDup (p_ID <$> dc_Peers cfg) /\
  n ∉ p_ID <$> dc_Peers cfg /\ "" ∉ dc_Terminals cfg.

Definition wf_topo (topo : gmap string DaemonConfig) : Prop :=
  forall n cfg, topo !! n = Some cfg -> wf_config n cfg.

(** [as_path topo n t path]: going from [n] through the nodes of [path], each a
    configured peer of the one before, ends at a node that has [t] as a terminal. *)
Inductive as_path (topo : gmap string DaemonConfig) : string -> string -> list string -> Prop :=
| as_path_here n cfg t :
    topo !! n = Some cfg -> t ∈ dc_Terminals cfg -> as_path topo n t []
| as_path_hop n cfg p t path :
    topo !! n = Some cfg -> p ∈ dc_Peers cfg -> as_path topo (p_ID p) t path ->
    as_path topo n t (p_ID p :: path).

(** The hop distance of a target. *)
Definition hops (topo : gmap string DaemonConfig) (n t : string) (d : Z) : Prop :=
  (exists path, as_path topo n t path /\ zlen path = d) /\
  (forall path, as_path topo n t path -> d <= zlen path).

(** A row that describes a real, loop-free path from [n]. *)
Definition good_row (topo : gmap string DaemonConfig) (n : string) (r : Route) : Prop :=
  as_path topo n (r_TargetCluster r) (r_ASPath r) /\
  r_Distance r = zlen (r_ASPath r) /\ NoDup (n :: r_ASPath r).

(** The local next hop of a row leads to the first node of its path. *)
Definition good_next_hop (cfg : DaemonConfig) (r : Route) : Prop :=
  match r_ASPath r with
  | [] => r_NextHopLocalCluster r = r_TargetCluster r /\ r_TargetCluster r ∈ dc_Terminals cfg
  | h :: _ => exists p, p ∈ dc_Peers cfg /\ p_ID p = h /\ r_NextHopLocalCluster r = p_LocalCluster p
  end.

(** The invariant of the mesh. *)
Definition good_node (topo : gmap string DaemonConfig) (n : string) (d : Daemon) : Prop :=
  topo !! n = Some (d_cfg d) /\ well_keyed (t_Routes (d_Table d)) /\
  (forall t r, t_Routes (d_Table d) !! t = Some r -> good_row topo n r /\ good_next_hop (d_cfg d) r) /\
  (forall k e r, d_lastPeer d !! k = Some e -> r ∈ a_Routes (ce_adv e) -> good_row topo k r).

Definition good_mesh (topo : gmap string DaemonConfig) (net : gmap string Daemon) : Prop :=
  dom net = dom topo /\ forall n d, net !! n = Some d -> good_node topo n d.

(** Forwarding a request for [t] hop by hop, following the first hop of each
    table entry; [Some m] when it is delivered to the terminal at node [m]. *)
Fixpoint forward (fuel : nat) (net : gmap string Daemon) (n t : string) : option string :=
  match fuel with
  | O => None
  | S fuel' =>
      d ← net !! n;
      r ← Lookup (Some (d_Table d)) t;
      match r_ASPath r with
      | [] => Some n
      | h :: _ => forward fuel' net h t
      end
  end.

(** ** Safety *)

Section Mesh.
Context (topo : gmap string DaemonConfig) (Hwf : wf_topo topo).

Lemma boot_good : good_mesh topo (boot topo).
Proof.
  split; [unfold boot; apply dom_fmap_L|].
  intros n d (cfg & <- & Hc)%lookup_fmap_Some. split_and!; by simpl.
Qed.

(** The rows a good node serves are good rows that avoid the asking node. *)
Lemma serve_good net p n adv r :
  good_mesh topo net -> serve net p n = Ok adv -> r ∈ a_Routes adv ->
  good_row topo (p_ID p) r /\ n ∉ r_ASPath r.
Proof.
  intros [_ Hg] Hs Hr. unfold serve, FetchAdvertisement, handle in Hs.
  destruct (net !! p_ID p) as [d|] eqn:Hd; simplify_eq/=.
  apply elem_of_AdvertiseTo in Hr as [[k Hk] Hn]. split; [|done].
  by apply (Hg _ _ Hd) in Hk as [? _].
Qed.

(** A tick on good advertisements makes a good node. *)
Lemma tick_good n d sched now fetch :
  good_node topo n d -> sched ≡ₚ jobs (d_cfg d) ->
  (forall p adv r, p ∈ dc_Peers (d_cfg d) -> fetch p = Ok adv -> r ∈ a_Routes adv ->
     good_row topo (p_ID p) r) ->
  good_node topo n (tick sched now fetch d).
Proof.
  intros (Hcfg & Hk & Hrows & Hcache) Hp Hf. destruct (Hwf n _ Hcfg) as (Hn & Hnd & Hself & _).
  unfold tick. destruct (collectPeers sched now fetch d) as [advs last'] eqn:Hcol; simpl.
  assert (forall j q, (j, q) ∈ sched -> q ∈ dc_Peers (d_cfg d)) as Hin.
  { intros j q Hq. rewrite Hp, elem_of_jobs in Hq. by eapply list_elem_of_lookup_2. }
  destruct (poll_fold_invariant
    (fun q adv => q ∈ dc_Peers (d_cfg d) /\ forall r, r ∈ a_Routes adv -> good_row topo (p_ID q) r)
    (fun k adv => forall r, r ∈ a_Routes adv -> good_row topo k r)
    now (dc_StaleAfter (d_cfg d)) fetch sched
    (replicate (length (dc_Peers (d_cfg d))) None, d_lastPeer d)) as [Hadvs Hlast].
  { intros i p adv Hi%Hin He. naive_solver. }
  { intros i p adv Hi%Hin HC. naive_solver. }
  { intros i pa Hi. by apply lookup_replicate in Hi as [? _]. }
  { intros k e He r Hr. by eapply Hcache. }
  unfold collectPeers in Hcol. simplify_eq. split_and!; simpl; [done|..].
  - intros t r Hr. by eapply Compute_target.
  - intros t r Hr. unfold good_row, good_next_hop.
    rewrite (Compute_target _ _ _ _ _ Hr).
    apply Compute_origin in Hr as [[Ht%buildLocals_terminal ->]|
      (pa & r' & Hpa & Hr' & Hv & <- & Hl1 & Hl2 & _ & ->)]; simpl.
    + split; [|done]. split_and!; [by eapply as_path_here|done|apply NoDup_singleton].
    + apply list_elem_of_omap in Hpa as (o & Ho & Eo). simpl in Eo. subst o.
      apply list_elem_of_lookup in Ho as [i Hi]. apply Hadvs in Hi as [Hpeer Hgood].
      destruct (Hgood _ Hr') as (Hpath & Hdist & Hnodup).
      pose proof (candidate_distance (pa_Peer pa) r' Hv) as Hcd. simpl in Hcd.
      split; [|by exists (pa_Peer pa)]. split_and!.
      * by eapply as_path_hop.
      * rewrite Hcd, Hdist. lia.
      * apply NoDup_cons. split; [|done]. apply not_elem_of_cons.
        split; [|done]. intros E. apply Hself. rewrite E. by apply list_elem_of_fmap_2.
  - intros k e r He Hr. by eapply Hlast.
Qed.

Lemma insert_good net n d :
  good_mesh topo net -> is_Some (net !! n) -> good_node topo n d ->
  good_mesh topo (<[n := d]> net).
Proof.
  intros [Hdom Hg] Hn Hd. split.
  - rewrite dom_insert_lookup_L by done. done.
  - intros m d' [[<- <-]|[_ Hm]]%lookup_insert_Some; [done|by apply Hg].
Qed.

Lemma step_good net net' : good_mesh topo net -> mesh_step net net' -> good_mesh topo net'.
Proof.
  intros Hg Hs. destruct Hs as [n d sched now fetch Hd Hp Hf].
  pose proof (proj2 Hg _ _ Hd) as Hgn.
  apply insert_good; [done | by eexists |]. eapply tick_good; [done..|].
  intros p adv r Hin He Hr. destruct (Hf p Hin) as [Hs|[e Hs]]; [|congruence].
  rewrite He in Hs. eapply serve_good; [done| |done]. by symmetry.
Qed.

Lemma reachable_good net : steps mesh_step (boot topo) net -> good_mesh topo net.
Proof. apply steps_invariant; [apply step_good | apply boot_good]. Qed.

(** ** Convergence *)

(** Every target at most [k] hops away has a route of the right length. *)
Definition converged (k : Z) (net : gmap string Daemon) : Prop :=
  forall n t d, hops topo n t d -> d <= k -> d <= MaxDistance + 1 ->
    exists node r, net !! n = Some node /\ t_Routes (d_Table node) !! t = Some r /\ r_Distance r = d.

Lemma as_path_node n t path : as_path topo n t path -> is_Some (topo !! n).
Proof. intros H. inversion H; eauto. Qed.

Lemma as_path_target n t path : as_path topo n t path -> t <> "".
Proof.
  intros H. induction H as [n cfg t Hn Ht|]; [|done].
  destruct (Hwf n cfg Hn) as (_ & _ & _ & He). by intros ->.
Qed.

(** A node on a path has the rest of the path as its own. *)
Lemma as_path_suffix n t path m :
  as_path topo n t path -> m ∈ path ->
  exists rest, as_path topo m t rest /\ (length rest < length path)%nat.
Proof.
  induction 1 as [|n cfg p t path Hn Hp Hpath IH]; intros Hm;
    [by apply not_elem_of_nil in Hm|].
  apply elem_of_cons in Hm as [->|Hm].
  - exists path. split; [done|simpl; lia].
  - destruct (IH Hm) as (rest & ? & ?). exists rest. split; [done|simpl; lia].
Qed.

(** A shortest path goes through a peer that is one hop closer. *)
Lemma hops_pred n t d :
  hops topo n t d -> 0 < d ->
  exists cfg p, topo !! n = Some cfg /\ p ∈ dc_Peers cfg /\ hops topo (p_ID p) t (d - 1).
Proof.
  intros [(path & Hpath & Hlen) Hmin] Hd.
  inversion Hpath as [|n' cfg p t' rest Hn Hp Hrest]; subst; [simpl in Hd; lia|].
  exists cfg, p. split_and!; [done..|]. split.
  - exists rest. split; [done|simpl; lia].
  - intros path' Hpath'. 
    assert (as_path topo n t (p_ID p :: path')) as Hhop%Hmin by by eapply as_path_hop.
    simpl in *. lia.
Qed.

(** The offer of an adjacent node that already has a shortest route. *)
Lemma neighbour_offers net n cfg p t d node locals adv :
  good_mesh topo net -> hops topo n t d -> 0 < d -> d <= MaxDistance + 1 ->
  topo !! n = Some cfg -> p ∈ dc_Peers cfg -> hops topo (p_ID p) t (d - 1) ->
  net !! p_ID p = Some node ->
  (exists r, t_Routes (d_Table node) !! t = Some r /\ r_Distance r = d - 1) ->
  is_Some (locals !! p_LocalCluster p) -> serve net p n = Ok adv ->
  exists c, offer_of n locals t (mkPeerAdvertisement p adv) = Some c /\ r_Distance c = d.
Proof.
  intros Hg Hh Hd Hmax Hn Hp Hhp Hnode (r & Hr & Hrd) Hloc Hs.
  destruct (proj2 Hg _ _ Hnode) as (Hcfg & Hk & Hrows & _).
  destruct (Hrows _ _ Hr) as [(Hpath & Hdist & Hnd) _].
  pose proof (Hk _ _ Hr) as Ht. rewrite Ht in Hpath.
  unfold serve, FetchAdvertisement, handle in Hs. rewrite Hnode in Hs. simplify_eq/=.
  assert (n ∉ r_ASPath r) as Hloop.
  { intros Hin. destruct (as_path_suffix _ _ _ _ Hpath Hin) as (rest & Hrest & Hlt).
    apply (proj2 Hh) in Hrest. lia. }
  assert (r ∈ AdvertiseTo (Some (d_Table node)) n) as Hadv
    by (apply elem_of_AdvertiseTo; eauto).
  assert (validAdvertisedRoute r = true) as Hv.
  { apply validAdvertisedRoute_spec. pose proof (as_path_target _ _ _ Hpath).
    unfold MaxDistance, MaxASPath in *. split_and!; [done|lia..]. }
  unfold offer_of, offer; simpl. destruct Hloc as [lc ->].
  destruct (head _) as [r0|] eqn:Hh0; [|exfalso; by eapply filter_head_None].
  assert (r0 = r) as ->.
  { apply filter_head_Some in Hh0 as (Hin & _ & Hr0).
    apply elem_of_AdvertiseTo in Hin as [[k Hk0] _]. pose proof (Hk _ _ Hk0). congruence. }
  apply NoDup_cons in Hnd as [Hpn _].
  rewrite (proj2 (hasInPath_false _ _) Hloop), (proj2 (hasInPath_false _ _) Hpn); simpl.
  eexists. split; [done|]. rewrite candidate_distance by done. lia.
Qed.

(** A peer's answer is collected, so its offer is taken into account. *)
Lemma tick_takes_offer n d sched now fetch i p adv t c :
  sched ≡ₚ jobs (d_cfg d) -> dc_EnvoyID (d_cfg d) = n ->
  dc_Peers (d_cfg d) !! i = Some p -> fetch p = Ok adv ->
  t ∉ dc_Terminals (d_cfg d) ->
  offer_of n (buildLocals (d_cfg d)) t (mkPeerAdvertisement p adv) = Some c ->
  exists r, t_Routes (d_Table (tick sched now fetch d)) !! t = Some r /\ better c r = false.
Proof.
  intros Hp Hn Hi Hf Ht Ho. unfold tick.
  destruct (collectPeers sched now fetch d) as [advs last'] eqn:Hcol; simpl. rewrite Hn.
  assert (mkPeerAdvertisement p adv ∈ advs) as Hin.
  { unfold collectPeers in Hcol. simplify_eq. apply list_elem_of_omap.
    exists (Some (mkPeerAdvertisement p adv)). split; [|done].
    apply list_elem_of_lookup. exists i. apply poll_fold_answer; [| |done|].
    - rewrite Hp, jobs_fst. apply NoDup_seq.
    - rewrite Hp. by apply elem_of_jobs.
    - simpl. rewrite length_replicate. by eapply lookup_lt_Some. }
  pose proof (Compute_offer n (buildLocals (d_cfg d)) advs t) as Hco.
  rewrite buildLocals_terminal in Hco. specialize (Hco Ht).
  assert (c ∈ offers n (buildLocals (d_cfg d)) t advs) as Hc by (apply elem_of_offers; eauto).
  destruct (Compute _ _ _ !! t) as [r|].
  - exists r. split; [done|]. by apply Hco.
  - rewrite Hco in Hc. by apply not_elem_of_nil in Hc.
Qed.

Lemma reliable_tick_good net n d sched now :
  good_mesh topo net -> net !! n = Some d -> sched ≡ₚ jobs (d_cfg d) ->
  good_mesh topo (<[n := tick sched now (fun p => serve net p n) d]> net).
Proof. intros Hg Hd Hp. eapply step_good; [done|]. apply mesh_tick; eauto. Qed.

(** A reliable tick of a node gives it shortest routes to every target one hop
    further than the mesh has converged. *)
Lemma tick_shortest net n d sched now k t h :
  good_mesh topo net -> converged k net -> net !! n = Some d -> sched ≡ₚ jobs (d_cfg d) ->
  hops topo n t h -> h <= k + 1 -> h <= MaxDistance + 1 ->
  exists r, t_Routes (d_Table (tick sched now (fun p => serve net p n) d)) !! t = Some r /\
            r_Distance r = h.
Proof.
  intros Hg Hc Hd Hp Hh Hk Hmax.
  pose proof (reliable_tick_good net n d sched now Hg Hd Hp) as Hg'.
  destruct (proj2 Hg' n (tick sched now (fun p => serve net p n) d)) as (_ & Hkey & Hrows & _);
    [by simplify_map_eq|].
  assert (forall r, t_Routes (d_Table (tick sched now (fun p => serve net p n) d)) !! t = Some r ->
    h <= r_Distance r) as Hlow.
  { intros r Hr. destruct (Hrows _ _ Hr) as [(Hpath & -> & _) _].
    rewrite (Hkey _ _ Hr) in Hpath. by apply Hh. }
  destruct (proj2 Hg _ _ Hd) as (Hcfg & _). destruct (Hwf _ _ Hcfg) as (Hid & _).
  destruct (decide (t ∈ dc_Terminals (d_cfg d))) as [Ht|Ht].
  - assert (h = 0) as -> .
    { assert (h <= 0) by (apply (proj2 Hh []); by eapply as_path_here).
      destruct Hh as [(path & _ & <-) _]. lia. }
    exists (local_route t). split; [|done]. unfold tick.
    destruct (collectPeers _ _ _ _); simpl.
    rewrite Compute_lookup, decide_True; [done|]. by apply buildLocals_terminal.
  - assert (0 < h) as Hpos.
    { destruct Hh as [(path & Hpath & <-) _]. inversion Hpath; simplify_eq/=; [done|lia]. }
    destruct (hops_pred _ _ _ Hh Hpos) as (cfg & p & Hcfg' & Hpin & Hhp).
    assert (cfg = d_cfg d) as -> by congruence.
    destruct (Hc _ _ _ Hhp) as (node & r & Hnode & Hr & Hrd); [lia..|].
    assert (exists adv, serve net p n = Ok adv) as [adv Hadv].
    { unfold serve, FetchAdvertisement, handle. rewrite Hnode. by eexists. }
    destruct (neighbour_offers net n (d_cfg d) p t h node (buildLocals (d_cfg d)) adv)
      as (c & Hc1 & Hc2); eauto using buildLocals_peer.
    apply list_elem_of_lookup in Hpin as [i Hi].
    destruct (tick_takes_offer n d sched now (fun p => serve net p n) i p adv t c)
      as (r' & Hr' & Hb); try done.
    exists r'. split; [done|]. pose proof (Hlow _ Hr').
    rewrite <- not_true_iff_false, better_spec in Hb. lia.
Qed.

(** Along a reliable run the mesh stays converged, and the nodes that ticked get
    one hop further. *)
Lemma reliable_run_converges net ns net' k :
  good_mesh topo net -> converged k net -> reliable_run net ns net' ->
  good_mesh topo net' /\ converged k net' /\
  (forall n t h, n ∈ ns -> hops topo n t h -> h <= k + 1 -> h <= MaxDistance + 1 ->
    exists node r, net' !! n = Some node /\ t_Routes (d_Table node) !! t = Some r /\
      r_Distance r = h).
Proof.
  intros Hg Hc Hrun. induction Hrun as [|ns net' n d sched now Hrun (Hg' & Hc' & Hns) Hd Hp].
  { split_and!; [done..|]. intros n t h Hn. by apply not_elem_of_nil in Hn. }
  assert (forall t h, hops topo n t h -> h <= k + 1 -> h <= MaxDistance + 1 ->
    exists node r, <[n := tick sched now (fun p => serve net' p n) d]> net' !! n = Some node /\
      t_Routes (d_Table node) !! t = Some r /\ r_Distance r = h) as Hthis.
  { intros t h Hh Hle Hmax. rewrite lookup_insert_eq.
    destruct (tick_shortest net' n d sched now k t h) as (r & ? & ?); eauto. }
  split_and!; [by apply reliable_tick_good|..].
  - intros m t h Hh Hle Hmax. destruct (decide (m = n)) as [->|Hne].
    + apply Hthis; [done|lia|done].
    + rewrite lookup_insert_ne by done. by apply Hc'.
  - intros m t h Hm Hh Hle Hmax. destruct (decide (m = n)) as [->|Hne]; [by apply Hthis|].
    rewrite lookup_insert_ne by done. apply elem_of_cons in Hm as [->|Hm]; [done|].
    by apply Hns.
Qed.

(** [rounds net k net']: [k] consecutive reliable runs, in each of which every
    node ticks at least once, in any order and any number of times. *)
Inductive rounds (net : gmap string Daemon) : nat -> gmap string Daemon -> Prop :=
| rounds_O : rounds net 0 net
| rounds_S k net1 ns net2 :
    rounds net k net1 -> reliable_run net1 ns net2 -> (forall n, is_Some (topo !! n) -> n ∈ ns) ->
    rounds net (S k) net2.

Lemma rounds_converge net k net' :
  good_mesh topo net -> rounds net k net' ->
  good_mesh topo net' /\ converged (Z.of_nat k - 1) net'.
Proof.
  intros Hg Hr. induction Hr as [|k net1 ns net2 Hr [Hg1 Hc1] Hrun Hall].
  { split; [done|]. intros n t d [(path & _ & <-) _]. lia. }
  destruct (reliable_run_converges _ _ _ _ Hg1 Hc1 Hrun) as (Hg2 & _ & Hns). split; [done|].
  intros n t h Hh Hle Hmax. apply Hns; [|done|lia|done].
  apply Hall. destruct Hh as [(path & Hpath & _) _]. by eapply as_path_node.
Qed.
End Mesh.

(** ** The guarantees of the mesh *)

Lemma forward_delivers topo net k h n t :
  good_mesh topo net -> converged topo k net ->
  hops topo n t (Z.of_nat h) -> Z.of_nat h <= k -> Z.of_nat h <= MaxDistance + 1 ->
  exists m cfg, forward (S h) net n t = Some m /\ topo !! m = Some cfg /\ t ∈ dc_Terminals cfg.
Proof.
  intros Hg Hc. revert n. induction h as [|h IH]; intros n Hh Hk Hmax;
    destruct (Hc n t _ Hh Hk Hmax) as (d & r & Hd & Hr & Hdist);
    destruct (proj2 Hg _ _ Hd) as (Hcfg & Hkey & Hrows & _);
    destruct (Hrows _ _ Hr) as [(Hpath & Hlen & _) Hnext];
    pose proof (Hkey _ _ Hr) as Ht; rewrite Ht in Hpath;
    cbn [forward]; rewrite Hd; simpl; rewrite Hr; simpl; unfold good_next_hop in Hnext;
    destruct (r_ASPath r) as [|hop rest] eqn:Hp; simpl in Hlen; try lia.
  - exists n, (d_cfg d). rewrite <- Ht. naive_solver.
  - apply IH; [|lia..]. inversion Hpath as [|n' cfg p t' path' Hn Hpin Hrest]; subst.
    split; [exists rest; split; [done|lia]|]. intros path2 Hpath2.
    assert (as_path topo n (r_TargetCluster r) (p_ID p :: path2)) as Hhop by by eapply as_path_hop.
    apply (proj2 Hh) in Hhop. simpl in Hhop. lia.
Qed.

(** C1: route validity.  In every state the mesh can reach, whatever requests
    fail and however stale the caches are, a route in a node's table for a target
    names a real path: consecutive configured peers ending at a node that has the
    target as a terminal, never visiting a node twice, of length the advertised
    distance, entered through the local cluster of its first peer. *)
Theorem mesh_routes_valid : forall topo net n d t r,
  wf_topo topo -> steps mesh_step (boot topo) net ->
  net !! n = Some d -> Lookup (Some (d_Table d)) t = Some r ->
  r_TargetCluster r = t /\ as_path topo n t (r_ASPath r) /\ r_Distance r = zlen (r_ASPath r) /\
  NoDup (n :: r_ASPath r) /\ good_next_hop (d_cfg d) r.
Proof.
  intros topo net n d t r Hwf Hs Hd Hr. pose proof (reachable_good topo Hwf net Hs) as [_ Hg].
  destruct (Hg _ _ Hd) as (_ & Hkey & Hrows & _). simpl in Hr.
  destruct (Hrows _ _ Hr) as [(Hpath & Hdist & Hnd) Hnext]. rewrite (Hkey _ _ Hr) in Hpath.
  split_and!; try done. by apply Hkey.
Qed.

(** C2: convergence.  From any reachable state, after [k] rounds in which every
    node ticks at least once and no request is lost, every node has a route of
    minimal length to every target less than [k] hops away, up to the 33 hops the
    limits allow. *)
Theorem mesh_converges : forall topo net k net' n t h,
  wf_topo topo -> steps mesh_step (boot topo) net -> rounds topo net k net' ->
  hops topo n t h -> h < Z.of_nat k -> h <= MaxDistance + 1 ->
  exists d r, net' !! n = Some d /\ Lookup (Some (d_Table d)) t = Some r /\ r_Distance r = h.
Proof.
  intros topo net k net' n t h Hwf Hs Hr Hh Hk Hmax.
  destruct (rounds_converge topo Hwf net k net') as [_ Hc]; [by apply reachable_good|done|].
  apply Hc; [done|lia|done].
Qed.

(** C17: delivery.  In a converged mesh, forwarding a request for a target from
    node to node along the tables reaches a node that has the target as a
    terminal after exactly the hop distance: forwarding terminates and does not
    loop. *)
Theorem mesh_delivers : forall topo net k net' n t h,
  wf_topo topo -> steps mesh_step (boot topo) net -> rounds topo net k net' ->
  hops topo n t (Z.of_nat h) -> (h < k)%nat -> Z.of_nat h <= MaxDistance + 1 ->
  exists m cfg, forward (S h) net' n t = Some m /\ topo !! m = Some cfg /\ t ∈ dc_Terminals cfg.
Proof.
  intros topo net k net' n t h Hwf Hs Hr Hh Hk Hmax.
  destruct (rounds_converge topo Hwf net k net') as [Hg Hc]; [by apply reachable_good|done|].
  eapply forward_delivers; [done..|lia|done].
Qed.

(** ** A two-node mesh *)

(** Node a reaches terminal "svc" of node b. *)
Definition ex_a : DaemonConfig :=
  mkDaemonConfig "a" ":1" [mkPeerSpec "b" "http://b" "to-b"] [] 10 60.
Definition ex_b : DaemonConfig := mkDaemonConfig "b" ":2" [] ["svc"] 10 60.
Definition ex_topo : gmap string DaemonConfig := {["a" := ex_a; "b" := ex_b]}.

Lemma ex_wf : wf_topo ex_topo.
Proof.
  intros n cfg H. unfold ex_topo in H.
  apply lookup_insert_Some in H as [[<- <-]|[_ [<- <-]%lookup_singleton_Some]].
  - split_and!; [done|apply NoDup_singleton|set_solver|apply not_elem_of_nil].
  - split_and!; [done|apply NoDup_nil_2|apply not_elem_of_nil|set_solver].
Qed.

Lemma ex_hops : hops ex_topo "a" "svc" 1.
Proof.
  split.
  - exists ["b"]. split; [|done].
    eapply (as_path_hop _ _ ex_a (mkPeerSpec "b" "http://b" "to-b")); [done|left|].
    eapply (as_path_here _ _ ex_b); [done|left].
  - intros path H. inversion H as [n cfg t Hn Ht|]; simplify_eq; simpl; [|lia].
    vm_compute in Hn. simplify_eq. by apply not_elem_of_nil in Ht.
Qed.

(** Two rounds: b ticks, then a, twice. *)
Lemma ex_rounds : exists net', rounds ex_topo (boot ex_topo) 2 net'.
Proof.
  assert (forall n, is_Some (ex_topo !! n) -> n ∈ ["a"; "b"]) as Hall.
  { intros n [cfg H]. unfold ex_topo in H.
    apply lookup_insert_Some in H as [[<- _]|[_ [<- _]%lookup_singleton_Some]]; set_solver. }
  eexists. eapply rounds_S; [eapply rounds_S; [apply rounds_O| |exact Hall]| |exact Hall];
    (eapply reliable_tick; [eapply reliable_tick; [apply reliable_nil|..]|..]);
    try reflexivity; vm_compute; reflexivity.
  Unshelve. all: exact 0.
Qed.

Definition ex_net : gmap string Daemon :=
  <["b" := tick (jobs ex_b) 0 (fun p => serve (boot ex_topo) p "b") (NewDaemon ex_b)]> (boot ex_topo).

Lemma ex_net_reachable : steps mesh_step (boot ex_topo) ex_net.
Proof. eapply steps_snoc; [apply steps_nil|]. apply mesh_tick; eauto. Qed.

Lemma mesh_routes_valid_witness :
  as_path ex_topo "b" "svc" [] /\ NoDup ["b"].
Proof.
  destruct (mesh_routes_valid ex_topo ex_net "b"
    (tick (jobs ex_b) 0 (fun p => serve (boot ex_topo) p "b") (NewDaemon ex_b))
    "svc" (local_route "svc") ex_wf ex_net_reachable) as (_ & H1 & _ & H2 & _);
    [reflexivity | vm_compute; reflexivity |].
  split; [exact H1 | exact H2].
Defined.

Lemma mesh_converges_witness :
  exists net' d r, rounds ex_topo (boot ex_topo) 2 net' /\ net' !! "a" = Some d /\
    Lookup (Some (d_Table d)) "svc" = Some r /\ r_Distance r = 1.
Proof.
  destruct ex_rounds as [net' Hr].
  destruct (mesh_converges ex_topo (boot ex_topo) 2 net' "a" "svc" 1 ex_wf
    (steps_nil _ _) Hr ex_hops) as (d & r & H1 & H2 & H3); [reflexivity | discriminate |].
  exists net', d, r. split; [exact Hr|]. split; [exact H1|]. split; [exact H2|exact H3].
Defined.

Lemma mesh_delivers_witness :
  exists net' m cfg, rounds ex_topo (boot ex_topo) 2 net' /\
    forward 2 net' "a" "svc" = Some m /\ ex_topo !! m = Some cfg /\ "svc" ∈ dc_Terminals cfg.
Proof.
  destruct ex_rounds as [net' Hr].
  destruct (mesh_delivers ex_topo (boot ex_topo) 2 net' "a" "svc" 1 ex_wf
    (steps_nil _ _) Hr ex_hops) as (m & cfg & H1 & H2 & H3); [lia | discriminate |].
  exists net', m, cfg. split; [exact Hr|]. split; [exact H1|]. split; [exact H2|exact H3].
Defined.
