(* ===== verification/ClusterRouter.v ===== *)
(** * cluster-router: configuration and the request filter

    extensions/composer/cluster-router/cluster_router.go.  [validate] fills in the
    defaults, parses the durations and collects every error; [OnRequestHeaders]
    resolves the target cluster of a request into the next-hop header.  net/url
    and encoding/json are parameters. *)

From S2P Require Import Prelude GoStr GoNum Host ClusterGraph ClusterDaemon ClusterMesh.
From Stdlib Require Import Lia.

Local Open Scope Z_scope.
Local Open Scope go_scope.

(** ** Configuration *)

Definition ExtensionName : string := "cluster-router".
Definition defaultMetadataNamespace : string := "io.builtonenvoy.cluster_router".
Definition minPollInterval : Z := 100 * Millisecond.

Definition targetSourceHeader : string := "header".
Definition targetSourceMetadata : string := "metadata".

Record Config : Type := mkConfig {
  EnvoyID : string;
  AdvertiseListen : string;
  TargetClusterSource : string;
  TargetClusterHeader : string;
  NextHopHeader : string;
  Peers : list PeerSpec;
  Terminals : list string;
  PollInterval : string;
  StaleAfter : string;
  MetadataNamespace : string;
  pollInterval : Z;
  staleAfter : Z;
}.

Inductive ConfigError : Type :=
| EnvoyIDRequired
| AdvertiseListenRequired
| TargetSourceUnsupported
| PollIntervalInvalid
| PollIntervalTooSmall
| StaleAfterInvalid
| StaleAfterBelowPollInterval
| PeerFieldsRequired (i : nat)
| PeerEndpointNotAbsolute (i : nat)
| PeerIsSelf (i : nat)
| PeerDuplicate (i : nat)
| TerminalNameRequired (i : nat)
| TerminalDuplicate (i : nat)
| TerminalIsPeerCluster (i : nat).

(** [if s == "" { s = def }]. *)
Definition or_default (s def : string) : string := if decide (s = "") then def else s.

(** The defaults at the start of [validate]. *)
Definition apply_defaults (c : Config) : Config :=
  mkConfig (EnvoyID c) (AdvertiseListen c)
    (or_default (TargetClusterSource c) targetSourceHeader)
    (or_default (TargetClusterHeader c) "x-target-cluster")
    (or_default (NextHopHeader c) "x-next-hop")
    (Peers c) (Terminals c)
    (or_default (PollInterval c) "10s")
    (or_default (StaleAfter c) "60s")
    (or_default (MetadataNamespace c) defaultMetadataNamespace)
    (pollInterval c) (staleAfter c).

(** [if cond { errs = append(errs, e) }]. *)
Definition err_if (b : bool) (e : ConfigError) : list ConfigError := if b then [e] else [].

(** The body of the loop over the terminals, with the names seen so far. *)
Definition check_terminal (peerLocals : gset string) (i : nat) (name : string)
    (seenTerm : gset string) : list ConfigError :=
  err_if (bool_decide (name = "")) (TerminalNameRequired i) ++
  err_if (bool_decide (name ∈ seenTerm)) (TerminalDuplicate i) ++
  err_if (bool_decide (name ∈ peerLocals)) (TerminalIsPeerCluster i).

Fixpoint check_terminals (peerLocals : gset string) (i : nat) (ts : list string)
    (seenTerm : gset string) : list ConfigError :=
  match ts with
  | [] => []
  | t :: ts' =>
      check_terminal peerLocals i t seenTerm ++
      check_terminals peerLocals (S i) ts' ({[t]} ∪ seenTerm)
  end.

(** The two durations with the errors of their checks.  A duration that does not
    parse leaves the field as it was. *)
Definition check_durations (c : Config) : Z * Z * list ConfigError :=
  let '(poll, e1) :=
    match ParseDuration (PollInterval c) with
    | None => (pollInterval c, [PollIntervalInvalid])
    | Some d => if d <? minPollInterval then (pollInterval c, [PollIntervalTooSmall]) else (d, [])
    end in
  let '(stale, e2) :=
    match ParseDuration (StaleAfter c) with
    | None => (staleAfter c, [StaleAfterInvalid])
    | Some d => (d, [])
    end in
  (poll, stale,
   e1 ++ e2 ++ err_if ((0 <? poll) && (0 <? stale) && (stale <? poll)) StaleAfterBelowPollInterval).

Lemma err_if_nil b e : err_if b e = [] <-> b = false.
Proof. by destruct b. Qed.

Lemma check_terminals_nil locals i ts seen :
  check_terminals locals i ts seen = [] <->
  Forall (fun t => t <> "" /\ t ∉ locals /\ t ∉ seen) ts /\ NoDup ts.
Proof.
  revert i seen. induction ts as [|t ts IH]; intros i seen; simpl.
  { split; [intros _; split; [done|apply NoDup_nil_2] | done]. }
  unfold check_terminal. rewrite !app_nil, IH, !err_if_nil, Forall_cons, NoDup_cons.
  rewrite !bool_decide_eq_false.
  assert (Forall (fun q => q ∉ {[t]} ∪ seen) ts <-> t ∉ ts /\ Forall (fun q => q ∉ seen) ts) as Hseen.
  { rewrite !Forall_forall. set_solver. }
  rewrite !Forall_and in *. naive_solver.
Qed.

Section Validate.
(** [url.Parse]: the scheme and the host, [None] on an error. *)
Context (url_Parse : string -> option (string * string)).

Definition absolute_url (s : string) : bool :=
  match url_Parse s with
  | None => false
  | Some (scheme, host) => negb (bool_decide (scheme = "") || bool_decide (host = ""))
  end.

(** The body of the loop over the peers; the state is [seen] and [peerLocals]. *)
Definition check_peer (envoyID : string) (i : nat) (p : PeerSpec) (seen : gset string)
    : list ConfigError :=
  err_if (bool_decide (p_ID p = "") || bool_decide (p_Endpoint p = "")
          || bool_decide (p_LocalCluster p = "")) (PeerFieldsRequired i) ++
  err_if (negb (bool_decide (p_Endpoint p = "")) && negb (absolute_url (p_Endpoint p)))
         (PeerEndpointNotAbsolute i) ++
  err_if (bool_decide (p_ID p = envoyID)) (PeerIsSelf i) ++
  err_if (bool_decide (p_ID p ∈ seen)) (PeerDuplicate i).

Fixpoint check_peers (envoyID : string) (i : nat) (ps : list PeerSpec) (seen : gset string)
    : list ConfigError :=
  match ps with
  | [] => []
  | p :: ps' =>
      check_peer envoyID i p seen ++ check_peers envoyID (S i) ps' ({[p_ID p]} ∪ seen)
  end.

Definition validate (c : Config) : Config * list ConfigError :=
  let c := apply_defaults c in
  let '(poll, stale, e3) := check_durations c in
  let peerLocals : gset string := list_to_set (p_LocalCluster <$> Peers c) in
  (mkConfig (EnvoyID c) (AdvertiseListen c) (TargetClusterSource c) (TargetClusterHeader c)
     (NextHopHeader c) (Peers c) (Terminals c) (PollInterval c) (StaleAfter c)
     (MetadataNamespace c) poll stale,
   err_if (bool_decide (EnvoyID c = "")) EnvoyIDRequired ++
   err_if (bool_decide (AdvertiseListen c = "")) AdvertiseListenRequired ++
   err_if (negb (bool_decide (TargetClusterSource c = targetSourceHeader))) TargetSourceUnsupported ++
   e3 ++ check_peers (EnvoyID c) 0 (Peers c) ∅ ++ check_terminals peerLocals 0 (Terminals c) ∅).

(** [parseConfig] on a decoded configuration, [None] when the JSON is empty or
    does not decode. *)
Definition parseConfig (decoded : option Config) : result (list ConfigError) Config :=
  match decoded with
  | None => Err []
  | Some c =>
      let '(c', errs) := validate c in
      match errs with [] => Ok c' | _ => Err errs end
  end.

(** The daemon configuration [PluginConfigFactory.Create] derives. *)
Definition daemonConfig (cfg : Config) : DaemonConfig :=
  mkDaemonConfig (EnvoyID cfg) (AdvertiseListen cfg) (Peers cfg) (Terminals cfg)
    (pollInterval cfg) (staleAfter cfg).

(** ** The errors of [validate], characterised *)

Lemma check_peers_nil envoyID i ps seen :
  check_peers envoyID i ps seen = [] <->
  Forall (fun p => p_ID p <> "" /\ p_LocalCluster p <> "" /\ p_Endpoint p <> "" /\
                   absolute_url (p_Endpoint p) = true /\ p_ID p <> envoyID /\ p_ID p ∉ seen) ps /\
  NoDup (p_ID <$> ps).
Proof.
  revert i seen. induction ps as [|p ps IH]; intros i seen; simpl.
  { split; [intros _; split; [done|apply NoDup_nil_2] | done]. }
  unfold check_peer. rewrite !app_nil, IH, !err_if_nil, Forall_cons, NoDup_cons.
  rewrite !orb_false_iff, andb_false_iff, !bool_decide_eq_false, !negb_false_iff,
    bool_decide_eq_true.
  assert (Forall (fun q => p_ID q ∉ {[p_ID p]} ∪ seen) ps <->
    p_ID p ∉ p_ID <$> ps /\ Forall (fun q => p_ID q ∉ seen) ps) as Hseen.
  { rewrite !Forall_forall, list_elem_of_fmap. set_solver. }
  rewrite !Forall_and in *. naive_solver.
Qed.

End Validate.

(** ** The filter *)

Section Plugin.
Context {H : Type} `{!HeaderMap H}.
(** [json.Marshal] of a map of strings, keys in order. *)
Context (json_Marshal : list (string * string) -> string).

Definition readTarget (cfg : Config) (headers : option H) : string :=
  match headers with
  | None => ""
  | Some h =>
      if negb (bool_decide (TargetClusterSource cfg = targetSourceHeader)) then ""
      else GetOne h (TargetClusterHeader cfg)
  end.

Definition route_metadata (ns : string) (route : Route) : Host unit :=
  run hcall (SetMetadata ns "next_hop_cluster" (MetaString (r_NextHopLocalCluster route)));
  run hcall (SetMetadata ns "target_cluster" (MetaString (r_TargetCluster route)));
  run hcall (SetMetadata ns "distance" (MetaInt (r_Distance route)));
  hwhen (0 <? zlen (r_ASPath route))
    (hcall (SetMetadata ns "as_path" (MetaString (Join (r_ASPath route) ",")))).

Definition OnRequestHeaders (cfg : Config) (table : Table) (headers : option H)
    : Host (HeadersStatus * option H) :=
  let headers := (fun h => HRemove h (NextHopHeader cfg)) <$> headers in
  let target := readTarget cfg headers in
  if decide (target = "") then hret (HeadersStatusContinue, headers)
  else
    match Lookup (Some table) target with
    | None =>
        run hcall (SendLocalResponse 404 [("content-type", "application/json")]
              (json_Marshal [("error", "no_route"); ("target", target)]) "cluster-router-no-route");
        hret (HeadersStatusStop, headers)
    | Some route =>
        let headers := (fun h => HSet h (NextHopHeader cfg) (r_NextHopLocalCluster route)) <$> headers in
        run hcall ClearRouteCache;
        run route_metadata (MetadataNamespace cfg) route;
        hret (HeadersStatusContinue, headers)
    end.

Context `{!HeaderMapLaws H}.

(** No spoofing.  Whatever the client sends, a request that continues carries
    either no next-hop header or the local next hop of the table's route for the
    requested target; a client cannot choose it. *)
Theorem OnRequestHeaders_no_spoofing : forall cfg table h h',
  val_of (OnRequestHeaders cfg table (Some h)) = (HeadersStatusContinue, Some h') ->
  GetOne h' (NextHopHeader cfg) = "" \/
  exists target route, Lookup (Some table) target = Some route /\
    GetOne h' (NextHopHeader cfg) = r_NextHopLocalCluster route.
Proof.
  intros cfg table h h'. unfold OnRequestHeaders. cbn [fmap option_fmap option_map].
  case_decide; [intros [= <-]; left; apply get_remove_eq|].
  destruct (Lookup (Some table) _) as [route|] eqn:Hr; rewrite !val_hbind; [|done].
  intros [= <-]. right. eexists _, route. split; [exact Hr|]. apply get_set_eq.
Qed.

(** Resolution.  With the header source and distinct header names, a request
    without a target passes with the next-hop header removed and no other effect;
    one for an unknown target gets a 404 and stops; one for a known target gets
    its next hop, the route cache cleared before the route's metadata is set, and
    no local response.  Every other header is untouched. *)
Theorem OnRequestHeaders_resolves : forall cfg table h,
  TargetClusterSource cfg = targetSourceHeader ->
  ToLower (NextHopHeader cfg) <> ToLower (TargetClusterHeader cfg) ->
  let target := GetOne h (TargetClusterHeader cfg) in
  let calls := calls_of (OnRequestHeaders cfg table (Some h)) in
  exists status h', val_of (OnRequestHeaders cfg table (Some h)) = (status, Some h') /\
  (forall k, ToLower (NextHopHeader cfg) <> ToLower k -> GetOne h' k = GetOne h k) /\
  ((target = "" /\ status = HeadersStatusContinue /\ calls = [] /\
    GetOne h' (NextHopHeader cfg) = "") \/
   (target <> "" /\ Lookup (Some table) target = None /\ status = HeadersStatusStop /\
    calls = [SendLocalResponse 404 [("content-type", "application/json")]
               (json_Marshal [("error", "no_route"); ("target", target)])
               "cluster-router-no-route"]) \/
   (exists route, target <> "" /\ Lookup (Some table) target = Some route /\
    status = HeadersStatusContinue /\
    GetOne h' (NextHopHeader cfg) = r_NextHopLocalCluster route /\
    calls = ClearRouteCache :: calls_of (route_metadata (MetadataNamespace cfg) route))).
Proof.
  intros cfg table h Hsrc Hne. unfold OnRequestHeaders, readTarget. cbn [fmap option_fmap option_map].
  rewrite (bool_decide_true (TargetClusterSource cfg = _)) by done. cbn [negb].
  rewrite get_remove_ne by done. set (target := GetOne h (TargetClusterHeader cfg)).
  destruct (decide (target = "")) as [Ht|Ht].
  { exists HeadersStatusContinue, (HRemove h (NextHopHeader cfg)). split_and!; [done| |].
    - intros k Hk. by apply get_remove_ne.
    - left. split_and!; try done. apply get_remove_eq. }
  destruct (Lookup (Some table) target) as [route|] eqn:Hr.
  - eexists HeadersStatusContinue, _. rewrite !val_hbind. split_and!; [done| |].
    + intros k Hk. rewrite get_set_ne by done. by apply get_remove_ne.
    + right; right. exists route. rewrite !calls_hbind. split_and!; try done.
      * apply get_set_eq.
      * cbn. by rewrite app_nil_r.
  - eexists HeadersStatusStop, _. rewrite val_hbind. split_and!; [done| |].
    + intros k Hk. by apply get_remove_ne.
    + right; left. done.
Qed.
End Plugin.

(** ** Configuration theorems *)

Lemma check_durations_nil c poll stale :
  check_durations c = (poll, stale, []) <->
  ParseDuration (PollInterval c) = Some poll /\ minPollInterval <= poll /\
  ParseDuration (StaleAfter c) = Some stale /\ (0 < stale -> poll <= stale).
Proof.
  unfold check_durations. assert (0 < minPollInterval) by reflexivity.
  destruct (ParseDuration (PollInterval c)) as [d1|]; [|split; [|naive_solver]].
  2: { destruct (ParseDuration (StaleAfter c)); by intros [=]. }
  destruct (Z.ltb_spec d1 minPollInterval).
  { split; [|naive_solver lia]. destruct (ParseDuration (StaleAfter c)); by intros [=]. }
  destruct (ParseDuration (StaleAfter c)) as [d2|]; [|split; [by intros [=] | naive_solver]].
  cbn [app]. split.
  - intros [= <- <- He]. rewrite err_if_nil in He.
    rewrite !andb_false_iff, !Z.ltb_ge in He. split_and!; try done. lia.
  - intros ([= <-] & _ & [= <-] & Hle). do 2 f_equal. apply err_if_nil.
    rewrite !andb_false_iff, !Z.ltb_ge. lia.
Qed.

(** Everything [validate] demands of a configuration, after the defaults. *)
Definition acceptable (url_Parse : string -> option (string * string)) (c : Config) (poll stale : Z)
    : Prop :=
  EnvoyID c <> "" /\ AdvertiseListen c <> "" /\ TargetClusterSource c = targetSourceHeader /\
  (ParseDuration (PollInterval c) = Some poll /\ minPollInterval <= poll /\
   ParseDuration (StaleAfter c) = Some stale /\ (0 < stale -> poll <= stale)) /\
  (Forall (fun p => p_ID p <> "" /\ p_LocalCluster p <> "" /\ p_Endpoint p <> "" /\
     absolute_url url_Parse (p_Endpoint p) = true /\ p_ID p <> EnvoyID c /\
     p_ID p ∉ (∅ : gset string)) (Peers c) /\
   NoDup (p_ID <$> Peers c)) /\
  (Forall (fun t => t <> "" /\
     t ∉ (list_to_set (p_LocalCluster <$> Peers c) : gset string) /\
     t ∉ (∅ : gset string)) (Terminals c) /\
   NoDup (Terminals c)).

Lemma validate_ok url_Parse c :
  (validate url_Parse c).2 = [] <->
  exists poll stale, acceptable url_Parse (apply_defaults c) poll stale /\
    pollInterval (validate url_Parse c).1 = poll /\ staleAfter (validate url_Parse c).1 = stale.
Proof.
  unfold validate, acceptable. set (c0 := apply_defaults c).
  destruct (check_durations c0) as [[poll stale] e3] eqn:Hd. cbn [fst snd pollInterval staleAfter].
  rewrite !app_nil, !err_if_nil, !bool_decide_eq_false, negb_false_iff, bool_decide_eq_true,
    check_peers_nil, check_terminals_nil.
  split.
  - intros (? & ? & ? & -> & ? & ?). apply check_durations_nil in Hd. exists poll, stale. tauto.
  - intros (poll' & stale' & (? & ? & ? & Hd' & ? & ?) & -> & ->).
    apply check_durations_nil in Hd'. rewrite Hd' in Hd. simplify_eq. tauto.
Qed.

(** Acceptance.  [parseConfig] accepts a decoded configuration exactly when,
    after the defaults, the ids and the listener are set, the target source is
    the header, the poll interval parses and is at least 100ms, stale_after parses
    and is either not positive or at least the poll interval, the peers are
    complete with absolute endpoints, have distinct ids none of which is this
    node's, and the terminals are distinct, non-empty and no peer's cluster. *)
Theorem parseConfig_accepts : forall url_Parse c,
  is_ok (parseConfig url_Parse (Some c)) = true <->
  exists poll stale, acceptable url_Parse (apply_defaults c) poll stale.
Proof.
  intros url_Parse c. unfold parseConfig.
  destruct (validate url_Parse c) as [c' errs] eqn:Hv.
  pose proof (validate_ok url_Parse c) as Hok. rewrite Hv in Hok. cbn [fst snd] in Hok.
  split.
  - intros He. destruct errs; [|done]. destruct Hok as [Hok _].
    destruct (Hok eq_refl) as (poll & stale & Ha & _). eauto.
  - intros (poll & stale & Ha). destruct Hok as [_ Hok]. rewrite Hok; [done|].
    exists poll, stale. split; [done|]. unfold validate in Hv.
    destruct Ha as (_ & _ & _ & Hd & _). apply check_durations_nil in Hd. rewrite Hd in Hv.
    by simplify_eq.
Qed.

(** What the daemon receives.  The daemon configuration of an accepted
    plugin configuration satisfies the well-formedness the mesh theorems assume,
    and polls no faster than every 100ms. *)
Theorem parseConfig_wf : forall url_Parse c c',
  parseConfig url_Parse (Some c) = Ok c' ->
  wf_config (EnvoyID c') (daemonConfig c') /\ minPollInterval <= dc_PollInterval (daemonConfig c').
Proof.
  intros url_Parse c c' Hc. unfold parseConfig in Hc.
  pose proof (validate_ok url_Parse c) as Hok.
  assert (Peers (validate url_Parse c).1 = Peers c /\ Terminals (validate url_Parse c).1 = Terminals c
    /\ EnvoyID (validate url_Parse c).1 = EnvoyID c) as (HP & HT & HE).
  { unfold validate. by destruct (check_durations _) as [[? ?] ?]. }
  destruct (validate url_Parse c) as [c1 errs]; cbn [fst snd] in *.
  destruct errs; [|done]. simplify_eq.
  destruct (proj1 Hok eq_refl) as (poll & stale & (_ & _ & _ & Hd & [Hp Hnd] & [Ht _]) & Hpoll & _).
  unfold wf_config, daemonConfig; simpl in *. rewrite HP, HT, HE, Hpoll. split_and!; try done.
  - intros (p & Heq & Hp')%list_elem_of_fmap. rewrite Forall_forall in Hp. naive_solver.
  - intros Hin. rewrite Forall_forall in Ht. naive_solver.
  - tauto.
Qed.

(** ** Examples *)

Definition ex_url (s : string) : option (string * string) :=
  if HasPrefix s "http://" then Some ("http", TrimPrefix s "http://") else None.

Definition ex_config : Config :=
  mkConfig "a" ":9000" "" "" "" [mkPeerSpec "b" "http://b:9000" "to-b"] ["db"] "5s" "" "" 0 0.

Lemma parseConfig_wf_witness :
  wf_config "a" (daemonConfig (validate ex_url ex_config).1) /\
  minPollInterval <= dc_PollInterval (daemonConfig (validate ex_url ex_config).1).
Proof.
  apply (parseConfig_wf ex_url ex_config (validate ex_url ex_config).1).
  vm_compute. reflexivity.
Defined.

(** A gap in the staleness check.  A stale_after of zero is accepted although
    it is below the poll interval: the comparison is skipped for durations that
    are not positive. *)
Theorem parseConfig_accepts_zero_stale : forall url_Parse, exists c c',
  parseConfig url_Parse (Some c) = Ok c' /\ StaleAfter c = "0s" /\
  dc_StaleAfter (daemonConfig c') < dc_PollInterval (daemonConfig c').
Proof.
  intros url_Parse.
  exists (mkConfig "a" ":9000" "" "" "" [] ["db"] "5s" "0s" "" 0 0).
  eexists. split; [vm_compute; reflexivity|]. split; [done|]. vm_compute. reflexivity.
Qed.

Definition ex_table : Table :=
  mkTable "a" {["svc" := mkRoute "svc" "to-b" 1 ["b"]]} ∅.
Definition ex_accepted : Config := (validate ex_url ex_config).1.
Definition ex_request : Headers :=
  [("x-target-cluster", "svc"); ("x-next-hop", "spoofed"); ("host", "h")].
Definition ex_marshal (kvs : list (string * string)) : string := "{}".

Lemma OnRequestHeaders_no_spoofing_witness :
  GetOne (HSet (HRemove ex_request "x-next-hop") "x-next-hop" "to-b") "x-next-hop" = "" \/
  exists target route, Lookup (Some ex_table) target = Some route /\
    GetOne (HSet (HRemove ex_request "x-next-hop") "x-next-hop" "to-b") "x-next-hop" =
    r_NextHopLocalCluster route.
Proof.
  apply (OnRequestHeaders_no_spoofing ex_marshal ex_accepted ex_table ex_request).
  vm_compute. reflexivity.
Defined.

Lemma OnRequestHeaders_resolves_witness :
  exists status h', val_of (OnRequestHeaders ex_marshal ex_accepted ex_table (Some ex_request)) =
    (status, Some h').
Proof.
  destruct (OnRequestHeaders_resolves ex_marshal ex_accepted ex_table ex_request)
    as (status & h' & Hv & _); [reflexivity | vm_compute; discriminate |].
  exists status, h'. exact Hv.
Defined.

Example ex_resolved :
  val_of (OnRequestHeaders ex_marshal ex_accepted ex_table (Some ex_request)) =
  (HeadersStatusContinue, Some [("x-next-hop", "to-b"); ("x-target-cluster", "svc"); ("host", "h")]).
Proof. vm_compute. reflexivity. Qed.
