(* ===== verification/FileServer.v ===== *)
(** * file-server: static files from the proxy

    extensions/composer/file-server/plugin.go: configuration validation, the
    mapping of request paths to file paths, range requests and the request
    handler.  The file system is a parameter. *)

From S2P Require Import Prelude GoStr GoNum GoPath Host.
From Stdlib Require Import Lia Ascii.

Local Open Scope Z_scope.
Local Open Scope go_scope.

(** ** Configuration *)

Record pathMapping : Type := mkPathMapping {
  RequestPathPrefix : string;
  FilePathPrefix : string;
}.

Record fileServerConfig : Type := mkFileServerConfig {
  PathMappings : list pathMapping;
  ContentTypes : gmap string string;
  DefaultContentType : string;
  DirectoryIndexFiles : list string;
}.

Inductive ConfigError : Type :=
| NoPathMapping
| EmptyRequestPrefix
| EmptyFilePrefix
| DuplicateRequestPrefix (p : string)
| ContentTypeWithPeriod
| IndexFileWithSlash (f : string).

(** The loop over the mappings, with the prefixes seen so far. *)
Fixpoint check_mappings (ms : list pathMapping) (seen : gset string) : option ConfigError :=
  match ms with
  | [] => None
  | m :: ms' =>
      if decide (RequestPathPrefix m = "") then Some EmptyRequestPrefix
      else if decide (FilePathPrefix m = "") then Some EmptyFilePrefix
      else if decide (RequestPathPrefix m ∈ seen)
      then Some (DuplicateRequestPrefix (RequestPathPrefix m))
      else check_mappings ms' ({[RequestPathPrefix m]} ∪ seen)
  end.

Definition check_index_files (fs : list string) : option ConfigError :=
  match filter (fun f => ContainsByte f slash = true) fs with
  | [] => None
  | f :: _ => Some (IndexFileWithSlash f)
  end.

(** [validate]; the error for a suffix does not name it, as the map is iterated
    in no particular order. *)
Definition validate (c : fileServerConfig) : option ConfigError :=
  match PathMappings c with
  | [] => Some NoPathMapping
  | _ =>
      match check_mappings (PathMappings c) ∅ with
      | Some e => Some e
      | None =>
          if existsb (fun suffix => ContainsByte suffix "."%char) (map_to_list (ContentTypes c)).*1
          then Some ContentTypeWithPeriod
          else check_index_files (DirectoryIndexFiles c)
      end
  end.

(** [parseConfig]: an empty configuration is the pass-through filter; otherwise
    the decoded configuration is validated, [None] when it does not decode. *)
Definition parseConfig (empty : bool) (decoded : option fileServerConfig)
    : result (option ConfigError) fileServerConfig :=
  if empty then Ok (mkFileServerConfig [] ∅ "" [])
  else match decoded with
       | None => Err None
       | Some c => match validate c with None => Ok c | Some e => Err (Some e) end
       end.

(** ** Path mapping *)

Fixpoint longest_from (requestPath : string) (ms : list pathMapping) (best : option pathMapping)
    : option pathMapping :=
  match ms with
  | [] => best
  | m :: ms' =>
      if HasPrefix requestPath (RequestPathPrefix m) then
        match best with
        | None => longest_from requestPath ms' (Some m)
        | Some b =>
            if (String.length (RequestPathPrefix b) <? String.length (RequestPathPrefix m))%nat
            then longest_from requestPath ms' (Some m)
            else longest_from requestPath ms' best
        end
      else longest_from requestPath ms' best
  end.

Definition findLongestMatchingMapping (c : fileServerConfig) (requestPath : string)
    : option pathMapping :=
  longest_from requestPath (PathMappings c) None.

(** [strings.HasSuffix s "/"]. *)
Definition ends_with_slash (s : string) : bool := HasSuffix s "/".

(** [None] is the rejection [("", false)]. *)
Definition applyPathMapping (requestPath : string) (mapping : pathMapping) : option string :=
  let pathOnly := before_byte requestPath "?"%char in
  let remaining := TrimPrefix pathOnly (RequestPathPrefix mapping) in
  if HasPrefix remaining "/" && ends_with_slash (RequestPathPrefix mapping) then None
  else
    let remaining := if HasPrefix remaining "/" then drop_bytes 1 remaining else remaining in
    if HasPrefix remaining "/" then None
    else if negb (bool_decide (remaining = "")) &&
            existsb (fun part => bool_decide (part = "..") || bool_decide (part = ".")
                                 || bool_decide (part = "")) (Split remaining slash)
    then None
    else Some (Join2 (FilePathPrefix mapping) remaining).

Definition contentTypeForPath (c : fileServerConfig) (filePath : string) : string :=
  let ext := Ext filePath in
  if decide (ext = "") then
    match ContentTypes c !! Base filePath with
    | Some ct => ct
    | None => DefaultContentType c
    end
  else
    match ContentTypes c !! drop_bytes 1 ext with
    | Some ct => ct
    | None => DefaultContentType c
    end.

(** ** Range requests *)

Definition parseRangeHeader (rangeHeader : string) : Z * Z :=
  if bool_decide (rangeHeader = "") || negb (HasPrefix rangeHeader "bytes=") then (0, 0)
  else
    let rangeSpec := drop_bytes (String.length "bytes=") rangeHeader in
    if ContainsByte rangeSpec ","%char then (0, 0)
    else
      match Cut rangeSpec "-"%char with
      | (first, last, found) =>
          if negb found || bool_decide (first = "") then (0, 0)
          else
            match ParseUint first with
            | None => (0, 0)
            | Some start =>
                if decide (last = "") then (start, 0)
                else match ParseUint last with
                     | None => (start, 0)
                     | Some e => (start, u64 (e + 1))
                     end
            end
      end.

(** ** The handler *)

Inductive FileInfo : Type :=
| InfoDir
| InfoFile (size : Z).

Inductive StatError : Type :=
| NotExist
| PermissionDenied
| OtherStatError.

(** The file system: [os.Stat] and the contents a file is read with, [None] for a
    read error. *)
Record FileSystem : Type := mkFileSystem {
  Stat : string -> result StatError FileInfo;
  ReadFile : string -> option string;
}.

(** [readFileRange]: at most [length] bytes from [offset]. *)
Definition readFileRange (fs : FileSystem) (filePath : string) (offset length : Z) : option string :=
  (fun content => take_bytes (Z.to_nat length) (drop_bytes (Z.to_nat offset) content))
    <$> ReadFile fs filePath.

Definition plain_text : list (string * string) := [("content-type", "text/plain")].

(** [SendLocalResponse] followed by [return HeadersStatusStopAllAndBuffer]. *)
Definition respond (status : Z) (headers : list (string * string)) (body detail : string)
    : Host HeadersStatus :=
  run hcall (SendLocalResponse status headers body detail);
  hret HeadersStatusStopAllAndBuffer.

Definition range_not_satisfiable : Host HeadersStatus :=
  respond 416 [("content-type", "text/plain"); ("accept-ranges", "bytes")]
    "Range Not Satisfiable" "file_server_range_not_satisfiable".

Definition read_error : Host HeadersStatus :=
  respond 500 plain_text "Internal Server Error" "file_server_read_error".

Definition resolveDirectoryIndex (c : fileServerConfig) (fs : FileSystem) (dirPath : string)
    : option (string * Z) :=
  head (omap (fun indexFile =>
    let indexPath := Join2 dirPath indexFile in
    match Stat fs indexPath with
    | Ok (InfoFile size) => Some (indexPath, size)
    | _ => None
    end) (DirectoryIndexFiles c)).

(** The final part of the handler: the headers, then the body if there is one. *)
Definition send_file (status method : string) (headers : list (string * string)) (body : string)
    : Host HeadersStatus :=
  let headers := (":status", status) :: headers in
  if bool_decide (method = "HEAD") || bool_decide (body = "") then
    run hcall (SendResponseHeaders headers true);
    hret HeadersStatusStopAllAndBuffer
  else
    run hcall (SendResponseHeaders headers false);
    run hcall (SendResponseData body true);
    hret HeadersStatusStopAllAndBuffer.

(** The body for a GET, nothing for a HEAD, [None] on a read error. *)
Definition body_for (method : string) (read : option string) : option string :=
  if decide (method = "HEAD") then Some "" else read.

Definition content_range (start e size : Z) : string :=
  "bytes " +:+ FormatInt start +:+ "-" +:+ FormatInt (u64 (e - 1)) +:+ "/" +:+ FormatInt size.

(** Serving a file whose path and size are known. *)
Definition serve_file (c : fileServerConfig) (fs : FileSystem) (method range filePath : string)
    (size : Z) : Host HeadersStatus :=
  let fileSize := u64 size in
  let '(start, e) := parseRangeHeader range in
  if (fileSize <? start) || (negb (e =? 0) && (fileSize <? e)) || (negb (e =? 0) && (e <? start))
  then range_not_satisfiable
  else
    let contentType := contentTypeForPath c filePath in
    let headers := ("accept-ranges", "bytes") ::
      (if decide (contentType = "") then [] else [("content-type", contentType)]) in
    if negb (start =? 0) || negb (e =? 0) then
      let e := if e =? 0 then fileSize else e in
      if e <=? start then range_not_satisfiable
      else
        let contentLength := u64 (e - start) in
        let headers := headers ++
          [("content-length", FormatInt contentLength); ("content-range", content_range start e fileSize)] in
        match body_for method (readFileRange fs filePath (wrap64 start) (wrap64 contentLength)) with
        | None => read_error
        | Some body => send_file "206" method headers body
        end
    else
      let headers := headers ++ [("content-length", FormatInt fileSize)] in
      match body_for method (ReadFile fs filePath) with
      | None => read_error
      | Some body => send_file "200" method headers body
      end.

Section Handler.
Context {H : Type} `{!HeaderMap H}.

Definition OnRequestHeaders (c : fileServerConfig) (fs : FileSystem) (headers : H)
    : Host HeadersStatus :=
  let requestPath := GetOne headers ":path" in
  if decide (requestPath = "") then hret HeadersStatusContinue
  else
    match PathUnescape requestPath with
    | None => hret HeadersStatusContinue
    | Some decodedPath =>
        match findLongestMatchingMapping c decodedPath with
        | None => hret HeadersStatusContinue
        | Some mapping =>
            let method := GetOne headers ":method" in
            if negb (bool_decide (method = "GET")) && negb (bool_decide (method = "HEAD"))
            then respond 405 plain_text "Method Not Allowed" "file_server_rejected_method"
            else
              match applyPathMapping decodedPath mapping with
              | None =>
                  respond 400 plain_text "Bad Request" "file_server_rejected_non_normalized_path"
              | Some filePath =>
                  let range := GetOne headers "range" in
                  match Stat fs filePath with
                  | Err NotExist => respond 404 plain_text "Not Found" "file_server_not_found"
                  | Err PermissionDenied =>
                      respond 403 plain_text "Forbidden" "file_server_permission_denied"
                  | Err OtherStatError =>
                      respond 500 plain_text "Internal Server Error" "file_server_stat_error"
                  | Ok InfoDir =>
                      match resolveDirectoryIndex c fs filePath with
                      | None =>
                          respond 403 plain_text "Forbidden" "file_server_no_valid_directory_index"
                      | Some (indexPath, size) => serve_file c fs method range indexPath size
                      end
                  | Ok (InfoFile size) => serve_file c fs method range filePath size
                  end
              end
        end
    end.
End Handler.

(** ** Path mapping is confined *)

Lemma applyPathMapping_below requestPath m out :
  FilePathPrefix m <> "" -> applyPathMapping requestPath m = Some out ->
  below (FilePathPrefix m) out.
Proof.
  intros Hp. unfold applyPathMapping. destruct (_ && ends_with_slash _); [done|].
  set (rest := if HasPrefix _ _ then drop_bytes 1 _ else _). destruct (HasPrefix rest _); [done|].
  destruct (_ && existsb _ _) eqn:Hparts; [done|]. intros [= <-]. apply below_Join2_segs; [done|].
  destruct (decide (rest = "")) as [|Hne]; [by left|]. right.
  rewrite bool_decide_eq_false_2 in Hparts by done. cbn [negb andb] in Hparts.
  apply existsb_false in Hparts. eapply Forall_impl; [exact Hparts|].
  intros part Hf. rewrite !orb_false_iff, !bool_decide_eq_false in Hf. unfold plain_seg. tauto.
Qed.

Lemma longest_from_spec requestPath ms best m :
  longest_from requestPath ms best = Some m ->
  (best = Some m \/ m ∈ ms /\ HasPrefix requestPath (RequestPathPrefix m) = true) /\
  (forall b, best = Some b ->
     (String.length (RequestPathPrefix b) <= String.length (RequestPathPrefix m))%nat) /\
  (forall m', m' ∈ ms -> HasPrefix requestPath (RequestPathPrefix m') = true ->
     (String.length (RequestPathPrefix m') <= String.length (RequestPathPrefix m))%nat).
Proof.
  revert best. induction ms as [|x ms IH]; intros best; cbn [longest_from].
  { intros ->. split_and!; [by left|by intros b [= ->]|]. by intros m' ?%not_elem_of_nil. }
  setoid_rewrite elem_of_cons.
  destruct (HasPrefix requestPath (RequestPathPrefix x)) eqn:Hx.
  - destruct best as [b|]; [destruct (_ <? _)%nat eqn:Hl|]; intros (H1 & H2 & H3)%IH;
      pose proof (H2 _ eq_refl); rewrite ?Nat.ltb_lt, ?Nat.ltb_ge in *;
      (split_and!; [naive_solver | intros b' Hb'; simplify_eq; lia |
        intros m' [->|Hm'] Hp'; [lia|by apply H3]]).
  - intros (H1 & H2 & H3)%IH. split_and!; [naive_solver|done|].
    intros m' [->|Hm'] Hp'; [congruence|by apply H3].
Qed.

Lemma longest_from_None requestPath ms best :
  longest_from requestPath ms best = None <->
  best = None /\ Forall (fun m => HasPrefix requestPath (RequestPathPrefix m) = false) ms.
Proof.
  revert best. induction ms as [|x ms IH]; intros best; cbn; [naive_solver|].
  rewrite Forall_cons. destruct (HasPrefix _ _) eqn:Hx; [|rewrite IH; naive_solver].
  destruct best; [case_match|]; rewrite IH; naive_solver.
Qed.

(** ** What a validated configuration guarantees *)

Record valid_config (c : fileServerConfig) : Prop := {
  vc_some : PathMappings c <> [];
  vc_request : Forall (fun m => RequestPathPrefix m <> "") (PathMappings c);
  vc_file : Forall (fun m => FilePathPrefix m <> "") (PathMappings c);
  vc_nodup : NoDup (RequestPathPrefix <$> PathMappings c);
  vc_suffix : forall s t, ContentTypes c !! s = Some t -> ContainsByte s "."%char = false;
  vc_index : Forall slash_free (DirectoryIndexFiles c);
}.

Lemma check_mappings_None ms seen :
  check_mappings ms seen = None <->
  Forall (fun m => RequestPathPrefix m <> "") ms /\ Forall (fun m => FilePathPrefix m <> "") ms /\
  NoDup (RequestPathPrefix <$> ms) /\ Forall (fun m => RequestPathPrefix m ∉ seen) ms.
Proof.
  revert seen. induction ms as [|m ms IH]; intros seen; cbn [check_mappings].
  { rewrite !Forall_nil. naive_solver constructor. }
  rewrite fmap_cons, NoDup_cons, !Forall_cons. repeat case_decide; [intuition congruence..|].
  rewrite IH, list_elem_of_fmap, !Forall_forall. set_solver.
Qed.

Lemma check_index_files_None fs : check_index_files fs = None <-> Forall slash_free fs.
Proof.
  unfold check_index_files, slash_free. induction fs as [|f fs IH]; [by rewrite Forall_nil|].
  rewrite Forall_cons, filter_cons. case_decide as Hd.
  - split; [done|]. intros [Hf _]. congruence.
  - rewrite IH. apply not_true_iff_false in Hd. tauto.
Qed.

Lemma validate_valid c : validate c = None <-> valid_config c.
Proof.
  unfold validate. destruct (PathMappings c) as [|m ms] eqn:Hms.
  { split; [done|]. intros []. congruence. }
  rewrite <-Hms. pose proof (check_mappings_None (PathMappings c) ∅) as Hm.
  destruct (check_mappings (PathMappings c) ∅) as [e|].
  { split; [done|]. intros []. cut (Some e = None); [done|]. apply Hm.
    split_and!; [done..|]. apply Forall_forall. intros ? _. apply not_elem_of_empty. }
  destruct Hm as [(H1 & H2 & H3 & _) _]; [done|].
  destruct (existsb _ _) eqn:He.
  - split; [done|]. intros [_ _ _ _ Hs _]. apply existsb_true, Exists_exists in He as (s & Hin & Hdot).
    apply list_elem_of_fmap in Hin as ([s' t] & -> & Hin%elem_of_map_to_list).
    cbn [fst] in Hdot. by rewrite (Hs _ _ Hin) in Hdot.
  - apply existsb_false in He. rewrite Forall_forall in He. rewrite check_index_files_None. split.
    + intros Hf. split; try done; [congruence|]. intros s t Hst. apply He.
      apply list_elem_of_fmap. exists (s, t). by rewrite elem_of_map_to_list.
    + by intros [].
Qed.

(** A configuration is accepted exactly when it is absent, or decodes and has at
    least one mapping, non-empty and pairwise distinct request prefixes, non-empty
    file prefixes, content-type suffixes without a period and index files without
    a slash. *)
Theorem fileServer_parseConfig_accepts empty decoded c :
  parseConfig empty decoded = Ok c <->
  (empty = true /\ c = mkFileServerConfig [] ∅ "" []) \/
  (empty = false /\ decoded = Some c /\ valid_config c).
Proof.
  rewrite <-validate_valid. unfold parseConfig. destruct empty; [naive_solver|].
  destruct decoded as [c'|]; [|naive_solver]. destruct (validate c') eqn:Hv; [|naive_solver].
  split; [done|]. intros [[]|(_ & [= ->] & ?)]; congruence.
Qed.

Lemma same_length_prefix s p q :
  HasPrefix s p = true -> HasPrefix s q = true -> String.length p = String.length q -> p = q.
Proof.
  rewrite !HasPrefix_spec. intros [t ->] [u Hu]. revert q Hu.
  induction p as [|c p IH]; intros [|d q]; cbn; try done. intros [= -> Hu] [= Hl].
  by rewrite (IH q).
Qed.

(** With distinct request prefixes the mapping chosen for a path is the unique
    one whose prefix is the longest that matches, independently of the order of
    the mappings; none is chosen only when no prefix matches. *)
Theorem findLongestMatchingMapping_longest c requestPath :
  NoDup (RequestPathPrefix <$> PathMappings c) ->
  (findLongestMatchingMapping c requestPath = None <->
   forall m, m ∈ PathMappings c -> HasPrefix requestPath (RequestPathPrefix m) = false) /\
  (forall m, findLongestMatchingMapping c requestPath = Some m <->
   m ∈ PathMappings c /\ HasPrefix requestPath (RequestPathPrefix m) = true /\
   forall m', m' ∈ PathMappings c -> HasPrefix requestPath (RequestPathPrefix m') = true ->
     m' = m \/ (String.length (RequestPathPrefix m') < String.length (RequestPathPrefix m))%nat).
Proof.
  intros Hnd. unfold findLongestMatchingMapping. split.
  { rewrite longest_from_None, Forall_forall. tauto. }
  assert (Hinj : forall m m', m ∈ PathMappings c -> m' ∈ PathMappings c ->
            RequestPathPrefix m' = RequestPathPrefix m -> m' = m).
  { intros m m' (i & Hi)%list_elem_of_lookup (j & Hj)%list_elem_of_lookup Heq.
    assert (j = i); [|congruence]. eapply NoDup_lookup; [exact Hnd| |];
      rewrite list_lookup_fmap; [by rewrite Hj|by rewrite Hi; cbn; rewrite Heq]. }
  assert (Hall : forall m, longest_from requestPath (PathMappings c) None = Some m ->
    m ∈ PathMappings c /\ HasPrefix requestPath (RequestPathPrefix m) = true /\
    forall m', m' ∈ PathMappings c -> HasPrefix requestPath (RequestPathPrefix m') = true ->
     m' = m \/ (String.length (RequestPathPrefix m') < String.length (RequestPathPrefix m))%nat).
  { intros m ([?|[Hin Hp]] & _ & Hmax)%longest_from_spec; [done|]. split_and!; [done..|].
    intros m' Hin' Hp'. specialize (Hmax m' Hin' Hp').
    destruct (decide (String.length (RequestPathPrefix m') = String.length (RequestPathPrefix m))); [|lia].
    left. apply Hinj; [done..|]. by eapply same_length_prefix. }
  intros m. split; [apply Hall|]. intros (Hin & Hp & Hbest).
  destruct (longest_from requestPath (PathMappings c) None) as [m0|] eqn:Hm0.
  - destruct (Hall m0 eq_refl) as (Hin0 & Hp0 & Hbest0).
    destruct (Hbest m0 Hin0 Hp0) as [->|]; [done|]. destruct (Hbest0 m Hin Hp) as [->|]; [done|]. lia.
  - apply longest_from_None in Hm0 as [_ Hf]. rewrite Forall_forall in Hf. by rewrite Hf in Hp.
Qed.

(** ** Confinement of the handler *)

(** The files of the configured subtrees. *)
Definition in_scope (c : fileServerConfig) (p : string) : Prop :=
  exists m, m ∈ PathMappings c /\ below (FilePathPrefix m) p.

Definition fs_agree (P : string -> Prop) (fs1 fs2 : FileSystem) : Prop :=
  forall p, P p -> Stat fs1 p = Stat fs2 p /\ ReadFile fs1 p = ReadFile fs2 p.

Lemma serve_file_agree c fs1 fs2 method range p size :
  ReadFile fs1 p = ReadFile fs2 p ->
  serve_file c fs1 method range p size = serve_file c fs2 method range p size.
Proof. intros Hr. unfold serve_file, readFileRange. by rewrite Hr. Qed.

Lemma resolveDirectoryIndex_agree c fs1 fs2 m dir :
  Forall plain_seg (DirectoryIndexFiles c) -> Forall slash_free (DirectoryIndexFiles c) ->
  m ∈ PathMappings c -> below (FilePathPrefix m) dir -> fs_agree (in_scope c) fs1 fs2 ->
  resolveDirectoryIndex c fs1 dir = resolveDirectoryIndex c fs2 dir /\
  (forall p size, resolveDirectoryIndex c fs2 dir = Some (p, size) -> in_scope c p).
Proof.
  intros Hp Hf Hm Hd Hag. unfold resolveDirectoryIndex.
  assert (Hsc : forall f, f ∈ DirectoryIndexFiles c -> in_scope c (Join2 dir f)).
  { intros f Hin. rewrite Forall_forall in Hp, Hf. exists m. split; [done|]. by apply below_Join2; auto. }
  clear Hp Hf. induction (DirectoryIndexFiles c) as [|f fs IH]; cbn; [done|].
  destruct IH as [IH1 IH2]. { intros f' Hf'. apply Hsc. by right. }
  destruct (Hag (Join2 dir f)) as [Hs _]; [apply Hsc; by left|]. rewrite Hs.
  destruct (Stat fs2 (Join2 dir f)) as [[|size0]|]; [done| |done]. cbn. split; [done|].
  intros p size [= <- <-]. apply Hsc. by left.
Qed.

(** C4: the filter never depends on a file outside the configured directories: with
    a validated configuration whose index files are plain names, two file systems
    that agree below the configured file prefixes give the same response to every
    request, whatever the path it carries. *)
Theorem OnRequestHeaders_confined {H} `{!HeaderMap H} c fs1 fs2 (headers : H) :
  validate c = None -> Forall plain_seg (DirectoryIndexFiles c) ->
  fs_agree (in_scope c) fs1 fs2 ->
  OnRequestHeaders c fs1 headers = OnRequestHeaders c fs2 headers.
Proof.
  intros [_ _ Hfile Hnd _ Hidx]%validate_valid Hplain Hag. unfold OnRequestHeaders.
  case_decide; [done|]. destruct (PathUnescape _) as [path|]; [|done].
  destruct (findLongestMatchingMapping c path) as [m|] eqn:Hm; [|done].
  destruct (_ && _); [done|]. destruct (applyPathMapping path m) as [p|] eqn:Hp; [|done].
  apply longest_from_spec in Hm as ([?|[Hin _]] & _ & _); [done|].
  rewrite Forall_forall in Hfile. pose proof (applyPathMapping_below _ _ _ (Hfile _ Hin) Hp) as Hb.
  destruct (Hag p) as [Hs Hr]; [by exists m|]. rewrite Hs.
  destruct (Stat fs2 p) as [[|size]|]; [|by apply serve_file_agree|done].
  destruct (resolveDirectoryIndex_agree c fs1 fs2 m p) as [-> Hsc]; [done..|].
  destruct (resolveDirectoryIndex c fs2 p) as [[q size]|]; [|done].
  apply serve_file_agree, Hag. by eapply Hsc.
Qed.

(** ** Range requests *)

(** A single range with a valid start: the end is the number after the dash plus
    one (modulo 2^64), and 0, an open end, when it is missing or malformed. *)
Theorem parseRangeHeader_spec a b start :
  ParseUint a = Some start -> ContainsByte (a +:+ "-" +:+ b) ","%char = false ->
  parseRangeHeader ("bytes=" +:+ a +:+ "-" +:+ b) =
  (start, match ParseUint b with Some e => u64 (e + 1) | None => 0 end).
Proof.
  intros Ha Hc. unfold parseRangeHeader. rewrite bool_decide_eq_false_2 by done.
  rewrite HasPrefix_app, drop_bytes_app, Hc. cbn [negb orb].
  change ("-" +:+ b) with (String "-" b). rewrite (Cut_app a b) by (by eapply ParseUint_no_byte). cbn [negb orb].
  rewrite bool_decide_eq_false_2 by (by intros ->). rewrite Ha. case_decide; [by subst|].
  by destruct (ParseUint b).
Qed.

Lemma parseRangeHeader_range range start e :
  parseRangeHeader range = (start, e) -> 0 <= start < 2 ^ 64 /\ 0 <= e < 2 ^ 64.
Proof.
  unfold parseRangeHeader.
  destruct (_ || _); [intros [= <- <-]; lia|]. destruct (ContainsByte _ _); [intros [= <- <-]; lia|].
  destruct (Cut _ _) as [[first last] found]. destruct (_ || _); [intros [= <- <-]; lia|].
  destruct (ParseUint first) as [s|] eqn:Hs; [|intros [= <- <-]; lia].
  apply ParseUint_range in Hs. case_decide; [intros [= <- <-]; lia|].
  destruct (ParseUint last) as [l|]; intros [= <- <-]; [|lia].
  split; [done|]. apply Z.mod_pos_bound. lia.
Qed.

(** The headers of a response with a file or part of it. *)
Definition file_headers (c : fileServerConfig) (filePath status : string)
    (rest : list (string * string)) : list (string * string) :=
  (":status", status) :: (("accept-ranges", "bytes") ::
    (if decide (contentTypeForPath c filePath = "") then []
     else [("content-type", contentTypeForPath c filePath)])) ++ rest.

(** A range request for [start, e) of a file gets a 206 with exactly these bytes,
    their number and their position when the range is not empty and within the file
    (an open end standing for the end of the file), and a 416 otherwise. *)
Theorem serve_file_range c fs range p content start e
    (size := Z.of_nat (String.length content)) (stop := if e =? 0 then size else e) :
  ReadFile fs p = Some content -> size <= int64_max ->
  parseRangeHeader range = (start, e) -> (start, e) <> (0, 0) ->
  (start < stop <= size -> exists body,
     slice content start (stop - start) body /\
     serve_file c fs "GET" range p size =
       (HeadersStatusStopAllAndBuffer,
        [SendResponseHeaders (file_headers c p "206"
           [("content-length", FormatInt (stop - start));
            ("content-range", content_range start stop size)]) false;
         SendResponseData body true])) /\
  (~ start < stop <= size -> serve_file c fs "GET" range p size = range_not_satisfiable).
Proof.
  intros Hr Hsize Hp Hne. pose proof (parseRangeHeader_range _ _ _ Hp) as [Hs He].
  assert (H0 : 0 <= size) by lia. unfold int64_max in Hsize.
  unfold serve_file. rewrite Hp, (u64_id size) by lia.
  replace (negb (start =? 0) || negb (e =? 0)) with true by
    (symmetry; apply not_false_iff_true; rewrite orb_false_iff, !negb_false_iff, !Z.eqb_eq;
     intros [-> ->]; done).
  fold stop. split.
  - intros Hin. replace ((size <? start) || negb (e =? 0) && (size <? e) || negb (e =? 0) && (e <? start))
      with false by (symmetry; unfold stop in Hin; destruct (Z.eqb_spec e 0); cbn [negb andb];
                     rewrite ?orb_false_iff, ?Z.ltb_ge; lia).
    replace (stop <=? start) with false by (symmetry; apply Z.leb_gt; lia).
    rewrite (u64_id (stop - start)) by lia. unfold readFileRange. rewrite Hr. cbn [fmap option_fmap option_map body_for].
    rewrite !wrap64_id by (unfold int64_min, int64_max; lia).
    pose proof (slice_take_drop content start (stop - start)) as Hsl.
    exists (take_bytes (Z.to_nat (stop - start)) (drop_bytes (Z.to_nat start) content)).
    split; [apply Hsl; lia|]. unfold body_for. rewrite decide_False by done. unfold send_file.
    rewrite bool_decide_eq_false_2 by done. rewrite bool_decide_eq_false_2; [done|].
    intros Hb. destruct Hsl as (? & ? & _ & _ & Hl); [lia..|]. rewrite Hb in Hl. cbn in Hl. lia.
  - intros Hout. destruct (_ || _) eqn:Hc; [done|].
    replace (stop <=? start) with true; [done|]. symmetry. apply Z.leb_le. unfold stop in *.
    destruct (Z.eqb_spec e 0); cbn [negb andb] in Hc; rewrite ?orb_false_iff, ?Z.ltb_ge in Hc; lia.
Qed.

(** A request without a usable range gets the whole file with its length, and a
    HEAD request gets the headers alone. *)
Theorem serve_file_whole c fs range p content
    (size := Z.of_nat (String.length content))
    (hs := file_headers c p "200" [("content-length", FormatInt size)]) :
  ReadFile fs p = Some content -> size <= int64_max -> parseRangeHeader range = (0, 0) ->
  serve_file c fs "HEAD" range p size =
    (HeadersStatusStopAllAndBuffer, [SendResponseHeaders hs true]) /\
  serve_file c fs "GET" range p size =
    (HeadersStatusStopAllAndBuffer,
     if decide (content = "") then [SendResponseHeaders hs true]
     else [SendResponseHeaders hs false; SendResponseData content true]).
Proof.
  intros Hr Hsize Hp. assert (H0 : 0 <= size) by lia. unfold int64_max in Hsize.
  unfold serve_file. rewrite Hp, Hr, (u64_id size) by lia.
  replace (size <? 0) with false by (symmetry; apply Z.ltb_ge; lia).
  cbn [negb orb andb Z.eqb]. unfold body_for. destruct (decide ("HEAD" = "HEAD")); [|done]. destruct (decide ("GET" = "HEAD")); [done|].
  split; [done|]. unfold send_file. rewrite bool_decide_eq_false_2 by done. cbn [orb].
  by destruct (bool_decide_reflect (content = "")), (decide (content = "")).
Qed.

(** ** One response *)

Inductive one_response : list HandleCall -> Prop :=
| one_local status hs body detail : one_response [SendLocalResponse status hs body detail]
| one_headers hs : one_response [SendResponseHeaders hs true]
| one_body hs body : body <> "" ->
    one_response [SendResponseHeaders hs false; SendResponseData body true].

Lemma respond_one status hs body detail :
  val_of (respond status hs body detail) = HeadersStatusStopAllAndBuffer /\
  one_response (calls_of (respond status hs body detail)).
Proof. split; [done|constructor]. Qed.

Lemma send_file_one status method hs body :
  val_of (send_file status method hs body) = HeadersStatusStopAllAndBuffer /\
  one_response (calls_of (send_file status method hs body)).
Proof.
  unfold send_file. destruct (_ || _) eqn:Hb; [split; [done|constructor]|].
  apply orb_false_iff in Hb as [_ Hb%bool_decide_eq_false]. split; [done|by constructor].
Qed.

#[local] Hint Resolve respond_one send_file_one : boe.

Lemma serve_file_one c fs method range p size :
  val_of (serve_file c fs method range p size) = HeadersStatusStopAllAndBuffer /\
  one_response (calls_of (serve_file c fs method range p size)).
Proof.
  unfold serve_file, range_not_satisfiable, read_error.
  destruct (parseRangeHeader range) as [start e].
  repeat case_match; auto with boe.
Qed.

#[local] Hint Resolve serve_file_one : boe.

(** Every request is either passed on untouched, exactly when its path is empty,
    cannot be decoded or matches no mapping, or answered with exactly one complete
    response while the filter chain stops. *)
Theorem OnRequestHeaders_one_response {H} `{!HeaderMap H} c fs (headers : H) :
  let r := OnRequestHeaders c fs headers in
  let passed := GetOne headers ":path" = "" \/ PathUnescape (GetOne headers ":path") = None \/
    exists path, PathUnescape (GetOne headers ":path") = Some path /\
      findLongestMatchingMapping c path = None in
  (passed /\ r = hret HeadersStatusContinue) \/
  (~ passed /\ val_of r = HeadersStatusStopAllAndBuffer /\ one_response (calls_of r)).
Proof.
  cbn zeta. unfold OnRequestHeaders. case_decide as Hp; [by left; auto|].
  destruct (PathUnescape _) as [path|] eqn:Hu; [|by left; auto].
  destruct (findLongestMatchingMapping c path) as [m|] eqn:Hm; [|left; split; [|done]; eauto 6].
  right. split; [naive_solver|]. destruct (_ && _); [auto with boe|].
  destruct (applyPathMapping path m) as [p|]; [|auto with boe].
  destruct (Stat fs p) as [[|size]|[]]; auto with boe.
  destruct (resolveDirectoryIndex c fs p) as [[q size]|]; auto with boe.
Qed.

(** ** Witnesses *)

Definition www : fileServerConfig :=
  mkFileServerConfig [mkPathMapping "/static" "/var/www"; mkPathMapping "/static/img/" "/srv/img"]
    {[ "html" := "text/html" ]} "text/plain" ["index.html"].

Definition www_fs : FileSystem := mkFileSystem
  (fun p => if decide (p = "/var/www/a.html") then Ok (InfoFile 11)
            else if decide (p = "/var/www") then Ok InfoDir
            else if decide (p = "/etc/passwd") then Ok (InfoFile 6) else Err NotExist)
  (fun p => if decide (p = "/var/www/a.html") then Some "hello world"
            else if decide (p = "/etc/passwd") then Some "secret" else None).

Definition www_fs' : FileSystem := mkFileSystem
  (fun p => if decide (p = "/etc/passwd") then Err PermissionDenied else Stat www_fs p)
  (fun p => if decide (p = "/etc/passwd") then None else ReadFile www_fs p).

Lemma www_valid : validate www = None /\ Forall plain_seg (DirectoryIndexFiles www).
Proof. split; [by vm_compute|]. repeat constructor; done. Defined.

Lemma findLongestMatchingMapping_longest_witness :
  findLongestMatchingMapping www "/static/img/x.png" = Some (mkPathMapping "/static/img/" "/srv/img").
Proof.
  apply (findLongestMatchingMapping_longest www "/static/img/x.png").
  - cbn. repeat (constructor; [set_solver|]). constructor.
  - split; [right; left|]. split; [by vm_compute|].
    intros m' Hm' _. cbn in Hm'. rewrite !elem_of_cons in Hm'.
    destruct Hm' as [->|[->|Hm']]; [right; cbn; lia|by left|by apply not_elem_of_nil in Hm'].
Defined.

Lemma etc_passwd_out_of_scope : ~ in_scope www "/etc/passwd".
Proof.
  intros (m & Hm & segs & _ & _ & Heq). cbn in Hm. rewrite !elem_of_cons in Hm.
  destruct Hm as [->|[->|Hm]]; [| |by apply not_elem_of_nil in Hm];
    destruct segs; vm_compute in Heq; discriminate Heq.
Qed.

Lemma OnRequestHeaders_confined_witness :
  OnRequestHeaders www www_fs [(":path", "/static/../../etc/passwd"); (":method", "GET")]
  = OnRequestHeaders www www_fs' [(":path", "/static/../../etc/passwd"); (":method", "GET")].
Proof.
  apply (OnRequestHeaders_confined www www_fs www_fs').
  - apply www_valid.
  - apply www_valid.
  - intros p Hp. unfold www_fs'. cbn [Stat ReadFile].
    rewrite !decide_False by (intros ->; by apply etc_passwd_out_of_scope). done.
Defined.

Lemma parseRangeHeader_spec_witness : parseRangeHeader "bytes=5-abc" = (5, 0).
Proof. apply (parseRangeHeader_spec "5" "abc" 5); reflexivity. Defined.

Lemma serve_file_range_witness :
  exists body, slice "hello world" 6 5 body /\
    serve_file www www_fs "GET" "bytes=6-10" "/var/www/a.html" 11 =
      (HeadersStatusStopAllAndBuffer,
       [SendResponseHeaders (file_headers www "/var/www/a.html" "206"
          [("content-length", "5"); ("content-range", "bytes 6-10/11")]) false;
        SendResponseData body true]).
Proof.
  apply (serve_file_range www www_fs "bytes=6-10" "/var/www/a.html" "hello world" 6 11);
    [reflexivity|done|reflexivity|done|done].
Defined.

Lemma serve_file_whole_witness :
  serve_file www www_fs "GET" "" "/var/www/a.html" 11 =
  (HeadersStatusStopAllAndBuffer,
   [SendResponseHeaders (file_headers www "/var/www/a.html" "200" [("content-length", "11")]) false;
    SendResponseData "hello world" true]).
Proof.
  apply (serve_file_whole www www_fs "" "/var/www/a.html" "hello world"); [reflexivity|done|reflexivity].
Defined.
