(* ===== verification/OpenFGA.v ===== *)
(** * openfga: authorization by the OpenFGA Check API

    extensions/composer/openfga/config.go and plugin.go: the configuration with
    its validation, the rules that build a check, and the two halves of the
    filter, the request headers and the callout reply.  JSON encoding and
    decoding are parameters; the elapsed time of a callout is an argument. *)

From S2P Require Import Prelude GoStr GoNum GoPath Host ExtPkg.
From Stdlib Require Import Lia Ascii.

Local Open Scope Z_scope.
Local Open Scope go_scope.

Definition defaultTimeoutMs : Z := 5000.

(** ** Value sources *)

Record valueSource : Type := mkValueSource {
  Value : string;
  Header : string;
  PathSegment : option Z;
  QueryParam : string;
  VPrefix : string;
  resolved : string;
}.

Definition isEmpty (v : valueSource) : bool :=
  bool_decide (Value v = "") && bool_decide (Header v = "") &&
  bool_decide (PathSegment v = None) && bool_decide (QueryParam v = "").

Definition precompute (v : valueSource) : valueSource :=
  if decide (Value v = "") then v
  else mkValueSource (Value v) (Header v) (PathSegment v) (QueryParam v) (VPrefix v)
         (VPrefix v +:+ Value v).

Definition extractPathSegment (fullPath : string) (idx : Z) : string :=
  let '(pathPart, _, _) := Cut fullPath "?"%char in
  let segments := Split (TrimPrefix pathPart "/") "/"%char in
  let idx := if idx <? 0 then zlen segments + idx else idx in
  if (idx <? 0) || (zlen segments <=? idx) then ""
  else default "" (segments !! Z.to_nat idx).

Definition extractQueryParam (fullPath name : string) : string :=
  let '(_, queryPart, ok) := Cut fullPath "?"%char in
  if negb ok then ""
  else match ParseQuery queryPart with
       | None => ""
       | Some vals => query_get vals name
       end.

Section Resolve.
Context {H : Type} `{!HeaderMap H}.

Definition resolve (v : valueSource) (headers : H) : string :=
  if decide (resolved v <> "") then resolved v
  else
    let raw :=
      if decide (Value v <> "") then Value v
      else if decide (Header v <> "") then GetOne headers (Header v)
      else match PathSegment v with
           | Some idx => extractPathSegment (GetOne headers ":path") idx
           | None =>
               if decide (QueryParam v <> "")
               then extractQueryParam (GetOne headers ":path") (QueryParam v)
               else ""
           end in
    if decide (raw = "") then "" else VPrefix v +:+ raw.
End Resolve.

(** [validateValueSource]: [Some n] when [n] sources are set instead of one. *)
Definition sources_set (v : valueSource) : nat :=
  (if decide (Value v <> "") then 1 else 0) + (if decide (Header v <> "") then 1 else 0) +
  (if decide (PathSegment v <> None) then 1 else 0) +
  (if decide (QueryParam v <> "") then 1 else 0).

Inductive SourceError : Type :=
| NoSourceSet (name : string)
| SeveralSourcesSet (name : string).

Definition validateValueSource (name : string) (v : valueSource) : list SourceError :=
  if decide (sources_set v = 0%nat) then [NoSourceSet name]
  else if decide (1 < sources_set v)%nat then [SeveralSourcesSet name]
  else [].

(** ** Configuration *)

Record contextualTupleCfg : Type := mkContextualTupleCfg {
  ct_User : valueSource;
  ct_Relation : valueSource;
  ct_Object : valueSource;
}.

(** A contextual tuple with its sources validated and precomputed. *)
Record parsedContextualTuple : Type := mkParsedContextualTuple {
  pt_user : valueSource;
  pt_relation : valueSource;
  pt_object : valueSource;
}.

Record resolvedTuple : Type := mkResolvedTuple {
  rt_User : string;
  rt_Relation : string;
  rt_Object : string;
}.

Record ruleMatch : Type := mkRuleMatch { MatchHeaders : gmap string string }.

Record checkRule : Type := mkCheckRule {
  cr_Match : option ruleMatch;
  cr_User : option valueSource;
  cr_Relation : valueSource;
  cr_Object : valueSource;
}.

Record parsedRule : Type := mkParsedRule {
  pr_match : option ruleMatch;
  pr_user : valueSource;
  pr_relation : valueSource;
  pr_object : valueSource;
}.

Record openfgaConfig : Type := mkOpenfgaConfig {
  Cluster : string;
  OpenFGAHost : string;
  StoreID : string;
  AuthorizationModelID : string;
  User : valueSource;
  Relation : valueSource;
  Object : valueSource;
  Rules : list checkRule;
  FailOpen : bool;
  DryRun : bool;
  TimeoutMs : Z;
  DenyStatus : Z;
  DenyBody : string;
  Consistency : string;
  Metadata : option MetadataKey;
  CalloutHeaders : gmap string string;
  ContextualTuples : list contextualTupleCfg;
  Context_ : gmap string valueSource;
}.

Record parsedConfig : Type := mkParsedConfig {
  cluster : string;
  storeID : string;
  authorizationModelID : string;
  failOpen : bool;
  dryRun : bool;
  timeoutMs : Z;
  deny : LocalResponse;
  denyHeaders : list (string * string);
  denyBodyBytes : string;
  checkPath : string;
  calloutHeaders : list (string * string);
  rules : list parsedRule;
  metadata : option MetadataKey;
  consistency : string;
  contextualTuples : list parsedContextualTuple;
  context : gmap string valueSource;
}.

Inductive ConfigError : Type :=
| EmptyConfig
| UndecodableConfig
| MissingCluster | MissingHost | MissingStoreID
| InvalidConsistency (s : string)
| InvalidDenyStatus (n : Z)
| InvalidMetadata
| MissingDefaultUser
| CatchAllNotLast (i : nat)
| BadSource (e : SourceError).

Definition validateConsistency (s : string) : list ConfigError :=
  if decide (s = "" \/ s = "UNSPECIFIED" \/ s = "MINIMIZE_LATENCY" \/ s = "HIGHER_CONSISTENCY")
  then [] else [InvalidConsistency s].

Definition buildDenyHeaders (d : LocalResponse) : list (string * string) :=
  let headers := map_to_list (RespHeaders d) in
  if decide (is_Some (RespHeaders d !! "content-type")) then headers
  else ("content-type", "text/plain") :: headers.

(** The errors of the three sources of a tuple. *)
Definition tuple_errors (name : string) (u r o : valueSource) : list SourceError :=
  validateValueSource (name +:+ "user") u ++
  validateValueSource (name +:+ "relation") r ++
  validateValueSource (name +:+ "object") o.

Definition rule_name (kind : string) (i : nat) : string :=
  kind +:+ "[" +:+ FormatInt (Z.of_nat i) +:+ "].".

Definition buildLegacyRule (cfg : openfgaConfig) : result (list ConfigError) (list parsedRule) :=
  match tuple_errors "" (User cfg) (Relation cfg) (Object cfg) with
  | [] => Ok [mkParsedRule None (precompute (User cfg)) (precompute (Relation cfg))
                (precompute (Object cfg))]
  | errs => Err (BadSource <$> errs)
  end.

(** The match of a rule, with a match without headers normalized to none. *)
Definition effective_match (m : option ruleMatch) : option ruleMatch :=
  match m with
  | Some rm => if decide (MatchHeaders rm = ∅) then None else Some rm
  | None => None
  end.

(** The loop over the rules from index [i]; [Err] is the early return for a rule
    after a catch-all, the first component of [Ok] the errors gathered. *)
Fixpoint build_rules (defaultUser : valueSource) (i : nat) (catchAllSeen : bool) (rs : list checkRule)
    : result (list ConfigError) (list ConfigError * list parsedRule) :=
  match rs with
  | [] => Ok ([], [])
  | cr :: rs' =>
      if catchAllSeen then Err [CatchAllNotLast i]
      else
        let m := effective_match (cr_Match cr) in
        let user := default defaultUser (cr_User cr) in
        let ruleErrs := tuple_errors (rule_name "rule" i) user (cr_Relation cr) (cr_Object cr) in
        try rest <- build_rules defaultUser (S i) (bool_decide (m = None)) rs';
        let '(errs, parsed) := rest in
        match ruleErrs with
        | [] => Ok (errs, mkParsedRule m (precompute user) (precompute (cr_Relation cr))
                            (precompute (cr_Object cr)) :: parsed)
        | _ => Ok ((BadSource <$> ruleErrs) ++ errs, parsed)
        end
  end.

Definition buildRules (cfg : openfgaConfig) : result (list ConfigError) (list parsedRule) :=
  match Rules cfg with
  | [] => buildLegacyRule cfg
  | rs =>
      if isEmpty (User cfg) then Err [MissingDefaultUser]
      else
        try res <- build_rules (User cfg) 0 false rs;
        match res.1 with [] => Ok res.2 | errs => Err errs end
  end.

Fixpoint build_tuples (i : nat) (ts : list contextualTupleCfg)
    : list ConfigError * list parsedContextualTuple :=
  match ts with
  | [] => ([], [])
  | ct :: ts' =>
      let '(errs, parsed) := build_tuples (S i) ts' in
      match tuple_errors (rule_name "contextual_tuples" i) (ct_User ct) (ct_Relation ct) (ct_Object ct) with
      | [] => (errs, mkParsedContextualTuple (precompute (ct_User ct)) (precompute (ct_Relation ct))
                       (precompute (ct_Object ct)) :: parsed)
      | es => ((BadSource <$> es) ++ errs, parsed)
      end
  end.

Definition buildContextualTuples (ts : list contextualTupleCfg)
    : result (list ConfigError) (list parsedContextualTuple) :=
  let '(errs, parsed) := build_tuples 0 ts in
  match errs with [] => Ok parsed | _ => Err errs end.

(** The errors of [buildContext], in the order of the map's iteration. *)
Definition context_errors (ctx : gmap string valueSource) : list ConfigError :=
  map_to_list ctx ≫= (fun '(name, vs) =>
    BadSource <$> validateValueSource ("context[" +:+ name +:+ "]") vs).

Definition buildContext (ctx : gmap string valueSource)
    : result (list ConfigError) (gmap string valueSource) :=
  match context_errors ctx with
  | [] => Ok (precompute <$> ctx)
  | errs => Err errs
  end.

Definition errors_of {A} (r : result (list ConfigError) A) : list ConfigError :=
  match r with Ok _ => [] | Err e => e end.
Definition ok_or {A} (a : A) (r : result (list ConfigError) A) : A :=
  match r with Ok x => x | Err _ => a end.

Definition deny_status (cfg : openfgaConfig) : Z :=
  if DenyStatus cfg =? 0 then 403 else DenyStatus cfg.

Definition deny_response (cfg : openfgaConfig) : LocalResponse :=
  mkLocalResponse (deny_status cfg) (if decide (DenyBody cfg = "") then "Forbidden" else DenyBody cfg) ∅.

(** The errors of a decoded configuration, in the order they are found. *)
Definition config_errors (cfg : openfgaConfig) : list ConfigError :=
  (if decide (Cluster cfg = "") then [MissingCluster] else []) ++
  (if decide (OpenFGAHost cfg = "") then [MissingHost] else []) ++
  (if decide (StoreID cfg = "") then [MissingStoreID] else []) ++
  validateConsistency (Consistency cfg) ++
  (if (deny_status cfg <? 100) || (599 <? deny_status cfg)
   then [InvalidDenyStatus (deny_status cfg)]
   else if LocalResponse_Validate (deny_response cfg) then []
   else [InvalidDenyStatus (deny_status cfg)]) ++
  match Metadata cfg with
  | Some k => if MetadataKey_Validate k then [] else [InvalidMetadata]
  | None => []
  end ++
  errors_of (buildRules cfg) ++
  errors_of (buildContextualTuples (ContextualTuples cfg)) ++
  errors_of (buildContext (Context_ cfg)).

(** [parseConfig]: [empty] is whether there are no bytes, [decoded] what they decode
    to. *)
Definition parseConfig (empty : bool) (decoded : option openfgaConfig)
    : result (list ConfigError) parsedConfig :=
  if empty then Err [EmptyConfig]
  else match decoded with
  | None => Err [UndecodableConfig]
  | Some cfg =>
      match config_errors cfg with
      | [] =>
          let checkPath := "/stores/" +:+ StoreID cfg +:+ "/check" in
          Ok {| cluster := Cluster cfg; storeID := StoreID cfg;
                authorizationModelID := AuthorizationModelID cfg;
                failOpen := FailOpen cfg; dryRun := DryRun cfg;
                timeoutMs := if TimeoutMs cfg =? 0 then defaultTimeoutMs else TimeoutMs cfg;
                deny := deny_response cfg;
                denyHeaders := buildDenyHeaders (deny_response cfg);
                denyBodyBytes := Body (deny_response cfg);
                checkPath := checkPath;
                calloutHeaders :=
                  [(":method", "POST"); (":path", checkPath); ("host", OpenFGAHost cfg);
                   ("content-type", "application/json")] ++ map_to_list (CalloutHeaders cfg);
                rules := ok_or [] (buildRules cfg);
                metadata := Metadata cfg; consistency := Consistency cfg;
                contextualTuples := ok_or [] (buildContextualTuples (ContextualTuples cfg));
                context := ok_or ∅ (buildContext (Context_ cfg)) |}
      | errs => Err errs
      end
  end.

(** ** The request to the Check API *)

Record checkRequest : Type := mkCheckRequest {
  req_TupleKey : resolvedTuple;
  req_AuthorizationModelID : string;
  req_Consistency : string;
  req_ContextualTuples : option (list resolvedTuple);
  req_Context : option (gmap string string);
}.

Definition check_request (user relation object modelID consistency : string)
    (tuples : list resolvedTuple) (ctx : gmap string string) : checkRequest :=
  mkCheckRequest (mkResolvedTuple user relation object) modelID consistency
    (match tuples with [] => None | _ => Some tuples end)
    (if decide (ctx = ∅) then None else Some ctx).

(** ** Decisions, metrics and responses *)

Definition decisionAllowed : string := "allowed".
Definition decisionDenied : string := "denied".
Definition decisionFailOpen : string := "failopen".
Definition decisionDryAllow : string := "dryrun_allow".
Definition decisionError : string := "error".

Definition errorResponseHeaders : list (string * string) := [("content-type", "text/plain")].
Definition errorBodyCallout : string := "Authorization service unavailable".
Definition errorBodyAPI : string := "Authorization service error".

Definition requests_total : string := "openfga_requests_total".
Definition check_duration : string := "openfga_check_duration_ms".

(** Which of the two metrics the host accepted. *)
Record openfgaMetrics : Type := mkOpenfgaMetrics {
  enabled : bool;
  hasCheckDur : bool;
}.

Definition inc (m : openfgaMetrics) (decision : string) : Host unit :=
  hwhen (enabled m) (hcall (IncrementCounterValue requests_total 1 [decision])).

(** [d] is the duration in nanoseconds; [Milliseconds] truncates. *)
Definition recordDuration (m : openfgaMetrics) (d : Z) : Host unit :=
  hwhen (hasCheckDur m)
    (hcall (RecordHistogramValue check_duration (Z.max 0 (Z.quot d Millisecond)) [])).

Definition sendDeny (cfg : parsedConfig) (detail : string) : Host unit :=
  hcall (SendLocalResponse (u32 (Status (deny cfg))) (denyHeaders cfg) (denyBodyBytes cfg) detail).

Definition writeMetadata (cfg : parsedConfig) (decision : string) : Host unit :=
  match metadata cfg with
  | Some k => hcall (SetMetadata (Namespace k) (Key k) (MetaString decision))
  | None => hret tt
  end.

Definition handleDeny (cfg : parsedConfig) (m : openfgaMetrics) (detail metricDecision : string)
    : Host HeadersStatus :=
  if dryRun cfg then
    run writeMetadata cfg decisionDryAllow;
    run inc m decisionDryAllow;
    hret HeadersStatusContinue
  else if failOpen cfg then
    run writeMetadata cfg decisionFailOpen;
    run inc m decisionFailOpen;
    hret HeadersStatusContinue
  else
    run writeMetadata cfg metricDecision;
    run sendDeny cfg detail;
    run inc m metricDecision;
    hret HeadersStatusStop.

Definition handleCalloutError (cfg : parsedConfig) (m : openfgaMetrics) : Host HeadersStatus :=
  if dryRun cfg then
    run writeMetadata cfg decisionDryAllow;
    run inc m decisionDryAllow;
    hret HeadersStatusContinue
  else if failOpen cfg then
    run writeMetadata cfg decisionFailOpen;
    run inc m decisionFailOpen;
    hret HeadersStatusContinue
  else
    run writeMetadata cfg decisionError;
    run hcall (SendLocalResponse 502 errorResponseHeaders errorBodyCallout "openfga_callout_failed");
    run inc m decisionError;
    hret HeadersStatusStop.

Definition handleCallbackError (cfg : parsedConfig) (m : openfgaMetrics) (detail responseBody : string)
    : Host unit :=
  if dryRun cfg then
    run writeMetadata cfg decisionDryAllow;
    run inc m decisionDryAllow;
    hcall ContinueRequest
  else if failOpen cfg then
    run writeMetadata cfg decisionFailOpen;
    run inc m decisionFailOpen;
    hcall ContinueRequest
  else
    run writeMetadata cfg decisionError;
    run inc m decisionError;
    hcall (SendLocalResponse 502 errorResponseHeaders responseBody detail).

(** ** The filter *)

(** A callout reply as the host delivers it. *)
Record CalloutReply : Type := mkCalloutReply {
  reply_result : HttpCalloutResult;
  reply_headers : list (string * string);
  reply_body : list string;
}.

Definition joinCalloutBody (body : list string) : string := Join body "".

Fixpoint calloutHeaderValue (headers : list (string * string)) (key : string) : string :=
  match headers with
  | [] => ""
  | (k, v) :: hs => if decide (k = key) then v else calloutHeaderValue hs key
  end.

Section Filter.
Context {H : Type} `{!HeaderMap H}.
(** [json.Marshal] of the request and [json.Unmarshal] of the reply, [None] for an
    error; a reply without the field decodes to [false]. *)
Context (marshal : checkRequest -> option string) (unmarshal_allowed : string -> option bool).

Definition matches (rm : ruleMatch) (headers : H) : bool :=
  forallb (fun '(name, want) =>
    let got := GetOne headers name in
    negb (bool_decide (got = "")) && (bool_decide (want = "*") || bool_decide (got = want)))
    (map_to_list (MatchHeaders rm)).

Definition rule_applies (headers : H) (r : parsedRule) : Prop :=
  match pr_match r with None => True | Some rm => matches rm headers = true end.
#[export] Instance rule_applies_dec headers r : Decision (rule_applies headers r).
Proof. unfold rule_applies. destruct (pr_match r); apply _. Defined.

Definition matchRule (cfg : parsedConfig) (headers : H) : option parsedRule :=
  head (filter (rule_applies headers) (rules cfg)).

(** The contextual tuples that resolve completely. *)
Definition resolve_tuples (cfg : parsedConfig) (headers : H) : list resolvedTuple :=
  omap (fun ct =>
    let u := resolve (pt_user ct) headers in
    let r := resolve (pt_relation ct) headers in
    let o := resolve (pt_object ct) headers in
    if decide (u = "" \/ r = "" \/ o = "") then None else Some (mkResolvedTuple u r o))
    (contextualTuples cfg).

(** The context values that resolve to something. *)
Definition resolve_context (cfg : parsedConfig) (headers : H) : gmap string string :=
  omap (fun vs => let v := resolve vs headers in if decide (v = "") then None else Some v)
    (context cfg).

(** [buildCheckBody] of the resolved parts. *)
Definition buildCheckBody (cfg : parsedConfig) (headers : H) (user relation object : string)
    : option string :=
  marshal (check_request user relation object (authorizationModelID cfg) (consistency cfg)
             (resolve_tuples cfg headers) (resolve_context cfg headers)).

(** [init] is what the host answers to the callout. *)
Definition OnRequestHeaders (cfg : parsedConfig) (m : openfgaMetrics) (init : HttpCalloutInitResult)
    (headers : H) : Host HeadersStatus :=
  match matchRule cfg headers with
  | None => handleDeny cfg m "openfga_no_rule" decisionDenied
  | Some rule =>
      let user := resolve (pr_user rule) headers in
      let relation := resolve (pr_relation rule) headers in
      let object := resolve (pr_object rule) headers in
      if decide (user = "" \/ relation = "" \/ object = "") then
        handleDeny cfg m "openfga_missing_params" decisionDenied
      else
        match buildCheckBody cfg headers user relation object with
        | None => handleCalloutError cfg m
        | Some body =>
            run hcall (HttpCallout (cluster cfg) (calloutHeaders cfg) body (timeoutMs cfg));
            if decide (init = HttpCalloutInitSuccess) then hret HeadersStatusStopAllAndBuffer
            else handleCalloutError cfg m
        end
  end.

(** [d] is the time since the callout started. *)
Definition OnHttpCalloutDone (cfg : parsedConfig) (m : openfgaMetrics) (d : Z) (reply : CalloutReply)
    : Host unit :=
  run recordDuration m d;
  let fullBody := joinCalloutBody (reply_body reply) in
  if decide (reply_result reply <> HttpCalloutSuccess) then
    handleCallbackError cfg m "openfga_callout_error" errorBodyAPI
  else
    let statusCode := calloutHeaderValue (reply_headers reply) ":status" in
    if decide (statusCode <> "200") then
      handleCallbackError cfg m "openfga_api_error" errorBodyAPI
    else if decide (fullBody = "") then
      handleCallbackError cfg m "openfga_empty_body" errorBodyAPI
    else
      match unmarshal_allowed fullBody with
      | None => handleCallbackError cfg m "openfga_parse_error" errorBodyAPI
      | Some allowed =>
          if negb allowed && dryRun cfg then
            run writeMetadata cfg decisionDryAllow;
            run inc m decisionDryAllow;
            hcall ContinueRequest
          else if negb allowed then
            run writeMetadata cfg decisionDenied;
            run inc m decisionDenied;
            sendDeny cfg "openfga_denied"
          else
            run writeMetadata cfg decisionAllowed;
            run inc m decisionAllowed;
            hcall ContinueRequest
      end.

(** The life of a request: the headers, then the reply if the filter waits for it.
    The result is whether the request went on upstream. *)
Definition handle_request (cfg : parsedConfig) (m : openfgaMetrics) (init : HttpCalloutInitResult)
    (headers : H) (d : Z) (reply : CalloutReply) : Host bool :=
  do status <- OnRequestHeaders cfg m init headers;
  match status with
  | HeadersStatusContinue => hret true
  | HeadersStatusStop => hret false
  | HeadersStatusStopAllAndBuffer =>
      let done := OnHttpCalloutDone cfg m d reply in
      run done;
      hret (bool_decide (ContinueRequest ∈ calls_of done))
  end.
End Filter.

(** ** The documented decisions *)

(** What became of the check of a request: it could not be formed (no rule, or a
    part of the tuple is missing), it could not be made, its reply could not be
    understood, or it was answered. *)
Inductive outcome : Type :=
| Unformed
| Unmade
| Failed
| Answered (allowed : bool).

(** The label of the decision table of the extension's manifest. *)
Definition decision (cfg : parsedConfig) (o : outcome) : string :=
  match o with
  | Answered true => decisionAllowed
  | _ =>
      if dryRun cfg then decisionDryAllow
      else match o with
           | Answered _ => decisionDenied
           | Unformed => if failOpen cfg then decisionFailOpen else decisionDenied
           | Unmade | Failed => if failOpen cfg then decisionFailOpen else decisionError
           end
  end.

(** Whether the request goes on. *)
Definition proceeds (cfg : parsedConfig) (o : outcome) : bool :=
  dryRun cfg || match o with Answered b => b | _ => failOpen cfg end.

(** The response of a request that does not go on: status, headers and body.  An error
    is a 502 of its own; a denial is what the configuration says. *)
Definition local_answer (cfg : parsedConfig) (o : outcome) : Z * list (string * string) * string :=
  match o with
  | Unmade => (502, errorResponseHeaders, errorBodyCallout)
  | Failed => (502, errorResponseHeaders, errorBodyAPI)
  | Unformed | Answered _ => (u32 (Status (deny cfg)), denyHeaders cfg, denyBodyBytes cfg)
  end.

(** The local response a call sends, without its details. *)
Definition local_response (c : HandleCall) : option (Z * list (string * string) * string) :=
  match c with SendLocalResponse status headers body _ => Some (status, headers, body) | _ => None end.

Definition is_counter (c : HandleCall) : bool :=
  match c with IncrementCounterValue _ _ _ => true | _ => false end.
Definition is_metadata (c : HandleCall) : bool :=
  match c with SetMetadata _ _ _ => true | _ => false end.

Section Spec.
Context {H : Type} `{!HeaderMap H}.
Context (marshal : checkRequest -> option string) (unmarshal_allowed : string -> option bool).

(** The answer a reply carries. *)
Definition reply_outcome (reply : CalloutReply) : outcome :=
  if decide (reply_result reply = HttpCalloutSuccess /\
             calloutHeaderValue (reply_headers reply) ":status" = "200" /\
             joinCalloutBody (reply_body reply) <> "")
  then match unmarshal_allowed (joinCalloutBody (reply_body reply)) with
       | Some b => Answered b
       | None => Failed
       end
  else Failed.

(** The tuple of the first rule that applies, when it resolves completely. *)
Definition check_tuple (cfg : parsedConfig) (headers : H) : option resolvedTuple :=
  rule ← matchRule cfg headers;
  let t := mkResolvedTuple (resolve (pr_user rule) headers) (resolve (pr_relation rule) headers)
             (resolve (pr_object rule) headers) in
  if decide (rt_User t = "" \/ rt_Relation t = "" \/ rt_Object t = "") then None else Some t.

Definition check_body (cfg : parsedConfig) (headers : H) (t : resolvedTuple) : option string :=
  buildCheckBody marshal cfg headers (rt_User t) (rt_Relation t) (rt_Object t).

Definition request_outcome (cfg : parsedConfig) (init : HttpCalloutInitResult) (headers : H)
    (reply : CalloutReply) : outcome :=
  match check_tuple cfg headers with
  | None => Unformed
  | Some t =>
      match check_body cfg headers t with
      | None => Unmade
      | Some _ => if decide (init = HttpCalloutInitSuccess) then reply_outcome reply else Unmade
      end
  end.

(** The calls that report the decision [o]. *)
Definition reported (cfg : parsedConfig) (m : openfgaMetrics) (o : outcome) (calls : list HandleCall)
    : Prop :=
  filter is_counter calls =
    (if enabled m then [IncrementCounterValue requests_total 1 [decision cfg o]] else []) /\
  filter is_metadata calls =
    match metadata cfg with
    | Some k => [SetMetadata (Namespace k) (Key k) (MetaString (decision cfg o))]
    | None => []
    end /\
  omap local_response calls = if proceeds cfg o then [] else [local_answer cfg o].

(** A filter result reports the outcome and lets the request go on accordingly. *)
Definition refines_outcome (cfg : parsedConfig) (m : openfgaMetrics) (o : outcome) (r : Host bool) : Prop :=
  val_of r = proceeds cfg o /\ reported cfg m o (calls_of r).

(** The callback alone: whether it continues the request, and its calls. *)
Definition callback_result (r : Host unit) : Host bool :=
  (bool_decide (ContinueRequest ∈ calls_of r), calls_of r).
End Spec.

(** Settles a concrete list of calls once the switches of the configuration are
    known. *)
Ltac by_switches cfg m :=
  unfold refines_outcome, reported, proceeds, decision; cbn -[decide bool_decide filter];
  unfold writeMetadata, inc, hwhen, sendDeny;
  destruct (dryRun cfg), (failOpen cfg), (metadata cfg), (enabled m); repeat split; reflexivity.

Lemma handleDeny_refines cfg m detail :
  refines_outcome cfg m Unformed
    (do s <- handleDeny cfg m detail decisionDenied; hret (bool_decide (s = HeadersStatusContinue))).
Proof. unfold handleDeny. by_switches cfg m. Qed.

Lemma handleCalloutError_refines cfg m :
  refines_outcome cfg m Unmade
    (do s <- handleCalloutError cfg m; hret (bool_decide (s = HeadersStatusContinue))).
Proof. unfold handleCalloutError. by_switches cfg m. Qed.

Lemma handleCallbackError_refines cfg m detail :
  refines_outcome cfg m Failed (callback_result (handleCallbackError cfg m detail errorBodyAPI)).
Proof. unfold handleCallbackError, callback_result. by_switches cfg m. Qed.

(** A call that is neither a report nor a continuation changes nothing. *)
Lemma refines_recordDuration cfg m o d k :
  refines_outcome cfg m o (callback_result k) ->
  refines_outcome cfg m o (callback_result (run recordDuration m d; k)).
Proof.
  destruct k as [[] calls]. unfold recordDuration, hwhen. destruct (hasCheckDur m); [|done].
  intros [Hv Hr]. split; [|exact Hr]. cbn in Hv |- *. rewrite <-Hv.
  apply bool_decide_ext. set_solver.
Qed.

Lemma OnHttpCalloutDone_refines unmarshal cfg m d reply :
  refines_outcome cfg m (reply_outcome unmarshal reply)
    (callback_result (OnHttpCalloutDone unmarshal cfg m d reply)).
Proof.
  unfold OnHttpCalloutDone. apply refines_recordDuration. unfold reply_outcome. cbn zeta.
  repeat case_decide; try tauto; try apply handleCallbackError_refines.
  destruct (unmarshal _) as [[]|]; [| |apply handleCallbackError_refines];
    unfold callback_result; by_switches cfg m.
Qed.

Section Decisions.
Context {H : Type} `{!HeaderMap H}.
Context (marshal : checkRequest -> option string) (unmarshal_allowed : string -> option bool).

Lemma handle_request_refines cfg m init (headers : H) d reply :
  refines_outcome cfg m (request_outcome marshal unmarshal_allowed cfg init headers reply)
    (handle_request marshal unmarshal_allowed cfg m init headers d reply).
Proof.
  unfold handle_request, OnRequestHeaders, request_outcome, check_tuple.
  assert (Hstop : forall o (r : Host HeadersStatus) k, val_of r <> HeadersStatusStopAllAndBuffer ->
    refines_outcome cfg m o (do s <- r; hret (bool_decide (s = HeadersStatusContinue))) ->
    refines_outcome cfg m o (do s <- r; match s with HeadersStatusContinue => hret true
      | HeadersStatusStop => hret false | HeadersStatusStopAllAndBuffer => k end)).
  { intros o [[] calls] k Hs; [done|done|by destruct Hs]. }
  assert (Hd : forall detail, val_of (handleDeny cfg m detail decisionDenied)
      <> HeadersStatusStopAllAndBuffer).
  { intros ?. unfold handleDeny. destruct (dryRun cfg), (failOpen cfg); by rewrite !val_hbind. }
  assert (He : val_of (handleCalloutError cfg m) <> HeadersStatusStopAllAndBuffer).
  { unfold handleCalloutError. destruct (dryRun cfg), (failOpen cfg); by rewrite !val_hbind. }
  destruct (matchRule cfg headers) as [rule|]; cbn [mbind option_bind];
    [|by apply Hstop, handleDeny_refines].
  cbn [rt_User rt_Relation rt_Object].
  destruct (decide (_ \/ _)) as [Hm|Hm]; [by apply Hstop, handleDeny_refines|].
  unfold check_body. cbn [rt_User rt_Relation rt_Object].
  destruct (buildCheckBody _ _ _ _ _ _); [|by apply Hstop, handleCalloutError_refines].
  destruct (decide (init = HttpCalloutInitSuccess)).
  - pose proof (OnHttpCalloutDone_refines unmarshal_allowed cfg m d reply) as [Hv Hr].
    destruct (OnHttpCalloutDone _ _ _ _ _) as [[] calls]. cbn in Hv, Hr |- *.
    rewrite !app_nil_r. split; [exact Hv|exact Hr].
  - rewrite hbind_assoc. destruct (Hstop Unmade (handleCalloutError cfg m)
      (run OnHttpCalloutDone unmarshal_allowed cfg m d reply;
       hret (bool_decide (ContinueRequest ∈ calls_of (OnHttpCalloutDone unmarshal_allowed cfg m d reply)))))
      as [Hv Hr]; [done|apply handleCalloutError_refines|].
    split; [by rewrite val_hbind|by rewrite calls_hbind].
Qed.

(** C19: the life of every request realises the documented decision table.  From the
    outcome of the check (not formed, not made, failed, answered) it goes on exactly
    when [proceeds] says so; the counter is incremented once with the label of the
    decision, and the same label is written to the metadata if configured.  A request
    that goes on has no local response; one that does not has exactly one, with the
    status, headers and body of its outcome: a check that could not be made or
    understood is a 502 with the text of its kind, a denial or a check that could not
    be formed the configured deny response. *)
Theorem handle_request_decision cfg m init (headers : H) d reply
    (o := request_outcome marshal unmarshal_allowed cfg init headers reply)
    (r := handle_request marshal unmarshal_allowed cfg m init headers d reply) :
  val_of r = proceeds cfg o /\
  filter is_counter (calls_of r) =
    (if enabled m then [IncrementCounterValue requests_total 1 [decision cfg o]] else []) /\
  filter is_metadata (calls_of r) =
    match metadata cfg with
    | Some k => [SetMetadata (Namespace k) (Key k) (MetaString (decision cfg o))]
    | None => []
    end /\
  omap local_response (calls_of r) = if val_of r then [] else [local_answer cfg o].
Proof.
  destruct (handle_request_refines cfg m init headers d reply) as (Hv & Hc & Hm & Hl).
  fold o r in Hv, Hc, Hm, Hl. by rewrite Hv.
Qed.

Lemma OnRequestHeaders_callout cfg m init (headers : H) t body :
  check_tuple cfg headers = Some t -> check_body marshal cfg headers t = Some body ->
  HttpCallout (cluster cfg) (calloutHeaders cfg) body (timeoutMs cfg) ∈
    calls_of (OnRequestHeaders marshal cfg m init headers).
Proof.
  unfold check_tuple, check_body, OnRequestHeaders.
  destruct (matchRule cfg headers) as [rule|]; cbn [mbind option_bind]; [|done].
  destruct (decide _); [done|]. intros [= <-]. cbn [rt_User rt_Relation rt_Object]. intros ->.
  rewrite calls_hbind. set_solver.
Qed.

(** C3: the filter fails closed.  Without [dry_run] and [fail_open] a request goes on
    only if a rule applied, its tuple resolved completely, a check of exactly this
    tuple was sent to the configured cluster, and the service answered 200 with a
    body that decodes to allowed. *)
Theorem handle_request_fail_closed cfg m init (headers : H) d reply :
  dryRun cfg = false -> failOpen cfg = false ->
  val_of (handle_request marshal unmarshal_allowed cfg m init headers d reply) = true ->
  exists t body,
    check_tuple cfg headers = Some t /\
    body = marshal (check_request (rt_User t) (rt_Relation t) (rt_Object t)
             (authorizationModelID cfg) (consistency cfg)
             (resolve_tuples cfg headers) (resolve_context cfg headers)) /\
    (exists b, body = Some b /\
       HttpCallout (cluster cfg) (calloutHeaders cfg) b (timeoutMs cfg) ∈
         calls_of (handle_request marshal unmarshal_allowed cfg m init headers d reply)) /\
    init = HttpCalloutInitSuccess /\ reply_result reply = HttpCalloutSuccess /\
    calloutHeaderValue (reply_headers reply) ":status" = "200" /\
    unmarshal_allowed (joinCalloutBody (reply_body reply)) = Some true.
Proof.
  intros Hdry Hopen. destruct (handle_request_refines cfg m init headers d reply) as [-> _].
  unfold proceeds. rewrite Hdry, Hopen. cbn [orb]. unfold request_outcome.
  destruct (check_tuple cfg headers) as [t|] eqn:Ht; [|done].
  destruct (check_body marshal cfg headers t) as [b|] eqn:Hb; [|done].
  destruct (decide _) as [Hinit|]; [|done]. unfold reply_outcome.
  destruct (decide _) as [(Hr & Hs & _)|]; [|done].
  destruct (unmarshal_allowed _) as [[]|] eqn:Hu; [|done..]. intros _.
  exists t, (check_body marshal cfg headers t). split_and!; try done.
  exists b. split; [done|]. unfold handle_request. rewrite calls_hbind. apply elem_of_app. left.
  by eapply OnRequestHeaders_callout.
Qed.
End Decisions.

(** ** The factories *)

(** The factory: its configuration can be overridden by one of the route. *)
Record openfgaFilterFactory : Type := mkOpenfgaFilterFactory { factory_config : option parsedConfig; factory_metrics : openfgaMetrics }.

(** A filter of a request: its configuration and metrics. *)
Record openfgaFilter : Type := mkOpenfgaFilter { filter_config : parsedConfig; filter_metrics : openfgaMetrics }.

(** [openfgaFilterFactory.Create]: [None] is the empty filter. *)
Definition openfgaFilterFactory_Create {Any} (assert : Any -> option parsedConfig) (most_specific : option Any)
    (f : openfgaFilterFactory) : option openfgaFilter :=
  let c := match GetMostSpecificConfig assert most_specific with
           | Some perRoute => Some perRoute
           | None => factory_config f
           end in
  (fun c => mkOpenfgaFilter c (factory_metrics f)) <$> c.

(** [Create] of the configuration factory, with the answers of the host to the definitions of the
    counter and the histogram. *)
Definition OpenFGAHttpFilterConfigFactory_Create (empty : bool) (decoded : option openfgaConfig) (counter histogram : MetricsResult)
    : result (list ConfigError) openfgaFilterFactory :=
  try cfg <- parseConfig empty decoded;
  Ok (mkOpenfgaFilterFactory (Some cfg) (mkOpenfgaMetrics (bool_decide (counter = MetricsSuccess)) (bool_decide (histogram = MetricsSuccess)))).

Definition openfga_CreatePerRoute (empty : bool) (decoded : option openfgaConfig) : result (list ConfigError) parsedConfig := parseConfig empty decoded.

(** Whether a store ID draws a warning. *)
Definition warnStoreIDFormat (storeID : string) : bool := negb (bool_decide (String.length storeID = 26%nat)).

(** ** Configuration *)

(** Exactly one source is set. *)
Definition one_source (v : valueSource) : Prop := sources_set v = 1%nat.

Lemma validateValueSource_nil name v : validateValueSource name v = [] <-> one_source v.
Proof. unfold validateValueSource, one_source. repeat case_decide; split; try done; lia. Qed.

Lemma tuple_errors_nil name u r o :
  tuple_errors name u r o = [] <-> one_source u /\ one_source r /\ one_source o.
Proof. unfold tuple_errors. by rewrite !app_nil, !validateValueSource_nil. Qed.

Lemma sources_set_precompute v : sources_set (precompute v) = sources_set v.
Proof. unfold precompute. by case_decide. Qed.

Definition wf_rule (r : parsedRule) : Prop :=
  one_source (pr_user r) /\ one_source (pr_relation r) /\ one_source (pr_object r).

(** Only the last rule may be a catch-all. *)
Fixpoint catch_all_last (rs : list parsedRule) : Prop :=
  match rs with
  | [] => True
  | [_] => True
  | r :: rs' => pr_match r <> None /\ catch_all_last rs'
  end.

Lemma build_rules_seen u i rs errs parsed :
  build_rules u i true rs = Ok (errs, parsed) -> rs = [] /\ errs = [] /\ parsed = [].
Proof. destruct rs; cbn; [by intros [= <- <-]|done]. Qed.

Lemma build_rules_wf u i seen rs parsed :
  build_rules u i seen rs = Ok ([], parsed) ->
  length parsed = length rs /\ Forall wf_rule parsed /\ catch_all_last parsed.
Proof.
  revert i seen parsed. induction rs as [|cr rs IH]; intros i seen parsed; cbn [build_rules].
  { intros [= <-]. done. }
  destruct seen; [done|]. destruct (build_rules u (S i) _ rs) as [[errs p]|] eqn:Hb; [|done].
  cbn [rbind]. destruct (tuple_errors _ _ _ _) eqn:He; intros [= -> <-].
  apply tuple_errors_nil in He as (Hu & Hr & Ho).
  destruct (IH _ _ _ Hb) as (Hlen & Hwf & Hlast). split_and!; [by cbn; rewrite Hlen| |].
  - constructor; [|done]. unfold wf_rule, one_source in *. cbn.
    by rewrite !sources_set_precompute.
  - destruct p as [|r' p]; [done|]. cbn [catch_all_last pr_match]. split; [|done]. intros Hm.
    rewrite bool_decide_eq_true_2 in Hb by done. by destruct (build_rules_seen _ _ _ _ _ Hb) as (_ & _ & ?).
Qed.

Lemma buildRules_wf cfg rs :
  buildRules cfg = Ok rs -> rs <> [] /\ Forall wf_rule rs /\ catch_all_last rs.
Proof.
  unfold buildRules. destruct (Rules cfg) as [|cr crs] eqn:Hrs.
  - unfold buildLegacyRule. destruct (tuple_errors _ _ _ _) eqn:He; [|done]. intros [= <-].
    apply tuple_errors_nil in He. split_and!; [done| |done]. repeat constructor;
      unfold one_source in *; cbn; rewrite sources_set_precompute; tauto.
  - destruct (isEmpty _); [done|]. destruct (build_rules _ _ _ _) as [[errs p]|] eqn:Hb; [|done].
    cbn [rbind fst snd]. destruct errs; [|done]. intros [= <-].
    destruct (build_rules_wf _ _ _ _ _ Hb) as (Hlen & Hwf & Hlast). split_and!; try done.
    by intros ->.
Qed.

(** An error is never an empty list of errors. *)
Lemma build_rules_err u i seen rs : build_rules u i seen rs <> Err [].
Proof.
  revert i seen. induction rs as [|cr rs IH]; intros i seen; cbn [build_rules]; [done|].
  destruct seen; [done|]. destruct (build_rules u (S i) _ rs) as [[errs p]|e] eqn:Hb; cbn [rbind].
  - by destruct (tuple_errors _ _ _ _).
  - intros [= ->]. by eapply IH.
Qed.

Lemma buildRules_err cfg : buildRules cfg <> Err [].
Proof.
  unfold buildRules. destruct (Rules cfg) as [|cr crs] eqn:Hrs.
  - unfold buildLegacyRule. by destruct (tuple_errors _ _ _ _).
  - destruct (isEmpty _); [done|]. pose proof (build_rules_err (User cfg) 0 false (cr :: crs)).
    destruct (build_rules _ _ _ _) as [[[|e errs] p]|e]; cbn [rbind fst snd]; congruence.
Qed.

(** An accepted configuration is well formed: it has a rule, every rule reads each
    part of the tuple from exactly one source, only the last rule can be a catch-all,
    the deny status is an HTTP status (so its conversion to 32 bits is exact), the
    timeout is not zero, and the check is sent to the store's path. *)
Theorem openfga_parseConfig_wf empty decoded cfg :
  parseConfig empty decoded = Ok cfg ->
  rules cfg <> [] /\ Forall wf_rule (rules cfg) /\ catch_all_last (rules cfg) /\
  100 <= Status (deny cfg) <= 599 /\ u32 (Status (deny cfg)) = Status (deny cfg) /\
  timeoutMs cfg <> 0 /\ cluster cfg <> "" /\
  calloutHeaderValue (calloutHeaders cfg) ":path" = "/stores/" +:+ storeID cfg +:+ "/check" /\
  storeID cfg <> "".
Proof.
  unfold parseConfig. destruct empty; [done|]. destruct decoded as [c|]; [|done].
  destruct (config_errors c) eqn:He; [|done]. intros [= <-]. cbn -[buildRules u32].
  unfold config_errors in He. rewrite !app_nil in He.
  destruct He as (H1 & _ & H3 & _ & H5 & _ & H7 & _).
  destruct (buildRules c) as [rs|] eqn:Hr; cbn in H7; [|by subst; apply buildRules_err in Hr].
  destruct (buildRules_wf _ _ Hr) as (? & ? & ?).
  destruct (_ || _) eqn:Hst in H5; [done|]. apply orb_false_iff in Hst as [?%Z.ltb_ge ?%Z.ltb_ge].
  assert (Cluster c <> "") by (by intros Hc; rewrite decide_True in H1 by done).
  assert (StoreID c <> "") by (by intros Hc; rewrite decide_True in H3 by done).
  split_and!; try done; try lia.
  - apply u32_id. lia.
  - destruct (Z.eqb_spec (TimeoutMs c) 0); [done|lia].
Qed.

(** Every request is checked: the factory never gives an empty filter, and the rules in force are
    those of an accepted configuration, the one of the route if there is one. *)
Lemma factory_filter_checks {Any} (assert : Any -> option parsedConfig) empty decoded counter histogram f (most_specific : option Any) :
  OpenFGAHttpFilterConfigFactory_Create empty decoded counter histogram = Ok f ->
  (forall any cfg, most_specific = Some any -> assert any = Some cfg -> exists empty' decoded', openfga_CreatePerRoute empty' decoded' = Ok cfg) ->
  exists flt, openfgaFilterFactory_Create assert most_specific f = Some flt /\ filter_metrics flt = factory_metrics f /\
    rules (filter_config flt) <> [] /\ catch_all_last (rules (filter_config flt)) /\ timeoutMs (filter_config flt) <> 0.
Proof.
  unfold OpenFGAHttpFilterConfigFactory_Create. destruct (parseConfig empty decoded) as [cfg|] eqn:Hc; [|done]. intros [= <-] Hroute.
  unfold openfgaFilterFactory_Create, GetMostSpecificConfig. cbn [factory_config factory_metrics].
  assert (Hwf : forall e d c, parseConfig e d = Ok c -> rules c <> [] /\ catch_all_last (rules c) /\ timeoutMs c <> 0)
    by (intros e d c (? & _ & ? & _ & _ & ? & _)%openfga_parseConfig_wf; done).
  destruct most_specific as [any|]; [destruct (assert any) as [c|] eqn:Ha|]; cbn [fmap option_fmap option_map].
  - destruct (Hroute any c eq_refl Ha) as (e & d & Hp). eexists. split; [done|]. split; [done|]. by eapply Hwf.
  - eexists. split; [done|]. split; [done|]. by eapply Hwf.
  - eexists. split; [done|]. split; [done|]. by eapply Hwf.
Qed.

(** ** Value sources *)

(** Precomputing a static source does not change what it resolves to, for any
    request. *)
Theorem resolve_precompute {H} `{!HeaderMap H} v (headers : H) :
  resolved v = "" -> resolve (precompute v) headers = resolve v headers.
Proof.
  intros Hr. unfold precompute, resolve. destruct (decide (Value v = "")) as [|Hv]; [done|]. cbn.
  rewrite Hr. rewrite (decide_True _ _ Hv), (decide_False (P := "" <> "")) by tauto.
  rewrite (decide_False (P := Value v = "")) by done.
  destruct (decide (VPrefix v +:+ Value v <> "")); [done|].
  destruct (VPrefix v), (Value v); cbn in *; tauto.
Qed.

Lemma ContainsByte_Join segs c :
  c <> slash -> Forall (fun s => ContainsByte s c = false) segs -> ContainsByte (Join segs "/") c = false.
Proof.
  intros Hc Hs. induction Hs as [|s segs Hs Hf IH]; [done|]. destruct segs as [|s' segs]; [done|].
  change (Join (s :: s' :: segs) "/") with (s +:+ String slash (Join (s' :: segs) "/")).
  rewrite ContainsByte_app, Hs. cbn [ContainsByte orb].
  by rewrite IH, bool_decide_eq_false_2 by congruence.
Qed.

(** The segments of a path are numbered from 0 and, with a negative index, from
    the end; an index out of range gives the empty string.  The query string plays
    no part. *)
Theorem extractPathSegment_index segs query idx (n := zlen segs)
    (path := "/" +:+ Join segs "/" +:+ match query with Some q => "?" +:+ q | None => "" end) :
  segs <> [] -> Forall slash_free segs -> Forall (fun s => ContainsByte s "?"%char = false) segs ->
  extractPathSegment path idx =
  if decide (0 <= idx < n) then default "" (segs !! Z.to_nat idx)
  else if decide (- n <= idx < 0) then default "" (segs !! Z.to_nat (n + idx))
  else "".
Proof.
  intros Hne Hs Hq. unfold extractPathSegment.
  assert (Hcut : exists r ok, Cut path "?"%char = ("/" +:+ Join segs "/", r, ok)).
  { assert (Ha : ContainsByte ("/" +:+ Join segs "/") "?"%char = false)
      by (cbn [String.append ContainsByte]; by rewrite ContainsByte_Join).
    subst path. destruct query as [q|].
    - exists q, true. rewrite <-str_app_assoc. by apply Cut_app.
    - exists "", false. rewrite str_app_nil_r. by apply Cut_absent. }
  destruct Hcut as (r & ok & ->). cbn zeta. rewrite TrimPrefix_app.
  change (Split (Join segs "/") "/"%char) with (Split (Join segs "/") slash).
  rewrite Split_Join by done. subst n.
  destruct (Z.ltb_spec idx 0), (decide (0 <= idx < zlen segs)), (decide (- zlen segs <= idx < 0));
    try lia; destruct (_ || _) eqn:Hb; try done;
    rewrite ?orb_true_iff, ?orb_false_iff, ?Z.ltb_lt, ?Z.leb_le, ?Z.ltb_ge, ?Z.leb_gt in Hb; lia.
Qed.

(** ** Witnesses *)

Definition src (value header : string) : valueSource := mkValueSource value header None "" "user:" "".

Definition ex_decoded : openfgaConfig :=
  mkOpenfgaConfig "fga" "fga.local" "01ARZ3NDEKTSV4RRFFQ69G5FAV" "" (src "" "x-user") (src "reader" "")
    (src "doc1" "") [] false false 0 0 "" "" (Some (mkMetadataKey "ns" "k")) ∅ [] ∅.

Definition ex_parsed : parsedConfig :=
  match parseConfig false (Some ex_decoded) with
  | Ok c => c
  | Err _ => mkParsedConfig "" "" "" true true 0 (mkLocalResponse 0 "" ∅) [] "" "" [] [] None "" [] ∅
  end.

Lemma openfga_parseConfig_wf_witness : rules ex_parsed <> [].
Proof. apply (openfga_parseConfig_wf false (Some ex_decoded)). vm_compute. reflexivity. Defined.

Lemma resolve_precompute_witness :
  resolve (precompute (src "doc1" "")) ([] : Headers) = "user:doc1".
Proof. rewrite (resolve_precompute (src "doc1" "") ([] : Headers)); vm_compute; reflexivity. Defined.

Lemma extractPathSegment_index_witness : extractPathSegment "/v1/docs/42?x=y" (-1) = "42".
Proof.
  apply (extractPathSegment_index ["v1"; "docs"; "42"] (Some "x=y") (-1));
    [done|repeat constructor..].
Defined.

Definition ex_marshal (r : checkRequest) : option string := Some (rt_User (req_TupleKey r)).
Definition ex_unmarshal (s : string) : option bool :=
  if decide (s = "yes") then Some true else if decide (s = "no") then Some false else None.
Definition ex_reply : CalloutReply := mkCalloutReply HttpCalloutSuccess [(":status", "200")] ["y"; "es"].

Lemma handle_request_fail_closed_witness :
  exists t body,
    check_tuple ex_parsed ([("x-user", "anne")] : Headers) = Some t /\
    body = ex_marshal (check_request (rt_User t) (rt_Relation t) (rt_Object t) "" "" [] ∅) /\
    is_Some body.
Proof.
  destruct (handle_request_fail_closed ex_marshal ex_unmarshal ex_parsed (mkOpenfgaMetrics true true)
    HttpCalloutInitSuccess ([("x-user", "anne")] : Headers) 0 ex_reply)
    as (t & body & Ht & Hb & (b & Hs & _) & _); [vm_compute; reflexivity..|].
  exists t, body. split; [exact Ht|]. split; [|by rewrite Hs].
  rewrite Hb. vm_compute in Ht. injection Ht as <-. vm_compute. reflexivity.
Defined.
