(* ===== verification/SSELines.v ===== *)
(** * Event-stream lines

    The line-by-line parsing shared by the event-stream parsers of llm-proxy and of
    the stream decoders: bytes.TrimSpace on UTF-8, the loop that takes complete lines
    off a buffer, and the reference that reads all the lines of a stream at once.
    [parse_lines_ref] and [complete_lines_app] are what makes chunking irrelevant. *)

From S2P Require Import Prelude GoStr.
From Stdlib Require Import Lia Ascii.

Local Open Scope Z_scope.

Definition newline : ascii := "010"%char.

(** ** bytes.TrimSpace *)

Definition ascii_space (c : ascii) : bool :=
  let n := N_of_ascii c in ((9 <=? n) && (n <=? 13) || (n =? 32))%N.

(** The UTF-8 encodings of U+0085 and U+00A0. *)
Definition space2 (c d : ascii) : bool :=
  let c := N_of_ascii c in let d := N_of_ascii d in
  ((c =? 194) && ((d =? 133) || (d =? 160)))%N.

(** U+1680, U+2000 to U+200A, U+2028, U+2029, U+202F, U+205F and U+3000. *)
Definition space3 (c d e : ascii) : bool :=
  let c := N_of_ascii c in let d := N_of_ascii d in let e := N_of_ascii e in
  ((c =? 225) && (d =? 154) && (e =? 128)
   || (c =? 226) && (d =? 128) && ((128 <=? e) && (e <=? 138) || (e =? 168) || (e =? 169) || (e =? 175))
   || (c =? 226) && (d =? 129) && (e =? 159)
   || (c =? 227) && (d =? 128) && (e =? 128))%N.

Fixpoint trim_left (s : string) : string :=
  match s with
  | EmptyString => EmptyString
  | String c s1 =>
      if ascii_space c then trim_left s1
      else match s1 with
           | EmptyString => s
           | String d s2 =>
               if space2 c d then trim_left s2
               else match s2 with
                    | EmptyString => s
                    | String e s3 => if space3 c d e then trim_left s3 else s
                    end
           end
  end.

(** From the first position whose remainder is all space. *)
Fixpoint trim_right (s : string) : string :=
  if decide (trim_left s = "") then ""
  else match s with
       | EmptyString => ""
       | String c s' => String c (trim_right s')
       end.

Definition TrimSpace (s : string) : string := trim_right (trim_left s).

Example TrimSpace_ex :
  TrimSpace "  data: x y 
" = "data: x y" /\
  TrimSpace (String "194" (String "160" "ab") +:+ String "226" (String "128" (String "169" ""))) = "ab" /\
  TrimSpace (String "a" (String "160" "")) = String "a" (String "160" "").
Proof. vm_compute. done. Qed.

(** ** Line-by-line parsing *)

(** What a line does to a parser: go on, stop at once, or fail. *)
Inductive line_result (P : Type) : Type :=
| LNext (p : P)
| LStop (p : P)
| LError (p : P).
Arguments LNext {_}. Arguments LStop {_}. Arguments LError {_}.

(** The loop of [parseEvents] over a buffer: the lines that are complete are handled
    in turn.  The result has the rest of the buffer and whether there was no error. *)
Fixpoint parse_lines {P} (on_line : P -> string -> line_result P) (p : P) (line : string) (buf : string)
    : P * string * bool :=
  match buf with
  | EmptyString => (p, line, true)
  | String c buf' =>
      if decide (c = newline) then
        match on_line p (TrimSpace line) with
        | LNext p' => parse_lines on_line p' "" buf'
        | LStop p' => (p', buf', true)
        | LError p' => (p', buf', false)
        end
      else parse_lines on_line p (line +:+ String c "") buf'
  end.

Definition data_prefix : string := "data: ".
Definition event_prefix : string := "event: ".

(** ** The reference: all the lines of the stream at once *)

(** The lines that are complete, and what follows the last newline. *)
Definition complete_lines (s : string) : list string := removelast (Split s newline).
Definition rest_line (s : string) : string := List.last (Split s newline) "".

Fixpoint ref_lines {P} (on_line : P -> string -> line_result P) (p : P) (lines : list string)
    : line_result P :=
  match lines with
  | [] => LNext p
  | l :: ls =>
      match on_line p (TrimSpace l) with
      | LNext p' => ref_lines on_line p' ls
      | r => r
      end
  end.

Definition lr_state {P} (r : line_result P) : P :=
  match r with LNext p | LStop p | LError p => p end.
Definition lr_ok {P} (r : line_result P) : bool :=
  match r with LError _ => false | _ => true end.

Lemma ref_lines_app {P} (on_line : P -> string -> line_result P) p l1 l2 :
  ref_lines on_line p (l1 ++ l2) =
  match ref_lines on_line p l1 with LNext p' => ref_lines on_line p' l2 | r => r end.
Proof.
  revert p. induction l1 as [|l l1 IH]; intros p; cbn; [done|]. destruct (on_line p _); auto.
Qed.

Lemma lines_cons line s :
  ContainsByte line newline = false ->
  complete_lines (line +:+ String newline s) = line :: complete_lines s /\
  rest_line (line +:+ String newline s) = rest_line s.
Proof.
  intros Hl. unfold complete_lines, rest_line. rewrite Split_app, (Split_absent line) by done.
  pose proof (Split_nonempty s newline). by destruct (Split s newline).
Qed.

Lemma lines_absent s : ContainsByte s newline = false -> complete_lines s = [] /\ rest_line s = s.
Proof. intros Hs. unfold complete_lines, rest_line. by rewrite Split_absent. Qed.

Lemma rest_line_absent s : ContainsByte (rest_line s) newline = false.
Proof.
  apply (Split_no_sep s). unfold rest_line. pose proof (Split_nonempty s newline).
  destruct (exists_last H) as (l & x & ->). rewrite last_last. set_solver.
Qed.

(** The lines of a stream cut anywhere: the unfinished line is carried over. *)
Lemma complete_lines_app x y :
  complete_lines (x +:+ y) = complete_lines x ++ complete_lines (rest_line x +:+ y) /\
  rest_line (x +:+ y) = rest_line (rest_line x +:+ y).
Proof.
  cut (forall line, ContainsByte line newline = false ->
    complete_lines (line +:+ x +:+ y) =
      complete_lines (line +:+ x) ++ complete_lines (rest_line (line +:+ x) +:+ y) /\
    rest_line (line +:+ x +:+ y) = rest_line (rest_line (line +:+ x) +:+ y)).
  { intros Hc. apply (Hc "" eq_refl). }
  induction x as [|c x IH]; intros line Hl.
  - rewrite str_app_nil_r. destruct (lines_absent line Hl) as [-> ->]. done.
  - destruct (decide (c = newline)) as [->|Hc].
    + cbn [String.append]. destruct (lines_cons line (x +:+ y) Hl) as [-> ->].
      destruct (lines_cons line x Hl) as [-> ->]. destruct (IH "" eq_refl) as [E1 E2].
      cbn [String.append] in E1, E2. by rewrite E1, E2.
    + specialize (IH (line +:+ String c "")). rewrite !str_app_assoc in IH. cbn [String.append] in IH |- *.
      apply IH. rewrite ContainsByte_app, Hl. cbn. by rewrite bool_decide_eq_false_2.
Qed.

(** The buffer loop is the reference on the lines of the buffer. *)
Lemma parse_lines_ref {P} (on_line : P -> string -> line_result P) p line x :
  ContainsByte line newline = false ->
  let r := ref_lines on_line p (complete_lines (line +:+ x)) in
  exists rest, parse_lines on_line p line x = (lr_state r, rest, lr_ok r) /\
    (forall p', r = LNext p' -> rest = rest_line (line +:+ x)).
Proof.
  cbn zeta. revert p line. induction x as [|c x IH]; intros p line Hl; cbn [parse_lines].
  - rewrite str_app_nil_r. destruct (lines_absent line Hl) as [-> ->]. eauto.
  - destruct (decide (c = newline)) as [->|Hc].
    + destruct (lines_cons line x Hl) as [-> ->]. cbn [ref_lines].
      destruct (on_line p (TrimSpace line)) as [p'|p'|p']; [apply (IH p' "" eq_refl)| |];
        cbn; eexists; split; eauto; by intros ?.
    + specialize (IH p (line +:+ String c "")). rewrite !str_app_assoc in IH. cbn [String.append] in IH |- *.
      apply IH. rewrite ContainsByte_app, Hl. cbn. by rewrite bool_decide_eq_false_2.
Qed.

(** A line without a newline and without spaces at its ends. *)
Definition clean_line (l : string) : Prop := ContainsByte l newline = false /\ TrimSpace l = l.
