(* ===== verification/SamlSession.v ===== *)
(** * saml: session tokens and cookies

    extensions/composer/saml/session.go: the signed session token, the Set-Cookie
    value that carries it and the parser of the Cookie header.  HMAC-SHA256 and
    the JSON codec of the session are parameters; base64 is the library's. *)

From S2P Require Import Prelude GoStr GoNum GoPath GoCodec.
From Stdlib Require Import Lia Ascii.

Local Open Scope Z_scope.
Local Open Scope go_scope.

(** The data of a session; times are nanoseconds. *)
Record SessionData : Type := mkSessionData {
  NameID : string;
  Attributes : gmap string (list string);
  ExpiresAt : Z;
}.

Inductive TokenError : Type :=
| TokenMarshal (msg : string)
| TokenFormat
| TokenSignatureEncoding
| TokenSignature
| TokenPayloadEncoding
| TokenUnmarshal (msg : string)
| TokenExpired.

#[export] Instance SessionData_eq_dec : EqDecision SessionData.
Proof. solve_decision. Defined.
#[export] Instance TokenError_eq_dec : EqDecision TokenError.
Proof. solve_decision. Defined.

(** [err.Error()]. *)
Definition token_error_text (e : TokenError) : string :=
  match e with
  | TokenMarshal msg => "failed to marshal session data: " +:+ msg
  | TokenFormat => "invalid session token format"
  | TokenSignatureEncoding => "invalid session token signature encoding"
  | TokenSignature => "invalid session token signature"
  | TokenPayloadEncoding => "invalid session token payload encoding"
  | TokenUnmarshal msg => "failed to unmarshal session data: " +:+ msg
  | TokenExpired => "session token expired"
  end.

Section Token.
(** HMAC-SHA256 of a key and a message, and encoding/json on a session. *)
Context (hmac_sha256 : string -> string -> string).
Context (marshal : SessionData -> result string string).
Context (unmarshal : string -> result string SessionData).

Definition computeHMAC (key data : string) : string := hmac_sha256 key data.

Definition createSessionToken (signingKey : string) (data : SessionData) : result TokenError string :=
  match marshal data with
  | Err msg => Err (TokenMarshal msg)
  | Ok payload =>
      let encodedPayload := b64_encode RawURLEncoding payload in
      let sig := computeHMAC signingKey encodedPayload in
      let encodedSig := b64_encode RawURLEncoding sig in
      Ok (encodedPayload +:+ "." +:+ encodedSig)
  end.

(** [now] is the clock reading of the expiration check. *)
Definition validateSessionToken (signingKey token : string) (now : Z) : result TokenError SessionData :=
  match LastIndexByte token "."%char with
  | None => Err TokenFormat
  | Some dotIdx =>
      let encodedPayload := take_bytes dotIdx token in
      let encodedSig := drop_bytes (S dotIdx) token in
      let expectedSig := computeHMAC signingKey encodedPayload in
      match b64_decode RawURLEncoding encodedSig with
      | None => Err TokenSignatureEncoding
      | Some actualSig =>
          if negb (bool_decide (actualSig = expectedSig)) then Err TokenSignature
          else match b64_decode RawURLEncoding encodedPayload with
          | None => Err TokenPayloadEncoding
          | Some payload =>
              match unmarshal payload with
              | Err msg => Err (TokenUnmarshal msg)
              | Ok data => if ExpiresAt data <? now then Err TokenExpired else Ok data
              end
          end
      end
  end.
End Token.

(** ** Cookies *)

(** [int(d.Seconds())]: whole seconds and the fraction added as floats, truncated. *)
Definition duration_seconds (d : Z) : float64 :=
  f_add (f_of_Z (Z.quot d Second)) (f_div (f_of_Z (Z.rem d Second)) (f_of_Z 1000000000)).

Definition buildSessionCookie (CookieName : string) (CookieSecure : bool) (CookieDomain : string)
    (SessionDuration : Z) (token : string) : string :=
  let cookie := CookieName +:+ "=" +:+ token +:+ "; Path=/; HttpOnly; SameSite=Lax" in
  let cookie := if CookieSecure then cookie +:+ "; Secure" else cookie in
  let cookie := if decide (CookieDomain = "") then cookie else cookie +:+ "; Domain=" +:+ CookieDomain in
  let maxAge := f_to_int64 (duration_seconds SessionDuration) in
  cookie +:+ "; Max-Age=" +:+ FormatInt maxAge.

(** The loop of [splitCookies]: [cur] is [header[start:i]]. *)
Fixpoint split_cookies (cur s : string) : list string :=
  match s with
  | EmptyString => [cur]
  | String c s' =>
      if decide (c = ";"%char) then cur :: split_cookies "" s'
      else split_cookies (cur +:+ String c EmptyString) s'
  end.

Definition splitCookies (header : string) : list string := split_cookies "" header.

Fixpoint trim_spaces (s : string) : string :=
  match s with
  | String c s' => if decide (c = " "%char) then trim_spaces s' else s
  | EmptyString => EmptyString
  end.

Definition parseCookiePair (pair : string) : string * string :=
  let pair := trim_spaces pair in
  match IndexByte pair "="%char with
  | None => (pair, "")
  | Some eqIdx => (take_bytes eqIdx pair, drop_bytes (S eqIdx) pair)
  end.

Fixpoint find_cookie (cookieName : string) (parts : list string) : string :=
  match parts with
  | [] => ""
  | part :: parts' =>
      let '(name, value) := parseCookiePair part in
      if decide (name = cookieName) then value else find_cookie cookieName parts'
  end.

Definition extractSessionCookie (cookieHeader cookieName : string) : string :=
  find_cookie cookieName (splitCookies cookieHeader).

Example cookies_ex :
  extractSessionCookie "a=1; _saml_session=tok=x;b=2" "_saml_session" = "tok=x" /\
  extractSessionCookie "a=1" "b" = "" /\
  buildSessionCookie "_saml_session" true "x.org" (8 * Hour) "t.s" =
  "_saml_session=t.s; Path=/; HttpOnly; SameSite=Lax; Secure; Domain=x.org; Max-Age=28800".
Proof. vm_compute. done. Qed.

(** ** Tokens *)

(** The last dot separates the parts of a token. *)
Lemma token_parts p s :
  ContainsByte s "."%char = false ->
  LastIndexByte (p +:+ "." +:+ s) "."%char = Some (String.length p) /\
  take_bytes (String.length p) (p +:+ "." +:+ s) = p /\
  drop_bytes (S (String.length p)) (p +:+ "." +:+ s) = s.
Proof.
  intros Hs. split_and!.
  - by apply LastIndexByte_app.
  - clear. induction p as [|c p IH]; [done|]. cbn. by f_equal.
  - clear. induction p as [|c p IH]; [done|]. exact IH.
Qed.

Section TokenTheorems.
Context (hmac_sha256 : string -> string -> string).
Context (marshal : SessionData -> result string string).
Context (unmarshal : string -> result string SessionData).

#[local] Abbreviation create := (createSessionToken hmac_sha256 marshal).
#[local] Abbreviation validate := (validateSessionToken hmac_sha256 unmarshal).

(** What a valid token is: a payload and the encoding of its MAC, the payload being the
    encoding of a session that has not expired. *)
Definition valid_token (key token : string) (now : Z) (d : SessionData) : Prop :=
  exists p s payload,
    token = p +:+ "." +:+ s /\ ContainsByte s "."%char = false /\
    b64_decode RawURLEncoding s = Some (computeHMAC hmac_sha256 key p) /\
    b64_decode RawURLEncoding p = Some payload /\ unmarshal payload = Ok d /\ now <= ExpiresAt d.

Lemma validate_ok_iff key token now d :
  validate key token now = Ok d <-> valid_token key token now d.
Proof.
  unfold validateSessionToken, valid_token. split.
  - destruct (LastIndexByte token "."%char) as [i|] eqn:Hi; [|done]. cbv zeta.
    destruct (LastIndexByte_Some _ _ _ Hi) as [Ht Hs].
    destruct (b64_decode RawURLEncoding (drop_bytes (S i) token)) as [sig|] eqn:Hsig; [|done].
    case_bool_decide as He; [|done]. cbn [negb]. subst sig.
    destruct (b64_decode RawURLEncoding (take_bytes i token)) as [payload|] eqn:Hp; [|done].
    destruct (unmarshal payload) as [d'|] eqn:Hu; [|done].
    destruct (Z.ltb_spec (ExpiresAt d') now); [done|]. intros [= <-].
    exists (take_bytes i token), (drop_bytes (S i) token), payload. by split_and!.
  - intros (p & s & payload & -> & Hs & Hsig & Hp & Hu & Hn).
    destruct (token_parts p s Hs) as (-> & -> & ->). cbv zeta.
    rewrite Hsig, bool_decide_eq_true_2, Hp, Hu by done. cbn [negb].
    destruct (Z.ltb_spec (ExpiresAt d) now); [lia|done].
Qed.

(** The encoding of a token: what is created under a key. *)
Lemma createSessionToken_ok key d token :
  create key d = Ok token ->
  exists payload, marshal d = Ok payload /\
    token = b64_encode RawURLEncoding payload +:+ "." +:+
            b64_encode RawURLEncoding (computeHMAC hmac_sha256 key (b64_encode RawURLEncoding payload)).
Proof.
  unfold createSessionToken. destruct (marshal d) as [payload|]; [|done]. intros [= <-]. by exists payload.
Qed.

(** A created token validates, under the same key and until the session expires, to
    the session it was created from, whenever the JSON codec reads back what it wrote
    for that session. *)
Lemma session_token_valid key d token now :
  create key d = Ok token -> rbind (marshal d) unmarshal = Ok d -> now <= ExpiresAt d ->
  validate key token now = Ok d.
Proof.
  intros Hc Hj Hn. apply validate_ok_iff.
  destruct (createSessionToken_ok _ _ _ Hc) as (payload & Hm & ->). rewrite Hm in Hj.
  do 3 eexists. split_and!; [reflexivity| |apply b64_roundtrip|apply b64_roundtrip|exact Hj|exact Hn].
  by apply RawURLEncoding_no_byte.
Qed.

(** C6: a session token is accepted exactly when it carries the MAC of its payload under
    the signing key, the payload decodes to the session returned, and the session has
    not expired: nothing else about the token matters and nothing less is accepted.  A
    token created under the key is such a token for as long as its session lasts, if the
    JSON codec reads back what it wrote. *)
Theorem validateSessionToken_accepts key token now d :
  (validate key token now = Ok d <-> valid_token key token now d) /\
  (create key d = Ok token -> rbind (marshal d) unmarshal = Ok d -> now <= ExpiresAt d ->
   validate key token now = Ok d).
Proof. split; [apply validate_ok_iff|apply session_token_valid]. Qed.
End TokenTheorems.

(** ** The cookie header *)

Lemma split_cookies_Split cur s :
  split_cookies cur s = match Split s ";"%char with w :: ws => (cur +:+ w) :: ws | [] => [] end.
Proof.
  revert cur. induction s as [|c s IH]; intros cur; cbn [split_cookies Split].
  - by rewrite str_app_nil_r.
  - case_decide.
    + rewrite IH, str_app_nil_r. f_equal. by destruct (Split s ";"%char).
    + rewrite IH. pose proof (Split_nonempty s ";"%char). destruct (Split s ";"%char); [done|].
      by rewrite str_app_assoc.
Qed.

(** The hand-written loop splits at every semicolon. *)
Lemma splitCookies_Split header : splitCookies header = Split header ";"%char.
Proof. unfold splitCookies. rewrite split_cookies_Split. by destruct (Split header ";"%char). Qed.

(** A cookie name that can be found again: no separator in it and no leading space. *)
Definition cookie_name_ok (n : string) : Prop :=
  ContainsByte n "="%char = false /\ ContainsByte n ";"%char = false /\ HasPrefix n " " = false.

(** A cookie jar: names that can be told apart and values without semicolons. *)
Definition jar_ok (jar : list (string * string)) : Prop :=
  Forall (fun nv => cookie_name_ok nv.1 /\ ContainsByte nv.2 ";"%char = false) jar.

Definition cookie_string (nv : string * string) : string := nv.1 +:+ "=" +:+ nv.2.

(** The Cookie header a client sends for its jar. *)
Definition cookie_header (jar : list (string * string)) : string := Join (cookie_string <$> jar) "; ".

Lemma trim_spaces_id s : HasPrefix s " " = false -> trim_spaces s = s.
Proof.
  destruct s as [|c s]; [done|]. rewrite HasPrefix_cons, HasPrefix_empty, andb_true_r.
  intros Hc%bool_decide_eq_false. cbn. by rewrite decide_False by congruence.
Qed.

Lemma IndexByte_app a b c :
  ContainsByte a c = false -> IndexByte (a +:+ String c b) c = Some (String.length a).
Proof.
  induction a as [|d a IH]; cbn; intros H; [by rewrite decide_True|].
  apply orb_false_iff in H as [Hd%bool_decide_eq_false Ha]. by rewrite decide_False, IH.
Qed.

Lemma parseCookiePair_string sp nv :
  sp = "" \/ sp = " " -> cookie_name_ok nv.1 -> parseCookiePair (sp +:+ cookie_string nv) = nv.
Proof.
  destruct nv as [n v]. intros Hsp (He & _ & Hp). cbn [fst] in He, Hp. unfold parseCookiePair, cookie_string. cbn [fst snd].
  assert (Ht : trim_spaces (n +:+ "=" +:+ v) = n +:+ "=" +:+ v).
  { apply trim_spaces_id. destruct n as [|c n]; [done|].
    change (String c n +:+ _) with (String c (n +:+ "=" +:+ v)). by rewrite HasPrefix_cons, !HasPrefix_empty in *. }
  assert (trim_spaces (sp +:+ n +:+ "=" +:+ v) = n +:+ "=" +:+ v) as ->.
  { by destruct Hsp as [-> | ->]. }
  change (n +:+ "=" +:+ v) with (n +:+ String "=" v). rewrite IndexByte_app by done. f_equal.
  - clear. induction n as [|c n IH]; [done|]. cbn. by f_equal.
  - clear. induction n as [|c n IH]; [done|]. exact IH.
Qed.

Lemma cookie_string_no_semi nv :
  cookie_name_ok nv.1 -> ContainsByte nv.2 ";"%char = false -> ContainsByte (cookie_string nv) ";"%char = false.
Proof.
  intros (_ & Hn & _) Hv. unfold cookie_string. rewrite !ContainsByte_app, Hn, Hv. done.
Qed.

Lemma find_cookie_jar name jar sp :
  sp = "" \/ sp = " " -> jar_ok jar ->
  find_cookie name (Split (sp +:+ cookie_header jar) ";"%char) =
  if decide (jar = []) then find_cookie name [sp] else query_get jar name.
Proof.
  intros Hsp Hj. revert sp Hsp. induction Hj as [|nv jar [Hn Hv] Hj IH]; intros sp Hsp.
  - unfold cookie_header. cbn [fmap list_fmap Join String.concat].
    rewrite decide_True, str_app_nil_r by done. by destruct Hsp as [-> | ->].
  - rewrite decide_False by done. unfold cookie_header, query_get. rewrite filter_cons.
    assert (Hsemi : ContainsByte (sp +:+ cookie_string nv) ";"%char = false).
    { rewrite ContainsByte_app, cookie_string_no_semi by done. by destruct Hsp as [-> | ->]. }
    destruct jar as [|nv' jar].
    + cbn [fmap list_fmap Join String.concat]. rewrite Split_absent by done. cbn [find_cookie].
      rewrite parseCookiePair_string by done. destruct nv as [n v]. cbn [fst snd].
      by repeat case_decide.
    + change (Join (cookie_string <$> nv :: nv' :: jar) "; ")
        with (cookie_string nv +:+ String ";" (" " +:+ cookie_header (nv' :: jar))).
      rewrite <- str_app_assoc, Split_app, (Split_absent _ _ Hsemi). cbn [app find_cookie].
      rewrite parseCookiePair_string by done. destruct nv as [n v]. cbn [fst snd].
      destruct (decide (n = name)); [done|].
      rewrite IH by auto. by rewrite decide_False.
Qed.

(** The cookie found in the header of a client is the first of the jar with that
    name, and the empty string if there is none. *)
Lemma extractSessionCookie_jar name jar :
  name <> "" -> jar_ok jar -> extractSessionCookie (cookie_header jar) name = query_get jar name.
Proof.
  intros Hne Hj. unfold extractSessionCookie. rewrite splitCookies_Split.
  pose proof (find_cookie_jar name jar "" (or_introl eq_refl) Hj) as H.
  cbn [String.append] in H. rewrite H. case_decide; [|done]. subst. cbn. by rewrite decide_False.
Qed.

(** ** Setting the cookie *)

(** The name and value a user agent keeps from a Set-Cookie value: the part before
    the first semicolon, cut at the first equals sign. *)
Definition set_cookie_pair (v : string) : string * string :=
  let '(n, value, _) := Cut (before_byte v ";"%char) "="%char in (n, value).

Lemma before_byte_app a b c : ContainsByte a c = false -> before_byte (a +:+ String c b) c = a.
Proof. intros Ha. rewrite <- Cut_before. by rewrite Cut_app. Qed.

Lemma set_cookie_pair_build name secure domain dur token :
  cookie_name_ok name -> ContainsByte token ";"%char = false ->
  set_cookie_pair (buildSessionCookie name secure domain dur token) = (name, token).
Proof.
  intros (Hn & Hs & _) Ht. unfold set_cookie_pair, buildSessionCookie.
  set (age := FormatInt _). set (attrs := "; Path=/; HttpOnly; SameSite=Lax").
  set (sec := if secure then "; Secure" else ""). set (dom := if decide (domain = "") then "" else "; Domain=" +:+ domain).
  transitivity (let '(n, value, _) := Cut (before_byte ((name +:+ "=" +:+ token) +:+ attrs +:+ sec +:+ dom +:+
    "; Max-Age=" +:+ age) ";"%char) "="%char in (n, value)).
  { subst sec dom. destruct secure, (decide (domain = "")); autorewrite with gostr; reflexivity. }
  unfold attrs. cbn [String.append]. rewrite before_byte_app.
  - by rewrite Cut_app.
  - rewrite ContainsByte_app, Hs. cbn [ContainsByte]. by rewrite Ht.
Qed.

(** The value a user agent keeps has no semicolon. *)
Lemma set_cookie_pair_no_semi v : ContainsByte (set_cookie_pair v).2 ";"%char = false.
Proof.
  unfold set_cookie_pair. pose proof (before_byte_absent v ";"%char) as Ha.
  induction (before_byte v ";"%char) as [|c s IH]; [done|]. cbn [Cut ContainsByte] in *.
  apply orb_false_iff in Ha as [_ Ha]. case_decide; [done|]. specialize (IH Ha).
  by destruct (Cut s "="%char) as [[n w] ok].
Qed.

(** ** Witnesses *)

Definition ex_session : SessionData := mkSessionData "alice" ∅ 5.
Definition ex_hmac (k m : string) : string := k +:+ m.

Lemma validateSessionToken_accepts_witness :
  exists token, createSessionToken ex_hmac (fun d => Ok (NameID d)) "k" ex_session = Ok token /\
    validateSessionToken ex_hmac (fun s => Ok (mkSessionData s ∅ 5)) "k" token 3 = Ok ex_session.
Proof.
  destruct (createSessionToken ex_hmac (fun d => Ok (NameID d)) "k" ex_session) as [token|e] eqn:Hc;
    [|vm_compute in Hc; discriminate].
  exists token. split; [reflexivity|].
  apply (validateSessionToken_accepts ex_hmac (fun d => Ok (NameID d)) (fun s => Ok (mkSessionData s ∅ 5))).
  - exact Hc.
  - reflexivity.
  - vm_compute. discriminate.
Defined.
