(* ===== verification/SamlConfig.v ===== *)
(** * saml: configuration and metadata

    extensions/composer/saml/config.go, metadata.go and sp_metadata.go: the
    validation of a decoded configuration with its defaults, the identity provider's
    metadata and the service provider's own.  Keys, certificates, PEM, XML and
    url.Parse are operations of the class [SamlLib]; random values and clock readings
    are arguments. *)

From S2P Require Import Prelude GoStr GoNum GoPath GoCodec Host ExtPkg SSELines.
From Stdlib Require Import Lia Ascii.

Local Open Scope Z_scope.
Local Open Scope go_scope.

(** ** The libraries *)

(** The template of a self-signed certificate. *)
Record CertTemplate : Type := mkCertTemplate {
  SerialNumber : Z;
  CommonName : string;
  NotBefore : Z;
  NotAfter : Z;
}.

(** An endpoint of the metadata of crewjam/saml, with what the code reads of it. *)
Record Endpoint : Type := mkEndpoint { Binding : string; Location : string }.
Record KeyDescriptor : Type := mkKeyDescriptor { Use : string; X509Certificates : list string }.
Record IDPSSODescriptor : Type := mkIDPSSODescriptor {
  SingleSignOnServices : list Endpoint;
  SingleLogoutServices : list Endpoint;
  KeyDescriptors : list KeyDescriptor;
}.
Record EntityDescriptor : Type := mkEntityDescriptor {
  ed_EntityID : string;
  IDPSSODescriptors : list IDPSSODescriptor;
}.

(** The service provider's descriptor as it is written. *)
Record SPDescriptor : Type := mkSPDescriptor {
  sp_EntityID : string;
  sp_KeyDescriptors : list KeyDescriptor;
  sp_SingleLogoutServices : list Endpoint;
  sp_NameIDFormats : list string;
  sp_AuthnRequestsSigned : bool;
  sp_WantAssertionsSigned : bool;
  sp_AssertionConsumerServices : list Endpoint;
}.

Definition HTTPRedirectBinding : string := "urn:oasis:names:tc:SAML:2.0:bindings:HTTP-Redirect".
Definition HTTPPostBinding : string := "urn:oasis:names:tc:SAML:2.0:bindings:HTTP-POST".

(** crypto/x509, crypto/rsa, encoding/pem, encoding/xml and url.Parse. *)
Class SamlLib : Type := {
  Certificate : Type;
  PrivateKey : Type;
  cert_Raw : Certificate -> string;
  pem_Decode : string -> option (string * string);
  pem_Encode : string -> string -> string;
  ParseCertificate : string -> option Certificate;
  ParsePKCS1PrivateKey : string -> option PrivateKey;
  (** [Some None] is a key of another kind. *)
  ParsePKCS8PrivateKey : string -> option (option PrivateKey);
  MarshalPKCS1PrivateKey : PrivateKey -> string;
  CreateCertificate : CertTemplate -> PrivateKey -> option string;
  xml_Unmarshal : string -> option EntityDescriptor;
  xml_MarshalIndent : SPDescriptor -> option string;
  url_Parse : string -> option URL;
}.

(** ** Defaults *)

Definition defaultCookieName : string := "_saml_session".
Definition defaultSessionDuration : Z := 8 * Hour.
Definition defaultCookieSecure : bool := true.
Definition defaultSubjectHeader : string := "x-saml-subject".
Definition defaultSignAuthnRequests : bool := true.
Definition defaultAllowedClockSkew : Z := 5 * Second.
Definition defaultNameIDFormat : string := "urn:oasis:names:tc:SAML:1.1:nameid-format:unspecified".
Definition defaultDefaultRedirectURL : string := "/".
Definition defaultSLOPath : string := "/saml/slo".
Definition defaultMetadataPath : string := "/saml/metadata".
Definition defaultIDPMetadataFetchDelay : Z := 1 * Second.
Definition defaultIDPMetadataFetchMaxAttempts : Z := 3.

(** ** The configuration as decoded *)

Record rawSessionConfig : Type := mkRawSessionConfig {
  raw_CookieName : string;
  raw_Duration : string;
  raw_CookieDomain : string;
  raw_CookieSecure : option bool;
  raw_CookieSigningKey : string;
}.

Record rawConfig : Type := mkRawConfig {
  raw_EntityID : string;
  raw_ACSPath : string;
  raw_IDPMetadataXML : option DataSource;
  raw_IDPMetadataURL : string;
  raw_IDPMetadataCluster : string;
  raw_IDPMetadataFetchDelay : string;
  raw_IDPMetadataFetchMaxAttempts : option Z;
  raw_SPCertPEM : option DataSource;
  raw_SPKeyPEM : option DataSource;
  raw_Session : option rawSessionConfig;
  raw_BypassPaths : list string;
  raw_SubjectHeader : string;
  raw_AttributeHeaders : list (string * string);
  raw_SignAuthnRequests : option bool;
  raw_AllowedClockSkew : string;
  raw_NameIDFormat : string;
  raw_DefaultRedirectPath : string;
  raw_SLOPath : string;
  raw_MetadataPath : string;
}.

Definition zero_rawConfig : rawConfig :=
  mkRawConfig "" "" None "" "" "" None None None None [] "" [] None "" "" "" "" "".

Inductive SamlConfigError : Type :=
| UndecodableConfig
| MissingEntityID
| MissingACSPath
| MetadataBoth
| MetadataNeither
| ClusterRequired
| ClusterNeedsURL
| FetchDelayNeedsURL
| MaxAttemptsNeedsURL
| BadFetchDelay
| NegativeFetchDelay
| BadMaxAttempts (n : Z)
| BadIDPMetadata (e : option DataSourceError)
| BadSPCert (e : DataSourceError)
| BadSPKey (e : DataSourceError)
| CertKeyMismatch
| CannotGenerate
| CannotParseCert
| CannotParseKey
| BadSessionDuration
| BadSigningKeyHex
| BadSigningKeyLength (n : Z)
| CannotGenerateKey
| BadClockSkew.

Section Config.
Context `{!SamlLib}.

(** [AttributeHeaders] is the list of the map's entries, in the order of its
    iteration. *)
Record Config : Type := mkConfig {
  EntityID : string;
  ACSPath : string;
  IDPMetadataXML : string;
  IDPMetadataURL : string;
  IDPMetadataCluster : string;
  IDPMetadataFetchDelay : Z;
  IDPMetadataFetchMaxAttempts : Z;
  SPCert : Certificate;
  SPKey : PrivateKey;
  SPCertPEM : string;
  SPKeyPEM : string;
  SPCertAutoGenerated : bool;
  CookieName : string;
  SessionDuration : Z;
  CookieDomain : string;
  CookieSecure : bool;
  CookieSigningKey : string;
  BypassPaths : list string;
  SubjectHeader : string;
  AttributeHeaders : list (string * string);
  SignAuthnRequests : bool;
  AllowedClockSkew : Z;
  NameIDFormat : string;
  DefaultRedirectPath : string;
  SLOPath : string;
  MetadataPath : string;
}.

(** ** PEM *)

Definition parseCertificatePEM (pemStr : string) : option Certificate :=
  match pem_Decode pemStr with
  | None => None
  | Some (type, bytes) => if decide (type = "CERTIFICATE") then ParseCertificate bytes else None
  end.

Definition parsePrivateKeyPEM (pemStr : string) : option PrivateKey :=
  match pem_Decode pemStr with
  | None => None
  | Some (type, bytes) =>
      if decide (type = "RSA PRIVATE KEY") then ParsePKCS1PrivateKey bytes
      else if decide (type = "PRIVATE KEY") then mjoin (ParsePKCS8PrivateKey bytes)
      else None
  end.

(** The random values and clock readings a configuration may draw; [None] is an error of
    the random source. *)
Record Entropy : Type := mkEntropy {
  rand_rsa_key : option PrivateKey;
  rand_serial : option Z;
  rand_now : Z;
  rand_now' : Z;
  rand_Read : Z -> option string;
}.

Definition generateRandomKey (e : Entropy) (length : Z) : option string := rand_Read e length.

Definition generateSelfSignedCertAndKey (e : Entropy) (cn : string) : option (Certificate * PrivateKey) :=
  match rand_rsa_key e, rand_serial e with
  | Some key, Some serialNumber =>
      let template := mkCertTemplate serialNumber cn (rand_now e - 1 * Hour) (rand_now' e + 10 * 365 * 24 * Hour) in
      match CreateCertificate template key with
      | None => None
      | Some certDER => (fun cert => (cert, key)) <$> ParseCertificate certDER
      end
  | _, _ => None
  end.

(** ** Sessions *)

(** The session fields of the configuration. *)
Record SessionFields : Type := mkSessionFields {
  s_CookieName : string;
  s_SessionDuration : Z;
  s_CookieDomain : string;
  s_CookieSecure : bool;
  s_CookieSigningKey : string;
}.

Definition default_session : SessionFields :=
  mkSessionFields defaultCookieName defaultSessionDuration "" defaultCookieSecure "".

(** A field that is overridden by a non-empty string. *)
Definition override (raw dflt : string) : string := if decide (raw = "") then dflt else raw.

(** A duration that is overridden by a non-empty string. *)
Definition override_duration {E} (raw : string) (dflt : Z) (err : E) : result E Z :=
  if decide (raw = "") then Ok dflt
  else match ParseDuration raw with Some d => Ok d | None => Err err end.

Definition applySessionConfig (cfg : SessionFields) (raw : rawSessionConfig)
    : result SamlConfigError SessionFields :=
  try duration <- override_duration (raw_Duration raw) (s_SessionDuration cfg) BadSessionDuration;
  try key <-
    (if decide (raw_CookieSigningKey raw = "") then Ok (s_CookieSigningKey cfg)
     else match hex_decode (raw_CookieSigningKey raw) with
          | None => Err BadSigningKeyHex
          | Some key =>
              if decide (String.length key = 32%nat) then Ok key
              else Err (BadSigningKeyLength (Z.of_nat (String.length key)))
          end);
  Ok (mkSessionFields (override (raw_CookieName raw) (s_CookieName cfg)) duration
        (override (raw_CookieDomain raw) (s_CookieDomain cfg))
        (default (s_CookieSecure cfg) (raw_CookieSecure raw)) key).

(** ** parseConfig *)

(** The optional PEM sources: absent is the empty string. *)
Definition pem_content (read : string -> option string) (err : DataSourceError -> SamlConfigError)
    (d : option DataSource) : result SamlConfigError string :=
  match d with
  | None => Ok ""
  | Some d =>
      match DataSource_Validate d with
      | Some e => Err (err e)
      | None => match DataSource_Content read d with Ok c => Ok c | Err e => Err (err e) end
      end
  end.

(** The checks on the origin of the metadata and on the fields of the URL mode. *)
Definition metadata_origin (raw : rawConfig) : option SamlConfigError :=
  let hasInlineMetadata := bool_decide (is_Some (raw_IDPMetadataXML raw)) in
  let hasURLMetadata := bool_decide (raw_IDPMetadataURL raw <> "") in
  if hasInlineMetadata && hasURLMetadata then Some MetadataBoth
  else if negb hasInlineMetadata && negb hasURLMetadata then Some MetadataNeither
  else if hasURLMetadata && bool_decide (raw_IDPMetadataCluster raw = "") then Some ClusterRequired
  else if negb hasURLMetadata && bool_decide (raw_IDPMetadataCluster raw <> "") then Some ClusterNeedsURL
  else if negb hasURLMetadata && bool_decide (raw_IDPMetadataFetchDelay raw <> "") then Some FetchDelayNeedsURL
  else if negb hasURLMetadata && bool_decide (is_Some (raw_IDPMetadataFetchMaxAttempts raw))
  then Some MaxAttemptsNeedsURL
  else None.

Definition fetch_delay (raw : rawConfig) : result SamlConfigError Z :=
  try d <- override_duration (raw_IDPMetadataFetchDelay raw) defaultIDPMetadataFetchDelay BadFetchDelay;
  if d <? 0 then Err NegativeFetchDelay else Ok d.

Definition fetch_max_attempts (raw : rawConfig) : result SamlConfigError Z :=
  match raw_IDPMetadataFetchMaxAttempts raw with
  | None => Ok defaultIDPMetadataFetchMaxAttempts
  | Some n => if n <? 1 then Err (BadMaxAttempts n) else Ok n
  end.

(** The inline metadata; an empty document is refused like a read error. *)
Definition inline_metadata (read : string -> option string) (raw : rawConfig) : result SamlConfigError string :=
  match raw_IDPMetadataXML raw with
  | None => Ok ""
  | Some d =>
      match DataSource_Validate d with
      | Some e => Err (BadIDPMetadata (Some e))
      | None =>
          match DataSource_Content read d with
          | Err e => Err (BadIDPMetadata (Some e))
          | Ok content => if decide (content = "") then Err (BadIDPMetadata None) else Ok content
          end
      end
  end.

(** The certificate, the key, their PEM forms and whether they were generated. *)
Definition certificate_and_key (e : Entropy) (cn spCertPEM spKeyPEM : string)
    : result SamlConfigError (Certificate * PrivateKey * string * string * bool) :=
  if decide (spCertPEM = "") then
    match generateSelfSignedCertAndKey e cn with
    | None => Err CannotGenerate
    | Some (cert, key) =>
        Ok (cert, key, pem_Encode "CERTIFICATE" (cert_Raw cert),
            pem_Encode "RSA PRIVATE KEY" (MarshalPKCS1PrivateKey key), true)
    end
  else match parseCertificatePEM spCertPEM with
  | None => Err CannotParseCert
  | Some cert =>
      match parsePrivateKeyPEM spKeyPEM with
      | None => Err CannotParseKey
      | Some key => Ok (cert, key, spCertPEM, spKeyPEM, false)
      end
  end.

(** [parseConfig]: [empty] is whether there are no bytes, [decoded] what they decode
    to. *)
Definition parseConfig (read : string -> option string) (e : Entropy) (empty : bool)
    (decoded : option rawConfig) : result SamlConfigError Config :=
  try raw <- (if empty then Ok zero_rawConfig
              else match decoded with Some raw => Ok raw | None => Err UndecodableConfig end);
  if decide (raw_EntityID raw = "") then Err MissingEntityID
  else if decide (raw_ACSPath raw = "") then Err MissingACSPath
  else match metadata_origin raw with
  | Some err => Err err
  | None =>
      try delay <- fetch_delay raw;
      try attempts <- fetch_max_attempts raw;
      try idpMetaXML <- inline_metadata read raw;
      try spCertPEM <- pem_content read BadSPCert (raw_SPCertPEM raw);
      try spKeyPEM <- pem_content read BadSPKey (raw_SPKeyPEM raw);
      if negb (bool_decide ((spCertPEM = "") <-> (spKeyPEM = ""))) then Err CertKeyMismatch
      else
        try ck <- certificate_and_key e (raw_EntityID raw) spCertPEM spKeyPEM;
        let '(cert, key, certPEM, keyPEM, autoGenerated) := ck in
        try s <- match raw_Session raw with
                 | Some rs => applySessionConfig default_session rs
                 | None => Ok default_session
                 end;
        try signingKey <-
          (if decide (s_CookieSigningKey s = "") then
             match generateRandomKey e 32 with Some k => Ok k | None => Err CannotGenerateKey end
           else Ok (s_CookieSigningKey s));
        try skew <- override_duration (raw_AllowedClockSkew raw) defaultAllowedClockSkew BadClockSkew;
        Ok {| EntityID := raw_EntityID raw; ACSPath := raw_ACSPath raw;
              IDPMetadataXML := idpMetaXML; IDPMetadataURL := raw_IDPMetadataURL raw;
              IDPMetadataCluster := raw_IDPMetadataCluster raw;
              IDPMetadataFetchDelay := delay; IDPMetadataFetchMaxAttempts := attempts;
              SPCert := cert; SPKey := key; SPCertPEM := certPEM; SPKeyPEM := keyPEM;
              SPCertAutoGenerated := autoGenerated;
              CookieName := s_CookieName s; SessionDuration := s_SessionDuration s;
              CookieDomain := s_CookieDomain s; CookieSecure := s_CookieSecure s;
              CookieSigningKey := signingKey;
              BypassPaths := raw_BypassPaths raw;
              SubjectHeader := override (raw_SubjectHeader raw) defaultSubjectHeader;
              AttributeHeaders := raw_AttributeHeaders raw;
              SignAuthnRequests := default defaultSignAuthnRequests (raw_SignAuthnRequests raw);
              AllowedClockSkew := skew;
              NameIDFormat := override (raw_NameIDFormat raw) defaultNameIDFormat;
              DefaultRedirectPath := override (raw_DefaultRedirectPath raw) defaultDefaultRedirectURL;
              SLOPath := override (raw_SLOPath raw) defaultSLOPath;
              MetadataPath := override (raw_MetadataPath raw) defaultMetadataPath |}
  end.

(** ** Metadata of the identity provider *)

Record IDPMetadata : Type := mkIDPMetadata {
  meta_EntityID : string;
  SSOURL : string;
  SLOURL : string;
  SigningCerts : list Certificate;
  Descriptor : EntityDescriptor;
}.

(** The loop over the services with the last POST location seen. *)
Fixpoint find_url (postURL : string) (services : list Endpoint) : string :=
  match services with
  | [] => postURL
  | svc :: services' =>
      if decide (Binding svc = HTTPRedirectBinding) then Location svc
      else if decide (Binding svc = HTTPPostBinding) then find_url (Location svc) services'
      else find_url postURL services'
  end.

Definition findSSOURL (services : list Endpoint) : string := find_url "" services.
Definition findSLOURL (services : list Endpoint) : string := find_url "" services.

(** [strings.ReplaceAll s c ""] for a byte [c]. *)
Fixpoint remove_byte (c : ascii) (s : string) : string :=
  match s with
  | EmptyString => EmptyString
  | String d s' => if decide (d = c) then remove_byte c s' else String d (remove_byte c s')
  end.

Definition parseBase64Certificate (data : string) : option Certificate :=
  let cleaned := remove_byte "010" (TrimSpace data) in
  let cleaned := remove_byte "013" cleaned in
  let cleaned := remove_byte " " cleaned in
  match b64_decode StdEncoding cleaned with
  | None => None
  | Some der => ParseCertificate der
  end.

(** A key descriptor that is used for signing. *)
Definition for_signing (kd : KeyDescriptor) : bool :=
  bool_decide (Use kd = "signing") || bool_decide (Use kd = "").

Definition extractSigningCerts (keyDescs : list KeyDescriptor) : option (list Certificate) :=
  match mapM parseBase64Certificate (filter (fun kd => for_signing kd = true) keyDescs ≫= X509Certificates) with
  | None => None
  | Some [] => None
  | Some certs => Some certs
  end.

Definition parseIDPMetadata (data : string) : option IDPMetadata :=
  if decide (data = "") then None
  else match xml_Unmarshal data with
  | None => None
  | Some ed =>
      match IDPSSODescriptors ed with
      | [] => None
      | idpSSO :: _ =>
          let sso := findSSOURL (SingleSignOnServices idpSSO) in
          if decide (sso = "") then None
          else match extractSigningCerts (KeyDescriptors idpSSO) with
          | None => None
          | Some certs =>
              Some (mkIDPMetadata (ed_EntityID ed) sso (findSLOURL (SingleLogoutServices idpSSO)) certs ed)
          end
      end
  end.

(** ** Metadata of the service provider *)

(** [None] is the nil pointer dereference when the entity id does not parse. *)
Definition buildSLOEndpoints (cfg : Config) : option (list Endpoint) :=
  if decide (SLOPath cfg = "") then Some []
  else match url_Parse (EntityID cfg) with
  | None => None
  | Some u => Some [mkEndpoint HTTPRedirectBinding (URL_String (set_Path u (SLOPath cfg)))]
  end.

Definition xml_Header : string :=
  let q := String "034" EmptyString in
  "<?xml version=" +:+ q +:+ "1.0" +:+ q +:+ " encoding=" +:+ q +:+ "UTF-8" +:+ q +:+ "?>" +:+
  String "010" EmptyString.

(** The descriptor of the service provider, for the parsed entity id. *)
Definition sp_descriptor (cfg : Config) (u : URL) (slo : list Endpoint) : SPDescriptor :=
  let certBase64 := b64_encode StdEncoding (cert_Raw (SPCert cfg)) in
  {| sp_EntityID := EntityID cfg;
     sp_KeyDescriptors := [mkKeyDescriptor "signing" [certBase64]; mkKeyDescriptor "encryption" [certBase64]];
     sp_SingleLogoutServices := slo;
     sp_NameIDFormats := [NameIDFormat cfg];
     sp_AuthnRequestsSigned := true;
     sp_WantAssertionsSigned := true;
     sp_AssertionConsumerServices := [mkEndpoint HTTPPostBinding (URL_String (set_Path u (ACSPath cfg)))] |}.

(** The outer option is a panic, the inner one the error of the encoder. *)
Definition generateSPMetadata (cfg : Config) : option (option string) :=
  match url_Parse (EntityID cfg), buildSLOEndpoints cfg with
  | Some u, Some slo => Some ((fun data => xml_Header +:+ data) <$> xml_MarshalIndent (sp_descriptor cfg u slo))
  | _, _ => None
  end.
End Config.

(** ** Accepted configurations *)

(** What an accepted configuration satisfies. *)
Definition config_wf `{!SamlLib} (cfg : Config) : Prop :=
  EntityID cfg <> "" /\ ACSPath cfg <> "" /\
  ((IDPMetadataXML cfg <> "" /\ IDPMetadataURL cfg = "" /\ IDPMetadataCluster cfg = "") \/
   (IDPMetadataXML cfg = "" /\ IDPMetadataURL cfg <> "" /\ IDPMetadataCluster cfg <> "")) /\
  0 <= IDPMetadataFetchDelay cfg /\ 1 <= IDPMetadataFetchMaxAttempts cfg /\
  CookieName cfg <> "" /\ String.length (CookieSigningKey cfg) = 32%nat /\
  SubjectHeader cfg <> "" /\ MetadataPath cfg <> "".

Lemma override_nonempty raw dflt : dflt <> "" -> override raw dflt <> "".
Proof. unfold override. by case_decide. Qed.

#[export] Hint Resolve override_nonempty : boe.

Section ConfigTheorems.
Context `{!SamlLib}.

Lemma applySessionConfig_wf rs s :
  applySessionConfig default_session rs = Ok s ->
  s_CookieName s <> "" /\ (s_CookieSigningKey s = "" \/ String.length (s_CookieSigningKey s) = 32%nat).
Proof.
  unfold applySessionConfig. destruct (override_duration _ _ _) as [d|]; [|done]. cbn [rbind].
  destruct (decide (raw_CookieSigningKey rs = "")) as [|Hk]; cbn [rbind].
  - intros [= <-]. cbn [s_CookieName s_CookieSigningKey default_session]. auto with boe.
  - destruct (hex_decode _) as [key|]; [|done]. case_decide; [|done]. cbn [rbind].
    intros [= <-]. cbn [s_CookieName s_CookieSigningKey default_session]. split; [|by right].
    by apply override_nonempty.
Qed.

Lemma metadata_origin_ok raw :
  metadata_origin raw = None ->
  (is_Some (raw_IDPMetadataXML raw) /\ raw_IDPMetadataURL raw = "" /\ raw_IDPMetadataCluster raw = "") \/
  (raw_IDPMetadataXML raw = None /\ raw_IDPMetadataURL raw <> "" /\ raw_IDPMetadataCluster raw <> "").
Proof.
  unfold metadata_origin. destruct (raw_IDPMetadataXML raw) as [x|];
    [rewrite (bool_decide_eq_true_2 (is_Some (Some x))) by done
    |rewrite (bool_decide_eq_false_2 (is_Some (@None DataSource))) by (by intros [? ?])];
    destruct (decide (raw_IDPMetadataURL raw = "")) as [Hu|Hu];
    [rewrite (bool_decide_eq_false_2 (raw_IDPMetadataURL raw <> "")) by tauto
    |rewrite (bool_decide_eq_true_2 (raw_IDPMetadataURL raw <> "")) by done
    |rewrite (bool_decide_eq_false_2 (raw_IDPMetadataURL raw <> "")) by tauto
    |rewrite (bool_decide_eq_true_2 (raw_IDPMetadataURL raw <> "")) by done]; cbn [andb negb]; try done.
  - destruct (decide (raw_IDPMetadataCluster raw = "")) as [Hc|Hc]; [by left|].
    by rewrite bool_decide_eq_true_2.
  - destruct (decide (raw_IDPMetadataCluster raw = "")) as [Hc|Hc]; [by rewrite bool_decide_eq_true_2|].
    by right.
Qed.

Lemma inline_metadata_ok read raw x :
  inline_metadata read raw = Ok x ->
  match raw_IDPMetadataXML raw with Some _ => x <> "" | None => x = "" end.
Proof.
  unfold inline_metadata. destruct (raw_IDPMetadataXML raw) as [d|]; [|by intros [= <-]].
  destruct (DataSource_Validate d); [done|]. destruct (DataSource_Content read d); [|done].
  case_decide; [done|]. by intros [= <-].
Qed.

(** C24: an accepted configuration is complete: entity id and ACS path are set, the metadata
    come from exactly one origin (a URL with its cluster, or a non-empty document), the
    fetch makes at least one attempt and waits a non-negative time, and the cookie signing
    key has 32 bytes, configured or drawn. *)
Theorem saml_parseConfig_wf read e empty decoded cfg :
  (forall n k, rand_Read e n = Some k -> Z.of_nat (String.length k) = n) ->
  parseConfig read e empty decoded = Ok cfg -> config_wf cfg.
Proof.
  intros Hrand. unfold parseConfig. destruct (if empty then _ else _) as [raw|]; [|done]. cbn [rbind].
  destruct (decide (raw_EntityID raw = "")); [done|]. destruct (decide (raw_ACSPath raw = "")); [done|].
  destruct (metadata_origin raw) eqn:Ho; [done|]. apply metadata_origin_ok in Ho.
  unfold fetch_delay. destruct (override_duration _ _ BadFetchDelay) as [d|]; [|done]. cbn [rbind].
  destruct (Z.ltb_spec d 0); [done|]. cbn [rbind].
  destruct (fetch_max_attempts raw) as [att|] eqn:Hn; [|done]. cbn [rbind].
  destruct (inline_metadata read raw) as [x|] eqn:Hx; [|done]. cbn [rbind].
  destruct (pem_content _ _ (raw_SPCertPEM raw)) as [c|]; [|done]. cbn [rbind].
  destruct (pem_content _ _ (raw_SPKeyPEM raw)) as [k|]; [|done]. cbn [rbind].
  destruct (negb _); [done|].
  destruct (certificate_and_key _ _ _ _) as [[[[[cert key] cp] kp] auto]|]; [|done]. cbn [rbind].
  destruct (match raw_Session raw with Some rs => applySessionConfig default_session rs
            | None => Ok default_session end) as [s|] eqn:Hs; [|done]. cbn [rbind].
  assert (s_CookieName s <> "" /\ (s_CookieSigningKey s = "" \/ String.length (s_CookieSigningKey s) = 32%nat)) as [Hcn Hsk].
  { destruct (raw_Session raw); [by apply applySessionConfig_wf in Hs|]. injection Hs as <-. cbn. auto. }
  destruct (if decide (s_CookieSigningKey s = "") then _ else _) as [sk|] eqn:Hkey; [|done]. cbn [rbind].
  destruct (override_duration _ _ BadClockSkew); [|done]. cbn [rbind]. intros [= <-].
  unfold config_wf. cbn. apply inline_metadata_ok in Hx.
  split_and!; auto with boe.
  - destruct Ho as [([m Hm] & ? & ?)|(Hm & ? & ?)]; rewrite Hm in Hx; [left|right]; done.
  - unfold fetch_max_attempts in Hn. destruct (raw_IDPMetadataFetchMaxAttempts raw).
    + destruct (Z.ltb_spec z 1); [done|]. injection Hn as <-. lia.
    + injection Hn as <-. done.
  - case_decide as Hsk0; [|injection Hkey as <-; by destruct Hsk].
    destruct (generateRandomKey e 32) as [k'|] eqn:Hr; [|done]. injection Hkey as <-.
    apply Hrand in Hr. lia.
Qed.

(** ** Accepted metadata *)

(** The location with a binding that the loop prefers: the first redirect, or else the
    last POST. *)
Lemma find_url_spec post services :
  find_url post services =
  match head (filter (fun s => Binding s = HTTPRedirectBinding) services) with
  | Some s => Location s
  | None => default post (Location <$> last (filter (fun s => Binding s = HTTPPostBinding) services))
  end.
Proof.
  revert post. induction services as [|svc services IH]; intros post; [done|]. cbn [find_url].
  rewrite !filter_cons. destruct (decide (Binding svc = HTTPRedirectBinding)) as [|Hr]; [done|].
  destruct (decide (Binding svc = HTTPPostBinding)) as [Hp|Hp]; rewrite IH; [|done].
  destruct (head _); [done|].
  destruct (filter (fun s => Binding s = HTTPPostBinding) services) as [|s' l]; [done|].
  change (last (svc :: s' :: l)) with (last (s' :: l)).
  destruct (last (s' :: l)) eqn:El; [done|]. by apply last_None in El.
Qed.

(** Accepted metadata name a redirect or POST location to send users to and carry at least
    one signing certificate, and every certificate kept is one the document gives for
    signing. *)
Theorem parseIDPMetadata_ok data m :
  parseIDPMetadata data = Some m ->
  exists d ds, xml_Unmarshal data = Some (Descriptor m) /\ IDPSSODescriptors (Descriptor m) = d :: ds /\
    SSOURL m <> "" /\
    (exists svc, svc ∈ SingleSignOnServices d /\ Location svc = SSOURL m /\
       (Binding svc = HTTPRedirectBinding \/ Binding svc = HTTPPostBinding)) /\
    SigningCerts m <> [] /\
    Forall (fun c => exists kd b64, kd ∈ KeyDescriptors d /\ for_signing kd = true /\
      b64 ∈ X509Certificates kd /\ parseBase64Certificate b64 = Some c) (SigningCerts m).
Proof.
  unfold parseIDPMetadata. case_decide; [done|]. destruct (xml_Unmarshal data) as [ed|] eqn:Hx; [|done].
  destruct (IDPSSODescriptors ed) as [|d ds] eqn:Hd; [done|]. cbv zeta.
  destruct (decide (findSSOURL _ = "")) as [|Hsso]; [done|].
  unfold extractSigningCerts.
  destruct (mapM parseBase64Certificate _) as [certs|] eqn:Hc; [|done].
  destruct certs as [|c certs]; [done|]. intros [= <-]. exists d, ds. cbn [Descriptor SSOURL SigningCerts].
  split_and!; try done.
  - revert Hsso. unfold findSSOURL. rewrite find_url_spec. destruct (head _) as [svc|] eqn:Hh.
    + apply filter_head_Some in Hh as [? ?]. intros _. exists svc. auto.
    + destruct (last _) as [svc|] eqn:Hl; [|done]. intros _. exists svc.
      apply last_Some_elem_of, list_elem_of_filter in Hl as [? ?]. auto.
  - apply mapM_Some in Hc. apply Forall_forall. intros c' Hin.
    apply list_elem_of_lookup in Hin as [i Hi].
    destruct (Forall2_lookup_r _ _ _ _ _ Hc Hi) as (b64 & Hb & Hp).
    apply list_elem_of_lookup_2 in Hb. apply list_elem_of_bind in Hb as (kd & Hin & Hkd).
    apply list_elem_of_filter in Hkd as [? ?]. by exists kd, b64.
Qed.
End ConfigTheorems.
