(* ===== verification/SamlFilter.v ===== *)
(** * saml: the filter

    extensions/composer/saml/authn_request.go, acs.go, filter.go and plugin.go: the
    redirect to the identity provider, the assertion consumer service, the callbacks of
    the filter and the fetch of the metadata.  The XML of crewjam/saml, DEFLATE, SHA-256,
    RSA signatures, HMAC, the JSON of sessions and Unicode case folding are operations of
    the class [SamlEnv]. *)

From S2P Require Import Prelude GoStr GoNum GoPath GoCodec Host ExtPkg SSELines SamlSession SamlConfig.
From Stdlib Require Import Lia Ascii.

Local Open Scope Z_scope.
Local Open Scope go_scope.

(** ** The data of crewjam/saml *)

Record AuthnRequest : Type := mkAuthnRequest {
  ar_ID : string;
  ar_Version : string;
  ar_IssueInstant : Z;
  ar_Destination : string;
  ar_Issuer : string;
  ar_NameIDFormat : string;
  ar_AssertionConsumerServiceURL : string;
}.

Record Attribute : Type := mkAttribute {
  attr_Name : string;
  attr_FriendlyName : string;
  attr_Values : list string;
}.

(** An assertion: the NameID of its subject, if both are present, and its attribute
    statements. *)
Record Assertion : Type := mkAssertion {
  as_NameID : option string;
  as_AttributeStatements : list (list Attribute);
}.

(** An error of ParseXMLResponse: its text, and the private error if it is an
    InvalidResponseError that has one. *)
Record ResponseError : Type := mkResponseError {
  re_text : string;
  re_private : option string;
}.

(** The service provider handed to crewjam/saml. *)
Record ServiceProvider `{!SamlLib} : Type := mkServiceProvider {
  spv_EntityID : string;
  spv_AcsURL : URL;
  spv_IDPMetadata : EntityDescriptor;
  spv_Key : PrivateKey;
  spv_Certificate : Certificate;
  spv_AllowIDPInitiated : bool;
}.

Class SamlEnv `{!SamlLib} : Type := {
  hmac_sha256 : string -> string -> string;
  session_marshal : SessionData -> result string string;
  session_unmarshal : string -> result string SessionData;
  EqualFold : string -> string -> bool;
  authn_xml : AuthnRequest -> string;
  deflate : string -> option string;
  sha256 : string -> string;
  SignPKCS1v15 : PrivateKey -> string -> option string;
  ParseXMLResponse : ServiceProvider -> string -> URL -> result ResponseError Assertion;
  (** The texts of the errors of url.ParseQuery and base64. *)
  query_error : string -> string;
  base64_error : string -> string;
}.

Section Filter.
Context {SL : SamlLib} {SE : SamlEnv}.

(** ** The redirect to the identity provider *)

Definition buildACSURL (cfg : Config) (scheme host : string) : string :=
  let scheme := if decide (scheme = "") then "https" else scheme in
  scheme +:+ "://" +:+ host +:+ ACSPath cfg.

(** [rnd] is the result of reading 20 random bytes. *)
Definition generateRequestID (rnd : option string) : option string :=
  match rnd with
  | None => None
  | Some b => Some ("_" +:+ hex_encode b)
  end.

Definition buildSignedPayload (q : Values) : string :=
  let payload := "SAMLRequest=" +:+ QueryEscape (query_get q "SAMLRequest") in
  let rs := query_get q "RelayState" in
  let payload := if decide (rs = "") then payload else payload +:+ "&RelayState=" +:+ QueryEscape rs in
  payload +:+ "&SigAlg=" +:+ QueryEscape (query_get q "SigAlg").

Definition signPayload (key : PrivateKey) (payload : string) : option string :=
  SignPKCS1v15 key (sha256 payload).

Definition rsa_sha256 : string := "http://www.w3.org/2001/04/xmldsig-more#rsa-sha256".

Definition authn_request (cfg : Config) (idpMeta : IDPMetadata) (scheme host id : string) (now : Z)
    : AuthnRequest :=
  mkAuthnRequest id "2.0" now (SSOURL idpMeta) (EntityID cfg) (NameIDFormat cfg) (buildACSURL cfg scheme host).

(** The query of the redirect, before the signature. *)
Definition redirect_query (u : URL) (encoded originalURL : string) : Values :=
  let q := values_set (url_query (RawQuery u)) "SAMLRequest" encoded in
  if decide (originalURL = "") then q else values_set q "RelayState" originalURL.

Definition sign_query (cfg : Config) (q : Values) : option Values :=
  if SignAuthnRequests cfg then
    let q := values_set q "SigAlg" rsa_sha256 in
    match signPayload (SPKey cfg) (buildSignedPayload q) with
    | None => None
    | Some sig => Some (values_set q "Signature" (b64_encode StdEncoding sig))
    end
  else Some q.

Definition generateAuthnRequest (cfg : Config) (idpMeta : IDPMetadata) (rnd : option string) (now : Z)
    (requestScheme requestHost originalURL : string) : option string :=
  match generateRequestID rnd with
  | None => None
  | Some id =>
      match deflate (authn_xml (authn_request cfg idpMeta requestScheme requestHost id now)) with
      | None => None
      | Some deflated =>
          match url_Parse (SSOURL idpMeta) with
          | None => None
          | Some redirectURL =>
              let q := redirect_query redirectURL (b64_encode StdEncoding deflated) originalURL in
              match sign_query cfg q with
              | None => None
              | Some q => Some (URL_String (set_RawQuery redirectURL (values_encode q)))
              end
          end
      end
  end.

(** ** The assertion consumer service *)

Record AssertionResult : Type := mkAssertionResult {
  ares_NameID : string;
  ares_Attributes : gmap string (list string);
}.

Inductive AcsError : Type :=
| AcsBadBody (msg : string)
| AcsNoResponse
| AcsBadBase64 (msg : string)
| AcsInvalid (public : string)
| AcsNoNameID.

(** [err.Error()] of [handleACSPost]. *)
Definition acs_error_text (e : AcsError) : string :=
  match e with
  | AcsBadBody msg => "failed to parse ACS POST body: " +:+ msg
  | AcsNoResponse => "SAMLResponse not found in ACS POST body"
  | AcsBadBase64 msg => "failed to decode SAMLResponse: " +:+ msg
  | AcsInvalid public => "SAML assertion validation failed: " +:+ public
  | AcsNoNameID => "SAML assertion validation failed: no NameID found in SAML assertion"
  end.

(** The public message of the validation error. *)
Definition extractSAMLError (err : ResponseError) : string :=
  match re_private err with
  | Some _ => "failed to validate SAML response: Authentication failed"
  | None => "failed to validate SAML response: " +:+ re_text err
  end.

Definition attribute_name (a : Attribute) : string :=
  if decide (attr_Name a = "") then attr_FriendlyName a else attr_Name a.

(** A later attribute of the same name replaces an earlier one; one without values is
    left out. *)
Definition add_attribute (attrs : gmap string (list string)) (a : Attribute) : gmap string (list string) :=
  match attr_Values a with
  | [] => attrs
  | values => <[attribute_name a := values]> attrs
  end.

Definition extractAttributes (a : Assertion) : gmap string (list string) :=
  foldl (fun attrs stmt => foldl add_attribute attrs stmt) ∅ (as_AttributeStatements a).

(** [None] is the nil pointer dereference when the URL does not parse. *)
Definition buildServiceProvider (cfg : Config) (idpMeta : IDPMetadata) (requestScheme requestHost : string)
    : option ServiceProvider :=
  match url_Parse (buildACSURL cfg requestScheme requestHost) with
  | None => None
  | Some acsURL =>
      Some (mkServiceProvider _ (EntityID cfg) acsURL (Descriptor idpMeta) (SPKey cfg) (SPCert cfg) true)
  end.

Definition validateSAMLResponse (cfg : Config) (idpMeta : IDPMetadata)
    (responseXML requestScheme requestHost : string) : option (result AcsError AssertionResult) :=
  match buildServiceProvider cfg idpMeta requestScheme requestHost,
        url_Parse (buildACSURL cfg requestScheme requestHost) with
  | Some sp, Some acsURL =>
      Some match ParseXMLResponse sp responseXML acsURL with
           | Err err => Err (AcsInvalid (extractSAMLError err))
           | Ok assertion =>
               let nameID := default "" (as_NameID assertion) in
               if decide (nameID = "") then Err AcsNoNameID
               else Ok (mkAssertionResult nameID (extractAttributes assertion))
           end
  | _, _ => None
  end.

Definition isSafeRedirectURL (target entityID : string) : bool :=
  if HasPrefix target "/" && negb (HasPrefix target "//") then true
  else match url_Parse target, url_Parse entityID with
  | Some targetURL, Some entityURL =>
      EqualFold (Scheme targetURL) (Scheme entityURL) && EqualFold (URLHost targetURL) (URLHost entityURL)
  | _, _ => false
  end.

(** Where a login leads, from the relay state. *)
Definition redirect_target (cfg : Config) (relayState : string) : string :=
  if bool_decide (relayState <> "") && isSafeRedirectURL relayState (EntityID cfg) then relayState
  else DefaultRedirectPath cfg.

Definition handleACSPost (cfg : Config) (idpMeta : IDPMetadata) (body requestScheme requestHost : string)
    (now : Z) : option (result AcsError (SessionData * string)) :=
  match ParseQuery body with
  | None => Some (Err (AcsBadBody (query_error body)))
  | Some values =>
      let samlResponseB64 := query_get values "SAMLResponse" in
      if decide (samlResponseB64 = "") then Some (Err AcsNoResponse)
      else match b64_decode StdEncoding samlResponseB64 with
      | None => Some (Err (AcsBadBase64 (base64_error samlResponseB64)))
      | Some samlResponseXML =>
          match validateSAMLResponse cfg idpMeta samlResponseXML requestScheme requestHost with
          | None => None
          | Some (Err e) => Some (Err e)
          | Some (Ok r) =>
              Some (Ok (mkSessionData (ares_NameID r) (ares_Attributes r) (now + SessionDuration cfg),
                        redirect_target cfg (query_get values "RelayState")))
          end
      end
  end.

(** ** The filter *)

(** Which of the four counters the host accepted. *)
Record samlMetrics : Type := mkSamlMetrics {
  hasAuthnRequests : bool;
  hasAssertionsValidated : bool;
  hasSessionsCreated : bool;
  hasSessionsValidated : bool;
}.

(** The fields of a filter that callbacks read or write; [metrics] is [None] for the nil
    pointer. *)
Record samlHTTPFilter : Type := mkSamlHTTPFilter {
  metrics : option samlMetrics;
  isACSRequest : bool;
  requestScheme : string;
  requestHost : string;
  requestID : string;
}.

(** The request attributes of the host; an absent one is the empty string. *)
Record RequestAttributes : Type := mkRequestAttributes {
  AttributeRequestPath : string;
  AttributeRequestMethod : string;
  AttributeRequestScheme : string;
  AttributeRequestHost : string;
}.

Definition getRequestPath (a : RequestAttributes) : string := before_byte (AttributeRequestPath a) "?"%char.
Definition getRequestMethod (a : RequestAttributes) : string := AttributeRequestMethod a.

(** A counter of [metrics] that the host accepted. *)
Definition increment (f : samlHTTPFilter) (has : samlMetrics -> bool) (name : string) (tags : list string)
    : Host unit :=
  match metrics f with
  | Some m => hwhen (has m) (hcall (IncrementCounterValue name 1 tags))
  | None => hret tt
  end.

Definition incrementAuthnRequests (f : samlHTTPFilter) : Host unit :=
  increment f hasAuthnRequests "saml_authn_requests_total" [].
Definition incrementAssertionsValidated (f : samlHTTPFilter) (res : string) : Host unit :=
  increment f hasAssertionsValidated "saml_assertions_validated_total" [res].
Definition incrementSessionsCreated (f : samlHTTPFilter) : Host unit :=
  increment f hasSessionsCreated "saml_sessions_created_total" [].
Definition incrementSessionsValidated (f : samlHTTPFilter) (res : string) : Host unit :=
  increment f hasSessionsValidated "saml_sessions_validated_total" [res].

Definition buildOriginalURL (f : samlHTTPFilter) (a : RequestAttributes) : string :=
  let scheme := if decide (requestScheme f = "") then "https" else requestScheme f in
  URL_String (mkURL scheme "" None (requestHost f) (AttributeRequestPath a) "" false false "" "" "").

(** [None] is a panic. *)
Definition serveMetadata (cfg : Config) : option (Host unit) :=
  match generateSPMetadata cfg with
  | None => None
  | Some None => Some (hcall (SendLocalResponse 500 [] "Internal Server Error" "saml"))
  | Some (Some metadataXML) =>
      Some (hcall (SendLocalResponse 200
        [("content-type", "application/samlmetadata+xml"); ("cache-control", "public, max-age=3600")]
        metadataXML "saml-metadata"))
  end.

Definition metadata_pending : HandleCall :=
  SendLocalResponse 503 [] "Service Unavailable: SAML metadata not yet loaded" "saml-metadata-pending".

Section Callbacks.
Context {H : Type} `{!HeaderMap H}.

(** One header per configured attribute that the session has. *)
Definition set_attribute_header (session : SessionData) (headers : H) (entry : string * string) : H :=
  match Attributes session !! entry.1 with
  | Some (_ :: _ as values) => HSet headers entry.2 (Join values ",")
  | _ => headers
  end.

Definition setUpstreamHeaders (cfg : Config) (headers : H) (session : SessionData) : H :=
  foldl (set_attribute_header session) (HSet headers (SubjectHeader cfg) (NameID session))
    (AttributeHeaders cfg).

(** What the session cookie of a request says. *)
Inductive SessionCheck : Type :=
| SessionAbsent
| SessionValid (session : SessionData)
| SessionRejected (err : TokenError).

Definition check_session (cfg : Config) (headers : H) (now : Z) : SessionCheck :=
  let cookieHeader := GetOne headers "cookie" in
  if decide (cookieHeader = "") then SessionAbsent
  else
    let token := extractSessionCookie cookieHeader (CookieName cfg) in
    if decide (token = "") then SessionAbsent
    else match validateSessionToken hmac_sha256 session_unmarshal (CookieSigningKey cfg) token now with
    | Ok session => SessionValid session
    | Err err => SessionRejected err
    end.

(** The redirect of a request without a valid session. *)
Definition redirect_to_idp (cfg : Config) (idpMeta : IDPMetadata) (f : samlHTTPFilter)
    (a : RequestAttributes) (rnd : option string) (now : Z) : Host unit :=
  match generateAuthnRequest cfg idpMeta rnd now (requestScheme f) (requestHost f) (buildOriginalURL f a) with
  | None => hcall (SendLocalResponse 500 [] "Internal Server Error" "saml")
  | Some redirectURL =>
      run hcall (SendLocalResponse 302 [("location", redirectURL); ("cache-control", "no-cache, no-store")]
                   "" "saml-redirect");
      incrementAuthnRequests f
  end.

(** [OnRequestHeaders]: [idpMeta] is the metadata loaded when the callback runs, [now]
    the clock and [rnd] the random bytes.  The headers are returned as the callback leaves
    them; [None] is a panic. *)
Definition OnRequestHeaders (cfg : Config) (idpMeta : option IDPMetadata) (f : samlHTTPFilter)
    (a : RequestAttributes) (headers : H) (endStream : bool) (now : Z) (rnd : option string)
    : option (Host (samlHTTPFilter * H * HeadersStatus)) :=
  let path := getRequestPath a in
  let f := mkSamlHTTPFilter (metrics f) (isACSRequest f) (AttributeRequestScheme a) (AttributeRequestHost a)
             (GetOne headers "x-request-id") in
  if decide (path ∈ BypassPaths cfg) then Some (hret (f, headers, HeadersStatusContinue))
  else match idpMeta with
  | None => Some (run hcall metadata_pending; hret (f, headers, HeadersStatusStop))
  | Some idpMeta =>
      if decide (path = MetadataPath cfg) then
        (fun m => run m; hret (f, headers, HeadersStatusStop)) <$> serveMetadata cfg
      else if bool_decide (path = ACSPath cfg) && EqualFold (getRequestMethod a) "POST" then
        let f := mkSamlHTTPFilter (metrics f) true (requestScheme f) (requestHost f) (requestID f) in
        Some (run hwhen endStream (hcall (SendLocalResponse 400 [] "Bad Request: empty ACS POST body" "saml"));
              hret (f, headers, HeadersStatusStop))
      else Some match check_session cfg headers now with
      | SessionValid session =>
          run incrementSessionsValidated f "valid";
          hret (f, setUpstreamHeaders cfg headers session, HeadersStatusContinue)
      | SessionRejected err =>
          run incrementSessionsValidated f
                (if Contains (token_error_text err) "expired" then "expired" else "invalid");
          run redirect_to_idp cfg idpMeta f a rnd now;
          hret (f, headers, HeadersStatusStop)
      | SessionAbsent =>
          run redirect_to_idp cfg idpMeta f a rnd now;
          hret (f, headers, HeadersStatusStop)
      end
  end.

(** [onRequestComplete] always ends the request: [body] is the whole request body. *)
Definition onRequestComplete (cfg : Config) (idpMeta : option IDPMetadata) (f : samlHTTPFilter)
    (body : string) (now : Z) : option (Host bool) :=
  match idpMeta with
  | None => Some (run hcall metadata_pending; hret false)
  | Some idpMeta =>
      match handleACSPost cfg idpMeta body (requestScheme f) (requestHost f) now with
      | None => None
      | Some (Err err) =>
          Some (run incrementAssertionsValidated f "failure";
                run hcall (SendLocalResponse 401 [("content-type", "text/plain")]
                             ("Unauthorized: " +:+ acs_error_text err) "saml-acs-error");
                hret false)
      | Some (Ok (session, redirectURL)) =>
          Some (run incrementAssertionsValidated f "success";
                match createSessionToken hmac_sha256 session_marshal (CookieSigningKey cfg) session with
                | Err _ =>
                    run hcall (SendLocalResponse 500 [] "Internal Server Error" "saml");
                    hret false
                | Ok token =>
                    run incrementSessionsCreated f;
                    let cookie := buildSessionCookie (CookieName cfg) (CookieSecure cfg) (CookieDomain cfg)
                                    (SessionDuration cfg) token in
                    run hcall (SendLocalResponse 302
                                 [("location", redirectURL); ("set-cookie", cookie);
                                  ("cache-control", "no-cache, no-store")] "" "saml-acs-redirect");
                    hret false
                end)
      end
  end.

Definition OnRequestBody (cfg : Config) (idpMeta : option IDPMetadata) (f : samlHTTPFilter)
    (body : string) (endStream : bool) (now : Z) : option (Host BodyStatus) :=
  if negb (isACSRequest f) then Some (hret BodyStatusContinue)
  else if negb endStream then Some (hret BodyStatusStopAndBuffer)
  else (fun m : Host bool => do ok <- m; hret (if ok then BodyStatusContinue else BodyStatusStopNoBuffer))
         <$> onRequestComplete cfg idpMeta f body now.

Definition OnRequestTrailers (cfg : Config) (idpMeta : option IDPMetadata) (f : samlHTTPFilter)
    (body : string) (now : Z) : option (Host TrailersStatus) :=
  if negb (isACSRequest f) then Some (hret TrailersStatusContinue)
  else (fun m : Host bool => do ok <- m; hret (if ok then TrailersStatusContinue else TrailersStatusStop))
         <$> onRequestComplete cfg idpMeta f body now.
End Callbacks.
End Filter.

(** ** The plugin: factories and the fetch of the metadata *)

Section Plugin.
Context {SL : SamlLib} {SE : SamlEnv}.

(** The configuration shared by the filters, with the published metadata. *)
Record samlFilterConfig : Type := mkSamlFilterConfig {
  config : Config;
  idpMetadata : option IDPMetadata;
}.

Record samlFilterFactory : Type := mkSamlFilterFactory {
  factory_config : samlFilterConfig;
  factory_metrics : option samlMetrics;
}.

(** [samlFilterFactory.Create]: the configuration used and the filter, whose metrics are
    left nil. *)
Definition samlFilterFactory_Create {Any} (assert : Any -> option samlFilterConfig) (most_specific : option Any)
    (f : samlFilterFactory) : samlFilterConfig * samlHTTPFilter :=
  let cfg := default (factory_config f) (GetMostSpecificConfig assert most_specific) in
  (cfg, mkSamlHTTPFilter None false "" "" "").

Definition idpMetadataCalloutTimeoutMs : Z := 5000.

(** A reply of the host to a callout. *)
Record CalloutReply : Type := mkCalloutReply {
  reply_result : HttpCalloutResult;
  reply_headers : list (string * string);
  reply_body : list string;
}.

Fixpoint calloutHeaderValue (headers : list (string * string)) (key : string) : string :=
  match headers with
  | [] => ""
  | (k, v) :: headers' => if decide (k = key) then v else calloutHeaderValue headers' key
  end.

Definition joinCalloutBody (body : list string) : string :=
  match body with
  | [] => ""
  | [b] => b
  | _ => Join body ""
  end.

(** [idpMetadataCallback.OnHttpCalloutDone]: the metadata it publishes; publishing
    signals success and everything else failure. *)
Definition OnHttpCalloutDone (r : CalloutReply) : option IDPMetadata :=
  if negb (bool_decide (reply_result r = HttpCalloutSuccess)) then None
  else if negb (bool_decide (calloutHeaderValue (reply_headers r) ":status" = "200")) then None
  else
    let bodyBytes := joinCalloutBody (reply_body r) in
    if decide (bodyBytes = "") then None else parseIDPMetadata bodyBytes.

(** What the host does with an attempt: refuses the callout, or replies to it. *)
Inductive Attempt : Type :=
| AttemptNotStarted (r : HttpCalloutInitResult)
| AttemptReplied (r : CalloutReply).

Definition attempt_metadata (a : Attempt) : option IDPMetadata :=
  match a with
  | AttemptNotStarted _ => None
  | AttemptReplied r => OnHttpCalloutDone r
  end.

(** The goroutine: [remaining] attempts are left and [attempts] tells what the host does
    with each.  It ends with the metadata to publish, or with none after the last
    attempt. *)
Fixpoint fetch_loop (cfg : Config) (headers : list (string * string)) (remaining : nat)
    (attempts : nat -> Attempt) : Host (option IDPMetadata) :=
  match remaining with
  | O => hret None
  | S remaining' =>
      run hcall (HttpCallout (IDPMetadataCluster cfg) headers "" idpMetadataCalloutTimeoutMs);
      match attempt_metadata (attempts O) with
      | Some m => hret (Some m)
      | None => fetch_loop cfg headers remaining' (fun i => attempts (S i))
      end
  end.

(** [startIDPMetadataFetch]: [None] is the error, otherwise the goroutine. *)
Definition startIDPMetadataFetch (cfg : Config) (attempts : nat -> Attempt)
    : option (Host (option IDPMetadata)) :=
  match url_Parse (IDPMetadataURL cfg) with
  | None => None
  | Some u =>
      if bool_decide (URLHost u = "") || bool_decide (Scheme u = "") then None
      else
        let requestPath := if decide (RequestURI u = "") then "/" else RequestURI u in
        let headers := [(":method", "GET"); (":path", requestPath); (":authority", URLHost u)] in
        Some (fetch_loop cfg headers (Z.to_nat (IDPMetadataFetchMaxAttempts cfg)) attempts)
  end.

(** [HTTPFilterConfigFactory.Create] from a parsed configuration: the factory, and the
    goroutine of the URL mode.  [defined] are the results of defining the counters. *)
Definition HTTPFilterConfigFactory_Create (cfg : Config) (defined : samlMetrics) (attempts : nat -> Attempt)
    : option (samlFilterFactory * option (Host (option IDPMetadata))) :=
  if decide (IDPMetadataXML cfg <> "") then
    match parseIDPMetadata (IDPMetadataXML cfg) with
    | None => None
    | Some m => Some (mkSamlFilterFactory (mkSamlFilterConfig cfg (Some m)) (Some defined), None)
    end
  else match startIDPMetadataFetch cfg attempts with
  | None => None
  | Some g => Some (mkSamlFilterFactory (mkSamlFilterConfig cfg None) (Some defined), Some g)
  end.

(** [CreatePerRoute] from a parsed configuration. *)
Definition CreatePerRoute (cfg : Config) : option samlFilterConfig :=
  if decide (IDPMetadataXML cfg = "") then None
  else (fun m => mkSamlFilterConfig cfg (Some m)) <$> parseIDPMetadata (IDPMetadataXML cfg).

(** ** The fetch *)

(** The number of callouts the goroutine makes: up to the first success. *)
Fixpoint attempts_made (remaining : nat) (attempts : nat -> Attempt) : nat :=
  match remaining with
  | O => O
  | S remaining' =>
      match attempt_metadata (attempts O) with
      | Some _ => 1
      | None => S (attempts_made remaining' (fun i => attempts (S i)))
      end
  end.

Lemma fetch_loop_calls cfg headers n attempts :
  calls_of (fetch_loop cfg headers n attempts) =
  replicate (attempts_made n attempts)
    (HttpCallout (IDPMetadataCluster cfg) headers "" idpMetadataCalloutTimeoutMs).
Proof.
  revert attempts. induction n as [|n IH]; intros attempts; [done|]. cbn [fetch_loop attempts_made].
  rewrite calls_hbind. destruct (attempt_metadata (attempts O)); [done|]. cbn [val_of hcall fst].
  by rewrite IH.
Qed.

Lemma fetch_loop_val cfg headers n attempts :
  val_of (fetch_loop cfg headers n attempts) =
  head (omap (fun i => attempt_metadata (attempts i)) (seq 0 n)).
Proof.
  revert attempts. induction n as [|n IH]; intros attempts; [done|]. cbn [fetch_loop seq].
  rewrite val_hbind. cbn [omap list_omap]. destruct (attempt_metadata (attempts O)) as [m|]; [done|].
  rewrite IH, <- fmap_S_seq. f_equal. generalize (seq 0 n). clear. intros l.
  induction l as [|i l IH]; [done|]. cbn. by destruct (attempt_metadata (attempts (S i))); rewrite IH.
Qed.

Lemma attempts_made_le n attempts : (attempts_made n attempts <= n)%nat.
Proof.
  revert attempts. induction n as [|n IH]; intros attempts; cbn; [done|].
  destruct (attempt_metadata _); [lia|]. specialize (IH (fun i => attempts (S i))). lia.
Qed.

(** The fetch of the metadata ends after at most the configured number of attempts, all
    of them callouts to the metadata cluster, and publishes the metadata of the first
    attempt that succeeds; it publishes nothing exactly when all of them fail. *)
Theorem metadata_fetch_bounded cfg attempts g :
  startIDPMetadataFetch cfg attempts = Some g -> 1 <= IDPMetadataFetchMaxAttempts cfg ->
  (exists headers k, calls_of g = replicate k (HttpCallout (IDPMetadataCluster cfg) headers ""
       idpMetadataCalloutTimeoutMs) /\ 1 <= Z.of_nat k <= IDPMetadataFetchMaxAttempts cfg) /\
  val_of g = head (omap (fun i => attempt_metadata (attempts i))
                     (seq 0 (Z.to_nat (IDPMetadataFetchMaxAttempts cfg)))) /\
  (val_of g = None <->
   forall i, Z.of_nat i < IDPMetadataFetchMaxAttempts cfg -> attempt_metadata (attempts i) = None).
Proof.
  unfold startIDPMetadataFetch. destruct (url_Parse _) as [u|]; [|done]. destruct (_ || _); [done|].
  intros [= <-] Hmax. cbv zeta. rewrite fetch_loop_val.
  set (n := Z.to_nat (IDPMetadataFetchMaxAttempts cfg)). split; [|split; [done|]].
  - eexists _, _. split; [apply fetch_loop_calls|]. pose proof (attempts_made_le n attempts).
    assert (1 <= attempts_made n attempts)%nat; [|lia].
    destruct n as [|n'] eqn:En; [lia|]. cbn. destruct (attempt_metadata _); lia.
  - split.
    + intros Hn i Hi. destruct (attempt_metadata (attempts i)) as [m|] eqn:Hm; [|done].
      assert (m ∈ omap (fun i => attempt_metadata (attempts i)) (seq 0 n)) as Hin.
      { apply list_elem_of_omap. exists i. split; [|done]. apply elem_of_seq. lia. }
      destruct (omap _ _); [by apply not_elem_of_nil in Hin|done].
    + intros Hall. destruct (omap _ _) as [|m l] eqn:Ho; [done|].
      assert (m ∈ omap (fun i => attempt_metadata (attempts i)) (seq 0 n)) as Hin by (rewrite Ho; left).
      apply list_elem_of_omap in Hin as (i & Hi%elem_of_seq & Hm). rewrite Hall in Hm by lia. done.
Qed.
End Plugin.

(** ** The redirect *)

Section RedirectTheorems.
Context {SL : SamlLib} {SE : SamlEnv}.

(** The payload depends only on the values of three keys. *)
Lemma buildSignedPayload_ext q q' :
  (forall k, k <> "Signature" -> query_get q k = query_get q' k) -> buildSignedPayload q = buildSignedPayload q'.
Proof. intros Hq. unfold buildSignedPayload. by rewrite !Hq. Qed.

Lemma redirect_query_get u encoded originalURL :
  query_get (redirect_query u encoded originalURL) "SAMLRequest" = encoded /\
  (originalURL <> "" -> query_get (redirect_query u encoded originalURL) "RelayState" = originalURL).
Proof.
  unfold redirect_query. case_decide; split; try done; intros;
    by rewrite ?query_get_set_ne, ?query_get_set_eq by done.
Qed.

(** What a redirect carries: the identity provider that parses the query of the location
    reads the values in [vals]. *)
Definition redirect_carries (cfg : Config) (location originalURL deflated : string) (vals : Values) : Prop :=
  (exists u raw, location = URL_String (set_RawQuery u raw) /\ ParseQuery raw = Some vals) /\
  b64_decode StdEncoding (query_get vals "SAMLRequest") = Some deflated /\
  (originalURL <> "" -> query_get vals "RelayState" = originalURL) /\
  (SignAuthnRequests cfg = true ->
   query_get vals "SigAlg" = rsa_sha256 /\
   exists sig, signPayload (SPKey cfg) (buildSignedPayload vals) = Some sig /\
     b64_decode StdEncoding (query_get vals "Signature") = Some sig).

Lemma sign_query_ok cfg q q' :
  sign_query cfg q = Some q' ->
  (forall k, k <> "SigAlg" -> k <> "Signature" -> query_get q' k = query_get q k) /\
  (length q' <= length q + 2)%nat /\
  (SignAuthnRequests cfg = true ->
   query_get q' "SigAlg" = rsa_sha256 /\
   exists sig, signPayload (SPKey cfg) (buildSignedPayload q') = Some sig /\
     query_get q' "Signature" = b64_encode StdEncoding sig).
Proof.
  unfold sign_query. destruct (SignAuthnRequests cfg); [|intros [= <-]; split_and!; [done|lia|done]].
  cbv zeta. set (q1 := values_set q "SigAlg" rsa_sha256).
  destruct (signPayload _ _) as [sig|] eqn:Hsig; [|done]. intros [= <-].
  set (b := b64_encode StdEncoding sig). split_and!.
  - intros k H1 H2. subst q1. by rewrite !query_get_set_ne by done.
  - pose proof (length_values_set q1 "Signature" b). pose proof (length_values_set q "SigAlg" rsa_sha256).
    subst q1. lia.
  - intros _. split; [subst q1; by rewrite query_get_set_ne, query_get_set_eq|]. exists sig.
    rewrite query_get_set_eq. split; [|done]. rewrite <- Hsig. f_equal. apply buildSignedPayload_ext.
    intros k Hk. by rewrite query_get_set_ne.
Qed.

Lemma length_redirect_query u encoded originalURL :
  (length (redirect_query u encoded originalURL) <= length (url_query (RawQuery u)) + 2)%nat.
Proof.
  unfold redirect_query. set (q := values_set (url_query (RawQuery u)) "SAMLRequest" encoded).
  pose proof (length_values_set (url_query (RawQuery u)) "SAMLRequest" encoded) as H1.
  pose proof (length_values_set q "RelayState" originalURL) as H2. fold q in H1. case_decide; lia.
Qed.

(** Parsing the query of the redirect gives back the deflated request and the original
    URL, and, when requests are signed, a signature that is the one of the parameters
    received.  The only condition is that the query of the identity provider's own URL
    leaves room for four parameters. *)
Theorem authn_redirect_roundtrip cfg m rnd now scheme host originalURL location :
  (forall u, url_Parse (SSOURL m) = Some u -> zlen (url_query (RawQuery u)) <= urlMaxQueryParams - 4) ->
  generateAuthnRequest cfg m rnd now scheme host originalURL = Some location ->
  exists id deflated vals,
    generateRequestID rnd = Some id /\
    deflate (authn_xml (authn_request cfg m scheme host id now)) = Some deflated /\
    redirect_carries cfg location originalURL deflated vals.
Proof.
  intros Hroom. unfold generateAuthnRequest. destruct (generateRequestID rnd) as [id|]; [|done].
  destruct (deflate _) as [deflated|] eqn:Hd; [|done].
  destruct (url_Parse (SSOURL m)) as [u|] eqn:Hu; [|done]. cbv zeta. specialize (Hroom u eq_refl).
  set (q := redirect_query u (b64_encode StdEncoding deflated) originalURL).
  destruct (sign_query cfg q) as [q'|] eqn:Hs; [|done]. intros [= <-].
  destruct (sign_query_ok _ _ _ Hs) as (Hget & Hlen & Hsign).
  destruct (redirect_query_get u (b64_encode StdEncoding deflated) originalURL) as [Hreq Hrelay].
  fold q in Hreq, Hrelay. pose proof (length_redirect_query u (b64_encode StdEncoding deflated) originalURL) as Hq.
  fold q in Hq. pose proof (length_sorted_pairs q') as Hsp.
  assert (Hp : ParseQuery (values_encode q') = Some (sorted_pairs q')) by (apply ParseQuery_encode; lia).
  assert (Hvals : forall k, query_get (sorted_pairs q') k = query_get q' k)
    by (intros k; unfold query_get; by rewrite filter_sorted_pairs).
  exists id, deflated, (sorted_pairs q'). split_and!; [done|done|]. unfold redirect_carries.
  rewrite !Hvals. split_and!.
  - by exists u, (values_encode q').
  - rewrite Hget, Hreq by done. apply b64_roundtrip.
  - intros Hne. by rewrite Hget, Hrelay.
  - intros Hsgn. destruct (Hsign Hsgn) as (? & sig & Hsig & ->). split; [done|]. exists sig.
    rewrite b64_roundtrip. split; [|done]. rewrite <- Hsig. f_equal. apply buildSignedPayload_ext. auto.
Qed.
End RedirectTheorems.

(** ** The filter *)

Section FilterTheorems.
Context {SL : SamlLib} {SE : SamlEnv} {H : Type} `{!HeaderMap H, !HeaderMapLaws H}.

(** The local responses among some calls. *)
Definition responses (l : list HandleCall) : nat := length (filter (fun c => is_local_response c = true) l).

Lemma responses_app l1 l2 : responses (l1 ++ l2) = (responses l1 + responses l2)%nat.
Proof. unfold responses. by rewrite filter_app, length_app. Qed.

Lemma increment_calls f has name tags :
  calls_of (increment f has name tags) = [] \/
  calls_of (increment f has name tags) = [IncrementCounterValue name 1 tags] /\ metrics f <> None.
Proof. unfold increment. destruct (metrics f) as [m|]; [|by left]. destruct (has m); [by right|by left]. Qed.

Lemma responses_increment f has name tags : responses (calls_of (increment f has name tags)) = 0%nat.
Proof. by destruct (increment_calls f has name tags) as [-> | [-> _]]. Qed.

Lemma responses_redirect cfg m f a rnd now : responses (calls_of (redirect_to_idp cfg m f a rnd now)) = 1%nat.
Proof.
  unfold redirect_to_idp. destruct (generateAuthnRequest _ _ _ _ _ _ _); [|done].
  rewrite calls_hbind, responses_app. unfold incrementAuthnRequests. by rewrite responses_increment.
Qed.

(** ** Fail closed *)

Lemma check_session_valid cfg (headers : H) now session :
  check_session cfg headers now = SessionValid session <->
  GetOne headers "cookie" <> "" /\
  extractSessionCookie (GetOne headers "cookie") (CookieName cfg) <> "" /\
  valid_token hmac_sha256 session_unmarshal (CookieSigningKey cfg)
    (extractSessionCookie (GetOne headers "cookie") (CookieName cfg)) now session.
Proof.
  unfold check_session. rewrite <- validate_ok_iff. cbv zeta.
  destruct (decide (GetOne headers "cookie" = "")); [intuition congruence|].
  destruct (decide (extractSessionCookie _ _ = "")); [intuition congruence|].
  destruct (validateSessionToken _ _ _ _ _); intuition congruence.
Qed.

(** The headers of a forwarded request name the session's subject, unless an attribute
    is configured to overwrite that header. *)
Lemma setUpstreamHeaders_subject cfg (headers : H) session :
  Forall (fun e => ToLower e.2 <> ToLower (SubjectHeader cfg)) (AttributeHeaders cfg) ->
  GetOne (setUpstreamHeaders cfg headers session) (SubjectHeader cfg) = NameID session.
Proof.
  unfold setUpstreamHeaders. intros Hne.
  transitivity (GetOne (HSet headers (SubjectHeader cfg) (NameID session)) (SubjectHeader cfg)); [|apply get_set_eq].
  generalize (HSet headers (SubjectHeader cfg) (NameID session)).
  induction Hne as [|e es He Hes IH]; intros h; [done|]. cbn [foldl]. rewrite IH.
  unfold set_attribute_header. destruct (Attributes session !! e.1) as [[|v vs]|]; try done.
  by rewrite get_set_ne.
Qed.

(** A request is forwarded only if its path is a bypass path, or its cookie carries a
    session token with the right MAC that has not expired; in the second case the subject
    header names the subject of that session, whatever the client sent, and no response
    is sent. *)
Lemma saml_forwarded cfg idpMeta f a (headers : H) eos now rnd f' headers' calls :
  OnRequestHeaders cfg idpMeta f a headers eos now rnd = Some (f', headers', HeadersStatusContinue, calls) ->
  responses calls = 0%nat /\
  ((getRequestPath a ∈ BypassPaths cfg /\ headers' = headers) \/
   exists session,
     valid_token hmac_sha256 session_unmarshal (CookieSigningKey cfg)
       (extractSessionCookie (GetOne headers "cookie") (CookieName cfg)) now session /\
     headers' = setUpstreamHeaders cfg headers session /\
     (Forall (fun e => ToLower e.2 <> ToLower (SubjectHeader cfg)) (AttributeHeaders cfg) ->
      GetOne headers' (SubjectHeader cfg) = NameID session)).
Proof.
  unfold OnRequestHeaders. cbv zeta. destruct (decide (getRequestPath a ∈ BypassPaths cfg)).
  { intros [= <- <- <-]. split; [done|]. by left. }
  destruct idpMeta as [m|]; [|intros [=]]. case_decide.
  { destruct (serveMetadata cfg) as [[[] l]|]; intros [=]. }
  destruct (_ && _); [destruct eos; intros [=]|].
  destruct (check_session cfg headers now) as [|session|err] eqn:Hs.
  - unfold hbind. destruct (redirect_to_idp _ _ _ _ _ _). intros [=].
  - intros Heq. apply (f_equal (option_map (fun r => (val_of r, calls_of r)))) in Heq. cbn [option_map] in Heq.
    rewrite val_hbind, calls_hbind in Heq. injection Heq as <- <- <-.
    split; [by rewrite responses_app; unfold incrementSessionsValidated; rewrite responses_increment|]. right. exists session.
    apply check_session_valid in Hs as (_ & _ & Hv). split; [done|]. split; [done|].
    intros. by apply setUpstreamHeaders_subject.
  - unfold hbind. destruct (incrementSessionsValidated _ _), (redirect_to_idp _ _ _ _ _ _). intros [=].
Qed.

(** ** One outcome per request *)

(** The chunks before the last one: each is buffered or passed on. *)
Fixpoint run_chunks (cfg : Config) (idpMeta : option IDPMetadata) (f : samlHTTPFilter) (now : Z) (n : nat)
    : option (Host bool) :=
  match n with
  | O => Some (hret true)
  | S n' =>
      match OnRequestBody cfg idpMeta f "" false now, run_chunks cfg idpMeta f now n' with
      | Some m, Some k => Some (do st <- m; do rest <- k; hret (bool_decide (st = BodyStatusContinue) && rest))
      | _, _ => None
      end
  end.

Definition run_end (cfg : Config) (idpMeta : option IDPMetadata) (f : samlHTTPFilter) (body : string)
    (now : Z) (e : RequestEnd) : option (Host bool) :=
  match e with
  | EndHeaders => Some (hret true)
  | EndBody =>
      (fun m : Host BodyStatus => do st <- m; hret (bool_decide (st = BodyStatusContinue)))
        <$> OnRequestBody cfg idpMeta f body true now
  | EndTrailers =>
      (fun m : Host TrailersStatus => do st <- m; hret (bool_decide (st = TrailersStatusContinue)))
        <$> OnRequestTrailers cfg idpMeta f body now
  end.

(** A whole request: the headers, [chunks] chunks and the end.  The metadata may be
    published between the callbacks ([m1], [m2]).  A request that was answered sees no more
    callbacks.  The result is the headers and whether every callback let the request
    pass. *)
Definition run_request (cfg : Config) (m1 m2 : option IDPMetadata) (f : samlHTTPFilter) (a : RequestAttributes)
    (headers : H) (chunks : nat) (e : RequestEnd) (body : string) (now1 now2 : Z) (rnd : option string)
    : option (Host (H * bool)) :=
  match OnRequestHeaders cfg m1 f a headers (bool_decide (e = EndHeaders)) now1 rnd with
  | None => None
  | Some (f1, headers1, st, calls) =>
      if decide (responses calls = 0%nat /\ e <> EndHeaders) then
        match run_chunks cfg m2 f1 now2 chunks, run_end cfg m2 f1 body now2 e with
        | Some k1, Some k2 =>
            Some (run (tt, calls); do ok1 <- k1; do ok2 <- k2;
                  hret (headers1, bool_decide (st = HeadersStatusContinue) && ok1 && ok2))
        | _, _ => None
        end
      else Some (headers1, bool_decide (st = HeadersStatusContinue), calls)
  end.


(** What a computation returns and how many responses it sends. *)
Definition outcome {A} (m : Host A) : A * nat := (val_of m, responses (calls_of m)).

Lemma outcome_bind {A B} (m : Host A) (k : A -> Host B) :
  outcome (hbind m k) = ((outcome (k (val_of m))).1, ((outcome m).2 + (outcome (k (val_of m))).2)%nat).
Proof. unfold outcome. by rewrite val_hbind, calls_hbind, responses_app. Qed.

Lemma outcome_increment f has name tags : outcome (increment f has name tags) = (tt, 0%nat).
Proof. unfold outcome. rewrite responses_increment. by destruct (val_of _). Qed.

(** Completing an ACS request always refuses to pass it on and answers it once. *)
Lemma onRequestComplete_outcome cfg m f body now r :
  onRequestComplete cfg m f body now = Some r -> outcome r = (false, 1%nat).
Proof.
  unfold onRequestComplete. destruct m as [m|]; [|by intros [= <-]].
  destruct (handleACSPost _ _ _ _ _ _) as [[[session url]|err]|]; [..|done]; intros [= <-];
    unfold incrementAssertionsValidated; rewrite outcome_bind, outcome_increment; [|done].
  destruct (createSessionToken _ _ _ _); [|done].
  unfold incrementSessionsCreated. by rewrite outcome_bind, outcome_increment.
Qed.

(** What the headers callback does: it passes the request on without answering, answers
    it, or waits for the body of an ACS request. *)
Lemma OnRequestHeaders_outcome cfg m f a (headers : H) eos now rnd f' headers' st calls :
  isACSRequest f = false ->
  OnRequestHeaders cfg m f a headers eos now rnd = Some (f', headers', st, calls) ->
  (st = HeadersStatusContinue /\ responses calls = 0%nat /\ isACSRequest f' = false) \/
  (st = HeadersStatusStop /\ responses calls = 1%nat) \/
  (st = HeadersStatusStop /\ responses calls = 0%nat /\ isACSRequest f' = true /\ eos = false).
Proof.
  intros Hacs. unfold OnRequestHeaders. cbv zeta. case_decide.
  { intros [= <- <- <- <-]. by left. }
  destruct m as [m|]; [|intros [= <- <- <- <-]; by right; left]. case_decide.
  { unfold serveMetadata. destruct (generateSPMetadata cfg) as [[x|]|]; [..|done]; intros [= <- <- <- <-]; by right; left. }
  destruct (_ && _).
  { destruct eos; intros [= <- <- <- <-]; [by right; left|]. right; right. done. }
  intros Heq. apply (f_equal (option_map outcome)) in Heq. cbn [option_map] in Heq.
  change (outcome (f', headers', st, calls)) with (f', headers', st, responses calls) in Heq.
  revert Heq. unfold incrementSessionsValidated.
  destruct (check_session cfg headers now) as [|session|err]; rewrite !outcome_bind; unfold outcome; cbn [fst snd];
    rewrite ?responses_increment, ?responses_redirect; intros [= <- <- <- <-];
    [right; left|left|right; left]; split_and!; done.
Qed.

Lemma run_chunks_outcome cfg m f now n r :
  run_chunks cfg m f now n = Some r ->
  outcome r = (negb (isACSRequest f) || bool_decide (n = 0%nat), 0%nat).
Proof.
  revert r. induction n as [|n IH]; intros r; cbn [run_chunks].
  - intros [= <-]. by rewrite orb_true_r.
  - unfold OnRequestBody. destruct (isACSRequest f) eqn:Ha; cbn [negb orb];
      (destruct (run_chunks cfg m f now n) as [k|] eqn:Hk; [|done]; intros [= <-];
       specialize (IH k eq_refl); destruct k as [v c]; unfold outcome in *; cbn in *; injection IH as -> Hc;
       by rewrite app_nil_r, Hc).
Qed.

Lemma run_end_outcome cfg m f body now e r :
  e <> EndHeaders -> run_end cfg m f body now e = Some r ->
  outcome r = if isACSRequest f then (false, 1%nat) else (true, 0%nat).
Proof.
  intros He. destruct e; cbn [run_end]; [done|..]; unfold OnRequestBody, OnRequestTrailers;
    (destruct (isACSRequest f); cbn [negb]; [|by intros [= <-]]);
    (destruct (onRequestComplete cfg m f body now) as [k|] eqn:Hk; [|done]); intros [= <-];
    apply onRequestComplete_outcome in Hk; destruct k as [v c]; unfold outcome in *; cbn in *;
    injection Hk as -> Hc; cbn; by rewrite ?app_nil_r, Hc.
Qed.

(** A login response: a POST to the path of the assertions. *)
Definition acs_post (cfg : Config) (a : RequestAttributes) : bool := bool_decide (getRequestPath a = ACSPath cfg) && EqualFold (getRequestMethod a) "POST".

(** The filter of a login response after its headers. *)
Definition acs_filter (f : samlHTTPFilter) (a : RequestAttributes) (headers : H) : samlHTTPFilter :=
  mkSamlHTTPFilter (metrics f) true (AttributeRequestScheme a) (AttributeRequestHost a) (GetOne headers "x-request-id").

(** What the headers callback lets pass. *)
Lemma OnRequestHeaders_continue cfg m f a (headers : H) eos now rnd f' headers' calls :
  OnRequestHeaders cfg m f a headers eos now rnd = Some (f', headers', HeadersStatusContinue, calls) ->
  (getRequestPath a ∈ BypassPaths cfg /\ headers' = headers) \/
  (getRequestPath a ∉ BypassPaths cfg /\ m <> None /\ getRequestPath a <> MetadataPath cfg /\ acs_post cfg a = false /\
   exists session,
     valid_token hmac_sha256 session_unmarshal (CookieSigningKey cfg) (extractSessionCookie (GetOne headers "cookie") (CookieName cfg)) now session /\
     headers' = setUpstreamHeaders cfg headers session).
Proof.
  intros Hh. pose proof Hh as Hf. apply saml_forwarded in Hf as (_ & [Hb|(session & Hv & -> & _)]); [by left|]. revert Hh.
  unfold OnRequestHeaders, acs_post. cbv zeta. destruct (decide (getRequestPath a ∈ BypassPaths cfg)) as [Hb|Hb].
  { intros [= _ <- _]. by left. }
  destruct m as [m|]; [|intros [=]]. destruct (decide (getRequestPath a = MetadataPath cfg)).
  { destruct (serveMetadata cfg) as [[[] l]|]; intros [=]. }
  destruct (_ && _); [destruct eos; intros [=]|]. intros _. right. split_and!; try done. by exists session.
Qed.

Lemma OnRequestHeaders_bypass cfg m f a (headers : H) eos now rnd :
  getRequestPath a ∈ BypassPaths cfg ->
  exists f', OnRequestHeaders cfg m f a headers eos now rnd = Some (f', headers, HeadersStatusContinue, []) /\ isACSRequest f' = isACSRequest f.
Proof. intros Hb. unfold OnRequestHeaders. cbv zeta. rewrite decide_True by done. by eexists. Qed.

(** The headers of a login response wait for its body, unless there is none. *)
Lemma OnRequestHeaders_acs cfg m f a (headers : H) eos now rnd :
  getRequestPath a ∉ BypassPaths cfg -> getRequestPath a <> MetadataPath cfg -> acs_post cfg a = true ->
  OnRequestHeaders cfg (Some m) f a headers eos now rnd =
  Some (acs_filter f a headers, headers, HeadersStatusStop, if eos then [SendLocalResponse 400 [] "Bad Request: empty ACS POST body" "saml"] else []).
Proof.
  intros Hb Hm Ha. unfold OnRequestHeaders. cbv zeta. rewrite !decide_False by done. unfold acs_post in Ha. rewrite Ha. by destruct eos.
Qed.

Lemma run_chunks_acs cfg m f now n r : isACSRequest f = true -> run_chunks cfg m f now n = Some r -> calls_of r = [].
Proof.
  intros Ha. revert r. induction n as [|n IH]; intros r; cbn [run_chunks]; [by intros [= <-]|].
  unfold OnRequestBody. rewrite Ha. cbn [negb]. destruct (run_chunks cfg m f now n) as [[v c]|]; [|done]. intros [= <-].
  specialize (IH _ eq_refl). cbn in *. by rewrite ?app_nil_r, IH.
Qed.

Lemma run_end_acs cfg m f body now e r :
  isACSRequest f = true -> e <> EndHeaders -> run_end cfg m f body now e = Some r ->
  exists k, onRequestComplete cfg m f body now = Some k /\ calls_of r = calls_of k.
Proof.
  intros Ha He. destruct e; [done|..]; cbn [run_end]; unfold OnRequestBody, OnRequestTrailers; rewrite Ha; cbn [negb];
    (destruct (onRequestComplete cfg m f body now) as [[v l]|]; [|done]); intros [= <-]; exists (v, l); (split; [done|]); cbn; by rewrite ?app_nil_r.
Qed.

(** Why a request is passed, with the headers it has then. *)
Definition passed_as (cfg : Config) (m : option IDPMetadata) (a : RequestAttributes) (headers : H) (now : Z) (headers' : H) : Prop :=
  (getRequestPath a ∈ BypassPaths cfg /\ headers' = headers) \/
  (getRequestPath a ∉ BypassPaths cfg /\ m <> None /\ getRequestPath a <> MetadataPath cfg /\ acs_post cfg a = false /\
   exists session,
     valid_token hmac_sha256 session_unmarshal (CookieSigningKey cfg) (extractSessionCookie (GetOne headers "cookie") (CookieName cfg)) now session /\
     headers' = setUpstreamHeaders cfg headers session).

Lemma run_request_outcome cfg m1 m2 f a (headers headers' : H) chunks e body now1 now2 rnd passed calls :
  isACSRequest f = false ->
  run_request cfg m1 m2 f a headers chunks e body now1 now2 rnd = Some (headers', passed, calls) ->
  responses calls = (if passed then 0%nat else 1%nat) /\ (passed = true -> passed_as cfg m1 a headers now1 headers').
Proof.
  intros Hacs. unfold run_request.
  destruct (OnRequestHeaders cfg m1 f a headers _ now1 rnd) as [[[[f1 h1] st] l1]|] eqn:Hh; [|done].
  assert (Hpass : st = HeadersStatusContinue -> passed_as cfg m1 a headers now1 h1).
  { intros ->. by apply OnRequestHeaders_continue in Hh. }
  destruct (OnRequestHeaders_outcome _ _ _ _ _ _ _ _ _ _ _ _ Hacs Hh)
    as [(-> & H0 & Hf)|[(-> & H1)|(-> & H0 & Hf & Heos)]].
  - destruct (decide (responses l1 = 0%nat /\ e <> EndHeaders)) as [Hd|Hd];
      [|intros [= <- <- <-]; rewrite H0; auto]. destruct Hd as [_ Hne].
    destruct (run_chunks _ _ _ _ _) as [k1|] eqn:Hk1; [|done].
    destruct (run_end _ _ _ _ _ _) as [k2|] eqn:Hk2; [|done].
    apply run_chunks_outcome in Hk1. apply run_end_outcome in Hk2; [|done]. rewrite Hf in Hk1, Hk2.
    unfold outcome in *. destruct k1 as [v1 c1], k2 as [v2 c2]. cbn [val_of calls_of fst snd] in Hk1, Hk2.
    cbn [hbind hret app]. intros [= <- <- <-].
    injection Hk1 as -> Hc1. injection Hk2 as -> Hc2. rewrite !responses_app, H0, Hc1, Hc2. auto.
  - rewrite decide_False by (intros [? _]; lia). intros [= <- <- <-]. cbn. by rewrite H1.
  - apply bool_decide_eq_false in Heos. rewrite decide_True by done.
    destruct (run_chunks _ _ _ _ _) as [k1|] eqn:Hk1; [|done].
    destruct (run_end _ _ _ _ _ _) as [k2|] eqn:Hk2; [|done].
    apply run_chunks_outcome in Hk1. apply run_end_outcome in Hk2; [|done]. rewrite Hf in Hk2.
    unfold outcome in *. destruct k1 as [v1 c1], k2 as [v2 c2]. cbn [val_of calls_of fst snd] in Hk1, Hk2.
    cbn [hbind hret app]. intros [= <- <- <-].
    injection Hk1 as _ Hc1. injection Hk2 as -> Hc2. rewrite !responses_app, H0, Hc1, Hc2. done.
Qed.

Lemma run_request_bypass cfg m1 m2 f a (headers headers' : H) chunks e body now1 now2 rnd passed calls :
  isACSRequest f = false -> getRequestPath a ∈ BypassPaths cfg ->
  run_request cfg m1 m2 f a headers chunks e body now1 now2 rnd = Some (headers', passed, calls) -> passed = true.
Proof.
  intros Hacs Hb. unfold run_request. destruct (OnRequestHeaders_bypass cfg m1 f a headers (bool_decide (e = EndHeaders)) now1 rnd Hb) as (f' & -> & Hf).
  rewrite Hacs in Hf. case_decide as Hd; [|by intros [= _ <- _]]. destruct Hd as [_ He].
  destruct (run_chunks _ _ _ _ _) as [k1|] eqn:Hk1; [|done]. destruct (run_end _ _ _ _ _ _) as [k2|] eqn:Hk2; [|done].
  apply run_chunks_outcome in Hk1. apply run_end_outcome in Hk2; [|done]. rewrite Hf in Hk1, Hk2.
  destruct k1 as [v1 c1], k2 as [v2 c2]. injection Hk1 as -> _. injection Hk2 as -> _. by intros [= _ <- _].
Qed.

Lemma run_request_acs cfg m1 m2 f a (headers headers' : H) chunks e body now1 now2 rnd passed calls :
  getRequestPath a ∉ BypassPaths cfg -> getRequestPath a <> MetadataPath cfg -> acs_post cfg a = true ->
  run_request cfg (Some m1) m2 f a headers chunks e body now1 now2 rnd = Some (headers', passed, calls) ->
  if decide (e = EndHeaders) then calls = [SendLocalResponse 400 [] "Bad Request: empty ACS POST body" "saml"]
  else exists r, onRequestComplete cfg m2 (acs_filter f a headers) body now2 = Some r /\ calls = calls_of r.
Proof.
  intros Hb Hp Ha. unfold run_request. rewrite OnRequestHeaders_acs by done. destruct (decide (e = EndHeaders)) as [He|He].
  - rewrite bool_decide_true by done. rewrite decide_False by (by intros [_ ?]). by intros [= _ _ <-].
  - rewrite bool_decide_false by done. rewrite decide_True by done.
    destruct (run_chunks _ _ _ _ _) as [k1|] eqn:Hk1; [|done]. destruct (run_end _ _ _ _ _ _) as [k2|] eqn:Hk2; [|done].
    apply run_chunks_acs in Hk1; [|done]. apply run_end_acs in Hk2 as (r & Hr & Hc); [|done..]. destruct k1 as [v1 c1], k2 as [v2 c2]. cbn in Hk1, Hc. subst c1 c2.
    intros [= _ _ <-]. exists r. split; [done|]. cbn. by rewrite app_nil_r.
Qed.

(** C5: Every request has one outcome: it is passed by every callback without a response, or held
    back and answered with exactly one.  It is passed only on a bypassed path, unchanged, or,
    once the metadata is published, with a valid session whose headers it then carries, and
    neither as a login response nor on the metadata path; on a bypassed path it always is.  A
    login response is never passed on: it is answered with what the whole body decides, and
    nothing before. *)
Theorem saml_one_outcome cfg m1 m2 f a (headers headers' : H) chunks e body now1 now2 rnd passed calls :
  isACSRequest f = false ->
  run_request cfg m1 m2 f a headers chunks e body now1 now2 rnd = Some (headers', passed, calls) ->
  responses calls = (if passed then 0%nat else 1%nat) /\
  (passed = true ->
   (getRequestPath a ∈ BypassPaths cfg /\ headers' = headers) \/
   (getRequestPath a ∉ BypassPaths cfg /\ m1 <> None /\ getRequestPath a <> MetadataPath cfg /\ acs_post cfg a = false /\
    exists session,
      valid_token hmac_sha256 session_unmarshal (CookieSigningKey cfg)
        (extractSessionCookie (GetOne headers "cookie") (CookieName cfg)) now1 session /\
      headers' = setUpstreamHeaders cfg headers session)) /\
  (getRequestPath a ∈ BypassPaths cfg -> passed = true) /\
  (getRequestPath a ∉ BypassPaths cfg -> acs_post cfg a = true ->
   passed = false /\
   (m1 <> None -> getRequestPath a <> MetadataPath cfg ->
    if decide (e = EndHeaders) then calls = [SendLocalResponse 400 [] "Bad Request: empty ACS POST body" "saml"]
    else exists r, onRequestComplete cfg m2 (acs_filter f a headers) body now2 = Some r /\ calls = calls_of r)).
Proof.
  intros Hacs Hrun. destruct (run_request_outcome _ _ _ _ _ _ _ _ _ _ _ _ _ _ _ Hacs Hrun) as [Hresp Hpass].
  split; [done|]. split; [done|]. split.
  - intros Hb. by eapply run_request_bypass.
  - intros Hb Ha. assert (passed = false) as ->.
    { destruct passed; [|done]. destruct (Hpass eq_refl) as [[? _]|(_ & _ & _ & ? & _)]; [done|congruence]. }
    split; [done|]. intros Hm Hp. destruct m1 as [m1|]; [|done]. by eapply run_request_acs.
Qed.

(** ** Logging in *)

Lemma token_bytes key d token :
  createSessionToken hmac_sha256 session_marshal key d = Ok token ->
  token <> "" /\ ContainsByte token ";"%char = false.
Proof.
  intros (payload & _ & ->)%createSessionToken_ok. split.
  - by destruct (b64_encode RawURLEncoding payload).
  - by rewrite !ContainsByte_app, !RawURLEncoding_no_byte.
Qed.

Lemma cookie_header_nonempty jar name : query_get jar name <> "" -> cookie_header jar <> "".
Proof.
  destruct jar as [|[n v] jar]; [done|]. intros _. unfold cookie_header. cbn [fmap list_fmap Join String.concat].
  destruct jar; cbn [list_fmap String.concat]; unfold cookie_string; cbn [fst snd]; by destruct n.
Qed.

(** A token in the jar of a client is what the filter checks. *)
Lemma check_session_jar cfg (headers : H) jar token now session :
  CookieName cfg <> "" -> jar_ok jar -> query_get jar (CookieName cfg) = token -> token <> "" ->
  GetOne headers "cookie" = cookie_header jar ->
  validateSessionToken hmac_sha256 session_unmarshal (CookieSigningKey cfg) token now = Ok session ->
  check_session cfg headers now = SessionValid session.
Proof.
  intros Hn Hj Hq Ht Hc Hv. apply check_session_valid.
  rewrite Hc, extractSessionCookie_jar, Hq by done. split_and!; [|done|].
  - apply (cookie_header_nonempty jar (CookieName cfg)). by rewrite Hq.
  - by apply validate_ok_iff.
Qed.

(** The answer to a login. *)
Lemma onRequestComplete_login cfg m f body now session url r :
  handleACSPost cfg m body (requestScheme f) (requestHost f) now = Some (Ok (session, url)) ->
  is_ok (session_marshal session) = true ->
  onRequestComplete cfg (Some m) f body now = Some r ->
  exists token,
    createSessionToken hmac_sha256 session_marshal (CookieSigningKey cfg) session = Ok token /\
    SendLocalResponse 302
      [("location", url);
       ("set-cookie", buildSessionCookie (CookieName cfg) (CookieSecure cfg) (CookieDomain cfg)
                        (SessionDuration cfg) token);
       ("cache-control", "no-cache, no-store")] "" "saml-acs-redirect" ∈ calls_of r.
Proof.
  intros Ha Hm. unfold onRequestComplete. rewrite Ha. unfold createSessionToken.
  destruct (session_marshal session) as [payload|]; [|done]. intros [= <-]. eexists. split; [done|].
  rewrite !calls_hbind. apply elem_of_app. right. apply elem_of_app. right. by left.
Qed.

(** C18: a login lets the user in.  When an assertion is accepted, the response sets a
    cookie, and until the session expires every request whose cookies include it is
    forwarded with the headers of the session made from the assertion, whatever other
    cookies are sent and whichever filter and metadata serve it.  (Bypassed paths, the
    metadata path and the ACS path are answered before the cookie is looked at.) *)
Theorem saml_login_session cfg m f body now0 session url r :
  handleACSPost cfg m body (requestScheme f) (requestHost f) now0 = Some (Ok (session, url)) ->
  rbind (session_marshal session) session_unmarshal = Ok session ->
  CookieName cfg <> "" -> cookie_name_ok (CookieName cfg) ->
  onRequestComplete cfg (Some m) f body now0 = Some r ->
  exists cookie,
    SendLocalResponse 302 [("location", url); ("set-cookie", cookie); ("cache-control", "no-cache, no-store")]
      "" "saml-acs-redirect" ∈ calls_of r /\
    (set_cookie_pair cookie).1 = CookieName cfg /\
    forall m' f' a (headers : H) jar eos now rnd,
      jar_ok jar -> query_get jar (CookieName cfg) = (set_cookie_pair cookie).2 ->
      GetOne headers "cookie" = cookie_header jar -> now <= now0 + SessionDuration cfg ->
      getRequestPath a ∉ BypassPaths cfg -> getRequestPath a <> MetadataPath cfg ->
      getRequestPath a <> ACSPath cfg ->
      exists f'' calls,
        OnRequestHeaders cfg (Some m') f' a headers eos now rnd =
        Some (f'', setUpstreamHeaders cfg headers session, HeadersStatusContinue, calls).
Proof.
  intros Ha Hj Hne Hok Hr.
  assert (Hexp : ExpiresAt session = now0 + SessionDuration cfg).
  { unfold handleACSPost in Ha. destruct (ParseQuery body); [|done]. cbv zeta in Ha. case_decide; [done|].
    destruct (b64_decode _ _); [|done]. destruct (validateSAMLResponse _ _ _ _ _) as [[]|]; [|done..].
    by injection Ha as <- _. }
  assert (Hm : is_ok (session_marshal session) = true) by (by destruct (session_marshal session)).
  destruct (onRequestComplete_login _ _ _ _ _ _ _ _ Ha Hm Hr) as (token & Hc & Hin).
  destruct (token_bytes _ _ _ Hc) as [Ht Hsemi].
  eexists. split; [exact Hin|]. rewrite set_cookie_pair_build by done. split; [done|]. cbn [snd].
  intros m' f' a headers jar eos now rnd Hjar Hq Hcookie Hnow Hb Hmp Hap.
  assert (Hs : check_session cfg headers now = SessionValid session).
  { eapply check_session_jar; try done. eapply session_token_valid; [exact Hc|exact Hj|lia]. }
  unfold OnRequestHeaders. cbv zeta. rewrite decide_False, decide_False by done.
  rewrite bool_decide_eq_false_2 by done. cbn [andb]. rewrite Hs. unfold hbind.
  destruct (incrementSessionsValidated _ _). by eexists _, _.
Qed.

(** ** Where a login leads *)

(** The location after a login is the configured default, a path on this host, or a URL
    with the scheme and host of the entity id. *)
Lemma redirect_target_safe cfg relayState (t := redirect_target cfg relayState) :
  t = DefaultRedirectPath cfg \/
  (HasPrefix t "/" = true /\ HasPrefix t "//" = false) \/
  exists u e, url_Parse t = Some u /\ url_Parse (EntityID cfg) = Some e /\
    EqualFold (Scheme u) (Scheme e) = true /\ EqualFold (URLHost u) (URLHost e) = true.
Proof.
  subst t. unfold redirect_target. destruct (isSafeRedirectURL relayState (EntityID cfg)) eqn:Hs;
    [rewrite andb_true_r|rewrite andb_false_r; by left].
  case_bool_decide; [right|by left]. unfold isSafeRedirectURL in Hs.
  destruct (HasPrefix relayState "/"); [destruct (HasPrefix relayState "//"); [right|by left]|right];
    cbn [andb negb] in Hs; destruct (url_Parse relayState) as [u|]; try done;
    destruct (url_Parse (EntityID cfg)) as [e|]; try done;
    apply andb_true_iff in Hs as [? ?]; by exists u, e.
Qed.

(** ** The original URL *)

Lemma url_escape_no_byte keep s c :
  keep c = false -> c <> "%"%char -> unhex c = None -> ContainsByte (url_escape keep s) c = false.
Proof.
  intros Hk Hp Hx. induction s as [|d s IH]; [done|]. cbn [url_escape]. destruct (keep d) eqn:Hd; cbn [ContainsByte]; rewrite IH.
  - rewrite bool_decide_eq_false_2; [done|]. congruence.
  - destruct (unhex_byte true d) as (H1 & H2 & _).
    rewrite !bool_decide_eq_false_2; [done|congruence..].
Qed.

(** The URL that is sent as the relay state never has a query: the question mark of the
    request's path is escaped with the rest of the path. *)
Lemma buildOriginalURL_no_query f a :
  ContainsByte (requestScheme f) "?"%char = false -> ContainsByte (buildOriginalURL f a) "?"%char = false.
Proof.
  intros Hs. unfold buildOriginalURL. set (scheme := if decide (requestScheme f = "") then "https" else requestScheme f).
  assert (Hsc : ContainsByte scheme "?"%char = false) by (subst scheme; by case_decide).
  assert (He : scheme <> "") by (subst scheme; by case_decide).
  unfold URL_String, EscapedPath, use_raw. cbn [Scheme Opaque_ UserInfo URLHost Path RawPath OmitHost ForceQuery RawQuery Fragment RawFragment].
  rewrite (bool_decide_eq_false_2 ("" <> "")) by tauto. cbn [andb orb].
  rewrite (decide_True (P := "" = "")) by done. rewrite (decide_True (P := "" = "")) by done.
  rewrite (decide_False (P := scheme = "")) by done. cbv zeta.
  rewrite !ContainsByte_app, Hsc. cbn [ContainsByte orb].
  repeat match goal with |- context [if ?b then _ else _] => destruct b end;
    rewrite ?ContainsByte_app; cbn [ContainsByte orb]; rewrite ?url_escape_no_byte by done; done.
Qed.

(** ** Metrics *)

Definition not_counter (c : HandleCall) : Prop :=
  match c with IncrementCounterValue _ _ _ => False | _ => True end.

Lemma redirect_no_counters cfg m f a rnd now :
  metrics f = None -> Forall not_counter (calls_of (redirect_to_idp cfg m f a rnd now)).
Proof.
  intros Hm. unfold redirect_to_idp, incrementAuthnRequests, increment. rewrite Hm.
  destruct (generateAuthnRequest _ _ _ _ _ _ _); repeat constructor.
Qed.

Lemma headers_no_counters cfg m f a (headers : H) eos now rnd r :
  metrics f = None -> OnRequestHeaders cfg m f a headers eos now rnd = Some r ->
  Forall not_counter (calls_of r) /\ metrics (val_of r).1.1 = None.
Proof.
  intros Hm. unfold OnRequestHeaders. cbv zeta. case_decide; [intros [= <-]; by repeat constructor|].
  destruct m as [m|]; [|intros [= <-]; by repeat constructor]. case_decide.
  { unfold serveMetadata. destruct (generateSPMetadata cfg) as [[x|]|]; [..|done]; intros [= <-];
      by repeat constructor. }
  destruct (_ && _); [destruct eos; intros [= <-]; by repeat constructor|]. intros [= <-].
  unfold incrementSessionsValidated, increment. cbn [metrics]. rewrite Hm.
  destruct (check_session cfg headers now) as [|session|err]; [|by repeat constructor|];
    rewrite ?hbind_ret_l, calls_hbind, val_hbind, app_nil_r; split; try done; by apply redirect_no_counters.
Qed.

(** A filter made by the factory counts nothing: its metrics are never set. *)
Lemma saml_no_counters {Any} (assert : Any -> option samlFilterConfig) specific factory cfg m a (headers : H)
    eos now rnd body r r' (f := (samlFilterFactory_Create assert specific factory).2) :
  (OnRequestHeaders cfg m f a headers eos now rnd = Some r ->
   Forall not_counter (calls_of r) /\ metrics (val_of r).1.1 = None) /\
  (onRequestComplete cfg m f body now = Some r' -> Forall not_counter (calls_of r')).
Proof.
  split; [by apply headers_no_counters|]. subst f. unfold onRequestComplete.
  destruct m as [m|]; [|intros [= <-]; by repeat constructor].
  destruct (handleACSPost _ _ _ _ _ _) as [[[session url]|err]|]; [..|done]; intros [= <-]; [|by repeat constructor].
  destruct (createSessionToken _ _ _ _); by repeat constructor.
Qed.

(** ** Attribute headers *)

(** A header that is configured for attributes the session does not have is forwarded as
    the client sent it. *)
Lemma attribute_header_kept cfg (headers : H) session k :
  ToLower (SubjectHeader cfg) <> ToLower k ->
  Forall (fun e => ToLower e.2 = ToLower k -> default [] (Attributes session !! e.1) = []) (AttributeHeaders cfg) ->
  GetOne (setUpstreamHeaders cfg headers session) k = GetOne headers k.
Proof.
  intros Hs Ha. unfold setUpstreamHeaders.
  transitivity (GetOne (HSet headers (SubjectHeader cfg) (NameID session)) k); [|by apply get_set_ne].
  generalize (HSet headers (SubjectHeader cfg) (NameID session)).
  induction Ha as [|e es He Hes IH]; intros h; [done|]. cbn [foldl]. rewrite IH.
  unfold set_attribute_header. destruct (Attributes session !! e.1) as [[|v vs]|]; try done.
  destruct (decide (ToLower e.2 = ToLower k)) as [Hk|Hk]; [by apply He in Hk|]. by rewrite get_set_ne.
Qed.
End FilterTheorems.

(** ** Witnesses *)

Definition ex_url : URL := mkURL "https" "" None "idp.example" "/sso" "" false false "" "" "".

#[local] Instance ex_lib : SamlLib := {
  Certificate := string;
  PrivateKey := string;
  cert_Raw c := c;
  pem_Decode s := Some ("CERTIFICATE", s);
  pem_Encode type bytes := type +:+ bytes;
  ParseCertificate s := Some s;
  ParsePKCS1PrivateKey s := Some s;
  ParsePKCS8PrivateKey s := Some (Some s);
  MarshalPKCS1PrivateKey s := s;
  CreateCertificate t k := Some (CommonName t +:+ k);
  xml_Unmarshal s :=
    Some (mkEntityDescriptor s [mkIDPSSODescriptor [mkEndpoint HTTPRedirectBinding "https://idp.example/sso"] []
                                  [mkKeyDescriptor "signing" ["QUJD"]]]);
  xml_MarshalIndent d := Some (sp_EntityID d);
  url_Parse s := Some ex_url;
}.

#[local] Instance ex_env : SamlEnv := {
  hmac_sha256 k m := k +:+ m;
  session_marshal d := Ok (NameID d);
  session_unmarshal s := Ok (mkSessionData s ∅ (100 * Second));
  EqualFold a b := bool_decide (a = b);
  authn_xml r := ar_ID r;
  deflate s := Some s;
  sha256 s := s;
  SignPKCS1v15 k h := Some (k +:+ h);
  ParseXMLResponse sp xml u := Ok (mkAssertion (Some xml) []);
  query_error s := s;
  base64_error s := s;
}.

Definition ex_raw : rawConfig :=
  mkRawConfig "https://app.example" "/acs" (Some (mkDataSource "<xml/>" "")) "" "" "" None None None
    (Some (mkRawSessionConfig "" "100s" "" None "")) [] "" [] None "" "" "" "" "".

Definition ex_entropy : Entropy :=
  mkEntropy (Some "key") (Some 1) 0 0
    (fun n => if decide (n = 32) then Some "0123456789abcdef0123456789abcdef" else None).

Definition ex_config : Config :=
  match parseConfig (fun _ => None) ex_entropy false (Some ex_raw) with
  | Ok c => c
  | Err _ => mkConfig "" "" "" "" "" 0 0 "" "" "" "" false "" 0 "" false "" [] "" [] false 0 "" "" "" ""
  end.

Definition ex_meta : IDPMetadata := mkIDPMetadata "idp" "https://idp.example/sso" "" ["ABC"] (mkEntityDescriptor "idp" []).
Definition ex_filter : samlHTTPFilter := mkSamlHTTPFilter None false "" "app.example" "".
Definition ex_attributes : RequestAttributes := mkRequestAttributes "/page?x=1" "GET" "https" "app.example".

Lemma saml_parseConfig_wf_witness : config_wf ex_config.
Proof.
  apply (saml_parseConfig_wf (fun _ => None) ex_entropy false (Some ex_raw)).
  - intros n k. cbn [rand_Read ex_entropy]. destruct (decide (n = 32)) as [->|]; [|discriminate].
    intros [= <-]. reflexivity.
  - vm_compute. reflexivity.
Defined.

Definition ex_fetch_config : Config :=
  mkConfig "e" "/acs" "" "https://idp.example/meta" "idp" 0 3 "" "" "" "" false "c" 0 "" false "" [] "" [] false 0 "" "" "" "".
Definition ex_attempts (i : nat) : Attempt :=
  match i with
  | 1%nat => AttemptReplied (mkCalloutReply HttpCalloutSuccess [(":status", "200")] ["idp"])
  | _ => AttemptNotStarted HttpCalloutInitFailure
  end.

Lemma metadata_fetch_bounded_witness :
  exists g, startIDPMetadataFetch ex_fetch_config ex_attempts = Some g /\ val_of g <> None.
Proof.
  destruct (startIDPMetadataFetch ex_fetch_config ex_attempts) as [g|] eqn:Hg; [|vm_compute in Hg; discriminate].
  exists g. split; [reflexivity|].
  destruct (metadata_fetch_bounded ex_fetch_config ex_attempts g Hg ltac:(vm_compute; discriminate)) as (_ & -> & _).
  vm_compute. discriminate.
Defined.

Lemma authn_redirect_roundtrip_witness :
  exists vals, query_get vals "RelayState" = "https://app.example/page" /\
    b64_decode StdEncoding (query_get vals "SAMLRequest") = Some "_6162".
Proof.
  destruct (authn_redirect_roundtrip ex_config ex_meta (Some "ab") 0 "https" "app.example" "https://app.example/page"
    (default "" (generateAuthnRequest ex_config ex_meta (Some "ab") 0 "https" "app.example" "https://app.example/page")))
    as (id & deflated & vals & Hid & Hd & _ & Hreq & Hrelay & _).
  - intros u [= <-]. vm_compute. discriminate.
  - vm_compute. reflexivity.
  - exists vals. split; [apply Hrelay; discriminate|]. rewrite Hreq. injection Hid as <-. injection Hd as <-.
    reflexivity.
Defined.

Lemma saml_one_outcome_witness :
  exists h calls,
    run_request (H := Headers) (HeaderMap0 := assoc_headers) ex_config (Some ex_meta) (Some ex_meta) ex_filter ex_attributes
      [] 1 EndBody "" 0 0 (Some "ab") = Some (h, false, calls) /\ responses calls = 1%nat.
Proof.
  destruct (run_request (H := Headers) (HeaderMap0 := assoc_headers) ex_config (Some ex_meta) (Some ex_meta) ex_filter
    ex_attributes [] 1 EndBody "" 0 0 (Some "ab")) as [[[h p] calls]|] eqn:Hr; [|vm_compute in Hr; discriminate].
  assert (p = false) as -> by (vm_compute in Hr; congruence).
  exists h, calls. split; [reflexivity|].
  apply (saml_one_outcome (H := Headers) (HeaderMap0 := assoc_headers) ex_config (Some ex_meta) (Some ex_meta) ex_filter
    ex_attributes [] h 1 EndBody "" 0 0 (Some "ab") false calls eq_refl Hr).
Defined.

Lemma saml_login_session_witness :
  exists cookie f'' calls,
    OnRequestHeaders (H := Headers) (HeaderMap0 := assoc_headers) ex_config (Some ex_meta) ex_filter ex_attributes
      [("cookie", cookie_header [("a", "1"); set_cookie_pair cookie])] true (50 * Second) None =
    Some (f'', setUpstreamHeaders (H := Headers) (HeaderMap0 := assoc_headers) ex_config
                 [("cookie", cookie_header [("a", "1"); set_cookie_pair cookie])]
                 (mkSessionData "u" ∅ (100 * Second)), HeadersStatusContinue, calls).
Proof.
  destruct (onRequestComplete ex_config (Some ex_meta) ex_filter "SAMLResponse=dQ%3D%3D" 0) as [r|] eqn:Hr;
    [|vm_compute in Hr; discriminate].
  destruct (saml_login_session (H := Headers) (HeaderMap0 := assoc_headers) ex_config ex_meta ex_filter "SAMLResponse=dQ%3D%3D" 0
    (mkSessionData "u" ∅ (100 * Second)) "/" r) as (cookie & _ & Hn & Hin);
    [vm_compute; reflexivity|vm_compute; reflexivity|vm_compute; discriminate|vm_compute; auto|exact Hr|].
  pose proof (set_cookie_pair_no_semi cookie) as Hv.
  destruct (set_cookie_pair cookie) as [n v] eqn:Hp. cbn [fst snd] in Hn, Hin, Hv. subst n.
  exists cookie. rewrite Hp. apply (Hin ex_meta ex_filter ex_attributes _ [("a", "1"); (CookieName ex_config, v)]).
  - constructor; [vm_compute; auto|]. constructor; [|constructor]. split; [vm_compute; auto|exact Hv].
  - reflexivity.
  - reflexivity.
  - vm_compute. discriminate.
  - vm_compute. intros Hb. inversion Hb.
  - vm_compute. discriminate.
  - vm_compute. discriminate.
Defined.
