(* ===== verification/PolicyInput.v ===== *)
(** * What the policy filters share

    The opa and cedar filters are built alike: they describe a request to a policy
    engine (extensions/composer/opa/plugin.go and cedar/plugin.go), and enforce what it
    answers.  Here are what they read from the host, the path parser both contain, the
    counter of decisions, and the decision table each of them implements. *)

From S2P Require Import Prelude GoStr GoNum GoPath GoCodec Host.
From Stdlib Require Import Lia Ascii.

Local Open Scope Z_scope.
Local Open Scope go_scope.

(** ** What is read from the host *)

(** The attributes of a request and its dynamic metadata. *)
Record HostView : Type := mkHostView {
  AttributeString : string -> string;
  ConnectionMtls : bool;
  GetMetadataKeys : string -> list string;
  GetMetadataString : string -> string -> option string;
  GetMetadataNumber : string -> string -> option float64;
}.

Definition RequestProtocol : string := "request.protocol".
Definition SourceAddress : string := "source.address".
Definition DestinationAddress : string := "destination.address".
Definition UriSanPeerCertificate : string := "connection.uri_san_peer_certificate".
Definition DnsSanPeerCertificate : string := "connection.dns_san_peer_certificate".
Definition SubjectPeerCertificate : string := "connection.subject_peer_certificate".
Definition TlsVersion : string := "connection.tls_version".
Definition Sha256PeerCertificateDigest : string := "connection.sha256_peer_certificate_digest".

(** [cmp.Or] on strings. *)
Definition cmp_Or (a b : string) : string := if decide (a = "") then b else a.

(** ** Paths and headers *)

(** A Go map of string lists, from its pairs. *)
Definition add_value (m : gmap string (list string)) (kv : string * string) : gmap string (list string) :=
  <[kv.1 := default [] (m !! kv.1) ++ [kv.2]]> m.

Definition parsePath (fullPath : string) : list string * gmap string (list string) :=
  let '(pathPart, queryPart) :=
    match Cut fullPath "?"%char with
    | (before, after, true) => (before, after)
    | (_, _, false) => (fullPath, "")
    end in
  let segments := Split (TrimPrefix pathPart "/") "/"%char in
  let queryMap :=
    if decide (queryPart = "") then ∅
    else match ParseQuery queryPart with
         | Some parsed => foldl add_value ∅ parsed
         | None => ∅
         end in
  (segments, queryMap).

(** The headers without pseudo-headers; a repeated header keeps its last value. *)
Definition header_map (headers : list (string * string)) : gmap string string :=
  foldl (fun m h => if HasPrefix h.1 ":" then m else <[h.1 := h.2]> m) ∅ headers.

(** The values of a query parameter are its values in order. *)
Lemma parsePath_query path q pairs k :
  ContainsByte path "?"%char = false -> ParseQuery q = Some pairs ->
  default [] ((parsePath (path +:+ String "?" q)).2 !! k) = (filter (fun kv => kv.1 = k) pairs).*2.
Proof.
  intros Hp Hq. unfold parsePath. rewrite Cut_app by done. cbn [snd].
  assert (Hfold : forall (m : gmap string (list string)),
    default [] (foldl add_value m pairs !! k) = default [] (m !! k) ++ (filter (fun kv => kv.1 = k) pairs).*2).
  { clear. induction pairs as [|[k' v] pairs IH]; intros m; cbn [foldl]; [by rewrite app_nil_r|].
    rewrite IH, filter_cons. unfold add_value. cbn [fst snd]. case_decide as Hk.
    - cbn [fst] in Hk. subst k'. rewrite lookup_insert_eq. cbn [from_option default fmap list_fmap id].
      by rewrite <- app_assoc.
    - by rewrite lookup_insert_ne by done. }
  case_decide as Hq0.
  - subst q. vm_compute in Hq. injection Hq as <-. by rewrite lookup_empty.
  - rewrite Hq, Hfold. by rewrite lookup_empty.
Qed.

(** What both filters take as the path: the part before the question mark. *)
Lemma Cut_found_before s c :
  match Cut s c with (before, _, true) => before | _ => s end = (Cut s c).1.1.
Proof.
  induction s as [|d s IH]; [done|]. cbn [Cut]. case_decide; [done|].
  destruct (Cut s c) as [[b a] []]; [done|]. cbn [fst] in *. by rewrite <- IH.
Qed.

(** The path has its segments and the query plays no part in them. *)
Lemma parsePath_segments path :
  (parsePath path).1 = Split (TrimPrefix (before_byte path "?"%char) "/") "/"%char.
Proof.
  unfold parsePath. rewrite <- Cut_before, <- Cut_found_before. by destruct (Cut path "?"%char) as [[b a] []].
Qed.

(** No pseudo-header reaches a policy as a header. *)
Lemma header_map_no_pseudo headers k v : header_map headers !! k = Some v -> HasPrefix k ":" = false.
Proof.
  unfold header_map. assert (Hinv : forall m : gmap string string,
    (forall k v, m !! k = Some v -> HasPrefix k ":" = false) ->
    foldl (fun m h => if HasPrefix h.1 ":" then m else <[h.1 := h.2]> m) m headers !! k = Some v ->
    HasPrefix k ":" = false).
  { induction headers as [|[k' v'] headers IH]; intros m Hm; cbn [foldl]; [apply Hm|]. cbn [fst snd].
    destruct (HasPrefix k' ":") eqn:Hk'; apply IH; [done|]. intros k0 v0.
    destruct (decide (k0 = k')) as [->|]; [done|]. rewrite lookup_insert_ne by done. apply Hm. }
  apply Hinv. intros ? ?. by rewrite lookup_empty.
Qed.

(** ** Decisions *)

Definition decisionAllowed : string := "allowed".
Definition decisionDenied : string := "denied".
Definition decisionFailOpen : string := "failopen".
Definition decisionDryAllow : string := "dryrun_allow".

(** The answer of a policy: it permits, it forbids, or there is none. *)
Inductive Verdict : Type := Permit | Forbid | Failure.

(** The decision table of a policy filter: whether the request passes, and the decision
    that is counted, if any. *)
Definition decision_table (failOpen dryRun : bool) (v : Verdict) : bool * option string :=
  match v with
  | Permit => (true, if dryRun then None else Some decisionAllowed)
  | Forbid => if dryRun then (true, Some decisionDryAllow) else (false, Some decisionDenied)
  | Failure => if failOpen then (true, Some decisionFailOpen) else (false, Some decisionDenied)
  end.

(** The tags counted by some calls, and the local responses among them. *)
Fixpoint counted (l : list HandleCall) : list (list string) :=
  match l with
  | [] => []
  | IncrementCounterValue _ _ tags :: l' => tags :: counted l'
  | _ :: l' => counted l'
  end.

Fixpoint answered (l : list HandleCall) : list Z :=
  match l with
  | [] => []
  | SendLocalResponse status _ _ _ :: l' => status :: answered l'
  | _ :: l' => answered l'
  end.

Lemma counted_app l1 l2 : counted (l1 ++ l2) = counted l1 ++ counted l2.
Proof. induction l1 as [|[] l1 IH]; cbn; congruence. Qed.

Lemma answered_app l1 l2 : answered (l1 ++ l2) = answered l1 ++ answered l2.
Proof. induction l1 as [|[] l1 IH]; cbn; congruence. Qed.

(** A filter that passed a request or not, with these calls, did what the table says:
    it counted the decision if its counter is enabled, and a request that does not pass
    is answered with exactly one response, of status [status]. *)
Definition follows_table (failOpen dryRun enabled : bool) (v : Verdict) (status : Z)
    (passed : bool) (calls : list HandleCall) : Prop :=
  let '(pass, tag) := decision_table failOpen dryRun v in
  passed = pass /\
  counted calls = match tag with Some t => if enabled then [[t]] else [] | None => [] end /\
  answered calls = if pass then [] else [status].
