(* ===== verification/OPA.v ===== *)
(** * opa: authorization by Open Policy Agent

    extensions/composer/opa/plugin.go: the configuration, the input document, the
    interpretation of the result and the callbacks, which wait for the body when the
    policy needs it.  The Rego engine and the JSON decoder are parameters. *)

From S2P Require Import Prelude GoStr GoNum GoPath Host ExtPkg PolicyInput.
From Stdlib Require Import Lia Ascii.

Local Open Scope Z_scope.
Local Open Scope go_scope.

(** A Go value of type [any] as it occurs in documents and results; a map is the list of its
    entries in the order of its iteration. *)
Inductive any : Type :=
| ANil
| ABool (b : bool)
| AString (s : string)
| ANumber (text : string)
| AFloat (f : float64)
| AList (l : list any)
| AMap (m : list (string * any)).

(** The value of a key; [ANil] for an absent one, as the zero value of a lookup. *)
Definition any_get (m : list (string * any)) (k : string) : any :=
  default ANil (snd <$> head (filter (fun kv => kv.1 = k) m)).

Definition as_bool (v : any) : option bool := match v with ABool b => Some b | _ => None end.
Definition as_string (v : any) : option string := match v with AString s => Some s | _ => None end.

Definition any_strings (m : gmap string string) : any :=
  AMap ((fun kv => (kv.1, AString kv.2)) <$> map_to_list m).

Definition defaultDecisionPath : string := "envoy.authz.allow".

Record opaConfig : Type := mkOpaConfig {
  Policies : list DataSource;
  DecisionPath : string;
  FailOpen : bool;
  DryRun : bool;
  WithBody : bool;
  MetadataNamespaces : list string;
}.

(** ** The result of an evaluation *)

Record policyResponse : Type := mkPolicyResponse {
  httpStatus : Z;
  resp_headers : list (string * string);
  resp_body : string;
}.

Definition no_response : policyResponse := mkPolicyResponse 0 [] "".

Definition status_of (v : any) : Z :=
  match v with
  | ANumber text => default 0 (Atoi text)
  | AFloat f => f_to_int64 f
  | _ => 0
  end.

(** The string entries of the headers. *)
Definition string_entries (v : any) : list (string * string) :=
  match v with
  | AMap m => omap (fun kv => (fun s => (kv.1, s)) <$> as_string kv.2) m
  | _ => []
  end.

(** A result set is a list of bindings. *)
Definition interpretResult (rs : list (list (string * any))) : bool * policyResponse :=
  match rs with
  | [] => (false, no_response)
  | bindings :: _ =>
      match bindings with
      | [] => (false, no_response)
      | _ =>
          match any_get bindings "result" with
          | ABool v => (v, no_response)
          | AMap v =>
              (default false (as_bool (any_get v "allowed")),
               mkPolicyResponse (status_of (any_get v "http_status")) (string_entries (any_get v "headers"))
                 (default "" (as_string (any_get v "body"))))
          | _ => (false, no_response)
          end
      end
  end.

Section OPA.
(** The Rego engine: compiling modules for a query, and evaluating the query on an input;
    [None] is an error. *)
Context {Query : Type}.
Context (PrepareForEval : string -> gmap string string -> option Query).
Context (Eval : Query -> any -> option (list (list (string * any)))).
Context (json_Unmarshal : string -> option any).
Context {H : Type} `{!HeaderMap H, !HeaderList H}.

Record opaParsedConfig : Type := mkOpaParsedConfig {
  cfg : opaConfig;
  preparedQuery : Query;
}.

Record opaHttpFilter : Type := mkOpaHttpFilter {
  config : opaParsedConfig;
  metrics_enabled : bool;
  requestProcessed : bool;
}.

Definition IncRequestsTotal (enabled : bool) (decision : string) : Host unit :=
  hwhen enabled (hcall (IncrementCounterValue "opa_requests_total" 1 [decision])).

(** ** The input document *)

Definition metadata_entry (hv : HostView) (ns : string) (m : gmap string any) (key : string) : gmap string any :=
  match GetMetadataString hv ns key with
  | Some s => <[key := AString s]> m
  | None =>
      match GetMetadataNumber hv ns key with
      | Some f => <[key := AFloat f]> m
      | None => m
      end
  end.

Definition dynamicMetadataMap (c : opaConfig) (hv : HostView) : any :=
  let dm := foldl (fun (dm : gmap string any) ns =>
      let nsMap := foldl (metadata_entry hv ns) ∅ (GetMetadataKeys hv ns) in
      if decide (map_to_list nsMap = []) then dm else <[ns := AMap (map_to_list nsMap)]> dm)
    ∅ (MetadataNamespaces c) in
  AMap (map_to_list dm).

Definition buildInput (c : opaConfig) (hv : HostView) (headers : H) (parsedBody : any) : any :=
  let method := GetOne headers ":method" in
  let path := GetOne headers ":path" in
  let host := GetOne headers ":authority" in
  let scheme := cmp_Or (GetOne headers ":scheme") "http" in
  let '(parsedPath, parsedQuery) := parsePath path in
  let protocol := cmp_Or (AttributeString hv RequestProtocol) "HTTP/1.1" in
  let attr k := AString (AttributeString hv k) in
  let fields :=
    [("attributes", AMap
        [("request", AMap [("http", AMap
            [("method", AString method); ("path", AString path);
             ("headers", any_strings (header_map (GetAll headers)));
             ("host", AString host); ("scheme", AString scheme); ("protocol", AString protocol)])]);
         ("source", AMap
            [("address", attr SourceAddress);
             ("certificate", AMap
                [("uri_san", attr UriSanPeerCertificate); ("dns_san", attr DnsSanPeerCertificate);
                 ("subject", attr SubjectPeerCertificate); ("sha256_digest", attr Sha256PeerCertificateDigest)])]);
         ("destination", AMap [("address", attr DestinationAddress)]);
         ("connection", AMap [("mtls", ABool (ConnectionMtls hv)); ("tls_version", attr TlsVersion)])]);
     ("dynamic_metadata", dynamicMetadataMap c hv);
     ("parsed_path", AList (AString <$> parsedPath));
     ("parsed_query", AMap ((fun kv => (kv.1, AList (AString <$> kv.2))) <$> map_to_list parsedQuery))] in
  AMap (match parsedBody with ANil => fields | _ => fields ++ [("body", parsedBody)] end).

(** ** The decision *)

(** The response to a denied request. *)
Definition deny_call (resp : policyResponse) : HandleCall :=
  SendLocalResponse (u32 (if httpStatus resp =? 0 then 403 else httpStatus resp)) (resp_headers resp)
    (if decide (resp_body resp = "") then "Forbidden" else resp_body resp) "opa_denied".

(** [evaluateAndDecide]: the headers as the decision leaves them and whether the request is
    allowed.  The caller sets [requestProcessed]. *)
Definition evaluateAndDecide (o : opaHttpFilter) (hv : HostView) (headers : H) (parsedBody : any)
    : Host (H * bool) :=
  let c := cfg (config o) in
  let inc := IncRequestsTotal (metrics_enabled o) in
  match Eval (preparedQuery (config o)) (buildInput c hv headers parsedBody) with
  | None =>
      if FailOpen c then run inc decisionFailOpen; hret (headers, true)
      else
        run hcall (SendLocalResponse 500 [] "Internal Server Error" "opa_eval_error");
        run inc decisionDenied;
        hret (headers, false)
  | Some rs =>
      let '(allowed, resp) := interpretResult rs in
      run hwhen (negb allowed && DryRun c) (inc decisionDryAllow);
      if negb (allowed || DryRun c) then
        run inc decisionDenied;
        run hcall (deny_call resp);
        hret (headers, false)
      else
        run hwhen (negb (DryRun c)) (inc decisionAllowed);
        hret (foldl (fun h kv => HSet h kv.1 kv.2) headers (resp_headers resp), true)
  end.

Definition set_processed (o : opaHttpFilter) : opaHttpFilter :=
  mkOpaHttpFilter (config o) (metrics_enabled o) true.

(** The body as the policy sees it: [body] is the whole request body. *)
Definition parsed_body (headers : H) (body : string) : any :=
  if Contains (GetOne headers "content-type") "application/json" && bool_decide (body <> "")
  then default ANil (json_Unmarshal body) else ANil.

Definition evaluateBodyPolicy (o : opaHttpFilter) (hv : HostView) (headers : H) (body : string)
    : Host (H * bool) :=
  evaluateAndDecide o hv headers (parsed_body headers body).

(** ** The callbacks *)

Definition OnRequestHeaders (o : opaHttpFilter) (hv : HostView) (headers : H) (endOfStream : bool)
    : Host (opaHttpFilter * H * HeadersStatus) :=
  if WithBody (cfg (config o)) && negb endOfStream then hret (o, headers, HeadersStatusStop)
  else
    do '(headers, ok) <- evaluateAndDecide o hv headers ANil;
    hret (set_processed o, headers, if ok : bool then HeadersStatusContinue else HeadersStatusStop).

Definition OnRequestBody (o : opaHttpFilter) (hv : HostView) (headers : H) (body : string) (endOfStream : bool)
    : Host (opaHttpFilter * H * BodyStatus) :=
  if requestProcessed o then hret (o, headers, BodyStatusContinue)
  else if negb endOfStream then hret (o, headers, BodyStatusStopAndBuffer)
  else
    do '(headers, ok) <- evaluateBodyPolicy o hv headers body;
    hret (set_processed o, headers, if ok : bool then BodyStatusContinue else BodyStatusStopNoBuffer).

Definition OnRequestTrailers (o : opaHttpFilter) (hv : HostView) (headers : H) (body : string)
    : Host (opaHttpFilter * H * TrailersStatus) :=
  if requestProcessed o then hret (o, headers, TrailersStatusContinue)
  else
    do '(headers, ok) <- evaluateBodyPolicy o hv headers body;
    hret (set_processed o, headers, if ok : bool then TrailersStatusContinue else TrailersStatusStop).

(** ** Configuration *)

(** The name of a module: the file, or a numbered name for an inline policy. *)
Definition module_name (i : nat) (p : DataSource) : string :=
  if decide (File p = "") then "inline_policy_" +:+ FormatInt (Z.of_nat (S i)) +:+ ".rego" else File p.

Fixpoint load_modules (read : string -> option string) (i : nat) (policies : list DataSource)
    (modules : gmap string string) : result (nat * DataSourceError) (gmap string string) :=
  match policies with
  | [] => Ok modules
  | p :: policies' =>
      match DataSource_Content read p with
      | Err e => Err (S i, e)
      | Ok content => load_modules read (S i) policies' (<[module_name i p := content]> modules)
      end
  end.

Inductive OpaConfigError : Type :=
| OpaUndecodable
| OpaNoPolicies
| OpaPolicyLoad (i : nat) (e : DataSourceError)
| OpaCompile.

(** [parseConfig]: [Ok None] is the nil configuration of empty bytes. *)
Definition parseConfig (read : string -> option string) (empty : bool) (decoded : option opaConfig)
    : result OpaConfigError (option opaParsedConfig) :=
  if empty then Ok None
  else match decoded with
  | None => Err OpaUndecodable
  | Some c =>
      match Policies c with
      | [] => Err OpaNoPolicies
      | policies =>
          match load_modules read 0 policies ∅ with
          | Err (i, e) => Err (OpaPolicyLoad i e)
          | Ok modules =>
              let path := if decide (DecisionPath c = "") then defaultDecisionPath else DecisionPath c in
              match PrepareForEval ("result = data." +:+ path) modules with
              | None => Err OpaCompile
              | Some pq =>
                  Ok (Some (mkOpaParsedConfig (mkOpaConfig policies path (FailOpen c) (DryRun c) (WithBody c)
                              (MetadataNamespaces c)) pq))
              end
          end
      end
  end.

Record opaHttpFilterFactory : Type := mkOpaHttpFilterFactory {
  factory_config : option opaParsedConfig;
  factory_enabled : bool;
}.

(** [opaHttpFilterFactory.Create]: [None] is the empty filter. *)
Definition opaHttpFilterFactory_Create {Any} (assert : Any -> option opaParsedConfig) (most_specific : option Any)
    (f : opaHttpFilterFactory) : option opaHttpFilter :=
  let c := match GetMostSpecificConfig assert most_specific with
           | Some perRoute => Some perRoute
           | None => factory_config f
           end in
  (fun c => mkOpaHttpFilter c (factory_enabled f) false) <$> c.

(** [Create] and [CreatePerRoute] of the configuration factory. *)
Definition OPAHttpFilterConfigFactory_Create (read : string -> option string) (empty : bool)
    (decoded : option opaConfig) (defined : MetricsResult) : result OpaConfigError opaHttpFilterFactory :=
  try parsed <- parseConfig read empty decoded;
  Ok (mkOpaHttpFilterFactory parsed (bool_decide (defined = MetricsSuccess))).

Definition CreatePerRoute (read : string -> option string) (empty : bool) (decoded : option opaConfig)
    : result (option OpaConfigError) opaParsedConfig :=
  match parseConfig read empty decoded with
  | Err e => Err (Some e)
  | Ok None => Err None
  | Ok (Some c) => Ok c
  end.
End OPA.

(** ** Every request is decided once, by the table *)

Section Decided.
Context {Query : Type}.
Context (Eval : Query -> any -> option (list (list (string * any)))).
Context (json_Unmarshal : string -> option any).
Context {H : Type} `{!HeaderMap H, !HeaderList H}.

(** The answer of the policy on an input, with the status of a refusal. *)
Definition verdict (o : opaHttpFilter) (input : any) : Verdict * Z :=
  match Eval (preparedQuery (config o)) input with
  | None => (Failure, 500)
  | Some rs =>
      let '(allowed, resp) := interpretResult rs in
      (if allowed then Permit else Forbid, u32 (if httpStatus resp =? 0 then 403 else httpStatus resp))
  end.

Lemma counted_inc enabled d :
  counted (calls_of (IncRequestsTotal enabled d)) = (if enabled then [[d]] else []) /\
  answered (calls_of (IncRequestsTotal enabled d)) = [].
Proof. by destruct enabled. Qed.

Lemma evaluateAndDecide_table (o : opaHttpFilter (Query := Query)) hv (headers : H) body
    (r := evaluateAndDecide Eval o hv headers body)
    (c := cfg (config o)) (v := verdict o (buildInput c hv headers body)) :
  follows_table (FailOpen c) (DryRun c) (metrics_enabled o) v.1 v.2 (val_of r).2 (calls_of r).
Proof.
  subst r v. unfold evaluateAndDecide, verdict, follows_table. fold c.
  destruct (Eval _ _) as [rs|].
  - destruct (interpretResult rs) as [[] resp]; destruct (metrics_enabled o), (DryRun c), (FailOpen c);
      (split; [reflexivity|split; reflexivity]).
  - destruct (metrics_enabled o), (FailOpen c); (split; [reflexivity|split; reflexivity]).
Qed.

(** The chunks before the last one. *)
Fixpoint run_chunks (o : opaHttpFilter (Query := Query)) (hv : HostView) (headers : H) (n : nat) : Host bool :=
  match n with
  | O => hret true
  | S n' =>
      do '(o, headers, st) <- OnRequestBody Eval json_Unmarshal o hv headers "" false;
      do rest <- run_chunks o hv headers n';
      hret (bool_decide (st <> BodyStatusStopNoBuffer) && rest)
  end.

(** A whole request; one that was answered sees no more callbacks.  The result tells
    whether the last callback lets it pass. *)
Definition run_request (o : opaHttpFilter (Query := Query)) (hv : HostView) (headers : H) (chunks : nat)
    (e : RequestEnd) (body : string) : Host (H * bool) :=
  do '(o, headers, st) <- OnRequestHeaders Eval o hv headers (bool_decide (e = EndHeaders));
  match e with
  | EndHeaders => hret (headers, bool_decide (st = HeadersStatusContinue))
  | _ =>
      if requestProcessed o && bool_decide (st = HeadersStatusStop) then hret (headers, false)
      else
        do ok <- run_chunks o hv headers chunks;
        match e with
        | EndTrailers =>
            do '(_, headers, st) <- OnRequestTrailers Eval json_Unmarshal o hv headers body;
            hret (headers, ok && bool_decide (st = TrailersStatusContinue))
        | _ =>
            do '(_, headers, st) <- OnRequestBody Eval json_Unmarshal o hv headers body true;
            hret (headers, ok && bool_decide (st = BodyStatusContinue))
        end
  end.

(** What the policy is asked: about the body only if the configuration says so and the
    request has one. *)
Definition input_of (o : opaHttpFilter (Query := Query)) (hv : HostView) (headers : H) (e : RequestEnd)
    (body : string) : any :=
  let c := cfg (config o) in
  buildInput c hv headers
    (if WithBody c && negb (bool_decide (e = EndHeaders)) then parsed_body json_Unmarshal headers body else ANil).

Lemma run_chunks_silent o hv (headers : H) n : run_chunks o hv headers n = (true, []).
Proof.
  induction n as [|n IH]; [done|]. cbn [run_chunks]. unfold OnRequestBody.
  destruct (requestProcessed o); cbn [negb]; rewrite hbind_ret_l, IH; done.
Qed.

(** C12: a request is decided exactly once, however its body is cut and ended: the policy's
    answer on the request (with its body, if configured) is enforced as the decision table
    says, the decision is counted once, and a request that does not pass is answered with
    one response that has the policy's status (403 without one, 500 for an error). *)
Theorem opa_follows_table o hv (headers : H) chunks e body
    (r := run_request o hv headers chunks e body) (c := cfg (config o))
    (v := verdict o (input_of o hv headers e body)) :
  requestProcessed o = false ->
  follows_table (FailOpen c) (DryRun c) (metrics_enabled o) v.1 v.2 (val_of r).2 (calls_of r).
Proof.
  intros Hp. subst r v. unfold run_request, input_of, OnRequestHeaders. fold c.
  destruct (decide (e = EndHeaders)) as [->|He].
  - rewrite bool_decide_eq_true_2, !andb_false_r by done.
    pose proof (evaluateAndDecide_table o hv headers ANil) as Ht.
    destruct (evaluateAndDecide Eval o hv headers ANil) as [[h ok] calls]. cbn in Ht |- *.
    rewrite !app_nil_r. by destruct ok.
  - rewrite bool_decide_eq_false_2 by done. cbn [negb]. rewrite andb_true_r.
    destruct (WithBody c) eqn:Hw.
    + rewrite hbind_ret_l, Hp. cbn [andb]. rewrite run_chunks_silent.
      pose proof (evaluateAndDecide_table o hv headers (parsed_body json_Unmarshal headers body)) as Ht.
      unfold OnRequestBody, OnRequestTrailers, evaluateBodyPolicy. rewrite Hp. cbn [negb].
      destruct (evaluateAndDecide Eval o hv headers (parsed_body json_Unmarshal headers body)) as [[h ok] calls].
      destruct e; [done|..]; cbn in Ht |- *; rewrite !app_nil_r; by destruct ok.
    + pose proof (evaluateAndDecide_table o hv headers ANil) as Ht.
      destruct (evaluateAndDecide Eval o hv headers ANil) as [[h ok] calls].
      destruct e; [done|..]; destruct ok; cbn [hbind hret requestProcessed set_processed andb];
        rewrite ?bool_decide_eq_true_2, ?bool_decide_eq_false_2 by done;
        rewrite ?run_chunks_silent; cbn in Ht |- *; rewrite ?app_nil_r; done.
Qed.
End Decided.

(** In dry-run mode a denied request is forwarded with the headers of the denial: they are
    meant for the response to the client. *)
Lemma opa_dry_run_headers {Query H} Eval `{!HeaderMap H, !HeaderList H} (o : opaHttpFilter (Query := Query)) hv
    (headers : H) body rs resp :
  DryRun (cfg (config o)) = true ->
  Eval (preparedQuery (config o)) (buildInput (cfg (config o)) hv headers body) = Some rs ->
  interpretResult rs = (false, resp) ->
  val_of (evaluateAndDecide Eval o hv headers body) =
  (foldl (fun h kv => HSet h kv.1 kv.2) headers (resp_headers resp), true).
Proof.
  intros Hd He Hr. unfold evaluateAndDecide. rewrite He, Hr, Hd. cbn [negb andb orb].
  by destruct (metrics_enabled o).
Qed.

(** ** Configuration *)

Lemma load_modules_ok read i policies m0 m :
  load_modules read i policies m0 = Ok m ->
  Forall (fun p => is_ok (DataSource_Content read p) = true) policies /\ (policies <> [] -> m <> ∅).
Proof.
  revert i m0. induction policies as [|p policies IH]; intros i m0; cbn [load_modules]; [done|].
  destruct (DataSource_Content read p) as [content|] eqn:Hc; [|done]. intros Hl.
  destruct (IH _ _ Hl) as [Hf Hne]. split; [constructor; [by rewrite Hc|done]|]. intros _.
  destruct policies as [|p' policies]; [|by apply Hne]. cbn in Hl. injection Hl as <-. apply insert_non_empty.
Qed.

(** An accepted configuration is compiled from all of its policies, of which there is at
    least one, for the rule it names. *)
Lemma opa_parseConfig_ok {Query} (PrepareForEval : string -> gmap string string -> option Query) read empty decoded c :
  parseConfig PrepareForEval read empty decoded = Ok (Some c) ->
  exists modules, modules <> ∅ /\ Policies (cfg c) <> [] /\
    Forall (fun p => is_ok (DataSource_Content read p) = true) (Policies (cfg c)) /\
    DecisionPath (cfg c) <> "" /\
    PrepareForEval ("result = data." +:+ DecisionPath (cfg c)) modules = Some (preparedQuery c).
Proof.
  unfold parseConfig. destruct empty; [done|]. destruct decoded as [d|]; [|done].
  destruct (Policies d) as [|p ps]; [done|].
  destruct (load_modules read 0 (p :: ps) ∅) as [modules|[i e]] eqn:Hl; [|done]. cbv zeta.
  destruct (PrepareForEval _ modules) as [pq|] eqn:Hp; [|done]. intros [= <-]. cbn [cfg Policies DecisionPath preparedQuery].
  destruct (load_modules_ok _ _ _ _ _ Hl) as [Hf Hne]. exists modules. split_and!; auto.
  by case_decide.
Qed.

(** ** Witness *)

Definition ex_opa : opaHttpFilter (Query := unit) :=
  mkOpaHttpFilter (mkOpaParsedConfig (mkOpaConfig [mkDataSource "p" ""] "a" false false true []) tt) true false.
Definition ex_eval (q : unit) (input : any) : option (list (list (string * any))) :=
  match input with
  | AMap m => Some [[("result", AMap [("allowed", ABool (bool_decide (as_string (any_get m "body") = Some "ok")));
                                      ("http_status", ANumber "401")])]]
  | _ => None
  end.
Definition ex_view : HostView := mkHostView (fun _ => "") false (fun _ => []) (fun _ _ => None) (fun _ _ => None).

Lemma opa_follows_table_witness :
  answered (calls_of (run_request (H := Headers) ex_eval (fun s => Some (AString s)) ex_opa ex_view
    [("content-type", "application/json")] 2 EndTrailers "no")) = [401].
Proof.
  destruct (opa_follows_table (H := Headers) ex_eval (fun s => Some (AString s)) ex_opa ex_view
    [("content-type", "application/json")] 2 EndTrailers "no" eq_refl) as (_ & _ & ->).
  vm_compute. reflexivity.
Defined.
