(* ===== verification/Cedar.v ===== *)
(** * cedar: authorization by Cedar policies

    extensions/composer/cedar/plugin.go: the configuration, the authorization request
    with its context record, and the filter.  The Cedar engine is a parameter. *)

From S2P Require Import Prelude GoStr GoNum GoPath Host ExtPkg PolicyInput.
From Stdlib Require Import Lia Ascii.

Local Open Scope Z_scope.
Local Open Scope go_scope.

(** A Cedar value; a record is the list of its entries. *)
Inductive Value : Type :=
| VString (s : string)
| VLong (z : Z)
| VBoolean (b : bool)
| VSet (l : list Value)
| VRecord (m : list (string * Value)).

Record EntityUID : Type := mkEntityUID { EntityType : string; EntityID : string }.

Record Request : Type := mkRequest {
  Principal : EntityUID;
  Action : EntityUID;
  Resource : EntityUID;
  ReqContext : Value;
}.

(** [DenyHeaders] is the list of the map's entries in the order of its iteration. *)
Record cedarConfig : Type := mkCedarConfig {
  Policy : DataSource;
  EntitiesFile : string;
  PrincipalType : string;
  PrincipalIDHeader : string;
  ActionType : string;
  ResourceType : string;
  DenyStatus : Z;
  DenyBody : string;
  DenyHeaders : list (string * string);
  FailOpen : bool;
  DryRun : bool;
  MetadataNamespaces : list string;
}.

(** The path parser of this package is the same as the other's. *)
Definition cedar_parsePath (fullPath : string) : list string * gmap string (list string) := parsePath fullPath.

Section Cedar.
(** The Cedar engine: policies from bytes, entities from JSON, and the decision on a
    request with the errors of its diagnostic. *)
Context {PolicySet EntityMap : Type}.
Context (no_entities : EntityMap).
Context (NewPolicySetFromBytes : string -> option PolicySet).
Context (entities_Unmarshal : string -> option EntityMap).
Context (Authorize : PolicySet -> EntityMap -> Request -> bool * list string).
Context {H : Type} `{!HeaderMap H, !HeaderList H}.

Record cedarParsedConfig : Type := mkCedarParsedConfig {
  cfg : cedarConfig;
  policySet : PolicySet;
  entities : EntityMap;
}.

Record cedarHttpFilter : Type := mkCedarHttpFilter {
  config : cedarParsedConfig;
  metrics_enabled : bool;
}.

Definition IncRequestsTotal (enabled : bool) (decision : string) : Host unit :=
  hwhen enabled (hcall (IncrementCounterValue "cedar_requests_total" 1 [decision])).

(** ** The request *)

Definition metadata_entry (hv : HostView) (ns : string) (m : gmap string Value) (key : string) : gmap string Value :=
  match GetMetadataString hv ns key with
  | Some s => <[key := VString s]> m
  | None =>
      match GetMetadataNumber hv ns key with
      | Some f => <[key := VLong (f_to_int64 f)]> m
      | None => m
      end
  end.

Definition dynamicMetadataMap (c : cedarConfig) (hv : HostView) : Value :=
  let dm := foldl (fun (dm : gmap string Value) ns =>
      let nsMap := foldl (metadata_entry hv ns) ∅ (GetMetadataKeys hv ns) in
      if decide (map_to_list nsMap = []) then dm else <[ns := VRecord (map_to_list nsMap)]> dm)
    ∅ (MetadataNamespaces c) in
  VRecord (map_to_list dm).

Definition buildContext (c : cedarConfig) (hv : HostView) (headers : H) : Value :=
  let method := GetOne headers ":method" in
  let path := GetOne headers ":path" in
  let host := GetOne headers ":authority" in
  let scheme := cmp_Or (GetOne headers ":scheme") "http" in
  let '(parsedPath, parsedQuery) := cedar_parsePath path in
  let protocol := cmp_Or (AttributeString hv RequestProtocol) "HTTP/1.1" in
  let headerMap := (fun kv => (kv.1, VString kv.2)) <$> map_to_list (header_map (GetAll headers)) in
  let attr k := VString (AttributeString hv k) in
  VRecord
    [("request", VRecord
        [("method", VString method); ("path", VString path); ("host", VString host);
         ("scheme", VString scheme); ("protocol", VString protocol); ("headers", VRecord headerMap)]);
     ("source", VRecord
        [("address", attr SourceAddress);
         ("certificate", VRecord
            [("uri_san", attr UriSanPeerCertificate); ("dns_san", attr DnsSanPeerCertificate);
             ("subject", attr SubjectPeerCertificate); ("sha256_digest", attr Sha256PeerCertificateDigest)])]);
     ("destination", VRecord [("address", attr DestinationAddress)]);
     ("connection", VRecord [("mtls", VBoolean (ConnectionMtls hv)); ("tls_version", attr TlsVersion)]);
     ("dynamic_metadata", dynamicMetadataMap c hv);
     ("parsed_path", VSet (VString <$> parsedPath));
     ("parsed_query", VRecord ((fun kv => (kv.1, VSet (VString <$> kv.2))) <$> map_to_list parsedQuery))].

(** [buildRequest]; [None] is the error for a missing principal. *)
Definition buildRequest (c : cedarConfig) (hv : HostView) (headers : H) : option Request :=
  let principalID :=
    if decide (PrincipalIDHeader c = "") then "" else GetOne headers (PrincipalIDHeader c) in
  if decide (principalID = "") then None
  else
    let principal := mkEntityUID (PrincipalType c) principalID in
    let action := mkEntityUID (cmp_Or (ActionType c) "Action") (GetOne headers ":method") in
    let fullPath := GetOne headers ":path" in
    let resourcePath := match Cut fullPath "?"%char with (before, _, true) => before | _ => fullPath end in
    let resource := mkEntityUID (cmp_Or (ResourceType c) "Resource") resourcePath in
    Some (mkRequest principal action resource (buildContext c hv headers)).

(** ** The filter *)

Definition deny_status (c : cedarConfig) : Z := u32 (if DenyStatus c =? 0 then 403 else DenyStatus c).

Definition OnRequestHeaders (f : cedarHttpFilter) (hv : HostView) (headers : H) : Host HeadersStatus :=
  let c := cfg (config f) in
  let inc := IncRequestsTotal (metrics_enabled f) in
  match buildRequest c hv headers with
  | None =>
      if FailOpen c then run inc decisionFailOpen; hret HeadersStatusContinue
      else
        run hcall (SendLocalResponse 403 [] "Forbidden" "cedar_denied");
        run inc decisionDenied;
        hret HeadersStatusStop
  | Some req =>
      let '(decision, errors) := Authorize (policySet (config f)) (entities (config f)) req in
      if decide (errors <> []) then
        if FailOpen c then run inc decisionFailOpen; hret HeadersStatusContinue
        else
          run hcall (SendLocalResponse 500 [] "Internal Server Error" "cedar_eval_error");
          run inc decisionDenied;
          hret HeadersStatusStop
      else
        run hwhen (negb decision && DryRun c) (inc decisionDryAllow);
        if negb (decision || DryRun c) then
          run hcall (SendLocalResponse (deny_status c) (DenyHeaders c)
                       (if decide (DenyBody c = "") then "Forbidden" else DenyBody c) "cedar_denied");
          run inc decisionDenied;
          hret HeadersStatusStop
        else
          run hwhen (negb (DryRun c)) (inc decisionAllowed);
          hret HeadersStatusContinue
  end.

(** ** Configuration *)

Inductive CedarConfigError : Type :=
| CedarUndecodable
| CedarNoPrincipalType
| CedarNoPrincipalIDHeader
| CedarBadPolicySource (e : DataSourceError)
| CedarPolicyRead (e : DataSourceError)
| CedarBadPolicy
| CedarEntitiesRead
| CedarBadEntities.

(** [parseConfig]: [Ok None] is the nil configuration of empty bytes. *)
Definition parseConfig (read : string -> option string) (empty : bool) (decoded : option cedarConfig)
    : result CedarConfigError (option cedarParsedConfig) :=
  if empty then Ok None
  else match decoded with
  | None => Err CedarUndecodable
  | Some c =>
      if decide (PrincipalType c = "") then Err CedarNoPrincipalType
      else if decide (PrincipalIDHeader c = "") then Err CedarNoPrincipalIDHeader
      else match DataSource_Validate (Policy c) with
      | Some e => Err (CedarBadPolicySource e)
      | None =>
          match DataSource_Content read (Policy c) with
          | Err e => Err (CedarPolicyRead e)
          | Ok policyBytes =>
              match NewPolicySetFromBytes policyBytes with
              | None => Err CedarBadPolicy
              | Some ps =>
                  try ents <-
                    (if decide (EntitiesFile c = "") then Ok no_entities
                     else match read (EntitiesFile c) with
                          | None => Err CedarEntitiesRead
                          | Some entitiesBytes =>
                              match entities_Unmarshal entitiesBytes with
                              | None => Err CedarBadEntities
                              | Some ents => Ok ents
                              end
                          end);
                  Ok (Some (mkCedarParsedConfig c ps ents))
              end
          end
      end
  end.

Record cedarHttpFilterFactory : Type := mkCedarHttpFilterFactory {
  factory_config : option cedarParsedConfig;
  factory_enabled : bool;
}.

(** [cedarHttpFilterFactory.Create]: [None] is the empty filter. *)
Definition cedarHttpFilterFactory_Create {Any} (assert : Any -> option cedarParsedConfig) (most_specific : option Any)
    (f : cedarHttpFilterFactory) : option cedarHttpFilter :=
  let c := match GetMostSpecificConfig assert most_specific with
           | Some perRoute => Some perRoute
           | None => factory_config f
           end in
  (fun c => mkCedarHttpFilter c (factory_enabled f)) <$> c.

(** [Create] and [CreatePerRoute] of the configuration factory. *)
Definition CedarHttpFilterConfigFactory_Create (read : string -> option string) (empty : bool)
    (decoded : option cedarConfig) (defined : MetricsResult) : result CedarConfigError cedarHttpFilterFactory :=
  try parsed <- parseConfig read empty decoded;
  Ok (mkCedarHttpFilterFactory parsed (bool_decide (defined = MetricsSuccess))).

Definition CreatePerRoute (read : string -> option string) (empty : bool) (decoded : option cedarConfig)
    : result (option CedarConfigError) cedarParsedConfig :=
  match parseConfig read empty decoded with
  | Err e => Err (Some e)
  | Ok None => Err None
  | Ok (Some c) => Ok c
  end.

(** ** The decision table *)

(** The answer of the engine on a request, with the status of a refusal. *)
Definition verdict (f : cedarHttpFilter) (req : option Request) : Verdict * Z :=
  match req with
  | None => (Failure, 403)
  | Some req =>
      match Authorize (policySet (config f)) (entities (config f)) req with
      | (_, _ :: _) => (Failure, 500)
      | (true, []) => (Permit, 0)
      | (false, []) => (Forbid, deny_status (cfg (config f)))
      end
  end.

(** The filter enforces the decision table on the engine's answer for the request that
    names the configured principal header's value, the method and the path; a request
    without a principal, or an answer with errors, counts as a failure. *)
Theorem cedar_follows_table f hv (headers : H) (r := OnRequestHeaders f hv headers)
    (c := cfg (config f)) (v := verdict f (buildRequest c hv headers)) :
  follows_table (FailOpen c) (DryRun c) (metrics_enabled f) v.1 v.2
    (bool_decide (val_of r = HeadersStatusContinue)) (calls_of r) /\
  (forall req, buildRequest c hv headers = Some req ->
     Principal req = mkEntityUID (PrincipalType c) (GetOne headers (PrincipalIDHeader c)) /\
     EntityID (Principal req) <> "" /\
     EntityID (Action req) = GetOne headers ":method" /\
     EntityID (Resource req) = before_byte (GetOne headers ":path") "?"%char).
Proof.
  subst r v. split.
  - unfold OnRequestHeaders, verdict, follows_table. fold c. destruct (buildRequest c hv headers) as [req|].
    + destruct (Authorize _ _ req) as [[] [|e errors]];
        [rewrite decide_False by (by intros [])|rewrite decide_True by done
        |rewrite decide_False by (by intros [])|rewrite decide_True by done];
        destruct (metrics_enabled f), (DryRun c), (FailOpen c); (split; [reflexivity|split; reflexivity]).
    + destruct (metrics_enabled f), (FailOpen c); (split; [reflexivity|split; reflexivity]).
  - intros req. unfold buildRequest. destruct (decide (PrincipalIDHeader c = "")); [done|].
    case_decide as Hp; [done|]. intros [= <-]. cbn [Principal Action Resource EntityID]. split_and!; try done.
    rewrite <- Cut_before. apply Cut_found_before.
Qed.
End Cedar.
