(* ===== verification/TokenExchange.v ===== *)
(** * token-exchange: OAuth 2.0 token exchange

    extensions/composer/token-exchange/config.go and plugin.go: the configuration with its
    precomputed request, and the two halves of the filter, the request headers and the
    reply of the token service.  JSON decoding and url.Parse are parameters. *)

From S2P Require Import Prelude GoStr GoNum GoPath GoCodec Host ExtPkg.
From Stdlib Require Import Lia Ascii.

Local Open Scope Z_scope.
Local Open Scope go_scope.

Definition defaultSubjectTokenType : string := "urn:ietf:params:oauth:token-type:access_token".
Definition grantTypeTokenExchange : string := "urn:ietf:params:oauth:grant-type:token-exchange".
Definition defaultTimeoutMs : Z := 5000.

(** ** Configuration *)

Record tokenExchangeConfig : Type := mkTokenExchangeConfig {
  Cluster : string;
  TokenExchangeURL : string;
  ClientID : string;
  ClientSecret : string;
  SubjectTokenType : string;
  Resource : string;
  Audience : string;
  Scope_ : string;
  RequestedTokenType : string;
  ActorToken : string;
  ActorTokenType : string;
  TimeoutMs : Z;
  tokenExchangeHost : string;
  tokenExchangePath : string;
  calloutHeaders : list (string * string);
  stsPostBodyPrefix : string;
}.

Definition stsPostBody (c : tokenExchangeConfig) (subjectToken : string) : string :=
  stsPostBodyPrefix c +:+ QueryEscape subjectToken.

Inductive ConfigError : Type :=
| UndecodableConfig
| MissingCluster
| MissingURL
| BadURL
| MissingClientID
| MissingClientSecret
| BadResource
| MissingActorTokenType.

(** A value that is set only if it is not empty. *)
Definition set_nonempty (q : Values) (k v : string) : Values := if decide (v = "") then q else values_set q k v.

(** The static fields of the request, for the subject token type in force. *)
Definition static_fields (c : tokenExchangeConfig) (subjectTokenType : string) : Values :=
  let q := values_set [] "grant_type" grantTypeTokenExchange in
  let q := values_set q "subject_token_type" subjectTokenType in
  let q := set_nonempty q "requested_token_type" (RequestedTokenType c) in
  let q := set_nonempty q "audience" (Audience c) in
  let q := set_nonempty q "resource" (Resource c) in
  let q := set_nonempty q "scope" (Scope_ c) in
  if decide (ActorToken c = "") then q
  else values_set (values_set q "actor_token" (ActorToken c)) "actor_token_type" (ActorTokenType c).

Section Config.
Context (url_Parse : string -> option URL).

Definition parseTokenExchangeURL (inputURL : string) : result ConfigError (string * string) :=
  if decide (inputURL = "") then Err MissingURL
  else
    let parsedURL := if Contains inputURL "://" then inputURL else "scheme://" +:+ inputURL in
    match url_Parse parsedURL with
    | None => Err BadURL
    | Some u => if decide (URLHost u = "" \/ Path u = "") then Err BadURL else Ok (URLHost u, RequestURI u)
    end.

(** A resource is an absolute URI without fragment. *)
Definition resource_ok (r : string) : bool :=
  match url_Parse r with
  | None => false
  | Some u => bool_decide (Scheme u <> "") && bool_decide (Fragment u = "")
  end.

Definition config_errors (c : tokenExchangeConfig) : list ConfigError :=
  (if decide (Cluster c = "") then [MissingCluster] else []) ++
  match parseTokenExchangeURL (TokenExchangeURL c) with Ok _ => [] | Err e => [e] end ++
  (if decide (ClientID c = "") then [MissingClientID] else []) ++
  (if decide (ClientSecret c = "") then [MissingClientSecret] else []) ++
  (if bool_decide (Resource c <> "") && negb (resource_ok (Resource c)) then [BadResource] else []) ++
  (if bool_decide (ActorToken c <> "") && bool_decide (ActorTokenType c = "") then [MissingActorTokenType] else []).

(** [parseConfig]: [Ok None] is the nil configuration of empty bytes. *)
Definition parseConfig (empty : bool) (decoded : option tokenExchangeConfig)
    : result (list ConfigError) (option tokenExchangeConfig) :=
  if empty then Ok None
  else match decoded with
  | None => Err [UndecodableConfig]
  | Some c =>
      match config_errors c with
      | [] =>
          let '(host, path) :=
            match parseTokenExchangeURL (TokenExchangeURL c) with Ok hp => hp | Err _ => ("", "") end in
          let subjectTokenType :=
            if decide (SubjectTokenType c = "") then defaultSubjectTokenType else SubjectTokenType c in
          let creds := b64_encode StdEncoding (ClientID c +:+ ":" +:+ ClientSecret c) in
          Ok (Some {|
            Cluster := Cluster c; TokenExchangeURL := TokenExchangeURL c; ClientID := ClientID c;
            ClientSecret := ClientSecret c; SubjectTokenType := subjectTokenType; Resource := Resource c;
            Audience := Audience c; Scope_ := Scope_ c; RequestedTokenType := RequestedTokenType c;
            ActorToken := ActorToken c; ActorTokenType := ActorTokenType c;
            TimeoutMs := if TimeoutMs c =? 0 then defaultTimeoutMs else TimeoutMs c;
            tokenExchangeHost := host; tokenExchangePath := path;
            calloutHeaders :=
              [(":method", "POST"); (":path", path); ("host", host);
               ("content-type", "application/x-www-form-urlencoded"); ("authorization", "Basic " +:+ creds)];
            stsPostBodyPrefix := values_encode (static_fields c subjectTokenType) +:+ "&subject_token=" |})
      | errs => Err errs
      end
  end.
End Config.

(** ** The filter *)

Definition httpStatusOKStr : string := "200".
Definition tokenTypeNotApplicable : string := "N_A".
Definition metricResSuccess : string := "success".
Definition metricResRejected : string := "rejected".
Definition metricResError : string := "error".

(** Which of the two counters the host accepted. *)
Record tokenExchangeMetrics : Type := mkTokenExchangeMetrics {
  hasExchanges : bool;
  hasExchangeResults : bool;
}.

Record tokenExchangeFilter : Type := mkTokenExchangeFilter {
  config : tokenExchangeConfig;
  metrics : tokenExchangeMetrics;
}.

Definition incrementExchanges (m : tokenExchangeMetrics) : Host unit :=
  hwhen (hasExchanges m) (hcall (IncrementCounterValue "token_exchange_requests_total" 1 [])).

Definition incrementExchangeResult (m : tokenExchangeMetrics) (res : string) : Host unit :=
  hwhen (hasExchangeResults m) (hcall (IncrementCounterValue "token_exchange_results_total" 1 [res])).

Definition sendLocalRespError (status : Z) (msg : string) : Host HeadersStatus :=
  run hcall (SendLocalResponse status [("content-type", "text/plain")] msg "");
  hret HeadersStatusStop.

Definition joinBody (body : list string) : string :=
  match body with
  | [b] => b
  | _ => Join body ""
  end.

Fixpoint headerValue (headers : list (string * string)) (key : string) : string :=
  match headers with
  | [] => ""
  | (k, v) :: headers' => if decide (k = key) then v else headerValue headers' key
  end.

(** [strings.EqualFold] with the ASCII constant N_A, whose letters fold only to their other
    case. *)
Definition is_N_A (s : string) : bool := bool_decide (ToLower s = ToLower tokenTypeNotApplicable).

Record tokenResponse : Type := mkTokenResponse {
  AccessToken : string;
  TokenType : string;
  IssuedTokenType : string;
}.

Record CalloutReply : Type := mkCalloutReply {
  reply_result : HttpCalloutResult;
  reply_headers : list (string * string);
  reply_body : list string;
}.

Section Filter.
(** The decoder of the token service's reply with the text of its error, and the text of a
    callout result. *)
Context (token_Unmarshal : string -> result string tokenResponse).
Context (result_text : HttpCalloutResult -> string).
Context {H : Type} `{!HeaderMap H}.

(** [OnRequestHeaders]: [started] is what the host says to the callout. *)
Definition OnRequestHeaders (f : tokenExchangeFilter) (headers : H) (started : HttpCalloutInitResult)
    : Host HeadersStatus :=
  let authHeader := GetOne headers "authorization" in
  if decide (authHeader = "") then sendLocalRespError 401 "missing Authorization header"
  else
    let '(subjectToken, ok) := CutPrefix authHeader "Bearer " in
    if negb ok then sendLocalRespError 401 "invalid Authorization header"
    else if decide (subjectToken = "") then sendLocalRespError 401 "empty bearer token"
    else
      let c := config f in
      run hcall (HttpCallout (Cluster c) (calloutHeaders c) (stsPostBody c subjectToken) (TimeoutMs c));
      if negb (bool_decide (started = HttpCalloutInitSuccess))
      then sendLocalRespError 502 "token exchange unavailable"
      else
        run incrementExchanges (metrics f);
        hret HeadersStatusStopAllAndBuffer.

(** An error of the exchange: the result is counted and the request answered. *)
Definition exchange_error (m : tokenExchangeMetrics) (headers : H) (res : string) (status : Z) (msg : string)
    : Host H :=
  run incrementExchangeResult m res;
  run sendLocalRespError status msg;
  hret headers.

(** [OnHttpCalloutDone]: the request headers as it leaves them. *)
Definition OnHttpCalloutDone (m : tokenExchangeMetrics) (headers : H) (r : CalloutReply) : Host H :=
  let fullBody := joinBody (reply_body r) in
  let error := exchange_error m headers metricResError 502 in
  if negb (bool_decide (reply_result r = HttpCalloutSuccess))
  then error ("callout failed, result=" +:+ result_text (reply_result r))
  else
    let statusCode := headerValue (reply_headers r) ":status" in
    if decide (statusCode = "") then error "token exchange failed: invalid response"
    else if HasPrefix statusCode "4"
    then exchange_error m headers metricResRejected 401 ("token exchange rejected: STS returned " +:+ statusCode)
    else if negb (bool_decide (statusCode = httpStatusOKStr))
    then error ("token exchange error: STS returned " +:+ statusCode)
    else match token_Unmarshal fullBody with
    | Err e => error ("invalid token exchange response: " +:+ e)
    | Ok t =>
        if decide (AccessToken t = "") then error "invalid token exchange response: missing required access_token"
        else if decide (TokenType t = "") then error "invalid token exchange response: missing required token_type"
        else if decide (IssuedTokenType t = "")
        then error "invalid token exchange response: missing required issued_token_type"
        else if is_N_A (TokenType t) then error "invalid token exchange response: returned token_type N_A"
        else
          run incrementExchangeResult m metricResSuccess;
          run hcall ContinueRequest;
          hret (HSet headers "authorization" (TokenType t +:+ " " +:+ AccessToken t))
    end.

(** A request from its headers to its end: the reply comes only if the callout started. *)
Definition handle_request (f : tokenExchangeFilter) (headers : H) (started : HttpCalloutInitResult)
    (r : CalloutReply) : Host H :=
  do st <- OnRequestHeaders f headers started;
  if decide (st = HeadersStatusStopAllAndBuffer) then OnHttpCalloutDone (metrics f) headers r
  else hret headers.
End Filter.

(** ** Factories *)

Record tokenExchangeFilterFactory : Type := mkTokenExchangeFilterFactory {
  factory_config : option tokenExchangeConfig;
  factory_metrics : tokenExchangeMetrics;
}.

(** [tokenExchangeFilterFactory.Create]: [None] is the empty filter. *)
Definition tokenExchangeFilterFactory_Create {Any} (assert : Any -> option tokenExchangeConfig)
    (most_specific : option Any) (f : tokenExchangeFilterFactory) : option tokenExchangeFilter :=
  let c := match GetMostSpecificConfig assert most_specific with
           | Some perRoute => Some perRoute
           | None => factory_config f
           end in
  (fun c => mkTokenExchangeFilter c (factory_metrics f)) <$> c.

(** [Create] and [CreatePerRoute] of the configuration factory. *)
Definition tokenExchangeConfigFactory_Create (url_Parse : string -> option URL) (empty : bool)
    (decoded : option tokenExchangeConfig) (exchanges results : MetricsResult)
    : result (list ConfigError) tokenExchangeFilterFactory :=
  try c <- parseConfig url_Parse empty decoded;
  Ok (mkTokenExchangeFilterFactory c
        (mkTokenExchangeMetrics (bool_decide (exchanges = MetricsSuccess)) (bool_decide (results = MetricsSuccess)))).

Definition CreatePerRoute (url_Parse : string -> option URL) (empty : bool) (decoded : option tokenExchangeConfig)
    : result (list ConfigError) tokenExchangeConfig :=
  match parseConfig url_Parse empty decoded with
  | Err e => Err e
  | Ok None => Err []
  | Ok (Some c) => Ok c
  end.

(** ** The request to the token service *)

(** A configuration as it is accepted: the precomputed parts belong to its fields. *)
Definition precomputed (c : tokenExchangeConfig) : Prop :=
  calloutHeaders c =
    [(":method", "POST"); (":path", tokenExchangePath c); ("host", tokenExchangeHost c);
     ("content-type", "application/x-www-form-urlencoded");
     ("authorization", "Basic " +:+ b64_encode StdEncoding (ClientID c +:+ ":" +:+ ClientSecret c))] /\
  stsPostBodyPrefix c = values_encode (static_fields c (SubjectTokenType c)) +:+ "&subject_token=".

Lemma parseConfig_precomputed url_Parse empty decoded c :
  parseConfig url_Parse empty decoded = Ok (Some c) ->
  precomputed c /\ Cluster c <> "" /\ ClientID c <> "" /\ ClientSecret c <> "" /\ SubjectTokenType c <> "" /\
  TimeoutMs c <> 0 /\ (ActorToken c <> "" -> ActorTokenType c <> "") /\
  parseTokenExchangeURL url_Parse (TokenExchangeURL c) = Ok (tokenExchangeHost c, tokenExchangePath c).
Proof.
  unfold parseConfig. destruct empty; [done|]. destruct decoded as [d|]; [|done].
  destruct (config_errors url_Parse d) eqn:He; [|done]. unfold config_errors in He. rewrite !app_nil in He.
  destruct He as (H1 & H2 & H3 & H4 & _ & H6).
  destruct (parseTokenExchangeURL url_Parse (TokenExchangeURL d)) as [[host path]|] eqn:Hu; [|done].
  intros [= <-]. unfold precomputed. cbn. split_and!; try done; try by repeat case_decide.
  all: try (destruct (Z.eqb_spec (TimeoutMs d) 0); [done|lia]).
  all: try (intros Ha Ht; by rewrite !bool_decide_eq_true_2 in H6).
Qed.

Lemma filter_set_nonempty_ne q k k' v :
  k <> k' -> filter (fun kv => kv.1 = k') (set_nonempty q k v) = filter (fun kv => kv.1 = k') q.
Proof. intros Hne. unfold set_nonempty. case_decide; [done|]. by apply filter_values_set_ne. Qed.

Lemma length_set_nonempty q k v : (length (set_nonempty q k v) <= S (length q))%nat.
Proof. unfold set_nonempty. case_decide; [lia|]. apply length_values_set. Qed.

Lemma static_fields_no_subject c t : filter (fun kv => kv.1 = "subject_token") (static_fields c t) = [].
Proof.
  unfold static_fields. case_decide; rewrite ?filter_values_set_ne, !filter_set_nonempty_ne by done;
    by rewrite !filter_values_set_ne by done.
Qed.

Lemma length_static_fields c t : (length (static_fields c t) <= 8)%nat.
Proof.
  unfold static_fields.
  set (q1 := values_set _ "grant_type" _). assert (length q1 = 1%nat) by done.
  set (q2 := values_set q1 _ _). pose proof (length_values_set q1 "subject_token_type" t) as H2. fold q2 in H2.
  set (q3 := set_nonempty q2 _ _). pose proof (length_set_nonempty q2 "requested_token_type" (RequestedTokenType c)) as H3. fold q3 in H3.
  set (q4 := set_nonempty q3 _ _). pose proof (length_set_nonempty q3 "audience" (Audience c)) as H4. fold q4 in H4.
  set (q5 := set_nonempty q4 _ _). pose proof (length_set_nonempty q4 "resource" (Resource c)) as H5. fold q5 in H5.
  set (q6 := set_nonempty q5 _ _). pose proof (length_set_nonempty q5 "scope" (Scope_ c)) as H6. fold q6 in H6.
  pose proof (length_values_set q6 "actor_token" (ActorToken c)) as H7.
  pose proof (length_values_set (values_set q6 "actor_token" (ActorToken c)) "actor_token_type" (ActorTokenType c)).
  case_decide; lia.
Qed.

Lemma query_get_set_nonempty_eq q k v : query_get q k = "" -> query_get (set_nonempty q k v) k = v.
Proof. intros Hq. unfold set_nonempty. case_decide; [by subst|]. apply query_get_set_eq. Qed.

Lemma query_get_set_nonempty_ne q k k' v : k <> k' -> query_get (set_nonempty q k v) k' = query_get q k'.
Proof. intros Hne. unfold query_get. by rewrite filter_set_nonempty_ne. Qed.

(** The value of each static field. *)
Lemma static_fields_get c t k :
  query_get (static_fields c t) k =
  if decide (k = "grant_type") then grantTypeTokenExchange
  else if decide (k = "subject_token_type") then t
  else if decide (k = "requested_token_type") then RequestedTokenType c
  else if decide (k = "audience") then Audience c
  else if decide (k = "resource") then Resource c
  else if decide (k = "scope") then Scope_ c
  else if decide (k = "actor_token") then ActorToken c
  else if decide (k = "actor_token_type") then (if decide (ActorToken c = "") then "" else ActorTokenType c)
  else "".
Proof.
  unfold static_fields. destruct (decide (ActorToken c = "")) as [Ha|Ha];
    repeat (case_decide; [subst k; rewrite ?query_get_set_eq;
      repeat first [rewrite query_get_set_eq | rewrite query_get_set_ne by done
                   | rewrite query_get_set_nonempty_ne by done
                   | rewrite query_get_set_nonempty_eq
                       by (repeat first [rewrite query_get_set_ne by done | rewrite query_get_set_nonempty_ne by done]; done)];
      done|]);
    repeat first [rewrite query_get_set_ne by done | rewrite query_get_set_nonempty_ne by done]; done.
Qed.

(** The body sent to the token service is a well-formed form whose fields are the
    client's token and the configured ones: parsing it gives back the subject token and, for
    every other key, the configured value (the empty string for a field that is not
    configured); the credentials decode to the client's id and secret. *)
Theorem token_request_roundtrip url_Parse empty decoded c subjectToken :
  parseConfig url_Parse empty decoded = Ok (Some c) ->
  exists vals,
    ParseQuery (stsPostBody c subjectToken) = Some vals /\
    query_get vals "subject_token" = subjectToken /\
    (forall k, k <> "subject_token" ->
       query_get vals k = query_get (static_fields c (SubjectTokenType c)) k) /\
    query_get vals "grant_type" = grantTypeTokenExchange /\
    query_get vals "subject_token_type" = SubjectTokenType c /\
    query_get vals "audience" = Audience c /\ query_get vals "resource" = Resource c /\
    query_get vals "scope" = Scope_ c /\
    b64_decode StdEncoding (TrimPrefix (headerValue (calloutHeaders c) "authorization") "Basic ") =
      Some (ClientID c +:+ ":" +:+ ClientSecret c).
Proof.
  intros [[Hh Hb] _]%parseConfig_precomputed.
  set (q := static_fields c (SubjectTokenType c)) in *.
  assert (Hne : sorted_pairs q <> []).
  { intros E. pose proof (filter_sorted_pairs q "grant_type") as Hf. rewrite E in Hf.
    pose proof (static_fields_get c (SubjectTokenType c) "grant_type") as Hg. fold q in Hg.
    unfold query_get in Hg. by rewrite <- Hf in Hg. }
  assert (Hsnoc : stsPostBody c subjectToken = values_encode q +:+ "&" +:+ encode_pair ("subject_token", subjectToken)).
  { unfold stsPostBody. rewrite Hb. by rewrite str_app_assoc. }
  exists (sorted_pairs q ++ [("subject_token", subjectToken)]).
  assert (Hget : forall k, k <> "subject_token" ->
    query_get (sorted_pairs q ++ [("subject_token", subjectToken)]) k = query_get q k).
  { intros k Hk. unfold query_get. rewrite filter_app, filter_sorted_pairs, filter_cons_False by (cbn; congruence).
    by rewrite filter_nil, app_nil_r. }
  split_and!.
  - rewrite Hsnoc. apply ParseQuery_encode_snoc; [done|].
    pose proof (length_sorted_pairs q). pose proof (length_static_fields c (SubjectTokenType c)) as Hl. fold q in Hl.
    unfold urlMaxQueryParams. lia.
  - unfold query_get. rewrite filter_app, filter_sorted_pairs. subst q.
    by rewrite static_fields_no_subject, filter_cons_True.
  - exact Hget.
  - rewrite Hget by done. apply static_fields_get.
  - rewrite Hget by done. apply static_fields_get.
  - rewrite Hget by done. apply static_fields_get.
  - rewrite Hget by done. apply static_fields_get.
  - rewrite Hget by done. apply static_fields_get.
  - rewrite Hh. change (headerValue _ "authorization") with
      ("Basic " +:+ b64_encode StdEncoding (ClientID c +:+ ":" +:+ ClientSecret c)).
    rewrite TrimPrefix_app. apply b64_roundtrip.
Qed.

(** ** Fail closed *)

Section FailClosed.
Context (token_Unmarshal : string -> result string tokenResponse).
Context (result_text : HttpCalloutResult -> string).
Context {H : Type} `{!HeaderMap H, !HeaderMapLaws H}.

(** A reply that carries a usable token. *)
Definition usable_reply (r : CalloutReply) (t : tokenResponse) : Prop :=
  reply_result r = HttpCalloutSuccess /\ headerValue (reply_headers r) ":status" = "200" /\
  token_Unmarshal (joinBody (reply_body r)) = Ok t /\
  AccessToken t <> "" /\ TokenType t <> "" /\ IssuedTokenType t <> "" /\ is_N_A (TokenType t) = false.

(** The request carries a bearer token. *)
Definition bearer (headers : H) (subject : string) : Prop :=
  GetOne headers "authorization" = "Bearer " +:+ subject /\ subject <> "".

(** The calls that end a request. *)
Definition ends_request (c : HandleCall) : bool :=
  match c with ContinueRequest | SendLocalResponse _ _ _ _ => true | _ => false end.

Definition endings (l : list HandleCall) : list HandleCall := filter (fun c => ends_request c = true) l.

(** A refusal: one response, 401 or 502. *)
Definition refusal (l : list HandleCall) : Prop :=
  exists status msg, endings l = [SendLocalResponse status [("content-type", "text/plain")] msg ""] /\
    (status = 401 \/ status = 502).

Lemma endings_app l1 l2 : endings (l1 ++ l2) = endings l1 ++ endings l2.
Proof. apply filter_app. Qed.

Lemma endings_error m (headers : H) res status msg :
  endings (calls_of (exchange_error m headers res status msg)) =
    [SendLocalResponse status [("content-type", "text/plain")] msg ""] /\
  val_of (exchange_error m headers res status msg) = headers.
Proof. unfold exchange_error, incrementExchangeResult. by destruct (hasExchangeResults m). Qed.

Lemma OnHttpCalloutDone_spec m (headers : H) r (c := OnHttpCalloutDone token_Unmarshal result_text m headers r) :
  (exists t, usable_reply r t /\ endings (calls_of c) = [ContinueRequest] /\
     val_of c = HSet headers "authorization" (TokenType t +:+ " " +:+ AccessToken t)) \/
  ((forall t, ~ usable_reply r t) /\ refusal (calls_of c) /\ val_of c = headers).
Proof.
  assert (Herr : forall res status msg, status = 401 \/ status = 502 -> (forall t, ~ usable_reply r t) ->
    c = exchange_error m headers res status msg ->
    (forall t, ~ usable_reply r t) /\ refusal (calls_of c) /\ val_of c = headers).
  { intros res status msg Hs Hu ->. destruct (endings_error m headers res status msg) as [He Hv].
    split_and!; [done| |done]. by exists status, msg. }
  subst c. unfold OnHttpCalloutDone in *. cbv zeta in *.
  case_bool_decide as Hr; cbn [negb] in *; [|right; eapply Herr; [by right| |done]; by intros t (? & _)].
  case_decide as Hs0; [right; eapply Herr; [by right| |done]; intros t (_ & Hs & _); congruence|].
  destruct (HasPrefix _ "4") eqn:H4.
  { right. eapply Herr; [by left| |done]. intros t (_ & Hs & _). by rewrite Hs in H4. }
  case_bool_decide as Hs; cbn [negb] in *; [|right; eapply Herr; [by right| |done]; by intros t (_ & ? & _)].
  destruct (token_Unmarshal _) as [t|e] eqn:Ht;
    [|right; eapply Herr; [by right| |done]; intros t (_ & _ & Ht' & _); congruence].
  assert (Hno : ~ (AccessToken t <> "" /\ TokenType t <> "" /\ IssuedTokenType t <> "" /\ is_N_A (TokenType t) = false) ->
    forall t', ~ usable_reply r t').
  { intros Hn t' (_ & _ & Ht' & Hf). rewrite Ht in Ht'. injection Ht' as <-. by apply Hn. }
  destruct (decide (AccessToken t = "")); [right; eapply Herr; [by right|apply Hno; tauto|done]|].
  destruct (decide (TokenType t = "")); [right; eapply Herr; [by right|apply Hno; tauto|done]|].
  destruct (decide (IssuedTokenType t = "")); [right; eapply Herr; [by right|apply Hno; tauto|done]|].
  destruct (is_N_A (TokenType t)) eqn:Hna; [right; eapply Herr; [by right|apply Hno; intuition congruence|done]|].
  left. exists t. split; [by repeat split|]. unfold incrementExchangeResult. by destruct (hasExchangeResults m).
Qed.

Lemma CutPrefix_bearer (headers : H) subject :
  bearer headers subject -> CutPrefix (GetOne headers "authorization") "Bearer " = (subject, true).
Proof. intros [-> _]. unfold CutPrefix. by rewrite HasPrefix_app, drop_bytes_app. Qed.

(** C13: a request is continued only with a new token.  If it carries a bearer token, the
    callout starts, and the reply is a 200 with the three required fields and a token type
    other than N_A, it is continued exactly once, with the exchanged token in place of the
    client's.  In every other case it is answered exactly once, with 401 or 502, and never
    continued. *)
Theorem token_exchange_fail_closed f (headers : H) started r
    (c := handle_request token_Unmarshal result_text f headers started r) :
  (exists subject t, bearer headers subject /\ started = HttpCalloutInitSuccess /\ usable_reply r t /\
     endings (calls_of c) = [ContinueRequest] /\
     GetOne (val_of c) "authorization" = TokenType t +:+ " " +:+ AccessToken t) \/
  ((forall subject t, ~ (bearer headers subject /\ started = HttpCalloutInitSuccess /\ usable_reply r t)) /\
   refusal (calls_of c) /\ val_of c = headers).
Proof.
  subst c. unfold handle_request, OnRequestHeaders. cbv zeta.
  destruct (decide (GetOne headers "authorization" = "")) as [Ha|Ha].
  { right. split; [intros s t ([Hb _] & _); by rewrite Ha in Hb|]. split; [|done]. do 2 eexists. split; [done|]. by left. }
  destruct (CutPrefix (GetOne headers "authorization") "Bearer ") as [subject ok] eqn:Hc.
  assert (Hb : forall s, bearer headers s -> s = subject /\ ok = true).
  { intros s Hs. rewrite (CutPrefix_bearer _ _ Hs) in Hc. by injection Hc as <- <-. }
  destruct ok; cbn [negb].
  2: { right. split; [intros s t (Hs & _); by apply Hb in Hs as [_ ?]|]. split; [|done]. do 2 eexists. split; [done|]. by left. }
  destruct (decide (subject = "")) as [->|Hne].
  { right. split; [intros s t (Hs & _); pose proof Hs as [_ Hs']; by apply Hb in Hs as [? _]|]. split; [|done].
    do 2 eexists. split; [done|]. by left. }
  case_bool_decide as Hst; cbn [negb].
  2: { right. split; [intros s t (_ & ? & _); done|]. split; [|done]. do 2 eexists. split; [done|]. by right. }
  assert (Hbearer : bearer headers subject).
  { unfold CutPrefix in Hc. destruct (HasPrefix _ _) eqn:Hp; [|done]. apply HasPrefix_spec in Hp as [s Hs].
    rewrite Hs in Hc. rewrite drop_bytes_app in Hc. injection Hc as ->. done. }
  rewrite !hbind_assoc. rewrite !calls_hbind, !val_hbind. cbn [val_of hret fst].
  rewrite decide_True by done.
  destruct (OnHttpCalloutDone_spec (metrics f) headers r) as [(t & Hu & He & Hv)|(Hu & Hr & Hv)].
  - left. exists subject, t. split_and!; try done.
    + rewrite !endings_app, He. unfold incrementExchanges. by destruct (hasExchanges _).
    + rewrite Hv. apply get_set_eq.
  - right. split; [intros s t (_ & _ & ?); by eapply Hu|]. split; [|done].
    destruct Hr as (status & msg & He & Hs). exists status, msg. rewrite !endings_app, He. split; [|done].
    unfold incrementExchanges. by destruct (hasExchanges _).
Qed.
End FailClosed.

(** ** Witness *)

Definition ex_decoded : tokenExchangeConfig :=
  mkTokenExchangeConfig "sts" "sts.example.com/token" "id" "secret" "" "" "api" "read write" "" "" "" 0 "" "" [] "".
Definition ex_parse (s : string) : option URL :=
  Some (mkURL "scheme" "" None "sts.example.com" "/token" "" false false "" "" "").
Definition ex_config : tokenExchangeConfig :=
  match parseConfig ex_parse false (Some ex_decoded) with Ok (Some c) => c | _ => ex_decoded end.

Lemma token_request_roundtrip_witness :
  exists vals, ParseQuery (stsPostBody ex_config "a&b=c d") = Some vals /\
    query_get vals "subject_token" = "a&b=c d" /\ query_get vals "scope" = "read write".
Proof.
  destruct (token_request_roundtrip ex_parse false (Some ex_decoded) ex_config "a&b=c d" ltac:(vm_compute; reflexivity))
    as (vals & Hp & Hs & _ & _ & _ & _ & _ & Hscope & _).
  exists vals. split; [exact Hp|]. split; [exact Hs|]. rewrite Hscope. vm_compute. reflexivity.
Defined.

Definition ex_token (body : string) : result string tokenResponse := Ok (mkTokenResponse body "Bearer" "urn:jwt").
Definition ex_reply : CalloutReply := mkCalloutReply HttpCalloutSuccess [(":status", "200")] ["new"].

Lemma token_exchange_fail_closed_witness :
  let c := handle_request (H := Headers) ex_token (fun _ => "") (mkTokenExchangeFilter ex_config (mkTokenExchangeMetrics true true))
             [("authorization", "Bearer old")] HttpCalloutInitSuccess ex_reply in
  endings (calls_of c) = [ContinueRequest] /\ GetOne (val_of c) "authorization" = "Bearer new".
Proof.
  intros c.
  destruct (token_exchange_fail_closed (H := Headers) ex_token (fun _ => "")
    (mkTokenExchangeFilter ex_config (mkTokenExchangeMetrics true true)) [("authorization", "Bearer old")]
    HttpCalloutInitSuccess ex_reply) as [(subject & t & _ & _ & (_ & _ & [= <-] & _) & He & Hv)|[Hno _]].
  - split; [exact He|]. exact Hv.
  - destruct (Hno "old" (mkTokenResponse "new" "Bearer" "urn:jwt")).
    split; [split; [reflexivity|discriminate]|]. split; [reflexivity|].
    repeat split; discriminate.
Defined.
