(* ===== verification/JweDecrypt.v ===== *)
(** * jwe-decrypt: decrypting tokens in headers

    extensions/composer/jwe-decrypt/plugin.go and jwe/jwe.go: the configuration with its
    key, and the filter that decrypts the values of a header.  The JOSE library is a
    parameter. *)

From S2P Require Import Prelude GoStr GoNum GoPath GoCodec Host ExtPkg.
From Stdlib Require Import Lia Ascii.

Local Open Scope Z_scope.
Local Open Scope go_scope.

Definition defaultMetadataNamespace : string := "io.builtonenvoy.jwe-decrypt".

Section Jwe.
(** The JOSE library.  An algorithm name is not an algorithm, one that is not for key
    encryption, or one that is, symmetric or not; a key is imported from bytes or parsed from
    PEM; a token is parsed to the algorithm of its header, and decrypted. *)
Context {Key Algorithm : Type}.
Context (KeyAlgorithmFrom : string -> option Algorithm).
Context (is_key_encryption : Algorithm -> bool).
Context (IsSymmetric : Algorithm -> bool).
Context (Import_ : string -> option Key).
Context (is_symmetric_key : Key -> bool).
Context (ParseKey : string -> option Key).
Context (set_algorithm : Key -> Algorithm -> option Key).
Context (jwe_Parse : string -> option (option Algorithm)).
Context (jwe_Decrypt : string -> Algorithm -> Key -> option string).

Record Keys : Type := mkKeys { PrivateKey_ : Key }.

Definition ParsePrivateKey (keyInput algorithm : string) : option Keys :=
  if decide (keyInput = "") then None
  else match KeyAlgorithmFrom algorithm with
  | None => None
  | Some alg =>
      if negb (is_key_encryption alg) then None
      else
        let priv :=
          if IsSymmetric alg then
            match Import_ keyInput with
            | Some k => if is_symmetric_key k then Some k else None
            | None => None
            end
          else ParseKey keyInput in
        match priv with
        | None => None
        | Some k => mkKeys <$> set_algorithm k alg
        end
  end.

Definition Decrypt (k : Keys) (encrypted : string) : option string :=
  match jwe_Parse encrypted with
  | None => None
  | Some None => None
  | Some (Some alg) => jwe_Decrypt encrypted alg (PrivateKey_ k)
  end.

(** ** Configuration *)

Record jweDecryptConfig : Type := mkJweDecryptConfig {
  PrivateKey : DataSource;
  Algorithm_ : string;
  InputHeader : string;
  Prefix : string;
  OutputHeader : string;
  OutputMetadata : option MetadataKey;
  privateKey : option Keys;
}.

Definition getKey (read : string -> option string) (c : jweDecryptConfig) : option Keys :=
  match DataSource_Content read (PrivateKey c) with
  | Err _ => None
  | Ok content =>
      if decide (Inline (PrivateKey c) = "") then ParsePrivateKey content (Algorithm_ c)
      else match b64_decode StdEncoding content with
      | None => None
      | Some content => ParsePrivateKey content (Algorithm_ c)
      end
  end.

Inductive ConfigError : Type :=
| UndecodableConfig
| BadKeySource (e : DataSourceError)
| MissingAlgorithm
| BadKey
| BadOutputMetadata.

(** [parseConfig]: [Ok None] is the nil configuration of empty bytes. *)
Definition parseConfig (read : string -> option string) (empty : bool) (decoded : option jweDecryptConfig)
    : result ConfigError (option jweDecryptConfig) :=
  if empty then Ok None
  else match decoded with
  | None => Err UndecodableConfig
  | Some c =>
      match DataSource_Validate (PrivateKey c) with
      | Some e => Err (BadKeySource e)
      | None =>
          if decide (Algorithm_ c = "") then Err MissingAlgorithm
          else match getKey read c with
          | None => Err BadKey
          | Some k =>
              let inputHeader := if decide (InputHeader c = "") then "Authorization" else InputHeader c in
              try meta <-
                match OutputMetadata c with
                | None => Ok None
                | Some m =>
                    let m := mkMetadataKey (if decide (Namespace m = "") then defaultMetadataNamespace else Namespace m)
                               (ExtPkg.Key m) in
                    if MetadataKey_Validate m then Ok (Some m) else Err BadOutputMetadata
                end;
              Ok (Some (mkJweDecryptConfig (PrivateKey c) (Algorithm_ c) inputHeader (Prefix c) (OutputHeader c)
                          meta (Some k)))
          end
      end
  end.

(** ** The filter *)

Context {H : Type} `{!HeaderMap H, !HeaderList H}.

(** The part of a header value that is decrypted. *)
Definition strip_prefix (prefix value : string) : string :=
  if bool_decide (prefix <> "") && bool_decide (String.length prefix < String.length value)%nat && HasPrefix value prefix
  then drop_bytes (String.length prefix) value else value.

(** What one decrypted value does. *)
Definition put_payload (c : jweDecryptConfig) (payload : string) (headers : H) : Host H :=
  let payload := if decide (Prefix c = "") then payload else Prefix c +:+ payload in
  let headers := if decide (OutputHeader c = "") then headers else HSet headers (OutputHeader c) payload in
  match OutputMetadata c with
  | None => hret headers
  | Some m =>
      run hcall (SetMetadata (Namespace m) (ExtPkg.Key m) (MetaString payload));
      hret headers
  end.

(** The loop over the values; one that cannot be decrypted is skipped.  A configuration
    without key would be dereferenced: [None]. *)
Fixpoint decrypt_values (c : jweDecryptConfig) (values : list string) (headers : H) : option (Host H) :=
  match values with
  | [] => Some (hret headers)
  | v :: values' =>
      match privateKey c with
      | None => None
      | Some k =>
          match Decrypt k (strip_prefix (Prefix c) v) with
          | None => decrypt_values c values' headers
          | Some payload =>
              let '(headers, calls) := put_payload c payload headers in
              (fun rest : Host H => run (tt, calls); rest) <$> decrypt_values c values' headers
          end
      end
  end.

Definition OnRequestHeaders (c : jweDecryptConfig) (headers : H) : option (Host (H * HeadersStatus)) :=
  (fun m : Host H => do h <- m; hret (h, HeadersStatusContinue))
    <$> decrypt_values c (header_values headers (InputHeader c)) headers.

(** ** Factories *)

(** [jweDecryptHttpFilterFactory.Create]: [None] is the empty filter. *)
Definition jweDecryptHttpFilterFactory_Create {Any} (assert : Any -> option jweDecryptConfig)
    (most_specific : option Any) (factory_config : option jweDecryptConfig) : option jweDecryptConfig :=
  match GetMostSpecificConfig assert most_specific with
  | Some perRoute => Some perRoute
  | None => factory_config
  end.

Definition CreatePerRoute (read : string -> option string) (empty : bool) (decoded : option jweDecryptConfig)
    : result (option ConfigError) jweDecryptConfig :=
  match parseConfig read empty decoded with
  | Err e => Err (Some e)
  | Ok None => Err None
  | Ok (Some c) => Ok c
  end.
End Jwe.

(** ** What reaches the upstream *)

Section Output.
Context {Key Algorithm : Type}.
Context (KeyAlgorithmFrom : string -> option Algorithm).
Context (is_key_encryption IsSymmetric : Algorithm -> bool).
Context (Import_ ParseKey : string -> option Key).
Context (is_symmetric_key : Key -> bool).
Context (set_algorithm : Key -> Algorithm -> option Key).
Context (jwe_Parse : string -> option (option Algorithm)).
Context (jwe_Decrypt : string -> Algorithm -> Key -> option string).
Context {H : Type} `{!HeaderMap H, !HeaderMapLaws H, !HeaderList H}.

#[local] Abbreviation parse :=
  (parseConfig KeyAlgorithmFrom is_key_encryption IsSymmetric Import_ is_symmetric_key ParseKey set_algorithm).
#[local] Abbreviation decrypt := (Decrypt jwe_Parse jwe_Decrypt).
#[local] Abbreviation decrypt_all := (decrypt_values jwe_Parse jwe_Decrypt).

Lemma parseConfig_key read empty decoded c :
  parse read empty decoded = Ok (Some c) ->
  is_Some (privateKey c) /\ InputHeader c <> "" /\
  match OutputMetadata c with Some m => MetadataKey_Validate m = true | None => True end.
Proof.
  unfold parseConfig. destruct empty; [done|]. destruct decoded as [d|]; [|done].
  destruct (DataSource_Validate _); [done|]. destruct (decide (Algorithm_ d = "")); [done|].
  destruct (getKey _ _ _ _ _ _ _ _ _) as [k|]; [|done]. cbv zeta.
  destruct (OutputMetadata d) as [m|]; cbn [rbind].
  - destruct (MetadataKey_Validate _) eqn:Hm; [|done]. cbn [rbind]. intros [= <-]. cbn [privateKey InputHeader OutputMetadata]. split; [done|].
    split; [by destruct (decide (InputHeader d = ""))|done].
  - intros [= <-]. cbn [privateKey InputHeader OutputMetadata]. split; [done|]. split; [by case_decide|done].
Qed.

(** The payloads of the values that can be decrypted, as they are written. *)
Definition payloads (c : jweDecryptConfig (Key := Key)) (k : Keys) (values : list string) : list string :=
  (fun p => if decide (Prefix c = "") then p else Prefix c +:+ p)
    <$> omap (fun v => decrypt k (strip_prefix (Prefix c) v)) values.

Definition metadata_calls (c : jweDecryptConfig (Key := Key)) (ps : list string) : list HandleCall :=
  match OutputMetadata c with
  | None => []
  | Some m => (fun p => SetMetadata (Namespace m) (ExtPkg.Key m) (MetaString p)) <$> ps
  end.

Lemma decrypt_values_spec c k values (headers : H) :
  privateKey c = Some k ->
  exists h, decrypt_all c values headers = Some (h, metadata_calls c (payloads c k values)) /\
    (forall name, ToLower (OutputHeader c) <> ToLower name \/ OutputHeader c = "" -> GetOne h name = GetOne headers name) /\
    (OutputHeader c <> "" ->
     GetOne h (OutputHeader c) = default (GetOne headers (OutputHeader c)) (last (payloads c k values))).
Proof.
  intros Hk. unfold payloads. revert headers. induction values as [|v values IH]; intros headers.
  - exists headers. cbn. unfold metadata_calls. by destruct (OutputMetadata c).
  - cbn [decrypt_values omap list_omap]. rewrite Hk.
    destruct (decrypt k (strip_prefix (Prefix c) v)) as [p|]; [|apply IH].
    unfold put_payload. set (p' := if decide (Prefix c = "") then p else Prefix c +:+ p).
    set (h1 := if decide (OutputHeader c = "") then headers else HSet headers (OutputHeader c) p').
    destruct (IH h1) as (h & Hd & Ho & Hl). exists h. rewrite fmap_cons. cbv beta.
    fold p'. set (ps := fmap _ _) in *. split_and!.
    + unfold metadata_calls in *. destruct (OutputMetadata c) as [m|]; cbn [hbind hret hcall app]; by rewrite Hd.
    + intros name Hn. rewrite Ho by done. subst h1. destruct (decide (OutputHeader c = "")); [done|].
      apply get_set_ne. by destruct Hn.
    + intros Hne. rewrite (Hl Hne). subst h1. rewrite decide_False by done. rewrite get_set_eq.
      rewrite last_cons. by destruct (last ps).
Qed.

(** With an accepted configuration the filter never fails and never holds a request
    back.  The output header carries the payload of the last value of the input header that
    can be decrypted, behind the configured prefix, every decrypted payload is written to the
    metadata in order, and nothing else changes; without a value that can be decrypted the
    request is forwarded as it came. *)
Theorem jwe_output read empty decoded c (headers : H) :
  parse read empty decoded = Ok (Some c) ->
  exists k h (ps := payloads c k (header_values headers (InputHeader c))),
    privateKey c = Some k /\
    OnRequestHeaders jwe_Parse jwe_Decrypt c headers = Some (h, HeadersStatusContinue, metadata_calls c ps) /\
    (forall name, ToLower (OutputHeader c) <> ToLower name \/ OutputHeader c = "" -> GetOne h name = GetOne headers name) /\
    (OutputHeader c <> "" -> GetOne h (OutputHeader c) = default (GetOne headers (OutputHeader c)) (last ps)).
Proof.
  intros ([k Hk] & _ & _)%parseConfig_key.
  destruct (decrypt_values_spec c k (header_values headers (InputHeader c)) headers Hk) as (h & Hd & Ho & Hl).
  exists k, h. cbv zeta. split; [done|]. split; [|done]. unfold OnRequestHeaders. rewrite Hd.
  cbn [fmap option_fmap option_map hbind hret]. by rewrite app_nil_r.
Qed.

(** The prefix is put back also where it was not removed: the payload of a value without the
    prefix is written with it. *)
Lemma jwe_prefix_added c k v p :
  Prefix c <> "" -> HasPrefix v (Prefix c) = false -> decrypt k v = Some p ->
  payloads c k [v] = [Prefix c +:+ p].
Proof.
  intros Hp Hv Hd. unfold payloads, strip_prefix. cbn [omap list_omap]. rewrite Hv, andb_false_r, Hd. cbn [fmap list_fmap]. by rewrite decide_False.
Qed.
End Output.

(** ** Witness *)

Definition ex_jwe : jweDecryptConfig (Key := string) :=
  mkJweDecryptConfig (mkDataSource "a2V5" "") "RSA-OAEP" "" "Bearer " "x-token" None None.
Definition ex_parsed : jweDecryptConfig (Key := string) :=
  mkJweDecryptConfig (mkDataSource "a2V5" "") "RSA-OAEP" "Authorization" "Bearer " "x-token" None (Some (mkKeys "key")).

Lemma jwe_output_witness :
  exists h : Headers, GetOne h "x-token" = "Bearer secret".
Proof.
  destruct (jwe_output (H := Headers) (fun _ => Some tt) (fun _ => true) (fun _ => false) Some Some (fun _ => true)
    (fun k _ => Some k) (fun _ => Some (Some tt)) (fun s _ _ => if decide (s = "enc") then Some "secret" else None)
    (fun _ => None) false (Some ex_jwe) ex_parsed [("authorization", "Bearer enc"); ("authorization", "junk")]
    ltac:(vm_compute; reflexivity)) as (k & h & Hk & _ & _ & Ho).
  exists h. cbn in Hk. injection Hk as <-.
  specialize (Ho ltac:(vm_compute; discriminate)). transitivity (GetOne h (OutputHeader ex_parsed)); [reflexivity|].
  rewrite Ho. vm_compute. reflexivity.
Defined.
