(* ===== verification/Bedrock.v ===== *)
(** * bedrock-guardrails: a chain of guardrails before a model

    extensions/composer/bedrock-guardrails/plugin.go, callback.go, openai.go and types.go: the
    prompts of a chat request are sent to each configured guardrail in turn, by one callout
    after the other; a guardrail lets them pass, replaces them or blocks the request.  JSON
    encoding and decoding are parameters. *)

From S2P Require Import Prelude GoStr GoNum GoPath GoCodec Host ExtPkg.
From Stdlib Require Import Lia Ascii.

Local Open Scope Z_scope.
Local Open Scope go_scope.

(** ** Configuration *)

Record bedrockGuardrail : Type := mkBedrockGuardrail { Identifier : string; Version : string }.

Record bedrockGuardrailsConfig : Type := mkBedrockGuardrailsConfig {
  BedrockEndpoint : string;
  Cluster : string;
  BedrockAPIKey : string;
  BedrockGuardrails : list bedrockGuardrail;
  TimeoutMs : Z;
}.

(** The key by which guardrails are told apart. *)
Definition guardrail_key (g : bedrockGuardrail) : string := Identifier g +:+ "#" +:+ Version g.

(** The loop of [dedupGuardrails]: [seen] are the keys of [allKeys]. *)
Fixpoint dedup (seen : list string) (gs : list bedrockGuardrail) : list bedrockGuardrail :=
  match gs with
  | [] => []
  | g :: gs' =>
      if decide (guardrail_key g ∈ seen) then dedup seen gs'
      else g :: dedup (guardrail_key g :: seen) gs'
  end.

Definition dedupGuardrails (gs : list bedrockGuardrail) : list bedrockGuardrail := dedup [] gs.

(** [parseConfig]: [decoded] is the decoder applied to the defaults. *)
Definition default_config : bedrockGuardrailsConfig := mkBedrockGuardrailsConfig "" "" "" [] (1000 * 10).

Definition parseConfig (empty : bool) (decode : bedrockGuardrailsConfig -> option bedrockGuardrailsConfig)
    : option bedrockGuardrailsConfig :=
  match (if empty then Some default_config else decode default_config) with
  | None => None
  | Some c =>
      Some (mkBedrockGuardrailsConfig (BedrockEndpoint c) (Cluster c) (BedrockAPIKey c)
              (dedupGuardrails (BedrockGuardrails c)) (TimeoutMs c))
  end.

(** ** Messages *)

Record contentPart : Type := mkContentPart { Type_ : string; Text : string }.

(** A message and a request, with the fields the filter does not look at. *)
Record Message (MsgRest : Type) : Type := mkMessage { Role : string; Content : string; msg_rest : MsgRest }.
Arguments mkMessage {_}.
Arguments Role {_}.
Arguments Content {_}.
Arguments msg_rest {_}.
Record ChatRequest (MsgRest ReqRest : Type) : Type := mkChatRequest {
  Messages : list (Message MsgRest);
  req_rest : ReqRest;
}.
Arguments mkChatRequest {_ _}.
Arguments Messages {_ _}.
Arguments req_rest {_ _}.

(** The reply of a guardrail, with the actions of its policies. *)
Record Assessment : Type := mkAssessment {
  FilterActions : list string;
  TopicActions : list string;
  PiiActions : list string;
}.
Record ApplyGuardrailResponse : Type := mkApplyGuardrailResponse {
  Action : string;
  Outputs : list string;
  Assessments : list Assessment;
}.

Section Bedrock.
Context {MsgRest ReqRest : Type}.
(** encoding/json on requests, contents and replies, and the verb [%q] of fmt.  A raw
    content that is absent is the empty string; a reply may decode to a nil pointer. *)
Context (req_Unmarshal : string -> option (ChatRequest MsgRest ReqRest)).
Context (req_Marshal : ChatRequest MsgRest ReqRest -> option string).
Context (content_string : string -> option string).
Context (content_parts : string -> option (list contentPart)).
Context (part_Marshal : contentPart -> option string).
Context (apply_Marshal : list string -> option string).
Context (resp_Unmarshal : string -> option (option ApplyGuardrailResponse)).
Context (quote : string -> string).
Context (result_text : HttpCalloutResult -> string).
Context (init_text : HttpCalloutInitResult -> string).
Context (error_text : string -> string).

(** [strings.Join] of the text parts. *)
Definition joinStrings (parts : list string) (sep : string) : string := Join parts sep.

Definition newline_sep : string := String "010" EmptyString.

Definition extractContent (raw : string) : string :=
  if decide (raw = "") then ""
  else match content_string raw with
  | Some s => s
  | None =>
      match content_parts raw with
      | Some parts =>
          joinStrings (Text <$> filter (fun p => Type_ p = "text" /\ Text p <> "") parts) newline_sep
      | None => ""
      end
  end.

Definition isText (content : string) : bool :=
  bool_decide (content <> "") && bool_decide (is_Some (content_parts content)).
Definition isString (content : string) : bool :=
  bool_decide (content <> "") && bool_decide (is_Some (content_string content)).

Definition ParseChatRequest (body : string) : option (list string) :=
  match req_Unmarshal body with
  | None => None
  | Some req => Some (extractContent ∘ Content <$> filter (fun m => Role m = "user") (Messages req))
  end.

(** The content of a user message after replacement; [None] is an encoding error. *)
Definition replaced_content (content text : string) : option string :=
  let rm := if isString content then quote text else "" in
  if isText content then part_Marshal (mkContentPart "text" text) else Some rm.

(** The loop of [ReplaceUserPrompts]: [texts] are the messages not yet used. *)
Fixpoint replace_loop (msgs : list (Message MsgRest)) (texts : list string) : option (list (Message MsgRest)) :=
  match msgs with
  | [] => Some []
  | m :: msgs' =>
      match texts with
      | [] => None
      | text :: texts' =>
          if negb (bool_decide (Role m = "user")) then replace_loop msgs' texts
          else match replaced_content (Content m) text with
          | None => None
          | Some rm => (fun rest => mkMessage (Role m) rm (msg_rest m) :: rest) <$> replace_loop msgs' texts'
          end
      end
  end.

Definition ReplaceUserPrompts (requestBytes : string) (messages : list string) : option string :=
  match req_Unmarshal requestBytes with
  | None => None
  | Some req =>
      match replace_loop (Messages req) messages with
      | None => None
      | Some m => req_Marshal (mkChatRequest m (req_rest req))
      end
  end.

(** ** Callouts *)

Definition getContent (body : string) : option (list string) := ParseChatRequest body.

Definition guardrail_path (g : bedrockGuardrail) : string :=
  "/guardrail/" +:+ Identifier g +:+ "/version/" +:+ Version g +:+ "/apply".

Definition getCalloutHeaders (c : bedrockGuardrailsConfig) (g : bedrockGuardrail) (body : string)
    : option (list (string * string) * string) :=
  match getContent body with
  | None => None
  | Some content =>
      match apply_Marshal content with
      | None => None
      | Some b =>
          Some ([(":method", "POST"); (":path", guardrail_path g); (":authority", BedrockEndpoint c);
                 (":scheme", "https"); ("Authorization", "Bearer " +:+ BedrockAPIKey c);
                 ("Content-type", "application/json")], b)
      end
  end.

Definition sendLocalRespError (status : Z) (msg : string) : HandleCall :=
  SendLocalResponse status [("content-type", "text/plain")] msg "".

Definition joinBody (body : list string) : string :=
  match body with
  | [b] => b
  | _ => Join body ""
  end.

Fixpoint headerValue (headers : list (string * string)) (key : string) : string :=
  match headers with
  | [] => ""
  | (k, v) :: headers' => if decide (k = key) then v else headerValue headers' key
  end.

Record CalloutReply : Type := mkCalloutReply {
  reply_result : HttpCalloutResult;
  reply_headers : list (string * string);
  reply_body : list string;
}.

(** A BLOCKED action of any of the policies that are looked at. *)
Definition assessment_blocks (a : Assessment) : bool :=
  existsb (fun s => bool_decide (s = "BLOCKED")) (FilterActions a) ||
  existsb (fun s => bool_decide (s = "BLOCKED")) (TopicActions a) ||
  existsb (fun s => bool_decide (s = "BLOCKED")) (PiiActions a).

Definition blocked (resp : ApplyGuardrailResponse) : bool :=
  bool_decide (Action resp = "GUARDRAIL_INTERVENED") && existsb assessment_blocks (Assessments resp).

(** What a callback leaves behind: the request is over, or the callback of the next guardrail
    waits with its index and body. *)
Inductive After : Type :=
| Over
| Waiting (index : nat) (body : string).

(** The start of the callout to guardrail [index]; [started] is what the host says. *)
Definition start_callout (c : bedrockGuardrailsConfig) (g : bedrockGuardrail) (index : nat) (body : string)
    (timeout : Z) (started : HttpCalloutInitResult) (header_error callout_error : string) : Host After :=
  match getCalloutHeaders c g body with
  | None => run hcall (sendLocalRespError 502 header_error); hret Over
  | Some (headers, b) =>
      run hcall (HttpCallout (Cluster c) headers b timeout);
      if negb (bool_decide (started = HttpCalloutInitSuccess))
      then run hcall (sendLocalRespError 502 callout_error); hret Over
      else hret (Waiting index body)
  end.

(** [OnHttpCalloutDone] of the callback for guardrail [index] with its [body]; [None] is a
    panic. *)
Definition OnHttpCalloutDone (c : bedrockGuardrailsConfig) (index : nat) (body : string) (r : CalloutReply)
    (started : HttpCalloutInitResult) : option (Host After) :=
  let over status msg := Some (run hcall (sendLocalRespError status msg); hret Over) in
  let fullbody := joinBody (reply_body r) in
  if negb (bool_decide (reply_result r = HttpCalloutSuccess))
  then over 502 ("failed to apply guardrail, result: " +:+ result_text (reply_result r))
  else
    let statusCode := headerValue (reply_headers r) ":status" in
    if negb (HasPrefix statusCode "2") then over 502 ("failed to apply guardrail, status: " +:+ statusCode)
    else match resp_Unmarshal fullbody with
    | None => over 502 ("failed to unmarshal response: " +:+ error_text fullbody)
    | Some None => None
    | Some (Some resp) =>
        if blocked resp then over 400 "bedrock-guardrails: request blocked by guardrail"
        else
          match (match Outputs resp with [] => Some body | messages => ReplaceUserPrompts body messages end) with
          | None => over 502 "bedrock-guardrails: request blocked by guardrail"
          | Some newBody =>
              match Assessments resp with
              | [] => None
              | _ :: _ =>
                  match BedrockGuardrails c !! S index with
                  | Some nextGuardrail =>
                      Some (start_callout c nextGuardrail (S index) newBody (TimeoutMs c) started
                              "bedrock-guardrails: getting callout headers"
                              ("bedrock-guardrails: execute callout status=" +:+ init_text started))
                  | None =>
                      Some (run hcall (AppendRequestBody true newBody);
                            run hcall ContinueRequest;
                            hret Over)
                  end
              end
          end
    end.

(** [processRequestbody]: [None] of the result lets the request pass; [sizes] are the sizes of
    the buffered and the received body. *)
Definition processRequestbody (c : bedrockGuardrailsConfig) (body : string) (sizes : Z * Z)
    (started : HttpCalloutInitResult) : Host (option After) :=
  if decide (body = "") then hret None
  else match BedrockGuardrails c with
  | [] => hret None
  | g :: _ =>
      run hcall (RemoveRequestHeader "content-length");
      run hcall (DrainRequestBody true sizes.1);
      run hcall (DrainRequestBody false sizes.2);
      do a <- start_callout c g 0 body (1000 * 20) started
                ("error getting callout headers: " +:+ error_text body)
                ("error calling out: " +:+ init_text started);
      hret (Some a)
  end.

(** ** The callbacks of a request *)

Definition OnRequestHeaders (endOfStream : bool) : HeadersStatus :=
  if endOfStream then HeadersStatusContinue else HeadersStatusStop.

Definition OnRequestBody (c : bedrockGuardrailsConfig) (body : string) (sizes : Z * Z)
    (started : HttpCalloutInitResult) (endOfStream : bool) : Host (BodyStatus * After) :=
  if negb endOfStream then hret (BodyStatusStopAndBuffer, Over)
  else
    do p <- processRequestbody c body sizes started;
    hret match p with
         | None => (BodyStatusContinue, Over)
         | Some a => (BodyStatusStopAndBuffer, a)
         end.

Definition OnRequestTrailers (c : bedrockGuardrailsConfig) (body : string) (sizes : Z * Z)
    (started : HttpCalloutInitResult) : Host (TrailersStatus * After) :=
  do p <- processRequestbody c body sizes started;
  hret match p with
       | None => (TrailersStatusContinue, Over)
       | Some a => (TrailersStatusStop, a)
       end.

(** The replies of the host, one after the other, each with the start of the next callout.
    [None] is a panic; the result tells whether a callback still waits. *)
Fixpoint run_replies (c : bedrockGuardrailsConfig) (a : After) (events : list (CalloutReply * HttpCalloutInitResult))
    : option (Host After) :=
  match a, events with
  | Waiting index body, (r, started) :: events' =>
      match OnHttpCalloutDone c index body r started with
      | None => None
      | Some (a', calls) => (fun rest : Host After => run (tt, calls); rest) <$> run_replies c a' events'
      end
  | _, _ => Some (hret a)
  end.
End Bedrock.

(** ** Deduplication *)

Lemma dedup_spec seen gs :
  NoDup (guardrail_key <$> dedup seen gs) /\
  (forall k, k ∈ guardrail_key <$> dedup seen gs <-> k ∈ guardrail_key <$> gs /\ k ∉ seen) /\
  dedup seen gs `sublist_of` gs.
Proof.
  revert seen. induction gs as [|g gs IH]; intros seen; cbn [dedup].
  - split_and!; [constructor| |constructor]. intros k. cbn. rewrite elem_of_nil. tauto.
  - case_decide as Hs.
    + destruct (IH seen) as (Hnd & Hk & Hsub). split_and!; [done| |by constructor].
      intros k. rewrite Hk, fmap_cons, elem_of_cons. split; [tauto|]. intros [[->|?] ?]; tauto.
    + destruct (IH (guardrail_key g :: seen)) as (Hnd & Hk & Hsub). rewrite !fmap_cons. split_and!; [| |by constructor].
      * constructor; [|done]. rewrite Hk. rewrite elem_of_cons. tauto.
      * intros k. rewrite !elem_of_cons, Hk, elem_of_cons.
        destruct (decide (k = guardrail_key g)) as [->|]; intuition congruence.
Qed.

(** Guardrails are applied once each, in the configured order. *)
Lemma dedupGuardrails_spec gs :
  NoDup (guardrail_key <$> dedupGuardrails gs) /\
  (forall k, k ∈ guardrail_key <$> dedupGuardrails gs <-> k ∈ guardrail_key <$> gs) /\
  dedupGuardrails gs `sublist_of` gs.
Proof.
  destruct (dedup_spec [] gs) as (Hnd & Hk & Hs). split_and!; [done| |done].
  intros k. unfold dedupGuardrails. rewrite Hk. rewrite elem_of_nil. tauto.
Qed.

Section Chain.
Context {MsgRest ReqRest : Type}.
Context (req_Unmarshal : string -> option (ChatRequest MsgRest ReqRest)).
Context (req_Marshal : ChatRequest MsgRest ReqRest -> option string).
Context (content_string : string -> option string).
Context (content_parts : string -> option (list contentPart)).
Context (part_Marshal : contentPart -> option string).
Context (apply_Marshal : list string -> option string).
Context (resp_Unmarshal : string -> option (option ApplyGuardrailResponse)).
Context (quote : string -> string).
Context (result_text : HttpCalloutResult -> string).
Context (init_text : HttpCalloutInitResult -> string).
Context (error_text : string -> string).

#[local] Abbreviation replace :=
  (ReplaceUserPrompts req_Unmarshal req_Marshal content_string content_parts part_Marshal quote).
#[local] Abbreviation headers_for := (getCalloutHeaders req_Unmarshal content_string content_parts apply_Marshal).
#[local] Abbreviation start := (start_callout req_Unmarshal content_string content_parts apply_Marshal).
#[local] Abbreviation done_callback :=
  (OnHttpCalloutDone req_Unmarshal req_Marshal content_string content_parts part_Marshal apply_Marshal resp_Unmarshal
     quote result_text init_text error_text).
#[local] Abbreviation process :=
  (processRequestbody req_Unmarshal content_string content_parts apply_Marshal init_text error_text).
#[local] Abbreviation replies :=
  (run_replies req_Unmarshal req_Marshal content_string content_parts part_Marshal apply_Marshal resp_Unmarshal
     quote result_text init_text error_text).

(** Replacing prompts keeps the user messages only, with the replaced contents: every other
    message of the conversation is dropped. *)
Lemma replace_loop_users msgs texts out :
  replace_loop content_string content_parts part_Marshal quote msgs texts = Some out ->
  Forall (fun m : Message MsgRest => Role m = "user") out /\
  length out = length (filter (fun m : Message MsgRest => Role m = "user") msgs).
Proof.
  revert texts out. induction msgs as [|m msgs IH]; intros texts out; cbn [replace_loop]; [by intros [= <-]|].
  destruct texts as [|text texts]; [done|]. rewrite filter_cons.
  case_bool_decide as Hr; cbn [negb].
  - rewrite decide_True by done. destruct (replaced_content _ _ _ _ _ _) as [rm|]; [|done].
    destruct (replace_loop _ _ _ _ msgs texts) as [rest|] eqn:Hrest; [|done]. intros [= <-].
    destruct (IH _ _ Hrest) as [Hf Hl]. cbn [length]. by rewrite Hl; split; [constructor|].
  - rewrite decide_False by done. apply IH.
Qed.

(** ** The chain *)

(** A reply that lets [body] pass as [body']. *)
Definition passes (body : string) (r : CalloutReply) (body' : string) : Prop :=
  reply_result r = HttpCalloutSuccess /\ HasPrefix (headerValue (reply_headers r) ":status") "2" = true /\
  exists resp, resp_Unmarshal (joinBody (reply_body r)) = Some (Some resp) /\ blocked resp = false /\
    Assessments resp <> [] /\
    (match Outputs resp with [] => Some body | messages => replace body messages end) = Some body'.

(** The replies of the guardrails from [index] on let [body] pass, one after the other, as
    [final]. *)
Inductive screened (c : bedrockGuardrailsConfig) : nat -> string -> list CalloutReply -> string -> Prop :=
| screened_last index body r final :
    BedrockGuardrails c !! S index = None -> passes body r final -> screened c index body [r] final
| screened_next index body r body' rs final g :
    BedrockGuardrails c !! S index = Some g -> passes body r body' ->
    screened c (S index) body' rs final -> screened c index body (r :: rs) final.

Lemma screened_length c index body rs final :
  screened c index body rs final -> (index < length (BedrockGuardrails c))%nat ->
  length rs = (length (BedrockGuardrails c) - index)%nat.
Proof.
  induction 1 as [index body r final Hn _|index body r body' rs final g Hg _ _ IH]; intros Hi; cbn [length].
  - apply lookup_ge_None in Hn. lia.
  - apply lookup_lt_Some in Hg. rewrite IH by done. lia.
Qed.

(** The calls that end a request, and the paths of the callouts. *)
Definition ends_request (call : HandleCall) : bool :=
  match call with ContinueRequest | SendLocalResponse _ _ _ _ => true | _ => false end.
Definition endings (l : list HandleCall) : list HandleCall := filter (fun call => ends_request call = true) l.

Fixpoint callout_paths (l : list HandleCall) : list string :=
  match l with
  | [] => []
  | HttpCallout _ headers _ _ :: l' => headerValue headers ":path" :: callout_paths l'
  | _ :: l' => callout_paths l'
  end.

Lemma guardrail_endings_app l1 l2 : endings (l1 ++ l2) = endings l1 ++ endings l2.
Proof. apply filter_app. Qed.

Lemma callout_paths_app l1 l2 : callout_paths (l1 ++ l2) = callout_paths l1 ++ callout_paths l2.
Proof. induction l1 as [|[] l1 IH]; cbn; congruence. Qed.

(** What a callout leaves: it waits after one callout to its guardrail, or the request was
    answered. *)
Lemma start_callout_spec c g index body timeout started e1 e2 (m := start c g index body timeout started e1 e2) :
  (val_of m = Waiting index body /\ endings (calls_of m) = [] /\ callout_paths (calls_of m) = [guardrail_path g]) \/
  (val_of m = Over /\ exists msg, endings (calls_of m) = [sendLocalRespError 502 msg]).
Proof.
  subst m. unfold start_callout, getCalloutHeaders.
  destruct (getContent _ _ _ _); [|right; by split; [|eexists]].
  destruct (apply_Marshal _); [|right; by split; [|eexists]].
  case_bool_decide; cbn [negb]; [by left|]. right. by split; [|eexists].
Qed.

(** What a reply leads to. *)
Lemma guardrail_reply_spec c index body r started m :
  done_callback c index body r started = Some m ->
  (exists status msg, val_of m = Over /\ calls_of m = [sendLocalRespError status msg]) \/
  (exists body', passes body r body' /\
     match BedrockGuardrails c !! S index with
     | Some g => exists e1 e2, m = start c g (S index) body' (TimeoutMs c) started e1 e2
     | None => m = (Over, [AppendRequestBody true body'; ContinueRequest])
     end).
Proof.
  unfold OnHttpCalloutDone. cbv zeta.
  case_bool_decide as Hr; cbn [negb]; [|intros [= <-]; left; by do 2 eexists].
  destruct (HasPrefix _ "2") eqn:H2; cbn [negb]; [|intros [= <-]; left; by do 2 eexists].
  destruct (resp_Unmarshal _) as [[resp|]|] eqn:Hu; [|done|intros [= <-]; left; by do 2 eexists].
  destruct (blocked resp) eqn:Hb; [intros [= <-]; left; by do 2 eexists|].
  destruct (match Outputs resp with [] => Some body | _ => _ end) as [body'|] eqn:Ho;
    [|intros [= <-]; left; by do 2 eexists].
  destruct (Assessments resp) as [|a l] eqn:Ha; [done|]. intros Hm. right. exists body'. split.
  - split; [done|]. split; [done|]. exists resp. split_and!; try done. by rewrite Ha.
  - destruct (BedrockGuardrails c !! S index) as [g|]; injection Hm as <-; [by do 2 eexists|done].
Qed.

(** From a waiting callback on: the request is continued only after the remaining guardrails
    have let it pass, each called in its turn; a request that is over has ended once. *)
Lemma run_replies_spec c index body events a calls :
  replies c (Waiting index body) events = Some (a, calls) ->
  (a = Over -> length (endings calls) = 1%nat) /\
  (forall i b, a = Waiting i b -> endings calls = []) /\
  (ContinueRequest ∈ calls ->
   exists rs rest final, events.*1 = rs ++ rest /\ screened c index body rs final /\
     endings calls = [ContinueRequest] /\ AppendRequestBody true final ∈ calls /\
     callout_paths calls = guardrail_path <$> drop (S index) (BedrockGuardrails c)).
Proof.
  revert index body calls. induction events as [|[r started] events IH]; intros index body calls; cbn [run_replies].
  { intros [= <- <-]. split_and!; [done|done|]. by intros ?%not_elem_of_nil. }
  destruct (done_callback c index body r started) as [[a' l1]|] eqn:Hd; [|done].
  destruct (replies c a' events) as [[a2 l2]|] eqn:Hrest; [|done]. intros [= <- <-].
  destruct (guardrail_reply_spec _ _ _ _ _ _ Hd) as [(status & msg & Ha & Hl)|(body' & Hp & Hnext)].
  - cbn in Ha, Hl. subst a' l1. destruct events; injection Hrest as <- <-; rewrite app_nil_r;
      (split_and!; [done|done|by intros [?|?%not_elem_of_nil]%elem_of_cons]).
  - destruct (BedrockGuardrails c !! S index) as [g|] eqn:Hg.
    + destruct Hnext as (e1 & e2 & Hm).
      destruct (start_callout_spec c g (S index) body' (TimeoutMs c) started e1 e2) as [(Hv & He & Hc)|(Hv & msg & He)];
        rewrite <- Hm in *; cbn [val_of calls_of fst snd] in *; subst a'.
      * destruct (IH _ _ _ Hrest) as (Hover & Hwait & Hcont). rewrite guardrail_endings_app, callout_paths_app, He, Hc. cbn [app].
        split_and!; [done|done|]. intros [Hin|Hin]%elem_of_app.
        { assert (ContinueRequest ∈ endings l1) as Hin' by (by apply list_elem_of_filter).
          rewrite He in Hin'. by apply not_elem_of_nil in Hin'. }
        destruct (Hcont Hin) as (rs & rest & final & Hev & Hs & Hend & Happ & Hpaths).
        exists (r :: rs), rest, final. split_and!; [by cbn; rewrite Hev|by econstructor|done|set_solver|].
        rewrite Hpaths. rewrite (drop_S _ _ _ Hg). done.
      * destruct events; injection Hrest as <- <-; rewrite app_nil_r, He;
          (split_and!; [done|done|]; intros Hin;
           assert (ContinueRequest ∈ endings l1) as Hin' by (by apply list_elem_of_filter);
           rewrite He in Hin'; by apply list_elem_of_singleton in Hin').
    + injection Hnext as -> ->. assert (a2 = Over /\ l2 = []) as [-> ->] by (destruct events; by injection Hrest).
      rewrite app_nil_r. split_and!; [done|done|]. intros _. exists [r], events.*1, body'.
      split_and!; [done|by constructor|done|by left|].
      rewrite drop_ge; [done|]. by apply lookup_ge_None.
Qed.

(** A whole request: the end of its body, then the replies.  The first component tells that
    it was let through at once. *)
Definition handle_request (c : bedrockGuardrailsConfig) (body : string) (sizes : Z * Z)
    (started : HttpCalloutInitResult) (events : list (CalloutReply * HttpCalloutInitResult))
    : option (Host (bool * After)) :=
  let '(p, calls) := process c body sizes started in
  match p with
  | None => Some (true, Over, calls)
  | Some a => (fun m : Host After => run (tt, calls); do a <- m; hret (false, a)) <$> replies c a events
  end.

(** C7: a request with a body is continued only if every configured guardrail was called, in
    the configured order, and its reply let the prompts pass as the previous guardrails left
    them; the body sent on is the one the last guardrail left, and nothing else was
    answered.  A request that is over without being continued was answered exactly once, and
    only requests without a body, or without guardrails, are let through unscreened. *)
Theorem bedrock_all_guardrails c body sizes started events through a calls :
  handle_request c body sizes started events = Some (through, a, calls) ->
  (through = true <-> body = "" \/ BedrockGuardrails c = []) /\
  (through = true -> calls = []) /\
  (through = false -> a = Over -> length (endings calls) = 1%nat) /\
  (ContinueRequest ∈ calls ->
   exists rs rest final, events.*1 = rs ++ rest /\ screened c 0 body rs final /\
     length rs = length (BedrockGuardrails c) /\ endings calls = [ContinueRequest] /\
     AppendRequestBody true final ∈ calls /\ callout_paths calls = guardrail_path <$> BedrockGuardrails c).
Proof.
  unfold handle_request, processRequestbody. destruct (decide (body = "")) as [Hb|Hb].
  { intros [= <- <- <-]. split_and!; [tauto|done|done|by intros ?%not_elem_of_nil]. }
  destruct (BedrockGuardrails c) as [|g gs] eqn:Hg.
  { intros [= <- <- <-]. split_and!; [tauto|done|done|by intros ?%not_elem_of_nil]. }
  set (m := start c g 0 body (1000 * 20) started _ _). destruct m as [a0 l0] eqn:Hm.
  pose proof (start_callout_spec c g 0 body (1000 * 20) started
    ("error getting callout headers: " +:+ error_text body) ("error calling out: " +:+ init_text started)) as Hs.
  fold m in Hs. rewrite Hm in Hs. cbn [val_of calls_of fst snd hbind hret hcall app] in *.
  destruct (replies c a0 events) as [[a1 l1]|] eqn:Hr; [|done]. cbn [fmap option_fmap option_map hbind hret].
  intros [= <- <- <-]. rewrite !app_nil_r. destruct Hs as [(-> & He & Hc)|(-> & msg & He)].
  - destruct (run_replies_spec _ _ _ _ _ _ Hr) as (Hover & _ & Hcont).
    split_and!; [intuition congruence|done| |].
    + intros _ Ha. change (endings (_ :: _ :: _ :: l0 ++ l1)) with (endings (l0 ++ l1)).
      rewrite guardrail_endings_app, He. by apply Hover.
    + intros Hin. assert (Hin1 : ContinueRequest ∈ l1).
      { assert (ContinueRequest ∈ endings (l0 ++ l1)) as Hin'.
        { apply list_elem_of_filter. split; [done|]. rewrite !elem_of_cons in Hin. intuition discriminate. }
        rewrite guardrail_endings_app, He in Hin'. by apply list_elem_of_filter in Hin' as [_ ?]. }
      destruct (Hcont Hin1) as (rs & rest & final & Hev & Hscr & Hend & Happ & Hpaths). exists rs, rest, final.
      pose proof (screened_length _ _ _ _ _ Hscr) as Hlen. rewrite Hg in Hlen, Hpaths.
      split_and!; try done.
      * rewrite Hlen by (cbn; lia). lia.
      * change (endings (_ :: _ :: _ :: l0 ++ l1)) with (endings (l0 ++ l1)). by rewrite guardrail_endings_app, He.
      * set_solver.
      * change (callout_paths (_ :: _ :: _ :: l0 ++ l1)) with (callout_paths (l0 ++ l1)).
        by rewrite callout_paths_app, Hc, Hpaths.
  - assert (a1 = Over /\ l1 = []) as [-> ->] by (destruct events; by injection Hr).
    rewrite !app_nil_r. split_and!; [intuition congruence|done| |].
    + intros _ _. change (endings (_ :: _ :: _ :: l0)) with (endings l0). by rewrite He.
    + intros Hin. assert (ContinueRequest ∈ endings l0) as Hin'.
      { apply list_elem_of_filter. split; [done|]. rewrite !elem_of_cons in Hin. intuition discriminate. }
      rewrite He in Hin'. by apply list_elem_of_singleton in Hin'.
Qed.

(** A reply without assessments, or a null one, makes the callback panic. *)
Lemma bedrock_panics c index body r started :
  done_callback c index body r started = None <->
  reply_result r = HttpCalloutSuccess /\ HasPrefix (headerValue (reply_headers r) ":status") "2" = true /\
  (resp_Unmarshal (joinBody (reply_body r)) = Some None \/
   exists resp, resp_Unmarshal (joinBody (reply_body r)) = Some (Some resp) /\ blocked resp = false /\
     Assessments resp = [] /\ is_Some (match Outputs resp with [] => Some body | messages => replace body messages end)).
Proof.
  unfold OnHttpCalloutDone. cbv zeta.
  case_bool_decide as Hr; cbn [negb]; [|split; [done|tauto]].
  destruct (HasPrefix _ "2") eqn:H2; cbn [negb]; [|split; [done|intros (_ & H2' & _); congruence]].
  destruct (resp_Unmarshal _) as [[resp|]|] eqn:Hu; [|split; auto|split; [done|intros (_ & _ & [?|(? & ? & _)]); congruence]].
  split.
  - destruct (blocked resp) eqn:Hb; [done|].
    destruct (match Outputs resp with [] => Some body | _ => _ end) as [body'|] eqn:Ho; [|done].
    destruct (Assessments resp) eqn:Ha; [|by destruct (BedrockGuardrails c !! S index)].
    intros _. split_and!; try done. right. exists resp. rewrite Ho. split_and!; eauto.
  - intros (_ & _ & [?|(resp' & [= <-] & Hb & Ha & [body' Ho])]); [done|]. by rewrite Hb, Ho, Ha.
Qed.
End Chain.

(** ** Witness *)

Definition ex_config : bedrockGuardrailsConfig :=
  mkBedrockGuardrailsConfig "bedrock.aws" "bedrock" "key" [mkBedrockGuardrail "a" "1"; mkBedrockGuardrail "b" "2"] 10000.
Definition ex_request (body : string) : option (ChatRequest unit unit) :=
  Some (mkChatRequest [mkMessage "user" body tt] tt).
Definition ex_reply : CalloutReply := mkCalloutReply HttpCalloutSuccess [(":status", "200")] ["masked"].
Definition ex_response (s : string) : option (option ApplyGuardrailResponse) :=
  Some (Some (mkApplyGuardrailResponse "NONE" [s] [mkAssessment [] [] []])).
Definition ex_marshal (r : ChatRequest unit unit) : option string := Some (Join (Content <$> Messages r) ";").

Definition ex_run : option (Host (bool * After)) :=
  handle_request ex_request ex_marshal Some (fun _ => None) (fun _ => None) (fun l => Some (Join l ","))
    ex_response (fun s => s) (fun _ => "") (fun _ => "") (fun _ => "") ex_config "secret" (6, 0) HttpCalloutInitSuccess
    [(ex_reply, HttpCalloutInitSuccess); (ex_reply, HttpCalloutInitSuccess)].

Lemma bedrock_all_guardrails_witness :
  exists calls, ex_run = Some (false, Over, calls) /\
    callout_paths calls = ["/guardrail/a/version/1/apply"; "/guardrail/b/version/2/apply"] /\
    AppendRequestBody true "masked" ∈ calls.
Proof.
  destruct ex_run as [[[t a] calls]|] eqn:Hr; [|vm_compute in Hr; discriminate].
  assert (t = false /\ a = Over) as [-> ->] by (vm_compute in Hr; injection Hr as <- <- _; done).
  exists calls. split; [reflexivity|].
  destruct (bedrock_all_guardrails _ _ _ _ _ _ _ _ _ _ _ _ _ _ _ _ _ _ _ Hr) as (_ & _ & _ & Hc).
  assert (Hin : ContinueRequest ∈ calls).
  { vm_compute in Hr. injection Hr as <-. apply list_elem_of_In. cbn. tauto. }
  destruct (Hc Hin) as (rs & rest & final & _ & _ & _ & _ & Happ & ->). split; [reflexivity|].
  vm_compute in Hr. injection Hr as <-. apply list_elem_of_In. cbn. tauto.
Defined.
