(* ===== verification/AzureParsers.v ===== *)
(** * azure-content-safety: the request and response formats

    extensions/composer/azure-content-safety/parser.go, openai.go, anthropic.go and
    openai_responses.go: which of three API formats a body has, the texts that are taken from
    it, and its translation for the task adherence service.  Bodies are decoded by the model
    of encoding/json in GoJson. *)

From S2P Require Import Prelude GoStr GoNum GoPath GoCodec Host GoJson.
From Stdlib Require Import Lia Ascii.

Local Open Scope go_scope.

Definition line_sep : string := String "010" EmptyString.

(** The texts that are not empty. *)
Definition nonempty (texts : list string) : list string := filter (fun t => t <> "") texts.

(** ** The task adherence request *)

Record taskAdherenceToolFunction : Type := mkTaskAdherenceToolFunction { tf_Name : string; tf_Description : string }.
Record taskAdherenceTool : Type := mkTaskAdherenceTool { tt_Type : string; tt_Function : taskAdherenceToolFunction }.
Record taskAdherenceToolCallFunction : Type := mkTaskAdherenceToolCallFunction { tcf_Name : string; tcf_Arguments : string }.
Record taskAdherenceToolCall : Type := mkTaskAdherenceToolCall {
  tc_ID : string;
  tc_Type : string;
  tc_Function : taskAdherenceToolCallFunction;
}.
Record taskAdherenceMessage : Type := mkTaskAdherenceMessage {
  tm_Source : string;
  tm_Role : string;
  tm_Contents : string;
  tm_ToolCalls : list taskAdherenceToolCall;
  tm_ToolCallID : string;
}.
Record taskAdherenceRequest : Type := mkTaskAdherenceRequest {
  ta_Tools : list taskAdherenceTool;
  ta_Messages : list taskAdherenceMessage;
}.

(** ** Formats *)

Inductive apiFormat : Type := formatUnknown | formatChatCompletions | formatResponses | formatAnthropic.

#[export] Instance apiFormat_eq_dec : EqDecision apiFormat.
Proof. solve_decision. Defined.

Definition apiFormat_String (f : apiFormat) : string :=
  match f with
  | formatChatCompletions => "OpenAI Chat Completions"
  | formatResponses => "OpenAI Responses"
  | formatAnthropic => "Anthropic Messages"
  | formatUnknown => "unknown"
  end.

Record requestProbe : Type := mkRequestProbe { rp_Input : RawMessage; rp_Messages : RawMessage; rp_System : RawMessage }.

#[export] Instance decode_requestProbe : Decodable requestProbe := {
  zero_value := mkRequestProbe zero_value zero_value zero_value;
  decode_into := decode_struct [
    field "input" rp_Input (fun v p => mkRequestProbe v (rp_Messages p) (rp_System p));
    field "messages" rp_Messages (fun v p => mkRequestProbe (rp_Input p) v (rp_System p));
    field "system" rp_System (fun v p => mkRequestProbe (rp_Input p) (rp_Messages p) v)];
}.

(** [len(raw) > 0]. *)
Definition present (r : RawMessage) : bool := negb (bool_decide (raw_text r = "")).

Definition detectRequestFormat (body : string) : apiFormat :=
  match Unmarshal_ok (A := requestProbe) body with
  | None => formatUnknown
  | Some probe =>
      if present (rp_Input probe) then formatResponses
      else if present (rp_Messages probe) then
        if present (rp_System probe) then formatAnthropic else formatChatCompletions
      else formatUnknown
  end.

Record responseProbe : Type := mkResponseProbe {
  sp_Output : RawMessage;
  sp_Type : string;
  sp_Content : RawMessage;
  sp_Role : string;
  sp_Choices : RawMessage;
}.

#[export] Instance decode_responseProbe : Decodable responseProbe := {
  zero_value := mkResponseProbe zero_value zero_value zero_value zero_value zero_value;
  decode_into := decode_struct [
    field "output" sp_Output (fun v p => mkResponseProbe v (sp_Type p) (sp_Content p) (sp_Role p) (sp_Choices p));
    field "type" sp_Type (fun v p => mkResponseProbe (sp_Output p) v (sp_Content p) (sp_Role p) (sp_Choices p));
    field "content" sp_Content (fun v p => mkResponseProbe (sp_Output p) (sp_Type p) v (sp_Role p) (sp_Choices p));
    field "role" sp_Role (fun v p => mkResponseProbe (sp_Output p) (sp_Type p) (sp_Content p) v (sp_Choices p));
    field "choices" sp_Choices (fun v p => mkResponseProbe (sp_Output p) (sp_Type p) (sp_Content p) (sp_Role p) v)];
}.

Definition detectResponseFormat (body : string) : apiFormat :=
  match Unmarshal_ok (A := responseProbe) body with
  | None => formatUnknown
  | Some probe =>
      if present (sp_Output probe) then formatResponses
      else if bool_decide (sp_Type probe = "message") && present (sp_Content probe) &&
              negb (bool_decide (sp_Role probe = "")) then formatAnthropic
      else if present (sp_Choices probe) then formatChatCompletions
      else formatUnknown
  end.

(** [strings.ToUpper] of the first byte alone: a byte of a longer rune becomes U+FFFD. *)
Definition upper_byte (c : ascii) (rest : string) : string :=
  if between 97 122 c then String (ascii_of_N (N_of_ascii c - 32)) rest
  else if between 0 127 c then String c rest else replacement rest.

Definition titleCase (role : string) : string :=
  match role with
  | EmptyString => ""
  | String c rest => upper_byte c rest
  end.

Definition roleToSource (role : string) : string :=
  if bool_decide (role ∈ ["user"; "system"; "developer"]) then "Prompt"
  else if bool_decide (role ∈ ["assistant"; "tool"]) then "Completion"
  else "Prompt".

(** The parser interface; errors are [None]. *)
Record Parser : Type := mkParser {
  ParseRequest : string -> option (string * list string);
  ParseResponse : string -> option string;
  ParseRequestForTaskAdherence : string -> option taskAdherenceRequest;
}.

(** ** Chat Completions *)

Record chatMessage : Type := mkChatMessage { cm_Role : string; cm_Content : RawMessage }.

#[export] Instance decode_chatMessage : Decodable chatMessage := {
  zero_value := mkChatMessage zero_value zero_value;
  decode_into := decode_struct [
    field "role" cm_Role (fun v m => mkChatMessage v (cm_Content m));
    field "content" cm_Content (fun v m => mkChatMessage (cm_Role m) v)];
}.

Record chatCompletionRequest : Type := mkChatCompletionRequest { cr_Messages : list chatMessage }.

#[export] Instance decode_chatCompletionRequest : Decodable chatCompletionRequest := {
  zero_value := mkChatCompletionRequest zero_value;
  decode_into := decode_struct [field "messages" cr_Messages (fun v _ => mkChatCompletionRequest v)];
}.

Record chatChoiceMessage : Type := mkChatChoiceMessage { ccm_Role : string; ccm_Content : string }.

#[export] Instance decode_chatChoiceMessage : Decodable chatChoiceMessage := {
  zero_value := mkChatChoiceMessage zero_value zero_value;
  decode_into := decode_struct [
    field "role" ccm_Role (fun v m => mkChatChoiceMessage v (ccm_Content m));
    field "content" ccm_Content (fun v m => mkChatChoiceMessage (ccm_Role m) v)];
}.

Record chatChoice : Type := mkChatChoice { cc_Message : option chatChoiceMessage }.

#[export] Instance decode_chatChoice : Decodable chatChoice := {
  zero_value := mkChatChoice zero_value;
  decode_into := decode_struct [field "message" cc_Message (fun v _ => mkChatChoice v)];
}.

Record chatCompletionResponse : Type := mkChatCompletionResponse { cp_Choices : list chatChoice }.

#[export] Instance decode_chatCompletionResponse : Decodable chatCompletionResponse := {
  zero_value := mkChatCompletionResponse zero_value;
  decode_into := decode_struct [field "choices" cp_Choices (fun v _ => mkChatCompletionResponse v)];
}.

Record contentPart : Type := mkContentPart { part_Type : string; part_Text : string }.

#[export] Instance decode_contentPart : Decodable contentPart := {
  zero_value := mkContentPart zero_value zero_value;
  decode_into := decode_struct [
    field "type" part_Type (fun v p => mkContentPart v (part_Text p));
    field "text" part_Text (fun v p => mkContentPart (part_Type p) v)];
}.

(** Content that is a string, or an array whose parts are read by [texts]; anything else has
    no text. *)
Definition extract_text {A} `{!Decodable A} (texts : list A -> list string) (raw : RawMessage) : string :=
  if bool_decide (raw_text raw = "") then ""
  else match Unmarshal_ok (A := string) (raw_text raw) with
  | Some s => s
  | None =>
      match Unmarshal_ok (A := list A) (raw_text raw) with
      | Some parts => Join (nonempty (texts parts)) line_sep
      | None => ""
      end
  end.

Definition extractContent : RawMessage -> string :=
  extract_text (fun parts => part_Text <$> filter (fun p => part_Type p = "text") parts).

(** The texts of the messages of a role. *)
Definition texts_of_role {M} (role : M -> string) (text : M -> string) (r : string) (msgs : list M) : list string :=
  nonempty (text <$> filter (fun m => role m = r) msgs).

Definition ParseChatRequest (body : string) : option (string * list string) :=
  match Unmarshal_ok (A := chatCompletionRequest) body with
  | None => None
  | Some req =>
      let texts r := texts_of_role cm_Role (extractContent ∘ cm_Content) r (cr_Messages req) in
      Some (Join (texts "user") line_sep, texts "system")
  end.

Definition ParseChatResponse (body : string) : option string :=
  match Unmarshal_ok (A := chatCompletionResponse) body with
  | None => None
  | Some resp => Some (Join (nonempty (ccm_Content <$> omap cc_Message (cp_Choices resp))) line_sep)
  end.

Record chatToolCallFunction : Type := mkChatToolCallFunction { ctcf_Name : string; ctcf_Arguments : string }.

#[export] Instance decode_chatToolCallFunction : Decodable chatToolCallFunction := {
  zero_value := mkChatToolCallFunction zero_value zero_value;
  decode_into := decode_struct [
    field "name" ctcf_Name (fun v f => mkChatToolCallFunction v (ctcf_Arguments f));
    field "arguments" ctcf_Arguments (fun v f => mkChatToolCallFunction (ctcf_Name f) v)];
}.

Record chatToolCall : Type := mkChatToolCall { ctc_ID : string; ctc_Type : string; ctc_Function : chatToolCallFunction }.

#[export] Instance decode_chatToolCall : Decodable chatToolCall := {
  zero_value := mkChatToolCall zero_value zero_value zero_value;
  decode_into := decode_struct [
    field "id" ctc_ID (fun v c => mkChatToolCall v (ctc_Type c) (ctc_Function c));
    field "type" ctc_Type (fun v c => mkChatToolCall (ctc_ID c) v (ctc_Function c));
    field "function" ctc_Function (fun v c => mkChatToolCall (ctc_ID c) (ctc_Type c) v)];
}.

Record chatToolFunction : Type := mkChatToolFunction { ctf_Name : string; ctf_Description : string }.

#[export] Instance decode_chatToolFunction : Decodable chatToolFunction := {
  zero_value := mkChatToolFunction zero_value zero_value;
  decode_into := decode_struct [
    field "name" ctf_Name (fun v f => mkChatToolFunction v (ctf_Description f));
    field "description" ctf_Description (fun v f => mkChatToolFunction (ctf_Name f) v)];
}.

Record chatTool : Type := mkChatTool { ct_Type : string; ct_Function : chatToolFunction }.

#[export] Instance decode_chatTool : Decodable chatTool := {
  zero_value := mkChatTool zero_value zero_value;
  decode_into := decode_struct [
    field "type" ct_Type (fun v t => mkChatTool v (ct_Function t));
    field "function" ct_Function (fun v t => mkChatTool (ct_Type t) v)];
}.

Record chatMessageFull : Type := mkChatMessageFull {
  cmf_Role : string;
  cmf_Content : RawMessage;
  cmf_ToolCalls : list chatToolCall;
  cmf_ToolCallID : string;
}.

#[export] Instance decode_chatMessageFull : Decodable chatMessageFull := {
  zero_value := mkChatMessageFull zero_value zero_value zero_value zero_value;
  decode_into := decode_struct [
    field "role" cmf_Role (fun v m => mkChatMessageFull v (cmf_Content m) (cmf_ToolCalls m) (cmf_ToolCallID m));
    field "content" cmf_Content (fun v m => mkChatMessageFull (cmf_Role m) v (cmf_ToolCalls m) (cmf_ToolCallID m));
    field "tool_calls" cmf_ToolCalls (fun v m => mkChatMessageFull (cmf_Role m) (cmf_Content m) v (cmf_ToolCallID m));
    field "tool_call_id" cmf_ToolCallID (fun v m => mkChatMessageFull (cmf_Role m) (cmf_Content m) (cmf_ToolCalls m) v)];
}.

Record chatCompletionRequestFull : Type := mkChatCompletionRequestFull {
  crf_Messages : list chatMessageFull;
  crf_Tools : list chatTool;
}.

#[export] Instance decode_chatCompletionRequestFull : Decodable chatCompletionRequestFull := {
  zero_value := mkChatCompletionRequestFull zero_value zero_value;
  decode_into := decode_struct [
    field "messages" crf_Messages (fun v r => mkChatCompletionRequestFull v (crf_Tools r));
    field "tools" crf_Tools (fun v r => mkChatCompletionRequestFull (crf_Messages r) v)];
}.

Definition chat_tool_call (tc : chatToolCall) : taskAdherenceToolCall :=
  mkTaskAdherenceToolCall (ctc_ID tc) (ctc_Type tc)
    (mkTaskAdherenceToolCallFunction (ctcf_Name (ctc_Function tc)) (ctcf_Arguments (ctc_Function tc))).

Definition parseChatRequestForTaskAdherence (body : string) : option taskAdherenceRequest :=
  match Unmarshal_ok (A := chatCompletionRequestFull) body with
  | None => None
  | Some req =>
      Some (mkTaskAdherenceRequest
        ((fun t => mkTaskAdherenceTool (ct_Type t)
                     (mkTaskAdherenceToolFunction (ctf_Name (ct_Function t)) (ctf_Description (ct_Function t))))
           <$> crf_Tools req)
        ((fun msg => mkTaskAdherenceMessage (roleToSource (cmf_Role msg)) (titleCase (cmf_Role msg))
                       (extractContent (cmf_Content msg)) (chat_tool_call <$> cmf_ToolCalls msg) (cmf_ToolCallID msg))
           <$> crf_Messages req))
  end.

Definition chatCompletionsParser : Parser :=
  mkParser ParseChatRequest ParseChatResponse parseChatRequestForTaskAdherence.

(** ** Anthropic Messages *)

Record anthropicContentBlock : Type := mkAnthropicContentBlock {
  ab_Type : string;
  ab_Text : string;
  ab_ID : string;
  ab_Name : string;
  ab_Input : RawMessage;
  ab_ToolUseID : string;
  ab_Content : RawMessage;
}.

#[export] Instance decode_anthropicContentBlock : Decodable anthropicContentBlock := {
  zero_value := mkAnthropicContentBlock zero_value zero_value zero_value zero_value zero_value zero_value zero_value;
  decode_into := decode_struct [
    field "type" ab_Type (fun v b => mkAnthropicContentBlock v (ab_Text b) (ab_ID b) (ab_Name b) (ab_Input b) (ab_ToolUseID b) (ab_Content b));
    field "text" ab_Text (fun v b => mkAnthropicContentBlock (ab_Type b) v (ab_ID b) (ab_Name b) (ab_Input b) (ab_ToolUseID b) (ab_Content b));
    field "id" ab_ID (fun v b => mkAnthropicContentBlock (ab_Type b) (ab_Text b) v (ab_Name b) (ab_Input b) (ab_ToolUseID b) (ab_Content b));
    field "name" ab_Name (fun v b => mkAnthropicContentBlock (ab_Type b) (ab_Text b) (ab_ID b) v (ab_Input b) (ab_ToolUseID b) (ab_Content b));
    field "input" ab_Input (fun v b => mkAnthropicContentBlock (ab_Type b) (ab_Text b) (ab_ID b) (ab_Name b) v (ab_ToolUseID b) (ab_Content b));
    field "tool_use_id" ab_ToolUseID (fun v b => mkAnthropicContentBlock (ab_Type b) (ab_Text b) (ab_ID b) (ab_Name b) (ab_Input b) v (ab_Content b));
    field "content" ab_Content (fun v b => mkAnthropicContentBlock (ab_Type b) (ab_Text b) (ab_ID b) (ab_Name b) (ab_Input b) (ab_ToolUseID b) v)];
}.

Record anthropicMessage : Type := mkAnthropicMessage { am_Role : string; am_Content : RawMessage }.

#[export] Instance decode_anthropicMessage : Decodable anthropicMessage := {
  zero_value := mkAnthropicMessage zero_value zero_value;
  decode_into := decode_struct [
    field "role" am_Role (fun v m => mkAnthropicMessage v (am_Content m));
    field "content" am_Content (fun v m => mkAnthropicMessage (am_Role m) v)];
}.

Record anthropicTool : Type := mkAnthropicTool { at_Name : string; at_Description : string; at_InputSchema : RawMessage }.

#[export] Instance decode_anthropicTool : Decodable anthropicTool := {
  zero_value := mkAnthropicTool zero_value zero_value zero_value;
  decode_into := decode_struct [
    field "name" at_Name (fun v t => mkAnthropicTool v (at_Description t) (at_InputSchema t));
    field "description" at_Description (fun v t => mkAnthropicTool (at_Name t) v (at_InputSchema t));
    field "input_schema" at_InputSchema (fun v t => mkAnthropicTool (at_Name t) (at_Description t) v)];
}.

Record anthropicRequest : Type := mkAnthropicRequest {
  ar_System : RawMessage;
  ar_Messages : list anthropicMessage;
  ar_Tools : list anthropicTool;
}.

#[export] Instance decode_anthropicRequest : Decodable anthropicRequest := {
  zero_value := mkAnthropicRequest zero_value zero_value zero_value;
  decode_into := decode_struct [
    field "system" ar_System (fun v r => mkAnthropicRequest v (ar_Messages r) (ar_Tools r));
    field "messages" ar_Messages (fun v r => mkAnthropicRequest (ar_System r) v (ar_Tools r));
    field "tools" ar_Tools (fun v r => mkAnthropicRequest (ar_System r) (ar_Messages r) v)];
}.

Record anthropicResponse : Type := mkAnthropicResponse {
  as_Type : string;
  as_Role : string;
  as_Content : list anthropicContentBlock;
}.

#[export] Instance decode_anthropicResponse : Decodable anthropicResponse := {
  zero_value := mkAnthropicResponse zero_value zero_value zero_value;
  decode_into := decode_struct [
    field "type" as_Type (fun v r => mkAnthropicResponse v (as_Role r) (as_Content r));
    field "role" as_Role (fun v r => mkAnthropicResponse (as_Type r) v (as_Content r));
    field "content" as_Content (fun v r => mkAnthropicResponse (as_Type r) (as_Role r) v)];
}.

(** The texts of the text blocks. *)
Definition block_texts (blocks : list anthropicContentBlock) : list string :=
  ab_Text <$> filter (fun b => ab_Type b = "text") blocks.

Definition extractAnthropicSystem : RawMessage -> string := extract_text block_texts.
Definition extractAnthropicContent : RawMessage -> string := extract_text block_texts.

Definition anthropic_ParseRequest (body : string) : option (string * list string) :=
  match Unmarshal_ok (A := anthropicRequest) body with
  | None => None
  | Some req =>
      Some (Join (texts_of_role am_Role (extractAnthropicContent ∘ am_Content) "user" (ar_Messages req)) line_sep,
            nonempty [extractAnthropicSystem (ar_System req)])
  end.

Definition anthropic_ParseResponse (body : string) : option string :=
  match Unmarshal_ok (A := anthropicResponse) body with
  | None => None
  | Some resp => Some (Join (nonempty (block_texts (as_Content resp))) line_sep)
  end.

Definition block_tool_call (b : anthropicContentBlock) : taskAdherenceToolCall :=
  mkTaskAdherenceToolCall (ab_ID b) "function" (mkTaskAdherenceToolCallFunction (ab_Name b) (raw_text (ab_Input b))).

(** The messages one Anthropic message becomes: itself, then its tool results; an error in
    its blocks is ignored. *)
Definition anthropic_messages (msg : anthropicMessage) : list taskAdherenceMessage :=
  let blocks : list anthropicContentBlock := (Unmarshal (raw_text (am_Content msg))).1 in
  mkTaskAdherenceMessage (roleToSource (am_Role msg)) (titleCase (am_Role msg)) (extractAnthropicContent (am_Content msg))
    (if bool_decide (am_Role msg = "assistant")
     then block_tool_call <$> filter (fun b => ab_Type b = "tool_use") blocks else []) "" ::
  (if bool_decide (am_Role msg = "user")
   then (fun b => mkTaskAdherenceMessage "Completion" "Tool" (extractAnthropicContent (ab_Content b)) [] (ab_ToolUseID b))
          <$> filter (fun b => ab_Type b = "tool_result") blocks
   else []).

Definition anthropic_ParseRequestForTaskAdherence (body : string) : option taskAdherenceRequest :=
  match Unmarshal_ok (A := anthropicRequest) body with
  | None => None
  | Some req =>
      Some (mkTaskAdherenceRequest
        ((fun t => mkTaskAdherenceTool "function" (mkTaskAdherenceToolFunction (at_Name t) (at_Description t)))
           <$> ar_Tools req)
        (((fun sys => mkTaskAdherenceMessage "Prompt" "System" sys [] "")
            <$> nonempty [extractAnthropicSystem (ar_System req)]) ++
         (ar_Messages req ≫= anthropic_messages)))
  end.

Definition anthropicParser : Parser :=
  mkParser anthropic_ParseRequest anthropic_ParseResponse anthropic_ParseRequestForTaskAdherence.

(** ** Responses *)

Record responsesInputItem : Type := mkResponsesInputItem {
  ri_Type : string;
  ri_Role : string;
  ri_Content : RawMessage;
  ri_CallID : string;
  ri_Name : string;
  ri_Arguments : string;
  ri_Output : string;
}.

#[export] Instance decode_responsesInputItem : Decodable responsesInputItem := {
  zero_value := mkResponsesInputItem zero_value zero_value zero_value zero_value zero_value zero_value zero_value;
  decode_into := decode_struct [
    field "type" ri_Type (fun v i => mkResponsesInputItem v (ri_Role i) (ri_Content i) (ri_CallID i) (ri_Name i) (ri_Arguments i) (ri_Output i));
    field "role" ri_Role (fun v i => mkResponsesInputItem (ri_Type i) v (ri_Content i) (ri_CallID i) (ri_Name i) (ri_Arguments i) (ri_Output i));
    field "content" ri_Content (fun v i => mkResponsesInputItem (ri_Type i) (ri_Role i) v (ri_CallID i) (ri_Name i) (ri_Arguments i) (ri_Output i));
    field "call_id" ri_CallID (fun v i => mkResponsesInputItem (ri_Type i) (ri_Role i) (ri_Content i) v (ri_Name i) (ri_Arguments i) (ri_Output i));
    field "name" ri_Name (fun v i => mkResponsesInputItem (ri_Type i) (ri_Role i) (ri_Content i) (ri_CallID i) v (ri_Arguments i) (ri_Output i));
    field "arguments" ri_Arguments (fun v i => mkResponsesInputItem (ri_Type i) (ri_Role i) (ri_Content i) (ri_CallID i) (ri_Name i) v (ri_Output i));
    field "output" ri_Output (fun v i => mkResponsesInputItem (ri_Type i) (ri_Role i) (ri_Content i) (ri_CallID i) (ri_Name i) (ri_Arguments i) v)];
}.

Record responsesContentPart : Type := mkResponsesContentPart { rcp_Type : string; rcp_Text : string }.

#[export] Instance decode_responsesContentPart : Decodable responsesContentPart := {
  zero_value := mkResponsesContentPart zero_value zero_value;
  decode_into := decode_struct [
    field "type" rcp_Type (fun v p => mkResponsesContentPart v (rcp_Text p));
    field "text" rcp_Text (fun v p => mkResponsesContentPart (rcp_Type p) v)];
}.

Record responsesTool : Type := mkResponsesTool { rt_Type : string; rt_Name : string; rt_Description : string }.

#[export] Instance decode_responsesTool : Decodable responsesTool := {
  zero_value := mkResponsesTool zero_value zero_value zero_value;
  decode_into := decode_struct [
    field "type" rt_Type (fun v t => mkResponsesTool v (rt_Name t) (rt_Description t));
    field "name" rt_Name (fun v t => mkResponsesTool (rt_Type t) v (rt_Description t));
    field "description" rt_Description (fun v t => mkResponsesTool (rt_Type t) (rt_Name t) v)];
}.

Record responsesRequest : Type := mkResponsesRequest { rr_Input : RawMessage; rr_Tools : list responsesTool }.

#[export] Instance decode_responsesRequest : Decodable responsesRequest := {
  zero_value := mkResponsesRequest zero_value zero_value;
  decode_into := decode_struct [
    field "input" rr_Input (fun v r => mkResponsesRequest v (rr_Tools r));
    field "tools" rr_Tools (fun v r => mkResponsesRequest (rr_Input r) v)];
}.

Record responsesOutputItem : Type := mkResponsesOutputItem {
  ro_Type : string;
  ro_Content : list responsesContentPart;
  ro_CallID : string;
  ro_Name : string;
  ro_Arguments : string;
}.

#[export] Instance decode_responsesOutputItem : Decodable responsesOutputItem := {
  zero_value := mkResponsesOutputItem zero_value zero_value zero_value zero_value zero_value;
  decode_into := decode_struct [
    field "type" ro_Type (fun v i => mkResponsesOutputItem v (ro_Content i) (ro_CallID i) (ro_Name i) (ro_Arguments i));
    field "content" ro_Content (fun v i => mkResponsesOutputItem (ro_Type i) v (ro_CallID i) (ro_Name i) (ro_Arguments i));
    field "call_id" ro_CallID (fun v i => mkResponsesOutputItem (ro_Type i) (ro_Content i) v (ro_Name i) (ro_Arguments i));
    field "name" ro_Name (fun v i => mkResponsesOutputItem (ro_Type i) (ro_Content i) (ro_CallID i) v (ro_Arguments i));
    field "arguments" ro_Arguments (fun v i => mkResponsesOutputItem (ro_Type i) (ro_Content i) (ro_CallID i) (ro_Name i) v)];
}.

Record responsesResponse : Type := mkResponsesResponse { rs_Output : list responsesOutputItem }.

#[export] Instance decode_responsesResponse : Decodable responsesResponse := {
  zero_value := mkResponsesResponse zero_value;
  decode_into := decode_struct [field "output" rs_Output (fun v _ => mkResponsesResponse v)];
}.

(** Every part has its text taken, whatever its type. *)
Definition extractResponsesContent : RawMessage -> string :=
  extract_text (fun parts : list responsesContentPart => rcp_Text <$> parts).

Definition responses_ParseRequest (body : string) : option (string * list string) :=
  match Unmarshal_ok (A := responsesRequest) body with
  | None => None
  | Some req =>
      match Unmarshal_ok (A := string) (raw_text (rr_Input req)) with
      | Some simpleInput => Some (simpleInput, [])
      | None =>
          match Unmarshal_ok (A := list responsesInputItem) (raw_text (rr_Input req)) with
          | None => None
          | Some items =>
              let texts r := texts_of_role ri_Role (extractResponsesContent ∘ ri_Content) r items in
              Some (Join (texts "user") line_sep, texts "developer")
          end
      end
  end.

Definition responses_ParseResponse (body : string) : option string :=
  match Unmarshal_ok (A := responsesResponse) body with
  | None => None
  | Some resp =>
      Some (Join (nonempty (rcp_Text <$> (filter (fun i => ro_Type i = "message") (rs_Output resp) ≫= ro_Content))) line_sep)
  end.

Definition input_message (item : responsesInputItem) : list taskAdherenceMessage :=
  if bool_decide (ri_Type item = "function_call") then
    [mkTaskAdherenceMessage "Completion" "Assistant" ""
       [mkTaskAdherenceToolCall (ri_CallID item) "function"
          (mkTaskAdherenceToolCallFunction (ri_Name item) (ri_Arguments item))] ""]
  else if bool_decide (ri_Type item = "function_call_output") then
    [mkTaskAdherenceMessage "Completion" "Tool" (ri_Output item) [] (ri_CallID item)]
  else if bool_decide (ri_Role item = "") then []
  else [mkTaskAdherenceMessage (roleToSource (ri_Role item)) (titleCase (ri_Role item))
          (extractResponsesContent (ri_Content item)) [] ""].

Definition responses_ParseRequestForTaskAdherence (body : string) : option taskAdherenceRequest :=
  match Unmarshal_ok (A := responsesRequest) body with
  | None => None
  | Some req =>
      let tools := (fun t => mkTaskAdherenceTool "function" (mkTaskAdherenceToolFunction (rt_Name t) (rt_Description t)))
                     <$> filter (fun t => rt_Type t = "function") (rr_Tools req) in
      match Unmarshal_ok (A := string) (raw_text (rr_Input req)) with
      | Some simpleInput => Some (mkTaskAdherenceRequest tools [mkTaskAdherenceMessage "Prompt" "User" simpleInput [] ""])
      | None =>
          match Unmarshal_ok (A := list responsesInputItem) (raw_text (rr_Input req)) with
          | None => None
          | Some items => Some (mkTaskAdherenceRequest tools (items ≫= input_message))
          end
      end
  end.

Definition responsesParser : Parser :=
  mkParser responses_ParseRequest responses_ParseResponse responses_ParseRequestForTaskAdherence.

Definition parserForFormat (format : apiFormat) : option Parser :=
  match format with
  | formatChatCompletions => Some chatCompletionsParser
  | formatResponses => Some responsesParser
  | formatAnthropic => Some anthropicParser
  | formatUnknown => None
  end.

Definition ex_tools : string := dq "{'system':[{'type':'text','text':'be kind'}],'messages':[
  {'role':'user','content':'hi'},
  {'role':'assistant','content':[{'type':'tool_use','id':'t1','name':'f','input':{'a' : 1}}]},
  {'role':'user','content':[{'type':'tool_result','tool_use_id':'t1','content':'ok'},{'type':'text','text':'go on'}]}],
  'tools':[{'name':'f','description':'d'}]}".

Example parsers_ex :
  detectRequestFormat ex_tools = formatAnthropic /\
  anthropic_ParseRequest ex_tools = Some ("hi" +:+ line_sep +:+ "go on", ["be kind"]) /\
  anthropic_ParseRequestForTaskAdherence ex_tools = Some (mkTaskAdherenceRequest
    [mkTaskAdherenceTool "function" (mkTaskAdherenceToolFunction "f" "d")]
    [mkTaskAdherenceMessage "Prompt" "System" "be kind" [] "";
     mkTaskAdherenceMessage "Prompt" "User" "hi" [] "";
     mkTaskAdherenceMessage "Completion" "Assistant" ""
       [mkTaskAdherenceToolCall "t1" "function" (mkTaskAdherenceToolCallFunction "f" (dq "{'a' : 1}"))] "";
     mkTaskAdherenceMessage "Prompt" "User" "go on" [] "";
     mkTaskAdherenceMessage "Completion" "Tool" "ok" [] "t1"]) /\
  responses_ParseResponse (dq "{'output':[{'type':'reasoning'},{'type':'message','content':[{'text':'a'},{'text':'b'}]}]}") =
    Some ("a" +:+ line_sep +:+ "b") /\
  detectResponseFormat (dq "{'choices':[{'message':{'content':'x'}}]}") = formatChatCompletions.
Proof. vm_compute. repeat split. Qed.

(** ** Which format a request has *)

(** A member of the object has the name, up to the case of its letters. *)
Definition has_member (members : list (string * Raw)) (name : string) : Prop :=
  Exists (fun m => fold_name m.1 = name) members.

Definition probe_fields : Fields requestProbe := [
  field "input" rp_Input (fun v p => mkRequestProbe v (rp_Messages p) (rp_System p));
  field "messages" rp_Messages (fun v p => mkRequestProbe (rp_Input p) v (rp_System p));
  field "system" rp_System (fun v p => mkRequestProbe (rp_Input p) (rp_Messages p) v)].

(** One member sets the field it names. *)
Lemma probe_member p key (r : Raw) :
  match find_field probe_fields key with Some d => d p r | None => (p, true) end =
  (mkRequestProbe (if decide (fold_name key = "input") then mkRawMessage r.1 else rp_Input p)
     (if decide (fold_name key = "messages") then mkRawMessage r.1 else rp_Messages p)
     (if decide (fold_name key = "system") then mkRawMessage r.1 else rp_System p), true).
Proof.
  unfold find_field, probe_fields, Fields. cbn [filter list_filter fst field].
  change (fold_name "input") with "input". change (fold_name "messages") with "messages".
  change (fold_name "system") with "system". destruct p as [pi pm ps]. cbn [rp_Input rp_Messages rp_System].
  destruct (decide ("input" = key)) as [<-|Hi]; [done|].
  destruct (decide ("messages" = key)) as [<-|Hm]; [done|].
  destruct (decide ("system" = key)) as [<-|Hs]; [done|].
  destruct (decide (fold_name key = "input")) as [E|]; [by rewrite E|].
  rewrite decide_False by congruence.
  destruct (decide (fold_name key = "messages")) as [E|]; [by rewrite E|].
  rewrite decide_False by congruence.
  destruct (decide (fold_name key = "system")) as [E|]; [by rewrite E|].
  by rewrite decide_False by congruence.
Qed.

(** A field is present after decoding if it was before or a member names it. *)
Lemma probe_members members p :
  Forall (fun m : string * Raw => m.2.1 <> "") members ->
  exists p', decode_members probe_fields p members = (p', true) /\
    (present (rp_Input p') = true <-> has_member members "input" \/ present (rp_Input p) = true) /\
    (present (rp_Messages p') = true <-> has_member members "messages" \/ present (rp_Messages p) = true) /\
    (present (rp_System p') = true <-> has_member members "system" \/ present (rp_System p) = true).
Proof.
  unfold has_member. intros Hall. revert p.
  induction Hall as [|[key r] members Hr Hall IH]; intros p; cbn [decode_members].
  { exists p. split; [done|]. rewrite !Exists_nil. tauto. }
  rewrite probe_member. edestruct IH as (p' & -> & H1 & H2 & H3). exists p'. cbn [andb rp_Input rp_Messages rp_System] in *.
  assert (Hp : forall n old, present (if decide (fold_name key = n) then mkRawMessage r.1 else old) = true <->
    fold_name key = n \/ present old = true).
  { intros n old. destruct (decide (fold_name key = n)); [|tauto]. split; [tauto|]. intros _. unfold present.
    rewrite negb_true_iff, bool_decide_eq_false. done. }
  split; [done|]. rewrite !Exists_cons, H1, H2, H3, !Hp. cbn [fst]. tauto.
Qed.

(** The format of a request is decided by the names of its top-level members alone, with
    any values, null included: [input] makes it a Responses request, else [messages] with
    [system] an Anthropic one, else [messages] a Chat Completions one; a body that is not a
    JSON object, or has neither member, has no format. *)
Theorem detectRequestFormat_spec body :
  match detectRequestFormat body with
  | formatResponses => exists t ms, scan_json body = Some (t, JObject ms) /\ has_member ms "input"
  | formatAnthropic => exists t ms, scan_json body = Some (t, JObject ms) /\
      ~ has_member ms "input" /\ has_member ms "messages" /\ has_member ms "system"
  | formatChatCompletions => exists t ms, scan_json body = Some (t, JObject ms) /\
      ~ has_member ms "input" /\ has_member ms "messages" /\ ~ has_member ms "system"
  | formatUnknown => forall t ms, scan_json body = Some (t, JObject ms) ->
      ~ has_member ms "input" /\ ~ has_member ms "messages"
  end.
Proof.
  unfold detectRequestFormat, Unmarshal_ok, Unmarshal. destruct (scan_json body) as [[t v]|] eqn:E; [|done].
  destruct v as [| | | | |ms]; try (cbn; intros ? ? [=]; done).
  change (decode_into zero_value (t, JObject ms))
    with (decode_members probe_fields (mkRequestProbe zero_value zero_value zero_value) ms).
  destruct (probe_members ms (mkRequestProbe zero_value zero_value zero_value) (scan_json_members _ _ _ E))
    as (p & -> & H1 & H2 & H3).
  change (present (rp_Input (mkRequestProbe _ _ _))) with false in H1.
  change (present (rp_Messages (mkRequestProbe _ _ _))) with false in H2.
  change (present (rp_System (mkRequestProbe _ _ _))) with false in H3.
  destruct (present (rp_Input p)) eqn:P1; [exists t, ms; split; [done|]; by destruct (proj1 H1 eq_refl)|].
  assert (Hni : ~ has_member ms "input") by (intros H; discriminate (proj2 H1 (or_introl H))).
  destruct (present (rp_Messages p)) eqn:P2.
  - assert (Hm : has_member ms "messages") by (by destruct (proj1 H2 eq_refl)).
    destruct (present (rp_System p)) eqn:P3; exists t, ms; split_and!; try done.
    + by destruct (proj1 H3 eq_refl).
    + intros H. discriminate (proj2 H3 (or_introl H)).
  - intros t' ms' [= <- <-]. split; [done|]. intros H. discriminate (proj2 H2 (or_introl H)).
Qed.
