(* ===== verification/OpenAPI.v ===== *)
(** * openapi-validator: requests against an OpenAPI description

    extensions/composer/openapi-validator/plugin.go: a request is matched to an operation of
    the description when its headers arrive, and validated once it is complete.  The OpenAPI
    library, the construction of URLs and the host's buffer are parameters. *)

From S2P Require Import Prelude GoStr GoNum GoPath GoCodec Host ExtPkg GoJson.
From Stdlib Require Import Lia Ascii.

Local Open Scope Z_scope.
Local Open Scope go_scope.

Record openAPIValidatorConfig : Type := mkOpenAPIValidatorConfig {
  Spec : DataSource;
  MaxBodyBytes : Z;
  AllowUnmatchedPaths : bool;
  DryRun : bool;
  DenyResponse : option LocalResponse;
}.

#[export] Instance decode_openAPIValidatorConfig : Decodable openAPIValidatorConfig := {
  zero_value := mkOpenAPIValidatorConfig zero_value 0 zero_value zero_value zero_value;
  decode_into := decode_struct [
    field "spec" Spec (fun v c =>
      mkOpenAPIValidatorConfig v (MaxBodyBytes c) (AllowUnmatchedPaths c) (DryRun c) (DenyResponse c));
    field "max_body_bytes" (fun c => mkUint64 (MaxBodyBytes c)) (fun v c =>
      mkOpenAPIValidatorConfig (Spec c) (uint64_value v) (AllowUnmatchedPaths c) (DryRun c) (DenyResponse c));
    field "allow_unmatched_paths" AllowUnmatchedPaths (fun v c =>
      mkOpenAPIValidatorConfig (Spec c) (MaxBodyBytes c) v (DryRun c) (DenyResponse c));
    field "dry_run" DryRun (fun v c =>
      mkOpenAPIValidatorConfig (Spec c) (MaxBodyBytes c) (AllowUnmatchedPaths c) v (DenyResponse c));
    field "deny_response" DenyResponse (fun v c =>
      mkOpenAPIValidatorConfig (Spec c) (MaxBodyBytes c) (AllowUnmatchedPaths c) (DryRun c) v)];
}.

(** The request handed to the library. *)
Record HttpRequest : Type := mkHttpRequest {
  req_Method : string;
  req_URL : string;
  req_Header : list (string * string);
  req_Host : string;
  req_Body : option string;
  req_ContentLength : Z;
}.

(** The bytes of a header name. *)
Definition token_byte (c : ascii) : bool := is_alnum c || ContainsByte "!#$%&'*+-.^_`|~" c.

Definition upper_letter (c : ascii) : ascii :=
  if between 97 122 c then ascii_of_N (N_of_ascii c - 32) else c.

(** [textproto.CanonicalMIMEHeaderKey]: the first letter and those after a hyphen in upper
    case, the others in lower case; a name with another byte is left alone. *)
Fixpoint canonical_from (upper : bool) (s : string) : string :=
  match s with
  | EmptyString => EmptyString
  | String c s' =>
      String (if upper then upper_letter c else lower_byte c) (canonical_from (bool_decide (c = "-"%char)) s')
  end.

Definition CanonicalHeaderKey (k : string) : string :=
  if all_bytes token_byte k then canonical_from true k else k.

Section OpenAPI.
(** The OpenAPI library: documents, routers, routes with their path parameters, and
    validation, [Some] for an error.  [has_body] tells that the operation of a route defines a
    request body. *)
Context {Doc Router Route : Type}.
Context (LoadFromData : string -> option Doc) (doc_Validate : Doc -> bool) (NewRouter : Doc -> option Router).
Context (FindRoute : Router -> HttpRequest -> option (Route * gmap string string)).
Context (has_body : Route -> bool).
Context (ValidateRequest : HttpRequest -> option Route -> gmap string string -> option string).
(** [http.NewRequest] of a method and a URL, without a body. *)
Context (NewRequest : string -> string -> result string HttpRequest).
(** [utility.ReadWholeRequestBody] on the chunks so far, [None] for a nil slice, and the
    iteration order of a map. *)
Context (ReadWholeRequestBody : list string -> option string).
Context (range_map : gmap string string -> list (string * string)).
Context {H : Type} `{!HeaderMap H, !HeaderList H}.

Record openAPIValidatorParsedConfig : Type := mkParsedConfig {
  cfg : openAPIValidatorConfig;
  deny : LocalResponse;
  router : Router;
  denyResponseHeaders : list (string * string);
}.

Record openAPIValidatorHttpFilter : Type := mkOpenAPIFilter {
  config : openAPIValidatorParsedConfig;
  route : option Route;
  pathParams : gmap string string;
  bodySize : Z;
  requestProcessed : bool;
}.

Definition request_url (headers : H) : string :=
  let scheme := GetOne headers ":scheme" in
  (if bool_decide (scheme = "") then "http" else scheme) +:+ "://" +:+
  GetOne headers ":authority" +:+ GetOne headers ":path".

Definition new_request (headers : H) : result string HttpRequest :=
  NewRequest (GetOne headers ":method") (request_url headers).

Definition buildHTTPRequest (headers : H) (body : option string) : result string HttpRequest :=
  try r <- new_request headers;
  Ok (mkHttpRequest (req_Method r) (req_URL r)
        (req_Header r ++
         ((fun h => (CanonicalHeaderKey h.1, h.2)) <$> filter (fun h => HasPrefix h.1 ":" = false) (GetAll headers)))
        (GetOne headers ":authority") body
        (match body with Some b => Z.of_nat (String.length b) | None => req_ContentLength r end)).

Definition sendDenyResponse (c : openAPIValidatorParsedConfig) (validationErr : string) : Host unit :=
  hcall (SendLocalResponse (u32 (Status (deny c))) (denyResponseHeaders c)
           (if bool_decide (Body (deny c) = "") then validationErr else Body (deny c)) "openapi_validation_failed").

Definition denyRequest (c : openAPIValidatorParsedConfig) (err : string) : Host HeadersStatus :=
  if DryRun (cfg c) then hret HeadersStatusContinue
  else run sendDenyResponse c err; hret HeadersStatusStop.

(** [validateRequest]: whether the request is allowed. *)
Definition validateRequest (f : openAPIValidatorHttpFilter) (headers : H) (body : option string)
    : Host (openAPIValidatorHttpFilter * bool) :=
  let f := mkOpenAPIFilter (config f) (route f) (pathParams f) (bodySize f) true in
  match buildHTTPRequest headers body with
  | Err e => run sendDenyResponse (config f) e; hret (f, false)
  | Ok httpReq =>
      match ValidateRequest httpReq (route f) (pathParams f) with
      | Some e =>
          if DryRun (cfg (config f)) then hret (f, true)
          else run sendDenyResponse (config f) e; hret (f, false)
      | None => hret (f, true)
      end
  end.

Definition OnRequestHeaders (f : openAPIValidatorHttpFilter) (headers : H) (endOfStream : bool)
    : Host (openAPIValidatorHttpFilter * HeadersStatus) :=
  match new_request headers with
  | Err e => do st <- denyRequest (config f) e; hret (f, st)
  | Ok httpReq =>
      match FindRoute (router (config f)) httpReq with
      | None =>
          if AllowUnmatchedPaths (cfg (config f)) then hret (f, HeadersStatusContinue)
          else
            do st <- denyRequest (config f)
                       ("no matching operation for " +:+ GetOne headers ":method" +:+ " " +:+ GetOne headers ":path");
            hret (f, st)
      | Some (r, params) =>
          let f := mkOpenAPIFilter (config f) (Some r) params (bodySize f) (requestProcessed f) in
          if negb endOfStream && has_body r then hret (f, HeadersStatusStop)
          else
            do ' (f, ok) <- validateRequest f headers None;
            hret (f, if ok then HeadersStatusContinue else HeadersStatusStop)
      end
  end.

(** [OnRequestBody] with a chunk, [None] for a nil buffer; [seen] are all chunks so far. *)
Definition OnRequestBody (f : openAPIValidatorHttpFilter) (headers : H) (body : option string) (seen : list string)
    (endOfStream : bool) : Host (openAPIValidatorHttpFilter * BodyStatus) :=
  if requestProcessed f then hret (f, BodyStatusContinue)
  else
    let size := match body with Some b => u64 (bodySize f + Z.of_nat (String.length b)) | None => bodySize f end in
    let max := MaxBodyBytes (cfg (config f)) in
    if (0 <? max) && (max <? size) then
      let f := mkOpenAPIFilter (config f) (route f) (pathParams f) size true in
      if negb (DryRun (cfg (config f))) then
        run hcall (SendLocalResponse 413 [] "Request body too large" "openapi_body_too_large");
        hret (f, BodyStatusStopNoBuffer)
      else hret (f, BodyStatusContinue)
    else
      let f := mkOpenAPIFilter (config f) (route f) (pathParams f) size false in
      if endOfStream then
        do ' (f, ok) <- validateRequest f headers (ReadWholeRequestBody seen);
        hret (f, if ok then BodyStatusContinue else BodyStatusStopNoBuffer)
      else hret (f, BodyStatusStopAndBuffer).

Definition OnRequestTrailers (f : openAPIValidatorHttpFilter) (headers : H) (seen : list string)
    : Host (openAPIValidatorHttpFilter * TrailersStatus) :=
  if requestProcessed f then hret (f, TrailersStatusContinue)
  else
    do ' (f, ok) <- validateRequest f headers (ReadWholeRequestBody seen);
    hret (f, if ok then TrailersStatusContinue else TrailersStatusStop).

(** ** Factories *)

Inductive ConfigError : Type :=
| ErrUnmarshal
| ErrSpec (e : DataSourceError)
| ErrSpecContent (e : DataSourceError)
| ErrSpecParse
| ErrSpecInvalid
| ErrRouter
| ErrDenyResponse.

(** The configured response, or its default; [None] if its status is no HTTP status. *)
Definition deny_response (c : openAPIValidatorConfig) : option LocalResponse :=
  match DenyResponse c with
  | None => Some (mkLocalResponse 400 "" ∅)
  | Some r =>
      let r := if bool_decide (Status r = 0) then mkLocalResponse 400 (Body r) (RespHeaders r) else r in
      if LocalResponse_Validate r then Some r else None
  end.

Definition parseConfig (read : string -> option string) (text : string)
    : result ConfigError (option openAPIValidatorParsedConfig) :=
  if bool_decide (text = "") then Ok None
  else match Unmarshal_ok (A := openAPIValidatorConfig) text with
  | None => Err ErrUnmarshal
  | Some c =>
      match DataSource_Validate (Spec c) with
      | Some e => Err (ErrSpec e)
      | None =>
          match DataSource_Content read (Spec c) with
          | Err e => Err (ErrSpecContent e)
          | Ok specData =>
              match LoadFromData specData with
              | None => Err ErrSpecParse
              | Some doc =>
                  if negb (doc_Validate doc) then Err ErrSpecInvalid
                  else match NewRouter doc with
                  | None => Err ErrRouter
                  | Some rt =>
                      match deny_response c with
                      | None => Err ErrDenyResponse
                      | Some d => Ok (Some (mkParsedConfig c d rt (range_map (RespHeaders d))))
                      end
                  end
              end
          end
      end
  end.

(** [None] is the empty filter. *)
Definition openAPIFilterFactory_Create {Any} (assert : Any -> option openAPIValidatorParsedConfig)
    (most_specific : option Any) (c : option openAPIValidatorParsedConfig) : option openAPIValidatorHttpFilter :=
  (fun c => mkOpenAPIFilter c None ∅ 0 false) <$>
    match GetMostSpecificConfig assert most_specific with
    | Some perRoute => Some perRoute
    | None => c
    end.

Definition CreatePerRoute (read : string -> option string) (text : string)
    : result (option ConfigError) openAPIValidatorParsedConfig :=
  match parseConfig read text with
  | Err e => Err (Some e)
  | Ok None => Err None
  | Ok (Some c) => Ok c
  end.
End OpenAPI.

(** ** A whole request *)

Section Decision.
Context {Router Route : Type}.
Context (FindRoute : Router -> HttpRequest -> option (Route * gmap string string)).
Context (has_body : Route -> bool).
Context (ValidateRequest : HttpRequest -> option Route -> gmap string string -> option string).
Context (NewRequest : string -> string -> result string HttpRequest).
Context (ReadWholeRequestBody : list string -> option string).
Context {H : Type} `{!HeaderMap H, !HeaderList H}.

#[local] Abbreviation Filter := (@openAPIValidatorHttpFilter Router Route).
#[local] Abbreviation on_headers := (OnRequestHeaders FindRoute has_body ValidateRequest NewRequest (H := H)).
#[local] Abbreviation on_body := (OnRequestBody ValidateRequest NewRequest ReadWholeRequestBody (H := H)).
#[local] Abbreviation on_trailers := (OnRequestTrailers ValidateRequest NewRequest ReadWholeRequestBody (H := H)).
#[local] Abbreviation validate_it := (validateRequest ValidateRequest NewRequest (H := H)).

(** The chunks after the headers, until the request is refused: whether its last callback let
    it continue. *)
Fixpoint run_chunks (f : Filter) (headers : H) (seen chunks : list string) (ending : RequestEnd) : Host bool :=
  match chunks with
  | [] =>
      if bool_decide (ending = EndTrailers) then
        do ' (_, st) <- on_trailers f headers seen; hret (bool_decide (st = TrailersStatusContinue))
      else hret true
  | c :: chunks' =>
      let seen := seen ++ [c] in
      let last := bool_decide (ending = EndBody) && bool_decide (chunks' = []) in
      do ' (f, st) <- on_body f headers (Some c) seen last;
      if bool_decide (st = BodyStatusStopNoBuffer) then hret false
      else if last then hret (bool_decide (st = BodyStatusContinue))
      else run_chunks f headers seen chunks' ending
  end.

(** A request with its chunks; a local response is the end of it. *)
Definition handle_request (f : Filter) (headers : H) (chunks : list string) (ending : RequestEnd) : Host bool :=
  let '((f', st), calls) := on_headers f headers (bool_decide (ending = EndHeaders)) in
  if bool_decide (ending = EndHeaders) || negb (bool_decide (calls = []))
  then (bool_decide (st = HeadersStatusContinue), calls)
  else run (tt, calls); run_chunks f' headers [] chunks ending.

(** What the configuration says about a request. *)
Inductive Outcome : Type := Pass | Deny (err : string) | TooLarge.

Fixpoint total (chunks : list string) : Z :=
  match chunks with [] => 0 | c :: chunks' => Z.of_nat (String.length c) + total chunks' end.

Definition validated (headers : H) (body : option string) (r : option Route) (params : gmap string string) : Outcome :=
  match buildHTTPRequest NewRequest headers body with
  | Err e => Deny e
  | Ok req => match ValidateRequest req r params with Some e => Deny e | None => Pass end
  end.

Definition body_outcome (c : openAPIValidatorConfig) (headers : H) (r : option Route) (params : gmap string string)
    (chunks : list string) : Outcome :=
  if (0 <? MaxBodyBytes c) && (MaxBodyBytes c <? total chunks) then TooLarge
  else validated headers (ReadWholeRequestBody chunks) r params.

Definition expected (c : openAPIValidatorParsedConfig) (headers : H) (chunks : list string) (ending : RequestEnd) : Outcome :=
  match new_request NewRequest headers with
  | Err e => Deny e
  | Ok req =>
      match FindRoute (router c) req with
      | None =>
          if AllowUnmatchedPaths (cfg c) then Pass
          else Deny ("no matching operation for " +:+ GetOne headers ":method" +:+ " " +:+ GetOne headers ":path")
      | Some (r, params) =>
          if bool_decide (ending = EndHeaders) || negb (has_body r) then validated headers None (Some r) params
          else body_outcome (cfg c) headers (Some r) params chunks
      end
  end.

(** How an outcome is carried out. *)
Definition carried_out (c : @openAPIValidatorParsedConfig Router) (o : Outcome) : Host bool :=
  match o with
  | Pass => hret true
  | Deny err => if DryRun (cfg c) then hret true else run sendDenyResponse c err; hret false
  | TooLarge =>
      if DryRun (cfg c) then hret true
      else run hcall (SendLocalResponse 413 [] "Request body too large" "openapi_body_too_large"); hret false
  end.

Lemma total_app l1 l2 : total (l1 ++ l2) = total l1 + total l2.
Proof. induction l1 as [|c l1 IH]; cbn [total app]; lia. Qed.

Lemma total_nonneg l : 0 <= total l.
Proof. induction l as [|c l IH]; cbn [total]; lia. Qed.

Lemma new_request_build headers body req :
  new_request NewRequest headers = Ok req -> exists req', buildHTTPRequest NewRequest headers body = Ok req'.
Proof. unfold buildHTTPRequest. intros ->. cbn. by eexists. Qed.

(** Validation carries out its outcome, once the request can be built. *)
Lemma validateRequest_spec (f : Filter) headers body req :
  new_request NewRequest headers = Ok req ->
  exists f', config f' = config f /\ requestProcessed f' = true /\
    validate_it f headers body =
      (do b <- carried_out (config f) (validated headers body (route f) (pathParams f)); hret (f', b)).
Proof.
  intros Hr. destruct (new_request_build headers body req Hr) as [req' Hb].
  exists (mkOpenAPIFilter (config f) (route f) (pathParams f) (bodySize f) true). do 2 (split; [done|]).
  unfold validateRequest, validated, carried_out. cbv zeta. rewrite Hb. cbn [config route pathParams].
  destruct (ValidateRequest req' (route f) (pathParams f)); [|done]. by destruct (DryRun _).
Qed.

(** A request that is decided passes its chunks on. *)
Lemma run_chunks_processed (f : Filter) headers seen chunks ending :
  requestProcessed f = true -> run_chunks f headers seen chunks ending = hret true.
Proof.
  revert seen. induction chunks as [|c chunks IH]; intros seen Hp; cbn [run_chunks].
  - case_bool_decide; [|done]. unfold OnRequestTrailers. by rewrite Hp.
  - unfold OnRequestBody. rewrite Hp. cbn [hbind hret]. rewrite bool_decide_eq_false_2 by done.
    destruct (_ && _); [done|]. rewrite IH by done. done.
Qed.

Lemma carried_out_hret {B} c o (k : bool -> B) :
  (do b <- carried_out c o; hret (k b)) = (k (val_of (carried_out c o)), calls_of (carried_out c o)).
Proof. destruct o; cbn; [done|destruct (DryRun _); done..]. Qed.

(** The body of a request, from the chunks that are still to come. *)
Lemma run_chunks_spec (f : Filter) headers seen chunks ending req :
  new_request NewRequest headers = Ok req -> requestProcessed f = false -> bodySize f = total seen ->
  total (seen ++ chunks) < 2 ^ 64 -> ending <> EndHeaders -> (ending = EndBody -> chunks <> []) ->
  ((0 <? MaxBodyBytes (cfg (config f))) && (MaxBodyBytes (cfg (config f)) <? total seen)) = false ->
  run_chunks f headers seen chunks ending =
    carried_out (config f) (body_outcome (cfg (config f)) headers (route f) (pathParams f) (seen ++ chunks)).
Proof.
  intros Hr. revert f seen. induction chunks as [|c chunks IH]; intros f seen Hp Hs Hlt Hh Hb Hmax; cbn [run_chunks].
  - rewrite app_nil_r. rewrite bool_decide_eq_true_2 by (destruct ending; [done|by destruct Hb|done]).
    unfold OnRequestTrailers. rewrite Hp. unfold body_outcome. rewrite Hmax.
    destruct (validateRequest_spec f headers (ReadWholeRequestBody seen) req Hr) as (f' & _ & _ & ->).
    rewrite !carried_out_hret. by destruct (validated _ _ _ _); cbn; try destruct (DryRun _).
  - pose proof (total_nonneg seen). pose proof (total_nonneg chunks).
    assert (Htot : total (seen ++ c :: chunks) = total seen + Z.of_nat (String.length c) + total chunks)
      by (rewrite total_app; cbn [total]; lia).
    rewrite Htot in Hlt. unfold OnRequestBody at 1. rewrite Hp. cbv zeta. rewrite Hs, u64_id by lia.
    destruct ((0 <? MaxBodyBytes (cfg (config f))) &&
              (MaxBodyBytes (cfg (config f)) <? total seen + Z.of_nat (String.length c))) eqn:Hover.
    + (* too large *)
      assert (body_outcome (cfg (config f)) headers (route f) (pathParams f) (seen ++ c :: chunks) = TooLarge) as ->.
      { unfold body_outcome. rewrite Htot. apply andb_true_iff in Hover as [-> Ho]. apply Z.ltb_lt in Ho.
        by rewrite (proj2 (Z.ltb_lt _ _)) by lia. }
      cbn [carried_out cfg config]. destruct (DryRun _); cbn [negb hbind hret hcall]; [|done].
      rewrite bool_decide_eq_false_2 by done. destruct (bool_decide (ending = EndBody) && _); [done|]. rewrite run_chunks_processed by done. done.
    + destruct (bool_decide (ending = EndBody) && bool_decide (chunks = [])) eqn:Hl.
      * (* the last chunk *)
        apply andb_true_iff in Hl as [_ ->%bool_decide_eq_true_1]. cbn [total] in *.
        unfold body_outcome. rewrite Htot. replace (total seen + Z.of_nat (String.length c) + 0)
          with (total seen + Z.of_nat (String.length c)) by lia. rewrite Hover.
        set (f1 := mkOpenAPIFilter (config f) _ _ _ _).
        destruct (validateRequest_spec f1 headers (ReadWholeRequestBody (seen ++ [c])) req Hr) as (f' & _ & _ & ->).
        rewrite !carried_out_hret. cbn [config route pathParams f1].
        by destruct (validated _ _ _ _); cbn; try destruct (DryRun _).
      * cbn [hbind hret]. rewrite bool_decide_eq_false_2 by done. cbn [app].
        set (f1 := mkOpenAPIFilter (config f) _ _ _ _).
        assert (IH' := IH f1 (seen ++ [c])). cbn [config route pathParams requestProcessed bodySize f1] in IH'.
        rewrite <- app_assoc in IH'. cbn [app] in IH'.
        assert (Ht2 : total (seen ++ [c]) = total seen + Z.of_nat (String.length c)) by (rewrite total_app; cbn; lia).
        rewrite IH'; [by destruct (carried_out _ _)|done|by rewrite Ht2|by rewrite Htot|done| |by rewrite Ht2].
        intros -> ->. done.
Qed.

(** A filter as the factory creates it. *)
Definition fresh (f : Filter) : Prop := bodySize f = 0 /\ requestProcessed f = false.

(** However its body is cut and ended, a request has the outcome its configuration
    prescribes, once: a request that cannot be built or matches no operation is denied or, if
    allowed, passed; one whose operation defines a body is refused as too large exactly if
    its body exceeds the limit, and is otherwise validated as a whole; any other is validated
    without a body.  A refusal is exactly one response and dry run lets everything pass.
    Excepted are requests with a body that pass without an operation. *)
Theorem openapi_decision (f : Filter) headers chunks ending :
  fresh f -> total chunks < 2 ^ 64 -> (ending = EndBody -> chunks <> []) ->
  (ending = EndHeaders \/ (exists req, new_request NewRequest headers = Ok req /\ is_Some (FindRoute (router (config f)) req)) \/
   AllowUnmatchedPaths (cfg (config f)) = false /\ DryRun (cfg (config f)) = false) ->
  handle_request f headers chunks ending = carried_out (config f) (expected (config f) headers chunks ending).
Proof.
  intros [Hsz Hpr] Htot Hb Hcase. unfold handle_request, OnRequestHeaders, expected, denyRequest.
  destruct (new_request NewRequest headers) as [req|e] eqn:Hr.
  2: { destruct (DryRun (cfg (config f))) eqn:Hd; cbn; rewrite ?Hd; [|by rewrite orb_true_r].
       destruct Hcase as [-> |[(? & [=] & _)|[_ [=]]]]. done. }
  destruct (FindRoute (router (config f)) req) as [[r params]|] eqn:Hf.
  2: { destruct (AllowUnmatchedPaths _) eqn:Ha; [|destruct (DryRun (cfg (config f))) eqn:Hd];
         cbn; rewrite ?Hd; try by rewrite orb_true_r.
       - destruct Hcase as [-> |[(? & [= <-] & [? Hf'])|[[=] _]]]; [done|congruence].
       - destruct Hcase as [-> |[(? & [= <-] & [? Hf'])|[_ [=]]]]; [done|congruence]. }
  set (f1 := mkOpenAPIFilter (config f) (Some r) params (bodySize f) (requestProcessed f)).
  destruct (negb (bool_decide (ending = EndHeaders)) && has_body r) eqn:Hw.
  - apply andb_true_iff in Hw as [He Hbody]. apply negb_true_iff in He. rewrite He, Hbody. cbn [orb negb hret].
    rewrite bool_decide_eq_true_2 by done. cbn [negb]. apply bool_decide_eq_false in He.
    rewrite (run_chunks_spec f1 headers [] chunks ending req); cbn [total f1 config requestProcessed bodySize app]; try done.
    + by destruct (carried_out _ _).
    + apply andb_false_iff. rewrite !Z.ltb_ge. lia.
  - assert (bool_decide (ending = EndHeaders) || negb (has_body r) = true) as ->
      by (destruct (bool_decide _), (has_body r); done).
    destruct (validateRequest_spec f1 headers None req Hr) as (f' & _ & Hp' & ->). rewrite !carried_out_hret.
    change (route f1) with (Some r). change (pathParams f1) with params. change (config f1) with (config f).
    destruct (validated headers None (Some r) params) as [|e|]; cbn; try destruct (DryRun _); cbn;
      rewrite ?orb_true_r, ?orb_false_r; try done;
      (case_bool_decide; [done|]; by rewrite run_chunks_processed).
Qed.

(** A request with a body that is let through without an operation is validated against no
    route at all. *)
Lemma openapi_unmatched_validated (f : Filter) headers chunk req req' :
  fresh f -> new_request NewRequest headers = Ok req -> FindRoute (router (config f)) req = None ->
  AllowUnmatchedPaths (cfg (config f)) = true -> MaxBodyBytes (cfg (config f)) = 0 ->
  buildHTTPRequest NewRequest headers (ReadWholeRequestBody [chunk]) = Ok req' -> route f = None ->
  val_of (handle_request f headers [chunk] EndBody) =
    match ValidateRequest req' None (pathParams f) with Some _ => DryRun (cfg (config f)) | None => true end.
Proof.
  intros [Hsz Hpr] Hr Hf Ha Hm Hb Hrt. unfold handle_request, OnRequestHeaders. rewrite Hr, Hf, Ha. cbn [hret].
  rewrite bool_decide_eq_false_2 by done. rewrite bool_decide_eq_true_2 by done. cbn [orb negb run_chunks app].
  rewrite val_hbind. rewrite !bool_decide_eq_true_2 by done. cbn [andb].
  unfold OnRequestBody, validateRequest. rewrite Hpr, Hm. cbn [Z.ltb Z.compare andb config route pathParams].
  rewrite Hb, Hrt. destruct (ValidateRequest req' None (pathParams f)); [|done]. by destruct (DryRun _).
Qed.
End Decision.

(** ** Witness *)

Definition ex_openapi_config : @openAPIValidatorParsedConfig unit :=
  mkParsedConfig (mkOpenAPIValidatorConfig (mkDataSource "x" "") 8 false false None) (mkLocalResponse 400 "" ∅) tt [].

Definition ex_validate (r : HttpRequest) (route : option unit) (params : gmap string string) : option string :=
  if bool_decide (req_Body r = Some "ok") then None else Some "bad body".

Definition ex_NewRequest (method url : string) : result string HttpRequest := Ok (mkHttpRequest method url [] "" None 0).

Lemma openapi_decision_witness :
  let f := mkOpenAPIFilter ex_openapi_config None ∅ 0 false in
  let handled chunks := handle_request (H := Headers) (fun _ _ => Some (tt, ∅)) (fun _ => true) ex_validate ex_NewRequest
                      (fun l => Some (Join l "")) f [(":method", "POST"); (":path", "/pets")] chunks EndBody in
  handled ["o"; "k"] = (true, []) /\
  handled ["too "; "much "; "data"] =
    (false, [SendLocalResponse 413 [] "Request body too large" "openapi_body_too_large"]).
Proof.
  intros f handled.
  split; subst handled; cbv beta;
    (rewrite (openapi_decision (H := Headers) (fun _ _ => Some (tt, ∅)) (fun _ => true) ex_validate ex_NewRequest
               (fun l => Some (Join l "")) f);
     [vm_compute; reflexivity|split; reflexivity|vm_compute; reflexivity|discriminate|]);
    right; left; eexists; (split; [reflexivity|]); eexists; reflexivity.
Defined.
