(* ===== verification/Waf.v ===== *)
(** * waf: a web application firewall around Coraza

    extensions/composer/waf/waf.go, config.go, metrics.go and metrics_config.go: a transaction of
    the Coraza library is created for every request, fed with headers and body chunks, asked
    for its decision at the end of each phase, and released when the stream ends or, for
    long-lived streams, as soon as its analysis is done.  The library is the class [Coraza];
    the calls on a transaction are recorded, in order, with the calls on the handle. *)

From S2P Require Import Prelude GoStr GoNum GoPath GoCodec Host ExtPkg GoJson.
From Stdlib Require Import Lia Ascii.

Local Open Scope Z_scope.
Local Open Scope go_scope.

(** ** Configuration *)

Inductive wafMode : Type := modeRequestOnly | modeFull | modeResponseOnly.

#[export] Instance wafMode_eq_dec : EqDecision wafMode.
Proof. solve_decision. Defined.

Inductive labelSource : Type := labelSourceAuthority | labelSourceRouteName | labelSourceVirtualHostName.

Record authorityLabel : Type := mkAuthorityLabel { disabled : bool; source : labelSource }.

Definition authorityLabels (name : string) : option authorityLabel :=
  if bool_decide (name = "authority") then Some (mkAuthorityLabel false labelSourceAuthority)
  else if bool_decide (name = "route_name") then Some (mkAuthorityLabel false labelSourceRouteName)
  else if bool_decide (name = "virtual_host_name") then Some (mkAuthorityLabel false labelSourceVirtualHostName)
  else if bool_decide (name = "none") then Some (mkAuthorityLabel true labelSourceAuthority)
  else None.

Definition unresolvedLabel : string := "unresolved".

(** What the host tells about a stream; an attribute may be missing. *)
Record Attributes : Type := mkAttributes {
  source_address : string;
  request_protocol : string;
  xds_route_name : option string;
  xds_virtual_host_name : option string;
}.

Definition tagNames (a : authorityLabel) (rest : list string) : list string :=
  if disabled a then rest else "authority" :: rest.

Definition label_value (a : authorityLabel) (attrs : Attributes) (requestAuthority : string) : string :=
  let resolved (v : option string) :=
    match v with
    | Some v => if bool_decide (v = "") then unresolvedLabel else v
    | None => unresolvedLabel
    end in
  match source a with
  | labelSourceRouteName => resolved (xds_route_name attrs)
  | labelSourceVirtualHostName => resolved (xds_virtual_host_name attrs)
  | labelSourceAuthority => requestAuthority
  end.

Definition tags (a : authorityLabel) (attrs : Attributes) (requestAuthority : string) (rest : list string) : list string :=
  if disabled a then rest else label_value a attrs requestAuthority :: rest.

(** The configuration as it is decoded. *)
Record rawConfig : Type := mkRawConfig {
  Directives : list string;
  ModeString : string;
  RequestURIPathOnly : option bool;
  Metrics : RawMessage;
}.

#[export] Instance decode_rawConfig : Decodable rawConfig := {
  zero_value := mkRawConfig zero_value zero_value zero_value zero_value;
  decode_into := decode_struct [
    field "directives" Directives (fun v c => mkRawConfig v (ModeString c) (RequestURIPathOnly c) (Metrics c));
    field "mode" ModeString (fun v c => mkRawConfig (Directives c) v (RequestURIPathOnly c) (Metrics c));
    field "request_uri_path_only" RequestURIPathOnly (fun v c => mkRawConfig (Directives c) (ModeString c) v (Metrics c));
    field "metrics" Metrics (fun v c => mkRawConfig (Directives c) (ModeString c) (RequestURIPathOnly c) v)];
}.

Record metricsSettings : Type := mkMetricsSettings { AuthorityLabel : option string }.

#[export] Instance decode_metricsSettings : Decodable metricsSettings := {
  zero_value := mkMetricsSettings zero_value;
  decode_into := decode_struct [field "authority_label" AuthorityLabel (fun v _ => mkMetricsSettings v)];
}.

(** [DisallowUnknownFields] on an object of one field. *)
Definition known_fields (r : Raw) : bool :=
  match r.2 with
  | JObject members => forallb (fun m : string * Raw => bool_decide (fold_name m.1 = "authority_label")) members
  | _ => true
  end.

Inductive ConfigError : Type :=
| ErrUnmarshal
| ErrMode (mode : string)
| ErrMetrics
| ErrAuthorityLabel (label : string)
| ErrEngine (reason : string).

Definition defaultLabel : authorityLabel := mkAuthorityLabel false labelSourceAuthority.

(** [parseMetrics]: the authority label. *)
Definition parseMetrics (raw : RawMessage) : result ConfigError authorityLabel :=
  if bool_decide (raw_text raw = "") then Ok defaultLabel
  else match scan_json (raw_text raw) with
  | None => Err ErrMetrics
  | Some r =>
      match decode_into (A := metricsSettings) zero_value r with
      | (m, ok) =>
          if negb (ok && known_fields r) then Err ErrMetrics
          else match AuthorityLabel m with
          | None => Ok defaultLabel
          | Some name =>
              match authorityLabels name with
              | Some label => Ok label
              | None => Err (ErrAuthorityLabel name)
              end
          end
      end
  end.

Definition defaultRequestURIPathOnly : bool := false.

Record config : Type := mkConfig {
  directives : string;
  cfg_mode : wafMode;
  cfg_requestURIPathOnly : bool;
  cfg_authority : authorityLabel;
}.

Definition parse_mode (s : string) : option wafMode :=
  if bool_decide (s = "REQUEST_ONLY") then Some modeRequestOnly
  else if bool_decide (s = "RESPONSE_ONLY") then Some modeResponseOnly
  else if bool_decide (s = "FULL") then Some modeFull
  else if bool_decide (s = "") then Some modeRequestOnly
  else None.

Definition parseConfig (text : string) : result ConfigError config :=
  match Unmarshal_ok (A := rawConfig) text with
  | None => Err ErrUnmarshal
  | Some y =>
      match parse_mode (ModeString y) with
      | None => Err (ErrMode (ModeString y))
      | Some mode =>
          try label <- parseMetrics (Metrics y);
          Ok (mkConfig (Join (Directives y) (String "010" "")) mode
                (default defaultRequestURIPathOnly (RequestURIPathOnly y)) label)
      end
  end.

(** ** The engine *)

Record Interruption : Type := mkInterruption { RuleID : Z; I_Status : Z }.

(** The calls on a transaction. *)
Inductive EngineCall : Type :=
| NewTransaction (id : string)
| AddRequestHeader (k v : string)
| SetServerName (name : string)
| ProcessConnection (srcIP : string) (srcPort : Z) (dstIP : string) (dstPort : Z)
| ProcessURI (uri method protocol : string)
| ProcessRequestHeaders
| WriteRequestBody (chunk : string)
| ProcessRequestBody
| AddResponseHeader (k v : string)
| ProcessResponseHeaders (code : Z) (protocol : string)
| WriteResponseBody (chunk : string)
| ProcessResponseBody
| ProcessLogging
| Close.

#[export] Instance EngineCall_eq_dec : EqDecision EngineCall.
Proof. solve_decision. Defined.

(** What a call returns: an interruption, the number of bytes written, an error. *)
Record Reply : Type := mkReply { interruption : option Interruption; written : Z; failed : bool }.

Class Coraza (Tx : Type) : Type := {
  NewTransactionWithID : string -> Tx;
  Apply : Tx -> EngineCall -> Tx * Reply;
  IsRuleEngineOff : Tx -> bool;
  IsInterrupted : Tx -> bool;
  IsRequestBodyAccessible : Tx -> bool;
  IsResponseBodyAccessible : Tx -> bool;
  IsResponseBodyProcessable : Tx -> bool;
}.

(** The calls a callback makes, on the engine with their replies and on the handle. *)
Inductive WafEvent : Type :=
| Engine (call : EngineCall) (r : Reply)
| Handle (c : HandleCall).

(** ** The filter *)

Record metrics : Type := mkMetrics {
  authority_label : authorityLabel;
  txTotal : Metric;
  txBlocked : Metric;
  txDuration : Metric;
  txActive : Metric;
}.

Definition newMetrics (a : authorityLabel) (total blocked duration active : MetricsResult) : metrics :=
  mkMetrics a (NewMetric "waf_tx_total" total) (NewMetric "waf_tx_blocked" blocked)
    (NewMetric "waf_tx_duration" duration) (NewMetric "waf_tx_active" active).

(** The settings of a filter, and what the host says about its stream. *)
Record wafSettings : Type := mkWafSettings {
  mode : wafMode;
  requestURIPathOnly : bool;
  waf_metrics : metrics;
  attributes : Attributes;
}.

Definition defaultMetadataNamespace : string := "io.builtonenvoy.waf".
Definition metadataKeyBlockRule : string := "block_rule".
Definition metadataKeyBlockPhase : string := "block_phase".

(** The phases of Coraza. *)
Definition PhaseRequestHeaders : Z := 1.
Definition PhaseRequestBody : Z := 2.
Definition PhaseResponseHeaders : Z := 3.
Definition PhaseResponseBody : Z := 4.

Section Waf.
Context {Tx : Type} `{!Coraza Tx}.
Context {H : Type} `{!HeaderMap H, !HeaderList H}.
Context (s : wafSettings).

(** The mutable part of a filter. *)
Record wafPlugin : Type := mkWafPlugin {
  txContext : option Tx;
  wafElapsed : Z;
  txDone : bool;
  txReleased : bool;
  protocol : string;
  isUpgrade : bool;
  isSSE : bool;
  requestBodyProcessed : bool;
  responseBodyProcessed : bool;
  authority : string;
}.

Definition new_wafPlugin : wafPlugin := mkWafPlugin None 0 false false "" false false false false "".

Definition set_tx (t : option Tx) (p : wafPlugin) : wafPlugin :=
  mkWafPlugin t (wafElapsed p) (txDone p) (txReleased p) (protocol p) (isUpgrade p) (isSSE p)
    (requestBodyProcessed p) (responseBodyProcessed p) (authority p).
Definition add_elapsed (d : Z) (p : wafPlugin) : wafPlugin :=
  mkWafPlugin (txContext p) (wafElapsed p + d) (txDone p) (txReleased p) (protocol p) (isUpgrade p) (isSSE p)
    (requestBodyProcessed p) (responseBodyProcessed p) (authority p).
Definition set_done (p : wafPlugin) : wafPlugin :=
  mkWafPlugin (txContext p) (wafElapsed p) true (txReleased p) (protocol p) (isUpgrade p) (isSSE p)
    (requestBodyProcessed p) (responseBodyProcessed p) (authority p).
Definition set_released (p : wafPlugin) : wafPlugin :=
  mkWafPlugin None (wafElapsed p) (txDone p) true (protocol p) (isUpgrade p) (isSSE p)
    (requestBodyProcessed p) (responseBodyProcessed p) (authority p).
Definition set_request (proto auth : string) (p : wafPlugin) : wafPlugin :=
  mkWafPlugin (txContext p) (wafElapsed p) (txDone p) (txReleased p) proto (isUpgrade p) (isSSE p)
    (requestBodyProcessed p) (responseBodyProcessed p) auth.
Definition set_upgrade (u : bool) (p : wafPlugin) : wafPlugin :=
  mkWafPlugin (txContext p) (wafElapsed p) (txDone p) (txReleased p) (protocol p) u (isSSE p)
    (requestBodyProcessed p) (responseBodyProcessed p) (authority p).
Definition set_sse (e : bool) (p : wafPlugin) : wafPlugin :=
  mkWafPlugin (txContext p) (wafElapsed p) (txDone p) (txReleased p) (protocol p) (isUpgrade p) e
    (requestBodyProcessed p) (responseBodyProcessed p) (authority p).
Definition set_request_processed (p : wafPlugin) : wafPlugin :=
  mkWafPlugin (txContext p) (wafElapsed p) (txDone p) (txReleased p) (protocol p) (isUpgrade p) (isSSE p)
    true (responseBodyProcessed p) (authority p).
Definition set_response_processed (p : wafPlugin) : wafPlugin :=
  mkWafPlugin (txContext p) (wafElapsed p) (txDone p) (txReleased p) (protocol p) (isUpgrade p) (isSSE p)
    (requestBodyProcessed p) true (authority p).

(** A computation of the filter: it changes the filter, makes calls, and may panic ([None]). *)
Definition M (A : Type) : Type := wafPlugin -> option (A * wafPlugin * list WafEvent).

Definition wret {A} (a : A) : M A := fun p => Some (a, p, []).
Definition wbind {A B} (m : M A) (k : A -> M B) : M B := fun p =>
  match m p with
  | None => None
  | Some (a, p', l1) =>
      match k a p' with
      | None => None
      | Some (b, p'', l2) => Some (b, p'', l1 ++ l2)
      end
  end.
Definition get : M wafPlugin := fun p => Some (p, p, []).
Definition modify (f : wafPlugin -> wafPlugin) : M unit := fun p => Some (tt, f p, []).
(** Calls on the handle. *)
Definition host {A} (m : Host A) : M A := fun p => Some (m.1, p, Handle <$> m.2).
(** A call on the transaction, which panics without one. *)
Definition engine (call : EngineCall) : M Reply := fun p =>
  match txContext p with
  | None => None
  | Some t => let '(t', r) := Apply t call in Some (r, set_tx (Some t') p, [Engine call r])
  end.
Definition ask (q : Tx -> bool) : M bool := fun p =>
  match txContext p with
  | None => None
  | Some t => Some (q t, p, [])
  end.

Notation "'let*' x := m 'in' k" := (wbind m (fun x => k)) (at level 10, x name, m at level 100, k at level 200) : go_scope.
Notation "m ;; k" := (wbind m (fun _ => k)) (at level 100, k at level 200, right associativity) : go_scope.

(** ** Metrics *)

Definition RecordTx (elapsed : Z) : Host unit :=
  run Metric_Count (txTotal (waf_metrics s)) 1 [];
  Metric_Histogram (txDuration (waf_metrics s)) (u64 (Z.quot elapsed 1000)) [].
Definition RecordTxCreated : Host unit := Metric_GaugeInc (txActive (waf_metrics s)) 1 [].
Definition RecordTxReleased : Host unit := Metric_GaugeDec (txActive (waf_metrics s)) 1 [].
Definition blocked_tags (auth : string) (phase : Z) (rule : string) : list string :=
  tags (authority_label (waf_metrics s)) (attributes s) auth [FormatInt phase; rule].
Definition RecordBlockedByRule (auth : string) (phase ruleID : Z) : Host unit :=
  Metric_Count (txBlocked (waf_metrics s)) 1 (blocked_tags auth phase (FormatInt ruleID)).
Definition RecordBlockInternal (auth : string) (phase : Z) : Host unit :=
  Metric_Count (txBlocked (waf_metrics s)) 1 (blocked_tags auth phase "").

(** ** Transactions *)

Definition getSourceAddress : string * Z :=
  let none := ("127.0.0.1", 80) in
  if bool_decide (source_address (attributes s) = "") then none
  else match SplitHostPort (source_address (attributes s)) with
  | None => none
  | Some (ip, portStr) => match Atoi portStr with Some port => (ip, port) | None => none end
  end.

Definition getRequestProtocol : string :=
  if bool_decide (request_protocol (attributes s) = "") then "HTTP/1.1" else request_protocol (attributes s).

Definition checkUpgrade (headers : H) : bool :=
  Contains (ToLower (GetOne headers "connection")) "upgrade" && negb (bool_decide (GetOne headers "upgrade" = "")).

Definition checkSSE (headers : H) : bool :=
  Contains (ToLower (GetOne headers "content-type")) "text/event-stream".

Definition initializeTransaction (headers : H) : M unit :=
  let* p := get in
  match txContext p with
  | Some _ => wret tt
  | None =>
      let id := GetOne headers "x-request-id" in
      (fun p => Some (tt, set_tx (Some (NewTransactionWithID id)) p, [Engine (NewTransaction id) (mkReply None 0 false)])) ;;
      host RecordTxCreated ;;
      modify (set_upgrade (checkUpgrade headers))
  end.

Definition releaseTransaction : M unit :=
  let* p := get in
  match txContext p with
  | None => wret tt
  | Some _ =>
      engine ProcessLogging ;;
      engine Close ;;
      host RecordTxReleased ;;
      modify set_released
  end.

Definition recordTxMetrics : M unit :=
  modify set_done ;;
  let* off := ask IsRuleEngineOff in
  if off then wret tt else let* p := get in host (RecordTx (wafElapsed p)).

(** No further analysis will run. *)
Definition analysis_done (p : wafPlugin) (t : Tx) : bool :=
  IsInterrupted t || IsRuleEngineOff t || responseBodyProcessed p ||
  (bool_decide (mode s = modeRequestOnly) && requestBodyProcessed p).

(** [trackAndMarkTxDone], deferred at the top of a callback that took [elapsed]. *)
Definition trackAndMarkTxDone (elapsed : Z) : M unit :=
  let* p := get in
  match txContext p with
  | None => wret tt
  | Some t =>
      if txDone p then wret tt
      else
        modify (add_elapsed elapsed) ;;
        if analysis_done p t then
          recordTxMetrics ;;
          if (isUpgrade p || isSSE p) && negb (IsInterrupted t) then releaseTransaction else wret tt
        else wret tt
  end.

Definition tracked {A} (elapsed : Z) (m : M A) : M A :=
  let* a := m in trackAndMarkTxDone elapsed ;; wret a.

Definition blockRequest (i : option Interruption) (phase : Z) (reason : string) : M unit :=
  let* p := get in
  host (
    do status <- match i with
                 | None => run RecordBlockInternal (authority p) phase; hret 500
                 | Some i =>
                     run RecordBlockedByRule (authority p) phase (RuleID i);
                     run hcall (SetMetadata defaultMetadataNamespace metadataKeyBlockRule (MetaInt (RuleID i)));
                     hret (if bool_decide (I_Status i = 0) then 403 else I_Status i)
                 end;
    run hcall (SetMetadata defaultMetadataNamespace metadataKeyBlockPhase (MetaInt phase));
    hcall (SendLocalResponse (u32 status) [] "" reason)).

(** ** Bodies *)

(** [handleRequestBody] and [handleResponseBody]: whether the direction may go on. *)
Definition handle_body (call : EngineCall) (phase : Z) (reason : string) : M bool :=
  let* r := engine call in
  if failed r then blockRequest None phase "waf_internal_error" ;; wret false
  else match interruption r with
  | Some i => blockRequest (Some i) phase reason ;; wret false
  | None => wret true
  end.

Definition handleRequestBody : M bool :=
  modify set_request_processed ;; handle_body ProcessRequestBody PhaseRequestBody "waf_request_body_blocked".
Definition handleResponseBody : M bool :=
  modify set_response_processed ;; handle_body ProcessResponseBody PhaseResponseBody "waf_response_body_blocked".

(** The loops of [writeRequestBody] and [writeResponseBody]. *)
Fixpoint write_chunks (write : string -> EngineCall) (phase overflow : Z) (overflow_reason blocked_reason : string)
    (processed : wafPlugin -> wafPlugin) (chunks : list string) : M bool :=
  match chunks with
  | [] => wret true
  | chunk :: chunks' =>
      let* r := engine (write chunk) in
      if failed r then blockRequest None phase "waf_internal_error" ;; wret false
      else match interruption r with
      | Some i =>
          blockRequest (Some i) phase (if bool_decide (I_Status i = overflow) then overflow_reason else blocked_reason) ;;
          wret false
      | None =>
          if written r <? Z.of_nat (String.length chunk) then modify processed ;; wret true
          else write_chunks write phase overflow overflow_reason blocked_reason processed chunks'
      end
  end.

(** The chunks of a buffer, none for a nil one. *)
Definition writeRequestBody (chunks : list string) : M bool :=
  write_chunks WriteRequestBody PhaseRequestBody 413 "waf_request_body_overflow" "waf_request_body_blocked"
    set_request_processed chunks.
Definition writeResponseBody (chunks : list string) : M bool :=
  write_chunks WriteResponseBody PhaseResponseBody 500 "waf_response_body_overflow" "waf_response_body_blocked"
    set_response_processed chunks.

(** What the host says about its buffers. *)
Record BufferView : Type := mkBufferView {
  received_buffered : bool;
  buffer_limit : Z;
  buffered_size : Z;
  received_size : Z;
}.

(** [enlargeRequestBufferLimitIfNeeded], and the same for the response. *)
Definition enlargeBufferLimitIfNeeded (v : BufferView) : M unit :=
  if received_buffered v then wret tt
  else
    let total := u64 (buffered_size v + received_size v) in
    if buffer_limit v <=? total then host (hcall (SetBufferLimit (u64 (total + 32)))) else wret tt.

(** ** Callbacks *)

Fixpoint add_headers (add : string -> string -> EngineCall) (hs : list (string * string)) : M unit :=
  match hs with
  | [] => wret tt
  | (k, v) :: hs' => engine (add k v) ;; add_headers add hs'
  end.

(** REQUEST_URI: the absolute URL, or the path and query. *)
Definition request_uri (headers : H) (authority_header : string) : string :=
  let path := GetOne headers ":path" in
  if negb (requestURIPathOnly s) then
    let scheme := GetOne headers ":scheme" in
    (if bool_decide (scheme = "") then "http" else scheme) +:+ "://" +:+ authority_header +:+ path
  else if bool_decide (path = "") then "//" +:+ authority_header
  else path.

Definition OnRequestHeaders (headers : H) (endOfStream : bool) (elapsed : Z) : M HeadersStatus :=
  tracked elapsed (
    let hst := GetOne headers ":authority" in
    modify (set_request getRequestProtocol (match SplitHostPort hst with Some (a, _) => a | None => hst end)) ;;
    initializeTransaction headers ;;
    let* off := ask IsRuleEngineOff in
    if off || bool_decide (mode s = modeResponseOnly) then wret HeadersStatusContinue
    else
      let '(srcIP, srcPort) := getSourceAddress in
      engine (AddRequestHeader "Host" hst) ;;
      engine (SetServerName hst) ;;
      add_headers AddRequestHeader (GetAll headers) ;;
      engine (ProcessConnection srcIP srcPort "127.0.0.1" 80) ;;
      engine (ProcessURI (request_uri headers hst) (GetOne headers ":method") getRequestProtocol) ;;
      let* r := engine ProcessRequestHeaders in
      match interruption r with
      | Some i => blockRequest (Some i) PhaseRequestHeaders "waf_request_headers_blocked" ;; wret HeadersStatusStop
      | None =>
          let* p := get in
          if endOfStream || isUpgrade p then
            let* ok := handleRequestBody in
            wret (if ok then HeadersStatusContinue else HeadersStatusStop)
          else wret HeadersStatusStop
      end).

(** The transaction still inspects a direction: it is there and the rule engine is on. *)
Definition inspecting : M bool :=
  let* p := get in
  if txReleased p then wret false
  else match txContext p with
  | None => wret false
  | Some t => wret (negb (IsRuleEngineOff t))
  end.

Definition OnRequestBody (chunks : list string) (v : BufferView) (endOfStream : bool) (elapsed : Z) : M BodyStatus :=
  tracked elapsed (
    let* on := inspecting in
    let* p := get in
    if negb on || bool_decide (mode s = modeResponseOnly) || requestBodyProcessed p then wret BodyStatusContinue
    else
      let* accessible := ask IsRequestBodyAccessible in
      if negb accessible then
        let* ok := handleRequestBody in
        wret (if ok then BodyStatusContinue else BodyStatusStopNoBuffer)
      else
        let* ok := writeRequestBody chunks in
        if negb ok then wret BodyStatusStopNoBuffer
        else
          let* p := get in
          if requestBodyProcessed p then enlargeBufferLimitIfNeeded v ;; wret BodyStatusContinue
          else if endOfStream then
            let* ok := handleRequestBody in
            if ok then enlargeBufferLimitIfNeeded v ;; wret BodyStatusContinue
            else wret BodyStatusStopNoBuffer
          else wret BodyStatusStopAndBuffer).

Definition OnRequestTrailers (elapsed : Z) : M TrailersStatus :=
  tracked elapsed (
    let* on := inspecting in
    let* p := get in
    if negb on || bool_decide (mode s = modeResponseOnly) || requestBodyProcessed p then wret TrailersStatusContinue
    else
      let* ok := handleRequestBody in
      wret (if ok then TrailersStatusContinue else TrailersStatusStop)).

Definition OnResponseHeaders (headers : H) (endOfStream : bool) (elapsed : Z) : M HeadersStatus :=
  tracked elapsed (
    let* on := inspecting in
    if negb on || bool_decide (mode s = modeRequestOnly) then wret HeadersStatusContinue
    else
      modify (set_sse (checkSSE headers)) ;;
      add_headers AddResponseHeader (GetAll headers) ;;
      let* p := get in
      let proto := if bool_decide (protocol p = "") then getRequestProtocol else protocol p in
      modify (set_request proto (authority p)) ;;
      let codeStr := GetOne headers ":status" in
      match Atoi (if bool_decide (codeStr = "") then "500" else codeStr) with
      | None => blockRequest None PhaseResponseHeaders "waf_internal_error" ;; wret HeadersStatusStop
      | Some code =>
          let* r := engine (ProcessResponseHeaders code proto) in
          match interruption r with
          | Some i => blockRequest (Some i) PhaseResponseHeaders "waf_response_headers_blocked" ;; wret HeadersStatusStop
          | None =>
              let* p := get in
              if endOfStream || isUpgrade p || isSSE p then
                let* ok := handleResponseBody in
                wret (if ok then HeadersStatusContinue else HeadersStatusStop)
              else wret HeadersStatusStop
          end
      end).

Definition OnResponseBody (chunks : list string) (v : BufferView) (endOfStream : bool) (elapsed : Z) : M BodyStatus :=
  tracked elapsed (
    let* on := inspecting in
    let* p := get in
    if negb on || bool_decide (mode s = modeRequestOnly) || responseBodyProcessed p then wret BodyStatusContinue
    else
      let* accessible := ask (fun t => IsResponseBodyAccessible t && IsResponseBodyProcessable t) in
      if negb accessible then
        let* ok := handleResponseBody in
        wret (if ok then BodyStatusContinue else BodyStatusStopNoBuffer)
      else
        let* ok := writeResponseBody chunks in
        if negb ok then wret BodyStatusStopNoBuffer
        else
          let* p := get in
          if responseBodyProcessed p then enlargeBufferLimitIfNeeded v ;; wret BodyStatusContinue
          else if endOfStream then
            let* ok := handleResponseBody in
            if ok then enlargeBufferLimitIfNeeded v ;; wret BodyStatusContinue
            else wret BodyStatusStopNoBuffer
          else wret BodyStatusStopAndBuffer).

Definition OnResponseTrailers (elapsed : Z) : M TrailersStatus :=
  tracked elapsed (
    let* on := inspecting in
    let* p := get in
    if negb on || bool_decide (mode s = modeRequestOnly) || responseBodyProcessed p then wret TrailersStatusContinue
    else
      let* ok := handleResponseBody in
      wret (if ok then TrailersStatusContinue else TrailersStatusStop)).

Definition OnStreamComplete : M unit :=
  let* p := get in
  match txContext p with
  | None => wret tt
  | Some _ =>
      (if txDone p then wret tt else recordTxMetrics) ;;
      releaseTransaction
  end.

(** ** Streams *)

(** A callback with what the host passes to it. *)
Inductive waf_callback : Type :=
| RequestHeaders (headers : H) (eos : bool)
| RequestBody (chunks : list string) (v : BufferView) (eos : bool)
| RequestTrailers
| ResponseHeaders (headers : H) (eos : bool)
| ResponseBody (chunks : list string) (v : BufferView) (eos : bool)
| ResponseTrailers.

Definition callback_of (cb : waf_callback) : Callback :=
  match cb with
  | RequestHeaders _ eos => CReqHeaders eos
  | RequestBody _ _ eos => CReqBody eos
  | RequestTrailers => CReqTrailers
  | ResponseHeaders _ eos => CRespHeaders eos
  | ResponseBody _ _ eos => CRespBody eos
  | ResponseTrailers => CRespTrailers
  end.

Definition is_request (cb : waf_callback) : bool :=
  match cb with RequestHeaders _ _ | RequestBody _ _ _ | RequestTrailers => true | _ => false end.

(** A callback, and whether its direction goes on to the next filter. *)
Definition run_callback (cb : waf_callback) (elapsed : Z) : M bool :=
  match cb with
  | RequestHeaders headers eos =>
      let* st := OnRequestHeaders headers eos elapsed in wret (bool_decide (st = HeadersStatusContinue))
  | RequestBody chunks v eos =>
      let* st := OnRequestBody chunks v eos elapsed in wret (bool_decide (st = BodyStatusContinue))
  | RequestTrailers =>
      let* st := OnRequestTrailers elapsed in wret (bool_decide (st = TrailersStatusContinue))
  | ResponseHeaders headers eos =>
      let* st := OnResponseHeaders headers eos elapsed in wret (bool_decide (st = HeadersStatusContinue))
  | ResponseBody chunks v eos =>
      let* st := OnResponseBody chunks v eos elapsed in wret (bool_decide (st = BodyStatusContinue))
  | ResponseTrailers =>
      let* st := OnResponseTrailers elapsed in wret (bool_decide (st = TrailersStatusContinue))
  end.
End Waf.

Arguments wafPlugin : clear implicits.
Arguments M : clear implicits.
