(* ===== verification/WafLife.v ===== *)
(** * waf: the life of a transaction

    The callbacks of Waf.v over a whole stream: what each of them may do to the transaction of
    its stream, and what holds of any stream whose callbacks come in the order of the host. *)

From S2P Require Import Prelude GoStr GoNum GoPath GoCodec Host ExtPkg GoJson Waf.
From Stdlib Require Import Lia Ascii.

Local Open Scope Z_scope.
Local Open Scope go_scope.

#[local] Notation "'let*' x := m 'in' k" := (wbind m (fun x => k))
  (at level 10, x name, m at level 100, k at level 200) : go_scope.
#[local] Notation "m ;; k" := (wbind m (fun _ => k)) (at level 100, k at level 200, right associativity) : go_scope.

(** ** What callbacks leave behind *)

(** The engine calls of some events, the gauge going up and down, the transactions counted, the
    local responses, and the replies that forbid to go on. *)
Fixpoint engine_calls (ev : list WafEvent) : list EngineCall :=
  match ev with
  | [] => []
  | Engine c _ :: ev' => c :: engine_calls ev'
  | Handle _ :: ev' => engine_calls ev'
  end.

Fixpoint gauge_moves (ev : list WafEvent) : list bool :=
  match ev with
  | [] => []
  | Handle (IncrementGaugeValue _ _ _) :: ev' => true :: gauge_moves ev'
  | Handle (DecrementGaugeValue _ _ _) :: ev' => false :: gauge_moves ev'
  | _ :: ev' => gauge_moves ev'
  end.

Definition is_total (e : WafEvent) : bool :=
  match e with Handle (IncrementCounterValue m _ _) => bool_decide (m = "waf_tx_total") | _ => false end.
Definition is_local (e : WafEvent) : bool := match e with Handle c => is_local_response c | Engine _ _ => false end.

Definition forbids (e : WafEvent) : bool :=
  match e with
  | Engine (ProcessRequestHeaders | ProcessResponseHeaders _ _) r => bool_decide (is_Some (interruption r))
  | Engine (WriteRequestBody _ | WriteResponseBody _ | ProcessRequestBody | ProcessResponseBody) r =>
      failed r || bool_decide (is_Some (interruption r))
  | _ => false
  end.

Definition count (f : WafEvent -> bool) (ev : list WafEvent) : nat := length (filter (fun e => f e = true) ev).
Definition is_call (c : EngineCall) (e : WafEvent) : bool :=
  match e with Engine c' _ => bool_decide (c' = c) | Handle _ => false end.

Lemma engine_calls_app l1 l2 : engine_calls (l1 ++ l2) = engine_calls l1 ++ engine_calls l2.
Proof. induction l1 as [|[] l1 IH]; cbn; congruence. Qed.
Lemma gauge_moves_app l1 l2 : gauge_moves (l1 ++ l2) = gauge_moves l1 ++ gauge_moves l2.
Proof. induction l1 as [|[?|[]] l1 IH]; cbn; congruence. Qed.
Lemma count_event_app f l1 l2 : count f (l1 ++ l2) = (count f l1 + count f l2)%nat.
Proof. unfold count. by rewrite filter_app, length_app. Qed.

Lemma count_cons f e ev : count f (e :: ev) = (Nat.b2n (f e) + count f ev)%nat.
Proof. unfold count. rewrite filter_cons. destruct (f e); [by rewrite decide_True|by rewrite decide_False]. Qed.
Lemma count_nil f : count f [] = 0%nat.
Proof. done. Qed.

(** Events inside the life of a transaction: it is neither created nor released, and no metric
    of its life is recorded. *)
Definition inner_call (c : EngineCall) : bool :=
  match c with NewTransaction _ | ProcessLogging | Close => false | _ => true end.
Definition inner_event (e : WafEvent) : bool :=
  match e with
  | Engine c _ => inner_call c
  | Handle (IncrementGaugeValue _ _ _ | DecrementGaugeValue _ _ _) => false
  | Handle _ => negb (is_total e)
  end.

Lemma inner_events_spec ev :
  Forall (fun e => inner_event e = true) ev ->
  Forall (fun c => inner_call c = true) (engine_calls ev) /\ gauge_moves ev = [] /\ count is_total ev = 0%nat.
Proof.
  induction 1 as [|e ev He Hev (IH1 & IH2 & IH3)]; [done|]. unfold count in *. rewrite filter_cons.
  destruct e as [c r|[]]; cbn [inner_event is_total engine_calls gauge_moves negb] in *; try done;
    (rewrite decide_False by (first [done | by destruct (bool_decide _)])); auto.
Qed.

Section Lifecycle.
Context {Tx : Type} `{!Coraza Tx}.
Context {H : Type} `{!HeaderMap H, !HeaderList H}.
Context (s : wafSettings).
Context (label : authorityLabel) (r1 r2 r3 r4 : MetricsResult).
Context (Hmetrics : waf_metrics s = newMetrics label r1 r2 r3 r4).

#[local] Abbreviation plugin := (wafPlugin Tx).

(** The weakest precondition of a computation; one that panics has none. *)
Definition wp {A} (m : M Tx A) (Q : A -> plugin -> list WafEvent -> Prop) (p : plugin) : Prop :=
  match m p with Some (a, p', ev) => Q a p' ev | None => False end.

Lemma wp_bind {A B} (m : M Tx A) (k : A -> M Tx B) Q p :
  wp m (fun a p1 ev1 => wp (k a) (fun b p2 ev2 => Q b p2 (ev1 ++ ev2)) p1) p -> wp (wbind m k) Q p.
Proof. unfold wp, wbind. destruct (m p) as [[[a p1] ev1]|]; [|done]. by destruct (k a p1) as [[[b p2] ev2]|]. Qed.

Lemma wp_mono {A} (m : M Tx A) (Q R : A -> plugin -> list WafEvent -> Prop) p :
  wp m Q p -> (forall a p' ev, Q a p' ev -> R a p' ev) -> wp m R p.
Proof. unfold wp. destruct (m p) as [[[a p'] ev]|]; eauto. Qed.

Lemma wp_ret {A} (a : A) Q p : Q a p [] -> wp (wret a) Q p.
Proof. done. Qed.

(** What the part of a callback before the deferred one guarantees from [p] to [p'] with the
    events [ev]. *)
Record inner_post (p p' : plugin) (ev : list WafEvent) : Prop := mkInnerPost {
  ip_tx : is_Some (txContext p) -> is_Some (txContext p');
  ip_none : txContext p = None -> txContext p' = None;
  ip_done : txDone p' = txDone p;
  ip_released : txReleased p' = txReleased p;
  ip_upgrade : isUpgrade p' = isUpgrade p;
  ip_inner : Forall (fun e => inner_event e = true) ev;
  ip_forbids : (count forbids ev <= count is_local ev)%nat;
  ip_req : (count (is_call ProcessRequestBody) ev + Nat.b2n (requestBodyProcessed p) <= Nat.b2n (requestBodyProcessed p'))%nat;
  ip_resp : (count (is_call ProcessResponseBody) ev + Nat.b2n (responseBodyProcessed p) <= Nat.b2n (responseBodyProcessed p'))%nat;
  ip_quiet : txContext p = None -> engine_calls ev = [];
}.

Lemma inner_refl p : inner_post p p [].
Proof. by split. Qed.

Lemma inner_trans p1 p2 p3 ev1 ev2 :
  inner_post p1 p2 ev1 -> inner_post p2 p3 ev2 -> inner_post p1 p3 (ev1 ++ ev2).
Proof.
  intros [] []. split; rewrite ?count_event_app, ?engine_calls_app; try lia; try congruence; auto; [by apply Forall_app|].
  intros Hp. rewrite ip_quiet0, ip_quiet1; auto.
Qed.

(** A block is one local response, and touches neither the filter nor the engine. *)
Definition block_events (ev : list WafEvent) : Prop :=
  Forall (fun e => inner_event e = true) ev /\ engine_calls ev = [] /\ count forbids ev = 0%nat /\
  count is_local ev = 1%nat /\ forall c, count (is_call c) ev = 0%nat.

Lemma blockRequest_spec i phase reason p :
  wp (blockRequest s i phase reason) (fun _ p' ev => p' = p /\ block_events ev) p.
Proof.
  unfold wp, blockRequest, wbind, get, host, RecordBlockInternal, RecordBlockedByRule, Metric_Count, hwhen.
  rewrite Hmetrics. cbn [txBlocked newMetrics NewMetric metric_enabled metric_id].
  destruct i as [i|], (bool_decide (r2 = MetricsSuccess)); cbn; (split; [done|]);
    (split; [by repeat constructor|done]).
Qed.

(** A call of the body phase of one direction. *)
Definition same_but_tx (p p' : plugin) : Prop := exists t, p' = set_tx (Some t) p.

Lemma same_but_tx_inner p p' ev :
  is_Some (txContext p) -> same_but_tx p p' -> Forall (fun e => inner_event e = true) ev ->
  (count forbids ev <= count is_local ev)%nat ->
  count (is_call ProcessRequestBody) ev = 0%nat -> count (is_call ProcessResponseBody) ev = 0%nat -> inner_post p p' ev.
Proof. intros [t0 Ht] [t ->] He Hf H1 H2. split; cbn; try done; try lia; congruence. Qed.

Lemma engine_spec call p :
  is_Some (txContext p) ->
  wp (engine call) (fun r p' ev => same_but_tx p p' /\ ev = [Engine call r]) p.
Proof.
  intros [t Ht]. unfold wp, engine. rewrite Ht. destruct (Apply t call) as [t' r]. split; [by exists t'|done].
Qed.

(** A reply that may forbid, and the block that follows it. *)
Lemma block_after {A} (a0 : A) call r i phase reason p :
  forbids (Engine call r) = true -> inner_call call = true ->
  wp (wbind (blockRequest s i phase reason) (fun _ => wret a0))
    (fun a p' ev => a = a0 /\ p' = p /\ Forall (fun e => inner_event e = true) (Engine call r :: ev) /\
       count forbids (Engine call r :: ev) = 1%nat /\ count is_local (Engine call r :: ev) = 1%nat /\
       forall c, count (is_call c) (Engine call r :: ev) = if decide (call = c) then 1%nat else 0%nat) p.
Proof.
  intros Hf Hi. apply wp_bind. eapply wp_mono; [apply blockRequest_spec|].
  intros _ p' ev (-> & Hin & _ & H1 & H2 & H3). apply wp_ret. rewrite app_nil_r.
  do 2 (split; [done|]). rewrite !count_cons, Hf, H1, H2. split; [by constructor|]. do 2 (split; [done|]).
  intros c. rewrite count_cons, H3. cbn. case_bool_decide; [by rewrite decide_True|by rewrite decide_False].
Qed.

Lemma handle_body_spec call phase reason p :
  is_Some (txContext p) -> call = ProcessRequestBody \/ call = ProcessResponseBody ->
  wp (handle_body s call phase reason)
    (fun ok p' ev => same_but_tx p p' /\ Forall (fun e => inner_event e = true) ev /\
       (count forbids ev <= count is_local ev)%nat /\ (ok = true -> count is_local ev = 0%nat) /\
       (ok = false -> count is_local ev = 1%nat) /\
       call ∈ engine_calls ev /\
       forall c, count (is_call c) ev = if decide (call = c) then 1%nat else 0%nat) p.
Proof.
  intros Hp Hcall. unfold handle_body. apply wp_bind. eapply wp_mono; [by apply engine_spec|].
  intros r p' ev [Hs ->].
  assert (Hin : inner_call call = true) by (by destruct Hcall as [-> | ->]).
  assert (Hf : forbids (Engine call r) = failed r || bool_decide (is_Some (interruption r)))
    by (by destruct Hcall as [-> | ->]).
  assert (Hblock : forall i ph rs, forbids (Engine call r) = true ->
    wp (wbind (blockRequest s i ph rs) (fun _ => wret false))
      (fun ok p'' ev => same_but_tx p p'' /\ Forall (fun e => inner_event e = true) ([Engine call r] ++ ev) /\
        (count forbids ([Engine call r] ++ ev) <= count is_local ([Engine call r] ++ ev))%nat /\
        (ok = true -> count is_local ([Engine call r] ++ ev) = 0%nat) /\
        (ok = false -> count is_local ([Engine call r] ++ ev) = 1%nat) /\
        call ∈ engine_calls ([Engine call r] ++ ev) /\
        forall c, count (is_call c) ([Engine call r] ++ ev) = if decide (call = c) then 1%nat else 0%nat) p').
  { intros i ph rs Hfr. eapply wp_mono; [by apply (block_after false call r)|].
    intros ok p'' ev (-> & -> & H1 & H2 & H3 & H4). cbn [app]. split_and!; try done; [lia|by left]. }
  destruct (failed r); [apply Hblock; by rewrite Hf|].
  destruct (interruption r) as [i|] eqn:Hi; [apply Hblock; by rewrite Hf|].
  apply wp_ret. cbn [app]. split; [done|]. split; [by constructor|].
  do 3 (split; [rewrite ?count_cons, ?count_nil, ?Hf; done|]). split; [by left|].
  intros c. rewrite count_cons, count_nil. cbn [is_call].
  destruct (decide (call = c)); [by rewrite bool_decide_eq_true_2|by rewrite bool_decide_eq_false_2].
Qed.

(** A body that the engine took only in part, having inspected it at its limit. *)
Definition short_write (request : bool) (e : WafEvent) : Prop :=
  match e with
  | Engine (WriteRequestBody c) r =>
      request = true /\ failed r = false /\ interruption r = None /\ written r < Z.of_nat (String.length c)
  | Engine (WriteResponseBody c) r =>
      request = false /\ failed r = false /\ interruption r = None /\ written r < Z.of_nat (String.length c)
  | _ => False
  end.

(** The body phase of a direction ran: it was asked for, or the engine reached its limit. *)
Definition body_call (request : bool) : EngineCall := if request then ProcessRequestBody else ProcessResponseBody.
Definition body_phase (request : bool) (ev : list WafEvent) : Prop :=
  body_call request ∈ engine_calls ev \/ Exists (short_write request) ev.

Lemma body_phase_app request l1 l2 : body_phase request (l1 ++ l2) <-> body_phase request l1 \/ body_phase request l2.
Proof. unfold body_phase. rewrite engine_calls_app, elem_of_app, Exists_app. tauto. Qed.

Definition processed (request : bool) (p : plugin) : bool :=
  if request then requestBodyProcessed p else responseBodyProcessed p.

(** What the part of a callback before the deferred one guarantees; a direction that must not
    go on was answered. *)
Record core_post (request : bool) (p : plugin) (ok : bool) (p' : plugin) (ev : list WafEvent) : Prop := mkCorePost {
  cp_inner : inner_post p p' ev;
  cp_flag : processed request p' = true -> processed request p = true \/ body_phase request ev;
  cp_other : processed (negb request) p' = processed (negb request) p;
  cp_ok : ok = false -> count is_local ev <> 0%nat;
}.

Lemma core_refl request p : core_post request p true p [].
Proof. split; [apply inner_refl|auto|done|done]. Qed.

Lemma core_trans request p1 p2 p3 ok ev1 ev2 :
  core_post request p1 true p2 ev1 -> core_post request p2 ok p3 ev2 -> core_post request p1 ok p3 (ev1 ++ ev2).
Proof.
  intros [Hi1 Hf1 Ho1 _] [Hi2 Hf2 Ho2 Hk2]. split; [by eapply inner_trans| |congruence|].
  - intros [Hp|Hb]%Hf2; rewrite body_phase_app; [apply Hf1 in Hp as [?|?]|]; auto.
  - intros Hok%Hk2. rewrite count_event_app. lia.
Qed.

(** Steps that leave the flags alone. *)
Lemma same_but_tx_core request p p' ok ev :
  same_but_tx p p' -> inner_post p p' ev -> (ok = false -> count is_local ev <> 0%nat) -> core_post request p ok p' ev.
Proof. intros [t ->] Hi Ho. split; [done| | |done]; destruct request; cbn; auto. Qed.

(** A call that cannot forbid anything. *)
Lemma engine_core request call p :
  is_Some (txContext p) -> inner_call call = true -> (forall r, forbids (Engine call r) = false) ->
  call <> ProcessRequestBody -> call <> ProcessResponseBody ->
  wp (engine call) (fun _ p' ev => core_post request p true p' ev /\ same_but_tx p p') p.
Proof.
  intros Hp Hi Hf H1 H2. eapply wp_mono; [by apply engine_spec|]. intros r p' ev [Hs ->]. split; [|done].
  apply same_but_tx_core; [done| |done].
  apply same_but_tx_inner; rewrite ?count_cons, ?count_nil, ?Hf; cbn; try done;
    [by repeat constructor|by rewrite bool_decide_eq_false_2..].
Qed.

Lemma handle_direction_spec (request : bool) p :
  is_Some (txContext p) -> processed request p = false ->
  wp (if request then handleRequestBody s else handleResponseBody s)
    (fun ok p' ev => core_post request p ok p' ev /\ processed request p' = true) p.
Proof.
  intros [t Ht] Hfl. destruct request; [unfold handleRequestBody|unfold handleResponseBody];
    apply wp_bind; unfold modify, wp at 1;
    (eapply wp_mono; [apply handle_body_spec; [by eexists|auto]|]);
    intros ok p' ev ([t' ->] & Hi & Hf & Hk1 & Hk2 & Hin & Hc); cbn [app processed] in *; (split; [|done]);
    (split; [|intros _; right; by left|done|intros ->%Hk2; done]);
    (split; cbn; rewrite ?Hc, ?Hfl; try done; congruence).
Qed.

Lemma handleRequestBody_spec p :
  is_Some (txContext p) -> requestBodyProcessed p = false ->
  wp (handleRequestBody s) (fun ok p' ev => core_post true p ok p' ev /\ requestBodyProcessed p' = true) p.
Proof. apply (handle_direction_spec true). Qed.

Lemma handleResponseBody_spec p :
  is_Some (txContext p) -> responseBodyProcessed p = false ->
  wp (handleResponseBody s) (fun ok p' ev => core_post false p ok p' ev /\ responseBodyProcessed p' = true) p.
Proof. apply (handle_direction_spec false). Qed.

(** The chunks of a body, for either direction. *)
Lemma write_chunks_spec (request : bool) phase overflow reason1 reason2 chunks p
    (write := if request then WriteRequestBody else WriteResponseBody)
    (mark := if request then set_request_processed else set_response_processed) :
  is_Some (txContext p) ->
  wp (write_chunks s write phase overflow reason1 reason2 mark chunks) (fun ok p' ev => core_post request p ok p' ev) p.
Proof.
  revert p. induction chunks as [|chunk chunks IH]; intros p Hp; cbn [write_chunks]; [apply wp_ret, core_refl|].
  apply wp_bind. eapply wp_mono; [by apply engine_spec|]. intros r p1 ev [Hs ->].
  assert (Hin : inner_call (write chunk) = true) by (by destruct request).
  assert (Hf : forbids (Engine (write chunk) r) = failed r || bool_decide (is_Some (interruption r)))
    by (by destruct request).
  assert (Hp1 : is_Some (txContext p1)) by (destruct Hs as [t ->]; by eexists).
  assert (Hblock : forall i rs, forbids (Engine (write chunk) r) = true ->
    wp (wbind (blockRequest s i phase rs) (fun _ => wret false))
      (fun ok p' ev => core_post request p ok p' ([Engine (write chunk) r] ++ ev)) p1).
  { intros i rs Hfr'. eapply wp_mono; [by apply (block_after false (write chunk) r)|].
    intros ok p' ev (-> & -> & H1 & H2 & H3 & H4). cbn [app]. apply same_but_tx_core; [done| |lia].
    apply same_but_tx_inner; try done; [lia| |]; rewrite H4; subst write; by destruct request. }
  destruct (failed r) eqn:Hfl; [apply Hblock; by rewrite Hf|].
  destruct (interruption r) as [i|] eqn:Hi; [apply Hblock; by rewrite Hf|].
  assert (Hstep : core_post request p true p1 [Engine (write chunk) r]).
  { apply same_but_tx_core; [done| |done].
    apply same_but_tx_inner; try done; rewrite ?count_cons, ?count_nil, ?Hf; subst write; destruct request; cbn;
      try lia; by repeat constructor. }
  destruct (written r <? _) eqn:Hw; [|eapply wp_mono; [by apply IH|]; intros ok p' ev; by apply core_trans].
  apply wp_bind. unfold modify, wp at 1. apply wp_ret. rewrite app_nil_r. apply Z.ltb_lt in Hw.
  destruct Hstep as [[H1 H2 H3 H4 H5 H6 H7 H8 H9 H10] Hfl' Hot _]. subst mark write.
  split; [|intros _; right; right; left; by destruct request|by destruct request|done].
  destruct request; split; cbn in *; try done; destruct (requestBodyProcessed p1), (responseBodyProcessed p1); cbn in *; lia.
Qed.

Lemma write_direction_spec (request : bool) chunks p :
  is_Some (txContext p) ->
  wp (if request then writeRequestBody s chunks else writeResponseBody s chunks)
    (fun ok p' ev => core_post request p ok p' ev) p.
Proof. intros Hp. destruct request; [by apply (write_chunks_spec true)|by apply (write_chunks_spec false)]. Qed.

Lemma add_headers_spec request add hs p :
  is_Some (txContext p) -> (add = AddRequestHeader \/ add = AddResponseHeader) ->
  wp (add_headers add hs) (fun _ p' ev => core_post request p true p' ev /\ same_but_tx p p' \/ p' = p /\ ev = []) p.
Proof.
  intros Hp Hadd. revert p Hp. induction hs as [|[k v] hs IH]; intros p Hp; cbn [add_headers]; [apply wp_ret; by right|].
  apply wp_bind. eapply wp_mono; [apply (engine_core request (add k v)); try done; by destruct Hadd as [-> | ->]|].
  intros r p1 ev [Hc [t1 ->]]. eapply wp_mono; [apply IH; by eexists|]. intros [] p' ev' [[Hc' [t' ->]]|[-> ->]]; left.
  - split; [by eapply core_trans|by exists t'].
  - rewrite app_nil_r. split; [done|by exists t1].
Qed.

Lemma enlarge_spec request v p :
  wp (enlargeBufferLimitIfNeeded v) (fun _ p' ev => core_post request p true p' ev /\ p' = p) p.
Proof.
  unfold enlargeBufferLimitIfNeeded, wp. destruct (received_buffered v); [split; [apply core_refl|done]|].
  cbv zeta. destruct (_ <=? _); cbn; (split; [|done]); [|apply core_refl].
  split; [split; try done; by repeat constructor|auto|done|done].
Qed.

(** ** Whole callbacks *)

Definition gauge_if (moves : list bool) : list bool := if metric_enabled (txActive (waf_metrics s)) then moves else [].

(** A callback leaves the transaction as it is, or releases it. *)
Definition life_post (p p' : plugin) (ev : list WafEvent) : Prop :=
  ((txReleased p' = txReleased p /\ (is_Some (txContext p') <-> is_Some (txContext p)) /\
    Forall (fun c => inner_call c = true) (engine_calls ev) /\ gauge_moves ev = [] /\
    (txContext p = None -> engine_calls ev = [])) \/
   (is_Some (txContext p) /\ txContext p' = None /\ txReleased p' = true /\
    exists pre, engine_calls ev = pre ++ [ProcessLogging; Close] /\ Forall (fun c => inner_call c = true) pre /\
      gauge_moves ev = gauge_if [false])) /\
  (count is_total ev + Nat.b2n (txDone p) <= Nat.b2n (txDone p'))%nat /\
  (count forbids ev <= count is_local ev)%nat /\
  (count (is_call ProcessRequestBody) ev + Nat.b2n (requestBodyProcessed p) <= Nat.b2n (requestBodyProcessed p'))%nat /\
  (count (is_call ProcessResponseBody) ev + Nat.b2n (responseBodyProcessed p) <= Nat.b2n (responseBodyProcessed p'))%nat.

(** The rule engine may be off. *)
Definition engine_off : Prop := exists t : Tx, IsRuleEngineOff t = true.

(** The deferred end of a callback: it may count the transaction and release it, nothing else. *)
Definition track_post (p p' : plugin) (ev : list WafEvent) : Prop :=
  life_post p p' ev /\ count is_local ev = 0%nat /\ (forall request, processed request p' = processed request p) /\
  (txReleased p' = true -> txReleased p = true \/ engine_off \/ responseBodyProcessed p = true \/
     (mode s = modeRequestOnly /\ requestBodyProcessed p = true)).

Lemma track_refl p : track_post p p [].
Proof. split; [|auto 10]. split; [left|done]. by split_and!. Qed.

Lemma releaseTransaction_spec p :
  is_Some (txContext p) ->
  wp (releaseTransaction s) (fun _ p' ev => p' = set_released p /\ engine_calls ev = [ProcessLogging; Close] /\
    gauge_moves ev = gauge_if [false] /\ count is_total ev = 0%nat /\ count forbids ev = 0%nat /\
    count is_local ev = 0%nat /\ (forall c, c = ProcessRequestBody \/ c = ProcessResponseBody -> count (is_call c) ev = 0%nat)) p.
Proof.
  intros [t Ht]. unfold releaseTransaction. apply wp_bind. unfold get, wp at 1. rewrite Ht.
  apply wp_bind. eapply wp_mono; [apply engine_spec; by eexists|]. intros q1 p1 ev1 [[t1 ->] ->].
  apply wp_bind. eapply wp_mono; [apply engine_spec; by eexists|]. intros q2 p2 ev2 [[t2 ->] ->].
  unfold wp, wbind, modify, host, RecordTxReleased, Metric_GaugeDec, hwhen, gauge_if.
  destruct (metric_enabled _); cbn; (split; [done|]); split_and!; try done; by intros c [-> | ->].
Qed.

Lemma recordTxMetrics_spec p :
  is_Some (txContext p) ->
  wp (recordTxMetrics s) (fun _ p' ev => p' = set_done p /\ engine_calls ev = [] /\ gauge_moves ev = [] /\
    (count is_total ev <= 1)%nat /\ count forbids ev = 0%nat /\ count is_local ev = 0%nat /\
    (forall c, count (is_call c) ev = 0%nat)) p.
Proof.
  intros [t Ht]. unfold recordTxMetrics, wp, wbind, modify, ask, get, host, RecordTx, Metric_Count, Metric_Histogram, hwhen.
  cbn [set_done txContext]. rewrite Ht. destruct (IsRuleEngineOff t); [cbn; split_and!; try done; lia|].
  destruct (metric_enabled (txTotal _)), (metric_enabled (txDuration _)); cbn; split_and!; try done;
    repeat case_decide; cbn; try done; lia.
Qed.

Lemma trackAndMarkTxDone_spec elapsed p :
  wp (trackAndMarkTxDone s elapsed) (fun _ p' ev => track_post p p' ev) p.
Proof.
  unfold trackAndMarkTxDone. apply wp_bind. unfold get, wp at 1.
  destruct (txContext p) as [t|] eqn:Ht; [|apply wp_ret, track_refl].
  destruct (txDone p) eqn:Hd; [apply wp_ret, track_refl|].
  apply wp_bind. unfold modify, wp at 1. set (p1 := add_elapsed elapsed p).
  assert (Ht1 : is_Some (txContext p1)) by (cbn; rewrite Ht; by eexists).
  assert (Hrefl : track_post p p1 []).
  { split; [|subst p1; cbn; auto 10]. split; [left; cbn; rewrite Ht; by split_and!|]. cbn. by rewrite Hd. }
  destruct (analysis_done s p t) eqn:Had; [|by apply wp_ret].
  assert (Hwhy : IsInterrupted t = true \/ engine_off \/ responseBodyProcessed p = true \/
                 (mode s = modeRequestOnly /\ requestBodyProcessed p = true)).
  { unfold analysis_done in Had. rewrite !orb_true_iff, andb_true_iff, bool_decide_eq_true in Had.
    destruct Had as [[[?|?]|?]|?]; auto. right; left. by exists t. }
  apply wp_bind. eapply wp_mono; [by apply recordTxMetrics_spec|].
  intros _ p2 ev2 (-> & He & Hg & Htot & Hf & Hl & Hc). cbn [app].
  destruct ((isUpgrade p || isSSE p) && negb (IsInterrupted t)) eqn:Hr.
  - eapply wp_mono; [by apply releaseTransaction_spec|].
    intros _ p3 ev3 (-> & He3 & Hg3 & Htot3 & Hf3 & Hl3 & Hc3).
    apply andb_true_iff in Hr as [_ Hni%negb_true_iff].
    split; [|rewrite !count_event_app, Hl, Hl3; cbn; split_and!; try done; intros _; right; naive_solver congruence].
    unfold life_post. rewrite engine_calls_app, gauge_moves_app, !count_event_app, He, Hg, He3, Hg3, Htot3, Hf, Hf3, Hl, Hl3, !Hc, !Hc3 by auto.
    cbn. rewrite Hd. split; [right|cbn; lia]. split; [by rewrite Ht|]. do 2 (split; [done|]). by exists [].
  - apply wp_ret. rewrite app_nil_r. split; [|cbn; split_and!; try done; auto].
    unfold life_post. rewrite He, Hg, Hf, Hl, !Hc. cbn. rewrite Hd, Ht. split; [left; by split_and!|cbn; lia].
Qed.

Lemma life_after_inner p p1 p' ev1 ev2 :
  inner_post p p1 ev1 -> life_post p1 p' ev2 -> life_post p p' (ev1 ++ ev2).
Proof.
  intros [H1 H2 H3 H4 H5 H6 H7 H8 H9 H10] (Hl & Ht & Hf & Hq & Hr).
  destruct (inner_events_spec ev1 H6) as (He & Hg & H0). unfold life_post.
  rewrite engine_calls_app, gauge_moves_app, !count_event_app, Hg, H0.
  split; [|rewrite <- H3; lia]. destruct Hl as [(Ha & Hb & Hc & Hd & Hz)|(Ha & Hb & Hc & pre & Hd & Hpre & Hgm)].
  - left. split; [congruence|]. rewrite Hb, Hd. split; [|split; [by apply Forall_app|split; [done|]]].
    + destruct (txContext p) eqn:E; [split; [by eexists|eauto]|]. rewrite (H2 eq_refl). done.
    + intros Hn. by rewrite (H10 Hn), (Hz (H2 Hn)).
  - right. split; [|do 2 (split; [done|])].
    + destruct (txContext p) eqn:E; [by eexists|]. rewrite (H2 eq_refl) in Ha. by destruct Ha.
    + exists (engine_calls ev1 ++ pre). rewrite Hd, app_assoc. split; [done|]. split; [by apply Forall_app|done].
Qed.

(** A direction the filter has no reason to inspect: its mode skips it, the rule engine is off,
    or there is no transaction. *)
Definition skips (request : bool) : Prop := mode s = if request then modeResponseOnly else modeRequestOnly.
Definition exempt (request : bool) (p : plugin) : Prop := engine_off \/ skips request \/ txContext p = None.

(** What a callback of one direction guarantees; [ok] is whether its direction goes on. *)
Record cb_post (request : bool) (p : plugin) (ok : bool) (p' : plugin) (ev : list WafEvent) : Prop := mkCbPost {
  cb_life : life_post p p' ev;
  cb_flag : processed request p' = true -> processed request p = true \/ body_phase request ev;
  cb_keep : processed request p = true -> processed request p' = true;
  cb_other : processed (negb request) p' = processed (negb request) p;
  cb_released : txReleased p' = true -> txReleased p = true \/ engine_off \/ responseBodyProcessed p' = true \/
     (mode s = modeRequestOnly /\ requestBodyProcessed p' = true);
  cb_ok : ok = true -> exempt request p \/ processed request p' = true \/ count is_local ev <> 0%nat;
}.

Lemma inner_keep request p p' ev : inner_post p p' ev -> processed request p = true -> processed request p' = true.
Proof.
  intros [_ _ _ _ _ _ _ H1 H2 _] Hp. destruct request; cbn in *; rewrite Hp in *; cbn in *;
    [destruct (requestBodyProcessed p')|destruct (responseBodyProcessed p')]; cbn in *; (done || lia).
Qed.

Lemma core_track request p ok p1 p' ev1 ev2 :
  core_post request p true p1 ev1 -> (ok = true -> exempt request p \/ processed request p1 = true \/ count is_local ev1 <> 0%nat) ->
  track_post p1 p' ev2 -> cb_post request p ok p' (ev1 ++ ev2).
Proof.
  intros [Hi Hf Ho _] Hok (Hl & Hlo & Hsame & Hrel). pose proof (ip_released _ _ _ Hi) as Hr.
  split; rewrite ?Hsame, ?body_phase_app, ?count_event_app.
  - by eapply life_after_inner.
  - intros [?|?]%Hf; auto.
  - by eapply inner_keep.
  - done.
  - intros H'. rewrite <- Hr. rewrite (Hsame false : responseBodyProcessed p' = _), (Hsame true : requestBodyProcessed p' = _). auto.
  - intros [?|[?|?]]%Hok; auto. right; right. lia.
Qed.

Lemma core_weaken request p ok p' ev : core_post request p ok p' ev -> core_post request p true p' ev.
Proof. by intros []; split. Qed.

(** A deferred computation around the body of a callback. *)
Lemma tracked_spec {A} elapsed (m : M Tx A) (goes : A -> bool) (R : A -> list WafEvent -> Prop) request p0 ev0 p :
  wp m (fun a p1 ev => exists ev1, ev = ev0 ++ ev1 /\ core_post request p0 true p1 ev1 /\
    (goes a = true -> exempt request p0 \/ processed request p1 = true \/ count is_local ev1 <> 0%nat) /\ R a ev1) p ->
  wp (wbind (tracked s elapsed m) (fun a => wret (goes a)))
    (fun ok p' ev => exists ev1, ev = ev0 ++ ev1 /\ cb_post request p0 ok p' ev1 /\
       exists a pre, pre `prefix_of` ev1 /\ goes a = ok /\ R a pre) p.
Proof.
  intros Hm. apply wp_bind. unfold tracked. apply wp_bind. eapply wp_mono; [exact Hm|].
  intros a p1 ev (ev1 & -> & Hc & Hok & HR). apply wp_bind. eapply wp_mono; [apply trackAndMarkTxDone_spec|].
  intros [] p' ev2 Ht. do 2 apply wp_ret. exists (ev1 ++ ev2). rewrite !app_nil_r, <- app_assoc. split; [done|].
  split; [by eapply core_track|]. exists a, ev1. split; [by eexists|done].
Qed.

(** The body of a callback, when there is nothing else to say. *)
Definition body_post (request : bool) (p : plugin) (ok : bool) (p1 : plugin) (ev : list WafEvent) : Prop :=
  core_post request p true p1 ev /\ (ok = true -> exempt request p \/ processed request p1 = true).

Lemma tracked_body {A} elapsed (m : M Tx A) (goes : A -> bool) request p :
  wp m (fun a p1 ev => body_post request p (goes a) p1 ev) p ->
  wp (wbind (tracked s elapsed m) (fun a => wret (goes a))) (fun ok p' ev => cb_post request p ok p' ev) p.
Proof.
  intros Hm. eapply wp_mono; [apply (tracked_spec elapsed m goes (fun _ _ => True) request p [] p)|].
  - eapply wp_mono; [exact Hm|]. intros a p1 ev [Hc Ho]. exists ev. do 2 (split; [done|]). split; [|done]. intros [?|?]%Ho; auto.
  - by intros ok p' ev (ev1 & -> & Hc & _).
Qed.

(** A released filter has no transaction. *)
Definition plugin_ok (p : plugin) : Prop := txReleased p = true -> txContext p = None.

Lemma inspecting_spec p :
  plugin_ok p ->
  wp inspecting (fun on p' ev => p' = p /\ ev = [] /\ if on then is_Some (txContext p) else forall d, exempt d p) p.
Proof.
  intros Hok. unfold inspecting. apply wp_bind. unfold get, wp at 1. unfold plugin_ok in Hok.
  destruct (txReleased p); [apply wp_ret; split_and!; try done; unfold exempt; auto|].
  destruct (txContext p) as [t|] eqn:Ht; apply wp_ret; split_and!; try done; [|unfold exempt; auto].
  destruct (IsRuleEngineOff t) eqn:Hoff; cbn; [|by eexists]. intros d. left. by exists t.
Qed.

Lemma handle_then {A} (request : bool) (yes no : A) (goes : A -> bool) p :
  is_Some (txContext p) -> processed request p = false ->
  wp (wbind (if request then handleRequestBody s else handleResponseBody s) (fun ok : bool => wret (if ok then yes else no)))
    (fun a p' ev => body_post request p (goes a) p' ev) p.
Proof.
  intros Hp Hf. apply wp_bind. eapply wp_mono; [by apply handle_direction_spec|].
  intros ok p' ev [Hc Hpr]. apply wp_ret. rewrite app_nil_r. split; [by eapply core_weaken|auto].
Qed.

(** The guard at the top of the body and trailers callbacks. *)
Lemma guarded_spec {A} (request : bool) (cont : A) (m : M Tx A) (goes : A -> bool) p :
  plugin_ok p ->
  (is_Some (txContext p) -> processed request p = false -> wp m (fun a p' ev => body_post request p (goes a) p' ev) p) ->
  wp (wbind inspecting (fun on => wbind get (fun q =>
      if negb on || bool_decide (mode s = if request then modeResponseOnly else modeRequestOnly) || processed request q
      then wret cont else m)))
    (fun a p' ev => body_post request p (goes a) p' ev) p.
Proof.
  intros Hok Hm. apply wp_bind. eapply wp_mono; [by apply inspecting_spec|]. intros on p' ev (-> & -> & Hon).
  apply wp_bind. unfold get, wp at 1. cbn [app]. destruct on; cbn [negb orb].
  - case_bool_decide as Hmode; cbn [orb]; [|destruct (processed request p) eqn:Hp; [|by apply Hm]].
    + apply wp_ret. split; [apply core_refl|]. intros _. left. right; by left.
    + apply wp_ret. split; [apply core_refl|auto].
  - apply wp_ret. split; [apply core_refl|auto].
Qed.

(** The part of a body callback behind its guard. *)
Lemma body_spec (request : bool) (q : Tx -> bool) chunks v (eos : bool) p
    (handle := if request then handleRequestBody s else handleResponseBody s)
    (write := if request then writeRequestBody s chunks else writeResponseBody s chunks) :
  is_Some (txContext p) -> processed request p = false ->
  wp (wbind (ask q) (fun accessible : bool =>
      if negb accessible then wbind handle (fun ok : bool => wret (if ok then BodyStatusContinue else BodyStatusStopNoBuffer))
      else wbind write (fun ok : bool =>
        if negb ok then wret BodyStatusStopNoBuffer
        else wbind get (fun p1 : plugin =>
          if processed request p1 then wbind (enlargeBufferLimitIfNeeded v) (fun _ : unit => wret BodyStatusContinue)
          else if eos then wbind handle (fun ok : bool =>
              if ok then wbind (enlargeBufferLimitIfNeeded v) (fun _ : unit => wret BodyStatusContinue)
              else wret BodyStatusStopNoBuffer)
          else wret BodyStatusStopAndBuffer))))
    (fun a p' ev => body_post request p (bool_decide (a = BodyStatusContinue)) p' ev) p.
Proof.
  intros Hp Hpr. apply wp_bind. unfold ask, wp at 1. destruct (txContext p) as [t|] eqn:Ht; [|by destruct Hp]. cbn [app].
  destruct (negb (q t)); [apply (handle_then request _ _ (fun a => bool_decide (a = BodyStatusContinue))); [by rewrite Ht|done]|].
  apply wp_bind. eapply wp_mono; [apply (write_direction_spec request); by rewrite Ht|].
  intros ok p1 ev1 Hc1. destruct ok; cbn [negb]; [|apply wp_ret; rewrite app_nil_r; split; [by eapply core_weaken|done]].
  assert (Hp1 : is_Some (txContext p1)) by (apply (ip_tx _ _ _ (cp_inner _ _ _ _ _ Hc1)); by rewrite Ht).
  assert (Hend : forall p2 ev2, core_post request p true p2 ev2 -> processed request p2 = true ->
    wp (wbind (enlargeBufferLimitIfNeeded v) (fun _ : unit => wret BodyStatusContinue))
      (fun a p' ev => body_post request p (bool_decide (a = BodyStatusContinue)) p' (ev2 ++ ev)) p2).
  { intros p2 ev2 Hc2 Hpr2. apply wp_bind. eapply wp_mono; [apply (enlarge_spec request)|]. intros [] p3 ev3 [Hc3 ->].
    apply wp_ret. rewrite app_nil_r. split; [by eapply core_trans|auto]. }
  apply wp_bind. unfold get, wp at 1. cbn [app]. destruct (processed request p1) eqn:Hpr1; [by apply Hend|].
  destruct eos; [|apply wp_ret; rewrite app_nil_r; by split].
  apply wp_bind. eapply wp_mono; [by apply handle_direction_spec|]. intros ok p2 ev2 [Hc2 Hpr2].
  pose proof (core_trans _ _ _ _ _ _ _ Hc1 Hc2) as Hc. apply core_weaken in Hc.
  destruct ok; [|apply wp_ret; rewrite app_nil_r; by split].
  eapply wp_mono; [by apply (Hend p2 (ev1 ++ ev2))|]. intros a p3 ev3 Hb. by rewrite app_assoc.
Qed.

(** ** The headers of a direction *)

Definition headers_call (request : bool) (c : EngineCall) : Prop :=
  if request then c = ProcessRequestHeaders else exists code proto, c = ProcessResponseHeaders code proto.

Lemma headers_end_spec (request : bool) call phase reason (cond : plugin -> bool) p :
  headers_call request call -> is_Some (txContext p) -> processed request p = false ->
  wp (wbind (engine call) (fun r =>
      match interruption r with
      | Some i => wbind (blockRequest s (Some i) phase reason) (fun _ => wret HeadersStatusStop)
      | None => wbind get (fun q =>
          if cond q then wbind (if request then handleRequestBody s else handleResponseBody s)
            (fun ok : bool => wret (if ok then HeadersStatusContinue else HeadersStatusStop))
          else wret HeadersStatusStop)
      end))
    (fun a p' ev => body_post request p (bool_decide (a = HeadersStatusContinue)) p' ev /\ call ∈ engine_calls ev) p.
Proof.
  intros Hcall Hp Hpr. apply wp_bind. eapply wp_mono; [by apply engine_spec|]. intros r p1 ev [Hs ->].
  assert (Hin : inner_call call = true) by (destruct request; [by rewrite Hcall|by destruct Hcall as (? & ? & ->)]).
  assert (Hf : forbids (Engine call r) = bool_decide (is_Some (interruption r)))
    by (destruct request; [by rewrite Hcall|by destruct Hcall as (? & ? & ->)]).
  assert (Hne : call <> ProcessRequestBody /\ call <> ProcessResponseBody)
    by (destruct request; [by rewrite Hcall|by destruct Hcall as (? & ? & ->)]). destruct Hne as [Hn1 Hn2].
  destruct (interruption r) as [i|] eqn:Hi.
  - eapply wp_mono; [apply (block_after HeadersStatusStop call r); [by rewrite Hf|done]|].
    intros a p' ev (-> & -> & H1 & H2 & H3 & H4). cbn [app]. split; [split; [|done]|by left].
    apply same_but_tx_core; [done| |done].
    apply same_but_tx_inner; try done; [lia| |]; rewrite H4; by rewrite decide_False.
  - assert (Hc : core_post request p true p1 [Engine call r]).
    { apply same_but_tx_core; [done| |done]. apply same_but_tx_inner; try done; rewrite ?count_cons, ?count_nil, ?Hf; cbn;
        rewrite ?bool_decide_eq_false_2 by done; try done. by repeat constructor. }
    assert (Hp1 : is_Some (txContext p1) /\ processed request p1 = false)
      by (destruct Hs as [t ->]; split; [by eexists|by destruct request]).
    apply wp_bind. unfold get, wp at 1. cbn [app]. destruct (cond p1).
    + eapply wp_mono; [by apply (handle_then request _ _ (fun a => bool_decide (a = HeadersStatusContinue))); apply Hp1|].
      intros a p' ev [Hc2 Hk]. split; [|by left].
      split; [by apply (core_trans _ _ _ _ _ [Engine call r] ev Hc Hc2)|]. intros [He|?]%Hk; [|auto]. left.
      destruct He as [?|[?|Hn]]; [by left|by right; left|]. by rewrite Hn in Hp1; destruct Hp1 as [[] _].
    + apply wp_ret. split; [by split|by left].
Qed.

Lemma modify_core request (f : plugin -> plugin) p :
  txContext (f p) = txContext p -> txDone (f p) = txDone p -> txReleased (f p) = txReleased p ->
  isUpgrade (f p) = isUpgrade p -> requestBodyProcessed (f p) = requestBodyProcessed p ->
  responseBodyProcessed (f p) = responseBodyProcessed p -> core_post request p true (f p) [].
Proof.
  intros H1 H2 H3 H4 H5 H6. split; [|destruct request; cbn; rewrite ?H5, ?H6; auto..|done].
  split; rewrite ?H1, ?H5, ?H6; done.
Qed.

Lemma add_headers_core request add hs p :
  is_Some (txContext p) -> (add = AddRequestHeader \/ add = AddResponseHeader) ->
  wp (add_headers add hs) (fun _ p' ev => core_post request p true p' ev /\ is_Some (txContext p') /\
    forall d, processed d p' = processed d p) p.
Proof.
  intros Hp Hadd. eapply wp_mono; [by apply (add_headers_spec request)|].
  intros [] p' ev [[Hc [t ->]]|[-> ->]]; [|split; [apply core_refl|done]]. split; [done|]. split; [by eexists|by intros []].
Qed.

Lemma block_core request i phase reason p :
  wp (blockRequest s i phase reason) (fun _ p' ev => core_post request p true p' ev /\ count is_local ev <> 0%nat) p.
Proof.
  eapply wp_mono; [apply blockRequest_spec|]. intros [] p' ev (-> & Hin & Hc & Hf & Hl & Hcalls). split; [|lia].
  split; [|auto|done|done]. split; rewrite ?Hf, ?Hl, ?Hcalls; try done. lia.
Qed.

Lemma prefix_engine_calls pre ev c : pre `prefix_of` ev -> c ∈ engine_calls pre -> c ∈ engine_calls ev.
Proof. intros [k ->] Hc. rewrite engine_calls_app. apply elem_of_app. by left. Qed.
Lemma prefix_count f pre ev : pre `prefix_of` ev -> count f pre <> 0%nat -> count f ev <> 0%nat.
Proof. intros [k ->] Hc. rewrite count_event_app. lia. Qed.

(** The response headers were handed to the engine, or there was a reason not to. *)
Definition response_headers_seen (p : plugin) (ev : list WafEvent) : Prop :=
  exempt false p \/ count is_local ev <> 0%nat \/ exists c, headers_call false c /\ c ∈ engine_calls ev.

Lemma OnResponseHeaders_spec (headers : H) eos elapsed p :
  plugin_ok p -> responseBodyProcessed p = false ->
  wp (run_callback s (ResponseHeaders headers eos) elapsed)
    (fun ok p' ev => cb_post false p ok p' ev /\ response_headers_seen p ev) p.
Proof.
  intros Hok Hpr. cbn [run_callback]. unfold OnResponseHeaders.
  eapply wp_mono; [apply (tracked_spec elapsed _ (fun a => bool_decide (a = HeadersStatusContinue))
    (fun _ => response_headers_seen p) false p [] p)|].
  2: { intros ok p' ev (ev1 & -> & Hc & a & pre & Hpre & _ & Hseen). split; [done|].
       destruct Hseen as [?|[?|(c & Hcc & Hce)]]; [by left|right; left; by eapply prefix_count|].
       right; right. exists c. split; [done|]. by eapply prefix_engine_calls. }
  apply wp_bind. eapply wp_mono; [by apply inspecting_spec|]. intros on p' ev (-> & -> & Hon). cbn [app].
  destruct on; cbn [negb orb].
  2: { apply wp_ret. exists []. split; [done|]. split; [apply core_refl|]. split; [auto|by left]. }
  case_bool_decide as Hmode.
  { apply wp_ret. exists []. split; [done|]. split; [apply core_refl|]. split; [intros _|]; left; right; by left. }
  apply wp_bind. unfold modify, wp at 1. cbn [app]. set (p1 := set_sse _ p).
  apply wp_bind. eapply wp_mono; [apply (add_headers_core false); [done|by right]|]. intros [] p2 ev2 (Hc2 & Hp2 & Hd2).
  apply wp_bind. unfold get, wp at 1. cbn [app]. apply wp_bind. unfold modify, wp at 1. cbn [app]. set (p3 := set_request _ _ p2).
  assert (Hc3 : core_post false p true p3 ev2).
  { rewrite <- (app_nil_r ev2). eapply core_trans; [|by apply modify_core].
    apply (core_trans _ p p1 p2 _ [] ev2); [by apply modify_core|done]. }
  destruct (Atoi _) as [code|].
  - eapply wp_mono; [apply (headers_end_spec false)|].
    + by eexists _, _.
    + done.
    + change (processed false p2 = false). by rewrite Hd2.
    + intros a p4 ev4 [[Hc4 Hk4] Hin]. exists (ev2 ++ ev4). split; [done|]. split; [by eapply core_trans|]. split.
      * intros [He|?]%Hk4; [|auto]. destruct He as [?|[?|He]]; [left; by left|left; by right; left|].
        change (txContext p2 = None) in He. rewrite He in Hp2. by destruct Hp2.
      * right; right. eexists. split; [by eexists _, _|]. rewrite engine_calls_app. apply elem_of_app. by right.
  - apply wp_bind. eapply wp_mono; [apply (block_core false)|]. intros [] p4 ev4 [Hc4 Hl4]. apply wp_ret. rewrite app_nil_r.
    exists (ev2 ++ ev4). split; [done|]. split; [by eapply core_trans|]. split; [done|].
    right; left. rewrite count_event_app. lia.
Qed.

(** The filter once the transaction of a request has been created. *)
Definition started (headers : H) (p : plugin) : plugin :=
  let hst := GetOne headers ":authority" in
  set_upgrade (checkUpgrade headers)
    (set_tx (Some (NewTransactionWithID (GetOne headers "x-request-id")))
       (set_request (getRequestProtocol s) (match SplitHostPort hst with Some (a, _) => a | None => hst end) p)).

Definition start_events (id : string) : list WafEvent :=
  Engine (NewTransaction id) (mkReply None 0 false) :: (Handle <$> (RecordTxCreated s).2).

Lemma quiet_core {B} request call (k : M Tx B) (Q : B -> plugin -> list WafEvent -> Prop) p0 p ev0 :
  inner_call call = true -> (forall r, forbids (Engine call r) = false) ->
  call <> ProcessRequestBody -> call <> ProcessResponseBody -> is_Some (txContext p) ->
  core_post request p0 true p ev0 -> processed request p = false ->
  (forall p' ev', is_Some (txContext p') -> core_post request p0 true p' (ev0 ++ ev') -> processed request p' = false ->
     wp k (fun b p2 ev2 => Q b p2 (ev' ++ ev2)) p') ->
  wp (wbind (engine call) (fun _ => k)) Q p.
Proof.
  intros Hi Hf H1 H2 Hp Hc Hpr Hk. apply wp_bind. eapply wp_mono; [by apply (engine_core request)|].
  intros r p' ev [Hc' [t ->]]. apply Hk; [by eexists|by eapply core_trans|by destruct request].
Qed.

Lemma request_headers_core (headers : H) eos p :
  is_Some (txContext p) -> requestBodyProcessed p = false ->
  wp (let* off := ask IsRuleEngineOff in
      if off || bool_decide (mode s = modeResponseOnly) then wret HeadersStatusContinue
      else
        let '(srcIP, srcPort) := getSourceAddress s in
        engine (AddRequestHeader "Host" (GetOne headers ":authority")) ;;
        engine (SetServerName (GetOne headers ":authority")) ;;
        add_headers AddRequestHeader (GetAll headers) ;;
        engine (ProcessConnection srcIP srcPort "127.0.0.1" 80) ;;
        engine (ProcessURI (request_uri s headers (GetOne headers ":authority")) (GetOne headers ":method") (getRequestProtocol s)) ;;
        let* r := engine ProcessRequestHeaders in
        match interruption r with
        | Some i => blockRequest s (Some i) PhaseRequestHeaders "waf_request_headers_blocked" ;; wret HeadersStatusStop
        | None =>
            let* q := get in
            if eos || isUpgrade q then
              let* ok := handleRequestBody s in wret (if ok then HeadersStatusContinue else HeadersStatusStop)
            else wret HeadersStatusStop
        end)
    (fun a p' ev => body_post true p (bool_decide (a = HeadersStatusContinue)) p' ev /\
       (exempt true p \/ ProcessRequestHeaders ∈ engine_calls ev)) p.
Proof.
  intros Hp Hpr. apply wp_bind. unfold ask, wp at 1. destruct (txContext p) as [t|] eqn:Ht; [|by destruct Hp]. cbn [app].
  destruct (IsRuleEngineOff t) eqn:Hoff; cbn [orb].
  { apply wp_ret. assert (exempt true p) by (left; by exists t). split; [split; [apply core_refl|]|]; auto. }
  case_bool_decide as Hm.
  { apply wp_ret. assert (exempt true p) by (right; by left). split; [split; [apply core_refl|]|]; auto. }
  destruct (getSourceAddress s) as [srcIP srcPort].
  assert (Hp0 : is_Some (txContext p)) by (by rewrite Ht). pose proof (core_refl true p) as Hc0.
  eapply (quiet_core true _ _ _ p p []); try done. intros p1 ev1 Hp1 Hc1 Hpr1.
  eapply (quiet_core true _ _ _ p p1); try done. intros p2 ev2 Hp2 Hc2 Hpr2.
  apply wp_bind. eapply wp_mono; [apply (add_headers_core true); [done|by left]|]. intros [] p3 ev3 (Hc3 & Hp3 & Hd3).
  pose proof (core_trans _ _ _ _ _ _ _ Hc2 Hc3) as Hc3'.
  eapply (quiet_core true _ _ _ p p3); try done; [by rewrite Hd3|]. intros p4 ev4 Hp4 Hc4 Hpr4.
  eapply (quiet_core true _ _ _ p p4); try done. intros p5 ev5 Hp5 Hc5 Hpr5.
  eapply wp_mono; [by apply (headers_end_spec true _ _ _ (fun q => eos || isUpgrade q))|].
  intros a p6 ev6 [[Hc6 Hk6] Hin]. rewrite !app_assoc. cbn [app] in Hc5. split.
  - split; [by eapply core_trans|]. intros [He|?]%Hk6; [|auto]. left.
    destruct He as [?|[?|He]]; [by left|by right; left|]. rewrite He in Hp5. by destruct Hp5.
  - right. rewrite engine_calls_app. apply elem_of_app. by right.
Qed.

Lemma OnRequestHeaders_spec (headers : H) eos elapsed p :
  txContext p = None -> requestBodyProcessed p = false ->
  wp (run_callback s (RequestHeaders headers eos) elapsed)
    (fun ok p' ev => exists ev1, ev = start_events (GetOne headers "x-request-id") ++ ev1 /\
       cb_post true (started headers p) ok p' ev1 /\
       (exempt true (started headers p) \/ ProcessRequestHeaders ∈ engine_calls ev1)) p.
Proof.
  intros Htx Hpr. cbn [run_callback]. unfold OnRequestHeaders.
  eapply wp_mono; [apply (tracked_spec elapsed _ (fun a => bool_decide (a = HeadersStatusContinue))
    (fun _ ev => exempt true (started headers p) \/ ProcessRequestHeaders ∈ engine_calls ev) true (started headers p)
    (start_events (GetOne headers "x-request-id")) p)|].
  - apply wp_bind. unfold modify, wp at 1. apply wp_bind. unfold initializeTransaction. apply wp_bind.
    unfold get, wp at 1. cbn [set_request txContext]. rewrite Htx. unfold wbind, host, modify, wp at 1.
    match goal with |- wp ?m ?Q ?q => change q with (started headers p) end.
    eapply wp_mono; [apply (request_headers_core headers eos (started headers p)); [by eexists|done]|].
    intros a p' ev [[Hc Hk] Hin]. exists ev. split; [|split; [done|split; [|done]]].
    + cbn [app]. by rewrite !app_nil_r.
    + intros [?|?]%Hk; auto.
  - intros ok p' ev (ev1 & -> & Hc & a & pre & Hpre & _ & Hin). exists ev1. split; [done|]. split; [done|].
    destruct Hin as [?|Hin]; [by left|right; by eapply prefix_engine_calls].
Qed.

(** The callbacks that carry neither kind of headers. *)
Lemma other_callback_spec (cb : waf_callback (H := H)) elapsed p :
  match cb with RequestHeaders _ _ | ResponseHeaders _ _ => False | _ => True end -> plugin_ok p ->
  wp (run_callback s cb elapsed) (fun ok p' ev => cb_post (is_request cb) p ok p' ev) p.
Proof.
  intros Hcb Hok. destruct cb as [|chunks v eos| | |chunks v eos|]; try done; cbn [run_callback is_request];
    (eapply (tracked_body elapsed _ (fun a => bool_decide (a = _)))).
  - apply (guarded_spec true _ _ (fun a => bool_decide (a = BodyStatusContinue))); [done|]. intros. by apply (body_spec true).
  - apply (guarded_spec true _ _ (fun a => bool_decide (a = TrailersStatusContinue))); [done|]. intros.
    by apply (handle_then true _ _ (fun a => bool_decide (a = TrailersStatusContinue))).
  - apply (guarded_spec false _ _ (fun a => bool_decide (a = BodyStatusContinue))); [done|]. intros. by apply (body_spec false).
  - apply (guarded_spec false _ _ (fun a => bool_decide (a = TrailersStatusContinue))); [done|]. intros.
    by apply (handle_then false _ _ (fun a => bool_decide (a = TrailersStatusContinue))).
Qed.

(** The end of the stream releases what is left. *)
Lemma OnStreamComplete_spec p :
  wp (OnStreamComplete s) (fun _ p' ev => life_post p p' ev /\ count is_local ev = 0%nat /\ txContext p' = None /\
    (forall request, processed request p' = processed request p)) p.
Proof.
  unfold OnStreamComplete. apply wp_bind. unfold get, wp at 1. destruct (txContext p) as [t|] eqn:Ht.
  2: { apply wp_ret. split; [apply (track_refl p)|done]. }
  apply wp_bind. apply (wp_mono _ (fun _ p1 ev1 => is_Some (txContext p1) /\ engine_calls ev1 = [] /\ gauge_moves ev1 = [] /\
    (count is_total ev1 + Nat.b2n (txDone p) <= Nat.b2n (txDone p1))%nat /\ count forbids ev1 = 0%nat /\
    count is_local ev1 = 0%nat /\ (forall c, count (is_call c) ev1 = 0%nat) /\ forall request, processed request p1 = processed request p)).
  - destruct (txDone p) eqn:Hd; [apply wp_ret; rewrite Ht, Hd; by split_and!|].
    eapply wp_mono; [apply recordTxMetrics_spec; by rewrite Ht|]. intros [] p1 ev1 (-> & He & Hg & Htot & Hf & Hl & Hc).
    cbn. rewrite Ht. split_and!; try done. lia.
  - intros [] p1 ev1 (Ht1 & He & Hg & Htot & Hf & Hl & Hc & Hsame). cbn [app].
    eapply wp_mono; [by apply releaseTransaction_spec|]. intros [] p2 ev2 (-> & He2 & Hg2 & Htot2 & Hf2 & Hl2 & Hc2).
    pose proof (Hsame true) as Hs1. pose proof (Hsame false) as Hs2. cbn in Hs1, Hs2.
    split; [|rewrite count_event_app, Hl, Hl2; split_and!; try done; by intros []]. unfold life_post.
    rewrite engine_calls_app, gauge_moves_app, !count_event_app, He, Hg, He2, Hg2, Htot2, Hf, Hf2, Hl, Hl2, !Hc, !Hc2 by auto.
    cbn. rewrite Hs1, Hs2. split; [right|lia]. split; [by rewrite Ht|]. do 2 (split; [done|]). by exists [].
Qed.

(** ** Streams *)

Record waf_stream : Type := mkStream {
  phases : Phase * Phase;
  st_plugin : plugin;
  trace : list WafEvent;
  request_on : bool;   (* the request, or the response, has gone on to the next filter *)
  response_on : bool;
  completed : bool;
}.

Definition new_stream : waf_stream := mkStream (NotStarted, NotStarted) new_wafPlugin [] false false false.

Inductive waf_step (st : waf_stream) : waf_stream -> Prop :=
| step_callback cb elapsed ph ok p ev :
    completed st = false -> callback_order (phases st) (callback_of (H := H) cb) = Some ph ->
    run_callback s cb elapsed (st_plugin st) = Some (ok, p, ev) ->
    waf_step st (mkStream ph p (trace st ++ ev) (request_on st || is_request cb && ok)
      (response_on st || negb (is_request cb) && ok) false)
| step_complete p ev :
    completed st = false -> OnStreamComplete s (st_plugin st) = Some (tt, p, ev) ->
    waf_step st (mkStream (phases st) p (trace st ++ ev) (request_on st) (response_on st) true).

Definition waf_reachable : waf_stream -> Prop := rtc waf_step new_stream.

(** The life of the transaction in the events so far: created first, its work, and its release if
    there was one. *)
Record life_inv (p : plugin) (tr : list WafEvent) : Prop := mkLifeInv {
  li_ok : plugin_ok p;
  li_tx : txReleased p = false -> is_Some (txContext p);
  li_calls : exists id inner, engine_calls tr = NewTransaction id :: inner ++ (if txReleased p then [ProcessLogging; Close] else []) /\
    Forall (fun c => inner_call c = true) inner;
  li_gauge : gauge_moves tr = gauge_if (true :: if txReleased p then [false] else []);
  li_total : (count is_total tr <= Nat.b2n (txDone p))%nat;
  li_forbids : (count forbids tr <= count is_local tr)%nat;
  li_req : (count (is_call ProcessRequestBody) tr <= Nat.b2n (requestBodyProcessed p))%nat;
  li_resp : (count (is_call ProcessResponseBody) tr <= Nat.b2n (responseBodyProcessed p))%nat;
}.

Lemma life_step p p' tr ev : life_inv p tr -> life_post p p' ev -> life_inv p' (tr ++ ev).
Proof.
  intros [Hok Htx (id & inner & Hcalls & Hin) Hg H1 H2 H3 H4] (Hl & Ht & Hf & Hq & Hr).
  unfold plugin_ok in *. destruct Hl as [(Ha & Hb & Hc & Hd & Hz)|(Ha & Hb & Hc & pre & Hd & Hpre & Hgm)].
  - split; rewrite ?count_event_app, ?gauge_moves_app, ?engine_calls_app, ?Ha, ?Hg, ?Hd, ?app_nil_r; try lia; try done.
    + unfold plugin_ok. rewrite Ha. intros Hn%Hok. destruct (txContext p') eqn:E; [|done].
      assert (is_Some (txContext p)) as [? ?] by (apply Hb; by eexists). congruence.
    + intros Hrel. by apply Hb, Htx.
    + rewrite Hcalls. destruct (txReleased p) eqn:Hrel.
      * rewrite (Hz (Hok eq_refl)), app_nil_r. by exists id, inner.
      * exists id, (inner ++ engine_calls ev). rewrite !app_nil_r. split; [done|by apply Forall_app].
  - assert (Hrel : txReleased p = false) by (destruct (txReleased p); [|done]; rewrite Hok in Ha by done; by destruct Ha).
    rewrite Hrel in *.
    split; rewrite ?count_event_app, ?gauge_moves_app, ?engine_calls_app, ?Hc, ?Hg, ?Hgm; try lia; try done.
    + by intros _.
    + exists id, (inner ++ pre). rewrite Hcalls, Hd, app_nil_r. cbn. rewrite app_assoc. split; [done|by apply Forall_app].
    + unfold gauge_if. by destruct (metric_enabled _).
Qed.

Lemma start_life headers :
  life_inv (started headers new_wafPlugin) (start_events (GetOne headers "x-request-id")).
Proof.
  unfold start_events, RecordTxCreated, Metric_GaugeInc, hwhen.
  destruct (metric_enabled (txActive (waf_metrics s))) eqn:Hm; split; unfold gauge_if; rewrite ?Hm; cbn; try done; try lia;
    by eexists _, [].
Qed.

(** What has been inspected in a stream whose request has started. *)
Record screen_inv (st : waf_stream) : Prop := mkScreenInv {
  si_early : (phases st).2 = NotStarted -> responseBodyProcessed (st_plugin st) = false;
  si_body : forall d, processed d (st_plugin st) = true -> body_phase d (trace st);
  si_released : txReleased (st_plugin st) = true -> completed st = true \/ engine_off \/
    responseBodyProcessed (st_plugin st) = true \/ (mode s = modeRequestOnly /\ requestBodyProcessed (st_plugin st) = true);
  si_req_headers : engine_off \/ skips true \/ ProcessRequestHeaders ∈ engine_calls (trace st);
  si_resp_headers : (phases st).2 <> NotStarted -> engine_off \/ skips false \/ count is_local (trace st) <> 0%nat \/
    exists c, headers_call false c /\ c ∈ engine_calls (trace st);
  si_request : request_on st = true -> (phases st).2 = NotStarted ->
    engine_off \/ skips true \/ count is_local (trace st) <> 0%nat \/ requestBodyProcessed (st_plugin st) = true;
  si_response : response_on st = true ->
    engine_off \/ skips false \/ count is_local (trace st) <> 0%nat \/ responseBodyProcessed (st_plugin st) = true;
  si_complete : completed st = true -> txReleased (st_plugin st) = true;
}.

Definition stream_inv (st : waf_stream) : Prop :=
  match (phases st).1 with
  | NotStarted => st_plugin st = new_wafPlugin /\ trace st = [] /\ request_on st = false /\
      ((phases st).2 = NotStarted -> response_on st = false)
  | _ => life_inv (st_plugin st) (trace st) /\ screen_inv st
  end.

(** A callback of the response on a filter that has seen no request: there is no transaction to
    inspect it with, and it goes on. *)
Lemma uninspected_response (cb : waf_callback (H := H)) elapsed :
  is_request cb = false -> run_callback s cb elapsed new_wafPlugin = Some (true, new_wafPlugin, []).
Proof. by destruct cb. Qed.

Lemma wp_elim {A} (m : M Tx A) Q p a p' ev : wp m Q p -> m p = Some (a, p', ev) -> Q a p' ev.
Proof. unfold wp. intros Hwp Hm. by rewrite Hm in Hwp. Qed.

(** A transaction that is gone although a direction was still to be inspected. *)
Lemma exempt_cases request st :
  life_inv (st_plugin st) (trace st) -> screen_inv st -> completed st = false ->
  exempt request (st_plugin st) ->
  engine_off \/ skips request \/ responseBodyProcessed (st_plugin st) = true \/
    (mode s = modeRequestOnly /\ requestBodyProcessed (st_plugin st) = true).
Proof.
  intros Hl Hs Hc [?|[?|Hn]]; [by left|by right; left|]. destruct (txReleased (st_plugin st)) eqn:Hr.
  - destruct (si_released _ Hs Hr) as [Hcc|[?|[?|?]]]; [congruence|auto..].
  - destruct (li_tx _ _ Hl Hr) as [t Ht]. congruence.
Qed.

(** A direction that goes on has been through its body phase. *)
Lemma went_on request st ok p ev :
  life_inv (st_plugin st) (trace st) -> screen_inv st -> completed st = false ->
  cb_post request (st_plugin st) ok p ev -> ok = true ->
  (request = true -> responseBodyProcessed (st_plugin st) = false) ->
  engine_off \/ skips request \/ count is_local (trace st ++ ev) <> 0%nat \/ processed request p = true.
Proof.
  intros Hl Hs Hc Hcb Hok Hresp. rewrite count_event_app.
  destruct (cb_ok _ _ _ _ _ Hcb Hok) as [Hex|[?|?]]; [|auto|right; right; left; lia].
  destruct (exempt_cases _ _ Hl Hs Hc Hex) as [?|[?|[Hb|[Hm Hb]]]]; [auto..| |]; destruct request.
  - by rewrite Hresp in Hb.
  - do 3 right. by apply (cb_keep _ _ _ _ _ Hcb).
  - do 3 right. by apply (cb_keep _ _ _ _ _ Hcb).
  - right; by left.
Qed.

Lemma cb_keeps request p ok p' ev d :
  cb_post request p ok p' ev -> processed d p = true -> processed d p' = true.
Proof.
  intros Hcb Hd. destruct (decide (d = request)) as [->|Hne]; [by apply (cb_keep _ _ _ _ _ Hcb)|].
  assert (d = negb request) as -> by (by destruct d, request). by rewrite (cb_other _ _ _ _ _ Hcb).
Qed.

(** The callback that starts the response. *)
Lemma response_starts st ev :
  life_inv (st_plugin st) (trace st) -> screen_inv st -> completed st = false -> (phases st).2 = NotStarted ->
  response_headers_seen (st_plugin st) ev ->
  engine_off \/ skips false \/ count is_local (trace st ++ ev) <> 0%nat \/
    exists c, headers_call false c /\ c ∈ engine_calls (trace st ++ ev).
Proof.
  intros Hl Hs Hc Hn [Hex|[?|(c & Hcc & Hin)]].
  - destruct (exempt_cases _ _ Hl Hs Hc Hex) as [?|[?|[Hb|[Hm _]]]]; [auto..| |right; by left].
    by rewrite (si_early _ Hs Hn) in Hb.
  - right; right; left. rewrite count_event_app. lia.
  - do 3 right. exists c. split; [done|]. rewrite engine_calls_app. apply elem_of_app. by right.
Qed.

(** A callback after the request headers keeps what has been inspected. *)
Lemma screen_callback st (cb : waf_callback (H := H)) ph ok p ev :
  life_inv (st_plugin st) (trace st) -> screen_inv st -> completed st = false ->
  callback_order (phases st) (callback_of cb) = Some ph ->
  cb_post (is_request cb) (st_plugin st) ok p ev ->
  ((phases st).2 = NotStarted -> is_request cb = false -> response_headers_seen (st_plugin st) ev) ->
  screen_inv (mkStream ph p (trace st ++ ev) (request_on st || is_request cb && ok)
    (response_on st || negb (is_request cb) && ok) false).
Proof.
  intros Hl Hs Hc Hord Hcb Hseen. pose proof (fun d => cb_keeps _ _ _ _ _ d Hcb) as Hkeep.
  assert (Hrs : (ph.2 = NotStarted -> is_request cb = true /\ (phases st).2 = NotStarted) /\
    (is_request cb = true -> (phases st).2 = ph.2)).
  { destruct (phases st) as [rq rs], ph as [rq' rs']. apply callback_order_cases in Hord. cbn.
    destruct cb as [? []|? ? []| |? []|? ? []|]; cbn in *; naive_solver. }
  destruct Hrs as [Hrs1 Hrs2]. split; cbn [phases st_plugin trace request_on response_on completed].
  - intros [Hr Hn]%Hrs1. pose proof (cb_other _ _ _ _ _ Hcb) as Ho. rewrite Hr in Ho. cbn in Ho. rewrite Ho. by apply (si_early _ Hs).
  - intros d Hd. rewrite body_phase_app. destruct (decide (d = is_request cb)) as [->|Hne].
    + apply (cb_flag _ _ _ _ _ Hcb) in Hd as [Hd|?]; [left; by apply (si_body _ Hs)|by right].
    + left. apply (si_body _ Hs). assert (d = negb (is_request cb)) as -> by (by destruct d, (is_request cb)).
      by rewrite <- (cb_other _ _ _ _ _ Hcb).
  - intros Hr. right. destruct (cb_released _ _ _ _ _ Hcb Hr) as [Hr0|?]; [|done].
    destruct (si_released _ Hs Hr0) as [?|[?|[Hb|[? Hb]]]]; [congruence|by left| |].
    + right; left. by apply (Hkeep false).
    + right; right. split; [done|]. by apply (Hkeep true).
  - destruct (si_req_headers _ Hs) as [?|[?|?]]; auto. right; right. rewrite engine_calls_app. apply elem_of_app. by left.
  - intros Hn. destruct (decide ((phases st).2 = NotStarted)) as [Hn0|Hn0].
    + apply response_starts; auto. apply Hseen; [done|]. destruct (is_request cb); [|done]. rewrite Hrs2 in Hn0 by done. done.
    + destruct (si_resp_headers _ Hs Hn0) as [?|[?|[?|(c & Hcc & Hin)]]]; [auto..| |]; do 2 right; [left|right].
      * rewrite count_event_app. lia.
      * exists c. split; [done|]. rewrite engine_calls_app. apply elem_of_app. by left.
  - intros Hon [Hr Hn]%Hrs1. apply orb_true_iff in Hon as [Hon|[_ Hok]%andb_true_iff].
    + destruct (si_request _ Hs Hon Hn) as [?|[?|[?|?]]]; [auto..| |]; do 2 right; [left|right; by apply (Hkeep true)].
      rewrite count_event_app. lia.
    + rewrite Hr in Hcb. eapply (went_on true); eauto using si_early.
  - intros Hon. apply orb_true_iff in Hon as [Hon|[Hr%negb_true_iff Hok]%andb_true_iff].
    + destruct (si_response _ Hs Hon) as [?|[?|[?|?]]]; [auto..| |]; do 2 right; [left|right; by apply (Hkeep false)].
      rewrite count_event_app. lia.
    + rewrite Hr in Hcb. by eapply (went_on false).
  - done.
Qed.

(** The stream after the request headers. *)
Lemma screen_start (headers : H) eos ok p ev :
  cb_post true (started headers new_wafPlugin) ok p ev ->
  (exempt true (started headers new_wafPlugin) \/ ProcessRequestHeaders ∈ engine_calls ev) ->
  screen_inv (mkStream (closed_if eos, NotStarted) p (start_events (GetOne headers "x-request-id") ++ ev) ok false false).
Proof.
  intros Hcb Hin.
  assert (Hex : exempt true (started headers new_wafPlugin) -> engine_off \/ skips true) by (intros [?|[?|?]]; auto; done).
  pose proof (cb_other _ _ _ _ _ Hcb) as Ho. cbn in Ho. split; cbn [phases st_plugin trace request_on response_on completed snd]; try done.
  - intros [] Hd; [|cbn in Hd; congruence]. rewrite body_phase_app. by apply (cb_flag _ _ _ _ _ Hcb) in Hd as [?|?]; [|right].
  - intros Hr. right. by destruct (cb_released _ _ _ _ _ Hcb Hr) as [?|?].
  - rewrite engine_calls_app, elem_of_app. destruct Hin as [Hin|?]; [apply Hex in Hin as [?|?]|]; auto.
  - intros Hok _. rewrite count_event_app. destruct (cb_ok _ _ _ _ _ Hcb Hok) as [He|[?|?]]; [apply Hex in He as [?|?]|..]; auto.
    do 2 right; left. lia.
Qed.

Lemma screen_complete st p ev :
  life_inv p (trace st ++ ev) -> screen_inv st -> txContext p = None -> count is_local ev = 0%nat ->
  (forall d, processed d p = processed d (st_plugin st)) ->
  screen_inv (mkStream (phases st) p (trace st ++ ev) (request_on st) (response_on st) true).
Proof.
  intros Hl Hs Hn Hlo Hsame. pose proof (Hsame true) as H1. pose proof (Hsame false) as H2. cbn in H1, H2.
  split; cbn [phases st_plugin trace request_on response_on completed];
    rewrite ?H1, ?H2, ?count_event_app, ?Hlo, ?Nat.add_0_r, ?engine_calls_app, ?elem_of_app; try apply Hs; auto.
  - intros d. rewrite Hsame, body_phase_app. intros ?%(si_body _ Hs). by left.
  - destruct (si_req_headers _ Hs) as [?|[?|?]]; auto.
  - intros Hr. destruct (si_resp_headers _ Hs Hr) as [?|[?|[?|(c & Hcc & Hin)]]]; auto.
    do 3 right. exists c. rewrite elem_of_app. auto.
  - intros _. destruct (txReleased p) eqn:Hr; [done|]. destruct (li_tx _ _ Hl Hr) as [? ?]. congruence.
Qed.

(** What the invariant gives the next callback. *)
Definition step_post (st : waf_stream) (cb : waf_callback (H := H)) (ok : bool) (p : plugin) (ev : list WafEvent) : Prop :=
  match cb with
  | RequestHeaders headers _ => exists ev1, ev = start_events (GetOne headers "x-request-id") ++ ev1 /\
      cb_post true (started headers (st_plugin st)) ok p ev1 /\
      (exempt true (started headers (st_plugin st)) \/ ProcessRequestHeaders ∈ engine_calls ev1)
  | ResponseHeaders _ _ => cb_post false (st_plugin st) ok p ev /\ response_headers_seen (st_plugin st) ev
  | _ => cb_post (is_request cb) (st_plugin st) ok p ev
  end.

Lemma callback_spec st (cb : waf_callback (H := H)) elapsed ph :
  (phases st).1 <> NotStarted \/ is_request cb = true -> stream_inv st -> callback_order (phases st) (callback_of cb) = Some ph ->
  wp (run_callback s cb elapsed) (step_post st cb) (st_plugin st).
Proof.
  unfold stream_inv. destruct (phases st) as [rq rs] eqn:Hph, ph as [rq' rs']. cbn [fst snd].
  intros Hrq Hinv Hord%callback_order_cases. destruct cb as [headers eos| | |headers eos| |]; cbn [callback_of is_request] in *.
  - destruct Hord as (-> & -> & -> & ->). destruct Hinv as (Hnew & _). apply OnRequestHeaders_spec; by rewrite Hnew.
  - destruct Hord as (-> & -> & ->). apply (other_callback_spec (RequestBody _ _ _)); [done|]. apply Hinv.
  - destruct Hord as (-> & -> & ->). apply (other_callback_spec RequestTrailers); [done|]. apply Hinv.
  - destruct Hord as (-> & -> & ->). destruct rq; [by destruct Hrq|..]; destruct Hinv as [Hl Hs];
      (apply OnResponseHeaders_spec; [apply Hl|apply (si_early _ Hs); by rewrite Hph]).
  - destruct Hord as (-> & -> & ->). destruct rq; [by destruct Hrq|..];
      (apply (other_callback_spec (ResponseBody _ _ _)); [done|]; apply Hinv).
  - destruct Hord as (-> & -> & ->). destruct rq; [by destruct Hrq|..];
      (apply (other_callback_spec ResponseTrailers); [done|]; apply Hinv).
Qed.

Lemma stream_inv_callback st (cb : waf_callback (H := H)) ph ok p ev :
  (phases st).1 <> NotStarted \/ is_request cb = true -> stream_inv st -> completed st = false -> callback_order (phases st) (callback_of cb) = Some ph -> step_post st cb ok p ev ->
  stream_inv (mkStream ph p (trace st ++ ev) (request_on st || is_request cb && ok)
    (response_on st || negb (is_request cb) && ok) false).
Proof.
  intros Hfirst Hinv Hc Hord Hpost.
  assert (Hrest : (phases st).1 <> NotStarted -> cb_post (is_request cb) (st_plugin st) ok p ev ->
    ((phases st).2 = NotStarted -> is_request cb = false -> response_headers_seen (st_plugin st) ev) ->
    stream_inv (mkStream ph p (trace st ++ ev) (request_on st || is_request cb && ok)
      (response_on st || negb (is_request cb) && ok) false)).
  { intros Hrq Hcb Hseen. assert (life_inv (st_plugin st) (trace st) /\ screen_inv st) as [Hl Hs].
    { unfold stream_inv in Hinv. by destruct ((phases st).1). }
    assert (life_inv p (trace st ++ ev) /\ screen_inv (mkStream ph p (trace st ++ ev) (request_on st || is_request cb && ok)
      (response_on st || negb (is_request cb) && ok) false)) as Hgoal
      by (split; [eapply life_step; [done|apply Hcb]|by apply screen_callback]).
    unfold stream_inv. cbn [phases st_plugin trace]. destruct (ph.1) eqn:Hph; try done. exfalso.
    destruct (phases st) as [rq rs], ph as [rq' rs']. apply callback_order_cases in Hord. cbn in Hph, Hrq. subst rq'.
    destruct cb as [? []|? ? []| |? []|? ? []|]; cbn in Hord; naive_solver. }
  unfold stream_inv in Hinv. destruct (phases st) as [rq rs] eqn:Hph, ph as [rq' rs'].
  pose proof (callback_order_cases _ _ _ _ _ Hord) as Hcases. cbn [fst snd] in *.
  destruct cb as [headers eos| | |headers eos| |]; cbn [callback_of step_post is_request] in *.
  - destruct Hcases as (-> & -> & -> & ->). destruct Hinv as (Hnew & Htr & Hon1 & Hon2%(fun f => f eq_refl)), Hpost as (ev1 & -> & Hcb & Hin).
    rewrite Hnew in Hcb, Hin. rewrite Htr, Hon1, Hon2. cbn [app orb negb andb].
    assert (life_inv p (start_events (GetOne headers "x-request-id") ++ ev1)) by (eapply life_step; [apply start_life|apply Hcb]).
    pose proof (screen_start headers eos ok p ev1 Hcb Hin). unfold stream_inv. by destruct eos.
  - apply Hrest; [naive_solver|done|done].
  - apply Hrest; [naive_solver|done|done].
  - apply Hrest; [naive_solver|apply Hpost|intros _ _; apply Hpost].
  - destruct Hcases as (-> & -> & ->). apply Hrest; [|done|done]. by destruct Hfirst.
  - destruct Hcases as (-> & -> & ->). apply Hrest; [|done|done]. by destruct Hfirst.
Qed.

(** The invariant over a response whose request never reached the filter. *)
Lemma stream_inv_uninspected st (cb : waf_callback (H := H)) ph :
  (phases st).1 = NotStarted -> is_request cb = false -> stream_inv st ->
  callback_order (phases st) (callback_of cb) = Some ph ->
  stream_inv (mkStream ph (st_plugin st) (trace st ++ []) (request_on st || is_request cb && true)
    (response_on st || negb (is_request cb) && true) false).
Proof.
  unfold stream_inv. destruct (phases st) as [rq rs], ph as [rq' rs']. cbn [fst snd].
  intros -> Hcb Hinv Hord%callback_order_cases. cbn [phases st_plugin trace request_on response_on fst snd].
  rewrite Hcb. destruct Hinv as (-> & -> & -> & _).
  assert (rq' = NotStarted /\ rs' <> NotStarted) as [-> Hrs]
    by (destruct cb as [? []|? ? []| |? []|? ? []|]; cbn in *; naive_solver).
  by split_and!.
Qed.

Lemma uninspected_case st (cb : waf_callback (H := H)) :
  ~ ((phases st).1 <> NotStarted \/ is_request cb = true) -> (phases st).1 = NotStarted /\ is_request cb = false.
Proof. destruct (is_request cb), (decide ((phases st).1 = NotStarted)); tauto. Qed.

Lemma uninspected_plugin st : (phases st).1 = NotStarted -> stream_inv st -> st_plugin st = new_wafPlugin.
Proof. unfold stream_inv. intros ->. by intros [? _]. Qed.

Lemma stream_inv_step st st' : stream_inv st -> waf_step st st' -> stream_inv st'.
Proof.
  intros Hinv Hstep. destruct Hstep as [cb elapsed ph ok p ev Hc Hord Hrun|p ev Hc Hrun].
  - destruct (decide ((phases st).1 <> NotStarted \/ is_request cb = true)) as [Hf|Hf].
    + eapply stream_inv_callback; [done..|]. exact (wp_elim _ _ _ _ _ _ (callback_spec st cb elapsed ph Hf Hinv Hord) Hrun).
    + destruct (uninspected_case st cb Hf) as [Hq Hcb]. pose proof (uninspected_plugin st Hq Hinv) as Hp.
      rewrite Hp, (uninspected_response cb elapsed Hcb) in Hrun. injection Hrun as <- <- <-.
      rewrite <- Hp. by apply stream_inv_uninspected.
  - pose proof (wp_elim _ _ _ _ _ _ (OnStreamComplete_spec (st_plugin st)) Hrun) as (Hl & Hlo & Hn & Hsame).
    unfold stream_inv in *. cbn [phases st_plugin trace request_on response_on completed]. destruct ((phases st).1) eqn:Hph.
    + destruct Hinv as (H2 & H3 & H4 & H5). rewrite H2 in Hrun. cbn in Hrun. injection Hrun as <- <-. by rewrite H3.
    + destruct Hinv as [Hli Hs]. pose proof (life_step _ _ _ _ Hli Hl). split; [done|by apply screen_complete].
    + destruct Hinv as [Hli Hs]. pose proof (life_step _ _ _ _ Hli Hl). split; [done|by apply screen_complete].
Qed.

Lemma reachable_inv st : waf_reachable st -> stream_inv st.
Proof.
  intros Hr. assert (Hnew : stream_inv new_stream) by done. revert Hnew. induction Hr as [|st st1 st2 Hstep _ IH]; [done|].
  intros Hinv. apply IH. by eapply stream_inv_step.
Qed.

Lemma started_inv st :
  stream_inv st -> (phases st).1 <> NotStarted -> life_inv (st_plugin st) (trace st) /\ screen_inv st.
Proof. unfold stream_inv. by destruct ((phases st).1). Qed.

Lemma unstarted_inv st :
  stream_inv st -> (phases st).1 = NotStarted -> st_plugin st = new_wafPlugin /\ trace st = [] /\ request_on st = false.
Proof. unfold stream_inv. intros Hi Hq. rewrite Hq in Hi. naive_solver. Qed.

Lemma wp_total {A} (m : M Tx A) Q p : wp m Q p -> is_Some (m p).
Proof. unfold wp. destruct (m p); [by eexists|done]. Qed.

Lemma callback_total st (cb : waf_callback (H := H)) elapsed ph :
  stream_inv st -> callback_order (phases st) (callback_of cb) = Some ph -> is_Some (run_callback s cb elapsed (st_plugin st)).
Proof.
  intros Hinv Hord. destruct (decide ((phases st).1 <> NotStarted \/ is_request cb = true)) as [Hf|Hf].
  - eapply wp_total. by eapply callback_spec.
  - destruct (uninspected_case st cb Hf) as [Hq Hcb]. rewrite (uninspected_plugin st Hq Hinv), uninspected_response; [by eexists|done].
Qed.

(** C16: Over any stream whose callbacks come in the order of the host, the streams included whose
    response starts without the request having reached the filter, and with an engine that may
    answer anything: no callback panics, nor the end of the stream; when the request headers never
    came nothing was done, no transaction was created and no metric recorded; when they came, the
    calls on the transaction are its creation, its work, and, at most once and last, its logging
    and closing, the gauge of active transactions goes up with the creation and down with the
    release, and a completed stream has released its transaction; the transaction is counted at
    most once; the body phase of each direction is asked for at most once; and every reply that
    forbids to go on is answered by a local response of its own. *)
Theorem waf_lifecycle st :
  waf_reachable st ->
  (completed st = false -> forall cb elapsed ph, callback_order (phases st) (callback_of (H := H) cb) = Some ph ->
     is_Some (run_callback s cb elapsed (st_plugin st))) /\
  is_Some (OnStreamComplete s (st_plugin st)) /\
  ((phases st).1 = NotStarted -> trace st = []) /\
  ((phases st).1 <> NotStarted -> exists id inner,
     engine_calls (trace st) =
       NewTransaction id :: inner ++ (if txReleased (st_plugin st) then [ProcessLogging; Close] else []) /\
     Forall (fun c => inner_call c = true) inner /\
     gauge_moves (trace st) = gauge_if (true :: if txReleased (st_plugin st) then [false] else []) /\
     (completed st = true -> txReleased (st_plugin st) = true)) /\
  (count is_total (trace st) <= 1)%nat /\
  (forall request, (count (is_call (body_call request)) (trace st) <= 1)%nat) /\
  (count forbids (trace st) <= count is_local (trace st))%nat.
Proof.
  intros Hr%reachable_inv. split; [intros _ cb elapsed ph Hord; by eapply callback_total|].
  split; [eapply wp_total; apply OnStreamComplete_spec|].
  destruct (decide ((phases st).1 = NotStarted)) as [Hq|Hq].
  - destruct (unstarted_inv st Hr Hq) as (_ & -> & _). rewrite !count_nil.
    split; [done|]. split; [by intros []|]. split; [lia|]. split; [intros; rewrite count_nil|]; lia.
  - destruct (started_inv st Hr Hq) as [[_ _ (id & inner & Hcalls & Hin) Hg H1 H2 H3 H4] Hs].
    split; [done|]. split; [intros _; exists id, inner; split_and!; try done; apply Hs|].
    pose proof (Nat.b2n_le_1 (txDone (st_plugin st))). pose proof (Nat.b2n_le_1 (requestBodyProcessed (st_plugin st))).
    pose proof (Nat.b2n_le_1 (responseBodyProcessed (st_plugin st))). split; [lia|]. split; [intros []; cbn [body_call]; lia|done].
Qed.

(** A direction has gone on to the next filter; for the request, before the response started. *)
Definition gone_on (request : bool) (st : waf_stream) : Prop :=
  if request then request_on st = true /\ (phases st).2 = NotStarted else response_on st = true.

Lemma screened request st :
  life_inv (st_plugin st) (trace st) -> screen_inv st ->
  ~ skips request -> ~ engine_off -> gone_on request st -> count is_local (trace st) = 0%nat ->
  (exists c, headers_call request c /\ c ∈ engine_calls (trace st)) /\ body_phase request (trace st) /\
  count forbids (trace st) = 0%nat.
Proof.
  intros Hl Hs Hskip Hoff Hon Hlo. destruct request; cbn in Hon.
  - destruct Hon as [Hon Hn]. split; [|split; [|pose proof (li_forbids _ _ Hl); lia]].
    + destruct (si_req_headers _ Hs) as [?|[?|?]]; [done..|]. by exists ProcessRequestHeaders.
    + destruct (si_request _ Hs Hon Hn) as [?|[?|[?|?]]]; [done..|]. by apply (si_body _ Hs true).
  - split; [|split; [|pose proof (li_forbids _ _ Hl); lia]].
    + destruct (decide ((phases st).2 = NotStarted)) as [Hn|Hn].
      * destruct (si_response _ Hs Hon) as [?|[?|[?|Hb]]]; [done..|]. by rewrite (si_early _ Hs Hn) in Hb.
      * by destruct (si_resp_headers _ Hs Hn) as [?|[?|[?|?]]].
    + destruct (si_response _ Hs Hon) as [?|[?|[?|?]]]; [done..|]. by apply (si_body _ Hs false).
Qed.

(** C10: In every stream the host can make: once the request headers have reached the filter, with
    the rule engine on and a mode that inspects the direction, a request that has gone on to the
    next filter before its response started, and a response that has gone on, without a local
    response to the client, went on inspected: the engine was given its headers and ran its body
    phase, asked for or at the body limit, and none of its replies so far forbade to go on.  A
    response whose request never reached the filter is the one exception, and a complete one:
    no request went on in that stream, no transaction was created, and each of its callbacks lets
    the response go on without asking the engine anything, whatever the mode. *)
Theorem waf_screened request st :
  waf_reachable st ->
  ((phases st).1 <> NotStarted ->
   ~ skips request -> ~ engine_off -> gone_on request st -> count is_local (trace st) = 0%nat ->
   (exists c, headers_call request c /\ c ∈ engine_calls (trace st)) /\ body_phase request (trace st) /\
   count forbids (trace st) = 0%nat) /\
  ((phases st).1 = NotStarted ->
   request_on st = false /\ trace st = [] /\
   forall cb elapsed, is_request (H := H) cb = false ->
     run_callback s cb elapsed (st_plugin st) = Some (true, st_plugin st, [])).
Proof.
  intros Hr%reachable_inv. split; intros Hq.
  - destruct (started_inv st Hr Hq). by apply screened.
  - destruct (unstarted_inv st Hr Hq) as (-> & Htr & Hon). split_and!; [done..|]. intros. by apply uninspected_response.
Qed.
End Lifecycle.

(** ** Runs *)

(** An engine with one rule: the body of the request, collected chunk by chunk, is an attack. *)
Definition TestTx : Type := string * bool.

#[local] Instance test_engine : Coraza TestTx := {
  NewTransactionWithID _ := ("", false);
  Apply t call :=
    match call with
    | WriteRequestBody c => ((t.1 +:+ c, t.2), mkReply None (Z.of_nat (String.length c)) false)
    | ProcessRequestBody =>
        if Contains t.1 "attack" then ((t.1, true), mkReply (Some (mkInterruption 942100 0)) 0 false) else (t, mkReply None 0 false)
    | _ => (t, mkReply None 0 false)
    end;
  IsRuleEngineOff _ := false;
  IsInterrupted t := t.2;
  IsRequestBodyAccessible _ := true;
  IsResponseBodyAccessible _ := true;
  IsResponseBodyProcessable _ := true;
}.

Definition test_settings : wafSettings :=
  mkWafSettings modeFull false (newMetrics defaultLabel MetricsSuccess MetricsSuccess MetricsSuccess MetricsSuccess)
    (mkAttributes "10.0.0.9:4711" "HTTP/2" None None).

Definition test_view : BufferView := mkBufferView false 1024 10 6.

(** The callbacks of a run, one after the other. *)
Fixpoint run_waf_stream (cbs : list (waf_callback (H := Headers))) (st : waf_stream (Tx := TestTx)) : option (waf_stream (Tx := TestTx)) :=
  match cbs with
  | [] => Some st
  | cb :: cbs' =>
      match callback_order (phases st) (callback_of cb), run_callback test_settings cb 7 (st_plugin st) with
      | Some ph, Some (ok, p, ev) =>
          if completed st then None
          else run_waf_stream cbs' (mkStream ph p (trace st ++ ev) (request_on st || is_request cb && ok)
                 (response_on st || negb (is_request cb) && ok) false)
      | _, _ => None
      end
  end.

Lemma run_waf_stream_steps cbs st st' : run_waf_stream cbs st = Some st' -> rtc (waf_step (H := Headers) test_settings) st st'.
Proof.
  revert st. induction cbs as [|cb cbs IH]; intros st; cbn [run_waf_stream]; [intros [= <-]; apply rtc_refl|].
  destruct (callback_order _ _) as [ph|] eqn:Hord; [|done].
  destruct (run_callback _ _ _ _) as [[[ok p] ev]|] eqn:Hrun; [|done]. destruct (completed st) eqn:Hc; [done|].
  intros Hrest. eapply rtc_l; [by eapply step_callback|by apply IH].
Qed.

Definition test_headers : Headers := [(":authority", "shop:8080"); (":path", "/login"); (":method", "POST"); ("x-request-id", "r1")].
Definition attack_run : list (waf_callback (H := Headers)) :=
  [RequestHeaders test_headers false; RequestBody ["an at"; "tack"] test_view false; RequestBody [] test_view true].
Definition benign_run : list (waf_callback (H := Headers)) :=
  [RequestHeaders test_headers false; RequestBody ["hello "] test_view false; RequestTrailers].

Definition final (cbs : list (waf_callback (H := Headers))) : waf_stream (Tx := TestTx) :=
  default new_stream (run_waf_stream cbs new_stream).

(** An attack spread over two chunks: it is forbidden once, and answered once. *)
Lemma waf_lifecycle_witness :
  count forbids (trace (final attack_run)) = 1%nat /\
  (count forbids (trace (final attack_run)) <= count is_local (trace (final attack_run)))%nat.
Proof.
  split; [vm_compute; reflexivity|].
  apply (waf_lifecycle (H := Headers) test_settings defaultLabel MetricsSuccess MetricsSuccess MetricsSuccess MetricsSuccess eq_refl
    (final attack_run)).
  apply run_waf_stream_steps with (cbs := attack_run). vm_compute. reflexivity.
Defined.

(** A response whose request never came, and a request that ends with trailers. *)
Definition response_only : list (waf_callback (H := Headers)) :=
  [ResponseHeaders [(":status", "503")] false; ResponseBody ["attack"] test_view true].

Lemma waf_screened_witness :
  body_phase true (trace (final benign_run)) /\ trace (final response_only) = [] /\ response_on (final response_only) = true.
Proof.
  split; [|split; [|vm_compute; reflexivity]].
  - apply (waf_screened (H := Headers) test_settings defaultLabel MetricsSuccess MetricsSuccess MetricsSuccess MetricsSuccess eq_refl true
      (final benign_run)).
    + apply run_waf_stream_steps with (cbs := benign_run). vm_compute. reflexivity.
    + vm_compute. congruence.
    + unfold skips. cbn. congruence.
    + intros [t Ht]. cbn in Ht. congruence.
    + split; vm_compute; reflexivity.
    + vm_compute. reflexivity.
  - apply (waf_screened (H := Headers) test_settings defaultLabel MetricsSuccess MetricsSuccess MetricsSuccess MetricsSuccess eq_refl false
      (final response_only)).
    + apply run_waf_stream_steps with (cbs := response_only). vm_compute. reflexivity.
    + vm_compute. reflexivity.
Defined.
