(* ===== verification/WafShared.v ===== *)
(** * waf: engines shared by configurations

    extensions/composer/waf/coraza/shared.go, recording_fs.go and the paths of directives_fs.go,
    with the factories of waf.go: an engine is built from directives that include files, cached
    under the hash of the directives with what it read, reused while those files are unchanged,
    and closed once nothing refers to it.  The build is the program [newWAF directives] that reads
    files through the recording file system; the garbage collector is a step that may collect
    any engine no configuration and no stream holds. *)

From S2P Require Import Prelude GoStr GoNum GoPath GoCodec Host ExtPkg GoJson Waf.
From stdpp Require Import gmap relations.
From Stdlib Require Import Lia Ascii.

Local Open Scope go_scope.

(** ** File systems *)

Inductive ReadError : Type := ErrNotExist | ErrRead (reason : string).

(** [fs.FS] as far as it is read. *)
Record FS : Type := mkFS {
  fs_ReadFile : string -> result ReadError string;
  fs_Glob : string -> option (list string);
  fs_Open : string -> result ReadError string;
}.

(** [strings.LastIndex]. *)
Fixpoint LastIndex (s sub : string) : option nat :=
  match s with
  | "" => if bool_decide (sub = "") then Some O else None
  | String _ s' =>
      match LastIndex s' sub with
      | Some i => Some (S i)
      | None => if HasPrefix s sub then Some O else None
      end
  end.

(** [normalizeDirectivePath]: the last segment that starts with an @, with its aliases. *)
Definition normalizeDirectivePath (name : string) : string :=
  let name := match LastIndex name "/@" with Some idx => drop_bytes (S idx) name | None => name end in
  if bool_decide (name = "@recommended.conf") || bool_decide (name = "@recommended-conf") then "@coraza.conf"
  else if bool_decide (name = "@crs-setup-conf") then "@crs-setup.conf"
  else name.

Example normalizeDirectivePath_ex :
  normalizeDirectivePath "/etc/waf@prod/@recommended.conf" = "@coraza.conf" /\
  normalizeDirectivePath "folder/foo@bar.conf" = "folder/foo@bar.conf" /\
  normalizeDirectivePath "testdata/@crs-setup-conf" = "@crs-setup.conf".
Proof. vm_compute. repeat split. Qed.

Lemma LastIndex_app a b sub i : LastIndex b sub = Some i -> LastIndex (a +:+ b) sub = Some (String.length a + i)%nat.
Proof. intros Hb. induction a as [|x a IH]; cbn; [done|]. by rewrite IH. Qed.

(** A name with an @ means the same from whatever directory it is included. *)
Lemma normalizeDirectivePath_nested dir name :
  HasPrefix name "@" = true -> LastIndex name "/@" = None ->
  normalizeDirectivePath (dir +:+ "/" +:+ name) = normalizeDirectivePath name.
Proof.
  intros Hp Hn. unfold normalizeDirectivePath. rewrite Hn.
  assert (H0 : LastIndex ("/" +:+ name) "/@" = Some 0%nat).
  { cbn [LastIndex String.append]. rewrite Hn. destruct name as [|c name]; [done|]. unfold HasPrefix in *. cbn in Hp |- *.
    destruct (ascii_dec "@" c); [|done]. destruct (ascii_dec "/" "/"); [by rewrite Hp|done]. }
  rewrite (LastIndex_app dir ("/" +:+ name) "/@" 0 H0).
  assert (Hd : drop_bytes (S (String.length dir + 0)) (dir +:+ "/" +:+ name) = name).
  { clear. induction dir as [|x dir IH]; [done|]. exact IH. }
  by rewrite Hd.
Qed.

(** [directivesFS] around the embedded directives: only names with an @ are found by a pattern. *)
Definition directivesFS (subFS : FS) : FS := mkFS
  (fun name => fs_ReadFile subFS (normalizeDirectivePath name))
  (fun pattern =>
     let normalized := normalizeDirectivePath pattern in
     if HasPrefix normalized "@" then fs_Glob subFS normalized else Some [])
  (fun name => fs_Open subFS (normalizeDirectivePath name)).

(** ** Building an engine *)

Section Shared.
(** SHA-256. *)
Context {Digest : Type} `{!EqDecision Digest, !Countable Digest}.
Context (Sum256 : string -> Digest).
(** The engines of the library, and how it builds one: which files it reads may depend on what
    it has read. *)
Context {W : Type}.

Inductive Build : Type :=
| Built (r : result string W)
| BReadFile (name : string) (k : result ReadError string -> Build)
| BGlob (pattern : string) (k : option (list string) -> Build)
| BOpen (name : string) (k : result ReadError string -> Build).

Context (newWAF : string -> Build).

(** *** What was read *)

(** A file's hash, or why it could not be read. *)
Inductive fileState : Type := FileSum (sum : Digest) | FileMissing | FileReadFail.

#[export] Instance fileState_eq_dec : EqDecision fileState.
Proof. solve_decision. Defined.

Definition newFileState (r : result ReadError string) : fileState :=
  match r with
  | Ok content => FileSum (Sum256 content)
  | Err ErrNotExist => FileMissing
  | Err (ErrRead _) => FileReadFail
  end.

Record wafInputs : Type := mkWafInputs {
  files : gmap string fileState;
  globs : gmap string (list string);
  untracked : bool;
}.

Definition no_inputs : wafInputs := mkWafInputs ∅ ∅ false.

Definition unchanged (inp : wafInputs) (root : FS) : bool :=
  negb (untracked inp) &&
  bool_decide (map_Forall (fun pattern matches => fs_Glob root pattern = Some matches) (globs inp)) &&
  bool_decide (map_Forall (fun name state => newFileState (fs_ReadFile root name) = state) (files inp)).

(** The methods of [recordingFS]. *)
Definition rec_Open (root : FS) (name : string) (inp : wafInputs) : result ReadError string * wafInputs :=
  (fs_Open root name, mkWafInputs (files inp) (globs inp) true).
Definition rec_ReadFile (root : FS) (name : string) (inp : wafInputs) : result ReadError string * wafInputs :=
  let r := fs_ReadFile root name in (r, mkWafInputs (<[name := newFileState r]> (files inp)) (globs inp) (untracked inp)).
Definition rec_Glob (root : FS) (pattern : string) (inp : wafInputs) : option (list string) * wafInputs :=
  match fs_Glob root pattern with
  | None => (None, mkWafInputs (files inp) (globs inp) true)
  | Some matches => (Some matches, mkWafInputs (files inp) (<[pattern := matches]> (globs inp)) (untracked inp))
  end.

(** A build through [recordingFS]. *)
Fixpoint build_recording (root : FS) (b : Build) (inp : wafInputs) : result string W * wafInputs :=
  match b with
  | Built r => (r, inp)
  | BReadFile name k => let '(r, inp') := rec_ReadFile root name inp in build_recording root (k r) inp'
  | BGlob pattern k => let '(r, inp') := rec_Glob root pattern inp in build_recording root (k r) inp'
  | BOpen name k => let '(r, inp') := rec_Open root name inp in build_recording root (k r) inp'
  end.

(** The reference: the same build, reading the files directly. *)
Fixpoint build_fresh (root : FS) (b : Build) : result string W :=
  match b with
  | Built r => r
  | BReadFile name k => build_fresh root (k (fs_ReadFile root name))
  | BGlob pattern k => build_fresh root (k (fs_Glob root pattern))
  | BOpen name k => build_fresh root (k (fs_Open root name))
  end.

(** ** The cache *)

(** Where an engine is in its life: a weak pointer to it still has a value, it was collected, or
    its cleanup has run and closed it. *)
Inductive LifeState : Type := Live | Collected | Closed_.

#[export] Instance LifeState_eq_dec : EqDecision LifeState.
Proof. solve_decision. Defined.

Record SharedWAF : Type := mkSharedWAF { WAF : W; inputs : wafInputs }.

Record object : Type := mkObject { o_key : Digest; o_waf : SharedWAF; o_state : LifeState }.

(** [sharedWAFCache], with the engines built so far; a pointer is an index among them. *)
Record sharedWAFCache : Type := mkCache { entries : gmap Digest nat; objects : list object }.

Definition newSharedWAFCache : sharedWAFCache := mkCache ∅ [].

(** [weak.Pointer.Value]. *)
Definition weak_value (c : sharedWAFCache) (id : nat) : option SharedWAF :=
  match objects c !! id with
  | Some o => if bool_decide (o_state o = Live) then Some (o_waf o) else None
  | None => None
  end.

Definition cached (c : sharedWAFCache) (key : Digest) (root : FS) : option nat :=
  match entries c !! key with
  | None => None
  | Some id =>
      match weak_value c id with
      | Some s => if unchanged (inputs s) root then Some id else None
      | None => None
      end
  end.

Definition getOrCreate (directives : string) (root : FS) (c : sharedWAFCache) : result string nat * sharedWAFCache :=
  let key := Sum256 directives in
  match cached c key root with
  | Some id => (Ok id, c)
  | None =>
      match build_recording root (newWAF directives) no_inputs with
      | (Err e, _) => (Err ("failed to create WAF from directives: " +:+ e), c)
      | (Ok w, inp) =>
          let id := length (objects c) in
          (Ok id, mkCache (<[key := id]> (entries c)) (objects c ++ [mkObject key (mkSharedWAF w inp) Live]))
      end
  end.

Definition set_state (st : LifeState) (o : object) : object := mkObject (o_key o) (o_waf o) st.

(** [release], the cleanup of an engine: its key's entry goes if it has no value any more. *)
Definition release (key : Digest) (id : nat) (c : sharedWAFCache) : sharedWAFCache :=
  mkCache
    (match entries c !! key with
     | Some wp => match weak_value c wp with None => delete key (entries c) | Some _ => entries c end
     | None => entries c
     end)
    (alter (set_state Closed_) id (objects c)).

(** ** Steps *)

(** The cache and the pointers that configurations and streams hold. *)
Record shared_state : Type := mkShared { cache : sharedWAFCache; held : list nat }.

Inductive shared_step : shared_state -> shared_state -> Prop :=
| step_get directives root c hs id c' :
    getOrCreate directives root c = (Ok id, c') -> shared_step (mkShared c hs) (mkShared c' (id :: hs))
| step_get_failed directives root c hs e c' :
    getOrCreate directives root c = (Err e, c') -> shared_step (mkShared c hs) (mkShared c' hs)
| step_share c hs id : id ∈ hs -> shared_step (mkShared c hs) (mkShared c (id :: hs))
| step_drop c hs1 id hs2 : shared_step (mkShared c (hs1 ++ id :: hs2)) (mkShared c (hs1 ++ hs2))
| step_collect c hs id o :
    id ∉ hs -> objects c !! id = Some o -> o_state o = Live ->
    shared_step (mkShared c hs) (mkShared (mkCache (entries c) (alter (set_state Collected) id (objects c))) hs)
| step_cleanup c hs id o :
    objects c !! id = Some o -> o_state o = Collected -> shared_step (mkShared c hs) (mkShared (release (o_key o) id c) hs).

Definition shared_reachable : shared_state -> Prop := rtc shared_step (mkShared newSharedWAFCache []).

(** ** Reuse is as good as a new build *)

(** Recording changes nothing. *)
Lemma build_recording_fresh root b inp : (build_recording root b inp).1 = build_fresh root b.
Proof.
  revert inp. induction b as [r|name k IH|pattern k IH|name k IH]; intros inp; cbn; [done|apply IH| |apply IH].
  unfold rec_Glob. destruct (fs_Glob root pattern) as [m|]; apply IH.
Qed.

(** What has been recorded agrees with the file system. *)
Definition consistent (root : FS) (inp : wafInputs) : Prop :=
  map_Forall (fun name state => newFileState (fs_ReadFile root name) = state) (files inp) /\
  map_Forall (fun pattern matches => fs_Glob root pattern = Some matches) (globs inp).

Definition extends (inp fin : wafInputs) : Prop :=
  dom (files inp) ⊆ dom (files fin) /\ dom (globs inp) ⊆ dom (globs fin) /\ (untracked inp = true -> untracked fin = true).

#[local] Instance extends_preorder : PreOrder extends.
Proof.
  split; [by intros ?|]. intros a b c (H1 & H2 & H3) (H4 & H5 & H6). split; [by etrans|]. split; [by etrans|auto].
Qed.

Lemma rec_ReadFile_spec root name inp :
  consistent root inp -> consistent root (rec_ReadFile root name inp).2 /\ extends inp (rec_ReadFile root name inp).2 /\
  name ∈ dom (files (rec_ReadFile root name inp).2).
Proof.
  intros [Hf Hg]. split; [split; [by apply map_Forall_insert_2|done]|]. split; [split; cbn; set_solver|cbn; set_solver].
Qed.

Lemma rec_Glob_spec root pattern inp :
  consistent root inp -> consistent root (rec_Glob root pattern inp).2 /\ extends inp (rec_Glob root pattern inp).2 /\
  (untracked (rec_Glob root pattern inp).2 = true \/ pattern ∈ dom (globs (rec_Glob root pattern inp).2)).
Proof.
  intros [Hf Hg]. unfold rec_Glob. destruct (fs_Glob root pattern) as [m|] eqn:Hm; cbn.
  - split; [split; [done|by apply map_Forall_insert_2]|]. split; [split; cbn; set_solver|right; set_solver].
  - split; [done|]. split; [split; cbn; set_solver|by left].
Qed.

Lemma build_recording_spec root b inp :
  consistent root inp -> consistent root (build_recording root b inp).2 /\ extends inp (build_recording root b inp).2.
Proof.
  revert inp. induction b as [r|name k IH|pattern k IH|name k IH]; intros inp Hc; cbn [build_recording].
  - by split.
  - destruct (rec_ReadFile_spec root name inp Hc) as (H1 & H2 & _). destruct (rec_ReadFile root name inp) as [r inp'].
    destruct (IH r inp' H1). split; [done|by etrans].
  - destruct (rec_Glob_spec root pattern inp Hc) as (H1 & H2 & _). destruct (rec_Glob root pattern inp) as [r inp'].
    destruct (IH r inp' H1). split; [done|by etrans].
  - destruct (IH (fs_Open root name) (mkWafInputs (files inp) (globs inp) true) Hc) as [H1 (H2 & H3 & H4)].
    split; [done|]. split; [done|]. split; [done|auto].
Qed.

(** Two file systems that differ at most in why some files cannot be read: [newFileState] keeps
    that a read failed, not with which error. *)
Definition same_read (r r' : result ReadError string) : Prop :=
  r = r' \/ exists m m', r = Err (ErrRead m) /\ r' = Err (ErrRead m').
Definition same_but_reasons (root root' : FS) : Prop :=
  (forall name, same_read (fs_ReadFile root name) (fs_ReadFile root' name)) /\
  (forall pattern, fs_Glob root pattern = fs_Glob root' pattern) /\
  (forall name, fs_Open root name = fs_Open root' name).

(** No read of the build failed for another reason than the file missing. *)
Definition no_failed_read (inp : wafInputs) : Prop := map_Forall (fun _ state => state <> FileReadFail) (files inp).

Context (Sum256_inj : Inj (=) (=) Sum256).

Lemma newFileState_same r1 r2 : newFileState r1 = newFileState r2 -> newFileState r1 <> FileReadFail -> r1 = r2.
Proof. destruct r1 as [c1|[|m1]], r2 as [c2|[|m2]]; cbn; try done. intros [= Heq] _. by apply Sum256_inj in Heq as ->. Qed.

Lemma newFileState_read r1 r2 : newFileState r1 = newFileState r2 -> same_read r1 r2.
Proof.
  destruct (decide (newFileState r1 = FileReadFail)) as [Hf|Hf]; [|left; by apply newFileState_same].
  destruct r1 as [?|[|m1]]; try done. destruct r2 as [?|[|m2]]; try done. intros _. right. by eexists _, _.
Qed.

(** [root'] with the errors that [root] had for the recorded failures. *)
Definition with_reasons (inp : wafInputs) (root root' : FS) : FS := mkFS
  (fun name => if decide (files inp !! name = Some FileReadFail) then fs_ReadFile root name else fs_ReadFile root' name)
  (fs_Glob root') (fs_Open root').

Lemma with_reasons_same inp root root' :
  consistent root inp -> unchanged inp root' = true -> same_but_reasons root' (with_reasons inp root root').
Proof.
  intros [Hf _] [_ Hu%bool_decide_eq_true]%andb_true_iff. split; [|done]. intros name. cbn.
  case_decide as Hn; [|by left]. apply newFileState_read. by rewrite (Hu _ _ Hn), (Hf _ _ Hn).
Qed.

(** A build whose inputs are unchanged in another file system gives the same there, up to the
    errors of the reads that failed. *)
Lemma unchanged_build root root' b inp (fin := (build_recording root b inp).2) :
  consistent root inp -> unchanged fin root' = true -> build_fresh (with_reasons fin root root') b = build_fresh root b.
Proof.
  subst fin. revert inp. induction b as [r|name k IH|pattern k IH|name k IH]; intros inp Hc Hu; cbn [build_fresh]; [done|..];
    cbn [build_recording] in Hu |- *.
  - destruct (rec_ReadFile_spec root name inp Hc) as (H1 & _ & H2).
    change (rec_ReadFile root name inp) with (fs_ReadFile root name, (rec_ReadFile root name inp).2) in Hu |- *. cbn iota in Hu |- *.
    pose proof (build_recording_spec root (k (fs_ReadFile root name)) _ H1) as [[Hf _] (Hd & _)].
    apply Hd in H2 as [st Hst]%elem_of_dom.
    assert (Hsame : fs_ReadFile (with_reasons (build_recording root (k (fs_ReadFile root name)) (rec_ReadFile root name inp).2).2 root root')
      name = fs_ReadFile root name).
    { pose proof Hu as [_ Hu'%bool_decide_eq_true]%andb_true_iff. cbn. case_decide as Hn; [done|].
      apply newFileState_same; rewrite (Hu' _ _ Hst); [by rewrite (Hf _ _ Hst)|intros ->; by apply Hn]. }
    rewrite Hsame. by apply IH.
  - destruct (rec_Glob_spec root pattern inp Hc) as (H1 & _ & H2).
    assert (Hr : (rec_Glob root pattern inp).1 = fs_Glob root pattern) by (unfold rec_Glob; by destruct (fs_Glob root pattern)).
    destruct (rec_Glob root pattern inp) as [r inp']. cbn in Hr, H1, H2. subst r.
    pose proof (build_recording_spec root (k (fs_Glob root pattern)) _ H1) as [[_ Hg] (_ & Hd & Ht)].
    assert (Hsame : fs_Glob root' pattern = fs_Glob root pattern).
    { unfold unchanged in Hu. rewrite !andb_true_iff, negb_true_iff, !bool_decide_eq_true in Hu. destruct Hu as [[Hu1 Hu2] _].
      destruct H2 as [H2|H2]; [apply Ht in H2; congruence|]. apply Hd in H2 as [m Hm]%elem_of_dom.
      by rewrite (Hu2 _ _ Hm), (Hg _ _ Hm). }
    cbn [with_reasons fs_Glob]. rewrite Hsame. by apply IH.
  - cbn in Hu. pose proof (build_recording_spec root (k (fs_Open root name)) (mkWafInputs (files inp) (globs inp) true) Hc) as [_ (_ & _ & Ht)].
    unfold unchanged in Hu. by rewrite (Ht eq_refl) in Hu.
Qed.

(** Builds see a file system only through its reads. *)
Lemma build_fresh_ext root root' b :
  (forall name, fs_ReadFile root name = fs_ReadFile root' name) -> (forall pattern, fs_Glob root pattern = fs_Glob root' pattern) ->
  (forall name, fs_Open root name = fs_Open root' name) -> build_fresh root b = build_fresh root' b.
Proof. intros H1 H2 H3. induction b as [r|name k IH|pattern k IH|name k IH]; cbn; rewrite ?H1, ?H2, ?H3; done. Qed.

(** An engine is the one a build from the files as they are gives, up to the errors of its
    reads that failed. *)
Definition current (directives : string) (root : FS) (s : SharedWAF) : Prop :=
  (exists root0, same_but_reasons root root0 /\ build_fresh root0 (newWAF directives) = Ok (WAF s)) /\
  (no_failed_read (inputs s) -> build_fresh root (newWAF directives) = Ok (WAF s)).

Lemma current_fresh directives root s : build_fresh root (newWAF directives) = Ok (WAF s) -> current directives root s.
Proof. intros Hb. split; [|done]. exists root. split; [|done]. split; [by left|done]. Qed.

Lemma unchanged_current directives root0 root s :
  build_recording root0 (newWAF directives) no_inputs = (Ok (WAF s), inputs s) -> unchanged (inputs s) root = true ->
  current directives root s.
Proof.
  intros Hb Hu. assert (H0 : consistent root0 no_inputs) by (split; apply map_Forall_empty).
  pose proof (build_recording_spec root0 (newWAF directives) _ H0) as [Hc _].
  pose proof (unchanged_build root0 root (newWAF directives) _ H0) as Hsame. pose proof (build_recording_fresh root0 (newWAF directives) no_inputs) as Hf.
  rewrite Hb in *. cbn [fst snd] in *. specialize (Hsame Hu). rewrite <- Hf in Hsame. split.
  - eexists. split; [by apply with_reasons_same|done].
  - intros Hn. rewrite <- Hsame. apply build_fresh_ext; [|done..]. intros name. cbn. case_decide as Hd; [|done]. by apply Hn in Hd.
Qed.

(** ** The cache over time *)

(** An engine was built from directives with its key, and its inputs are what the build read. *)
Definition object_ok (o : object) : Prop :=
  exists directives root,
    o_key o = Sum256 directives /\
    build_recording root (newWAF directives) no_inputs = (Ok (WAF (o_waf o)), inputs (o_waf o)).

(** No younger engine has its key. *)
Definition newest (c : sharedWAFCache) (id : nat) (o : object) : Prop :=
  forall id' o', (id < id')%nat -> objects c !! id' = Some o' -> o_key o' <> o_key o.

Record shared_inv (st : shared_state) : Prop := mkSharedInv {
  sh_objects : Forall object_ok (objects (cache st));
  sh_entries : forall key id, entries (cache st) !! key = Some id ->
    exists o, objects (cache st) !! id = Some o /\ o_key o = key /\ o_state o <> Closed_;
  sh_held : forall id, id ∈ held st -> exists o, objects (cache st) !! id = Some o /\ o_state o = Live;
  sh_newest : forall id o, objects (cache st) !! id = Some o -> o_state o = Live -> newest (cache st) id o ->
    entries (cache st) !! o_key o = Some id;
}.

Lemma weak_value_Some c id s :
  weak_value c id = Some s <-> exists o, objects c !! id = Some o /\ o_state o = Live /\ o_waf o = s.
Proof.
  unfold weak_value. destruct (objects c !! id) as [o|]; [|naive_solver]. case_bool_decide; naive_solver.
Qed.

Lemma cached_Some c key root id :
  cached c key root = Some id <->
  entries c !! key = Some id /\ exists o, objects c !! id = Some o /\ o_state o = Live /\ unchanged (inputs (o_waf o)) root = true.
Proof.
  unfold cached. split.
  - destruct (entries c !! key) as [id'|]; [|done]. destruct (weak_value c id') as [s|] eqn:Hw; [|done].
    destruct (unchanged (inputs s) root) eqn:Hu; [|done]. intros [= <-]. apply weak_value_Some in Hw as (o & Ho & Hs & <-). eauto.
  - intros (-> & o & Ho & Hs & Hu). replace (weak_value c id) with (Some (o_waf o)); [by rewrite Hu|].
    symmetry. apply weak_value_Some. eauto.
Qed.

Lemma consistent_no_inputs root : consistent root no_inputs.
Proof. split; apply map_Forall_empty. Qed.

(** A hit is what a new build would give. *)
Lemma cached_fresh st directives root id :
  shared_inv st -> cached (cache st) (Sum256 directives) root = Some id ->
  exists o, objects (cache st) !! id = Some o /\ o_state o = Live /\ current directives root (o_waf o).
Proof.
  intros [Hob He _ _] (Hid & o & Ho & Hs & Hu)%cached_Some. exists o. split; [done|]. split; [done|].
  destruct (proj1 (Forall_lookup _ _) Hob id o Ho) as (d & root0 & Hkey & Hb).
  destruct (He _ _ Hid) as (o' & Ho' & Hk' & _). assert (o' = o) as -> by congruence.
  assert (d = directives) as -> by (apply Sum256_inj; congruence).
  by apply (unchanged_current directives root0).
Qed.

Lemma alter_state st0 (l : list object) i id o :
  alter (set_state st0) i l !! id = Some o ->
  exists o', l !! id = Some o' /\ o_key o = o_key o' /\ o_waf o = o_waf o' /\ o_state o = (if decide (i = id) then st0 else o_state o').
Proof.
  destruct (decide (i = id)) as [->|Hne].
  - rewrite list_lookup_alter_eq. destruct (l !! id) as [o'|]; [|done]. intros [= <-]. eauto.
  - rewrite list_lookup_alter_ne by done. eauto.
Qed.

Lemma alter_state_fwd st0 (l : list object) i id o :
  l !! id = Some o -> exists o', alter (set_state st0) i l !! id = Some o' /\ o_key o' = o_key o /\ o_waf o' = o_waf o /\
    o_state o' = (if decide (i = id) then st0 else o_state o).
Proof.
  intros Ho. destruct (decide (i = id)) as [->|Hne].
  - rewrite list_lookup_alter_eq, Ho. cbn. eauto.
  - rewrite list_lookup_alter_ne by done. eauto.
Qed.

Lemma alter_objects_ok st0 i l : Forall object_ok l -> Forall object_ok (alter (set_state st0) i l).
Proof.
  intros Hl. apply Forall_lookup. intros id o (o' & Ho' & Hk & Hw & _)%alter_state.
  destruct (proj1 (Forall_lookup _ _) Hl id o' Ho') as (d & root & H1 & H2). exists d, root. rewrite Hk, Hw. done.
Qed.

Lemma inv_create c hs directives root w inp (id := length (objects c)) :
  shared_inv (mkShared c hs) -> build_recording root (newWAF directives) no_inputs = (Ok w, inp) ->
  shared_inv (mkShared (mkCache (<[Sum256 directives := id]> (entries c))
    (objects c ++ [mkObject (Sum256 directives) (mkSharedWAF w inp) Live])) (id :: hs)).
Proof.
  intros [Hob He Hh Hn] Hb. cbn in *. split; cbn [cache held entries objects].
  - apply Forall_app. split; [done|]. constructor; [|done]. by exists directives, root.
  - intros key i. destruct (decide (key = Sum256 directives)) as [->|Hne].
    + rewrite lookup_insert_eq. intros [= <-]. subst id. rewrite list_lookup_middle by done. by eexists.
    + rewrite lookup_insert_ne by done. intros (o & Ho & Hk)%He. exists o. by rewrite lookup_app_l_Some with (x := o).
  - intros i [->|Hi]%elem_of_cons; [subst id; rewrite list_lookup_middle by done; by eexists|].
    destruct (Hh i Hi) as (o & Ho & Hs). exists o. by rewrite lookup_app_l_Some with (x := o).
  - intros i o Ho Hs Hnew. apply lookup_app_Some in Ho as [Ho|[Hlen Ho]].
    + assert (Hk : o_key o <> Sum256 directives).
      { intros Hk. apply lookup_lt_Some in Ho. refine (Hnew id (mkObject (Sum256 directives) (mkSharedWAF w inp) Live) Ho _ (eq_sym Hk)).
        subst id. cbn. by rewrite list_lookup_middle. }
      rewrite lookup_insert_ne by done. apply Hn; [done..|]. intros i' o' Hlt Ho'. apply (Hnew i'); [done|].
      cbn. by apply lookup_app_l_Some.
    + destruct (i - length (objects c))%nat as [|n] eqn:Hi; cbn in Ho; [|done]. injection Ho as <-. cbn.
      rewrite lookup_insert_eq. f_equal. subst id. lia.
Qed.

Lemma inv_collect c hs id :
  shared_inv (mkShared c hs) -> id ∉ hs ->
  shared_inv (mkShared (mkCache (entries c) (alter (set_state Collected) id (objects c))) hs).
Proof.
  intros [Hob He Hh Hn] Hid. cbn in *. split; cbn [cache held entries objects].
  - by apply alter_objects_ok.
  - intros key i (o & Ho & Hk & Hs)%He. destruct (alter_state_fwd Collected _ id _ _ Ho) as (o' & Ho' & Hk' & _ & Hs').
    exists o'. split; [done|]. split; [congruence|]. rewrite Hs'. by case_decide.
  - intros i Hi. destruct (Hh i Hi) as (o & Ho & Hs). destruct (alter_state_fwd Collected _ id _ _ Ho) as (o' & Ho' & _ & _ & Hs').
    exists o'. split; [done|]. rewrite Hs'. case_decide; [by subst|done].
  - intros i o (o' & Ho' & Hk & _ & Hs)%alter_state Hlive Hnew. rewrite Hs in Hlive. case_decide; [done|]. rewrite Hk.
    apply Hn; [done..|]. intros i' o1 Hlt Ho1. destruct (alter_state_fwd Collected _ id _ _ Ho1) as (o2 & Ho2 & Hk2 & _).
    rewrite <- Hk, <- Hk2. by eapply Hnew.
Qed.

Lemma inv_cleanup c hs id o :
  shared_inv (mkShared c hs) -> objects c !! id = Some o -> o_state o = Collected ->
  shared_inv (mkShared (release (o_key o) id c) hs).
Proof.
  intros [Hob He Hh Hn] Ho Hcol. cbn in *.
  assert (Hent : forall key i, entries (release (o_key o) id c) !! key = Some i -> entries c !! key = Some i /\ i <> id).
  { intros key i. cbn. destruct (entries c !! o_key o) as [wp|] eqn:Hwp.
    - destruct (weak_value c wp) as [s|] eqn:Hw.
      + intros Hi. split; [done|]. intros ->. destruct (He _ _ Hi) as (o' & Ho' & Hk' & _). assert (o' = o) as -> by congruence.
        apply weak_value_Some in Hw as (o1 & Ho1 & Hl1 & _). assert (wp = id) as -> by congruence. congruence.
      + intros [Hne Hi]%lookup_delete_Some. split; [done|]. intros ->. destruct (He _ _ Hi) as (o' & Ho' & Hk' & _). congruence.
    - intros Hi. split; [done|]. intros ->. destruct (He _ _ Hi) as (o' & Ho' & Hk' & _). congruence. }
  split; cbn [cache held objects release].
  - by apply alter_objects_ok.
  - intros key i [(o1 & Ho1 & Hk1 & Hs1)%He Hne]%Hent. destruct (alter_state_fwd Closed_ _ id _ _ Ho1) as (o' & Ho' & Hk' & _ & Hs').
    exists o'. split; [done|]. split; [congruence|]. rewrite Hs'. by case_decide.
  - intros i Hi. destruct (Hh i Hi) as (o1 & Ho1 & Hs). destruct (alter_state_fwd Closed_ _ id _ _ Ho1) as (o' & Ho' & _ & _ & Hs').
    exists o'. split; [done|]. rewrite Hs'. case_decide; [congruence|done].
  - intros i o1 (o' & Ho' & Hk & _ & Hs)%alter_state Hlive Hnew. rewrite Hs in Hlive. case_decide; [done|]. rewrite Hk.
    assert (Hi : entries c !! o_key o' = Some i).
    { apply Hn; [done..|]. intros i' o2 Hlt Ho2. destruct (alter_state_fwd Closed_ _ id _ _ Ho2) as (o3 & Ho3 & Hk3 & _).
      rewrite <- Hk, <- Hk3. by eapply Hnew. }
    cbn. destruct (entries c !! o_key o) as [wp|] eqn:Hwp; [|done]. destruct (weak_value c wp) as [s|] eqn:Hw; [done|].
    rewrite lookup_delete_ne; [done|]. intros Heq. rewrite Heq, Hi in Hwp. injection Hwp as <-.
    assert (weak_value c i = Some (o_waf o')) by (apply weak_value_Some; eauto). congruence.
Qed.

Lemma shared_inv_step st st' : shared_inv st -> shared_step st st' -> shared_inv st'.
Proof.
  intros Hinv Hstep. destruct Hstep as [d root c hs id c' Hg|d root c hs e c' Hg|c hs id Hid|c hs1 id hs2|c hs id o Hid Ho Hs|c hs id o Ho Hs].
  - unfold getOrCreate in Hg. destruct (cached c (Sum256 d) root) as [i|] eqn:Hc.
    + injection Hg as <- <-. destruct (cached_fresh _ _ _ _ Hinv Hc) as (o & Ho & Hs & _). destruct Hinv as [H1 H2 H3 H4].
      split; cbn in *; [done|done| |done]. intros j [->|Hj]%elem_of_cons; eauto.
    + destruct (build_recording root (newWAF d) no_inputs) as [[w|e] inp] eqn:Hb; [|done]. injection Hg as <- <-. by eapply inv_create.
  - unfold getOrCreate in Hg. destruct (cached c (Sum256 d) root) as [i|]; [done|].
    destruct (build_recording root (newWAF d) no_inputs) as [[w|e'] inp]; [done|]. by injection Hg as <- <-.
  - destruct Hinv as [H1 H2 H3 H4]. split; cbn in *; [done|done| |done]. intros j [->|Hj]%elem_of_cons; auto.
  - destruct Hinv as [H1 H2 H3 H4]. split; cbn in *; [done|done| |done]. intros j Hj. apply H3. set_solver.
  - by apply inv_collect.
  - by apply inv_cleanup.
Qed.

Lemma shared_reachable_inv st : shared_reachable st -> shared_inv st.
Proof.
  intros Hr. assert (Hnew : shared_inv (mkShared newSharedWAFCache [])) by (split; cbn; [constructor|set_solver..]).
  revert Hnew. induction Hr as [|st st1 st2 Hstep _ IH]; [done|]. intros Hinv. apply IH. by eapply shared_inv_step.
Qed.

(** Inputs that could be recorded read the same from where they were recorded. *)
Lemma unchanged_self root b :
  untracked (build_recording root b no_inputs).2 = false -> unchanged (build_recording root b no_inputs).2 root = true.
Proof.
  intros Ht. destruct (build_recording_spec root b no_inputs (consistent_no_inputs root)) as [[Hf Hg] _].
  unfold unchanged. rewrite Ht. by rewrite !bool_decide_eq_true_2.
Qed.

(** C11: With a hash without collisions, in any state the cache can be in, whatever the files were
    when its engines were built: the engine it returns for some directives is open, and is the
    one a new build from the files as they are now would give, when no read of its build failed
    for another reason than the file missing; otherwise it is the one a build gives from files
    that differ at most in the errors of the reads that failed.  It fails only if a new build
    fails, with that build's error, and then caches nothing.  Asking again at once returns the
    same engine and builds nothing, unless the build read something that cannot be recorded. *)
Theorem shared_waf_current st directives root :
  shared_reachable st ->
  match getOrCreate directives root (cache st) with
  | (Ok id, c') =>
      exists o, objects c' !! id = Some o /\ o_state o = Live /\ current directives root (o_waf o) /\
        (untracked (inputs (o_waf o)) = false -> getOrCreate directives root c' = (Ok id, c'))
  | (Err e, c') =>
      c' = cache st /\ exists e0, build_fresh root (newWAF directives) = Err e0 /\ e = "failed to create WAF from directives: " +:+ e0
  end.
Proof.
  intros Hr%shared_reachable_inv. unfold getOrCreate. destruct (cached (cache st) (Sum256 directives) root) as [id|] eqn:Hc.
  - destruct (cached_fresh _ _ _ _ Hr Hc) as (o & Ho & Hs & Hf). exists o. do 3 (split; [done|]). intros _. by rewrite Hc.
  - pose proof (build_recording_fresh root (newWAF directives) no_inputs) as Hf.
    destruct (build_recording root (newWAF directives) no_inputs) as [[w|e] inp] eqn:Hb; cbn in Hf; [|split; [done|]; by exists e].
    eexists. cbn [objects]. rewrite list_lookup_middle by done. do 2 (split; [done|]). split; [by apply current_fresh|]. cbn. intros Ht.
    match goal with |- context [cached ?c ?k ?r] => assert (Hhit : cached c k r = Some (length (objects (cache st)))) end.
    { apply cached_Some. cbn. rewrite lookup_insert_eq. split; [done|]. eexists. rewrite list_lookup_middle by done.
      do 2 (split; [done|]). pose proof (unchanged_self root (newWAF directives)) as Hu. rewrite Hb in Hu. by apply Hu. }
    by rewrite Hhit.
Qed.

(** Whatever is collected and cleaned up meanwhile: an engine that a configuration or a stream
    holds is never closed; the cache refers to no closed engine; and an engine that is held, is
    the last one built from its directives and whose files are unchanged is the one returned for
    them, so the cleanup of an engine it replaced does not evict it. *)
Theorem shared_waf_kept st :
  shared_reachable st ->
  (forall id, id ∈ held st -> exists o, objects (cache st) !! id = Some o /\ o_state o = Live) /\
  (forall key id, entries (cache st) !! key = Some id ->
     exists o, objects (cache st) !! id = Some o /\ o_key o = key /\ o_state o <> Closed_) /\
  (forall id o directives root, id ∈ held st -> objects (cache st) !! id = Some o -> o_key o = Sum256 directives ->
     newest (cache st) id o -> unchanged (inputs (o_waf o)) root = true ->
     getOrCreate directives root (cache st) = (Ok id, cache st)).
Proof.
  intros [Hob He Hh Hn]%shared_reachable_inv. split; [done|]. split; [done|].
  intros id o d root Hid Ho Hk Hnew Hu. destruct (Hh id Hid) as (o' & Ho' & Hs). assert (o' = o) as -> by congruence.
  unfold getOrCreate. replace (cached (cache st) (Sum256 d) root) with (Some id); [done|].
  symmetry. apply cached_Some. rewrite <- Hk. split; [by apply Hn|eauto].
Qed.

(** ** Factories *)

(** [GetOrCreateSharedWAFFromConfig]; [root] stands for the merged file system of the directives. *)
Definition GetOrCreateSharedWAFFromConfig (root : FS) (cfg : config) (c : sharedWAFCache) : result string nat * sharedWAFCache :=
  getOrCreate (directives cfg) root c.

Record wafPluginFactory : Type := mkFactory {
  factory_config : option nat;
  factory_mode : wafMode;
  factory_requestURIPathOnly : bool;
  factory_metrics : metrics;
}.

Record perRouteWafPluginConfig : Type := mkPerRoute {
  route_config : nat;
  route_mode : wafMode;
  route_requestURIPathOnly : bool;
}.

(** The zero [config]. *)
Definition zero_config : config := mkConfig "" modeRequestOnly false defaultLabel.

(** The filter configuration; the results are those of the metrics' definitions. *)
Definition wafPluginConfigFactory_Create (root : FS) (text : string) (total blocked duration active : MetricsResult)
    (c : sharedWAFCache) : result ConfigError wafPluginFactory * sharedWAFCache :=
  let factory id cfg :=
    mkFactory id (cfg_mode cfg) (cfg_requestURIPathOnly cfg) (newMetrics (cfg_authority cfg) total blocked duration active) in
  if bool_decide (text = "") then (Ok (factory None zero_config), c)
  else match parseConfig text with
  | Err e => (Err e, c)
  | Ok cfg =>
      match GetOrCreateSharedWAFFromConfig root cfg c with
      | (Err e, c') => (Err (ErrEngine e), c')
      | (Ok id, c') => (Ok (factory (Some id) cfg), c')
      end
  end.

Definition CreatePerRoute (root : FS) (text : string) (c : sharedWAFCache) : result ConfigError perRouteWafPluginConfig * sharedWAFCache :=
  match parseConfig text with
  | Err e => (Err e, c)
  | Ok cfg =>
      match GetOrCreateSharedWAFFromConfig root cfg c with
      | (Err e, c') => (Err (ErrEngine e), c')
      | (Ok id, c') => (Ok (mkPerRoute id (cfg_mode cfg) (cfg_requestURIPathOnly cfg)), c')
      end
  end.

(** The filter of a stream: the engine it holds and its settings, or none for an empty filter. *)
Definition wafPluginFactory_Create {Any : Type} (assert : Any -> option perRouteWafPluginConfig) (most_specific : option Any)
    (attrs : Attributes) (f : wafPluginFactory) : option (nat * wafSettings) :=
  let '(config, mode, requestURIPathOnly) :=
    match GetMostSpecificConfig assert most_specific with
    | Some r => (Some (route_config r), route_mode r, route_requestURIPathOnly r)
    | None => (factory_config f, factory_mode f, factory_requestURIPathOnly f)
    end in
  match config with
  | None => None
  | Some id => Some (id, mkWafSettings mode requestURIPathOnly (factory_metrics f) attrs)
  end.
End Shared.

(** ** A replaced engine *)

(** A library that includes the one file its directives name. *)
Definition test_newWAF (directives : string) : Build (W := string) :=
  BReadFile directives (fun r => Built (match r with Ok content => Ok content | Err _ => Err "cannot read" end)).

Definition test_root (content : string) : FS := mkFS (fun _ => Ok content) (fun _ => Some []) (fun _ => Err ErrNotExist).

Definition test_get (content : string) (c : sharedWAFCache (Digest := string) (W := string)) :
    result string nat * sharedWAFCache (Digest := string) (W := string) :=
  getOrCreate id test_newWAF "rules.conf" (test_root content) c.

(** The file is edited and the engine built again, then the first engine is dropped, collected
    and cleaned up. *)
Definition test_c1 : sharedWAFCache (Digest := string) (W := string) := (test_get "v1" newSharedWAFCache).2.
Definition test_c2 : sharedWAFCache (Digest := string) (W := string) := (test_get "v2" test_c1).2.
Definition test_c3 : sharedWAFCache (Digest := string) (W := string) :=
  mkCache (entries test_c2) (alter (set_state Collected) 0%nat (objects test_c2)).
Definition test_replaced : shared_state (Digest := string) (W := string) := mkShared (release "rules.conf" 0 test_c3) [1%nat].

Definition test_object (content : string) (st : LifeState) : object (Digest := string) (W := string) :=
  mkObject "rules.conf" (mkSharedWAF content (mkWafInputs (<["rules.conf" := FileSum content]> ∅) ∅ false)) st.

Lemma test_replaced_reachable : shared_reachable id test_newWAF test_replaced.
Proof.
  assert (H0 : 0%nat ∉ [1%nat]) by set_solver.
  assert (H1 : test_get "v1" newSharedWAFCache = (Ok 0%nat, test_c1)) by (vm_compute; reflexivity).
  assert (H2 : test_get "v2" test_c1 = (Ok 1%nat, test_c2)) by (vm_compute; reflexivity).
  assert (H3 : objects test_c2 !! 0%nat = Some (test_object "v1" Live)) by (vm_compute; reflexivity).
  assert (H4 : objects test_c3 !! 0%nat = Some (test_object "v1" Collected))
    by (vm_compute; reflexivity).
  eapply rtc_l; [exact (step_get id test_newWAF "rules.conf" (test_root "v1") _ [] _ _ H1)|].
  eapply rtc_l; [exact (step_get id test_newWAF "rules.conf" (test_root "v2") _ _ _ _ H2)|].
  eapply rtc_l; [exact (step_drop id test_newWAF test_c2 [1%nat] 0%nat [])|].
  eapply rtc_l; [exact (step_collect id test_newWAF test_c2 [1%nat] 0%nat _ H0 H3 eq_refl)|].
  eapply rtc_l; [exact (step_cleanup id test_newWAF test_c3 [1%nat] 0%nat _ H4 eq_refl)|]. apply rtc_refl.
Qed.

Lemma shared_waf_current_witness :
  match test_get "v2" (cache test_replaced) with
  | (Ok i, c') => exists o, objects c' !! i = Some o /\ build_fresh (test_root "v2") (test_newWAF "rules.conf") = Ok (WAF (o_waf o))
  | (Err _, _) => False
  end.
Proof.
  pose proof (shared_waf_current id test_newWAF _ test_replaced "rules.conf" (test_root "v2") test_replaced_reachable) as Hc.
  change (getOrCreate id test_newWAF "rules.conf" (test_root "v2") (cache test_replaced)) with (test_get "v2" (cache test_replaced)) in Hc.
  assert (Hg : test_get "v2" (cache test_replaced) = (Ok 1%nat, cache test_replaced)) by (vm_compute; reflexivity).
  rewrite Hg in Hc |- *. destruct Hc as (o & Ho & _ & [_ Hf] & _). exists o. split; [done|]. apply Hf.
  assert (Ho' : objects (cache test_replaced) !! 1%nat = Some (test_object "v2" Live)) by (vm_compute; reflexivity).
  rewrite Ho in Ho'. injection Ho' as ->. apply map_Forall_singleton. done.
Defined.

(** A library that keeps the error of a read that failed: the engine built while the file could
    not be opened is reused when reading it fails another way. *)
Definition reporting_newWAF (directives : string) : Build (W := string) :=
  BReadFile directives (fun r => Built (Ok (match r with Ok content => content | Err (ErrRead m) => m | Err ErrNotExist => "" end))).
Definition failing_root (reason : string) : FS := mkFS (fun _ => Err (ErrRead reason)) (fun _ => Some []) (fun _ => Err ErrNotExist).

Example read_failures_collapsed :
  let c := (getOrCreate id reporting_newWAF "rules.conf" (failing_root "permission denied") newSharedWAFCache).2 in
  let r := getOrCreate id reporting_newWAF "rules.conf" (failing_root "input/output error") c in
  r = (Ok 0%nat, c) /\ (WAF ∘ o_waf <$> objects c) = ["permission denied"] /\
  build_fresh (failing_root "input/output error") (reporting_newWAF "rules.conf") = Ok "input/output error".
Proof. vm_compute. repeat split. Qed.

Lemma shared_waf_kept_witness : test_get "v2" (cache test_replaced) = (Ok 1%nat, cache test_replaced).
Proof.
  apply (shared_waf_kept id test_newWAF _ test_replaced test_replaced_reachable) with
    (o := test_object "v2" Live).
  - set_solver.
  - vm_compute. reflexivity.
  - reflexivity.
  - intros [|[|i]] o Hlt Ho; [lia|lia|]. vm_compute in Ho. discriminate Ho.
  - vm_compute. reflexivity.
Defined.
