(* ===== verification/LLMParsers.v ===== *)
(** * llm-proxy: the API formats and their event-stream parsers

    extensions/composer/llm-proxy/llm.go, openai.go, anthropic.go and custom.go.
    The JSON decoder is a parameter, a [Codec] that returns the fields each
    format reads; the line splitting, the event handling and the accumulation of
    the usage are modelled in full.  The parsers are proved equal to a reference
    that reads the whole stream at once. *)

From S2P Require Import Prelude GoStr SSELines.
From Stdlib Require Import Lia Ascii.

Local Open Scope Z_scope.

(** ** Usage and the decoder *)

Record LLMUsage : Type := mkLLMUsage {
  InputTokens : Z;
  OutputTokens : Z;
  TotalTokens : Z;
}.

#[export] Instance LLMUsage_eq_dec : EqDecision LLMUsage.
Proof. solve_decision. Defined.

Definition noUsage : LLMUsage := mkLLMUsage 0 0 0.

Record openaiUsage : Type := mkOpenaiUsage {
  PromptTokens : Z;
  CompletionTokens : Z;
  OpenaiTotalTokens : Z;
}.

Record anthropicUsage : Type := mkAnthropicUsage {
  a_InputTokens : Z;
  a_OutputTokens : Z;
}.

Record LLMRequest : Type := mkLLMRequest {
  GetModel : string;
  IsStream : bool;
}.

(** [json.Unmarshal] into the types of this package, [None] for an error. *)
Record Codec : Type := mkCodec {
  unmarshal_request : string -> option LLMRequest;
  unmarshal_openai_usage : string -> option openaiUsage;
  unmarshal_anthropic_usage : string -> option anthropicUsage;
  unmarshal_message_start : string -> option anthropicUsage;
  unmarshal_message_delta : string -> option Z;
}.

Definition openaiUsageToLLM (u : openaiUsage) : LLMUsage :=
  mkLLMUsage (PromptTokens u) (CompletionTokens u) (OpenaiTotalTokens u).

(** The sum wraps at 32 bits. *)
Definition anthropicUsageToLLM (u : anthropicUsage) : LLMUsage :=
  mkLLMUsage (a_InputTokens u) (a_OutputTokens u) (u32 (a_InputTokens u + a_OutputTokens u)).

(** ** The parser interface *)

(** A parser is fed chunks, each feed leaving the parser and possibly an error, and
    is finished at the end. *)
Class SSEParser (P : Type) : Type := {
  Feed : P -> string -> P * bool;
  Finish : P -> LLMUsage;
}.

(** The chunks of a response body, up to the first error. *)
Fixpoint feed_all {P} `{!SSEParser P} (p : P) (chunks : list string) : P * bool :=
  match chunks with
  | [] => (p, true)
  | c :: cs =>
      match Feed p c with
      | (p', true) => feed_all p' cs
      | (p', false) => (p', false)
      end
  end.

(** ** OpenAI *)

Section OpenAI.
Context (codec : Codec).

Definition parseOpenAIRequest (body : string) : option LLMRequest := unmarshal_request codec body.
Definition parseOpenAIResponse (body : string) : option LLMUsage :=
  openaiUsageToLLM <$> unmarshal_openai_usage codec body.
Definition parseOpenAIChunk (data : string) : option LLMUsage :=
  openaiUsageToLLM <$> unmarshal_openai_usage codec data.

Record openaiSSEParser : Type := mkOpenaiSSEParser {
  o_buf : string;
  o_done : bool;
  o_usage : LLMUsage;
}.

Definition newOpenAISSEParser : openaiSSEParser := mkOpenaiSSEParser "" false noUsage.

(** The body of the loop, on the [done] flag and the usage. *)
Definition openai_line (st : bool * LLMUsage) (line : string) : line_result (bool * LLMUsage) :=
  let '(done, usage) := st in
  if negb (HasPrefix line data_prefix) then LNext st
  else
    let payload := TrimPrefix line data_prefix in
    if decide (payload = "[DONE]") then LStop (true, usage)
    else match parseOpenAIChunk payload with
         | None => LError st
         | Some u => LNext (done, if decide (u = noUsage) then usage else u)
         end.

Definition openai_parseEvents (a : openaiSSEParser) : openaiSSEParser * bool :=
  let '((done, usage), buf, ok) := parse_lines openai_line (o_done a, o_usage a) "" (o_buf a) in
  (mkOpenaiSSEParser buf done usage, ok).

Definition openai_Feed (a : openaiSSEParser) (data : string) : openaiSSEParser * bool :=
  if o_done a then (a, true)
  else openai_parseEvents (mkOpenaiSSEParser (o_buf a +:+ data) (o_done a) (o_usage a)).

Definition openai_Finish (a : openaiSSEParser) : LLMUsage := o_usage a.
End OpenAI.

(** ** Anthropic *)

Section Anthropic.
Context (codec : Codec).

Definition parseAnthropicRequest (body : string) : option LLMRequest := unmarshal_request codec body.
Definition parseAnthropicResponse (body : string) : option LLMUsage :=
  anthropicUsageToLLM <$> unmarshal_anthropic_usage codec body.

Definition parseAnthropicChunk (eventType data : string) : option LLMUsage :=
  if decide (eventType = "message_start") then
    anthropicUsageToLLM <$> unmarshal_message_start codec data
  else if decide (eventType = "message_delta") then
    (fun n => mkLLMUsage 0 n 0) <$> unmarshal_message_delta codec data
  else Some noUsage.

(** The fields of the parser other than its buffer. *)
Record anthropicState : Type := mkAnthropicState {
  a_done : bool;
  inputTokens : Z;
  outputTokens : Z;
  currentEvent : string;
}.

Record anthropicSSEParser : Type := mkAnthropicSSEParser {
  a_buf : string;
  a_state : anthropicState;
}.

Definition newAnthropicSSEParser : anthropicSSEParser :=
  mkAnthropicSSEParser "" (mkAnthropicState false 0 0 "").

Definition processEvent (a : anthropicState) (eventType data : string) : option anthropicState :=
  if decide (eventType = "message_stop") then
    Some (mkAnthropicState true (inputTokens a) (outputTokens a) (currentEvent a))
  else match parseAnthropicChunk eventType data with
       | None => None
       | Some u =>
           if decide (u = noUsage) then Some a
           else Some (mkAnthropicState (a_done a)
                        (if 0 <? InputTokens u then InputTokens u else inputTokens a)
                        (if 0 <? OutputTokens u then OutputTokens u else outputTokens a)
                        (currentEvent a))
       end.

Definition set_event (a : anthropicState) (ev : string) : anthropicState :=
  mkAnthropicState (a_done a) (inputTokens a) (outputTokens a) ev.

Definition anthropic_line (a : anthropicState) (line : string) : line_result anthropicState :=
  if HasPrefix line event_prefix then LNext (set_event a (TrimPrefix line event_prefix))
  else if HasPrefix line data_prefix then
    match processEvent a (currentEvent a) (TrimPrefix line data_prefix) with
    | None => LError a
    | Some a' => LNext (set_event a' "")
    end
  else LNext a.

Definition anthropic_parseEvents (a : anthropicSSEParser) : anthropicSSEParser * bool :=
  let '(st, buf, ok) := parse_lines anthropic_line (a_state a) "" (a_buf a) in
  (mkAnthropicSSEParser buf st, ok).

Definition anthropic_Feed (a : anthropicSSEParser) (data : string) : anthropicSSEParser * bool :=
  if a_done (a_state a) then (a, true)
  else anthropic_parseEvents (mkAnthropicSSEParser (a_buf a +:+ data) (a_state a)).

Definition anthropic_Finish (a : anthropicSSEParser) : LLMUsage :=
  let st := a_state a in
  mkLLMUsage (inputTokens st) (outputTokens st) (u32 (inputTokens st + outputTokens st)).
End Anthropic.

(** ** Factories *)

Inductive LLMFactory : Type := openaiFactory | anthropicFactory | customFactory.

(** The parser a factory makes: the custom format is the OpenAI one. *)
Inductive AnyParser : Type :=
| OpenAIParser (p : openaiSSEParser)
| AnthropicParser (p : anthropicSSEParser).

Section Factories.
Context (codec : Codec).

#[export] Instance openai_SSEParser : SSEParser openaiSSEParser := {
  Feed := openai_Feed codec;
  Finish := openai_Finish;
}.
#[export] Instance anthropic_SSEParser : SSEParser anthropicSSEParser := {
  Feed := anthropic_Feed codec;
  Finish := anthropic_Finish;
}.
#[export] Instance any_SSEParser : SSEParser AnyParser := {
  Feed p data := match p with
    | OpenAIParser p => let '(p', ok) := Feed p data in (OpenAIParser p', ok)
    | AnthropicParser p => let '(p', ok) := Feed p data in (AnthropicParser p', ok)
    end;
  Finish p := match p with
    | OpenAIParser p => Finish p
    | AnthropicParser p => Finish p
    end;
}.

Definition ParseRequest (f : LLMFactory) (body : string) : option LLMRequest :=
  match f with
  | anthropicFactory => parseAnthropicRequest codec body
  | openaiFactory | customFactory => parseOpenAIRequest codec body
  end.

Definition ParseResponse (f : LLMFactory) (body : string) : option LLMUsage :=
  match f with
  | anthropicFactory => parseAnthropicResponse codec body
  | openaiFactory | customFactory => parseOpenAIResponse codec body
  end.

Definition NewSSEParser (f : LLMFactory) : AnyParser :=
  match f with
  | anthropicFactory => AnthropicParser newAnthropicSSEParser
  | openaiFactory | customFactory => OpenAIParser newOpenAISSEParser
  end.
End Factories.

(** ** OpenAI streams *)

Section OpenAIStreams.
Context (codec : Codec).
#[local] Instance openai_here : SSEParser openaiSSEParser := openai_SSEParser codec.

(** The usage of a whole stream: the last one that is not zero before [DONE]; the flag
    is whether every chunk up to there decodes. *)
Definition openai_reference (stream : string) : LLMUsage * bool :=
  let r := ref_lines (openai_line codec) (false, noUsage) (complete_lines stream) in
  ((lr_state r).2, lr_ok r).

Lemma openai_line_done done u l p' :
  (openai_line codec (done, u) l = LNext p' -> p'.1 = done) /\
  (openai_line codec (done, u) l = LStop p' -> p'.1 = true).
Proof. unfold openai_line. repeat case_match; split; intros ?; simplify_eq/=; done. Qed.

Lemma openai_ref_done lines p p' :
  (ref_lines (openai_line codec) p lines = LNext p' -> p'.1 = p.1) /\
  (ref_lines (openai_line codec) p lines = LStop p' -> p'.1 = true).
Proof.
  revert p. induction lines as [|l ls IH]; intros [done u]; cbn [ref_lines].
  { split; intros ?; by simplify_eq. }
  destruct (openai_line_done done u (TrimSpace l) p') as [H1 H2].
  destruct (openai_line codec (done, u) (TrimSpace l)) as [q|q|q] eqn:Hq.
  - destruct (openai_line_done done u (TrimSpace l) q) as [H3 _]. cbn [fst]. rewrite <-(H3 Hq). apply IH.
  - split; [done|]. intros [= <-]. auto.
  - by split.
Qed.

Lemma feed_all_done (a : openaiSSEParser) chunks :
  o_done a = true -> feed_all a chunks = (a, true).
Proof.
  intros Hd. induction chunks as [|c cs IH]; [done|]. cbn. unfold openai_Feed. rewrite Hd. exact IH.
Qed.

Lemma openai_feed_all (a : openaiSSEParser) chunks :
  o_done a = false -> ContainsByte (o_buf a) newline = false ->
  let r := ref_lines (openai_line codec) (false, o_usage a)
             (complete_lines (o_buf a +:+ Join chunks "")) in
  (o_usage (feed_all a chunks).1, (feed_all a chunks).2) = ((lr_state r).2, lr_ok r).
Proof.
  cbn zeta. revert a. induction chunks as [|c cs IH]; intros [buf done u]; cbn [o_done o_buf o_usage];
    intros -> Hb.
  { rewrite str_app_nil_r. by destruct (lines_absent buf Hb) as [-> _]. }
  rewrite Join_cons, <-str_app_assoc.
  destruct (complete_lines_app (buf +:+ c) (Join cs "")) as [-> _]. rewrite ref_lines_app.
  cbn [feed_all Feed openai_here openai_SSEParser]. unfold openai_Feed, openai_parseEvents. cbn [o_done o_buf o_usage].
  destruct (parse_lines_ref (openai_line codec) (false, u) "" (buf +:+ c) eq_refl) as (rest & -> & Hrest).
  cbn [String.append] in Hrest |- *.
  destruct (ref_lines _ _ (complete_lines (buf +:+ c))) as [p|p|p] eqn:Hr; cbn [lr_state lr_ok];
    destruct p as [d u'].
  - destruct (openai_ref_done (complete_lines (buf +:+ c)) (false, u) (d, u')) as [H1 _].
    cbn in H1. rewrite (H1 Hr). rewrite (Hrest _ eq_refl).
    apply (IH (mkOpenaiSSEParser (rest_line (buf +:+ c)) false u')); [done|]. apply rest_line_absent.
  - destruct (openai_ref_done (complete_lines (buf +:+ c)) (false, u) (d, u')) as [_ H2].
    cbn in H2. rewrite (H2 Hr). by rewrite feed_all_done.
  - done.
Qed.

(** C20: chunking does not matter for OpenAI streams.  However the stream is cut into
    chunks, in the middle of a line, of a payload or of a multi-byte character,
    feeding the chunks gives the usage and the error of the reference on the whole
    stream. *)
Theorem openai_chunking chunks :
  let '(p, ok) := feed_all newOpenAISSEParser chunks in
  (Finish p, ok) = openai_reference (Join chunks "").
Proof.
  pose proof (openai_feed_all newOpenAISSEParser chunks eq_refl eq_refl) as Hf.
  by destruct (feed_all newOpenAISSEParser chunks).
Qed.
End OpenAIStreams.

(** ** Anthropic streams *)

Section AnthropicStreams.
Context (codec : Codec).
#[local] Instance anthropic_here : SSEParser anthropicSSEParser := anthropic_SSEParser codec.

(** A line of a stream that ends at the first [message_stop]. *)
Definition anthropic_stop_line (a : anthropicState) (line : string) : line_result anthropicState :=
  match anthropic_line codec a line with
  | LNext a' => if a_done a' then LStop a' else LNext a'
  | r => r
  end.

Definition tokens_of (a : anthropicState) : Z * Z := (inputTokens a, outputTokens a).

(** The tokens of a whole stream up to [message_stop], and whether every event up to
    there decodes. *)
Definition anthropic_reference (stream : string) : LLMUsage * bool :=
  let r := ref_lines anthropic_stop_line (mkAnthropicState false 0 0 "") (complete_lines stream) in
  (anthropic_Finish (mkAnthropicSSEParser "" (lr_state r)), lr_ok r).

Definition is_data_line (l : string) : bool := HasPrefix (TrimSpace l) data_prefix.

(** No data line follows the [message_stop] event. *)
Fixpoint quiet (a : anthropicState) (lines : list string) : Prop :=
  match lines with
  | [] => True
  | l :: ls =>
      match anthropic_line codec a (TrimSpace l) with
      | LNext a' => if a_done a' then Forall (fun l => is_data_line l = false) ls else quiet a' ls
      | _ => True
      end
  end.

Lemma anthropic_no_data a lines :
  Forall (fun l => is_data_line l = false) lines ->
  exists a', ref_lines (anthropic_line codec) a lines = LNext a' /\
    tokens_of a' = tokens_of a /\ a_done a' = a_done a.
Proof.
  intros Hf. revert a. induction Hf as [|l ls Hl Hf IH]; intros a; cbn [ref_lines]; [eauto|].
  unfold is_data_line in Hl. unfold anthropic_line. rewrite Hl.
  destruct (HasPrefix _ event_prefix); [|apply IH].
  destruct (IH (set_event a (TrimPrefix (TrimSpace l) event_prefix))) as (a' & ? & ? & ?). eauto.
Qed.

Lemma anthropic_line_no_stop a l a' : anthropic_line codec a l <> LStop a'.
Proof. unfold anthropic_line. by repeat case_match. Qed.

(** On quiet lines the parser and the reference agree, except for the event name. *)
Lemma quiet_ref a lines (r := ref_lines (anthropic_line codec) a lines)
    (r' := ref_lines anthropic_stop_line a lines) :
  a_done a = false -> quiet a lines ->
  (exists a1, r = LNext a1 /\ r' = LNext a1 /\ a_done a1 = false) \/
  (exists a1 a2, r = LNext a1 /\ r' = LStop a2 /\ a_done a1 = true /\ tokens_of a1 = tokens_of a2) \/
  (exists a1, r = LError a1 /\ r' = LError a1).
Proof.
  subst r r'. revert a. induction lines as [|l ls IH]; intros a Hd; cbn [ref_lines quiet].
  { left. eauto. }
  unfold anthropic_stop_line at 1 3 5.
  destruct (anthropic_line codec a (TrimSpace l)) as [a'|a'|a'] eqn:Hl.
  - destruct (a_done a') eqn:Hd'; [|by apply IH]. intros Hf. right; left.
    destruct (anthropic_no_data a' ls Hf) as (a1 & -> & Ht & Hd1). exists a1, a'.
    split_and!; try done. congruence.
  - by apply anthropic_line_no_stop in Hl.
  - intros _. right; right. eauto.
Qed.

Lemma quiet_app a l1 l2 a1 :
  a_done a = false -> quiet a (l1 ++ l2) -> quiet a l1 /\
  (ref_lines (anthropic_line codec) a l1 = LNext a1 -> a_done a1 = false -> quiet a1 l2).
Proof.
  revert a. induction l1 as [|l l1 IH]; intros a Hd; cbn [app quiet ref_lines].
  { intros Hq. split; [done|]. by intros [= <-]. }
  destruct (anthropic_line codec a (TrimSpace l)) as [a'|a'|a'] eqn:Hl; [|done..].
  destruct (a_done a') eqn:Hd'; [|by apply IH]. intros [Hf1 Hf2]%Forall_app. split; [done|].
  destruct (anthropic_no_data a' l1 Hf1) as (a2 & -> & _ & Hd2). intros [= <-] ?. congruence.
Qed.

Lemma anthropic_feed_done (a : anthropicSSEParser) chunks :
  a_done (a_state a) = true -> feed_all a chunks = (a, true).
Proof.
  intros Hd. induction chunks as [|c cs IH]; [done|]. cbn. unfold anthropic_Feed. rewrite Hd. exact IH.
Qed.

Lemma anthropic_feed_all (a : anthropicSSEParser) chunks
    (lines := complete_lines (a_buf a +:+ Join chunks "")) :
  a_done (a_state a) = false -> ContainsByte (a_buf a) newline = false -> quiet (a_state a) lines ->
  let r := ref_lines anthropic_stop_line (a_state a) lines in
  tokens_of (a_state (feed_all a chunks).1) = tokens_of (lr_state r) /\
  (feed_all a chunks).2 = lr_ok r.
Proof.
  cbn zeta. subst lines. revert a.
  induction chunks as [|c cs IH]; intros [buf st]; cbn [a_buf a_state]; intros Hd Hb.
  { rewrite str_app_nil_r. by destruct (lines_absent buf Hb) as [-> _]. }
  rewrite Join_cons, <-str_app_assoc.
  destruct (complete_lines_app (buf +:+ c) (Join cs "")) as [-> _]. rewrite ref_lines_app.
  cbn [feed_all Feed anthropic_here anthropic_SSEParser]. unfold anthropic_Feed, anthropic_parseEvents.
  cbn [a_buf a_state]. rewrite Hd. intros Hq.
  destruct (parse_lines_ref (anthropic_line codec) st "" (buf +:+ c) eq_refl) as (rest & -> & Hrest).
  cbn [String.append] in Hrest |- *.
  pose proof (fun a1 => quiet_app st _ _ a1 Hd Hq) as Hqa. destruct (Hqa st) as [Hq1 _].
  destruct (quiet_ref st _ Hd Hq1) as [(a1 & Hr & -> & Hd1)|[(a1 & a2 & Hr & -> & Hd1 & Ht)|(a1 & -> & ->)]].
  - rewrite Hr in Hrest |- *. cbn [lr_state lr_ok]. rewrite (Hrest _ eq_refl).
    apply (IH (mkAnthropicSSEParser (rest_line (buf +:+ c)) a1)); [done|apply rest_line_absent|].
    by apply Hqa.
  - rewrite Hr. cbn [lr_state lr_ok]. by rewrite anthropic_feed_done.
  - done.
Qed.

(** Chunking does not matter for Anthropic streams in which no data line follows
    the [message_stop] event: however the stream is cut, feeding the chunks gives
    the usage and the error of the reference on the whole stream. *)
Theorem anthropic_chunking chunks :
  quiet (mkAnthropicState false 0 0 "") (complete_lines (Join chunks "")) ->
  let '(p, ok) := feed_all newAnthropicSSEParser chunks in
  (Finish p, ok) = anthropic_reference (Join chunks "").
Proof.
  intros Hq. destruct (anthropic_feed_all newAnthropicSSEParser chunks eq_refl eq_refl Hq) as [Ht Hok].
  unfold anthropic_reference. cbn [String.append a_buf a_state newAnthropicSSEParser] in Ht, Hok.
  destruct (feed_all newAnthropicSSEParser chunks) as [p ok]. cbn in Ht, Hok |- *.
  rewrite <-Hok. injection Ht as H1 H2. unfold anthropic_Finish. cbn. by rewrite H1, H2.
Qed.
End AnthropicStreams.

(** ** A stream with events after message_stop *)

Definition ex_codec : Codec :=
  mkCodec (fun _ => None) (fun _ => Some (mkOpenaiUsage 1 2 3)) (fun _ => None)
    (fun _ => Some (mkAnthropicUsage 10 1)) (fun _ => Some 7).

Definition nl : string := String newline "".
Definition ex_stop : string := "event: message_stop" +:+ nl +:+ "data: {}" +:+ nl.
Definition ex_delta : string := "event: message_delta" +:+ nl +:+ "data: {}" +:+ nl.

(** The Anthropic parser looks at its done flag between chunks only: an event
    after [message_stop] counts when it arrives in the same chunk and is ignored when
    it arrives in the next one, so the usage depends on how the stream is cut. *)
Theorem anthropic_chunking_after_stop :
  exists codec chunks1 chunks2, Join chunks1 "" = Join chunks2 "" /\
    anthropic_Finish (feed_all (SSEParser0 := anthropic_SSEParser codec) newAnthropicSSEParser chunks1).1 <>
    anthropic_Finish (feed_all (SSEParser0 := anthropic_SSEParser codec) newAnthropicSSEParser chunks2).1.
Proof.
  exists ex_codec, [ex_stop; ex_delta], [ex_stop +:+ ex_delta].
  split; [by vm_compute|]. vm_compute. discriminate.
Qed.

Definition ex_start : string := "event: message_start" +:+ nl +:+ "data: {}" +:+ nl.

Lemma anthropic_chunking_witness :
  let '(p, ok) := feed_all (SSEParser0 := anthropic_SSEParser ex_codec) newAnthropicSSEParser
    [take_bytes 30 (ex_start +:+ ex_delta +:+ ex_stop); drop_bytes 30 (ex_start +:+ ex_delta +:+ ex_stop)] in
  (anthropic_Finish p, ok) = (mkLLMUsage 10 7 17, true).
Proof.
  exact (anthropic_chunking ex_codec
    [take_bytes 30 (ex_start +:+ ex_delta +:+ ex_stop); drop_bytes 30 (ex_start +:+ ex_delta +:+ ex_stop)]
    ltac:(vm_compute; repeat constructor)).
Defined.
