(* ===== verification/LLMProxy.v ===== *)
(** * llm-proxy: the filter

    extensions/composer/llm-proxy/plugin.go and stats.go: the configuration, the
    per-request filter as a state machine over the callbacks of the host, and
    the accounting of requests, errors and tokens.  Bodies are the host's
    buffers, passed to the callbacks; clock readings are arguments. *)

From S2P Require Import Prelude GoStr GoNum Host ExtPkg LLMParsers.
From Stdlib Require Import Lia.

Local Open Scope Z_scope.
Local Open Scope go_scope.

Definition KindOpenAI : string := "openai".
Definition KindAnthropic : string := "anthropic".
Definition KindCustom : string := "custom".

Definition llm_defaultMetadataNamespace : string := "io.builtonenvoy.llm-proxy".

(** The metrics of stats.go by name. *)
Definition requestTotal : string := "llm_proxy_request_total".
Definition requestError : string := "llm_proxy_request_error".
Definition inputTokensTotal : string := "llm_proxy_input_tokens".
Definition outputTokensTotal : string := "llm_proxy_output_tokens".
Definition totalTokensTotal : string := "llm_proxy_total_tokens".
Definition requestTTFT : string := "llm_proxy_request_ttft".
Definition requestTPOT : string := "llm_proxy_request_tpot".

Section Config.
Context {Regexp : Type} (Compile : string -> option Regexp) (MatchString : Regexp -> string -> bool).

(** ** Configuration *)

Record llmConfig : Type := mkLlmConfig {
  Matcher : StringMatcher Regexp;
  Kind : string;
  Factory : option LLMFactory;
}.

Inductive LLMConfigError : Type :=
| UnsupportedKind (k : string)
| BadMatcher (e : string + nat)
| MultipleOpenAI
| MultipleAnthropic
| Undecodable.

Definition factory_of (kind : string) : option LLMFactory :=
  if decide (kind = KindOpenAI) then Some openaiFactory
  else if decide (kind = KindAnthropic) then Some anthropicFactory
  else if decide (kind = KindCustom) then Some customFactory
  else None.

Definition llmConfig_ValidateAndParse (c : llmConfig) : result LLMConfigError llmConfig :=
  if decide (Kind c = KindOpenAI \/ Kind c = KindAnthropic \/ Kind c = KindCustom) then
    match ValidateAndParse Compile (Matcher c) with
    | Err e => Err (BadMatcher e)
    | Ok m => Ok (mkLlmConfig m (Kind c) (factory_of (Kind c)))
    end
  else Err (UnsupportedKind (Kind c)).

Record llmProxyConfig : Type := mkLlmProxyConfig {
  LLMConfigs : list llmConfig;
  MetadataNamespace : string;
  LLMModelHeader : string;
  ClearRouteCache_ : bool;
}.

(** The first loop: at most one rule of each well-known kind. *)
Fixpoint check_kinds (cs : list llmConfig) (hasOpenAI hasAnthropic : bool)
    : result LLMConfigError (bool * bool) :=
  match cs with
  | [] => Ok (hasOpenAI, hasAnthropic)
  | c :: cs' =>
      if bool_decide (Kind c = KindOpenAI) && hasOpenAI then Err MultipleOpenAI
      else if bool_decide (Kind c = KindAnthropic) && hasAnthropic then Err MultipleAnthropic
      else check_kinds cs' (hasOpenAI || bool_decide (Kind c = KindOpenAI))
             (hasAnthropic || bool_decide (Kind c = KindAnthropic))
  end.

Definition default_rule (suffix kind : string) : llmConfig :=
  mkLlmConfig (mkStringMatcher "" suffix "" None) kind None.

Fixpoint validate_all (cs : list llmConfig) : result LLMConfigError (list llmConfig) :=
  match cs with
  | [] => Ok []
  | c :: cs' =>
      try c' <- llmConfig_ValidateAndParse c;
      try rest <- validate_all cs';
      Ok (c' :: rest)
  end.

Definition llmProxyConfig_ValidateAndParse (c : llmProxyConfig) : result LLMConfigError llmProxyConfig :=
  try kinds <- check_kinds (LLMConfigs c) false false;
  let cs := if kinds.1 then LLMConfigs c
            else default_rule "/v1/chat/completions" KindOpenAI :: LLMConfigs c in
  let cs := if kinds.2 then cs else default_rule "/v1/messages" KindAnthropic :: cs in
  try cs' <- validate_all cs;
  Ok (mkLlmProxyConfig cs'
        (if decide (MetadataNamespace c = "") then llm_defaultMetadataNamespace else MetadataNamespace c)
        (LLMModelHeader c) (ClearRouteCache_ c)).

(** [parseConfig]: an empty configuration is the zero value. *)
Definition llm_parseConfig (empty : bool) (decoded : option llmProxyConfig)
    : result LLMConfigError llmProxyConfig :=
  if empty then llmProxyConfig_ValidateAndParse (mkLlmProxyConfig [] "" "" false)
  else match decoded with
       | None => Err Undecodable
       | Some c => llmProxyConfig_ValidateAndParse c
       end.

Definition llm_matchRule (c : llmProxyConfig) (path : string) : option llmConfig :=
  head (filter (fun r => Matches MatchString (Matcher r) path = true) (LLMConfigs c)).
End Config.
Arguments llmConfig : clear implicits.
Arguments llmProxyConfig : clear implicits.

(** ** The filter *)

(** The times are [None] while they are the zero time. *)
Record llmProxyFilter : Type := mkLlmProxyFilter {
  matched : bool;
  hasError : bool;
  kind : string;
  factory : option LLMFactory;
  sseParser : option AnyParser;
  model : string;
  isStream : bool;
  usage : LLMUsage;
  requestSentAt : option Z;
  firstChunkAt : option Z;
}.

Definition newFilter : llmProxyFilter :=
  mkLlmProxyFilter false false "" None None "" false noUsage None None.

Definition set_matched (f : llmProxyFilter) (k : string) (fac : LLMFactory) : llmProxyFilter :=
  mkLlmProxyFilter true (hasError f) k (Some fac) (sseParser f) (model f) (isStream f) (usage f)
    (requestSentAt f) (firstChunkAt f).
Definition set_error (f : llmProxyFilter) : llmProxyFilter :=
  mkLlmProxyFilter (matched f) true (kind f) (factory f) (sseParser f) (model f) (isStream f) (usage f)
    (requestSentAt f) (firstChunkAt f).
Definition set_parser (f : llmProxyFilter) (p : AnyParser) : llmProxyFilter :=
  mkLlmProxyFilter (matched f) (hasError f) (kind f) (factory f) (Some p) (model f) (isStream f) (usage f)
    (requestSentAt f) (firstChunkAt f).
Definition set_model (f : llmProxyFilter) (m : string) : llmProxyFilter :=
  mkLlmProxyFilter (matched f) (hasError f) (kind f) (factory f) (sseParser f) m (isStream f) (usage f)
    (requestSentAt f) (firstChunkAt f).
Definition set_stream (f : llmProxyFilter) (b : bool) : llmProxyFilter :=
  mkLlmProxyFilter (matched f) (hasError f) (kind f) (factory f) (sseParser f) (model f) b (usage f)
    (requestSentAt f) (firstChunkAt f).
Definition set_usage (f : llmProxyFilter) (u : LLMUsage) : llmProxyFilter :=
  mkLlmProxyFilter (matched f) (hasError f) (kind f) (factory f) (sseParser f) (model f) (isStream f) u
    (requestSentAt f) (firstChunkAt f).
Definition set_sent (f : llmProxyFilter) (t : Z) : llmProxyFilter :=
  mkLlmProxyFilter (matched f) (hasError f) (kind f) (factory f) (sseParser f) (model f) (isStream f)
    (usage f) (Some t) (firstChunkAt f).
Definition set_first (f : llmProxyFilter) (t : Z) : llmProxyFilter :=
  mkLlmProxyFilter (matched f) (hasError f) (kind f) (factory f) (sseParser f) (model f) (isStream f)
    (usage f) (requestSentAt f) (Some t).

Definition count (f : llmProxyFilter) (metric : string) (n : Z) : Host unit :=
  hcall (IncrementCounterValue metric n [kind f; model f]).
Definition histogram (f : llmProxyFilter) (metric : string) (n : Z) : Host unit :=
  hcall (RecordHistogramValue metric n [kind f; model f]).

Definition onError (f : llmProxyFilter) : Host llmProxyFilter :=
  let f := set_error f in
  run count f requestError 1;
  run hwhen (bool_decide (requestSentAt f = None)) (count f requestTotal 1);
  hret f.

(** [time.Duration.Milliseconds]. *)
Definition Milliseconds (d : Z) : Z := Z.quot d Millisecond.

Section Filter.
Context {Regexp : Type} (MatchString : Regexp -> string -> bool) (codec : Codec).
Context (config : llmProxyConfig Regexp).
Context {H : Type} `{!HeaderMap H}.

Definition onRequestSuccess (f : llmProxyFilter) (now : Z) : Host llmProxyFilter :=
  let f := set_sent f now in
  let ns := MetadataNamespace config in
  run hcall (SetMetadata ns "kind" (MetaString (kind f)));
  run hcall (SetMetadata ns "model" (MetaString (model f)));
  run hcall (SetMetadata ns "is_stream" (MetaBool (isStream f)));
  run count f requestTotal 1;
  run hwhen (negb (bool_decide (LLMModelHeader config = "")))
    (hcall (SetRequestHeader (LLMModelHeader config) (model f)));
  run hwhen (ClearRouteCache_ config) (hcall ClearRouteCache);
  hret f.

Definition record_latency (f : llmProxyFilter) (sent first now : Z) : Host unit :=
  let ns := MetadataNamespace config in
  let ttft := Milliseconds (first - sent) in
  let tpot := Z.quot (Milliseconds (now - first)) (OutputTokens (usage f)) in
  run hcall (SetMetadata ns "request_ttft" (MetaInt ttft));
  run hcall (SetMetadata ns "request_tpot" (MetaInt tpot));
  run histogram f requestTTFT (Z.max ttft 0);
  histogram f requestTPOT (Z.max tpot 0).

Definition onResponseSuccess (f : llmProxyFilter) (now : Z) : Host llmProxyFilter :=
  let ns := MetadataNamespace config in
  let u := usage f in
  run hcall (SetMetadata ns "input_tokens" (MetaInt (InputTokens u)));
  run hcall (SetMetadata ns "output_tokens" (MetaInt (OutputTokens u)));
  run hcall (SetMetadata ns "total_tokens" (MetaInt (TotalTokens u)));
  run count f inputTokensTotal (InputTokens u);
  run count f outputTokensTotal (OutputTokens u);
  run count f totalTokensTotal (TotalTokens u);
  match requestSentAt f, firstChunkAt f with
  | Some sent, Some first =>
      if OutputTokens u =? 0 then hret f
      else run record_latency f sent first now; hret f
  | _, _ => hret f
  end.

(** [body] is the whole buffered request body. *)
Definition parseRequestBody (f : llmProxyFilter) (body : string) (now : Z) : Host llmProxyFilter :=
  if decide (body = "") then onError f
  else match factory f ≫= (fun fac => ParseRequest codec fac body) with
       | None => onError f
       | Some req =>
           let f := set_model f (GetModel req) in
           if decide (model f = "") then onError f
           else onRequestSuccess (set_stream f (IsStream req)) now
       end.

Definition parseResponseBody (f : llmProxyFilter) (body : string) (now : Z) : Host llmProxyFilter :=
  if decide (body = "") then onError f
  else match factory f ≫= (fun fac => ParseResponse codec fac body) with
       | None => onError f
       | Some u => onResponseSuccess (set_usage f u) now
       end.

Definition finishStreamingResponse (f : llmProxyFilter) (p : AnyParser) (now : Z) : Host llmProxyFilter :=
  onResponseSuccess (set_usage f (@Finish _ (any_SSEParser codec) p)) now.

(** *** The callbacks; each returns the filter and the status. *)

Definition llm_OnRequestHeaders (f : llmProxyFilter) (path : string) (headers : H) (endOfStream : bool)
    : Host (llmProxyFilter * HeadersStatus) :=
  match llm_matchRule MatchString config path with
  | Some (mkLlmConfig _ k (Some fac)) =>
      let f := set_matched f k fac in
      if endOfStream || negb (Contains (GetOne headers "content-type") "application/json") then
        do f <- onError f; hret (f, HeadersStatusContinue)
      else hret (f, HeadersStatusStop)
  | _ => hret (f, HeadersStatusContinue)
  end.

(** Whether the callbacks after the request headers do anything. *)
Definition active (f : llmProxyFilter) : bool := matched f && negb (hasError f).

Definition OnRequestBody (f : llmProxyFilter) (body : string) (endOfStream : bool) (now : Z)
    : Host (llmProxyFilter * BodyStatus) :=
  if negb (active f) then hret (f, BodyStatusContinue)
  else if negb endOfStream then hret (f, BodyStatusStopAndBuffer)
  else do f <- parseRequestBody f body now; hret (f, BodyStatusContinue).

Definition OnRequestTrailers (f : llmProxyFilter) (body : string) (now : Z)
    : Host (llmProxyFilter * TrailersStatus) :=
  if negb (active f) then hret (f, TrailersStatusContinue)
  else do f <- parseRequestBody f body now; hret (f, TrailersStatusContinue).

Definition OnResponseHeaders (f : llmProxyFilter) (headers : H) (endOfStream : bool)
    : Host (llmProxyFilter * HeadersStatus) :=
  if negb (active f) then hret (f, HeadersStatusContinue)
  else if endOfStream || negb (bool_decide (GetOne headers ":status" = "200")) then
    do f <- onError f; hret (f, HeadersStatusContinue)
  else
    let ct := GetOne headers "content-type" in
    if Contains ct "text/event-stream" then
      match factory f with
      | Some fac => hret (set_parser f (NewSSEParser fac), HeadersStatusContinue)
      | None => hret (f, HeadersStatusContinue)
      end
    else if negb (Contains ct "application/json") then
      do f <- onError f; hret (f, HeadersStatusContinue)
    else hret (f, HeadersStatusStop).

(** [chunks] are the chunks of this callback, [body] the whole buffered body; [now] and
    [now'] the two clock readings. *)
Definition OnResponseBody (f : llmProxyFilter) (chunks : list string) (body : string)
    (endOfStream : bool) (now now' : Z) : Host (llmProxyFilter * BodyStatus) :=
  if negb (active f) then hret (f, BodyStatusContinue)
  else
    let f := match firstChunkAt f with None => set_first f now | Some _ => f end in
    match sseParser f with
    | Some p =>
        let '(p', ok) := @feed_all _ (any_SSEParser codec) p chunks in
        let f := set_parser f p' in
        if negb ok then do f <- onError f; hret (f, BodyStatusContinue)
        else if endOfStream then
          do f <- finishStreamingResponse f p' now'; hret (f, BodyStatusContinue)
        else hret (f, BodyStatusContinue)
    | None =>
        if negb endOfStream then hret (f, BodyStatusStopAndBuffer)
        else do f <- parseResponseBody f body now'; hret (f, BodyStatusContinue)
    end.

Definition OnResponseTrailers (f : llmProxyFilter) (body : string) (now : Z)
    : Host (llmProxyFilter * TrailersStatus) :=
  if negb (active f) then hret (f, TrailersStatusContinue)
  else
    do f <- match sseParser f with
            | Some p => finishStreamingResponse f p now
            | None => parseResponseBody f body now
            end;
    hret (f, TrailersStatusContinue).
End Filter.

(** ** Streams of callbacks *)

Inductive event (H : Type) : Type :=
| EReqHeaders (path : string) (headers : H) (eos : bool)
| EReqBody (body : string) (eos : bool) (now : Z)
| EReqTrailers (body : string) (now : Z)
| ERespHeaders (headers : H) (eos : bool)
| ERespBody (chunks : list string) (body : string) (eos : bool) (now now' : Z)
| ERespTrailers (body : string) (now : Z).
Arguments EReqHeaders {_}. Arguments EReqBody {_}. Arguments EReqTrailers {_}.
Arguments ERespHeaders {_}. Arguments ERespBody {_}. Arguments ERespTrailers {_}.

Definition callback_of {H} (e : event H) : Callback :=
  match e with
  | EReqHeaders _ _ eos => CReqHeaders eos
  | EReqBody _ eos _ => CReqBody eos
  | EReqTrailers _ _ => CReqTrailers
  | ERespHeaders _ eos => CRespHeaders eos
  | ERespBody _ _ eos _ _ => CRespBody eos
  | ERespTrailers _ _ => CRespTrailers
  end.

Definition protocol {H} (ph : Phase * Phase) (e : event H) : option (Phase * Phase) :=
  callback_order ph (callback_of e).

(** How often a counter was incremented. *)
Definition increments (metric : string) (c : HandleCall) : bool :=
  match c with IncrementCounterValue m _ _ => bool_decide (m = metric) | _ => false end.
Definition incs (metric : string) (calls : list HandleCall) : nat :=
  length (filter (increments metric) calls).

Lemma incs_app metric l1 l2 : incs metric (l1 ++ l2) = (incs metric l1 + incs metric l2)%nat.
Proof. unfold incs. by rewrite filter_app, length_app. Qed.

Lemma incs_hbind {A B} metric (m : Host A) (k : A -> Host B) :
  incs metric (calls_of (hbind m k)) =
  (incs metric (calls_of m) + incs metric (calls_of (k (val_of m))))%nat.
Proof. by rewrite calls_hbind, incs_app. Qed.

Section Runs.
Context {Regexp : Type} (MatchString : Regexp -> string -> bool) (codec : Codec).
Context (config : llmProxyConfig Regexp).
Context {H : Type} `{!HeaderMap H}.

Definition handle_event (f : llmProxyFilter) (e : event H) : Host llmProxyFilter :=
  match e with
  | EReqHeaders path headers eos =>
      do r <- llm_OnRequestHeaders MatchString config f path headers eos; hret r.1
  | EReqBody body eos now => do r <- OnRequestBody codec config f body eos now; hret r.1
  | EReqTrailers body now => do r <- OnRequestTrailers codec config f body now; hret r.1
  | ERespHeaders headers eos => do r <- OnResponseHeaders f headers eos; hret r.1
  | ERespBody chunks body eos now now' =>
      do r <- OnResponseBody codec config f chunks body eos now now'; hret r.1
  | ERespTrailers body now => do r <- OnResponseTrailers codec config f body now; hret r.1
  end.

(** The filter, what it called so far, and where the two sides of the stream are. *)
Record stream : Type := mkStream {
  st_filter : llmProxyFilter;
  st_calls : list HandleCall;
  st_req : Phase;
  st_resp : Phase;
}.

Inductive stream_step : stream -> stream -> Prop :=
| stream_event s e rq rs :
    protocol (st_req s, st_resp s) e = Some (rq, rs) ->
    stream_step s
      (mkStream (val_of (handle_event (st_filter s) e))
         (st_calls s ++ calls_of (handle_event (st_filter s) e)) rq rs).

Definition stream_init : stream := mkStream newFilter [] NotStarted NotStarted.

(** *** What each part of the filter counts *)

(** The increments of the three kinds of counters by a computation. *)
Definition tally (calls : list HandleCall) : nat * nat * nat :=
  (incs requestTotal calls, incs requestError calls, incs inputTokensTotal calls).

Lemma onError_tally f :
  val_of (onError f) = set_error f /\
  tally (calls_of (onError f)) = (if decide (requestSentAt f = None) then 1 else 0, 1, 0)%nat.
Proof.
  unfold onError, hwhen. cbn [requestSentAt set_error].
  destruct (bool_decide_reflect (requestSentAt f = None)); case_decide; try done.
Qed.

Lemma onRequestSuccess_tally f now :
  val_of (onRequestSuccess config f now) = set_sent f now /\
  tally (calls_of (onRequestSuccess config f now)) = (1, 0, 0)%nat.
Proof.
  unfold onRequestSuccess, hwhen. destruct (negb _), (ClearRouteCache_ config); done.
Qed.

Lemma onResponseSuccess_tally f now :
  val_of (onResponseSuccess config f now) = f /\
  tally (calls_of (onResponseSuccess config f now)) = (0, 0, 1)%nat.
Proof.
  unfold onResponseSuccess, record_latency.
  destruct (requestSentAt f), (firstChunkAt f), (OutputTokens (usage f) =? 0); done.
Qed.

(** The part of the filter the accounting depends on. *)
Definition view (f : llmProxyFilter) : bool * bool * option Z :=
  (matched f, hasError f, requestSentAt f).

(** The four things a callback can do. *)
Definition is_quiet (f : llmProxyFilter) (r : Host llmProxyFilter) : Prop :=
  view (val_of r) = view f /\ tally (calls_of r) = (0, 0, 0)%nat.
Definition is_error (f : llmProxyFilter) (r : Host llmProxyFilter) : Prop :=
  view (val_of r) = (matched f, true, requestSentAt f) /\
  tally (calls_of r) = (if decide (requestSentAt f = None) then 1 else 0, 1, 0)%nat.
Definition is_sent (f : llmProxyFilter) (r : Host llmProxyFilter) : Prop :=
  exists t, view (val_of r) = (matched f, hasError f, Some t) /\ tally (calls_of r) = (1, 0, 0)%nat.
Definition is_response (f : llmProxyFilter) (r : Host llmProxyFilter) : Prop :=
  view (val_of r) = view f /\ tally (calls_of r) = (0, 0, 1)%nat.

Lemma onError_effect f f' : view f' = view f -> is_error f (onError f').
Proof.
  intros [= H1 H2 H3]. unfold is_error. destruct (onError_tally f') as [-> ->].
  unfold view. cbn. by rewrite H1, H3.
Qed.

(** Reading the request ends in an error or in a request that is sent. *)
Lemma parseRequestBody_effect f body now (r := parseRequestBody codec config f body now) :
  is_error f r \/ is_sent f r.
Proof.
  subst r. unfold parseRequestBody. case_decide; [left; by apply onError_effect|].
  destruct (factory f ≫= _) as [req|]; [|left; by apply onError_effect]. cbn zeta.
  case_decide; [left; by apply onError_effect|]. right. exists now.
  by destruct (onRequestSuccess_tally (set_stream (set_model f (GetModel req)) (IsStream req)) now) as [-> ->].
Qed.

(** Reading the response ends in an error or in the tokens being counted. *)
Lemma response_effect f f' u now :
  view f' = view f -> is_response f (onResponseSuccess config (set_usage f' u) now).
Proof.
  intros Hv. unfold is_response. destruct (onResponseSuccess_tally (set_usage f' u) now) as [-> ->].
  by rewrite <-Hv.
Qed.

Lemma parseResponseBody_effect f f' body now (r := parseResponseBody codec config f' body now) :
  view f' = view f -> is_error f r \/ is_response f r.
Proof.
  intros Hv. subst r. unfold parseResponseBody. case_decide; [left; by apply onError_effect|].
  destruct (factory f' ≫= _) as [u|]; [right; by apply response_effect|left; by apply onError_effect].
Qed.

Lemma project_status {S} (m : Host llmProxyFilter) (s : S) :
  (do r <- (do f <- m; hret (f, s)); hret r.1) = m.
Proof. destruct m as [f l]. cbn. by rewrite !app_nil_r. Qed.

#[local] Hint Resolve onError_effect parseRequestBody_effect response_effect
  parseResponseBody_effect : boe.

Lemma first_chunk_view f now :
  view (match firstChunkAt f with None => set_first f now | Some _ => f end) = view f.
Proof. by destruct (firstChunkAt f). Qed.

(** What an event can do to a filter, by its kind. *)
Lemma handle_event_effect f e (r := handle_event f e) :
  match e with
  | EReqHeaders _ _ eos =>
      (r = hret f) \/ (eos = false /\ exists k fac, r = hret (set_matched f k fac)) \/
      (exists k fac, is_error (set_matched f k fac) r)
  | EReqBody _ true _ | EReqTrailers _ _ => if active f then is_error f r \/ is_sent f r else is_quiet f r
  | EReqBody _ false _ => is_quiet f r
  | ERespHeaders _ _ | ERespBody _ _ false _ _ => is_quiet f r \/ (active f = true /\ is_error f r)
  | ERespBody _ _ true _ _ | ERespTrailers _ _ =>
      if active f then is_error f r \/ is_response f r else is_quiet f r
  end.
Proof.
  subst r. destruct e as [path h eos|body eos now|body now|h eos|chunks body eos now now'|body now]; cbn [handle_event].
  - unfold llm_OnRequestHeaders. destruct (llm_matchRule _ _ _) as [[mt k [fac|]]|]; [|by left..].
    cbn zeta. destruct (eos || _) eqn:Heos;
      [|right; left; apply orb_false_iff in Heos as [-> _]; split; [done|]; by eexists _, _].
    rewrite project_status. right; right. eexists _, _. by apply onError_effect.
  - unfold OnRequestBody. destruct (active f); cbn [negb]; [|by destruct eos].
    destruct eos; cbn [negb]; [|done]. rewrite project_status. auto with boe.
  - unfold OnRequestTrailers. destruct (active f); cbn [negb]; [|done]. rewrite project_status. auto with boe.
  - unfold OnResponseHeaders. destruct (active f); cbn [negb]; [|by left].
    destruct (_ || _); [rewrite project_status; auto with boe|].
    destruct (Contains _ _); [destruct (factory f); by left|].
    destruct (negb _); [rewrite project_status; auto with boe|by left].
  - unfold OnResponseBody. destruct (active f); cbn [negb]; [|by destruct eos; [|left]].
    pose proof (first_chunk_view f now) as Hv. cbn zeta. revert Hv.
    generalize (match firstChunkAt f with None => set_first f now | Some _ => f end) as f1.
    intros f1 Hv. destruct (sseParser f1) as [p|].
    + destruct (feed_all p chunks) as [p' []]; cbn [negb].
      * destruct eos; [|by left]. unfold finishStreamingResponse. rewrite project_status. auto with boe.
      * rewrite project_status. destruct eos; auto with boe.
    + destruct eos; cbn [negb]; [|by left]. rewrite project_status. auto with boe.
  - unfold OnResponseTrailers. destruct (active f); cbn [negb]; [|done]. rewrite project_status.
    destruct (sseParser f); [right; by apply response_effect|auto with boe].
Qed.

(** An event on a filter that matched no rule, other than the request headers. *)
Lemma handle_event_unmatched f e :
  matched f = false -> (forall path h eos, e <> EReqHeaders path h eos) -> handle_event f e = hret f.
Proof.
  intros Hm Hne. destruct e; cbn [handle_event];
    unfold OnRequestBody, OnRequestTrailers, OnResponseHeaders, OnResponseBody, OnResponseTrailers, active;
    rewrite ?Hm; try done. by destruct (Hne path headers eos).
Qed.

(** The accounting invariant, on the view of the filter, the counts so far and the two
    phases: the request is counted once it is settled, that is in error or sent. *)
Definition accounting (v : bool * bool * option Z) (t : nat * nat * nat) (rq rs : Phase) : Prop :=
  let '(m, e, sent) := v in
  let '(n_total, n_error, n_tokens) := t in
  let settled := e || negb (bool_decide (sent = None)) in
  n_total = (if settled then 1 else 0)%nat /\ n_error = (if e then 1 else 0)%nat /\
  (n_tokens <= if decide (rs = Closed) then 1 else 0)%nat /\
  (settled = true -> m = true) /\ (sent <> None -> rq = Closed) /\
  (m = true -> rq = Closed -> settled = true).

Definition accounted (s : stream) : Prop :=
  accounting (view (st_filter s)) (tally (st_calls s)) (st_req s) (st_resp s) /\
  (st_req s = NotStarted -> st_filter s = newFilter /\ st_calls s = []).

Lemma tally_app l1 l2 :
  tally (l1 ++ l2) =
  ((tally l1).1.1 + (tally l2).1.1, (tally l1).1.2 + (tally l2).1.2, (tally l1).2 + (tally l2).2)%nat.
Proof. unfold tally. cbn. by rewrite !incs_app. Qed.

Ltac settle_hyps :=
  repeat match goal with
  | H : ?x = ?x -> _ |- _ => specialize (H eq_refl)
  | H : _ /\ _ |- _ => destruct H
  | H : Some _ <> None -> _ |- _ => specialize (H ltac:(discriminate))
  end; subst.
Ltac settle :=
  settle_hyps; repeat (case_decide; settle_hyps); split_and!; intros; settle_hyps;
  try done; try lia; try congruence; auto.

(** The effects preserve the accounting when the phases move the way the protocol
    moves them. *)
Lemma accounting_quiet f r rq rs rq' rs' t :
  accounting (view f) t rq rs -> is_quiet f r -> (rs = Closed -> rs' = Closed) -> (rq = Closed -> rq' = Closed) ->
  (active f = true -> rq' = rq) ->
  accounting (view (val_of r)) ((t.1.1 + (tally (calls_of r)).1.1, t.1.2 + (tally (calls_of r)).1.2,
    t.2 + (tally (calls_of r)).2)%nat) rq' rs'.
Proof.
  intros Ha [-> ->] Hs Hq Hact. destruct t as [[nt ne] nk]. unfold active in Hact.
  unfold accounting, view in *. destruct (matched f), (hasError f), (requestSentAt f); cbn in *;
    settle.
Qed.

Lemma accounting_error f r rq rs rq' rs' t :
  accounting (view f) t rq rs -> is_error f r -> active f = true ->
  (rs = Closed -> rs' = Closed) -> (rq = Closed -> rq' = Closed) ->
  accounting (view (val_of r)) ((t.1.1 + (tally (calls_of r)).1.1, t.1.2 + (tally (calls_of r)).1.2,
    t.2 + (tally (calls_of r)).2)%nat) rq' rs'.
Proof.
  intros Ha [-> ->] Hact Hs Hq. destruct t as [[nt ne] nk]. unfold active in Hact.
  unfold accounting, view in *. destruct (matched f), (hasError f), (requestSentAt f); cbn in *;
    settle.
Qed.

Lemma accounting_sent f r rs rq t :
  accounting (view f) t rq rs -> is_sent f r -> active f = true -> rq <> Closed ->
  accounting (view (val_of r)) ((t.1.1 + (tally (calls_of r)).1.1, t.1.2 + (tally (calls_of r)).1.2,
    t.2 + (tally (calls_of r)).2)%nat) Closed rs.
Proof.
  intros Ha (t0 & -> & ->) Hact Hq. destruct t as [[nt ne] nk]. unfold active in Hact.
  unfold accounting, view in *. destruct (matched f), (hasError f), (requestSentAt f); cbn in *;
    settle.
Qed.

Lemma accounting_response f r rq rs t :
  accounting (view f) t rq rs -> is_response f r -> rs <> Closed ->
  accounting (view (val_of r)) ((t.1.1 + (tally (calls_of r)).1.1, t.1.2 + (tally (calls_of r)).1.2,
    t.2 + (tally (calls_of r)).2)%nat) rq Closed.
Proof.
  intros Ha [-> ->] Hs. destruct t as [[nt ne] nk].
  unfold accounting, view in *. destruct (matched f), (hasError f), (requestSentAt f); cbn in *;
    settle.
Qed.

Lemma accounted_step s s' : accounted s -> stream_step s s' -> accounted s'.
Proof.
  intros Hacc Hst. destruct Hst as [s0 e rq rs Hp]. destruct Hacc as [Ha H0].
  apply callback_order_cases in Hp. split.
  2: { cbn. intros ->. assert (Hq : st_req s0 = NotStarted) by
         (destruct e as [? ? []|? [] ?|? ?|? []|? ? [] ? ?|? ?]; cbn in Hp; intuition congruence).
       destruct (H0 Hq) as [-> ->]. rewrite (handle_event_unmatched newFilter e); [done|done|].
       intros path h eos ->. cbn in Hp. destruct eos, Hp as (_ & _ & Hx & _); cbn in Hx; done. }
  cbn [st_filter st_calls st_req st_resp]. rewrite tally_app.
  pose proof (handle_event_effect (st_filter s0) e) as He. cbn zeta in He.
  destruct e as [path h eos|body eos now|body now|h eos|chunks body eos now now'|body now].
  - destruct Hp as (Hq & Hs & -> & ->). destruct (H0 Hq) as [Hf Hc].
    rewrite Hf in He |- *. rewrite Hc, Hs.
    destruct He as [->|[[-> (k & fac & ->)]|(k & fac & [-> ->])]]; [destruct eos|..]; cbn; settle.
  - destruct Hp as (Hq & -> & ->). rewrite Hq in Ha.
    destruct eos; [destruct (active (st_filter s0)) eqn:Hact; [destruct He as [He|He]|]|].
    + by eapply accounting_error.
    + by eapply accounting_sent.
    + eapply accounting_quiet; [done..|congruence].
    + by eapply accounting_quiet.
  - destruct Hp as (Hq & -> & ->). rewrite Hq in Ha.
    destruct (active (st_filter s0)) eqn:Hact; [destruct He as [He|He]|].
    + by eapply accounting_error.
    + by eapply accounting_sent.
    + eapply accounting_quiet; [done..|congruence].
  - destruct Hp as (Hs & -> & ->). rewrite Hs in Ha.
    destruct He as [He|[Hact He]]; [by eapply accounting_quiet|by eapply accounting_error].
  - destruct Hp as (Hs & -> & ->). rewrite Hs in Ha.
    destruct eos; [destruct (active (st_filter s0)) eqn:Hact; [destruct He as [He|He]|]|].
    + by eapply accounting_error.
    + by eapply accounting_response.
    + by eapply accounting_quiet.
    + destruct He as [He|[Hact He]]; [by eapply accounting_quiet|by eapply accounting_error].
  - destruct Hp as (Hs & -> & ->). rewrite Hs in Ha.
    destruct (active (st_filter s0)) eqn:Hact; [destruct He as [He|He]|].
    + by eapply accounting_error.
    + by eapply accounting_response.
    + by eapply accounting_quiet.
Qed.

(** C14: every request is accounted for exactly once.  In every stream of callbacks the
    host can make, with the response starting before or after the end of the
    request, the request counter of a matched request has been incremented exactly
    once by the time the request has ended and never more than once, the error
    counter exactly once if the filter met an error and not otherwise, and the token
    counters at most once, only after the end of the response. *)
Theorem requests_counted_once s :
  steps stream_step stream_init s ->
  let f := st_filter s in
  (incs requestTotal (st_calls s) <= 1)%nat /\
  (st_req s = Closed -> incs requestTotal (st_calls s) = if matched f then 1%nat else 0%nat) /\
  incs requestError (st_calls s) = (if hasError f then 1 else 0)%nat /\
  (incs inputTokensTotal (st_calls s) <= if decide (st_resp s = Closed) then 1 else 0)%nat.
Proof.
  intros Hs. assert (Ha : accounted s).
  { eapply steps_invariant; [intros s1 s2; apply accounted_step| |exact Hs]. split; [|done].
    cbn. settle. }
  destruct Ha as [(Ht & He & Hk & Hm & _ & Hc) _]. cbn zeta. unfold view in *.
  rewrite Ht, He. split_and!; [|intros Hq|done|done].
  - destruct (_ || _); lia.
  - destruct (matched (st_filter s)); [by rewrite Hc|]. destruct (_ || _); [|done]. by specialize (Hm eq_refl).
Qed.

Lemma effect_matched f r :
  is_quiet f r \/ is_error f r \/ is_sent f r \/ is_response f r -> matched (val_of r) = matched f.
Proof.
  unfold is_quiet, is_error, is_sent, is_response, view.
  intros [[H1 _]|[[H1 _]|[(t & H1 & _)|[H1 _]]]]; by injection H1.
Qed.

Lemma matched_kept f e : matched f = true -> matched (val_of (handle_event f e)) = true.
Proof.
  intros Hm. pose proof (handle_event_effect f e) as He. cbn zeta in He.
  destruct e as [path h eos|body [] now|body now|h eos|chunks body [] now now'|body now].
  1: { destruct He as [->|[[_ (k & fac & ->)]|(k & fac & He)]]; [done|done|].
       by rewrite (effect_matched (set_matched f k fac)) by tauto. }
  all: rewrite (effect_matched f); [done|]; try destruct (active f); tauto.
Qed.

(** A request that matches no rule is passed through untouched: in every stream of
    callbacks the filter made no call and kept no state, as long as it has not
    matched. *)
Theorem unmatched_untouched s :
  steps stream_step stream_init s -> matched (st_filter s) = false ->
  st_calls s = [] /\ st_filter s = newFilter.
Proof.
  intros Hs. eapply (steps_invariant stream_step
    (fun s => matched (st_filter s) = false -> st_calls s = [] /\ st_filter s = newFilter)); [| |exact Hs]; [|done].
  clear s Hs.
  intros s1 s2 IH Hst. destruct Hst as [s0 e rq rs Hp]. cbn [st_filter st_calls]. intros Hm.
  destruct (matched (st_filter s0)) eqn:Hm0.
  { by rewrite (matched_kept _ _ Hm0) in Hm. }
  destruct (IH eq_refl) as [Hc Hf]. rewrite Hc, Hf in *. clear IH Hp Hc Hf.
  destruct e as [path h eos| | | | |]; try (by rewrite handle_event_unmatched).
  pose proof (handle_event_effect newFilter (EReqHeaders path h eos)) as He. cbn zeta in He.
  destruct He as [->|[[_ (k & fac & He)]|(k & fac & He)]]; [done| |].
  - rewrite He in Hm. done.
  - by rewrite (effect_matched (set_matched newFilter k fac)) in Hm by tauto.
Qed.
End Runs.

(** ** Accepted configurations *)

Section Accepted.
Context {Regexp : Type} (Compile : string -> option Regexp).

Definition of_kind (k : string) (cs : list (llmConfig Regexp)) : nat :=
  length (filter (fun c => Kind c = k) cs).

Lemma of_kind_cons k c cs :
  of_kind k (c :: cs) = ((if decide (Kind c = k) then 1 else 0) + of_kind k cs)%nat.
Proof. unfold of_kind. rewrite filter_cons. by case_decide. Qed.

Lemma check_kinds_count cs a b a' b' :
  check_kinds cs a b = Ok (a', b') ->
  ((if a : bool then 1 else 0) + of_kind KindOpenAI cs = if a' : bool then 1 else 0)%nat /\
  ((if b : bool then 1 else 0) + of_kind KindAnthropic cs = if b' : bool then 1 else 0)%nat.
Proof.
  unfold of_kind. revert a b. induction cs as [|c cs IH]; intros a b; cbn [check_kinds].
  { intros [= <- <-]. cbn. destruct a, b; lia. }
  destruct (bool_decide_reflect (Kind c = KindOpenAI)) as [Ho|Ho].
  - rewrite (bool_decide_eq_false_2 (Kind c = KindAnthropic)) by (rewrite Ho; done).
    destruct a; [done|]. cbn [andb orb]. rewrite orb_false_r. intros [H1 H2]%IH.
    rewrite !filter_cons, decide_True, decide_False by (rewrite ?Ho; done). cbn [length] in *. lia.
  - cbn [andb]. rewrite orb_false_r. destruct (bool_decide_reflect (Kind c = KindAnthropic)) as [Ha|Ha].
    + destruct b; [done|]. cbn [andb orb]. intros [H1 H2]%IH.
      rewrite !filter_cons, decide_False, decide_True by done. cbn [length] in *. lia.
    + cbn [andb]. rewrite orb_false_r. intros [H1 H2]%IH. rewrite !filter_cons, !decide_False by done. done.
Qed.

(** A rule that was validated: a supported kind with its factory and its matcher. *)
Definition wf_llm_rule (c : llmConfig Regexp) : Prop :=
  Factory c = factory_of (Kind c) /\ is_Some (Factory c) /\
  exists m, ValidateAndParse Compile m = Ok (Matcher c).

Lemma validate_all_spec cs cs' :
  validate_all Compile cs = Ok cs' -> Kind <$> cs' = Kind <$> cs /\ Forall wf_llm_rule cs'.
Proof.
  revert cs'. induction cs as [|c cs IH]; intros cs'; cbn [validate_all]; [by intros [= <-]|].
  unfold llmConfig_ValidateAndParse. destruct (decide _) as [Hk|]; [|done].
  destruct (ValidateAndParse Compile (Matcher c)) as [m|] eqn:Hm; [|done]. cbn [rbind].
  destruct (validate_all Compile cs) as [rest|]; [|done]. cbn [rbind]. intros [= <-].
  destruct (IH rest eq_refl) as [Hks Hf]. split; [by rewrite !fmap_cons, Hks|].
  constructor; [|done]. split; [done|]. split; [|by exists (Matcher c)]. cbn. unfold factory_of.
  destruct Hk as [->|[->| ->]]; by eexists.
Qed.

Lemma of_kind_fmap k cs cs' : Kind <$> cs' = Kind <$> cs -> of_kind k cs' = of_kind k cs.
Proof.
  unfold of_kind. revert cs. induction cs' as [|c' cs' IH]; intros [|c cs]; try done.
  rewrite !fmap_cons. intros [= Hk Hks]. rewrite !filter_cons, Hk.
  case_decide; cbn [length]; by rewrite (IH cs).
Qed.

(** An accepted configuration has exactly one OpenAI rule and exactly one Anthropic
    rule, the default ones being added when they are missing; every rule has a
    supported kind, the factory of its kind and a validated matcher; and the metadata
    namespace is not empty. *)
Theorem llm_parseConfig_wf empty decoded c :
  llm_parseConfig Compile empty decoded = Ok c ->
  of_kind KindOpenAI (LLMConfigs c) = 1%nat /\ of_kind KindAnthropic (LLMConfigs c) = 1%nat /\
  Forall wf_llm_rule (LLMConfigs c) /\ MetadataNamespace c <> "".
Proof.
  assert (Hv : forall d, llmProxyConfig_ValidateAndParse Compile d = Ok c ->
    of_kind KindOpenAI (LLMConfigs c) = 1%nat /\ of_kind KindAnthropic (LLMConfigs c) = 1%nat /\
    Forall wf_llm_rule (LLMConfigs c) /\ MetadataNamespace c <> "").
  { intros d. unfold llmProxyConfig_ValidateAndParse.
    destruct (check_kinds (LLMConfigs d) false false) as [[a b]|] eqn:Hk; [|done]. cbn [rbind fst snd].
    apply check_kinds_count in Hk as [Ha Hb].
    destruct (validate_all Compile _) as [cs'|] eqn:Hva; [|done]. cbn [rbind]. intros [= <-].
    apply validate_all_spec in Hva as [Hks Hf]. cbn [LLMConfigs MetadataNamespace].
    rewrite !(of_kind_fmap _ _ _ Hks).
    split_and!; [| |done|by case_decide]; destruct a, b; rewrite ?of_kind_cons;
      cbn [Kind default_rule]; repeat case_decide; try done; lia. }
  unfold llm_parseConfig. destruct empty; [apply Hv|]. destruct decoded; [apply Hv|done].
Qed.
End Accepted.

(** ** Witnesses *)

Definition ex_llm_config : llmProxyConfig string :=
  match llm_parseConfig Some true None with Ok c => c | Err _ => mkLlmProxyConfig [] "" "" false end.

Lemma llm_parseConfig_wf_witness : of_kind KindOpenAI (LLMConfigs ex_llm_config) = 1%nat.
Proof. apply (llm_parseConfig_wf Some true None). vm_compute. reflexivity. Defined.

Definition ex_llm_codec : Codec :=
  mkCodec (fun s => if decide (s = "bad") then None else Some (mkLLMRequest "gpt" true))
    (fun _ => Some (mkOpenaiUsage 1 2 3)) (fun _ => None) (fun _ => None) (fun _ => None).

Definition ex_match (r p : string) : bool := bool_decide (r = p).

Definition ex_events : list (event Headers) :=
  [EReqHeaders "/v1/chat/completions" [("content-type", "application/json")] false;
   EReqBody "{}" true 5;
   ERespHeaders [(":status", "200"); ("content-type", "text/event-stream")] false;
   ERespBody ["data: {}" +:+ nl] "" true 9 9].

(** The stream after some events, when the protocol allows them. *)
Fixpoint run_events (s : stream) (es : list (event Headers)) : stream :=
  match es with
  | [] => s
  | e :: es' =>
      match protocol (st_req s, st_resp s) e with
      | Some (rq, rs) =>
          let r := handle_event ex_match ex_llm_codec ex_llm_config (st_filter s) e in
          run_events (mkStream (val_of r) (st_calls s ++ calls_of r) rq rs) es'
      | None => s
      end
  end.

Lemma run_events_steps s0 s es :
  steps (stream_step ex_match ex_llm_codec ex_llm_config) s0 s ->
  steps (stream_step ex_match ex_llm_codec ex_llm_config) s0 (run_events s es).
Proof.
  revert s. induction es as [|e es IH]; intros s Hs; cbn [run_events]; [done|].
  destruct (protocol _ e) as [[rq rs]|] eqn:Hp; [|done]. apply IH.
  eapply steps_snoc; [exact Hs|]. by constructor.
Qed.

Lemma requests_counted_once_witness :
  incs requestTotal (st_calls (run_events stream_init ex_events)) = 1%nat /\
  incs inputTokensTotal (st_calls (run_events stream_init ex_events)) = 1%nat.
Proof.
  split; [|vm_compute; reflexivity].
  destruct (requests_counted_once ex_match ex_llm_codec ex_llm_config (run_events stream_init ex_events)
    (run_events_steps _ _ ex_events (steps_nil _ stream_init))) as (_ & Hc & _).
  rewrite Hc; vm_compute; reflexivity.
Defined.

Lemma unmatched_untouched_witness :
  st_calls (run_events stream_init [EReqHeaders "/healthz" [] false; EReqBody "x" true 1]) = [].
Proof.
  apply (unmatched_untouched ex_match ex_llm_codec ex_llm_config
    (run_events stream_init [EReqHeaders "/healthz" [] false; EReqBody "x" true 1])).
  - apply run_events_steps. apply steps_nil.
  - vm_compute. reflexivity.
Defined.
