(* ===== verification/DecoderFilter.v ===== *)
(** * The filter of the stream decoders

    extensions/composer/anthropic-decoder/plugin.go and
    extensions/composer/chat-completions-decoder/plugin.go have the same callbacks over
    two formats.  The callbacks are modelled once, against the record [Decoder] of what
    a format provides (decoding, the event-stream accumulator and the metadata), with
    the laws [DecoderLaws] the two formats discharge.  A panic is [None]. *)

From S2P Require Import Prelude GoStr GoNum Host ExtPkg.
From Stdlib Require Import Lia Ascii.

Local Open Scope Z_scope.
Local Open Scope go_scope.

(** ** What a format provides *)

Record Decoder : Type := mkDecoder {
  Req : Type;
  Resp : Type;
  Acc : Type;
  decode_request : string -> option Req;
  decode_response : string -> option Resp;
  new_acc : Acc;
  feed : Acc -> string -> option Acc;
  finish : Acc -> option (Acc * Resp);
  setRequestMetadata : string -> Req -> Host unit;
  setResponseMetadata : string -> Resp -> option (Host unit);
}.

(** ** Configuration *)

Record decoderConfig : Type := mkDecoderConfig { MetadataNamespace : string }.

(** [unmarshal] is [json.Unmarshal] into an empty configuration; the default namespace
    is the extension's. *)
Definition parseConfig (unmarshal : string -> option decoderConfig) (defaultNamespace config : string)
    : option decoderConfig :=
  cfg ← (if decide (config = "") then Some (mkDecoderConfig "") else unmarshal config);
  Some (if decide (MetadataNamespace cfg = "") then mkDecoderConfig defaultNamespace else cfg).

Section Filter.
Context (D : Decoder).

Record decoderFilter : Type := mkDecoderFilter {
  config : decoderConfig;
  requestProcessed : bool;
  responseProcessed : bool;
  sseAcc : option (Acc D);
}.

(** [decoderFilterFactory.Create]: the per-route configuration wins. *)
Definition factory_Create {Any} (assert : Any -> option decoderConfig) (cfg : decoderConfig)
    (most_specific : option Any) : decoderFilter :=
  mkDecoderFilter (default cfg (GetMostSpecificConfig assert most_specific)) false false None.

Definition set_request_processed (f : decoderFilter) : decoderFilter :=
  mkDecoderFilter (config f) true (responseProcessed f) (sseAcc f).
Definition set_response_processed (f : decoderFilter) : decoderFilter :=
  mkDecoderFilter (config f) (requestProcessed f) true (sseAcc f).
Definition set_acc (f : decoderFilter) (a : Acc D) : decoderFilter :=
  mkDecoderFilter (config f) (requestProcessed f) (responseProcessed f) (Some a).

(** ** Decoding *)

Definition decodeRequestBody (f : decoderFilter) (bodyBytes : string) : Host decoderFilter :=
  let f := set_request_processed f in
  if decide (bodyBytes = "") then hret f
  else match decode_request D bodyBytes with
       | None => hret f
       | Some decoded =>
           run setRequestMetadata D (MetadataNamespace (config f)) decoded;
           hret f
       end.

Definition decodeResponseBody (f : decoderFilter) (bodyBytes : string) : option (Host decoderFilter) :=
  let f := set_response_processed f in
  if decide (bodyBytes = "") then Some (hret f)
  else match decode_response D bodyBytes with
       | None => Some (hret f)
       | Some decoded =>
           m ← setResponseMetadata D (MetadataNamespace (config f)) decoded;
           Some (run m; hret f)
       end.

(** [acc] is [d.sseAcc]. *)
Definition decodeStreamingResponse (f : decoderFilter) (acc : Acc D) : option (Host decoderFilter) :=
  let f := set_response_processed f in
  '(acc', decoded) ← finish D acc;
  m ← setResponseMetadata D (MetadataNamespace (config f)) decoded;
  Some (run m; hret (set_acc f acc')).

(** ** Callbacks *)

Definition with_status {A} (s : A) (m : option (Host decoderFilter)) : option (Host (decoderFilter * A)) :=
  r ← m; Some (do f <- r; hret (f, s)).

Definition OnRequestHeaders (f : decoderFilter) (endOfStream : bool) : decoderFilter * HeadersStatus :=
  if negb endOfStream then (f, HeadersStatusStop) else (f, HeadersStatusContinue).

(** [body] is the whole buffered request body. *)
Definition OnRequestBody (f : decoderFilter) (body : string) (endOfStream : bool)
    : Host (decoderFilter * BodyStatus) :=
  if negb endOfStream then hret (f, BodyStatusStopAndBuffer)
  else do f <- decodeRequestBody f body; hret (f, BodyStatusContinue).

Definition OnRequestTrailers (f : decoderFilter) (body : string) : Host (decoderFilter * TrailersStatus) :=
  do f <- if negb (requestProcessed f) then decodeRequestBody f body else hret f;
  hret (f, TrailersStatusContinue).

Definition OnResponseHeaders {H} `{!HeaderMap H} (f : decoderFilter) (headers : H) (endOfStream : bool)
    : decoderFilter * HeadersStatus :=
  if endOfStream then (f, HeadersStatusContinue)
  else if HasPrefix (GetOne headers "content-type") "text/event-stream" then
    (set_acc f (new_acc D), HeadersStatusContinue)
  else (f, HeadersStatusStop).

Fixpoint feed_chunks (acc : Acc D) (chunks : list string) : option (Acc D) :=
  match chunks with
  | [] => Some acc
  | c :: cs => acc' ← feed D acc c; feed_chunks acc' cs
  end.

(** [chunks] are the chunks of this callback, none for a nil buffer; [body] is the whole
    buffered response body. *)
Definition OnResponseBody (f : decoderFilter) (chunks : list string) (body : string) (endOfStream : bool)
    : option (Host (decoderFilter * BodyStatus)) :=
  match sseAcc f with
  | Some acc =>
      acc' ← feed_chunks acc chunks;
      let f := set_acc f acc' in
      with_status BodyStatusContinue
        (if endOfStream then decodeStreamingResponse f acc' else Some (hret f))
  | None =>
      if negb endOfStream then Some (hret (f, BodyStatusStopAndBuffer))
      else with_status BodyStatusContinue (decodeResponseBody f body)
  end.

Definition OnResponseTrailers (f : decoderFilter) (body : string)
    : option (Host (decoderFilter * TrailersStatus)) :=
  if responseProcessed f then Some (hret (f, TrailersStatusContinue))
  else with_status TrailersStatusContinue
         (match sseAcc f with
          | Some acc => decodeStreamingResponse f acc
          | None => decodeResponseBody f body
          end).
End Filter.

Arguments mkDecoderFilter {_}. Arguments config {_}. Arguments requestProcessed {_}.
Arguments responseProcessed {_}. Arguments sseAcc {_}. Arguments set_acc {_}.
Arguments set_request_processed {_}. Arguments set_response_processed {_}.
Arguments with_status {_ _}.

(** ** Metadata keys *)

(** The key a call writes. *)
Definition written_key (c : HandleCall) : option string :=
  match c with SetMetadata _ k _ => Some k | _ => None end.

Definition written_keys (calls : list HandleCall) : list string := omap written_key calls.

Lemma written_keys_app l1 l2 : written_keys (l1 ++ l2) = written_keys l1 ++ written_keys l2.
Proof. apply omap_app. Qed.

Definition writes (k : string) (calls : list HandleCall) : nat :=
  length (filter (fun k' => k' = k) (written_keys calls)).

Lemma writes_app k l1 l2 : writes k (l1 ++ l2) = (writes k l1 + writes k l2)%nat.
Proof. unfold writes. by rewrite written_keys_app, filter_app, length_app. Qed.

(** ** The metadata of a conversation *)

(** A range loop over a slice, with its index. *)
Fixpoint hfor {A} (i : nat) (l : list A) (body : nat -> A -> Host unit) : Host unit :=
  match l with
  | [] => hret tt
  | x :: l' => run body i x; hfor (S i) l' body
  end.

Record tool_call : Type := mkToolCall {
  tc_ID : string;
  tc_Name : string;
  tc_Arguments : string;
}.

(** [fmt.Sprintf("llm.<side>.%d.message.<field>", idx)]. *)
Definition message_key (side : string) (idx : nat) (field : string) : string :=
  "llm." +:+ side +:+ "." +:+ FormatInt (Z.of_nat idx) +:+ ".message." +:+ field.

(** [fmt.Sprintf("tool_calls.%d.tool_call.<field>", j)]. *)
Definition tool_call_field (j : nat) (field : string) : string :=
  "tool_calls." +:+ FormatInt (Z.of_nat j) +:+ ".tool_call." +:+ field.

(** [fmt.Sprintf("llm.tools.%d.tool.json_schema", i)]. *)
Definition tool_key (i : nat) : string := "llm.tools." +:+ FormatInt (Z.of_nat i) +:+ ".tool.json_schema".

Definition set_tool_calls (ns side : string) (idx : nat) (tcs : list tool_call) : Host unit :=
  match tcs with
  | [] => hret tt
  | _ =>
      run hcall (SetMetadata ns (message_key side idx "tool_calls.count") (MetaInt (zlen tcs)));
      hfor 0 tcs (fun j tc =>
        run hcall (SetMetadata ns (message_key side idx (tool_call_field j "id")) (MetaString (tc_ID tc)));
        run hcall (SetMetadata ns (message_key side idx (tool_call_field j "function.name"))
                     (MetaString (tc_Name tc)));
        hcall (SetMetadata ns (message_key side idx (tool_call_field j "function.arguments"))
                 (MetaString (tc_Arguments tc))))
  end.

(** The body of the loop over the messages, or over the choices of a response. *)
Definition set_message (ns side : string) (idx : nat) (role content : string) (tcs : list tool_call)
    : Host unit :=
  run hcall (SetMetadata ns (message_key side idx "role") (MetaString role));
  run hwhen (negb (bool_decide (content = "")))
    (hcall (SetMetadata ns (message_key side idx "content") (MetaString content)));
  set_tool_calls ns side idx tcs.

(** The loop over the tools: [marshal] fails with [None], and the tool is skipped. *)
Definition set_tools {T} (marshal : T -> option string) (ns : string) (tools : list T) : Host unit :=
  run hcall (SetMetadata ns "llm.tools.count" (MetaInt (zlen tools)));
  hfor 0 tools (fun i tool =>
    match marshal tool with
    | None => hret tt
    | Some toolJSON => hcall (SetMetadata ns (tool_key i) (MetaString toolJSON))
    end).

(** *** The same as lists of entries *)

Record message : Type := mkMessage {
  m_role : string;
  m_content : string;
  m_calls : list tool_call;
}.

Definition tool_call_entries (j : nat) (tc : tool_call) : list (string * MetaValue) :=
  [(tool_call_field j "id", MetaString (tc_ID tc));
   (tool_call_field j "function.name", MetaString (tc_Name tc));
   (tool_call_field j "function.arguments", MetaString (tc_Arguments tc))].

Definition message_fields (m : message) : list (string * MetaValue) :=
  [("role", MetaString (m_role m))] ++
  (if decide (m_content m = "") then [] else [("content", MetaString (m_content m))]) ++
  (if decide (length (m_calls m) = 0%nat) then []
   else ("tool_calls.count", MetaInt (zlen (m_calls m))) :: concat (imap tool_call_entries (m_calls m))).

Definition message_entries (side : string) (idx : nat) (m : message) : list (string * MetaValue) :=
  prod_map (message_key side idx) id <$> message_fields m.

Definition tool_entries (i : nat) (json : option string) : list (string * MetaValue) :=
  match json with None => [] | Some s => [(tool_key i, MetaString s)] end.

Definition messages_entries (side : string) (ms : list message) : list (string * MetaValue) :=
  ("llm." +:+ side +:+ ".count", MetaInt (zlen ms)) :: concat (imap (message_entries side) ms).

Definition tools_entries (tools : list (option string)) : list (string * MetaValue) :=
  ("llm.tools.count", MetaInt (zlen tools)) :: concat (imap tool_entries tools).

Definition set_entry (ns : string) (kv : string * MetaValue) : HandleCall := SetMetadata ns kv.1 kv.2.

Lemma calls_hfor {A} (body : nat -> A -> Host unit) (f : nat -> A -> list HandleCall) l i :
  (forall j x, calls_of (body j x) = f j x) ->
  calls_of (hfor i l body) = concat (imap (fun j => f (i + j)%nat) l).
Proof.
  intros Hf. revert i. induction l as [|x l IH]; intros i; [done|].
  cbn [hfor]. rewrite calls_hbind, Hf, IH. cbn [imap concat]. rewrite Nat.add_0_r. f_equal. f_equal.
  apply imap_ext. intros j y _. cbn. by rewrite Nat.add_succ_r.
Qed.

Lemma fmap_concat_imap {A B C} (g : B -> C) (f : nat -> A -> list B) (l : list A) :
  g <$> concat (imap f l) = concat (imap (fun j x => g <$> f j x) l).
Proof.
  revert f. induction l as [|x l IH]; intros f; [done|].
  cbn [imap concat]. by rewrite fmap_app, IH.
Qed.

Lemma calls_set_message ns side idx m :
  calls_of (set_message ns side idx (m_role m) (m_content m) (m_calls m)) =
  set_entry ns <$> message_entries side idx m.
Proof.
  unfold set_message, message_entries, message_fields. rewrite !calls_hbind, !fmap_app.
  f_equal. f_equal.
  - unfold hwhen. destruct (bool_decide_reflect (m_content m = "")); by case_decide.
  - unfold set_tool_calls. destruct (m_calls m) as [|tc tcs] eqn:E; [done|]. rewrite <-E.
    rewrite decide_False by (by rewrite E). rewrite calls_hbind.
    erewrite (calls_hfor _ (fun j tc => set_entry ns <$>
      (prod_map (message_key side idx) id <$> tool_call_entries j tc))) by done.
    cbn [fmap list_fmap app calls_of hcall snd]. f_equal. by rewrite !fmap_concat_imap.
Qed.

Lemma calls_set_tools {T} (marshal : T -> option string) ns tools :
  calls_of (set_tools marshal ns tools) = set_entry ns <$> tools_entries (marshal <$> tools).
Proof.
  unfold set_tools, tools_entries. rewrite calls_hbind, length_fmap.
  erewrite (calls_hfor _ (fun j t => set_entry ns <$> tool_entries j (marshal t)))
    by (intros j t; cbn; by destruct (marshal t)).
  cbn [fmap list_fmap]. cbn [calls_of hcall snd app]. f_equal.
  rewrite fmap_concat_imap, imap_fmap. done.
Qed.

(** *** Distinct keys *)

Definition dot : ascii := "."%char.

Lemma FormatInt_no_dot z : ContainsByte (FormatInt z) dot = false.
Proof. by apply FormatInt_no_byte. Qed.

Lemma FormatInt_ne_count z : FormatInt z <> "count".
Proof.
  intros H. pose proof (FormatInt_no_byte z "c"%char eq_refl) as Hc. rewrite H in Hc. by discriminate Hc.
Qed.

#[export] Instance FormatInt_inj : Inj (=) (=) FormatInt.
Proof. unfold FormatInt. apply _. Qed.

(** The parts of a key between its dots. *)
Definition key_path (k : string) : list string := Split k dot.

#[export] Instance key_path_inj : Inj (=) (=) key_path.
Proof. intros a b H. rewrite <-(Join_Split a dot), <-(Join_Split b dot). unfold key_path in H. by rewrite H. Qed.

Lemma key_path_app a b : key_path (a +:+ String dot b) = key_path a ++ key_path b.
Proof. apply Split_app. Qed.

Lemma key_path_one a : ContainsByte a dot = false -> key_path a = [a].
Proof. apply Split_absent. Qed.

Lemma message_key_path side idx field :
  ContainsByte side dot = false ->
  key_path (message_key side idx field) =
  "llm" :: side :: FormatInt (Z.of_nat idx) :: "message" :: key_path field.
Proof.
  intros Hs. unfold message_key.
  change ("llm." +:+ side +:+ "." +:+ FormatInt (Z.of_nat idx) +:+ ".message." +:+ field)
    with ("llm" +:+ String dot (side +:+ String dot (FormatInt (Z.of_nat idx) +:+
            String dot ("message" +:+ String dot field)))).
  rewrite !key_path_app, (key_path_one side), (key_path_one (FormatInt _)) by (done || apply FormatInt_no_dot).
  done.
Qed.

Lemma tool_call_field_path j field :
  key_path (tool_call_field j field) =
  "tool_calls" :: FormatInt (Z.of_nat j) :: "tool_call" :: key_path field.
Proof.
  unfold tool_call_field.
  change ("tool_calls." +:+ FormatInt (Z.of_nat j) +:+ ".tool_call." +:+ field)
    with ("tool_calls" +:+ String dot (FormatInt (Z.of_nat j) +:+
            String dot ("tool_call" +:+ String dot field))).
  rewrite !key_path_app, (key_path_one (FormatInt _)) by apply FormatInt_no_dot. done.
Qed.

Lemma tool_key_path i : key_path (tool_key i) = ["llm"; "tools"; FormatInt (Z.of_nat i); "tool"; "json_schema"].
Proof.
  unfold tool_key.
  change ("llm.tools." +:+ FormatInt (Z.of_nat i) +:+ ".tool.json_schema")
    with ("llm" +:+ String dot ("tools" +:+ String dot (FormatInt (Z.of_nat i) +:+
            String dot ("tool" +:+ String dot "json_schema")))).
  rewrite !key_path_app, (key_path_one (FormatInt _)) by apply FormatInt_no_dot. done.
Qed.

Lemma count_key_path side :
  ContainsByte side dot = false -> key_path ("llm." +:+ side +:+ ".count") = ["llm"; side; "count"].
Proof.
  intros Hs. change ("llm." +:+ side +:+ ".count") with ("llm" +:+ String dot (side +:+ String dot "count")).
  rewrite !key_path_app, (key_path_one side) by done. done.
Qed.

Lemma elem_of_concat_imap {A B} (g : nat -> A -> list B) (l : list A) b :
  b ∈ concat (imap g l) <-> exists i x, l !! i = Some x /\ b ∈ g i x.
Proof.
  rewrite list_elem_of_In, in_concat. setoid_rewrite <-list_elem_of_In.
  setoid_rewrite elem_of_lookup_imap. naive_solver.
Qed.

Lemma NoDup_concat_imap {A B} (g : nat -> A -> list B) (l : list A) :
  (forall i x, l !! i = Some x -> NoDup (g i x)) ->
  (forall i j x y b, l !! i = Some x -> l !! j = Some y -> b ∈ g i x -> b ∈ g j y -> i = j) ->
  NoDup (concat (imap g l)).
Proof.
  revert g. induction l as [|x l IH]; intros g Hn Hd; cbn [imap concat]; [apply NoDup_nil_2|].
  apply NoDup_app. split; [by apply (Hn 0%nat)|]. split.
  - intros b Hb Hc. apply elem_of_concat_imap in Hc as (i & y & Hi & Hb').
    by specialize (Hd 0%nat (S i) x y b eq_refl Hi Hb Hb').
  - apply (IH (g ∘ S)); [intros; by apply (Hn (S i))|]. intros i j y z b Hi Hj Hb Hc.
    specialize (Hd (S i) (S j) y z b Hi Hj Hb Hc). congruence.
Qed.

Lemma message_key_inj side i j f g :
  ContainsByte side dot = false -> message_key side i f = message_key side j g -> i = j /\ f = g.
Proof.
  intros Hs H%(f_equal key_path). rewrite !message_key_path in H by done.
  injection H as H1 H2. split; [|by apply (inj key_path)].
  apply (inj FormatInt) in H1. by apply Nat2Z.inj.
Qed.

Lemma tool_call_fields_NoDup tcs :
  NoDup (concat (imap (fun j (_ : tool_call) =>
    tool_call_field j <$> ["id"; "function.name"; "function.arguments"]) tcs)).
Proof.
  assert (Hinj : forall i j f g, tool_call_field i f = tool_call_field j g -> i = j /\ f = g).
  { intros i j f g H%(f_equal key_path). rewrite !tool_call_field_path in H.
    injection H as H1 H2. split; [|by apply (inj key_path)]. apply (inj FormatInt) in H1. by apply Nat2Z.inj. }
  apply NoDup_concat_imap.
  - intros j tc _. apply NoDup_fmap_2; [|decide_now]. intros f g. apply Hinj.
  - intros i j tc tc' b _ _ (f & -> & _)%list_elem_of_fmap (g & Hb & _)%list_elem_of_fmap. by destruct (Hinj _ _ _ _ Hb).
Qed.

Lemma tool_call_fields_shape (tcs : list tool_call) k :
  k ∈ concat (imap (fun j (_ : tool_call) =>
    tool_call_field j <$> ["id"; "function.name"; "function.arguments"]) tcs) ->
  exists j f, k = tool_call_field j f.
Proof.
  intros (i & y & Hi & Hk)%elem_of_concat_imap. apply list_elem_of_fmap in Hk as (f & -> & _). eauto.
Qed.

Lemma tool_call_field_ne j f : tool_call_field j f ∉ ["role"; "content"; "tool_calls.count"].
Proof.
  intros Hin. apply list_elem_of_In in Hin. cbn [In] in Hin.
  destruct Hin as [H|[H|[H|[]]]]; apply (f_equal key_path) in H; rewrite tool_call_field_path in H;
    by cbv in H.
Qed.

Lemma message_fields_NoDup m : NoDup (message_fields m).*1.
Proof.
  unfold message_fields. rewrite !fmap_app.
  pose proof (tool_call_fields_shape (m_calls m)) as Hf. pose proof tool_call_field_ne as Hne.
  assert (Htail : NoDup (if decide (length (m_calls m) = 0%nat) then []
    else ("tool_calls.count", MetaInt (zlen (m_calls m))) :: concat (imap tool_call_entries (m_calls m))).*1).
  { case_decide; [apply NoDup_nil_2|]. cbn [fmap list_fmap fst]. rewrite fmap_concat_imap. cbn.
    apply NoDup_cons. split; [|apply tool_call_fields_NoDup].
    intros (j & f & E)%Hf. apply (Hne j f). rewrite <-E. set_solver. }
  assert (Htl : forall k, k ∈ (if decide (length (m_calls m) = 0%nat) then []
    else ("tool_calls.count", MetaInt (zlen (m_calls m))) :: concat (imap tool_call_entries (m_calls m))).*1 ->
    k ∉ ["role"; "content"]).
  { intros k. case_decide; [by intros ?%not_elem_of_nil|]. cbn [fmap list_fmap fst]. rewrite fmap_concat_imap.
    intros [->|(j & f & ->)%Hf]%elem_of_cons; [set_solver|]. specialize (Hne j f). set_solver. }
  revert Htail Htl. generalize (if decide (length (m_calls m) = 0%nat) then []
    else ("tool_calls.count", MetaInt (zlen (m_calls m))) :: concat (imap tool_call_entries (m_calls m))).
  intros tl Htail Htl. destruct (decide (m_content m = "")); cbn.
  - apply NoDup_cons. split; [|done]. intros Hk%Htl. set_solver.
  - apply NoDup_cons. split; [intros [H|Hk%Htl]%elem_of_cons; [done|set_solver]|].
    apply NoDup_cons. split; [|done]. intros Hk%Htl. set_solver.
Qed.

(** The second part of every key of a block of entries. *)
Definition under (part : string) (kvs : list (string * MetaValue)) : Prop :=
  Forall (fun k => key_path k !! 1%nat = Some part) kvs.*1.

Lemma message_entries_keys side idx m k :
  k ∈ (message_entries side idx m).*1 -> exists f, k = message_key side idx f /\ f ∈ (message_fields m).*1.
Proof.
  unfold message_entries. rewrite <-list_fmap_compose. intros ([f v] & -> & Hin)%list_elem_of_fmap.
  exists f. split; [done|]. by apply (list_elem_of_fmap_2 fst) in Hin.
Qed.

Lemma messages_entries_wf side ms :
  ContainsByte side dot = false ->
  NoDup (messages_entries side ms).*1 /\ under side (messages_entries side ms).
Proof.
  intros Hs. unfold messages_entries, under. cbn [fmap list_fmap fst]. rewrite fmap_concat_imap. split.
  - apply NoDup_cons. split.
    + intros (i & m & _ & (f & Hk & _)%message_entries_keys)%elem_of_concat_imap.
      apply (f_equal key_path) in Hk. rewrite count_key_path, message_key_path in Hk by done. done.
    + apply NoDup_concat_imap.
      * intros i m _. unfold message_entries. rewrite <-list_fmap_compose.
        rewrite (list_fmap_ext _ (message_key side i ∘ fst)) by done. rewrite list_fmap_compose.
        apply NoDup_fmap_2; [|apply message_fields_NoDup]. intros f g H. by eapply message_key_inj.
      * intros i j m m' k _ _ (f & -> & _)%message_entries_keys (g & Hk & _)%message_entries_keys.
        by destruct (message_key_inj _ _ _ _ _ Hs Hk).
  - apply Forall_cons. split; [by rewrite count_key_path|]. apply Forall_forall.
    intros k (i & m & _ & (f & -> & _)%message_entries_keys)%elem_of_concat_imap.
    by rewrite message_key_path.
Qed.

Lemma tools_entries_wf tools : NoDup (tools_entries tools).*1 /\ under "tools" (tools_entries tools).
Proof.
  assert (Hk : forall k i o, k ∈ (tool_entries i o).*1 -> k = tool_key i).
  { intros k i [s|]; cbn; [|by intros ?%not_elem_of_nil]. by intros ->%list_elem_of_singleton. }
  unfold tools_entries, under. cbn [fmap list_fmap fst]. rewrite fmap_concat_imap. split.
  - apply NoDup_cons. split.
    + intros (i & o & _ & E)%elem_of_concat_imap. apply Hk, (f_equal key_path) in E.
      rewrite tool_key_path in E. done.
    + apply NoDup_concat_imap.
      * intros i [s|] _; cbn; [apply NoDup_singleton|apply NoDup_nil_2].
      * intros i j o o' k _ _ E1%Hk E2%Hk. rewrite E1 in E2. apply (f_equal key_path) in E2.
        rewrite !tool_key_path in E2. injection E2 as E2. apply (inj FormatInt) in E2. lia.
  - apply Forall_cons. split; [done|]. apply Forall_forall.
    intros k (i & o & _ & ->%Hk)%elem_of_concat_imap. by rewrite tool_key_path.
Qed.

(** Blocks under different parts do not clash. *)
Lemma NoDup_blocks part1 part2 kvs1 kvs2 :
  part1 <> part2 -> under part1 kvs1 -> under part2 kvs2 -> NoDup kvs1.*1 -> NoDup kvs2.*1 ->
  NoDup (kvs1 ++ kvs2).*1.
Proof.
  intros Hne H1 H2 Hn1 Hn2. rewrite fmap_app. apply NoDup_app. split_and!; try done.
  intros k Hk1 Hk2. unfold under in *. rewrite Forall_forall in H1, H2.
  specialize (H1 k Hk1). specialize (H2 k Hk2). congruence.
Qed.

(** ** The metadata the host holds *)

(** The metadata by namespace and key after some calls; a later write wins. *)
Definition metadata (calls : list HandleCall) : gmap (string * string) MetaValue :=
  foldl (fun m c => match c with SetMetadata ns k v => <[(ns, k) := v]> m | _ => m end) ∅ calls.

Lemma metadata_entries ns kvs :
  NoDup kvs.*1 ->
  forall k, metadata (set_entry ns <$> kvs) !! (ns, k) = (list_to_map kvs : gmap string MetaValue) !! k.
Proof.
  intros Hnd k. unfold metadata. rewrite foldl_fmap.
  cut (forall m : gmap (string * string) MetaValue,
    foldl (fun m kv => <[(ns, kv.1) := kv.2]> m) m kvs !! (ns, k) =
    match (list_to_map kvs : gmap string MetaValue) !! k with Some v => Some v | None => m !! (ns, k) end).
  { intros Hc. etrans; [apply Hc|]. rewrite lookup_empty. by case_match. }
  induction kvs as [|[k' v] kvs IH]; intros m; cbn [foldl fst snd list_to_map foldr uncurry].
  { by rewrite lookup_empty. }
  cbn [fmap list_fmap fst] in Hnd. apply NoDup_cons in Hnd as [Hk Hnd]. rewrite IH by done.
  rewrite !lookup_insert. destruct (decide (k' = k)) as [->|Hne].
  - by rewrite (not_elem_of_list_to_map_1 kvs k), decide_True.
  - rewrite decide_False by congruence. done.
Qed.

(** What a block of distinct entries leaves in the metadata. *)
Lemma metadata_lookup ns kvs k v :
  NoDup kvs.*1 -> (k, v) ∈ kvs -> metadata (set_entry ns <$> kvs) !! (ns, k) = Some v.
Proof. intros Hnd Hin. rewrite metadata_entries by done. by apply elem_of_list_to_map_1. Qed.

Lemma metadata_absent ns kvs k :
  NoDup kvs.*1 -> k ∉ kvs.*1 -> metadata (set_entry ns <$> kvs) !! (ns, k) = None.
Proof. intros Hnd Hin. rewrite metadata_entries by done. by apply not_elem_of_list_to_map_1. Qed.

(** ** Messages in the metadata *)

(** The metadata describes the messages: their count, and under the number of each its
    role, its content when there is one, and its tool calls. *)
Definition describes (m : gmap (string * string) MetaValue) (ns side : string) (ms : list message) : Prop :=
  m !! (ns, "llm." +:+ side +:+ ".count") = Some (MetaInt (zlen ms)) /\
  forall i msg, ms !! i = Some msg ->
    let at_ field := m !! (ns, message_key side i field) in
    at_ "role" = Some (MetaString (m_role msg)) /\
    at_ "content" = (if decide (m_content msg = "") then None else Some (MetaString (m_content msg))) /\
    forall j tc, m_calls msg !! j = Some tc ->
      at_ (tool_call_field j "id") = Some (MetaString (tc_ID tc)) /\
      at_ (tool_call_field j "function.name") = Some (MetaString (tc_Name tc)) /\
      at_ (tool_call_field j "function.arguments") = Some (MetaString (tc_Arguments tc)).

(** The content is a field exactly when it is not empty. *)
Lemma message_fields_content msg :
  if decide (m_content msg = "") then "content" ∉ (message_fields msg).*1
  else ("content", MetaString (m_content msg)) ∈ message_fields msg.
Proof.
  unfold message_fields. case_decide; [|set_solver]. rewrite !fmap_app. cbn [fmap list_fmap fst app].
  intros [?|Hin]%elem_of_cons; [done|]. case_decide; [by apply not_elem_of_nil in Hin|].
  cbn [fmap list_fmap fst] in Hin. rewrite fmap_concat_imap in Hin.
  apply elem_of_cons in Hin as [?|(j & f & E)%tool_call_fields_shape]; [done|].
  apply (tool_call_field_ne j f). rewrite <-E. set_solver.
Qed.

Lemma message_fields_call msg j tc :
  m_calls msg !! j = Some tc -> tool_call_entries j tc ⊆ message_fields msg.
Proof.
  intros Hj kv Hkv. unfold message_fields. apply elem_of_app; right. apply elem_of_app; right.
  rewrite decide_False by (intros Hl; apply nil_length_inv in Hl; by rewrite Hl in Hj).
  right. apply elem_of_concat_imap. eauto.
Qed.

Lemma entries_describe ns side ms pre post :
  ContainsByte side dot = false ->
  NoDup (pre ++ messages_entries side ms ++ post).*1 ->
  Forall (fun k => key_path k !! 1%nat <> Some side) (pre ++ post).*1 ->
  describes (metadata (set_entry ns <$> (pre ++ messages_entries side ms ++ post))) ns side ms.
Proof.
  intros Hs Hnd Hother. set (kvs := pre ++ messages_entries side ms ++ post) in *. split.
  { apply metadata_lookup; [done|]. subst kvs. unfold messages_entries. set_solver. }
  intros i msg Hi. cbn zeta.
  assert (Hin : forall f v, (f, v) ∈ message_fields msg ->
    metadata (set_entry ns <$> kvs) !! (ns, message_key side i f) = Some v).
  { intros f v Hf. apply metadata_lookup; [done|]. subst kvs.
    apply elem_of_app; right. apply elem_of_app; left. right. apply elem_of_concat_imap.
    exists i, msg. split; [done|]. by apply (list_elem_of_fmap_2 (prod_map (message_key side i) id)) in Hf. }
  split_and!; [apply Hin; by left| |].
  - pose proof (message_fields_content msg) as Hc. case_decide; [|by apply Hin].
    apply metadata_absent; [done|]. subst kvs. rewrite !fmap_app in *. intros Hk.
    assert (Hc' : message_key side i "content" ∈ (messages_entries side ms).*1).
    { rewrite Forall_forall in Hother. apply elem_of_app in Hk as [Hk|[Hk|Hk]%elem_of_app]; [|done|];
        (exfalso; eapply Hother; [apply elem_of_app; eauto|]; by rewrite message_key_path). }
    clear Hk. unfold messages_entries in Hc'. cbn [fmap list_fmap fst] in Hc'.
    rewrite fmap_concat_imap in Hc'. apply elem_of_cons in Hc' as [E|(j & m' & Hj & Hk)%elem_of_concat_imap].
    + apply (f_equal key_path) in E. rewrite message_key_path, count_key_path in E by done. done.
    + apply message_entries_keys in Hk as (f & E & Hf). apply message_key_inj in E as [-> <-]; [|done].
      congruence.
  - intros j tc Hj. pose proof (message_fields_call msg j tc Hj) as Hsub.
    split_and!; apply Hin, Hsub; unfold tool_call_entries; set_solver.
Qed.

(** ** The blocks of a request and of a response *)

Definition request_entries (model system : string) (ms : list message) (tools : list (option string))
    : list (string * MetaValue) :=
  [("llm.model_name", MetaString model); ("llm.system", MetaString system)] ++
  messages_entries "input_messages" ms ++ tools_entries tools.

(** The metadata of a request describes its messages and has its model, its system and
    the tools that marshal. *)
Definition describes_request (m : gmap (string * string) MetaValue) (ns model system : string)
    (ms : list message) (tools : list (option string)) : Prop :=
  m !! (ns, "llm.model_name") = Some (MetaString model) /\
  m !! (ns, "llm.system") = Some (MetaString system) /\
  describes m ns "input_messages" ms /\
  m !! (ns, "llm.tools.count") = Some (MetaInt (zlen tools)) /\
  forall i json, tools !! i = Some (Some json) -> m !! (ns, tool_key i) = Some (MetaString json).

Lemma under_elem part kvs k : under part kvs -> k ∈ kvs.*1 -> key_path k !! 1%nat = Some part.
Proof. unfold under. rewrite Forall_forall. auto. Qed.

Lemma request_entries_NoDup model system ms tools : NoDup (request_entries model system ms tools).*1.
Proof.
  destruct (messages_entries_wf "input_messages" ms eq_refl) as [Hn1 Hu1].
  destruct (tools_entries_wf tools) as [Hn2 Hu2].
  pose proof (NoDup_blocks "input_messages" "tools" _ _ ltac:(done) Hu1 Hu2 Hn1 Hn2) as Hn.
  unfold request_entries. cbn [app fmap list_fmap fst].
  assert (Hk : forall k, k ∈ (messages_entries "input_messages" ms ++ tools_entries tools).*1 ->
    key_path k !! 1%nat = Some "input_messages" \/ key_path k !! 1%nat = Some "tools").
  { intros k. rewrite fmap_app. intros [H|H]%elem_of_app; [left|right]; by eapply under_elem. }
  apply NoDup_cons. split; [intros [E|H]%elem_of_cons; [done|by destruct (Hk _ H)]|].
  apply NoDup_cons. split; [intros H; by destruct (Hk _ H)|done].
Qed.

Lemma request_entries_describe ns model system ms tools :
  describes_request (metadata (set_entry ns <$> request_entries model system ms tools)) ns model system ms tools.
Proof.
  pose proof (request_entries_NoDup model system ms tools) as Hn. destruct (tools_entries_wf tools) as [_ Hu].
  split_and!; [apply metadata_lookup; [done|]; unfold request_entries; set_solver..| | |].
  - apply (entries_describe ns "input_messages" ms
      [("llm.model_name", MetaString model); ("llm.system", MetaString system)]); [done|exact Hn|].
    rewrite fmap_app. apply Forall_app. split; [by repeat constructor|]. apply Forall_forall.
    intros k Hk. by rewrite (under_elem _ _ _ Hu Hk).
  - apply metadata_lookup; [done|]. unfold request_entries, tools_entries. set_solver.
  - intros i json Hi. apply metadata_lookup; [done|]. unfold request_entries, tools_entries.
    do 2 right. apply elem_of_app; right. right. apply elem_of_concat_imap. exists i, (Some json).
    split; [done|]. cbn. by left.
Qed.

Definition response_entries (ms : list message) (tokens : list (string * MetaValue))
    : list (string * MetaValue) := messages_entries "output_messages" ms ++ tokens.

(** The metadata of a response describes its messages and has its token counts. *)
Definition describes_response (m : gmap (string * string) MetaValue) (ns : string) (ms : list message)
    (tokens : list (string * MetaValue)) : Prop :=
  describes m ns "output_messages" ms /\
  forall k v, (k, v) ∈ tokens -> m !! (ns, k) = Some v.

Lemma response_entries_NoDup ms tokens :
  NoDup tokens.*1 -> under "token_count" tokens -> NoDup (response_entries ms tokens).*1.
Proof.
  intros Hn2 Hu2. destruct (messages_entries_wf "output_messages" ms eq_refl) as [Hn1 Hu1].
  by apply (NoDup_blocks "output_messages" "token_count").
Qed.

Lemma response_entries_describe ns ms tokens :
  NoDup tokens.*1 -> under "token_count" tokens ->
  describes_response (metadata (set_entry ns <$> response_entries ms tokens)) ns ms tokens.
Proof.
  intros Hn Hu. pose proof (response_entries_NoDup ms tokens Hn Hu) as Hnd. split.
  - apply (entries_describe ns "output_messages" ms []); [done|exact Hnd|]. cbn [app]. apply Forall_forall.
    intros k Hk. by rewrite (under_elem _ _ _ Hu Hk).
  - intros k v Hk. apply metadata_lookup; [done|]. unfold response_entries. set_solver.
Qed.

(** How often the keys that mark a request and a response are written. *)
Lemma writes_entries ns kvs k : writes k (set_entry ns <$> kvs) = length (filter (fun k' => k' = k) kvs.*1).
Proof.
  unfold writes. do 2 f_equal. induction kvs as [|kv kvs IH]; [done|]. cbn. by f_equal.
Qed.

Lemma writes_once ns kvs k v : NoDup kvs.*1 -> (k, v) ∈ kvs -> writes k (set_entry ns <$> kvs) = 1%nat.
Proof.
  intros Hn Hin. rewrite writes_entries. apply (list_elem_of_fmap_2 fst) in Hin. cbn in Hin.
  pose proof (filter_key_unique id kvs.*1 k) as Hf. rewrite list_fmap_id in Hf. cbn in Hf. by rewrite Hf.
Qed.

Lemma writes_never ns kvs k : k ∉ kvs.*1 -> writes k (set_entry ns <$> kvs) = 0%nat.
Proof.
  intros Hk. rewrite writes_entries. destruct (filter _ _) as [|k' l] eqn:E; [done|].
  assert (k' ∈ filter (fun k' => k' = k) kvs.*1) as Hin by (rewrite E; left).
  apply list_elem_of_filter in Hin as [-> ?]. done.
Qed.

Lemma request_entries_writes ns model system ms tools
    (calls := set_entry ns <$> request_entries model system ms tools) :
  writes "llm.model_name" calls = 1%nat /\ writes "llm.output_messages.count" calls = 0%nat.
Proof.
  split.
  - eapply writes_once; [apply request_entries_NoDup|by left].
  - apply writes_never. destruct (messages_entries_wf "input_messages" ms eq_refl) as [_ Hu1].
    destruct (tools_entries_wf tools) as [_ Hu2]. unfold request_entries. rewrite !fmap_app.
    intros [H|[H|H]%elem_of_app]%elem_of_app.
    + cbn in H. set_solver.
    + by apply (under_elem _ _ _ Hu1) in H.
    + by apply (under_elem _ _ _ Hu2) in H.
Qed.

Lemma response_entries_writes ns ms tokens (calls := set_entry ns <$> response_entries ms tokens) :
  NoDup tokens.*1 -> under "token_count" tokens ->
  writes "llm.model_name" calls = 0%nat /\ writes "llm.output_messages.count" calls = 1%nat.
Proof.
  intros Hn Hu. split.
  - apply writes_never. destruct (messages_entries_wf "output_messages" ms eq_refl) as [_ Hu1].
    unfold response_entries. rewrite fmap_app. intros [H|H]%elem_of_app.
    + by apply (under_elem _ _ _ Hu1) in H.
    + by apply (under_elem _ _ _ Hu) in H.
  - eapply writes_once; [by apply response_entries_NoDup|by left].
Qed.

(** ** Streams of callbacks *)

Class DecoderLaws (D : Decoder) : Prop := {
  request_writes ns req :
    writes "llm.model_name" (calls_of (setRequestMetadata D ns req)) = 1%nat /\
    writes "llm.output_messages.count" (calls_of (setRequestMetadata D ns req)) = 0%nat;
  response_writes ns resp m :
    setResponseMetadata D ns resp = Some m ->
    writes "llm.model_name" (calls_of m) = 0%nat /\
    writes "llm.output_messages.count" (calls_of m) = 1%nat;
}.

Inductive decoder_event (H : Type) : Type :=
| DReqHeaders (eos : bool)
| DReqBody (body : string) (eos : bool)
| DReqTrailers (body : string)
| DRespHeaders (headers : H) (eos : bool)
| DRespBody (chunks : list string) (body : string) (eos : bool)
| DRespTrailers (body : string).
Arguments DReqHeaders {_}. Arguments DReqBody {_}. Arguments DReqTrailers {_}.
Arguments DRespHeaders {_}. Arguments DRespBody {_}. Arguments DRespTrailers {_}.

Definition decoder_callback {H} (e : decoder_event H) : Callback :=
  match e with
  | DReqHeaders eos => CReqHeaders eos
  | DReqBody _ eos => CReqBody eos
  | DReqTrailers _ => CReqTrailers
  | DRespHeaders _ eos => CRespHeaders eos
  | DRespBody _ _ eos => CRespBody eos
  | DRespTrailers _ => CRespTrailers
  end.

Section Streams.
Context (D : Decoder) {H : Type} `{!HeaderMap H}.

Definition drop_status {A} (m : Host (decoderFilter D * A)) : Host (decoderFilter D) :=
  do r <- m; hret r.1.

Definition decoder_handle (f : decoderFilter D) (e : decoder_event H) : option (Host (decoderFilter D)) :=
  match e with
  | DReqHeaders eos => Some (hret (OnRequestHeaders D f eos).1)
  | DReqBody body eos => Some (drop_status (OnRequestBody D f body eos))
  | DReqTrailers body => Some (drop_status (OnRequestTrailers D f body))
  | DRespHeaders headers eos => Some (hret (OnResponseHeaders D f headers eos).1)
  | DRespBody chunks body eos => drop_status <$> OnResponseBody D f chunks body eos
  | DRespTrailers body => drop_status <$> OnResponseTrailers D f body
  end.

Record decoder_stream : Type := mkDecoderStream {
  ds_filter : decoderFilter D;
  ds_calls : list HandleCall;
  ds_req : Phase;
  ds_resp : Phase;
}.

Inductive decoder_step : decoder_stream -> decoder_stream -> Prop :=
| decoder_event_step s e r rq rs :
    callback_order (ds_req s, ds_resp s) (decoder_callback e) = Some (rq, rs) ->
    decoder_handle (ds_filter s) e = Some r ->
    decoder_step s (mkDecoderStream (val_of r) (ds_calls s ++ calls_of r) rq rs).

Definition decoder_init (cfg : decoderConfig) : decoder_stream :=
  mkDecoderStream (mkDecoderFilter cfg false false None) [] NotStarted NotStarted.

(** What the calls of one step write, and what it leaves in the filter. *)
Definition request_effect (f f' : decoderFilter D) (calls : list HandleCall) : Prop :=
  (writes "llm.model_name" calls <= 1)%nat /\ writes "llm.output_messages.count" calls = 0%nat /\
  requestProcessed f' = true /\ responseProcessed f' = responseProcessed f /\ sseAcc f' = sseAcc f.
Definition response_effect (f f' : decoderFilter D) (calls : list HandleCall) : Prop :=
  writes "llm.model_name" calls = 0%nat /\ (writes "llm.output_messages.count" calls <= 1)%nat /\
  (is_Some (sseAcc f') -> writes "llm.output_messages.count" calls = 1%nat) /\
  requestProcessed f' = requestProcessed f /\ responseProcessed f' = true /\
  (sseAcc f = None -> sseAcc f' = None).

Context `{!DecoderLaws D}.

Ltac effect := split_and!; done || (cbn; lia) || by intros [].

Lemma decodeRequestBody_effect f body (r := decodeRequestBody D f body) :
  request_effect f (val_of r) (calls_of r).
Proof.
  subst r. unfold decodeRequestBody, request_effect. case_decide; [effect|].
  destruct (decode_request D body) as [req|]; [|effect].
  rewrite val_hbind, calls_hbind, app_nil_r. cbn -[writes].
  destruct (request_writes (MetadataNamespace (config f)) req) as [H1 H2]. rewrite H1, H2. effect.
Qed.

Lemma decodeResponseBody_effect f body r :
  sseAcc f = None -> decodeResponseBody D f body = Some r -> response_effect f (val_of r) (calls_of r).
Proof.
  unfold decodeResponseBody, response_effect. intros Ha.
  case_decide; [intros [= <-]; cbn; rewrite Ha; effect|].
  destruct (decode_response D body) as [resp|];
    [|intros [= <-]; cbn; rewrite Ha; effect].
  intros (m & Hm & [= <-])%bind_Some. rewrite val_hbind, calls_hbind, app_nil_r. cbn -[writes].
  destruct (response_writes _ _ _ Hm) as [H1 H2]. rewrite H1, H2. rewrite Ha. effect.
Qed.

Lemma decodeStreamingResponse_effect f acc r :
  sseAcc f <> None -> decodeStreamingResponse D f acc = Some r -> response_effect f (val_of r) (calls_of r).
Proof.
  unfold decodeStreamingResponse, response_effect. intros Ha ([acc' resp] & _ & Hr)%bind_Some.
  apply bind_Some in Hr as (m & Hm & [= <-]). rewrite val_hbind, calls_hbind, app_nil_r. cbn -[writes].
  destruct (response_writes _ _ _ Hm) as [H1 H2]. rewrite H1, H2. effect.
Qed.

Lemma drop_status_with {A} (s : A) m r :
  drop_status <$> with_status s m = Some r -> exists m', m = Some m' /\ val_of r = val_of m' /\ calls_of r = calls_of m'.
Proof.
  unfold with_status, drop_status. destruct m as [m'|]; [|done]. cbn. intros [= <-]. exists m'.
  rewrite !val_hbind, !calls_hbind. cbn. by rewrite !app_nil_r.
Qed.

(** A callback on the request side, or on the response side. *)
Definition quiet_step (f f' : decoderFilter D) (calls : list HandleCall) : Prop :=
  calls = [] /\ requestProcessed f' = requestProcessed f /\ responseProcessed f' = responseProcessed f.

Lemma decoder_handle_effect f e r :
  decoder_handle f e = Some r ->
  match e with
  | DReqHeaders _ => val_of r = f /\ calls_of r = []
  | DReqBody _ false => val_of r = f /\ calls_of r = []
  | DReqBody _ true => request_effect f (val_of r) (calls_of r)
  | DReqTrailers _ =>
      requestProcessed f = false -> request_effect f (val_of r) (calls_of r)
  | DRespHeaders _ eos =>
      quiet_step f (val_of r) (calls_of r) /\ (eos = true -> sseAcc (val_of r) = sseAcc f)
  | DRespBody _ _ false => quiet_step f (val_of r) (calls_of r)
  | DRespBody _ _ true => response_effect f (val_of r) (calls_of r)
  | DRespTrailers _ =>
      responseProcessed f = false -> response_effect f (val_of r) (calls_of r)
  end.
Proof.
  destruct e as [eos|body eos|body|hs eos|chunks body eos|body]; cbn [decoder_handle].
  - intros [= <-]. unfold OnRequestHeaders. by destruct eos.
  - intros [= <-]. unfold drop_status, OnRequestBody. destruct eos; cbn [negb].
    + rewrite !val_hbind, !calls_hbind. cbn. rewrite !app_nil_r. apply decodeRequestBody_effect.
    + done.
  - intros [= <-] Hp. unfold drop_status, OnRequestTrailers. rewrite Hp. cbn [negb].
    rewrite !val_hbind, !calls_hbind. cbn. rewrite !app_nil_r. apply decodeRequestBody_effect.
  - intros [= <-]. unfold OnResponseHeaders, quiet_step. destruct eos; [done|]. by case_match.
  - unfold OnResponseBody. destruct (sseAcc f) as [acc|] eqn:Ha.
    + destruct (feed_chunks D acc chunks) as [acc'|]; [|by intros].
      intros (m & Hm & -> & ->)%drop_status_with. destruct eos.
      * apply decodeStreamingResponse_effect in Hm as (? & ? & ? & ? & ? & _); [|done].
        split_and!; try done. congruence.
      * injection Hm as <-. by split_and!.
    + destruct eos; cbn [negb].
      * intros (m & Hm & -> & ->)%drop_status_with. by apply decodeResponseBody_effect in Hm.
      * intros [= <-]. by split_and!.
  - unfold OnResponseTrailers. intros Hr Hp. rewrite Hp in Hr.
    apply drop_status_with in Hr as (m & Hm & -> & ->). destruct (sseAcc f) as [acc|] eqn:Ha.
    + apply decodeStreamingResponse_effect in Hm; [done|congruence].
    + by apply decodeResponseBody_effect in Hm.
Qed.

(** The invariant of a stream. *)
Definition decoded_inv (s : decoder_stream) : Prop :=
  let f := ds_filter s in
  let nreq := writes "llm.model_name" (ds_calls s) in
  let nresp := writes "llm.output_messages.count" (ds_calls s) in
  (nreq <= 1)%nat /\ (nresp <= 1)%nat /\
  (ds_req s <> Closed -> requestProcessed f = false /\ nreq = 0%nat) /\
  (ds_resp s <> Closed -> responseProcessed f = false /\ nresp = 0%nat) /\
  (ds_resp s = NotStarted -> sseAcc f = None) /\
  (ds_resp s = Closed -> is_Some (sseAcc f) -> nresp = 1%nat).

Lemma decoded_inv_step s s' : decoded_inv s -> decoder_step s s' -> decoded_inv s'.
Proof.
  intros Hi Hst. destruct Hst as [s e r rq rs Hc Hh]. apply callback_order_cases in Hc.
  apply decoder_handle_effect in Hh. destruct Hi as (H1 & H2 & H3 & H4 & H5 & H6).
  unfold decoded_inv. cbn [ds_filter ds_calls ds_req ds_resp]. rewrite !writes_app.
  destruct e as [[]|body []|body|hs []|chunks body []|body]; cbn [decoder_callback closed_if] in Hc;
    unfold request_effect, response_effect, quiet_step in Hh; destruct_and? Hc; subst.
  all: try (specialize (H3 ltac:(congruence)) as [Hp Hn]); try (specialize (H4 ltac:(congruence)) as [Hp' Hn']).
  all: try specialize (Hh Hp); try specialize (Hh Hp'); destruct_and? Hh.
  all: repeat match goal with Hx : calls_of ?r = [] |- _ => rewrite Hx in *; clear Hx end.
  all: repeat match goal with Hx : val_of ?r = _ |- _ => rewrite Hx in *; clear Hx end.
  all: change (writes "llm.model_name" []) with 0%nat; change (writes "llm.output_messages.count" []) with 0%nat.
  all: split_and!; intros; try lia; try done.
  all: rewrite ?Nat.add_0_r.
  all: try solve [intuition (try congruence; try lia)].
  all: try (match goal with E : sseAcc _ = sseAcc _, Hx : is_Some (sseAcc (val_of _)) |- _ =>
    rewrite E in Hx; specialize (H6 ltac:(congruence) Hx); lia end).
  all: match goal with Hx : is_Some _ |- _ => destruct Hx; intuition (try congruence; try lia) end.
Qed.

Lemma decoded_reachable cfg s : steps decoder_step (decoder_init cfg) s -> decoded_inv s.
Proof.
  intros Hs. eapply steps_invariant; [intros ? ?; apply decoded_inv_step| |exact Hs].
  unfold decoded_inv. cbn. split_and!; done || (cbn; lia) || by intros ? [].
Qed.

(** Each side of a stream is decoded at most once.  In every order of callbacks the
    host can use, with the body ended by its last chunk or by trailers, the request
    metadata and the response metadata are each written at most once and not before
    their side has ended, and the metadata of a streamed response exactly once. *)
Theorem decoded_once cfg s :
  steps decoder_step (decoder_init cfg) s ->
  let nreq := writes "llm.model_name" (ds_calls s) in
  let nresp := writes "llm.output_messages.count" (ds_calls s) in
  (nreq <= 1)%nat /\ (ds_req s <> Closed -> nreq = 0%nat) /\
  (nresp <= 1)%nat /\ (ds_resp s <> Closed -> nresp = 0%nat) /\
  (ds_resp s = Closed -> is_Some (sseAcc (ds_filter s)) -> nresp = 1%nat).
Proof. intros (H1 & H2 & H3 & H4 & _ & H6)%decoded_reachable. cbn zeta. tauto. Qed.

(** ** One response *)

(** How the body ends: with a last chunk that carries the flag, or with trailers. *)
Inductive ending : Type := EndOfStream (chunks : list string) | EndTrailers.

Fixpoint on_bodies (f : decoderFilter D) (bodies : list (list string)) : option (Host (decoderFilter D)) :=
  match bodies with
  | [] => Some (hret f)
  | chunks :: bodies' =>
      r ← drop_status <$> OnResponseBody D f chunks "" false;
      r' ← on_bodies (val_of r) bodies';
      Some (run r; r')
  end.

(** The calls for a response with the given headers, delivered in any number of body
    callbacks; [whole] is the buffered body. *)
Definition respond (f : decoderFilter D) (headers : H) (bodies : list (list string)) (whole : string)
    (e : ending) : option (list HandleCall) :=
  let f := (OnResponseHeaders D f headers false).1 in
  r ← on_bodies f bodies;
  r' ← match e with
       | EndOfStream chunks => drop_status <$> OnResponseBody D (val_of r) chunks whole true
       | EndTrailers => drop_status <$> OnResponseTrailers D (val_of r) whole
       end;
  Some (calls_of r ++ calls_of r').

Definition last_chunks (e : ending) : list string :=
  match e with EndOfStream chunks => chunks | EndTrailers => [] end.

Definition event_stream (headers : H) : bool :=
  HasPrefix (GetOne headers "content-type") "text/event-stream".

(** The calls for a streamed response, and for a buffered one. *)
Definition streamed_calls (ns : string) (chunks : list string) : option (list HandleCall) :=
  acc ← feed_chunks D (new_acc D) chunks;
  '(_, resp) ← finish D acc;
  calls_of <$> setResponseMetadata D ns resp.

Definition buffered_calls (ns whole : string) : option (list HandleCall) :=
  if decide (whole = "") then Some []
  else match decode_response D whole with
       | None => Some []
       | Some resp => calls_of <$> setResponseMetadata D ns resp
       end.

Lemma feed_chunks_app acc c1 c2 :
  feed_chunks D acc (c1 ++ c2) = acc' ← feed_chunks D acc c1; feed_chunks D acc' c2.
Proof.
  revert acc. induction c1 as [|c c1 IH]; intros acc; cbn; [done|]. by destruct (feed D acc c); cbn.
Qed.

Lemma on_bodies_streaming f acc bodies :
  sseAcc f = Some acc ->
  on_bodies f bodies = acc' ← feed_chunks D acc (concat bodies);
    Some (hret (mkDecoderFilter (config f) (requestProcessed f) (responseProcessed f) (Some acc'))).
Proof.
  revert f acc. induction bodies as [|chunks bodies IH]; intros f acc Ha; cbn.
  { destruct f; cbn in *. by subst. }
  rewrite feed_chunks_app. unfold OnResponseBody. rewrite Ha.
  destruct (feed_chunks D acc chunks) as [acc'|]; [|done]. cbn.
  rewrite (IH _ acc') by done. by destruct (feed_chunks D acc' (concat bodies)).
Qed.

Lemma on_bodies_buffered f bodies : sseAcc f = None -> on_bodies f bodies = Some (hret f).
Proof.
  intros Ha. induction bodies as [|chunks bodies IH]; [done|]. cbn [on_bodies].
  unfold OnResponseBody. rewrite Ha. cbn. by rewrite IH.
Qed.

Lemma calls_drop_with {A} (s : A) m :
  (r ← drop_status <$> with_status s m; Some (calls_of r)) = calls_of <$> m.
Proof.
  destruct m as [m|]; [|done]. cbn. unfold drop_status. by rewrite !calls_hbind, !app_nil_r.
Qed.

(** A response is handled as one that streams or as one that is buffered, whatever the
    body callbacks and however the body ends. *)
Lemma respond_spec f headers bodies whole e :
  sseAcc f = None -> responseProcessed f = false ->
  respond f headers bodies whole e =
  if event_stream headers
  then streamed_calls (MetadataNamespace (config f)) (concat bodies ++ last_chunks e)
  else buffered_calls (MetadataNamespace (config f)) whole.
Proof.
  intros Ha Hp. unfold respond, event_stream, OnResponseHeaders. destruct (HasPrefix _ _); cbn [fst].
  - rewrite (on_bodies_streaming _ (new_acc D)) by done. unfold streamed_calls. rewrite feed_chunks_app.
    destruct (feed_chunks D (new_acc D) (concat bodies)) as [acc|]; [|done]. cbn [mbind option_bind].
    destruct e as [chunks|]; cbn [last_chunks val_of calls_of hret fst snd app].
    + unfold OnResponseBody. cbn [sseAcc set_acc config requestProcessed responseProcessed].
      destruct (feed_chunks D acc chunks) as [acc'|]; [|done]. cbn [mbind option_bind].
      rewrite calls_drop_with. unfold decodeStreamingResponse. destruct (finish D acc') as [[a resp]|]; [|done].
      cbn. destruct (setResponseMetadata D _ resp); [|done]. cbn. by rewrite calls_hbind, app_nil_r.
    + unfold OnResponseTrailers. cbn [sseAcc set_acc config requestProcessed responseProcessed].
      rewrite Hp, calls_drop_with. unfold decodeStreamingResponse. cbn [feed_chunks mbind option_bind].
      destruct (finish D acc) as [[a resp]|]; [|done].
      cbn. destruct (setResponseMetadata D _ resp); [|done]. cbn. by rewrite calls_hbind, app_nil_r.
  - rewrite on_bodies_buffered by done. cbn [mbind option_bind val_of calls_of hret fst snd app].
    assert (Hb : calls_of <$> decodeResponseBody D f whole =
                 buffered_calls (MetadataNamespace (config f)) whole).
    { unfold decodeResponseBody, buffered_calls. case_decide; [done|].
      destruct (decode_response D whole) as [resp|]; [|done]. cbn.
      destruct (setResponseMetadata D _ resp); [|done]. cbn. by rewrite calls_hbind, app_nil_r. }
    destruct e as [chunks|]; unfold OnResponseBody, OnResponseTrailers; rewrite ?Hp, Ha; cbn [negb];
      by rewrite calls_drop_with.
Qed.

(** A stream run on a list of events, while the order allows them and nothing panics. *)
Fixpoint run_stream (s : decoder_stream) (es : list (decoder_event H)) : option decoder_stream :=
  match es with
  | [] => Some s
  | e :: es' =>
      match callback_order (ds_req s, ds_resp s) (decoder_callback e), decoder_handle (ds_filter s) e with
      | Some (rq, rs), Some r => run_stream (mkDecoderStream (val_of r) (ds_calls s ++ calls_of r) rq rs) es'
      | _, _ => None
      end
  end.

Lemma run_stream_steps s0 s es s' :
  steps decoder_step s0 s -> run_stream s es = Some s' -> steps decoder_step s0 s'.
Proof.
  revert s. induction es as [|e es IH]; intros s Hs; cbn [run_stream]; [by intros [= <-]|].
  destruct (callback_order _ _) as [[rq rs]|] eqn:Ho; [|done].
  destruct (decoder_handle _ _) as [r|] eqn:Hh; [|done].
  apply IH. eapply steps_snoc; [exact Hs|]. by econstructor.
Qed.
End Streams.
