(* ===== verification/AnthropicDecoder.v ===== *)
(** * anthropic-decoder

    extensions/composer/anthropic-decoder/anthropic.go and plugin.go: the Anthropic
    messages format, the accumulator of its event stream and the metadata written for
    a request and a response.  The callbacks are those of [DecoderFilter].  The JSON
    decoder is a parameter, an [AnthropicCodec]; an index out of range and a nil
    pointer are panics, [None]. *)

From S2P Require Import Prelude GoStr GoNum Host ExtPkg SSELines DecoderFilter.
From Stdlib Require Import Lia Ascii.

Local Open Scope Z_scope.
Local Open Scope go_scope.

(** ** The format *)

(** A [json.RawMessage] is a string of bytes. *)
Record anthropicContentBlock : Type := mkBlock {
  cb_Type : string;
  cb_Text : string;
  cb_ID : string;
  cb_Name : string;
  cb_Input : string;
  cb_ToolUseID : string;
  cb_Content : string;
}.

#[export] Instance anthropicContentBlock_eq_dec : EqDecision anthropicContentBlock.
Proof. solve_decision. Defined.

Record anthropicMessage : Type := mkAnthropicMessage {
  msg_Role : string;
  msg_Content : string;
}.

Record anthropicTool : Type := mkAnthropicTool {
  tool_Name : string;
  tool_Description : string;
  tool_InputSchema : string;
}.

Record anthropicRequest : Type := mkAnthropicRequest {
  req_Model : string;
  req_System : string;
  req_Messages : list anthropicMessage;
  req_Tools : list anthropicTool;
}.

Record anthropicUsage : Type := mkAnthropicUsage {
  InputTokens : Z;
  OutputTokens : Z;
  CacheCreationInputTokens : Z;
  CacheReadInputTokens : Z;
}.

(** The content is a slice of pointers: a JSON null is [None]. *)
Record anthropicResponse : Type := mkAnthropicResponse {
  resp_ID : string;
  resp_Type : string;
  resp_Role : string;
  resp_Model : string;
  resp_Content : list (option anthropicContentBlock);
  resp_Usage : option anthropicUsage;
}.

Record anthropicMessageStart : Type := mkMessageStart {
  ms_Type : string;
  ms_Message : anthropicResponse;
}.

Record anthropicContentBlockStart : Type := mkBlockStart {
  cbs_Type : string;
  cbs_Index : Z;
  cbs_ContentBlock : anthropicContentBlock;
}.

Record anthropicDelta : Type := mkDelta {
  delta_Type : string;
  delta_Text : string;
  delta_PartialJSON : string;
}.

Record anthropicContentBlockDelta : Type := mkBlockDelta {
  cbd_Type : string;
  cbd_Index : Z;
  cbd_Delta : anthropicDelta;
}.

Record anthropicDeltaUsage : Type := mkDeltaUsage { du_OutputTokens : Z }.

Record anthropicMessageDelta : Type := mkMessageDelta {
  md_Type : string;
  md_StopReason : string;
  md_Usage : option anthropicDeltaUsage;
}.

(** [json.Unmarshal] into the types above, [None] for an error, and [json.Marshal] of a
    tool. *)
Record AnthropicCodec : Type := mkAnthropicCodec {
  unmarshal_request : string -> option anthropicRequest;
  unmarshal_response : string -> option anthropicResponse;
  unmarshal_string : string -> option string;
  unmarshal_blocks : string -> option (list anthropicContentBlock);
  unmarshal_message_start : string -> option anthropicMessageStart;
  unmarshal_block_start : string -> option anthropicContentBlockStart;
  unmarshal_block_delta : string -> option anthropicContentBlockDelta;
  unmarshal_message_delta : string -> option anthropicMessageDelta;
  marshal_tool : anthropicTool -> option string;
}.

(** The zero value of a block. *)
Definition emptyBlock : anthropicContentBlock := mkBlock "" "" "" "" "" "" "".

Definition nl : string := String newline "".

(** The loop that collects the texts of text blocks. *)
Definition block_texts (blocks : list anthropicContentBlock) : list string :=
  cb_Text <$> filter (fun b => cb_Type b = "text" /\ cb_Text b <> "") blocks.

Section Codec.
Context (codec : AnthropicCodec).

Definition decodeAnthropicRequest (body : string) : option anthropicRequest := unmarshal_request codec body.
Definition decodeAnthropicResponse (body : string) : option anthropicResponse := unmarshal_response codec body.

Definition extractAnthropicSystem (raw : string) : string :=
  if decide (raw = "") then ""
  else match unmarshal_string codec raw with
       | Some s => s
       | None => match unmarshal_blocks codec raw with
                 | Some blocks => Join (block_texts blocks) nl
                 | None => ""
                 end
       end.

Definition extractAnthropicContent (raw : string) : string :=
  if decide (raw = "") then ""
  else match unmarshal_string codec raw with
       | Some s => s
       | None => match unmarshal_blocks codec raw with
                 | Some blocks => Join (block_texts blocks) nl
                 | None => ""
                 end
       end.

Definition extractAnthropicToolCalls (raw : string) : list anthropicContentBlock :=
  if decide (raw = "") then []
  else match unmarshal_blocks codec raw with
       | None => []
       | Some blocks => filter (fun b => cb_Type b = "tool_use") blocks
       end.

(** ** The event stream *)

(** The fields of the accumulator other than its buffer. *)
Record accState : Type := mkAccState {
  done_ : bool;
  role : string;
  usage : option anthropicUsage;
  contentBlocks : list anthropicContentBlock;
  textByIndex : gmap Z string;
  jsonByIndex : gmap Z string;
  currentEvent : string;
}.

Record anthropicSSEAccumulator : Type := mkAccumulator {
  buf : string;
  state : accState;
}.

Definition newState : accState := mkAccState false "" None [] ∅ ∅ "".
Definition newAnthropicSSEAccumulator : anthropicSSEAccumulator := mkAccumulator "" newState.

(** [m[k] += v] on a map of strings. *)
Definition append_at (m : gmap Z string) (k : Z) (v : string) : gmap Z string :=
  <[k := default "" (m !! k) +:+ v]> m.

(** The loop that appends [n] empty blocks. *)
Fixpoint grow (n : nat) (blocks : list anthropicContentBlock) : list anthropicContentBlock :=
  match n with O => blocks | S n' => grow n' (blocks ++ [emptyBlock]) end.

(** The slice grown to hold the index, then [a.contentBlocks[index] = &block]; a negative
    index is out of range. *)
Definition set_block (blocks : list anthropicContentBlock) (index : Z) (block : anthropicContentBlock)
    : option (list anthropicContentBlock) :=
  let blocks := grow (Z.to_nat (index + 1 - zlen blocks)) blocks in
  if (0 <=? index) && (index <? zlen blocks) then Some (<[Z.to_nat index := block]> blocks) else None.

Definition processEvent (a : accState) (eventType data : string) : option accState :=
  if decide (eventType = "message_start") then
    match unmarshal_message_start codec data with
    | None => Some a
    | Some msg =>
        Some (mkAccState (done_ a) (resp_Role (ms_Message msg))
                (match resp_Usage (ms_Message msg) with Some u => Some u | None => usage a end)
                (contentBlocks a) (textByIndex a) (jsonByIndex a) (currentEvent a))
    end
  else if decide (eventType = "content_block_start") then
    match unmarshal_block_start codec data with
    | None => Some a
    | Some cbs =>
        blocks ← set_block (contentBlocks a) (cbs_Index cbs) (cbs_ContentBlock cbs);
        Some (mkAccState (done_ a) (role a) (usage a) blocks (textByIndex a) (jsonByIndex a) (currentEvent a))
    end
  else if decide (eventType = "content_block_delta") then
    match unmarshal_block_delta codec data with
    | None => Some a
    | Some cbd =>
        if decide (delta_Type (cbd_Delta cbd) = "text_delta") then
          Some (mkAccState (done_ a) (role a) (usage a) (contentBlocks a)
                  (append_at (textByIndex a) (cbd_Index cbd) (delta_Text (cbd_Delta cbd)))
                  (jsonByIndex a) (currentEvent a))
        else if decide (delta_Type (cbd_Delta cbd) = "input_json_delta") then
          Some (mkAccState (done_ a) (role a) (usage a) (contentBlocks a) (textByIndex a)
                  (append_at (jsonByIndex a) (cbd_Index cbd) (delta_PartialJSON (cbd_Delta cbd)))
                  (currentEvent a))
        else Some a
    end
  else if decide (eventType = "message_delta") then
    match unmarshal_message_delta codec data with
    | None => Some a
    | Some md =>
        match md_Usage md, usage a with
        | Some du, Some u =>
            Some (mkAccState (done_ a) (role a)
                    (Some (mkAnthropicUsage (InputTokens u) (du_OutputTokens du)
                             (CacheCreationInputTokens u) (CacheReadInputTokens u)))
                    (contentBlocks a) (textByIndex a) (jsonByIndex a) (currentEvent a))
        | _, _ => Some a
        end
    end
  else if decide (eventType = "message_stop") then
    Some (mkAccState true (role a) (usage a) (contentBlocks a) (textByIndex a) (jsonByIndex a) (currentEvent a))
  else Some a.

Definition set_event (a : accState) (ev : string) : accState :=
  mkAccState (done_ a) (role a) (usage a) (contentBlocks a) (textByIndex a) (jsonByIndex a) ev.

Definition sseEventPrefix : string := "event: ".
Definition sseDataPrefix : string := "data: ".

(** The body of the loop of [parseEvents]; a panic is [LError]. *)
Definition on_line (a : accState) (line : string) : line_result accState :=
  if HasPrefix line sseEventPrefix then LNext (set_event a (TrimPrefix line sseEventPrefix))
  else if HasPrefix line sseDataPrefix then
    match processEvent a (currentEvent a) (TrimPrefix line sseDataPrefix) with
    | None => LError a
    | Some a' => LNext (set_event a' "")
    end
  else LNext a.

Definition parseEvents (a : anthropicSSEAccumulator) : option anthropicSSEAccumulator :=
  let '(st, rest, ok) := parse_lines on_line (state a) "" (buf a) in
  if ok : bool then Some (mkAccumulator rest st) else None.

Definition acc_feed (a : anthropicSSEAccumulator) (data : string) : option anthropicSSEAccumulator :=
  if done_ (state a) then Some a
  else parseEvents (mkAccumulator (buf a +:+ data) (state a)).

(** The body of the loop of [finish]: the pointer is shared, so the accumulator's own block
    changes. *)
Definition finish_block (a : accState) (i : nat) (b : anthropicContentBlock) : anthropicContentBlock :=
  if decide (cb_Type b = "text") then
    match textByIndex a !! Z.of_nat i with
    | Some text => mkBlock (cb_Type b) text (cb_ID b) (cb_Name b) (cb_Input b) (cb_ToolUseID b) (cb_Content b)
    | None => b
    end
  else if decide (cb_Type b = "tool_use") then
    match jsonByIndex a !! Z.of_nat i with
    | Some jsonStr =>
        mkBlock (cb_Type b) (cb_Text b) (cb_ID b) (cb_Name b) jsonStr (cb_ToolUseID b) (cb_Content b)
    | None => b
    end
  else b.

Definition acc_finish (a : anthropicSSEAccumulator) : anthropicSSEAccumulator * anthropicResponse :=
  let st := state a in
  let content := imap (finish_block st) (contentBlocks st) in
  (mkAccumulator (buf a)
     (mkAccState (done_ st) (role st) (usage st) content (textByIndex st) (jsonByIndex st) (currentEvent st)),
   mkAnthropicResponse "" "" (role st) "" (Some <$> content) (usage st)).

(** ** Metadata *)

(** A [tool_use] block as a tool call. *)
Definition block_call (b : anthropicContentBlock) : tool_call :=
  mkToolCall (cb_ID b) (cb_Name b) (cb_Input b).

Definition anthropic_setRequestMetadata (namespace : string) (req : anthropicRequest) : Host unit :=
  run hcall (SetMetadata namespace "llm.model_name" (MetaString (req_Model req)));
  run hcall (SetMetadata namespace "llm.system" (MetaString "anthropic"));
  let hasSystem := negb (bool_decide (extractAnthropicSystem (req_System req) = "")) in
  let messageCount := zlen (req_Messages req) + if hasSystem then 1 else 0 in
  run hcall (SetMetadata namespace "llm.input_messages.count" (MetaInt messageCount));
  run hwhen hasSystem
    (run hcall (SetMetadata namespace "llm.input_messages.0.message.role" (MetaString "system"));
     hcall (SetMetadata namespace "llm.input_messages.0.message.content"
              (MetaString (extractAnthropicSystem (req_System req)))));
  let offset := if hasSystem then 1%nat else 0%nat in
  run hfor offset (req_Messages req) (fun idx msg =>
    set_message namespace "input_messages" idx (msg_Role msg) (extractAnthropicContent (msg_Content msg))
      (block_call <$> extractAnthropicToolCalls (msg_Content msg)));
  set_tools (marshal_tool codec) namespace (req_Tools req).

Definition set_usage (namespace : string) (u : anthropicUsage) : Host unit :=
  run hcall (SetMetadata namespace "llm.token_count.prompt" (MetaInt (InputTokens u)));
  run hcall (SetMetadata namespace "llm.token_count.completion" (MetaInt (OutputTokens u)));
  run hcall (SetMetadata namespace "llm.token_count.total" (MetaInt (wrap64 (InputTokens u + OutputTokens u))));
  run hwhen (0 <? CacheCreationInputTokens u)
    (hcall (SetMetadata namespace "llm.token_count.completion_details.cache_creation_input_tokens"
              (MetaInt (CacheCreationInputTokens u))));
  hwhen (0 <? CacheReadInputTokens u)
    (hcall (SetMetadata namespace "llm.token_count.completion_details.cache_read_input_tokens"
              (MetaInt (CacheReadInputTokens u)))).

(** The loop over the blocks dereferences each of them. *)
Definition anthropic_setResponseMetadata (namespace : string) (resp : anthropicResponse)
    : option (Host unit) :=
  blocks ← mapM id (resp_Content resp);
  Some (
    run hcall (SetMetadata namespace "llm.output_messages.count" (MetaInt 1));
    run set_message namespace "output_messages" 0 (resp_Role resp) (Join (block_texts blocks) nl)
      (block_call <$> filter (fun b => cb_Type b = "tool_use") blocks);
    match resp_Usage resp with
    | None => hret tt
    | Some u => set_usage namespace u
    end).

(** The format behind the filter. *)
Definition anthropic_decoder : Decoder := {|
  decode_request := decodeAnthropicRequest;
  decode_response := decodeAnthropicResponse;
  new_acc := newAnthropicSSEAccumulator;
  feed := acc_feed;
  finish a := Some (acc_finish a);
  setRequestMetadata := anthropic_setRequestMetadata;
  setResponseMetadata := anthropic_setResponseMetadata;
|}.
End Codec.

Definition defaultMetadataNamespace : string := "io.builtonenvoy.anthropic".

(** ** What the metadata says *)

Section Metadata.
Context (codec : AnthropicCodec).

(** The conversation of a request: the system prompt first, when there is one. *)
Definition conversation (req : anthropicRequest) : list message :=
  let sys := extractAnthropicSystem codec (req_System req) in
  (if decide (sys = "") then [] else [mkMessage "system" sys []]) ++
  ((fun msg => mkMessage (msg_Role msg) (extractAnthropicContent codec (msg_Content msg))
                 (block_call <$> extractAnthropicToolCalls codec (msg_Content msg))) <$> req_Messages req).

(** The one message of a response. *)
Definition output_message (role : string) (blocks : list anthropicContentBlock) : message :=
  mkMessage role (Join (block_texts blocks) nl) (block_call <$> filter (fun b => cb_Type b = "tool_use") blocks).

Definition usage_entries (u : anthropicUsage) : list (string * MetaValue) :=
  [("llm.token_count.prompt", MetaInt (InputTokens u));
   ("llm.token_count.completion", MetaInt (OutputTokens u));
   ("llm.token_count.total", MetaInt (wrap64 (InputTokens u + OutputTokens u)))] ++
  (if 0 <? CacheCreationInputTokens u
   then [("llm.token_count.completion_details.cache_creation_input_tokens",
          MetaInt (CacheCreationInputTokens u))] else []) ++
  (if 0 <? CacheReadInputTokens u
   then [("llm.token_count.completion_details.cache_read_input_tokens",
          MetaInt (CacheReadInputTokens u))] else []).

Lemma request_calls ns req :
  calls_of (anthropic_setRequestMetadata codec ns req) =
  set_entry ns <$> request_entries (req_Model req) "anthropic" (conversation req)
                     (marshal_tool codec <$> req_Tools req).
Proof.
  unfold anthropic_setRequestMetadata, request_entries. cbn zeta. rewrite !calls_hbind, calls_set_tools.
  rewrite !fmap_app. cbn [fmap list_fmap app calls_of hcall snd]. f_equal. f_equal.
  rewrite app_comm_cons, app_assoc. f_equal.
  rewrite (calls_hfor _ (fun idx msg => set_entry ns <$> message_entries "input_messages" idx
    (mkMessage (msg_Role msg) (extractAnthropicContent codec (msg_Content msg))
       (block_call <$> extractAnthropicToolCalls codec (msg_Content msg)))))
    by (intros idx msg; by rewrite <-calls_set_message).
  unfold messages_entries, conversation. cbn zeta. rewrite length_app, length_fmap.
  destruct (bool_decide_reflect (extractAnthropicSystem codec (req_System req) = "")) as [Hs|Hs].
  - rewrite decide_True by done. cbn [hwhen negb hret calls_of snd app length]. rewrite Z.add_0_r.
    cbn [fmap list_fmap]. f_equal. by rewrite fmap_concat_imap, imap_fmap.
  - rewrite decide_False by done. cbn [hwhen negb app length imap concat].
    cbn [fmap list_fmap]. rewrite Nat2Z.inj_succ, <-Z.add_1_r. f_equal.
    rewrite fmap_app, fmap_concat_imap, imap_fmap, calls_hbind.
    unfold message_entries at 2, message_fields. cbn [m_role m_content m_calls].
    rewrite decide_False by done. done.
Qed.

Lemma response_calls ns resp blocks :
  mapM id (resp_Content resp) = Some blocks ->
  exists m, anthropic_setResponseMetadata ns resp = Some m /\
    calls_of m = set_entry ns <$> response_entries [output_message (resp_Role resp) blocks]
                                    (from_option usage_entries [] (resp_Usage resp)).
Proof.
  intros Hb. unfold anthropic_setResponseMetadata. rewrite Hb. cbn [mbind option_bind]. eexists. split; [done|].
  rewrite !calls_hbind. unfold response_entries, messages_entries. rewrite fmap_app.
  pose proof (calls_set_message ns "output_messages" 0 (output_message (resp_Role resp) blocks)) as Hm.
  cbn [m_role m_content m_calls output_message] in Hm. rewrite Hm.
  cbn [imap concat fmap list_fmap app calls_of hcall snd length]. f_equal. rewrite app_nil_r. f_equal.
  destruct (resp_Usage resp) as [u|]; [|done]. unfold set_usage, usage_entries, from_option. rewrite !calls_hbind.
  unfold hwhen. by destruct (0 <? CacheCreationInputTokens u), (0 <? CacheReadInputTokens u).
Qed.

Lemma usage_entries_wf u :
  NoDup (from_option usage_entries [] u).*1 /\ under "token_count" (from_option usage_entries [] u).
Proof.
  destruct u as [u|]; cbn [from_option]; [|split; [apply NoDup_nil_2|constructor]].
  unfold usage_entries, under.
  destruct (0 <? CacheCreationInputTokens u), (0 <? CacheReadInputTokens u); cbn [app fmap list_fmap fst];
    (split; [decide_now|by repeat constructor]).
Qed.

(** The metadata of a request describes it.  No key is written twice, so for every
    request the metadata holds the model, the number of messages with the system prompt
    counted as the first one, the role, content and tool calls of every message under
    its own number, and every tool that marshals under its own. *)
Theorem anthropic_request_described ns req :
  describes_request (metadata (calls_of (anthropic_setRequestMetadata codec ns req))) ns
    (req_Model req) "anthropic" (conversation req) (marshal_tool codec <$> req_Tools req).
Proof. rewrite request_calls. apply request_entries_describe. Qed.

(** The metadata of a response describes its one message and has its token counts. *)
Lemma response_described ns resp blocks :
  mapM id (resp_Content resp) = Some blocks ->
  exists m, anthropic_setResponseMetadata ns resp = Some m /\
    describes_response (metadata (calls_of m)) ns [output_message (resp_Role resp) blocks]
      (from_option usage_entries [] (resp_Usage resp)).
Proof.
  intros Hb. destruct (response_calls ns resp blocks Hb) as (m & Hm & Hc). exists m. split; [done|].
  rewrite Hc. destruct (usage_entries_wf (resp_Usage resp)). by apply response_entries_describe.
Qed.

#[export] Instance anthropic_laws : DecoderLaws (anthropic_decoder codec).
Proof.
  split; cbn [setRequestMetadata setResponseMetadata anthropic_decoder].
  - intros ns req. rewrite request_calls. apply request_entries_writes.
  - intros ns resp m Hm. destruct (mapM id (resp_Content resp)) as [blocks|] eqn:Hb.
    + destruct (response_calls ns resp blocks Hb) as (m' & Hm' & Hc). rewrite Hm in Hm'. injection Hm' as <-.
      rewrite Hc. destruct (usage_entries_wf (resp_Usage resp)). by apply response_entries_writes.
    + unfold anthropic_setResponseMetadata in Hm. by rewrite Hb in Hm.
Qed.
End Metadata.

(** ** The accumulator on decoded events *)

Inductive sse_event : Type :=
| EvStart (r : string) (u : option anthropicUsage)
| EvBlock (i : Z) (b : anthropicContentBlock)
| EvText (i : Z) (s : string)
| EvJSON (i : Z) (s : string)
| EvUsage (out : Z)
| EvStop
| EvOther.

(** What an event with a name and a payload says; a payload that does not decode, and an
    event the accumulator does not know, say nothing. *)
Definition decode_event (codec : AnthropicCodec) (np : string * string) : sse_event :=
  let '(name, data) := np in
  if decide (name = "message_start") then
    match unmarshal_message_start codec data with
    | Some msg => EvStart (resp_Role (ms_Message msg)) (resp_Usage (ms_Message msg))
    | None => EvOther
    end
  else if decide (name = "content_block_start") then
    match unmarshal_block_start codec data with
    | Some cbs => EvBlock (cbs_Index cbs) (cbs_ContentBlock cbs)
    | None => EvOther
    end
  else if decide (name = "content_block_delta") then
    match unmarshal_block_delta codec data with
    | Some cbd =>
        if decide (delta_Type (cbd_Delta cbd) = "text_delta")
        then EvText (cbd_Index cbd) (delta_Text (cbd_Delta cbd))
        else if decide (delta_Type (cbd_Delta cbd) = "input_json_delta")
        then EvJSON (cbd_Index cbd) (delta_PartialJSON (cbd_Delta cbd))
        else EvOther
    | None => EvOther
    end
  else if decide (name = "message_delta") then
    match unmarshal_message_delta codec data with
    | Some md => from_option (fun du => EvUsage (du_OutputTokens du)) EvOther (md_Usage md)
    | None => EvOther
    end
  else if decide (name = "message_stop") then EvStop
  else EvOther.

Definition set_output (u : anthropicUsage) (out : Z) : anthropicUsage :=
  mkAnthropicUsage (InputTokens u) out (CacheCreationInputTokens u) (CacheReadInputTokens u).

Definition apply_event (a : accState) (e : sse_event) : option accState :=
  match e with
  | EvStart r u =>
      Some (mkAccState (done_ a) r (match u with Some u => Some u | None => usage a end)
              (contentBlocks a) (textByIndex a) (jsonByIndex a) (currentEvent a))
  | EvBlock i b =>
      blocks ← set_block (contentBlocks a) i b;
      Some (mkAccState (done_ a) (role a) (usage a) blocks (textByIndex a) (jsonByIndex a) (currentEvent a))
  | EvText i s =>
      Some (mkAccState (done_ a) (role a) (usage a) (contentBlocks a) (append_at (textByIndex a) i s)
              (jsonByIndex a) (currentEvent a))
  | EvJSON i s =>
      Some (mkAccState (done_ a) (role a) (usage a) (contentBlocks a) (textByIndex a)
              (append_at (jsonByIndex a) i s) (currentEvent a))
  | EvUsage out =>
      Some (mkAccState (done_ a) (role a) (flip set_output out <$> usage a)
              (contentBlocks a) (textByIndex a) (jsonByIndex a) (currentEvent a))
  | EvStop =>
      Some (mkAccState true (role a) (usage a) (contentBlocks a) (textByIndex a) (jsonByIndex a) (currentEvent a))
  | EvOther => Some a
  end.

Lemma processEvent_apply codec a name data :
  processEvent codec a name data = apply_event a (decode_event codec (name, data)).
Proof.
  unfold processEvent, decode_event. repeat case_decide; try done; try (by case_match).
  - destruct (unmarshal_block_delta codec data) as [cbd|]; [|done]. by repeat case_decide.
  - destruct (unmarshal_message_delta codec data) as [md|]; [|by destruct a].
    destruct a as [d r [u|] c t j ev], (md_Usage md) as [du|]; done.
Qed.

Lemma apply_event_set_event a ev e :
  apply_event (set_event a ev) e = (fun a' => set_event a' ev) <$> apply_event a e.
Proof. destruct e; cbn; try done. by destruct (set_block _ _ _). Qed.

Fixpoint run_events (a : accState) (es : list sse_event) : option accState :=
  match es with
  | [] => Some a
  | e :: es' => a' ← apply_event a e; run_events a' es'
  end.

Lemma run_events_app a es1 es2 :
  run_events a (es1 ++ es2) = a' ← run_events a es1; run_events a' es2.
Proof.
  revert a. induction es1 as [|e es1 IH]; intros a; cbn; [done|]. by destruct (apply_event a e); cbn.
Qed.

(** *** The blocks *)

Definition block_at (bs : list anthropicContentBlock) (i : nat) : anthropicContentBlock :=
  default emptyBlock (bs !! i).

Lemma grow_app n bs : grow n bs = bs ++ replicate n emptyBlock.
Proof.
  revert bs. induction n as [|n IH]; intros bs; cbn; [by rewrite app_nil_r|]. by rewrite IH, <-app_assoc.
Qed.

Lemma block_at_grow n bs i : block_at (grow n bs) i = block_at bs i.
Proof.
  unfold block_at. rewrite grow_app, lookup_app. destruct (bs !! i) eqn:Hi; [done|].
  destruct (replicate n emptyBlock !! (i - length bs)%nat) eqn:Hr; [|done].
  by apply lookup_replicate in Hr as [-> _].
Qed.

Lemma set_block_Some bs i b :
  0 <= i -> exists bs', set_block bs i b = Some bs' /\
    length bs' = Nat.max (length bs) (Z.to_nat i + 1) /\
    forall j, block_at bs' j = if decide (j = Z.to_nat i) then b else block_at bs j.
Proof.
  intros Hi. unfold set_block. set (g := grow _ bs).
  assert (Hl : length g = Nat.max (length bs) (Z.to_nat i + 1)).
  { subst g. rewrite grow_app, length_app, length_replicate. lia. }
  rewrite (proj2 (Z.leb_le 0 i)), (proj2 (Z.ltb_lt i (zlen g))) by lia. cbn [andb].
  eexists. split; [done|]. split; [by rewrite length_insert|]. intros j. unfold block_at at 1.
  case_decide as Hj.
  - subst j. rewrite list_lookup_insert_eq by lia. done.
  - rewrite list_lookup_insert_ne by done. apply (block_at_grow _ bs j).
Qed.

Lemma set_block_None bs i b : i < 0 -> set_block bs i b = None.
Proof. intros Hi. unfold set_block. by rewrite (proj2 (Z.leb_gt 0 i)). Qed.

(** No negative index. *)
Definition event_ok (e : sse_event) : Prop := match e with EvBlock i _ => 0 <= i | _ => True end.

Lemma apply_event_panics a e : apply_event a e = None <-> ~ event_ok e.
Proof.
  destruct e; cbn; try (split; [done|intros []; done]). split.
  - intros Hn Hi. destruct (set_block_Some (contentBlocks a) i b Hi) as (bs & Hs & _). by rewrite Hs in Hn.
  - intros Hi. by rewrite set_block_None by lia.
Qed.

(** *** One block at a time *)

(** What the accumulator knows of block [i]. *)
Definition proj (i : nat) (a : accState) : anthropicContentBlock * option string * option string :=
  (block_at (contentBlocks a) i, textByIndex a !! Z.of_nat i, jsonByIndex a !! Z.of_nat i).

Definition event_index (e : sse_event) : option Z :=
  match e with EvBlock i _ | EvText i _ | EvJSON i _ => Some i | _ => None end.

Definition proj_step (p : anthropicContentBlock * option string * option string) (e : sse_event)
    : anthropicContentBlock * option string * option string :=
  match e with
  | EvBlock _ b => (b, p.1.2, p.2)
  | EvText _ s => (p.1.1, Some (default "" p.1.2 +:+ s), p.2)
  | EvJSON _ s => (p.1.1, p.1.2, Some (default "" p.2 +:+ s))
  | _ => p
  end.

Lemma proj_apply i a e a' :
  apply_event a e = Some a' ->
  proj i a' = if decide (event_index e = Some (Z.of_nat i)) then proj_step (proj i a) e else proj i a.
Proof.
  unfold proj. destruct e as [r u|k b|k s|k s|out| |]; cbn [apply_event event_index].
  - intros [= <-]. by case_decide.
  - intros (bs & Hs & [= <-])%bind_Some. cbn.
    destruct (decide (0 <= k)) as [Hk|Hk]; [|by rewrite set_block_None in Hs by lia].
    destruct (set_block_Some (contentBlocks a) k b Hk) as (bs' & Hs' & _ & Hat). simplify_eq. rewrite Hat.
    destruct (decide (i = Z.to_nat k)) as [->|Hne].
    + by rewrite decide_True by (f_equal; lia).
    + rewrite decide_False; [done|]. intros [= ->]. lia.
  - intros [= <-]. cbn. unfold append_at. rewrite lookup_insert. repeat case_decide; simplify_eq; done.
  - intros [= <-]. cbn. unfold append_at. rewrite lookup_insert. repeat case_decide; simplify_eq; done.
  - intros [= <-]. by case_decide.
  - intros [= <-]. by case_decide.
  - intros [= <-]. by case_decide.
Qed.

Lemma proj_run i a es a' :
  run_events a es = Some a' ->
  proj i a' = foldl proj_step (proj i a) (filter (fun e => event_index e = Some (Z.of_nat i)) es).
Proof.
  revert a. induction es as [|e es IH]; intros a; cbn [run_events]; [by intros [= <-]|].
  intros (a1 & H1 & H2)%bind_Some. rewrite (IH a1 H2), (proj_apply i _ _ _ H1), filter_cons. by case_decide.
Qed.

(** The rest of the state is left alone by the events of blocks. *)
Lemma run_blocks a es :
  Forall (fun e => e = EvOther \/ exists i, event_index e = Some i /\ 0 <= i) es ->
  exists a', run_events a es = Some a' /\ role a' = role a /\ usage a' = usage a /\ done_ a' = done_ a.
Proof.
  intros Hf. revert a. induction Hf as [|e es He Hf IH]; intros a; cbn [run_events]; [eauto|].
  assert (exists a', apply_event a e = Some a' /\ role a' = role a /\ usage a' = usage a /\ done_ a' = done_ a)
    as (a1 & -> & <- & <- & <-).
  { destruct He as [->|(i & He & Hi)]; [by eexists|]. destruct e; simplify_eq/=; try by eexists.
    destruct (set_block_Some (contentBlocks a) i b Hi) as (bs & -> & _). by eexists. }
  apply IH.
Qed.

Lemma run_length a es a' n :
  run_events a es = Some a' -> (length (contentBlocks a) <= n)%nat ->
  Forall (fun e => forall i, event_index e = Some i -> i < Z.of_nat n) es ->
  (length (contentBlocks a) <= length (contentBlocks a') <= n)%nat /\
  forall i b, EvBlock i b ∈ es -> (Z.to_nat i < length (contentBlocks a'))%nat.
Proof.
  revert a. induction es as [|e es IH]; intros a; cbn [run_events].
  { intros [= <-] Hl _. split; [lia|]. by intros i b ?%not_elem_of_nil. }
  intros (a1 & H1 & H2)%bind_Some Hl [He Hf]%Forall_cons.
  assert (Hlen : (length (contentBlocks a) <= length (contentBlocks a1) <= n)%nat /\
    forall i b, e = EvBlock i b -> (Z.to_nat i < length (contentBlocks a1))%nat).
  { destruct e as [r u|k b|k s|k s|out| |]; cbn in H1; simplify_eq/=; try (split; [lia|done]).
    apply bind_Some in H1 as (bs & Hs & [= <-]). cbn.
    destruct (decide (0 <= k)) as [Hk|Hk]; [|by rewrite set_block_None in Hs by lia].
    destruct (set_block_Some (contentBlocks a) k b Hk) as (bs' & Hs' & Hlen & _). simplify_eq.
    specialize (He k eq_refl). split; [lia|]. intros i b' [= <- <-]. lia. }
  destruct Hlen as [Hlen Hnew]. destruct (IH a1 H2 ltac:(lia) Hf) as [H3 H4]. split; [lia|].
  intros i b [<-|Hin]%elem_of_cons; [|by eapply H4]. specialize (Hnew i b eq_refl). lia.
Qed.

(** ** Reassembly *)

(** A block as the stream carries it: how it starts, and the pieces of its text or of its
    input. *)
Record streamed_block : Type := mkStreamedBlock {
  sb_start : anthropicContentBlock;
  sb_pieces : list string;
}.

Definition piece_event (i : nat) (b : anthropicContentBlock) (s : string) : sse_event :=
  if decide (cb_Type b = "text") then EvText (Z.of_nat i) s else EvJSON (Z.of_nat i) s.

(** The block with its pieces put together. *)
Definition assembled (sb : streamed_block) : anthropicContentBlock :=
  let b := sb_start sb in
  if decide (length (sb_pieces sb) = 0%nat) then b
  else if decide (cb_Type b = "text") then
    mkBlock (cb_Type b) (Join (sb_pieces sb) "") (cb_ID b) (cb_Name b) (cb_Input b) (cb_ToolUseID b) (cb_Content b)
  else if decide (cb_Type b = "tool_use") then
    mkBlock (cb_Type b) (cb_Text b) (cb_ID b) (cb_Name b) (Join (sb_pieces sb) "") (cb_ToolUseID b) (cb_Content b)
  else b.

(** The events [es] carry the blocks: those of block [i] are its start and its pieces, in
    order; the blocks may be interleaved and other events may come in between. *)
Definition carries (es : list sse_event) (sbs : list streamed_block) : Prop :=
  Forall (fun e => e = EvOther \/ exists i, event_index e = Some i /\ 0 <= i < zlen sbs) es /\
  forall i sb, sbs !! i = Some sb ->
    filter (fun e => event_index e = Some (Z.of_nat i)) es =
    EvBlock (Z.of_nat i) (sb_start sb) :: (piece_event i (sb_start sb) <$> sb_pieces sb).

Lemma fold_pieces i b ps o1 o2 :
  foldl proj_step (b, o1, o2) (piece_event i b <$> ps) =
  match ps with
  | [] => (b, o1, o2)
  | _ => if decide (cb_Type b = "text") then (b, Some (default "" o1 +:+ Join ps ""), o2)
         else (b, o1, Some (default "" o2 +:+ Join ps ""))
  end.
Proof.
  revert o1 o2. induction ps as [|p ps IH]; intros o1 o2; [done|]. cbn [fmap list_fmap foldl].
  assert (proj_step (b, o1, o2) (piece_event i b p) =
    if decide (cb_Type b = "text") then (b, Some (default "" o1 +:+ p), o2)
    else (b, o1, Some (default "" o2 +:+ p))) as -> by (unfold piece_event; by case_decide).
  rewrite Join_cons. destruct (decide (cb_Type b = "text")); rewrite IH;
    (destruct ps; [cbn; by rewrite str_app_nil_r|]); cbn [from_option id]; by rewrite str_app_assoc.
Qed.

Lemma carries_blocks a es sbs :
  contentBlocks a = [] -> textByIndex a = ∅ -> jsonByIndex a = ∅ -> carries es sbs ->
  exists a', run_events a es = Some a' /\ role a' = role a /\ usage a' = usage a /\ done_ a' = done_ a /\
    imap (finish_block a') (contentBlocks a') = assembled <$> sbs.
Proof.
  intros Hb Ht Hj [Hf Hc]. destruct (run_blocks a es) as (a' & Hr & ? & ? & ?).
  { eapply Forall_impl; [exact Hf|]. cbn. intros e [?|(i & ? & ?)]; [by left|right]. exists i. split; [done|lia]. }
  exists a'. split_and!; try done. destruct (run_length a es a' (length sbs) Hr) as [Hlen Hnew].
  { rewrite Hb. cbn. lia. }
  { eapply Forall_impl; [exact Hf|]. cbn. intros e [->|(i & Hi & ?)] k Hk; [done|]. rewrite Hi in Hk.
    injection Hk as <-. lia. }
  assert (Hl : length (contentBlocks a') = length sbs).
  { destruct (Nat.lt_ge_cases (length (contentBlocks a')) (length sbs)) as [Hlt|]; [exfalso|lia].
    destruct (lookup_lt_is_Some_2 _ _ Hlt) as [sb Hsb]. specialize (Hc _ _ Hsb).
    assert (Hin : EvBlock (Z.of_nat (length (contentBlocks a'))) (sb_start sb) ∈
      filter (fun e => event_index e = Some (Z.of_nat (length (contentBlocks a')))) es) by (rewrite Hc; left).
    apply list_elem_of_filter in Hin as [_ Hin]. specialize (Hnew _ _ Hin). lia. }
  apply list_eq. intros i. rewrite list_lookup_imap, list_lookup_fmap.
  destruct (sbs !! i) as [sb|] eqn:Hi.
  - pose proof (proj_run i a es a' Hr) as Hp. rewrite (Hc i sb Hi) in Hp. cbn [foldl proj_step] in Hp.
    unfold proj at 2 3 in Hp. rewrite Ht, Hj, !lookup_empty in Hp. cbn [fst snd] in Hp. rewrite fold_pieces in Hp.
    destruct (lookup_lt_is_Some_2 (contentBlocks a') i) as [b Hbi].
    { rewrite Hl. by eapply lookup_lt_Some. }
    rewrite Hbi. cbn [fmap option_fmap option_map]. f_equal. unfold proj, block_at in Hp. rewrite Hbi in Hp.
    cbn [from_option id] in Hp. unfold assembled, finish_block.
    destruct (sb_pieces sb) as [|p ps].
    + injection Hp as -> -> ->. cbn [length]. by repeat case_decide.
    + rewrite (decide_False (P := length (p :: ps) = 0%nat)) by done. case_decide; injection Hp as -> -> ->.
      * rewrite decide_True by done. done.
      * rewrite decide_False by done. by case_decide.
  - apply lookup_ge_None in Hi. by rewrite (proj2 (lookup_ge_None _ _)) by lia.
Qed.

(** ** Chunks *)

Section Chunks.
Context (codec : AnthropicCodec).
Let on_line := on_line codec.
#[local] Abbreviation D := (anthropic_decoder codec).

(** The state after lines, [None] for a panic. *)
Definition outcome (r : line_result accState) : option accState :=
  match r with LNext a => Some a | _ => None end.

(** A line that does nothing: neither an event line nor a data line. *)
Definition inert (l : string) : bool :=
  negb (HasPrefix (TrimSpace l) sseEventPrefix) && negb (HasPrefix (TrimSpace l) sseDataPrefix).

(** Nothing but such lines follows the [message_stop] event. *)
Fixpoint stops_quietly (a : accState) (lines : list string) : Prop :=
  match lines with
  | [] => True
  | l :: ls =>
      match on_line a (TrimSpace l) with
      | LNext a' => if done_ a' then Forall (fun l => inert l = true) ls else stops_quietly a' ls
      | _ => True
      end
  end.

Lemma inert_lines a ls : Forall (fun l => inert l = true) ls -> ref_lines on_line a ls = LNext a.
Proof.
  induction 1 as [|l ls Hl Hf IH]; cbn [ref_lines]; [done|]. unfold inert in Hl. reflect_bools.
  subst on_line. unfold AnthropicDecoder.on_line at 1. by rewrite H, H0.
Qed.

Lemma stops_quietly_app a l1 l2 :
  stops_quietly a (l1 ++ l2) -> done_ a = false ->
  stops_quietly a l1 /\
  forall a1, ref_lines on_line a l1 = LNext a1 ->
    if done_ a1 then Forall (fun l => inert l = true) l2 else stops_quietly a1 l2.
Proof.
  revert a. induction l1 as [|l l1 IH]; intros a; cbn [app stops_quietly ref_lines].
  { intros Hq Hd. split; [done|]. intros a1 [= <-]. by rewrite Hd. }
  destruct (on_line a (TrimSpace l)) as [a'|a'|a']; [|done..].
  destruct (done_ a') eqn:Hd'; [|intros Hq _; by apply IH].
  intros [Hf1 Hf2]%Forall_app _. split; [done|]. intros a1. rewrite inert_lines by done.
  intros [= <-]. by rewrite Hd'.
Qed.

Lemma feed_done a chunks : done_ (state a) = true -> feed_chunks D a chunks = Some a.
Proof.
  intros Hd. induction chunks as [|c cs IH]; [done|]. cbn. unfold acc_feed. rewrite Hd. exact IH.
Qed.

(** However the stream is cut, the accumulator ends in the state of the reference. *)
Lemma feed_lines a chunks (lines := complete_lines (buf a +:+ Join chunks "")) :
  done_ (state a) = false -> ContainsByte (buf a) newline = false -> stops_quietly (state a) lines ->
  state <$> feed_chunks D a chunks = outcome (ref_lines on_line (state a) lines).
Proof.
  subst lines. revert a. induction chunks as [|c cs IH]; intros [b st]; cbn [buf state]; intros Hd Hb.
  { rewrite str_app_nil_r. by destruct (lines_absent b Hb) as [-> _]. }
  rewrite Join_cons, <-str_app_assoc.
  destruct (complete_lines_app (b +:+ c) (Join cs "")) as [-> _]. rewrite ref_lines_app.
  intros Hq. destruct (stops_quietly_app _ _ _ Hq Hd) as [_ Hnext].
  cbn [feed_chunks feed D anthropic_decoder]. unfold acc_feed, parseEvents. cbn [buf state]. rewrite Hd.
  destruct (parse_lines_ref on_line st "" (b +:+ c) eq_refl) as (rest & Hp & Hrest).
  cbn [String.append] in Hrest, Hp |- *. fold on_line. rewrite Hp.
  destruct (ref_lines on_line st (complete_lines (b +:+ c))) as [p|p|p] eqn:Hr; cbn [lr_state lr_ok].
  - specialize (Hnext p eq_refl). rewrite (Hrest _ eq_refl). cbn [mbind option_bind].
    destruct (done_ p) eqn:Hdp.
    + rewrite feed_done by done. by rewrite inert_lines.
    + apply (IH (mkAccumulator (rest_line (b +:+ c)) p)); [done|apply rest_line_absent|done].
  - exfalso. clear -Hr. revert st Hr. induction (complete_lines (b +:+ c)) as [|l ls IH]; intros st; cbn [ref_lines].
    { done. }
    destruct (on_line st (TrimSpace l)) as [a'|a'|a'] eqn:Hl; [by apply IH| |done].
    revert Hl. subst on_line. unfold AnthropicDecoder.on_line. by repeat case_match.
  - done.
Qed.

(** ** The text of a stream *)

Definition event_text (np : string * string) : string :=
  "event: " +:+ np.1 +:+ nl +:+ "data: " +:+ np.2 +:+ nl +:+ nl.

Definition wire (nps : list (string * string)) : string := Join (event_text <$> nps) "".

Definition clean (np : string * string) : Prop :=
  clean_line ("event: " +:+ np.1) /\ clean_line ("data: " +:+ np.2).

Lemma event_lines np s :
  clean np -> complete_lines (event_text np +:+ s) =
    ("event: " +:+ np.1) :: ("data: " +:+ np.2) :: "" :: complete_lines s.
Proof.
  intros [[H1 _] [H2 _]].
  assert (event_text np +:+ s = ("event: " +:+ np.1) +:+ String newline
    (("data: " +:+ np.2) +:+ String newline ("" +:+ String newline s))) as ->.
  { unfold event_text, nl. rewrite !str_app_assoc. done. }
  destruct (lines_cons _ (("data: " +:+ np.2) +:+ String newline ("" +:+ String newline s)) H1) as [-> _].
  destruct (lines_cons _ ("" +:+ String newline s) H2) as [-> _].
  by destruct (lines_cons "" s eq_refl) as [-> _].
Qed.

(** The three lines of an event. *)
Lemma on_event a np :
  clean np ->
  on_line a (TrimSpace ("event: " +:+ np.1)) = LNext (set_event a np.1) /\
  on_line (set_event a np.1) (TrimSpace ("data: " +:+ np.2)) =
    match apply_event a (decode_event codec np) with
    | Some a' => LNext (set_event a' "")
    | None => LError (set_event a np.1)
    end.
Proof.
  intros [[_ H1] [_ H2]]. rewrite H1, H2. subst on_line. unfold AnthropicDecoder.on_line. split.
  - change "event: " with sseEventPrefix. by rewrite HasPrefix_app, TrimPrefix_app.
  - replace (HasPrefix ("data: " +:+ np.2) sseEventPrefix) with false by done.
    change "data: " with sseDataPrefix. rewrite HasPrefix_app, TrimPrefix_app, processEvent_apply.
    cbn [currentEvent set_event]. rewrite apply_event_set_event. rewrite <-surjective_pairing.
    by destruct (apply_event a (decode_event codec np)).
Qed.

Lemma apply_event_current a e a' : apply_event a e = Some a' -> currentEvent a' = currentEvent a.
Proof. destruct e; cbn; try (by intros [= <-]). by intros (? & _ & [= <-])%bind_Some. Qed.

Lemma wire_cons np nps : wire (np :: nps) = event_text np +:+ wire nps.
Proof. unfold wire. apply Join_cons. Qed.

Lemma set_event_same a : currentEvent a = "" -> set_event a "" = a.
Proof. destruct a. cbn. by intros ->. Qed.

(** The lines of a stream run its events. *)
Lemma wire_ref a nps :
  Forall clean nps -> currentEvent a = "" ->
  outcome (ref_lines on_line a (complete_lines (wire nps))) = run_events a (decode_event codec <$> nps).
Proof.
  intros Hf. revert a. induction Hf as [|np nps Hc Hf IH]; intros a Ha; [done|].
  rewrite wire_cons, event_lines by done. cbn [ref_lines fmap list_fmap run_events].
  destruct (on_event a np Hc) as [-> ->].
  destruct (apply_event a (decode_event codec np)) as [a'|] eqn:He; [|done]. cbn [mbind option_bind].
  apply apply_event_current in He. rewrite set_event_same by congruence.
  change (TrimSpace "") with "". replace (on_line a' "") with (LNext a') by done.
  apply IH. congruence.
Qed.

Lemma apply_event_done a e a' :
  apply_event a e = Some a' -> e <> EvStop -> done_ a' = done_ a.
Proof. destruct e; cbn; try (by intros [= <-]). by intros (? & _ & [= <-])%bind_Some. Qed.

(** A stream in which [message_stop] can only be the last event stops quietly. *)
Lemma wire_stops_quietly a nps last :
  Forall clean nps -> clean last -> currentEvent a = "" -> done_ a = false ->
  Forall (fun np => decode_event codec np <> EvStop) nps ->
  stops_quietly a (complete_lines (wire (nps ++ [last]))).
Proof.
  intros Hf Hl. revert a. induction Hf as [|np nps Hc Hf IH]; intros a Ha Hd Hs; cbn [app].
  - rewrite wire_cons, event_lines by done. cbn [stops_quietly].
    destruct (on_event a last Hl) as [-> ->]. cbn [done_ set_event]. rewrite Hd.
    destruct (apply_event a (decode_event codec last)) as [a'|]; [|done]. cbn [done_ set_event].
    destruct (done_ a') eqn:Hd'; [by repeat constructor|].
    change (TrimSpace "") with "". replace (on_line (set_event a' "") "") with (LNext (set_event a' "")) by done.
    cbn [done_ set_event]. by rewrite Hd'.
  - apply Forall_cons in Hs as [Hs1 Hs]. rewrite wire_cons, event_lines by done. cbn [stops_quietly].
    destruct (on_event a np Hc) as [-> ->]. cbn [done_ set_event]. rewrite Hd.
    destruct (apply_event a (decode_event codec np)) as [a'|] eqn:He; [|done]. cbn [done_ set_event].
    rewrite (apply_event_done _ _ _ He Hs1), Hd.
    change (TrimSpace "") with "". replace (on_line (set_event a' "") "") with (LNext (set_event a' "")) by done.
    cbn [done_ set_event]. rewrite (apply_event_done _ _ _ He Hs1), Hd.
    pose proof (apply_event_current _ _ _ He). rewrite set_event_same by congruence.
    apply IH; [congruence| |done]. by rewrite (apply_event_done _ _ _ He Hs1).
Qed.
End Chunks.

(** ** Streamed and buffered responses *)

(** A message as a stream carries it: the usage of its start, the output tokens of its end
    and its blocks. *)
Record streamed_message : Type := mkStreamedMessage {
  sm_role : string;
  sm_usage : anthropicUsage;
  sm_output : Z;
  sm_blocks : list streamed_block;
}.

Definition sm_content (m : streamed_message) : list anthropicContentBlock := assembled <$> sm_blocks m.
Definition sm_total (m : streamed_message) : anthropicUsage := set_output (sm_usage m) (sm_output m).

(** The events of a message: its start, its blocks, its usage and its end. *)
Definition encodes (codec : AnthropicCodec) (nps : list (string * string)) (m : streamed_message) : Prop :=
  Forall clean nps /\
  exists start body delta stop, nps = (start :: body ++ [delta]) ++ [stop] /\
    decode_event codec start = EvStart (sm_role m) (Some (sm_usage m)) /\
    carries (decode_event codec <$> body) (sm_blocks m) /\
    decode_event codec delta = EvUsage (sm_output m) /\
    decode_event codec stop = EvStop.

(** The response that is the same message in one piece. *)
Definition same_message (resp : anthropicResponse) (m : streamed_message) : Prop :=
  resp_Role resp = sm_role m /\ resp_Content resp = Some <$> sm_content m /\ resp_Usage resp = Some (sm_total m).

Lemma mapM_id_Some {A} (l : list A) : mapM id (Some <$> l) = Some l.
Proof. induction l as [|x l IH]; [done|]. cbn. by rewrite IH. Qed.

Lemma mapM_id_None {A} (l : list (option A)) : mapM id l = None <-> None ∈ l.
Proof.
  induction l as [|[x|] l IH]; cbn.
  - split; [done|]. by intros ?%not_elem_of_nil.
  - rewrite elem_of_cons. destruct (mapM id l); cbn; naive_solver.
  - split; [by left|done].
Qed.

Section Responses.
Context (codec : AnthropicCodec) {H : Type} `{!HeaderMap H}.
#[local] Abbreviation D := (anthropic_decoder codec).

Lemma setResponseMetadata_same ns resp resp' :
  resp_Role resp = resp_Role resp' -> resp_Content resp = resp_Content resp' ->
  resp_Usage resp = resp_Usage resp' ->
  anthropic_setResponseMetadata ns resp = anthropic_setResponseMetadata ns resp'.
Proof. unfold anthropic_setResponseMetadata. by intros -> -> ->. Qed.

(** The calls for a stream depend on the final state only. *)
Lemma streamed_calls_state ns chunks :
  streamed_calls D ns chunks =
  st ← state <$> feed_chunks D newAnthropicSSEAccumulator chunks;
  calls_of <$> anthropic_setResponseMetadata ns (acc_finish (mkAccumulator "" st)).2.
Proof.
  unfold streamed_calls. cbn [new_acc D anthropic_decoder].
  destruct (feed_chunks D newAnthropicSSEAccumulator chunks) as [acc|]; [|done]. done.
Qed.

Lemma no_stop_in_body body m :
  carries (decode_event codec <$> body) m -> Forall (fun np => decode_event codec np <> EvStop) body.
Proof.
  intros [Hf _]. apply Forall_fmap in Hf. eapply Forall_impl; [exact Hf|].
  intros np [E|(i & E & _)] Hs; cbn in *; rewrite Hs in E; done.
Qed.

Lemma encodes_feed nps chunks m :
  encodes codec nps m -> Join chunks "" = wire nps ->
  exists st, state <$> feed_chunks D newAnthropicSSEAccumulator chunks = Some st /\
    same_message (acc_finish (mkAccumulator "" st)).2 m.
Proof.
  intros (Hc & start & body & delta & stop & -> & Hstart & Hbody & Hdelta & Hstop) Hw.
  apply Forall_app in Hc as [Hc Hcs]. pose proof (Forall_inv Hcs) as Hcl.
  rewrite (feed_lines codec newAnthropicSSEAccumulator chunks); [|done|done|];
    cbn [buf state newAnthropicSSEAccumulator String.append]; rewrite Hw.
  2: { apply wire_stops_quietly; try done. apply Forall_cons. split; [by rewrite Hstart|]. apply Forall_app.
       split; [by eapply no_stop_in_body|]. apply Forall_singleton. by rewrite Hdelta. }
  rewrite wire_ref; [|by apply Forall_app|done].
  rewrite fmap_app, fmap_cons, fmap_app. cbn [fmap list_fmap]. rewrite Hstart, Hdelta, Hstop.
  cbn [app run_events apply_event mbind option_bind]. rewrite !run_events_app.
  set (a0 := mkAccState _ _ _ _ _ _ _).
  destruct (carries_blocks a0 _ _ eq_refl eq_refl eq_refl Hbody) as (a' & -> & Hr & Hu & Hd & Hb).
  cbn. eexists. split; [done|]. split_and!; cbn; [done| |].
  - f_equal. exact Hb.
  - rewrite Hu. done.
Qed.

(** C21: a streamed response is described as the same response sent in one piece.
    However the event stream of a message is cut into chunks, its blocks interleaved
    and its body ended, the calls are those for a response that is not streamed and
    decodes to the message: the pieces of each block are put together under its index,
    and the metadata describes the message. *)
Theorem anthropic_streamed_as_buffered f hs hs' bodies bodies' e e' w whole nps m resp :
  sseAcc f = None -> responseProcessed f = false ->
  event_stream hs = true -> event_stream hs' = false ->
  encodes codec nps m -> Join (concat bodies ++ last_chunks e) "" = wire nps ->
  whole <> "" -> decodeAnthropicResponse codec whole = Some resp -> same_message resp m ->
  exists calls, respond D f (hs : H) bodies w e = Some calls /\
    respond D f (hs' : H) bodies' whole e' = Some calls /\
    describes_response (metadata calls) (MetadataNamespace (config f))
      [output_message (sm_role m) (sm_content m)] (usage_entries (sm_total m)).
Proof.
  intros Ha Hp Hs Hs' Hen Hw Hne Hdec (Hr1 & Hc1 & Hu1). rewrite !respond_spec, Hs, Hs' by done.
  destruct (encodes_feed nps _ m Hen Hw) as (st & Hst & Hr2 & Hc2 & Hu2).
  set (ns := MetadataNamespace (config f)).
  destruct (response_described ns resp (sm_content m)) as (h & Hh & Hd).
  { rewrite Hc1. apply mapM_id_Some. }
  exists (calls_of h). split_and!.
  - rewrite streamed_calls_state, Hst. cbn [mbind option_bind].
    rewrite (setResponseMetadata_same ns _ resp) by congruence. by rewrite Hh.
  - unfold buffered_calls. rewrite decide_False by done. change (decode_response D whole) with (decodeAnthropicResponse codec whole). rewrite Hdec.
    change (setResponseMetadata D ns resp) with (anthropic_setResponseMetadata ns resp). by rewrite Hh.
  - rewrite Hr1, Hu1 in Hd. exact Hd.
Qed.

(** Chunking does not matter for the decoder.  Two ways of cutting the same bytes
    give the same calls, for every stream, well formed or not, in which nothing but
    inert lines follows [message_stop]. *)
Theorem anthropic_decoder_chunking ns chunks chunks' :
  stops_quietly codec newState (complete_lines (Join chunks "")) ->
  Join chunks "" = Join chunks' "" ->
  streamed_calls D ns chunks = streamed_calls D ns chunks'.
Proof.
  intros Hq He. rewrite !streamed_calls_state.
  rewrite !(feed_lines codec newAnthropicSSEAccumulator) by (cbn; by rewrite <-?He). cbn. by rewrite He.
Qed.

Lemma run_events_panics a es : run_events a es = None <-> Exists (fun e => ~ event_ok e) es.
Proof.
  revert a. induction es as [|e es IH]; intros a; cbn [run_events].
  { rewrite Exists_nil. by split. }
  rewrite Exists_cons. pose proof (apply_event_panics a e) as He.
  destruct (apply_event a e) as [a'|]; cbn [mbind option_bind].
  - rewrite IH. assert (~ ~ event_ok e) by (by rewrite <-He). tauto.
  - split; [|done]. intros _. left. by apply He.
Qed.

(** The response of a stream never has a nil block. *)
Lemma streamed_not_nil ns st : is_Some (calls_of <$> anthropic_setResponseMetadata ns (acc_finish (mkAccumulator "" st)).2).
Proof.
  unfold anthropic_setResponseMetadata, acc_finish. cbn [snd resp_Content]. rewrite mapM_id_Some. by eexists.
Qed.

(** C23: when the decoder panics.  On an event stream of a message it panics exactly
    when a [content_block_start] has a negative index, whatever the chunks; on a body
    that is not streamed exactly when the decoded content has a null block. *)
Theorem anthropic_panics_exactly f hs bodies e w nps last :
  sseAcc f = None -> responseProcessed f = false ->
  Forall clean nps -> clean last -> Forall (fun np => decode_event codec np <> EvStop) nps ->
  Join (concat bodies ++ last_chunks e) "" = wire (nps ++ [last]) ->
  if event_stream (hs : H)
  then respond D f hs bodies w e = None <-> Exists (fun np => ~ event_ok (decode_event codec np)) (nps ++ [last])
  else respond D f hs bodies w e = None <->
       exists resp, w <> "" /\ decodeAnthropicResponse codec w = Some resp /\ None ∈ resp_Content resp.
Proof.
  intros Ha Hp Hf Hl Hs Hw. rewrite !respond_spec by done. destruct (event_stream hs).
  - rewrite streamed_calls_state, (feed_lines codec newAnthropicSSEAccumulator); [|done|done|];
      cbn [buf state newAnthropicSSEAccumulator String.append]; rewrite Hw;
      [|by apply wire_stops_quietly].
    rewrite wire_ref by (done || by apply Forall_app; split; [|apply Forall_singleton]).
    rewrite <-(Exists_fmap (decode_event codec) (fun e => ~ event_ok e)), <-(run_events_panics newState).
    destruct (run_events _ _) as [st|]; cbn [mbind option_bind]; [|done].
    destruct (streamed_not_nil (MetadataNamespace (config f)) st) as [calls ->]. done.
  - unfold buffered_calls. case_decide as Hn; [naive_solver|].
    change (decode_response D w) with (decodeAnthropicResponse codec w).
    destruct (decodeAnthropicResponse codec w) as [resp|]; [|naive_solver].
    change (setResponseMetadata D) with anthropic_setResponseMetadata.
    unfold anthropic_setResponseMetadata. pose proof (mapM_id_None (resp_Content resp)) as Hm.
    destruct (mapM id (resp_Content resp)); cbn; naive_solver.
Qed.

Lemma decode_event_block name data i b :
  decode_event codec (name, data) = EvBlock i b ->
  exists cbs, unmarshal_block_start codec data = Some cbs /\ cbs_Index cbs = i.
Proof.
  unfold decode_event. repeat case_decide; try done; repeat (case_match; try done).
  - intros [= <- <-]. eauto.
  - destruct (md_Usage _); done.
Qed.

(** The lines of any stream do not panic when no decoded index is negative. *)
Lemma feed_total chunks acc :
  (forall data cbs, unmarshal_block_start codec data = Some cbs -> 0 <= cbs_Index cbs) ->
  is_Some (feed_chunks D acc chunks).
Proof.
  intros Hi. revert acc. induction chunks as [|c cs IH]; intros acc; [by eexists|].
  cbn [feed_chunks]. change (feed D acc c) with (acc_feed codec acc c). unfold acc_feed.
  destruct (done_ (state acc)); [apply IH|]. unfold parseEvents. cbn [buf state].
  cut (forall p line b, (parse_lines (on_line codec) p line b).2 = true).
  { intros Hok. specialize (Hok (state acc) "" (buf acc +:+ c)).
    destruct (parse_lines _ _ _ _) as [[st rest] ok]. cbn in Hok. subst ok. apply IH. }
  intros p line b. revert p line. induction b as [|d b IHb]; intros p line; cbn [parse_lines]; [done|].
  case_decide; [|apply IHb]. unfold on_line at 1. destruct (HasPrefix _ sseEventPrefix); [apply IHb|].
  destruct (HasPrefix _ sseDataPrefix); [|apply IHb]. rewrite processEvent_apply.
  destruct (apply_event p _) eqn:Ha; [apply IHb|]. exfalso. apply apply_event_panics in Ha. apply Ha.
  destruct (decode_event codec _) as [| i blk | | | | |] eqn:He; try done. cbn.
  apply decode_event_block in He as (cbs & Hcbs & <-). by eapply Hi.
Qed.

(** For an upstream whose block indices are not negative and whose content has no
    null, no response makes the decoder panic, whatever its bytes: malformed lines,
    payloads that do not decode, unknown events and cut-off streams included. *)
Theorem anthropic_never_panics f hs bodies w e :
  (forall data cbs, unmarshal_block_start codec data = Some cbs -> 0 <= cbs_Index cbs) ->
  (forall body resp, unmarshal_response codec body = Some resp -> None ∉ resp_Content resp) ->
  sseAcc f = None -> responseProcessed f = false -> is_Some (respond D f (hs : H) bodies w e).
Proof.
  intros Hi Hnull Ha Hp. rewrite respond_spec by done. destruct (event_stream hs).
  - rewrite streamed_calls_state.
    destruct (feed_total (concat bodies ++ last_chunks e) newAnthropicSSEAccumulator Hi) as [acc ->].
    apply streamed_not_nil.
  - unfold buffered_calls. case_decide; [by eexists|].
    change (decode_response D w) with (unmarshal_response codec w).
    destruct (unmarshal_response codec w) as [resp|] eqn:Hr; [|by eexists].
    change (setResponseMetadata D) with anthropic_setResponseMetadata.
    unfold anthropic_setResponseMetadata. destruct (mapM id (resp_Content resp)) eqn:Hm; [by eexists|].
    apply mapM_id_None in Hm. by apply Hnull in Hr.
Qed.
End Responses.

(** ** A small codec *)

Definition ex_text : anthropicContentBlock := mkBlock "text" "" "" "" "" "" "".
Definition ex_tool : anthropicContentBlock := mkBlock "tool_use" "" "t1" "get" "" "" "".
Definition ex_usage : anthropicUsage := mkAnthropicUsage 3 1 0 0.

Definition ex_message : streamed_message :=
  mkStreamedMessage "assistant" ex_usage 9
    [mkStreamedBlock ex_text ["Hel"; "lo"]; mkStreamedBlock ex_tool ["{"; "}"]].

Definition ex_response : anthropicResponse :=
  mkAnthropicResponse "" "" "assistant" "" (Some <$> sm_content ex_message) (Some (sm_total ex_message)).

Definition ex_null_response : anthropicResponse := mkAnthropicResponse "" "" "" "" [None] None.

Definition pick {A} (l : list (string * A)) (s : string) : option A :=
  snd <$> head (filter (fun kv => kv.1 = s) l).

Definition ex_codec : AnthropicCodec := {|
  unmarshal_request := pick [];
  unmarshal_response := pick [("whole", ex_response); ("null", ex_null_response)];
  unmarshal_string := pick [];
  unmarshal_blocks := pick [];
  unmarshal_message_start := pick [("start", mkMessageStart "" (mkAnthropicResponse "" "" "assistant" "" [] (Some ex_usage)))];
  unmarshal_block_start := pick [("b0", mkBlockStart "" 0 ex_text); ("b1", mkBlockStart "" 1 ex_tool);
                                 ("bad", mkBlockStart "" (-1) ex_text)];
  unmarshal_block_delta := pick
    [("d0a", mkBlockDelta "" 0 (mkDelta "text_delta" "Hel" "")); ("d0b", mkBlockDelta "" 0 (mkDelta "text_delta" "lo" ""));
     ("d1a", mkBlockDelta "" 1 (mkDelta "input_json_delta" "" "{")); ("d1b", mkBlockDelta "" 1 (mkDelta "input_json_delta" "" "}"))];
  unmarshal_message_delta := pick [("u", mkMessageDelta "" "end_turn" (Some (mkDeltaUsage 9)))];
  marshal_tool := fun _ => None;
|}.

(** The two blocks are interleaved and an unknown event comes in between. *)
Definition ex_events : list (string * string) :=
  [("message_start", "start"); ("content_block_start", "b0"); ("content_block_start", "b1");
   ("content_block_delta", "d1a"); ("content_block_delta", "d0a"); ("ping", "p");
   ("content_block_delta", "d0b"); ("content_block_delta", "d1b"); ("message_delta", "u")].
Definition ex_stop : string * string := ("message_stop", "s").

Definition ex_filter : decoderFilter (anthropic_decoder ex_codec) :=
  mkDecoderFilter (mkDecoderConfig defaultMetadataNamespace) false false None.
Definition ex_sse_headers : Headers := [("content-type", "text/event-stream; charset=utf-8")].
Definition ex_json_headers : Headers := [("content-type", "application/json")].

Lemma ex_encodes : encodes ex_codec (ex_events ++ [ex_stop]) ex_message.
Proof.
  split; [by repeat constructor|].
  exists ("message_start", "start"), (take 7 (drop 1 ex_events)), ("message_delta", "u"), ex_stop.
  split_and!; try (vm_compute; reflexivity). split.
  - vm_compute. repeat first [apply Forall_nil_2 | apply Forall_cons_2];
      (left; reflexivity) || (right; eexists; split; [reflexivity|split; [discriminate|reflexivity]]).
  - intros [|[|i]] sb; [intros [= <-]; vm_compute; reflexivity..|done].
Qed.

(** The stream cut into pieces of thirty bytes. *)
Definition ex_chunks : list string :=
  (fun i => take_bytes 30 (drop_bytes (30 * i) (wire (ex_events ++ [ex_stop])))) <$> seq 0 20.

Lemma anthropic_streamed_as_buffered_witness :
  exists calls, respond (anthropic_decoder ex_codec) ex_filter ex_sse_headers [ex_chunks] "" EndTrailers = Some calls /\
    metadata calls !! (defaultMetadataNamespace, "llm.output_messages.0.message.content") = Some (MetaString "Hello").
Proof.
  destruct (anthropic_streamed_as_buffered (H := Headers) (HeaderMap0 := assoc_headers) ex_codec ex_filter ex_sse_headers ex_json_headers [ex_chunks] []
    EndTrailers EndTrailers "" "whole" (ex_events ++ [ex_stop]) ex_message ex_response
    eq_refl eq_refl ltac:(vm_compute; reflexivity) ltac:(vm_compute; reflexivity) ex_encodes ltac:(vm_compute; reflexivity) ltac:(discriminate) eq_refl
    ltac:(vm_compute; auto)) as (calls & Hc & _ & [[_ Hd] _]).
  exists calls. split; [exact Hc|]. exact (proj1 (proj2 (Hd 0%nat _ eq_refl))).
Defined.

Lemma anthropic_decoder_chunking_witness :
  streamed_calls (anthropic_decoder ex_codec) "ns" ex_chunks =
  streamed_calls (anthropic_decoder ex_codec) "ns" [wire (ex_events ++ [ex_stop])].
Proof.
  apply (anthropic_decoder_chunking ex_codec "ns" ex_chunks [wire (ex_events ++ [ex_stop])]).
  - replace (Join ex_chunks "") with (wire (ex_events ++ [ex_stop])) by (vm_compute; reflexivity).
    apply wire_stops_quietly; try reflexivity; repeat constructor; discriminate.
  - vm_compute. reflexivity.
Defined.

Lemma anthropic_panics_exactly_witness :
  respond (anthropic_decoder ex_codec) ex_filter ex_sse_headers [[event_text ("content_block_start", "bad")]]
    "" EndTrailers = None.
Proof.
  assert (Hs : event_stream ex_sse_headers = true) by (vm_compute; reflexivity).
  pose proof (anthropic_panics_exactly (H := Headers) (HeaderMap0 := assoc_headers) ex_codec ex_filter ex_sse_headers
    [[event_text ("content_block_start", "bad")]] EndTrailers "" [] ("content_block_start", "bad")) as Hp.
  rewrite Hs in Hp. apply Hp; [reflexivity|reflexivity|constructor|vm_compute; auto|constructor|vm_compute; reflexivity|].
  constructor. vm_compute. auto.
Defined.

(** The small codec without its negative index and without its null block. *)
Definition ex_good_codec : AnthropicCodec := {|
  unmarshal_request := unmarshal_request ex_codec;
  unmarshal_response := pick [("whole", ex_response)];
  unmarshal_string := unmarshal_string ex_codec;
  unmarshal_blocks := unmarshal_blocks ex_codec;
  unmarshal_message_start := unmarshal_message_start ex_codec;
  unmarshal_block_start := pick [("b0", mkBlockStart "" 0 ex_text); ("b1", mkBlockStart "" 1 ex_tool)];
  unmarshal_block_delta := unmarshal_block_delta ex_codec;
  unmarshal_message_delta := unmarshal_message_delta ex_codec;
  marshal_tool := marshal_tool ex_codec;
|}.

Lemma pick_elem {A} (l : list (string * A)) s x : pick l s = Some x -> x ∈ l.*2.
Proof.
  unfold pick. intros (kv & Hkv & ->)%fmap_Some. apply filter_head_Some in Hkv as [Hin _].
  by apply (list_elem_of_fmap_2 snd).
Qed.

Lemma anthropic_never_panics_witness :
  is_Some (respond (anthropic_decoder ex_good_codec)
    (mkDecoderFilter (mkDecoderConfig "ns") false false None) ex_sse_headers
    [["data: x" +:+ nl +:+ "event: content_block_start" +:+ nl]] "" (EndOfStream ["data: bad" +:+ nl])).
Proof.
  apply (anthropic_never_panics (H := Headers) (HeaderMap0 := assoc_headers) ex_good_codec (mkDecoderFilter (mkDecoderConfig "ns") false false None)
    ex_sse_headers [["data: x" +:+ nl +:+ "event: content_block_start" +:+ nl]] "" (EndOfStream ["data: bad" +:+ nl]));
    [| |reflexivity|reflexivity].
  - intros data cbs Hin%pick_elem. revert cbs Hin. apply Forall_forall. by repeat constructor.
  - intros body resp Hin%pick_elem. revert resp Hin. apply Forall_forall. constructor; [|constructor].
    apply (bool_decide_eq_true_1 (None ∉ resp_Content ex_response)). vm_compute. reflexivity.
Defined.

(** A request without a body and a streamed response that ends with trailers. *)
Definition ex_stream_events : list (decoder_event Headers) :=
  [DReqHeaders true; DRespHeaders ex_sse_headers false; DRespBody ex_chunks "" false; DRespTrailers ""].

Lemma decoded_once_witness :
  from_option (fun s => writes "llm.output_messages.count" (ds_calls _ s)) 0%nat
    (run_stream (anthropic_decoder ex_codec) (decoder_init _ (mkDecoderConfig "ns")) ex_stream_events) = 1%nat.
Proof.
  assert (Hc : from_option (fun s => bool_decide (ds_resp _ s = Closed /\ is_Some (sseAcc (ds_filter _ s)))) false
    (run_stream (anthropic_decoder ex_codec) (decoder_init _ (mkDecoderConfig "ns")) ex_stream_events) = true)
    by (vm_compute; reflexivity).
  destruct (run_stream (anthropic_decoder ex_codec) (decoder_init _ (mkDecoderConfig "ns")) ex_stream_events)
    as [s|] eqn:Hr; [|discriminate Hc].
  apply bool_decide_eq_true in Hc as [Hc Ha].
  apply (decoded_once (anthropic_decoder ex_codec) (H := Headers) (mkDecoderConfig "ns") s); [|exact Hc|exact Ha].
  exact (run_stream_steps _ _ _ _ _ (steps_nil _ _) Hr).
Defined.
