(* ===== verification/ChatDecoder.v ===== *)
(** * chat-completions-decoder

    extensions/composer/chat-completions-decoder/openai.go and plugin.go: the OpenAI chat
    completions format, the accumulator of its event stream and the metadata written for
    a request and a response.  The callbacks are those of [DecoderFilter].  The JSON
    codec is a parameter, a [ChatCodec]. *)

From S2P Require Import Prelude GoStr GoNum Host ExtPkg SSELines DecoderFilter.
From Stdlib Require Import Lia Ascii.

Local Open Scope Z_scope.
Local Open Scope go_scope.

(** ** The format *)

Record chatToolCallFunction : Type := mkCallFunction {
  fn_Name : string;
  fn_Arguments : string;
}.

Record chatToolCall : Type := mkChatToolCall {
  call_ID : string;
  call_Type : string;
  call_Function : chatToolCallFunction;
}.

(** The content is a [json.RawMessage]: a string of bytes. *)
Record chatMessage : Type := mkChatMessage {
  cm_Role : string;
  cm_Content : string;
  cm_ToolCalls : list chatToolCall;
}.

Record chatToolFunction : Type := mkToolFunction {
  tf_Name : string;
  tf_Description : string;
}.

Record chatTool : Type := mkChatTool {
  ct_Type : string;
  ct_Function : chatToolFunction;
}.

Record chatCompletionRequest : Type := mkChatRequest {
  cr_Model : string;
  cr_Messages : list chatMessage;
  cr_Tools : list chatTool;
}.

Record contentPart : Type := mkContentPart {
  part_Type : string;
  part_Text : string;
}.

Record completionTokensDetails : Type := mkTokensDetails {
  ReasoningTokens : Z;
  AudioTokens : Z;
}.

Record chatUsage : Type := mkChatUsage {
  PromptTokens : Z;
  CompletionTokens : Z;
  TotalTokens : Z;
  CompletionTokensDetails : option completionTokensDetails;
}.

Record chatChoice : Type := mkChatChoice {
  choice_Index : Z;
  choice_Message : chatMessage;
}.

Record chatCompletionResponse : Type := mkChatResponse {
  Choices : list chatChoice;
  Usage : option chatUsage;
}.

Record chatStreamingToolCallDelta : Type := mkToolCallDelta {
  tcd_Index : Z;
  tcd_ID : string;
  tcd_Type : string;
  tcd_Function : chatToolCallFunction;
}.

Record chatDelta : Type := mkChatDelta {
  delta_Role : string;
  delta_Content : string;
  delta_ToolCalls : list chatStreamingToolCallDelta;
}.

Record chatChunkChoice : Type := mkChunkChoice {
  cc_Index : Z;
  cc_Delta : chatDelta;
  cc_FinishReason : option string;
}.

Record chatCompletionChunk : Type := mkChunk {
  chunk_Object : string;
  chunk_Choices : list chatChunkChoice;
  chunk_Usage : option chatUsage;
}.

(** [json.Unmarshal] into the types above, [None] for an error, and [json.Marshal]. *)
Record ChatCodec : Type := mkChatCodec {
  unmarshal_request : string -> option chatCompletionRequest;
  unmarshal_response : string -> option chatCompletionResponse;
  unmarshal_string : string -> option string;
  unmarshal_parts : string -> option (list contentPart);
  unmarshal_chunk : string -> option chatCompletionChunk;
  marshal_string : string -> option string;
  marshal_tool : chatTool -> option string;
}.

Definition nl : string := String newline "".

Section Codec.
Context (codec : ChatCodec).

Definition decodeChatRequest (body : string) : option chatCompletionRequest := unmarshal_request codec body.
Definition decodeChatResponse (body : string) : option chatCompletionResponse := unmarshal_response codec body.

Definition extractContent (raw : string) : string :=
  if decide (raw = "") then ""
  else match unmarshal_string codec raw with
       | Some s => s
       | None =>
           match unmarshal_parts codec raw with
           | Some parts =>
               Join (part_Text <$> filter (fun p => part_Type p = "text" /\ part_Text p <> "") parts) nl
           | None => ""
           end
       end.

(** ** The event stream *)

(** The fields of the accumulator other than its buffer. *)
Record chatState : Type := mkChatState {
  done_ : bool;
  usage : option chatUsage;
  roleByChoice : gmap Z string;
  contentByChoice : gmap Z string;
  toolCallsByChoice : gmap Z (gmap Z chatToolCall);
  maxChoiceIdx : Z;
}.

Record sseAccumulator : Type := mkSSEAccumulator {
  buf : string;
  state : chatState;
}.

Definition newChatState : chatState := mkChatState false None ∅ ∅ ∅ (-1).
Definition newSSEAccumulator : sseAccumulator := mkSSEAccumulator "" newChatState.

(** The body of the loop over the tool calls of a delta, on the map of the choice. *)
Definition add_tool_call (m : gmap Z chatToolCall) (d : chatStreamingToolCallDelta) : gmap Z chatToolCall :=
  match m !! tcd_Index d with
  | Some tc =>
      <[tcd_Index d := mkChatToolCall (call_ID tc) (call_Type tc)
          (mkCallFunction (fn_Name (call_Function tc))
             (fn_Arguments (call_Function tc) +:+ fn_Arguments (tcd_Function d)))]> m
  | None =>
      <[tcd_Index d := mkChatToolCall (tcd_ID d) (tcd_Type d)
          (mkCallFunction (fn_Name (tcd_Function d)) (fn_Arguments (tcd_Function d)))]> m
  end.

(** [a.toolCallsByChoice[idx]] is made when it is missing. *)
Definition add_tool_calls (idx : Z) (m : gmap Z (gmap Z chatToolCall)) (d : chatStreamingToolCallDelta)
    : gmap Z (gmap Z chatToolCall) :=
  <[idx := add_tool_call (default ∅ (m !! idx)) d]> m.

(** The body of the loop over the choices of a chunk. *)
Definition add_choice (a : chatState) (choice : chatChunkChoice) : chatState :=
  let idx := cc_Index choice in
  let delta := cc_Delta choice in
  let content := extractContent (delta_Content delta) in
  mkChatState (done_ a) (usage a)
    (if decide (delta_Role delta = "") then roleByChoice a else <[idx := delta_Role delta]> (roleByChoice a))
    (if decide (content = "") then contentByChoice a
     else <[idx := default "" (contentByChoice a !! idx) +:+ content]> (contentByChoice a))
    (foldl (add_tool_calls idx) (toolCallsByChoice a) (delta_ToolCalls delta))
    (if maxChoiceIdx a <? idx then idx else maxChoiceIdx a).

Definition processChunk (a : chatState) (data : string) : chatState :=
  match unmarshal_chunk codec data with
  | None => a
  | Some chunk =>
      let a := mkChatState (done_ a) (match chunk_Usage chunk with Some u => Some u | None => usage a end)
                 (roleByChoice a) (contentByChoice a) (toolCallsByChoice a) (maxChoiceIdx a) in
      foldl add_choice a (chunk_Choices chunk)
  end.

Definition set_done (a : chatState) : chatState :=
  mkChatState true (usage a) (roleByChoice a) (contentByChoice a) (toolCallsByChoice a) (maxChoiceIdx a).

Definition sseDataPrefix : string := "data: ".

(** The body of the loop of [parseEvents]. *)
Definition on_line (a : chatState) (line : string) : line_result chatState :=
  if negb (HasPrefix line sseDataPrefix) then LNext a
  else
    let data := TrimPrefix line sseDataPrefix in
    if decide (data = "[DONE]") then LStop (set_done a) else LNext (processChunk a data).

Definition parseEvents (a : sseAccumulator) : sseAccumulator :=
  let '(st, rest, _) := parse_lines on_line (state a) "" (buf a) in mkSSEAccumulator rest st.

Definition acc_feed (a : sseAccumulator) (data : string) : sseAccumulator :=
  if done_ (state a) then a else parseEvents (mkSSEAccumulator (buf a +:+ data) (state a)).

(** [make([]chatChoice, n)] panics for a negative length, and when the 72 bytes of each
    element exceed the address space of 2^48 bytes. *)
Definition make_choices (n : Z) : bool := (0 <=? n) && (n * 72 <=? 2 ^ 48).

(** The tool calls of a choice in the order of their indices. *)
Definition sorted_calls (m : gmap Z chatToolCall) : list chatToolCall :=
  omap (fun j => m !! j) (merge_sort Z.le (map_to_list m).*1).

(** The body of the loop of [finish]. *)
Definition finish_choice (a : chatState) (i : Z) : chatChoice :=
  let content := default "" (contentByChoice a !! i) in
  let rawContent := if decide (content = "") then "" else default "" (marshal_string codec content) in
  let toolCalls := match toolCallsByChoice a !! i with Some m => sorted_calls m | None => [] end in
  mkChatChoice i (mkChatMessage (default "" (roleByChoice a !! i)) rawContent toolCalls).

Definition acc_finish (a : sseAccumulator) : option chatCompletionResponse :=
  let st := state a in
  if maxChoiceIdx st <? 0 then Some (mkChatResponse [] (usage st))
  else
    let n := wrap64 (maxChoiceIdx st + 1) in
    if make_choices n
    then Some (mkChatResponse ((fun i => finish_choice st (Z.of_nat i)) <$> seq 0 (Z.to_nat n)) (usage st))
    else None.

(** ** Metadata *)

Definition chat_call (tc : chatToolCall) : tool_call :=
  mkToolCall (call_ID tc) (fn_Name (call_Function tc)) (fn_Arguments (call_Function tc)).

Definition chat_setRequestMetadata (namespace : string) (req : chatCompletionRequest) : Host unit :=
  run hcall (SetMetadata namespace "llm.model_name" (MetaString (cr_Model req)));
  run hcall (SetMetadata namespace "llm.system" (MetaString "openai"));
  run hcall (SetMetadata namespace "llm.input_messages.count" (MetaInt (zlen (cr_Messages req))));
  run hfor 0 (cr_Messages req) (fun i msg =>
    set_message namespace "input_messages" i (cm_Role msg) (extractContent (cm_Content msg))
      (chat_call <$> cm_ToolCalls msg));
  set_tools (marshal_tool codec) namespace (cr_Tools req).

Definition set_usage (namespace : string) (u : chatUsage) : Host unit :=
  run hcall (SetMetadata namespace "llm.token_count.prompt" (MetaInt (PromptTokens u)));
  run hcall (SetMetadata namespace "llm.token_count.completion" (MetaInt (CompletionTokens u)));
  run hcall (SetMetadata namespace "llm.token_count.total" (MetaInt (TotalTokens u)));
  match CompletionTokensDetails u with
  | None => hret tt
  | Some d =>
      run hcall (SetMetadata namespace "llm.token_count.completion_details.reasoning" (MetaInt (ReasoningTokens d)));
      hcall (SetMetadata namespace "llm.token_count.completion_details.audio" (MetaInt (AudioTokens d)))
  end.

Definition chat_setResponseMetadata (namespace : string) (resp : chatCompletionResponse) : Host unit :=
  run hcall (SetMetadata namespace "llm.output_messages.count" (MetaInt (zlen (Choices resp))));
  run hfor 0 (Choices resp) (fun i choice =>
    set_message namespace "output_messages" i (cm_Role (choice_Message choice))
      (extractContent (cm_Content (choice_Message choice))) (chat_call <$> cm_ToolCalls (choice_Message choice)));
  match Usage resp with
  | None => hret tt
  | Some u => set_usage namespace u
  end.

(** The format behind the filter. *)
Definition chat_decoder : Decoder := {|
  decode_request := decodeChatRequest;
  decode_response := decodeChatResponse;
  new_acc := newSSEAccumulator;
  feed a data := Some (acc_feed a data);
  finish a := (fun resp => (a, resp)) <$> acc_finish a;
  setRequestMetadata := chat_setRequestMetadata;
  setResponseMetadata ns resp := Some (chat_setResponseMetadata ns resp);
|}.

(** *** The filter of this extension

    Its callbacks are line by line those of [DecoderFilter], at this format. *)

Definition chat_filter : Type := decoderFilter chat_decoder.
Definition chat_Create {Any} (assert : Any -> option decoderConfig) (cfg : decoderConfig)
    (most_specific : option Any) : chat_filter := factory_Create chat_decoder assert cfg most_specific.
Definition chat_OnRequestHeaders (d : chat_filter) (endOfStream : bool) : chat_filter * HeadersStatus :=
  OnRequestHeaders chat_decoder d endOfStream.
Definition chat_OnRequestBody (d : chat_filter) (body : string) (endOfStream : bool)
    : Host (chat_filter * BodyStatus) := OnRequestBody chat_decoder d body endOfStream.
Definition chat_OnRequestTrailers (d : chat_filter) (body : string) : Host (chat_filter * TrailersStatus) :=
  OnRequestTrailers chat_decoder d body.
Definition chat_OnResponseHeaders {H} `{!HeaderMap H} (d : chat_filter) (headers : H) (endOfStream : bool)
    : chat_filter * HeadersStatus := OnResponseHeaders chat_decoder d headers endOfStream.
Definition chat_OnResponseBody (d : chat_filter) (chunks : list string) (body : string) (endOfStream : bool)
    : option (Host (chat_filter * BodyStatus)) := OnResponseBody chat_decoder d chunks body endOfStream.
Definition chat_OnResponseTrailers (d : chat_filter) (body : string)
    : option (Host (chat_filter * TrailersStatus)) := OnResponseTrailers chat_decoder d body.
Definition chat_decodeRequestBody (d : chat_filter) (body : string) : Host chat_filter :=
  decodeRequestBody chat_decoder d body.
Definition chat_decodeResponseBody (d : chat_filter) (body : string) : option (Host chat_filter) :=
  decodeResponseBody chat_decoder d body.
Definition chat_decodeStreamingResponse (d : chat_filter) (acc : sseAccumulator) : option (Host chat_filter) :=
  decodeStreamingResponse chat_decoder d acc.
End Codec.

Definition defaultMetadataNamespace : string := "io.builtonenvoy.openai".

Definition chat_parseConfig (unmarshal : string -> option decoderConfig) (config : string)
    : option decoderConfig := parseConfig unmarshal defaultMetadataNamespace config.

(** ** What the metadata says *)

Section Metadata.
Context (codec : ChatCodec).

Definition message_of (m : chatMessage) : message :=
  mkMessage (cm_Role m) (extractContent codec (cm_Content m)) (chat_call <$> cm_ToolCalls m).

Definition usage_entries (u : chatUsage) : list (string * MetaValue) :=
  [("llm.token_count.prompt", MetaInt (PromptTokens u));
   ("llm.token_count.completion", MetaInt (CompletionTokens u));
   ("llm.token_count.total", MetaInt (TotalTokens u))] ++
  match CompletionTokensDetails u with
  | None => []
  | Some d =>
      [("llm.token_count.completion_details.reasoning", MetaInt (ReasoningTokens d));
       ("llm.token_count.completion_details.audio", MetaInt (AudioTokens d))]
  end.

Lemma calls_set_messages {A} (f : A -> message) ns side (l : list A) :
  calls_of (hfor 0 l (fun i x => set_message ns side i (m_role (f x)) (m_content (f x)) (m_calls (f x)))) =
  set_entry ns <$> concat (imap (message_entries side) (f <$> l)).
Proof.
  rewrite (calls_hfor _ (fun i x => set_entry ns <$> message_entries side i (f x)))
    by (intros; apply calls_set_message).
  by rewrite fmap_concat_imap, imap_fmap.
Qed.

Lemma chat_request_calls ns req :
  calls_of (chat_setRequestMetadata codec ns req) =
  set_entry ns <$> request_entries (cr_Model req) "openai" (message_of <$> cr_Messages req)
                     (marshal_tool codec <$> cr_Tools req).
Proof.
  unfold chat_setRequestMetadata, request_entries, messages_entries.
  rewrite !calls_hbind, calls_set_tools, (calls_set_messages message_of), length_fmap, !fmap_app. done.
Qed.

Lemma chat_response_calls ns resp :
  calls_of (chat_setResponseMetadata codec ns resp) =
  set_entry ns <$> response_entries (message_of ∘ choice_Message <$> Choices resp)
                     (from_option usage_entries [] (Usage resp)).
Proof.
  unfold chat_setResponseMetadata, response_entries, messages_entries.
  rewrite !calls_hbind, (calls_set_messages (message_of ∘ choice_Message)), length_fmap, !fmap_app.
  cbn [app fmap list_fmap calls_of hcall snd]. f_equal. f_equal.
  destruct (Usage resp) as [u|]; [|done]. cbn [from_option]. unfold set_usage, usage_entries.
  rewrite !calls_hbind. by destruct (CompletionTokensDetails u).
Qed.

Lemma chat_usage_entries_wf u :
  NoDup (from_option usage_entries [] u).*1 /\ under "token_count" (from_option usage_entries [] u).
Proof.
  destruct u as [u|]; cbn [from_option]; [|split; [apply NoDup_nil_2|constructor]].
  unfold usage_entries, under. destruct (CompletionTokensDetails u); cbn [app fmap list_fmap fst];
    (split; [decide_now|by repeat constructor]).
Qed.

(** The metadata of a chat request describes it: its model, its messages, each
    with its role, content and tool calls under its own number, and its tools. *)
Theorem chat_request_described ns req :
  describes_request (metadata (calls_of (chat_setRequestMetadata codec ns req))) ns
    (cr_Model req) "openai" (message_of <$> cr_Messages req) (marshal_tool codec <$> cr_Tools req).
Proof. rewrite chat_request_calls. apply request_entries_describe. Qed.

Lemma chat_response_described ns resp :
  describes_response (metadata (calls_of (chat_setResponseMetadata codec ns resp))) ns
    (message_of ∘ choice_Message <$> Choices resp) (from_option usage_entries [] (Usage resp)).
Proof. rewrite chat_response_calls. destruct (chat_usage_entries_wf (Usage resp)). by apply response_entries_describe. Qed.

#[export] Instance chat_laws : DecoderLaws (chat_decoder codec).
Proof.
  split; cbn [setRequestMetadata setResponseMetadata chat_decoder].
  - intros ns req. rewrite chat_request_calls. apply request_entries_writes.
  - intros ns resp m [= <-]. rewrite chat_response_calls. destruct (chat_usage_entries_wf (Usage resp)).
    by apply response_entries_writes.
Qed.
End Metadata.

(** ** Chunks *)

Section Chunks.
Context (codec : ChatCodec).
#[local] Abbreviation D := (chat_decoder codec).

Lemma chat_feed_done a chunks : done_ (state a) = true -> feed_chunks D a chunks = Some a.
Proof.
  intros Hd. induction chunks as [|c cs IH]; [done|]. cbn. unfold acc_feed. rewrite Hd. exact IH.
Qed.

Lemma add_choice_done a c : done_ (add_choice codec a c) = done_ a.
Proof. done. Qed.

Lemma processChunk_done a data : done_ (processChunk codec a data) = done_ a.
Proof.
  unfold processChunk. destruct (unmarshal_chunk codec data) as [ch|]; [|done]. cbn zeta.
  set (a0 := mkChatState _ _ _ _ _ _). change (done_ a) with (done_ a0). clearbody a0.
  revert a0. induction (chunk_Choices ch) as [|c cs IH]; intros a0; [done|]. cbn [foldl]. by rewrite IH.
Qed.

Lemma ref_lines_done lines a a' :
  (ref_lines (on_line codec) a lines = LNext a' -> done_ a' = done_ a) /\
  (ref_lines (on_line codec) a lines = LStop a' -> done_ a' = true) /\
  ref_lines (on_line codec) a lines <> LError a'.
Proof.
  revert a. induction lines as [|l ls IH]; intros a; cbn [ref_lines].
  { by split_and!; intros ?; simplify_eq. }
  unfold on_line at 1 3 5. destruct (negb _); [apply IH|]. case_decide.
  - by split_and!; intros ?; simplify_eq.
  - rewrite <-(processChunk_done a (TrimPrefix (TrimSpace l) sseDataPrefix)). apply IH.
Qed.

(** However the stream is cut, the accumulator ends in the state of the reference. *)
Lemma chat_feed_lines a chunks :
  done_ (state a) = false -> ContainsByte (buf a) newline = false ->
  state <$> feed_chunks D a chunks =
  Some (lr_state (ref_lines (on_line codec) (state a) (complete_lines (buf a +:+ Join chunks "")))).
Proof.
  revert a. induction chunks as [|c cs IH]; intros [b st]; cbn [buf state]; intros Hd Hb.
  { rewrite str_app_nil_r. by destruct (lines_absent b Hb) as [-> _]. }
  rewrite Join_cons, <-str_app_assoc.
  destruct (complete_lines_app (b +:+ c) (Join cs "")) as [-> _]. rewrite ref_lines_app.
  cbn [feed_chunks]. change (feed D ?a ?d) with (Some (acc_feed codec a d)). cbn [mbind option_bind].
  unfold acc_feed, parseEvents. cbn [buf state]. rewrite Hd.
  destruct (parse_lines_ref (on_line codec) st "" (b +:+ c) eq_refl) as (rest & Hp & Hrest).
  cbn [String.append] in Hrest, Hp |- *. rewrite Hp.
  pose proof (fun a' => ref_lines_done (complete_lines (b +:+ c)) st a') as Hdone.
  destruct (ref_lines (on_line codec) st (complete_lines (b +:+ c))) as [p|p|p] eqn:Hr; cbn [lr_state lr_ok].
  - destruct (Hdone p) as (H1 & _). rewrite (Hrest _ eq_refl).
    apply (IH (mkSSEAccumulator (rest_line (b +:+ c)) p)); [|apply rest_line_absent]. cbn. rewrite <-Hd. auto.
  - destruct (Hdone p) as (_ & H2 & _). by rewrite chat_feed_done by auto.
  - by destruct (Hdone p) as (_ & _ & []).
Qed.

(** The calls for a stream depend on the final state only. *)
Lemma chat_streamed_calls_state ns chunks :
  streamed_calls D ns chunks =
  resp ← acc_finish codec (mkSSEAccumulator ""
    (lr_state (ref_lines (on_line codec) newChatState (complete_lines (Join chunks "")))));
  Some (calls_of (chat_setResponseMetadata codec ns resp)).
Proof.
  unfold streamed_calls. pose proof (chat_feed_lines newSSEAccumulator chunks eq_refl eq_refl) as Hf.
  cbn [buf state newSSEAccumulator String.append] in Hf.
  change (new_acc D) with newSSEAccumulator.
  destruct (feed_chunks D newSSEAccumulator chunks) as [acc|]; [|done]. injection Hf as <-.
  cbn [mbind option_bind finish chat_decoder]. unfold acc_finish. cbn [state].
  destruct (maxChoiceIdx (state acc) <? 0); [done|]. by destruct (make_choices _).
Qed.

(** Chunking does not matter for the chat decoder: two ways of cutting the same
    bytes give the same calls, or both panic, for every stream of bytes. *)
Theorem chat_decoder_chunking ns chunks chunks' :
  Join chunks "" = Join chunks' "" -> streamed_calls D ns chunks = streamed_calls D ns chunks'.
Proof. intros He. by rewrite !chat_streamed_calls_state, He. Qed.
End Chunks.

(** ** Reassembly *)

Section Reassembly.
Context (codec : ChatCodec).
#[local] Abbreviation D := (chat_decoder codec).

(** *** The specification, on the deltas of one choice *)

Definition spec_role (ds : list chatDelta) : string :=
  default "" (last (filter (fun r => r <> "") (delta_Role <$> ds))).

Definition spec_content (ds : list chatDelta) : string :=
  Join (extractContent codec ∘ delta_Content <$> ds) "".

(** The deltas of one tool call: the first one names it, all of them carry its arguments. *)
Definition spec_call (ds : list chatStreamingToolCallDelta) : option chatToolCall :=
  (fun d => mkChatToolCall (tcd_ID d) (tcd_Type d)
              (mkCallFunction (fn_Name (tcd_Function d)) (Join (fn_Arguments ∘ tcd_Function <$> ds) "")))
  <$> head ds.

Definition call_deltas (ds : list chatStreamingToolCallDelta) (j : Z) : list chatStreamingToolCallDelta :=
  filter (fun d => tcd_Index d = j) ds.

(** The tool calls in the order of their indices. *)
Definition spec_calls (ds : list chatDelta) : list chatToolCall :=
  let tds := concat (delta_ToolCalls <$> ds) in
  omap (fun j => spec_call (call_deltas tds j)) (merge_sort Z.le (remove_dups (tcd_Index <$> tds))).

Definition spec_message (ds : list chatDelta) : message :=
  mkMessage (spec_role ds) (spec_content ds) (chat_call <$> spec_calls ds).

(** The deltas of choice [i] in the choices of all chunks. *)
Definition choice_deltas (chs : list chatChunkChoice) (i : Z) : list chatDelta :=
  cc_Delta <$> filter (fun c => cc_Index c = i) chs.

Definition max_index (chs : list chatChunkChoice) : Z := foldl Z.max (-1) (cc_Index <$> chs).

(** The messages of a stream: one for every index up to the largest one. *)
Definition spec_messages (chs : list chatChunkChoice) : list message :=
  (fun i => spec_message (choice_deltas chs (Z.of_nat i))) <$> seq 0 (Z.to_nat (max_index chs + 1)).

(** The last usage a chunk carries. *)
Definition spec_usage (cs : list chatCompletionChunk) : option chatUsage := last (omap chunk_Usage cs).

(** *** The accumulator, one choice at a time *)

Definition role_at (i : Z) (a : chatState) : string := default "" (roleByChoice a !! i).
Definition content_at (i : Z) (a : chatState) : string := default "" (contentByChoice a !! i).
Definition calls_at (i : Z) (a : chatState) : gmap Z chatToolCall := default ∅ (toolCallsByChoice a !! i).

Lemma fold_add_tool_calls i idx m ds :
  default ∅ (foldl (add_tool_calls idx) m ds !! i) =
  if decide (idx = i) then foldl add_tool_call (default ∅ (m !! i)) ds else default ∅ (m !! i).
Proof.
  revert m. induction ds as [|d ds IH]; intros m; cbn [foldl]; [by case_decide|].
  rewrite IH. unfold add_tool_calls. destruct (decide (idx = i)) as [->|Hne].
  - by rewrite lookup_insert_eq.
  - by rewrite lookup_insert_ne.
Qed.

Lemma add_choice_at i a c :
  role_at i (add_choice codec a c) =
    (if decide (cc_Index c = i /\ delta_Role (cc_Delta c) <> "") then delta_Role (cc_Delta c) else role_at i a) /\
  content_at i (add_choice codec a c) =
    (if decide (cc_Index c = i) then content_at i a +:+ extractContent codec (delta_Content (cc_Delta c))
     else content_at i a) /\
  calls_at i (add_choice codec a c) =
    (if decide (cc_Index c = i) then foldl add_tool_call (calls_at i a) (delta_ToolCalls (cc_Delta c))
     else calls_at i a) /\
  maxChoiceIdx (add_choice codec a c) = Z.max (maxChoiceIdx a) (cc_Index c).
Proof.
  unfold role_at, content_at, calls_at, add_choice. cbn [roleByChoice contentByChoice toolCallsByChoice maxChoiceIdx].
  split_and!.
  - destruct (decide (delta_Role (cc_Delta c) = "")) as [He|He].
    + rewrite decide_False by tauto. done.
    + rewrite lookup_insert. repeat case_decide; tauto || done.
  - destruct (decide (extractContent codec (delta_Content (cc_Delta c)) = "")) as [He|He].
    + rewrite He, str_app_nil_r. by case_decide.
    + rewrite lookup_insert. case_decide as Hi; [|done]. by rewrite Hi.
  - apply fold_add_tool_calls.
  - destruct (Z.ltb_spec (maxChoiceIdx a) (cc_Index c)); lia.
Qed.

Lemma run_choices_at i a chs (ds := choice_deltas chs i) (a' := foldl (add_choice codec) a chs) :
  role_at i a' = default (role_at i a) (last (filter (fun r => r <> "") (delta_Role <$> ds))) /\
  content_at i a' = content_at i a +:+ spec_content ds /\
  calls_at i a' = foldl add_tool_call (calls_at i a) (concat (delta_ToolCalls <$> ds)) /\
  maxChoiceIdx a' = foldl Z.max (maxChoiceIdx a) (cc_Index <$> chs).
Proof.
  subst ds a'. revert a. induction chs as [|c chs IH]; intros a; cbn [foldl].
  { split_and!; try done. unfold spec_content. cbn. by rewrite str_app_nil_r. }
  destruct (IH (add_choice codec a c)) as (-> & -> & -> & ->).
  destruct (add_choice_at i a c) as (-> & -> & -> & ->).
  unfold choice_deltas. rewrite filter_cons. cbn [fmap list_fmap foldl].
  destruct (decide (cc_Index c = i)) as [Hi|Hi].
  - cbn [fmap list_fmap concat]. unfold spec_content. cbn [fmap list_fmap]. rewrite Join_cons, str_app_assoc.
    rewrite foldl_app. split_and!; try done. rewrite filter_cons.
    destruct (decide (delta_Role (cc_Delta c) <> "")) as [Hr|Hr].
    + rewrite decide_True by done. rewrite last_cons. by destruct (last _).
    + rewrite decide_False by tauto. done.
  - rewrite decide_False by tauto. done.
Qed.

(** The tool calls of a list of deltas. *)
Lemma fold_tool_calls m ds j :
  foldl add_tool_call m ds !! j =
  match m !! j with
  | Some tc => Some (mkChatToolCall (call_ID tc) (call_Type tc) (mkCallFunction (fn_Name (call_Function tc))
      (fn_Arguments (call_Function tc) +:+ Join (fn_Arguments ∘ tcd_Function <$> call_deltas ds j) "")))
  | None => spec_call (call_deltas ds j)
  end.
Proof.
  revert m. induction ds as [|d ds IH]; intros m; cbn [foldl].
  { destruct (m !! j) as [[id ty [nm ar]]|]; [|done]. cbn. by rewrite str_app_nil_r. }
  rewrite IH. unfold call_deltas. rewrite filter_cons. unfold add_tool_call.
  destruct (decide (tcd_Index d = j)) as [<-|Hj].
  - cbn [fmap list_fmap]. rewrite Join_cons. destruct (m !! tcd_Index d) as [tc|] eqn:Hm; rewrite lookup_insert_eq.
    + cbn. by rewrite str_app_assoc.
    + unfold spec_call. cbn [head fmap option_fmap option_map list_fmap]. rewrite Join_cons. done.
  - destruct (m !! tcd_Index d); by rewrite lookup_insert_ne.
Qed.

Lemma sorted_calls_spec ds : sorted_calls (foldl add_tool_call ∅ (concat (delta_ToolCalls <$> ds))) = spec_calls ds.
Proof.
  unfold sorted_calls, spec_calls. cbn zeta. set (tds := concat _). set (m := foldl add_tool_call ∅ tds).
  assert (Hm : forall j, m !! j = spec_call (call_deltas tds j)).
  { intros j. subst m. by rewrite fold_tool_calls, lookup_empty. }
  assert (merge_sort Z.le (map_to_list m).*1 = merge_sort Z.le (remove_dups (tcd_Index <$> tds))) as ->.
  { apply (Sorted_unique Z.le); [apply (Sorted_merge_sort Z.le)..|].
    rewrite !merge_sort_Permutation. apply NoDup_Permutation; [apply NoDup_fst_map_to_list|apply NoDup_remove_dups|].
    intros j. rewrite elem_of_remove_dups, list_elem_of_fmap. setoid_rewrite list_elem_of_fmap. split.
    - intros ([k tc] & -> & Hk%elem_of_map_to_list). cbn. rewrite Hm in Hk. unfold spec_call in Hk.
      apply fmap_Some in Hk as (d & Hd & _). apply filter_head_Some in Hd as [? <-]. eauto.
    - intros (d & -> & Hd). destruct (m !! tcd_Index d) as [tc|] eqn:Hk.
      + exists (tcd_Index d, tc). split; [done|]. by apply elem_of_map_to_list.
      + exfalso. rewrite Hm in Hk. unfold spec_call in Hk. apply fmap_None in Hk.
        by apply (filter_head_None _ _ Hk d). }
  apply list_omap_ext. apply Forall_Forall2_diag, Forall_forall. intros j _. apply Hm.
Qed.

(** *** The text of a stream *)

Definition data_text (p : string) : string := "data: " +:+ p +:+ nl +:+ nl.

Definition chat_wire (ps : list string) : string := Join (data_text <$> (ps ++ ["[DONE]"])) "".

Definition clean_payload (p : string) : Prop := clean_line ("data: " +:+ p) /\ p <> "[DONE]".

(** The chunks that decode, and all their choices. *)
Definition decoded (ps : list string) : list chatCompletionChunk := omap (unmarshal_chunk codec) ps.
Definition all_choices (ps : list string) : list chatChunkChoice := concat (chunk_Choices <$> decoded ps).

Lemma data_lines p s :
  ContainsByte ("data: " +:+ p) newline = false ->
  complete_lines (data_text p +:+ s) = ("data: " +:+ p) :: "" :: complete_lines s.
Proof.
  intros Hp.
  assert (data_text p +:+ s = ("data: " +:+ p) +:+ String newline ("" +:+ String newline s)) as ->.
  { unfold data_text, nl. by rewrite !str_app_assoc. }
  destruct (lines_cons _ ("" +:+ String newline s) Hp) as [-> _].
  by destruct (lines_cons "" s eq_refl) as [-> _].
Qed.

Lemma on_data a p :
  TrimSpace ("data: " +:+ p) = "data: " +:+ p ->
  on_line codec a (TrimSpace ("data: " +:+ p)) =
  if decide (p = "[DONE]") then LStop (set_done a) else LNext (processChunk codec a p).
Proof.
  intros ->. unfold on_line. change "data: " with sseDataPrefix. by rewrite HasPrefix_app, TrimPrefix_app.
Qed.

Lemma chat_wire_ref a ps :
  Forall clean_payload ps ->
  lr_state (ref_lines (on_line codec) a (complete_lines (chat_wire ps))) =
  set_done (foldl (processChunk codec) a ps).
Proof.
  intros Hf. unfold chat_wire. revert a. induction Hf as [|p ps [[Hc Ht] Hp] Hf IH]; intros a.
  - change (Join (data_text <$> ([] ++ ["[DONE]"])) "") with (data_text "[DONE]" +:+ "").
    rewrite data_lines by done. cbn [ref_lines]. by rewrite on_data.
  - cbn [app fmap list_fmap]. rewrite Join_cons, data_lines by done. cbn [ref_lines foldl].
    rewrite on_data, decide_False by done. change (TrimSpace "") with "".
    replace (on_line codec (processChunk codec a p) "") with (LNext (processChunk codec a p)) by done. apply IH.
Qed.

(** Processing the payloads is adding the choices of the chunks that decode. *)
Definition set_chunk_usage (a : chatState) (u : option chatUsage) : chatState :=
  mkChatState (done_ a) u (roleByChoice a) (contentByChoice a) (toolCallsByChoice a) (maxChoiceIdx a).

Lemma add_choices_usage a u chs :
  foldl (add_choice codec) (set_chunk_usage a u) chs = set_chunk_usage (foldl (add_choice codec) a chs) u /\
  usage (foldl (add_choice codec) a chs) = usage a.
Proof.
  revert a. induction chs as [|c chs IH]; intros a; [done|]. cbn [foldl].
  destruct (IH (add_choice codec a c)) as [H1 H2]. split; [exact H1|exact H2].
Qed.

Lemma process_payloads a ps :
  foldl (processChunk codec) a ps =
  set_chunk_usage (foldl (add_choice codec) a (all_choices ps)) (union (spec_usage (decoded ps)) (usage a)).
Proof.
  revert a. induction ps as [|p ps IH]; intros a; cbn [foldl].
  { by destruct a as [d [u|] r c t m]. }
  rewrite IH. unfold all_choices, decoded, processChunk. cbn [omap list_omap].
  destruct (unmarshal_chunk codec p) as [ch|]; [|done]. cbn [fmap list_fmap concat]. cbn zeta.
  set (u := match chunk_Usage ch with Some u => Some u | None => usage a end).
  change (mkChatState (done_ a) u (roleByChoice a) (contentByChoice a) (toolCallsByChoice a) (maxChoiceIdx a))
    with (set_chunk_usage a u).
  rewrite foldl_app.
  destruct (add_choices_usage a u (chunk_Choices ch)) as [-> _].
  rewrite (proj1 (add_choices_usage _ u _)). unfold set_chunk_usage at 1 3 4. cbn. f_equal.
  unfold spec_usage. cbn [omap list_omap]. subst u. destruct (chunk_Usage ch) as [u|]; [|done].
  rewrite last_cons. by destruct (last _), (usage a).
Qed.

(** *** The response of a stream *)

(** The JSON of a string decodes to it. *)
Definition marshals (s : string) : Prop :=
  exists raw, marshal_string codec s = Some raw /\ raw <> "" /\ unmarshal_string codec raw = Some s.

Lemma extract_marshalled s :
  (s <> "" -> marshals s) ->
  extractContent codec (if decide (s = "") then "" else default "" (marshal_string codec s)) = s.
Proof.
  intros Hm. case_decide as Hs; [by subst|]. destruct (Hm Hs) as (raw & -> & Hr & Hu). cbn [from_option id].
  unfold extractContent. by rewrite decide_False, Hu.
Qed.

Lemma finish_choice_spec ps i (a := set_done (foldl (processChunk codec) newChatState ps))
    (ds := choice_deltas (all_choices ps) i) :
  (spec_content ds <> "" -> marshals (spec_content ds)) ->
  message_of codec (choice_Message (finish_choice codec a i)) = spec_message ds.
Proof.
  intros Hm. destruct (run_choices_at i newChatState (all_choices ps)) as (Hr & Hc & Ht & _).
  fold ds in Hr, Hc, Ht. subst a. rewrite process_payloads.
  unfold finish_choice, set_chunk_usage, set_done. cbn zeta.
  cbn [roleByChoice contentByChoice toolCallsByChoice choice_Message].
  change (default "" (roleByChoice ?x !! i)) with (role_at i x).
  change (default "" (contentByChoice ?x !! i)) with (content_at i x). rewrite Hr, Hc.
  unfold message_of, spec_message. cbn [cm_Role cm_Content cm_ToolCalls].
  change (content_at i newChatState +:+ spec_content ds) with (spec_content ds).
  rewrite extract_marshalled by done. f_equal. f_equal. unfold calls_at in Ht.
  rewrite <-sorted_calls_spec. change (default ∅ (toolCallsByChoice newChatState !! i)) with (∅ : gmap Z chatToolCall) in Ht.
  rewrite <-Ht. by destruct (toolCallsByChoice _ !! i).
Qed.

Lemma max_index_ge chs : -1 <= max_index chs.
Proof.
  unfold max_index. generalize (cc_Index <$> chs). intros l. cut (forall z, z <= foldl Z.max z l); [auto|].
  induction l as [|x l IH]; intros z; cbn [foldl]; [lia|]. specialize (IH (Z.max z x)). lia.
Qed.

Lemma stream_finish ps (a := set_done (foldl (processChunk codec) newChatState ps))
    (n := max_index (all_choices ps)) :
  acc_finish codec (mkSSEAccumulator "" a) =
  if decide (n = -1) then Some (mkChatResponse [] (spec_usage (decoded ps)))
  else if make_choices (wrap64 (n + 1))
  then Some (mkChatResponse ((fun i => finish_choice codec a (Z.of_nat i)) <$> seq 0 (Z.to_nat (wrap64 (n + 1))))
               (spec_usage (decoded ps)))
  else None.
Proof.
  destruct (run_choices_at 0 newChatState (all_choices ps)) as (_ & _ & _ & Hmax).
  change (foldl Z.max (maxChoiceIdx newChatState) (cc_Index <$> all_choices ps)) with n in Hmax.
  pose proof (max_index_ge (all_choices ps)) as Hge. fold n in Hge. unfold acc_finish. cbn [state].
  assert (maxChoiceIdx a = n) as ->.
  { subst a. rewrite process_payloads. exact Hmax. }
  assert (usage a = spec_usage (decoded ps)) as ->.
  { subst a. rewrite process_payloads. cbn. by destruct (spec_usage _). }
  case_decide as Hn; [by rewrite Hn|]. destruct (Z.ltb_spec n 0); [lia|]. done.
Qed.

Context {H : Type} `{!HeaderMap H}.

(** A streamed chat response is described as the same response sent in one piece.
    However the stream is cut into chunks and its body ended, the metadata describes,
    for every choice up to the largest index, the last role, the contents put together
    and the tool calls ordered by their indices with their arguments put together,
    together with the last usage; and the calls are those for a response that is not
    streamed and decodes to those messages. *)
Theorem chat_streamed_as_buffered f hs hs' bodies bodies' e e' w whole ps resp
    (chs := all_choices ps) :
  sseAcc f = None -> responseProcessed f = false ->
  event_stream hs = true -> event_stream hs' = false ->
  Forall clean_payload ps -> Join (concat bodies ++ last_chunks e) "" = chat_wire ps ->
  (max_index chs + 1) * 72 <= 2 ^ 48 ->
  (forall i, spec_content (choice_deltas chs i) <> "" -> marshals (spec_content (choice_deltas chs i))) ->
  whole <> "" -> decodeChatResponse codec whole = Some resp ->
  message_of codec ∘ choice_Message <$> Choices resp = spec_messages chs -> Usage resp = spec_usage (decoded ps) ->
  exists calls, respond D f (hs : H) bodies w e = Some calls /\
    respond D f (hs' : H) bodies' whole e' = Some calls /\
    describes_response (metadata calls) (MetadataNamespace (config f)) (spec_messages chs)
      (from_option usage_entries [] (spec_usage (decoded ps))).
Proof.
  intros Ha Hp Hs Hs' Hc Hw Hsz Hm Hne Hdec Hmsg Hu. rewrite !respond_spec, Hs, Hs' by done.
  set (ns := MetadataNamespace (config f)).
  exists (calls_of (chat_setResponseMetadata codec ns resp)). split_and!.
  - rewrite chat_streamed_calls_state, Hw, chat_wire_ref, stream_finish by done. fold chs.
    pose proof (max_index_ge chs) as Hge.
    assert (Hcalls : forall choices, message_of codec ∘ choice_Message <$> choices = spec_messages chs ->
      calls_of (chat_setResponseMetadata codec ns (mkChatResponse choices (spec_usage (decoded ps)))) =
      calls_of (chat_setResponseMetadata codec ns resp)).
    { intros choices Hch. rewrite !chat_response_calls. cbn [Choices Usage]. by rewrite Hch, Hmsg, Hu. }
    case_decide as Hn.
    + cbn [mbind option_bind]. f_equal. apply Hcalls. unfold spec_messages. by rewrite Hn.
    + assert (Hwr : wrap64 (max_index chs + 1) = max_index chs + 1).
      { apply wrap64_id. unfold int64_min, int64_max. lia. }
      rewrite Hwr. unfold make_choices. rewrite (proj2 (Z.leb_le _ _)), (proj2 (Z.leb_le _ _)) by lia.
      cbn [andb mbind option_bind]. f_equal. apply Hcalls. rewrite <-list_fmap_compose. apply list_fmap_ext.
      intros k i _. cbn. apply finish_choice_spec. apply Hm.
  - unfold buffered_calls. rewrite decide_False by done.
    change (decode_response D whole) with (decodeChatResponse codec whole). rewrite Hdec. done.
  - rewrite <-Hmsg, <-Hu. apply chat_response_described.
Qed.

(** When the chat decoder panics: on a stream exactly when the largest choice index
    makes a slice that is too large or, at the largest 64-bit integer, a negative
    length; never on a body that is not streamed. *)
Theorem chat_panics_exactly f hs bodies w e ps (n := max_index (all_choices ps)) :
  sseAcc f = None -> responseProcessed f = false ->
  Forall clean_payload ps -> Join (concat bodies ++ last_chunks e) "" = chat_wire ps -> n <= int64_max ->
  respond D f (hs : H) bodies w e = None <->
  event_stream hs = true /\ (2 ^ 48 < (n + 1) * 72 \/ n = int64_max).
Proof.
  intros Ha Hp Hc Hw Hn. rewrite respond_spec by done. destruct (event_stream hs).
  - rewrite chat_streamed_calls_state, Hw, chat_wire_ref, stream_finish by done. fold n.
    pose proof (max_index_ge (all_choices ps)) as Hge. fold n in Hge.
    case_decide as Hm; [cbn; split; [done|]; unfold int64_max; lia|]. unfold make_choices.
    destruct (decide (n = int64_max)) as [->|Hne].
    { split; [intros _; auto|]. intros _. done. }
    rewrite wrap64_id by (unfold int64_min, int64_max in *; lia).
    destruct (Z.leb_spec 0 (n + 1)); [|lia]. destruct (Z.leb_spec ((n + 1) * 72) (2 ^ 48)); cbn [andb].
    + split; [done|]. intros [_ [?|?]]; lia.
    + split; [intros _; split; [done|left; lia]|done].
  - unfold buffered_calls. split; [|by intros [? _]]. case_decide; [done|].
    change (decode_response D w) with (decodeChatResponse codec w).
    by destruct (decodeChatResponse codec w).
Qed.
End Reassembly.

(** ** A small codec *)

Definition pick {A} (l : list (string * A)) (s : string) : option A :=
  snd <$> head (filter (fun kv => kv.1 = s) l).

Definition ex_call (j : Z) (id name args : string) : chatStreamingToolCallDelta :=
  mkToolCallDelta j id "function" (mkCallFunction name args).

(** A chunk with one choice. *)
Definition ex_chunk (i : Z) (role content : string) (calls : list chatStreamingToolCallDelta)
    (u : option chatUsage) : chatCompletionChunk :=
  mkChunk "chat.completion.chunk" [mkChunkChoice i (mkChatDelta role content calls) None] u.

Definition ex_usage : chatUsage := mkChatUsage 3 4 7 None.

Definition quoted (s : string) : string := "'" +:+ s +:+ "'".

Definition ex_response : chatCompletionResponse :=
  mkChatResponse
    [mkChatChoice 0 (mkChatMessage "assistant" (quoted "Hello")
       [mkChatToolCall "t0" "function" (mkCallFunction "f" "");
        mkChatToolCall "t1" "function" (mkCallFunction "get" "{}")])] (Some ex_usage).

(** The second tool call starts before the first one. *)
Definition ex_codec : ChatCodec := {|
  unmarshal_request := pick [];
  unmarshal_response := pick [("whole", ex_response)];
  unmarshal_string := pick [(quoted "Hel", "Hel"); (quoted "lo", "lo"); (quoted "Hello", "Hello")];
  unmarshal_parts := pick [];
  unmarshal_chunk := pick
    [("c0", ex_chunk 0 "assistant" (quoted "Hel") [ex_call 1 "t1" "get" "{"] None);
     ("c1", ex_chunk 0 "" (quoted "lo") [ex_call 0 "t0" "f" ""; ex_call 1 "" "" "}"] (Some ex_usage));
     ("huge", ex_chunk (2 ^ 60) "assistant" "" [] None)];
  marshal_string := fun s => Some (quoted s);
  marshal_tool := fun _ => None;
|}.

Definition ex_filter : decoderFilter (chat_decoder ex_codec) :=
  mkDecoderFilter (mkDecoderConfig defaultMetadataNamespace) false false None.
Definition ex_sse_headers : Headers := [("content-type", "text/event-stream")].
Definition ex_json_headers : Headers := [("content-type", "application/json")].

Definition ex_chunks : list string :=
  [take_bytes 13 (chat_wire ["c0"; "bad"; "c1"]); drop_bytes 13 (chat_wire ["c0"; "bad"; "c1"])].

Lemma chat_streamed_as_buffered_witness :
  exists calls, respond (chat_decoder ex_codec) ex_filter ex_sse_headers [ex_chunks] "" EndTrailers = Some calls /\
    metadata calls !! (defaultMetadataNamespace, "llm.output_messages.0.message.content") = Some (MetaString "Hello").
Proof.
  destruct (chat_streamed_as_buffered ex_codec (H := Headers) (HeaderMap0 := assoc_headers) ex_filter
    ex_sse_headers ex_json_headers [ex_chunks] [] EndTrailers EndTrailers "" "whole" ["c0"; "bad"; "c1"] ex_response)
    as (calls & Hc & _ & [[_ Hd] _]);
    [reflexivity|reflexivity|vm_compute; reflexivity|vm_compute; reflexivity| |vm_compute; reflexivity
    |vm_compute; discriminate| |discriminate|reflexivity|vm_compute; reflexivity|vm_compute; reflexivity|].
  - repeat constructor; discriminate.
  - intros i. destruct (decide (i = 0)) as [->|Hi].
    + intros _. exists (quoted "Hello"). vm_compute. split_and!; [reflexivity|discriminate|reflexivity].
    + unfold choice_deltas. change (all_choices ex_codec ["c0"; "bad"; "c1"]) with
        (chunk_Choices (ex_chunk 0 "assistant" (quoted "Hel") [ex_call 1 "t1" "get" "{"] None) ++
         chunk_Choices (ex_chunk 0 "" (quoted "lo") [ex_call 0 "t0" "f" ""; ex_call 1 "" "" "}"] (Some ex_usage))).
      cbn [chunk_Choices ex_chunk app]. rewrite !filter_cons_False by (cbn; congruence). by intros [].
  - exists calls. split; [exact Hc|]. exact (proj1 (proj2 (Hd 0%nat _ eq_refl))).
Defined.

Lemma chat_decoder_chunking_witness :
  streamed_calls (chat_decoder ex_codec) "ns" ex_chunks =
  streamed_calls (chat_decoder ex_codec) "ns" [chat_wire ["c0"; "bad"; "c1"]].
Proof. apply (chat_decoder_chunking ex_codec "ns" ex_chunks); vm_compute; reflexivity. Defined.

Lemma chat_panics_exactly_witness :
  respond (chat_decoder ex_codec) ex_filter ex_sse_headers [[chat_wire ["huge"]]] "" EndTrailers = None.
Proof.
  apply (chat_panics_exactly ex_codec (H := Headers) (HeaderMap0 := assoc_headers) ex_filter ex_sse_headers
    [[chat_wire ["huge"]]] "" EndTrailers ["huge"]);
    [reflexivity|reflexivity|repeat constructor; discriminate|vm_compute; reflexivity|vm_compute; discriminate|].
  split; [vm_compute; reflexivity|]. left. vm_compute. reflexivity.
Defined.
