(* ===== verification/FaultConfig.v ===== *)
(** * dynamic-fault-injection: configuration

    extensions/composer/dynamic-fault-injection/internal/config/config.go and
    percentile.go: the configuration types, percentile distributions and the
    semantic checks.  YAML decoding and the JSON schema come before these checks
    and are not modelled; strconv.ParseFloat and the header checks of httpguts
    are parameters. *)

From Stdlib Require Import Lia Floats.SpecFloat.
From S2P Require Import Prelude GoStr GoNum Host SSELines.

Local Open Scope Z_scope.
Local Open Scope go_scope.

(** ** Percentiles *)

Record Percentile : Type := mkPercentile {
  Quantile : float64;
  PDuration : Z;
}.

Inductive PercentileError : Type :=
| EmptyDistribution
| BadKey (key : string)
| BadDuration (key : string)
| NegativeDuration (key : string)
| DecreasingDurations.

(** The order [sort.Slice] is given: not greater. *)
Definition quantile_le (a b : Percentile) : Prop := f_lt (Quantile b) (Quantile a) = false.
#[export] Instance quantile_le_dec a b : Decision (quantile_le a b).
Proof. unfold quantile_le. apply _. Defined.

Fixpoint non_decreasing (ps : list Percentile) : bool :=
  match ps with
  | p1 :: (p2 :: _) as rest => negb (PDuration p2 <? PDuration p1) && non_decreasing rest
  | _ => true
  end.

Section Percentiles.
(** [strconv.ParseFloat(s, 64)]. *)
Context (ParseFloat : string -> option float64).

Definition parsePercentileKey (key : string) : result PercentileError float64 :=
  if negb (HasPrefix key "p") then Err (BadKey key)
  else match ParseFloat (drop_bytes 1 key) with
       | None => Err (BadKey key)
       | Some val =>
           if f_lt val f_zero || f_lt (f_of_Z 100) val then Err (BadKey key)
           else Ok (f_div val (f_of_Z 100))
       end.

Definition parse_entry (entry : string * string) : result PercentileError Percentile :=
  let '(key, durStr) := entry in
  try quantile <- parsePercentileKey key;
  match ParseDuration durStr with
  | None => Err (BadDuration key)
  | Some dur => if dur <? 0 then Err (NegativeDuration key) else Ok (mkPercentile quantile dur)
  end.

Fixpoint parse_entries (dist : list (string * string)) : result PercentileError (list Percentile) :=
  match dist with
  | [] => Ok []
  | e :: dist' =>
      try p <- parse_entry e;
      try ps <- parse_entries dist';
      Ok (p :: ps)
  end.

(** [ParsePercentileDistribution] of the map's entries in the order they are iterated. *)
Definition ParsePercentileDistribution (dist : list (string * string))
    : result PercentileError (list Percentile) :=
  match dist with
  | [] => Err EmptyDistribution
  | _ =>
      try ps <- parse_entries dist;
      let ps := merge_sort quantile_le ps in
      if non_decreasing ps then Ok ps else Err DecreasingDurations
  end.
End Percentiles.

(** ** Configuration types *)

Inductive Source : Type := FilterSource | PerRouteSource.

#[export] Instance Source_eq_dec : EqDecision Source.
Proof. solve_decision. Defined.

Definition ProbabilityDistributionStateful : string := "stateful".
Definition ProbabilityDistributionStateless : string := "stateless".

Record LocalResponseHeader : Type := mkLocalResponseHeader {
  h_Name : string;
  h_Value : string;
}.

Record LocalResponseConfig : Type := mkLocalResponseConfig {
  lr_Body : option string;
  lr_Headers : list LocalResponseHeader;
}.

(** The distribution is the map's entries in the order they are iterated. *)
Record StatusDistribution : Type := mkStatusDistribution {
  sd_Status : Z;
  Resolution : Z;
  Distribution : list (string * string);
  sd_LocalResponse : option LocalResponseConfig;
}.

Record LoadTier : Type := mkLoadTier {
  ThresholdInFlight : float64;
  tier_Responses : list StatusDistribution;
}.

Record GreyZoneConfig : Type := mkGreyZoneConfig {
  PenaltyBase : string;
  SpikeThreshold : float64;
  SpikePenaltyDuration : string;
  SpikePenaltyMultiplier : float64;
  RecoveryRate : float64;
}.

Record LoadBasedConfig : Type := mkLoadBasedConfig {
  Healthy : option LoadTier;
  TippingPoint : option LoadTier;
  GreyZone : option GreyZoneConfig;
}.

Record HeaderMatchConfig : Type := mkHeaderMatchConfig {
  hm_Name : string;
  ExactMatch : string;
  PresentMatch : bool;
}.

Record MatchConfig : Type := mkMatchConfig {
  m_Prefix : string;
  m_Exact : string;
  m_Headers : list HeaderMatchConfig;
}.

Record EndpointConfig : Type := mkEndpointConfig {
  ep_Match : MatchConfig;
  ep_Responses : list StatusDistribution;
  ep_LoadBased : option LoadBasedConfig;
}.

Record FilterConfig : Type := mkFilterConfig {
  Endpoints : list EndpointConfig;
  ProbabilityDistribution : string;
  Diagnostic : bool;
  Responses : list StatusDistribution;
  LoadBased : option LoadBasedConfig;
}.

(** ** Validation *)

Inductive FaultError : Type :=
| BadMode (mode : string)
| NoBehavior (ctx : string)
| TwoBehaviors (ctx : string)
| BadStatus (ctx : string) (n : Z)
| BadResolution (ctx : string) (n : Z)
| NoDistribution (ctx : string)
| BadDistribution (ctx : string) (e : PercentileError)
| BodyNotAllowed (ctx : string) (n : Z)
| BadHeaderName (ctx : string) (i : nat)
| ReservedHeader (ctx : string) (i : nat)
| BadHeaderValue (ctx : string) (i : nat)
| EmptyContentType (ctx : string)
| SeveralContentTypes (ctx : string)
| NoHealthy (ctx : string)
| BadHealthyThreshold (ctx : string)
| NoTippingPoint (ctx : string)
| BadTippingThreshold (ctx : string)
| NoTierResponses (ctx : string)
| BadPenaltyBase (ctx : string)
| BadSpikeDuration (ctx : string)
| BadSpikeThreshold (ctx : string)
| BadSpikeMultiplier (ctx : string)
| BadRecoveryRate (ctx : string).

Definition fault_if (b : bool) (e : FaultError) : list FaultError := if b then [e] else [].

Definition indexed (ctx what : string) (i : nat) : string :=
  ctx +:+ " " +:+ what +:+ " " +:+ FormatInt (Z.of_nat i).

Definition reserved_header (name : string) : bool :=
  bool_decide (name ∈ ["content-length"; "transfer-encoding"; "connection"; "keep-alive";
                       "proxy-connection"; "upgrade"; "trailer"; "te"])
  || HasPrefix name "x-fault-".

(** A header name in lower case; the names are ASCII once they are valid. *)
Definition is_content_type (name : string) : bool := bool_decide (ToLower name = "content-type").

Section Validation.
Context (ParseFloat : string -> option float64).
Context (ValidHeaderFieldName ValidHeaderFieldValue : string -> bool).

Definition validate_header (ctx : string) (i : nat) (h : LocalResponseHeader) : list FaultError :=
  if negb (ValidHeaderFieldName (h_Name h)) || HasPrefix (h_Name h) ":" then [BadHeaderName ctx i]
  else
    let name := ToLower (h_Name h) in
    fault_if (reserved_header name) (ReservedHeader ctx i) ++
    fault_if (negb (ValidHeaderFieldValue (h_Value h))) (BadHeaderValue ctx i) ++
    fault_if (bool_decide (name = "content-type") && bool_decide (TrimSpace (h_Value h) = ""))
      (EmptyContentType ctx).

(** The content types counted: those of headers with a valid name. *)
Definition counted_content_type (h : LocalResponseHeader) : bool :=
  ValidHeaderFieldName (h_Name h) && negb (HasPrefix (h_Name h) ":") && is_content_type (h_Name h).

Fixpoint validate_headers (ctx : string) (i : nat) (hs : list LocalResponseHeader) : list FaultError :=
  match hs with
  | [] => []
  | h :: hs' => validate_header ctx i h ++ validate_headers ctx (S i) hs'
  end.

Definition validate_local_response (ctx : string) (status : Z) (lr : LocalResponseConfig)
    : list FaultError :=
  fault_if (((status =? 204) || (status =? 205) || (status =? 304)) &&
            negb (bool_decide (default "" (lr_Body lr) = ""))) (BodyNotAllowed ctx status) ++
  validate_headers ctx 0 (lr_Headers lr) ++
  fault_if (1 <? zlen (filter counted_content_type (lr_Headers lr))) (SeveralContentTypes ctx).

Definition validateStatusDistribution (sd : StatusDistribution) (ctx : string) : list FaultError :=
  fault_if ((sd_Status sd <? 200) || (599 <? sd_Status sd)) (BadStatus ctx (sd_Status sd)) ++
  fault_if (Resolution sd <=? 0) (BadResolution ctx (Resolution sd)) ++
  fault_if (bool_decide (Distribution sd = [])) (NoDistribution ctx) ++
  match ParsePercentileDistribution ParseFloat (Distribution sd) with
  | Ok _ => []
  | Err e => [BadDistribution ctx e]
  end ++
  match sd_LocalResponse sd with
  | None => []
  | Some lr => validate_local_response ctx (sd_Status sd) lr
  end.

Fixpoint validate_responses (ctx what : string) (j : nat) (rs : list StatusDistribution) : list FaultError :=
  match rs with
  | [] => []
  | r :: rs' => validateStatusDistribution r (indexed ctx what j) ++ validate_responses ctx what (S j) rs'
  end.

Definition validate_grey_zone (ctx : string) (gz : GreyZoneConfig) : list FaultError :=
  fault_if (bool_decide (ParseDuration (PenaltyBase gz) = None)) (BadPenaltyBase ctx) ++
  fault_if (bool_decide (ParseDuration (SpikePenaltyDuration gz) = None)) (BadSpikeDuration ctx) ++
  fault_if (f_le (SpikeThreshold gz) f_zero || f_le f_one (SpikeThreshold gz)) (BadSpikeThreshold ctx) ++
  fault_if (f_le (SpikePenaltyMultiplier gz) f_zero) (BadSpikeMultiplier ctx) ++
  fault_if (f_le (RecoveryRate gz) f_zero || f_lt f_one (RecoveryRate gz)) (BadRecoveryRate ctx).

Definition validateLoadBased (lb : LoadBasedConfig) (ctx : string) : list FaultError :=
  match Healthy lb with
  | None => [NoHealthy ctx]
  | Some h => fault_if (f_le (ThresholdInFlight h) f_zero) (BadHealthyThreshold ctx)
  end ++
  match TippingPoint lb with None => [NoTippingPoint ctx] | Some _ => [] end ++
  match Healthy lb, TippingPoint lb with
  | Some h, Some t =>
      fault_if (f_le (ThresholdInFlight t) (ThresholdInFlight h)) (BadTippingThreshold ctx) ++
      fault_if (bool_decide (zlen (tier_Responses h) = 0)) (NoTierResponses ctx) ++
      fault_if (bool_decide (zlen (tier_Responses t) = 0)) (NoTierResponses ctx) ++
      validate_responses ctx "healthy response" 0 (tier_Responses h) ++
      validate_responses ctx "tipping_point response" 0 (tier_Responses t)
  | _, _ => []
  end ++
  match GreyZone lb with
  | None => []
  | Some gz => validate_grey_zone ctx gz
  end.

Definition validateBehavior (responses : list StatusDistribution) (loadBased : option LoadBasedConfig)
    (ctx : string) : list FaultError :=
  match responses, loadBased with
  | [], None => [NoBehavior ctx]
  | _ :: _, Some _ => [TwoBehaviors ctx]
  | _, _ => []
  end ++
  validate_responses ctx "response" 0 responses ++
  match loadBased with
  | Some lb => validateLoadBased lb ctx
  | None => []
  end.

Fixpoint validate_endpoints (i : nat) (eps : list EndpointConfig) : list FaultError :=
  match eps with
  | [] => []
  | ep :: eps' =>
      validateBehavior (ep_Responses ep) (ep_LoadBased ep) ("endpoint " +:+ FormatInt (Z.of_nat i)) ++
      validate_endpoints (S i) eps'
  end.

(** The mode, stateful by default. *)
Definition distribution_mode (cfg : FilterConfig) : string :=
  if decide (ProbabilityDistribution cfg = "") then ProbabilityDistributionStateful
  else ProbabilityDistribution cfg.

(** [parseConfig] of the decoded configuration. *)
Definition fault_parseConfig (cfg : FilterConfig) (source : Source) : result (list FaultError) FilterConfig :=
  let mode := distribution_mode cfg in
  let errs :=
    fault_if (negb (bool_decide (mode = ProbabilityDistributionStateful)) &&
              negb (bool_decide (mode = ProbabilityDistributionStateless))) (BadMode mode) ++
    (if bool_decide (source = PerRouteSource) || negb (bool_decide (zlen (Responses cfg) = 0)) ||
        match LoadBased cfg with Some _ => true | None => false end
     then validateBehavior (Responses cfg) (LoadBased cfg) "configuration" else []) ++
    validate_endpoints 0 (Endpoints cfg) in
  match errs with
  | [] => Ok (mkFilterConfig (Endpoints cfg) mode (Diagnostic cfg) (Responses cfg) (LoadBased cfg))
  | _ => Err errs
  end.
End Validation.

(** ** Parsed percentiles *)

Lemma parse_entries_spec ParseFloat dist ps :
  parse_entries ParseFloat dist = Ok ps ->
  Forall2 (fun e p => parse_entry ParseFloat e = Ok p) dist ps.
Proof.
  revert ps. induction dist as [|e dist IH]; intros ps; cbn [parse_entries]; [by intros [= <-]|].
  destruct (parse_entry ParseFloat e) as [p|] eqn:Hp; [|done]. cbn [rbind].
  destruct (parse_entries ParseFloat dist) as [rest|]; [|done]. cbn [rbind]. intros [= <-].
  constructor; auto.
Qed.

Lemma parse_entry_nonneg ParseFloat e p : parse_entry ParseFloat e = Ok p -> 0 <= PDuration p.
Proof.
  destruct e as [key dur]. unfold parse_entry. destruct (parsePercentileKey ParseFloat key); [|done].
  cbn [rbind]. destruct (ParseDuration dur) as [d|]; [|done].
  destruct (Z.ltb_spec d 0); [done|]. intros [= <-]. cbn. lia.
Qed.

Definition duration_le (a b : Percentile) : Prop := PDuration a <= PDuration b.

Lemma non_decreasing_Sorted ps : non_decreasing ps = true <-> Sorted duration_le ps.
Proof.
  induction ps as [|p1 [|p2 ps] IH]; cbn [non_decreasing]; [by split; [constructor|]|by split; [repeat constructor|]|].
  rewrite andb_true_iff, IH, negb_true_iff, Z.ltb_ge. split.
  - intros [H1 H2]. constructor; [done|]. by constructor.
  - intros Hs. inversion Hs as [|? ? Hs' Hh]; subst. inversion Hh; subst. done.
Qed.

(** A distribution that is accepted is the parsed entries of the map, in some order,
    with durations that are not negative and do not decrease. *)
Theorem ParsePercentileDistribution_accepts ParseFloat dist ps :
  ParsePercentileDistribution ParseFloat dist = Ok ps ->
  ps <> [] /\ Sorted duration_le ps /\ Forall (fun p => 0 <= PDuration p) ps /\
  exists ps0, ps ≡ₚ ps0 /\ Forall2 (fun e p => parse_entry ParseFloat e = Ok p) dist ps0.
Proof.
  unfold ParsePercentileDistribution. destruct dist as [|e dist]; [done|].
  destruct (parse_entries ParseFloat (e :: dist)) as [ps0|] eqn:He; [|done]. cbn [rbind].
  destruct (non_decreasing _) eqn:Hn; [|done]. intros [= <-].
  apply parse_entries_spec in He. pose proof (merge_sort_Permutation quantile_le ps0) as Hp.
  split_and!.
  - intros Hnil. rewrite Hnil in Hp. apply Permutation_nil in Hp as ->. inversion He.
  - by apply non_decreasing_Sorted.
  - rewrite Hp. apply Forall_forall. intros p (i & Hi)%list_elem_of_lookup.
    destruct (Forall2_lookup_r _ _ _ _ _ He Hi) as (x & _ & Hx). by eapply parse_entry_nonneg.
  - exists ps0. by split.
Qed.

(** Two keys for the same percentile make the outcome depend on the iteration order
    of the map: with p50 and p50.0 the same configuration is accepted in one order and
    rejected in the other. *)
Theorem percentile_order_dependent ParseFloat :
  ParseFloat "50" = Some (f_of_Z 50) -> ParseFloat "50.0" = Some (f_of_Z 50) ->
  is_ok (ParsePercentileDistribution ParseFloat [("p50", "10ms"); ("p50.0", "20ms")]) = true /\
  ParsePercentileDistribution ParseFloat [("p50.0", "20ms"); ("p50", "10ms")] = Err DecreasingDurations.
Proof.
  intros H1 H2. unfold ParsePercentileDistribution, parse_entries, parse_entry, parsePercentileKey.

  change (drop_bytes 1 "p50") with "50". change (drop_bytes 1 "p50.0") with "50.0".
  rewrite H1, H2. split; vm_compute; reflexivity.
Qed.

(** A percentile that is not a number is accepted: both range checks are false for
    NaN. *)
Theorem percentile_nan_accepted ParseFloat :
  ParseFloat "NaN" = Some S754_nan ->
  ParsePercentileDistribution ParseFloat [("pNaN", "1s")] = Ok [mkPercentile S754_nan Second].
Proof.
  intros H1. unfold ParsePercentileDistribution, parse_entries, parse_entry, parsePercentileKey.
  change (drop_bytes 1 "pNaN") with "NaN". rewrite H1. vm_compute. reflexivity.
Qed.

(** ** Accepted configurations *)

Section Accepted.
Context (ParseFloat : string -> option float64).
Context (ValidHeaderFieldName ValidHeaderFieldValue : string -> bool).

Definition wf_status_distribution (sd : StatusDistribution) : Prop :=
  200 <= sd_Status sd <= 599 /\ 0 < Resolution sd /\
  is_ok (ParsePercentileDistribution ParseFloat (Distribution sd)) = true.

Definition wf_tiers (h t : LoadTier) : Prop :=
  tier_Responses h <> [] /\ tier_Responses t <> [] /\
  Forall wf_status_distribution (tier_Responses h) /\ Forall wf_status_distribution (tier_Responses t) /\
  f_le (ThresholdInFlight h) f_zero = false /\ f_le (ThresholdInFlight t) (ThresholdInFlight h) = false.

(** Either weighted responses or two load tiers. *)
Definition wf_behavior (responses : list StatusDistribution) (loadBased : option LoadBasedConfig) : Prop :=
  (responses <> [] /\ loadBased = None /\ Forall wf_status_distribution responses) \/
  (responses = [] /\ exists lb h t, loadBased = Some lb /\ Healthy lb = Some h /\
     TippingPoint lb = Some t /\ wf_tiers h t).

Lemma fault_if_nil b e : fault_if b e = [] <-> b = false.
Proof. by destruct b. Qed.

Lemma validateStatusDistribution_wf sd ctx :
  validateStatusDistribution ParseFloat ValidHeaderFieldName ValidHeaderFieldValue sd ctx = [] ->
  wf_status_distribution sd.
Proof.
  unfold validateStatusDistribution. rewrite !app_nil, !fault_if_nil.
  intros (H1 & H2 & _ & H4 & _). apply orb_false_iff in H1 as [?%Z.ltb_ge ?%Z.ltb_ge].
  apply Z.leb_gt in H2. destruct (ParsePercentileDistribution _ _) eqn:Hp; [|done].
  split; [done|]. split; [done|]. by rewrite Hp.
Qed.

Lemma validate_responses_wf ctx what j rs :
  validate_responses ParseFloat ValidHeaderFieldName ValidHeaderFieldValue ctx what j rs = [] ->
  Forall wf_status_distribution rs.
Proof.
  revert j. induction rs as [|r rs IH]; intros j; cbn [validate_responses]; [done|].
  rewrite app_nil. intros [H1 H2]. constructor; [by eapply validateStatusDistribution_wf|by eapply IH].
Qed.

Lemma zlen_nonempty {A} (l : list A) : bool_decide (zlen l = 0) = false -> l <> [].
Proof. intros Hl%bool_decide_eq_false ->. by apply Hl. Qed.

Lemma validateBehavior_wf rs lb ctx :
  validateBehavior ParseFloat ValidHeaderFieldName ValidHeaderFieldValue rs lb ctx = [] ->
  wf_behavior rs lb.
Proof.
  unfold validateBehavior. rewrite !app_nil. intros (H1 & H2 & H3). apply validate_responses_wf in H2.
  destruct lb as [lb|]; [|left; destruct rs; [done|]; by split_and!].
  right. destruct rs; [|done]. split; [done|]. unfold validateLoadBased in H3. rewrite !app_nil in H3.
  destruct H3 as (Hh & Ht & Hb & _).
  destruct (Healthy lb) as [h|] eqn:Eh; [|done]. destruct (TippingPoint lb) as [t|] eqn:Et; [|done].
  rewrite !app_nil, !fault_if_nil in Hb. destruct Hb as (Hb1 & Hb2 & Hb3 & Hb4 & Hb5).
  apply fault_if_nil in Hh. exists lb, h, t. unfold wf_tiers. split_and!; try done.
  - by apply zlen_nonempty.
  - by apply zlen_nonempty.
  - by eapply validate_responses_wf.
  - by eapply validate_responses_wf.
Qed.

Definition wf_filter_config (c : FilterConfig) (source : Source) : Prop :=
  (ProbabilityDistribution c = ProbabilityDistributionStateful \/
   ProbabilityDistribution c = ProbabilityDistributionStateless) /\
  Forall (fun ep => wf_behavior (ep_Responses ep) (ep_LoadBased ep)) (Endpoints c) /\
  (source = PerRouteSource \/ Responses c <> [] \/ LoadBased c <> None ->
   wf_behavior (Responses c) (LoadBased c)).

Lemma validate_endpoints_wf i eps :
  validate_endpoints ParseFloat ValidHeaderFieldName ValidHeaderFieldValue i eps = [] ->
  Forall (fun ep => wf_behavior (ep_Responses ep) (ep_LoadBased ep)) eps.
Proof.
  revert i. induction eps as [|ep eps IH]; intros i; cbn [validate_endpoints]; [done|].
  rewrite app_nil. intros [H1 H2]. constructor; [by eapply validateBehavior_wf|by eapply IH].
Qed.

Lemma fault_parseConfig_valid cfg source c :
  fault_parseConfig ParseFloat ValidHeaderFieldName ValidHeaderFieldValue cfg source = Ok c ->
  wf_filter_config c source.
Proof.
  unfold fault_parseConfig. match goal with |- context [match ?e with [] => _ | _ => _ end] => destruct e eqn:He end; [|done].
  intros [= <-]. rewrite !app_nil, fault_if_nil in He. destruct He as (H1 & H2 & H3).
  unfold wf_filter_config. cbn [ProbabilityDistribution Endpoints Responses LoadBased]. split_and!.
  - apply andb_false_iff in H1 as [H1|H1]; apply negb_false_iff, bool_decide_eq_true in H1; auto.
  - by eapply validate_endpoints_wf.
  - intros Hb. destruct (_ || _) eqn:Hc in H2; [by eapply validateBehavior_wf|]. exfalso.
    rewrite !orb_false_iff, negb_false_iff, bool_decide_eq_false, bool_decide_eq_true in Hc.
    destruct Hc as [[Hc1 Hc2] Hc3]. destruct Hb as [?|[Hb|Hb]]; [done| |by destruct (LoadBased cfg)].
    by destruct (Responses cfg).
Qed.
End Accepted.

Lemma ParsePercentileDistribution_accepts_witness :
  let pf s := if decide (s = "50") then Some (f_of_Z 50) else None in
  Sorted duration_le [mkPercentile (f_div (f_of_Z 50) (f_of_Z 100)) (10 * Millisecond)].
Proof.
  intros pf. apply (ParsePercentileDistribution_accepts pf [("p50", "10ms")]). vm_compute. reflexivity.
Defined.

Lemma percentile_order_dependent_witness :
  let pf s := if decide (s = "50" \/ s = "50.0") then Some (f_of_Z 50) else None in
  ParsePercentileDistribution pf [("p50.0", "20ms"); ("p50", "10ms")] = Err DecreasingDurations.
Proof. intros pf. apply (percentile_order_dependent pf); reflexivity. Defined.

Lemma percentile_nan_accepted_witness :
  let pf s := if decide (s = "NaN") then Some S754_nan else None in
  ParsePercentileDistribution pf [("pNaN", "1s")] = Ok [mkPercentile S754_nan Second].
Proof. intros pf. apply (percentile_nan_accepted pf). reflexivity. Defined.
