(* ===== verification/FaultDistribution.v ===== *)
(** * dynamic-fault-injection: distributions and matching

    extensions/composer/dynamic-fault-injection/internal/fault/distribution.go and
    match.go: duration distributions, weighted responses, the load-based
    distribution with its grey zone, and route matching.  Floats are IEEE 754
    doubles; the random numbers and the clock are arguments. *)

From Stdlib Require Import Lia Ascii Floats.SpecFloat.
From S2P Require Import Prelude GoStr GoNum Host FaultConfig.
From stdpp Require Import numbers list.

Local Open Scope Z_scope.
Local Open Scope go_scope.

(** [time.Duration(f)] of a float, and the sum of two durations. *)
Definition f_duration (f : float64) : Z := f_to_int64 f.
Definition d_add (a b : Z) : Z := wrap64 (a + b).
Definition d_sub (a b : Z) : Z := wrap64 (a - b).

(** [cryptoFloat64] of the random integer below 2^53. *)
Definition cryptoFloat64 (n : Z) : float64 := f_div (f_of_Z n) (f_of_Z (2 ^ 53)).

(** ** The stateless distribution *)

Fixpoint sample_between (lower : Percentile) (rest : list Percentile) (r : float64) : Z :=
  match rest with
  | [] =>
      if f_le f_one (Quantile lower) then PDuration lower
      else
        let fraction := f_div (f_sub r (Quantile lower)) (f_sub f_one (Quantile lower)) in
        d_add (PDuration lower) (f_duration (f_mul fraction (f_of_Z (PDuration lower))))
  | upper :: rest' =>
      if f_le r (Quantile upper) then
        let fraction := f_div (f_sub r (Quantile lower)) (f_sub (Quantile upper) (Quantile lower)) in
        d_add (PDuration lower)
          (f_duration (f_mul fraction (f_of_Z (d_sub (PDuration upper) (PDuration lower)))))
      else sample_between upper rest' r
  end.

Definition SampleWithValue (percentiles : list Percentile) (r : float64) : Z :=
  match percentiles with
  | [] => 0
  | p0 :: rest =>
      if f_le r (Quantile p0) then
        if f_eq (Quantile p0) f_zero then PDuration p0
        else f_duration (f_mul (f_of_Z (PDuration p0)) (f_div r (Quantile p0)))
      else sample_between p0 rest r
  end.

(** ** Shuffling *)

Definition swap {A} (i j : nat) (l : list A) : list A :=
  match l !! i, l !! j with
  | Some x, Some y => <[i := y]> (<[j := x]> l)
  | _, _ => l
  end.

(** [cryptoShuffle]: [choice i] is the random index, at most [i], drawn at step [i]. *)
Fixpoint shuffle_from {A} (i : nat) (choice : nat -> nat) (l : list A) : list A :=
  match i with
  | O => l
  | S i' => shuffle_from i' choice (swap i (choice i) l)
  end.
Definition cryptoShuffle {A} (choice : nat -> nat) (l : list A) : list A :=
  shuffle_from (length l - 1) choice l.

(** ** The stateful distribution *)

Record StatefulProbabilityDistribution : Type := mkStateful {
  values : list Z;
  index : nat;
}.

(** The values of one percentile: [count] of them, unless the slots run out. *)
Definition segment (resolution idx : Z) (prevDuration : Z) (count : Z) (dur : Z) : list Z :=
  (fun i : nat =>
     let fraction := f_div (f_of_Z (Z.of_nat i)) (f_of_Z count) in
     d_add prevDuration (f_duration (f_mul fraction (f_of_Z (d_sub dur prevDuration)))))
    <$> seq 0 (Z.to_nat (Z.min count (resolution - idx))).

Definition segment_count (resolution : Z) (quantile prevQuantile : float64) : Z :=
  f_to_int64 (f_mul (f_of_Z resolution) (f_sub quantile prevQuantile)).

(** The loop over the percentiles; [acc] are the values so far. *)
Fixpoint fill_segments (resolution : Z) (ps : list Percentile) (prevQuantile : float64)
    (prevDuration : Z) (acc : list Z) : list Z * Z :=
  match ps with
  | [] => (acc, prevDuration)
  | p :: ps' =>
      let count := segment_count resolution (Quantile p) prevQuantile in
      fill_segments resolution ps' (Quantile p) (PDuration p)
        (acc ++ segment resolution (zlen acc) prevDuration count (PDuration p))
  end.

(** The slots after the last percentile. *)
Definition fill_tail (resolution : Z) (acc : list Z) (lastDuration : Z) : list Z :=
  let remaining := resolution - zlen acc in
  (fun i : nat =>
     let fraction := f_div (f_of_Z (Z.of_nat i)) (f_of_Z remaining) in
     d_add lastDuration (f_duration (f_mul fraction (f_of_Z lastDuration))))
    <$> seq 0 (Z.to_nat remaining).

(** The precomputed values before they are shuffled. *)
Definition stateful_values (percentiles : list Percentile) (resolution : Z) : list Z :=
  let '(acc, last) := fill_segments resolution percentiles f_zero 0 [] in
  acc ++ fill_tail resolution acc last.

Definition NewStatefulProbabilityDistribution (percentiles : list Percentile) (resolution : Z)
    (choice : nat -> nat) : StatefulProbabilityDistribution :=
  mkStateful (cryptoShuffle choice (stateful_values percentiles resolution)) 0.

(** [Sample]; [None] would be an index out of range. *)
Definition Stateful_Sample (spd : StatefulProbabilityDistribution) (choice : nat -> nat)
    : option (Z * StatefulProbabilityDistribution) :=
  let spd' := if (length (values spd) <=? index spd)%nat
              then mkStateful (cryptoShuffle choice (values spd)) 0 else spd in
  val ← values spd' !! index spd';
  Some (val, mkStateful (values spd') (S (index spd'))).

(** ** Weighted responses *)

Inductive durationDistribution : Type :=
| Stateless (percentiles : list Percentile)
| Stateful (spd : StatefulProbabilityDistribution).

Record ResponseSample : Type := mkResponseSample {
  rs_Status : Z;
  rs_Duration : Z;
  rs_LocalResponse : option LocalResponseConfig;
}.

Record responseEntry : Type := mkResponseEntry {
  e_status : Z;
  weight : Z;
  distribution : durationDistribution;
  e_localResponse : option LocalResponseConfig;
}.

Record ResponseDistribution : Type := mkResponseDistribution {
  entries : list responseEntry;
  totalWeight : Z;
}.

(** The random numbers of one sample: the status draw below the total weight, the
    integer below 2^53 of the stateless duration and of the grey zone, and the choices
    of a shuffle. *)
Record Draws : Type := mkDraws {
  draw_status : Z;
  draw_duration : Z;
  draw_grey : Z;
  draw_shuffle : nat -> nat;
}.

Definition distribution_Sample (d : durationDistribution) (draws : Draws)
    : option (Z * durationDistribution) :=
  match d with
  | Stateless ps => Some (SampleWithValue ps (cryptoFloat64 (draw_duration draws)), d)
  | Stateful spd =>
      '(v, spd') ← Stateful_Sample spd (draw_shuffle draws);
      Some (v, Stateful spd')
  end.

(** The position of the entry selected by the draw [r]. *)
Fixpoint select_entry (es : list responseEntry) (r cumulative : Z) : option nat :=
  match es with
  | [] => None
  | e :: es' =>
      let cumulative := wrap64 (cumulative + weight e) in
      if r <? cumulative then Some 0%nat else S <$> select_entry es' r cumulative
  end.

Definition sample_entry (rd : ResponseDistribution) (i : nat) (draws : Draws)
    : option (ResponseSample * ResponseDistribution) :=
  e ← entries rd !! i;
  '(dur, d') ← distribution_Sample (distribution e) draws;
  Some (mkResponseSample (e_status e) dur (e_localResponse e),
        mkResponseDistribution
          (<[i := mkResponseEntry (e_status e) (weight e) d' (e_localResponse e)]> (entries rd))
          (totalWeight rd)).

(** [Sample]: the selected entry, or the last one. *)
Definition Response_Sample (rd : ResponseDistribution) (draws : Draws)
    : option (ResponseSample * ResponseDistribution) :=
  sample_entry rd (default (length (entries rd) - 1)%nat (select_entry (entries rd) (draw_status draws) 0))
    draws.

Inductive DistributionError : Type :=
| NoStatusEntry
| PercentilesInvalid (e : PercentileError)
| UnsupportedMode (mode : string).

Definition newDurationDistribution (percentiles : list Percentile) (resolution : Z) (mode : string)
    (choice : nat -> nat) : result DistributionError durationDistribution :=
  if decide (mode = ProbabilityDistributionStateful)
  then Ok (Stateful (NewStatefulProbabilityDistribution percentiles resolution choice))
  else if decide (mode = ProbabilityDistributionStateless) then Ok (Stateless percentiles)
  else Err (UnsupportedMode mode).

Section Construction.
Context (ParseFloat : string -> option float64).
(** The choices of the initial shuffle of the [k]-th status entry. *)
Context (choices : nat -> nat -> nat).

Fixpoint new_entries (k : nat) (sds : list StatusDistribution) (mode : string)
    : result DistributionError (list responseEntry) :=
  match sds with
  | [] => Ok []
  | sd :: sds' =>
      match ParsePercentileDistribution ParseFloat (Distribution sd) with
      | Err e => Err (PercentilesInvalid e)
      | Ok percentiles =>
          try dist <- newDurationDistribution percentiles (Resolution sd) mode (choices k);
          try rest <- new_entries (S k) sds' mode;
          Ok (mkResponseEntry (sd_Status sd) (Resolution sd) dist (sd_LocalResponse sd) :: rest)
      end
  end.

(** The sum of the weights, with the overflow of [int]. *)
Definition total_weight (es : list responseEntry) : Z :=
  foldl (fun acc e => wrap64 (acc + weight e)) 0 es.

Definition NewResponseDistributionWithMode (sds : list StatusDistribution) (mode : string)
    : result DistributionError ResponseDistribution :=
  match sds with
  | [] => Err NoStatusEntry
  | _ =>
      try es <- new_entries 0 sds mode;
      Ok (mkResponseDistribution es (total_weight es))
  end.
End Construction.

(** ** Load-based responses *)

(** [recoveryStart] is [None] while it is the zero time. *)
Record greyZoneState : Type := mkGreyZoneState {
  penaltyBase : Z;
  spikePenaltyDuration : Z;
  spikeThreshold : float64;
  spikePenaltyMultiplier : float64;
  recoveryRate : float64;
  recoveryStart : option Z;
  inSpike : bool;
}.

Record LoadBasedResponseDistribution : Type := mkLoadBased {
  healthy : ResponseDistribution;
  tippingPoint : ResponseDistribution;
  healthyThreshold : float64;
  tippingThreshold : float64;
  greyZone : option greyZoneState;
}.

Definition new_grey_zone (gz : GreyZoneConfig) : greyZoneState :=
  mkGreyZoneState (default 0 (ParseDuration (PenaltyBase gz)))
    (default 0 (ParseDuration (SpikePenaltyDuration gz)))
    (SpikeThreshold gz) (SpikePenaltyMultiplier gz) (RecoveryRate gz) None false.

Definition NewLoadBasedResponseDistributionWithMode (ParseFloat : string -> option float64)
    (hchoices tchoices : nat -> nat -> nat)
    (healthyDists : list StatusDistribution) (healthyT : float64)
    (tippingDists : list StatusDistribution) (tippingT : float64)
    (gz : option GreyZoneConfig) (mode : string)
    : result DistributionError LoadBasedResponseDistribution :=
  try h <- NewResponseDistributionWithMode ParseFloat hchoices healthyDists mode;
  try t <- NewResponseDistributionWithMode ParseFloat tchoices tippingDists mode;
  Ok (mkLoadBased h t healthyT tippingT (new_grey_zone <$> gz)).

Definition set_spike (gz : greyZoneState) (spike : bool) (start : option Z) : greyZoneState :=
  mkGreyZoneState (penaltyBase gz) (spikePenaltyDuration gz) (spikeThreshold gz)
    (spikePenaltyMultiplier gz) (recoveryRate gz) start spike.

Definition calculateGreyZonePenalty (gz : greyZoneState) (greyPosition : float64) (now : Z)
    : Z * greyZoneState :=
  let basePenalty := f_duration (f_mul (f_of_Z (penaltyBase gz)) greyPosition) in
  if f_le (spikeThreshold gz) greyPosition then
    (f_duration (f_mul (f_of_Z basePenalty) (spikePenaltyMultiplier gz)), set_spike gz true None)
  else if inSpike gz then
    let start := default now (recoveryStart gz) in
    let elapsed := d_sub now start in
    if spikePenaltyDuration gz <=? elapsed then (basePenalty, set_spike gz false None)
    else
      let remaining := f_sub f_one
        (f_mul (f_div (f_of_Z elapsed) (f_of_Z (spikePenaltyDuration gz))) (recoveryRate gz)) in
      (f_duration (f_mul (f_mul (f_of_Z basePenalty) (spikePenaltyMultiplier gz)) remaining),
       set_spike gz true (Some start))
  else (basePenalty, gz).

Definition grey_position (lb : LoadBasedResponseDistribution) (load : float64) : float64 :=
  f_div (f_sub load (healthyThreshold lb)) (f_sub (tippingThreshold lb) (healthyThreshold lb)).

(** The penalty and the new grey zone; nothing without a grey zone. *)
Definition grey_penalty (lb : LoadBasedResponseDistribution) (load : float64) (now : Z)
    : Z * option greyZoneState :=
  match greyZone lb with
  | None => (0, None)
  | Some gz =>
      let '(penalty, gz') :=
        calculateGreyZonePenalty gz (f_min (f_max (grey_position lb load) f_zero) f_one) now in
      (penalty, Some gz')
  end.

Definition sample_healthy (lb : LoadBasedResponseDistribution) (gz : option greyZoneState) (draws : Draws)
    : option (ResponseSample * LoadBasedResponseDistribution) :=
  '(s, h') ← Response_Sample (healthy lb) draws;
  Some (s, mkLoadBased h' (tippingPoint lb) (healthyThreshold lb) (tippingThreshold lb) gz).

Definition sample_tipping (lb : LoadBasedResponseDistribution) (gz : option greyZoneState) (draws : Draws)
    : option (ResponseSample * LoadBasedResponseDistribution) :=
  '(s, t') ← Response_Sample (tippingPoint lb) draws;
  Some (s, mkLoadBased (healthy lb) t' (healthyThreshold lb) (tippingThreshold lb) gz).

Definition LoadBased_Sample (lb : LoadBasedResponseDistribution) (load : float64) (now : Z) (draws : Draws)
    : option (ResponseSample * LoadBasedResponseDistribution) :=
  let '(penalty, gz) := grey_penalty lb load now in
  if f_le load (healthyThreshold lb) then sample_healthy lb gz draws
  else if f_le (tippingThreshold lb) load then sample_tipping lb gz draws
  else
    '(s, lb') ← (if f_lt (grey_position lb load) (cryptoFloat64 (draw_grey draws))
                 then sample_healthy lb gz draws else sample_tipping lb gz draws);
    Some (mkResponseSample (rs_Status s) (d_add (rs_Duration s) penalty) (rs_LocalResponse s), lb').

(** ** Route matching *)

Section Matching.
Context {H : Type} `{!HeaderMap H}.

Definition header_matches (headers : H) (hm : HeaderMatchConfig) : bool :=
  let value := GetOne headers (hm_Name hm) in
  if PresentMatch hm then negb (bool_decide (value = ""))
  else bool_decide (ExactMatch hm = "") || bool_decide (value = ExactMatch hm).

Definition MatchRoute (m : MatchConfig) (path : string) (headers : H) : bool :=
  if negb (bool_decide (m_Prefix m = "")) && negb (HasPrefix path (m_Prefix m)) then false
  else if negb (bool_decide (m_Exact m = "")) &&
          negb (bool_decide (before_byte path "?"%char = m_Exact m)) then false
  else forallb (header_matches headers) (m_Headers m).
End Matching.

(** ** Shuffling permutes *)

Lemma swap_length {A} i j (l : list A) : length (swap i j l) = length l.
Proof. unfold swap. repeat case_match; [by rewrite !length_insert|done..]. Qed.

Lemma swap_perm {A} i j (l : list A) : swap i j l ≡ₚ l.
Proof.
  unfold swap. destruct (l !! i) as [x|] eqn:Hi; [|done]. destruct (l !! j) as [y|] eqn:Hj; [|done].
  destruct (decide (i = j)) as [->|Hne].
  { simplify_eq. by rewrite list_insert_insert_eq, list_insert_id. }
  symmetry. apply Permutation_inj. split; [by rewrite !length_insert|].
  exists (fun k => if decide (k = i) then j else if decide (k = j) then i else k). split.
  - intros a b Hab. repeat case_decide; subst; done.
  - intros k. apply lookup_lt_Some in Hi as Hli. apply lookup_lt_Some in Hj as Hlj.
    repeat case_decide; subst.
    + by rewrite list_lookup_insert_ne, list_lookup_insert_eq by done.
    + rewrite list_lookup_insert_eq; [done|]. by rewrite length_insert.
    + by rewrite !list_lookup_insert_ne by done.
Qed.

Lemma shuffle_from_perm {A} i choice (l : list A) : shuffle_from i choice l ≡ₚ l.
Proof.
  revert l. induction i as [|i IH]; intros l; cbn [shuffle_from]; [done|]. by rewrite IH, swap_perm.
Qed.

Lemma cryptoShuffle_perm {A} choice (l : list A) : cryptoShuffle choice l ≡ₚ l.
Proof. apply shuffle_from_perm. Qed.

(** ** The stateful distribution *)

Lemma fill_segments_length resolution ps q d acc :
  zlen acc <= resolution -> zlen (fill_segments resolution ps q d acc).1 <= resolution.
Proof.
  revert q d acc. induction ps as [|p ps IH]; intros q d acc Hacc; cbn [fill_segments]; [done|].
  apply IH. rewrite length_app. unfold segment. rewrite length_fmap, length_seq. lia.
Qed.

Lemma stateful_values_length ps resolution :
  0 <= resolution -> zlen (stateful_values ps resolution) = resolution.
Proof.
  intros Hr. unfold stateful_values.
  pose proof (fill_segments_length resolution ps f_zero 0 []) as Hl.
  destruct (fill_segments resolution ps f_zero 0 []) as [acc last]. cbn in Hl.
  rewrite length_app. unfold fill_tail. rewrite length_fmap, length_seq. lia.
Qed.

(** [n] samples with the shuffles chosen by [choices]. *)
Fixpoint samples (n : nat) (spd : StatefulProbabilityDistribution) (choices : nat -> nat -> nat)
    : option (list Z * StatefulProbabilityDistribution) :=
  match n with
  | O => Some ([], spd)
  | S n' =>
      '(v, spd') ← Stateful_Sample spd (choices n);
      '(vs, spd'') ← samples n' spd' choices;
      Some (v :: vs, spd'')
  end.

(** Within a cycle the values come in order. *)
Lemma samples_within n l i choices :
  (i + n <= length l)%nat ->
  samples n (mkStateful l i) choices = Some (take n (drop i l), mkStateful l (i + n)).
Proof.
  revert i. induction n as [|n IH]; intros i Hi; cbn [samples].
  { by rewrite Nat.add_0_r. }
  unfold Stateful_Sample. cbn [values index]. rewrite (proj2 (Nat.leb_gt _ _)) by lia. cbn [values index].
  destruct (lookup_lt_is_Some_2 l i) as [v Hv]; [lia|]. rewrite Hv. cbn [mbind option_bind].
  rewrite IH by lia. cbn [mbind option_bind].
  rewrite (drop_S l v i Hv). cbn [take]. by rewrite Nat.add_succ_r.
Qed.

Lemma samples_app n m spd choices vs spd' :
  samples n spd (fun k => choices (k + m)%nat) = Some (vs, spd') ->
  samples (n + m) spd choices =
  '(ws, spd'') ← samples m spd' choices; Some (vs ++ ws, spd'').
Proof.
  revert spd vs. induction n as [|n IH]; intros spd vs; cbn [samples Nat.add].
  { intros [= <- <-]. by destruct (samples m spd choices) as [[]|]. }
  destruct (Stateful_Sample spd _) as [[v s1]|]; [|done]. cbn [mbind option_bind].
  destruct (samples n s1 _) as [[ws s2]|] eqn:Hs; [|done]. cbn [mbind option_bind]. intros [= <- <-].
  rewrite (IH _ _ Hs). by destruct (samples m s2 choices) as [[]|].
Qed.

(** A state at a boundary of cycles: nothing drawn from the current order, or all. *)
Definition at_boundary (l : list Z) (spd : StatefulProbabilityDistribution) : Prop :=
  values spd ≡ₚ l /\ (index spd = 0%nat \/ index spd = length l).

Lemma samples_cycle l spd choices :
  l <> [] -> at_boundary l spd ->
  exists vs spd', samples (length l) spd choices = Some (vs, spd') /\ vs ≡ₚ l /\ at_boundary l spd'.
Proof.
  intros Hne [Hp Hi]. destruct spd as [v i]. cbn [values index] in Hp, Hi.
  pose proof (Permutation_length Hp) as Hlen.
  destruct Hi as [->| ->].
  - exists v, (mkStateful v (length v)). rewrite <-Hlen, samples_within by lia.
    rewrite drop_0, firstn_all. split; [done|]. split; [done|]. split; [done|]. right. by cbn.
  - set (v' := cryptoShuffle (choices (length l)) v).
    assert (Hp' : v' ≡ₚ l) by (unfold v'; by rewrite cryptoShuffle_perm).
    pose proof (Permutation_length Hp') as Hlen'.
    assert (Hsample : Stateful_Sample (mkStateful v (length l)) (choices (length l)) =
                      Stateful_Sample (mkStateful v' 0) (choices (length l))).
    { unfold Stateful_Sample. cbn [values index]. rewrite <-Hlen, Nat.leb_refl.
      rewrite (proj2 (Nat.leb_gt (length v') 0)); [by unfold v'; rewrite Hlen|].
      rewrite Hlen'. destruct l; [done|]. cbn. lia. }
    assert (Hs : samples (length l) (mkStateful v (length l)) choices =
                 samples (length l) (mkStateful v' 0) choices).
    { revert Hsample. generalize (mkStateful v (length l)), (mkStateful v' 0). intros s1 s2.
      destruct (length l) as [|n] eqn:Hl; [by destruct l|]. cbn [samples]. by intros ->. }
    exists v', (mkStateful v' (length v')). rewrite Hs, <-Hlen', samples_within by lia.
    rewrite drop_0, firstn_all. split; [done|]. split; [done|]. split; [done|]. right. by cbn.
Qed.

(** The stateful distribution is exact over cycles.  Built from any percentiles with
    a positive resolution it holds exactly [resolution] values, and whatever the
    shuffles, [k] cycles of samples give each of these values exactly [k] times,
    without an index out of range. *)
Theorem stateful_cycles ps resolution choice choices k
    (l := stateful_values ps resolution) :
  0 < resolution ->
  zlen l = resolution /\
  exists vs spd', samples (k * length l) (NewStatefulProbabilityDistribution ps resolution choice) choices
                  = Some (vs, spd') /\
    vs ≡ₚ concat (replicate k l).
Proof.
  intros Hr. split; [apply stateful_values_length; lia|].
  assert (Hne : l <> []).
  { intros Hl. pose proof (stateful_values_length ps resolution) as Hz. fold l in Hz. rewrite Hl in Hz.
    cbn in Hz. lia. }
  cut (exists vs spd', samples (k * length l) (NewStatefulProbabilityDistribution ps resolution choice)
         choices = Some (vs, spd') /\ vs ≡ₚ concat (replicate k l) /\ at_boundary l spd').
  { intros (vs & spd' & ? & ? & _). eauto. }
  assert (Hb : at_boundary l (NewStatefulProbabilityDistribution ps resolution choice)).
  { split; [apply cryptoShuffle_perm|by left]. }
  revert Hb. generalize (NewStatefulProbabilityDistribution ps resolution choice) as spd.
  induction k as [|k IH]; intros spd Hb; cbn [replicate concat].
  { exists [], spd. split; [done|]. split; [done|exact Hb]. }
  change (S k * length l)%nat with (length l + k * length l)%nat.
  destruct (samples_cycle l spd (fun n => choices (n + k * length l)%nat) Hne Hb)
    as (vs & spd' & Hs & Hp & Hb').
  destruct (IH spd' Hb') as (ws & spd'' & Hs' & Hp' & Hb'').
  exists (vs ++ ws), spd''. rewrite (samples_app _ _ _ _ _ _ Hs), Hs'. cbn [mbind option_bind].
  split; [done|]. split; [by apply Permutation_app|done].
Qed.

(** The counts of the precomputed values are rounded down.  With 100 slots and 29%
    of the requests below 10ms, only 28 values are below 10ms, as 100 * 0.29 is
    28.999... in binary. *)
Theorem stateful_rounds_down :
  let p29 := mkPercentile (f_div (f_of_Z 29) (f_of_Z 100)) (10 * Millisecond) in
  let p100 := mkPercentile f_one (20 * Millisecond) in
  length (filter (fun d => d < 10 * Millisecond) (stateful_values [p29; p100] 100)) = 28%nat.
Proof. vm_compute. reflexivity. Qed.

(** ** Weighted selection *)

Fixpoint weights_sum (es : list responseEntry) : Z :=
  match es with
  | [] => 0
  | e :: es' => weight e + weights_sum es'
  end.

Lemma weights_sum_pos es : Forall (fun e => 0 < weight e) es -> 0 <= weights_sum es.
Proof. induction 1; cbn [weights_sum]; lia. Qed.

Lemma weights_sum_take es i e :
  Forall (fun e => 0 < weight e) es -> es !! i = Some e ->
  0 <= weights_sum (take i es) /\ weights_sum (take (S i) es) = weights_sum (take i es) + weight e /\
  weights_sum (take (S i) es) <= weights_sum es.
Proof.
  intros Hw. revert i. induction Hw as [|e0 es He Hw IH]; intros [|i]; cbn [lookup list_lookup]; try done.
  - intros [= ->]. pose proof (weights_sum_pos es Hw). rewrite firstn_cons, !take_0. cbn [weights_sum]. lia.
  - intros Hi. destruct (IH i Hi) as (H1 & H2 & H3). cbn [take weights_sum] in *. lia.
Qed.

(** Entry [i] is selected by the draws between the sums of the weights before it and
    up to it. *)
Lemma select_entry_interval es r c i :
  Forall (fun e => 0 < weight e) es -> 0 <= c <= r -> c + weights_sum es <= int64_max ->
  (i < length es)%nat ->
  select_entry es r c = Some i <->
  c + weights_sum (take i es) <= r < c + weights_sum (take (S i) es).
Proof.
  intros Hw. revert c i. induction Hw as [|e es He Hw IH]; intros c i Hc Hb Hi; cbn [length] in Hi; [lia|].
  pose proof (weights_sum_pos es Hw) as Hpos. cbn [select_entry weights_sum] in *.
  rewrite wrap64_id by (unfold int64_min, int64_max in *; lia).
  destruct (Z.ltb_spec r (c + weight e)) as [Hlt|Hge].
  - destruct i as [|i]; rewrite !firstn_cons, ?take_0; cbn [weights_sum].
    + split; [intros _; lia|done].
    + split; [done|]. intros [? _].
      assert (0 <= weights_sum (take i es)) by (by apply weights_sum_pos, Forall_take). lia.
  - destruct i as [|i]; rewrite !firstn_cons, ?take_0; cbn [weights_sum].
    + rewrite fmap_Some. split; [by intros (? & _ & ?)|]. lia.
    + specialize (IH (c + weight e) i). cbn [take] in IH.
      destruct (select_entry es r (c + weight e)) as [j|]; cbn.
      * rewrite (inj_iff Some), (inj_iff S) in *. rewrite IH by lia. lia.
      * rewrite <-!Z.add_assoc in IH. split; [done|]. intros Hr. exfalso.
        assert (Hn : @None nat = Some i) by (apply IH; lia). done.
Qed.

Lemma filter_all {A} (P : A -> Prop) `{!forall x, Decision (P x)} (l : list A) :
  Forall P l -> filter P l = l.
Proof. induction 1; [done|]. rewrite filter_cons_True by done. congruence. Qed.

Lemma filter_all_false {A} (P : A -> Prop) `{!forall x, Decision (P x)} (l : list A) :
  Forall (fun x => ~ P x) l -> filter P l = [].
Proof. induction 1; [done|]. by rewrite filter_cons_False. Qed.

(** The integers of [0, n) in an interval. *)
Lemma count_interval (P : Z -> Prop) `{!forall x, Decision (P x)} a b n :
  0 <= a <= b -> b <= n -> (forall r, 0 <= r < n -> P r <-> a <= r < b) ->
  length (filter P (seqZ 0 n)) = Z.to_nat (b - a).
Proof.
  intros Hab Hbn HP.
  replace n with (a + ((b - a) + (n - b))) by lia.
  rewrite seqZ_app by lia. rewrite (seqZ_app (0 + a)) by lia. rewrite !filter_app.
  rewrite (filter_all_false P (seqZ 0 a)), (filter_all P (seqZ (0 + a) (b - a))),
    (filter_all_false P (seqZ (0 + a + (b - a)) (n - b))).
  - by rewrite app_nil_l, app_nil_r, length_seqZ.
  - apply Forall_forall. intros r Hr%elem_of_seqZ. rewrite HP; lia.
  - apply Forall_forall. intros r Hr%elem_of_seqZ. apply HP; lia.
  - apply Forall_forall. intros r Hr%elem_of_seqZ. rewrite HP; lia.
Qed.

Lemma total_weight_sum es :
  Forall (fun e => 0 < weight e) es -> weights_sum es <= int64_max -> total_weight es = weights_sum es.
Proof.
  intros Hw. unfold total_weight.
  cut (forall c, 0 <= c -> c + weights_sum es <= int64_max ->
         foldl (fun acc e => wrap64 (acc + weight e)) c es = c + weights_sum es).
  { intros Hc Hb. rewrite Hc; lia. }
  induction Hw as [|e es He Hw IH]; intros c Hc Hb; cbn [foldl weights_sum] in *; [lia|].
  pose proof (weights_sum_pos es Hw). rewrite wrap64_id by (unfold int64_min, int64_max in *; lia).
  rewrite IH; lia.
Qed.

(** A status is selected exactly in proportion to its resolution.  With positive
    resolutions whose sum fits an [int], of the draws below the total weight exactly
    [weight e] select entry [i], and no draw falls through to the fallback. *)
Theorem weighted_selection es i e :
  Forall (fun e => 0 < weight e) es -> weights_sum es <= int64_max -> es !! i = Some e ->
  length (filter (fun r => select_entry es r 0 = Some i) (seqZ 0 (total_weight es))) =
    Z.to_nat (weight e) /\
  forall r, 0 <= r < total_weight es -> is_Some (select_entry es r 0).
Proof.
  intros Hw Hb Hi. rewrite total_weight_sum by done.
  destruct (weights_sum_take es i e Hw Hi) as (H1 & H2 & H3).
  apply lookup_lt_Some in Hi as Hlt.
  assert (He : 0 < weight e) by (by eapply (Forall_lookup_1 (fun e => 0 < weight e)) in Hi).
  split.
  - rewrite (count_interval _ (weights_sum (take i es)) (weights_sum (take (S i) es))); [|lia|lia|].
    + f_equal. lia.
    + intros r Hr. rewrite select_entry_interval by (done || lia). by rewrite !Z.add_0_l.
  - clear -Hw Hb. intros r Hr.
    cut (forall c, 0 <= c <= r -> c + weights_sum es <= int64_max -> r < c + weights_sum es ->
           is_Some (select_entry es r c)); [intros Hc; apply Hc; lia|].
    clear Hb Hr. induction Hw as [|e es He Hw IH]; intros c Hc Hb Hr; cbn [select_entry weights_sum] in *; [lia|].
    pose proof (weights_sum_pos es Hw). rewrite wrap64_id by (unfold int64_min, int64_max in *; lia).
    destruct (Z.ltb_spec r (c + weight e)); [done|]. apply fmap_is_Some, IH; lia.
Qed.

(** ** The grey zone *)

(** The grey zone after samples at some positions and times. *)
Fixpoint run_grey (gz : greyZoneState) (samples : list (float64 * Z)) : greyZoneState :=
  match samples with
  | [] => gz
  | (pos, now) :: rest => run_grey (calculateGreyZonePenalty gz pos now).2 rest
  end.

Definition below_spike (gz : greyZoneState) (sample : float64 * Z) : Prop :=
  f_le (spikeThreshold gz) sample.1 = false.

Definition clock_ok (sample : float64 * Z) : Prop := 0 <= sample.2 <= int64_max.

Lemma run_grey_calm gz samples :
  inSpike gz = false -> Forall (below_spike gz) samples -> run_grey gz samples = gz.
Proof.
  intros Hs Hb. induction Hb as [|[pos now] rest Hb _ IH]; cbn [run_grey]; [done|].
  unfold calculateGreyZonePenalty. unfold below_spike in Hb. cbn in Hb. by rewrite Hb, Hs.
Qed.

Lemma run_grey_recovering gz start samples :
  inSpike gz = true -> recoveryStart gz = Some start -> 0 <= start <= int64_max ->
  Forall (below_spike gz) samples -> Forall clock_ok samples ->
  inSpike (run_grey gz samples) = forallb (fun s => s.2 - start <? spikePenaltyDuration gz) samples.
Proof.
  intros Hs Hr H0 Hb Hc. revert gz Hs Hr Hb. induction Hc as [|[pos now] rest Hc0 Hc IH]; intros gz Hs Hr Hb.
  { done. }
  apply Forall_cons in Hb as [Hb0 Hb]. cbn [run_grey forallb snd].
  unfold calculateGreyZonePenalty. unfold below_spike in Hb0. cbn [fst] in Hb0. rewrite Hb0, Hs, Hr.
  cbn [default from_option id].
  unfold clock_ok in Hc0. cbn [snd] in Hc0.
  unfold d_sub. rewrite wrap64_id by (unfold int64_min, int64_max in *; lia).
  destruct (Z.leb_spec (spikePenaltyDuration gz) (now - start)).
  - rewrite (proj2 (Z.ltb_ge _ _)) by done. cbn [snd andb]. by rewrite run_grey_calm.
  - rewrite (proj2 (Z.ltb_lt _ _)) by done. cbn [snd andb]. by rewrite IH.
Qed.

(** A load spike lasts as configured.  A sample at or above the spike threshold
    starts a spike; from the first sample below it, the filter stays in the spike
    exactly until a sample comes at least the penalty duration later, and then stays
    out of it while the load is below the threshold. *)
Theorem grey_zone_spike gz pos now t0 rest
    (gz1 := (calculateGreyZonePenalty gz pos now).2) :
  f_le (spikeThreshold gz) pos = true ->
  Forall (below_spike gz) (t0 :: rest) -> Forall clock_ok (t0 :: rest) ->
  inSpike gz1 = true /\
  inSpike (run_grey gz1 (t0 :: rest)) =
    forallb (fun s => s.2 - t0.2 <? spikePenaltyDuration gz) (t0 :: rest).
Proof.
  intros Hpos [Hb0 Hb]%Forall_cons [Hc0 Hc]%Forall_cons. subst gz1.
  unfold calculateGreyZonePenalty at 1 2. rewrite Hpos. cbn [snd]. split; [done|].
  destruct t0 as [p0 t0]. cbn [run_grey forallb snd]. unfold calculateGreyZonePenalty.
  unfold below_spike in Hb0. cbn [fst] in Hb0. cbn [set_spike spikeThreshold inSpike recoveryStart].
  rewrite Hb0. cbn [default from_option id]. unfold clock_ok in Hc0. cbn [snd] in Hc0.
  unfold d_sub. rewrite wrap64_id by (unfold int64_min, int64_max in *; lia).
  rewrite Z.sub_diag. change (spikePenaltyDuration (set_spike gz true None)) with (spikePenaltyDuration gz).
  destruct (Z.leb_spec (spikePenaltyDuration gz) 0).
  - rewrite (proj2 (Z.ltb_ge _ _)) by done. cbn [snd andb]. rewrite run_grey_calm; [done|done|exact Hb].
  - rewrite (proj2 (Z.ltb_lt _ _)) by done. cbn [snd andb].
    exact (run_grey_recovering (set_spike gz true (Some t0)) t0 rest eq_refl eq_refl Hc0 Hb Hc).
Qed.

(** ** Witnesses *)

Definition ex_percentiles : list Percentile :=
  [mkPercentile (f_div (f_of_Z 50) (f_of_Z 100)) (10 * Millisecond); mkPercentile f_one (20 * Millisecond)].

Lemma stateful_cycles_witness :
  exists vs spd', samples 30 (NewStatefulProbabilityDistribution ex_percentiles 10 (fun _ => 0%nat))
                    (fun _ _ => 0%nat) = Some (vs, spd') /\
    vs ≡ₚ concat (replicate 3 (stateful_values ex_percentiles 10)).
Proof.
  apply (stateful_cycles ex_percentiles 10 (fun _ => 0%nat) (fun _ _ => 0%nat) 3). lia.
Defined.

Definition ex_entries : list responseEntry :=
  [mkResponseEntry 200 900 (Stateless ex_percentiles) None; mkResponseEntry 503 100 (Stateless ex_percentiles) None].

Lemma weighted_selection_witness :
  length (filter (fun r => select_entry ex_entries r 0 = Some 1%nat) (seqZ 0 1000)) = 100%nat.
Proof.
  apply (weighted_selection ex_entries 1 (mkResponseEntry 503 100 (Stateless ex_percentiles) None)).
  - repeat constructor.
  - vm_compute. discriminate.
  - reflexivity.
Defined.

Definition ex_grey : greyZoneState :=
  mkGreyZoneState (100 * Millisecond) (5 * Second) (f_div f_one (f_of_Z 2)) (f_of_Z 2) f_one None false.

Lemma grey_zone_spike_witness :
  inSpike (run_grey (calculateGreyZonePenalty ex_grey f_one 0).2 [(f_zero, Second); (f_zero, 5 * Second)]) = true /\
  inSpike (run_grey (calculateGreyZonePenalty ex_grey f_one 0).2 [(f_zero, Second); (f_zero, 6 * Second)]) = false.
Proof.
  split; [rewrite (proj2 (grey_zone_spike ex_grey f_one 0 (f_zero, Second) [(f_zero, 5 * Second)] eq_refl
                     ltac:(repeat constructor) ltac:(repeat constructor; vm_compute; discriminate)))
         |rewrite (proj2 (grey_zone_spike ex_grey f_one 0 (f_zero, Second) [(f_zero, 6 * Second)] eq_refl
                     ltac:(repeat constructor) ltac:(repeat constructor; vm_compute; discriminate)))];
    vm_compute; reflexivity.
Defined.
