(* ===== verification/FaultFilter.v ===== *)
(** * dynamic-fault-injection: the filter

    extensions/composer/dynamic-fault-injection/plugin.go: building the filter
    factory from an accepted configuration, sampling on the request, delaying
    or replacing the response, and the count of the requests in flight that all
    filters share.  Random numbers, clock readings and the worker index are
    arguments; a delayed action is the action with its delay. *)

From Stdlib Require Import Lia Ascii Floats.SpecFloat.
From S2P Require Import Prelude GoStr GoNum Host ExtPkg FaultConfig FaultDistribution.
From stdpp Require Import numbers list.

Local Open Scope Z_scope.
Local Open Scope go_scope.

(** ** The factory *)

Record endpointEntry : Type := mkEndpointEntry {
  ee_match : MatchConfig;
  ee_distribution : option ResponseDistribution;
  ee_loadBased : option LoadBasedResponseDistribution;
}.

Record latencyFaultFilterFactory : Type := mkFactory {
  diagnostic_ : bool;
  endpoints : list endpointEntry;
  f_distribution : option ResponseDistribution;
  f_loadBased : option LoadBasedResponseDistribution;
  direct : bool;
}.

Inductive BuildError : Type :=
| LoadFailed (e : list FaultError)
| BuildFailed (e : DistributionError)
| NilTier.

Section Build.
Context (ParseFloat : string -> option float64).
Context (ValidHeaderFieldName ValidHeaderFieldValue : string -> bool).
(** The choices of the initial shuffles. *)
Context (choices hchoices tchoices : nat -> nat -> nat).

Definition map_err {E E' A} (f : E -> E') (r : result E A) : result E' A :=
  match r with Ok a => Ok a | Err e => Err (f e) end.

Definition build_weighted (rs : list StatusDistribution) (mode : string)
    : result BuildError (option ResponseDistribution) :=
  match rs with
  | [] => Ok None
  | _ => try d <- map_err BuildFailed (NewResponseDistributionWithMode ParseFloat choices rs mode); Ok (Some d)
  end.

(** A missing tier would be a nil dereference. *)
Definition build_load_based (lb : option LoadBasedConfig) (mode : string)
    : result BuildError (option LoadBasedResponseDistribution) :=
  match lb with
  | None => Ok None
  | Some lb =>
      match Healthy lb, TippingPoint lb with
      | Some h, Some t =>
          try d <- map_err BuildFailed
            (NewLoadBasedResponseDistributionWithMode ParseFloat hchoices tchoices
               (tier_Responses h) (ThresholdInFlight h) (tier_Responses t) (ThresholdInFlight t)
               (GreyZone lb) mode);
          Ok (Some d)
      | _, _ => Err NilTier
      end
  end.

Fixpoint build_endpoints (eps : list EndpointConfig) (mode : string)
    : result BuildError (list endpointEntry) :=
  match eps with
  | [] => Ok []
  | ep :: eps' =>
      try d <- build_weighted (ep_Responses ep) mode;
      try lb <- build_load_based (ep_LoadBased ep) mode;
      try rest <- build_endpoints eps' mode;
      Ok (mkEndpointEntry (ep_Match ep) d lb :: rest)
  end.

(** [buildFilterFactoryForSource] of a decoded configuration. *)
Definition buildFilterFactoryForSource (decoded : FilterConfig) (source : Source)
    : result BuildError latencyFaultFilterFactory :=
  try cfg <- map_err LoadFailed
    (fault_parseConfig ParseFloat ValidHeaderFieldName ValidHeaderFieldValue decoded source);
  let mode := ProbabilityDistribution cfg in
  let direct := bool_decide (source = PerRouteSource) || bool_decide (zlen (Endpoints cfg) = 0) in
  if direct then
    try d <- build_weighted (Responses cfg) mode;
    try lb <- build_load_based (LoadBased cfg) mode;
    Ok (mkFactory (Diagnostic cfg) [] d lb true)
  else
    try eps <- build_endpoints (Endpoints cfg) mode;
    Ok (mkFactory (Diagnostic cfg) eps None None false).
End Build.

(** ** Requests *)

(** The per-request filter without its handle and factory. *)
Record latencyFaultFilter : Type := mkFilter {
  sample : ResponseSample;
  matched : bool;
  counted : bool;
  requestEntryInFlight : Z;
  requestStart : Z;
}.

Definition newFaultFilter : latencyFaultFilter := mkFilter (mkResponseSample 0 0 None) false false 0 0.

(** Sampling an optional pair of distributions: [None] is a failure of the sampling,
    [Some (None, _)] that there is nothing to sample. *)
Definition sample_behavior (d : option ResponseDistribution) (lb : option LoadBasedResponseDistribution)
    (load now : Z) (draws : Draws)
    : option (option ResponseSample * (option ResponseDistribution * option LoadBasedResponseDistribution)) :=
  match d, lb with
  | Some d, _ => '(s, d') ← Response_Sample d draws; Some (Some s, (Some d', lb))
  | None, Some lb => '(s, lb') ← LoadBased_Sample lb (f_of_Z load) now draws; Some (Some s, (None, Some lb'))
  | None, None => Some (None, (None, None))
  end.

Section Sampling.
Context {H : Type} `{!HeaderMap H}.

(** The first endpoint that matches is sampled. *)
Fixpoint sample_endpoints (eps : list endpointEntry) (path : string) (headers : H) (load now : Z)
    (draws : Draws) : option (option ResponseSample * list endpointEntry) :=
  match eps with
  | [] => Some (None, [])
  | ep :: eps' =>
      if MatchRoute (ee_match ep) path headers then
        '(s, (d, lb)) ← sample_behavior (ee_distribution ep) (ee_loadBased ep) load now draws;
        Some (s, mkEndpointEntry (ee_match ep) d lb :: eps')
      else
        '(s, rest) ← sample_endpoints eps' path headers load now draws;
        Some (s, ep :: rest)
  end.

(** [factory.sample] and, when it has nothing, the endpoints. *)
Definition sample_request (f : latencyFaultFilterFactory) (headers : H) (load now : Z) (draws : Draws)
    : option (option ResponseSample * latencyFaultFilterFactory) :=
  '(s, (d, lb)) ← (if direct f then sample_behavior (f_distribution f) (f_loadBased f) load now draws
                   else Some (None, (f_distribution f, f_loadBased f)));
  match s with
  | Some _ => Some (s, mkFactory (diagnostic_ f) (endpoints f) d lb (direct f))
  | None =>
      '(s, eps) ← sample_endpoints (endpoints f) (GetOne headers ":path") headers load now draws;
      Some (s, mkFactory (diagnostic_ f) eps d lb (direct f))
  end.

(** [startRequest] and [releaseRequest] on the filter and the shared counter. *)
Definition startRequest (f : latencyFaultFilter) (active : Z) : latencyFaultFilter * Z :=
  if counted f then (f, active)
  else (mkFilter (sample f) (matched f) true (requestEntryInFlight f) (requestStart f),
        wrap64 (active + 1)).

Definition releaseRequest (f : latencyFaultFilter) (active : Z) : latencyFaultFilter * Z :=
  if negb (counted f) then (f, active)
  else (mkFilter (sample f) (matched f) false (requestEntryInFlight f) (requestStart f),
        wrap64 (active - 1)).

(** [OnRequestHeaders]: [load] is the counter as it was read, [active] as it is when the
    request is counted, [now] and [now'] the clock of the sample and of the start. *)
Definition OnRequestHeaders (fac : latencyFaultFilterFactory) (f : latencyFaultFilter) (headers : H)
    (load active now now' : Z) (draws : Draws)
    : option (latencyFaultFilterFactory * latencyFaultFilter * Z) :=
  '(s, fac') ← sample_request fac headers load now draws;
  match s with
  | Some s =>
      let '(f', active') := startRequest (mkFilter s true (counted f) load now') active in
      Some (fac', f', active')
  | None =>
      if matched f then
        let '(f', active') := startRequest (mkFilter (sample f) true (counted f) load now') active in
        Some (fac', f', active')
      else Some (fac', f, active)
  end.
End Sampling.

(** ** Responses *)

Definition requestsInFlightHeader : string := "x-fault-requests-in-flight".
Definition addedDelayHeader : string := "x-fault-added-delay".
Definition actualUpstreamHeader : string := "x-fault-actual-upstream".
Definition injectedDelayHeader : string := "x-fault-injected-delay".
Definition injectedHeader : string := "x-fault-injected".
Definition statusHeader : string := "x-fault-status".
Definition upstreamStatusHeader : string := "x-fault-upstream-status".
Definition workerIndexHeader : string := "x-fault-worker-index".

Record faultAttributes : Type := mkAttributes {
  RequestsInFlight : Z;
  AddedDelay : string;
  ActualUpstream : string;
  InjectedDelay : string;
  Injected : string;
  a_Status : string;
  UpstreamStatus : string;
  WorkerIndex : string;
}.

(** The attributes that are set, in the order of the header map and of the span tags. *)
Definition attributes (a : faultAttributes) : list (string * string) :=
  filter (fun kv => kv.2 <> "")
    [(injectedDelayHeader, InjectedDelay a); (actualUpstreamHeader, ActualUpstream a);
     (addedDelayHeader, AddedDelay a); (statusHeader, a_Status a);
     (upstreamStatusHeader, UpstreamStatus a);
     (requestsInFlightHeader, if 0 <=? RequestsInFlight a then FormatInt (RequestsInFlight a) else "");
     (injectedHeader, Injected a); (workerIndexHeader, WorkerIndex a)].

(** The name of the tag of a header: the prefix is [fault.] instead of [x-fault-]. *)
Definition tag_of (header : string) : string := "fault." +:+ TrimPrefix header "x-fault-".

Definition setFaultSpanAttributes (span : bool) (a : faultAttributes) : list HandleCall :=
  if span then (fun kv => SetTag (tag_of kv.1) kv.2) <$> attributes a else [].

Definition setFaultAttributesOnHeaderMap {H} `{!HeaderMap H} (headers : H) (a : faultAttributes) : H :=
  foldl (fun h kv => HSet h kv.1 kv.2) headers (attributes a).

(** The order of the header array of a local response. *)
Definition attributes_array (a : faultAttributes) : list (string * string) :=
  filter (fun kv => kv.2 <> "")
    [(injectedHeader, Injected a); (injectedDelayHeader, InjectedDelay a);
     (actualUpstreamHeader, ActualUpstream a); (addedDelayHeader, AddedDelay a);
     (statusHeader, a_Status a); (upstreamStatusHeader, UpstreamStatus a);
     (requestsInFlightHeader, if 0 <=? RequestsInFlight a then FormatInt (RequestsInFlight a) else "");
     (workerIndexHeader, WorkerIndex a)].

Definition injectedResponseName (status : Z) : string := if status <? 400 then "response" else "abort".
Definition localResponseDetail (status : Z) : string :=
  if status <? 400 then "fault_response" else "fault_abort".

Definition default_body (status : Z) : string :=
  if status <? 400 then ""
  else "fault filter abort: " +:+ FormatInt status +:+ String "010" "".

Definition configured_headers (s : ResponseSample) : list (string * string) :=
  match rs_LocalResponse s with
  | None => []
  | Some lr => (fun h => (ToLower (h_Name h), h_Value h)) <$> lr_Headers lr
  end.

(** [localResponse]: the body and the headers. *)
Definition localResponse (s : ResponseSample) (a : faultAttributes) : string * list (string * string) :=
  let body := match rs_LocalResponse s ≫= lr_Body with Some b => b | None => default_body (rs_Status s) end in
  let headers := configured_headers s in
  let headers := if existsb (fun kv => bool_decide (kv.1 = "content-type")) headers then headers
                 else ("content-type", "text/plain") :: headers in
  (body, headers ++ attributes_array a).

Definition local_call (s : ResponseSample) (a : faultAttributes) : HandleCall :=
  let '(body, headers) := localResponse s a in
  SendLocalResponse (u32 (rs_Status s)) headers body (localResponseDetail (rs_Status s)).

(** The result of the response callback: the status, the response headers, the calls
    made at once, and the call scheduled after a delay. *)
Record ResponseResult (H : Type) : Type := mkResponseResult {
  rr_status : HeadersStatus;
  rr_headers : H;
  rr_calls : list HandleCall;
  rr_scheduled : option (Z * HandleCall);
}.
Arguments mkResponseResult {_}. Arguments rr_status {_}. Arguments rr_headers {_}.
Arguments rr_calls {_}. Arguments rr_scheduled {_}.

Section Response.
Context {H : Type} `{!HeaderMap H}.

Definition attributes_of (f : latencyFaultFilter) (elapsed : Z) (status injected added worker : string)
    : faultAttributes :=
  mkAttributes (requestEntryInFlight f) added (DurationString elapsed)
    (DurationString (rs_Duration (sample f))) injected (FormatInt (rs_Status (sample f))) status worker.

(** [now] is the clock of the callback, [worker] the worker index, [span] whether there
    is an active span. *)
Definition OnResponseHeaders (diagnostic : bool) (f : latencyFaultFilter) (headers : H)
    (now worker : Z) (span : bool) : ResponseResult H :=
  if negb (matched f) then mkResponseResult HeadersStatusContinue headers [] None
  else
    let s := sample f in
    let elapsed := wrap64 (now - requestStart f) in
    let remainingDelay := Z.max (wrap64 (rs_Duration s - elapsed)) 0 in
    let status := GetOne headers ":status" in
    match Atoi status with
    | None => mkResponseResult HeadersStatusContinue headers [] None
    | Some upstreamStatus =>
        let workerIndex := if diagnostic then FormatInt worker else "" in
        if negb (rs_Status s =? upstreamStatus) then
          if 0 <? remainingDelay then
            let a := attributes_of f elapsed status (injectedResponseName (rs_Status s))
                       (DurationString remainingDelay) workerIndex in
            mkResponseResult HeadersStatusStopAllAndBuffer headers (setFaultSpanAttributes span a)
              (Some (remainingDelay, local_call s a))
          else
            let a := attributes_of f elapsed status (injectedResponseName (rs_Status s)) "" workerIndex in
            mkResponseResult HeadersStatusStop headers (setFaultSpanAttributes span a ++ [local_call s a]) None
        else
          let a := attributes_of f elapsed status ""
                     (if 0 <? remainingDelay then DurationString remainingDelay else "") workerIndex in
          let headers' := setFaultAttributesOnHeaderMap headers a in
          let calls := setFaultSpanAttributes span a in
          if 0 <? remainingDelay then
            mkResponseResult HeadersStatusStopAllAndBuffer headers' calls (Some (remainingDelay, ContinueResponse))
          else mkResponseResult HeadersStatusContinue headers' calls None
    end.
End Response.

(** ** Requests in flight *)

(** All the live filters of the process and the shared counter. *)
Record World : Type := mkWorld {
  w_active : Z;
  w_filters : gmap nat latencyFaultFilter;
}.

Section InFlight.
Context {H : Type} `{!HeaderMap H}.

(** The callbacks of any filter, in any order and interleaving.  The load a request
    samples with is arbitrary, since it was read some time before the request is
    counted.  [OnDestroy] ends the life of a filter, with or without an
    [OnStreamComplete] before it. *)
Inductive world_step : World -> World -> Prop :=
| w_create w i :
    w_filters w !! i = None -> Z.of_nat (size (w_filters w)) < int64_max ->
    world_step w (mkWorld (w_active w) (<[i := newFaultFilter]> (w_filters w)))
| w_request w i f fac (headers : H) load now now' draws fac' f' active' :
    w_filters w !! i = Some f ->
    OnRequestHeaders fac f headers load (w_active w) now now' draws = Some (fac', f', active') ->
    world_step w (mkWorld active' (<[i := f']> (w_filters w)))
| w_complete w i f :
    w_filters w !! i = Some f ->
    world_step w (mkWorld (releaseRequest f (w_active w)).2
                    (<[i := (releaseRequest f (w_active w)).1]> (w_filters w)))
| w_destroy w i f :
    w_filters w !! i = Some f ->
    world_step w (mkWorld (releaseRequest f (w_active w)).2 (delete i (w_filters w))).

Definition count_counted (m : gmap nat latencyFaultFilter) : nat :=
  size (filter (fun kv => counted kv.2 = true) m).

Lemma count_counted_delete m i f :
  m !! i = Some f ->
  count_counted m = ((if counted f then 1 else 0) + count_counted (delete i m))%nat.
Proof.
  intros Hi. unfold count_counted. rewrite <-(insert_delete_id m i f Hi) at 1.
  destruct (counted f) eqn:Hc.
  - rewrite map_filter_insert_True by done. rewrite map_size_insert_None; [done|].
    apply map_lookup_filter_None. left. by rewrite lookup_delete_eq.
  - rewrite map_filter_insert_False by (cbn; congruence). by rewrite delete_delete_eq.
Qed.

Lemma count_counted_insert m i f f' :
  m !! i = Some f ->
  (count_counted (<[i := f']> m) + (if counted f then 1 else 0) =
   count_counted m + (if counted f' then 1 else 0))%nat.
Proof.
  intros Hi. rewrite (count_counted_delete (<[i := f']> m) i f') by (by rewrite lookup_insert_eq).
  rewrite (count_counted_delete m i f Hi). rewrite delete_insert_eq. lia.
Qed.

Lemma count_counted_le m : (count_counted m <= size m)%nat.
Proof. unfold count_counted. apply map_subseteq_size, map_filter_subseteq. Qed.

Definition counter_exact (w : World) : Prop :=
  w_active w = Z.of_nat (count_counted (w_filters w)) /\
  Z.of_nat (size (w_filters w)) <= int64_max.

Lemma startRequest_count f active :
  active + (if counted f then 0 else 1) <= int64_max -> 0 <= active ->
  (startRequest f active).2 = active + (if counted f then 0 else 1) /\
  counted (startRequest f active).1 = true.
Proof.
  intros Hb H0. unfold startRequest. destruct (counted f) eqn:Hc; cbn; [split; [lia|done]|].
  split; [|done]. apply wrap64_id. unfold int64_min. lia.
Qed.

Lemma releaseRequest_count f active :
  (if counted f then 1 else 0) <= active <= int64_max ->
  (releaseRequest f active).2 = active - (if counted f then 1 else 0) /\
  counted (releaseRequest f active).1 = false.
Proof.
  intros Hb. unfold releaseRequest. destruct (counted f) eqn:Hc; cbn; [|split; [lia|done]].
  split; [|done]. apply wrap64_id. unfold int64_min. lia.
Qed.

Lemma OnRequestHeaders_count fac f headers load active now now' draws fac' f' active' :
  OnRequestHeaders fac f headers load active now now' draws = Some (fac', f', active') ->
  active + 1 <= int64_max \/ counted f = true -> 0 <= active <= int64_max ->
  active' = active - (if counted f then 1 else 0) + (if counted f' then 1 else 0).
Proof.
  unfold OnRequestHeaders. destruct (sample_request _ _ _ _ _) as [[s fc]|]; [|done]. cbn [mbind option_bind].
  intros Heq Hb Ha.
  assert (Hs : forall g, counted g = counted f ->
            (startRequest g active).2 = active - (if counted f then 1 else 0) + 1 /\
            counted (startRequest g active).1 = true).
  { intros g Hg. pose proof (startRequest_count g active) as Hc. rewrite Hg in Hc.
    destruct Hc as [-> ->]; [destruct (counted f); cbn; [lia|]; destruct Hb as [Hb|Hb]; [exact Hb|done] | lia |].
    split; [destruct (counted f); lia|done]. }
  destruct s as [s|]; [|destruct (matched f)].
  - specialize (Hs (mkFilter s true (counted f) load now') eq_refl).
    destruct (startRequest _ active) as [g a]. cbn in Hs, Heq. injection Heq as <- <- <-.
    destruct Hs as [-> ->]. lia.
  - specialize (Hs (mkFilter (sample f) true (counted f) load now') eq_refl).
    destruct (startRequest _ active) as [g a]. cbn in Hs, Heq. injection Heq as <- <- <-.
    destruct Hs as [-> ->]. lia.
  - injection Heq as <- <- <-. lia.
Qed.

Lemma counter_exact_step w w' : counter_exact w -> world_step w w' -> counter_exact w'.
Proof.
  intros [Ha Hsz] Hst. pose proof (count_counted_le (w_filters w)) as Hle.
  destruct Hst as [w i Hi Hb|w i f fac headers load now now' draws fac' f' active' Hi Hr|w i f Hi|w i f Hi];
    unfold counter_exact; cbn [w_active w_filters].
  - rewrite map_size_insert_None by done. split; [|lia]. rewrite Ha. unfold count_counted.
    rewrite map_filter_insert_False by done. by rewrite (delete_id _ i).
  - pose proof (count_counted_insert _ i f f' Hi) as Hc.
    rewrite map_size_insert_Some by (by eauto). split; [|done].
    assert (Hlt : counted f = false -> (count_counted (w_filters w) < size (w_filters w))%nat).
    { intros Hf. rewrite (count_counted_delete _ i f Hi), Hf.
      pose proof (count_counted_le (delete i (w_filters w))) as Hd.
      rewrite map_size_delete_Some in Hd by eauto.
      assert (size (w_filters w) <> 0)%nat by (intros Hz%map_size_empty_iff; by rewrite Hz in Hi). lia. }
    rewrite (OnRequestHeaders_count _ _ _ _ _ _ _ _ _ _ _ Hr).
    + destruct (counted f), (counted f'); lia.
    + destruct (counted f); [by right|left]. specialize (Hlt eq_refl). lia.
    + lia.
  - destruct (releaseRequest_count f (w_active w)) as [-> Hc2].
    { pose proof (count_counted_delete _ i f Hi). destruct (counted f); lia. }
    pose proof (count_counted_insert _ i f (releaseRequest f (w_active w)).1 Hi) as Hc. rewrite Hc2 in Hc.
    rewrite map_size_insert_Some by (by eauto). split; [|done]. destruct (counted f); lia.
  - destruct (releaseRequest_count f (w_active w)) as [-> _].
    { pose proof (count_counted_delete _ i f Hi). destruct (counted f); lia. }
    pose proof (count_counted_delete _ i f Hi) as Hc. rewrite map_size_delete_Some by eauto.
    split; [destruct (counted f); lia|lia].
Qed.

(** C15: the in-flight counter is exact.  Whatever the interleaving of the callbacks of
    all filters, including a completion followed by a destruction and a destruction
    without a completion, the counter is the number of live filters that count their
    request: it is never negative, never leaks, and is 0 when no filter is left. *)
Theorem in_flight_exact w :
  steps world_step (mkWorld 0 ∅) w ->
  w_active w = Z.of_nat (count_counted (w_filters w)) /\
  0 <= w_active w <= Z.of_nat (size (w_filters w)) /\
  (w_filters w = ∅ -> w_active w = 0).
Proof.
  intros Hs. assert (Hc : counter_exact w).
  { eapply steps_invariant; [intros ? ?; apply counter_exact_step| |exact Hs]. split; [done|]. cbn. done. }
  destruct Hc as [Ha _]. pose proof (count_counted_le (w_filters w)).
  split; [done|]. split; [lia|]. intros He. by rewrite Ha, He.
Qed.
End InFlight.

(** ** Timing of responses *)

Section Timing.
Context {H : Type} `{!HeaderMap H}.

(** The delay before the response goes on or is replaced. *)
Definition added_delay (r : ResponseResult H) : Z :=
  match rr_scheduled r with Some (d, _) => d | None => 0 end.

Definition local_status (c : HandleCall) : option Z :=
  match c with SendLocalResponse status _ _ _ => Some status | _ => None end.

(** The status the client sees, given the one of the upstream; [None] if it sees
    none. *)
Definition client_status (upstream : Z) (r : ResponseResult H) : option Z :=
  match rr_scheduled r with
  | Some (_, ContinueResponse) => Some upstream
  | Some (_, c) => local_status c
  | None =>
      match omap local_status (rr_calls r) with
      | status :: _ => Some status
      | [] => if decide (rr_status r = HeadersStatusContinue) then Some upstream else None
      end
  end.

Lemma span_no_local span a : omap local_status (setFaultSpanAttributes span a) = [].
Proof.
  unfold setFaultSpanAttributes. destruct span; [|done]. induction (attributes a); cbn; done.
Qed.

Lemma local_call_status s a : 0 <= rs_Status s < 2 ^ 32 -> local_status (local_call s a) = Some (rs_Status s).
Proof. intros Hs. unfold local_call. destruct (localResponse s a). cbn. by rewrite u32_id. Qed.

(** A matched request takes as long as its sample says and ends with the status of
    its sample.  The client sees the sampled status, on the upstream response if it
    has it already and on a local response otherwise, and the time from the request
    to it is the sampled duration, or the time the upstream took if that was
    longer. *)
Theorem response_timing diagnostic f (headers : H) now worker span upstream
    (r := OnResponseHeaders diagnostic f headers now worker span) :
  matched f = true -> Atoi (GetOne headers ":status") = Some upstream ->
  0 <= requestStart f <= now -> now <= int64_max ->
  0 <= rs_Duration (sample f) <= int64_max -> 200 <= rs_Status (sample f) <= 599 ->
  client_status upstream r = Some (rs_Status (sample f)) /\
  (now - requestStart f) + added_delay r = Z.max (now - requestStart f) (rs_Duration (sample f)).
Proof.
  intros Hm Hu Ht Hn Hd Hs. subst r. unfold OnResponseHeaders. rewrite Hm, Hu. cbn [negb].
  rewrite (wrap64_id (now - requestStart f)) by (unfold int64_min, int64_max in *; lia).
  rewrite (wrap64_id (rs_Duration _ - _)) by (unfold int64_min, int64_max in *; lia).
  destruct (Z.eqb_spec (rs_Status (sample f)) upstream) as [Heq|Hne]; cbn [negb].
  - destruct (Z.ltb_spec 0 (Z.max (rs_Duration (sample f) - (now - requestStart f)) 0));
      unfold client_status, added_delay; cbn [rr_scheduled rr_calls rr_status].
    + rewrite Heq. split; [done|lia].
    + rewrite span_no_local, decide_True by done. rewrite Heq. split; [done|lia].
  - destruct (Z.ltb_spec 0 (Z.max (rs_Duration (sample f) - (now - requestStart f)) 0));
      unfold client_status, added_delay; cbn [rr_scheduled rr_calls rr_status].
    + split; [|lia]. match goal with |- context [local_call ?s ?a] =>
        pose proof (local_call_status s a ltac:(lia)) as Hl; destruct (local_call s a) end; done.
    + rewrite omap_app, span_no_local. cbn [app omap list_omap].
      rewrite local_call_status by lia. split; [done|lia].
Qed.
End Timing.

(** ** Accepted configurations build and sample *)

Definition wf_duration (d : durationDistribution) : Prop :=
  match d with Stateless _ => True | Stateful spd => values spd <> [] end.

Definition wf_response (rd : ResponseDistribution) : Prop :=
  entries rd <> [] /\ Forall (fun e => wf_duration (distribution e)) (entries rd).

Definition wf_load_based (lb : LoadBasedResponseDistribution) : Prop :=
  wf_response (healthy lb) /\ wf_response (tippingPoint lb).

Definition wf_opt {A} (P : A -> Prop) (o : option A) : Prop :=
  match o with Some a => P a | None => True end.

Definition wf_entry (ep : endpointEntry) : Prop :=
  wf_opt wf_response (ee_distribution ep) /\ wf_opt wf_load_based (ee_loadBased ep).

Definition wf_factory (f : latencyFaultFilterFactory) : Prop :=
  wf_opt wf_response (f_distribution f) /\ wf_opt wf_load_based (f_loadBased f) /\
  Forall wf_entry (endpoints f).

Lemma distribution_Sample_total d draws :
  wf_duration d -> exists v d', distribution_Sample d draws = Some (v, d') /\ wf_duration d'.
Proof.
  destruct d as [ps|[vs i]]; cbn [wf_duration distribution_Sample values]; [eauto|]. intros Hne.
  unfold Stateful_Sample. cbn [values index].
  destruct (Nat.leb_spec (length vs) i) as [Hle|Hlt]; cbn [values index].
  - pose proof (cryptoShuffle_perm (draw_shuffle draws) vs) as Hp.
    destruct (cryptoShuffle _ vs) as [|v vs']; [by apply Permutation_nil_l in Hp|].
    cbn. eexists _, _. by split.
  - destruct (lookup_lt_is_Some_2 vs i Hlt) as [v Hv]. rewrite Hv. cbn. eexists _, _. by split.
Qed.

Lemma select_entry_lt es r c i : select_entry es r c = Some i -> (i < length es)%nat.
Proof.
  revert c i. induction es as [|e es IH]; intros c i; cbn [select_entry length]; [done|].
  case_match; [intros [= <-]; lia|]. intros (j & Hj & ->)%fmap_Some. apply IH in Hj. lia.
Qed.

Lemma Response_Sample_total rd draws :
  wf_response rd -> exists s rd', Response_Sample rd draws = Some (s, rd') /\ wf_response rd'.
Proof.
  intros [Hne Hf]. unfold Response_Sample, sample_entry.
  set (i := default _ _). assert (Hi : (i < length (entries rd))%nat).
  { subst i. destruct (select_entry _ _ _) as [j|] eqn:Hj; cbn; [by eapply select_entry_lt|].
    destruct (entries rd); [done|]. cbn. lia. }
  destruct (lookup_lt_is_Some_2 _ _ Hi) as [e He]. rewrite He. cbn [mbind option_bind].
  destruct (distribution_Sample_total (distribution e) draws) as (v & d' & -> & Hd').
  { by eapply (Forall_lookup_1 (fun e => wf_duration (distribution e))) in He. }
  cbn [mbind option_bind]. eexists _, _. split; [done|]. split; cbn [entries].
  - intros Hnil. apply (f_equal length) in Hnil. rewrite length_insert in Hnil. cbn in Hnil. lia.
  - apply Forall_insert; [done|]. exact Hd'.
Qed.

Lemma LoadBased_Sample_total lb load now draws :
  wf_load_based lb ->
  exists s lb', LoadBased_Sample lb load now draws = Some (s, lb') /\ wf_load_based lb'.
Proof.
  intros [Hh Ht]. unfold LoadBased_Sample. destruct (grey_penalty lb load now) as [penalty gz].
  assert (H1 : exists s lb', sample_healthy lb gz draws = Some (s, lb') /\ wf_load_based lb').
  { unfold sample_healthy. destruct (Response_Sample_total _ draws Hh) as (s & h' & -> & Hw).
    cbn. eexists _, _. by repeat split; try apply Hw; try apply Ht. }
  assert (H2 : exists s lb', sample_tipping lb gz draws = Some (s, lb') /\ wf_load_based lb').
  { unfold sample_tipping. destruct (Response_Sample_total _ draws Ht) as (s & t' & -> & Hw).
    cbn. eexists _, _. by repeat split; try apply Hw; try apply Hh. }
  destruct (f_le load _); [done|]. destruct (f_le _ load); [done|].
  destruct H1 as (s1 & lb1 & H1 & Hw1), H2 as (s2 & lb2 & H2 & Hw2).
  destruct (f_lt _ _); [rewrite H1|rewrite H2]; cbn; eauto.
Qed.

Lemma sample_behavior_total d lb load now draws :
  wf_opt wf_response d -> wf_opt wf_load_based lb ->
  exists s d' lb', sample_behavior d lb load now draws = Some (s, (d', lb')) /\
    wf_opt wf_response d' /\ wf_opt wf_load_based lb'.
Proof.
  intros Hd Hl. unfold sample_behavior. destruct d as [d|].
  - destruct (Response_Sample_total d draws Hd) as (s & d' & -> & Hw). cbn. eauto 8.
  - destruct lb as [lb|]; [|cbn; eauto 8].
    destruct (LoadBased_Sample_total lb (f_of_Z load) now draws Hl) as (s & lb' & -> & Hw). cbn. eauto 8.
Qed.

Section Totality.
Context {H : Type} `{!HeaderMap H}.

Lemma sample_endpoints_total eps path (headers : H) load now draws :
  Forall wf_entry eps ->
  exists s eps', sample_endpoints eps path headers load now draws = Some (s, eps') /\ Forall wf_entry eps'.
Proof.
  induction 1 as [|ep eps [Hd Hl] Hf IH]; cbn [sample_endpoints]; [eauto|].
  destruct (MatchRoute _ _ _).
  - destruct (sample_behavior_total _ _ load now draws Hd Hl) as (s & d' & lb' & -> & ? & ?).
    cbn. eexists _, _. split; [done|]. by constructor.
  - destruct IH as (s & eps' & -> & Hw). cbn. eexists _, _. split; [done|]. by constructor.
Qed.

Lemma OnRequestHeaders_total fac f (headers : H) load active now now' draws :
  wf_factory fac ->
  exists fac' f' active', OnRequestHeaders fac f headers load active now now' draws = Some (fac', f', active') /\
    wf_factory fac'.
Proof.
  intros (Hd & Hl & He). unfold OnRequestHeaders, sample_request.
  assert (Hb : exists s d' lb', (if direct fac then sample_behavior (f_distribution fac) (f_loadBased fac) load now draws
                else Some (None, (f_distribution fac, f_loadBased fac))) = Some (s, (d', lb')) /\
                wf_opt wf_response d' /\ wf_opt wf_load_based lb').
  { destruct (direct fac); [by apply sample_behavior_total|eauto 8]. }
  destruct Hb as (s & d' & lb' & -> & Hd' & Hl'). cbn [mbind option_bind]. destruct s as [s|].
  - cbn [mbind option_bind]. destruct (startRequest _ active). eexists _, _, _. split; [done|]. by split_and!.
  - destruct (sample_endpoints_total (endpoints fac) (GetOne headers ":path") headers load now draws He)
      as (s & eps' & -> & Hw). cbn [mbind option_bind].
    destruct s as [s|]; [|destruct (matched f)]; try destruct (startRequest _ active);
      eexists _, _, _; (split; [done|]); by split_and!.
Qed.

(** A request as the factory sees it. *)
Record Request : Type := mkRequest {
  q_headers : H;
  q_load : Z;
  q_now : Z;
  q_draws : Draws;
}.

(** The factory after some requests; [None] if one of them fails. *)
Fixpoint serve (fac : latencyFaultFilterFactory) (qs : list Request) : option latencyFaultFilterFactory :=
  match qs with
  | [] => Some fac
  | q :: qs' =>
      '(fac', _, _) ← OnRequestHeaders fac newFaultFilter (q_headers q) (q_load q) 0 (q_now q) (q_now q) (q_draws q);
      serve fac' qs'
  end.

Lemma serve_total fac qs : wf_factory fac -> is_Some (serve fac qs).
Proof.
  revert fac. induction qs as [|q qs IH]; intros fac Hf; cbn [serve]; [eauto|].
  destruct (OnRequestHeaders_total fac newFaultFilter (q_headers q) (q_load q) 0 (q_now q) (q_now q)
    (q_draws q) Hf) as (fac' & f' & a' & -> & Hw). cbn [mbind option_bind]. by apply IH.
Qed.
End Totality.

Section Builds.
Context (ParseFloat : string -> option float64).
Context (ValidHeaderFieldName ValidHeaderFieldValue : string -> bool).
Context (choices hchoices tchoices : nat -> nat -> nat).

Definition known_mode (mode : string) : Prop :=
  mode = ProbabilityDistributionStateful \/ mode = ProbabilityDistributionStateless.

Lemma stateful_nonempty ps resolution choice :
  0 < resolution -> values (NewStatefulProbabilityDistribution ps resolution choice) <> [].
Proof.
  intros Hr Hnil. cbn in Hnil. pose proof (cryptoShuffle_perm choice (stateful_values ps resolution)) as Hp.
  rewrite Hnil in Hp. apply Permutation_nil_l in Hp.
  pose proof (stateful_values_length ps resolution) as Hl. rewrite <-Hp in Hl. cbn in Hl. lia.
Qed.

Lemma new_entries_wf chs k sds mode :
  known_mode mode -> Forall (wf_status_distribution ParseFloat) sds ->
  exists es, new_entries ParseFloat chs k sds mode = Ok es /\ length es = length sds /\
    Forall (fun e => wf_duration (distribution e)) es.
Proof.
  intros Hm Hf. revert k. induction Hf as [|sd sds (Hs & Hr & Hp) Hf IH]; intros k; cbn [new_entries].
  { eexists. split; [done|]. by split. }
  destruct (ParsePercentileDistribution _ _) as [ps|]; [|done]. destruct (IH (S k)) as (es & -> & Hl & Hw).
  unfold newDurationDistribution.
  destruct Hm as [->| ->]; [rewrite decide_True by done|rewrite decide_False, decide_True by done];
    cbn [rbind]; eexists; (split; [done|]); (split; [by cbn; rewrite Hl|]); constructor; try done; cbn.
  by apply stateful_nonempty.
Qed.

Lemma NewResponseDistribution_wf chs sds mode :
  known_mode mode -> sds <> [] -> Forall (wf_status_distribution ParseFloat) sds ->
  exists rd, NewResponseDistributionWithMode ParseFloat chs sds mode = Ok rd /\ wf_response rd.
Proof.
  intros Hm Hne Hf. unfold NewResponseDistributionWithMode. destruct sds as [|sd sds]; [done|].
  destruct (new_entries_wf chs 0 (sd :: sds) mode Hm Hf) as (es & -> & Hl & Hw). cbn [rbind].
  eexists. split; [done|]. split; [|done]. cbn. by intros ->.
Qed.

Lemma build_behavior_wf rs lb mode :
  known_mode mode -> wf_behavior ParseFloat rs lb ->
  exists d l, build_weighted ParseFloat choices rs mode = Ok d /\
    build_load_based ParseFloat hchoices tchoices lb mode = Ok l /\
    wf_opt wf_response d /\ wf_opt wf_load_based l.
Proof.
  intros Hm [(Hne & -> & Hf)|(-> & l & h & t & -> & Hh & Ht & (Hn1 & Hn2 & Hf1 & Hf2 & _))].
  - destruct (NewResponseDistribution_wf choices rs mode Hm Hne Hf) as (rd & Hrd & Hw).
    exists (Some rd), None. unfold build_weighted. destruct rs as [|r rs]; [done|]. rewrite Hrd. done.
  - destruct (NewResponseDistribution_wf hchoices _ mode Hm Hn1 Hf1) as (rh & Hrh & Hwh).
    destruct (NewResponseDistribution_wf tchoices _ mode Hm Hn2 Hf2) as (rt & Hrt & Hwt).
    eexists None, (Some _). unfold build_load_based, NewLoadBasedResponseDistributionWithMode.
    rewrite Hh, Ht, Hrh. cbn [rbind]. rewrite Hrt. cbn. by split_and!.
Qed.

Lemma build_endpoints_wf eps mode :
  known_mode mode -> Forall (fun ep => wf_behavior ParseFloat (ep_Responses ep) (ep_LoadBased ep)) eps ->
  exists es, build_endpoints ParseFloat choices hchoices tchoices eps mode = Ok es /\ Forall wf_entry es.
Proof.
  intros Hm Hf. induction Hf as [|ep eps Hb Hf IH]; cbn [build_endpoints]; [eexists; split; [done|constructor]|].
  destruct (build_behavior_wf _ _ mode Hm Hb) as (d & l & -> & -> & Hd & Hl). cbn [rbind].
  destruct IH as (es & -> & Hw). cbn [rbind]. eexists. split; [done|]. by repeat constructor.
Qed.

(** An accepted configuration always works.  Every configuration the checks accept
    builds a factory, and the factory can sample any sequence of requests at any load
    and with any random numbers, without an empty distribution or an index out of
    range. *)
Theorem accepted_config_serves {H} `{!HeaderMap H} decoded source cfg :
  fault_parseConfig ParseFloat ValidHeaderFieldName ValidHeaderFieldValue decoded source = Ok cfg ->
  exists fac, buildFilterFactoryForSource ParseFloat ValidHeaderFieldName ValidHeaderFieldValue
      choices hchoices tchoices decoded source = Ok fac /\
    forall qs : list (Request (H := H)), is_Some (serve fac qs).
Proof.
  intros Hp. pose proof (fault_parseConfig_valid _ _ _ _ _ _ Hp) as (Hm & He & Hb).
  cut (exists fac, buildFilterFactoryForSource ParseFloat ValidHeaderFieldName ValidHeaderFieldValue
      choices hchoices tchoices decoded source = Ok fac /\ wf_factory fac).
  { intros (fac & Hfac & Hw). exists fac. split; [done|]. intros qs. by apply serve_total. }
  unfold buildFilterFactoryForSource. rewrite Hp. cbn [rbind map_err].
  destruct (_ || _) eqn:Hdir.
  - assert (Hcase : wf_behavior ParseFloat (Responses cfg) (LoadBased cfg) \/
                    Responses cfg = [] /\ LoadBased cfg = None).
    { destruct (Responses cfg) eqn:Hr; [|left; apply Hb; by right; left].
      destruct (LoadBased cfg) eqn:Hl; [left; apply Hb; by right; right|by right]. }
    destruct Hcase as [Hwb|[Hr Hl]].
    + destruct (build_behavior_wf _ _ _ Hm Hwb) as (d & l & -> & -> & Hd & Hl). cbn [rbind].
      eexists. split; [done|]. by split_and!.
    + rewrite Hr, Hl. cbn. eexists. split; [done|]. by repeat split.
  - destruct (build_endpoints_wf _ _ Hm He) as (es & -> & Hw). cbn [rbind].
    eexists. split; [done|]. by split_and!.
Qed.
End Builds.

(** ** Witnesses *)

Definition ex_ParseFloat (s : string) : option float64 :=
  if decide (s = "50") then Some (f_of_Z 50) else if decide (s = "99.9") then Some (f_div (f_of_Z 999) (f_of_Z 10))
  else None.

Definition ex_fault_config : FilterConfig :=
  mkFilterConfig [] "" false
    [mkStatusDistribution 200 9 [("p50", "10ms"); ("p99.9", "20ms")] None;
     mkStatusDistribution 503 1 [("p50", "1s")] None] None.

Lemma accepted_config_serves_witness :
  exists fac, buildFilterFactoryForSource ex_ParseFloat (fun _ => true) (fun _ => true)
      (fun _ _ => 0%nat) (fun _ _ => 0%nat) (fun _ _ => 0%nat) ex_fault_config FilterSource = Ok fac /\
    is_Some (serve fac [mkRequest ([] : Headers) 3 0 (mkDraws 7 0 0 (fun _ => 0%nat))]).
Proof.
  destruct (accepted_config_serves ex_ParseFloat (fun _ => true) (fun _ => true)
    (fun _ _ => 0%nat) (fun _ _ => 0%nat) (fun _ _ => 0%nat) (H := Headers) ex_fault_config FilterSource
    (mkFilterConfig [] "stateful" false (Responses ex_fault_config) None)) as (fac & Hf & Hs).
  - vm_compute. reflexivity.
  - exists fac. split; [exact Hf|apply Hs].
Defined.

Definition ex_filter : latencyFaultFilter :=
  mkFilter (mkResponseSample 503 (20 * Millisecond) None) true true 4 Second.

Lemma response_timing_witness :
  let r := OnResponseHeaders false ex_filter ([(":status", "200")] : Headers) (Second + 5 * Millisecond) 0 true in
  client_status 200 r = Some 503 /\ 5 * Millisecond + added_delay r = 20 * Millisecond.
Proof.
  apply (response_timing false ex_filter ([(":status", "200")] : Headers) (Second + 5 * Millisecond) 0 true 200);
    [reflexivity|reflexivity|vm_compute; split; discriminate|vm_compute; discriminate
    |vm_compute; split; discriminate|cbn; lia].
Defined.

Definition ex_factory : latencyFaultFilterFactory :=
  mkFactory false [] (Some (mkResponseDistribution [mkResponseEntry 503 1 (Stateless []) None] 1)) None true.

Definition ex_counted : latencyFaultFilter := mkFilter (mkResponseSample 503 0 None) true true 0 5.

Definition ex_world : World := mkWorld 1 (<[1%nat := ex_counted]> (<[1%nat := newFaultFilter]> ∅)).

Lemma in_flight_exact_witness :
  w_active ex_world = Z.of_nat (count_counted (w_filters ex_world)) /\ w_active ex_world = 1.
Proof.
  split; [|reflexivity]. apply (in_flight_exact (H := Headers) ex_world).
  apply (steps_snoc _ _ (mkWorld 0 (<[1%nat := newFaultFilter]> ∅)));
    [apply (steps_snoc _ _ (mkWorld 0 ∅)); [apply steps_nil|]|].
  - apply (w_create (H := Headers) (mkWorld 0 ∅) 1%nat); [reflexivity|vm_compute; reflexivity].
  - unfold ex_world. exact (w_request (H := Headers) (mkWorld 0 (<[1%nat := newFaultFilter]> ∅)) 1%nat
      newFaultFilter ex_factory [] 0 5 5 (mkDraws 0 0 0 (fun _ => 0%nat)) ex_factory ex_counted 1
      eq_refl ltac:(vm_compute; reflexivity)).
Defined.
