(* ===== verification/GoPlugin.v ===== *)
(** * goplugin-loader

    extensions/composer/goplugin-loader/goplugin.go and config.go, imagefetcher/fetcher.go, env.go
    and keychain.go: the loader fetches the binary of a plugin, checks that it was built for this
    host, opens it and creates its filter.  The registry client, gzip and tar, the reader of build
    information and the linker that opens plugins are parameters; the file system is that of
    [GoFS], which keeps no permissions. *)

From S2P Require Import Prelude GoStr GoNum GoPath GoFS GoCodec Host GoJson.
From Stdlib Require Import Lia Ascii.

Local Open Scope Z_scope.
Local Open Scope go_scope.

(** ** Compatibility *)

(** [debug.Module]; of a replacement no further replacement is read. *)
Record ModuleVersion : Type := mkModule { mod_Path : string; mod_Version : string; mod_Sum : string }.
Record Dependency : Type := mkDependency { dep_Module : ModuleVersion; dep_Replace : option ModuleVersion }.
Record BuildInfo : Type := mkBuildInfo { GoVersion : string; Settings : list (string * string); Deps : list Dependency }.

#[export] Instance ModuleVersion_eq_dec : EqDecision ModuleVersion.
Proof. solve_decision. Defined.

Definition effective (d : Dependency) : ModuleVersion := default (dep_Module d) (dep_Replace d).

Definition add_dependency (m : gmap string ModuleVersion) (d : Dependency) : gmap string ModuleVersion :=
  <[mod_Path (effective d) := effective d]> m.
Definition hostDependencies (host : BuildInfo) : gmap string ModuleVersion := foldl add_dependency ∅ (Deps host).

Inductive CompatError : Type :=
| ErrGoVersion
| ErrBuildMode (mode : string)
| ErrNoDependency
| ErrDependencyVersion (path plugin host : string)
| ErrDependencySum (path plugin host : string).

Definition check_settings (buildMode : string) (settings : list (string * string)) : option CompatError :=
  if existsb (fun s => bool_decide (s.1 = "-buildmode") && negb (bool_decide (s.2 = buildMode))) settings
  then Some (ErrBuildMode buildMode) else None.

Fixpoint check_dependencies (host : gmap string ModuleVersion) (deps : list Dependency) : option CompatError :=
  match deps with
  | [] => None
  | d :: deps' =>
      let p := effective d in
      match host !! mod_Path p with
      | None => Some ErrNoDependency
      | Some h =>
          if negb (bool_decide (mod_Version h = mod_Version p)) then Some (ErrDependencyVersion (mod_Path p) (mod_Version p) (mod_Version h))
          else if negb (bool_decide (mod_Sum h = mod_Sum p)) then Some (ErrDependencySum (mod_Path p) (mod_Sum p) (mod_Sum h))
          else check_dependencies host deps'
      end
  end.

(** [checkVersionCompatibility]; [None] is success. *)
Definition checkVersionCompatibility (host plugin : BuildInfo) (buildMode : string) : option CompatError :=
  if negb (bool_decide (GoVersion plugin = GoVersion host)) then Some ErrGoVersion
  else match check_settings buildMode (Settings plugin) with
  | Some e => Some e
  | None => check_dependencies (hostDependencies host) (Deps plugin)
  end.

(** ** Configuration *)

(** [Config]; the inner configuration is a JSON object of any content. *)
Record Config (AnyMap : Type) : Type := mkConfig {
  gp_Name : string;
  gp_URL : string;
  gp_Config : option AnyMap;
  gp_StrictCheck : option bool;
  gp_VersionedURLSuffix : bool;
}.
Arguments mkConfig {_} _ _ _ _ _.
Arguments gp_Name {_} _.
Arguments gp_URL {_} _.
Arguments gp_Config {_} _.
Arguments gp_StrictCheck {_} _.
Arguments gp_VersionedURLSuffix {_} _.

#[export] Instance decode_Config {AnyMap} `{!Decodable AnyMap} : Decodable (Config AnyMap) := {
  zero_value := mkConfig zero_value zero_value zero_value zero_value zero_value;
  decode_into := decode_struct [
    field "name" gp_Name (fun v '(mkConfig _ b c d e) => mkConfig v b c d e);
    field "url" gp_URL (fun v '(mkConfig a _ c d e) => mkConfig a v c d e);
    field "config" gp_Config (fun v '(mkConfig a b _ d e) => mkConfig a b v d e);
    field "strict_check" gp_StrictCheck (fun v '(mkConfig a b c _ e) => mkConfig a b c v e);
    field "versioned_url_suffix" gp_VersionedURLSuffix (fun v '(mkConfig a b c d _) => mkConfig a b c d v)
  ];
}.

Inductive LoadError : Type :=
| ErrModuleConfig
| ErrComposerUnknown (url : string)
| ErrNoTag (url : string)
| ErrMarshal
| ErrEmptyName
| ErrScheme (url : string)
| ErrReference (ref : string)
| ErrFetchManifest (reason : string)
| ErrImage
| ErrDigest
| ErrManifestRead
| ErrLayers
| ErrNoLayers
| ErrMediaType
| ErrLayerContent
| ErrGzip
| ErrTarEntry
| ErrNotRegular (name : string)
| ErrSize (size : Z)
| ErrPluginDisk
| ErrNoBinary
| ErrEmptyPath
| ErrNoPlugin (path : string)
| ErrBuildInfo
| ErrIncompatible (e : CompatError)
| ErrOpen
| ErrLookup (symbol : string)
| ErrSymbolType (symbol : string)
| ErrFactory (name : string) (plugins : list string)
| ErrCreate (name : string).

#[export] Instance CompatError_eq_dec : EqDecision CompatError.
Proof. solve_decision. Defined.
#[export] Instance LoadError_eq_dec : EqDecision LoadError.
Proof. solve_decision. Defined.

(** [versionedURL], with the version of the composer. *)
Definition versionedURL (composer pluginURL : string) : result LoadError string :=
  if negb (HasPrefix pluginURL "oci://") then Ok pluginURL
  else if bool_decide (composer = "") then Err (ErrComposerUnknown pluginURL)
  else
    let ref := TrimPrefix pluginURL "oci://" in
    if Contains ref "@" then Ok pluginURL
    else match LastIndexByte ref ":"%char with
    | None => Err (ErrNoTag pluginURL)
    | Some i =>
        if match LastIndexByte ref slash with Some j => (i <? j)%nat | None => false end then Err (ErrNoTag pluginURL)
        else Ok (pluginURL +:+ "-" +:+ composer)
    end.

Example versionedURL_ex :
  versionedURL "0.12.0" "oci://repo/plugin:1.0.0" = Ok "oci://repo/plugin:1.0.0-0.12.0" /\
  versionedURL "0.12.0" "oci://host:5000/plugin" = Err (ErrNoTag "oci://host:5000/plugin") /\
  versionedURL "0.12.0" "oci://host:5000/plugin@sha256:ab" = Ok "oci://host:5000/plugin@sha256:ab" /\
  versionedURL "" "file:///a.so" = Ok "file:///a.so" /\ versionedURL "" "oci://a:b" = Err (ErrComposerUnknown "oci://a:b").
Proof. vm_compute. repeat split. Qed.

(** ** Options of the fetcher *)

(** The fetcher's [Option]. *)
Record FetchOption : Type := mkFetchOption {
  PullSecret : option string;
  Insecure : bool;
  CacheDir : string;
  Platform : string;
}.

(** [cmp.Or] of two strings. *)
Definition first_nonempty (a b : string) : string := if bool_decide (a = "") then b else a.

(** [OptionFromEnv]; an environment variable that is not set is empty. *)
Definition OptionFromEnv (getenv : string -> string) (tempDir : string) (fs : FileSystem) : FetchOption :=
  let cacheDir := getenv "GOPLUGIN_CACHE_DIR" in
  let secretPath := getenv "GOPLUGIN_PULL_SECRET" in
  mkFetchOption
    (if bool_decide (secretPath = "") then None else ReadFile fs (Clean secretPath))
    (bool_decide (first_nonempty (getenv "GOPLUGIN_INSECURE") (getenv "BOE_REGISTRY_INSECURE") = "true"))
    (if bool_decide (cacheDir = "") then JoinAll [first_nonempty (getenv "BOE_DATA_HOME") tempDir; "goplugin-cache"] else cacheDir)
    "".

(** What [buildRemoteOpts] asks of the registry client: the credentials, the transport and the
    platform. *)
Record RemoteOptions : Type := mkRemoteOptions { ro_Secret : option string; ro_SkipVerify : bool; ro_OS : string; ro_Arch : string }.

Definition buildRemoteOpts (goos goarch : string) (opt : FetchOption) : RemoteOptions :=
  let '(os, arch) := match Cut (Platform opt) slash with (os, arch, true) => (os, arch) | _ => (goos, goarch) end in
  mkRemoteOptions (PullSecret opt) (Insecure opt) os arch.

(** [types.AuthConfig] of the Docker configuration. *)
Record AuthConfig : Type := mkAuthConfig {
  ac_Username : string;
  ac_Password : string;
  ac_Auth : string;
  ac_Email : string;
  ac_ServerAddress : string;
  ac_IdentityToken : string;
  ac_RegistryToken : string;
}.

#[export] Instance AuthConfig_eq_dec : EqDecision AuthConfig.
Proof. solve_decision. Defined.

Inductive Authenticator : Type :=
| Anonymous
| FromConfig (Username Password Auth IdentityToken RegistryToken : string).

Section KeyChain.
(** The Docker configuration and its lookup, and the names of the default registry. *)
Context {ConfigFile : Type} (LoadFromReader : string -> option ConfigFile) (GetAuthConfig : ConfigFile -> string -> option AuthConfig).
Context (DefaultRegistry DefaultAuthKey : string).

(** [pluginKeyChain.Resolve]; [None] is an error. *)
Definition KeyChain_Resolve (data registry : string) : option Authenticator :=
  if bool_decide (data = "null") then None
  else match LoadFromReader data with
  | None => None
  | Some cf =>
      match GetAuthConfig cf (if bool_decide (registry = DefaultRegistry) then DefaultAuthKey else registry) with
      | None => None
      | Some cfg =>
          if bool_decide (cfg = mkAuthConfig "" "" "" "" "" "" "") then Some Anonymous
          else Some (FromConfig (ac_Username cfg) (ac_Password cfg) (ac_Auth cfg) (ac_IdentityToken cfg) (ac_RegistryToken cfg))
      end
  end.
End KeyChain.

(** ** Images *)

(** A layer and an image; [None] is an error of the registry. *)
Record Layer : Type := mkLayer { l_MediaType : option string; l_Compressed : option string }.
Record Image : Type := mkImage { i_Digest : option string; i_ManifestType : option string; i_Layers : option (list Layer) }.

(** Bytes that can be read, and whether they end without an error. *)
Record Stream : Type := mkStream { st_bytes : string; st_clean : bool }.

(** An entry of an archive: its header and the bytes that can be read for it. *)
Record TarEntry : Type := mkTarEntry { th_Name : string; th_Regular : bool; th_Size : Z; te_bytes : string }.
Record TarStream : Type := mkTarStream { ts_entries : list TarEntry; ts_clean : bool }.

Definition maxPluginSize : Z := 512 * 1024 * 1024.

(** [io.LimitReader]: the end of the limit is a clean end. *)
Definition LimitReader (s : Stream) (n : Z) : Stream :=
  if Z.of_nat (String.length (st_bytes s)) <=? n then s else mkStream (take_bytes (Z.to_nat n) (st_bytes s)) true.

Section Fetcher.
(** The formats, the registry client, the names of the media types, the name [os.CreateTemp]
    picks, and whether the permissions can be set and the file synchronised. *)
Context (gunzip : string -> option Stream) (untar : Stream -> TarStream).
Context {Reference : Type} (ParseReference : bool -> string -> result string Reference).
Context (Get : RemoteOptions -> Reference -> result string (option Image)).
Context (DockerManifestSchema2 DockerLayer OCILayer : string).
Context (rand : string) (synced : bool).

(** The file that is written and renamed; the temporary file is removed in any case.  [rand] is the
    last name [os.CreateTemp] tries, after any that were taken; a failure to set the permissions
    and one to synchronise end alike. *)
Definition tempName (destPath : string) : string := JoinAll [Dir destPath; Base destPath +:+ "." +:+ rand].

Definition save_plugin (e : TarEntry) (destPath : string) (fs : FileSystem) : FileSystem * result LoadError () :=
  match MkdirAll fs (clean_segs (Dir destPath)) with
  | (fs1, false) => (fs1, Err ErrPluginDisk)
  | (fs1, true) =>
      match create_at fs1 (clean_segs (tempName destPath)) (NFile "") with
      | None => (fs1, Err ErrPluginDisk)
      | Some fs2 =>
          match WriteFile fs2 (clean_segs (tempName destPath)) (take_bytes (Z.to_nat (th_Size e)) (te_bytes e)) with
          | None => (RemoveAll fs2 (tempName destPath), Err ErrPluginDisk)
          | Some fs3 =>
              if (Z.of_nat (String.length (te_bytes e)) <? th_Size e) || negb synced then (RemoveAll fs3 (tempName destPath), Err ErrPluginDisk)
              else match Rename fs3 (tempName destPath) destPath with
              | Some fs4 => (RemoveAll fs4 (tempName destPath), Ok ())
              | None => (RemoveAll fs3 (tempName destPath), Err ErrPluginDisk)
              end
          end
      end
  end.

(** The loop of [extractPluginBinary]. *)
Fixpoint extract_binary (entries : list TarEntry) (clean : bool) (destPath : string) (fs : FileSystem) : FileSystem * result LoadError () :=
  match entries with
  | [] => (fs, Err (if clean then ErrNoBinary else ErrTarEntry))
  | e :: entries' =>
      if negb (bool_decide (Ext (th_Name e) = ".so")) then extract_binary entries' clean destPath fs
      else if negb (th_Regular e) then (fs, Err (ErrNotRegular (th_Name e)))
      else if (th_Size e <? 0) || (maxPluginSize <? th_Size e) then (fs, Err (ErrSize (th_Size e)))
      else save_plugin e destPath fs
  end.

Definition extractPluginBinary (data destPath : string) (fs : FileSystem) : FileSystem * result LoadError () :=
  match gunzip data with
  | None => (fs, Err ErrGzip)
  | Some s => let t := untar (LimitReader s maxPluginSize) in extract_binary (ts_entries t) (ts_clean t) destPath fs
  end.

Definition extractLayerBinary (layer : Layer) (destPath : string) (fs : FileSystem) : FileSystem * result LoadError () :=
  match l_Compressed layer with
  | None => (fs, Err ErrLayerContent)
  | Some data => extractPluginBinary data destPath fs
  end.

(** The layers, the newest first. *)
Fixpoint search_layers (layers : list Layer) (expected destPath : string) (fs : FileSystem) : FileSystem * result LoadError () :=
  match layers with
  | [] => (fs, Err ErrNoBinary)
  | layer :: layers' =>
      match l_MediaType layer with
      | None => (fs, Err ErrMediaType)
      | Some mt =>
          if negb (bool_decide (mt = expected)) then search_layers layers' expected destPath fs
          else match extractLayerBinary layer destPath fs with
          | (fs1, Err e) => if bool_decide (e = ErrNoBinary) then search_layers layers' expected destPath fs1 else (fs1, Err e)
          | (fs1, Ok _) => (fs1, Ok ())
          end
      end
  end.

Definition extractImageLayer (img : Image) (destPath expected : string) (fs : FileSystem) : FileSystem * result LoadError () :=
  match i_Layers img with
  | None => (fs, Err ErrLayers)
  | Some layers => if bool_decide (layers = []) then (fs, Err ErrNoLayers) else search_layers (reverse layers) expected destPath fs
  end.

Definition fetchPluginBinary (img : Image) (destPath : string) (fs : FileSystem) : FileSystem * result LoadError () :=
  match i_ManifestType img with
  | None => (fs, Err ErrManifestRead)
  | Some mt => extractImageLayer img destPath (if bool_decide (mt = DockerManifestSchema2) then DockerLayer else OCILayer) fs
  end.

(** HTTPS first, then HTTP when the server speaks it. *)
Definition get_image (opts : RemoteOptions) (ref : string) : result LoadError (option Image) :=
  match ParseReference false ref with
  | Err _ => Err (ErrReference ref)
  | Ok r =>
      match
        match Get opts r with
        | Err reason =>
            if Contains reason "server gave HTTP response" then match ParseReference true ref with Ok r' => Get opts r' | Err e => Err e end
            else Err reason
        | Ok d => Ok d
        end
      with
      | Err reason => Err (ErrFetchManifest reason)
      | Ok d => Ok d
      end
  end.

(** [FetchPlugin]. *)
Definition FetchPlugin (goos goarch ref pluginName : string) (opt : FetchOption) (fs : FileSystem) : FileSystem * result LoadError string :=
  match get_image (buildRemoteOpts goos goarch opt) ref with
  | Err e => (fs, Err e)
  | Ok None => (fs, Err ErrImage)
  | Ok (Some img) =>
      match i_Digest img with
      | None => (fs, Err ErrDigest)
      | Some hex =>
          let destPath := JoinAll [CacheDir opt; pluginName; hex +:+ ".so"] in
          if exists_path fs destPath then (fs, Ok destPath)
          else match fetchPluginBinary img destPath fs with
          | (fs1, Ok _) => (fs1, Ok destPath)
          | (fs1, Err e) => (fs1, Err e)
          end
      end
  end.
End Fetcher.

(** ** The loader *)

(** What a plugin exports under a name: a function that gives filter factories, or something else. *)
Inductive Symbol (Factory : Type) : Type :=
| SymFactories (factories : gmap string Factory)
| SymOther.
Arguments SymFactories {_} _.
Arguments SymOther {_}.

Section Loader.
(** The configurations and filters of plugins, and the map of a JSON object with its encoder. *)
Context {Factory FilterFactory RouteConfig AnyMap : Type} `{!Decodable AnyMap} (Marshal : AnyMap -> option string).
Context (factory_Create : Factory -> option string -> option FilterFactory) (factory_CreatePerRoute : Factory -> option string -> option RouteConfig).
(** The build information and the symbols of a binary, and the host. *)
Context (ReadBuildInfo : FileSystem -> string -> option BuildInfo) (Open : FileSystem -> string -> option (gmap string (Symbol Factory))).
Context (host : BuildInfo) (composer : string).
(** Where the binary of an image is put. *)
Context (fetch : string -> string -> FileSystem -> FileSystem * result LoadError string).

(** [createFactory]: the binaries that were opened, and the factory. *)
Definition createFactory (fs : FileSystem) (binaryPath symbolName pluginName : string) (strictCheck : bool) : list string * result LoadError Factory :=
  if negb (exists_path fs binaryPath) then ([], Err (ErrNoPlugin binaryPath))
  else match ReadBuildInfo fs binaryPath with
  | None => ([], Err ErrBuildInfo)
  | Some info =>
      let opened :=
        match Open fs binaryPath with
        | None => ([], Err ErrOpen)
        | Some symbols =>
            ([binaryPath],
             match symbols !! symbolName with
             | None => Err (ErrLookup symbolName)
             | Some SymOther => Err (ErrSymbolType symbolName)
             | Some (SymFactories factories) =>
                 match factories !! pluginName with
                 | None => Err (ErrFactory pluginName (map_to_list factories).*1)
                 | Some f => Ok f
                 end
             end)
        end in
      match checkVersionCompatibility host info "plugin" with
      | Some e => if strictCheck then ([], Err (ErrIncompatible e)) else opened
      | None => opened
      end
  end.

Definition CreateStreamPluginConfigFactory (fs : FileSystem) (pluginName binaryPath : string) (strictCheck : bool) : list string * result LoadError Factory :=
  createFactory fs binaryPath "WellKnownHttpFilterConfigFactories" pluginName strictCheck.

(** [loadGoPlugin]: the configuration with its defaults, and the inner configuration as text. *)
Definition loadGoPlugin (moduleConfig : string) : result LoadError (Config AnyMap * option string) :=
  match Unmarshal_ok moduleConfig : option (Config AnyMap) with
  | None => Err ErrModuleConfig
  | Some c =>
      let strict := Some (default true (gp_StrictCheck c)) in
      try url <- (if gp_VersionedURLSuffix c && negb (bool_decide (gp_URL c = "")) then versionedURL composer (gp_URL c) else Ok (gp_URL c));
      try inner <- match gp_Config c with
                   | None => Ok None
                   | Some m => match Marshal m with Some text => Ok (Some text) | None => Err ErrMarshal end
                   end;
      Ok (mkConfig (gp_Name c) url (gp_Config c) strict (gp_VersionedURLSuffix c), inner)
  end.

Definition fetchGoPluginPath (pluginURL pluginName : string) (fs : FileSystem) : FileSystem * result LoadError string :=
  if HasPrefix pluginURL "file://" then (fs, Ok (TrimPrefix pluginURL "file://"))
  else if HasPrefix pluginURL "oci://" then fetch (TrimPrefix pluginURL "oci://") pluginName fs
  else (fs, Err (ErrScheme pluginURL)).

Definition loadPluginImpl (name url : string) (strictCheck : bool) (fs : FileSystem) : FileSystem * list string * result LoadError Factory :=
  match fetchGoPluginPath url name fs with
  | (fs1, Err e) => (fs1, [], Err e)
  | (fs1, Ok binaryPath) =>
      if bool_decide (binaryPath = "") then (fs1, [], Err ErrEmptyPath)
      else let '(opened, r) := CreateStreamPluginConfigFactory fs1 name binaryPath strictCheck in (fs1, opened, r)
  end.

(** What [Create] and [CreatePerRoute] share: the plugin's factory with the inner configuration. *)
Definition load_factory (unparsedConfig : string) (fs : FileSystem) : FileSystem * list string * result LoadError (string * Factory * option string) :=
  match loadGoPlugin unparsedConfig with
  | Err e => (fs, [], Err e)
  | Ok (goPlugin, pluginConfig) =>
      if bool_decide (gp_Name goPlugin = "") || bool_decide (gp_URL goPlugin = "") then (fs, [], Err ErrEmptyName)
      else match loadPluginImpl (gp_Name goPlugin) (gp_URL goPlugin) (default true (gp_StrictCheck goPlugin)) fs with
      | (fs1, opened, Err e) => (fs1, opened, Err e)
      | (fs1, opened, Ok f) => (fs1, opened, Ok (gp_Name goPlugin, f, pluginConfig))
      end
  end.

Definition Loader_Create (unparsedConfig : string) (fs : FileSystem) : FileSystem * list string * result LoadError FilterFactory :=
  match load_factory unparsedConfig fs with
  | (fs1, opened, Err e) => (fs1, opened, Err e)
  | (fs1, opened, Ok (name, f, config)) => (fs1, opened, match factory_Create f config with Some ff => Ok ff | None => Err (ErrCreate name) end)
  end.

Definition Loader_CreatePerRoute (unparsedConfig : string) (fs : FileSystem) : FileSystem * list string * result LoadError RouteConfig :=
  match load_factory unparsedConfig fs with
  | (fs1, opened, Err e) => (fs1, opened, Err e)
  | (fs1, opened, Ok (name, f, config)) => (fs1, opened, match factory_CreatePerRoute f config with Some rc => Ok rc | None => Err (ErrCreate name) end)
  end.
End Loader.

(** ** Only compatible plugins are opened *)

(** A plugin built like the host. *)
Definition compatible (host plugin : BuildInfo) : Prop :=
  GoVersion plugin = GoVersion host /\
  Forall (fun s => s.1 = "-buildmode" -> s.2 = "plugin") (Settings plugin) /\
  Forall (fun d => exists h, h ∈ Deps host /\ effective h = effective d) (Deps plugin).

Lemma hostDependencies_elem host p m : hostDependencies host !! p = Some m -> mod_Path m = p /\ exists d, d ∈ Deps host /\ effective d = m.
Proof.
  unfold hostDependencies. assert (Hacc : forall acc l, (forall q n, acc !! q = Some n -> mod_Path n = q /\ exists d, d ∈ Deps host /\ effective d = n) ->
    (forall d, d ∈ l -> d ∈ Deps host) -> forall q n, foldl add_dependency acc l !! q = Some n -> mod_Path n = q /\ exists d, d ∈ Deps host /\ effective d = n).
  { intros acc l. revert acc. induction l as [|d l IH]; intros acc Ha Hl; cbn [foldl]; [done|]. apply IH; [|set_solver].
    unfold add_dependency. intros q n [[<- <-]|[_ Hq]]%lookup_insert_Some; [|by apply Ha]. split; [done|]. exists d. set_solver. }
  apply (Hacc ∅ (Deps host)); [|done]. intros q n Hq. by rewrite lookup_empty in Hq.
Qed.

Lemma check_settings_None mode l : check_settings mode l = None <-> Forall (fun s => s.1 = "-buildmode" -> s.2 = mode) l.
Proof.
  unfold check_settings. destruct (existsb _ l) eqn:He.
  - split; [done|]. intros HF. apply existsb_exists in He as (s & Hin%list_elem_of_In & [H1 H2]%andb_true_iff). reflect_bools.
    rewrite Forall_forall in HF. by destruct H2, (HF s).
  - split; [intros _|done]. apply Forall_forall. intros s Hin%list_elem_of_In Hk. destruct (decide (s.2 = mode)) as [|Hne]; [done|].
    assert (existsb (fun s => bool_decide (s.1 = "-buildmode") && negb (bool_decide (s.2 = mode))) l = true) as Ht; [|congruence].
    apply existsb_exists. exists s. split; [done|]. by rewrite bool_decide_eq_true_2, bool_decide_eq_false_2.
Qed.

Lemma check_dependencies_None host deps :
  check_dependencies (hostDependencies host) deps = None ->
  Forall (fun d => exists h, h ∈ Deps host /\ effective h = effective d) deps.
Proof.
  induction deps as [|d deps IH]; [constructor|]. cbn [check_dependencies]. destruct (hostDependencies host !! _) as [h|] eqn:Hh; [|done].
  apply hostDependencies_elem in Hh as (Hpath & e & He & Heq). repeat case_bool_decide; cbn [negb]; try done. intros Hc. constructor; [|by apply IH].
  exists e. split; [done|]. rewrite Heq. destruct h, (effective d). cbn in *. congruence.
Qed.

Lemma checkVersionCompatibility_sound host plugin : checkVersionCompatibility host plugin "plugin" = None -> compatible host plugin.
Proof.
  unfold checkVersionCompatibility. case_bool_decide as Hv; [|done]. cbn [negb]. destruct (check_settings _ _) eqn:Hs; [done|]. intros Hd.
  split_and!; [done|by apply check_settings_None|by apply check_dependencies_None].
Qed.

Section LoaderSpec.
Context {Factory FilterFactory RouteConfig AnyMap : Type} `{!Decodable AnyMap} (Marshal : AnyMap -> option string).
Context (factory_Create : Factory -> option string -> option FilterFactory).
Context (ReadBuildInfo : FileSystem -> string -> option BuildInfo) (Open : FileSystem -> string -> option (gmap string (Symbol Factory))).
Context (host : BuildInfo) (composer : string).
Context (fetch : string -> string -> FileSystem -> FileSystem * result LoadError string).
Local Abbreviation createFactory := (createFactory ReadBuildInfo Open host).
Local Abbreviation loadPluginImpl := (loadPluginImpl ReadBuildInfo Open host fetch).
Local Abbreviation Loader_Create := (Loader_Create Marshal factory_Create ReadBuildInfo Open host composer fetch).

Lemma createFactory_opened fs path symbol name strict opened r :
  createFactory fs path symbol name strict = (opened, r) ->
  Forall (fun p => p = path /\ exists info, ReadBuildInfo fs p = Some info /\ (strict = true -> compatible host info)) opened /\
  forall f, r = Ok f -> opened = [path] /\ exists symbols factories,
    Open fs path = Some symbols /\ symbols !! symbol = Some (SymFactories factories) /\ factories !! name = Some f.
Proof.
  unfold GoPlugin.createFactory. destruct (exists_path fs path); cbn [negb]; [|intros [= <- <-]; by split; [constructor|]].
  destruct (ReadBuildInfo fs path) as [info|] eqn:Hi; [|intros [= <- <-]; by split; [constructor|]].
  set (op := match Open fs path with Some _ => _ | None => _ end).
  assert (Hop : (strict = true -> compatible host info) -> op = (opened, r) ->
    Forall (fun p => p = path /\ exists info, ReadBuildInfo fs p = Some info /\ (strict = true -> compatible host info)) opened /\
    forall f, r = Ok f -> opened = [path] /\ exists symbols factories,
      Open fs path = Some symbols /\ symbols !! symbol = Some (SymFactories factories) /\ factories !! name = Some f).
  { intros Hc. unfold op. destruct (Open fs path) as [symbols|] eqn:Ho; [|intros [= <- <-]; by split; [constructor|]].
    intros [= <- <-]. split; [apply Forall_singleton; split; [done|by exists info]|]. intros f Hf. split; [done|].
    destruct (symbols !! symbol) as [[factories|]|] eqn:Hs; [|done..]. destruct (factories !! name) as [f'|] eqn:Hn; [|done].
    injection Hf as ->. by exists symbols, factories. }
  destruct (checkVersionCompatibility host info "plugin") as [e|] eqn:Hc.
  - destruct strict; [intros [= <- <-]; by split; [constructor|]|by apply Hop].
  - apply Hop. intros _. by apply checkVersionCompatibility_sound.
Qed.

(** C33: A plugin is opened only after its build information was read and, unless the configuration
    turns the check off, found to agree with the host in the version of Go, the build mode and every
    dependency; a filter is created by the factory which that one binary exports under the
    configured name, from the inner configuration. *)
Theorem loader_opens_compatible config c fs fs1 opened r :
  Unmarshal_ok config = Some (c : Config AnyMap) -> Loader_Create config fs = (fs1, opened, r) ->
  Forall (fun p => exists info, ReadBuildInfo fs1 p = Some info /\ (gp_StrictCheck c <> Some false -> compatible host info)) opened /\
  forall ff, r = Ok ff -> exists path symbols factories f,
    opened = [path] /\ Open fs1 path = Some symbols /\ symbols !! "WellKnownHttpFilterConfigFactories" = Some (SymFactories factories) /\
    factories !! gp_Name c = Some f /\ factory_Create f (gp_Config c ≫= Marshal) = Some ff.
Proof.
  intros Hu. unfold GoPlugin.Loader_Create, load_factory, loadGoPlugin. rewrite Hu. cbn [rbind].
  destruct (if gp_VersionedURLSuffix c && _ then _ else _) as [url|e]; cbn [rbind]; [|intros [= <- <- <-]; by split; [constructor|]].
  destruct (match gp_Config c with Some _ => _ | None => _ end) as [inner|e] eqn:Hin; cbn [rbind]; [|intros [= <- <- <-]; by split; [constructor|]].
  cbn [gp_Name gp_URL gp_StrictCheck default]. destruct (_ || _); [intros [= <- <- <-]; by split; [constructor|]|].
  unfold GoPlugin.loadPluginImpl. destruct (fetchGoPluginPath fetch url (gp_Name c) fs) as [fs2 [path|e]]; [|intros [= <- <- <-]; by split; [constructor|]].
  case_bool_decide; [intros [= <- <- <-]; by split; [constructor|]|]. unfold CreateStreamPluginConfigFactory.
  destruct (createFactory fs2 path _ (gp_Name c) _) as [o r'] eqn:Hc. apply createFactory_opened in Hc as [Ho Hr].
  assert (Hopened : Forall (fun p => exists info, ReadBuildInfo fs2 p = Some info /\ (gp_StrictCheck c <> Some false -> compatible host info)) o).
  { eapply Forall_impl; [exact Ho|]. cbn. intros p (_ & info & Hi & Hcomp). exists info. split; [done|]. intros Hs. apply Hcomp.
    destruct (gp_StrictCheck c) as [[]|]; done. }
  destruct r' as [f|e]; intros [= <- <- <-]; (split; [done|]); [|done].
  intros ff Hff. destruct (Hr f eq_refl) as (-> & symbols & factories & Hopen & Hsym & Hfac). exists path, symbols, factories, f. split_and!; try done.
  destruct (factory_Create f inner) as [ff'|] eqn:Hcr; [|done]. injection Hff as ->. rewrite <- Hcr. f_equal.
  destruct (gp_Config c) as [m|]; cbn in Hin |- *; [destruct (Marshal m); congruence|congruence].
Qed.
End LoaderSpec.

(** ** The binary of an image *)

(** The directories on the way to a file have appeared, and the file. *)
Definition stored (d : list string) (f c : string) (fs fs' : FileSystem) : Prop :=
  exists fs1, only_dirs d fs fs1 /\ forall q : list string, fs' !! q = if decide (q = d ++ [f]) then Some (NFile c) else fs1 !! q.

Section Save.
Context (gunzip : string -> option Stream) (untar : Stream -> TarStream).
Context (rand : string) (synced : bool) (dest : string) (d : list string) (f : string).
Local Abbreviation tmp := (f +:+ String "." rand).
Context (Hdest : clean_segs dest = d ++ [f]) (Hdir : clean_segs (Dir dest) = d) (Htemp : clean_segs (tempName rand dest) = d ++ [tmp]).
Context (Hroot : is_rooted (tempName rand dest) = true) (Hplain : Forall plain_seg (d ++ [tmp])).

Lemma temp_differs : tmp <> f.
Proof. intros E. apply (f_equal String.length) in E. rewrite !str_length_app in E. cbn in E. lia. Qed.

(** Removing the temporary file. *)
Lemma RemoveAll_temp fs c q :
  tree fs -> dirs_to fs d -> fs !! (d ++ [tmp]) = Some (NFile c) \/ fs !! (d ++ [tmp]) = None ->
  RemoveAll fs (tempName rand dest) !! q = if decide (q = d ++ [tmp]) then None else fs !! q.
Proof.
  intros Ht Hd Hc. assert (Hnil : fs !! [] = None) by (destruct (fs !! []) as [n|] eqn:E; [by destruct (Ht _ _ E)|done]).
  rewrite RemoveAll_lookup; [|done|].
  - rewrite Htemp. destruct (decide (q = d ++ [tmp])) as [->|Hq]; [by rewrite decide_True|]. case_decide as Hpre; [|done].
    destruct (fs !! q) as [n|] eqn:Hn; [|done]. exfalso. destruct (Ht _ _ Hn) as [_ Hdirs].
    assert (Hx : fs !! (d ++ [tmp]) = Some NDir) by (apply Hdirs; [by destruct d|done|done]). rewrite Hx in Hc. by destruct Hc.
  - split_and!; [done|rewrite Htemp; by destruct d|]. rewrite Htemp. apply dirs_to_linkless; [done| |done]. intros t E. rewrite E in Hc. by destruct Hc.
Qed.

(** A complete temporary file takes the place of the missing binary. *)
Lemma replace_temp fs c (fs2 := <[d ++ [tmp] := NFile c]> fs) :
  tree fs -> dirs_to fs d -> fs !! (d ++ [tmp]) = None -> fs !! (d ++ [f]) = None ->
  exists fs', Rename fs2 (tempName rand dest) dest = Some fs' /\
    forall q, RemoveAll fs' (tempName rand dest) !! q = if decide (q = d ++ [f]) then Some (NFile c) else fs !! q.
Proof.
  intros Ht Hd Htmp Hf. pose proof temp_differs as Hne.
  assert (Hpd : Forall plain_seg d) by (by apply Forall_app in Hplain as [? _]).
  assert (Hd2 : dirs_to fs2 d) by (apply dirs_to_insert; [done|by rewrite Htmp]).
  destruct (Rename_file fs2 (tempName rand dest) dest d tmp f c) as (fs4 & -> & Hfs4); try done.
  { apply tree_insert; [done|done|by rewrite Htmp]. } { subst fs2. by rewrite lookup_insert_eq. }
  { subst fs2. rewrite lookup_insert_ne by (intros [= E]%app_inv_head; done). by rewrite Hf. }
  exists fs4. split; [done|]. intros q.
  assert (Hall : forall p, fs4 !! p = if decide (p = d ++ [f]) then Some (NFile c) else fs !! p).
  { intros p. rewrite Hfs4. case_decide; [done|]. case_decide; [by subst p; rewrite Htmp|]. subst fs2. by rewrite lookup_insert_ne. }
  assert (Hd4 : dirs_to fs4 d).
  { intros pre Hpne Hpre. rewrite Hall. pose proof (prefix_length _ _ Hpre) as Hlen.
    rewrite decide_False by (intros ->; rewrite length_app in Hlen; cbn in Hlen; lia). by apply Hd. }
  assert (Ht4 : tree fs4).
  { rewrite (map_eq fs4 (<[d ++ [f] := NFile c]> fs)); [apply tree_insert; [done|done|by rewrite Hf]|].
    intros p. rewrite Hall. case_decide; [subst; by rewrite lookup_insert_eq|by rewrite lookup_insert_ne]. }
  assert (Htmp4 : fs4 !! (d ++ [tmp]) = None) by (rewrite Hall, decide_False by (intros [= E]%app_inv_head; done); done).
  rewrite (RemoveAll_temp fs4 c) by (try done; by right). rewrite <- Hall. case_decide; [by subst|done].
Qed.

Lemma save_plugin_spec e fs :
  tree fs -> linkless fs [] d -> fs !! (d ++ [f]) = None ->
  match save_plugin rand synced e dest fs with
  | (fs', Ok _) => th_Size e <= Z.of_nat (String.length (te_bytes e)) /\ stored d f (take_bytes (Z.to_nat (th_Size e)) (te_bytes e)) fs fs'
  | (fs', Err err) => err = ErrPluginDisk /\ only_dirs d fs fs'
  end.
Proof.
  intros Ht Hl Hf. pose proof temp_differs as Hne. unfold save_plugin. rewrite Hdir, Htemp.
  assert (Hpd : Forall plain_seg d) by (by apply Forall_app in Hplain as [? _]).
  pose proof (MkdirAll_linkless fs d Hpd Hl) as Ho. destruct (MkdirAll fs d) as [fs1 []] eqn:Hm; [|done]. cbn [fst] in Ho.
  apply MkdirAll_dirs in Hm as [Ht1 Hd1]; [|done..].
  destruct (create_at fs1 (d ++ [tmp]) (NFile "")) as [fs2|] eqn:Hc; [|done].
  assert (Hfree : fs1 !! (d ++ [tmp]) = None).
  { unfold create_at in Hc. rewrite in_directory_dirs in Hc by done. destruct (node_at fs1 (d ++ [tmp])) eqn:E; [done|]. by destruct d. }
  rewrite create_at_new in Hc by done. injection Hc as <-.
  assert (Hgone : forall c, only_dirs d fs (RemoveAll (<[d ++ [tmp] := NFile c]> fs1) (tempName rand dest))).
  { intros c q. rewrite (RemoveAll_temp _ c).
    - case_decide as Hq; [subst q; left|rewrite lookup_insert_ne by done; apply Ho].
      destruct (Ho (d ++ [tmp])) as [<-|(_ & _ & -> & _)]; [by rewrite Hfree|done].
    - apply tree_insert; [done|done|by rewrite Hfree].
    - apply dirs_to_insert; [done|by rewrite Hfree].
    - left. by rewrite lookup_insert_eq. }
  destruct (WriteFile _ _ _) as [fs3|] eqn:Hw; [|by split].
  apply WriteFile_linkless in Hw as ->; [|done|apply dirs_to_linkless; [apply dirs_to_insert; [done|by rewrite Hfree]|intros t; by rewrite lookup_insert_eq|]].
  2: { rewrite lookup_insert_ne by (by destruct d). destruct (fs1 !! []) as [n|] eqn:E; [by destruct (Ht1 _ _ E)|done]. }
  rewrite insert_insert_eq. set (c := take_bytes _ _). destruct (_ || _) eqn:Hshort; [by split|]. apply orb_false_iff in Hshort as [Hsize%Z.ltb_ge _].
  assert (Hf1 : fs1 !! (d ++ [f]) = None).
  { destruct (Ho (d ++ [f])) as [->|(Hpre & _)]; [done|]. apply prefix_length in Hpre. rewrite length_app in Hpre. cbn in Hpre. lia. }
  destruct (replace_temp fs1 c) as (fs4 & -> & Hfs4); try done. split; [done|]. by exists fs1.
Qed.
(** The first library of an archive, and what a saved one is. *)
Definition is_library (e : TarEntry) : bool := bool_decide (Ext (th_Name e) = ".so").

Definition saved (e : TarEntry) (fs fs' : FileSystem) : Prop :=
  th_Regular e = true /\ 0 <= th_Size e <= maxPluginSize /\ th_Size e <= Z.of_nat (String.length (te_bytes e)) /\
  stored d f (take_bytes (Z.to_nat (th_Size e)) (te_bytes e)) fs fs'.

Lemma extract_binary_spec entries clean fs :
  tree fs -> linkless fs [] d -> fs !! (d ++ [f]) = None ->
  match extract_binary rand synced entries clean dest fs with
  | (fs', Ok _) => exists e, List.find is_library entries = Some e /\ saved e fs fs'
  | (fs', Err err) => only_dirs d fs fs' /\ (err = ErrNoBinary -> fs' = fs /\ clean = true /\ List.find is_library entries = None)
  end.
Proof.
  intros Ht Hl Hf. induction entries as [|e entries IH]; cbn [extract_binary List.find].
  { split; [intros q; by left|]. by destruct clean. }
  change (is_library e) with (bool_decide (Ext (th_Name e) = ".so")). destruct (bool_decide (Ext (th_Name e) = ".so")); cbn [negb]; [|exact IH].
  destruct (th_Regular e) eqn:Hreg; cbn [negb]; [|by split; [intros q; left|]].
  destruct (_ || _) eqn:Hsize; [by split; [intros q; left|]|]. apply orb_false_iff in Hsize as [H1%Z.ltb_ge H2%Z.ltb_ge].
  pose proof (save_plugin_spec e fs Ht Hl Hf) as Hs. destruct (save_plugin rand synced e dest fs) as [fs' [[]|err]].
  - destruct Hs as [Hs1 Hs2]. exists e. by split.
  - destruct Hs as [-> Hs]. by split.
Qed.

(** What can be read of a layer. *)
Definition layer_archive (l : Layer) : option TarStream :=
  match l_Compressed l with
  | Some data => match gunzip data with Some s => Some (untar (LimitReader s maxPluginSize)) | None => None end
  | None => None
  end.

Definition layer_library (l : Layer) : option TarEntry := layer_archive l ≫= fun t => List.find is_library (ts_entries t).

(** A layer that is passed over: of another type, or read to its end without a library. *)
Definition passed_over (expected : string) (l : Layer) : Prop :=
  exists mt, l_MediaType l = Some mt /\
    (mt <> expected \/ exists t, layer_archive l = Some t /\ ts_clean t = true /\ List.find is_library (ts_entries t) = None).

Lemma search_layers_spec layers expected fs :
  tree fs -> linkless fs [] d -> fs !! (d ++ [f]) = None ->
  match search_layers gunzip untar rand synced layers expected dest fs with
  | (fs', Ok _) => exists newer l older e, layers = newer ++ l :: older /\ Forall (passed_over expected) newer /\
      l_MediaType l = Some expected /\ layer_library l = Some e /\ saved e fs fs'
  | (fs', Err _) => only_dirs d fs fs'
  end.
Proof.
  intros Ht Hl Hf. induction layers as [|l layers IH]; cbn [search_layers]; [intros q; by left|].
  assert (Hnext : passed_over expected l ->
    match search_layers gunzip untar rand synced layers expected dest fs with
    | (fs', Ok _) => exists newer l' older e, l :: layers = newer ++ l' :: older /\ Forall (passed_over expected) newer /\
        l_MediaType l' = Some expected /\ layer_library l' = Some e /\ saved e fs fs'
    | (fs', Err _) => only_dirs d fs fs'
    end).
  { intros Hp. destruct (search_layers gunzip untar rand synced layers expected dest fs) as [fs' [[]|err]]; [|done].
    destruct IH as (newer & l' & older & e & -> & HF & Hrest). exists (l :: newer), l', older, e. split; [done|]. split; [by constructor|done]. }
  destruct (l_MediaType l) as [mt|] eqn:Hmt; [|intros q; by left].
  case_bool_decide as Hm; cbn [negb]; [subst mt|apply Hnext; exists mt; split; [done|by left]].
  unfold extractLayerBinary, extractPluginBinary. destruct (l_Compressed l) as [data|] eqn:Hcomp; [|intros q; by left].
  destruct (gunzip data) as [s|] eqn:Hz; [|intros q; by left]. set (tar := untar _).
  assert (Har : layer_archive l = Some tar) by (unfold layer_archive; by rewrite Hcomp, Hz).
  pose proof (extract_binary_spec (ts_entries tar) (ts_clean tar) fs Ht Hl Hf) as He.
  destruct (extract_binary rand synced (ts_entries tar) (ts_clean tar) dest fs) as [fs' [[]|err]].
  - destruct He as (e & Hfind & Hsaved). exists [], l, layers, e. split_and!; try done. unfold layer_library. by rewrite Har.
  - destruct He as [Ho Hnone]. case_bool_decide as Herr; [|done]. destruct (Hnone Herr) as (-> & Hclean & Hfind).
    apply Hnext. exists expected. split; [done|]. right. by exists tar.
Qed.
End Save.

(** Where a binary and its temporary file are. *)
Lemma fetch_paths cache name hex rand (d := clean_segs cache ++ [name]) (f := hex +:+ ".so") (dest := JoinAll [cache; name; f]) :
  is_rooted cache = true -> plain_seg name -> slash_free name -> slash_free hex -> slash_free rand ->
  clean_segs dest = d ++ [f] /\ clean_segs (Dir dest) = d /\ clean_segs (tempName rand dest) = d ++ [f +:+ String "." rand] /\
  is_rooted (tempName rand dest) = true /\ Forall plain_seg (d ++ [f]) /\ Forall plain_seg (d ++ [f +:+ String "." rand]).
Proof.
  intros Hroot Hname Hnf Hhf Hrf.
  assert (Hff : plain_seg f /\ slash_free f /\ plain_seg (f +:+ String "." rand) /\ slash_free (f +:+ String "." rand)).
  { subst f. unfold slash_free in *. change (String "." rand) with ("." +:+ rand). rewrite !ContainsByte_app, Hhf, Hrf.
    split_and!; try done; repeat split; intros E; apply (f_equal String.length) in E; rewrite !str_length_app in E; cbn in E; lia. }
  destruct Hff as (Hpf & Hsf & Hpt & Hst).
  destruct (JoinAll_file cache [name] f) as (Hsegs & Hdir & Hbase & Hdroot); [done|repeat constructor; apply Hpf || apply Hname|by repeat constructor|].
  change (JoinAll (cache :: [name] ++ [f])) with dest in *. fold d in Hsegs, Hdir.
  assert (Hpd : Forall plain_seg (d ++ [f])) by (rewrite <- Hsegs; apply clean_segs_plain; subst dest; by apply JoinAll_rooted).
  split; [done|]. split; [done|]. unfold tempName. rewrite Hbase. change ("." +:+ rand) with (String "." rand).
  destruct (JoinAll_segs (Dir dest) [f +:+ String "." rand]) as (_ & Hr & H); [apply Dir_nonempty|by apply Forall_singleton..|].
  rewrite H, Hdir, Hr, Hdroot. split_and!; try done. apply Forall_app in Hpd as [Hd _]. apply Forall_app. split; [done|by apply Forall_singleton].
Qed.

Section FetchSpec.
Context (gunzip : string -> option Stream) (untar : Stream -> TarStream).
Context {Reference : Type} (ParseReference : bool -> string -> result string Reference).
Context (Get : RemoteOptions -> Reference -> result string (option Image)).
Context (DockerManifestSchema2 DockerLayer OCILayer : string).
Context (rand : string) (synced : bool).
Local Abbreviation FetchPlugin := (FetchPlugin gunzip untar ParseReference Get DockerManifestSchema2 DockerLayer OCILayer rand synced).

(** C34: A plugin whose binary is in the cache is not fetched again.  Otherwise a fetch that succeeds
    has put exactly the first library of the newest layer that holds one at the path it returns,
    complete and regular, and a fetch that fails has created directories at most: there is never a
    partial binary or a temporary file. *)
Theorem fetch_plugin_exact goos goarch ref name opt fs fs' r img hex
    (d := clean_segs (CacheDir opt) ++ [name]) (f := hex +:+ ".so") (dest := JoinAll [CacheDir opt; name; f]) :
  get_image ParseReference Get (buildRemoteOpts goos goarch opt) ref = Ok (Some img) -> i_Digest img = Some hex ->
  is_rooted (CacheDir opt) = true -> plain_seg name -> slash_free name -> slash_free hex -> slash_free rand ->
  tree fs -> linkless fs [] (d ++ [f]) ->
  FetchPlugin goos goarch ref name opt fs = (fs', r) ->
  if exists_path fs dest then fs' = fs /\ r = Ok dest
  else match r with
  | Ok p => p = dest /\ exists mt older l newer e,
      i_ManifestType img = Some mt /\ i_Layers img = Some (older ++ l :: newer) /\
      let expected := if bool_decide (mt = DockerManifestSchema2) then DockerLayer else OCILayer in
      Forall (passed_over gunzip untar expected) newer /\ l_MediaType l = Some expected /\
      layer_library gunzip untar l = Some e /\ saved d f e fs fs'
  | Err _ => only_dirs d fs fs'
  end.
Proof.
  intros Hget Hdig Hroot Hname Hnf Hhf Hrf Ht Hl. unfold GoPlugin.FetchPlugin. rewrite Hget, Hdig. cbn zeta. fold f. fold dest.
  destruct (fetch_paths (CacheDir opt) name hex rand) as (Hsegs & Hdir & Htemp & Htroot & Hpd & Hpt); [done..|].
  fold d in Hsegs, Hdir, Htemp, Hpd, Hpt. fold f in Hsegs, Hdir, Htemp, Htroot, Hpd, Hpt. fold dest in Hsegs, Hdir, Htemp, Htroot.
  destruct (exists_path fs dest) eqn:Hex; [by intros [= <- <-]|].
  assert (Hnone : fs !! (d ++ [f]) = None).
  { destruct (fs !! (d ++ [f])) as [n|] eqn:Hn; [|done]. apply bool_decide_eq_false in Hex. destruct Hex. rewrite Hsegs, (tree_Stat _ _ n) by done. by eexists. }
  assert (Hld : linkless fs [] d) by (eapply linkless_prefix; [exact Hl|by eexists]).
  unfold fetchPluginBinary, extractImageLayer. destruct (i_ManifestType img) as [mt|] eqn:Hmt; [|intros [= <- <-] q; by left].
  destruct (i_Layers img) as [layers|] eqn:Hlay; [|intros [= <- <-] q; by left].
  case_bool_decide as Hempty; [intros [= <- <-] q; by left|]. set (expected := if bool_decide (mt = DockerManifestSchema2) then DockerLayer else OCILayer).
  pose proof (search_layers_spec gunzip untar rand synced dest d f Hsegs Hdir Htemp Htroot Hpt (reverse layers) expected fs Ht Hld Hnone) as Hs.
  destruct (search_layers gunzip untar rand synced (reverse layers) expected dest fs) as [fs1 [[]|err]]; intros [= <- <-]; [|done].
  split; [done|]. destruct Hs as (newer & l & older & e & Hrev & HF & Hrest). exists mt, (reverse older), l, (reverse newer), e.
  split; [done|]. split; [|split; [by apply Forall_reverse|done]].
  f_equal. rewrite <- (reverse_involutive layers), Hrev, reverse_app, reverse_cons. by rewrite <- app_assoc.
Qed.
End FetchSpec.

(** ** Witnesses *)

Definition example_host : BuildInfo := mkBuildInfo "go1.24" [] [mkDependency (mkModule "sdk" "v1" "h1:a") None].
Definition example_build : BuildInfo :=
  mkBuildInfo "go1.24" [("-buildmode", "plugin")] [mkDependency (mkModule "fork" "v0" "") (Some (mkModule "sdk" "v1" "h1:a"))].
Definition example_module : string := dq "{'name':'auth','url':'file:///plugins/auth.so','config':{'mode':'strict'}}".
Definition example_config : Config (gmap string string) := mkConfig "auth" "file:///plugins/auth.so" (Some {[ "mode" := "strict" ]}) None false.
Definition example_disk : FileSystem := {[ ["plugins"] := NDir; ["plugins"; "auth.so"] := NFile "elf" ]}.
Definition example_marshal (m : gmap string string) : option string := Some (json_object ((fun kv => (kv.1, Quote kv.2)) <$> map_to_list m)).
Definition example_open (fs : FileSystem) (p : string) : option (gmap string (Symbol string)) :=
  Some {[ "WellKnownHttpFilterConfigFactories" := SymFactories {[ "auth" := "auth-filter" ]} ]}.
Definition example_fetch (ref name : string) (fs : FileSystem) : FileSystem * result LoadError string := (fs, Err ErrImage).

Lemma loader_opens_compatible_witness :
  Forall (fun p => exists info, (fun (_ : FileSystem) (_ : string) => Some example_build) example_disk p = Some info /\
            (gp_StrictCheck example_config <> Some false -> compatible example_host info)) ["/plugins/auth.so"] /\
  forall ff, Ok ("auth-filter", Some (dq "{'mode':'strict'}")) = (Ok ff : result LoadError (string * option string)) -> exists path symbols factories f,
    ["/plugins/auth.so"] = [path] /\ example_open example_disk path = Some symbols /\
    symbols !! "WellKnownHttpFilterConfigFactories" = Some (SymFactories factories) /\
    factories !! "auth" = Some f /\ Some (f, gp_Config example_config ≫= example_marshal) = Some ff.
Proof.
  apply (loader_opens_compatible example_marshal (fun f c => Some (f, c)) (fun _ _ => Some example_build) example_open example_host "0.12.0"
    example_fetch example_module example_config example_disk); vm_compute; reflexivity.
Defined.

Definition example_image : Image :=
  mkImage (Some "ab12") (Some "oci-manifest")
    (Some [mkLayer (Some "layer") (Some "old"); mkLayer (Some "layer") (Some "plugin"); mkLayer (Some "config") None; mkLayer (Some "layer") (Some "manifests")]).
Definition example_untar (s : Stream) : TarStream :=
  mkTarStream
    (if bool_decide (st_bytes s = "manifests") then [mkTarEntry "manifest.yaml" true 3 "abc"]
     else [mkTarEntry "README" true 1 "x"; mkTarEntry "auth.so" true 3 (if bool_decide (st_bytes s = "plugin") then "new" else "old")]) true.
Definition example_option : FetchOption := mkFetchOption None false "/cache" "".
Definition example_cache : FileSystem := {[ ["cache"] := NDir ]}.
Definition example_fetched : FileSystem := {[ ["cache"] := NDir; ["cache"; "auth"] := NDir; ["cache"; "auth"; "ab12.so"] := NFile "new" ]}.
Definition example_gunzip (s : string) : option Stream := Some (mkStream s true).

Lemma example_cache_ok : tree example_cache /\ linkless example_cache [] ["cache"; "auth"; "ab12.so"].
Proof.
  unfold example_cache. split.
  - intros p n [<- <-]%lookup_singleton_Some. split; [done|]. intros pre Hne [k Hk] Hneq. destruct pre as [|x [|y pre]]; [done| |done].
    injection Hk as <- Hk. done.
  - intros pre t _ [_ Ht]%lookup_singleton_Some. done.
Qed.

Lemma fetch_plugin_exact_witness :
  if exists_path example_cache "/cache/auth/ab12.so" then example_fetched = example_cache /\ Ok "/cache/auth/ab12.so" = (Ok "/cache/auth/ab12.so" : result LoadError string)
  else "/cache/auth/ab12.so" = "/cache/auth/ab12.so" /\ exists mt older l newer e,
      i_ManifestType example_image = Some mt /\ i_Layers example_image = Some (older ++ l :: newer) /\
      let expected := if bool_decide (mt = "docker-manifest") then "docker-layer" else "layer" in
      Forall (passed_over example_gunzip example_untar expected) newer /\ l_MediaType l = Some expected /\
      layer_library example_gunzip example_untar l = Some e /\ saved ["cache"; "auth"] "ab12.so" e example_cache example_fetched.
Proof.
  destruct example_cache_ok as [Ht Hl].
  apply (fetch_plugin_exact example_gunzip example_untar (fun _ r => Ok r) (fun _ _ => Ok (Some example_image)) "docker-manifest" "docker-layer" "layer" "123" true
    "linux" "amd64" "registry/auth:1" "auth" example_option example_cache example_fetched (Ok "/cache/auth/ab12.so") example_image "ab12");
    first [exact Ht | exact Hl | by repeat split | vm_compute; reflexivity].
Defined.

(** The name of a plugin can lead out of the cache. *)
Lemma fetch_name_escapes : JoinAll ["/cache"; "../etc"; "ab12.so"] = "/etc/ab12.so".
Proof. vm_compute. reflexivity. Qed.

Lemma LastIndexByte_before a t c j : ContainsByte t c = false -> LastIndexByte (a +:+ t) c = Some j -> (j < String.length a)%nat.
Proof.
  intros Ht. assert (Hn : LastIndexByte t c = None).
  { induction t as [|b t IH]; [done|]. cbn in Ht |- *. apply orb_false_iff in Ht as [Hb%bool_decide_eq_false Ht]. by rewrite IH, decide_False. }
  revert j. induction a as [|b a IH]; intros j; cbn [String.append LastIndexByte String.length]; [by rewrite Hn|].
  destruct (LastIndexByte (a +:+ t) c) as [i|]; [intros [= <-]; specialize (IH i eq_refl); lia|]. case_decide; [intros [= <-]; lia|done].
Qed.

(** A versioned URL names the same repository with the version after the tag. *)
Lemma versionedURL_tag composer repo tag :
  composer <> "" -> Contains (repo +:+ ":" +:+ tag) "@" = false -> ContainsByte tag ":"%char = false -> ContainsByte tag slash = false ->
  versionedURL composer ("oci://" +:+ repo +:+ ":" +:+ tag) = Ok ("oci://" +:+ repo +:+ ":" +:+ tag +:+ "-" +:+ composer).
Proof.
  intros Hc Ha Ht Hs. unfold versionedURL. rewrite HasPrefix_app, TrimPrefix_app. cbn [negb]. rewrite bool_decide_eq_false_2, Ha by done.
  change (repo +:+ ":" +:+ tag) with (repo +:+ String ":" tag). rewrite LastIndexByte_app by done.
  destruct (LastIndexByte (repo +:+ String ":" tag) slash) as [j|] eqn:Hj.
  - assert (Hlt : (j < String.length repo)%nat).
    { eapply LastIndexByte_before; [|exact Hj]. by rewrite (ContainsByte_app ":" tag), Hs. }
    rewrite (proj2 (Nat.ltb_ge _ _)) by lia. by rewrite !str_app_assoc.
  - by rewrite !str_app_assoc.
Qed.
