(* ===== verification/CliPackage.v ===== *)
(** * cli: packages

    cli/internal/oci/package.go: a directory is packed into an archive and an archive extracted
    below a directory.  An archive is what the tar reader yields: its entries, and whether it
    ends cleanly; a package whose sizes exceed the limits yields the archive they cut off.  The
    file system is that of [GoFS]; the permission bits that files and directories are created
    with are kept beside it, and stop nobody: the user is one whom they do not keep from reading
    and writing. *)

From S2P Require Import Prelude GoStr GoPath GoFS.
From Stdlib Require Import Lia Ascii.

(** ** Archives *)

Inductive Typeflag : Type := TypeDir | TypeReg | TypeSymlink | TypeOther.

(** A header with the content that can be read for it, and whether reading it ends with an error. *)
Record Entry : Type := mkEntry {
  h_Name : string;
  h_Typeflag : Typeflag;
  h_Linkname : string;
  h_Mode : Z;
  e_content : string;
  e_truncated : bool;
}.

Record Archive : Type := mkArchive { a_entries : list Entry; a_clean : bool }.

Definition maxCompressed : Z := Z.shiftl 200 20.
Definition maxUncompressed : Z := Z.shiftl 500 20.

(** A .tar.gz: its archive, its size and the size of the tar inside, and what the tar reader
    yields when one of the two limits cuts it off. *)
Record Package : Type := mkPackage {
  p_archive : Archive;
  p_compressed : Z;
  p_expanded : Z;
  p_cut : Archive;
}.

(** The archive that is read through the two [io.LimitReader]s. *)
Definition readable (p : Package) : Archive :=
  if (p_compressed p <=? maxCompressed)%Z && (p_expanded p <=? maxUncompressed)%Z then p_archive p else p_cut p.

Inductive PackageError : Type :=
| PathTraversalError (path : string)
| ExternalSymlinkError (path target : string)
| ErrArchive
| ErrIO.

(** [isInsideDir]. *)
Definition isInsideDir (target dest : string) : bool :=
  match Rel dest target with
  | Some rel => negb (is_rooted rel) && negb (HasPrefix rel "..")
  | None => false
  end.

(** ** Extraction *)

(** The permission bits of directories and files. *)
Abbreviation Modes := (gmap Path Z) (only parsing).

Section Extract.
Context (umask : Z).

(** The mode a new file or directory gets: the permission bits of [os.FileMode(mode)] that the
    umask leaves. *)
Definition new_mode (mode : Z) : Z := Z.land (Z.land mode 511) (Z.lnot umask).

(** The file system [fs'] made from [st] by calls that create with [mode]. *)
Definition created (mode : Z) (st : FileSystem * Modes) (fs' : FileSystem) : FileSystem * Modes :=
  (fs',
   map_imap (fun q n =>
     match n, st.1 !! q with
     | NDir, None | NFile _, None => Some (new_mode mode)
     | _, _ => None
     end) fs' ∪ st.2).

(** One round of the loop of [ExtractPackage]; 488 is 0o750. *)
Definition extract_entry (dest : string) (st : FileSystem * Modes) (e : Entry) : (FileSystem * Modes) * option PackageError :=
  let target := Join2 dest (h_Name e) in
  if negb (isInsideDir target dest) then (st, Some (PathTraversalError (h_Name e)))
  else match h_Typeflag e with
  | TypeDir =>
      let '(fs1, ok) := MkdirAll st.1 (clean_segs target) in
      (created (h_Mode e) st fs1, if ok then None else Some ErrIO)
  | TypeReg =>
      let '(fs1, ok) := MkdirAll st.1 (clean_segs (Dir target)) in
      let st1 := created 488 st fs1 in
      if negb ok then (st1, Some ErrIO)
      else match WriteFile fs1 (clean_segs target) (e_content e) with
      | None => (st1, Some ErrIO)
      | Some fs2 => (created (h_Mode e) st1 fs2, if e_truncated e then Some ErrArchive else None)
      end
  | TypeSymlink =>
      let '(fs1, ok) := MkdirAll st.1 (clean_segs (Dir target)) in
      let st1 := created 488 st fs1 in
      if negb ok then (st1, Some ErrIO)
      else match Symlink fs1 (h_Linkname e) (clean_segs target) with
      | None => (st1, Some ErrIO)
      | Some fs2 => ((fs2, st1.2), None)
      end
  | TypeOther => (st, None)
  end.

Fixpoint extract_entries (dest : string) (st : FileSystem * Modes) (entries : list Entry) (clean : bool)
    : (FileSystem * Modes) * option PackageError :=
  match entries with
  | [] => (st, if clean then None else Some ErrArchive)
  | e :: entries' =>
      match extract_entry dest st e with
      | (st1, None) => extract_entries dest st1 entries' clean
      | failed => failed
      end
  end.

(** [ExtractPackage] changes the file system even when it fails. *)
Definition ExtractPackage (data : Package) (dest : string) (st : FileSystem * Modes) : (FileSystem * Modes) * option PackageError :=
  extract_entries dest st (a_entries (readable data)) (a_clean (readable data)).
End Extract.

(** The extraction without the modes, which decide nothing in it. *)
Definition extract_files (data : Package) (dest : string) (fs : FileSystem) : FileSystem * option PackageError :=
  let r := ExtractPackage 18 data dest (fs, ∅) in (r.1.1, r.2).

(** ** Packing *)

(** The order of [filepath.Walk]: name by name, a directory before what it holds. *)
Fixpoint path_le (p q : Path) : bool :=
  match p, q with
  | [], _ => true
  | _ :: _, [] => false
  | x :: p', y :: q' => if decide (x = y) then path_le p' q' else str_ltb x y
  end.

Definition walk_le (a b : Path * Node) : Prop := path_le a.1 b.1 = true.

#[export] Instance walk_le_dec a b : Decision (walk_le a b).
Proof. unfold walk_le. apply _. Defined.

(** The paths below a directory, relative to it, with what is there. *)
Definition relative_to (d : Path) (pn : Path * Node) : option (Path * Node) :=
  match strip_prefix d pn.1 with
  | Some (x :: r) => Some (x :: r, pn.2)
  | _ => None
  end.

Definition walk (fs : FileSystem) (d : Path) : list (Path * Node) := merge_sort walk_le (omap (relative_to d) (map_to_list fs)).

(** The mode of a node, as [tar.FileInfoHeader] records it. *)
Definition mode_of (modes : Modes) (p : Path) : Z := default 0%Z (modes !! p).

(** The callback of [PackageDirectory] for a path below the directory. *)
Definition pack_node (modes : Modes) (dir : string) (rn : Path * Node) : result PackageError Entry :=
  let '(r, n) := rn in
  let relPath := Join r "/" in
  let path := Join2 dir relPath in
  let mode := mode_of modes (clean_segs dir ++ r) in
  match n with
  | NDir => Ok (mkEntry relPath TypeDir "" mode "" false)
  | NFile content => Ok (mkEntry relPath TypeReg "" mode content false)
  | NLink link =>
      let resolvedTarget := if is_rooted link then Clean link else Join2 (Dir path) link in
      if negb (isInsideDir resolvedTarget dir) then Err (ExternalSymlinkError relPath link)
      else Ok (mkEntry relPath TypeSymlink link mode "" false)
  end.

Fixpoint pack_nodes (modes : Modes) (dir : string) (l : list (Path * Node)) : result PackageError (list Entry) :=
  match l with
  | [] => Ok []
  | rn :: l' =>
      match pack_node modes dir rn with
      | Err e => Err e
      | Ok entry => match pack_nodes modes dir l' with Err e => Err e | Ok es => Ok (entry :: es) end
      end
  end.

(** [PackageDirectory] of a directory that is reached without links. *)
Definition PackageDirectory (fs : FileSystem) (modes : Modes) (dir : string) : result PackageError Archive :=
  match node_at fs (clean_segs dir) with
  | Some NDir =>
      match pack_nodes modes dir (walk fs (clean_segs dir)) with
      | Ok es => Ok (mkArchive es true)
      | Err e => Err e
      end
  | _ => Err ErrIO
  end.

(** ** What is inside a directory *)

Lemma strip_common_nil b t rest : strip_common b t = ([], rest) -> t = b ++ rest.
Proof.
  revert t. induction b as [|x b IH]; intros [|y t]; cbn; [intros [= <-]; done..|done|].
  case_decide; [subst|done]. intros Hs. by rewrite (IH _ Hs).
Qed.

(** A path inside a rooted directory is the directory followed by plain names. *)
Lemma isInsideDir_segs target dest :
  is_rooted dest = true -> isInsideDir target dest = true ->
  is_rooted target = true /\ exists rest, clean_segs target = clean_segs dest ++ rest /\ Forall plain_seg rest.
Proof.
  intros Hr. unfold isInsideDir, Rel. destruct (decide (Clean target = Clean dest)) as [He|_].
  - intros _. assert (Hd : dest <> "") by (by intros ->).
    destruct (clean_segs_Clean dest Hd) as [H1 H2]. rewrite <- He in H1, H2.
    assert (Ht : target <> "") by (intros ->; by rewrite Hr in H2).
    destruct (clean_segs_Clean target Ht) as [H3 H4]. split; [congruence|]. exists []. rewrite app_nil_r. split; [congruence|done].
  - rewrite Hr. destruct (is_rooted target) eqn:Ht; [|done]. rewrite bool_decide_eq_true_2 by done. cbn [negb].
    intros Hin. split; [done|]. pose proof (clean_segs_plain target Ht) as Hp.
    destruct (strip_common (clean_segs dest) (clean_segs target)) as [[|b bs] ts] eqn:Hs.
    + exists ts. apply strip_common_nil in Hs. rewrite Hs in Hp. apply Forall_app in Hp as [_ Hp]. by split.
    + exfalso. destruct ts; cbn in Hin; [|destruct (decide (b = "..")); [done|]]; destruct bs; cbn in Hin; done.
Qed.

Lemma Join2_clean dest name : dest <> "" -> is_rooted dest = true ->
  is_rooted (Join2 dest name) = true /\ Join2 dest name = Clean (Join2 dest name).
Proof.
  intros Hd Hr. unfold Join2. rewrite decide_False by done.
  assert (Hne : dest +:+ "/" +:+ name <> "") by (by destruct dest).
  destruct (clean_segs_Clean _ Hne) as [H1 H2]. rewrite is_rooted_app, Hr in H2 by done. split; [done|].
  unfold Clean at 2. assert (Hc : Clean (dest +:+ "/" +:+ name) <> "") by (intros He; by rewrite He in H2).
  rewrite decide_False by done. rewrite H1, H2. unfold Clean. rewrite decide_False by done. by rewrite is_rooted_app, Hr.
Qed.

(** ** Confinement *)

(** No link lies on the way to a directory or below it. *)
Definition no_links_near (fs : FileSystem) (d : Path) : Prop :=
  forall q target, fs !! q = Some (NLink target) -> ~ q `prefix_of` d /\ ~ d `prefix_of` q.

(** Nothing has changed outside the directory, but for the missing directories on the way to it. *)
Definition changed_within (d : Path) (fs fs' : FileSystem) : Prop :=
  forall q, fs' !! q = fs !! q \/ d `prefix_of` q \/ (q `prefix_of` d /\ fs !! q = None /\ fs' !! q = Some NDir).

Lemma changed_within_refl d fs : changed_within d fs fs.
Proof. intros q. by left. Qed.

Lemma changed_within_trans d fs1 fs2 fs3 :
  changed_within d fs1 fs2 -> changed_within d fs2 fs3 -> changed_within d fs1 fs3.
Proof.
  intros H1 H2 q. destruct (H1 q) as [E1|[?|(P1 & E1 & F1)]], (H2 q) as [E2|[?|(P2 & E2 & F2)]]; auto.
  - left. congruence.
  - right; right. split_and!; try done. congruence.
  - right; right. split_and!; try done. congruence.
Qed.

Lemma prefix_near (d rest pre : Path) : pre `prefix_of` d ++ rest -> pre `prefix_of` d \/ d `prefix_of` pre.
Proof. intros Hp. eapply prefix_weak_total; [done|by eexists]. Qed.

Lemma no_links_linkless fs d rest : no_links_near fs d -> linkless fs [] (d ++ rest).
Proof. intros Hn pre t Hp Hl. destruct (Hn _ _ Hl) as [H1 H2]. by destruct (prefix_near _ _ _ Hp). Qed.

(** What a step of the extraction keeps. *)
Definition extract_inv (d : Path) (fs fs' : FileSystem) : Prop := changed_within d fs fs' /\ no_links_near fs' d.

Lemma extract_inv_trans d fs1 fs2 fs3 : extract_inv d fs1 fs2 -> extract_inv d fs2 fs3 -> extract_inv d fs1 fs3.
Proof. intros [H1 _] [H2 H3]. split; [by eapply changed_within_trans|done]. Qed.

(** *** Links that lead inside *)

Definition named (seg : string) : bool := negb (bool_decide (seg = "" \/ seg = "." \/ seg = "..")).

Lemma named_plain seg : named seg = true <-> plain_seg seg.
Proof. unfold named, plain_seg. rewrite negb_true_iff, bool_decide_eq_false. tauto. Qed.

Definition upward (segs : list string) : bool := bool_decide (".." ∈ segs).

(** The components of a target read [up] directories below the directory: as many leading
    ".." as that, and none after a name. *)
Fixpoint inner_segs (up : nat) (segs : list string) : bool :=
  match segs with
  | [] => true
  | seg :: rest =>
      if bool_decide (seg = "" \/ seg = ".") then inner_segs up rest
      else if bool_decide (seg = "..") then match up with O => false | S up' => inner_segs up' rest end
      else negb (upward rest)
  end.

(** A link in the directory [dir] leads into [d]: it is relative and climbs no higher than
    [d], or it names a path below [d]. *)
Definition inner_link (d dir : Path) (target : string) : bool :=
  if is_rooted target then
    negb (upward (Split target slash)) && bool_decide (d `prefix_of` filter (fun seg => named seg = true) (Split target slash))
  else inner_segs (length dir - length d) (Split target slash).

(** No link on the way to [d], and every link below it leads into it. *)
Definition safe_links (d : Path) (fs : FileSystem) : Prop :=
  forall q target, fs !! q = Some (NLink target) ->
    ~ q `prefix_of` d /\ (d `prefix_of` q -> inner_link d (parent q) target = true).

Lemma no_links_safe fs d : no_links_near fs d -> safe_links d fs.
Proof. intros Hn q t Hq. destruct (Hn q t Hq). split; [done|]. by intros ?. Qed.

Lemma upward_app l1 l2 : upward (l1 ++ l2) = upward l1 || upward l2.
Proof. unfold upward. apply eq_true_iff_eq. rewrite orb_true_iff, !bool_decide_eq_true. apply elem_of_app. Qed.

Lemma upward_cons seg l : upward (seg :: l) = bool_decide (seg = "..") || upward l.
Proof.
  unfold upward. apply eq_true_iff_eq. rewrite orb_true_iff, !bool_decide_eq_true, elem_of_cons. naive_solver.
Qed.

Lemma inner_segs_flat up segs : upward segs = false -> inner_segs up segs = true.
Proof.
  induction segs as [|seg segs IH]; cbn [inner_segs]; [done|]. rewrite upward_cons. intros [Hs Hr]%orb_false_iff.
  rewrite Hs, Hr. destruct (bool_decide (seg = "" \/ seg = ".")); [by apply IH|done].
Qed.

Lemma inner_segs_app up segs rest : inner_segs up segs = true -> upward rest = false -> inner_segs up (segs ++ rest) = true.
Proof.
  intros Hi Hr. revert up Hi. induction segs as [|seg segs IH]; intros up; cbn [inner_segs app].
  { intros _. by apply inner_segs_flat. }
  case_bool_decide; [apply IH|]. case_bool_decide; [destruct up; [done|apply IH]|].
  rewrite upward_app, Hr, orb_false_r. done.
Qed.

(** Where a resolution is on its way into [d]: inside, or still above it with [d] ahead. *)
Definition on_way (d done todo : Path) : Prop :=
  (d `prefix_of` done /\ inner_segs (length done - length d) todo = true) \/
  (upward todo = false /\ exists d2, d = done ++ d2 /\ d2 `prefix_of` filter (fun seg => named seg = true) todo).

Lemma follow_skip links fs d seg rest : seg = "" \/ seg = "." -> follow links fs d (seg :: rest) = follow links fs d rest.
Proof. intros Hs. destruct links; cbn; by rewrite decide_True. Qed.

Lemma follow_up links fs d rest : follow links fs d (".." :: rest) = follow links fs (parent d) rest.
Proof. by destruct links. Qed.

Lemma parent_inside (d done : Path) up : d `prefix_of` done -> (length done - length d)%nat = S up ->
  d `prefix_of` parent done /\ (length (parent done) - length d)%nat = up.
Proof.
  intros [k ->]. rewrite length_app. destruct k as [|x k _] using rev_ind; [cbn; lia|].
  rewrite length_app, app_assoc, parent_snoc, length_app. cbn. intros ?. split; [by eexists|lia].
Qed.

Lemma on_way_skip d done seg rest : seg = "" \/ seg = "." -> on_way d done (seg :: rest) -> on_way d done rest.
Proof.
  intros Hs [[Hd Hi]|(Hu & d2 & -> & Hp)].
  - left. split; [done|]. cbn [inner_segs] in Hi. by rewrite bool_decide_eq_true_2 in Hi.
  - right. rewrite upward_cons in Hu. apply orb_false_iff in Hu as [_ Hu]. split; [done|]. exists d2. split; [done|].
    rewrite filter_cons, decide_False in Hp; [done|]. rewrite named_plain. unfold plain_seg. naive_solver.
Qed.

Lemma on_way_up d done rest : on_way d done (".." :: rest) -> on_way d (parent done) rest.
Proof.
  intros [[Hd Hi]|(Hu & _)]; [|by rewrite upward_cons in Hu]. left. cbn in Hi.
  destruct (length done - length d)%nat as [|up] eqn:Hl; [done|]. by destruct (parent_inside d done up Hd Hl) as [? ->].
Qed.

(** A name on the way: the way goes on below it, and if it is the last it is inside; a link
    there leads on the way. *)
Lemma on_way_name d done seg rest :
  plain_seg seg -> on_way d done (seg :: rest) ->
  upward rest = false /\ on_way d (done ++ [seg]) rest /\ (rest = [] -> d `prefix_of` done ++ [seg]) /\
  (d `prefix_of` done \/ done ++ [seg] `prefix_of` d).
Proof.
  intros (H1 & H2 & H3) [[Hd Hi]|(Hu & d2 & -> & Hp)].
  - cbn [inner_segs] in Hi. rewrite !bool_decide_eq_false_2 in Hi by naive_solver. apply negb_true_iff in Hi.
    assert (Hd' : d `prefix_of` done ++ [seg]) by (by apply prefix_app_r).
    split; [done|]. split; [left; split; [done|by apply inner_segs_flat]|]. split; [done|by left].
  - rewrite upward_cons in Hu. apply orb_false_iff in Hu as [_ Hu]. split; [done|].
    rewrite filter_cons, decide_True in Hp by (by rewrite named_plain). destruct d2 as [|y d2].
    + rewrite app_nil_r. split; [left; split; [by eexists|by apply inner_segs_flat]|]. split; [intros _; by eexists|by left].
    + apply prefix_cons_inv_1 in Hp as Hy. apply prefix_cons_inv_2 in Hp. subst y.
      split; [right; split; [done|]; exists d2; by rewrite <- app_assoc|].
      split; [intros ->; apply prefix_nil_inv in Hp as ->; done|]. right. exists d2. by rewrite <- app_assoc.
Qed.

Lemma on_way_link d fs done seg rest target :
  safe_links d fs -> fs !! (done ++ [seg]) = Some (NLink target) -> upward rest = false ->
  d `prefix_of` done \/ done ++ [seg] `prefix_of` d ->
  on_way d (if is_rooted target then [] else done) (Split target slash ++ rest).
Proof.
  intros Hs Hl Hr Hd. destruct (Hs _ _ Hl) as [Hn Hin]. destruct Hd as [Hd|?]; [|done].
  specialize (Hin ltac:(by apply prefix_app_r)). rewrite parent_snoc in Hin. unfold inner_link in Hin.
  destruct (is_rooted target).
  - apply andb_true_iff in Hin as [Hu%negb_true_iff Hp%bool_decide_eq_true]. right. split; [by rewrite upward_app, Hu|].
    exists d. split; [done|]. rewrite filter_app. by apply prefix_app_r.
  - left. split; [done|]. by apply inner_segs_app.
Qed.

(** What is on its way inside ends inside. *)
Lemma follow_inside links d fs done todo q :
  safe_links d fs -> on_way d done todo -> follow links fs done todo = Some q -> d `prefix_of` q.
Proof.
  intros Hs. revert done todo. induction links as [links IHl] using lt_wf_ind. intros done todo.
  revert done. induction todo as [|seg rest IH]; intros done Hw.
  { rewrite follow_nil. intros [= <-]. destruct Hw as [[? _]|(_ & d2 & -> & ->%prefix_nil_inv)]; [done|by rewrite app_nil_r]. }
  destruct (decide (seg = "" \/ seg = ".")) as [Hk|Hk]; [rewrite follow_skip by done; by apply IH, (on_way_skip _ _ seg)|].
  destruct (decide (seg = "..")) as [->|Hdd]; [rewrite follow_up; by apply IH, on_way_up|].
  assert (Hp : plain_seg seg) by (split_and!; naive_solver). rewrite follow_plain_cons by done.
  destruct (on_way_name d done seg rest Hp Hw) as (Hu & Hw' & Hlast & Hd).
  destruct (fs !! (done ++ [seg])) as [[|c|target]|] eqn:Hl.
  - by apply IH.
  - destruct rest; [|done]. intros [= <-]. by apply Hlast.
  - destruct links as [|links]; [done|]. apply IHl; [lia|]. by eapply on_way_link.
  - destruct rest; [|done]. intros [= <-]. by apply Hlast.
Qed.

Lemma filter_named (l : Path) : Forall plain_seg l -> filter (fun seg => named seg = true) l = l.
Proof. induction 1 as [|x l Hx _ IH]; [done|]. rewrite filter_cons, decide_True by (by apply named_plain). by rewrite IH. Qed.

Lemma resolve_inside d fs rest q :
  safe_links d fs -> Forall plain_seg (d ++ rest) -> resolve fs (d ++ rest) = Some q -> d `prefix_of` q.
Proof.
  intros Hs Hp. apply follow_inside; [done|]. right. split; [|exists d; split; [done|rewrite filter_named by done; by eexists]].
  unfold upward. apply bool_decide_eq_false. intros Hin. rewrite Forall_forall in Hp. by destruct (Hp _ Hin) as (_ & _ & ?).
Qed.

(** *** What an entry changes *)

(** Nothing outside [d] but missing directories on the way to it, and no link but one that was
    not there before, below [d]. *)
Definition entry_effect (d : Path) (link : option string) (fs fs' : FileSystem) : Prop :=
  changed_within d fs fs' /\
  forall q target, fs' !! q = Some (NLink target) ->
    fs !! q = Some (NLink target) \/ (link = Some target /\ d `prefix_of` q /\ node_at fs q = None).

Lemma effect_refl d link fs : entry_effect d link fs fs.
Proof. split; [apply changed_within_refl|]. intros q t Hq. by left. Qed.

Lemma effect_insert d link fs q n :
  d `prefix_of` q -> (forall target, n = NLink target -> link = Some target /\ node_at fs q = None) ->
  entry_effect d link fs (<[q := n]> fs).
Proof.
  intros Hd Hn. split.
  - intros q'. destruct (decide (q' = q)) as [->|Hne]; [right; by left|]. left. by rewrite lookup_insert_ne.
  - intros q' t. destruct (decide (q' = q)) as [->|Hne].
    + rewrite lookup_insert_eq. intros [= ->]. right. by destruct (Hn t eq_refl).
    + rewrite lookup_insert_ne by done. by left.
Qed.

Lemma effect_dirs d fs fs' : only_dirs d fs fs' -> entry_effect d None fs fs'.
Proof.
  intros Ho. split.
  - intros q. destruct (Ho q) as [?|(Hp & _ & H1 & H2)]; auto.
  - intros q t Hq. left. destruct (Ho q) as [He|(_ & _ & _ & He)]; congruence.
Qed.

Lemma effect_safe d fs fs' : safe_links d fs -> entry_effect d None fs fs' -> safe_links d fs'.
Proof. intros Hs [_ Hl] q t Hq. destruct (Hl q t Hq) as [?|[? _]]; [by apply Hs|done]. Qed.

Lemma effect_trans d link fs1 fs2 fs3 :
  entry_effect d None fs1 fs2 -> grows fs1 fs2 -> entry_effect d link fs2 fs3 -> entry_effect d link fs1 fs3.
Proof.
  intros [H1 L1] Hg [H2 L2]. split; [by eapply changed_within_trans|]. intros q t Hq.
  destruct (L2 q t Hq) as [Hq2|(-> & Hd & Hn)].
  - destruct (L1 q t Hq2) as [?|[? _]]; [by left|done].
  - right. split; [done|]. split; [done|]. destruct (node_at fs1 q) as [n|] eqn:Hn1; [|done].
    pose proof (node_at_grows _ _ _ _ Hg Hn1) as Hn2. destruct n; [|destruct Hn2 as [c Hn2]|]; congruence.
Qed.

Lemma effect_link d link fs fs' : entry_effect d None fs fs' -> entry_effect d link fs fs'.
Proof. intros [H1 H2]. split; [done|]. intros q t Hq. destruct (H2 q t Hq) as [?|[? _]]; [by left|done]. Qed.

Lemma safe_linkless d fs : safe_links d fs -> linkless fs [] d.
Proof. intros Hs pre t Hp Hl. by destruct (Hs _ _ Hl). Qed.

Lemma create_at_effect d fs rest n link fs' :
  safe_links d fs -> Forall plain_seg (d ++ rest) -> (forall target, n = NLink target -> link = Some target) ->
  create_at fs (d ++ rest) n = Some fs' -> entry_effect d link fs fs'.
Proof.
  intros Hs Hp Hn. destruct rest as [|x rest _] using rev_ind.
  - rewrite app_nil_r in Hp |- *. intros Hc. apply create_at_linkless in Hc as [-> Hnone]; [|done|by apply safe_linkless].
    apply effect_insert; [done|]. intros t Ht. split; [by apply Hn|done].
  - rewrite app_assoc. unfold create_at, in_directory. rewrite last_snoc, parent_snoc.
    destruct (resolve fs (d ++ rest)) as [q|] eqn:Hr; [|done].
    apply resolve_inside in Hr; [|done|rewrite app_assoc in Hp; by apply Forall_app in Hp as [? _]].
    destruct (node_at fs q) as [[]|]; try done. destruct (node_at fs (q ++ [x])) eqn:Hq; [done|]. intros [= <-].
    apply effect_insert; [by apply prefix_app_r|]. intros t Ht. split; [by apply Hn|done].
Qed.

Lemma mkdir_step_effect d fs p rest :
  safe_links d fs -> Forall plain_seg (d ++ rest) -> p `prefix_of` d ++ rest ->
  entry_effect d None fs (mkdir_step (fs, true) p).1.
Proof.
  intros Hs Hp Hpre. destruct (prefix_weak_total p d (d ++ rest)) as [Hd|[k ->]]; [done|by eexists| |].
  - apply effect_dirs. apply mkdir_step_linkless; [by apply Forall_app in Hp as [? _]|by apply safe_linkless|done].
  - apply prefix_app_inv in Hpre as Hk. cbn. destruct (Stat fs (d ++ k)) as [[]|]; [apply effect_refl..|].
    destruct (Mkdir fs (d ++ k)) as [fs1|] eqn:Hm; [|apply effect_refl]. apply (create_at_effect d fs k NDir None fs1); [done| |done|exact Hm].
    destruct Hk as [k' ->]. rewrite app_assoc in Hp. by apply Forall_app in Hp as [? _].
Qed.

Lemma MkdirAll_effect d fs rest :
  safe_links d fs -> Forall plain_seg (d ++ rest) -> forall p, p `prefix_of` d ++ rest -> entry_effect d None fs (MkdirAll fs p).1.
Proof.
  intros Hs Hp p Hpp. unfold MkdirAll.
  assert (Hds : Forall (fun p' => p' `prefix_of` d ++ rest) (prefixes p))
    by (apply Forall_fmap, Forall_true; intros n; cbn; etrans; [apply prefix_take|done]).
  revert fs Hs Hds. generalize (prefixes p) as ds. induction ds as [|p' ds IH]; intros fs Hs Hds; [apply effect_refl|].
  apply Forall_cons in Hds as [Hd Hds]. cbn [foldl].
  pose proof (mkdir_step_effect d fs p' rest Hs Hp Hd) as He. pose proof (mkdir_steps_grow fs true [p']) as Hg. cbn [foldl] in Hg.
  destruct (mkdir_step (fs, true) p') as [fs1 []]; [|by rewrite mkdir_steps_failed].
  eapply effect_trans; [exact He|exact Hg|]. apply IH; [by eapply effect_safe|done].
Qed.

Lemma WriteFile_effect d fs rest c fs' :
  safe_links d fs -> Forall plain_seg (d ++ rest) -> WriteFile fs (d ++ rest) c = Some fs' -> entry_effect d None fs fs'.
Proof.
  intros Hs Hp. unfold WriteFile. destruct (resolve fs (d ++ rest)) as [q|] eqn:Hr; [|done]. apply resolve_inside in Hr; [|done..].
  intros Hw. assert (fs' = <[q := NFile c]> fs) as -> by
    (destruct (node_at fs q) as [[]|], (node_at fs (parent q)) as [[]|]; try done; by injection Hw as <-).
  by apply effect_insert.
Qed.

(** The directory of a target inside is on the way to it. *)
Lemma Dir_prefix target : is_rooted target = true -> target = Clean target -> clean_segs (Dir target) `prefix_of` clean_segs target.
Proof.
  intros Hr Hc. destruct (clean_segs target) as [|x S _] eqn:HS using rev_ind.
  - assert (clean_segs (Dir target) = []) as ->; [|done].
    rewrite Hc. unfold Clean. rewrite decide_False by (by intros ->). by rewrite Hr, HS.
  - rewrite (clean_segs_Dir target S x) by done. by eexists.
Qed.

Definition entry_link (e : Entry) : option string :=
  match h_Typeflag e with TypeSymlink => Some (h_Linkname e) | _ => None end.

(** An entry below a directory whose links lead inside. *)
Lemma extract_entry_effect umask dest st e (d := clean_segs dest) (fs' := (extract_entry umask dest st e).1.1) :
  is_rooted dest = true -> safe_links d st.1 -> entry_effect d (entry_link e) st.1 fs' /\ grows st.1 fs'.
Proof.
  intros Hr Hs. subst fs'. unfold extract_entry. destruct (isInsideDir (Join2 dest (h_Name e)) dest) eqn:Hin;
    [|split; [apply effect_refl|apply grows_refl]].
  cbn [negb]. assert (Hd : dest <> "") by (by intros ->). destruct (Join2_clean dest (h_Name e) Hd Hr) as [Htr Htc].
  destruct (isInsideDir_segs _ _ Hr Hin) as (_ & rest & Hsegs & _). fold d in Hsegs.
  pose proof (clean_segs_plain _ Htr) as Hp. rewrite Hsegs in Hp. pose proof (Dir_prefix _ Htr Htc) as Hdir. rewrite Hsegs in Hdir.
  pose proof (MkdirAll_effect d st.1 rest Hs Hp) as Hm. unfold entry_link. rewrite Hsegs.
  destruct (h_Typeflag e); [| | |split; [apply effect_refl|apply grows_refl]].
  - specialize (Hm (d ++ rest) ltac:(done)). pose proof (MkdirAll_grows st.1 (d ++ rest)) as Hg.
    by destruct (MkdirAll st.1 (d ++ rest)) as [fs1 ok].
  - specialize (Hm _ Hdir). pose proof (MkdirAll_grows st.1 (clean_segs (Dir (Join2 dest (h_Name e))))) as Hg.
    destruct (MkdirAll st.1 _) as [fs1 []]; [|done]. cbn [negb fst] in *.
    destruct (WriteFile fs1 (d ++ rest) (e_content e)) as [fs2|] eqn:Hw; [|done]. split.
    + eapply effect_trans; [done|done|]. eapply WriteFile_effect; [by eapply effect_safe|done|done].
    + eapply grows_trans; [done|]. by apply WriteFile_grows in Hw as [? _].
  - specialize (Hm _ Hdir). pose proof (MkdirAll_grows st.1 (clean_segs (Dir (Join2 dest (h_Name e))))) as Hg.
    destruct (MkdirAll st.1 _) as [fs1 []]; [|by split; [apply effect_link|]]. cbn [negb fst] in *.
    destruct (Symlink fs1 (h_Linkname e) (d ++ rest)) as [fs2|] eqn:Hw; [|by split; [apply effect_link|]]. split.
    + eapply effect_trans; [done|done|]. eapply (create_at_effect d fs1 rest (NLink (h_Linkname e))); [by eapply effect_safe|done|by intros t [= ->]|done].
    + eapply grows_trans; [done|]. by eapply create_at_grows.
Qed.




(** Extractions without links create none. *)
Lemma extract_files_inv dest fs data :
  is_rooted dest = true -> no_links_near fs (clean_segs dest) ->
  Forall (fun e => h_Typeflag e <> TypeSymlink) (a_entries (readable data)) ->
  extract_inv (clean_segs dest) fs (extract_files data dest fs).1.
Proof.
  intros Hr Hn He. unfold extract_files, ExtractPackage. cbn [fst]. destruct (readable data) as [entries clean]. cbn [a_entries a_clean] in *.
  cut (forall st : FileSystem * Modes, no_links_near st.1 (clean_segs dest) ->
    extract_inv (clean_segs dest) st.1 (extract_entries 18 dest st entries clean).1.1); [intros Hx; by apply (Hx (fs, ∅))|].
  clear fs Hn. induction He as [|e entries He _ IH]; intros st Hn; cbn [extract_entries].
  { destruct clean; by split; [apply changed_within_refl|]. }
  destruct (extract_entry_effect 18 dest st e Hr (no_links_safe _ _ Hn)) as [[Hc Hl] _].
  assert (H1 : extract_inv (clean_segs dest) st.1 (extract_entry 18 dest st e).1.1).
  { split; [done|]. intros q t Hq. destruct (Hl q t Hq) as [?|(Ht & _)]; [by eapply Hn|]. unfold entry_link in Ht. by destruct (h_Typeflag e). }
  destruct (extract_entry 18 dest st e) as [st1 [err|]]; [done|]. eapply extract_inv_trans; [exact H1|]. apply IH, H1.
Qed.





(** ** Links *)

(** An archive whose first entry is a link out of the directory and whose second entry is a file
    below that link. *)
Definition link_archive : Archive :=
  mkArchive [mkEntry "out" TypeSymlink "/etc" 511 "" false; mkEntry "out/passwd" TypeReg "" 420 "mine" false] true.

(** An archive in a package within the limits. *)
Definition small (a : Archive) : Package := mkPackage a 1024 4096 a.

Definition home_fs : FileSystem :=
  list_to_map [(["home"], NDir); (["home"; "x"], NDir); (["etc"], NDir); (["etc"; "passwd"], NFile "root")].

(** The check of an entry's name does not see links that earlier entries created: an archive can
    write anywhere. *)
Theorem extract_link_escapes :
  ~ changed_within (clean_segs "/home/x") home_fs (extract_files (small link_archive) "/home/x" home_fs).1 /\
  (extract_files (small link_archive) "/home/x" home_fs).2 = None.
Proof.
  split; [|vm_compute; reflexivity]. intros Hc. destruct (Hc ["etc"; "passwd"]) as [He|[Hp|(_ & He & _)]].
  - vm_compute in He. discriminate He.
  - destruct Hp as [k Hk]. vm_compute in Hk. discriminate Hk.
  - vm_compute in He. discriminate He.
Qed.

(** ** Round trip *)

Lemma path_le_trans p q r : path_le p q = true -> path_le q r = true -> path_le p r = true.
Proof.
  revert q r. induction p as [|x p IH]; intros [|y q] [|z r]; cbn; try done.
  destruct (decide (x = y)) as [->|Hxy], (decide (y = z)) as [->|Hyz]; try done; [apply IH|by rewrite decide_False|].
  intros H1 H2. pose proof (str_ltb_trans _ _ _ H1 H2) as H3. rewrite decide_False; [done|].
  intros ->. by rewrite str_ltb_irrefl in H3.
Qed.

Lemma path_le_total p q : path_le p q = true \/ path_le q p = true.
Proof.
  revert q. induction p as [|x p IH]; intros [|y q]; cbn; auto.
  destruct (decide (x = y)) as [->|Hne]; [rewrite decide_True by done; apply IH|]. rewrite decide_False by done.
  destruct (str_ltb x y) eqn:H1; [by left|]. right. destruct (str_ltb y x) eqn:H2; [done|].
  by destruct Hne; apply str_ltb_total.
Qed.

Lemma path_le_prefix (p q : Path) : p `prefix_of` q -> p <> q -> path_le q p = false.
Proof.
  intros [k ->] Hne. induction p as [|x p IH]; cbn; [by destruct k|]. rewrite decide_True by done. apply IH. intros He. apply Hne. cbn. congruence.
Qed.

#[local] Instance walk_le_trans : Transitive walk_le.
Proof. intros a b c. apply path_le_trans. Qed.
#[local] Instance walk_le_total : Total walk_le.
Proof. intros a b. apply path_le_total. Qed.

Lemma elem_of_walk fs d r n : (r, n) ∈ walk fs d <-> r <> [] /\ fs !! (d ++ r) = Some n.
Proof.
  unfold walk. rewrite merge_sort_Permutation, list_elem_of_omap. unfold relative_to. split.
  - intros ([p n'] & Hin%elem_of_map_to_list & Hr). cbn in Hr. destruct (strip_prefix d p) as [[|x r']|] eqn:Hs; try done.
    injection Hr as <- <-. apply strip_prefix_Some in Hs as ->. done.
  - intros [Hne Hl]. exists (d ++ r, n). split; [by apply elem_of_map_to_list|]. cbn.
    rewrite (proj2 (strip_prefix_Some d (d ++ r) r)) by done. by destruct r.
Qed.

(** A tree: below a directory, names are names and whatever holds something is a directory. *)
Definition tree_at (fs : FileSystem) (d : Path) : Prop :=
  forall r n, r <> [] -> fs !! (d ++ r) = Some n ->
    Forall plain_seg r /\ Forall slash_free r /\
    forall pre, pre <> [] -> pre `prefix_of` r -> pre <> r -> fs !! (d ++ pre) = Some NDir.

(** A directory is visited before what it holds. *)
Lemma walk_parents fs d l1 r n l2 pre :
  tree_at fs d -> walk fs d = l1 ++ (r, n) :: l2 -> pre <> [] -> pre `prefix_of` r -> pre <> r -> (pre, NDir) ∈ l1.
Proof.
  intros Ht Hw Hne Hp Hneq.
  assert (Hrn : (r, n) ∈ walk fs d) by (rewrite Hw; set_solver). apply elem_of_walk in Hrn as [Hr Hl].
  destruct (Ht r n Hr Hl) as (_ & _ & Hd). specialize (Hd pre Hne Hp Hneq).
  assert (Hpre : (pre, NDir) ∈ walk fs d) by (by apply elem_of_walk).
  pose proof (StronglySorted_merge_sort walk_le (omap (relative_to d) (map_to_list fs))) as Hs. fold (walk fs d) in Hs.
  rewrite Hw in Hpre, Hs. apply elem_of_app in Hpre as [?|[[= -> _]|Hin]%elem_of_cons]; [done|done|].
  apply StronglySorted_app_1_r in Hs. apply StronglySorted_inv in Hs as [_ Hs].
  rewrite Forall_forall in Hs. specialize (Hs _ Hin). unfold walk_le in Hs. cbn in Hs. by rewrite path_le_prefix in Hs.
Qed.

(** The entry of a node. *)
Definition entry_of (modes : Modes) (d : Path) (rn : Path * Node) : Entry :=
  let relPath := Join rn.1 "/" in
  let mode := mode_of modes (d ++ rn.1) in
  match rn.2 with
  | NDir => mkEntry relPath TypeDir "" mode "" false
  | NFile content => mkEntry relPath TypeReg "" mode content false
  | NLink link => mkEntry relPath TypeSymlink link mode "" false
  end.

Lemma pack_nodes_entries modes dir l es : pack_nodes modes dir l = Ok es -> es = entry_of modes (clean_segs dir) <$> l.
Proof.
  revert es. induction l as [|[r n] l IH]; intros es; cbn [pack_nodes]; [by intros [= <-]|].
  destruct (pack_node modes dir (r, n)) as [e|] eqn:He; [|done]. destruct (pack_nodes modes dir l) as [es'|]; [|done].
  intros [= <-]. rewrite fmap_cons. f_equal; [|by apply IH]. unfold pack_node in He. unfold entry_of. cbn [fst snd].
  destruct n as [| |link]; [by injection He as <-..|]. destruct (negb _); [done|]. by injection He as <-.
Qed.

Lemma HasPrefix_dots x r :
  plain_seg x -> slash_free x -> HasPrefix (Join (x :: r) "/") ".." = HasPrefix x "..".
Proof.
  intros (Hx & Hd & _) Hf. destruct x as [|c1 [|c2 x]]; [done| |].
  - destruct r as [|y r]; [done|]. change (Join (String c1 "" :: y :: r) "/") with (String c1 (String slash (Join (y :: r) "/"))).
    rewrite !HasPrefix_cons. change (HasPrefix "" ".") with false.
    replace (bool_decide ("."%char = slash)) with false by done. by destruct (bool_decide _).
  - destruct r as [|y r]; [done|]. change (Join (String c1 (String c2 x) :: y :: r) "/") with (String c1 (String c2 (x +:+ "/" +:+ Join (y :: r) "/"))).
    by rewrite !HasPrefix_cons, !HasPrefix_empty.
Qed.

Lemma strip_common_app d r : strip_common d (d ++ r) = ([], r).
Proof. induction d as [|x d IH]; cbn; [by destruct r|]. by rewrite decide_True. Qed.

(** The target of an entry with plain names. *)
Lemma target_inside dest r (target := Join2 dest (Join r "/")) :
  is_rooted dest = true -> r <> [] -> Forall plain_seg r -> Forall slash_free r ->
  (forall x, head r = Some x -> HasPrefix x ".." = false) ->
  is_rooted target = true /\ target = Clean target /\ clean_segs target = clean_segs dest ++ r /\ isInsideDir target dest = true.
Proof.
  intros Hr Hne Hp Hf Hh. assert (Hd : dest <> "") by (by intros ->). destruct (Join2_clean dest (Join r "/") Hd Hr) as [Htr Htc].
  fold target in Htr, Htc. split; [done|]. split; [done|]. assert (Hsegs : clean_segs target = clean_segs dest ++ r).
  { subst target. rewrite Join2_below; rewrite ?Split_Join by done; try done. by apply render_path_segs. }
  split; [done|]. unfold isInsideDir, Rel. rewrite decide_False; cycle 1.
  { intros He. apply (f_equal clean_segs) in He. rewrite <- Htc in He. rewrite (proj1 (clean_segs_Clean dest Hd)) in He.
    rewrite Hsegs in He. rewrite <- (app_nil_r (clean_segs dest)) in He at 2. by apply app_inv_head in He. }
  rewrite Hr, Htr, bool_decide_eq_true_2 by done. cbn [negb]. rewrite Hsegs, strip_common_app. cbn [fmap list_fmap app].
  rewrite Join_not_rooted; [|done|eapply Forall_impl; [exact Hp|]; by intros ? []]. cbn [negb andb].
  destruct r as [|x r]; [done|]. apply Forall_cons in Hp as [Hx _], Hf as [Hfx _]. by rewrite HasPrefix_dots, (Hh x) by done.
Qed.

(** The mode of a path after a creation. *)
Lemma created_lookup umask mode st fs' q :
  (created umask mode st fs').2 !! q =
    match fs' !! q, st.1 !! q with
    | Some (NDir | NFile _), None => Some (new_mode umask mode)
    | _, _ => st.2 !! q
    end.
Proof.
  unfold created. cbn [snd]. rewrite lookup_union, map_lookup_imap. destruct (fs' !! q) as [[]|], (st.1 !! q), (st.2 !! q); done.
Qed.

Lemma created_insert umask mode st p n q :
  st.1 !! p = None -> (created umask mode st (<[p := n]> st.1)).2 !! q =
    if decide (q = p) then match n with NLink _ => st.2 !! q | _ => Some (new_mode umask mode) end else st.2 !! q.
Proof.
  intros Hp. rewrite created_lookup. case_decide as Hq; [subst; rewrite lookup_insert_eq, Hp; by destruct n|].
  rewrite lookup_insert_ne by done. by destruct (st.1 !! q) as [[]|].
Qed.

Lemma created_same umask mode st q : (created umask mode st st.1).2 !! q = st.2 !! q.
Proof. rewrite created_lookup. by destruct (st.1 !! q) as [[]|]. Qed.

(** One more node below the directory, with its mode. *)
Definition extends_by (umask mode : Z) (p : Path) (n : Node) (st st' : FileSystem * Modes) : Prop :=
  st'.1 = <[p := n]> st.1 /\
  forall q, st'.2 !! q = if decide (q = p) then match n with NLink _ => st.2 !! q | _ => Some (new_mode umask mode) end else st.2 !! q.

Lemma extract_entry_new umask modes sd dest st r x n (d := clean_segs dest) :
  is_rooted dest = true -> Forall plain_seg (r ++ [x]) -> Forall slash_free (r ++ [x]) ->
  (forall y, head (r ++ [x]) = Some y -> HasPrefix y ".." = false) ->
  (forall pre, pre <> [] -> pre `prefix_of` d ++ r -> st.1 !! pre = Some NDir) ->
  st.1 !! (d ++ r ++ [x]) = None ->
  exists st', extract_entry umask dest st (entry_of modes sd (r ++ [x], n)) = (st', None) /\
    extends_by umask (mode_of modes (sd ++ r ++ [x])) (d ++ r ++ [x]) n st st'.
Proof.
  intros Hr Hp Hf Hh Hdirs Hnone. destruct (target_inside dest (r ++ [x])) as (Htr & Htc & Hsegs & Hin); try done; [by destruct r|].
  unfold extract_entry. replace (h_Name (entry_of modes sd (r ++ [x], n))) with (Join (r ++ [x]) "/") by (by destruct n). rewrite Hin. cbn [negb].
  fold d in Hsegs. rewrite (app_assoc d) in Hsegs, Hnone |- *.
  assert (HDir : clean_segs (Dir (Join2 dest (Join (r ++ [x]) "/"))) = d ++ r) by (by eapply clean_segs_Dir).
  assert (Hplain : Forall plain_seg ((d ++ r) ++ [x])) by (rewrite <- Hsegs; by apply clean_segs_plain).
  assert (Hplain' : Forall plain_seg (d ++ r)) by (by apply Forall_app in Hplain as [? _]).
  rewrite Hsegs, HDir. destruct n as [|content|link]; cbn [entry_of fst snd h_Typeflag h_Linkname h_Mode e_content e_truncated].
  - rewrite MkdirAll_new by done. eexists. split; [done|]. split; [done|]. intros q. by rewrite created_insert.
  - rewrite MkdirAll_existing by done. cbn [negb]. rewrite WriteFile_new by done. eexists. split; [done|]. split; [done|].
    intros q. rewrite (created_insert umask _ (created umask 488 st st.1)) by done. case_decide; [done|]. by rewrite created_same.
  - rewrite MkdirAll_existing by done. cbn [negb]. unfold Symlink. rewrite create_at_new by done. eexists. split; [done|]. split; [done|].
    intros q. cbn [snd]. rewrite created_same. by case_decide.
Qed.

Lemma NoDup_omap {A B} (f : A -> option B) (l : list A) :
  (forall x y z, f x = Some z -> f y = Some z -> x = y) -> NoDup l -> NoDup (omap f l).
Proof.
  intros Hf. induction 1 as [|x l Hx _ IH]; cbn; [constructor|]. destruct (f x) as [z|] eqn:Hz; [|done].
  constructor; [|done]. intros (y & Hy & Hyz)%list_elem_of_omap. by rewrite (Hf x y z) in Hx.
Qed.

Lemma NoDup_walk fs d : NoDup (walk fs d).
Proof.
  unfold walk. rewrite merge_sort_Permutation. apply NoDup_omap; [|apply NoDup_map_to_list].
  intros [p1 n1] [p2 n2] [r n]. unfold relative_to. cbn [fst snd].
  destruct (strip_prefix d p1) as [[|x1 r1]|] eqn:H1; [done| |done]. intros [= <- <-].
  destruct (strip_prefix d p2) as [[|x2 r2]|] eqn:H2; [done| |done]. intros [= -> -> ->].
  apply strip_prefix_Some in H1 as ->, H2 as ->. done.
Qed.

(** What has been extracted so far: the nodes of [l] below the directory, with the modes of the
    source that the umask leaves. *)
Definition extracted (umask : Z) (mode : Path -> Z) (dd : Path) (st2 : FileSystem * Modes) (l : list (Path * Node)) (stk : FileSystem * Modes) : Prop :=
  (forall r n, r <> [] -> stk.1 !! (dd ++ r) = Some n <-> (r, n) ∈ l) /\
  (forall q, (forall r, r <> [] -> q <> dd ++ r) -> stk.1 !! q = st2.1 !! q /\ stk.2 !! q = st2.2 !! q) /\
  (forall r n, r <> [] -> (r, n) ∈ l -> match n with NLink _ => True | _ => stk.2 !! (dd ++ r) = Some (new_mode umask (mode r)) end).

Lemma extracted_insert umask mode dd st2 l stk stk' r n :
  r <> [] -> extracted umask mode dd st2 l stk -> stk.1 !! (dd ++ r) = None -> extends_by umask (mode r) (dd ++ r) n stk stk' ->
  extracted umask mode dd st2 (l ++ [(r, n)]) stk'.
Proof.
  intros Hr (H1 & H2 & H3) Hn [Hf Hm]. assert (Hnew : forall n', (r, n') ∉ l) by (intros n' Hin%H1; [congruence|done]).
  split_and!; [intros r' n' Hr'|intros q Hq|intros r' n' Hr' Hin]; rewrite ?Hf, ?Hm.
  - rewrite elem_of_app, list_elem_of_singleton. destruct (decide (r' = r)) as [->|Hne].
    + rewrite lookup_insert_eq. split; [intros [= <-]; by right|]. intros [Hin|[= ->]]; [|done]. by destruct (Hnew n').
    + rewrite lookup_insert_ne by (intros ?%app_inv_head; congruence). rewrite H1 by done. naive_solver.
  - rewrite lookup_insert_ne, decide_False; [by apply H2|by apply Hq|]. intros He. by destruct (Hq r Hr).
  - apply elem_of_app in Hin as [Hin|[= -> ->]%list_elem_of_singleton].
    + specialize (H3 r' n' Hr' Hin). destruct n'; [..|done]; rewrite decide_False; try done;
        intros ->%app_inv_head; by eapply Hnew.
    + destruct n; [..|done]; by rewrite decide_True.
Qed.

(** The directory an archive is extracted into: it exists, without links on the way. *)
Definition dir_exists (fs : FileSystem) (dd : Path) : Prop :=
  forall pre, pre <> [] -> pre `prefix_of` dd -> fs !! pre = Some NDir.

Lemma extracted_dirs umask mode fs d dd st2 l1 r x n l2 stk :
  tree_at fs d -> walk fs d = l1 ++ (r ++ [x], n) :: l2 -> dir_exists st2.1 dd -> extracted umask mode dd st2 l1 stk ->
  forall pre, pre <> [] -> pre `prefix_of` dd ++ r -> stk.1 !! pre = Some NDir.
Proof.
  intros Ht Hw Hd (H1 & H2 & _) pre Hne Hp.
  destruct (prefix_weak_total pre dd (dd ++ r)) as [Hpd|[s ->]]; [done|by eexists| |].
  - destruct (H2 pre) as [-> _]; [|by apply Hd]. intros r' Hr' ->. apply prefix_length in Hpd. rewrite length_app in Hpd.
    destruct r'; [done|]. cbn in Hpd. lia.
  - destruct (decide (s = [])) as [->|Hs].
    + rewrite app_nil_r in *. destruct (H2 dd) as [-> _]; [|by apply Hd]. intros r' Hr' He. apply (f_equal length) in He. rewrite length_app in He.
      destruct r'; [done|]. cbn in He. lia.
    + apply H1; [done|]. apply prefix_app_inv in Hp. eapply (walk_parents fs d l1 (r ++ [x])); try done.
      * by apply prefix_app_r.
      * intros He. apply prefix_length in Hp. rewrite He, length_app in Hp. cbn in Hp. lia.
Qed.

Lemma extract_walk umask modes dest fs d st2 l1 l2 stk (dd := clean_segs dest) (mode := fun r => mode_of modes (d ++ r)) :
  is_rooted dest = true -> tree_at fs d -> walk fs d = l1 ++ l2 -> dir_exists st2.1 dd ->
  (forall r n x, (r, n) ∈ walk fs d -> head r = Some x -> HasPrefix x ".." = false) ->
  extracted umask mode dd st2 l1 stk ->
  exists st3, extract_entries umask dest stk (entry_of modes d <$> l2) true = (st3, None) /\ extracted umask mode dd st2 (l1 ++ l2) st3.
Proof.
  intros Hr Ht Hw Hd Hh. revert l1 stk Hw. induction l2 as [|[r n] l2 IH]; intros l1 stk Hw He.
  { exists stk. rewrite app_nil_r. done. }
  assert (Hin : (r, n) ∈ walk fs d) by (rewrite Hw; set_solver). pose proof Hin as [Hr0 Hl]%elem_of_walk.
  destruct (Ht r n Hr0 Hl) as (Hp & Hf & _). destruct r as [|x r _] using rev_ind; [done|].
  assert (Hnone : stk.1 !! (dd ++ r ++ [x]) = None).
  { destruct (stk.1 !! (dd ++ r ++ [x])) as [n'|] eqn:Hn; [|done]. apply He in Hn; [|done].
    assert (Hin' : (r ++ [x], n') ∈ walk fs d) by (rewrite Hw; set_solver). apply elem_of_walk in Hin' as [_ Hl']. rewrite Hl in Hl'.
    injection Hl' as <-. pose proof (NoDup_walk fs d) as Hnd. rewrite Hw in Hnd. apply NoDup_app in Hnd as (_ & Hnd & _).
    destruct (Hnd _ Hn). set_solver. }
  rewrite fmap_cons. cbn [extract_entries].
  destruct (extract_entry_new umask modes d dest stk r x n) as (st' & -> & Hx); try done.
  - intros y. by apply (Hh (r ++ [x]) n).
  - by eapply extracted_dirs.
  - assert (Hm : l1 ++ (r ++ [x], n) :: l2 = (l1 ++ [(r ++ [x], n)]) ++ l2) by (by rewrite <- app_assoc).
    rewrite Hm. apply IH; [by rewrite <- Hm|]. by eapply extracted_insert.
Qed.

(** C26: A directory that is a tree, none of whose entries has a name that starts with two dots,
    packed into an archive of at most 200 MB that expands to at most 500 MB and extracted into
    an empty directory, by a user whom the modes do not keep from writing: the extraction
    succeeds, everything below the one directory is again below the other, directories and files
    with their permissions less those of the umask, and nothing else has changed. *)
Theorem package_roundtrip umask fs modes dir st2 dest data p :
  is_rooted dest = true -> tree_at fs (clean_segs dir) ->
  (forall x r n, fs !! (clean_segs dir ++ x :: r) = Some n -> HasPrefix x ".." = false) ->
  dir_exists st2.1 (clean_segs dest) -> (forall r, r <> [] -> st2.1 !! (clean_segs dest ++ r) = None) ->
  PackageDirectory fs modes dir = Ok data ->
  p_archive p = data -> (p_compressed p <= 200 * 2 ^ 20)%Z -> (p_expanded p <= 500 * 2 ^ 20)%Z ->
  exists st3, ExtractPackage umask p dest st2 = (st3, None) /\
    (forall r, r <> [] -> st3.1 !! (clean_segs dest ++ r) = fs !! (clean_segs dir ++ r)) /\
    (forall r n, r <> [] -> fs !! (clean_segs dir ++ r) = Some n -> (forall target, n <> NLink target) ->
       st3.2 !! (clean_segs dest ++ r) = Some (new_mode umask (mode_of modes (clean_segs dir ++ r)))) /\
    (forall q, (forall r, r <> [] -> q <> clean_segs dest ++ r) -> st3.1 !! q = st2.1 !! q /\ st3.2 !! q = st2.2 !! q).
Proof.
  intros Hr Ht Hh Hd Hempty. unfold PackageDirectory. destruct (node_at fs (clean_segs dir)) as [[]|]; try done.
  destruct (pack_nodes modes dir (walk fs (clean_segs dir))) as [es|] eqn:Hp; [|done]. intros [= <-] Ha Hc Hx. apply pack_nodes_entries in Hp as ->.
  unfold ExtractPackage. replace (readable p) with (p_archive p); [rewrite Ha; cbn [a_entries a_clean]|].
  2: { unfold readable. change maxCompressed with (200 * 2 ^ 20)%Z. change maxUncompressed with (500 * 2 ^ 20)%Z.
       rewrite (proj2 (Z.leb_le _ _) Hc), (proj2 (Z.leb_le _ _) Hx). done. }
  destruct (extract_walk umask modes dest fs (clean_segs dir) st2 [] (walk fs (clean_segs dir)) st2) as (st3 & Hs & H1 & H2 & H3); try done.
  - intros [|y r] n x Hin [= ->]. apply elem_of_walk in Hin as [_ Hl]. by eapply Hh.
  - split_and!; [|done|by intros r n _ ?%not_elem_of_nil]. intros r n Hr0. rewrite Hempty by done. split; [done|by intros ?%not_elem_of_nil].
  - exists st3. split; [done|]. split; [|split; [|done]].
    + intros r Hr0. apply option_eq. intros n. rewrite H1 by done. cbn [app]. rewrite elem_of_walk. naive_solver.
    + intros r n Hr0 Hn Hnl. specialize (H3 r n Hr0 ltac:(by apply elem_of_walk)). destruct n; [done..|]. by destruct (Hnl target).
Qed.

(** A name that starts with two dots is packed but not extracted. *)
Theorem package_dots_refused :
  exists fs data, PackageDirectory fs ∅ "/p" = Ok data /\ fs !! ["p"; "..data"] = Some (NFile "x") /\
    (extract_files (small data) "/home/x" home_fs).2 = Some (PathTraversalError "..data").
Proof.
  exists (list_to_map [(["p"], NDir); (["p"; "..data"], NFile "x")]).
  exists (mkArchive [mkEntry "..data" TypeReg "" 0 "x" false] true). vm_compute. repeat split.
Qed.

(** ** Witnesses *)






Definition package_fs : FileSystem :=
  list_to_map [(["p"], NDir); (["p"; "a"], NDir); (["p"; "a"; "f"], NFile "x"); (["p"; "l"], NLink "a/f")].

Lemma package_fs_cases r n :
  package_fs !! ("p" :: r) = Some n ->
  (r = [] /\ n = NDir) \/ (r = ["a"] /\ n = NDir) \/ (r = ["a"; "f"] /\ n = NFile "x") \/ (r = ["l"] /\ n = NLink "a/f").
Proof. intros Hr. apply elem_of_list_to_map_2 in Hr. set_solver. Qed.

Lemma package_fs_tree : tree_at package_fs ["p"].
Proof.
  intros r n Hr [[-> _]|[[-> _]|[[-> _]|[-> _]]]]%package_fs_cases; [done|..];
    (split; [by repeat constructor|]); (split; [by repeat constructor|]); intros pre Hne Hp Hneq;
    destruct pre as [|a [|b pre]]; try done; apply prefix_cons_inv_1 in Hp as Ha; subst a; try done;
    apply prefix_cons_inv_2 in Hp; try (by apply prefix_nil_inv in Hp).
  apply prefix_cons_inv_1 in Hp as Hb. subst b. apply prefix_cons_inv_2, prefix_nil_inv in Hp. by subst pre.
Qed.

Lemma home_fs_dir : dir_exists home_fs ["home"; "x"].
Proof.
  intros pre Hne Hp. destruct pre as [|a [|b pre]]; [done|..]; apply prefix_cons_inv_1 in Hp as Ha; subst a; [done|].
  apply prefix_cons_inv_2 in Hp. apply prefix_cons_inv_1 in Hp as Hb. subst b.
  apply prefix_cons_inv_2, prefix_nil_inv in Hp. by subst pre.
Qed.

Lemma home_fs_empty r : r <> [] -> home_fs !! ("home" :: "x" :: r) = None.
Proof.
  intros Hr. destruct (home_fs !! ("home" :: "x" :: r)) eqn:Hn; [|done]. apply elem_of_list_to_map_2 in Hn. set_solver.
Qed.

Definition package_modes : Modes := list_to_map [(["p"; "a"], 509%Z); (["p"; "a"; "f"], 436%Z)].

(** The permissions 0o775 and 0o664 become 0o755 and 0o644. *)
Lemma package_roundtrip_witness :
  exists data st3, PackageDirectory package_fs package_modes "/p" = Ok data /\
    ExtractPackage 18 (small data) "/home/x" (home_fs, ∅) = (st3, None) /\
    st3.1 !! ["home"; "x"; "a"; "f"] = Some (NFile "x") /\ st3.2 !! ["home"; "x"; "a"; "f"] = Some 420%Z.
Proof.
  destruct (PackageDirectory package_fs package_modes "/p") as [data|] eqn:Hd; [|vm_compute in Hd; discriminate Hd].
  destruct (package_roundtrip 18 package_fs package_modes "/p" (home_fs, ∅) "/home/x" data (small data)) as (st3 & Hx & Hsame & Hmode & _).
  - reflexivity.
  - apply package_fs_tree.
  - intros x r n Hn. change (clean_segs "/p" ++ x :: r) with ("p" :: x :: r) in Hn.
    apply package_fs_cases in Hn as [[He _]|[[He _]|[[He _]|[He _]]]]; inversion He; reflexivity.
  - change (clean_segs "/home/x") with ["home"; "x"]. apply home_fs_dir.
  - intros r Hr. change (clean_segs "/home/x" ++ r) with ("home" :: "x" :: r). by apply home_fs_empty.
  - exact Hd.
  - reflexivity.
  - cbn. lia.
  - cbn. lia.
  - exists data, st3. split; [reflexivity|]. split; [exact Hx|].
    change ["home"; "x"; "a"; "f"] with (clean_segs "/home/x" ++ ["a"; "f"]). split.
    + rewrite (Hsame ["a"; "f"]) by discriminate. reflexivity.
    + rewrite (Hmode ["a"; "f"] (NFile "x")); [reflexivity|discriminate|reflexivity|discriminate].
Defined.
