(* ===== verification/CliManifest.v ===== *)
(** * cli: extension manifests

    cli/internal/extensions/manifest.go: loading manifests, inheriting versions from a parent,
    compatibility with Envoy versions, and the checks on native filters.  YAML and the JSON
    schema are parameters; semantic versions are the class [SemVer], whose law is that
    [Compare] is a total preorder, as its documentation says (invalid versions are equal to each
    other and less than valid ones). *)

From S2P Require Import Prelude GoStr GoNum GoPath GoFS.
From Stdlib Require Import Lia Ascii.

Local Open Scope Z_scope.
Local Open Scope go_scope.

(** ** Data *)

Definition TypeLua : string := "lua".
Definition TypeWasm : string := "wasm".
Definition TypeRust : string := "rust".
Definition TypeExtProc : string := "ext_proc".
Definition TypeGo : string := "go".
Definition TypeComposer : string := "composer".
Definition ComposerBundle : string := "composer".
Definition ComposerLiteBundle : string := "composer-lite".
Definition GoPluginLoaderName : string := "goplugin-loader".
Definition FilterTypeHTTP : string := "http".
Definition FilterTypeNetwork : string := "network".
Definition FilterTypeListener : string := "listener".
Definition FilterTypeUDPListener : string := "udp_listener".

(** The name of a native filter as it is declared: absent, of another type, or a string. *)
Inductive FilterName : Type := NoName | NotAString (type : string) | AName (name : string).

(** An entry is its name and its JSON form, if it has one. *)
Record NativeFilter : Type := mkNativeFilter { nf_name : FilterName; nf_json : option string }.
Record NativeHTTPFilters : Type := mkNative { Before : list NativeFilter; After : list NativeFilter }.

Record Lua : Type := mkLua { lua_Inline : string; lua_Path : string }.

Record ExtProcProcessingMode : Type := mkProcessingMode {
  RequestHeaderMode : string;
  ResponseHeaderMode : string;
  RequestBodyMode : string;
  ResponseBodyMode : string;
}.

Record ExtProc : Type := mkExtProc {
  GRPCPort : Z;
  FailureModeAllow : bool;
  MessageTimeout : string;
  ProcessingMode : option ExtProcProcessingMode;
}.

(** The fields that only describe an extension are kept together. *)
Record ManifestInfo : Type := mkInfo {
  Categories : list string;
  Featured : bool;
  LongDescription : string;
  Tags : list string;
  Examples : list (string * string * string);
}.

(** Where a remote extension was fetched from. *)
Record Origin : Type := mkOrigin { RemoteRef : string; SourceRegistry : string; SourceTag : string }.

Record Manifest : Type := mkManifest {
  Name : string;
  Version : string;
  Parent : string;
  ExtensionSet : bool;
  Author : string;
  Description : string;
  m_Type : string;
  FilterTypes : list string;
  License : string;
  MinEnvoyVersion : string;
  MaxEnvoyVersion : string;
  ComposerVersion : string;
  m_Lua : option Lua;
  m_ExtProc : option ExtProc;
  m_Native : option NativeHTTPFilters;
  m_Path : string;
  Remote : bool;
  m_origin : Origin;
  CShared : bool;
  m_Debug : bool;
  m_info : ManifestInfo;
}.

Definition zero_info : ManifestInfo := mkInfo [] false "" [] [].
Definition zero_manifest : Manifest :=
  mkManifest "" "" "" false "" "" "" [] "" "" "" "" None None None "" false (mkOrigin "" "" "") false false zero_info.

Definition set_versions (version composer min max : string) (m : Manifest) : Manifest :=
  mkManifest (Name m) version (Parent m) (ExtensionSet m) (Author m) (Description m) (m_Type m) (FilterTypes m) (License m)
    min max composer (m_Lua m) (m_ExtProc m) (m_Native m) (m_Path m) (Remote m) (m_origin m) (CShared m) (m_Debug m) (m_info m).
Definition set_filter_types (fts : list string) (m : Manifest) : Manifest :=
  mkManifest (Name m) (Version m) (Parent m) (ExtensionSet m) (Author m) (Description m) (m_Type m) fts (License m)
    (MinEnvoyVersion m) (MaxEnvoyVersion m) (ComposerVersion m) (m_Lua m) (m_ExtProc m) (m_Native m) (m_Path m) (Remote m)
    (m_origin m) (CShared m) (m_Debug m) (m_info m).
Definition set_path (path : string) (m : Manifest) : Manifest :=
  mkManifest (Name m) (Version m) (Parent m) (ExtensionSet m) (Author m) (Description m) (m_Type m) (FilterTypes m) (License m)
    (MinEnvoyVersion m) (MaxEnvoyVersion m) (ComposerVersion m) (m_Lua m) (m_ExtProc m) (m_Native m) path (Remote m)
    (m_origin m) (CShared m) (m_Debug m) (m_info m).
Definition set_build (remote cshared debug : bool) (m : Manifest) : Manifest :=
  mkManifest (Name m) (Version m) (Parent m) (ExtensionSet m) (Author m) (Description m) (m_Type m) (FilterTypes m) (License m)
    (MinEnvoyVersion m) (MaxEnvoyVersion m) (ComposerVersion m) (m_Lua m) (m_ExtProc m) (m_Native m) (m_Path m) remote
    (m_origin m) cshared debug (m_info m).
Definition set_origin (origin : Origin) (m : Manifest) : Manifest :=
  mkManifest (Name m) (Version m) (Parent m) (ExtensionSet m) (Author m) (Description m) (m_Type m) (FilterTypes m) (License m)
    (MinEnvoyVersion m) (MaxEnvoyVersion m) (ComposerVersion m) (m_Lua m) (m_ExtProc m) (m_Native m) (m_Path m) (Remote m)
    origin (CShared m) (m_Debug m) (m_info m).

Inductive ManifestError : Type :=
| ErrOpenManifestFile (path : string)
| ErrReadManifestFile (path : string)
| ErrParseManifestFile (path : string)
| ErrValidation (path : string) (reason : string)
| ErrDuplicateManifestName (name : string)
| ErrParentManifestNotFound (parent : string).

(** ** Versions *)

Class SemVer : Type := Compare : string -> string -> Z.

Class SemVerLaws `{SemVer} : Prop := {
  Compare_refl v : Compare v v = 0;
  Compare_sym v w : Compare v w < 0 <-> 0 < Compare w v;
  Compare_trans u v w : Compare u v <= 0 -> Compare v w <= 0 -> Compare u w <= 0;
}.

(** [ImplicitMaxEnvoyVersion]: the next minor version. *)
Definition ImplicitMaxEnvoyVersion (minVersion : string) : string :=
  match Split minVersion "."%char with
  | major :: minor :: _ =>
      match Atoi minor with
      | Some n => major +:+ "." +:+ FormatInt (wrap64 (n + 1)) +:+ ".0"
      | None => ""
      end
  | _ => ""
  end.

Example ImplicitMaxEnvoyVersion_ex :
  ImplicitMaxEnvoyVersion "1.33.0" = "1.34.0" /\ ImplicitMaxEnvoyVersion "1" = "" /\ ImplicitMaxEnvoyVersion "1.x.0" = "".
Proof. vm_compute. repeat split. Qed.

(** The maximum a manifest has once its minimum is known. *)
Definition default_max (min max : string) : string :=
  if negb (bool_decide (min = "")) && bool_decide (max = "") then ImplicitMaxEnvoyVersion min else max.

Definition ApplyDefaults (m : Manifest) : Manifest :=
  let m := if bool_decide (FilterTypes m = []) then set_filter_types [FilterTypeHTTP] m else m in
  set_versions (Version m) (ComposerVersion m) (MinEnvoyVersion m) (default_max (MinEnvoyVersion m) (MaxEnvoyVersion m)) m.

Definition or_else (a b : string) : string := if bool_decide (a = "") then b else a.

Definition ResolveVersionsWithParent (m parent : Manifest) : Manifest :=
  let min := or_else (MinEnvoyVersion m) (MinEnvoyVersion parent) in
  let max := or_else (MaxEnvoyVersion m) (MaxEnvoyVersion parent) in
  set_versions (or_else (Version m) (Version parent)) (or_else (ComposerVersion m) (Version parent)) min (default_max min max) m.

(** [mergeManifestFromRoot]. *)
Definition mergeManifestFromRoot (embedded fromOCI : Manifest) : Manifest :=
  set_versions (or_else (Version embedded) (Version fromOCI)) (or_else (ComposerVersion embedded) (ComposerVersion fromOCI))
    (or_else (MinEnvoyVersion embedded) (MinEnvoyVersion fromOCI)) (or_else (MaxEnvoyVersion embedded) (MaxEnvoyVersion fromOCI)) embedded.

Section Versions.
Context `{SemVer}.

Definition SupportsEnvoyVersion (m : Manifest) (version : string) : bool :=
  if bool_decide (version = "dev") || bool_decide (version = "dev-latest") then true
  else
    let envoySemver := "v" +:+ version in
    if negb (bool_decide (MinEnvoyVersion m = "")) && (Compare envoySemver ("v" +:+ MinEnvoyVersion m) <? 0) then false
    else if negb (bool_decide (MaxEnvoyVersion m = "")) && (0 <? Compare envoySemver ("v" +:+ MaxEnvoyVersion m)) then false
    else true.

Definition EnvoyConstraints (m : Manifest) : string :=
  let constraints := if bool_decide (MinEnvoyVersion m = "") then "" else ">= " +:+ MinEnvoyVersion m in
  if bool_decide (MaxEnvoyVersion m = "") then constraints
  else (if bool_decide (constraints = "") then "" else constraints +:+ " && ") +:+ "<= " +:+ MaxEnvoyVersion m.

Definition lowest_version : string := "0.0.0".
Definition highest_version : string := "9999.9999.9999".

Definition highest_step (highest : string) (m : Manifest) : string :=
  if negb (bool_decide (MinEnvoyVersion m = "")) && (0 <? Compare ("v" +:+ MinEnvoyVersion m) ("v" +:+ highest))
  then MinEnvoyVersion m else highest.
Definition lowest_step (lowest : string) (m : Manifest) : string :=
  if negb (bool_decide (MaxEnvoyVersion m = "")) && (Compare ("v" +:+ MaxEnvoyVersion m) ("v" +:+ lowest) <? 0)
  then MaxEnvoyVersion m else lowest.

Definition HighestMinEnvoyVersion (manifests : list Manifest) : string :=
  let highest := foldl highest_step lowest_version manifests in
  if bool_decide (highest = lowest_version) then "" else highest.
Definition LowestMaxEnvoyVersion (manifests : list Manifest) : string :=
  let lowest := foldl lowest_step highest_version manifests in
  if bool_decide (lowest = highest_version) then "" else lowest.

Definition ResolveMinimumCompatibleEnvoyVersion (manifests : list Manifest) : result string string :=
  let highestMin := HighestMinEnvoyVersion manifests in
  let lowestMax := LowestMaxEnvoyVersion manifests in
  if negb (bool_decide (highestMin = "")) && negb (bool_decide (lowestMax = "")) &&
     (0 <? Compare ("v" +:+ highestMin) ("v" +:+ lowestMax))
  then Err ("no compatible Envoy version found: highest minimum " +:+ highestMin +:+ ", lowest maximum " +:+ lowestMax)
  else if negb (bool_decide (highestMin = "")) then Ok highestMin
  else if negb (bool_decide (lowestMax = "")) then Ok lowestMax
  else Ok "".
End Versions.

(** ** Compatible versions *)

Section Compatible.
Context `{SemVerLaws}.

(** The order on versions. *)
Definition vle (a b : string) : Prop := Compare ("v" +:+ a) ("v" +:+ b) <= 0.

Lemma vle_refl a : vle a a.
Proof. unfold vle. by rewrite Compare_refl. Qed.
Lemma vle_trans a b c : vle a b -> vle b c -> vle a c.
Proof. apply Compare_trans. Qed.
Lemma not_vle a b : Compare ("v" +:+ a) ("v" +:+ b) > 0 -> vle b a.
Proof. unfold vle. intros Hc. assert (Compare ("v" +:+ b) ("v" +:+ a) < 0); [|lia]. apply Compare_sym. lia. Qed.
Lemma vle_sign a b : vle a b <-> ~ Compare ("v" +:+ b) ("v" +:+ a) < 0.
Proof. unfold vle. rewrite Compare_sym. lia. Qed.

(** What it means for a version to be supported. *)
Definition is_dev (w : string) : bool := bool_decide (w = "dev") || bool_decide (w = "dev-latest").
Definition supports (m : Manifest) (w : string) : Prop :=
  (MinEnvoyVersion m = "" \/ vle (MinEnvoyVersion m) w) /\ (MaxEnvoyVersion m = "" \/ vle w (MaxEnvoyVersion m)).

Lemma SupportsEnvoyVersion_spec m w :
  SupportsEnvoyVersion m w = true <-> is_dev w = true \/ supports m w.
Proof.
  unfold SupportsEnvoyVersion, supports. fold (is_dev w). destruct (is_dev w); [naive_solver|]. rewrite vle_sign. unfold vle.
  destruct (decide (MinEnvoyVersion m = "")) as [E1|E1], (decide (MaxEnvoyVersion m = "")) as [E2|E2];
    rewrite ?(bool_decide_eq_true_2 _ E1), ?(bool_decide_eq_false_2 _ E1), ?(bool_decide_eq_true_2 _ E2), ?(bool_decide_eq_false_2 _ E2);
    cbn [negb andb]; repeat (match goal with |- context [?a <? ?b] => destruct (Z.ltb_spec a b) end); naive_solver lia.
Qed.

Lemma highest_fold ms a (h := foldl highest_step a ms) :
  vle a h /\ (forall m, m ∈ ms -> MinEnvoyVersion m = "" \/ vle (MinEnvoyVersion m) h) /\
  (h = a \/ exists m, m ∈ ms /\ MinEnvoyVersion m = h /\ h <> "").
Proof.
  subst h. revert a. induction ms as [|m ms IH]; intros a; cbn.
  { split; [apply vle_refl|]. split; [by intros m ?%not_elem_of_nil|by left]. }
  destruct (IH (highest_step a m)) as (H1 & H2 & H3).
  assert (Hs : vle a (highest_step a m) /\ (MinEnvoyVersion m = "" \/ vle (MinEnvoyVersion m) (highest_step a m)) /\
    (highest_step a m = a \/ highest_step a m = MinEnvoyVersion m /\ MinEnvoyVersion m <> "")).
  { unfold highest_step. destruct (decide (MinEnvoyVersion m = "")) as [E|E];
      rewrite ?(bool_decide_eq_true_2 _ E), ?(bool_decide_eq_false_2 _ E); cbn [negb andb];
      [split; [apply vle_refl|auto]|]. destruct (Z.ltb_spec 0 (Compare ("v" +:+ MinEnvoyVersion m) ("v" +:+ a))).
    - split; [apply not_vle; lia|]. split; [right; apply vle_refl|auto].
    - split; [apply vle_refl|]. split; [right; unfold vle; lia|auto]. }
  destruct Hs as (S1 & S2 & S3). split; [by eapply vle_trans|]. split.
  - intros m' [->|Hm]%elem_of_cons; [|auto]. destruct S2; [by left|right; by eapply vle_trans].
  - destruct H3 as [->|(m' & Hm & He)]; [|right; exists m'; set_solver].
    destruct S3 as [?|[-> Hne]]; [by left|right; exists m; set_solver].
Qed.

Lemma lowest_fold ms a (l := foldl lowest_step a ms) :
  vle l a /\ (forall m, m ∈ ms -> MaxEnvoyVersion m = "" \/ vle l (MaxEnvoyVersion m)) /\
  (l = a \/ exists m, m ∈ ms /\ MaxEnvoyVersion m = l /\ l <> "").
Proof.
  subst l. revert a. induction ms as [|m ms IH]; intros a; cbn.
  { split; [apply vle_refl|]. split; [by intros m ?%not_elem_of_nil|by left]. }
  destruct (IH (lowest_step a m)) as (H1 & H2 & H3).
  assert (Hs : vle (lowest_step a m) a /\ (MaxEnvoyVersion m = "" \/ vle (lowest_step a m) (MaxEnvoyVersion m)) /\
    (lowest_step a m = a \/ lowest_step a m = MaxEnvoyVersion m /\ MaxEnvoyVersion m <> "")).
  { unfold lowest_step. destruct (decide (MaxEnvoyVersion m = "")) as [E|E];
      rewrite ?(bool_decide_eq_true_2 _ E), ?(bool_decide_eq_false_2 _ E); cbn [negb andb];
      [split; [apply vle_refl|auto]|]. destruct (Z.ltb_spec (Compare ("v" +:+ MaxEnvoyVersion m) ("v" +:+ a)) 0) as [Hlt|Hge].
    - split; [unfold vle; lia|]. split; [right; apply vle_refl|auto].
    - split; [apply vle_refl|]. split; [right; apply vle_sign; lia|auto]. }
  destruct Hs as (S1 & S2 & S3). split; [by eapply vle_trans|]. split.
  - intros m' [->|Hm]%elem_of_cons; [|auto]. destruct S2; [by left|right; by eapply vle_trans].
  - destruct H3 as [->|(m' & Hm & He)]; [|right; exists m'; set_solver].
    destruct S3 as [?|[-> Hne]]; [by left|right; exists m; set_solver].
Qed.

(** The bounds the search starts from. *)
Definition in_range (w : string) : Prop := vle lowest_version w /\ vle w highest_version.
Definition versions_in_range (m : Manifest) : Prop :=
  (MinEnvoyVersion m = "" \/ in_range (MinEnvoyVersion m)) /\ (MaxEnvoyVersion m = "" \/ in_range (MaxEnvoyVersion m)).

(** Every version between two bounds that all manifests respect is supported by all. *)
Lemma between_supported ms h l w :
  (forall m, m ∈ ms -> MinEnvoyVersion m = "" \/ vle (MinEnvoyVersion m) h) ->
  (forall m, m ∈ ms -> MaxEnvoyVersion m = "" \/ vle l (MaxEnvoyVersion m)) ->
  vle h w -> vle w l -> Forall (fun m => SupportsEnvoyVersion m w = true) ms.
Proof.
  intros Hh Hl H1 H2. apply Forall_forall. intros m Hm. apply SupportsEnvoyVersion_spec. right. split.
  - destruct (Hh m Hm); [by left|right; by eapply vle_trans].
  - destruct (Hl m Hm); [by left|right; by eapply vle_trans].
Qed.

(** C27: For manifests whose versions lie between 0.0.0 and 9999.9999.9999: the resolved version is
    supported by every manifest; if some manifest has a minimum above 0.0.0 it is the least such
    version, and an empty result means that every version in the range is supported; and the
    resolution fails only if no released version is supported by all. *)
Theorem resolve_compatible ms :
  Forall versions_in_range ms ->
  match ResolveMinimumCompatibleEnvoyVersion ms with
  | Ok v =>
      (v <> "" -> Forall (fun m => SupportsEnvoyVersion m v = true) ms) /\
      (v = "" -> forall w, in_range w -> Forall (fun m => SupportsEnvoyVersion m w = true) ms) /\
      (HighestMinEnvoyVersion ms <> "" ->
         forall w, is_dev w = false -> Forall (fun m => SupportsEnvoyVersion m w = true) ms -> vle v w)
  | Err _ => forall w, is_dev w = false -> ~ Forall (fun m => SupportsEnvoyVersion m w = true) ms
  end.
Proof.
  intros Hrange. unfold ResolveMinimumCompatibleEnvoyVersion, HighestMinEnvoyVersion, LowestMaxEnvoyVersion.
  destruct (highest_fold ms lowest_version) as (H1 & H2 & H3), (lowest_fold ms highest_version) as (L1 & L2 & L3).
  revert H1 H2 H3 L1 L2 L3. generalize (foldl highest_step lowest_version ms) as h, (foldl lowest_step highest_version ms) as l.
  intros h l H1 H2 H3 L1 L2 L3.
  assert (Hmem : forall m, m ∈ ms -> versions_in_range m) by (by apply Forall_forall).
  assert (Hsup : forall w m, is_dev w = false -> Forall (fun m => SupportsEnvoyVersion m w = true) ms -> m ∈ ms -> supports m w).
  { intros w m Hw Hf Hm. rewrite Forall_forall in Hf. specialize (Hf m Hm). apply SupportsEnvoyVersion_spec in Hf as [?|?]; [congruence|done]. }
  destruct (decide (h = lowest_version)) as [Eh|Eh], (decide (l = highest_version)) as [El|El].
  - subst. rewrite !bool_decide_eq_true_2 by done. cbn. split; [done|]. split; [|done].
    intros _ w [R1 R2]. by eapply between_supported.
  - rewrite (bool_decide_eq_true_2 _ Eh), (bool_decide_eq_false_2 _ El). destruct L3 as [?|(m & Hm & <- & Hne)]; [done|].
    rewrite (bool_decide_eq_false_2 _ Hne). cbn. split; [|done]. intros _. subst h. destruct (Hmem m Hm) as [_ [?|[R1 R2]]]; [done|].
    eapply between_supported; [done|done|done|apply vle_refl].
  - rewrite (bool_decide_eq_false_2 _ Eh), (bool_decide_eq_true_2 _ El). destruct H3 as [?|(m & Hm & <- & Hne)]; [done|].
    rewrite (bool_decide_eq_false_2 _ Hne). cbn. split; [|split; [done|]].
    + intros _. subst l. destruct (Hmem m Hm) as [[?|[R1 R2]] _]; [done|]. eapply between_supported; [done|done|apply vle_refl|done].
    + intros _ w Hw Hf. destruct (Hsup w m Hw Hf Hm) as [[?|?] _]; done.
  - rewrite (bool_decide_eq_false_2 _ Eh), (bool_decide_eq_false_2 _ El).
    destruct H3 as [?|(m & Hm & <- & Hne)]; [done|]. destruct L3 as [?|(m' & Hm' & <- & Hne')]; [done|].
    rewrite (bool_decide_eq_false_2 _ Hne), (bool_decide_eq_false_2 _ Hne'). cbn [negb andb].
    destruct (Z.ltb_spec 0 (Compare ("v" +:+ MinEnvoyVersion m) ("v" +:+ MaxEnvoyVersion m'))) as [Hlt|Hge].
    + intros w Hw Hf. destruct (Hsup w m Hw Hf Hm) as [[?|Ha] _]; [done|]. destruct (Hsup w m' Hw Hf Hm') as [_ [?|Hb]]; [done|].
      pose proof (vle_trans _ _ _ Ha Hb) as Hc. unfold vle in Hc. lia.
    + split; [|split; [done|]].
      * intros _. eapply between_supported; [done|done|apply vle_refl|unfold vle; lia].
      * intros _ w Hw Hf. destruct (Hsup w m Hw Hf Hm) as [[?|?] _]; done.
Qed.
End Compatible.

(** ** Native filters *)

Inductive NativeError : Type :=
| ErrNoAnchor (type : string)
| ErrMissingName (label : string) (index : nat)
| ErrNameType (label : string) (index : nat) (type : string)
| ErrEmptyName (label : string) (index : nat)
| ErrReservedName (label : string) (index : nat) (name : string)
| ErrDuplicateName (name : string).

Definition hasHTTPAnchor (m : Manifest) : bool :=
  if bool_decide (m_Type m ∈ [TypeLua; TypeGo; TypeExtProc]) then true
  else if bool_decide (m_Type m = TypeRust) then bool_decide (FilterTypes m = []) || bool_decide (FilterTypeHTTP ∈ FilterTypes m)
  else false.

Definition reserved_filter (name : string) : bool :=
  bool_decide (name = "envoy.filters.http.router") || bool_decide (name = "envoy.filters.http.mcp_router").

(** One of the two lists, from its [index]th entry, with the names seen so far. *)
Fixpoint check_filters (label : string) (index : nat) (entries : list NativeFilter) (seen : gset string) : result NativeError (gset string) :=
  match entries with
  | [] => Ok seen
  | e :: entries' =>
      match nf_name e with
      | NoName => Err (ErrMissingName label index)
      | NotAString ty => Err (ErrNameType label index ty)
      | AName name =>
          if bool_decide (name = "") then Err (ErrEmptyName label index)
          else if reserved_filter name then Err (ErrReservedName label index name)
          else if bool_decide (name ∈ seen) then Err (ErrDuplicateName name)
          else check_filters label (S index) entries' ({[name]} ∪ seen)
      end
  end.

Definition validateNativeHTTPFilters (m : Manifest) : result NativeError unit :=
  match m_Native m with
  | None => Ok tt
  | Some native =>
      if negb (hasHTTPAnchor m) then Err (ErrNoAnchor (m_Type m))
      else
        try seen <- check_filters "before" 0 (Before native) ∅;
        try _ <- check_filters "after" 0 (After native) seen;
        Ok tt
  end.

(** ** Loading *)

(** A YAML document. *)
Inductive YNode : Type :=
| YScalar (value : string)
| YSequence (content : list YNode)
| YMapping (content : list (YNode * YNode)).

Definition node_Value (n : YNode) : string := match n with YScalar v => v | _ => "" end.

(** A single [filterType] becomes a list. *)
Fixpoint promote_filter_type (content : list (YNode * YNode)) : list (YNode * YNode) :=
  match content with
  | [] => []
  | (k, v) :: rest =>
      if bool_decide (node_Value k = "filterType") then
        (k, match v with YScalar _ => YSequence [v] | _ => v end) :: rest
      else (k, v) :: promote_filter_type rest
  end.

(** A file or directory that the walk visits; [we_err] is an error of the walk. *)
Record WalkEntry : Type := mkWalkEntry { we_path : string; we_dir : bool; we_err : bool }.

(** What can be opened and read. *)
Record FileAccess : Type := mkFileAccess { can_open : string -> bool; read_file : string -> option string }.

Section Loading.
(** The YAML parser, the decoding of a document into the fields of a manifest, and the schema. *)
Context (yaml_parse : string -> option YNode) (decode : YNode -> option Manifest).
Context (schema_error : Manifest -> option string).

Definition UnmarshalYAML (value : YNode) : option Manifest :=
  decode (match value with YMapping content => YMapping (promote_filter_type content) | _ => value end).

Definition ValidateManifest (m : Manifest) : option string :=
  match schema_error m with
  | Some e => Some e
  | None => match validateNativeHTTPFilters m with Ok _ => None | Err _ => Some "invalid nativeHttpFilters" end
  end.

Definition loadManifest (fa : FileAccess) (path : string) (validate : bool) : result ManifestError Manifest :=
  if negb (can_open fa path) then Err (ErrOpenManifestFile path)
  else match read_file fa path with
  | None => Err (ErrReadManifestFile path)
  | Some data =>
      match yaml_parse data ≫= UnmarshalYAML with
      | None => Err (ErrParseManifestFile path)
      | Some m =>
          let m := ApplyDefaults m in
          match (if validate then ValidateManifest m else None) with
          | Some e => Err (ErrValidation path e)
          | None => Ok m
          end
      end
  end.

(** The callback of the walk. *)
Definition load_entry (fa : FileAccess) (validate : bool) (acc : gmap string Manifest) (e : WalkEntry)
    : result ManifestError (gmap string Manifest) :=
  if we_err e || we_dir e || negb (bool_decide (Base (we_path e) = "manifest.yaml")) then Ok acc
  else
    try m <- loadManifest fa (we_path e) validate;
    match acc !! Name m with
    | Some _ => Err (ErrDuplicateManifestName (Name m))
    | None => Ok (<[Name m := set_path (we_path e) m]> acc)
    end.

Fixpoint load_entries (fa : FileAccess) (validate : bool) (acc : gmap string Manifest) (es : list WalkEntry)
    : result ManifestError (gmap string Manifest) :=
  match es with
  | [] => Ok acc
  | e :: es' => try acc' <- load_entry fa validate acc e; load_entries fa validate acc' es'
  end.

(** [resolveVersions] on the manifest of a name, which changes it in the map. *)
Definition resolveVersions (name : string) (all : gmap string Manifest) : result ManifestError (gmap string Manifest) :=
  match all !! name with
  | None => Ok all
  | Some m =>
      if bool_decide (Parent m = "") then Ok all
      else match all !! Parent m with
      | None => Err (ErrParentManifestNotFound (Parent m))
      | Some parent => Ok (<[name := ResolveVersionsWithParent m parent]> all)
      end
  end.

(** The loop over the map, in the order it happens to iterate. *)
Fixpoint resolve_all (order : list string) (all : gmap string Manifest) : result ManifestError (gmap string Manifest) :=
  match order with
  | [] => Ok all
  | name :: order' => try all' <- resolveVersions name all; resolve_all order' all'
  end.

Definition LoadManifests (fa : FileAccess) (walk : list WalkEntry) (validate : bool) (iterate : gmap string Manifest -> list string)
    : result ManifestError (gmap string Manifest) :=
  try all <- load_entries fa validate ∅ walk; resolve_all (iterate all) all.

Definition LoadLocalManifest (fa : FileAccess) (path : string) : result ManifestError Manifest :=
  try m <- loadManifest fa path true; Ok (set_path path m).

(** [FindLocalParentManifest]: from a directory upwards. *)
Fixpoint find_parent (fuel : nat) (fa : FileAccess) (name dir : string) : option (Manifest * string) :=
  match fuel with
  | O => None
  | S fuel' =>
      let parent := Dir dir in
      if bool_decide (parent = dir) then None
      else
        let candidate := Join2 parent "manifest.yaml" in
        match (if can_open fa candidate then match loadManifest fa candidate false with Ok m => Some m | Err _ => None end else None) with
        | Some cm => if bool_decide (Name cm = name) then Some (cm, parent) else find_parent fuel' fa name parent
        | None => find_parent fuel' fa name parent
        end
  end.

Definition FindLocalParentManifest (fa : FileAccess) (m : Manifest) : option (Manifest * string) :=
  let dir := Dir (m_Path m) in find_parent (S (length (clean_segs dir))) fa (Parent m) dir.
End Loading.

(** ** The catalog *)

Record ManifestIndexEntry : Type := mkIndexEntry { ie_Manifest : Manifest; SourcePath : string }.

Definition index_le (a b : ManifestIndexEntry) : Prop := str_le (Name (ie_Manifest a)) (Name (ie_Manifest b)).

#[export] Instance index_le_dec a b : Decision (index_le a b).
Proof. unfold index_le. apply _. Defined.

Definition manifestsIndex (all : gmap string Manifest) (wantSet : bool) : list ManifestIndexEntry :=
  merge_sort index_le ((fun nm => mkIndexEntry nm.2 (Dir (m_Path nm.2))) <$>
    filter (fun nm => ExtensionSet nm.2 = wantSet) (map_to_list all)).

Definition ManifestsIndex (all : gmap string Manifest) : list ManifestIndexEntry := manifestsIndex all false.
Definition ExtensionSetsIndex (all : gmap string Manifest) : list ManifestIndexEntry := manifestsIndex all true.

(** ** Inherited versions *)

(** The reference: every manifest resolved against the parent as it was loaded. *)
Definition resolve_one (all : gmap string Manifest) (m : Manifest) : Manifest :=
  if bool_decide (Parent m = "") then m
  else match all !! Parent m with Some p => ResolveVersionsWithParent m p | None => m end.
Definition resolved (all : gmap string Manifest) : gmap string Manifest := resolve_one all <$> all.

(** No parent has a parent. *)
Definition flat (all : gmap string Manifest) : Prop :=
  forall n m p, all !! n = Some m -> Parent m <> "" -> all !! Parent m = Some p -> Parent p = "".

(** Where the loop is: the manifests of the names left are as they were loaded. *)
Definition resolving (all : gmap string Manifest) (left : list string) (cur : gmap string Manifest) : Prop :=
  forall n, cur !! n = if decide (n ∈ left) then all !! n else resolve_one all <$> all !! n.

Lemma resolving_parent all left cur m p :
  flat all -> resolving all left cur -> (exists n, all !! n = Some m) -> Parent m <> "" -> all !! Parent m = Some p ->
  cur !! Parent m = Some p.
Proof.
  intros Hf Hr [n Hn] Hp Ha. rewrite Hr, Ha. case_decide; [done|]. cbn. unfold resolve_one.
  by rewrite (bool_decide_eq_true_2 _ (Hf n m p Hn Hp Ha)).
Qed.

Lemma resolve_all_spec all order cur :
  flat all -> NoDup order -> resolving all order cur -> Forall (fun n => is_Some (all !! n)) order ->
  match resolve_all order cur with
  | Ok r => r = resolved all /\ forall n m, n ∈ order -> all !! n = Some m -> Parent m = "" \/ is_Some (all !! Parent m)
  | Err e => exists n m, all !! n = Some m /\ Parent m <> "" /\ all !! Parent m = None /\ e = ErrParentManifestNotFound (Parent m)
  end.
Proof.
  intros Hf Hnd. revert cur. induction Hnd as [|n order Hn Hnd IH]; intros cur Hr Hin; cbn [resolve_all].
  { split; [|by intros n m ?%not_elem_of_nil]. apply map_eq. intros n. rewrite Hr. unfold resolved. rewrite lookup_fmap.
    by rewrite decide_False by set_solver. }
  apply Forall_cons in Hin as [[m Hm] Hin].
  assert (Hcur : cur !! n = Some m) by (rewrite Hr; by rewrite decide_True by set_solver).
  assert (Hstep : forall cur', cur' !! n = Some (resolve_one all m) -> (forall n', n' <> n -> cur' !! n' = cur !! n') -> resolving all order cur').
  { intros cur' H1 H2 n'. destruct (decide (n' = n)) as [->|Hne]; [rewrite H1, decide_False, Hm by done; done|].
    rewrite H2, Hr by done. destruct (decide (n' ∈ order)); [by rewrite decide_True by set_solver|by rewrite decide_False by set_solver]. }
  unfold resolveVersions. rewrite Hcur. case_bool_decide as Hp; cbn [rbind].
  - specialize (IH cur). destruct (resolve_all order cur).
    + destruct IH as [-> IH]; [apply Hstep; [|done]|done|]; [rewrite Hcur; unfold resolve_one; by rewrite bool_decide_eq_true_2|].
      split; [done|]. intros n' m' [->|Hin']%elem_of_cons Hm'; [left; congruence|by eapply IH].
    + apply IH; [apply Hstep; [|done]|done]. rewrite Hcur. unfold resolve_one. by rewrite bool_decide_eq_true_2.
  - destruct (all !! Parent m) as [p|] eqn:Hpar.
    + rewrite (resolving_parent all (n :: order) cur m p) by eauto. cbn [rbind].
      specialize (IH (<[n := ResolveVersionsWithParent m p]> cur)).
      assert (Hr' : resolving all order (<[n := ResolveVersionsWithParent m p]> cur)).
      { apply Hstep; [|by intros n' Hne; rewrite lookup_insert_ne]. rewrite lookup_insert_eq. unfold resolve_one.
        by rewrite bool_decide_eq_false_2, Hpar. }
      destruct (resolve_all order _); [|by apply IH]. destruct IH as [-> IH]; [done|done|]. split; [done|].
      intros n' m' [->|Hin']%elem_of_cons Hm'; [right; assert (m' = m) as -> by congruence; by rewrite Hpar|by eapply IH].
    + assert (cur !! Parent m = None) as ->; [|by exists n, m].
      rewrite Hr, Hpar. by case_decide.
Qed.

(** When no parent has a parent itself, the order in which the map of manifests happens to be
    iterated does not matter: every manifest inherits from its parent as that was loaded, and the
    loading fails exactly if some parent is missing. *)
Theorem resolve_order_independent all order :
  flat all -> order ≡ₚ (map_to_list all).*1 ->
  match resolve_all order all with
  | Ok r => r = resolved all /\ forall n m, all !! n = Some m -> Parent m = "" \/ is_Some (all !! Parent m)
  | Err e => exists n m, all !! n = Some m /\ Parent m <> "" /\ all !! Parent m = None /\ e = ErrParentManifestNotFound (Parent m)
  end.
Proof.
  intros Hf Hp.
  assert (Hdom : forall n, n ∈ order <-> is_Some (all !! n)).
  { intros n. rewrite Hp, list_elem_of_fmap. split.
    - intros ([n' m] & -> & Hin%elem_of_map_to_list). by exists m.
    - intros [m Hm]. exists (n, m). split; [done|]. by apply elem_of_map_to_list. }
  pose proof (resolve_all_spec all order all Hf) as Hs. destruct (resolve_all order all) as [r|e].
  - destruct Hs as [-> Hs].
    + rewrite Hp. apply NoDup_fst_map_to_list.
    + intros n. case_decide as Hn; [done|]. destruct (all !! n) eqn:E; [|done]. destruct Hn. apply Hdom. by rewrite E.
    + apply Forall_forall. intros n. apply Hdom.
    + split; [done|]. intros n m Hn. apply Hs with n; [apply Hdom; by eexists|done].
  - apply Hs; [rewrite Hp; apply NoDup_fst_map_to_list| |apply Forall_forall; intros n; apply Hdom].
    intros n. case_decide as Hn; [done|]. destruct (all !! n) eqn:E; [|done]. destruct Hn. apply Hdom. by rewrite E.
Qed.

(** With a parent that has a parent, the order does matter. *)
Definition named (name version parent : string) : Manifest :=
  mkManifest name version parent false "" "" TypeGo [FilterTypeHTTP] "" "" "" "" None None None "" false (mkOrigin "" "" "") false false zero_info.

Definition chain : gmap string Manifest :=
  list_to_map [("root", named "root" "1.0.0" ""); ("mid", named "mid" "" "root"); ("leaf", named "leaf" "" "mid")].

Definition version_of (name : string) (r : result ManifestError (gmap string Manifest)) : option string :=
  match r with Ok all => Version <$> all !! name | Err _ => None end.

Theorem resolve_chain_order_dependent :
  exists o1 o2, o1 ≡ₚ (map_to_list chain).*1 /\ o2 ≡ₚ (map_to_list chain).*1 /\
    version_of "leaf" (resolve_all o1 chain) = Some "1.0.0" /\ version_of "leaf" (resolve_all o2 chain) = Some "".
Proof.
  assert (Hnd : NoDup (fst <$> [("root", named "root" "1.0.0" ""); ("mid", named "mid" "" "root"); ("leaf", named "leaf" "" "mid")]))
    by (by vm_compute; repeat constructor; set_solver).
  pose proof (map_to_list_to_map _ Hnd) as Hp. fold chain in Hp. apply (fmap_Permutation fst) in Hp. cbn in Hp.
  exists ["root"; "mid"; "leaf"], ["leaf"; "root"; "mid"].
  split; [by rewrite Hp|]. split; [rewrite Hp; change ["leaf"; "root"; "mid"] with (["leaf"] ++ ["root"; "mid"]);
    change ["root"; "mid"; "leaf"] with (["root"; "mid"] ++ ["leaf"]); apply Permutation_app_comm|].
  split; vm_compute; reflexivity.
Qed.

(** ** Native filters *)

Definition filter_name_ok (f : NativeFilter) : Prop := exists name, nf_name f = AName name /\ name <> "" /\ reserved_filter name = false.
Definition filter_names (fs : list NativeFilter) : list string := omap (fun f => match nf_name f with AName n => Some n | _ => None end) fs.

Lemma check_filters_spec label index entries seen seen' :
  check_filters label index entries seen = Ok seen' <->
  Forall filter_name_ok entries /\ NoDup (filter_names entries) /\ (forall n, n ∈ filter_names entries -> n ∉ seen) /\
  seen' = list_to_set (filter_names entries) ∪ seen.
Proof.
  revert index seen. induction entries as [|e entries IH]; intros index seen; cbn.
  { split; [intros [= <-]; split_and!; [constructor|constructor|set_solver|set_solver]|].
    intros (_ & _ & _ & ->). f_equal. set_solver. }
  destruct (nf_name e) as [|ty|name] eqn:Hname.
  1-2: (split; [done|]); intros (Hf & _); apply Forall_cons in Hf as [(? & ? & _) _]; congruence.
  case_bool_decide as He; [|destruct (reserved_filter name) eqn:Hres; [|case_bool_decide as Hs]].
  - split; [done|]. intros (Hf & _). apply Forall_cons in Hf as [(n & Hn & ? & _) _]. rewrite Hname in Hn. by injection Hn as <-.
  - split; [done|]. intros (Hf & _). apply Forall_cons in Hf as [(n & Hn & _ & ?) _]. rewrite Hname in Hn. injection Hn as <-. congruence.
  - split; [done|]. intros (_ & _ & Hn & _). destruct (Hn name); [set_solver|done].
  - rewrite IH, Forall_cons. unfold filter_names. cbn. rewrite NoDup_cons. fold (filter_names entries). split.
    + intros (H1 & H2 & H3 & ->). split_and!; try done; [by exists name| |set_solver|set_solver].
      intros Hin. destruct (H3 name Hin). set_solver.
    + intros ((_ & H1) & (H2 & H3) & H4 & ->). split_and!; try done; [|set_solver].
      intros n Hn. specialize (H4 n). set_solver.
Qed.

(** A manifest's native filters are accepted exactly if it can host them and every name, over
    both lists, is a non-empty string, not a router, and used once. *)
Theorem validateNativeHTTPFilters_spec m :
  validateNativeHTTPFilters m = Ok tt <->
  match m_Native m with
  | None => True
  | Some native => hasHTTPAnchor m = true /\ Forall filter_name_ok (Before native ++ After native) /\
      NoDup (filter_names (Before native ++ After native))
  end.
Proof.
  unfold validateNativeHTTPFilters. destruct (m_Native m) as [native|]; [|done].
  destruct (hasHTTPAnchor m); cbn [negb]; [|naive_solver]. unfold filter_names at 1. rewrite omap_app. fold (filter_names (Before native)) (filter_names (After native)).
  rewrite NoDup_app, Forall_app. destruct (check_filters "before" 0 (Before native) ∅) as [seen|] eqn:Hb; cbn [rbind].
  - apply check_filters_spec in Hb as (B1 & B2 & B3 & ->).
    destruct (check_filters "after" 0 (After native) _) as [seen'|] eqn:Ha; cbn [rbind].
    + apply check_filters_spec in Ha as (A1 & A2 & A3 & _). split; [|done]. intros _. split_and!; try done.
      intros n H1 H2. destruct (A3 n H2). set_solver.
    + split; [done|]. intros (_ & (_ & A1) & _ & A2 & A3). exfalso.
      assert (Hx : exists seen', check_filters "after" 0 (After native) (list_to_set (filter_names (Before native)) ∪ ∅) = Ok seen').
      { eexists. apply check_filters_spec. split_and!; try done. intros n Hn. specialize (A2 n). set_solver. }
      destruct Hx as [s' Hx]. congruence.
  - split; [done|]. intros (_ & (B1 & _) & B2 & _). exfalso.
    assert (Hx : exists seen', check_filters "before" 0 (Before native) ∅ = Ok seen').
    { eexists. apply check_filters_spec. split_and!; try done; set_solver. }
    destruct Hx as [s' Hx]. congruence.
Qed.

(** ** Witnesses *)

(** A comparison of versions of three small numbers; everything else ranks below them. *)
Definition version_rank (v : string) : Z :=
  match Split (drop_bytes 1 v) "."%char with
  | [a; b; c] => match Atoi a, Atoi b, Atoi c with Some x, Some y, Some z => x * 100000000 + y * 10000 + z | _, _, _ => -1 end
  | _ => -1
  end.
Definition rank_compare : SemVer := fun v w => version_rank v - version_rank w.

Lemma rank_laws : @SemVerLaws rank_compare.
Proof. split; unfold Compare, rank_compare; intros; lia. Qed.

Definition with_range (min max : string) : Manifest := set_versions "1.0.0" "" min max zero_manifest.

Lemma resolve_compatible_witness :
  @ResolveMinimumCompatibleEnvoyVersion rank_compare [with_range "1.33.0" "1.40.0"; with_range "1.36.2" ""] = Ok "1.36.2" /\
  Forall (fun m => @SupportsEnvoyVersion rank_compare m "1.36.2" = true) [with_range "1.33.0" "1.40.0"; with_range "1.36.2" ""].
Proof.
  assert (E : @ResolveMinimumCompatibleEnvoyVersion rank_compare [with_range "1.33.0" "1.40.0"; with_range "1.36.2" ""] = Ok "1.36.2")
    by (vm_compute; reflexivity).
  split; [exact E|]. pose proof (@resolve_compatible rank_compare rank_laws [with_range "1.33.0" "1.40.0"; with_range "1.36.2" ""]) as W.
  rewrite E in W. destruct W as [W _]; [|apply W; discriminate].
  apply Forall_cons; split; [|apply Forall_cons; split; [|constructor]];
    (split; [right; split; vm_compute; discriminate|]); ((left; reflexivity) || (right; split; vm_compute; discriminate)).
Defined.

Definition flat_pair : gmap string Manifest := list_to_map [("root", named "root" "1.0.0" ""); ("leaf", named "leaf" "" "root")].

Lemma resolve_order_independent_witness :
  flat flat_pair /\ resolve_all (map_to_list flat_pair).*1 flat_pair = Ok (resolved flat_pair).
Proof.
  assert (Hf : flat flat_pair).
  { intros n m p Hn Hm Hp. unfold flat_pair in Hn, Hp. cbn [list_to_map foldr fst snd] in Hn, Hp.
    apply lookup_insert_Some in Hp as [[_ <-]|[Hne Hp]]; [reflexivity|].
    apply lookup_insert_Some in Hn as [[_ <-]|[_ Hn]]; [done|].
    apply lookup_insert_Some in Hn as [[_ <-]|[_ Hn]]; [|by rewrite lookup_empty in Hn]. by destruct Hne. }
  split; [exact Hf|]. pose proof (resolve_order_independent flat_pair (map_to_list flat_pair).*1 Hf (Permutation_refl _)) as W.
  assert (E : version_of "leaf" (resolve_all (map_to_list flat_pair).*1 flat_pair) = Some "1.0.0") by (vm_compute; reflexivity).
  revert W E. generalize (resolve_all (map_to_list flat_pair).*1 flat_pair) as res. intros [r|e] W E; [by destruct W as [-> _]|done].
Defined.
