(* ===== verification/CliCache.v ===== *)
(** * cli: the local cache

    cli/internal/extensions/directories.go, registry.go, libcomposer.go, dynamic_module.go,
    ext_proc.go, wasm.go and ResolveExtensionManifest of manifest.go: where the artifacts of an
    extension are kept, how they are named in a registry, and how they are built.  The disk is
    the file system of [GoFS]; the toolchain that a command runs is a parameter. *)

From S2P Require Import Prelude GoStr GoNum GoPath GoFS SSELines CliPackage CliManifest.
From Stdlib Require Import Lia Ascii.

Local Open Scope go_scope.

Record Directories : Type := mkDirectories {
  ConfigHome : string;
  DataHome : string;
  StateHome : string;
  RuntimeDir : string;
}.

(** ** The slots *)

Definition ModuleName (m : Manifest) : string :=
  if bool_decide (m_Type m = TypeGo) && negb (CShared m) then Name m
  else if negb (bool_decide (Parent m = "")) then Parent m
  else Name m.

Definition DebugVersion (version : string) : string := version +:+ "-debug".

Definition composerDir (dirs : Directories) (name version : string) : string :=
  JoinAll [DataHome dirs; "extensions"; "dym"; name; version].
Definition composerLib (dirs : Directories) (name version : string) : string :=
  JoinAll [composerDir dirs name version; "lib" +:+ name +:+ ".so"].

Definition cache_version (m : Manifest) : string := if m_Debug m then DebugVersion (Version m) else Version m.

Definition LocalCacheExtensionDir (dirs : Directories) (m : Manifest) : string :=
  let moduleName := ModuleName m in
  let version := cache_version m in
  if bool_decide (m_Type m = TypeGo) then
    if CShared m then JoinAll [DataHome dirs; "extensions"; "dym"; moduleName; version]
    else JoinAll [DataHome dirs; "extensions"; "goplugin"; moduleName; version]
  else if bool_decide (m_Type m = TypeRust) then JoinAll [DataHome dirs; "extensions"; "dym"; moduleName; version]
  else if bool_decide (m_Type m = TypeWasm) then JoinAll [DataHome dirs; "extensions"; "wasm"; moduleName; version]
  else if bool_decide (m_Type m = TypeExtProc) then JoinAll [DataHome dirs; "extensions"; "extproc"; moduleName; version]
  else if bool_decide (m_Type m = TypeComposer) then composerDir dirs moduleName version
  else JoinAll [DataHome dirs; "extensions"; moduleName; version].

Definition LocalCacheManifest (dirs : Directories) (m : Manifest) : string :=
  JoinAll [LocalCacheExtensionDir dirs m; "manifest.yaml"].

(** The name of the library in its slot. *)
Definition library_name (m : Manifest) : string :=
  if bool_decide (m_Type m = TypeGo) then if CShared m then "lib" +:+ ModuleName m +:+ ".so" else "plugin.so"
  else if bool_decide (m_Type m = TypeRust) then "lib" +:+ ModuleName m +:+ ".so"
  else if bool_decide (m_Type m = TypeWasm) then "plugin.wasm"
  else if bool_decide (m_Type m = TypeExtProc) then "ext_proc-server"
  else if bool_decide (m_Type m = TypeComposer) then "lib" +:+ ModuleName m +:+ ".so"
  else "plugin.so".

Definition LocalCacheExtension (dirs : Directories) (m : Manifest) : string :=
  JoinAll [LocalCacheExtensionDir dirs m; library_name m].

Definition LocalCacheExtensionSourceArtifactDir (dirs : Directories) (m : Manifest) : string :=
  JoinAll [DataHome dirs; "extensions"; "src"; ModuleName m; Version m].

Definition LocalCacheComposerDir (dirs : Directories) (version : string) : string := composerDir dirs ComposerBundle version.
Definition LocalCacheComposerLib (dirs : Directories) (version : string) : string := composerLib dirs ComposerBundle version.
Definition LocalCacheComposerLiteDir (dirs : Directories) (version : string) : string := composerDir dirs ComposerLiteBundle version.
Definition LocalCacheComposerLiteLib (dirs : Directories) (version : string) : string := composerLib dirs ComposerLiteBundle version.
Definition LocalCacheComposerSourceDir (dirs : Directories) (version : string) : string :=
  JoinAll [DataHome dirs; "extensions"; "src"; "composer"; version].

Example LocalCacheExtension_ex (dirs := mkDirectories "" "/home/u/.local/share/boe" "" "")
    (m := set_versions "1.2.0" "" "" "" (named "example" "" "")) :
  LocalCacheExtension dirs m = "/home/u/.local/share/boe/extensions/goplugin/example/1.2.0/plugin.so" /\
  LocalCacheExtension dirs (set_build false true true m) = "/home/u/.local/share/boe/extensions/dym/example/1.2.0-debug/libexample.so".
Proof. vm_compute. repeat split. Qed.

(** ** The registry *)

Definition OCIAnnotationExtensionType : string := "io.tetratelabs.built-on-envoy.extension.type".
Definition OCIAnnotationFilterType : string := "io.tetratelabs.built-on-envoy.extension.filter_type".
Definition OCIAnnotationCShared : string := "io.tetratelabs.built-on-envoy.extension.cshared".
Definition OCIAnnotationComposerVersion : string := "io.tetratelabs.built-on-envoy.extension.composer_version".
Definition OCIAnnotationArtifact : string := "io.tetratelabs.built-on-envoy.extension.artifact".
Definition AnnotationTitle : string := "org.opencontainers.image.title".
Definition AnnotationDescription : string := "org.opencontainers.image.description".
Definition AnnotationVersion : string := "org.opencontainers.image.version".
Definition AnnotationAuthors : string := "org.opencontainers.image.authors".
Definition AnnotationLicenses : string := "org.opencontainers.image.licenses".
Definition ArtifactBinary : string := "binary".
Definition ArtifactSource : string := "source".
Definition DefaultOCIRegistry : string := "ghcr.io/tetratelabs/built-on-envoy".

Definition RepositoryName (registry name : string) : string :=
  if bool_decide (name = ComposerBundle) || bool_decide (name = ComposerLiteBundle) then registry +:+ "/" +:+ name
  else registry +:+ "/extension-" +:+ name.

Definition NameFromRepository (repository : string) : string :=
  TrimPrefix (default repository (last (Split repository slash))) "extension-".

Definition SourceRepositoryName (registry : string) (m : Manifest) : string :=
  if (bool_decide (m_Type m = TypeGo) && negb (CShared m)) || bool_decide (m_Type m = TypeComposer) then registry +:+ "/composer-src"
  else registry +:+ "/extension-src-" +:+ Name m.

Abbreviation Annotations := (gmap string string) (only parsing).

(** A missing annotation reads as the empty string. *)
Definition annotation (a : Annotations) (key : string) : string := default "" (a !! key).

Definition FormatBool (b : bool) : string := if b then "true" else "false".

Definition OCIAnnotationsForManifest (m : Manifest) : Annotations :=
  list_to_map [
    (AnnotationTitle, Name m);
    (AnnotationDescription, Description m);
    (AnnotationVersion, Version m);
    (OCIAnnotationComposerVersion, ComposerVersion m);
    (AnnotationAuthors, Author m);
    (AnnotationLicenses, License m);
    (OCIAnnotationExtensionType, m_Type m);
    (OCIAnnotationFilterType, Join (FilterTypes m) ",");
    (OCIAnnotationCShared, FormatBool (CShared m))].

Definition ManifestFromOCI (a : Annotations) : Manifest :=
  let raw := annotation a OCIAnnotationFilterType in
  let filterTypes := if bool_decide (raw = "") then [] else TrimSpace <$> Split raw ","%char in
  ApplyDefaults
    (mkManifest (annotation a AnnotationTitle) (annotation a AnnotationVersion) "" false (annotation a AnnotationAuthors)
      (annotation a AnnotationDescription) (annotation a OCIAnnotationExtensionType) filterTypes (annotation a AnnotationLicenses)
      "" "" (annotation a OCIAnnotationComposerVersion) None None None "" false (mkOrigin "" "" "")
      (bool_decide (annotation a OCIAnnotationCShared = "true")) false zero_info).

(** [isSourceArtifact] and [isComposerSourceArtifact]. *)
Definition isSourceArtifact (a : Annotations) : bool := bool_decide (annotation a OCIAnnotationArtifact = ArtifactSource).
Definition isComposerSourceArtifact (a : Annotations) : bool :=
  bool_decide (annotation a OCIAnnotationExtensionType = TypeComposer) && bool_decide (annotation a OCIAnnotationArtifact = ArtifactSource).

(** ** Manifests in the cache *)

Definition fs_access (fs : FileSystem) : FileAccess := mkFileAccess (exists_path fs) (ReadFile fs).

Inductive CacheError : Type :=
| ErrManifest (path : string) (e : ManifestError)
| ErrWalk (base : string)
| ErrNotFound (name base : string)
| ErrComposerManifest (version : string)
| ErrCommand (dir : string)
| ErrUnsupportedModule (path : string)
| ErrMissingLibrary (path : string)
| ErrDisk.

Section Cache.
Context (yaml_parse : string -> option YNode) (decode : YNode -> option Manifest) (schema_error : Manifest -> option string).

Definition local_manifest (fs : FileSystem) (path : string) : result CacheError Manifest :=
  match LoadLocalManifest yaml_parse decode schema_error (fs_access fs) path with
  | Ok m => Ok m
  | Err e => Err (ErrManifest path e)
  end.

(** The walk of [FindExtensionPath] over what is left of the tree: [skip] is the directory whose
    remaining entries are skipped, [found] the directory found last. *)
Fixpoint find_extension (fs : FileSystem) (base name : string) (skip : option Path) (found : string) (l : list (Path * Node))
    : result CacheError string :=
  match l with
  | [] => Ok found
  | (r, _) :: l' =>
      if match skip with Some d => bool_decide (is_Some (strip_prefix d r)) | None => false end
      then find_extension fs base name skip found l'
      else if bool_decide (last r = Some "manifest.yaml") then
        let path := JoinAll [base; Join r "/"] in
        try m <- local_manifest fs path;
        if bool_decide (Name m = name) then find_extension fs base name (Some (parent r)) (Dir path) l'
        else find_extension fs base name skip found l'
      else find_extension fs base name skip found l'
  end.

Definition FindExtensionPath (fs : FileSystem) (base name : string) : result CacheError string :=
  match node_at fs (clean_segs base) with
  | None => Err (ErrWalk base)
  | Some _ =>
      try path <- find_extension fs base name None "" (walk fs (clean_segs base));
      if bool_decide (path = "") then Err (ErrNotFound name base) else Ok path
  end.

Definition LocalCacheExtensionManifest (fs : FileSystem) (dirs : Directories) (artifact : Manifest) (artifactType name : string)
    : result CacheError string :=
  let base := if bool_decide (artifactType = ArtifactSource) then LocalCacheExtensionSourceArtifactDir dirs artifact
              else LocalCacheExtensionDir dirs artifact in
  if bool_decide (Name artifact = name) || bool_decide (name = "") then Ok (JoinAll [base; "manifest.yaml"])
  else try path <- FindExtensionPath fs base name; Ok (JoinAll [path; "manifest.yaml"]).

(** The error is ignored. *)
Definition LocalCacheExtensionSourceDir (fs : FileSystem) (dirs : Directories) (m : Manifest) (name : string) : string :=
  match FindExtensionPath fs (LocalCacheExtensionSourceArtifactDir dirs m) name with Ok path => path | Err _ => "" end.

(** The manifest of the artifact, which may have been changed, and that of the extension; when
    the artifact is the extension they are one object. *)
Definition ResolveExtensionManifest (fs : FileSystem) (dirs : Directories) (artifact : Manifest) (artifactType name : string)
    : result CacheError (Manifest * Manifest) :=
  let composerParent := JoinAll [LocalCacheExtensionDir dirs artifact; "manifest-composer.yaml"] in
  try composer <- (if exists_path fs composerParent then try p <- local_manifest fs composerParent; Ok (Some p) else Ok None);
  if bool_decide (Name artifact = name) || bool_decide (name = "") then
    let m := match composer with Some p => ResolveVersionsWithParent artifact p | None => artifact end in Ok (m, m)
  else
    try path <- LocalCacheExtensionManifest fs dirs artifact artifactType name;
    try m <- local_manifest fs path;
    Ok (artifact, mergeManifestFromRoot m artifact).

Fixpoint first_manifest (fs : FileSystem) (version : string) (dirs : list string) : result CacheError Manifest :=
  match dirs with
  | [] => Err (ErrComposerManifest version)
  | dir :: rest =>
      let path := JoinAll [dir; "manifest.yaml"] in
      if exists_path fs path then local_manifest fs path else first_manifest fs version rest
  end.

Definition GetComposerManifest (fs : FileSystem) (dirs : Directories) (version : string) : result CacheError Manifest :=
  first_manifest fs version
    [LocalCacheComposerSourceDir dirs version; LocalCacheComposerDir dirs version; LocalCacheComposerLiteDir dirs version].
End Cache.

(** ** Builds *)

(** A command with what it adds to the environment. *)
Record Command : Type := mkCommand { c_name : string; c_args : list string; c_env : list string; c_dir : string }.

Definition RustLibNameFromName (name : string) : string :=
  String.string_of_list_ascii ((fun c => if decide (c = "-"%char) then "_"%char else c) <$> String.list_ascii_of_string name).

Definition extensionMetadataFiles : list string := ["manifest.yaml"; "config.schema.json"].

Definition copyFile (fs : FileSystem) (src dst : string) : FileSystem * bool :=
  match ReadFile fs src with
  | None => (fs, false)
  | Some data => match WriteFile fs (clean_segs dst) data with Some fs' => (fs', true) | None => (fs, false) end
  end.

(** Where the metadata file at a relative path goes. *)
Definition metadata_dest (dstDir rel : string) : string :=
  if bool_decide (Dir rel = ".") then JoinAll [dstDir; rel] else JoinAll [dstDir; "metadatas"; rel].

Fixpoint copy_metadata (srcDir dstDir : string) (fs : FileSystem) (l : list (Path * Node)) : FileSystem * bool :=
  match l with
  | [] => (fs, true)
  | (r, n) :: l' =>
      if bool_decide (n = NDir) || negb (bool_decide (default "" (last r) ∈ extensionMetadataFiles)) then copy_metadata srcDir dstDir fs l'
      else
        let rel := Join r "/" in
        let dst := metadata_dest dstDir rel in
        match MkdirAll fs (clean_segs (Dir dst)) with
        | (fs1, false) => (fs1, false)
        | (fs1, true) =>
            match copyFile fs1 (JoinAll [srcDir; rel]) dst with
            | (fs2, true) => copy_metadata srcDir dstDir fs2 l'
            | failed => failed
            end
        end
  end.

Definition copyExtensionManifests (fs : FileSystem) (srcDir dstDir : string) : FileSystem * bool :=
  match node_at fs (clean_segs srcDir) with
  | None => (fs, false)
  | Some _ => copy_metadata srcDir dstDir fs (walk fs (clean_segs srcDir))
  end.

Section Builds.
(** The toolchain: what a command does to the disk and whether it succeeds; the variables of a
    Makefile; the extension of libraries. *)
Context (exec : Command -> FileSystem -> FileSystem * bool) (dotenv : string -> option (gmap string string)) (libext : string).

Definition goBuildFlags (debug : bool) : list string :=
  if debug then ["-gcflags=all=-N -l"; "-ldflags=-w=0"] else ["-trimpath"].
Definition cacheVersion (debug : bool) (version : string) : string := if debug then DebugVersion version else version.

Definition run_command (c : Command) (fs : FileSystem) : FileSystem * option CacheError :=
  let '(fs', ok) := exec c fs in (fs', if ok then None else Some (ErrCommand (c_dir c))).

(** A command after its output directory was created. *)
Definition mkdir_then (dir : string) (k : FileSystem -> FileSystem * option CacheError) (fs : FileSystem) : FileSystem * option CacheError :=
  match MkdirAll fs (clean_segs dir) with
  | (fs1, true) => k fs1
  | (fs1, false) => (fs1, Some ErrDisk)
  end.

Definition HasCSharedMain (fs : FileSystem) (path : string) : bool :=
  bool_decide (Stat fs (clean_segs (JoinAll [path; "main"])) = Some NDir).

Definition buildExtensionCShared (dirs : Directories) (m : Manifest) (path : string) (debug : bool) (fs : FileSystem)
    : FileSystem * option CacheError :=
  let cshared := set_build (Remote m) true (m_Debug m) m in
  mkdir_then (LocalCacheExtensionDir dirs cshared)
    (run_command (mkCommand "go" (["build"] ++ goBuildFlags debug ++ ["-buildmode=c-shared"; "-o"; LocalCacheExtension dirs cshared; "./main"])
       ["CGO_ENABLED=1"] path)) fs.

Definition buildExtensionPlugin (dirs : Directories) (m : Manifest) (path : string) (debug : bool) (fs : FileSystem)
    : FileSystem * option CacheError :=
  run_command (mkCommand "go" (["build"] ++ goBuildFlags debug ++ ["-buildmode=plugin"; "-o"; LocalCacheExtension dirs m; "./standalone"]) [] path) fs.

(** Whether a c-shared library was built, the disk and the error. *)
Definition BuildExtensionFromPath (dirs : Directories) (m : Manifest) (path : string) (debug : bool) (fs : FileSystem)
    : bool * FileSystem * option CacheError :=
  match run_command (mkCommand "go" ["mod"; "tidy"] [] path) fs with
  | (fs1, Some e) => (false, fs1, Some e)
  | (fs1, None) =>
      let bm := set_build (Remote m) (CShared m) debug m in
      if HasCSharedMain fs1 path then (true, (buildExtensionCShared dirs bm path debug fs1).1, (buildExtensionCShared dirs bm path debug fs1).2)
      else (false, (buildExtensionPlugin dirs bm path debug fs1).1, (buildExtensionPlugin dirs bm path debug fs1).2)
  end.

(** The build tags from the Makefile. *)
Definition make_tags (fs : FileSystem) (src : string) : string :=
  let common := JoinAll [src; "Makefile.common"] in
  if exists_path fs common then
    match ReadFile fs common ≫= dotenv with
    | Some env => match env !! "BUILD_TAGS" with Some tags => TrimSpace (TrimPrefix tags "=") | None => "" end
    | None => ""
    end
  else "".

Definition BuildLibComposer (dirs : Directories) (src version : string) (lite debug : bool) (fs : FileSystem)
    : FileSystem * option CacheError :=
  let dest := if lite then LocalCacheComposerLiteLib dirs (cacheVersion debug version)
              else LocalCacheComposerLib dirs (cacheVersion debug version) in
  mkdir_then (Dir dest) (fun fs1 =>
    let tags := make_tags fs1 src in
    let tags := if lite then (if bool_decide (tags = "") then "" else tags +:+ ",") +:+ "lite" else tags in
    run_command (mkCommand "go" (["build"] ++ goBuildFlags debug ++ ["-buildmode=c-shared"; "-o"; dest] ++
      (if bool_decide (tags = "") then [] else ["-tags"; tags]) ++ ["./main"]) ["CGO_ENABLED=1"] src) fs1) fs.

Definition ensureComposerLiteLib (dirs : Directories) (version : string) (fs : FileSystem) : FileSystem * option CacheError :=
  let liteLib := LocalCacheComposerLiteLib dirs version in
  if exists_path fs liteLib then (fs, None)
  else
    let legacy := JoinAll [LocalCacheComposerLiteDir dirs version; "lib" +:+ ComposerBundle +:+ ".so"] in
    if negb (exists_path fs legacy) then (fs, None)
    else match Rename fs legacy liteLib with Some fs' => (fs', None) | None => (fs, Some ErrDisk) end.

Definition BuildDynamicModule (dirs : Directories) (m : Manifest) (path : string) (debug : bool) (fs : FileSystem)
    : FileSystem * option CacheError :=
  let m := set_build (Remote m) (CShared m) debug m in
  match run_command (mkCommand "cargo" (["build"; "--target-dir"; "./target"] ++ (if debug then [] else ["--release"])) [] path) fs with
  | (fs1, Some e) => (fs1, Some e)
  | (fs1, None) =>
      let srcLib := JoinAll [path; "target"; if debug then "debug" else "release"; "lib" +:+ RustLibNameFromName (Name m) +:+ "." +:+ libext] in
      if negb (exists_path fs1 srcLib) then (fs1, Some (ErrMissingLibrary srcLib))
      else mkdir_then (LocalCacheExtensionDir dirs m) (fun fs2 =>
        match copyFile fs2 srcLib (LocalCacheExtension dirs m) with
        | (fs3, false) => (fs3, Some ErrDisk)
        | (fs3, true) =>
            let '(fs4, ok) := copyExtensionManifests fs3 path (LocalCacheExtensionDir dirs m) in (fs4, if ok then None else Some ErrDisk)
        end) fs1
  end.

(** [os.IsNotExist] is taken to hold whenever a path cannot be found. *)
Definition CheckOrBuildDynamicModule (dirs : Directories) (m : Manifest) (path : string) (fs : FileSystem) : FileSystem * option CacheError :=
  if negb (exists_path fs (JoinAll [path; "Cargo.toml"])) then (fs, Some (ErrUnsupportedModule path))
  else if exists_path fs (LocalCacheExtension dirs m) then (fs, None)
  else BuildDynamicModule dirs m path false fs.

Definition BuildExtProcBinary (dirs : Directories) (m : Manifest) (path : string) (fs : FileSystem) : FileSystem * option CacheError :=
  mkdir_then (LocalCacheExtensionDir dirs m)
    (run_command (mkCommand "go" ["build"; "-a"; "-ldflags=-s -w"; "-o"; LocalCacheExtension dirs m; "."] ["CGO_ENABLED=0"] path)) fs.

Definition CheckOrBuildExtProcBinary (dirs : Directories) (m : Manifest) (path : string) (fs : FileSystem) : FileSystem * option CacheError :=
  if negb (exists_path fs (JoinAll [path; "go.mod"])) then (fs, Some (ErrUnsupportedModule path))
  else if exists_path fs (LocalCacheExtension dirs m) then (fs, None)
  else BuildExtProcBinary dirs m path fs.

Definition BuildWasm (dirs : Directories) (m : Manifest) (path : string) (fs : FileSystem) : FileSystem * option CacheError :=
  mkdir_then (LocalCacheExtensionDir dirs m) (fun fs1 =>
    match run_command (mkCommand "go" ["build"; "-buildmode=c-shared"; "-o"; LocalCacheExtension dirs m; "."]
                         ["GOOS=wasip1"; "GOARCH=wasm"; "CGO_ENABLED=0"] path) fs1 with
    | (fs2, Some e) => (fs2, Some e)
    | (fs2, None) =>
        let '(fs3, ok) := copyExtensionManifests fs2 path (LocalCacheExtensionDir dirs m) in (fs3, if ok then None else Some ErrDisk)
    end) fs.
End Builds.

(** ** The slots are separate *)

(** A slot of the cache: its kind, a module name and a version. *)
Record Slot : Type := mkSlot { s_kind : option string; s_name : string; s_version : string }.

#[export] Instance Slot_eq_dec : EqDecision Slot.
Proof. solve_decision. Defined.

Definition slot_elems (s : Slot) : list string :=
  "extensions" :: match s_kind s with Some k => [k; s_name s; s_version s] | None => [s_name s; s_version s] end.
Definition slot_path (dirs : Directories) (s : Slot) : string := JoinAll (DataHome dirs :: slot_elems s).

Definition cache_kind (m : Manifest) : option string :=
  if bool_decide (m_Type m = TypeGo) then Some (if CShared m then "dym" else "goplugin")
  else if bool_decide (m_Type m = TypeRust) then Some "dym"
  else if bool_decide (m_Type m = TypeWasm) then Some "wasm"
  else if bool_decide (m_Type m = TypeExtProc) then Some "extproc"
  else if bool_decide (m_Type m = TypeComposer) then Some "dym"
  else None.
Definition slot_of (m : Manifest) : Slot := mkSlot (cache_kind m) (ModuleName m) (cache_version m).
Definition source_slot (m : Manifest) : Slot := mkSlot (Some "src") (ModuleName m) (Version m).

Lemma LocalCacheExtensionDir_slot dirs m : LocalCacheExtensionDir dirs m = slot_path dirs (slot_of m).
Proof.
  unfold LocalCacheExtensionDir, slot_path, slot_of, slot_elems, cache_kind. cbn [s_kind s_name s_version].
  do 5 (case_bool_decide; [try destruct (CShared m); reflexivity|]). reflexivity.
Qed.

Definition plain_name (s : string) : Prop := plain_seg s /\ slash_free s.
Definition plain_slot (s : Slot) : Prop :=
  match s_kind s with Some k => plain_name k | None => True end /\ plain_name (s_name s) /\ plain_name (s_version s).

Lemma slot_elems_plain s : plain_slot s -> Forall plain_seg (slot_elems s) /\ Forall slash_free (slot_elems s).
Proof.
  intros (Hk & [? ?] & [? ?]). assert (plain_seg "extensions" /\ slash_free "extensions") as [? ?] by (by repeat split).
  unfold slot_elems. destruct (s_kind s); [destruct Hk|]; split; repeat (constructor; [done|]); constructor.
Qed.

Lemma slot_path_segs dirs s :
  DataHome dirs <> "" -> plain_slot s ->
  is_rooted (slot_path dirs s) = is_rooted (DataHome dirs) /\ clean_segs (slot_path dirs s) = clean_segs (DataHome dirs) ++ slot_elems s.
Proof. intros Hd [Hp Hf]%slot_elems_plain. by apply JoinAll_segs. Qed.

Lemma slot_path_inj dirs s1 s2 :
  DataHome dirs <> "" -> plain_slot s1 -> plain_slot s2 -> slot_path dirs s1 = slot_path dirs s2 -> s1 = s2.
Proof.
  intros Hd H1 H2 He. destruct (slot_path_segs dirs s1 Hd H1) as [_ E1], (slot_path_segs dirs s2 Hd H2) as [_ E2].
  rewrite He, E2 in E1. apply app_inv_head in E1. unfold slot_elems in E1.
  destruct s1 as [[k1|] n1 v1], s2 as [[k2|] n2 v2]; cbn in E1; congruence.
Qed.

Lemma cache_kind_plain m : match cache_kind m with Some k => plain_name k | None => True end.
Proof. unfold cache_kind. repeat case_bool_decide; try destruct (CShared m); by repeat split. Qed.

Lemma app_debug_inj v w : v +:+ "-debug" = w +:+ "-debug" -> v = w.
Proof.
  revert w. induction v as [|c v IH]; intros [|d w] He; cbn in He; try done.
  - apply (f_equal String.length) in He. cbn in He. rewrite str_length_app in He. cbn in He. lia.
  - apply (f_equal String.length) in He. cbn in He. rewrite str_length_app in He. cbn in He. lia.
  - injection He as -> He. f_equal. by apply IH.
Qed.

(** What keeps two builds apart. *)
Definition plain_artifact (m : Manifest) : Prop :=
  plain_name (ModuleName m) /\ plain_name (Version m) /\ HasSuffix (Version m) "-debug" = false.

Lemma HasSuffix_app a p : HasSuffix (a +:+ p) p = true.
Proof.
  unfold HasSuffix. apply bool_decide_eq_true_2. rewrite str_length_app. split; [lia|].
  replace (String.length a + String.length p - String.length p)%nat with (String.length a) by lia. apply drop_bytes_app.
Qed.

Lemma slash_free_app a b : slash_free a -> slash_free b -> slash_free (a +:+ b).
Proof.
  unfold slash_free. induction a as [|c a IH]; cbn; [done|]. intros [-> Ha]%orb_false_iff Hb. cbn. by apply IH.
Qed.

Lemma plain_DebugVersion v : plain_name v -> plain_name (DebugVersion v).
Proof.
  intros [_ Hf]. split; [|by apply slash_free_app]. unfold DebugVersion.
  assert (Hl : (6 <= String.length (v +:+ "-debug"))%nat) by (rewrite str_length_app; cbn; lia).
  split_and!; intros E; rewrite E in Hl; cbn in Hl; lia.
Qed.

Lemma plain_artifact_slots m : plain_artifact m -> plain_slot (slot_of m) /\ plain_slot (source_slot m).
Proof.
  intros (Hn & Hv & _). split; (split; [|split]); cbn; try done; [apply cache_kind_plain|].
  unfold cache_version. destruct (m_Debug m); [by apply plain_DebugVersion|done].
Qed.

Lemma cache_version_inj m1 m2 :
  plain_artifact m1 -> plain_artifact m2 -> cache_version m1 = cache_version m2 -> Version m1 = Version m2 /\ m_Debug m1 = m_Debug m2.
Proof.
  intros (_ & _ & H1) (_ & _ & H2). unfold cache_version. destruct (m_Debug m1), (m_Debug m2); intros He; try done.
  - by apply app_debug_inj in He.
  - rewrite <- He in H2. unfold DebugVersion in H2. by rewrite HasSuffix_app in H2.
  - rewrite He in H1. unfold DebugVersion in H1. by rewrite HasSuffix_app in H1.
Qed.

(** For names and versions that are plain path components, two manifests share a cache
    directory exactly if they have the same kind of library, module name, version and debug
    setting: a debug build never meets a regular one, and no build meets a source artifact; every
    cache directory lies in the data directory. *)
Theorem cache_slots_separate dirs m1 m2 :
  DataHome dirs <> "" -> plain_artifact m1 -> plain_artifact m2 ->
  (LocalCacheExtensionDir dirs m1 = LocalCacheExtensionDir dirs m2 <->
     cache_kind m1 = cache_kind m2 /\ ModuleName m1 = ModuleName m2 /\ Version m1 = Version m2 /\ m_Debug m1 = m_Debug m2) /\
  LocalCacheExtensionDir dirs m1 <> LocalCacheExtensionSourceArtifactDir dirs m2 /\
  clean_segs (DataHome dirs) ++ ["extensions"] `prefix_of` clean_segs (LocalCacheExtensionDir dirs m1).
Proof.
  intros Hd H1 H2. destruct (plain_artifact_slots _ H1) as [P1 _], (plain_artifact_slots _ H2) as [P2 S2].
  rewrite !LocalCacheExtensionDir_slot. split_and!.
  - split.
    + intros He%slot_path_inj; [|done..]. injection He as E1 E2 E3. split_and!; try done; by apply cache_version_inj.
    + intros (E1 & E2 & E3 & E4). f_equal. unfold slot_of, cache_version. by rewrite E1, E2, E3, E4.
  - intros He. change (LocalCacheExtensionSourceArtifactDir dirs m2) with (slot_path dirs (source_slot m2)) in He.
    apply slot_path_inj in He; [|done..]. injection He as E1 _ _. revert E1. unfold cache_kind.
    repeat case_bool_decide; try destruct (CShared m1); done.
  - destruct (slot_path_segs dirs (slot_of m1) Hd P1) as [_ ->]. unfold slot_elems.
    destruct (s_kind (slot_of m1)); eexists; by rewrite <- app_assoc.
Qed.

(** A name that is not a plain component leads out of the data directory: the name of a
    downloaded artifact is the title its registry gives it. *)
Definition hostile_annotations : Annotations :=
  list_to_map [(AnnotationTitle, "../../../../.ssh"); (AnnotationVersion, "."); (OCIAnnotationExtensionType, "rust")].

Theorem cache_dir_escapes :
  LocalCacheExtensionDir (mkDirectories "" "/home/u/share/boe" "" "") (ManifestFromOCI hostile_annotations) = "/home/u/.ssh".
Proof. vm_compute. reflexivity. Qed.

(** ** Names and annotations *)

Lemma Split_Join_sep c segs :
  segs <> [] -> Forall (fun s => ContainsByte s c = false) segs -> Split (Join segs (String c "")) c = segs.
Proof.
  intros Hne Hs. induction Hs as [|s segs Hs Hf IH]; [done|]. destruct segs as [|s' segs].
  - unfold Join. cbn [String.concat]. by apply Split_absent.
  - change (Join (s :: s' :: segs) (String c "")) with (s +:+ String c (Join (s' :: segs) (String c ""))).
    rewrite Split_app, IH by done. by rewrite Split_absent.
Qed.

(** The name of an extension is recovered from its repository. *)
Theorem repository_roundtrip registry name :
  slash_free name -> NameFromRepository (RepositoryName registry name) = name.
Proof.
  intros Hf. unfold NameFromRepository, RepositoryName.
  destruct (bool_decide (name = ComposerBundle) || bool_decide (name = ComposerLiteBundle)) eqn:Hc.
  - change (registry +:+ "/" +:+ name) with (registry +:+ String slash name).
    rewrite Split_app, (Split_slash_free name) by done. rewrite last_snoc. cbn [default].
    apply orb_true_iff in Hc as [Hc|Hc]; apply bool_decide_eq_true in Hc; subst; reflexivity.
  - change (registry +:+ "/extension-" +:+ name) with (registry +:+ String slash ("extension-" +:+ name)).
    rewrite Split_app, (Split_slash_free ("extension-" +:+ name)) by (by apply slash_free_app).
    rewrite last_snoc. cbn [default]. apply TrimPrefix_app.
Qed.

Definition known_filter_types : list string := [FilterTypeHTTP; FilterTypeNetwork; FilterTypeListener; FilterTypeUDPListener].

Lemma known_filter_type_ok t : t ∈ known_filter_types -> TrimSpace t = t /\ ContainsByte t ","%char = false /\ t <> "".
Proof. unfold known_filter_types. rewrite !elem_of_cons. intros [->|[->|[->|[->|Ht]]]]; [by vm_compute..|by apply not_elem_of_nil in Ht]. Qed.

Lemma known_filter_types_join l : l <> [] -> Forall (fun t => t ∈ known_filter_types) l -> Join l "," <> "".
Proof.
  intros Hne Hk. destruct Hk as [|t ts Ht _]; [done|]. destruct (known_filter_type_ok t Ht) as (_ & _ & Hn). by destruct t, ts.
Qed.

Lemma known_filter_types_trim l : Forall (fun t => t ∈ known_filter_types) l -> TrimSpace <$> l = l.
Proof. induction 1 as [|t ts Ht _ IH]; [done|]. cbn. rewrite IH. f_equal. by apply known_filter_type_ok. Qed.

Lemma annotations_lookup m :
  let a := OCIAnnotationsForManifest m in
  annotation a AnnotationTitle = Name m /\ annotation a AnnotationDescription = Description m /\
  annotation a AnnotationVersion = Version m /\ annotation a OCIAnnotationComposerVersion = ComposerVersion m /\
  annotation a AnnotationAuthors = Author m /\ annotation a AnnotationLicenses = License m /\
  annotation a OCIAnnotationExtensionType = m_Type m /\ annotation a OCIAnnotationFilterType = Join (FilterTypes m) "," /\
  annotation a OCIAnnotationCShared = FormatBool (CShared m).
Proof. unfold annotation, OCIAnnotationsForManifest. cbn [list_to_map foldr fst snd]. split_and!; by simplify_map_eq. Qed.

(** The annotations of a manifest with known filter types give back its name, description,
    versions, author, license, type, filter types and kind of library. *)
Theorem annotations_roundtrip m (m' := ManifestFromOCI (OCIAnnotationsForManifest m)) :
  FilterTypes m <> [] -> Forall (fun t => t ∈ known_filter_types) (FilterTypes m) ->
  Name m' = Name m /\ Description m' = Description m /\ Version m' = Version m /\ ComposerVersion m' = ComposerVersion m /\
  Author m' = Author m /\ License m' = License m /\ m_Type m' = m_Type m /\ CShared m' = CShared m /\ FilterTypes m' = FilterTypes m.
Proof.
  intros Hne Hk. destruct (annotations_lookup m) as (E1 & E2 & E3 & E4 & E5 & E6 & E7 & E8 & E9).
  subst m'. unfold ManifestFromOCI. rewrite E1, E2, E3, E4, E5, E6, E7, E8, E9.
  clear E1 E2 E3 E4 E5 E6 E7 E8 E9.
  rewrite (bool_decide_eq_false_2 _ (known_filter_types_join _ Hne Hk)).
  rewrite Split_Join_sep; [|exact Hne|eapply Forall_impl; [exact Hk|]; intros t Ht; by apply known_filter_type_ok].
  rewrite known_filter_types_trim by exact Hk. unfold ApplyDefaults. cbn [FilterTypes]. rewrite (bool_decide_eq_false_2 _ Hne). cbn.
  split_and!; try reflexivity. by destruct (CShared m).
Qed.

(** ** Finding an extension in a tree *)

Section FindSpec.
Context (yaml_parse : string -> option YNode) (decode : YNode -> option Manifest) (schema_error : Manifest -> option string).
Local Abbreviation local_manifest := (local_manifest yaml_parse decode schema_error).
Local Abbreviation find_extension := (find_extension yaml_parse decode schema_error).
Local Abbreviation FindExtensionPath := (FindExtensionPath yaml_parse decode schema_error).

(** The manifest files among the paths of a tree, with where they are. *)
Definition manifest_in (base : string) (l : list (Path * Node)) (path : string) : Prop :=
  exists r n, (r, n) ∈ l /\ last r = Some "manifest.yaml" /\ path = JoinAll [base; Join r "/"].

Lemma manifest_in_cons base rn l path : manifest_in base l path -> manifest_in base (rn :: l) path.
Proof. intros (r & n & Hin & H). exists r, n. split; [by apply list_elem_of_further|done]. Qed.

Lemma find_extension_spec fs base name skip found l :
  (skip = None \/ found <> "") ->
  match find_extension fs base name skip found l with
  | Ok path =>
      (path = found \/ exists p m, manifest_in base l p /\ local_manifest fs p = Ok m /\ Name m = name /\ path = Dir p) /\
      (path = "" -> forall p, manifest_in base l p -> exists m, local_manifest fs p = Ok m /\ Name m <> name)
  | Err e => exists p, manifest_in base l p /\ local_manifest fs p = Err e
  end.
Proof.
  revert skip found. induction l as [|[r n] l IH]; intros skip found Hs; cbn [CliCache.find_extension].
  { split; [by left|]. intros _ p (r & n & Hin & _). by apply not_elem_of_nil in Hin. }
  assert (Hnext : forall skip' found' (Q : string -> Prop), (skip' = None \/ found' <> "") ->
    (Q found') -> (forall p m, manifest_in base ((r, n) :: l) p -> local_manifest fs p = Ok m -> Name m = name -> Q (Dir p)) ->
    (found' = "" -> last r = Some "manifest.yaml" -> exists m, local_manifest fs (JoinAll [base; Join r "/"]) = Ok m /\ Name m <> name) ->
    match find_extension fs base name skip' found' l with
    | Ok path => Q path /\ (path = "" -> forall p, manifest_in base ((r, n) :: l) p -> exists m, local_manifest fs p = Ok m /\ Name m <> name)
    | Err e => exists p, manifest_in base ((r, n) :: l) p /\ local_manifest fs p = Err e
    end).
  { intros skip' found' Q Hs' Q1 Q2 Hhead. specialize (IH skip' found' Hs'). destruct (find_extension fs base name skip' found' l) as [path|e].
    - destruct IH as [Hp He]. split.
      + destruct Hp as [->|(p & m & H1 & H2 & H3 & ->)]; [done|]. eapply Q2; [by apply manifest_in_cons|done..].
      + intros Hpath p (r' & n' & [[= -> ->]|Hin]%elem_of_cons & Hl & ->); [|apply He; [done|]; by exists r', n'].
        apply Hhead; [|done]. destruct Hp as [Hp|(p & m & _ & _ & _ & Hp)]; [congruence|]. subst. by destruct (Dir_nonempty p).
    - destruct IH as (p & H1 & H2). exists p. split; [by apply manifest_in_cons|done]. }
  destruct (match skip with Some d => bool_decide (is_Some (strip_prefix d r)) | None => false end) eqn:Hskip.
  { apply Hnext; [done|by left|by eauto 10|]. intros -> _. by destruct skip, Hs. }
  case_bool_decide as Hl; [|apply Hnext; [done|by left|by eauto 10|by intros _ ?]].
  assert (Hin : manifest_in base ((r, n) :: l) (JoinAll [base; Join r "/"])) by (exists r, n; split; [left|done]).
  destruct (local_manifest fs (JoinAll [base; Join r "/"])) as [m|e] eqn:Hm; cbn [rbind]; [|by eauto].
  case_bool_decide as Hname.
  - apply Hnext; [right; apply Dir_nonempty|by eauto 10|by eauto 10|]. intros He. by destruct (Dir_nonempty (JoinAll [base; Join r "/"])).
  - apply Hnext; [done|by left|by eauto 10|]. intros _ _. by exists m.
Qed.

(** The path found for an extension is the directory of a manifest of the tree that loads and
    has its name; not found means that every manifest of the tree loads and has another name, and
    any other failure is that of a manifest of the tree, or of the tree itself. *)
Theorem FindExtensionPath_spec fs base name :
  match FindExtensionPath fs base name with
  | Ok path =>
      exists p m, manifest_in base (walk fs (clean_segs base)) p /\ local_manifest fs p = Ok m /\ Name m = name /\ path = Dir p
  | Err (ErrNotFound name' base') =>
      name' = name /\ base' = base /\
      forall p, manifest_in base (walk fs (clean_segs base)) p -> exists m, local_manifest fs p = Ok m /\ Name m <> name
  | Err (ErrWalk _) => node_at fs (clean_segs base) = None
  | Err e => exists p, manifest_in base (walk fs (clean_segs base)) p /\ local_manifest fs p = Err e
  end.
Proof.
  unfold CliCache.FindExtensionPath. destruct (node_at fs (clean_segs base)) eqn:Hn; [|done].
  pose proof (find_extension_spec fs base name None "" (walk fs (clean_segs base)) (or_introl eq_refl)) as Hs.
  destruct (find_extension fs base name None "" _) as [path|e]; cbn [rbind].
  - destruct Hs as [H1 H2]. case_bool_decide as Hp; [by auto|]. by destruct H1.
  - destruct Hs as (p & Hin & He). pose proof He as He'. unfold CliCache.local_manifest in He'.
    destruct (LoadLocalManifest _ _ _ _ p); [done|]. injection He' as <-. by eauto.
Qed.

(** The comment asks for composer-lite first; the manifest of the full composer wins. *)
Theorem composer_manifest_full_first fs dirs version m :
  exists_path fs (JoinAll [LocalCacheComposerSourceDir dirs version; "manifest.yaml"]) = false ->
  exists_path fs (JoinAll [LocalCacheComposerDir dirs version; "manifest.yaml"]) = true ->
  local_manifest fs (JoinAll [LocalCacheComposerDir dirs version; "manifest.yaml"]) = Ok m ->
  GetComposerManifest yaml_parse decode schema_error fs dirs version = Ok m.
Proof. intros H1 H2 H3. unfold GetComposerManifest. cbn [first_manifest]. by rewrite H1, H2. Qed.
End FindSpec.

(** ** What a build leaves behind *)

Lemma LocalCacheExtension_rooted dirs m : is_rooted (DataHome dirs) = true -> is_rooted (LocalCacheExtension dirs m) = true.
Proof. intros Hr. apply JoinAll_rooted. rewrite LocalCacheExtensionDir_slot. by apply JoinAll_rooted. Qed.

Lemma copyFile_grows fs src dst : grows fs (copyFile fs src dst).1.
Proof.
  unfold copyFile. destruct (ReadFile fs src) as [data|]; [|apply grows_refl].
  destruct (WriteFile fs (clean_segs dst) data) eqn:Hw; [by apply WriteFile_grows in Hw as [? _]|apply grows_refl].
Qed.

Lemma copy_metadata_grows srcDir dstDir fs l : grows fs (copy_metadata srcDir dstDir fs l).1.
Proof.
  revert fs. induction l as [|[r n] l IH]; intros fs; cbn [copy_metadata]; [apply grows_refl|].
  destruct (bool_decide (n = NDir) || _); [apply IH|].
  pose proof (MkdirAll_grows fs (clean_segs (Dir (metadata_dest dstDir (Join r "/"))))) as H1. destruct (MkdirAll fs _) as [fs1 []]; [|done].
  pose proof (copyFile_grows fs1 (JoinAll [srcDir; Join r "/"]) (metadata_dest dstDir (Join r "/"))) as H2.
  destruct (copyFile fs1 _ _) as [fs2 []]; (eapply grows_trans; [exact H1|]); [|done]. eapply grows_trans; [exact H2|apply IH].
Qed.

Lemma copyExtensionManifests_grows fs src dst : grows fs (copyExtensionManifests fs src dst).1.
Proof. unfold copyExtensionManifests. destruct (node_at fs _); [apply copy_metadata_grows|apply grows_refl]. Qed.

(** The file a command is told to write. *)
Fixpoint output_of (args : list string) : option string :=
  match args with
  | [] => None
  | a :: rest => if bool_decide (a = "-o") then head rest else output_of rest
  end.

Lemma output_of_app pre dest post :
  Forall (fun a => a <> "-o") pre -> output_of (pre ++ "-o" :: dest :: post) = Some dest.
Proof.
  induction 1 as [|a pre Ha _ IH]; cbn; [done|]. by rewrite bool_decide_eq_false_2.
Qed.

Lemma goBuildFlags_plain debug : Forall (fun a => a <> "-o") (goBuildFlags debug).
Proof. destruct debug; by repeat constructor. Qed.

Section Installs.
Context (exec : Command -> FileSystem -> FileSystem * bool) (dotenv : string -> option (gmap string string)) (libext : string).
(** A command of the toolchain that succeeds has written its output. *)
Hypothesis exec_output : forall c fs fs' dest,
  exec c fs = (fs', true) -> output_of (c_args c) = Some dest -> is_rooted dest = true -> exists_path fs' dest = true.

Lemma run_command_output c fs fs' dest :
  run_command exec c fs = (fs', None) -> output_of (c_args c) = Some dest -> is_rooted dest = true -> exists_path fs' dest = true.
Proof. unfold run_command. destruct (exec c fs) as [fs1 []] eqn:He; [|done]. intros [= <-]. by apply (exec_output c fs). Qed.

Lemma mkdir_then_Ok dir k fs fs' : mkdir_then dir k fs = (fs', None) -> exists fs1, k fs1 = (fs', None).
Proof. unfold mkdir_then. destruct (MkdirAll fs _) as [fs1 []]; [by exists fs1|done]. Qed.

Lemma output_of_go debug mode dest post :
  mode <> "-o" -> output_of (["build"] ++ goBuildFlags debug ++ [mode; "-o"; dest] ++ post) = Some dest.
Proof.
  intros Hm. rewrite (app_assoc ["build"]). change ([mode; "-o"; dest] ++ post) with ([mode] ++ "-o" :: dest :: post).
  rewrite (app_assoc _ [mode]). apply output_of_app. rewrite !Forall_app. split_and!; [by repeat constructor|apply goBuildFlags_plain|by repeat constructor].
Qed.

Lemma BuildExtensionFromPath_installs dirs m path debug fs fs' cshared :
  is_rooted (DataHome dirs) = true -> BuildExtensionFromPath exec dirs m path debug fs = (cshared, fs', None) ->
  exists_path fs' (LocalCacheExtension dirs (set_build (Remote m) (cshared || CShared m) debug m)) = true.
Proof.
  intros Hr. unfold BuildExtensionFromPath. destruct (run_command exec _ fs) as [fs1 [e|]]; [done|].
  destruct (HasCSharedMain fs1 path); intros Hb; injection Hb as <- Hfs Herr; cbn [orb].
  - unfold buildExtensionCShared in *. destruct (mkdir_then _ _ fs1) as [fs2 e2] eqn:Hm. cbn [fst snd] in Hfs, Herr. subst.
    apply mkdir_then_Ok in Hm as [fs2 Hm]. eapply run_command_output; [exact Hm|by apply (output_of_go debug "-buildmode=c-shared")|].
    by apply LocalCacheExtension_rooted.
  - unfold buildExtensionPlugin in *. destruct (run_command exec _ fs1) as [fs2 e2] eqn:Hm. cbn [fst snd] in Hfs, Herr. subst.
    eapply run_command_output; [exact Hm|by apply (output_of_go debug "-buildmode=plugin")|by apply LocalCacheExtension_rooted].
Qed.

Lemma BuildLibComposer_installs dirs src version lite debug fs fs' :
  is_rooted (DataHome dirs) = true -> BuildLibComposer exec dotenv dirs src version lite debug fs = (fs', None) ->
  exists_path fs' ((if lite then LocalCacheComposerLiteLib else LocalCacheComposerLib) dirs (cacheVersion debug version)) = true.
Proof.
  intros Hr. unfold BuildLibComposer. intros [fs1 Hm]%mkdir_then_Ok. revert Hm. cbv zeta. intros Hm.
  eapply run_command_output; [exact Hm|..].
  - cbn [c_args]. rewrite (output_of_go debug "-buildmode=c-shared" _ _ ltac:(done)). by destruct lite.
  - destruct lite; by apply JoinAll_rooted, JoinAll_rooted.
Qed.

Lemma BuildDynamicModule_installs dirs m path debug fs fs' :
  BuildDynamicModule exec libext dirs m path debug fs = (fs', None) ->
  exists_path fs' (LocalCacheExtension dirs (set_build (Remote m) (CShared m) debug m)) = true.
Proof.
  unfold BuildDynamicModule. destruct (run_command exec _ fs) as [fs1 [e|]]; [done|]. case_match; [done|].
  intros [fs2 Hk]%mkdir_then_Ok. revert Hk. generalize (set_build (Remote m) (CShared m) debug m) as bm. intros bm.
  unfold copyFile. destruct (ReadFile fs2 _) as [data|]; [|done]. destruct (WriteFile fs2 _ data) as [fs3|] eqn:Hw; [|done].
  pose proof (copyExtensionManifests_grows fs3 path (LocalCacheExtensionDir dirs bm)) as Hg.
  destruct (copyExtensionManifests fs3 _ _) as [fs4 []]; [|done]. intros [= <-].
  eapply exists_path_grows; [exact Hg|]. unfold exists_path. apply bool_decide_eq_true. apply WriteFile_grows in Hw as [_ ->]. by eexists.
Qed.

Lemma BuildExtProcBinary_installs dirs m path fs fs' :
  is_rooted (DataHome dirs) = true -> BuildExtProcBinary exec dirs m path fs = (fs', None) -> exists_path fs' (LocalCacheExtension dirs m) = true.
Proof.
  intros Hr [fs1 Hm]%mkdir_then_Ok. eapply run_command_output; [exact Hm|done|by apply LocalCacheExtension_rooted].
Qed.

Lemma BuildWasm_installs dirs m path fs fs' :
  is_rooted (DataHome dirs) = true -> BuildWasm exec dirs m path fs = (fs', None) -> exists_path fs' (LocalCacheExtension dirs m) = true.
Proof.
  intros Hr [fs1 Hm]%mkdir_then_Ok. destruct (run_command exec _ fs1) as [fs2 [e|]] eqn:Hc; [done|].
  pose proof (copyExtensionManifests_grows fs2 path (LocalCacheExtensionDir dirs m)) as Hg.
  destruct (copyExtensionManifests fs2 _ _) as [fs3 []]; [|done]. injection Hm as <-.
  eapply exists_path_grows; [exact Hg|]. eapply run_command_output; [exact Hc|done|by apply LocalCacheExtension_rooted].
Qed.

(** When commands of the toolchain write the output they are given, every build that reports
    success leaves its library exactly where the cache, and so the generated configuration, looks
    for it, in the slot of its build options; likewise the checks that skip a build. *)
Theorem build_installs dirs m path fs fs' :
  is_rooted (DataHome dirs) = true ->
  (forall cshared debug, BuildExtensionFromPath exec dirs m path debug fs = (cshared, fs', None) ->
     exists_path fs' (LocalCacheExtension dirs (set_build (Remote m) (cshared || CShared m) debug m)) = true) /\
  (forall version lite debug, BuildLibComposer exec dotenv dirs path version lite debug fs = (fs', None) ->
     exists_path fs' ((if lite then LocalCacheComposerLiteLib else LocalCacheComposerLib) dirs (cacheVersion debug version)) = true) /\
  (m_Debug m = false -> CheckOrBuildDynamicModule exec libext dirs m path fs = (fs', None) -> exists_path fs' (LocalCacheExtension dirs m) = true) /\
  (CheckOrBuildExtProcBinary exec dirs m path fs = (fs', None) -> exists_path fs' (LocalCacheExtension dirs m) = true) /\
  (BuildWasm exec dirs m path fs = (fs', None) -> exists_path fs' (LocalCacheExtension dirs m) = true).
Proof.
  intros Hr. split_and!.
  - intros cshared debug. by apply BuildExtensionFromPath_installs.
  - intros version lite debug. by apply BuildLibComposer_installs.
  - intros Hd. unfold CheckOrBuildDynamicModule. case_match; [done|]. case_match; [by intros [= <-]|]. intros Hb.
    apply BuildDynamicModule_installs in Hb. destruct m. cbn in Hd. by subst.
  - unfold CheckOrBuildExtProcBinary. case_match; [done|]. case_match; [by intros [= <-]|]. by apply BuildExtProcBinary_installs.
  - by apply BuildWasm_installs.
Qed.
End Installs.

(** ** Witnesses *)

Definition example_dirs : Directories := mkDirectories "/home/u/.config/boe" "/home/u/share/boe" "/home/u/state/boe" "/tmp/boe".
Definition example_go : Manifest := set_versions "1.2.0" "0.9.0" "" "" (named "example" "" "").

Lemma cache_slots_separate_witness :
  LocalCacheExtensionDir example_dirs example_go <> LocalCacheExtensionDir example_dirs (set_build false false true example_go).
Proof.
  intros He. destruct (cache_slots_separate example_dirs example_go (set_build false false true example_go)) as [[W _] _].
  - discriminate.
  - split_and!; vm_compute; (reflexivity || (repeat split; discriminate)).
  - split_and!; vm_compute; (reflexivity || (repeat split; discriminate)).
  - destruct (W He) as (_ & _ & _ & Hd). discriminate Hd.
Defined.

Lemma annotations_roundtrip_witness :
  FilterTypes (ManifestFromOCI (OCIAnnotationsForManifest (set_filter_types ["network"; "http"] example_go))) = ["network"; "http"].
Proof.
  apply (annotations_roundtrip (set_filter_types ["network"; "http"] example_go)).
  - discriminate.
  - repeat constructor; unfold known_filter_types; apply bool_decide_eq_true; vm_compute; reflexivity.
Defined.

(** A toolchain that writes its output. *)
Definition writing_exec (c : Command) (fs : FileSystem) : FileSystem * bool :=
  match output_of (c_args c) with
  | Some dest =>
      match WriteFile (MkdirAll fs (clean_segs (Dir dest))).1 (clean_segs dest) "library" with
      | Some fs' => (fs', true)
      | None => (fs, false)
      end
  | None => (fs, true)
  end.

Lemma writing_exec_output c fs fs' dest :
  writing_exec c fs = (fs', true) -> output_of (c_args c) = Some dest -> is_rooted dest = true -> exists_path fs' dest = true.
Proof.
  unfold writing_exec. intros He Ho _. rewrite Ho in He. destruct (WriteFile _ _ "library") as [fs1|] eqn:Hw; [|done].
  injection He as <-. apply WriteFile_grows in Hw as [_ Hs]. unfold exists_path. by rewrite Hs.
Qed.

Definition sources_fs : FileSystem :=
  list_to_map [(["src"], NDir); (["src"; "main"], NDir); (["src"; "manifest.yaml"], NFile "name: example")].

Lemma build_installs_witness :
  (BuildExtensionFromPath writing_exec example_dirs example_go "/src" true sources_fs).2 = None /\
  exists_path (BuildExtensionFromPath writing_exec example_dirs example_go "/src" true sources_fs).1.2
    "/home/u/share/boe/extensions/dym/example/1.2.0-debug/libexample.so" = true.
Proof.
  pose proof (build_installs writing_exec (fun _ => None) "so" writing_exec_output example_dirs example_go "/src" sources_fs
    (BuildExtensionFromPath writing_exec example_dirs example_go "/src" true sources_fs).1.2 eq_refl) as [W _].
  assert (E1 : (BuildExtensionFromPath writing_exec example_dirs example_go "/src" true sources_fs).1.1 = true) by (vm_compute; reflexivity).
  assert (E2 : (BuildExtensionFromPath writing_exec example_dirs example_go "/src" true sources_fs).2 = None) by (vm_compute; reflexivity).
  specialize (W true true). revert E1 E2 W.
  generalize (BuildExtensionFromPath writing_exec example_dirs example_go "/src" true sources_fs) as b.
  intros [[b1 b2] b3] E1 E2 W. cbn [fst snd] in *. subst. split; [reflexivity|].
  replace "/home/u/share/boe/extensions/dym/example/1.2.0-debug/libexample.so"
    with (LocalCacheExtension example_dirs (set_build (Remote example_go) (true || CShared example_go) true example_go)) by (vm_compute; reflexivity).
  apply W. reflexivity.
Defined.
