(* ===== verification/CliDownload.v ===== *)
(** * cli: the registry client and the downloader

    cli/internal/oci/repository.go, registry.go and client.go, and
    cli/internal/extensions/downloader.go: listing tags, choosing the manifest of a platform,
    pulling an artifact below a directory, and downloading an extension or the composer with the
    fallback to its sources.  What a registry answers to each request is a [Target], the same
    for the whole of a download; JSON and gzip come with it.  The order of tags that compare
    equal is up to [sort.Slice], which is a parameter. *)

From S2P Require Import Prelude GoStr GoNum GoPath GoFS SSELines CliPackage CliManifest CliCache.
From Stdlib Require Import Lia Ascii Sorted.

Local Open Scope go_scope.

(** ** The registry *)

Record Platform : Type := mkPlatform { p_OS : string; p_Architecture : string }.

#[export] Instance Platform_eq_dec : EqDecision Platform.
Proof. solve_decision. Defined.

Record Descriptor : Type := mkDescriptor { d_MediaType : string; d_Digest : string; d_Platform : option Platform }.

Record OCIManifest : Type := mkOCIManifest { om_Annotations : gmap string string; om_Layers : list Descriptor }.
Record Index : Type := mkIndex { ix_Annotations : gmap string string; ix_Manifests : list Descriptor }.

(** What a repository answers; [None] is an error.  A blob is read as a manifest, an index or an
    archive. *)
Record Target : Type := mkTarget {
  t_Tags : option (list (list string));
  t_Resolve : string -> option Descriptor;
  t_Index : Descriptor -> option Index;
  t_Manifest : Descriptor -> option OCIManifest;
  t_Archive : Descriptor -> option Package;
}.

Inductive RepositoryError : Type :=
| ErrListTags
| ErrResolve (tag : string)
| ErrIndex
| ErrDecodeManifest
| ErrPlatformNotFound (platform : string)
| ErrFetchLayer
| ErrExtract (e : PackageError).

Definition MediaTypeImageIndex : string := "application/vnd.oci.image.index.v1+json".
Definition extensionTypeWasm : string := "wasm".
Definition platformUnknown : string := "unknown".

Definition cmp_Or (a b : string) : string := if bool_decide (a = "") then b else a.
Definition platformLogValue (p : option Platform) : string :=
  match p with
  | None => "any"
  | Some p => cmp_Or (p_OS p) "-" +:+ "/" +:+ cmp_Or (p_Architecture p) "-"
  end.

(** An attestation entry of an index. *)
Definition attestation (d : Descriptor) : bool :=
  match d_Platform d with
  | Some p => bool_decide (p_OS p = platformUnknown) && bool_decide (p_Architecture p = platformUnknown)
  | None => false
  end.

Fixpoint select_manifest (ignorePlatform : bool) (platform : option Platform) (ms : list Descriptor) : option Descriptor :=
  match ms with
  | [] => None
  | m :: ms' =>
      if attestation m then select_manifest ignorePlatform platform ms'
      else if ignorePlatform then Some m
      else match platform, d_Platform m with
      | Some p, Some q =>
          if bool_decide (p_OS q = p_OS p) && bool_decide (p_Architecture q = p_Architecture p) then Some m
          else select_manifest ignorePlatform platform ms'
      | _, _ => select_manifest ignorePlatform platform ms'
      end
  end.

Definition selectIndexManifest (index : Index) (platform : option Platform) : option Descriptor :=
  select_manifest (bool_decide (annotation (ix_Annotations index) OCIAnnotationExtensionType = extensionTypeWasm)) platform (ix_Manifests index).

Definition decodeManifest (t : Target) (desc : Descriptor) : result RepositoryError OCIManifest :=
  match t_Manifest t desc with Some m => Ok m | None => Err ErrDecodeManifest end.

(** The manifest, its descriptor and the error: when no manifest fits the platform, the index
    itself is returned with the error. *)
Definition fetchManifest (t : Target) (tag : string) (platform : option Platform)
    : option OCIManifest * option Descriptor * option RepositoryError :=
  match t_Resolve t tag with
  | None => (None, None, Some (ErrResolve tag))
  | Some desc =>
      let decoded desc :=
        match decodeManifest t desc with Ok m => (Some m, Some desc, None) | Err e => (None, None, Some e) end in
      if bool_decide (is_Some platform) && bool_decide (d_MediaType desc = MediaTypeImageIndex) then
        match t_Index t desc with
        | None => (None, None, Some ErrIndex)
        | Some index =>
            match selectIndexManifest index platform with
            | Some matched => decoded matched
            | None =>
                match decodeManifest t desc with
                | Ok m => (Some m, None, Some (ErrPlatformNotFound (platformLogValue platform)))
                | Err e => (None, None, Some e)
                end
            end
        end
      else decoded desc
  end.

Definition FetchManifest (t : Target) (tag : string) (platform : option Platform) : option OCIManifest * option RepositoryError :=
  let '(m, _, e) := fetchManifest t tag platform in (m, e).

(** The loop of [Pull] over the layers; what was extracted stays. *)
Fixpoint extract_layers (t : Target) (destPath : string) (layers : list Descriptor) (fs : FileSystem) : FileSystem * option RepositoryError :=
  match layers with
  | [] => (fs, None)
  | layer :: layers' =>
      match t_Archive t layer with
      | None => (fs, Some ErrFetchLayer)
      | Some data =>
          match extract_files data destPath fs with
          | (fs1, Some e) => (fs1, Some (ErrExtract e))
          | (fs1, None) => extract_layers t destPath layers' fs1
          end
      end
  end.

Definition Pull (t : Target) (tag destPath : string) (platform : option Platform) (fs : FileSystem)
    : FileSystem * result RepositoryError (OCIManifest * string) :=
  match fetchManifest t tag platform with
  | (_, _, Some e) => (fs, Err e)
  | (Some m, Some desc, None) =>
      match extract_layers t destPath (om_Layers m) fs with
      | (fs1, Some e) => (fs1, Err e)
      | (fs1, None) => (fs1, Ok (m, d_Digest desc))
      end
  | _ => (fs, Err ErrDecodeManifest)
  end.

Section Download.
Context `{SemVer}.
Context (sort_slice : (string -> string -> bool) -> list string -> list string).
Context (yaml_parse : string -> option YNode) (decode : YNode -> option Manifest) (schema_error : Manifest -> option string).
(** The client for a repository, if it can be created. *)
Context (newClient : string -> option Target).

Local Open Scope Z_scope.

Definition newer (a b : string) : bool := 0 <? Compare ("v" +:+ a) ("v" +:+ b).

(** [Tags]: all pages, most recent first. *)
Definition list_tags (t : Target) : result RepositoryError (list string) :=
  match t_Tags t with
  | None => Err ErrListTags
  | Some pages => Ok (sort_slice newer (concat pages))
  end.

(** ** The downloader *)

Definition devVersionTagSuffix : string := "-dev".
Definition ComposerArtifactLite : string := "composer-lite".

Record Downloader : Type := mkDownloader {
  dl_Registry : string;
  dl_Dirs : Directories;
  dl_OS : string;
  dl_Arch : string;
  DevVersions : bool;
  DisableSourceFallback : bool;
}.

Inductive DownloadError : Type :=
| ErrClient (repository : string)
| ErrTagList (repository : string)
| ErrNoTags (repository : string)
| ErrFetch (repository version : string) (e : RepositoryError)
| ErrPull (repository version : string) (e : RepositoryError)
| ErrRootManifest (e : CacheError)
| ErrResolveManifest (name : string) (e : CacheError)
| ErrNoParent (name bundle : string)
| ErrOtherParent (name parent bundle : string)
| ErrNormalize
| ErrBuild (e : CacheError).

Record DownloadedExtension : Type := mkDownloaded {
  dx_Manifest : Manifest;
  dx_Path : string;
  dx_ArtifactType : string;
  dx_ComposerBundle : bool;
  dx_ExtensionManifest : option Manifest;
}.

(** The first tag that may be used. *)
Definition first_tag (allowDev : bool) (tags : list string) : option string :=
  head (filter (fun tag => allowDev || negb (HasSuffix tag devVersionTagSuffix) = true) tags).

Definition getLatestTag (t : Target) (repository : string) (allowDev : bool) : result DownloadError string :=
  match list_tags t with
  | Err _ => Err (ErrTagList repository)
  | Ok tags => match first_tag allowDev tags with Some tag => Ok tag | None => Err (ErrNoTags repository) end
  end.

Definition platform_of (d : Downloader) : option Platform :=
  if bool_decide (dl_OS d = "") || bool_decide (dl_Arch d = "") then None else Some (mkPlatform (dl_OS d) (dl_Arch d)).

(** The manifest at the root of what was downloaded, completed from the annotations. *)
Definition root_manifest (fs : FileSystem) (dir : string) (a : gmap string string) : result DownloadError Manifest :=
  let path := JoinAll [dir; "manifest.yaml"] in
  let oci := ManifestFromOCI a in
  if exists_path fs path then
    match local_manifest yaml_parse decode schema_error fs path with
    | Err e => Err (ErrRootManifest e)
    | Ok m =>
        Ok (set_versions (or_else (Version m) (Version oci)) (or_else (ComposerVersion m) (ComposerVersion oci))
              (MinEnvoyVersion m) (MaxEnvoyVersion m) (set_build (Remote m) (CShared oci) (m_Debug m) m))
    end
  else Ok oci.

(** [download]; [fuel] counts the downloads that may fall back to sources. *)
Fixpoint download (fuel : nat) (d : Downloader) (repository version : string) (getDir : OCIManifest -> string) (fs : FileSystem)
    : FileSystem * result DownloadError DownloadedExtension :=
  match newClient repository with
  | None => (fs, Err (ErrClient repository))
  | Some t =>
      match (if bool_decide (version = "latest") then getLatestTag t repository (DevVersions d) else Ok version) with
      | Err e => (fs, Err e)
      | Ok version =>
          let platform := platform_of d in
          let finish m :=
            match Pull t version (getDir m) platform fs with
            | (fs1, Err e) => (fs1, Err (ErrPull repository version e))
            | (fs1, Ok _) =>
                (fs1, try root <- root_manifest fs1 (getDir m) (om_Annotations m);
                      Ok (mkDownloaded root (getDir m) (annotation (om_Annotations m) OCIAnnotationArtifact)
                            (isComposerSourceArtifact (om_Annotations m)) None))
            end in
          match FetchManifest t version platform with
          | (Some m, None) => finish m
          | (Some index, Some (ErrPlatformNotFound p)) =>
              if DisableSourceFallback d then (fs, Err (ErrFetch repository version (ErrPlatformNotFound p)))
              else match fuel with
              | O => (fs, Err (ErrFetch repository version (ErrPlatformNotFound p)))
              | S fuel' =>
                  let em := ManifestFromOCI (om_Annotations index) in
                  download fuel' (mkDownloader (dl_Registry d) (dl_Dirs d) "" "" (DevVersions d) false)
                    (SourceRepositoryName (dl_Registry d) em)
                    (if bool_decide (m_Type em = TypeGo) then ComposerVersion em else version) getDir fs
              end
          | (_, Some e) => (fs, Err (ErrFetch repository version e))
          | (None, None) => (fs, Err (ErrFetch repository version ErrDecodeManifest))
          end
      end
  end.

(** Where an artifact goes. *)
Definition extension_dir (dirs : Directories) (m : OCIManifest) : string :=
  let em := ManifestFromOCI (om_Annotations m) in
  if isSourceArtifact (om_Annotations m) then LocalCacheExtensionSourceArtifactDir dirs em else LocalCacheExtensionDir dirs em.

Definition composer_dir (dirs : Directories) (artifact : string) (m : OCIManifest) : string :=
  if isSourceArtifact (om_Annotations m) then LocalCacheExtensionSourceArtifactDir dirs (ManifestFromOCI (om_Annotations m))
  else
    let composerVersion := annotation (om_Annotations m) OCIAnnotationComposerVersion in
    if bool_decide (artifact = ComposerArtifactLite) then LocalCacheComposerLiteDir dirs composerVersion
    else LocalCacheComposerDir dirs composerVersion.

Definition DownloadComposer (d : Downloader) (version artifact : string) (fs : FileSystem)
    : FileSystem * result DownloadError DownloadedExtension :=
  match download 1 d (dl_Registry d +:+ "/" +:+ artifact) version (composer_dir (dl_Dirs d) artifact) fs with
  | (fs1, Err e) => (fs1, Err e)
  | (fs1, Ok ext) =>
      if bool_decide (dx_ArtifactType ext = ArtifactBinary) && bool_decide (artifact = ComposerArtifactLite) then
        match ensureComposerLiteLib (dl_Dirs d) (ComposerVersion (dx_Manifest ext)) fs1 with
        | (fs2, Some _) => (fs2, Err ErrNormalize)
        | (fs2, None) => (fs2, Ok ext)
        end
      else (fs1, Ok ext)
  end.

Definition mark_remote (m : Manifest) : Manifest := set_build true (CShared m) (m_Debug m) m.

Definition DownloadExtension (d : Downloader) (bundle name version : string) (fs : FileSystem)
    : FileSystem * result DownloadError DownloadedExtension :=
  match download 1 d (RepositoryName (dl_Registry d) bundle) version (extension_dir (dl_Dirs d)) fs with
  | (fs1, Err e) => (fs1, Err e)
  | (fs1, Ok artifact) =>
      (fs1,
       match ResolveExtensionManifest yaml_parse decode schema_error fs1 (dl_Dirs d) (mark_remote (dx_Manifest artifact)) (dx_ArtifactType artifact) name with
       | Err e => Err (ErrResolveManifest name e)
       | Ok (am, em) =>
           if negb (bool_decide (bundle = name)) && bool_decide (Parent em = "") then Err (ErrNoParent name bundle)
           else if negb (bool_decide (bundle = name)) && negb (bool_decide (Parent em = bundle)) then Err (ErrOtherParent name (Parent em) bundle)
           else Ok (mkDownloaded am (dx_Path artifact) (dx_ArtifactType artifact) (dx_ComposerBundle artifact) (Some (mark_remote em)))
       end)
  end.

(** [resolveLatestComposerVersion]. *)
Definition resolveLatestComposerVersion : result DownloadError string :=
  let repository := DefaultOCIRegistry +:+ "/" +:+ ComposerArtifactLite in
  match newClient repository with
  | None => Err (ErrClient repository)
  | Some t => getLatestTag t repository true
  end.

Section ComposerLite.
Context (exec : Command -> FileSystem -> FileSystem * bool) (dotenv : string -> option (gmap string string)).

Definition DownloadComposerLiteAndBuildIfNeeded (d : Downloader) (version artifactName : string) (debug : bool) (fs : FileSystem)
    : FileSystem * option DownloadError :=
  match DownloadComposer d version artifactName fs with
  | (fs1, Err e) => (fs1, Some e)
  | (fs1, Ok artifact) =>
      if bool_decide (dx_ArtifactType artifact = ArtifactBinary) then (fs1, None)
      else
        let '(fs2, e) := BuildLibComposer exec dotenv (dl_Dirs d) (dx_Path artifact) version true debug fs1 in (fs2, ErrBuild <$> e)
  end.

Definition CheckOrDownloadLibComposerLite (d : Downloader) (version : string) (fs : FileSystem) : FileSystem * option DownloadError :=
  if exists_path fs (LocalCacheComposerLiteLib (dl_Dirs d) version) then (fs, None)
  else DownloadComposerLiteAndBuildIfNeeded d version ComposerArtifactLite false fs.
End ComposerLite.
End Download.

(** ** The latest tag *)

(** What [sort.Slice] asks of its comparison. *)
Definition strict_weak (lt : string -> string -> bool) : Prop :=
  (forall a, lt a a = false) /\ (forall a b c, lt a b = true -> lt b c = true -> lt a c = true) /\
  (forall a b c, lt a c = true -> lt a b = true \/ lt b c = true).

(** [sort.Slice]: a sorted permutation, in no particular order where the comparison has none. *)
Class SortSlice (sort_slice : (string -> string -> bool) -> list string -> list string) : Prop := {
  sort_slice_perm lt l : sort_slice lt l ≡ₚ l;
  sort_slice_sorted lt l : strict_weak lt -> StronglySorted (fun a b => lt b a = false) (sort_slice lt l);
}.

Section Latest.
Context `{SemVerLaws} {sort_slice} {SS : SortSlice sort_slice}.
Local Open Scope Z_scope.

Lemma newer_spec a b : newer a b = true <-> ~ vle a b.
Proof. unfold newer, vle. rewrite Z.ltb_lt. lia. Qed.

Lemma vle_total a b : vle a b \/ vle b a.
Proof. unfold vle. destruct (Z.le_gt_cases (Compare ("v" +:+ a) ("v" +:+ b)) 0); [by left|right]. apply not_vle. lia. Qed.

Lemma newer_strict_weak : strict_weak newer.
Proof.
  split_and!.
  - intros a. apply not_true_is_false. rewrite newer_spec. intros Hn. apply Hn, vle_refl.
  - intros a b c. rewrite !newer_spec. intros Hab Hbc Hac. apply Hab. eapply vle_trans; [exact Hac|]. by destruct (vle_total b c).
  - intros a b c. rewrite !newer_spec. intros Hac. destruct (decide (newer a b = true)) as [Hn|Hn]; [left; by apply newer_spec|].
    right. intros Hbc. apply Hac. eapply vle_trans; [|exact Hbc]. rewrite newer_spec in Hn. destruct (vle_total a b); [done|].
    unfold vle in *. lia.
Qed.

Lemma head_filter_sorted (P : string -> Prop) `{!forall x, Decision (P x)} l tag :
  StronglySorted (fun a b => newer b a = false) l -> head (filter P l) = Some tag ->
  tag ∈ l /\ P tag /\ forall t, t ∈ l -> P t -> vle t tag.
Proof.
  induction 1 as [|a l Hs IH Hall]; [done|]. rewrite filter_cons. case_decide as Ha.
  - intros [= <-]. split_and!; [left|done|]. intros t [->|Ht]%elem_of_cons _; [apply vle_refl|].
    rewrite Forall_forall in Hall. specialize (Hall t Ht). destruct (vle_total t a) as [|Hle]; [done|].
    unfold newer in Hall. apply Z.ltb_ge in Hall. done.
  - intros Hh. destruct (IH Hh) as (Hin & HP & Hmax). split_and!; [by right|done|].
    intros t [->|Ht]%elem_of_cons HPt; [done|by apply Hmax].
Qed.

(** The latest tag of a repository is one of its tags, of any page, not a dev version unless
    those are allowed, and no other such tag is newer; there is none only if no tag may be used. *)
Theorem latest_tag_newest t repository allowDev pages
    (allowed := fun tag => allowDev = true \/ HasSuffix tag devVersionTagSuffix = false) :
  t_Tags t = Some pages ->
  match getLatestTag sort_slice t repository allowDev with
  | Ok tag => tag ∈ concat pages /\ allowed tag /\ forall tag', tag' ∈ concat pages -> allowed tag' -> vle tag' tag
  | Err e => e = ErrNoTags repository /\ forall tag, tag ∈ concat pages -> ~ allowed tag
  end.
Proof.
  intros Ht. unfold getLatestTag, list_tags. rewrite Ht.
  assert (Hallow : forall tag, allowed tag <-> allowDev || negb (HasSuffix tag devVersionTagSuffix) = true).
  { intros tag. unfold allowed. rewrite orb_true_iff, negb_true_iff. done. }
  pose proof (sort_slice_perm newer (concat pages)) as Hp.
  destruct (first_tag allowDev (sort_slice newer (concat pages))) as [tag|] eqn:Hf.
  - unfold first_tag in Hf. apply head_filter_sorted in Hf as (Hin & Hok & Hmax); [|apply sort_slice_sorted, newer_strict_weak].
    rewrite Hp in Hin. split_and!; [done|by apply Hallow|]. intros tag' Hin' Ha. apply Hmax; [by rewrite Hp|by apply Hallow].
  - split; [done|]. intros tag Hin Ha%Hallow. unfold first_tag in Hf.
    assert (Hin' : tag ∈ filter (fun tag => allowDev || negb (HasSuffix tag devVersionTagSuffix) = true) (sort_slice newer (concat pages)))
      by (apply list_elem_of_filter; split; [done|by rewrite Hp]).
    by destruct (filter _ _); [apply not_elem_of_nil in Hin'|].
Qed.
End Latest.

(** ** The platform *)

(** A manifest that may be pulled for a platform. *)
Definition suits (wasm : bool) (platform : option Platform) (d : Descriptor) : bool :=
  negb (attestation d) &&
  (wasm || match platform, d_Platform d with Some p, Some q => bool_decide (p = q) | _, _ => false end).

Lemma select_manifest_cons wasm platform m ms :
  select_manifest wasm platform (m :: ms) = if suits wasm platform m then Some m else select_manifest wasm platform ms.
Proof.
  cbn [select_manifest]. unfold suits. destruct (attestation m); cbn [negb andb]; [done|]. destruct wasm; cbn [orb]; [done|].
  destruct platform as [[os arch]|], (d_Platform m) as [[os' arch']|]; cbn [p_OS p_Architecture]; try done.
  repeat case_bool_decide; cbn [andb]; naive_solver.
Qed.

(** The manifest chosen from an index is the first that suits. *)
Lemma select_manifest_find wasm platform ms : select_manifest wasm platform ms = head (filter (fun d => suits wasm platform d = true) ms).
Proof.
  induction ms as [|m ms IH]; [done|]. rewrite select_manifest_cons, filter_cons, IH.
  destruct (suits wasm platform m) eqn:Hs; [by rewrite decide_True|by rewrite decide_False].
Qed.

(** Without a platform nothing is looked up in an index. *)
Lemma FetchManifest_no_platform t version m p : FetchManifest t version None <> (Some m, Some (ErrPlatformNotFound p)).
Proof.
  unfold FetchManifest, fetchManifest. destruct (t_Resolve t version) as [desc|]; [|done]. cbn.
  unfold decodeManifest. by destruct (t_Manifest t desc).
Qed.

(** ** Downloads *)

Section DownloadProofs.
Context `{SemVer} (sort_slice : (string -> string -> bool) -> list string -> list string).
Context (yaml_parse : string -> option YNode) (decode : YNode -> option Manifest) (schema_error : Manifest -> option string).
Context (newClient : string -> option Target).
Local Abbreviation download := (download sort_slice yaml_parse decode schema_error newClient).
Local Abbreviation DownloadExtension := (DownloadExtension sort_slice yaml_parse decode schema_error newClient).

(** The sources are downloaded without a platform, so there is no second fallback. *)
Lemma download_no_platform fuel fuel' d repository version getDir fs :
  platform_of d = None -> download fuel d repository version getDir fs = download fuel' d repository version getDir fs.
Proof.
  intros Hp. destruct fuel, fuel'; cbn [CliDownload.download]; rewrite ?Hp; try done;
    (destruct (newClient repository) as [t|]; [|done]);
    (destruct (if bool_decide (version = "latest") then _ else _) as [v|]; [|done]);
    destruct (FetchManifest t v None) as [[m|] [[]|]] eqn:Hf; try done; by apply FetchManifest_no_platform in Hf.
Qed.

(** A download falls back to sources at most once: with any more allowed, the result is the same. *)
Theorem download_falls_back_once fuel d repository version getDir fs :
  download (S fuel) d repository version getDir fs = download 1 d repository version getDir fs.
Proof.
  cbn [CliDownload.download]. destruct (newClient repository) as [t|]; [|done].
  destruct (if bool_decide (version = "latest") then _ else _) as [v|]; [|done].
  destruct (FetchManifest t v (platform_of d)) as [[m|] [[]|]]; try done.
  destruct (DisableSourceFallback d); [done|]. by apply (download_no_platform fuel 0).
Qed.

(** *** Confinement *)

Lemma changed_within_weaken (d0 d : Path) fs fs' : d0 `prefix_of` d -> changed_within d fs fs' -> changed_within d0 fs fs'.
Proof.
  intros [k ->] Hc q. destruct (Hc q) as [?|[Hq|(Hq & H1 & H2)]]; [by left|right; left; etrans; [|exact Hq]; by eexists|].
  destruct (prefix_near _ _ _ Hq); auto.
Qed.

Lemma no_links_near_strengthen fs (d0 d : Path) : d0 `prefix_of` d -> no_links_near fs d0 -> no_links_near fs d.
Proof.
  intros [k ->] Hn q t Hq. destruct (Hn q t Hq) as [H1 H2]. split; intros Hp.
  - by destruct (prefix_near _ _ _ Hp).
  - apply H2. etrans; [|exact Hp]. by eexists.
Qed.

(** An extraction within a directory keeps links out of a directory above it. *)
Lemma extract_inv_above fs fs' (d0 d : Path) :
  d0 `prefix_of` d -> no_links_near fs d0 -> changed_within d fs fs' -> no_links_near fs' d -> extract_inv d0 fs fs'.
Proof.
  intros Hd Hn Hc Hn'. split; [by eapply changed_within_weaken|]. intros q t Hq.
  destruct (Hc q) as [He|[Hp|(_ & _ & He)]]; [rewrite He in Hq; by eapply Hn| |congruence].
  by destruct (Hn' q t Hq).
Qed.

Lemma extract_layers_confined t dest (d0 : Path) layers fs :
  is_rooted dest = true -> d0 `prefix_of` clean_segs dest -> no_links_near fs d0 ->
  (forall layer a, layer ∈ layers -> t_Archive t layer = Some a -> Forall (fun e => h_Typeflag e <> TypeSymlink) (a_entries (readable a))) ->
  extract_inv d0 fs (extract_layers t dest layers fs).1.
Proof.
  intros Hr Hd. revert fs. induction layers as [|layer layers IH]; intros fs Hn Ha; cbn [extract_layers].
  { by split; [apply changed_within_refl|]. }
  destruct (t_Archive t layer) as [a|] eqn:Hl; [|by split; [apply changed_within_refl|]].
  destruct (extract_files_inv dest fs a Hr) as [H1 H2]; [by eapply no_links_near_strengthen|eapply Ha; [left|done]|].
  destruct (extract_files a dest fs) as [fs1 [e|]]; cbn [fst] in *; [by eapply extract_inv_above|].
  pose proof (extract_inv_above _ _ _ _ Hd Hn H1 H2) as [H3 H4]. eapply extract_inv_trans; [by split|].
  apply IH; [done|]. intros l a' Hin. apply Ha. by right.
Qed.

(** What is asked of a registry: plain names and versions, and archives without links. *)
Definition safe_target (t : Target) : Prop :=
  forall desc m, t_Manifest t desc = Some m ->
    plain_artifact (ManifestFromOCI (om_Annotations m)) /\
    forall layer a, layer ∈ om_Layers m -> t_Archive t layer = Some a -> Forall (fun e => h_Typeflag e <> TypeSymlink) (a_entries (readable a)).

Lemma fetchManifest_decoded t version platform m desc e :
  fetchManifest t version platform = (Some m, desc, e) -> exists desc', t_Manifest t desc' = Some m.
Proof.
  unfold fetchManifest, decodeManifest. destruct (t_Resolve t version) as [d|]; [|done].
  destruct (_ && _); [destruct (t_Index t d) as [ix|]; [|done]; destruct (selectIndexManifest ix platform) as [d'|]|];
    match goal with |- context [t_Manifest t ?x] => destruct (t_Manifest t x) eqn:Hm; [|done]; intros [= <- _ _]; by exists x end.
Qed.

Lemma Pull_confined t version dest platform (d0 : Path) fs :
  safe_target t -> is_rooted dest = true -> d0 `prefix_of` clean_segs dest -> no_links_near fs d0 ->
  extract_inv d0 fs (Pull t version dest platform fs).1.
Proof.
  intros Hs Hr Hd Hn. unfold Pull. assert (Hnone : extract_inv d0 fs fs) by (by split; [apply changed_within_refl|]).
  destruct (fetchManifest t version platform) as [[[m|] [desc|]] [e|]] eqn:Hf; try done.
  apply fetchManifest_decoded in Hf as [desc' Hm]. destruct (Hs _ _ Hm) as [_ Ha].
  pose proof (extract_layers_confined t dest d0 (om_Layers m) fs Hr Hd Hn Ha) as Hx.
  destruct (extract_layers t dest (om_Layers m) fs) as [fs1 [e|]]; done.
Qed.

Lemma extension_dir_below dirs m :
  is_rooted (DataHome dirs) = true -> plain_artifact (ManifestFromOCI (om_Annotations m)) ->
  is_rooted (extension_dir dirs m) = true /\ clean_segs (DataHome dirs) ++ ["extensions"] `prefix_of` clean_segs (extension_dir dirs m).
Proof.
  intros Hr Hp. assert (Hd : DataHome dirs <> "") by (by intros He; rewrite He in Hr).
  assert (Hslot : exists s, plain_slot s /\ extension_dir dirs m = slot_path dirs s).
  { destruct (plain_artifact_slots _ Hp) as [P1 P2]. unfold extension_dir.
    destruct (isSourceArtifact (om_Annotations m)); [by exists (source_slot (ManifestFromOCI (om_Annotations m)))|].
    exists (slot_of (ManifestFromOCI (om_Annotations m))). split; [done|]. apply LocalCacheExtensionDir_slot. }
  destruct Hslot as (s & Hs & ->). destruct (slot_path_segs dirs s Hd Hs) as [-> ->]. split; [done|].
  unfold slot_elems. destruct (s_kind s); eexists; by rewrite <- app_assoc.
Qed.

Lemma download_confined fuel d repository version dirs fs :
  (forall repository t, newClient repository = Some t -> safe_target t) ->
  is_rooted (DataHome dirs) = true -> no_links_near fs (clean_segs (DataHome dirs) ++ ["extensions"]) ->
  changed_within (clean_segs (DataHome dirs) ++ ["extensions"]) fs (download fuel d repository version (extension_dir dirs) fs).1.
Proof.
  intros Hs Hr Hn. revert d repository version. induction fuel as [|fuel IH]; intros d repository version; cbn [CliDownload.download];
    pose proof (changed_within_refl (clean_segs (DataHome dirs) ++ ["extensions"]) fs) as Hrefl;
    (destruct (newClient repository) as [t|] eqn:Hc; [|done]);
    (destruct (if bool_decide (version = "latest") then _ else _) as [v|]; [|done]);
    (assert (Hfin : forall m e, FetchManifest t v (platform_of d) = (Some m, e) ->
       extract_inv (clean_segs (DataHome dirs) ++ ["extensions"]) fs (Pull t v (extension_dir dirs m) (platform_of d) fs).1);
     [intros m e Hf; unfold FetchManifest in Hf; destruct (fetchManifest t v (platform_of d)) as [[m' ds] e'] eqn:Hf'; injection Hf as -> ->;
      apply fetchManifest_decoded in Hf' as [desc Hm]; destruct (Hs _ _ Hc _ _ Hm) as [Hp _];
      destruct (extension_dir_below dirs m Hr Hp) as [H1 H2]; by apply Pull_confined; [eapply Hs|..]|]);
    destruct (FetchManifest t v (platform_of d)) as [[m|] [e|]] eqn:Hf; try done;
    try (specialize (Hfin _ _ eq_refl); destruct (Pull t v (extension_dir dirs m) (platform_of d) fs) as [fs1 [[]|]]; by destruct Hfin);
    destruct e; try done; destruct (DisableSourceFallback d); try done; apply IH.
Qed.

(** From registries whose artifacts have plain names and versions and archives without
    links, a download of an extension changes nothing outside the directory of the extensions,
    whatever it fetches, falls back to or fails at. *)
Theorem DownloadExtension_confined d bundle name version fs :
  (forall repository t, newClient repository = Some t -> safe_target t) ->
  is_rooted (DataHome (dl_Dirs d)) = true -> no_links_near fs (clean_segs (DataHome (dl_Dirs d)) ++ ["extensions"]) ->
  changed_within (clean_segs (DataHome (dl_Dirs d)) ++ ["extensions"]) fs (DownloadExtension d bundle name version fs).1.
Proof.
  intros Hs Hr Hn. unfold CliDownload.DownloadExtension.
  pose proof (download_confined 1 d (RepositoryName (dl_Registry d) bundle) version (dl_Dirs d) fs Hs Hr Hn) as Hc.
  by destruct (download 1 d _ version (extension_dir (dl_Dirs d)) fs) as [fs1 [a|e]].
Qed.
End DownloadProofs.

(** ** The sources of a c-shared Go extension *)

(** An index for no known platform, of a Go extension built as a c-shared library. *)
Definition cshared_index : Descriptor := mkDescriptor MediaTypeImageIndex "sha256:1" None.
Definition cshared_target : Target :=
  mkTarget (Some [["1.2.0"]]) (fun _ => Some cshared_index) (fun _ => Some (mkIndex ∅ []))
    (fun _ => Some (mkOCIManifest (OCIAnnotationsForManifest (set_build false true false example_go)) [])) (fun _ => None).
(** Its sources, tagged with its version, as the Makefile pushes them. *)
Definition sources_target : Target :=
  mkTarget (Some [["1.2.0"]]) (fun tag => if bool_decide (tag = "1.2.0") then Some (mkDescriptor "" "sha256:2" None) else None) (fun _ => None)
    (fun _ => Some (mkOCIManifest (<[OCIAnnotationArtifact := ArtifactSource]> (OCIAnnotationsForManifest example_go)) [])) (fun _ => None).

Definition cshared_client (repository : string) : option Target :=
  if bool_decide (repository = "r/extension-example") then Some cshared_target
  else if bool_decide (repository = "r/extension-src-example") then Some sources_target
  else None.

(** The fallback asks the repository of the extension for the version of the composer. *)
Theorem cshared_fallback_fails :
  (@DownloadExtension rank_compare (fun _ l => l) (fun _ => None) (fun _ => None) (fun _ => None) cshared_client
     (mkDownloader "r" example_dirs "linux" "arm64" false false) "example" "example" "1.2.0" ∅).2 =
  Err (ErrFetch "r/extension-src-example" "0.9.0" (ErrResolve "0.9.0")).
Proof. vm_compute. reflexivity. Qed.

(** ** Witnesses *)

Definition order_of (lt : string -> string -> bool) (a b : string) : Prop := lt b a = false.
#[local] Instance order_of_dec lt a b : Decision (order_of lt a b).
Proof. unfold order_of. apply _. Defined.
Definition merge_slice (lt : string -> string -> bool) (l : list string) : list string := merge_sort (order_of lt) l.

#[local] Instance merge_slice_sorts : SortSlice merge_slice.
Proof.
  split; [intros lt l; apply merge_sort_Permutation|]. intros lt l (Hi & Ht & Hn).
  assert (Total (order_of lt)).
  { intros a b. unfold order_of. destruct (lt b a) eqn:E1, (lt a b) eqn:E2; auto. exfalso. pose proof (Ht _ _ _ E1 E2). congruence. }
  assert (Transitive (order_of lt)).
  { intros a b c. unfold order_of. intros H1 H2. destruct (lt c a) eqn:E; [|done]. destruct (Hn c b a E); congruence. }
  apply (StronglySorted_merge_sort (order_of lt)).
Qed.

Definition tagged : Target := mkTarget (Some [["1.2.0"; "1.10.0"]; ["2.0.0-dev"; "1.9.0"]]) (fun _ => None) (fun _ => None) (fun _ => None) (fun _ => None).

Lemma latest_tag_newest_witness :
  @getLatestTag rank_compare merge_slice tagged "r" false = Ok "1.10.0" /\ @vle rank_compare "1.9.0" "1.10.0".
Proof.
  assert (E : @getLatestTag rank_compare merge_slice tagged "r" false = Ok "1.10.0") by (vm_compute; reflexivity).
  split; [exact E|].
  pose proof (@latest_tag_newest rank_compare rank_laws merge_slice merge_slice_sorts tagged "r" false
    [["1.2.0"; "1.10.0"]; ["2.0.0-dev"; "1.9.0"]] eq_refl) as W.
  rewrite E in W. apply W.
  - cbn [concat app]. set_solver.
  - right. vm_compute. reflexivity.
Defined.

(** A registry with one artifact. *)
Definition one_archive : Package :=
  small (mkArchive [mkEntry "libexample.so" TypeReg "" 493 "library" false; mkEntry "../../../x" TypeReg "" 420 "x" false] true).
Definition one_target : Target :=
  mkTarget None (fun _ => Some (mkDescriptor "" "sha256:3" None)) (fun _ => None)
    (fun _ => Some (mkOCIManifest (OCIAnnotationsForManifest example_go) [mkDescriptor "" "sha256:4" None])) (fun _ => Some one_archive).
Definition one_client (repository : string) : option Target := Some one_target.
Definition home : FileSystem := list_to_map [(["home"], NDir); (["home"; "u"], NDir)].

Lemma DownloadExtension_confined_witness :
  changed_within (clean_segs (DataHome example_dirs) ++ ["extensions"]) home
    (@DownloadExtension rank_compare merge_slice (fun _ => None) (fun _ => None) (fun _ => None) one_client
       (mkDownloader "r" example_dirs "linux" "arm64" false false) "example" "example" "1.2.0" home).1.
Proof.
  apply (@DownloadExtension_confined rank_compare merge_slice (fun _ => None) (fun _ => None) (fun _ => None) one_client
    (mkDownloader "r" example_dirs "linux" "arm64" false false)).
  - intros repository t [= <-] desc m [= <-]. split.
    + split_and!; vm_compute; (reflexivity || (repeat split; discriminate)).
    + intros layer a _ [= <-]. repeat constructor; discriminate.
  - reflexivity.
  - intros q t Hq. exfalso. apply elem_of_list_to_map_2 in Hq. revert Hq. rewrite !elem_of_cons, elem_of_nil. naive_solver.
Defined.
