(* ===== verification/CliExtension.v ===== *)
(** * cli: filters of an extension

    cli/internal/envoy/extension.go: the Envoy filters and clusters generated for an extension,
    by its type.  A protobuf message is a constructor of [Any] with the fields the code sets;
    marshalling one fails when a string field is not UTF-8.  The conversions between JSON and
    protobuf are parameters. *)

From S2P Require Import Prelude GoStr GoNum GoPath GoFS GoCodec Host ExtPkg GoJson CliPackage CliManifest CliCache.
From Stdlib Require Import Lia Ascii.

Local Open Scope Z_scope.
Local Open Scope go_scope.

(** ** Messages *)

Inductive HeaderSendMode : Type := HDefault | HSend | HSkip.
Inductive BodySendMode : Type := BNone | BStreamed | BBuffered | BBufferedPartial.

Record ModeMessage : Type := mkModeMessage {
  request_header_mode : HeaderSendMode;
  response_header_mode : HeaderSendMode;
  request_body_mode : BodySendMode;
  response_body_mode : BodySendMode;
}.

Record DynamicModuleConfig : Type := mkModuleConfig { mc_Name : string; mc_LoadGlobally : bool; mc_MetricsNamespace : string }.

(** The chain a dynamic module plugs into. *)
Inductive Chain : Type := HttpChain | NetworkChain | ListenerChain | UdpChain.

#[export] Instance Chain_eq_dec : EqDecision Chain.
Proof. solve_decision. Defined.

(** A packed message: those the code builds, and any other with its type and content. *)
Inductive Any : Type :=
| AnyString (value : string)
| AnyLua (inline_string : string)
| AnyWasm (name root_id vm_id runtime filename : string) (configuration : option Any) (fail_reload allow_stop : bool)
| AnyDynamicModule (chain : Chain) (module : DynamicModuleConfig) (filter_name : string) (config : option Any) (terminal : bool)
| AnyExtProc (cluster : string) (failure_mode_allow : bool) (mode : option ModeMessage) (timeout : option Z)
| AnyHttp2Options
| AnyRouter
| AnyStdoutLog
| AnyUpstreamTls (sni : string)
| AnyDownstreamTls (cert key : string) (alpn : list string)
| AnyOther (type_url content : string).

(** The string fields of a message; packed fields are bytes. *)
Definition strings_of (a : Any) : list string :=
  match a with
  | AnyString v => [v]
  | AnyLua code => [code]
  | AnyWasm n r v rt f _ _ _ => [n; r; v; rt; f]
  | AnyDynamicModule _ mc fn _ _ => [mc_Name mc; mc_MetricsNamespace mc; fn]
  | AnyExtProc c _ _ _ => [c]
  | AnyUpstreamTls sni => [sni]
  | AnyDownstreamTls c k alpn => c :: k :: alpn
  | AnyHttp2Options | AnyRouter | AnyStdoutLog | AnyOther _ _ => []
  end.

Definition valid_utf8 (s : string) : bool := bool_decide (ToValidUTF8 s = s).

(** [anypb.New]. *)
Definition anypb_New (a : Any) : option Any := if forallb valid_utf8 (strings_of a) then Some a else None.

(** HTTP, network and listener filters have the same shape. *)
Record Filter : Type := mkFilter { f_Name : string; f_TypedConfig : option Any }.

Inductive DiscoveryType : Type := STATIC | STRICT_DNS.

(** A cluster that the code builds, or one given as JSON. *)
Inductive Cluster : Type :=
| BuiltCluster (name : string) (type : DiscoveryType) (v4_only http2 : bool) (load_name : string) (endpoints : list (string * Z)) (tls : option Any)
| JsonCluster (name json : string).

Definition cluster_name (c : Cluster) : string := match c with BuiltCluster n _ _ _ _ _ _ => n | JsonCluster n _ => n end.

Record ExtensionResources : Type := mkResources {
  HTTPFilters : list Filter;
  Clusters : list Cluster;
  NetworkFilters : list Filter;
  ListenerFilters : list Filter;
  UDPListenerFilters : list Filter;
}.

(** [GoPanic] is a nil dereference. *)
Inductive GenerateError : Type :=
| ErrUnsupportedExtensionType (type : string)
| ErrLuaLoadFile (path : string)
| ErrMarshal (what : string)
| ErrConfigJSON
| ErrMessageTimeout (timeout : string)
| GoPanic.

(** ** Generators *)

Definition wasmRuntimeV8 : string := "envoy.wasm.runtime.v8".
Definition extProcClusterSuffix : string := "-ext-proc".
Definition metrics_namespace : string := "builtonenvoy".

Definition marshalled (what : string) (a : Any) : result GenerateError Any :=
  match anypb_New a with Some a => Ok a | None => Err (ErrMarshal what) end.

Definition extProcHeaderSendMode (s : string) : HeaderSendMode :=
  if bool_decide (s = "SEND") then HSend else if bool_decide (s = "SKIP") then HSkip else HDefault.
Definition extProcBodySendMode (s : string) : BodySendMode :=
  if bool_decide (s = "BUFFERED") then BBuffered
  else if bool_decide (s = "STREAMED") then BStreamed
  else if bool_decide (s = "BUFFERED_PARTIAL") then BBufferedPartial
  else BNone.
Definition extProcProcessingMode (m : option ExtProcProcessingMode) : option ModeMessage :=
  (fun m => mkModeMessage (extProcHeaderSendMode (RequestHeaderMode m)) (extProcHeaderSendMode (ResponseHeaderMode m))
              (extProcBodySendMode (RequestBodyMode m)) (extProcBodySendMode (ResponseBodyMode m))) <$> m.

Section Generate.
(** The JSON text of a configuration read as a struct, and a struct written as JSON. *)
Context (parse_struct : string -> option Json) (print_struct : list (string * Json) -> option string).
Context (fs : FileSystem).

Definition Lua_Generate (m : Manifest) : result GenerateError ExtensionResources :=
  match m_Lua m with
  | None => Err GoPanic
  | Some lua =>
      try code <-
        (if negb (bool_decide (lua_Path lua = "")) then
           match ReadFile fs (Clean (JoinAll [Dir (m_Path m); lua_Path lua])) with
           | Some code => Ok code
           | None => Err (ErrLuaLoadFile (lua_Path lua))
           end
         else Ok (lua_Inline lua));
      try luaAny <- marshalled "Lua filter" (AnyLua code);
      Ok (mkResources [mkFilter (Name m) (Some luaAny)] [] [] [] [])
  end.

Definition Wasm_Generate (m : Manifest) (dirs : Directories) (config : string) : result GenerateError ExtensionResources :=
  let wasmPath := LocalCacheExtension dirs m in
  try configuration <-
    (if bool_decide (config = "") then Ok None else try c <- marshalled "wasm plugin configuration" (AnyString config); Ok (Some c));
  try wasmAny <- marshalled "Wasm filter" (AnyWasm (Name m) (Name m) (Name m) wasmRuntimeV8 wasmPath configuration true true);
  Ok (mkResources [mkFilter (Name m) (Some wasmAny)] [] [] [] []).

(** The chain of a filter type. *)
Definition chain_of (filterType : string) : Chain :=
  if bool_decide (filterType = FilterTypeNetwork) then NetworkChain
  else if bool_decide (filterType = FilterTypeListener) then ListenerChain
  else if bool_decide (filterType = FilterTypeUDPListener) then UdpChain
  else HttpChain.

(** A failed marshalling of the configuration is ignored: there is then no configuration. *)
Definition module_config (m : Manifest) : DynamicModuleConfig :=
  let name := ModuleName m in
  mkModuleConfig name (bool_decide (name = ComposerBundle) || bool_decide (name = ComposerLiteBundle)) metrics_namespace.
Definition module_filter (m : Manifest) (config : string) (chain : Chain) : result GenerateError Filter :=
  let anyConfig := if bool_decide (config = "") then None else anypb_New (AnyString config) in
  try a <- marshalled "dynamic module filter" (AnyDynamicModule chain (module_config m) (Name m) anyConfig false);
  Ok (mkFilter (Name m) (Some a)).

Definition add_filter (chain : Chain) (f : Filter) (r : ExtensionResources) : ExtensionResources :=
  match chain with
  | HttpChain => mkResources (HTTPFilters r ++ [f]) (Clusters r) (NetworkFilters r) (ListenerFilters r) (UDPListenerFilters r)
  | NetworkChain => mkResources (HTTPFilters r) (Clusters r) (NetworkFilters r ++ [f]) (ListenerFilters r) (UDPListenerFilters r)
  | ListenerChain => mkResources (HTTPFilters r) (Clusters r) (NetworkFilters r) (ListenerFilters r ++ [f]) (UDPListenerFilters r)
  | UdpChain => mkResources (HTTPFilters r) (Clusters r) (NetworkFilters r) (ListenerFilters r) (UDPListenerFilters r ++ [f])
  end.

Fixpoint module_filters (m : Manifest) (config : string) (types : list string) (r : ExtensionResources) : result GenerateError ExtensionResources :=
  match types with
  | [] => Ok r
  | t :: types' =>
      try f <- module_filter m config (chain_of t);
      module_filters m config types' (add_filter (chain_of t) f r)
  end.

Definition no_resources : ExtensionResources := mkResources [] [] [] [] [].

Definition DynamicModule_Generate (m : Manifest) (config : string) : result GenerateError ExtensionResources :=
  module_filters m config (FilterTypes m) no_resources.

(** Where the composer loads a plugin from. *)
Definition plugin_url (m : Manifest) (dirs : Directories) : string :=
  if Remote m && negb (bool_decide (SourceRegistry (m_origin m) = ""))
  then "oci://" +:+ RepositoryName (SourceRegistry (m_origin m)) (Name m) +:+ ":" +:+ SourceTag (m_origin m)
  else "file://" +:+ LocalCacheExtension dirs m.

Definition Composer_Generate (m : Manifest) (dirs : Directories) (config : string) : result GenerateError ExtensionResources :=
  try configValue <-
    (if bool_decide (config = "") then Ok JNull else match parse_struct config with Some j => Ok j | None => Err ErrConfigJSON end);
  let configJSON := default "" (print_struct
    [("name", JString (Name m)); ("url", JString (plugin_url m dirs)); ("config", configValue); ("strict_check", JBool false)]) in
  try a <- marshalled "Composer filter"
    (AnyDynamicModule HttpChain (mkModuleConfig ComposerLiteBundle true metrics_namespace) GoPluginLoaderName (anypb_New (AnyString configJSON)) false);
  Ok (mkResources [mkFilter (Name m) (Some a)] [] [] [] []).

Definition ExtProc_Generate (m : Manifest) : result GenerateError ExtensionResources :=
  match m_ExtProc m with
  | None => Err GoPanic
  | Some cfg =>
      let clusterName := Name m +:+ extProcClusterSuffix in
      let port := if GRPCPort cfg =? 0 then 50051 else GRPCPort cfg in
      try timeout <-
        (if bool_decide (MessageTimeout cfg = "") then Ok None
         else match ParseDuration (MessageTimeout cfg) with Some d => Ok (Some d) | None => Err (ErrMessageTimeout (MessageTimeout cfg)) end);
      try filterAny <- marshalled "ext_proc filter"
        (AnyExtProc clusterName (FailureModeAllow cfg) (extProcProcessingMode (ProcessingMode cfg)) timeout);
      Ok (mkResources [mkFilter (Name m) (Some filterAny)]
            [BuiltCluster clusterName STATIC false true clusterName [("127.0.0.1", port mod 2 ^ 32)] None] [] [] [])
  end.

Definition GenerateFilterConfig (m : Manifest) (dirs : Directories) (config : string) : result GenerateError ExtensionResources :=
  if bool_decide (m_Type m = TypeLua) then Lua_Generate m
  else if bool_decide (m_Type m = TypeWasm) then Wasm_Generate m dirs config
  else if bool_decide (m_Type m = TypeRust) then DynamicModule_Generate m config
  else if bool_decide (m_Type m = TypeGo) then
    if CShared m then DynamicModule_Generate m config else Composer_Generate m dirs config
  else if bool_decide (m_Type m = TypeExtProc) then ExtProc_Generate m
  else Err (ErrUnsupportedExtensionType (m_Type m)).
End Generate.

(** ** What is generated *)

(** The filters of a chain. *)
Definition filters_of (chain : Chain) (r : ExtensionResources) : list Filter :=
  match chain with
  | HttpChain => HTTPFilters r
  | NetworkChain => NetworkFilters r
  | ListenerChain => ListenerFilters r
  | UdpChain => UDPListenerFilters r
  end.

Lemma filters_of_add chain chain' f r :
  filters_of chain (add_filter chain' f r) = filters_of chain r ++ (if bool_decide (chain = chain') then [f] else []).
Proof. destruct chain, chain'; cbn; by rewrite ?app_nil_r. Qed.

Lemma Clusters_add chain f r : Clusters (add_filter chain f r) = Clusters r.
Proof. by destruct chain. Qed.

(** The filter of a module in a chain, when its names are valid. *)
Definition the_module_filter (m : Manifest) (config : string) (chain : Chain) : Filter :=
  mkFilter (Name m) (Some (AnyDynamicModule chain (module_config m) (Name m)
    (if bool_decide (config = "") then None else anypb_New (AnyString config)) false)).

Lemma module_filter_spec m config chain :
  module_filter m config chain =
    if valid_utf8 (ModuleName m) && valid_utf8 (Name m) then Ok (the_module_filter m config chain) else Err (ErrMarshal "dynamic module filter").
Proof.
  unfold module_filter, marshalled, anypb_New. cbn [strings_of forallb mc_Name mc_MetricsNamespace module_config].
  change (valid_utf8 metrics_namespace) with true. destruct (valid_utf8 (ModuleName m)), (valid_utf8 (Name m)); done.
Qed.

Lemma module_filters_spec m config types acc r :
  module_filters m config types acc = Ok r ->
  Clusters r = Clusters acc /\
  forall chain, filters_of chain r = filters_of chain acc ++ (the_module_filter m config <$> filter (fun c => c = chain) (chain_of <$> types)).
Proof.
  revert acc. induction types as [|t types IH]; intros acc; cbn [module_filters].
  { intros [= <-]. split; [done|]. intros chain. cbn. by rewrite app_nil_r. }
  rewrite module_filter_spec. destruct (_ && _); cbn [rbind]; [|done]. intros [H1 H2]%IH.
  rewrite Clusters_add in H1. split; [done|]. intros chain. rewrite H2, filters_of_add. cbn [fmap list_fmap]. rewrite filter_cons.
  rewrite <- app_assoc. f_equal. destruct (decide (chain_of t = chain)) as [->|Hne]; [by rewrite bool_decide_eq_true_2|].
  by rewrite bool_decide_eq_false_2.
Qed.

(** A dynamic module gets, in every chain, one filter per declared filter type of that chain,
    and none elsewhere; each carries the extension's name, its configuration, and the name of the
    module, which is that of the library in its cache slot. *)
Theorem module_chains m config r :
  DynamicModule_Generate m config = Ok r ->
  Clusters r = [] /\
  (forall chain, filters_of chain r = the_module_filter m config <$> filter (fun c => c = chain) (chain_of <$> FilterTypes m)) /\
  (m_Type m = TypeRust \/ m_Type m = TypeGo /\ CShared m = true ->
   forall dirs, LocalCacheExtension dirs m = JoinAll [LocalCacheExtensionDir dirs m; "lib" +:+ mc_Name (module_config m) +:+ ".so"]).
Proof.
  intros [H1 H2]%module_filters_spec. split_and!; [done|intros chain; rewrite H2; by destruct chain|].
  intros Ht dirs. unfold LocalCacheExtension, library_name. destruct Ht as [->|[-> ->]]; done.
Qed.

(** What the schema makes sure of. *)
Definition typed_manifest (m : Manifest) : Prop :=
  (m_Type m = TypeLua -> m_Lua m <> None) /\ (m_Type m = TypeExtProc -> m_ExtProc m <> None).

Lemma marshalled_no_panic what a : marshalled what a <> Err GoPanic.
Proof. unfold marshalled. by destruct (anypb_New a). Qed.

Lemma rbind_no_panic {A B} (r : result GenerateError A) (k : A -> result GenerateError B) :
  r <> Err GoPanic -> (forall a, k a <> Err GoPanic) -> rbind r k <> Err GoPanic.
Proof. intros Hr Hk. destruct r as [a|e]; cbn; [apply Hk|congruence]. Qed.

Lemma module_filters_no_panic m config types acc : module_filters m config types acc <> Err GoPanic.
Proof.
  revert acc. induction types as [|t types IH]; intros acc; cbn [module_filters]; [done|]. apply rbind_no_panic; [|done].
  rewrite module_filter_spec. by destruct (_ && _).
Qed.

(** With a manifest that its schema accepts, nothing is dereferenced that is not there. *)
Theorem generate_no_panic parse_struct print_struct fs m dirs config :
  typed_manifest m -> GenerateFilterConfig parse_struct print_struct fs m dirs config <> Err GoPanic.
Proof.
  intros [Hlua Hext]. unfold GenerateFilterConfig. case_bool_decide as H1.
  { unfold Lua_Generate. destruct (m_Lua m); [|by destruct Hlua]. apply rbind_no_panic; [|intros code; apply rbind_no_panic; [apply marshalled_no_panic|done]].
    case_bool_decide; [done|]. cbn. by case_match. }
  case_bool_decide.
  { apply rbind_no_panic; [|intros c; apply rbind_no_panic; [apply marshalled_no_panic|done]].
    case_bool_decide; [done|]. apply rbind_no_panic; [apply marshalled_no_panic|done]. }
  case_bool_decide; [apply module_filters_no_panic|]. case_bool_decide.
  { destruct (CShared m); [apply module_filters_no_panic|]. apply rbind_no_panic; [case_bool_decide; [done|]; by case_match|].
    intros c. apply rbind_no_panic; [apply marshalled_no_panic|done]. }
  case_bool_decide; [|done]. unfold ExtProc_Generate. destruct (m_ExtProc m); [|by destruct Hext].
  apply rbind_no_panic; [case_bool_decide; [done|]; by case_match|]. intros t. apply rbind_no_panic; [apply marshalled_no_panic|done].
Qed.

(** A manifest made from annotations alone does dereference nil. *)
Theorem generate_panics_without_manifest parse_struct print_struct fs dirs config :
  GenerateFilterConfig parse_struct print_struct fs (ManifestFromOCI (list_to_map [(OCIAnnotationExtensionType, "lua")])) dirs config = Err GoPanic.
Proof.
  unfold GenerateFilterConfig. assert (E : m_Type (ManifestFromOCI (list_to_map [(OCIAnnotationExtensionType, "lua")])) = TypeLua) by (vm_compute; reflexivity).
  rewrite (bool_decide_eq_true_2 _ E). reflexivity.
Qed.

(** A configuration that is not UTF-8 is dropped for a dynamic module, where a Wasm module
    refuses it. *)
Definition latin1 : string := String "233" "".
Theorem module_config_dropped m dirs :
  valid_utf8 (ModuleName m) = true -> valid_utf8 (Name m) = true ->
  module_filter m latin1 HttpChain = Ok (the_module_filter m "" HttpChain) /\
  Wasm_Generate m dirs latin1 = Err (ErrMarshal "wasm plugin configuration").
Proof. intros H1 H2. split; [by rewrite module_filter_spec, H1, H2|reflexivity]. Qed.
