(* ===== verification/CliConfig.v ===== *)
(** * cli: the Envoy configuration

    cli/internal/envoy/config.go: the resources of all extensions and clusters, in order, and
    the full or minimal configuration they are rendered to.  The conversions between YAML, JSON
    and protobuf are parameters. *)

From S2P Require Import Prelude GoStr GoNum GoPath GoFS GoCodec Host ExtPkg GoJson CliPackage CliManifest CliCache CliExtension.
From Stdlib Require Import Lia Ascii.

Local Open Scope Z_scope.
Local Open Scope go_scope.

(** ** Parameters and errors *)

Record ConfigGenerationParams : Type := mkParams {
  AdminAddress : string;
  ListenerPort : Z;
  Dirs : Directories;
  Extensions : list Manifest;
  Configs : list string;
  cp_FilterTypes : list string;
  NativeHTTPFiltersBefore : list string;
  NativeHTTPFiltersAfter : list string;
  cp_Clusters : list string;
  ClustersInsecure : list string;
  ClustersJSON : list string;
  TestUpstreamHost : string;
  TestUpstreamCluster : string;
  ListenerTLSCert : string;
  ListenerTLSKey : string;
}.

Inductive NativeFilterError : Type :=
| ErrReadOverride (path : string)
| ErrParseOverride
| ErrFilterEntry (label : string) (index : nat)
| ErrTerminal (label : string) (index : nat)
| ErrTerminalDecode (label : string) (index : nat).

Inductive ConfigError : Type :=
| ErrFilterTypeOverride (type name : string)
| ErrFilterTypeMissing (name : string)
| ErrGenerate (name : string) (e : GenerateError)
| ErrNative (name : string) (e : NativeFilterError)
| ErrClusterFormat (spec : string)
| ErrClusterPort (spec : string)
| ErrClusterJSON (spec : string)
| ErrClusterTLS (spec : string)
| ErrNoTestCluster (name : string)
| ErrTLSFiles
| ErrTLSMarshal
| ErrAdminAddress (address : string)
| ErrRender.

(** The entry of a list that goes with an extension, if there is one. *)
Definition at_position (l : list string) (i : nat) : string := default "" (l !! i).

(** ** Clusters *)

Definition buildTestUpstreamCluster (name host : string) (port : Z) (tls : bool) : option Cluster :=
  if tls then (fun t => BuiltCluster name STRICT_DNS true false name [(host, port)] (Some t)) <$> anypb_New (AnyUpstreamTls host)
  else Some (BuiltCluster name STRICT_DNS true false name [(host, port)] None).

(** [strconv.ParseUint(s, 10, 32)]. *)
Definition ParseUint32 (s : string) : option Z :=
  match ParseUint s with Some v => if v <? 2 ^ 32 then Some v else None | None => None end.

Definition parseCluster (spec : string) (tls : bool) : result ConfigError Cluster :=
  match SplitHostPort spec with
  | None => Err (ErrClusterFormat spec)
  | Some (host, portStr) =>
      match ParseUint32 portStr with
      | None => Err (ErrClusterPort spec)
      | Some port => match buildTestUpstreamCluster spec host port tls with Some c => Ok c | None => Err (ErrClusterTLS spec) end
      end
  end.

(** The results of a fallible function on all elements, in order, up to the first failure. *)
Fixpoint collect {A B E} (f : A -> result E B) (l : list A) : result E (list B) :=
  match l with
  | [] => Ok []
  | a :: l' => try b <- f a; try bs <- collect f l'; Ok (b :: bs)
  end.

(** ** Messages of the full configuration *)

Record RouteAction : Type := mkRoute { r_Cluster : string; r_HostRewrite : option string }.

Record HttpConnectionManager : Type := mkHCM { hcm_HttpFilters : list Filter; hcm_Route : RouteAction; hcm_AccessLog : Any }.

(** A network filter of the generated chain. *)
Inductive NetworkFilter : Type :=
| ExtensionNetworkFilter (f : Filter)
| HCMFilter (hcm : HttpConnectionManager).

Record Listener : Type := mkListener {
  l_Name : string;
  l_UDP : bool;
  l_Port : Z;
  l_Filters : list NetworkFilter;
  l_TransportSocket : option Any;
  l_ListenerFilters : list Filter;
}.

Record Bootstrap : Type := mkBootstrap { b_Admin : string * Z; b_Listeners : list Listener; b_Clusters : list Cluster }.

Definition buildRouteAction (clusterName hostRewrite : string) : RouteAction :=
  mkRoute clusterName (if bool_decide (hostRewrite = "") then None else Some hostRewrite).

Definition router_filter : Filter := mkFilter "envoy.filters.http.router" (Some AnyRouter).

Definition buildHTTPConnectionManager (filters : list Filter) (clusterName hostRewrite : string) : HttpConnectionManager :=
  mkHCM (filters ++ [router_filter]) (buildRouteAction clusterName hostRewrite) AnyStdoutLog.

Definition prependCluster (c : option Cluster) (clusters : list Cluster) : list Cluster :=
  match c with None => clusters | Some c => c :: clusters end.

Definition buildDownstreamTLSTransportSocket (cert key : string) : result ConfigError Any :=
  if bool_decide (cert = "") || bool_decide (key = "") then Err ErrTLSFiles
  else match anypb_New (AnyDownstreamTls cert key ["h2"; "http/1.1"]) with Some a => Ok a | None => Err ErrTLSMarshal end.

(** A message whose strings cannot be marshalled is not packed. *)
Definition hcm_valid (h : HttpConnectionManager) : bool :=
  forallb (fun f => valid_utf8 (f_Name f)) (hcm_HttpFilters h) && valid_utf8 (r_Cluster (hcm_Route h)) &&
  valid_utf8 (default "" (r_HostRewrite (hcm_Route h))).

Definition buildFullConfig (adminAddress : string) (listenerPort : Z) (clusterName hostRewrite : string) (newCluster : option Cluster)
    (r : ExtensionResources) (listenerTLS : option Any) : result ConfigError Bootstrap :=
  match SplitHostPort adminAddress with
  | None => Err (ErrAdminAddress adminAddress)
  | Some (adminHost, adminPortStr) =>
      match ParseUint32 adminPortStr with
      | None => Err (ErrAdminAddress adminAddress)
      | Some adminPort =>
          let hcm := buildHTTPConnectionManager (HTTPFilters r) clusterName hostRewrite in
          if negb (hcm_valid hcm) then Err ErrRender
          else
            let main := mkListener "main" false listenerPort ((ExtensionNetworkFilter <$> NetworkFilters r) ++ [HCMFilter hcm]) listenerTLS (ListenerFilters r) in
            let udp := match UDPListenerFilters r with
                       | [] => []
                       | fs => [mkListener "udp" true listenerPort [] None fs]
                       end in
            Ok (mkBootstrap (adminHost, adminPort) (main :: udp) (prependCluster newCluster (Clusters r)))
      end
  end.

Section Config.
(** Struct to and from JSON; a filter list given as YAML, cut into the JSON of its entries; a
    filter and a cluster from JSON; the rendering of messages as YAML. *)
Context (parse_struct : string -> option Json) (print_struct : list (string * Json) -> option string).
Context (yaml_entries : string -> option (list string)) (parse_filter : string -> option Filter) (parse_cluster : string -> option Cluster).
Context (fs : FileSystem).

(** ** Native filters *)

Definition dynamic_modules_name : string := "envoy.filters.http.dynamic_modules".

(** [rejectTerminalDynamicModule]; [Some true] is terminal, [None] a configuration of another type. *)
Definition terminal_module (f : Filter) : option bool :=
  if negb (bool_decide (f_Name f = dynamic_modules_name)) then Some false
  else match f_TypedConfig f with
  | None => Some false
  | Some (AnyDynamicModule HttpChain _ _ _ terminal) => Some terminal
  | Some _ => None
  end.

Definition rejectTerminalDynamicModule (label : string) (i : nat) (f : Filter) : result NativeFilterError Filter :=
  match terminal_module f with
  | Some false => Ok f
  | Some true => Err (ErrTerminal label i)
  | None => Err (ErrTerminalDecode label i)
  end.

(** The loop over entries, from the [i]th; an entry without a JSON form is [None]. *)
Fixpoint parse_entries (label : string) (i : nat) (entries : list (option string)) : result NativeFilterError (list Filter) :=
  match entries with
  | [] => Ok []
  | e :: entries' =>
      match e ≫= parse_filter with
      | None => Err (ErrFilterEntry label i)
      | Some f =>
          try f' <- rejectTerminalDynamicModule label i f;
          try fs' <- parse_entries label (S i) entries';
          Ok (f' :: fs')
      end
  end.

Definition parseNativeHTTPFiltersOverride (raw : string) : result NativeFilterError (list Filter) :=
  try data <-
    (if HasPrefix raw "@" then
       match ReadFile fs (drop_bytes 1 raw) with Some b => Ok b | None => Err (ErrReadOverride (drop_bytes 1 raw)) end
     else Ok raw);
  match yaml_entries data with
  | None => Err ErrParseOverride
  | Some entries => parse_entries "entry" 0 (Some <$> entries)
  end.

Definition parseNativeHTTPFiltersFromManifest (entries : list NativeFilter) (label : string) : result NativeFilterError (list Filter) :=
  parse_entries label 0 (nf_json <$> entries).

Definition parseNativeHTTPFiltersBefore (m : Manifest) : result NativeFilterError (list Filter) :=
  match m_Native m with None => Ok [] | Some n => parseNativeHTTPFiltersFromManifest (Before n) "before" end.
Definition parseNativeHTTPFiltersAfter (m : Manifest) : result NativeFilterError (list Filter) :=
  match m_Native m with None => Ok [] | Some n => parseNativeHTTPFiltersFromManifest (After n) "after" end.

(** ** All resources *)

(** The extension with the filter type that was chosen for it. *)
Definition choose_filter_type (ext : Manifest) (override : string) : result ConfigError Manifest :=
  if (1 <? Z.of_nat (length (FilterTypes ext))) then
    if bool_decide (override = "") then Err (ErrFilterTypeMissing (Name ext))
    else if bool_decide (override ∈ FilterTypes ext) then Ok (set_filter_types [override] ext)
    else Err (ErrFilterTypeOverride override (Name ext))
  else Ok ext.

Definition native_filters (ext : Manifest) (override : string) (from_manifest : result NativeFilterError (list Filter)) : result ConfigError (list Filter) :=
  match (if bool_decide (override = "") then from_manifest else parseNativeHTTPFiltersOverride override) with
  | Ok l => Ok l
  | Err e => Err (ErrNative (Name ext) e)
  end.

(** What the loop appends for the [i]th extension. *)
Definition extension_resources (p : ConfigGenerationParams) (i : nat) (ext : Manifest) : result ConfigError ExtensionResources :=
  try ext' <- choose_filter_type ext (at_position (cp_FilterTypes p) i);
  match GenerateFilterConfig parse_struct print_struct fs ext' (Dirs p) (at_position (Configs p) i) with
  | Err e => Err (ErrGenerate (Name ext') e)
  | Ok r =>
      try before <- native_filters ext' (at_position (NativeHTTPFiltersBefore p) i) (parseNativeHTTPFiltersBefore ext');
      try after <- native_filters ext' (at_position (NativeHTTPFiltersAfter p) i) (parseNativeHTTPFiltersAfter ext');
      Ok (mkResources (before ++ HTTPFilters r ++ after) (Clusters r) (NetworkFilters r) (ListenerFilters r) (UDPListenerFilters r))
  end.

Definition append_resources (a b : ExtensionResources) : ExtensionResources :=
  mkResources (HTTPFilters a ++ HTTPFilters b) (Clusters a ++ Clusters b) (NetworkFilters a ++ NetworkFilters b)
    (ListenerFilters a ++ ListenerFilters b) (UDPListenerFilters a ++ UDPListenerFilters b).

Fixpoint generate_extensions (p : ConfigGenerationParams) (i : nat) (exts : list Manifest) (acc : ExtensionResources) : result ConfigError ExtensionResources :=
  match exts with
  | [] => Ok acc
  | ext :: exts' =>
      try r <- extension_resources p i ext;
      generate_extensions p (S i) exts' (append_resources acc r)
  end.

Definition parseJSONCluster (spec : string) : result ConfigError Cluster :=
  match parse_cluster spec with Some c => Ok c | None => Err (ErrClusterJSON spec) end.

Definition generateConfig (p : ConfigGenerationParams) : result ConfigError ExtensionResources :=
  try r <- generate_extensions p 0 (Extensions p) no_resources;
  try secure <- collect (fun spec => parseCluster spec true) (cp_Clusters p);
  try insecure <- collect (fun spec => parseCluster spec false) (ClustersInsecure p);
  try json <- collect parseJSONCluster (ClustersJSON p);
  Ok (mkResources (HTTPFilters r) (Clusters r ++ secure ++ insecure ++ json) (NetworkFilters r) (ListenerFilters r) (UDPListenerFilters r)).

(** ** Rendering *)

Definition defaultTestUpstreamHost : string := "httpbin.org".

(** The cluster traffic is routed to, the host to rewrite to, and the cluster to add. *)
Definition test_upstream (p : ConfigGenerationParams) (r : ExtensionResources) : result ConfigError (string * string * option Cluster) :=
  if negb (bool_decide (TestUpstreamCluster p = "")) then
    if existsb (fun c => bool_decide (cluster_name c = TestUpstreamCluster p)) (Clusters r) then Ok (TestUpstreamCluster p, "", None)
    else Err (ErrNoTestCluster (TestUpstreamCluster p))
  else
    let host := if bool_decide (TestUpstreamHost p = "") then defaultTestUpstreamHost else TestUpstreamHost p in
    match buildTestUpstreamCluster "test-upstream" host 443 true with
    | Some c => Ok ("test-upstream", host, Some c)
    | None => Err (ErrClusterTLS host)
    end.

(** The configuration of [FullConfigRenderer]. *)
Definition full_config (p : ConfigGenerationParams) (r : ExtensionResources) : result ConfigError Bootstrap :=
  try up <- test_upstream p r;
  let '(clusterName, hostRewrite, newCluster) := up in
  try tls <-
    (if bool_decide (ListenerTLSCert p = "") && bool_decide (ListenerTLSKey p = "") then Ok None
     else try t <- buildDownstreamTLSTransportSocket (ListenerTLSCert p) (ListenerTLSKey p); Ok (Some t));
  buildFullConfig (AdminAddress p) (ListenerPort p) clusterName hostRewrite newCluster r tls.

(** The payload of [MinimalConfigRenderer]: the lists that are not empty. *)
Inductive Payload : Type := PFilters (fs : list Filter) | PClusters (cs : list Cluster).

Definition nonempty_payload (p : Payload) : bool := match p with PFilters [] | PClusters [] => false | _ => true end.

Definition minimal_config (r : ExtensionResources) : list (string * Payload) :=
  filter (fun kp => nonempty_payload kp.2 = true)
    [("http_filters", PFilters (HTTPFilters r)); ("network_filters", PFilters (NetworkFilters r));
     ("listener_filters", PFilters (ListenerFilters r)); ("udp_listener_filters", PFilters (UDPListenerFilters r));
     ("clusters", PClusters (Clusters r))].

Context (ProtoToYaml : Bootstrap -> option string) (payload_yaml : list (string * Payload) -> option string).

Definition FullConfigRenderer (p : ConfigGenerationParams) (r : ExtensionResources) : result ConfigError string :=
  try cfg <- full_config p r;
  match ProtoToYaml cfg with Some y => Ok y | None => Err ErrRender end.

Definition MinimalConfigRenderer (p : ConfigGenerationParams) (r : ExtensionResources) : result ConfigError string :=
  match payload_yaml (minimal_config r) with Some y => Ok y | None => Err ErrRender end.

Definition RenderConfig (p : ConfigGenerationParams) (renderer : ConfigGenerationParams -> ExtensionResources -> result ConfigError string) : result ConfigError string :=
  try gen <- generateConfig p;
  renderer p gen.
End Config.

(** ** The order of the resources *)

(** All parts in the order of the extensions. *)
Definition all_parts (parts : list ExtensionResources) : ExtensionResources :=
  mkResources (concat (HTTPFilters <$> parts)) (concat (Clusters <$> parts)) (concat (NetworkFilters <$> parts))
    (concat (ListenerFilters <$> parts)) (concat (UDPListenerFilters <$> parts)).

Section ConfigProofs.
Context (parse_struct : string -> option Json) (print_struct : list (string * Json) -> option string).
Context (yaml_entries : string -> option (list string)) (parse_filter : string -> option Filter) (parse_cluster : string -> option Cluster).
Context (fs : FileSystem).
Local Abbreviation extension_resources := (extension_resources parse_struct print_struct yaml_entries parse_filter fs).
Local Abbreviation generate_extensions := (generate_extensions parse_struct print_struct yaml_entries parse_filter fs).
Local Abbreviation generateConfig := (generateConfig parse_struct print_struct yaml_entries parse_filter parse_cluster fs).
Local Abbreviation parse_entries := (parse_entries parse_filter).
Local Abbreviation parseNativeHTTPFiltersOverride := (parseNativeHTTPFiltersOverride yaml_entries parse_filter fs).

Lemma collect_Ok {A B E} (f : A -> result E B) l bs : collect f l = Ok bs <-> Forall2 (fun a b => f a = Ok b) l bs.
Proof.
  revert bs. induction l as [|a l IH]; intros bs; cbn.
  { split; [intros [= <-]; constructor|by intros ->%Forall2_nil_inv_l]. }
  split.
  - destruct (f a) as [b|] eqn:Hb; [|done]. cbn. destruct (collect f l) as [bs'|]; [|done]. cbn. intros [= <-].
    constructor; [done|]. by apply IH.
  - intros (b & bs' & Hb & Hbs & ->)%Forall2_cons_inv_l. rewrite Hb. cbn. by rewrite (proj2 (IH bs') Hbs).
Qed.

Lemma append_resources_assoc a b c : append_resources (append_resources a b) c = append_resources a (append_resources b c).
Proof. unfold append_resources. cbn. by rewrite !app_assoc. Qed.

Lemma append_resources_nil a : append_resources no_resources a = a.
Proof. by destruct a. Qed.

Lemma append_resources_nil_r a : append_resources a no_resources = a.
Proof. destruct a. unfold append_resources. cbn. by rewrite !app_nil_r. Qed.

Lemma all_parts_cons r parts : all_parts (r :: parts) = append_resources r (all_parts parts).
Proof. done. Qed.

(** Each extension of the list with its position. *)
Lemma generate_extensions_spec p i exts acc r :
  generate_extensions p i exts acc = Ok r <->
  exists parts, Forall2 (fun ie part => extension_resources p ie.1 ie.2 = Ok part) (zip (seq i (length exts)) exts) parts /\
    r = append_resources acc (all_parts parts).
Proof.
  revert i acc. induction exts as [|ext exts IH]; intros i acc; cbn [CliConfig.generate_extensions length seq zip zip_with].
  { split; [intros [= <-]; exists []; split; [constructor|by rewrite append_resources_nil_r]|].
    intros (parts & ->%Forall2_nil_inv_l & ->). by rewrite append_resources_nil_r. }
  split.
  - destruct (extension_resources p i ext) as [part|] eqn:He; [|done]. cbn [rbind].
    intros (parts & Hp & ->)%IH. exists (part :: parts). split; [by constructor|].
    by rewrite all_parts_cons, append_resources_assoc.
  - intros (parts0 & (part & parts & He & Hp & ->)%Forall2_cons_inv_l & ->). cbn [fst snd] in He. rewrite He. cbn [rbind].
    apply IH. exists parts. split; [done|]. by rewrite all_parts_cons, append_resources_assoc.
Qed.

(** A configuration is generated exactly if every extension, at its position, and every
    cluster can be; it then has, in each chain, the filters of the extensions in their order,
    each extension's own HTTP filters between its native filters, and the clusters of the
    extensions, then those with TLS, without TLS, and given as JSON. *)
Lemma generateConfig_parts p r :
  generateConfig p = Ok r <->
  exists parts secure insecure json,
    Forall2 (fun ie part => extension_resources p ie.1 ie.2 = Ok part) (zip (seq 0 (length (Extensions p))) (Extensions p)) parts /\
    Forall2 (fun spec c => parseCluster spec true = Ok c) (cp_Clusters p) secure /\
    Forall2 (fun spec c => parseCluster spec false = Ok c) (ClustersInsecure p) insecure /\
    Forall2 (fun spec c => parse_cluster spec = Some c) (ClustersJSON p) json /\
    HTTPFilters r = concat (HTTPFilters <$> parts) /\ NetworkFilters r = concat (NetworkFilters <$> parts) /\
    ListenerFilters r = concat (ListenerFilters <$> parts) /\ UDPListenerFilters r = concat (UDPListenerFilters <$> parts) /\
    Clusters r = concat (Clusters <$> parts) ++ secure ++ insecure ++ json.
Proof.
  assert (Hjson : forall l cs, Forall2 (fun spec c => parse_cluster spec = Some c) l cs <->
    Forall2 (fun spec c => parseJSONCluster parse_cluster spec = Ok c) l cs).
  { intros l cs. split; intros Hf; (eapply Forall2_impl; [exact Hf|]); intros spec c; unfold parseJSONCluster; destruct (parse_cluster spec); congruence. }
  unfold CliConfig.generateConfig. split.
  - destruct (generate_extensions p 0 (Extensions p) no_resources) as [r0|] eqn:H0; cbn [rbind]; [|done].
    apply generate_extensions_spec in H0 as (parts & Hp & ->). rewrite append_resources_nil.
    destruct (collect _ (cp_Clusters p)) as [secure|] eqn:H1; cbn [rbind]; [|done]. apply collect_Ok in H1.
    destruct (collect _ (ClustersInsecure p)) as [insecure|] eqn:H2; cbn [rbind]; [|done]. apply collect_Ok in H2.
    destruct (collect _ (ClustersJSON p)) as [json|] eqn:H3; cbn [rbind]; [|done]. apply collect_Ok, Hjson in H3.
    intros [= <-]. exists parts, secure, insecure, json. by split_and!.
  - intros (parts & secure & insecure & json & Hp & H1 & H2 & H3 & E1 & E2 & E3 & E4 & E5).
    assert (H0 : generate_extensions p 0 (Extensions p) no_resources = Ok (all_parts parts)).
    { apply generate_extensions_spec. exists parts. split; [done|]. by rewrite append_resources_nil. }
    apply collect_Ok in H1, H2. apply Hjson, collect_Ok in H3. rewrite H0, H1, H2, H3. cbn. destruct r. cbn in *. by subst.
Qed.

(** ** Native filters *)

(** Nothing that ends the chain is let through. *)
Lemma parse_entries_not_terminal label i entries l :
  parse_entries label i entries = Ok l -> Forall (fun f => terminal_module f = Some false) l.
Proof.
  revert i l. induction entries as [|e entries IH]; intros i l; cbn [CliConfig.parse_entries]; [by intros [= <-]|].
  destruct (e ≫= parse_filter) as [f|]; [|done]. unfold rejectTerminalDynamicModule.
  destruct (terminal_module f) as [[]|] eqn:Ht; cbn [rbind]; try done.
  destruct (parse_entries label (S i) entries) as [l'|] eqn:Hl; [|done]. cbn. intros [= <-]. constructor; [done|]. by eapply IH.
Qed.

(** The filter read from an entry has the name that the entry declares. *)
Definition keeps_name (e : NativeFilter) : Prop :=
  forall json f name, nf_json e = Some json -> parse_filter json = Some f -> nf_name e = AName name -> f_Name f = name.
Definition native_entries (m : Manifest) : list NativeFilter := match m_Native m with Some n => Before n ++ After n | None => [] end.

Lemma parse_entries_names label i entries l :
  Forall keeps_name entries -> Forall filter_name_ok entries -> parse_entries label i (nf_json <$> entries) = Ok l -> f_Name <$> l = filter_names entries.
Proof.
  intros Hk Hok. revert i l Hk. induction Hok as [|e entries (name & Hn & _) _ IH]; intros i l Hk; cbn [fmap list_fmap CliConfig.parse_entries]; [by intros [= <-]|].
  apply Forall_cons in Hk as [Hke Hk].
  destruct (nf_json e) as [json|] eqn:Hj; cbn [mbind option_bind]; [|done]. destruct (parse_filter json) as [f|] eqn:Hf; [|done].
  unfold rejectTerminalDynamicModule. destruct (terminal_module f) as [[]|]; cbn [rbind]; try done.
  destruct (parse_entries label (S i) (nf_json <$> entries)) as [l'|] eqn:Hl; [|done]. cbn [rbind]. intros [= <-]. cbn.
  unfold filter_names. cbn. rewrite Hn. fold (filter_names entries). rewrite (Hke json f name) by done. f_equal. by eapply IH.
Qed.

Definition router_name : string := "envoy.filters.http.router".

Lemma filter_name_not_router entries : Forall filter_name_ok entries -> Forall (fun n => n <> router_name) (filter_names entries).
Proof.
  induction 1 as [|e entries (name & Hn & _ & Hr) _ IH]; [constructor|]. unfold filter_names. cbn. rewrite Hn. constructor; [|done].
  intros ->. done.
Qed.

Lemma generated_names m dirs config r :
  GenerateFilterConfig parse_struct print_struct fs m dirs config = Ok r -> Forall (fun f => f_Name f = Name m) (HTTPFilters r).
Proof.
  assert (Hmod : forall r, DynamicModule_Generate m config = Ok r -> Forall (fun f => f_Name f = Name m) (HTTPFilters r)).
  { intros r' [_ Hf]%module_filters_spec. specialize (Hf HttpChain). cbn [filters_of] in Hf. rewrite Hf. apply Forall_app. split; [constructor|].
    apply Forall_fmap, Forall_true. done. }
  assert (Hone : forall a cs, Forall (fun f => f_Name f = Name m) (HTTPFilters (mkResources [mkFilter (Name m) a] cs [] [] []))) by (by repeat constructor).
  unfold GenerateFilterConfig, Lua_Generate, Wasm_Generate, Composer_Generate, ExtProc_Generate, marshalled.
  repeat (case_bool_decide || case_match); cbn [rbind]; try done; try (by apply Hmod);
    repeat (case_match; cbn [rbind]; try done); intros [= <-]; apply Hone.
Qed.

Lemma extension_resources_names p i ext part :
  Forall keeps_name (native_entries ext) -> validateNativeHTTPFilters ext = Ok tt -> Name ext <> router_name ->
  at_position (NativeHTTPFiltersBefore p) i = "" -> at_position (NativeHTTPFiltersAfter p) i = "" ->
  extension_resources p i ext = Ok part -> Forall (fun f => f_Name f <> router_name) (HTTPFilters part).
Proof.
  intros Hk Hv Hname Hb Ha. unfold CliConfig.extension_resources, native_filters. rewrite Hb, Ha.
  destruct (choose_filter_type ext _) as [ext'|] eqn:Hc; [|done]. cbn [rbind].
  assert (Hext : Name ext' = Name ext /\ m_Native ext' = m_Native ext).
  { unfold choose_filter_type in Hc. repeat (case_match || case_bool_decide); try done; by injection Hc as <-. }
  destruct Hext as [En Enat]. apply validateNativeHTTPFilters_spec in Hv. unfold parseNativeHTTPFiltersBefore, parseNativeHTTPFiltersAfter.
  rewrite Enat. destruct (GenerateFilterConfig _ _ _ ext' _ _) as [r|] eqn:Hg; [|done]. apply generated_names in Hg. cbn [bool_decide].
  rewrite !(bool_decide_eq_true_2 ("" = "") eq_refl).
  assert (Hnat : forall label entries l, Forall keeps_name entries -> Forall filter_name_ok entries -> parse_entries label 0 (nf_json <$> entries) = Ok l ->
    Forall (fun f => f_Name f <> router_name) l).
  { intros label entries l Hke Hok Hl. apply parse_entries_names in Hl; [|done..]. apply filter_name_not_router in Hok. rewrite <- Hl in Hok.
    rewrite Forall_fmap in Hok. exact Hok. }
  assert (Hown : Forall (fun f => f_Name f <> router_name) (HTTPFilters r)) by (eapply Forall_impl; [exact Hg|]; intros f ->; congruence).
  unfold native_entries in Hk. destruct (m_Native ext) as [n|]; cbn [rbind]; [|intros [= <-]; cbn; by rewrite app_nil_r].
  apply Forall_app in Hk as [HkB HkA].
  destruct Hv as (_ & Hok & _). apply Forall_app in Hok as [HokB HokA]. unfold parseNativeHTTPFiltersFromManifest.
  destruct (parse_entries "before" 0 _) as [lb|] eqn:Hlb; [|done]. cbn [rbind].
  destruct (parse_entries "after" 0 _) as [la|] eqn:Hla; [|done]. cbn [rbind]. intros [= <-]. cbn [HTTPFilters].
  rewrite !Forall_app. split_and!; [eapply Hnat; [exact HkB|exact HokB|exact Hlb]|done|eapply Hnat; [exact HkA|exact HokA|exact Hla]].
Qed.

(** *** The full configuration *)

Lemma full_config_shape p r boot :
  full_config p r = Ok boot ->
  exists clusterName hostRewrite newCluster tls adminHost adminPort,
    test_upstream p r = Ok (clusterName, hostRewrite, newCluster) /\
    (tls = None <-> ListenerTLSCert p = "" /\ ListenerTLSKey p = "") /\
    boot = mkBootstrap (adminHost, adminPort)
      (mkListener "main" false (ListenerPort p)
         ((ExtensionNetworkFilter <$> NetworkFilters r) ++ [HCMFilter (buildHTTPConnectionManager (HTTPFilters r) clusterName hostRewrite)]) tls (ListenerFilters r)
       :: match UDPListenerFilters r with [] => [] | ufs => [mkListener "udp" true (ListenerPort p) [] None ufs] end)
      (prependCluster newCluster (Clusters r)).
Proof using.
  unfold full_config. destruct (test_upstream p r) as [[[clusterName hostRewrite] newCluster]|]; [|done]. cbn [rbind].
  set (tls := if bool_decide (ListenerTLSCert p = "") && bool_decide (ListenerTLSKey p = "") then _ else _).
  assert (Htls : forall t, tls = Ok t -> (t = None <-> ListenerTLSCert p = "" /\ ListenerTLSKey p = "")).
  { intros t. subst tls. unfold buildDownstreamTLSTransportSocket. repeat case_bool_decide; cbn [andb orb rbind]; try done; [intros [= <-]; done|].
    destruct (anypb_New _); cbn; [|done]. intros [= <-]. split; [done|by intros [? ?]]. }
  destruct tls as [t|]; [|done]. cbn [rbind]. specialize (Htls t eq_refl). unfold buildFullConfig.
  destruct (SplitHostPort (AdminAddress p)) as [[adminHost portStr]|]; [|done]. destruct (ParseUint32 portStr) as [adminPort|]; [|done].
  destruct (negb (hcm_valid _)); [done|]. intros [= <-]. by exists clusterName, hostRewrite, newCluster, t, adminHost, adminPort.
Qed.

Lemma test_upstream_defined p r clusterName hostRewrite newCluster :
  test_upstream p r = Ok (clusterName, hostRewrite, newCluster) -> clusterName ∈ cluster_name <$> prependCluster newCluster (Clusters r).
Proof using.
  unfold test_upstream, buildTestUpstreamCluster. case_bool_decide; cbn [negb].
  - destruct (anypb_New _); cbn; [|done]. intros [= <- _ <-]. cbn. left.
  - destruct (existsb _ (Clusters r)) eqn:He; [|done]. intros [= <- _ <-]. cbn. apply existsb_exists in He as (c & Hin & Hc).
    apply bool_decide_eq_true in Hc. apply list_elem_of_fmap. exists c. split; [done|]. by apply list_elem_of_In.
Qed.

(** What the [i]th extension contributes: with the filter type chosen for it, its own filters and
    clusters, the HTTP ones between the native filters before and after it. *)
Definition contributes (p : ConfigGenerationParams) (ie : nat * Manifest) (part : ExtensionResources) : Prop :=
  exists ext own before after,
    choose_filter_type ie.2 (at_position (cp_FilterTypes p) ie.1) = Ok ext /\
    GenerateFilterConfig parse_struct print_struct fs ext (Dirs p) (at_position (Configs p) ie.1) = Ok own /\
    native_filters yaml_entries parse_filter fs ext (at_position (NativeHTTPFiltersBefore p) ie.1) (parseNativeHTTPFiltersBefore parse_filter ext) = Ok before /\
    native_filters yaml_entries parse_filter fs ext (at_position (NativeHTTPFiltersAfter p) ie.1) (parseNativeHTTPFiltersAfter parse_filter ext) = Ok after /\
    HTTPFilters part = before ++ HTTPFilters own ++ after /\ NetworkFilters part = NetworkFilters own /\
    ListenerFilters part = ListenerFilters own /\ UDPListenerFilters part = UDPListenerFilters own /\ Clusters part = Clusters own.

Lemma extension_contributes p i ext part : extension_resources p i ext = Ok part -> contributes p (i, ext) part.
Proof.
  unfold CliConfig.extension_resources, contributes. cbn [fst snd].
  destruct (choose_filter_type ext _) as [ext'|] eqn:Hc; [|done]. cbn [rbind]. destruct (GenerateFilterConfig _ _ _ ext' _ _) as [own|] eqn:Hg; [|done].
  destruct (native_filters _ _ _ ext' (at_position (NativeHTTPFiltersBefore p) i) _) as [before|] eqn:Hb; [|done]. cbn [rbind].
  destruct (native_filters _ _ _ ext' (at_position (NativeHTTPFiltersAfter p) i) _) as [after|] eqn:Ha; [|done]. cbn [rbind].
  intros [= <-]. by exists ext', own, before, after.
Qed.

(** Where requests go and the clusters there are for it. *)
Lemma test_upstream_cases p r clusterName hostRewrite newCluster (host := if bool_decide (TestUpstreamHost p = "") then defaultTestUpstreamHost else TestUpstreamHost p) :
  test_upstream p r = Ok (clusterName, hostRewrite, newCluster) ->
  (TestUpstreamCluster p <> "" -> buildRouteAction clusterName hostRewrite = mkRoute (TestUpstreamCluster p) None /\ newCluster = None) /\
  (TestUpstreamCluster p = "" -> buildRouteAction clusterName hostRewrite = mkRoute "test-upstream" (Some host) /\
     newCluster = Some (BuiltCluster "test-upstream" STRICT_DNS true false "test-upstream" [(host, 443)] (Some (AnyUpstreamTls host)))).
Proof using.
  assert (Hh : host <> "") by (subst host; case_bool_decide; [unfold defaultTestUpstreamHost; discriminate|done]).
  unfold test_upstream, buildTestUpstreamCluster, buildRouteAction, anypb_New. fold host. case_bool_decide as Ht; cbn [negb].
  - destruct (forallb _ _); cbn; [|done]. intros [= <- <- <-]. split; [done|]. intros _. by rewrite bool_decide_eq_false_2.
  - destruct (existsb _ (Clusters r)); [|done]. intros [= <- <- <-]. done.
Qed.

(** No manifest brings the router into the chain: they are validated, not overridden, and their
    filters keep the names they declare. *)
Definition routers_checked (p : ConfigGenerationParams) : Prop :=
  Forall (fun m => validateNativeHTTPFilters m = Ok tt /\ Name m <> router_name /\ Forall keeps_name (native_entries m)) (Extensions p) /\
  forall i, at_position (NativeHTTPFiltersBefore p) i = "" /\ at_position (NativeHTTPFiltersAfter p) i = "".

Lemma checked_parts p parts :
  routers_checked p ->
  Forall2 (fun ie part => extension_resources p ie.1 ie.2 = Ok part) (zip (seq 0 (length (Extensions p))) (Extensions p)) parts ->
  Forall (fun f => f_Name f <> router_name) (concat (HTTPFilters <$> parts)).
Proof.
  intros [Hv Ho] Hp. apply Forall_concat, Forall_fmap. apply Forall_forall. intros part Hin. apply list_elem_of_lookup_1 in Hin as [n Hn].
  destruct (Forall2_lookup_r _ _ _ _ _ Hp Hn) as ([i ext] & Hz & He). cbn [fst snd] in He.
  apply lookup_zip_Some in Hz as [_ Hext]. rewrite Forall_forall in Hv. destruct (Hv ext) as (H1 & H2 & H5); [by eapply list_elem_of_lookup_2|].
  destruct (Ho i) as [H3 H4]. by eapply (extension_resources_names p i ext).
Qed.

(** C28: A rendered full configuration is the one of the extensions and clusters given, in their
    order.  Its main listener, on the port asked for, runs the network filters of the extensions
    and then one HTTP connection manager, which runs the HTTP filters of the extensions, each
    one's own between the native filters before and after it, and the router last; it is the only
    router when the manifests were validated and their native filters are not overridden.  The
    clusters are those of the extensions, then those with TLS, without TLS and given as JSON;
    requests are routed to the cluster that was named, which is one of them, or, if none was
    named, to a TLS cluster for the test host put before them.  There is a UDP listener, on the
    same port, exactly if there are UDP filters, and TLS is terminated exactly if a certificate
    or a key was given. *)
Theorem full_config_sound (ProtoToYaml : Bootstrap -> option string) p y :
  RenderConfig parse_struct print_struct yaml_entries parse_filter parse_cluster fs p (FullConfigRenderer ProtoToYaml) = Ok y ->
  exists boot parts secure insecure json main rest hcm,
    ProtoToYaml boot = Some y /\
    Forall2 (contributes p) (zip (seq 0 (length (Extensions p))) (Extensions p)) parts /\
    Forall2 (fun spec c => parseCluster spec true = Ok c) (cp_Clusters p) secure /\
    Forall2 (fun spec c => parseCluster spec false = Ok c) (ClustersInsecure p) insecure /\
    Forall2 (fun spec c => parse_cluster spec = Some c) (ClustersJSON p) json /\
    b_Listeners boot = main :: rest /\ l_Port main = ListenerPort p /\ l_UDP main = false /\
    l_Filters main = (ExtensionNetworkFilter <$> concat (NetworkFilters <$> parts)) ++ [HCMFilter hcm] /\
    l_ListenerFilters main = concat (ListenerFilters <$> parts) /\
    hcm_HttpFilters hcm = concat (HTTPFilters <$> parts) ++ [router_filter] /\
    (routers_checked p -> Forall (fun f => f_Name f <> router_name) (concat (HTTPFilters <$> parts))) /\
    (let clusters := concat (Clusters <$> parts) ++ secure ++ insecure ++ json in
     let host := if bool_decide (TestUpstreamHost p = "") then defaultTestUpstreamHost else TestUpstreamHost p in
     (TestUpstreamCluster p <> "" ->
        hcm_Route hcm = mkRoute (TestUpstreamCluster p) None /\ b_Clusters boot = clusters /\ TestUpstreamCluster p ∈ cluster_name <$> clusters) /\
     (TestUpstreamCluster p = "" ->
        hcm_Route hcm = mkRoute "test-upstream" (Some host) /\
        b_Clusters boot = BuiltCluster "test-upstream" STRICT_DNS true false "test-upstream" [(host, 443)] (Some (AnyUpstreamTls host)) :: clusters)) /\
    (concat (UDPListenerFilters <$> parts) = [] <-> rest = []) /\
    Forall (fun l => l_UDP l = true /\ l_Port l = ListenerPort p /\ l_ListenerFilters l = concat (UDPListenerFilters <$> parts)) rest /\
    (l_TransportSocket main = None <-> ListenerTLSCert p = "" /\ ListenerTLSKey p = "").
Proof.
  unfold RenderConfig, FullConfigRenderer. destruct (generateConfig p) as [r|] eqn:Hg; [|done]. cbn [rbind].
  destruct (full_config p r) as [boot|] eqn:Hf; [|done]. cbn [rbind]. destruct (ProtoToYaml boot) as [y'|] eqn:Hy; [|done]. intros [= ->].
  apply full_config_shape in Hf as (cn & hr & nc & tls & ah & ap & Hup & Htls & ->).
  apply generateConfig_parts in Hg as (parts & secure & insecure & json & Hp & H1 & H2 & H3 & E1 & E2 & E3 & E4 & E5).
  pose proof (test_upstream_defined _ _ _ _ _ Hup) as Hin. pose proof (test_upstream_cases _ _ _ _ _ Hup) as [Hnamed Htest].
  eexists _, parts, secure, insecure, json, _, _, _. cbn [b_Listeners b_Clusters].
  split; [exact Hy|]. split; [eapply Forall2_impl; [exact Hp|]; intros [i ext] part; exact (extension_contributes p i ext part)|].
  do 3 (split; [assumption|]). split; [reflexivity|]. cbn [l_Port l_UDP l_Filters l_ListenerFilters l_TransportSocket].
  rewrite <- E1, <- E2, <- E3, <- E4, <- E5. do 5 (split; [reflexivity|]).
  split; [intros Hc; rewrite E1; by apply (checked_parts p)|]. split; [|split; [by destruct (UDPListenerFilters r)|split; [|done]]].
  - cbn [hcm_Route buildHTTPConnectionManager]. split; intros Ht.
    + destruct (Hnamed Ht) as [Hroute ->]. rewrite Hroute. split; [done|]. split; [done|]. by injection Hroute as -> _.
    + by destruct (Htest Ht) as [-> ->].
  - destruct (UDPListenerFilters r); by repeat constructor.
Qed.
End ConfigProofs.

(** ** Clusters given on the command line *)

Lemma SplitHostPort_plain host port :
  ContainsByte host ":"%char = false -> ContainsByte host "["%char = false -> ContainsByte host "]"%char = false ->
  ContainsByte port ":"%char = false -> ContainsByte port "["%char = false -> ContainsByte port "]"%char = false ->
  SplitHostPort (host +:+ ":" +:+ port) = Some (host, port).
Proof.
  intros H1 H2 H3 P1 P2 P3. unfold SplitHostPort.
  change (host +:+ ":" +:+ port) with (host +:+ String ":"%char port). rewrite LastIndexByte_app by done.
  assert (Hd : drop_bytes (S (String.length host)) (host +:+ String ":"%char port) = port)
    by (clear; induction host as [|c host IH]; cbn; [by destruct port|done]).
  assert (Hb : ContainsByte (host +:+ String ":"%char port) "["%char = false /\ ContainsByte (host +:+ String ":"%char port) "]"%char = false).
  { rewrite !ContainsByte_app. cbn [ContainsByte]. by rewrite H2, H3, P2, P3. }
  destruct Hb as [Hb1 Hb2]. rewrite Hd.
  assert (Ht : take_bytes (String.length host) (host +:+ String ":"%char port) = host) by apply take_bytes_app_length.
  rewrite Ht, H1, Hb1, Hb2. cbn [orb].
  destruct host as [|c host]; [done|]. cbn [String.append]. destruct (decide (c = "["%char)) as [->|Hc]; [done|].
  destruct c as [[] [] [] [] [] [] [] []]; try done.
Qed.

(** A cluster given as host and port becomes a cluster of that name with that one endpoint,
    found by DNS, with TLS for that host exactly if it was asked for; the port is any number of
    32 bits. *)
Theorem parseCluster_endpoint host portStr port tls :
  ContainsByte host ":"%char = false -> ContainsByte host "["%char = false -> ContainsByte host "]"%char = false ->
  valid_utf8 host = true -> ParseUint32 portStr = Some port ->
  parseCluster (host +:+ ":" +:+ portStr) tls =
    Ok (BuiltCluster (host +:+ ":" +:+ portStr) STRICT_DNS true false (host +:+ ":" +:+ portStr) [(host, port)]
          (if tls then Some (AnyUpstreamTls host) else None)).
Proof.
  intros H1 H2 H3 Hu Hp. assert (Hn : forall c, digit c = None -> ContainsByte portStr c = false).
  { intros c Hc. unfold ParseUint32 in Hp. destruct (ParseUint portStr) as [v|] eqn:Hv; [|done]. by eapply ParseUint_no_byte. }
  unfold parseCluster. rewrite SplitHostPort_plain by (done || by apply Hn). rewrite Hp. unfold buildTestUpstreamCluster, anypb_New.
  destruct tls; [|done]. cbn [strings_of forallb]. by rewrite Hu.
Qed.

(** A port beyond 65535 is accepted. *)
Theorem parseCluster_wide_port :
  parseCluster "example.com:70000" false = Ok (BuiltCluster "example.com:70000" STRICT_DNS true false "example.com:70000" [("example.com", 70000)] None).
Proof. vm_compute. reflexivity. Qed.

(** ** Overrides *)

(** The checks of a manifest's native filters are not made for an override: a router is let
    through, next to the one that is appended. *)
Definition read_router (json : string) : option Filter := Some router_filter.
Theorem override_allows_router fs :
  parseNativeHTTPFiltersOverride (fun data => Some [data]) read_router fs "name: envoy.filters.http.router" = Ok [router_filter].
Proof. reflexivity. Qed.

(** ** Witnesses *)

Definition example_params : ConfigGenerationParams :=
  mkParams "127.0.0.1:9901" 10000 example_dirs
    [set_build false true false example_go] ["{}"] [] [] [] ["api.example.com:443"] [] [] "" "api.example.com:443" "" "".

(** A struct written as its name, and a filter named by its JSON. *)
Definition name_filter (json : string) : option Filter := Some (mkFilter json None).

Definition example_resources : result ConfigError ExtensionResources :=
  generateConfig (fun _ => Some JNull) (fun _ => Some "") (fun _ => None) name_filter (fun _ => None) ∅ example_params.

(** The names of the clusters of a configuration, in place of its YAML. *)
Definition boot_names (boot : Bootstrap) : option string := Some (Join (cluster_name <$> b_Clusters boot) ",").

Lemma full_config_sound_witness :
  exists boot main rest hcm, boot_names boot = Some "api.example.com:443" /\ b_Listeners boot = main :: rest /\
    last (l_Filters main) = Some (HCMFilter hcm) /\ hcm_Route hcm = mkRoute "api.example.com:443" None.
Proof.
  destruct (full_config_sound (fun _ => Some JNull) (fun _ => Some "") (fun _ => None) name_filter (fun _ => None) ∅ boot_names
    example_params "api.example.com:443")
    as (boot & parts & secure & insecure & json & main & rest & hcm & Hy & _ & _ & _ & _ & Hl & _ & _ & Hf & _ & _ & _ & [Hup _] & _).
  - vm_compute. reflexivity.
  - exists boot, main, rest, hcm. split; [exact Hy|]. split; [exact Hl|]. split; [rewrite Hf; apply last_snoc|].
    apply Hup. discriminate.
Defined.

Lemma parseCluster_endpoint_witness :
  parseCluster "api.example.com:443" true =
    Ok (BuiltCluster "api.example.com:443" STRICT_DNS true false "api.example.com:443" [("api.example.com", 443)] (Some (AnyUpstreamTls "api.example.com"))).
Proof. apply (parseCluster_endpoint "api.example.com" "443" 443 true); vm_compute; reflexivity. Defined.

(** A reader for the filters of one manifest. *)
Definition native_entry : NativeFilter := mkNativeFilter (AName "envoy.filters.http.cors") (Some "envoy.filters.http.cors").
Definition native_go : Manifest :=
  mkManifest "example" "1.2.0" "" false "" "" TypeGo [FilterTypeHTTP] "" "" "" "0.9.0" None None (Some (mkNative [native_entry] [])) ""
    false (mkOrigin "" "" "") true false zero_info.
Definition native_params : ConfigGenerationParams :=
  mkParams "127.0.0.1:9901" 10000 example_dirs [native_go] [] [] [] [] [] [] [] "" "" "" "".

Definition native_resources : result ConfigError ExtensionResources :=
  generateConfig (fun _ => Some JNull) (fun _ => Some "") (fun _ => None) name_filter (fun _ => None) ∅ native_params.

(** A validated manifest with a native filter of its own. *)
Example native_router :
  exists r boot main, native_resources = Ok r /\ full_config native_params r = Ok boot /\ b_Listeners boot = [main] /\
    (match last (l_Filters main) with Some (HCMFilter hcm) => f_Name <$> hcm_HttpFilters hcm | _ => [] end) =
      ["envoy.filters.http.cors"; "example"; router_name].
Proof. eexists _, _, _. split; [vm_compute; reflexivity|]. split; [vm_compute; reflexivity|]. split; [reflexivity|]. vm_compute. reflexivity. Qed.
