(* ===== verification/CliLogs.v ===== *)
(** * cli: logs, listing, cleaning and platforms

    cli/cmd/logs.go, list.go, clean.go and the platform of download.go: the last lines of the
    log file found by reading it backwards in chunks, the shortened descriptions of a listing,
    and the directories that cleaning removes. *)

From S2P Require Import Prelude GoStr GoNum GoPath GoFS SSELines CliPackage CliManifest CliCache.
From Stdlib Require Import Lia Ascii.

Local Open Scope Z_scope.

(** ** The last lines of a file *)

Definition tailChunkSize : nat := 4096.

(** The bytes of a text, last first. *)
Definition rev_bytes (s : string) : list ascii := reverse (String.list_ascii_of_string s).

(** The loop over a chunk that starts at [chunkStart], from its last byte: how many newlines are
    still to be found, and where the output starts. *)
Fixpoint scan_back (rev_chunk : list ascii) (chunkStart : nat) (remaining : Z) (startPos : nat) : Z * nat :=
  match rev_chunk with
  | [] => (remaining, startPos)
  | b :: rest =>
      if remaining <=? 0 then (remaining, startPos)
      else if decide (b = newline) then
        let remaining := remaining - 1 in
        scan_back rest chunkStart remaining (if remaining =? 0 then (chunkStart + length rest + 1)%nat else startPos)
      else scan_back rest chunkStart remaining startPos
  end.

(** The loop over the chunks, with [pos] bytes left; [fuel] counts the chunks. *)
Fixpoint scan_chunks (fuel : nat) (content : string) (pos : nat) (remaining : Z) (startPos : nat) : Z * nat :=
  match fuel with
  | O => (remaining, startPos)
  | S fuel' =>
      if (bool_decide (pos = 0%nat)) || (remaining <=? 0) then (remaining, startPos)
      else
        let chunkStart := (pos - tailChunkSize)%nat in
        let chunk := take_bytes (pos - chunkStart) (drop_bytes chunkStart content) in
        let '(remaining', startPos') := scan_back (rev_bytes chunk) chunkStart remaining startPos in
        scan_chunks fuel' content chunkStart remaining' startPos'
  end.

(** The text without a newline at its end. *)
Definition scan_end (content : string) : nat :=
  let size := String.length content in
  match rev_bytes content with b :: _ => if decide (b = newline) then pred size else size | [] => size end.

(** What is written: the content from where the scan ended. *)
Definition printLastLines (content : string) (n : Z) : string :=
  match content with
  | EmptyString => ""
  | _ => drop_bytes (scan_chunks (S (String.length content)) content (scan_end content) n 0).2 content
  end.

Example printLastLines_ex (nl := String newline "") :
  printLastLines ("a" +:+ nl +:+ "b" +:+ nl +:+ "c" +:+ nl) 2 = "b" +:+ nl +:+ "c" +:+ nl /\
  printLastLines ("a" +:+ nl +:+ "b") 1 = "b" /\ printLastLines ("a" +:+ nl +:+ "b") 5 = "a" +:+ nl +:+ "b".
Proof. vm_compute. repeat split. Qed.

(** *** The reference *)

Definition body_of (content : string) : string := take_bytes (scan_end content) content.
Definition end_of (content : string) : string := drop_bytes (scan_end content) content.

(** The last lines of a text, and the newline at its end if it has one. *)
Definition last_lines (content : string) (n : Z) : string :=
  let lines := Split (body_of content) newline in
  Join (drop (length lines - Z.to_nat n) lines) (String newline "") +:+ end_of content.

(** *** One scan instead of many *)

Lemma rev_bytes_app a b : rev_bytes (a +:+ b) = rev_bytes b ++ rev_bytes a.
Proof.
  unfold rev_bytes. assert (E : String.list_ascii_of_string (a +:+ b) = String.list_ascii_of_string a ++ String.list_ascii_of_string b)
    by (induction a as [|c a IH]; cbn; [done|by rewrite IH]). by rewrite E, reverse_app.
Qed.

Lemma rev_bytes_length s : length (rev_bytes s) = String.length s.
Proof. unfold rev_bytes. rewrite length_reverse. induction s as [|c s IH]; cbn; [done|by rewrite IH]. Qed.

Lemma scan_back_app l1 l2 start remaining pos :
  scan_back (l1 ++ l2) start remaining pos =
    let '(remaining', pos') := scan_back l1 (start + length l2) remaining pos in scan_back l2 start remaining' pos'.
Proof.
  revert remaining pos. induction l1 as [|b l1 IH]; intros remaining pos; cbn; [done|].
  destruct (Z.leb_spec remaining 0) as [Hle|Hlt].
  - destruct l2; cbn; [done|]. by destruct (Z.leb_spec remaining 0); [|lia].
  - case_decide; [|apply IH]. rewrite IH. rewrite length_app.
    by replace (start + (length l1 + length l2) + 1)%nat with (start + length l2 + length l1 + 1)%nat by lia.
Qed.

Lemma take_bytes_split n m s : (n <= m)%nat -> take_bytes m s = take_bytes n s +:+ take_bytes (m - n) (drop_bytes n s).
Proof.
  revert n m. induction s as [|c s IH]; intros n m Hle.
  - destruct n, m; cbn [take_bytes drop_bytes String.append Nat.sub]; try done. by destruct (m - n)%nat.
  - destruct n as [|n], m as [|m]; cbn [take_bytes drop_bytes String.append Nat.sub]; try done; [lia|]. f_equal. apply IH. lia.
Qed.

Lemma scan_back_done l start remaining pos : remaining <= 0 -> scan_back l start remaining pos = (remaining, pos).
Proof. intros Hle. destruct l; cbn; [done|]. by destruct (Z.leb_spec remaining 0); [|lia]. Qed.

Lemma scan_chunks_once fuel content pos remaining startPos :
  (pos <= String.length content)%nat -> (pos < fuel)%nat ->
  scan_chunks fuel content pos remaining startPos = scan_back (rev_bytes (take_bytes pos content)) 0 remaining startPos.
Proof.
  revert pos remaining startPos. induction fuel as [|fuel IH]; intros pos remaining startPos Hlen Hfuel; [lia|]. cbn [scan_chunks].
  case_bool_decide as H0; cbn [orb].
  { subst. by destruct content. }
  destruct (Z.leb_spec remaining 0) as [Hle|Hgt]; [by rewrite scan_back_done|].
  set (cs := (pos - tailChunkSize)%nat). assert (Hcs : (cs < pos)%nat) by (unfold cs, tailChunkSize; lia).
  rewrite (take_bytes_split cs pos content) by lia. rewrite rev_bytes_app, scan_back_app, rev_bytes_length, length_take_bytes.
  replace (0 + Nat.min cs (String.length content))%nat with cs by lia.
  destruct (scan_back _ cs remaining startPos) as [r' p']. apply IH; lia.
Qed.

(** *** Where the scan ends *)

Fixpoint count_nl (s : string) : Z :=
  match s with EmptyString => 0 | String c s' => (if decide (c = newline) then 1 else 0) + count_nl s' end.

(** The first position after which there are less than [n] newlines. *)
Fixpoint tail_start (n : Z) (s : string) : nat :=
  match s with
  | EmptyString => 0
  | String c s' => if count_nl (String c s') <? n then 0 else S (tail_start n s')
  end.

Lemma count_nl_nonneg s : 0 <= count_nl s.
Proof. induction s as [|c s IH]; cbn; [lia|]. case_decide; lia. Qed.

Lemma scan_back_tail s base n :
  0 < n ->
  scan_back (rev_bytes s) base n 0 = (Z.max 0 (n - count_nl s), if count_nl s <? n then 0%nat else (base + tail_start n s)%nat).
Proof.
  intros Hn. revert base. induction s as [|c s IH]; intros base; cbn [count_nl tail_start].
  { cbn. destruct (Z.ltb_spec 0 n); [|lia]. f_equal. lia. }
  change (String c s) with (String c "" +:+ s) at 1. rewrite rev_bytes_app, scan_back_app, IH. cbn [rev_bytes String.list_ascii_of_string reverse rev_append length].
  pose proof (count_nl_nonneg s). destruct (Z.ltb_spec (count_nl s) n) as [Hlt|Hge].
  - change (rev_bytes (String c "")) with [c]. cbn [scan_back length]. destruct (Z.leb_spec (Z.max 0 (n - count_nl s)) 0); [lia|].
    case_decide as Hc.
    + destruct (Z.ltb_spec (1 + count_nl s) n); destruct (Z.eqb_spec (Z.max 0 (n - count_nl s) - 1) 0); try lia; f_equal; try lia.
      assert (tail_start n s = 0%nat) as ->; [|lia].
      destruct s as [|d s']; [done|]. cbn [tail_start]. by destruct (Z.ltb_spec (count_nl (String d s')) n); [|lia].
    + destruct (Z.ltb_spec (0 + count_nl s) n); [|lia]. by f_equal.
  - rewrite scan_back_done by lia. destruct (Z.ltb_spec ((if decide (c = newline) then 1 else 0) + count_nl s) n); [case_decide; lia|].
    f_equal; [case_decide; lia|]. change (length (rev_bytes (String c ""))) with 1%nat. lia.
Qed.

Lemma Split_length s : Z.of_nat (length (Split s newline)) = count_nl s + 1.
Proof.
  induction s as [|c s IH]; [done|]. cbn [Split count_nl]. case_decide as Hc.
  - cbn [length]. lia.
  - pose proof (Split_nonempty s newline) as Hne. destruct (Split s newline) as [|l ls]; [done|]. cbn [length] in *. lia.
Qed.

Lemma tail_start_lines n s :
  0 < n -> Join (drop (length (Split s newline) - Z.to_nat n) (Split s newline)) (String newline "") = drop_bytes (tail_start n s) s.
Proof.
  intros Hn. assert (Hall : forall s, count_nl s < n -> Join (drop (length (Split s newline) - Z.to_nat n) (Split s newline)) (String newline "") = s).
  { intros s' Hlt. pose proof (Split_length s'). replace (length (Split s' newline) - Z.to_nat n)%nat with 0%nat by lia.
    rewrite drop_0. apply Join_Split. }
  induction s as [|c s IH]; [by apply Hall|]. cbn [tail_start].
  destruct (Z.ltb_spec (count_nl (String c s)) n) as [Hlt|Hge]; [by rewrite Hall|]. cbn [drop_bytes]. rewrite <- IH.
  pose proof (Split_length s) as Hl. cbn [Split count_nl] in *. pose proof (Split_nonempty s newline) as Hne. case_decide as Hc.
  - cbn [length]. replace (S (length (Split s newline)) - Z.to_nat n)%nat with (S (length (Split s newline) - Z.to_nat n)) by lia. done.
  - destruct (Split s newline) as [|l ls]; [done|]. cbn [length] in *.
    replace (S (length ls) - Z.to_nat n)%nat with (S (length ls - Z.to_nat n)) by lia. done.
Qed.

Lemma scan_end_le content : (scan_end content <= String.length content)%nat.
Proof. unfold scan_end. destruct (rev_bytes content); [done|]. case_decide; lia. Qed.

Lemma tail_start_le n s : (tail_start n s <= String.length s)%nat.
Proof. induction s as [|d s IH]; cbn [tail_start String.length]; [lia|]. destruct (count_nl (String d s) <? n); lia. Qed.

Lemma drop_bytes_app_le k a b : (k <= String.length a)%nat -> drop_bytes k (a +:+ b) = drop_bytes k a +:+ b.
Proof.
  revert k. induction a as [|d a IH]; intros [|k] Hk; cbn [drop_bytes String.append String.length] in *; try done; [lia|]. apply IH. lia.
Qed.

(** C29: Printing the last lines of a file by reading it backwards in chunks writes exactly its
    last [n] lines, or all of them if there are fewer, whatever its size; a newline at its end
    does not count as a line. *)
Theorem printLastLines_spec content n : 0 < n -> printLastLines content n = last_lines content n.
Proof.
  intros Hn. unfold printLastLines, last_lines. destruct content as [|c content]; [by destruct (Z.to_nat n)|].
  set (s := String c content). pose proof (scan_end_le s) as Hle. rewrite scan_chunks_once by (cbn in *; lia).
  rewrite scan_back_tail by done. cbn [snd]. fold (body_of s).
  assert (Hstart : (if count_nl (body_of s) <? n then 0%nat else (0 + tail_start n (body_of s))%nat) = tail_start n (body_of s)).
  { destruct (Z.ltb_spec (count_nl (body_of s)) n); [|done]. destruct (body_of s) as [|d b]; [done|]. cbn [tail_start].
    by destruct (Z.ltb_spec (count_nl (String d b)) n); [|lia]. }
  rewrite Hstart, tail_start_lines by done.
  assert (E : body_of s +:+ end_of s = s) by apply take_drop_bytes.
  transitivity (drop_bytes (tail_start n (body_of s)) (body_of s +:+ end_of s)); [by rewrite E|].
  apply drop_bytes_app_le, tail_start_le.
Qed.

(** [AfterApply]: the number of lines to show. *)
Definition defaultFollowTail : Z := 20.
Definition tail_of (follow : bool) (tail : Z) : Z := if (tail =? 0) && follow then defaultFollowTail else tail.

(** What [Run] writes before it follows the file. *)
Definition logs_output (follow : bool) (tail : Z) (content : string) : string :=
  if 0 <? tail_of follow tail then printLastLines content (tail_of follow tail) else content.

(** ** Descriptions *)

Definition newline_to_space (s : string) : string :=
  String.string_of_list_ascii ((fun c => if decide (c = newline) then " "%char else c) <$> String.list_ascii_of_string s).

Definition truncateDescription (desc : string) (maxLen : Z) : string :=
  let desc := TrimSpace (newline_to_space desc) in
  if Z.of_nat (String.length desc) <=? maxLen then desc
  else take_bytes (Z.to_nat (maxLen - 3)) desc +:+ "...".

(** A description fits its column. *)
Theorem truncateDescription_fits desc maxLen :
  3 <= maxLen -> Z.of_nat (String.length (truncateDescription desc maxLen)) <= maxLen.
Proof.
  intros Hm. unfold truncateDescription. destruct (Z.leb_spec (Z.of_nat (String.length (TrimSpace (newline_to_space desc)))) maxLen); [done|].
  rewrite str_length_app, length_take_bytes. cbn. lia.
Qed.

(** ** Platforms *)

(** [getPlatform]; the platform the tool runs on is a parameter. *)
Definition getPlatform (GOOS GOARCH platform : string) : option (string * string) :=
  if bool_decide (platform = "") then Some (GOOS, GOARCH)
  else match Cut platform slash with
  | (os, arch, true) => Some (os, arch)
  | _ => None
  end.

(** ** Cleaning *)

Record CleanFlags : Type := mkClean { All : bool; ExtensionCache : bool; ConfigCache : bool; DataCache : bool; StateCache : bool; RuntimeCache : bool }.

(** The directories that are removed, in order. *)
Definition clean_dirs (c : CleanFlags) (dirs : Directories) : list string :=
  (if All c || ExtensionCache c then [JoinAll [DataHome dirs; "extensions"]] else []) ++
  (if All c || ConfigCache c then [ConfigHome dirs] else []) ++
  (if All c || DataCache c then [DataHome dirs] else []) ++
  (if All c || StateCache c then [StateHome dirs] else []) ++
  (if All c || RuntimeCache c then [RuntimeDir dirs] else []).

Definition Clean_Run (c : CleanFlags) (dirs : Directories) (fs : FileSystem) : FileSystem := foldl RemoveAll fs (clean_dirs c dirs).

(** *** What is left *)

Lemma RemoveAll_tree fs dir : tree fs -> direct fs dir -> tree (RemoveAll fs dir).
Proof.
  intros Ht Hd p n. rewrite RemoveAll_lookup by done. case_decide as Hp; [done|]. intros Hn. destruct (Ht _ _ Hn) as [Hne Hdir].
  split; [done|]. intros pre Hpre Hpp Hneq. rewrite RemoveAll_lookup by done. rewrite decide_False; [by apply Hdir|].
  intros Hc. apply Hp. by etrans.
Qed.

Lemma RemoveAll_direct fs dir dir' : tree fs -> direct fs dir -> direct fs dir' -> direct (RemoveAll fs dir) dir'.
Proof.
  intros Ht Hd (Hr & Hne & Hl). split_and!; [done..|]. intros pre t Hp. cbn [app]. rewrite RemoveAll_lookup by done.
  case_decide; [done|]. by apply Hl.
Qed.

Lemma RemoveAll_fold dirs fs q :
  tree fs -> Forall (direct fs) dirs ->
  foldl RemoveAll fs dirs !! q = if decide (Exists (fun dir => clean_segs dir `prefix_of` q) dirs) then None else fs !! q.
Proof.
  revert fs. induction dirs as [|dir dirs IH]; intros fs Ht Hd; cbn [foldl].
  { rewrite decide_False; [done|]. by intros ?%Exists_nil. }
  apply Forall_cons in Hd as [Hd Hds]. rewrite IH, RemoveAll_lookup; [|done|done|by apply RemoveAll_tree|].
  - destruct (decide (clean_segs dir `prefix_of` q)) as [Hp|Hp].
    + rewrite (decide_True (P := Exists _ (dir :: dirs))) by (by left). by case_decide.
    + destruct (decide (Exists _ dirs)) as [He|He]; [by rewrite (decide_True (P := Exists _ (dir :: dirs))) by (by right)|].
      rewrite decide_False; [done|]. by intros [?|?]%Exists_cons.
  - eapply Forall_impl; [exact Hds|]. intros. by apply RemoveAll_direct.
Qed.

(** Cleaning removes exactly the files and directories at or below the selected directories
    and leaves every other one as it was, if the selected directories are reached without
    symbolic links. *)
Theorem Clean_Run_exact c dirs fs q :
  tree fs -> Forall (direct fs) (clean_dirs c dirs) ->
  Clean_Run c dirs fs !! q =
  if decide (Exists (fun dir => clean_segs dir `prefix_of` q) (clean_dirs c dirs)) then None else fs !! q.
Proof. apply RemoveAll_fold. Qed.

Lemma printLastLines_spec_witness (nl := String newline "") (text := "a" +:+ nl +:+ "b" +:+ nl +:+ "c" +:+ nl) :
  printLastLines text 2 = last_lines text 2 /\ last_lines text 2 = "b" +:+ nl +:+ "c" +:+ nl.
Proof. split; [by apply (printLastLines_spec text 2)|by vm_compute]. Defined.
