(* ===== verification/CliFlags.v ===== *)
(** * cli: flags

    cli/cmd/flags.go and the parsing functions of cli/cmd/run.go: the order of the extensions on
    the command line, references, log levels, and the checks on versions.  The working directory
    is a parameter, absent if it cannot be determined.  A nil manifest is [None]. *)

From S2P Require Import Prelude GoStr GoNum GoPath GoFS SSELines CliManifest CliCache.
From Stdlib Require Import Lia Ascii.

Local Open Scope go_scope.

(** [filepath.Abs]. *)
Definition Abs (cwd : option string) (p : string) : option string :=
  if is_rooted p then Some (Clean p) else match cwd with Some wd => Some (Join2 wd p) | None => None end.

(** ** Positions *)

Record extensionPositions : Type := mkPositions { ep_local : gmap string (list nat); ep_remote : gmap string (list nat) }.

Definition no_positions : extensionPositions := mkPositions ∅ ∅.

Inductive FlagError : Type :=
| GoIndexPanic
| ErrAbs (value : string)
| ErrNoLocal (path : string)
| ErrNoRemote (ref : string).

(** [append] to the entry of a key. *)
Definition add_position (key : string) (i : nat) (m : gmap string (list nat)) : gmap string (list nat) :=
  <[key := default [] (m !! key) ++ [i]]> m.

(** The loop over the arguments: [next] is the number of extensions seen. *)
Fixpoint save_positions (cwd : option string) (args : list string) (next : nat) (p : extensionPositions)
    : result FlagError extensionPositions :=
  match args with
  | [] => Ok p
  | arg :: rest =>
      if bool_decide (arg = "--local") then
        match head rest with
        | None => Err GoIndexPanic
        | Some v =>
            match Abs cwd v with
            | None => Err (ErrAbs v)
            | Some key => save_positions cwd rest (S next) (mkPositions (add_position key next (ep_local p)) (ep_remote p))
            end
        end
      else if bool_decide (arg = "--extension") then
        match head rest with
        | None => Err GoIndexPanic
        | Some key => save_positions cwd rest (S next) (mkPositions (ep_local p) (add_position key next (ep_remote p)))
        end
      else save_positions cwd rest next p
  end.

Definition saveExtensionPositions (cwd : option string) (args : list string) : result FlagError extensionPositions :=
  save_positions cwd args 0 no_positions.

(** Writing one manifest at several positions of the result. *)
Fixpoint place (m : Manifest) (positions : list nat) (sorted : list (option Manifest)) : result FlagError (list (option Manifest)) :=
  match positions with
  | [] => Ok sorted
  | p :: rest => if bool_decide (p < length sorted)%nat then place m rest (<[p := Some m]> sorted) else Err GoIndexPanic
  end.

Definition is_local (cwd : option string) (l : string) (m : Manifest) : bool :=
  match Abs cwd (Dir (m_Path m)) with Some v => bool_decide (v = l) | None => false end.
Definition is_remote (r : string) (m : Manifest) : bool := Remote m && bool_decide (RemoteRef (m_origin m) = r).

(** One loop over a map, in the order in which its entries come. *)
Fixpoint place_all (select : string -> Manifest -> bool) (missing : string -> FlagError) (manifests : list Manifest)
    (entries : list (string * list nat)) (sorted : list (option Manifest)) : result FlagError (list (option Manifest)) :=
  match entries with
  | [] => Ok sorted
  | (k, positions) :: rest =>
      match List.find (select k) manifests with
      | None => Err (missing k)
      | Some m => try sorted' <- place m positions sorted; place_all select missing manifests rest sorted'
      end
  end.

(** [sort]; [iterate] is the order in which Go ranges over a map. *)
Definition positions_sort (cwd : option string) (iterate : gmap string (list nat) -> list (string * list nat))
    (e : extensionPositions) (manifests : list Manifest) : result FlagError (list (option Manifest)) :=
  try sorted <- place_all (is_local cwd) ErrNoLocal manifests (iterate (ep_local e)) (replicate (length manifests) None);
  place_all is_remote ErrNoRemote manifests (iterate (ep_remote e)) sorted.

(** ** References *)

Definition colon : ascii := ":"%char.

Definition splitRef (ref : string) : string * string * string :=
  let '(name, tag) :=
    match LastIndexByte ref colon with
    | Some i => (take_bytes i ref, drop_bytes (S i) ref)
    | None => (ref, "latest")
    end in
  match IndexByte name slash with
  | Some i => (take_bytes i name, drop_bytes (S i) name, tag)
  | None => (name, name, tag)
  end.

Example splitRef_ex :
  splitRef "composer/example-go:v1.0.0" = ("composer", "example-go", "v1.0.0") /\
  splitRef "cors:1.0.0" = ("cors", "cors", "1.0.0") /\ splitRef "cors" = ("cors", "cors", "latest").
Proof. repeat split. Qed.

(** ** Log levels *)

Definition defaultLogLevel : string := "error".

Inductive LogLevelError : Type := ErrFormat (part : string) | ErrEmptyComponent (part : string) | ErrEmptyLevel (part : string).

Fixpoint parse_levels (parts : list string) (base : string) (components : list string) : result LogLevelError (string * list string) :=
  match parts with
  | [] => Ok (base, components)
  | part :: rest =>
      match Cut (TrimSpace part) colon with
      | (_, _, false) => Err (ErrFormat part)
      | (component, level, true) =>
          let component := TrimSpace component in
          let level := TrimSpace level in
          if bool_decide (component = "") then Err (ErrEmptyComponent part)
          else if bool_decide (level = "") then Err (ErrEmptyLevel part)
          else if bool_decide (component = "all") then parse_levels rest level components
          else parse_levels rest base (components ++ [component +:+ ":" +:+ level])
      end
  end.

Definition parseLogLevels (logLevel : string) : result LogLevelError (string * string) :=
  if bool_decide (logLevel = "") then Ok (defaultLogLevel, "")
  else try r <- parse_levels (Split logLevel ","%char) defaultLogLevel []; Ok (r.1, Join r.2 ",").

Example parseLogLevels_ex :
  parseLogLevels "all:info, upstream:debug,http:trace" = Ok ("info", "upstream:debug,http:trace") /\
  parseLogLevels "" = Ok ("error", "") /\ parseLogLevels "info" = Err (ErrFormat "info") /\ parseLogLevels "a:b,:c" = Err (ErrEmptyComponent ":c").
Proof. vm_compute. repeat split. Qed.

(** ** Checks on versions *)

Section Versions.
Context `{SemVer}.

(** The extensions that do not support the version. *)
Definition validateEnvoyCompat (envoyVersion : string) (exts : list Manifest) : list Manifest :=
  filter (fun m => SupportsEnvoyVersion m envoyVersion = false) exts.
End Versions.

(** The Go extensions by composer version. *)
Definition composer_versions (ms : list Manifest) : gmap string (list string) :=
  foldl (fun versions m =>
    if bool_decide (m_Type m = TypeGo)
    then <[ComposerVersion m := default [] (versions !! ComposerVersion m) ++ [Name m]]> versions else versions) ∅ ms.

(** The versions in use, sorted, if there are several. *)
Definition validateComposerCompat (ms : list Manifest) : option (list (string * list string)) :=
  let versions := composer_versions ms in
  if (1 <? size versions)%nat
  then Some ((fun v => (v, default [] (versions !! v))) <$> merge_sort str_le (map_to_list versions).*1) else None.

(** The libraries with a Go runtime of their own, if there are several. *)
Definition go_libraries (ms : list Manifest) : gset string :=
  list_to_set ((fun m => ModuleName m +:+ ":" +:+ Version m) <$> filter (fun m => m_Type m = TypeGo /\ CShared m = true) ms).
Definition warnMultipleGoExtensions (ms : list Manifest) : list string :=
  let seen := go_libraries ms in if (size seen <? 2)%nat then [] else merge_sort str_le (elements seen).

(** [adminAddressForLocal]; [JoinHostPort] of a host without colon. *)
Definition adminAddressForLocal (env : string) (port : Z) : string :=
  if bool_decide (env = "") then "127.0.0.1:" +:+ FormatInt port else env.

(** ** The order of the extensions *)

(** The arguments as they are written: an extension by reference, one by path, or anything else. *)
Inductive Token : Type := TRemote (ref : string) | TLocal (path : string) | TOther (arg : string).

Definition token_args (t : Token) : list string :=
  match t with TRemote r => ["--extension"; r] | TLocal p => ["--local"; p] | TOther a => [a] end.
Definition not_flag (a : string) : Prop := a <> "--local" /\ a <> "--extension".
Definition good_token (t : Token) : Prop := match t with TRemote a | TLocal a | TOther a => not_flag a end.

(** An extension that was asked for: by its absolute path or by its reference. *)
Inductive Wanted : Type := WLocal (path : string) | WRemote (ref : string).

Definition wanted (cwd : option string) (t : Token) : option Wanted :=
  match t with TRemote r => Some (WRemote r) | TLocal p => WLocal <$> Abs cwd p | TOther _ => None end.
Definition matches (cwd : option string) (w : Wanted) (m : Manifest) : bool :=
  match w with WLocal p => is_local cwd p m | WRemote r => is_remote r m end.
Definition paths_known (cwd : option string) (ts : list Token) : Prop := forall p, TLocal p ∈ ts -> is_Some (Abs cwd p).

(** Each position is recorded exactly once, under its flag. *)
Definition recorded (flags : list Wanted) (p : extensionPositions) : Prop :=
  (forall k i, i ∈ default [] (ep_local p !! k) <-> flags !! i = Some (WLocal k)) /\
  (forall k i, i ∈ default [] (ep_remote p !! k) <-> flags !! i = Some (WRemote k)) /\
  (forall k, ep_local p !! k <> Some []) /\ (forall k, ep_remote p !! k <> Some []).

Lemma add_position_nonempty k i m : (forall k', m !! k' <> Some []) -> forall k', add_position k i m !! k' <> Some [].
Proof.
  intros Hm k'. unfold add_position. destruct (decide (k = k')) as [->|Hne]; [rewrite lookup_insert_eq|by rewrite lookup_insert_ne].
  intros [= H]. by destruct (app_cons_not_nil (default [] (m !! k')) [] i).
Qed.

Lemma add_position_spec (W : string -> Wanted) `{!Inj (=) (=) W} flags w k m :
  (forall k' i, i ∈ default [] (m !! k') <-> flags !! i = Some (W k')) ->
  w = W k -> forall k' i, i ∈ default [] (add_position k (length flags) m !! k') <-> (flags ++ [w]) !! i = Some (W k').
Proof.
  intros Hm -> k' i. unfold add_position. rewrite lookup_app_Some, list_lookup_singleton_Some.
  assert (Hlt : forall w, flags !! i = Some w -> (i < length flags)%nat) by (intros; by eapply lookup_lt_Some).
  destruct (decide (k = k')) as [->|Hne].
  - rewrite lookup_insert_eq. cbn [default from_option id]. rewrite elem_of_app, Hm, list_elem_of_singleton. split.
    + intros [?| ->]; [by left|right]. rewrite Nat.sub_diag. split; [done|by split].
    + intros [?|(? & ? & _)]; [by left|right]. lia.
  - rewrite lookup_insert_ne by done. rewrite Hm. split; [by left|]. intros [?|(? & ? & [= ?%(inj W)])]; done.
Qed.

Lemma keep_position_spec (W : string -> Wanted) flags w (m : gmap string (list nat)) :
  (forall k' i, i ∈ default [] (m !! k') <-> flags !! i = Some (W k')) ->
  (forall k, w <> W k) -> forall k' i, i ∈ default [] (m !! k') <-> (flags ++ [w]) !! i = Some (W k').
Proof.
  intros Hm Hw k' i. rewrite Hm, lookup_app_Some, list_lookup_singleton_Some. split; [by left|].
  intros [?|(? & ? & ?)]; [done|]. by destruct (Hw k').
Qed.

#[local] Instance WLocal_inj : Inj (=) (=) WLocal. Proof. by intros ?? [= ->]. Qed.
#[local] Instance WRemote_inj : Inj (=) (=) WRemote. Proof. by intros ?? [= ->]. Qed.

Lemma save_value cwd v rest next p : not_flag v -> save_positions cwd (v :: rest) next p = save_positions cwd rest next p.
Proof. intros [H1 H2]. cbn [save_positions]. by rewrite !bool_decide_eq_false_2. Qed.

Lemma save_remote cwd r rest next p :
  not_flag r ->
  save_positions cwd ("--extension" :: r :: rest) next p =
    save_positions cwd rest (S next) (mkPositions (ep_local p) (add_position r next (ep_remote p))).
Proof. intros [H1 H2]. cbn [save_positions head]. by rewrite !(bool_decide_eq_false_2 (r = _)) by done. Qed.

Lemma save_local cwd q k rest next p :
  not_flag q -> Abs cwd q = Some k ->
  save_positions cwd ("--local" :: q :: rest) next p =
    save_positions cwd rest (S next) (mkPositions (add_position k next (ep_local p)) (ep_remote p)).
Proof. intros [H1 H2] Hk. cbn [save_positions head]. rewrite Hk. by rewrite !(bool_decide_eq_false_2 (q = _)) by done. Qed.

Lemma save_positions_recorded cwd ts flags p :
  Forall good_token ts -> paths_known cwd ts -> recorded flags p ->
  exists p', save_positions cwd (concat (token_args <$> ts)) (length flags) p = Ok p' /\ recorded (flags ++ omap (wanted cwd) ts) p'.
Proof.
  revert flags p. induction ts as [|t ts IH]; intros flags p Hg Hp Hrec; cbn [fmap list_fmap concat omap list_omap].
  { exists p. rewrite app_nil_r. done. }
  apply Forall_cons in Hg as [Hg Hgs]. assert (Hps : paths_known cwd ts) by (intros q Hq; apply Hp; by right).
  destruct Hrec as (H1 & H2 & H3 & H4). destruct t as [r|q|a]; cbn [token_args app wanted good_token] in *.
  - rewrite save_remote by done.
    specialize (IH (flags ++ [WRemote r]) (mkPositions (ep_local p) (add_position r (length flags) (ep_remote p))) Hgs Hps).
    rewrite length_app in IH. cbn [length] in IH. rewrite Nat.add_1_r, <- app_assoc in IH. apply IH.
    split_and!; cbn; [by eapply keep_position_spec|by eapply add_position_spec; [apply _|..]|done|by apply add_position_nonempty].
  - destruct (Hp q) as [k Hk]; [by left|]. rewrite (save_local _ _ k) by done. rewrite Hk. cbn [fmap option_fmap option_map].
    specialize (IH (flags ++ [WLocal k]) (mkPositions (add_position k (length flags) (ep_local p)) (ep_remote p)) Hgs Hps).
    rewrite length_app in IH. cbn [length] in IH. rewrite Nat.add_1_r, <- app_assoc in IH. apply IH.
    split_and!; cbn; [by eapply add_position_spec; [apply _|..]|by eapply keep_position_spec|by apply add_position_nonempty|done].
  - rewrite save_value by done. by apply IH.
Qed.

(** *** Writing the result *)

Lemma place_spec m positions sorted :
  Forall (fun p => p < length sorted)%nat positions ->
  exists sorted', place m positions sorted = Ok sorted' /\ length sorted' = length sorted /\
    forall i, sorted' !! i = if decide (i ∈ positions) then Some (Some m) else sorted !! i.
Proof.
  revert sorted. induction positions as [|p positions IH]; intros sorted Hlt; cbn [place].
  { exists sorted. split_and!; [done..|]. intros i. by rewrite decide_False by apply not_elem_of_nil. }
  apply Forall_cons in Hlt as [Hp Hlt]. rewrite bool_decide_eq_true_2 by done.
  destruct (IH (<[p := Some m]> sorted)) as (sorted' & Hpl & Hlen & Hlook); [by rewrite length_insert|].
  rewrite length_insert in Hlen. exists sorted'. split_and!; [done..|]. intros i. rewrite Hlook.
  destruct (decide (i ∈ positions)) as [Hi|Hi]; [by rewrite decide_True by (by right)|].
  destruct (decide (i = p)) as [->|Hne]; [rewrite list_lookup_insert_eq by done; by rewrite decide_True by (by left)|].
  rewrite list_lookup_insert_ne by done. rewrite decide_False; [done|]. by intros [?|?]%elem_of_cons.
Qed.

Lemma place_all_spec select missing ms entries sorted :
  (forall k l, (k, l) ∈ entries -> is_Some (List.find (select k) ms) /\ Forall (fun p => p < length sorted)%nat l) ->
  exists sorted', place_all select missing ms entries sorted = Ok sorted' /\ length sorted' = length sorted /\
    forall i, ((forall k l, (k, l) ∈ entries -> i ∉ l) -> sorted' !! i = sorted !! i) /\
      forall k, (exists l, (k, l) ∈ entries /\ i ∈ l) -> (forall k' l', (k', l') ∈ entries -> i ∈ l' -> k' = k) ->
        sorted' !! i = Some (List.find (select k) ms).
Proof.
  revert sorted. induction entries as [|[k0 l0] entries IH]; intros sorted Hok; cbn [place_all].
  { exists sorted. split_and!; [done..|]. intros i. split; [done|]. intros k (l & Hl & _). by apply elem_of_nil in Hl. }
  destruct (Hok k0 l0) as [[m Hm] Hlt]; [by left|]. rewrite Hm. destruct (place_spec m l0 sorted Hlt) as (s1 & Hpl & Hlen1 & Hlook1).
  rewrite Hpl. cbn [rbind]. destruct (IH s1) as (s2 & Hall & Hlen2 & Hlook2); [rewrite Hlen1; intros k l Hl; apply Hok; by right|].
  exists s2. split_and!; [done|congruence|]. intros i. destruct (Hlook2 i) as [Hout Hin]. split.
  - intros Hno. rewrite Hout; [|intros k l Hl; apply (Hno k); by right]. rewrite Hlook1, decide_False; [done|]. apply (Hno k0). by left.
  - intros k (l & Hl & Hil) Huniq.
    destruct (decide (Exists (fun e => e.1 = k /\ i ∈ e.2) entries)) as [Hex|Hno].
    + apply Exists_exists in Hex as ([k' l'] & He & Hk' & Hi). cbn in Hk', Hi. subst k'. apply Hin; [by exists l'|].
      intros k' l'' Hk'. apply Huniq. by right.
    + rewrite Exists_exists in Hno. apply elem_of_cons in Hl as [[= <- <-]|Hl]; [|by destruct Hno; exists (k, l)].
      rewrite Hout; [by rewrite Hlook1, decide_True, Hm|]. intros k' l' Hk' Hi'. apply Hno. exists (k', l'). split_and!; [done| |done].
      apply (Huniq k' l'); [by right|done].
Qed.

(** The values of each kind of flag, in their order. *)
Definition local_values (ws : list Wanted) : list string := omap (fun w => match w with WLocal p => Some p | WRemote _ => None end) ws.
Definition remote_values (ws : list Wanted) : list string := omap (fun w => match w with WRemote r => Some r | WLocal _ => None end) ws.

Lemma values_length ws : (length (remote_values ws) + length (local_values ws) = length ws)%nat.
Proof. unfold remote_values, local_values in *. induction ws as [|[p|r] ws IH]; cbn in *; lia. Qed.

Lemma find_matches {A} (f : A -> bool) l x : x ∈ l -> f x = true -> exists y, List.find f l = Some y /\ y ∈ l /\ f y = true.
Proof.
  intros Hx Hf. destruct (List.find f l) as [y|] eqn:Hy.
  - apply List.find_some in Hy as [Hin Hy]. exists y. by rewrite list_elem_of_In.
  - exfalso. apply list_elem_of_In in Hx. pose proof (List.find_none _ _ Hy _ Hx). congruence.
Qed.

Lemma matched_exists {A} (f : A -> Manifest -> bool) vs ms v :
  Forall2 (fun v m => f v m = true) vs ms -> v ∈ vs -> exists m, m ∈ ms /\ f v m = true.
Proof.
  intros HF [i Hi]%list_elem_of_lookup. destruct (Forall2_lookup_l _ _ _ _ _ HF Hi) as (m & Hm & Hf). exists m. split; [by eapply list_elem_of_lookup_2|done].
Qed.

Lemma wanted_found cwd ws downloaded local w :
  Forall2 (fun r m => is_remote r m = true) (remote_values ws) downloaded ->
  Forall2 (fun p m => is_local cwd p m = true) (local_values ws) local ->
  w ∈ ws -> exists m, List.find (matches cwd w) (downloaded ++ local) = Some m /\ m ∈ downloaded ++ local /\ matches cwd w m = true.
Proof.
  intros Hd Hl Hw. assert (exists m, m ∈ downloaded ++ local /\ matches cwd w m = true) as (m & Hm & Hmm); [|by apply (find_matches _ _ m)].
  destruct w as [p|r]; cbn [matches].
  - destruct (matched_exists (is_local cwd) _ _ p Hl) as (m & Hm & Hmm); [apply list_elem_of_omap; by exists (WLocal p)|].
    exists m. split; [apply elem_of_app; by right|done].
  - destruct (matched_exists is_remote _ _ r Hd) as (m & Hm & Hmm); [apply list_elem_of_omap; by exists (WRemote r)|].
    exists m. split; [apply elem_of_app; by left|done].
Qed.

(** Every entry of a recorded map has a manifest and positions in range. *)
Lemma entries_ok cwd flags downloaded local (W : string -> Wanted) (mp : gmap string (list nat)) k l n :
  Forall2 (fun r m => is_remote r m = true) (remote_values flags) downloaded ->
  Forall2 (fun p m => is_local cwd p m = true) (local_values flags) local ->
  (forall k i, i ∈ default [] (mp !! k) <-> flags !! i = Some (W k)) -> (forall k, mp !! k <> Some []) ->
  mp !! k = Some l -> n = length flags ->
  is_Some (List.find (matches cwd (W k)) (downloaded ++ local)) /\ Forall (fun p => p < n)%nat l.
Proof.
  intros Hd Hl Hrec Hne Hk ->. pose proof (Hrec k) as Hreck. rewrite Hk in Hreck. cbn [default from_option id] in Hreck. split.
  - destruct l as [|i l]; [by destruct (Hne k)|]. destruct (Hreck i) as [Hi _]. specialize (Hi (list_elem_of_here _ _)).
    destruct (wanted_found cwd flags downloaded local (W k)) as (m & Hm & _); [done..|by eapply list_elem_of_lookup_2|by rewrite Hm].
  - apply Forall_forall. intros i Hi%Hreck. by eapply lookup_lt_Some.
Qed.

(** A list with the manifest of each flag at its position. *)
Lemma all_placed cwd ms flags (s : list (option Manifest)) :
  (forall w, w ∈ flags -> exists m, List.find (matches cwd w) ms = Some m /\ m ∈ ms /\ matches cwd w m = true) ->
  length s = length flags -> (forall i w, flags !! i = Some w -> s !! i = Some (List.find (matches cwd w) ms)) ->
  exists sorted, s = Some <$> sorted /\ Forall2 (fun w m => matches cwd w m = true /\ m ∈ ms) flags sorted.
Proof.
  revert s. induction flags as [|w flags IH]; intros s Hfound Hlen Hat; [exists []; by destruct s|].
  destruct s as [|o s]; [done|]. destruct (Hfound w) as (m & Hm & Hmin & Hmm); [by left|].
  pose proof (Hat 0%nat w eq_refl) as H0. cbn in H0. injection H0 as ->. rewrite Hm.
  destruct (IH s) as (sorted & -> & HF); [intros; apply Hfound; by right|by injection Hlen|intros i w' Hi; by apply (Hat (S i))|].
  exists (m :: sorted). split; [done|by constructor].
Qed.

Lemma recorded_at (W : string -> Wanted) `{!Inj (=) (=) W} iterate (flags : list Wanted) (mp : gmap string (list nat)) i k :
  (forall m, iterate m ≡ₚ map_to_list m) -> (forall k i, i ∈ default [] (mp !! k) <-> flags !! i = Some (W k)) ->
  flags !! i = Some (W k) ->
  (exists l, (k, l) ∈ iterate mp /\ i ∈ l) /\ forall k' l', (k', l') ∈ iterate mp -> i ∈ l' -> k' = k.
Proof.
  intros Hit Hrec Hi. pose proof Hi as Hi'. apply Hrec in Hi'. split.
  - destruct (mp !! k) as [l|] eqn:Hk; [|by apply elem_of_nil in Hi']. exists l. by rewrite Hit, elem_of_map_to_list.
  - intros k' l' Hk' Hl'. rewrite Hit, elem_of_map_to_list in Hk'. assert (H : flags !! i = Some (W k')) by (apply Hrec; by rewrite Hk').
    rewrite Hi in H. by injection H as ?%(inj W).
Qed.

(** The extensions are run in the order of their flags on the command line, whichever mix of
    local and remote ones it is and in whatever order the recorded positions are visited: no
    position is left empty and none is written out of range. *)
Lemma extensions_in_order cwd iterate ts downloaded local (flags := omap (wanted cwd) ts) :
  Forall good_token ts -> paths_known cwd ts -> (forall m, iterate m ≡ₚ map_to_list m) ->
  Forall2 (fun r m => is_remote r m = true) (remote_values flags) downloaded ->
  Forall2 (fun p m => is_local cwd p m = true) (local_values flags) local ->
  exists p sorted,
    saveExtensionPositions cwd (concat (token_args <$> ts)) = Ok p /\
    positions_sort cwd iterate p (downloaded ++ local) = Ok (Some <$> sorted) /\
    Forall2 (fun w m => matches cwd w m = true /\ m ∈ downloaded ++ local) flags sorted.
Proof.
  intros Hg Hp Hit Hd Hl.
  destruct (save_positions_recorded cwd ts [] no_positions Hg Hp) as (p & Hsave & H1 & H2 & H3 & H4).
  { split_and!; intros k; cbn; [intros i; rewrite lookup_empty, lookup_nil; split; [by intros ?%elem_of_nil|done]..| |]; by rewrite lookup_empty. }
  cbn [app length] in Hsave, H1, H2. fold flags in H1, H2. exists p. unfold positions_sort. set (ms := downloaded ++ local).
  assert (Hn : length ms = length flags).
  { unfold ms. rewrite length_app, <- (Forall2_length _ _ _ Hd), <- (Forall2_length _ _ _ Hl). apply values_length. }
  assert (Hentry : forall mp k l, (k, l) ∈ iterate mp <-> mp !! k = Some l) by (intros; rewrite Hit; apply elem_of_map_to_list).
  destruct (place_all_spec (is_local cwd) ErrNoLocal ms (iterate (ep_local p)) (replicate (length ms) None)) as (s1 & -> & Hlen1 & Hlook1).
  { intros k l Hkl%Hentry. rewrite length_replicate. by eapply (entries_ok cwd flags downloaded local WLocal). }
  rewrite length_replicate in Hlen1. cbn [rbind].
  destruct (place_all_spec is_remote ErrNoRemote ms (iterate (ep_remote p)) s1) as (s2 & Hs2 & Hlen2 & Hlook2).
  { intros k l Hkl%Hentry. by eapply (entries_ok cwd flags downloaded local WRemote); [..|congruence]. }
  rewrite Hs2. destruct (all_placed cwd ms flags s2) as (sorted & -> & HF); [intros; by eapply wanted_found|congruence| |by exists sorted].
  intros i [k|k] Hi; cbn [matches].
  - rewrite (proj1 (Hlook2 i)); [by apply (proj2 (Hlook1 i)); eapply (recorded_at WLocal)|].
    intros k' l' Hk'%Hentry Hi'. assert (flags !! i = Some (WRemote k')) by (apply H2; by rewrite Hk'). congruence.
  - apply (proj2 (Hlook2 i)); by eapply (recorded_at WRemote).
Qed.

(** A flag written with an equals sign has no recorded position: its extension is left out, and
    a nil manifest is in its place. *)
Theorem equals_form_leaves_nil (m := set_build true false false (set_origin (mkOrigin "cors" "" "") zero_manifest)) cwd iterate :
  iterate ∅ = [] ->
  saveExtensionPositions cwd ["boe"; "run"; "--extension=cors"] = Ok no_positions /\
  positions_sort cwd iterate no_positions [m] = Ok [None].
Proof. intros H. split; [done|]. unfold positions_sort. cbn [ep_local ep_remote no_positions]. by rewrite H. Qed.

(** ** References *)

Lemma take_bytes_app a b : take_bytes (String.length a) (a +:+ b) = a.
Proof. induction a as [|c a IH]; [by destruct b|]. cbn. by rewrite IH. Qed.

Lemma drop_bytes_sep a c b : drop_bytes (S (String.length a)) (a +:+ String c b) = b.
Proof. induction a as [|d a IH]; [by destruct b|]. cbn [String.length String.append] in *. exact IH. Qed.

Lemma IndexByte_sep a b c : ContainsByte a c = false -> IndexByte (a +:+ String c b) c = Some (String.length a).
Proof.
  induction a as [|d a IH]; cbn; [by rewrite decide_True|]. intros [Hd%bool_decide_eq_false Ha]%orb_false_iff.
  rewrite decide_False by done. by rewrite IH.
Qed.

Lemma IndexByte_none a c : ContainsByte a c = false -> IndexByte a c = None.
Proof. intros Ha. destruct (IndexByte a c) eqn:Hi; [|done]. by rewrite (proj2 (ContainsByte_IndexByte a c)) in Ha by (by eexists). Qed.

Lemma LastIndexByte_none a c : ContainsByte a c = false -> LastIndexByte a c = None.
Proof.
  intros Ha. destruct (LastIndexByte a c) as [i|] eqn:Hi; [|done]. apply LastIndexByte_Some in Hi as [E _]. rewrite E, ContainsByte_app in Ha.
  apply orb_false_iff in Ha as [_ Ha]. cbn in Ha. by rewrite bool_decide_eq_true_2 in Ha.
Qed.

(** The parts of a reference. *)
Definition print_ref (bundle name tag : string) : string :=
  (if bool_decide (bundle = name) then name else bundle +:+ "/" +:+ name) +:+ (if bool_decide (tag = "latest") then "" else ":" +:+ tag).

(** A reference made of a bundle, an extension and a tag, with the bundle left out if it is the
    extension and the tag left out if it is latest, is split into exactly these parts. *)
Theorem splitRef_roundtrip bundle name tag :
  slash_free bundle -> (bundle = name -> slash_free name) -> ContainsByte bundle colon = false -> ContainsByte name colon = false ->
  ContainsByte tag colon = false ->
  splitRef (print_ref bundle name tag) = (bundle, name, tag).
Proof.
  intros Hb Hbn Hbc Hnc Htc. unfold splitRef, print_ref. set (full := if bool_decide (bundle = name) then name else bundle +:+ "/" +:+ name).
  assert (Hfull : ContainsByte full colon = false).
  { unfold full. case_bool_decide; [done|]. by rewrite !ContainsByte_app, Hbc, Hnc. }
  assert (Hname : match IndexByte full slash with Some i => (take_bytes i full, drop_bytes (S i) full, tag) | None => (full, full, tag) end = (bundle, name, tag)).
  { unfold full. case_bool_decide as E; [rewrite IndexByte_none by (by apply Hbn); by subst|].
    change ("/" +:+ name) with (String slash name). rewrite IndexByte_sep by done. by rewrite take_bytes_app, drop_bytes_sep. }
  case_bool_decide as Ht.
  - rewrite str_app_nil_r, LastIndexByte_none by done. rewrite <- Ht. done.
  - change (":" +:+ tag) with (String colon tag). rewrite LastIndexByte_app by done. by rewrite take_bytes_app, drop_bytes_sep.
Qed.

Lemma splitRef_roundtrip_witness :
  print_ref "composer" "example-go" "1.0.0" = "composer/example-go:1.0.0" /\
  splitRef (print_ref "composer" "example-go" "1.0.0") = ("composer", "example-go", "1.0.0").
Proof. split; [reflexivity|]. by apply (splitRef_roundtrip "composer" "example-go" "1.0.0"). Defined.

(** ** One composer *)

Lemma composer_versions_dom ms : dom (composer_versions ms) = list_to_set (ComposerVersion <$> filter (fun m => m_Type m = TypeGo) ms).
Proof.
  unfold composer_versions. assert (Hgen : forall acc : gmap string (list string), dom (foldl (fun versions m =>
    if bool_decide (m_Type m = TypeGo) then <[ComposerVersion m := default [] (versions !! ComposerVersion m) ++ [Name m]]> versions else versions) acc ms)
    = dom acc ∪ list_to_set (ComposerVersion <$> filter (fun m => m_Type m = TypeGo) ms)).
  { induction ms as [|m ms IH]; intros acc; cbn [foldl]; [cbn; set_solver|]. rewrite IH, filter_cons.
    case_bool_decide as Ht; [rewrite decide_True by done; rewrite dom_insert_L; cbn; set_solver|by rewrite decide_False]. }
  rewrite Hgen. set_solver.
Qed.

Lemma size_le_1 (X : gset string) : (size X <= 1)%nat <-> forall x y, x ∈ X -> y ∈ X -> x = y.
Proof.
  split.
  - intros Hs x y Hx Hy. destruct (size X) as [|[|]] eqn:E; [apply size_empty_inv in E; set_solver| |lia].
    destruct (size_1_elem_of X E) as [z Hz]. set_solver.
  - intros Hall. destruct (set_choose_or_empty X) as [[x Hx]|He]; [|apply size_empty_iff in He; lia].
    transitivity (size ({[x]} : gset string)); [|by rewrite size_singleton]. apply subseteq_size. set_solver.
Qed.

(** The check on composer versions passes exactly if all Go extensions have the same one;
    otherwise it reports at least two. *)
Lemma composer_compat_iff ms :
  (validateComposerCompat ms = None <->
   forall m1 m2, m1 ∈ ms -> m2 ∈ ms -> m_Type m1 = TypeGo -> m_Type m2 = TypeGo -> ComposerVersion m1 = ComposerVersion m2) /\
  (forall report, validateComposerCompat ms = Some report -> (2 <= length report)%nat).
Proof.
  unfold validateComposerCompat. assert (Hin : forall m, m ∈ ms -> m_Type m = TypeGo -> ComposerVersion m ∈ dom (composer_versions ms)).
  { intros m Hm Ht. rewrite composer_versions_dom, elem_of_list_to_set. apply list_elem_of_fmap_2. by apply list_elem_of_filter. }
  rewrite <- size_dom. destruct (Nat.ltb_spec 1 (size (dom (composer_versions ms)))) as [Hlt|Hle].
  - split; [split; [done|]|].
    + intros Hall. exfalso. assert (Hs : (size (dom (composer_versions ms)) <= 1)%nat); [|lia]. apply size_le_1.
      rewrite composer_versions_dom. intros x y (m1 & -> & Hm1)%elem_of_list_to_set%list_elem_of_fmap (m2 & -> & Hm2)%elem_of_list_to_set%list_elem_of_fmap.
      apply list_elem_of_filter in Hm1 as [? ?], Hm2 as [? ?]. by apply Hall.
    + intros report [= <-]. rewrite length_fmap, merge_sort_Permutation, length_fmap, length_map_to_list, <- size_dom. lia.
  - split; [split; [|done]|done]. intros _ m1 m2 H1 H2 Ht1 Ht2. apply (proj1 (size_le_1 _) Hle); auto.
Qed.

Definition remote_cors : Manifest := set_build true false false (set_origin (mkOrigin "cors" "" "") (named "cors" "1.0.0" "")).
Definition local_mine : Manifest := set_path "/src/mine/manifest.yaml" (named "mine" "0.1.0" "").
Definition example_tokens : list Token := [TOther "boe"; TOther "run"; TLocal "mine"; TRemote "cors"].
