(* ===== verification/CliRun.v ===== *)
(** * cli: run

    cli/cmd/run.go, and the parts of cli/cmd/download.go and genconfig.go that load extensions:
    fetching and building the extensions of a command, the parents of local ones, and what is
    handed to the runner.  Downloads, manifests and builds are those of the files before; a
    program passes the disk from step to step and may stop with an error. *)

From S2P Require Import Prelude GoStr GoNum GoPath GoFS SSELines GoCodec GoJson CliPackage CliManifest CliCache CliDownload CliExtension CliConfig CliFlags.
From Stdlib Require Import Lia Ascii.

Local Open Scope go_scope.

Inductive RunError : Type :=
| RunPanic
| RunDownload (e : DownloadError)
| RunComposer (version name : string) (e : DownloadError)
| RunArtifactType (type name : string)
| RunLocalManifest (path : string) (e : CacheError)
| RunNoParent (parent name : string)
| RunNoSource (name path : string)
| RunBuild (name : string) (e : CacheError)
| RunPositions (e : FlagError)
| RunNoEnvoy (path : string)
| RunVersions (reason : string)
| RunComposerVersions (report : list (string * list string)).

(** Programs that work on the disk. *)
Definition Task (A : Type) : Type := FileSystem -> FileSystem * result RunError A.
Definition done_with {A} (a : A) : Task A := fun fs => (fs, Ok a).
Definition stop_with {A} (e : RunError) : Task A := fun fs => (fs, Err e).
Definition next {A B} (t : Task A) (k : A -> Task B) : Task B :=
  fun fs => match t fs with (fs1, Ok a) => k a fs1 | (fs1, Err e) => (fs1, Err e) end.
(** A step that may fail. *)
Definition step_or {E} (err : E -> RunError) (t : FileSystem -> FileSystem * option E) : Task () :=
  fun fs => match t fs with (fs1, Some e) => (fs1, Err (err e)) | (fs1, None) => (fs1, Ok ()) end.

Local Notation "'run' x <- t ; k" := (next t (fun x => k)) (at level 10, x name, t at level 100, k at level 200).

Definition ComposerArtifactSource : string := "composer-src".

Section Run.
Context `{SemVer}.
Context (sort_slice : (string -> string -> bool) -> list string -> list string).
Context (yaml_parse : string -> option YNode) (decode : YNode -> option Manifest) (schema_error : Manifest -> option string).
Context (newClient : string -> option Target).
Context (exec : Command -> FileSystem -> FileSystem * bool) (dotenv : string -> option (gmap string string)) (libext : string).

Local Abbreviation DownloadExtension := (DownloadExtension sort_slice yaml_parse decode schema_error newClient).
Local Abbreviation DownloadComposer := (DownloadComposer sort_slice yaml_parse decode schema_error newClient).
Local Abbreviation DownloadComposerLiteAndBuildIfNeeded := (DownloadComposerLiteAndBuildIfNeeded sort_slice yaml_parse decode schema_error newClient exec dotenv).
Local Abbreviation CheckOrDownloadLibComposerLite := (CheckOrDownloadLibComposerLite sort_slice yaml_parse decode schema_error newClient exec dotenv).

(** ** Building from source *)

(** The versions of the composer that hosts a plugin, if its manifest can be read. *)
Definition with_composer (d : Downloader) (version : string) (m : Manifest) : Task Manifest := fun fs =>
  (fs, Ok match GetComposerManifest yaml_parse decode schema_error fs (dl_Dirs d) version with
          | Ok cm => ResolveVersionsWithParent m cm
          | Err _ => m
          end).

Definition go_source (d : Downloader) (root ext : Manifest) (rootPath : string) (debug : bool) : Task Manifest :=
  run cshared <- (fun fs => match BuildExtensionFromPath exec (dl_Dirs d) root rootPath debug fs with
                            | (_, fs1, Some e) => (fs1, Err (RunBuild (Name root) e))
                            | (cshared, fs1, None) => (fs1, Ok cshared)
                            end);
  run ext <- (if (cshared : bool) then done_with ext else
     run _ <- step_or (RunComposer (ComposerVersion root) (Name root))
                (DownloadComposerLiteAndBuildIfNeeded d (ComposerVersion root) ComposerArtifactSource debug);
     with_composer d (ComposerVersion root) ext);
  done_with (set_build (Remote ext) cshared debug ext).

(** The manifest of the extension as it is left. *)
Definition handleExtensionSource (d : Downloader) (root ext : Manifest) (rootPath : string) (build debug : bool) : Task Manifest :=
  if negb build then done_with ext else fun fs =>
  if negb (bool_decide (Stat fs (clean_segs rootPath) = Some NDir)) then (fs, Err (RunNoSource (Name root) rootPath))
  else (if bool_decide (m_Type root = TypeComposer) then
    run _ <- step_or (RunBuild (Name root)) (BuildLibComposer exec dotenv (dl_Dirs d) rootPath (Version root) false debug);
    done_with (set_build (Remote ext) true debug ext)
  else if bool_decide (m_Type root = TypeGo) then go_source d root ext rootPath debug
  else if bool_decide (m_Type root = TypeRust) then
    run _ <- step_or (RunBuild (Name root)) (BuildDynamicModule exec libext (dl_Dirs d) root rootPath debug);
    done_with (set_build (Remote ext) (CShared ext) debug ext)
  else if bool_decide (m_Type root = TypeExtProc) then
    run _ <- step_or (RunBuild (Name root)) (BuildExtProcBinary exec (dl_Dirs d) root rootPath); done_with ext
  else if bool_decide (m_Type root = TypeWasm) then
    run _ <- step_or (RunBuild (Name root)) (BuildWasm exec (dl_Dirs d) root rootPath); done_with ext
  else done_with ext) fs.

(** ** Remote extensions *)

Definition fetched (ref : string) (m : Manifest) : Manifest :=
  set_origin (mkOrigin ref (SourceRegistry (m_origin m)) (SourceTag (m_origin m))) (mark_remote m).

Definition download_one (d : Downloader) (ref : string) (build : bool) : Task Manifest :=
  let '(bundle, name, tag) := splitRef ref in
  let bundle := if bool_decide (name = GoPluginLoaderName) then ComposerBundle else bundle in
  run artifact <- (fun fs => match DownloadExtension d bundle name tag fs with (fs1, Ok a) => (fs1, Ok a) | (fs1, Err e) => (fs1, Err (RunDownload e)) end);
  match dx_ExtensionManifest artifact with
  | None => stop_with RunPanic
  | Some em =>
      let em := fetched ref em in
      let am := dx_Manifest artifact in
      if bool_decide (dx_ArtifactType artifact = ArtifactBinary) then
        run em <- (if bool_decide (m_Type am = TypeGo) && negb (CShared am) then
            run _ <- step_or (RunComposer (ComposerVersion am) name) (CheckOrDownloadLibComposerLite d (ComposerVersion am));
            with_composer d (ComposerVersion am) em
          else done_with em);
        done_with (set_build (Remote em) (CShared am) (m_Debug em) em)
      else if bool_decide (dx_ArtifactType artifact = ArtifactSource) then handleExtensionSource d am em (dx_Path artifact) build false
      else stop_with (RunArtifactType (dx_ArtifactType artifact) name)
  end.

Fixpoint downloadExtensions (d : Downloader) (refs : list string) (build : bool) : Task (list Manifest) :=
  match refs with
  | [] => done_with []
  | ref :: rest => run m <- download_one d ref build; run ms <- downloadExtensions d rest build; done_with (m :: ms)
  end.

(** ** Local extensions *)

(** [FindLocalParentManifest] skips what it cannot read and never returns an error: [None] is the
    nil manifest it returns at the root. *)
Definition resolveParentNoFallback (fs : FileSystem) (m : Manifest) : result RunError (Manifest * string) :=
  match FindLocalParentManifest yaml_parse decode schema_error (fs_access fs) m with
  | Some p => Ok p
  | None => Err (RunNoParent (Parent m) (Name m))
  end.

(** [cmp.Or] of a version and latest. *)
Definition or_latest (v : string) : string := or_else v "latest".

Definition resolveParent (d : Downloader) (m : Manifest) : Task Manifest := fun fs =>
  match FindLocalParentManifest yaml_parse decode schema_error (fs_access fs) m with
  | Some (p, _) => (fs, Ok p)
  | None =>
      let downloaded :=
        if bool_decide (Parent m = "composer") then DownloadComposer d (or_else (ComposerVersion m) (or_latest (Version m))) ComposerArtifactLite fs
        else DownloadExtension d (Parent m) (Parent m) (or_latest (Version m)) fs in
      match downloaded with (fs1, Ok dl) => (fs1, Ok (dx_Manifest dl)) | (fs1, Err e) => (fs1, Err (RunDownload e)) end
  end.

Definition load_one (d : Downloader) (path : string) (build debug : bool) : Task Manifest := fun fs =>
  match local_manifest yaml_parse decode schema_error fs (path +:+ "/manifest.yaml") with
  | Err e => (fs, Err (RunLocalManifest path e))
  | Ok m =>
      if bool_decide (Parent m = "") then handleExtensionSource d m m path build debug fs
      else match resolveParentNoFallback fs m with
      | Err e => (fs, Err e)
      | Ok (root, rootPath) => handleExtensionSource d root (ResolveVersionsWithParent m root) rootPath build debug fs
      end
  end.

Fixpoint loadLocalManifests (d : Downloader) (paths : list string) (build debug : bool) : Task (list Manifest) :=
  match paths with
  | [] => done_with []
  | path :: rest => run m <- load_one d path build debug; run ms <- loadLocalManifests d rest build debug; done_with (m :: ms)
  end.

(** ** The command *)

Record EnvoyFlags : Type := mkEnvoyFlags { ef_Version : string; ef_Path : string }.

(** What the command hands to its runner, besides the flags it passes on. *)
Record RunPlan : Type := mkPlan { rp_Extensions : list Manifest; rp_EnvoyVersion : string; rp_ExtProcBinaries : gmap string string; rp_Warned : list string }.

(** Nil manifests are dereferenced by the checks that follow. *)
Definition dereference (l : list (option Manifest)) : result RunError (list Manifest) :=
  match mapM id l with Some ms => Ok ms | None => Err RunPanic end.

Definition ext_proc_binaries (dirs : Directories) (ms : list Manifest) : gmap string string :=
  foldl (fun acc m => if bool_decide (m_Type m = TypeExtProc) then <[Name m := LocalCacheExtension dirs m]> acc else acc) ∅ ms.

(** The Envoy version: given, resolved from the manifests, or irrelevant. *)
Definition envoy_version (env : EnvoyFlags) (ms : list Manifest) : result RunError string :=
  if negb (bool_decide (ef_Path env = "")) then Ok (ef_Version env)
  else if bool_decide (ef_Version env = "") then
    match ResolveMinimumCompatibleEnvoyVersion ms with Ok v => Ok v | Err reason => Err (RunVersions reason) end
  else Ok (ef_Version env).

Definition plan_extensions (d : Downloader) (env : EnvoyFlags) (sorted : list (option Manifest)) : result RunError RunPlan :=
  try ms <- dereference sorted;
  try version <- envoy_version env ms;
  match validateComposerCompat ms with
  | Some report => Err (RunComposerVersions report)
  | None => Ok (mkPlan ms version (ext_proc_binaries (dl_Dirs d) ms) (warnMultipleGoExtensions ms))
  end.

(** [Run.run] on the host, up to its runner. *)
Definition Run_run (cwd : option string) (iterate : gmap string (list nat) -> list (string * list nat)) (positions : extensionPositions)
    (d : Downloader) (env : EnvoyFlags) (refs paths : list string) (debug : bool) : Task RunPlan := fun fs =>
  if negb (bool_decide (ef_Path env = "")) && negb (exists_path fs (ef_Path env)) then (fs, Err (RunNoEnvoy (ef_Path env)))
  else (run downloaded <- downloadExtensions d refs true;
        run local <- loadLocalManifests d paths true debug;
        fun fs1 => (fs1, match positions_sort cwd iterate positions (downloaded ++ local) with
                         | Err e => Err (RunPositions e)
                         | Ok sorted => plan_extensions d env sorted
                         end)) fs.

(** [Run.Validate]. *)
Inductive FlagConflict : Type := LogLevels (e : LogLevelError) | TwoUpstreams | PathAndVersion | ImageWithoutDocker.

Definition Run_Validate (logLevel upstreamHost upstreamCluster : string) (env : EnvoyFlags) (imageVersion : string) (docker dockerImplicit : bool)
    : result FlagConflict (string * string) :=
  match parseLogLevels logLevel with
  | Err e => Err (LogLevels e)
  | Ok levels =>
      if negb (bool_decide (upstreamHost = "")) && negb (bool_decide (upstreamCluster = "")) then Err TwoUpstreams
      else if negb (bool_decide (ef_Path env = "")) && negb (bool_decide (ef_Version env = "")) then Err PathAndVersion
      else if negb (bool_decide (imageVersion = "")) && negb docker && negb dockerImplicit then Err ImageWithoutDocker
      else Ok levels
  end.

(** [Download.Run]: where the download went. *)
Definition Download_Run (d : Downloader) (ref : string) (fs : FileSystem) : FileSystem * result DownloadError string :=
  let '(bundle, name, tag) := splitRef ref in
  let '(fs1, r) :=
    if bool_decide (name = ComposerBundle) || bool_decide (name = ComposerArtifactLite) || bool_decide (name = ComposerArtifactSource)
    then DownloadComposer d tag name fs else DownloadExtension d bundle name tag fs in
  (fs1, try dl <- r; Ok (dx_Path dl)).
End Run.

(** ** Extensions in the order of the command line *)

Lemma next_Ok {A B} (t : Task A) (k : A -> Task B) fs fs' b :
  next t k fs = (fs', Ok b) -> exists a fs1, t fs = (fs1, Ok a) /\ k a fs1 = (fs', Ok b).
Proof. unfold next. destruct (t fs) as [fs1 [a|e]]; [|done]. intros Hk. by exists a, fs1. Qed.

(** What identifies a manifest on the command line. *)
Definition same_source (m m' : Manifest) : Prop :=
  Name m' = Name m /\ m_Type m' = m_Type m /\ m_Path m' = m_Path m /\ Remote m' = Remote m /\ m_origin m' = m_origin m.

#[local] Instance same_source_preorder : PreOrder same_source.
Proof. split; [by repeat split|]. intros m1 m2 m3 (?&?&?&?&?) (?&?&?&?&?). unfold same_source. split_and!; congruence. Qed.

Lemma same_source_build c b m : same_source m (set_build (Remote m) c b m).
Proof. by repeat split. Qed.
Lemma same_source_versions m p : same_source m (ResolveVersionsWithParent m p).
Proof. by repeat split. Qed.
Create HintDb clirun discriminated.
#[local] Hint Resolve same_source_build same_source_versions : clirun.

(** Runs a task to its successful end, step by step. *)
Ltac run_steps :=
  repeat match goal with
  | H : next _ _ _ = (_, Ok _) |- _ => apply next_Ok in H as (? & ? & ? & H)
  | H : done_with _ _ = (_, Ok _) |- _ => unfold done_with in H; injection H as ? ?; subst
  | H : stop_with _ _ = (_, Ok _) |- _ => by discriminate H
  | H : (_, Err _) = (_, Ok _) |- _ => by discriminate H
  end.

Section Order.
Context `{SemVer}.
Context (sort_slice : (string -> string -> bool) -> list string -> list string).
Context (yaml_parse : string -> option YNode) (decode : YNode -> option Manifest) (schema_error : Manifest -> option string).
Context (newClient : string -> option Target).
Context (exec : Command -> FileSystem -> FileSystem * bool) (dotenv : string -> option (gmap string string)) (libext : string).

Local Abbreviation handleExtensionSource := (handleExtensionSource sort_slice yaml_parse decode schema_error newClient exec dotenv libext).
Local Abbreviation download_one := (download_one sort_slice yaml_parse decode schema_error newClient exec dotenv libext).
Local Abbreviation downloadExtensions := (downloadExtensions sort_slice yaml_parse decode schema_error newClient exec dotenv libext).
Local Abbreviation load_one := (load_one sort_slice yaml_parse decode schema_error newClient exec dotenv libext).
Local Abbreviation loadLocalManifests := (loadLocalManifests sort_slice yaml_parse decode schema_error newClient exec dotenv libext).
Local Abbreviation Run_run := (Run_run sort_slice yaml_parse decode schema_error newClient exec dotenv libext).

Lemma with_composer_source d version m fs fs' m' :
  with_composer yaml_parse decode schema_error d version m fs = (fs', Ok m') -> same_source m m'.
Proof. unfold with_composer. intros [= _ <-]. case_match; [apply same_source_versions|reflexivity]. Qed.

Lemma go_source_source d root ext rootPath debug fs fs' m' :
  go_source sort_slice yaml_parse decode schema_error newClient exec dotenv d root ext rootPath debug fs = (fs', Ok m') -> same_source ext m'.
Proof.
  intros Hr. unfold go_source in Hr. run_steps. etrans; [|apply same_source_build].
  match goal with H : (if ?c then _ else _) _ = _ |- _ => destruct c end; run_steps; [reflexivity|by eapply with_composer_source].
Qed.

Lemma handleExtensionSource_source d root ext rootPath build debug fs fs' m' :
  handleExtensionSource d root ext rootPath build debug fs = (fs', Ok m') -> same_source ext m'.
Proof.
  unfold CliRun.handleExtensionSource. destruct build; cbn [negb]; [|by intros [= _ <-]].
  case_bool_decide; cbn [negb]; [|done]. repeat case_bool_decide; intros Hr; run_steps; auto with clirun; try reflexivity.
  by eapply go_source_source.
Qed.

Lemma download_one_ref d ref build fs fs' m : download_one d ref build fs = (fs', Ok m) -> is_remote ref m = true.
Proof.
  assert (Hsame : forall em, same_source (fetched ref em) m -> is_remote ref m = true).
  { intros em (_ & _ & _ & Hr & Ho). unfold is_remote. rewrite Hr, Ho. cbn. by rewrite bool_decide_eq_true_2. }
  unfold CliRun.download_one. destruct (splitRef ref) as [[bundle name] tag]. intros Hr. run_steps. destruct (dx_ExtensionManifest _) as [em|]; [|by run_steps].
  apply (Hsame em). case_bool_decide.
  - run_steps. etrans; [|apply same_source_build]. match goal with H : (if ?c then _ else _) _ = _ |- _ => destruct c end; run_steps; [by eapply with_composer_source|reflexivity].
  - case_bool_decide; [by eapply handleExtensionSource_source|by run_steps].
Qed.

Lemma downloadExtensions_refs d refs build fs fs' ms :
  downloadExtensions d refs build fs = (fs', Ok ms) -> Forall2 (fun r m => is_remote r m = true) refs ms.
Proof.
  revert fs fs' ms. induction refs as [|r refs IH]; intros fs fs' ms Hr; cbn [CliRun.downloadExtensions] in Hr; run_steps; [constructor|].
  constructor; [by eapply download_one_ref|by eapply IH].
Qed.
Lemma load_one_path d path build debug fs fs' m :
  load_one d path build debug fs = (fs', Ok m) -> m_Path m = path +:+ "/manifest.yaml".
Proof.
  unfold CliRun.load_one, local_manifest, LoadLocalManifest. destruct (loadManifest _ _ _ _ _ _) as [m0|]; cbn [rbind]; [|done].
  case_bool_decide; [intros (_ & _ & -> & _)%handleExtensionSource_source; done|].
  destruct (resolveParentNoFallback _ _ _ _ _) as [[root rootPath]|]; [|done]. intros (_ & _ & -> & _)%handleExtensionSource_source. done.
Qed.

Lemma loadLocalManifests_paths d paths build debug fs fs' ms :
  loadLocalManifests d paths build debug fs = (fs', Ok ms) -> Forall2 (fun p m => m_Path m = p +:+ "/manifest.yaml") paths ms.
Proof.
  revert fs fs' ms. induction paths as [|r refs IH]; intros fs fs' ms Hr; cbn [CliRun.loadLocalManifests] in Hr; run_steps; [constructor|].
  constructor; [by eapply load_one_path|by eapply IH].
Qed.

Lemma Clean_slash p : is_rooted p = true -> Clean (p +:+ "/") = Clean p.
Proof.
  intros Hr. assert (Hp : p <> "") by (by intros ->). unfold Clean. rewrite clean_segs_slash by done.
  assert (Hr' : is_rooted (p +:+ "/") = is_rooted p).
  { destruct p as [|c p]; [by destruct Hp|]. unfold is_rooted, HasPrefix. cbn [String.append String.prefix]. destruct (ascii_dec _ _); [|done]. by destruct p. }
  rewrite Hr'.
  rewrite !decide_False; [done|done|]. by destruct p.
Qed.

Lemma is_local_of_path cwd p m : is_rooted p = true -> m_Path m = p +:+ "/manifest.yaml" -> is_local cwd (Clean p) m = true.
Proof.
  intros Hr Hm. unfold is_local, Dir. rewrite Hm. change "/manifest.yaml" with (String slash "manifest.yaml"). rewrite LastIndexByte_app by done.
  assert (E : take_bytes (S (String.length p)) (p +:+ String slash "manifest.yaml") = p +:+ "/").
  { clear. induction p as [|c p IH]; [done|]. cbn [String.length String.append take_bytes] in *. by rewrite <- IH. }
  rewrite E, Clean_slash by done. assert (Hp : p <> "") by (by intros ->). destruct (clean_segs_Clean p Hp) as [E1 E2]. unfold Abs. rewrite E2, Hr.
  apply bool_decide_eq_true. unfold Clean at 1. rewrite decide_False by apply Clean_nonempty. rewrite E1, E2. unfold Clean. by rewrite decide_False.
Qed.

Lemma locals_match cwd paths ms :
  Forall (fun p => is_rooted p = true) paths -> Forall2 (fun p m => m_Path m = p +:+ "/manifest.yaml") paths ms ->
  Forall2 (fun p m => is_local cwd p m = true) (Clean <$> paths) ms.
Proof.
  intros Hr HF. induction HF as [|p m paths ms Hp HF IH]; [constructor|]. apply Forall_cons in Hr as [Hr Hrs].
  constructor; [by apply is_local_of_path|by apply IH].
Qed.

(** The flags of a command line with absolute paths, as the flag parser passes them on. *)
Definition refs_of (ts : list Token) : list string := omap (fun t => match t with TRemote r => Some r | _ => None end) ts.
Definition paths_of (ts : list Token) : list string := omap (fun t => match t with TLocal p => Some p | _ => None end) ts.

Lemma remote_values_refs cwd ts : paths_known cwd ts -> remote_values (omap (wanted cwd) ts) = refs_of ts.
Proof.
  unfold remote_values, refs_of. induction ts as [|[r|p|a] ts IH]; intros Hk; cbn [omap list_omap wanted fmap option_fmap option_map]; [done|..].
  - f_equal. apply IH. intros q Hq. apply Hk. by right.
  - destruct (Hk p) as [k Hk']; [by left|]. rewrite Hk'. cbn. apply IH. intros q Hq. apply Hk. by right.
  - apply IH. intros q Hq. apply Hk. by right.
Qed.

Lemma local_values_paths cwd ts :
  Forall (fun p => is_rooted p = true) (paths_of ts) -> local_values (omap (wanted cwd) ts) = Clean <$> paths_of ts.
Proof.
  unfold local_values, paths_of. induction ts as [|[r|p|a] ts IH]; intros Hk; cbn [omap list_omap wanted fmap option_fmap option_map] in *; [done|by apply IH| |by apply IH].
  apply Forall_cons in Hk as [Hp Hk]. unfold Abs. rewrite Hp. cbn. f_equal. by apply IH.
Qed.

Lemma paths_known_rooted cwd ts : Forall (fun p => is_rooted p = true) (paths_of ts) -> paths_known cwd ts.
Proof.
  intros Hk p Hp. rewrite Forall_forall in Hk. unfold Abs. rewrite Hk; [by eexists|]. apply list_elem_of_omap. by exists (TLocal p).
Qed.

Lemma dereference_some (ms : list Manifest) : dereference (Some <$> ms) = Ok ms.
Proof.
  unfold dereference. assert (E : mapM id (Some <$> ms) = Some ms); [|by rewrite E].
  apply mapM_Some. rewrite Forall2_fmap_l. apply Forall_Forall2_diag. by apply Forall_true.
Qed.

Lemma ext_proc_binaries_spec dirs ms m :
  m ∈ ms -> m_Type m = TypeExtProc ->
  exists m', m' ∈ ms /\ m_Type m' = TypeExtProc /\ Name m' = Name m /\ ext_proc_binaries dirs ms !! Name m = Some (LocalCacheExtension dirs m').
Proof.
  unfold ext_proc_binaries. intros Hm Ht. induction ms as [|x ms IH] using rev_ind; [by apply elem_of_nil in Hm|]. rewrite foldl_app. cbn [foldl].
  case_bool_decide as Hx; [destruct (decide (Name x = Name m)) as [E|E]|].
  - exists x. rewrite E, lookup_insert_eq, elem_of_app. split_and!; [right; by left|done..].
  - rewrite lookup_insert_ne by done. apply elem_of_app in Hm as [Hm| ->%list_elem_of_singleton]; [|done].
    destruct (IH Hm) as (m' & ? & ?). exists m'. rewrite elem_of_app. split; [by left|done].
  - apply elem_of_app in Hm as [Hm| ->%list_elem_of_singleton]; [|done].
    destruct (IH Hm) as (m' & ? & ?). exists m'. rewrite elem_of_app. split; [by left|done].
Qed.

(** A run that is planned from its command line has exactly the extensions of the flags, in
    their order: downloading, building and inheriting versions neither lose nor reorder them;
    the composer versions of the Go extensions agree and every ext_proc extension has a binary
    in the cache. *)
Theorem run_plan_ordered cwd iterate ts d env debug fs fs' plan positions :
  Forall good_token ts -> Forall (fun p => is_rooted p = true) (paths_of ts) -> (forall m, iterate m ≡ₚ map_to_list m) ->
  saveExtensionPositions cwd (concat (token_args <$> ts)) = Ok positions ->
  Run_run cwd iterate positions d env (refs_of ts) (paths_of ts) debug fs = (fs', Ok plan) ->
  Forall2 (fun w m => matches cwd w m = true) (omap (wanted cwd) ts) (rp_Extensions plan) /\
  (forall m1 m2, m1 ∈ rp_Extensions plan -> m2 ∈ rp_Extensions plan -> m_Type m1 = TypeGo -> m_Type m2 = TypeGo -> ComposerVersion m1 = ComposerVersion m2) /\
  (forall m, m ∈ rp_Extensions plan -> m_Type m = TypeExtProc ->
   exists m', m' ∈ rp_Extensions plan /\ m_Type m' = TypeExtProc /\ Name m' = Name m /\
     rp_ExtProcBinaries plan !! Name m = Some (LocalCacheExtension (dl_Dirs d) m')).
Proof.
  intros Hg Hr Hit Hpos Hrun. pose proof (paths_known_rooted cwd ts Hr) as Hk. unfold CliRun.Run_run in Hrun.
  destruct (_ && _); [done|]. run_steps. rename x into downloaded, x1 into local.
  destruct (extensions_in_order cwd iterate ts downloaded local) as (p & sorted & Hp & Hs & HF); [done..| | |].
  { rewrite remote_values_refs by done. by eapply downloadExtensions_refs. }
  { rewrite local_values_paths by done. by eapply locals_match, loadLocalManifests_paths. }
  rewrite Hpos in Hp. injection Hp as <-. rewrite Hs in Hrun. injection Hrun as <- Hplan. unfold plan_extensions in Hplan.
  rewrite dereference_some in Hplan. cbn [rbind] in Hplan. destruct (envoy_version env sorted); [|done]. cbn [rbind] in Hplan.
  destruct (validateComposerCompat sorted) eqn:Hc; [done|]. injection Hplan as <-. cbn [rp_Extensions rp_ExtProcBinaries]. split_and!.
  - eapply Forall2_impl; [exact HF|]. by intros w m [? _].
  - by apply composer_compat_iff.
  - intros m. apply ext_proc_binaries_spec.
Qed.
End Order.

(** Two local extensions that need no build. *)
Definition two_locals : FileSystem :=
  list_to_map [(["a"], NDir); (["a"; "manifest.yaml"], NFile "first"); (["b"], NDir); (["b"; "manifest.yaml"], NFile "second")].
Definition name_only (n : YNode) : option Manifest :=
  Some (mkManifest (node_Value n) "1.0.0" "" false "" "" TypeLua [] "" "" "" "" (Some (mkLua "return" "")) None None "" false (mkOrigin "" "" "") false false zero_info).
Definition two_tokens : list Token := [TOther "boe"; TOther "run"; TLocal "/b"; TLocal "/a"].
Definition two_positions : extensionPositions := mkPositions (list_to_map [("/b", [0%nat]); ("/a", [1%nat])]) ∅.
Definition two_run : FileSystem * result RunError RunPlan :=
  @Run_run rank_compare (fun _ l => l) (fun s => Some (YScalar s)) name_only (fun _ => None) (fun _ => None) (fun _ fs => (fs, true)) (fun _ => None) "so"
    None map_to_list two_positions (mkDownloader "r" example_dirs "linux" "arm64" false false) (mkEnvoyFlags "" "") [] ["/b"; "/a"] false two_locals.
Definition two_plan : RunPlan := mkPlan (default [] (match two_run.2 with Ok p => Some (rp_Extensions p) | Err _ => None end)) "" ∅ [].

Lemma run_plan_ordered_witness :
  Name <$> rp_Extensions two_plan = ["second"; "first"] /\
  Forall2 (fun w m => matches None w m = true) [WLocal "/b"; WLocal "/a"] (rp_Extensions two_plan).
Proof.
  split; [vm_compute; reflexivity|].
  apply (@run_plan_ordered rank_compare (fun _ l => l) (fun s => Some (YScalar s)) name_only (fun _ => None) (fun _ => None) (fun _ fs => (fs, true)) (fun _ => None) "so"
    None map_to_list two_tokens (mkDownloader "r" example_dirs "linux" "arm64" false false) (mkEnvoyFlags "" "") false two_locals two_run.1 two_plan two_positions).
  - repeat constructor; discriminate.
  - repeat constructor.
  - done.
  - vm_compute. reflexivity.
  - vm_compute. reflexivity.
Defined.
