(* ===== verification/CliDebug.v ===== *)
(** * cli: debugging

    cli/internal/envoy/debug.go, debug_delve.go, debug_gdbremote.go and cli/cmd/debug.go: the
    checks of the debug command, finding or building the debug server, the settings of the Go
    runtime, and the sessions of the GDB remote server as steps of its goroutines. *)

From S2P Require Import Prelude GoStr GoNum GoPath GoFS SSELines GoCodec GoJson CliPackage CliManifest CliCache CliDownload CliExtension CliConfig CliLogs CliFlags CliRun.
From Stdlib Require Import Lia Ascii.

Local Open Scope go_scope.

(** ** The settings of the Go runtime *)

Definition setting_key (s : string) : string := before_byte s "="%char.

(** [mergeGODEBUG]. *)
Definition mergeGODEBUG (existing : string) (add : list string) : string :=
  let keys := setting_key <$> add in
  let kept := filter (fun e => e <> "" /\ setting_key e ∉ keys) (TrimSpace <$> Split existing ","%char) in
  Join (kept ++ add) ",".

Example mergeGODEBUG_ex :
  mergeGODEBUG "" ["cgocheck=0"] = "cgocheck=0" /\
  mergeGODEBUG "cgocheck=1, madvdontneed=1" ["cgocheck=0"; "asyncpreemptoff=1"] = "madvdontneed=1,cgocheck=0,asyncpreemptoff=1".
Proof. vm_compute. repeat split. Qed.

(** How the runtime reads its settings: the last one of a key counts. *)
Definition setting (value key : string) : option string :=
  last (filter (fun e => setting_key e = key) (Split value ","%char)).

(** ** The debug server *)

Inductive Debugger : Type := DebuggerDelve | DebuggerGDBRemote.

#[export] Instance Debugger_eq_dec : EqDecision Debugger.
Proof. solve_decision. Defined.

Record DebugOptions : Type := mkDebug {
  db_Debugger : Debugger;
  db_Port : Z;
  db_ServerPath : string;
  db_InstallDir : string;
  db_Rebuild : bool;
  db_Notes : list string;
}.

Inductive DebugError : Type :=
| ErrPtrace (scope : Z)
| ErrNoServer (path : string)
| ErrServerInstall (hint : string)
| ErrDelveBuild
| ErrDebugDisk.

Definition ptraceScopeFile : string := "/proc/sys/kernel/yama/ptrace_scope".

Local Open Scope Z_scope.

Definition checkPtraceScope (fs : FileSystem) (file : string) (euid : Z) : option DebugError :=
  match ReadFile fs file with
  | None => None
  | Some content =>
      match Atoi (TrimSpace content) with
      | None => None
      | Some scope => if (scope =? 0) || ((scope <? 3) && (euid =? 0)) then None else Some (ErrPtrace scope)
      end
  end.

Definition findExecutable (fs : FileSystem) (path : string) : result DebugError string :=
  if exists_path fs path then Ok path else Err (ErrNoServer path).

Fixpoint findFirst (fs : FileSystem) (paths : list string) (msg : string) : result DebugError string :=
  match paths with
  | [] => Err (ErrServerInstall msg)
  | p :: rest => if exists_path fs p then Ok p else findFirst fs rest msg
  end.

Definition debugserverPaths : list string :=
  ["/Library/Developer/CommandLineTools/Library/PrivateFrameworks/LLDB.framework/Resources/debugserver";
   "/Applications/Xcode.app/Contents/SharedFrameworks/LLDB.framework/Resources/debugserver"].

Definition DelveVersion : string := "v1.27.3-0.20261104171615-749588dac987".
Definition delveModule : string := "github.com/go-delve/delve".

Section Debug.
(** The toolchain, the executables that a search of PATH finds, the system, the user, the name
    given to a new temporary directory, and the directory for temporary files. *)
Context (exec : Command -> FileSystem -> FileSystem * bool) (lookPath : string -> option string).
Context (goos : string) (euid : Z) (rand : string) (tempDir : string).

(** [newGDBRemoteServer]: the path of the server. *)
Definition newGDBRemoteServer (d : DebugOptions) (fs : FileSystem) : result DebugError string :=
  if negb (bool_decide (db_ServerPath d = "")) then findExecutable fs (db_ServerPath d)
  else if bool_decide (goos = "darwin") then findFirst fs debugserverPaths "debugserver not found"
  else match lookPath "gdbserver" with Some p => Ok p | None => Err (ErrServerInstall "gdbserver not found") end.

(** [os.MkdirTemp] in a directory, with the name it has chosen. *)
Definition MkdirTemp (fs : FileSystem) (dir prefix : string) : option (FileSystem * string) :=
  let path := dir +:+ (if HasSuffix dir "/" then "" else "/") +:+ prefix +:+ rand in
  match Mkdir fs (clean_segs path) with Some fs' => Some (fs', path) | None => None end.

Definition installDelve (dir : string) (rebuild : bool) (fs : FileSystem) : FileSystem * result DebugError string :=
  let dlvPath := JoinAll [dir; "dlv-" +:+ DelveVersion] in
  if exists_path fs dlvPath && negb rebuild then (fs, Ok dlvPath)
  else match MkdirAll fs (clean_segs dir) with
  | (fs1, false) => (fs1, Err ErrDebugDisk)
  | (fs1, true) =>
      match MkdirTemp fs1 dir "dlv-build-" with
      | None => (fs1, Err ErrDebugDisk)
      | Some (fs2, bin) =>
          let '(fs3, r) :=
            match exec (mkCommand "go" ["install"; delveModule +:+ "/cmd/dlv@" +:+ DelveVersion] ["GOBIN=" +:+ bin; "CGO_ENABLED=0"] tempDir) fs2 with
            | (fs3, false) => (fs3, Err ErrDelveBuild)
            | (fs3, true) => match Rename fs3 (JoinAll [bin; "dlv"]) dlvPath with Some fs4 => (fs4, Ok dlvPath) | None => (fs3, Err ErrDebugDisk) end
            end in
          (RemoveAll fs3 bin, r)
      end
  end.

Definition newDelveServer (d : DebugOptions) (fs : FileSystem) : FileSystem * result DebugError string :=
  if negb (bool_decide (db_ServerPath d = "")) then (fs, findExecutable fs (db_ServerPath d))
  else installDelve (db_InstallDir d) (db_Rebuild d) fs.

(** [DebugOptions.resolve]. *)
Definition debug_resolve (d : DebugOptions) (fs : FileSystem) : FileSystem * result DebugError string :=
  match (if bool_decide (goos = "linux") then checkPtraceScope fs ptraceScopeFile euid else None) with
  | Some e => (fs, Err e)
  | None => match db_Debugger d with DebuggerGDBRemote => (fs, newGDBRemoteServer d fs) | DebuggerDelve => newDelveServer d fs end
  end.
End Debug.

(** [listenHost]; the arguments of the servers. *)
Definition listenHost (env : string) : string := if bool_decide (env = "") then "127.0.0.1" else env.
Definition delve_args (env : string) (port pid : Z) : list string :=
  ["attach"; FormatInt pid; "--headless"; "--listen=" +:+ listenHost env +:+ ":" +:+ FormatInt port; "--api-version=2"; "--accept-multiclient"; "--continue"].
Definition gdb_args (goos : string) (pid : Z) (addr : string) : list string :=
  if bool_decide (goos = "darwin") then [addr; "--attach=" +:+ FormatInt pid] else ["--once"; "--attach"; addr; FormatInt pid].

(** [DebugNotesFromEnv]. *)
Definition debugNotesSeparator : ascii := "030"%char.
Definition DebugNotesFromEnv (v : string) : list string := if bool_decide (v = "") then [] else Split v debugNotesSeparator.

(** ** The debug command *)

Inductive DebugFlagError : Type :=
| ErrDebugRemote | ErrDebugNoLocal | ErrDebugType (name type : string) | ErrDebugMixed | ErrDebugManifest (path : string)
| ErrRebuildAndPath | ErrRustDocker | ErrRebuildNotGo | ErrEnvoyPathContainer.

Section DebugCommand.
Context (yaml_parse : string -> option YNode) (decode : YNode -> option Manifest) (schema_error : Manifest -> option string).

Definition debuggerFor (fs : FileSystem) (path : string) : result DebugFlagError Debugger :=
  match local_manifest yaml_parse decode schema_error fs (JoinAll [path; "manifest.yaml"]) with
  | Err _ => Err (ErrDebugManifest path)
  | Ok m =>
      match (if bool_decide (Parent m = "") then Ok m
             else match resolveParentNoFallback yaml_parse decode schema_error fs m with Ok (p, _) => Ok p | Err _ => Err (ErrDebugManifest path) end) with
      | Err e => Err e
      | Ok root =>
          if bool_decide (m_Type root = TypeGo) || bool_decide (m_Type root = TypeComposer) then Ok DebuggerDelve
          else if bool_decide (m_Type root = TypeRust) then Ok DebuggerGDBRemote
          else Err (ErrDebugType (Name m) (m_Type root))
      end
  end.

Fixpoint one_debugger (fs : FileSystem) (paths : list string) (so_far : option Debugger) : result DebugFlagError (option Debugger) :=
  match paths with
  | [] => Ok so_far
  | p :: rest =>
      try dbg <- debuggerFor fs p;
      if match so_far with Some d => bool_decide (d <> dbg) | None => false end then Err ErrDebugMixed
      else one_debugger fs rest (Some dbg)
  end.

(** [inContainer]. *)
Definition inContainer (goos : string) (docker : bool) (dbg : Debugger) : bool :=
  bool_decide (dbg = DebuggerDelve) && (docker || negb (bool_decide (goos = "linux"))).

(** [Debug.Validate]: the debugger that is used. *)
Definition Debug_Validate (fs : FileSystem) (goos : string) (remotes locals : list string) (serverPath : string) (rebuild docker : bool) (envoyPath : string)
    : result DebugFlagError Debugger :=
  if negb (bool_decide (remotes = [])) then Err ErrDebugRemote
  else if bool_decide (locals = []) then Err ErrDebugNoLocal
  else
    try found <- one_debugger fs locals None;
    match found with
    | None => Err ErrDebugNoLocal
    | Some dbg =>
        if rebuild && negb (bool_decide (serverPath = "")) then Err ErrRebuildAndPath
        else if bool_decide (dbg = DebuggerGDBRemote) && docker then Err ErrRustDocker
        else if rebuild && negb (bool_decide (dbg = DebuggerDelve)) then Err ErrRebuildNotGo
        else if inContainer goos docker dbg && negb (bool_decide (envoyPath = "")) then Err ErrEnvoyPathContainer
        else Ok dbg
    end.
End DebugCommand.

(** ** Merged settings *)

Lemma trim_left_absent c n s : (String.length s <= n)%nat -> ContainsByte s c = false -> ContainsByte (trim_left s) c = false.
Proof.
  revert s. induction n as [|n IH]; intros s Hn Hs; [by destruct s; [|cbn in Hn; lia]|].
  destruct s as [|x s1]; [done|]. cbn [trim_left String.length] in *. pose proof Hs as [_ H1]%orb_false_iff.
  destruct (ascii_space x); [apply IH; [lia|done]|]. destruct s1 as [|y s2]; [done|]. cbn [String.length] in Hn. pose proof H1 as [_ H2]%orb_false_iff.
  destruct (space2 x y); [apply IH; [lia|done]|]. destruct s2 as [|z s3]; [done|]. cbn [String.length] in Hn. pose proof H2 as [_ H3]%orb_false_iff.
  destruct (space3 x y z); [apply IH; [lia|done]|done].
Qed.

Lemma trim_right_absent c s : ContainsByte s c = false -> ContainsByte (trim_right s) c = false.
Proof.
  induction s as [|x s IH]; intros Hs; cbn [trim_right]; case_decide; try done. pose proof Hs as [Hx Hs']%orb_false_iff.
  cbn [ContainsByte]. apply orb_false_iff. split; [exact Hx|by apply IH].
Qed.

Lemma TrimSpace_absent c s : ContainsByte s c = false -> ContainsByte (TrimSpace s) c = false.
Proof. intros Hs. by apply trim_right_absent, (trim_left_absent _ _ _ (Nat.le_refl _)). Qed.

Definition comma : ascii := ","%char.

(** The settings of a value, as they are merged. *)
Definition settings (value : string) : list string := filter (fun e => e <> "") (TrimSpace <$> Split value comma).

Lemma settings_absent value : Forall (fun s => ContainsByte s comma = false) (settings value).
Proof.
  apply Forall_forall. intros s [_ (w & -> & Hw)%list_elem_of_fmap]%list_elem_of_filter. by eapply TrimSpace_absent, Split_no_sep.
Qed.

Lemma mergeGODEBUG_split existing add :
  add <> [] -> Forall (fun s => ContainsByte s comma = false) add ->
  Split (mergeGODEBUG existing add) comma = filter (fun e => setting_key e ∉ setting_key <$> add) (settings existing) ++ add.
Proof.
  intros Hne Hadd. unfold mergeGODEBUG. change "," with (String comma ""). change ","%char with comma.
  assert (E : filter (fun e => e <> "" /\ setting_key e ∉ setting_key <$> add) (TrimSpace <$> Split existing comma) =
              filter (fun e => setting_key e ∉ setting_key <$> add) (settings existing)).
  { unfold settings. rewrite list_filter_filter. apply list_filter_iff. intros e. tauto. }
  rewrite E. apply Split_Join_sep; [by intros [_ ?]%app_eq_nil|]. apply Forall_app. split; [|done]. apply Forall_forall. intros s [_ Hs]%list_elem_of_filter. by apply (proj1 (Forall_forall _ _) (settings_absent existing)).
Qed.

(** Every added setting of the Go runtime takes effect, whatever the environment had, and every
    setting of the environment with another key is kept as it was. *)
Lemma godebug_merged existing add key :
  add <> [] -> Forall (fun s => ContainsByte s comma = false) add ->
  setting (mergeGODEBUG existing add) key =
    match last (filter (fun e => setting_key e = key) add) with
    | Some e => Some e
    | None => last (filter (fun e => setting_key e = key) (settings existing))
    end.
Proof.
  intros Hne Hadd. unfold setting. rewrite mergeGODEBUG_split by done. rewrite filter_app, list_filter_filter, last_app.
  destruct (last (filter _ add)) as [e|] eqn:Hl; [done|]. apply last_None in Hl. f_equal. apply list_filter_iff. intros e. split; [tauto|].
  intros He. split; [done|]. intros (e' & Hk & He')%list_elem_of_fmap.
  assert (Hin : e' ∈ filter (fun e => setting_key e = key) add) by (apply list_elem_of_filter; split; [congruence|done]).
  rewrite Hl in Hin. by apply elem_of_nil in Hin.
Qed.

(** ** Sessions of the GDB remote server *)

(** Where the goroutine of [serve] is: waiting for a client, with a client that has no session
    yet, in a session before the debug server is started, waiting for the debug server to listen,
    copying between the connections, waiting for the debug server to exit (after it served the
    client, or after an error), or returned. *)
Inductive ServePc : Type := Accepting | Accepted | Registered | Attached | Proxying | Detaching (served : bool) | Finished.

(** Where [stop] is: not called, the listener closed, the session cancelled, returned. *)
Inductive StopPc : Type := NotCalled | ListenerClosed | SessionCancelled | Returned.

Record gdbRemoteServer : Type := mkGdb {
  g_listening : bool;
  g_serve : ServePc;
  g_cancel : bool;     (** the field [cancel] is set *)
  g_cancelled : bool;  (** the context of the session is done *)
  g_running : bool;    (** a debug server process runs, attached to Envoy *)
  g_envoy : bool;      (** Envoy is alive *)
  g_stop : StopPc;
}.

(** After [start]. *)
Definition gdb_started : gdbRemoteServer := mkGdb true Accepting false false false true NotCalled.

Definition in_session (pc : ServePc) : bool := match pc with Registered | Attached | Proxying | Detaching _ => true | _ => false end.

Inductive gdb_step : gdbRemoteServer -> gdbRemoteServer -> Prop :=
| gdb_accept st : g_serve st = Accepting -> g_listening st = true ->
    gdb_step st (mkGdb true Accepted (g_cancel st) (g_cancelled st) (g_running st) (g_envoy st) (g_stop st))
| gdb_accept_fails st : g_serve st = Accepting -> g_listening st = false ->
    gdb_step st (mkGdb false Finished (g_cancel st) (g_cancelled st) (g_running st) (g_envoy st) (g_stop st))
| gdb_register st done : g_serve st = Accepted ->
    gdb_step st (mkGdb (g_listening st) Registered true done (g_running st) (g_envoy st) (g_stop st))
| gdb_start_server st : g_serve st = Registered -> g_cancelled st = false ->
    gdb_step st (mkGdb (g_listening st) Attached (g_cancel st) false true (g_envoy st) (g_stop st))
| gdb_start_fails st : g_serve st = Registered ->
    gdb_step st (mkGdb (g_listening st) Accepting false true (g_running st) (g_envoy st) (g_stop st))
| gdb_dialled st : g_serve st = Attached -> g_running st = true ->
    gdb_step st (mkGdb (g_listening st) Proxying (g_cancel st) (g_cancelled st) true (g_envoy st) (g_stop st))
| gdb_dial_fails st : g_serve st = Attached ->
    gdb_step st (mkGdb (g_listening st) (Detaching false) (g_cancel st) true (g_running st) (g_envoy st) (g_stop st))
| gdb_proxy_ends st : g_serve st = Proxying ->
    gdb_step st (mkGdb (g_listening st) (Detaching true) (g_cancel st) true (g_running st) (g_envoy st) (g_stop st))
| gdb_server_exits st alive : g_running st = true -> (alive = true -> g_envoy st = true) ->
    gdb_step st (mkGdb (g_listening st) (g_serve st) (g_cancel st) (g_cancelled st) false alive (g_stop st))
| gdb_session_ends st served : g_serve st = Detaching served -> g_running st = false ->
    gdb_step st (mkGdb (g_listening st) (if served && negb (g_envoy st) then Finished else Accepting) false true false (g_envoy st) (g_stop st))
| gdb_envoy_ends st :
    gdb_step st (mkGdb (g_listening st) (g_serve st) (g_cancel st) (g_cancelled st) (g_running st) false (g_stop st))
| gdb_run_cancelled st : in_session (g_serve st) = true ->
    gdb_step st (mkGdb (g_listening st) (g_serve st) (g_cancel st) true (g_running st) (g_envoy st) (g_stop st))
| gdb_stop_called st : g_stop st = NotCalled ->
    gdb_step st (mkGdb false (g_serve st) (g_cancel st) (g_cancelled st) (g_running st) (g_envoy st) ListenerClosed)
| gdb_stop_cancels st : g_stop st = ListenerClosed ->
    gdb_step st (mkGdb (g_listening st) (g_serve st) (g_cancel st) (g_cancel st || g_cancelled st) (g_running st) (g_envoy st) SessionCancelled)
| gdb_stop_returns st : g_stop st = SessionCancelled -> g_serve st = Finished ->
    gdb_step st (mkGdb (g_listening st) Finished (g_cancel st) (g_cancelled st) (g_running st) (g_envoy st) Returned).

(** What holds at every point. *)
Record gdb_inv (st : gdbRemoteServer) : Prop := {
  inv_cancel : g_cancel st = in_session (g_serve st);
  inv_running : g_running st = true -> match g_serve st with Attached | Proxying | Detaching _ => True | _ => False end;
  inv_detaching : (exists served, g_serve st = Detaching served) -> g_cancelled st = true;
  inv_closed : g_stop st <> NotCalled -> g_listening st = false;
  inv_returned : g_stop st = Returned -> g_serve st = Finished;
}.

Lemma gdb_inv_started : gdb_inv gdb_started.
Proof. split; cbn; try done. by intros [? ?]. Qed.

Lemma gdb_inv_step st st' : gdb_inv st -> gdb_step st st' -> gdb_inv st'.
Proof.
  intros [I1 I2 I3 I4 I5] Hstep.
  destruct Hstep; destruct st as [li se ca cd ru en so]; cbn in *; subst; (split; cbn in *; [..|intros|intros|intros]); try done;
    repeat match goal with
    | H : exists _, _ |- _ => destruct H
    | |- context [if ?b then _ else _] => destruct b
    end; naive_solver.
Qed.

(** The steps that need neither the client nor Envoy: with a cancelled session the client's
    connection is closed and the debug server gets a signal on which it exits. *)
Inductive gdb_own_step : gdbRemoteServer -> gdbRemoteServer -> Prop :=
| own_step st st' :
    gdb_step st st' ->
    match g_serve st with
    | Accepting => g_listening st = false
    | Accepted => False
    | Registered | Attached | Proxying => g_cancelled st = true
    | Detaching _ | Finished => True
    end -> g_envoy st' = g_envoy st -> gdb_own_step st st'.

(** How far [serve] is from its end. *)
Definition gdb_distance (st : gdbRemoteServer) : nat :=
  match g_serve st with Finished => 1 | Accepting => 2 | Detaching _ => 3 + Nat.b2n (g_running st) | Registered => 3 | Proxying | Attached => 5 | Accepted => 6 end.

(** [stop] has cancelled whatever session there is. *)
Definition gdb_stopping (st : gdbRemoteServer) : Prop :=
  gdb_inv st /\ g_stop st = SessionCancelled /\ g_serve st <> Accepted /\ (in_session (g_serve st) = true -> g_cancelled st = true).

Lemma gdb_stopping_next st : gdb_stopping st -> exists st', gdb_own_step st st' /\ (g_stop st' = Returned \/ (gdb_stopping st' /\ gdb_distance st' < gdb_distance st)%nat).
Proof.
  intros (Hinv & Hs & Ha & Hc). pose proof Hinv as [I1 I2 I3 I4 I5]. assert (Hl : g_listening st = false) by (apply I4; congruence).
  assert (Hgo : forall st', gdb_step st st' -> g_envoy st' = g_envoy st -> g_stop st' = SessionCancelled -> g_serve st' <> Accepted ->
    (in_session (g_serve st') = true -> g_cancelled st' = true) -> (gdb_distance st' < gdb_distance st)%nat ->
    exists st', gdb_own_step st st' /\ (g_stop st' = Returned \/ (gdb_stopping st' /\ gdb_distance st' < gdb_distance st)%nat)).
  { intros st' Hstep He Hs' Ha' Hc' Hd. exists st'. split; [|right; split; [|done]].
    - constructor; [done| |done]. destruct (g_serve st); cbn in Hc; auto; done.
    - split_and!; [by eapply gdb_inv_step|done..]. }
  destruct (g_serve st) as [| | | | |served|] eqn:E; cbn [in_session] in *; try done.
  - apply (Hgo _ (gdb_accept_fails st E Hl)); cbn; try done. unfold gdb_distance. cbn. rewrite E. lia.
  - apply (Hgo _ (gdb_start_fails st E)); cbn; try done. unfold gdb_distance. cbn. rewrite E. lia.
  - apply (Hgo _ (gdb_dial_fails st E)); cbn; try done. unfold gdb_distance. cbn. rewrite E. destruct (g_running st); cbn; lia.
  - apply (Hgo _ (gdb_proxy_ends st E)); cbn; try done. unfold gdb_distance. cbn. rewrite E. destruct (g_running st); cbn; lia.
  - destruct (g_running st) eqn:Er.
    + apply (Hgo _ (gdb_server_exits st (g_envoy st) Er (fun H => H))); cbn; rewrite ?E; try done. unfold gdb_distance. cbn. rewrite E, Er. cbn. lia.
    + apply (Hgo _ (gdb_session_ends st served E Er)); cbn; try done; [by destruct (_ && _)|]. unfold gdb_distance. cbn. rewrite E, Er. destruct (_ && _); cbn; lia.
  - eexists. split; [constructor; [exact (gdb_stop_returns st Hs E)|by rewrite E|done]|by left].
Qed.

(** C32: A debug server is attached to Envoy only while a client is in a session, and there is one
    session at a time; when [stop] returns the listener is closed and no debug server is attached.
    A [stop] that has cancelled the session returns without the help of the client or of Envoy. *)
Theorem gdb_sessions st :
  steps gdb_step gdb_started st ->
  (g_running st = true -> in_session (g_serve st) = true) /\
  (g_stop st = Returned -> g_listening st = false /\ g_serve st = Finished /\ g_running st = false /\ g_cancel st = false) /\
  (g_stop st = SessionCancelled -> g_serve st <> Accepted -> (in_session (g_serve st) = true -> g_cancelled st = true) ->
   exists st', steps gdb_own_step st st' /\ g_stop st' = Returned).
Proof.
  intros Hreach. assert (Hinv : gdb_inv st) by (eapply steps_invariant; [apply gdb_inv_step|apply gdb_inv_started|exact Hreach]).
  pose proof Hinv as [I1 I2 I3 I4 I5]. split_and!.
  - intros Hr. specialize (I2 Hr). by destruct (g_serve st).
  - intros Hs. specialize (I5 Hs). rewrite I5 in I1, I2. split_and!; [apply I4; congruence|done| |done]. destruct (g_running st); [by destruct I2|done].
  - intros Hs Ha Hc. assert (Hst : gdb_stopping st) by done. clear -Hst.
    remember (gdb_distance st) as n eqn:Hn. revert st Hst Hn. induction (lt_wf n) as [n _ IH]. intros st Hst ->.
    destruct (gdb_stopping_next st Hst) as (st' & Hstep & [Hr|[Hst' Hd]]).
    + exists st'. split; [eapply steps_snoc; [apply steps_nil|done]|done].
    + destruct (IH _ Hd st' Hst' eq_refl) as (st2 & H2 & Hr). exists st2. split; [|done]. by eapply steps_cons.
Qed.

Lemma gdb_sessions_witness :
  exists st', steps gdb_own_step (mkGdb false Proxying true true true true SessionCancelled) st' /\ g_stop st' = Returned.
Proof.
  apply (gdb_sessions (mkGdb false Proxying true true true true SessionCancelled)); [|done..].
  eapply steps_snoc; [|exact (gdb_stop_cancels (mkGdb false Proxying true false true true ListenerClosed) eq_refl)].
  eapply steps_snoc; [|exact (gdb_stop_called (mkGdb true Proxying true false true true NotCalled) eq_refl)].
  eapply steps_snoc; [|exact (gdb_dialled (mkGdb true Attached true false true true NotCalled) eq_refl eq_refl)].
  eapply steps_snoc; [|exact (gdb_start_server (mkGdb true Registered true false false true NotCalled) eq_refl eq_refl)].
  eapply steps_snoc; [|exact (gdb_register (mkGdb true Accepted false false false true NotCalled) false eq_refl)].
  eapply steps_snoc; [apply steps_nil|]. exact (gdb_accept gdb_started eq_refl eq_refl).
Defined.

(** A client that was accepted when [stop] looked for a session is not cancelled: [stop] then
    waits for it. *)
Theorem stop_misses_accepted : steps gdb_step gdb_started (mkGdb false Registered true false false true SessionCancelled).
Proof.
  eapply steps_snoc; [|exact (gdb_register (mkGdb false Accepted false false false true SessionCancelled) false eq_refl)].
  eapply steps_snoc; [|exact (gdb_stop_cancels (mkGdb false Accepted false false false true ListenerClosed) eq_refl)].
  eapply steps_snoc; [|exact (gdb_stop_called (mkGdb true Accepted false false false true NotCalled) eq_refl)].
  eapply steps_snoc; [apply steps_nil|]. exact (gdb_accept gdb_started eq_refl eq_refl).
Qed.
