(* ===== verification/CliRunner.v ===== *)
(** * cli: runners

    cli/internal/envoy/runner.go and cli/internal/version.go: running Envoy on the host, with the
    search path of its dynamic modules and the ext_proc servers, and in a container, with the
    arguments of docker and those of the command inside.  Envoy and the processes that are
    started are parameters; what is started and stopped is a list of events. *)

From S2P Require Import Prelude GoStr GoNum GoPath GoFS SSELines GoCodec GoJson CliPackage CliManifest CliCache CliDownload CliExtension CliConfig CliLogs CliFlags CliRun CliDebug.
From Stdlib Require Import Lia Ascii.

Local Open Scope Z_scope.
Local Open Scope go_scope.

(** ** The version of the tool *)

Record VersionInfo : Type := mkVersion { ClosestTag : string; CommitsAhead : Z; Sha : string }.
Definition no_version : VersionInfo := mkVersion "" 0 "".

Definition dash : ascii := "-"%char.

(** [parseGit]; [None] is the slice of an empty last part, which panics. *)
Definition parseGit (v : string) : option VersionInfo :=
  let parts := Split v dash in
  let l := length parts in
  if (l <? 3)%nat then Some no_version
  else match Atoi (default "" (parts !! (l - 2)%nat)) with
  | None => Some no_version
  | Some commits =>
      match default "" (last parts) with
      | EmptyString => None
      | String _ sha => Some (mkVersion (Join (take (l - 2) parts) "-") commits sha)
      end
  end.

Definition version_String (v : VersionInfo) : string :=
  if bool_decide (ClosestTag v = "" /\ CommitsAhead v = 0 /\ Sha v = "") then "dev"
  else if negb (CommitsAhead v =? 0) then Sha v +:+ " (" +:+ ClosestTag v +:+ ", +" +:+ FormatInt (CommitsAhead v) +:+ ")"
  else ClosestTag v.

(** ** Dynamic modules *)

Inductive RunnerError : Type :=
| RunnerPanic
| RunnerConfig (e : ConfigError)
| RunnerDisk
| RunnerNoLibrary (path name : string)
| RunnerLink (name : string)
| RunnerNoBinary (name : string)
| RunnerServerStart (name : string)
| RunnerServerReady (name : string)
| RunnerDebug (e : DebugError)
| RunnerEnvoy (reason : string).

(** Extensions that Envoy loads itself. *)
Definition loaded_by_envoy (m : Manifest) : bool :=
  bool_decide (m_Type m = TypeRust) || (bool_decide (m_Type m = TypeGo) && CShared m).
Definition loaded_by_composer (m : Manifest) : bool := bool_decide (m_Type m = TypeGo) && negb (CShared m).

Definition link_path (tempDir libPath : string) : string := JoinAll [tempDir; Base libPath].

(** The loop over the extensions: the links, and the composer version of the plugins. *)
Fixpoint link_modules (dirs : Directories) (tempDir : string) (exts : list Manifest) (composerVersion : string) (fs : FileSystem)
    : FileSystem * result RunnerError string :=
  match exts with
  | [] => (fs, Ok composerVersion)
  | ext :: rest =>
      if loaded_by_composer ext then link_modules dirs tempDir rest (ComposerVersion ext) fs
      else if loaded_by_envoy ext then
        let libPath := LocalCacheExtension dirs ext in
        if negb (exists_path fs libPath) then (fs, Err (RunnerNoLibrary libPath (Name ext)))
        else if exists_path fs (link_path tempDir libPath) then link_modules dirs tempDir rest composerVersion fs
        else match Symlink fs libPath (clean_segs (link_path tempDir libPath)) with
        | Some fs' => link_modules dirs tempDir rest composerVersion fs'
        | None => (fs, Err (RunnerLink (Name ext)))
        end
      else link_modules dirs tempDir rest composerVersion fs
  end.

(** The loader of the plugins. *)
Definition link_composer (dirs : Directories) (tempDir composerVersion : string) (fs : FileSystem) : FileSystem * result RunnerError () :=
  if bool_decide (composerVersion = "") then (fs, Ok ())
  else
    let composerPath := LocalCacheComposerLiteLib dirs composerVersion in
    if exists_path fs (link_path tempDir composerPath) then (fs, Ok ())
    else if exists_path fs composerPath then
      match Symlink fs composerPath (clean_segs (link_path tempDir composerPath)) with
      | Some fs' => (fs', Ok ())
      | None => (fs, Err (RunnerLink "libcomposer-lite"))
      end
    else (fs, Ok ()).

(** [setupDynamicModuleSearchPath]: the directory, which is removed again on an error. *)
Definition setupDynamicModuleSearchPath (rand : string) (dirs : Directories) (exts : list Manifest) (fs : FileSystem)
    : FileSystem * result RunnerError string :=
  match MkdirAll fs (clean_segs (RuntimeDir dirs)) with
  | (fs1, false) => (fs1, Err RunnerDisk)
  | (fs1, true) =>
      match MkdirTemp rand fs1 (RuntimeDir dirs) "boe-dynamic-modules-" with
      | None => (fs1, Err RunnerDisk)
      | Some (fs2, tempDir) =>
          match link_modules dirs tempDir exts "" fs2 with
          | (fs3, Err e) => (RemoveAll fs3 tempDir, Err e)
          | (fs3, Ok composerVersion) =>
              match link_composer dirs tempDir composerVersion fs3 with
              | (fs4, Err e) => (RemoveAll fs4 tempDir, Err e)
              | (fs4, Ok _) => (fs4, Ok tempDir)
              end
          end
      end
  end.

(** ** External processors *)

Record Server : Type := mkServer { sv_name : string; sv_binary : string; sv_port : Z }.

Record Launch : Type := mkLaunch { ln_args : list string; ln_search_path : string; ln_godebug : string }.

Inductive Event : Type :=
| EvStarted (s : Server)
| EvSignalled (s : Server)
| EvEnvoy (l : Launch) (fs : FileSystem)
| EvDebugStopped.

Definition server_args (s : Server) : list string := ["--port"; FormatInt (sv_port s)].

(** [stopExtProcServers]. *)
Definition stopExtProcServers (cmds : list Server) : list Event := EvSignalled <$> cmds.

Section Processes.
(** Whether a process starts, and whether it accepts connections in time. *)
Context (starts ready : Server -> bool).

(** [startExtProcServers], with the servers started so far. *)
Fixpoint start_servers (exts : list Manifest) (binaries : gmap string string) (cmds : list Server) : list Event * result RunnerError (list Server) :=
  match exts with
  | [] => ([], Ok cmds)
  | ext :: rest =>
      if negb (bool_decide (m_Type ext = TypeExtProc)) then start_servers rest binaries cmds
      else match binaries !! Name ext with
      | None => ([], Err (RunnerNoBinary (Name ext)))
      | Some binPath =>
          match m_ExtProc ext with
          | None => ([], Err RunnerPanic)
          | Some ep =>
              let s := mkServer (Name ext) binPath (if GRPCPort ep =? 0 then 50051 else GRPCPort ep) in
              if negb (starts s) then (stopExtProcServers cmds, Err (RunnerServerStart (Name ext)))
              else
                let cmds := cmds ++ [s] in
                if negb (ready s) then (EvStarted s :: stopExtProcServers cmds, Err (RunnerServerReady (Name ext)))
                else let '(evs, r) := start_servers rest binaries cmds in (EvStarted s :: evs, r)
          end
      end
  end.
Definition startExtProcServers (exts : list Manifest) (binaries : gmap string string) : list Event * result RunnerError (list Server) :=
  start_servers exts binaries [].

(** ** On the host *)

Record RunnerFuncE : Type := mkRunner {
  rf_Params : ConfigGenerationParams;
  rf_DefaultLogLevel : string;
  rf_ComponentLogLevel : string;
  rf_LogFormat : string;
  rf_ExtProcBinaries : gmap string string;
  rf_Debug : option DebugOptions;
}.

(** The rendering of the configuration, the debug server, the name of the temporary directory,
    the environment, and Envoy itself. *)
Context (render : ConfigGenerationParams -> result ConfigError string) (resolve_debug : DebugOptions -> FileSystem -> FileSystem * result DebugError string).
Context (rand godebug_env : string) (envoy : Launch -> FileSystem -> FileSystem * option string).

Definition godebug_settings (d : option DebugOptions) : list string :=
  "cgocheck=0" :: match d with Some d => if bool_decide (db_Debugger d = DebuggerDelve) then ["asyncpreemptoff=1"] else [] | None => [] end.

Definition envoy_args (r : RunnerFuncE) (config : string) : list string :=
  ["--config-yaml"; config; "--log-level"; rf_DefaultLogLevel r; "--use-dynamic-base-id"] ++
  (if bool_decide (rf_ComponentLogLevel r = "") then [] else ["--component-log-level"; rf_ComponentLogLevel r]) ++
  (if bool_decide (rf_LogFormat r = "") then [] else ["--log-format"; rf_LogFormat r]).

(** Everything after the servers have started: the debug server and Envoy. *)
Definition run_envoy (r : RunnerFuncE) (l : Launch) (fs : FileSystem) : FileSystem * list Event * option RunnerError :=
  let launched fs := let '(fs', e) := envoy l fs in (fs', [EvEnvoy l fs], RunnerEnvoy <$> e) in
  match rf_Debug r with
  | None => launched fs
  | Some d =>
      match resolve_debug d fs with
      | (fs1, Err e) => (fs1, [], Some (RunnerDebug e))
      | (fs1, Ok _) => let '(fs2, evs, e) := launched fs1 in (fs2, evs ++ [EvDebugStopped], e)
      end
  end.

(** [RunnerFuncE.Run]; what is deferred runs last. *)
Definition RunnerFuncE_Run (r : RunnerFuncE) (fs : FileSystem) : FileSystem * list Event * option RunnerError :=
  match render (rf_Params r) with
  | Err e => (fs, [], Some (RunnerConfig e))
  | Ok config =>
      match setupDynamicModuleSearchPath rand (Dirs (rf_Params r)) (Extensions (rf_Params r)) fs with
      | (fs1, Err e) => (fs1, [], Some e)
      | (fs1, Ok searchPath) =>
          match startExtProcServers (Extensions (rf_Params r)) (rf_ExtProcBinaries r) with
          | (evs, Err e) => (RemoveAll fs1 searchPath, evs, Some e)
          | (evs, Ok cmds) =>
              let l := mkLaunch (envoy_args r config) searchPath (mergeGODEBUG godebug_env (godebug_settings (rf_Debug r))) in
              let '(fs2, evs2, e) := run_envoy r l fs1 in
              (RemoveAll fs2 searchPath, evs ++ evs2 ++ stopExtProcServers cmds, e)
          end
      end
  end.
End Processes.

(** ** Every module is found *)

(** The library of a module that Envoy loads. *)
Definition module_library (m : Manifest) : string := "lib" +:+ ModuleName m +:+ ".so".

Lemma slash_free_library n : slash_free n -> plain_seg ("lib" +:+ n +:+ ".so") /\ slash_free ("lib" +:+ n +:+ ".so").
Proof. intros Hn. split; [by repeat split|]. unfold slash_free in *. by rewrite !ContainsByte_app, Hn. Qed.

Lemma module_library_Base dirs m :
  is_rooted (DataHome dirs) = true -> slash_free (ModuleName m) -> loaded_by_envoy m = true -> Base (LocalCacheExtension dirs m) = module_library m.
Proof.
  intros Hr Hn Hl. destruct (slash_free_library _ Hn) as [Hp Hf].
  assert (E : library_name m = module_library m).
  { unfold library_name. unfold loaded_by_envoy in Hl. apply orb_true_iff in Hl as [Ht%bool_decide_eq_true|[Ht%bool_decide_eq_true Hc]%andb_true_iff]; [by rewrite Ht|by rewrite Ht, Hc]. }
  unfold LocalCacheExtension. rewrite E. apply Base_JoinAll; [|done..]. rewrite LocalCacheExtensionDir_slot. by apply JoinAll_rooted.
Qed.

Section SearchPath.
Context (dirs : Directories) (tempDir : string).
Let t : list string := clean_segs tempDir.
Hypothesis (Hroot : is_rooted (DataHome dirs) = true) (Htemp : is_rooted tempDir = true).

(** The temporary directory: reached without links, and with links to libraries only. *)
Definition temp_ok (exts : list Manifest) (fs : FileSystem) : Prop :=
  linkless fs [] t /\
  (forall x n, fs !! (t ++ [x]) = Some n ->
     exists m, m ∈ exts /\ loaded_by_envoy m = true /\ x = module_library m /\ n = NLink (LocalCacheExtension dirs m)) /\
  (forall m, m ∈ exts -> loaded_by_envoy m = true -> is_Some (fs !! (t ++ [module_library m]))).

Lemma link_segs lib : plain_seg lib -> slash_free lib -> clean_segs (JoinAll [tempDir; lib]) = t ++ [lib].
Proof. intros Hp Hf. assert (Hb : tempDir <> "") by (by intros E; rewrite E in Htemp). apply JoinAll_segs; rewrite ?Forall_singleton; done. Qed.

Lemma linkless_snoc fs x : linkless fs [] t -> (forall target, fs !! (t ++ [x]) <> Some (NLink target)) -> linkless fs [] (t ++ [x]).
Proof. intros Hl Hx pre target [Hp| ->]%prefix_snoc_inv; [by apply Hl|apply Hx]. Qed.

Lemma exists_link fs lib :
  plain_seg lib -> slash_free lib -> linkless fs [] t -> exists_path fs (JoinAll [tempDir; lib]) = true -> is_Some (fs !! (t ++ [lib])).
Proof.
  intros Hp Hf Hl He. destruct (fs !! (t ++ [lib])) as [n|] eqn:Hn; [by eexists|]. exfalso. apply bool_decide_eq_true in He as [n He].
  rewrite link_segs in He by done. unfold Stat in He. destruct (resolve fs (t ++ [lib])) as [q|] eqn:Hr; [|done].
  apply follow_linkless in Hr as ->.
  - cbn [app] in He. destruct (t ++ [lib]) eqn:E; [by destruct t|]. cbn [node_at] in He. congruence.
  - apply Forall_app. split; [by apply clean_segs_plain|by apply Forall_singleton].
  - apply linkless_snoc; [done|]. congruence.
Qed.

Lemma temp_ok_skip exts m fs : loaded_by_envoy m = false -> temp_ok exts fs -> temp_ok (exts ++ [m]) fs.
Proof.
  intros Hm (H1 & H2 & H3). split_and!; [done|..].
  - intros x n Hx. destruct (H2 x n Hx) as (m' & Hin & ?). exists m'. split; [by apply elem_of_app; left|done].
  - intros m' [Hin| ->%list_elem_of_singleton]%elem_of_app Hl; [by apply H3|congruence].
Qed.

Lemma temp_ok_present exts m fs : is_Some (fs !! (t ++ [module_library m])) -> temp_ok exts fs -> temp_ok (exts ++ [m]) fs.
Proof.
  intros Hm (H1 & H2 & H3). split_and!; [done|..].
  - intros x n Hx. destruct (H2 x n Hx) as (m' & Hin & ?). exists m'. split; [by apply elem_of_app; left|done].
  - intros m' [Hin| ->%list_elem_of_singleton]%elem_of_app Hl; [by apply H3|done].
Qed.

Lemma new_link fs lib target fs' :
  plain_seg lib -> slash_free lib -> linkless fs [] t -> Symlink fs target (clean_segs (JoinAll [tempDir; lib])) = Some fs' ->
  fs' = <[t ++ [lib] := NLink target]> fs /\ fs !! (t ++ [lib]) = None.
Proof.
  intros Hp Hf Hl Hs. rewrite link_segs in Hs by done. unfold Symlink, create_at, in_directory in Hs. rewrite last_snoc, parent_snoc in Hs.
  destruct (resolve fs t) as [d|] eqn:Hr; [|done]. apply follow_linkless in Hr as ->; [|by apply clean_segs_plain|done]. cbn [app] in Hs.
  destruct (node_at fs t) as [[]|]; try done. destruct (node_at fs (t ++ [lib])) eqn:Hn; [done|]. injection Hs as <-. split; [done|].
  destruct (t ++ [lib]) eqn:E; [by destruct t|]. done.
Qed.

Lemma linkless_insert_below fs x n : linkless fs [] t -> linkless (<[t ++ [x] := n]> fs) [] t.
Proof.
  intros Hl pre target Hp. cbn [app]. rewrite lookup_insert_ne; [by apply Hl|]. intros E. rewrite <- E in Hp.
  apply prefix_length in Hp. rewrite length_app in Hp. cbn in Hp. lia.
Qed.

Lemma temp_ok_linked exts m fs :
  loaded_by_envoy m = true -> temp_ok exts fs -> temp_ok (exts ++ [m]) (<[t ++ [module_library m] := NLink (LocalCacheExtension dirs m)]> fs).
Proof.
  intros Hm (H1 & H2 & H3). split_and!; [by apply linkless_insert_below|..].
  - intros x n. destruct (decide (t ++ [x] = t ++ [module_library m])) as [E|Hne].
    + rewrite E, lookup_insert_eq. intros [= <-]. apply app_inv_head in E as [= ->]. exists m. split_and!; [apply elem_of_app; right; by left|done..].
    + rewrite lookup_insert_ne by done. intros Hx. destruct (H2 x n Hx) as (m' & Hin & ?). exists m'. split; [by apply elem_of_app; left|done].
  - intros m' Hin Hl. destruct (decide (t ++ [module_library m'] = t ++ [module_library m])) as [->|Hne]; [by rewrite lookup_insert_eq|].
    rewrite lookup_insert_ne by done. apply elem_of_app in Hin as [Hin| ->%list_elem_of_singleton]; [by apply H3|done].
Qed.

(** The composer version that is left by the loop. *)
Definition plugin_version (exts : list Manifest) (v : string) : string :=
  foldl (fun v m => if loaded_by_composer m then ComposerVersion m else v) v exts.

Lemma composer_not_envoy m : loaded_by_composer m = true -> loaded_by_envoy m = false.
Proof.
  unfold loaded_by_composer, loaded_by_envoy. intros [->%bool_decide_eq_true Hc%negb_true_iff]%andb_true_iff. by rewrite Hc.
Qed.

Lemma link_modules_ok exts before fs cv fs' cv' :
  Forall (fun m => slash_free (ModuleName m)) exts -> temp_ok before fs -> link_modules dirs tempDir exts cv fs = (fs', Ok cv') ->
  temp_ok (before ++ exts) fs' /\ cv' = plugin_version exts cv /\ grows fs fs'.
Proof.
  revert before fs cv. induction exts as [|m exts IH]; intros before fs cv Hn Hok; cbn [link_modules plugin_version foldl].
  { intros [= <- <-]. rewrite app_nil_r. split_and!; [done..|apply grows_refl]. }
  apply Forall_cons in Hn as [Hm Hn]. replace (before ++ m :: exts) with ((before ++ [m]) ++ exts) by (by rewrite <- app_assoc).
  destruct (loaded_by_composer m) eqn:Hc; [apply IH; [done|by apply temp_ok_skip; [apply composer_not_envoy|]]|].
  destruct (loaded_by_envoy m) eqn:He; [|apply IH; [done|by apply temp_ok_skip]].
  destruct (negb (exists_path fs (LocalCacheExtension dirs m))); [done|]. unfold link_path. rewrite (module_library_Base dirs m) by done.
  destruct (slash_free_library _ Hm) as [Hp Hf]. pose proof Hok as (Hl & H2 & H3).
  destruct (exists_path fs (JoinAll [tempDir; module_library m])) eqn:Hex.
  - apply IH; [done|]. apply temp_ok_present; [by apply exists_link|done].
  - destruct (Symlink _ _ _) as [fs1|] eqn:Hs; [|done].
    apply new_link in Hs as [-> Hnone]; [|done..]. intros Hr. apply (IH (before ++ [m])) in Hr as (? & ? & ?); [|done|by apply temp_ok_linked].
    split_and!; [done..|]. eapply grows_trans; [by apply grows_insert|done].
Qed.
End SearchPath.

Lemma clean_segs_child dir name :
  dir <> "" -> plain_seg name -> slash_free name -> clean_segs (dir +:+ "/" +:+ name) = clean_segs dir ++ [name].
Proof.
  intros Hd Hp Hf. destruct (JoinAll_segs dir [name]) as (_ & _ & E); [done|by apply Forall_singleton..|]. rewrite <- E.
  cbn [JoinAll]. rewrite decide_False by done. unfold Join. cbn [String.concat]. symmetry. apply clean_segs_Clean. by destruct dir.
Qed.

(** The temporary directory of a run. *)
Definition modules_dir (rand : string) (dirs : Directories) : string := RuntimeDir dirs +:+ "/" +:+ "boe-dynamic-modules-" +:+ rand.

Lemma setup_spec rand dirs exts fs fs' dir (t := clean_segs (modules_dir rand dirs)) :
  is_rooted (DataHome dirs) = true -> is_rooted (RuntimeDir dirs) = true -> HasSuffix (RuntimeDir dirs) "/" = false ->
  slash_free rand -> Forall (fun m => slash_free (ModuleName m)) exts ->
  linkless fs [] (clean_segs (RuntimeDir dirs)) -> (forall q, t `prefix_of` q -> fs !! q = None) ->
  setupDynamicModuleSearchPath rand dirs exts fs = (fs', Ok dir) ->
  dir = modules_dir rand dirs /\
  exists fs3, temp_ok dirs dir exts fs3 /\ grows fs fs3 /\ link_composer dirs dir (plugin_version exts "") fs3 = (fs', Ok ()).
Proof.
  intros Hdata Hrun Hsuf Hrand Hexts Hlink Hfresh. unfold setupDynamicModuleSearchPath.
  assert (Hne : RuntimeDir dirs <> "") by (by intros E; rewrite E in Hrun).
  assert (Hname : plain_seg ("boe-dynamic-modules-" +:+ rand) /\ slash_free ("boe-dynamic-modules-" +:+ rand)).
  { split; [by repeat split|]. unfold slash_free in *. by rewrite ContainsByte_app, Hrand. }
  assert (Ht : t = clean_segs (RuntimeDir dirs) ++ ["boe-dynamic-modules-" +:+ rand]) by (by apply clean_segs_child).
  pose proof (clean_segs_plain _ Hrun) as Hplain.
  pose proof (MkdirAll_linkless fs (clean_segs (RuntimeDir dirs)) Hplain Hlink) as Hod. pose proof (MkdirAll_grows fs (clean_segs (RuntimeDir dirs))) as Hg1.
  destruct (MkdirAll fs (clean_segs (RuntimeDir dirs))) as [fs1 []]; [|done]. cbn [fst] in Hod, Hg1.
  assert (Hfresh1 : forall q, t `prefix_of` q -> fs1 !! q = None).
  { intros q Hq. destruct (Hod q) as [->|(Hp & _)]; [by apply Hfresh|]. exfalso. rewrite Ht in Hq. apply prefix_length in Hq, Hp.
    rewrite length_app in Hq. cbn in Hq. lia. }
  assert (Hl1 : linkless fs1 [] t).
  { intros pre target Hp. cbn [app]. rewrite Ht in Hp. apply prefix_snoc_inv in Hp as [Hp| ->]; [by apply (only_dirs_linkless _ _ _ _ _ Hod Hlink)|].
    rewrite <- Ht. by rewrite Hfresh1. }
  unfold MkdirTemp. rewrite Hsuf. fold (modules_dir rand dirs). fold t. destruct (Mkdir fs1 t) as [fs2|] eqn:Hmk; [|done].
  assert (Htp : Forall plain_seg t) by (rewrite Ht; apply Forall_app; split; [done|by apply Forall_singleton]).
  apply create_at_linkless in Hmk as [-> Hnone]; [|done..].
  destruct (link_modules _ _ _ _ _) as [fs3 [cv|e]] eqn:Hlm; [|done]. destruct (link_composer _ _ _ _) as [fs4 [[]|e]] eqn:Hlc; [|done].
  intros [= <- <-]. split; [done|]. exists fs3.
  assert (Hr : is_rooted (modules_dir rand dirs) = true) by (unfold modules_dir; by rewrite is_rooted_app).
  apply (link_modules_ok dirs (modules_dir rand dirs) Hdata Hr exts []) in Hlm as (H1 & -> & H3); [|done|].
  - split_and!; [done| |done]. eapply grows_trans; [exact Hg1|]. eapply grows_trans; [|exact H3]. apply grows_insert. by apply Hfresh1.
  - fold t. assert (Hfr : forall x, <[t := NDir]> fs1 !! (t ++ [x]) = None).
    { intros x. rewrite lookup_insert_ne by (intros E; apply (f_equal length) in E; rewrite length_app in E; cbn in E; lia).
      apply Hfresh1. by exists [x]. }
    split_and!; [|intros x n Hx; fold t in Hx; by rewrite Hfr in Hx|by intros m ?%elem_of_nil].
    intros pre target Hp. cbn [app]. fold t in Hp. destruct (decide (t = pre)) as [<-|Hpn]; [by rewrite lookup_insert_eq|].
    rewrite lookup_insert_ne by done. by apply Hl1.
Qed.

Lemma str_app_inj_r (a b c : string) : a +:+ c = b +:+ c -> a = b.
Proof.
  revert b. induction a as [|x a IH]; intros [|y b]; cbn; [done|..].
  - intros E. apply (f_equal String.length) in E. cbn in E. rewrite str_length_app in E. lia.
  - intros E. apply (f_equal String.length) in E. cbn in E. rewrite str_length_app in E. lia.
  - intros [= -> ?%IH]. by subst.
Qed.

Lemma module_library_inj m m' : module_library m = module_library m' -> ModuleName m = ModuleName m'.
Proof. unfold module_library. intros H%(inj (String.append "lib")). by apply str_app_inj_r in H. Qed.

Lemma composer_lib_Base dirs v : is_rooted (DataHome dirs) = true -> Base (LocalCacheComposerLiteLib dirs v) = "libcomposer-lite.so".
Proof. intros Hr. apply Base_JoinAll; [|by repeat split|done]. by apply JoinAll_rooted. Qed.

Lemma module_library_composer m : module_library m = "libcomposer-lite.so" -> ModuleName m = "composer-lite".
Proof.
  unfold module_library. change "libcomposer-lite.so" with ("lib" +:+ "composer-lite" +:+ ".so").
  intros H%(inj (String.append "lib")). by apply str_app_inj_r in H.
Qed.

(** What is linked under a name of the search path. *)
Definition module_link (dirs : Directories) (exts : list Manifest) (x target : string) : Prop :=
  exists m, m ∈ exts /\ loaded_by_envoy m = true /\ x = "lib" +:+ ModuleName m +:+ ".so" /\ target = LocalCacheExtension dirs m.
Definition composer_link (dirs : Directories) (v x target : string) : Prop :=
  x = "libcomposer-lite.so" /\ v <> "" /\ target = LocalCacheComposerLiteLib dirs v.

Lemma link_composer_spec dirs dir exts v fs fs' (t := clean_segs dir) :
  is_rooted (DataHome dirs) = true -> is_rooted dir = true -> temp_ok dirs dir exts fs -> link_composer dirs dir v fs = (fs', Ok ()) ->
  grows fs fs' /\
  (forall x n, fs' !! (t ++ [x]) = Some n ->
     exists target, n = NLink target /\ (module_link dirs exts x target \/ composer_link dirs v x target)) /\
  (v <> "" -> exists_path fs (LocalCacheComposerLiteLib dirs v) = true -> is_Some (fs' !! (t ++ ["libcomposer-lite.so"]))).
Proof.
  intros Hdata Hdir (Hl & H2 & H3).
  assert (Hold : forall x n, fs !! (t ++ [x]) = Some n -> exists target, n = NLink target /\ (module_link dirs exts x target \/ composer_link dirs v x target)).
  { intros x n Hx. destruct (H2 x n Hx) as (m & Hm & He & -> & ->). eexists. split; [done|]. left. by exists m. }
  unfold link_composer. case_bool_decide as Hv; [intros [= <-]; split; [apply grows_refl|done]|].
  unfold link_path. rewrite composer_lib_Base by done. set (lib := "libcomposer-lite.so").
  assert (Hp : plain_seg lib /\ slash_free lib) by (by repeat split). destruct Hp as [Hp Hf].
  destruct (exists_path fs (JoinAll [dir; lib])) eqn:He.
  { intros [= <-]. split; [apply grows_refl|]. split; [done|]. intros _ _. exact (exists_link dir Hdir fs lib Hp Hf Hl He). }
  destruct (exists_path fs (LocalCacheComposerLiteLib dirs v)) eqn:Hc; [|intros [= <-]; split; [apply grows_refl|done]].
  destruct (Symlink _ _ _) as [fs1|] eqn:Hs; [|done]. intros [= <-]. split; [by eapply create_at_grows|].
  apply (new_link dir Hdir) in Hs as [-> _]; [|done..]. fold t. split; [|intros _ _; rewrite lookup_insert_eq; by eexists].
  intros x n. destruct (decide (x = lib)) as [->|Hne].
  - rewrite lookup_insert_eq. intros [= <-]. eexists. split; [done|]. by right.
  - rewrite lookup_insert_ne by (intros E%app_inv_head; congruence). apply Hold.
Qed.

(** C30: After the search path is set up, every module that Envoy loads itself is linked there under
    the name its filters refer to, to the library of an extension of that module in the cache.
    If some extension is a plugin and the composer-lite of the version that the last plugin names
    is in the cache, there is a link of the composer's name too.  There is nothing else: every
    name is such a link of a module, or the composer's, which leads to the composer-lite of that
    version unless an extension is itself the module composer-lite.  A composer that a debug run
    built in a slot of its own is not looked for. *)
Theorem search_path_complete rand dirs exts fs fs' dir (t := clean_segs (modules_dir rand dirs)) (v := plugin_version exts "") :
  is_rooted (DataHome dirs) = true -> is_rooted (RuntimeDir dirs) = true -> HasSuffix (RuntimeDir dirs) "/" = false ->
  slash_free rand -> Forall (fun m => slash_free (ModuleName m)) exts ->
  linkless fs [] (clean_segs (RuntimeDir dirs)) -> (forall q, t `prefix_of` q -> fs !! q = None) ->
  setupDynamicModuleSearchPath rand dirs exts fs = (fs', Ok dir) ->
  clean_segs dir = t /\
  (forall m, m ∈ exts -> loaded_by_envoy m = true ->
     exists m', m' ∈ exts /\ loaded_by_envoy m' = true /\ ModuleName m' = ModuleName m /\
       fs' !! (t ++ ["lib" +:+ mc_Name (module_config m) +:+ ".so"]) = Some (NLink (LocalCacheExtension dirs m'))) /\
  (v <> "" -> exists_path fs (LocalCacheComposerLiteLib dirs v) = true ->
     exists target, fs' !! (t ++ ["libcomposer-lite.so"]) = Some (NLink target) /\
       (target = LocalCacheComposerLiteLib dirs v \/
        exists m, m ∈ exts /\ loaded_by_envoy m = true /\ ModuleName m = "composer-lite" /\ target = LocalCacheExtension dirs m)) /\
  (forall x n, fs' !! (t ++ [x]) = Some n ->
     exists target, n = NLink target /\ (module_link dirs exts x target \/ composer_link dirs v x target)).
Proof.
  intros Hdata Hrun Hsuf Hrand Hexts Hlink Hfresh Hs.
  apply setup_spec in Hs as (-> & fs3 & Hok & Hg & Hlc); [|done..]. fold t. split; [done|].
  assert (Hr : is_rooted (modules_dir rand dirs) = true) by (unfold modules_dir; rewrite is_rooted_app; [done|by intros E; rewrite E in Hrun]).
  destruct (link_composer_spec _ _ _ _ _ _ Hdata Hr Hok Hlc) as (Hg' & Honly & Hcomp). fold t v in Honly, Hcomp. split; [|split; [|exact Honly]].
  - intros m Hm He. destruct Hok as (_ & H2 & H3). fold t in H2, H3. destruct (H3 m Hm He) as [n Hn]. destruct (H2 _ _ Hn) as (m' & Hm' & He' & E & ->).
    exists m'. split_and!; [done..|by symmetry; apply module_library_inj|]. apply Hg' in Hn. exact Hn.
  - intros Hv Hex. destruct Hcomp as [n Hn]; [done|by eapply exists_path_grows|]. destruct (Honly _ _ Hn) as (target & -> & Hlk).
    exists target. split; [done|]. destruct Hlk as [(m & Hm & He & Hx & ->)|(_ & _ & ->)]; [right|by left].
    exists m. split_and!; [done..| |done]. by apply module_library_composer.
Qed.

Definition example_module : Manifest := set_build false true false example_go.
Definition home_dir : list (list string * Node) :=
  [(["home"], NDir); (["home"; "u"], NDir); (["home"; "u"; "share"], NDir); (["home"; "u"; "share"; "boe"], NDir);
   (["home"; "u"; "share"; "boe"; "extensions"], NDir); (["home"; "u"; "share"; "boe"; "extensions"; "dym"], NDir)].
Definition module_fs : FileSystem :=
  list_to_map (home_dir ++
    [(["home"; "u"; "share"; "boe"; "extensions"; "dym"; "example"], NDir); (["home"; "u"; "share"; "boe"; "extensions"; "dym"; "example"; "1.2.0"], NDir);
     (["home"; "u"; "share"; "boe"; "extensions"; "dym"; "example"; "1.2.0"; "libexample.so"], NFile "library")]).

Lemma module_fs_home q n : module_fs !! q = Some n -> head q = Some "home" /\ forall target, n <> NLink target.
Proof.
  intros Hq%elem_of_list_to_map_2. unfold home_dir in Hq. cbn [app] in Hq. rewrite !elem_of_cons, elem_of_nil in Hq.
  repeat (destruct Hq as [[= -> ->]|Hq]; [by split|]). done.
Qed.

Lemma search_path_complete_witness :
  exists m', m' ∈ [example_module] /\ loaded_by_envoy m' = true /\ ModuleName m' = "example" /\
    (setupDynamicModuleSearchPath "1" example_dirs [example_module] module_fs).1 !! ["tmp"; "boe"; "boe-dynamic-modules-1"; "libexample.so"]
      = Some (NLink (LocalCacheExtension example_dirs m')).
Proof.
  assert (E : (setupDynamicModuleSearchPath "1" example_dirs [example_module] module_fs).2 = Ok "/tmp/boe/boe-dynamic-modules-1") by (vm_compute; reflexivity).
  destruct (search_path_complete "1" example_dirs [example_module] module_fs (setupDynamicModuleSearchPath "1" example_dirs [example_module] module_fs).1
    "/tmp/boe/boe-dynamic-modules-1") as (_ & W & _ & _).
  - reflexivity.
  - reflexivity.
  - reflexivity.
  - reflexivity.
  - by apply Forall_singleton.
  - intros pre target Hp Hn. destruct (module_fs_home _ _ Hn) as [_ Hno]. by apply (Hno target).
  - intros q [k ->]. destruct (module_fs !! _) as [n|] eqn:Hn; [|reflexivity]. apply module_fs_home in Hn as [Hh _]. discriminate Hh.
  - rewrite <- E. apply surjective_pairing.
  - apply (W example_module); [by left|reflexivity].
Defined.

(** A debug run of a plugin puts the composer it builds into the slot of debug builds, which is
    not the one that is linked: the search path has no composer. *)
Definition debug_plugin : Manifest := set_build false false true example_go.
Definition debug_fs : FileSystem :=
  list_to_map (home_dir ++
    [(["home"; "u"; "share"; "boe"; "extensions"; "dym"; "composer-lite"], NDir); (["home"; "u"; "share"; "boe"; "extensions"; "dym"; "composer-lite"; "0.9.0-debug"], NDir);
     (["home"; "u"; "share"; "boe"; "extensions"; "dym"; "composer-lite"; "0.9.0-debug"; "libcomposer-lite.so"], NFile "library")]).
Theorem debug_composer_not_linked :
  LocalCacheComposerLiteLib example_dirs (cacheVersion true (ComposerVersion debug_plugin)) = "/home/u/share/boe/extensions/dym/composer-lite/0.9.0-debug/libcomposer-lite.so" /\
  exists_path debug_fs (LocalCacheComposerLiteLib example_dirs (cacheVersion true (ComposerVersion debug_plugin))) = true /\
  (setupDynamicModuleSearchPath "1" example_dirs [debug_plugin] debug_fs).2 = Ok "/tmp/boe/boe-dynamic-modules-1" /\
  (setupDynamicModuleSearchPath "1" example_dirs [debug_plugin] debug_fs).1 !! ["tmp"; "boe"; "boe-dynamic-modules-1"; "libcomposer-lite.so"] = None.
Proof. vm_compute. repeat split. Qed.

(** ** The servers of a run *)

Definition started (evs : list Event) : list Server := omap (fun e => match e with EvStarted s => Some s | _ => None end) evs.
Definition signalled (evs : list Event) : list Server := omap (fun e => match e with EvSignalled s => Some s | _ => None end) evs.

(** The server an ext_proc extension asks for. *)
Definition server_for (binaries : gmap string string) (m : Manifest) : option Server :=
  if bool_decide (m_Type m = TypeExtProc) then
    match binaries !! Name m, m_ExtProc m with
    | Some b, Some ep => Some (mkServer (Name m) b (if GRPCPort ep =? 0 then 50051 else GRPCPort ep))
    | _, _ => None
    end
  else None.
Definition servers_known (binaries : gmap string string) (exts : list Manifest) : Prop :=
  Forall (fun m => m_Type m = TypeExtProc -> is_Some (binaries !! Name m) /\ is_Some (m_ExtProc m)) exts.

Lemma started_stop ss : started (stopExtProcServers ss) = [].
Proof. unfold started, stopExtProcServers. by induction ss. Qed.
Lemma signalled_stop ss : signalled (stopExtProcServers ss) = ss.
Proof. unfold signalled, stopExtProcServers. induction ss as [|s ss IH]; [done|]. cbn. by rewrite IH. Qed.
Lemma started_start ss : started (EvStarted <$> ss) = ss.
Proof. unfold started. induction ss as [|s ss IH]; [done|]. cbn. by rewrite IH. Qed.
Lemma signalled_start ss : signalled (EvStarted <$> ss) = [].
Proof. unfold signalled. by induction ss. Qed.
Lemma started_app a b : started (a ++ b) = started a ++ started b.
Proof. apply omap_app. Qed.
Lemma signalled_app a b : signalled (a ++ b) = signalled a ++ signalled b.
Proof. apply omap_app. Qed.

Section Servers.
Context (starts ready : Server -> bool).

(** The run that ends at once at an ext_proc extension without a binary, or without a
    specification, which panics: the servers of the extensions before it have been started. *)
Definition stuck_at (binaries : gmap string string) (exts : list Manifest) (evs : list Event) (e : RunnerError) : Prop :=
  exists before m after, exts = before ++ m :: after /\ m_Type m = TypeExtProc /\
    (binaries !! Name m = None /\ e = RunnerNoBinary (Name m) \/
     is_Some (binaries !! Name m) /\ m_ExtProc m = None /\ e = RunnerPanic) /\
    evs = EvStarted <$> omap (server_for binaries) before.

Lemma stuck_later binaries exts evs e m :
  stuck_at binaries exts evs e ->
  stuck_at binaries (m :: exts) ((EvStarted <$> omap (server_for binaries) [m]) ++ evs) e.
Proof.
  intros (before & m' & after & -> & Ht & He & ->). exists (m :: before), m', after. split_and!; [done..|].
  cbn. destruct (server_for binaries m); done.
Qed.

Lemma start_servers_spec exts binaries cmds evs r :
  start_servers starts ready exts binaries cmds = (evs, r) ->
  match r with
  | Ok cs => exists ws, cs = cmds ++ ws /\ evs = EvStarted <$> ws /\ ws = omap (server_for binaries) exts /\ Forall (fun s => ready s = true) ws
  | Err e => (signalled evs = cmds ++ started evs \/ stuck_at binaries exts evs e) /\ forall l fs, EvEnvoy l fs ∉ evs
  end.
Proof.
  revert cmds evs r. induction exts as [|m exts IH]; intros cmds evs r; cbn [start_servers].
  { intros [= <- <-]. exists []. by rewrite app_nil_r. }
  destruct (bool_decide (m_Type m = TypeExtProc)) eqn:Ht; cbn [negb].
  2: { assert (Hn : server_for binaries m = None) by (unfold server_for; by rewrite Ht).
       intros Hs. specialize (IH _ _ _ Hs). destruct r as [cs|e]; [cbn; by rewrite Hn|]. destruct IH as [[?|Hst] ?]; [by split; [left|]|].
       split; [|done]. right. apply (stuck_later _ _ _ _ m) in Hst. cbn in Hst. by rewrite Hn in Hst. }
  destruct (binaries !! Name m) as [b|] eqn:Hb; [destruct (m_ExtProc m) as [ep|] eqn:Hep|];
    apply bool_decide_eq_true in Ht as Ht'.
  2-3: intros [= <- <-]; (split; [right; exists [], m, exts; naive_solver|by intros l fs ?%elem_of_nil]).
  set (s := mkServer _ _ _).
  assert (Hsv : server_for binaries m = Some s) by (unfold server_for; by rewrite Ht, Hb, Hep).
  assert (Hstop : forall ss l fs, EvEnvoy l fs ∉ stopExtProcServers ss) by (by intros ss l fs (? & ? & _)%list_elem_of_fmap).
  destruct (starts s); cbn [negb]; [|intros [= <- <-]; rewrite signalled_stop, started_stop, app_nil_r; by split; [left|]].
  destruct (ready s) eqn:Hr; cbn [negb].
  - destruct (start_servers starts ready exts binaries (cmds ++ [s])) as [evs' r'] eqn:Hs. intros [= <- <-]. specialize (IH _ _ _ Hs).
    destruct r' as [cs|e].
    + destruct IH as (ws & -> & -> & Hws & HF). exists (s :: ws). cbn. rewrite <- app_assoc, <- Hws, Hsv. by split_and!; [..|constructor].
    + destruct IH as [IH1 IH2]. split.
      * destruct IH1 as [IH1|Hst]; [left|right].
        -- cbn. fold (signalled evs') (started evs'). rewrite IH1. by rewrite <- app_assoc.
        -- apply (stuck_later _ _ _ _ m) in Hst. cbn in Hst. by rewrite Hsv in Hst.
      * intros l fs [?|?]%elem_of_cons; [done|]. by eapply IH2.
  - intros [= <- <-]. split; [left; cbn; fold (signalled (stopExtProcServers (cmds ++ [s]))) (started (stopExtProcServers (cmds ++ [s])));
      by rewrite signalled_stop, started_stop|]. intros l fs [?|?]%elem_of_cons; [done|]. by eapply Hstop.
Qed.

(** Servers are only started for extensions with a binary and a specification. *)
Lemma start_servers_Ok exts binaries cmds evs cs :
  start_servers starts ready exts binaries cmds = (evs, Ok cs) -> servers_known binaries exts.
Proof.
  revert cmds evs. induction exts as [|m exts IH]; intros cmds evs; cbn [start_servers]; [by constructor|].
  case_bool_decide as Ht; cbn [negb]; [|intros Hs; constructor; [done|by eapply IH]].
  destruct (binaries !! Name m) eqn:Hb; [|done]. destruct (m_ExtProc m) eqn:Hep; [|done]. destruct (starts _); [|done]. destruct (ready _); [|done]. cbn [negb].
  destruct (start_servers starts ready exts binaries _) as [evs' r'] eqn:Hs. intros [= <- ->]. constructor; [|by eapply IH]. intros _. split; by eexists.
Qed.

Lemma start_servers_quiet exts binaries cmds l fs : EvEnvoy l fs ∉ (start_servers starts ready exts binaries cmds).1.
Proof.
  assert (Hstop : forall ss, EvEnvoy l fs ∉ stopExtProcServers ss) by (by intros ss (? & ? & _)%list_elem_of_fmap).
  revert cmds. induction exts as [|m exts IH]; intros cmds; cbn [start_servers]; [apply not_elem_of_nil|].
  case_bool_decide; cbn [negb]; [|done]. destruct (binaries !! Name m); [|apply not_elem_of_nil]. destruct (m_ExtProc m); [|apply not_elem_of_nil].
  destruct (starts _); cbn [negb fst]; [|done]. destruct (ready _); cbn [negb fst].
  - specialize (IH (cmds ++ [mkServer (Name m) s (if GRPCPort e =? 0 then 50051 else GRPCPort e)])). destruct (start_servers starts ready exts binaries _) as [evs' r']. cbn [fst] in *.
    by intros [?|?]%elem_of_cons.
  - intros [?|?]%elem_of_cons; [done|by eapply Hstop].
Qed.

Context (render : ConfigGenerationParams -> result ConfigError string) (resolve_debug : DebugOptions -> FileSystem -> FileSystem * result DebugError string).
Context (rand godebug_env : string) (envoy : Launch -> FileSystem -> FileSystem * option string).

Lemma run_envoy_events r l fs fs' evs e :
  run_envoy resolve_debug envoy r l fs = (fs', evs, e) ->
  started evs = [] /\ signalled evs = [] /\ forall l' fs1, EvEnvoy l' fs1 ∈ evs -> l' = l /\ exists dbg, evs = EvEnvoy l' fs1 :: dbg /\ forall l2 fs2, EvEnvoy l2 fs2 ∉ dbg.
Proof.
  unfold run_envoy. destruct (rf_Debug r) as [d|].
  - destruct (resolve_debug d fs) as [fs1 [p|e1]]; [|intros [= <- <- <-]; split_and!; [done..|by intros l' fs2 ?%elem_of_nil]].
    destruct (envoy l fs1) as [fs2 oe]. intros [= <- <- <-]. split_and!; [done..|]. cbn [app]. intros l' fs3 [[= -> ->]|[?|?%elem_of_nil]%elem_of_cons]%elem_of_cons; [|done..].
    split; [done|]. exists [EvDebugStopped]. split; [done|]. by intros l2 fs2' [?|?%elem_of_nil]%elem_of_cons.
  - destruct (envoy l fs) as [fs2 oe]. intros [= <- <- <-]. split_and!; [done..|]. intros l' fs3 [[= -> ->]|?%elem_of_nil]%elem_of_cons; [|done].
    split; [done|]. exists []. split; [done|]. by intros l2 fs2' ?%elem_of_nil.
Qed.

Lemma godebug_cgocheck d : setting (mergeGODEBUG godebug_env (godebug_settings d)) "cgocheck" = Some "cgocheck=0".
Proof.
  rewrite godebug_merged; [|done|].
  - unfold godebug_settings. destruct d as [d|]; [case_bool_decide|]; reflexivity.
  - unfold godebug_settings. destruct d as [d|]; [case_bool_decide|]; by repeat constructor.
Qed.

(** What has happened when Envoy is started. *)
Lemma envoy_started r fs fs' evs e l fs1 :
  RunnerFuncE_Run starts ready render resolve_debug rand godebug_env envoy r fs = (fs', evs, e) -> EvEnvoy l fs1 ∈ evs ->
  exists ss dbg config,
    evs = (EvStarted <$> ss) ++ EvEnvoy l fs1 :: dbg ++ (EvSignalled <$> ss) /\ (forall l2 fs2, EvEnvoy l2 fs2 ∉ dbg) /\
    ss = omap (server_for (rf_ExtProcBinaries r)) (Extensions (rf_Params r)) /\ Forall (fun s => ready s = true) ss /\
    render (rf_Params r) = Ok config /\ ln_args l = envoy_args r config /\
    (exists fs0, (setupDynamicModuleSearchPath rand (Dirs (rf_Params r)) (Extensions (rf_Params r)) fs) = (fs0, Ok (ln_search_path l))) /\
    setting (ln_godebug l) "cgocheck" = Some "cgocheck=0" /\ servers_known (rf_ExtProcBinaries r) (Extensions (rf_Params r)).
Proof.
  unfold RunnerFuncE_Run. destruct (render (rf_Params r)) as [config|]; [|by intros [= <- <- <-] ?%elem_of_nil].
  destruct (setupDynamicModuleSearchPath _ _ _ fs) as [fs0 [dir|]]; [|by intros [= <- <- <-] ?%elem_of_nil].
  unfold startExtProcServers. pose proof (start_servers_quiet (Extensions (rf_Params r)) (rf_ExtProcBinaries r) [] l fs1) as Hquiet.
  destruct (start_servers _ _ _ _ _) as [evs1 [cs|e1]] eqn:Hs; [|by intros [= <- <- <-]].
  pose proof (start_servers_Ok _ _ _ _ _ Hs) as Hk. apply start_servers_spec in Hs as (ss & -> & -> & Hss & HF).
  set (l0 := mkLaunch _ _ _). destruct (run_envoy _ _ _ _ _) as [[fs2 evs2] e2] eqn:Hr. intros [= <- <- <-].
  apply run_envoy_events in Hr as (_ & _ & H3). cbn [app] in *.
  intros [(? & ? & _)%list_elem_of_fmap|[Hin|(? & ? & _)%list_elem_of_fmap]%elem_of_app]%elem_of_app; [done| |done].
  destruct (H3 _ _ Hin) as (-> & dbg & -> & Hdbg). exists ss, dbg, config. split_and!; [done|done|done|done|done|done|by exists fs0|apply godebug_cgocheck|done].
Qed.

(** C31: When a run ends, with Envoy or before it, every ext_proc server that was started has been
    signalled to stop, in the order they were started, with one exception: at an ext_proc
    extension that has no binary the run ends at once, and the servers of the extensions before it
    are left running.  Envoy is started at most once, after the servers of all ext_proc
    extensions accept connections on their ports and before any is stopped, with the rendered
    configuration, the search path of its modules and the pointer checks of the Go runtime off. *)
Theorem servers_managed r fs fs' evs e :
  RunnerFuncE_Run starts ready render resolve_debug rand godebug_env envoy r fs = (fs', evs, e) ->
  (signalled evs = started evs \/
   exists err, e = Some err /\ stuck_at (rf_ExtProcBinaries r) (Extensions (rf_Params r)) evs err) /\
  forall l fs1, EvEnvoy l fs1 ∈ evs ->
    signalled evs = started evs /\
    exists ss dbg config,
      evs = (EvStarted <$> ss) ++ EvEnvoy l fs1 :: dbg ++ (EvSignalled <$> ss) /\ (forall l2 fs2, EvEnvoy l2 fs2 ∉ dbg) /\
      ss = omap (server_for (rf_ExtProcBinaries r)) (Extensions (rf_Params r)) /\ Forall (fun s => ready s = true) ss /\
      servers_known (rf_ExtProcBinaries r) (Extensions (rf_Params r)) /\
      render (rf_Params r) = Ok config /\ ln_args l = envoy_args r config /\
      (exists fs0, (setupDynamicModuleSearchPath rand (Dirs (rf_Params r)) (Extensions (rf_Params r)) fs) = (fs0, Ok (ln_search_path l))) /\
      setting (ln_godebug l) "cgocheck" = Some "cgocheck=0".
Proof.
  intros Hrun. assert (Hstop : signalled evs = started evs \/
    exists err, e = Some err /\ stuck_at (rf_ExtProcBinaries r) (Extensions (rf_Params r)) evs err).
  { revert Hrun. unfold RunnerFuncE_Run. destruct (render (rf_Params r)) as [config|]; [|intros [= <- <- <-]; by left].
    destruct (setupDynamicModuleSearchPath _ _ _ fs) as [fs0 [dir|]]; [|intros [= <- <- <-]; by left].
    unfold startExtProcServers. destruct (start_servers _ _ _ _ _) as [evs1 r1] eqn:Hs. apply start_servers_spec in Hs.
    destruct r1 as [cs|e1]; [|destruct Hs as [[?|?] _]; intros [= <- <- <-]; [by left|right; by eexists]].
    destruct Hs as (ss & -> & -> & Hss & HF). destruct (run_envoy _ _ _ _ _) as [[fs2 evs2] e2] eqn:Hr. intros [= <- <- <-]. left.
    apply run_envoy_events in Hr as (H1 & H2 & _). cbn [app] in *.
    by rewrite !signalled_app, !started_app, H1, H2, signalled_stop, started_stop, started_start, signalled_start, app_nil_r. }
  split; [done|]. intros l fs1 Hin. pose proof Hin as Hin0.
  destruct (envoy_started _ _ _ _ _ _ _ Hrun Hin) as (ss & dbg & config & Hevs & Hrest). split.
  - destruct Hstop as [?|(err & _ & before & m & after & _ & _ & _ & Hst)]; [done|]. rewrite Hst in Hin0. by apply list_elem_of_fmap in Hin0 as (? & ? & _).
  - exists ss, dbg, config. naive_solver.
Qed.
End Servers.

(** ** The whole command on the host *)

(** The runner with the configuration and the debug servers of the files before. *)
Definition host_run (parse_struct : string -> option Json) (print_struct : list (string * Json) -> option string)
    (yaml_entries : string -> option (list string)) (parse_filter : string -> option Filter) (parse_cluster : string -> option Cluster)
    (proto_yaml : Bootstrap -> option string) (exec : Command -> FileSystem -> FileSystem * bool) (lookPath : string -> option string)
    (goos : string) (euid : Z) (tempDir rand godebug_env : string) (starts ready : Server -> bool)
    (envoy : Launch -> FileSystem -> FileSystem * option string) (r : RunnerFuncE) (fs : FileSystem) : FileSystem * list Event * option RunnerError :=
  RunnerFuncE_Run starts ready
    (fun p => RenderConfig parse_struct print_struct yaml_entries parse_filter parse_cluster fs p (FullConfigRenderer proto_yaml))
    (debug_resolve exec lookPath goos euid rand tempDir) rand godebug_env envoy r fs.

Definition example_ext_proc : Manifest :=
  mkManifest "proc" "1.0.0" "" false "" "" TypeExtProc [FilterTypeHTTP] "" "" "" "" None (Some (mkExtProc 0 false "" None)) None "" false (mkOrigin "" "" "") false false zero_info.
Definition proc_params : ConfigGenerationParams := mkParams "127.0.0.1:9901" 10000 example_dirs [example_ext_proc] [] [] [] [] [] [] [] "" "" "" "".
Definition proc_runner : RunnerFuncE := mkRunner proc_params "error" "" "" {["proc" := "/bin/proc"]} None.
Definition proc_run : FileSystem * list Event * option RunnerError :=
  RunnerFuncE_Run (fun _ => true) (fun _ => true) (fun _ => Ok "config") (fun _ fs => (fs, Err ErrDelveBuild)) "1" "" (fun _ fs => (fs, Some "killed")) proc_runner module_fs.

Lemma servers_managed_witness :
  signalled proc_run.1.2 = [mkServer "proc" "/bin/proc" 50051] /\ signalled proc_run.1.2 = started proc_run.1.2.
Proof.
  split; [vm_compute; reflexivity|].
  destruct (servers_managed (fun _ => true) (fun _ => true) (fun _ => Ok "config") (fun _ fs => (fs, Err ErrDelveBuild)) "1" "" (fun _ fs => (fs, Some "killed"))
    proc_runner module_fs proc_run.1.1 proc_run.1.2 proc_run.2) as [[Hs|(err & He & _)] _].
  - unfold proc_run. destruct (RunnerFuncE_Run _ _ _ _ _ _ _ _ _) as [[? ?] ?]. reflexivity.
  - exact Hs.
  - vm_compute. reflexivity.
Defined.

(** Two servers, of which the second has no binary: the first is left running. *)
Definition second_ext_proc : Manifest :=
  mkManifest "other" "1.0.0" "" false "" "" TypeExtProc [FilterTypeHTTP] "" "" "" "" None (Some (mkExtProc 0 false "" None)) None "" false (mkOrigin "" "" "") false false zero_info.
Definition stuck_runner : RunnerFuncE :=
  mkRunner (mkParams "127.0.0.1:9901" 10000 example_dirs [example_ext_proc; second_ext_proc] [] [] [] [] [] [] [] "" "" "" "") "error" "" ""
    {["proc" := "/bin/proc"]} None.
Theorem servers_left_running :
  let run := RunnerFuncE_Run (fun _ => true) (fun _ => true) (fun _ => Ok "config") (fun _ fs => (fs, Err ErrDelveBuild)) "1" ""
    (fun _ fs => (fs, Some "killed")) stuck_runner module_fs in
  started run.1.2 = [mkServer "proc" "/bin/proc" 50051] /\ signalled run.1.2 = [] /\ run.2 = Some (RunnerNoBinary "other").
Proof. vm_compute. repeat split. Qed.

(** ** Versions of the tool *)

Lemma Split_tail tag n sha : ContainsByte n dash = false -> ContainsByte sha dash = false ->
  Split (tag +:+ "-" +:+ n +:+ "-" +:+ sha) dash = Split tag dash ++ [n; sha].
Proof.
  intros Hn Hs. change (tag +:+ "-" +:+ n +:+ "-" +:+ sha) with (tag +:+ String dash (n +:+ String dash sha)).
  by rewrite Split_app, Split_app, (Split_absent n), (Split_absent sha) by done.
Qed.

(** What git describe prints is read back, for tags with any number of dashes. *)
Theorem parseGit_roundtrip tag n commits sha :
  Atoi n = Some commits -> ContainsByte n dash = false -> ContainsByte sha dash = false ->
  parseGit (tag +:+ "-" +:+ n +:+ "-g" +:+ sha) = Some (mkVersion tag commits sha).
Proof.
  intros Hc Hn Hs. unfold parseGit. change ("-g" +:+ sha) with ("-" +:+ String "g" sha). rewrite Split_tail by done.
  pose proof (Split_nonempty tag dash) as Hne. pose proof (Join_Split tag dash) as HJ. revert Hne HJ. generalize (Split tag dash) as ps. intros ps Hne HJ.
  assert (Hlen : length (ps ++ [n; String "g" sha]) = S (S (length ps))) by (rewrite length_app; cbn; lia). rewrite Hlen.
  destruct (Nat.ltb_spec (S (S (length ps))) 3) as [Hlt|_]; [destruct ps; [done|cbn in Hlt; lia]|].
  replace (S (S (length ps)) - 2)%nat with (length ps) by lia. rewrite lookup_app_r by done. rewrite Nat.sub_diag. cbn [default lookup list_lookup from_option id].
  rewrite Hc, take_app_length. replace (ps ++ [n; String "g" sha]) with ((ps ++ [n]) ++ [String "g" sha]) by (by rewrite <- app_assoc).
  rewrite last_snoc. cbn [default from_option id]. change "-" with (String dash ""). by rewrite HJ.
Qed.
