(* ===== verification/CliDocker.v ===== *)
(** * cli: running in a container

    The docker runner of cli/internal/envoy/runner.go: the volumes, ports and environment of the
    container, and the arguments of the command inside, made from those of the command outside. *)

From S2P Require Import Prelude GoStr GoNum GoPath GoFS SSELines CliPackage CliManifest CliCache CliFlags CliRun CliDebug CliRunner.
From Stdlib Require Import Lia Ascii.

Local Open Scope Z_scope.
Local Open Scope go_scope.

Definition dockerImage : string := "boe".
Definition ContainerCacheVolumeName : string := "boe-cache".
Definition containerVolumeDir : string := "/var/boe".
Definition containerConfigHome : string := containerVolumeDir +:+ "/config".
Definition containerDataHome : string := containerVolumeDir +:+ "/data".
Definition containerStateHome : string := containerVolumeDir +:+ "/state".
Definition containerRuntimeDir : string := containerVolumeDir +:+ "/run".
Definition containerLocalExtensionsDir : string := containerRuntimeDir +:+ "/extensions".
Definition containerListenerTLSCert : string := containerRuntimeDir +:+ "/tls/listener.crt".
Definition containerListenerTLSKey : string := containerRuntimeDir +:+ "/tls/listener.key".
Definition DebugListenHostEnv : string := "BOE_DEBUG_LISTEN_HOST".
Definition debugNotesEnv : string := "BOE_DEBUG_NOTES".

Record RunnerDocker : Type := mkDocker {
  rd_Registry : string;
  rd_ListenPort : Z;
  rd_AdminPort : Z;
  rd_RunID : string;
  rd_Arch : string;
  rd_LocalExtensions : list string;
  rd_Pull : string;
  rd_ImageVersion : string;
  rd_Debug : option DebugOptions;
  rd_ListenerTLSCert : string;
  rd_ListenerTLSKey : string;
}.

Inductive DockerError : Type :=
| DockerAbs (path : string)
| DockerManifest (path : string)
| DockerNoParent (parent path : string)
| DockerVolume
| DockerFailed.

(** [imageVersion]. *)
Definition imageVersion (v : VersionInfo) (requested : string) : string :=
  if negb (bool_decide (requested = "")) then requested
  else if negb (CommitsAhead v =? 0) || bool_decide (ClosestTag v = "") || bool_decide (Sha v = "") then "latest"
  else TrimPrefix (ClosestTag v) "v".

(** [passthroughEnvVars]. *)
Definition hostOnlyVars : list string :=
  ["BOE_ADMIN_ADDRESS="; "BOE_CONFIG_HOME="; "BOE_DATA_HOME="; "BOE_STATE_HOME="; "BOE_RUNTIME_DIR="; "BOE_RUN_ID="; "BOE_RUN_DOCKER="].
Definition passes_through (e : string) : bool := HasPrefix e "BOE_" && forallb (fun p => negb (HasPrefix e p)) hostOnlyVars.
Definition passthroughEnvVars (environ : list string) : list string :=
  concat ((fun e => ["-e"; e]) <$> filter (fun e => passes_through e = true) environ).

Section Docker.
Context (cwd : option string).

(** [localExtensionContainerPath]: the path on the host and in the container. *)
Definition localExtensionContainerPath (ext : string) : option (string * string) :=
  match Abs cwd ext with Some p => Some (p, containerLocalExtensionsDir +:+ "/" +:+ Base p) | None => None end.

Definition volume (host container : string) : list string := ["-v"; host +:+ ":" +:+ container].

Fixpoint processLocalExtensions (exts : list string) : result DockerError (list string) :=
  match exts with
  | [] => Ok []
  | ext :: rest =>
      match localExtensionContainerPath ext with
      | None => Err (DockerAbs ext)
      | Some (abs, container) => try args <- processLocalExtensions rest; Ok (volume abs container ++ args)
      end
  end.

(** [processListenerTLS]. *)
Definition tls_volume (host container : string) : result DockerError (list string) :=
  if bool_decide (host = "") then Ok []
  else match Abs cwd host with Some p => Ok (volume p (container +:+ ":ro")) | None => Err (DockerAbs host) end.
Definition processListenerTLS (r : RunnerDocker) : result DockerError (list string) :=
  try cert <- tls_volume (rd_ListenerTLSCert r) containerListenerTLSCert;
  try key <- tls_volume (rd_ListenerTLSKey r) containerListenerTLSKey;
  Ok (cert ++ key).

(** [listenerTLSContainerArg]. *)
Definition listenerTLSContainerArg (arg : string) : option (string * string) :=
  let flag := before_byte arg "="%char in
  if bool_decide (flag = "--listener-cert") then Some (flag, containerListenerTLSCert)
  else if bool_decide (flag = "--listener-key") then Some (flag, containerListenerTLSKey)
  else None.

(** The path that replaces that of a local extension: the same one in debug mode. *)
Definition local_value (debug : bool) (v : string) : option string :=
  if debug then match Abs cwd v with Some p => Some p | None => snd <$> localExtensionContainerPath v end
  else snd <$> localExtensionContainerPath v.

(** [processCommandArgs] after the name of the program. *)
Fixpoint process_args (debug : bool) (args : list string) : list string :=
  match args with
  | [] => []
  | arg :: rest =>
      let go_on := process_args debug rest in
      let skip_value := match rest with [] => [] | _ :: rest' => process_args debug rest' end in
      let has_value := negb (bool_decide (rest = [])) in
      let keep :=
        match listenerTLSContainerArg arg with
        | Some (flag, v) => (flag +:+ "=" +:+ v) :: (if ContainsByte arg "="%char then go_on else skip_value)
        | None => arg :: go_on
        end in
      if bool_decide (arg = "--docker-image-version") && has_value then skip_value
      else if HasPrefix arg "--docker" then go_on
      else if HasPrefix arg "--pull=" then go_on
      else if bool_decide (arg = "--pull") && has_value then skip_value
      else if debug && bool_decide (arg = "--debug-server-path") && has_value then skip_value
      else if debug && HasPrefix arg "--debug-server-path=" then go_on
      else if HasPrefix arg "--local=" then
        match local_value debug (TrimPrefix arg "--local=") with Some v => ("--local=" +:+ v) :: go_on | None => keep end
      else if bool_decide (arg = "--local") then
        match rest with
        | v :: _ => match local_value debug v with Some v' => "--local" :: v' :: skip_value | None => keep end
        | [] => keep
        end
      else keep
  end.
Definition processCommandArgs (debug : bool) (args : list string) : list string := process_args debug (tail args).

Section Roots.
Context (yaml_parse : string -> option YNode) (decode : YNode -> option Manifest) (schema_error : Manifest -> option string).

Definition localExtensionRoot (fs : FileSystem) (ext : string) : result DockerError string :=
  match Abs cwd ext with
  | None => Err (DockerAbs ext)
  | Some absPath =>
      match local_manifest yaml_parse decode schema_error fs (JoinAll [absPath; "manifest.yaml"]) with
      | Err _ => Err (DockerManifest ext)
      | Ok m =>
          if bool_decide (Parent m = "") then Ok absPath
          else match FindLocalParentManifest yaml_parse decode schema_error (fs_access fs) m with
          | Some (_, dir) => if bool_decide (dir = "") then Err (DockerNoParent (Parent m) ext) else Ok dir
          | None => Err (DockerNoParent (Parent m) ext)
          end
      end
  end.

Fixpoint processLocalExtensionsDebug (fs : FileSystem) (exts : list string) (mounted : gset string) : result DockerError (list string) :=
  match exts with
  | [] => Ok []
  | ext :: rest =>
      try root <- localExtensionRoot fs ext;
      if bool_decide (root ∈ mounted) then processLocalExtensionsDebug fs rest mounted
      else try args <- processLocalExtensionsDebug fs rest ({[root]} ∪ mounted); Ok (volume root root ++ args)
  end.

(** [debugArgs]. *)
Definition debugArgs (d : DebugOptions) : list string :=
  let port := FormatInt (db_Port d) in
  ["--cap-add=SYS_PTRACE"; "--security-opt"; "seccomp=unconfined"; "-p"; "127.0.0.1:" +:+ port +:+ ":" +:+ port;
   "-e"; DebugListenHostEnv +:+ "=0.0.0.0"; "-e"; "GOFLAGS=-buildvcs=false"] ++
  (if bool_decide (db_Notes d = []) then [] else ["-e"; debugNotesEnv +:+ "=" +:+ Join (db_Notes d) (String debugNotesSeparator "")]).

(** The options of docker, before those that depend on the extensions. *)
Definition container_options (r : RunnerDocker) : list string :=
  let adminPort := FormatInt (rd_AdminPort r) in
  let port := FormatInt (rd_ListenPort r) in
  ["run"; "--rm"; "--pull"; rd_Pull r; "--platform"; "linux/" +:+ rd_Arch r;
   "-p"; port +:+ ":" +:+ port +:+ "/tcp"; "-p"; port +:+ ":" +:+ port +:+ "/udp"; "-p"; adminPort +:+ ":" +:+ adminPort;
   "-v"; ContainerCacheVolumeName +:+ ":" +:+ containerVolumeDir;
   "-e"; "BOE_ADMIN_ADDRESS=0.0.0.0:" +:+ adminPort;
   "-e"; "BOE_CONFIG_HOME=" +:+ containerConfigHome; "-e"; "BOE_DATA_HOME=" +:+ containerDataHome;
   "-e"; "BOE_STATE_HOME=" +:+ containerStateHome; "-e"; "BOE_RUNTIME_DIR=" +:+ containerRuntimeDir] ++
  (if bool_decide (rd_RunID r = "") then [] else ["-e"; "BOE_RUN_ID=" +:+ rd_RunID r]).

(** [dockerRunArgs]: the options, the image with its command, and the arguments of the command. *)
Definition dockerRunArgs (r : RunnerDocker) (image : string) (localExtArgs environ osArgs : list string) : list string :=
  container_options r ++ localExtArgs ++ passthroughEnvVars environ ++
  match rd_Debug r with
  | Some d => debugArgs d ++ ["--entrypoint"; "/boe"; image]
  | None => [image; "/boe"]
  end ++ processCommandArgs (bool_decide (rd_Debug r <> None)) osArgs.

(** [RunnerDocker.Run]: the volume is created, then the container is run. *)
Definition RunnerDocker_Run (docker : list string -> bool) (fs : FileSystem) (version : VersionInfo) (environ osArgs : list string) (r : RunnerDocker)
    : list (list string) * option DockerError :=
  let image := rd_Registry r +:+ "/" +:+ dockerImage +:+ ":" +:+ imageVersion version (rd_ImageVersion r) in
  let volumes :=
    try local <- (match rd_Debug r with Some _ => processLocalExtensionsDebug fs (rd_LocalExtensions r) ∅ | None => processLocalExtensions (rd_LocalExtensions r) end);
    try tls <- processListenerTLS r;
    Ok (local ++ tls) in
  match volumes with
  | Err e => ([], Some e)
  | Ok vs =>
      let create := ["volume"; "create"; "--name"; ContainerCacheVolumeName] in
      if negb (docker create) then ([create], Some DockerVolume)
      else
        let args := dockerRunArgs r image vs environ osArgs in
        ([create; args], if docker args then None else Some DockerFailed)
  end.
End Roots.
End Docker.

Example processCommandArgs_ex :
  processCommandArgs (Some "/src") false
    ["boe"; "run"; "--docker"; "--pull"; "always"; "--local"; "mine"; "--extension"; "cors"; "--docker-image-version"; "1.0"; "--listener-cert"; "c.pem"; "--local=/x/y"]
  = ["run"; "--local"; "/var/boe/run/extensions/mine"; "--extension"; "cors"; "--listener-cert=/var/boe/run/tls/listener.crt"; "--local=/var/boe/run/extensions/y"] /\
  processCommandArgs (Some "/src") true ["boe"; "debug"; "--debug-server-path"; "dlv"; "--local"; "mine"; "--pull=never"] = ["debug"; "--local"; "/src/mine"].
Proof. vm_compute. repeat split. Qed.

(** ** The container does not start another one *)

Definition host_flag (a : string) : bool := HasPrefix a "--docker" || HasPrefix a "--pull=".

Lemma rooted_not_flag a : is_rooted a = true -> host_flag a = false.
Proof. intros [t ->]%HasPrefix_spec. reflexivity. Qed.

Lemma Abs_rooted cwd p a : (forall wd, cwd = Some wd -> is_rooted wd = true) -> Abs cwd p = Some a -> is_rooted a = true.
Proof.
  intros Hcwd. unfold Abs. destruct (is_rooted p) eqn:Hr; [intros [= <-]; by apply Clean_rooted|].
  destruct cwd as [wd|]; [|done]. intros [= <-]. specialize (Hcwd wd eq_refl). assert (Hw : wd <> "") by (by intros E; rewrite E in Hcwd).
  unfold Join2. rewrite decide_False by done. apply Clean_rooted. by rewrite is_rooted_app.
Qed.

Lemma local_value_rooted cwd debug v w : (forall wd, cwd = Some wd -> is_rooted wd = true) -> local_value cwd debug v = Some w -> is_rooted w = true.
Proof.
  intros Hcwd. unfold local_value, localExtensionContainerPath. destruct (Abs cwd v) as [p|] eqn:Ha; [|by destruct debug].
  destruct debug; intros [= <-]; [by eapply Abs_rooted|reflexivity].
Qed.

Lemma process_args_no_host_flags cwd debug args :
  (forall wd, cwd = Some wd -> is_rooted wd = true) -> Forall (fun a => host_flag a = false) (process_args cwd debug args).
Proof.
  intros Hcwd. remember (length args) as n eqn:Hn. revert args Hn. induction (lt_wf n) as [n _ IH]. intros args ->.
  assert (IH' : forall args', (length args' < length args)%nat -> Forall (fun a => host_flag a = false) (process_args cwd debug args')).
  { intros args' Hlt. by eapply IH. }
  clear IH. destruct args as [|arg rest]; [constructor|]. cbn [process_args].
  assert (Hrest : Forall (fun a => host_flag a = false) (process_args cwd debug rest)) by (apply IH'; cbn; lia).
  assert (Hskip : Forall (fun a => host_flag a = false) (match rest with [] => [] | _ :: rest' => process_args cwd debug rest' end)).
  { destruct rest as [|v rest']; [constructor|]. apply IH'. cbn. lia. }
  match goal with |- Forall _ (if ?b then _ else _) => destruct b; [done|] end. destruct (HasPrefix arg "--docker") eqn:Hd; [done|]. destruct (HasPrefix arg "--pull=") eqn:Hp; [done|].
  assert (Hflag : host_flag arg = false) by (unfold host_flag; by rewrite Hd, Hp).
  assert (Hkeep : Forall (fun a => host_flag a = false)
    (match listenerTLSContainerArg arg with
     | Some (flag, v) => (flag +:+ "=" +:+ v) :: (if ContainsByte arg "="%char then process_args cwd debug rest
                                               else match rest with [] => [] | _ :: rest' => process_args cwd debug rest' end)
     | None => arg :: process_args cwd debug rest
     end)).
  { unfold listenerTLSContainerArg. case_bool_decide as E1; [rewrite E1; constructor; [reflexivity|by destruct (ContainsByte arg _)]|].
    case_bool_decide as E2; [rewrite E2; constructor; [reflexivity|by destruct (ContainsByte arg _)]|by constructor]. }
  do 3 (match goal with |- Forall _ (if ?b then _ else _) => destruct b; [done|] end). match goal with |- Forall _ (if ?b then _ else _) => destruct b end.
  - destruct (local_value _ _ _) eqn:Hv; [|done]. by constructor.
  - match goal with |- Forall _ (if ?b then _ else _) => destruct b; [|done] end. destruct rest as [|v rest']; [done|]. destruct (local_value _ _ _) as [w|] eqn:Hv; [|done].
    constructor; [done|]. constructor; [|done]. by eapply rooted_not_flag, local_value_rooted.
Qed.

(** The command that runs in the container is never told to use docker again, by a flag or
    by the environment, and gets none of the directories, addresses or run identifiers of the
    host; every other variable of the tool is passed on. *)
Theorem docker_not_nested cwd debug osArgs environ :
  (forall wd, cwd = Some wd -> is_rooted wd = true) ->
  Forall (fun a => host_flag a = false) (processCommandArgs cwd debug osArgs) /\
  (forall e p, e ∈ passthroughEnvVars environ -> p ∈ hostOnlyVars -> HasPrefix e p = false) /\
  (forall e, e ∈ environ -> HasPrefix e "BOE_" = true -> (forall p, p ∈ hostOnlyVars -> HasPrefix e p = false) -> e ∈ passthroughEnvVars environ).
Proof.
  intros Hcwd. split_and!; [by apply process_args_no_host_flags|..].
  - intros e p He Hp. unfold passthroughEnvVars in He. apply list_elem_of_In, in_concat in He as (l & Hl & He).
    apply list_elem_of_In, list_elem_of_fmap in Hl as (e' & -> & [Hpass _]%list_elem_of_filter). apply list_elem_of_In in He.
    apply elem_of_cons in He as [->|He]; [|apply list_elem_of_singleton in He as ->].
    + unfold hostOnlyVars in Hp. rewrite !elem_of_cons, elem_of_nil in Hp. repeat (destruct Hp as [->|Hp]; [reflexivity|]). done.
    + apply andb_true_iff in Hpass as [_ Hall]. rewrite forallb_forall in Hall. apply list_elem_of_In in Hp. by apply negb_true_iff, Hall.
  - intros e He Hb Hno. apply list_elem_of_In, in_concat. exists ["-e"; e]. split; [|right; by left]. apply list_elem_of_In, list_elem_of_fmap.
    exists e. split; [done|]. apply list_elem_of_filter. split; [|done]. unfold passes_through. rewrite Hb. apply forallb_forall. intros p Hp%list_elem_of_In.
    by rewrite Hno.
Qed.

Lemma docker_not_nested_witness :
  Forall (fun a => host_flag a = false) (processCommandArgs (Some "/src") false ["boe"; "run"; "--docker"; "--local"; "mine"]).
Proof. apply (docker_not_nested (Some "/src") false ["boe"; "run"; "--docker"; "--local"; "mine"] []). intros wd [= <-]. reflexivity. Defined.

(** ** Local extensions are mounted where the command looks for them *)

(** An argument that is passed on as it is. *)
Definition plain_arg (a : string) : bool :=
  negb (host_flag a) && negb (bool_decide (a = "--pull")) && negb (HasPrefix a "--local=") && negb (bool_decide (a = "--local")) &&
  match listenerTLSContainerArg a with Some _ => false | None => true end.
Definition plain_token (t : Token) : Prop :=
  match t with TOther a => plain_arg a = true | TRemote r => plain_arg r = true | TLocal _ => True end.

Section Mounts.
Context (cwd : option string).

Lemma process_plain a rest : plain_arg a = true -> process_args cwd false (a :: rest) = a :: process_args cwd false rest.
Proof.
  unfold plain_arg, host_flag. intros [[[[[H1 H2]%negb_true_iff%orb_false_iff H3%negb_true_iff]%andb_true_iff H4%negb_true_iff]%andb_true_iff H5%negb_true_iff]%andb_true_iff H6]%andb_true_iff.
  cbn [process_args]. rewrite H1, H2, H3, H4, H5. cbn [andb].
  rewrite (bool_decide_eq_false_2 (a = "--docker-image-version")) by (intros ->; by vm_compute in H1). cbn [andb].
  by destruct (listenerTLSContainerArg a).
Qed.

Lemma process_local p d rest :
  localExtensionContainerPath cwd p = Some d -> process_args cwd false ("--local" :: p :: rest) = "--local" :: d.2 :: process_args cwd false rest.
Proof. intros Hd. cbn [process_args]. unfold local_value. rewrite Hd. reflexivity. Qed.

(** The tokens of the command in the container. *)
Definition container_token (t : Token) : Token :=
  match t with TLocal p => TLocal (default p (snd <$> localExtensionContainerPath cwd p)) | _ => t end.

Lemma process_tokens ts :
  Forall plain_token ts -> paths_known cwd ts ->
  process_args cwd false (concat (token_args <$> ts)) = concat (token_args <$> (container_token <$> ts)).
Proof.
  induction ts as [|t ts IH]; intros Hp Hk; [done|]. apply Forall_cons in Hp as [Ht Hp]. assert (Hks : paths_known cwd ts) by (intros q Hq; apply Hk; by right).
  destruct t as [r|p|a]; cbn [fmap list_fmap concat token_args container_token app].
  - rewrite process_plain by reflexivity. rewrite process_plain by done. by rewrite IH.
  - destruct (Hk p) as [abs Ha]; [by left|]. unfold localExtensionContainerPath at 1. rewrite Ha. cbn [fmap option_fmap option_map snd default from_option id].
    rewrite (process_local p (abs, containerLocalExtensionsDir +:+ "/" +:+ Base abs)) by (unfold localExtensionContainerPath; by rewrite Ha).
    by rewrite IH.
  - rewrite process_plain by done. by rewrite IH.
Qed.

(** The volumes of the paths, on the host and in the container. *)
Definition mounts_of (paths : list string) : list (string * string) := omap (localExtensionContainerPath cwd) paths.

Lemma processLocalExtensions_spec paths :
  Forall (fun p => is_Some (Abs cwd p)) paths ->
  processLocalExtensions cwd paths = Ok (concat ((fun m => volume m.1 m.2) <$> mounts_of paths)).
Proof.
  unfold mounts_of. induction paths as [|p paths IH]; intros Hp; [done|]. apply Forall_cons in Hp as [[abs Ha] Hp].
  cbn [processLocalExtensions omap list_omap]. unfold localExtensionContainerPath at 1 2. rewrite Ha. cbn [rbind]. rewrite IH by done. reflexivity.
Qed.

Lemma mounts_paths ts : paths_known cwd ts -> (mounts_of (paths_of ts)).*2 = paths_of (container_token <$> ts) /\ Forall2 (fun p m => Abs cwd p = Some m.1) (paths_of ts) (mounts_of (paths_of ts)).
Proof.
  unfold mounts_of, paths_of. induction ts as [|[r|p|a] ts IH]; intros Hk; cbn [fmap list_fmap omap list_omap container_token]; [by split; [|constructor]|..].
  - apply IH. intros q Hq. apply Hk. by right.
  - destruct (Hk p) as [abs Ha]; [by left|].
    assert (Hl : localExtensionContainerPath cwd p = Some (abs, containerLocalExtensionsDir +:+ "/" +:+ Base abs)) by (unfold localExtensionContainerPath; by rewrite Ha).
    rewrite !Hl. cbn [fmap option_fmap option_map list_fmap snd default from_option id].
    destruct IH as [IH1 IH2]; [intros q Hq; apply Hk; by right|]. split; [by f_equal|by constructor].
  - apply IH. intros q Hq. apply Hk. by right.
Qed.

(** Every local extension of a command line is mounted into the container at exactly the path
    that replaces it on the command line there; the other arguments and the order are kept, and
    the mount points differ if the names of the directories do. *)
Theorem docker_locals_mounted ts (mounts := mounts_of (paths_of ts)) :
  Forall plain_token ts -> paths_known cwd ts ->
  processCommandArgs cwd false ("boe" :: concat (token_args <$> ts)) = concat (token_args <$> (container_token <$> ts)) /\
  processLocalExtensions cwd (paths_of ts) = Ok (concat ((fun m => volume m.1 m.2) <$> mounts)) /\
  paths_of (container_token <$> ts) = mounts.*2 /\ Forall2 (fun p m => Abs cwd p = Some m.1) (paths_of ts) mounts /\
  refs_of (container_token <$> ts) = refs_of ts /\
  (NoDup (Base <$> mounts.*1) -> NoDup mounts.*2).
Proof.
  intros Hp Hk. destruct (mounts_paths ts Hk) as [H1 H2]. split_and!; [by apply process_tokens| |done|done|..].
  - apply processLocalExtensions_spec, Forall_forall. intros p (t & Ht & E)%list_elem_of_omap. apply Hk. by destruct t; simplify_eq.
  - clear. unfold refs_of. induction ts as [|[] ts IH]; cbn [fmap list_fmap omap list_omap container_token]; [done|by rewrite IH|done..].
  - assert (E : mounts.*2 = (fun b => containerLocalExtensionsDir +:+ "/" +:+ b) <$> (Base <$> mounts.*1)).
    { unfold mounts, mounts_of. clear. induction (paths_of ts) as [|p ps IH]; [done|]. cbn [omap list_omap]. 
      destruct (localExtensionContainerPath cwd p) as [[abs d]|] eqn:Hl; [|done]. unfold localExtensionContainerPath in Hl. destruct (Abs cwd p); [|done].
      injection Hl as <- <-. cbn [fmap list_fmap fst snd]. by f_equal. }
    intros Hnd. rewrite E. apply NoDup_fmap_2; [|done]. intros a b Hab. unfold containerLocalExtensionsDir, containerRuntimeDir, containerVolumeDir in Hab.
    cbn in Hab. by injection Hab.
Qed.
End Mounts.

Lemma docker_locals_mounted_witness :
  processLocalExtensions (Some "/src") ["mine"] = Ok ["-v"; "/src/mine:/var/boe/run/extensions/mine"] /\
  processCommandArgs (Some "/src") false ["boe"; "run"; "--local"; "mine"; "--extension"; "cors"] = ["run"; "--local"; "/var/boe/run/extensions/mine"; "--extension"; "cors"].
Proof.
  destruct (docker_locals_mounted (Some "/src") [TOther "run"; TLocal "mine"; TRemote "cors"]) as (W1 & W2 & _).
  - repeat constructor.
  - intros p Hp. assert (p = "mine") as ->; [set_solver|by eexists].
  - split; [exact W2|exact W1].
Defined.

(** Two extensions whose directories have the same name are mounted at one path. *)
Theorem docker_mounts_collide :
  mounts_of (Some "/src") ["a/ext"; "b/ext"] = [("/src/a/ext", "/var/boe/run/extensions/ext"); ("/src/b/ext", "/var/boe/run/extensions/ext")].
Proof. vm_compute. reflexivity. Qed.
