(* ===== verification/CliExport.v ===== *)
(** * cli: exported configurations

    cli/cmd/genconfig.go: the extensions of a generated configuration, and its export to a
    directory, with the files of the extensions copied next to it and the configuration changed to
    refer to the copies. *)

From S2P Require Import Prelude GoStr GoNum GoPath GoFS SSELines GoCodec GoJson CliPackage CliManifest CliCache CliDownload CliExtension CliConfig CliFlags CliRun CliDebug CliRunner.
From Stdlib Require Import Lia Ascii.

Local Open Scope go_scope.

(** ** Rewriting the configuration *)

(** [strings.ReplaceAll] of a text that is not empty. *)
Fixpoint replace_all (fuel : nat) (s old new : string) : string :=
  match fuel with
  | O => s
  | S fuel' =>
      match s with
      | EmptyString => EmptyString
      | String c s' =>
          if HasPrefix s old then new +:+ replace_all fuel' (drop_bytes (String.length old) s) old new
          else String c (replace_all fuel' s' old new)
      end
  end.
Definition ReplaceAll (s old new : string) : string := replace_all (S (String.length s)) s old new.

Definition dquote : ascii := "034"%char.
Definition quoted (s : string) : string := String dquote (s +:+ String dquote "").

Definition is_ws (c : ascii) : bool := bool_decide (c ∈ ["009"; "010"; "012"; "013"; " "]%char).
Fixpoint skip_ws (s : string) : string := match s with String c s' => if is_ws c then skip_ws s' else s | EmptyString => s end.

(** A match of the url expression for a name without quotes, at the start of a text: what follows it. *)
Definition match_url (name s : string) : option string :=
  if HasPrefix s (quoted "url") then
    match skip_ws (drop_bytes (String.length (quoted "url")) s) with
    | String ":" s1 =>
        match skip_ws s1 with
        | String q s2 =>
            if decide (q = dquote) then
              match Cut s2 dquote with
              | (content, rest, true) => if Contains content name then Some rest else None
              | _ => None
              end
            else None
        | EmptyString => None
        end
    | _ => None
    end
  else None.

Definition url_of (name : string) : string := quoted "url" +:+ ":" +:+ quoted ("file://" +:+ name +:+ ".so").

(** [ReplaceAllString] with that expression. *)
Fixpoint replace_urls (fuel : nat) (name s : string) : string :=
  match fuel with
  | O => s
  | S fuel' =>
      match s with
      | EmptyString => EmptyString
      | String c s' =>
          match match_url name s with
          | Some rest => url_of name +:+ replace_urls fuel' name rest
          | None => String c (replace_urls fuel' name s')
          end
      end
  end.
Definition rewrite_urls (name config : string) : string := replace_urls (S (String.length config)) name config.

(** ** The export *)

Definition listenerCertFile : string := "listener.crt".
Definition listenerKeyFile : string := "listener.key".

(** [copyFile] of genconfig.go. *)
Definition export_file (src dst : string) (fs : FileSystem) : FileSystem * bool :=
  match ReadFile fs (Clean src) with
  | None => (fs, false)
  | Some data => match WriteFile fs (clean_segs (Clean dst)) data with Some fs' => (fs', true) | None => (fs, false) end
  end.

(** The copies of an extension, source and destination, and the configuration that refers to them. *)
Definition export_plan (output : string) (dirs : Directories) (m : Manifest) (config : string) : list (string * string) * string :=
  let src := LocalCacheExtension dirs m in
  if bool_decide (m_Type m = TypeLua) then ([], config)
  else if bool_decide (m_Type m = TypeWasm) then
    ([(src, JoinAll [output; Name m +:+ ".wasm"])], ReplaceAll config src (Name m +:+ ".wasm"))
  else if bool_decide (m_Type m = TypeGo) && negb (CShared m) then
    let composer := LocalCacheComposerLiteLib dirs (ComposerVersion m) in
    ([(composer, JoinAll [output; Base composer]); (src, JoinAll [output; Name m +:+ ".so"])], rewrite_urls (Name m) config)
  else ([(src, JoinAll [output; Base src])], config).

Fixpoint copy_all (copies : list (string * string)) (fs : FileSystem) : FileSystem * bool :=
  match copies with
  | [] => (fs, true)
  | (src, dst) :: rest => match export_file src dst fs with (fs1, true) => copy_all rest fs1 | (fs1, false) => (fs1, false) end
  end.

Fixpoint export_extensions (output : string) (dirs : Directories) (ms : list Manifest) (config : string) (files : list string) (fs : FileSystem)
    : FileSystem * option (string * list string) :=
  match ms with
  | [] => (fs, Some (config, files))
  | m :: rest =>
      let '(copies, config') := export_plan output dirs m config in
      match copy_all copies fs with
      | (fs1, false) => (fs1, None)
      | (fs1, true) => export_extensions output dirs rest config' (files ++ copies.*2) fs1
      end
  end.

(** The files for TLS on the listener. *)
Definition tls_copies (output cert key : string) : list (string * string) :=
  if bool_decide (cert = "") && bool_decide (key = "") then []
  else [(cert, JoinAll [output; listenerCertFile]); (key, JoinAll [output; listenerKeyFile])].
Definition tls_config (cert key config : string) : string :=
  if bool_decide (cert = "") && bool_decide (key = "") then config
  else ReplaceAll (ReplaceAll config cert listenerCertFile) key listenerKeyFile.

(** [writeConfig]: the files that were written. *)
Definition writeConfig (output cert key : string) (dirs : Directories) (ms : list Manifest) (config : string) (fs : FileSystem)
    : FileSystem * option (list string) :=
  match export_extensions output dirs ms config [] fs with
  | (fs1, None) => (fs1, None)
  | (fs1, Some (config1, files)) =>
      match copy_all (tls_copies output cert key) fs1 with
      | (fs2, false) => (fs2, None)
      | (fs2, true) =>
          let envoyConfig := JoinAll [output; "envoy.yaml"] in
          match WriteFile fs2 (clean_segs envoyConfig) (tls_config cert key config1) with
          | None => (fs2, None)
          | Some fs3 => (fs3, Some (files ++ (tls_copies output cert key).*2 ++ [envoyConfig]))
          end
      end
  end.

(** ** The command *)

Inductive GenConfigConflict : Type := GenTwoUpstreams | GenMinimalTLS.
Definition GenConfig_Validate (upstreamHost upstreamCluster : string) (minimal : bool) (cert key : string) : option GenConfigConflict :=
  if negb (bool_decide (upstreamHost = "")) && negb (bool_decide (upstreamCluster = "")) then Some GenTwoUpstreams
  else if minimal && negb (bool_decide (cert = "") && bool_decide (key = "")) then Some GenMinimalTLS
  else None.

(** The registry an extension came from, for its url. *)
Definition with_registry (registry : string) (m : Manifest) : Manifest := set_origin (mkOrigin (RemoteRef (m_origin m)) registry (Version m)) m.

Section GenConfig.
Context `{SemVer}.
Context (sort_slice : (string -> string -> bool) -> list string -> list string).
Context (yaml_parse : string -> option YNode) (decode : YNode -> option Manifest) (schema_error : Manifest -> option string).
Context (newClient : string -> option Target).
Context (exec : Command -> FileSystem -> FileSystem * bool) (dotenv : string -> option (gmap string string)) (libext : string).
(** The rendering for the extensions, on the disk as it is then. *)
Context (render : list Manifest -> FileSystem -> result ConfigError string).

Inductive GenError : Type := GenRun (e : RunError) | GenConfigError (e : ConfigError) | GenWrite | GenOutput.

(** [GenConfig.Run]: the configuration that is printed, or the files that are written. *)
Definition GenConfig_Run (cwd : option string) (iterate : gmap string (list nat) -> list (string * list nat)) (positions : extensionPositions)
    (d : Downloader) (refs paths : list string) (output cert key : string) (fs : FileSystem) : FileSystem * result GenError (string + list string) :=
  match (if bool_decide (output = "-") then (fs, true) else MkdirAll fs (clean_segs output)) with
  | (fs0, false) => (fs0, Err GenOutput)
  | (fs0, true) =>
      match downloadExtensions sort_slice yaml_parse decode schema_error newClient exec dotenv libext d refs true fs0 with
      | (fs1, Err e) => (fs1, Err (GenRun e))
      | (fs1, Ok downloaded) =>
          match loadLocalManifests sort_slice yaml_parse decode schema_error newClient exec dotenv libext d paths true false fs1 with
          | (fs2, Err e) => (fs2, Err (GenRun e))
          | (fs2, Ok local) =>
              match (match positions_sort cwd iterate positions ((with_registry (dl_Registry d) <$> downloaded) ++ local) with
                     | Err e => Err (RunPositions e)
                     | Ok sorted => dereference sorted
                     end) with
              | Err e => (fs2, Err (GenRun e))
              | Ok ms =>
                  match ResolveMinimumCompatibleEnvoyVersion ms with
                  | Err reason => (fs2, Err (GenRun (RunVersions reason)))
                  | Ok _ =>
                      match render ms fs2 with
                      | Err e => (fs2, Err (GenConfigError e))
                      | Ok config =>
                          if bool_decide (output = "-") then (fs2, Ok (inl config))
                          else match writeConfig output cert key (dl_Dirs d) ms config fs2 with
                          | (fs3, Some files) => (fs3, Ok (inr files))
                          | (fs3, None) => (fs3, Err GenWrite)
                          end
                      end
                  end
              end
          end
      end
  end.
End GenConfig.

Example rewrite_urls_ex :
  rewrite_urls "cors" ("{" +:+ quoted "url" +:+ " : " +:+ quoted "file:///cache/cors/1.0/plugin.so" +:+ "," +:+ quoted "url" +:+ ":" +:+ quoted "x" +:+ "}")
  = "{" +:+ url_of "cors" +:+ "," +:+ quoted "url" +:+ ":" +:+ quoted "x" +:+ "}".
Proof. vm_compute. reflexivity. Qed.

(** ** The export is complete *)

Lemma export_file_exists src dst fs fs' : dst <> "" -> export_file src dst fs = (fs', true) -> grows fs fs' /\ exists_path fs' dst = true.
Proof.
  intros Hd. unfold export_file. destruct (ReadFile fs (Clean src)); [|done]. destruct (WriteFile _ _ _) as [fs1|] eqn:Hw; [|done].
  intros [= <-]. apply WriteFile_grows in Hw as [Hg Hs]. split; [done|]. unfold exists_path. rewrite (proj1 (clean_segs_Clean dst Hd)) in Hs. by rewrite Hs.
Qed.

Lemma copy_all_exist copies fs fs' :
  Forall (fun c => c.2 <> "") copies -> copy_all copies fs = (fs', true) -> grows fs fs' /\ Forall (fun f => exists_path fs' f = true) copies.*2.
Proof.
  revert fs. induction copies as [|[src dst] copies IH]; intros fs Hne; cbn [copy_all]; [intros [= <-]; split; [apply grows_refl|constructor]|].
  apply Forall_cons in Hne as [Hd Hne]. destruct (export_file src dst fs) as [fs1 []] eqn:He; [|done]. apply export_file_exists in He as [Hg Hex]; [|done].
  intros [Hg' HF]%IH; [|done]. split; [by eapply grows_trans|]. constructor; [by eapply exists_path_grows|done].
Qed.

Lemma export_plan_dests output dirs m config : output <> "" -> Forall (fun c => c.2 <> "") (export_plan output dirs m config).1.
Proof.
  intros Ho. unfold export_plan. repeat case_bool_decide; cbn [andb]; try destruct (CShared m); cbn [negb fst]; repeat (constructor; try by apply JoinAll_nonempty).
Qed.

(** Where the file of an extension goes. *)
Definition export_dest (output : string) (dirs : Directories) (m : Manifest) : string :=
  if bool_decide (m_Type m = TypeWasm) then JoinAll [output; Name m +:+ ".wasm"]
  else if bool_decide (m_Type m = TypeGo) && negb (CShared m) then JoinAll [output; Name m +:+ ".so"]
  else JoinAll [output; Base (LocalCacheExtension dirs m)].

Lemma export_plan_dest output dirs m config : m_Type m <> TypeLua -> export_dest output dirs m ∈ (export_plan output dirs m config).1.*2.
Proof.
  intros Hm. unfold export_plan, export_dest. rewrite (bool_decide_eq_false_2 _ Hm). case_bool_decide; [by left|].
  destruct (_ && _); [right; by left|by left].
Qed.

(** The configuration after all extensions. *)
Definition exported_config (output : string) (dirs : Directories) (ms : list Manifest) (config : string) : string :=
  foldl (fun c m => (export_plan output dirs m c).2) config ms.

Lemma export_extensions_spec output dirs ms config files fs fs' config' files' :
  output <> "" -> export_extensions output dirs ms config files fs = (fs', Some (config', files')) ->
  grows fs fs' /\ config' = exported_config output dirs ms config /\
  exists new, files' = files ++ new /\ Forall (fun f => exists_path fs' f = true) new /\
    forall m, m ∈ ms -> m_Type m <> TypeLua -> export_dest output dirs m ∈ new.
Proof.
  intros Ho. revert config files fs. induction ms as [|m ms IH]; intros config files fs; cbn [export_extensions].
  { intros [= <- <- <-]. split_and!; [apply grows_refl|done|]. exists []. rewrite app_nil_r. split_and!; [done|constructor|]. by intros m ?%elem_of_nil. }
  pose proof (export_plan_dests output dirs m config Ho) as Hd. pose proof (export_plan_dest output dirs m config) as Hdest.
  unfold exported_config. cbn [foldl]. destruct (export_plan output dirs m config) as [copies config1] eqn:Hplan. cbn [fst snd] in *.
  destruct (copy_all copies fs) as [fs1 []] eqn:Hc; [|done]. apply copy_all_exist in Hc as [Hg1 HF1]; [|done].
  intros (Hg2 & -> & new & -> & HF2 & Hin)%IH. split_and!; [by eapply grows_trans|done|]. exists (copies.*2 ++ new). rewrite <- app_assoc. split_and!; [done|..].
  - apply Forall_app. split; [|done]. eapply Forall_impl; [exact HF1|]. intros f Hf. by eapply exists_path_grows.
  - intros m' [->|Hm]%elem_of_cons Ht; apply elem_of_app; [left; by apply Hdest|right; by apply Hin].
Qed.

(** An export that succeeds has written every file it names: the library, module or binary of
    every extension that has one, the files for TLS, and last the configuration, whose content is
    the rendered one with its references changed to the copies. *)
Theorem export_complete output cert key dirs ms config fs fs' files :
  output <> "" -> writeConfig output cert key dirs ms config fs = (fs', Some files) ->
  Forall (fun f => exists_path fs' f = true) files /\
  (forall m, m ∈ ms -> m_Type m <> TypeLua -> export_dest output dirs m ∈ files) /\
  (forall f, f ∈ (tls_copies output cert key).*2 -> f ∈ files) /\
  last files = Some (JoinAll [output; "envoy.yaml"]) /\
  ReadFile fs' (JoinAll [output; "envoy.yaml"]) = Some (tls_config cert key (exported_config output dirs ms config)).
Proof.
  intros Ho. unfold writeConfig. generalize (JoinAll [output; "envoy.yaml"]) as envoyConfig. intros envoyConfig.
  destruct (export_extensions _ _ _ _ _ _) as [fs1 [[config1 files1]|]] eqn:He; [|done].
  apply export_extensions_spec in He as (Hg1 & -> & new & -> & HF1 & Hin); [|done].
  destruct (copy_all _ _) as [fs2 []] eqn:Hc; [|done]. apply copy_all_exist in Hc as [Hg2 HF2].
  2:{ unfold tls_copies. destruct (_ && _); repeat (constructor; try by apply JoinAll_nonempty). }
  destruct (WriteFile _ _ _) as [fs3|] eqn:Hw; [|done]. apply WriteFile_grows in Hw as [Hg3 Hs]. intros [= <- <-]. cbn [app]. split_and!.
  - rewrite !Forall_app. split_and!.
    + eapply Forall_impl; [exact HF1|]. intros f Hf. eapply exists_path_grows; [|exact Hf]. by eapply grows_trans.
    + eapply Forall_impl; [exact HF2|]. intros f Hf. by eapply exists_path_grows.
    + apply Forall_singleton. apply bool_decide_eq_true. rewrite Hs. by eexists.
  - intros m Hm Ht. apply elem_of_app. left. by apply Hin.
  - intros f Hf. apply elem_of_app. right. apply elem_of_app. by left.
  - by rewrite app_assoc, last_snoc.
  - unfold ReadFile. by rewrite Hs.
Qed.

(** The url of an extension whose name contains that of another plugin is changed to the other's. *)
Theorem export_urls_collide (url := fun n => quoted "url" +:+ ":" +:+ quoted ("file:///cache/goplugin/" +:+ n +:+ "/1.0.0/plugin.so"))
    (config := "[{" +:+ url "auth" +:+ "},{" +:+ url "auth-jwt" +:+ "}]") :
  rewrite_urls "auth-jwt" (rewrite_urls "auth" config) = "[{" +:+ url_of "auth" +:+ "},{" +:+ url_of "auth" +:+ "}]".
Proof. vm_compute. reflexivity. Qed.

Definition export_fs : FileSystem := <[["out"] := NDir]> module_fs.
Definition export_run : FileSystem * option (list string) := writeConfig "/out" "" "" example_dirs [example_module] "config" export_fs.
Lemma export_complete_witness :
  export_run.2 = Some ["/out/libexample.so"; "/out/envoy.yaml"] /\ Forall (fun f => exists_path export_run.1 f = true) ["/out/libexample.so"; "/out/envoy.yaml"].
Proof.
  assert (E : export_run.2 = Some ["/out/libexample.so"; "/out/envoy.yaml"]) by (vm_compute; reflexivity).
  split; [exact E|].
  apply (export_complete "/out" "" "" example_dirs [example_module] "config" export_fs export_run.1 ["/out/libexample.so"; "/out/envoy.yaml"]).
  - discriminate.
  - rewrite <- E. apply surjective_pairing.
Defined.
