(* ===== verification/UiServer.v ===== *)
(** * ui: the extension manager

    ui/server.go and executor.go: the handlers of the web interface, the command line they run,
    the conversion of its coloured output to HTML, and the executor that keeps one command
    running.  The catalog, YAML, the encoder of JSON and the embedded files are parameters; a
    value of a JSON or YAML document is [any] of [OPA]. *)

From S2P Require Import Prelude GoStr GoNum GoPath GoFS GoCodec Host GoJson SSELines OPA CliManifest CliFlags.
From Stdlib Require Import Lia Ascii.

Local Open Scope Z_scope.
Local Open Scope go_scope.

(** ** The command line *)

Record RunParams : Type := mkRunParams {
  ui_LogLevel : string;
  ui_EnvoyVersion : string;
  ui_EnvoyVersionsURL : string;
  ui_EnvoyPath : string;
  ui_Dev : bool;
  ui_LocalExtensions : list string;
  ui_ClustersSecure : list string;
  ui_ClustersInsecure : list string;
  ui_ClustersJSONSpec : list string;
  ui_TestUpstreamHost : string;
  ui_TestUpstreamCluster : string;
  ui_ListenerTLSCert : string;
  ui_ListenerTLSKey : string;
  ui_Docker : bool;
  ui_DockerImage : string;
  ui_DockerPullPolicy : string;
}.

Definition option_arg (flag value : string) : list string := if bool_decide (value = "") then [] else [flag; value].
Definition each_arg (flag : string) (values : list string) : list string := concat ((fun v => [flag; v]) <$> values).

(** [RunParams.Args]; [None] is a nil receiver. *)
Definition Args (r : option RunParams) : list string :=
  match r with
  | None => []
  | Some r =>
      option_arg "--log-level" (ui_LogLevel r) ++ option_arg "--envoy-version" (ui_EnvoyVersion r) ++
      option_arg "--envoy-versions-url" (ui_EnvoyVersionsURL r) ++ option_arg "--envoy-path" (ui_EnvoyPath r) ++
      (if ui_Dev r then ["--dev"] else []) ++
      each_arg "--cluster" (ui_ClustersSecure r) ++ each_arg "--cluster-insecure" (ui_ClustersInsecure r) ++
      each_arg "--cluster-json" (ui_ClustersJSONSpec r) ++
      option_arg "--test-upstream-host" (ui_TestUpstreamHost r) ++ option_arg "--test-upstream-cluster" (ui_TestUpstreamCluster r) ++
      option_arg "--listener-cert" (ui_ListenerTLSCert r) ++ option_arg "--listener-key" (ui_ListenerTLSKey r) ++
      (if ui_Docker r then ["--docker"] else []) ++
      option_arg "--docker-image-version" (ui_DockerImage r) ++ option_arg "--pull" (ui_DockerPullPolicy r)
  end.

Record ExtensionConfig : Type := mkExtensionConfig { xc_Name : string; xc_Config : string; xc_FilterType : string; xc_LocalPath : string }.

(** [freePorts] of the ports the system hands out; [None] is a failure to listen. *)
Definition freePorts (listen : nat -> option Z) (n : nat) : option (list Z) := mapM listen (seq 0 n).

Definition extension_args (ext : ExtensionConfig) : list string :=
  if bool_decide (xc_LocalPath ext = "") then ["--extension"; xc_Name ext] else ["--local"; xc_LocalPath ext].

Definition buildArgs (listen : nat -> option Z) (action : string) (baseArgs : list string) (exts : list ExtensionConfig) : list string :=
  [action] ++ baseArgs ++
  match freePorts listen 2 with
  | Some [listenPort; adminPort] => ["--listen-port"; FormatInt listenPort; "--admin-port"; FormatInt adminPort]
  | _ => []
  end ++
  concat (extension_args <$> exts) ++ each_arg "--config" (xc_Config <$> exts) ++
  (if existsb (fun ext => negb (bool_decide (xc_FilterType ext = ""))) exts then each_arg "--filter-type" (xc_FilterType <$> exts) else []).

(** ** Coloured output *)

(** [html.EscapeString]. *)
Definition escape_html (c : ascii) : string :=
  if decide (c = "&"%char) then "&amp;"
  else if decide (c = "'"%char) then "&#39;"
  else if decide (c = "<"%char) then "&lt;"
  else if decide (c = ">"%char) then "&gt;"
  else if decide (c = quote_byte) then "&#34;"
  else String c "".

Fixpoint EscapeString (s : string) : string :=
  match s with EmptyString => EmptyString | String c s' => escape_html c +:+ EscapeString s' end.

Definition esc : ascii := "027"%char.
Definition is_code_byte (c : ascii) : bool := between 48 57 c || bool_decide (c = ";"%char).

Fixpoint span_code (s : string) : string * string :=
  match s with
  | String c s' => if is_code_byte c then let '(a, b) := span_code s' in (String c a, b) else ("", s)
  | EmptyString => ("", "")
  end.

(** A match of [ansiRegex] at the start of a text: its codes and what follows. *)
Definition ansi_match (s : string) : option (string * string) :=
  match s with
  | String e (String b s1) =>
      if decide (e = esc /\ b = "["%char) then
        match span_code s1 with
        | (codes, String m rest) => if decide (m = "m"%char) then Some (codes, rest) else None
        | (_, EmptyString) => None
        end
      else None
  | _ => None
  end.

Definition ansiColors (code : Z) : option string :=
  match code with
  | 30 => Some "#4b5563" | 31 | 91 => Some "#fca5a5" | 32 | 92 => Some "#86efac" | 33 | 93 => Some "#fde68a"
  | 34 | 94 => Some "#93c5fd" | 35 | 95 => Some "#d8b4fe" | 36 | 96 => Some "#67e8f9" | 37 => Some "#e2e8f0"
  | 90 => Some "#9ca3af" | 97 => Some "#f8fafc"
  | _ => None
  end.

Definition defaultCodeColors (code : Z) : option string :=
  match code with 1 => Some "ansi-bold" | 2 => Some "ansi-dim" | 3 => Some "ansi-italic" | 4 => Some "ansi-underline" | _ => None end.

(** The attribute a code gives to the text after it. *)
Definition attribute (name value : string) : string := name +:+ "=" +:+ String quote_byte (value +:+ String quote_byte "").
Definition code_attribute (code : Z) : option string :=
  match defaultCodeColors code with
  | Some class => Some (attribute "class" class)
  | None => match ansiColors code with Some color => Some (attribute "style" ("color:" +:+ color)) | None => None end
  end.

Fixpoint close_tags (openTags : nat) : string := match openTags with O => "" | S n => "</span>" +:+ close_tags n end.

(** What the codes of a match write, and the tags that are open after them. *)
Fixpoint write_codes (codes : list string) (openTags : nat) : string * nat :=
  match codes with
  | [] => ("", openTags)
  | cs :: codes' =>
      let '(out, n) :=
        match Atoi cs with
        | None | Some 0 => (close_tags openTags, O)
        | Some code => match code_attribute code with Some a => ("<span " +:+ a +:+ ">", S openTags) | None => ("", openTags) end
        end in
      let '(out', n') := write_codes codes' n in (out +:+ out', n')
  end.

(** The text from here on; the fuel is the length of the text. *)
Fixpoint ansi_loop (fuel : nat) (s : string) (openTags : nat) : string :=
  match s, fuel with
  | EmptyString, _ => close_tags openTags
  | String _ _, O => ""
  | String c s', S n =>
      match ansi_match s with
      | Some (codes, rest) => let '(out, openTags') := write_codes (Split codes ";"%char) openTags in out +:+ ansi_loop n rest openTags'
      | None => String c (ansi_loop n s' openTags)
      end
  end.

Definition ansiToHTML (text : string) : string := let escaped := EscapeString text in ansi_loop (String.length escaped) escaped 0.

Definition sgr (codes rest : string) : string := String esc ("[" +:+ codes +:+ "m" +:+ rest).

Example ansiToHTML_ex :
  ansiToHTML (sgr "1;32" ("a<b" +:+ sgr "" "c")) =
    "<span " +:+ attribute "class" "ansi-bold" +:+ "><span " +:+ attribute "style" "color:#86efac" +:+ ">a&lt;b</span></span>c" /\
  ansiToHTML (sgr "31" "x") = "<span " +:+ attribute "style" "color:#fca5a5" +:+ ">x</span>" /\
  ansiToHTML (String esc "[1x") = String esc "[1x" /\ ansiToHTML (sgr "7" "y" +:+ "'") = "y&#39;".
Proof. vm_compute. repeat split. Qed.

(** ** The handlers *)

Record LocalExtension : Type := mkLocalExtension { le_Path : string; le_Manifest : list (string * any) }.

Definition any_set (k : string) (v : any) (m : list (string * any)) : list (string * any) := (k, v) :: filter (fun kv => kv.1 <> k) m.

Inductive ServerError : Type :=
| ErrReadManifest (path : string)
| ErrUnmarshalManifest (path : string)
| PanicNoName (path : string).

(** A response of the server, and [http.Error]. *)
Record Response : Type := mkResponse { rs_Status : Z; rs_ContentType : string; rs_Body : string }.
Definition http_error (msg : string) (status : Z) : Response :=
  mkResponse status "text/plain; charset=utf-8" (msg +:+ String "010" "").

Section Server.
(** YAML documents that are mappings, the catalog, the encoder, and the embedded schemas. *)
Context (yaml_map : string -> option (list (string * any))) (catalog : option (list any)) (encode : list any -> option string).
Context (schemas : gmap string string).

(** One round of [loadLocalExtensions]. *)
Definition load_local (fs : FileSystem) (local : string) (exts : gmap string LocalExtension) : result ServerError (gmap string LocalExtension) :=
  match ReadFile fs (JoinAll [Clean local; "manifest.yaml"]) with
  | None => Err (ErrReadManifest local)
  | Some manifest =>
      match yaml_map manifest with
      | None => Err (ErrUnmarshalManifest local)
      | Some data =>
          match any_get data "name" with
          | AString name =>
              let data1 := match any_get data "categories" with AList l => any_set "categories" (AList (l ++ [AString "Local"])) data | _ => data end in
              Ok (<[name := mkLocalExtension local (any_set "local" (ABool true) data1)]> exts)
          | _ => Err (PanicNoName local)
          end
      end
  end.

Fixpoint loadLocalExtensions (fs : FileSystem) (localExts : list string) (exts : gmap string LocalExtension) : result ServerError (gmap string LocalExtension) :=
  match localExts with
  | [] => Ok exts
  | local :: rest => try exts' <- load_local fs local exts; loadLocalExtensions fs rest exts'
  end.

(** The extensions of the catalog that no local one replaces. *)
Definition is_replaced (exts : gmap string LocalExtension) (ext : any) : bool :=
  match ext with
  | AMap m => match any_get m "name" with AString name => bool_decide (is_Some (exts !! name)) | _ => false end
  | _ => false
  end.

Definition listed_extensions (exts : gmap string LocalExtension) (order : list (string * LocalExtension)) (all : list any) : list any :=
  ((fun e => AMap (le_Manifest e.2)) <$> order) ++ filter (fun ext => is_replaced exts ext = false) all.

(** [handleGetExtensions], with the order in which the map of local extensions is iterated. *)
Definition handleGetExtensions (exts : gmap string LocalExtension) (order : list (string * LocalExtension)) : Response :=
  match catalog with
  | None => http_error "Failed to load extension catalog" 500
  | Some all =>
      match encode (listed_extensions exts order all) with
      | Some body => mkResponse 200 "application/json" body
      | None => http_error "Failed to write extensions response" 500
      end
  end.

Definition handleGetSchema (fs : FileSystem) (exts : gmap string LocalExtension) (name : string) : Response :=
  if bool_decide (name = "") then http_error "Extension name is required" 400
  else match
      match exts !! name with
      | Some localExt => ReadFile fs (JoinAll [le_Path localExt; "config.schema.json"])
      | None => schemas !! JoinAll ["schemas"; name +:+ ".json"]
      end
    with
    | Some data => mkResponse 200 "application/json" data
    | None => http_error "No config schema for this extension" 404
    end.
End Server.

#[export] Instance decode_ExtensionConfig : Decodable ExtensionConfig := {
  zero_value := mkExtensionConfig "" "" "" "";
  decode_into := decode_struct [
    field "name" xc_Name (fun v '(mkExtensionConfig _ b c d) => mkExtensionConfig v b c d);
    field "config" xc_Config (fun v '(mkExtensionConfig a _ c d) => mkExtensionConfig a v c d);
    field "filterType" xc_FilterType (fun v '(mkExtensionConfig a b _ d) => mkExtensionConfig a b v d)
  ];
}.

Record RunRequest : Type := mkRunRequest { rr_Extensions : list (option ExtensionConfig) }.

#[export] Instance decode_RunRequest : Decodable RunRequest := {
  zero_value := mkRunRequest [];
  decode_into := decode_struct [field "extensions" rr_Extensions (fun v _ => mkRunRequest v)];
}.

(** [Decoder.Decode]: the first value of a body; what follows it is not read. *)
Definition DecodeFirst {A} `{!Decodable A} (body : string) : option A :=
  match scan_value (2 * String.length body + 1) maxNestingDepth (skip_space body) with
  | Some (v, rest) => let '(a, ok) := decode_into zero_value (consumed (skip_space body) rest, v) in if ok : bool then Some a else None
  | None => None
  end.

(** What [handleRun] does: an answer, a command for the executor, or a panic on a null extension. *)
Inductive RunOutcome : Type :=
| RunRefused (r : Response)
| RunPanics
| RunStreams (exts : list ExtensionConfig).

Definition with_local (exts : gmap string LocalExtension) (ext : ExtensionConfig) : ExtensionConfig :=
  match exts !! xc_Name ext with
  | Some localExt => mkExtensionConfig (xc_Name ext) (xc_Config ext) (xc_FilterType ext) (le_Path localExt)
  | None => ext
  end.

Definition handleRun (exts : gmap string LocalExtension) (body : string) : RunOutcome :=
  match DecodeFirst body : option RunRequest with
  | None => RunRefused (http_error "Invalid request body" 400)
  | Some req =>
      match rr_Extensions req with
      | [] => RunRefused (http_error "At least one extension is required" 400)
      | l => match mapM id l with Some l' => RunStreams (with_local exts <$> l') | None => RunPanics end
      end
  end.

Example handleRun_ex :
  handleRun (<["auth" := mkLocalExtension "/src/auth" []]> ∅) (dq "{'extensions':[{'name':'auth','config':'{}'},{'name':'waf','filterType':'http'}]} x") =
    RunStreams [mkExtensionConfig "auth" "{}" "" "/src/auth"; mkExtensionConfig "waf" "" "http" ""] /\
  handleRun ∅ (dq "{'extensions':[null]}") = RunPanics /\
  handleRun ∅ "{" = RunRefused (http_error "Invalid request body" 400).
Proof. vm_compute. repeat split. Qed.

(** ** Events *)

Definition sendSSE (event data : string) : string :=
  "event: " +:+ event +:+ String "010" ("data: " +:+ data +:+ String "010" (String "010" "")).

(** How a command ends: it cannot be started, its output cannot be read, or it has exited. *)
Inductive CommandEnd : Type := NoPipe (err : string) | NoStart (err : string) | BadOutput (err : string) | Exited (err : option string) (cancelled : bool).

(** What [streamCommand] sends for the lines of the output. *)
Definition stream_events (lines : list string) (how : CommandEnd) : list (string * string) :=
  let started := ("status", "started") :: ((fun l => ("output", ansiToHTML l)) <$> lines) in
  match how with
  | NoPipe err => [("error", "Failed to create stdout pipe: " +:+ err)]
  | NoStart err => [("error", "Failed to start boe: " +:+ err)]
  | BadOutput err => started ++ [("error", "Error reading boe output: " +:+ err)]
  | Exited None _ => started ++ [("status", "completed")]
  | Exited (Some _) true => started ++ [("status", "stopped")]
  | Exited (Some err) false => started ++ [("error", "Process exited with error: " +:+ err)]
  end.

Definition stream_text (events : list (string * string)) : string := Join ((fun e => sendSSE e.1 e.2) <$> events) "".

(** An event is read back from its three lines. *)
Definition read_event (lines : list string) : option (string * string) :=
  match lines with
  | [l1; l2; l3] => if HasPrefix l1 "event: " && HasPrefix l2 "data: " && bool_decide (l3 = "") then Some (TrimPrefix l1 "event: ", TrimPrefix l2 "data: ") else None
  | _ => None
  end.

Lemma sendSSE_read event data :
  ContainsByte event newline = false -> ContainsByte data newline = false ->
  read_event (complete_lines (sendSSE event data)) = Some (event, data) /\ rest_line (sendSSE event data) = "".
Proof.
  intros He Hd. unfold sendSSE. change "010"%char with newline.
  assert (Hsplit : Split ("event: " +:+ event +:+ String newline ("data: " +:+ data +:+ String newline (String newline ""))) newline =
    ["event: " +:+ event; "data: " +:+ data; ""; ""]).
  { rewrite <- str_app_assoc, Split_app, (Split_absent ("event: " +:+ event)) by (by rewrite ContainsByte_app, He).
    rewrite <- str_app_assoc, Split_app, (Split_absent ("data: " +:+ data)) by (by rewrite ContainsByte_app, Hd). done. }
  unfold complete_lines, rest_line. rewrite Hsplit. cbn [removelast List.last read_event]. rewrite !HasPrefix_app, !TrimPrefix_app. done.
Qed.

(** ** The HTML is balanced and carries the text *)

(** Output is text and tags; tags have one of the known attributes. *)
Inductive Piece : Type := PText (s : string) | POpen (attr : string) | PClose.

Definition render_piece (p : Piece) : string := match p with PText s => s | POpen a => "<span " +:+ a +:+ ">" | PClose => "</span>" end.
Definition render_pieces (ps : list Piece) : string := Join (render_piece <$> ps) "".
Definition piece_text (p : Piece) : string := match p with PText s => s | _ => "" end.
Definition pieces_text (ps : list Piece) : string := Join (piece_text <$> ps) "".

(** Every tag is closed, from [depth] open ones. *)
Fixpoint balanced (depth : nat) (ps : list Piece) : Prop :=
  match ps with
  | [] => depth = O
  | PText _ :: ps' => balanced depth ps'
  | POpen _ :: ps' => balanced (S depth) ps'
  | PClose :: ps' => match depth with O => False | S d => balanced d ps' end
  end.

(** Text has no markup and tags are known ones. *)
Definition safe_piece (p : Piece) : Prop :=
  match p with
  | PText s => forall c, c ∈ ["<"; ">"; "'"; quote_byte]%char -> ContainsByte s c = false
  | POpen a => exists code, code_attribute code = Some a
  | PClose => True
  end.

(** The text without the escape sequences. *)
Fixpoint strip_loop (fuel : nat) (s : string) : string :=
  match s, fuel with
  | EmptyString, _ => ""
  | String _ _, O => ""
  | String c s', S n => match ansi_match s with Some (_, rest) => strip_loop n rest | None => String c (strip_loop n s') end
  end.
Definition strip_ansi (s : string) : string := strip_loop (String.length s) s.

Lemma span_code_length s : (String.length (span_code s).2 <= String.length s)%nat.
Proof. induction s as [|c s IH]; cbn; [lia|]. destruct (is_code_byte c); [|cbn; lia]. destruct (span_code s). cbn in *. lia. Qed.

Lemma ansi_match_length s codes rest : ansi_match s = Some (codes, rest) -> (String.length rest < String.length s)%nat.
Proof.
  unfold ansi_match. destruct s as [|e [|b s1]]; [done|done|]. destruct (decide _) as [_|_]; [|done].
  pose proof (span_code_length s1) as Hl. destruct (span_code s1) as [a [|m r]]; [done|]. destruct (decide _) as [_|_]; [|done].
  intros [= <- <-]. cbn in *. lia.
Qed.

Lemma strip_loop_fuel n m s : (String.length s <= n)%nat -> (String.length s <= m)%nat -> strip_loop n s = strip_loop m s.
Proof.
  revert m s. induction n as [|n IH]; intros m [|c s] Hn Hm; cbn in Hn; try lia; [by destruct m|by destruct m|].
  destruct m as [|m]; cbn in Hm; [lia|]. cbn [strip_loop]. destruct (ansi_match (String c s)) as [[codes rest]|] eqn:Ha.
  - apply ansi_match_length in Ha. cbn in Ha. apply IH; lia.
  - f_equal. apply IH; lia.
Qed.

(** Escaping does not touch escape sequences, and creates none. *)
Lemma escape_code_byte c : is_code_byte c = true -> escape_html c = String c "".
Proof.
  intros Hc. unfold escape_html. repeat (case_decide; [subst; by vm_compute in Hc|]). done.
Qed.

Lemma escape_html_head c : exists d t, escape_html c = String d t /\ (d = c /\ t = "" \/ d = "&"%char) /\ ContainsByte t esc = false /\ (d = esc <-> c = esc).
Proof.
  unfold escape_html. repeat case_decide; subst; (eexists _, _; split; [reflexivity|]; split_and!; [by auto|done|by split; intros]).
Qed.

Lemma span_code_escape s : span_code (EscapeString s) = ((span_code s).1, EscapeString (span_code s).2).
Proof.
  induction s as [|c s IH]; [done|]. cbn [EscapeString span_code]. destruct (is_code_byte c) eqn:Hc.
  - rewrite escape_code_byte by done. cbn. rewrite Hc, IH. by destruct (span_code s).
  - destruct (escape_html_head c) as (d & t & He & Hd & _). rewrite He. cbn [String.append span_code fst snd EscapeString]. rewrite He.
    destruct Hd as [[-> ->]| ->]; [by rewrite Hc|]. done.
Qed.

Lemma ansi_match_escape s : ansi_match (EscapeString s) = (fun '(codes, rest) => (codes, EscapeString rest)) <$> ansi_match s.
Proof.
  destruct s as [|e s0]; [done|]. cbn [EscapeString]. destruct (decide (e = esc)) as [->|Hne].
  2: { destruct (escape_html_head e) as (d & t & -> & _ & _ & Hd). assert (d <> esc) by naive_solver. cbn [String.append].
       transitivity (@None (string * string)); [|symmetry]; unfold ansi_match.
       - destruct (t +:+ EscapeString s0); [done|]. rewrite decide_False by naive_solver. done.
       - destruct s0; [done|]. rewrite decide_False by naive_solver. done. }
  change (escape_html esc) with (String esc ""). cbn [String.append]. destruct s0 as [|b s1]; [done|]. cbn [EscapeString].
  destruct (decide (b = "["%char)) as [->|Hb].
  2: { destruct (escape_html_head b) as (d & t & -> & Hd & _). cbn [String.append]. unfold ansi_match.
       rewrite !decide_False by naive_solver. done. }
  change (escape_html "[") with "[". cbn [String.append]. unfold ansi_match. rewrite !decide_True by done. rewrite span_code_escape.
  destruct (span_code s1) as [codes [|m r]]; cbn [fst snd EscapeString]; [done|]. destruct (decide (m = "m"%char)) as [->|Hm].
  - change (escape_html "m") with "m". cbn [String.append]. by rewrite decide_True.
  - destruct (escape_html_head m) as (d & t & -> & Hd & _). cbn [String.append]. rewrite decide_False by naive_solver. done.
Qed.

Lemma ansi_loop_fuel n m s k : (String.length s <= n)%nat -> (String.length s <= m)%nat -> ansi_loop n s k = ansi_loop m s k.
Proof.
  revert m s k. induction n as [|n IH]; intros m [|c s] k Hn Hm; cbn in Hn; try lia; [by destruct m|by destruct m|].
  destruct m as [|m]; cbn in Hm; [lia|]. cbn [ansi_loop]. destruct (ansi_match (String c s)) as [[codes rest]|] eqn:Ha.
  - apply ansi_match_length in Ha. cbn in Ha. destruct (write_codes _ k) as [out k']. f_equal. apply IH; lia.
  - f_equal. apply IH; lia.
Qed.

(** Text without the escape byte is copied. *)
Lemma ansi_loop_text t s k : ContainsByte t esc = false ->
  ansi_loop (String.length (t +:+ s)) (t +:+ s) k = t +:+ ansi_loop (String.length s) s k.
Proof.
  induction t as [|c t IH]; [done|]. cbn [ContainsByte]. intros [Hc%bool_decide_eq_false Ht]%orb_false_iff. cbn [String.append String.length ansi_loop].
  assert (ansi_match (String c (t +:+ s)) = None) as ->.
  { unfold ansi_match. destruct (t +:+ s); [done|]. rewrite decide_False by naive_solver. done. }
  by rewrite IH.
Qed.

Definition close_pieces (k : nat) : list Piece := replicate k PClose.

Lemma render_pieces_app ps qs : render_pieces (ps ++ qs) = render_pieces ps +:+ render_pieces qs.
Proof. unfold render_pieces. induction ps as [|p ps IH]; cbn [app fmap list_fmap]; [done|]. by rewrite !Join_cons, IH, str_app_assoc. Qed.
Lemma pieces_text_app ps qs : pieces_text (ps ++ qs) = pieces_text ps +:+ pieces_text qs.
Proof. unfold pieces_text. induction ps as [|p ps IH]; cbn [app fmap list_fmap]; [done|]. by rewrite !Join_cons, IH, str_app_assoc. Qed.

Lemma close_pieces_spec k : render_pieces (close_pieces k) = close_tags k /\ pieces_text (close_pieces k) = "" /\
  Forall safe_piece (close_pieces k) /\ (forall d ps, balanced d ps -> balanced (k + d) (close_pieces k ++ ps)).
Proof.
  induction k as [|k (H1 & H2 & H3 & H4)]; [split_and!; [done|done|constructor|done]|]. unfold close_pieces in *. cbn [replicate].
  unfold render_pieces, pieces_text in *. cbn [fmap list_fmap]. rewrite !Join_cons, H1, H2. split_and!; [done|done|by constructor|].
  intros d ps Hb. cbn. by apply H4.
Qed.

Lemma write_codes_pieces codes k out k' : write_codes codes k = (out, k') ->
  exists ps, render_pieces ps = out /\ pieces_text ps = "" /\ Forall safe_piece ps /\ (forall qs, balanced k' qs -> balanced k (ps ++ qs)).
Proof.
  revert k out k'. induction codes as [|cs codes IH]; intros k out k'; cbn [write_codes].
  { intros [= <- <-]. exists []. split_and!; [done|done|constructor|done]. }
  set (r := match Atoi cs with None => _ | Some _ => _ end).
  assert (Hr : exists ps, render_pieces ps = r.1 /\ pieces_text ps = "" /\ Forall safe_piece ps /\ (forall qs, balanced r.2 qs -> balanced k (ps ++ qs))).
  { destruct (close_pieces_spec k) as (H1 & H2 & H3 & H4).
    assert (Hclose : exists ps, render_pieces ps = close_tags k /\ pieces_text ps = "" /\ Forall safe_piece ps /\ (forall qs, balanced 0 qs -> balanced k (ps ++ qs))).
    { exists (close_pieces k). split_and!; try done. intros qs Hq. rewrite <- (Nat.add_0_r k) at 1. by apply H4. }
    assert (Hcode : forall code, let r := match code_attribute code with Some a => ("<span " +:+ a +:+ ">", S k) | None => ("", k) end in
      exists ps, render_pieces ps = r.1 /\ pieces_text ps = "" /\ Forall safe_piece ps /\ (forall qs, balanced r.2 qs -> balanced k (ps ++ qs))).
    { intros code. destruct (code_attribute code) as [a|] eqn:Ha; cbn [fst snd].
      - exists [POpen a]. split_and!; [done|done| |done]. apply Forall_singleton. by exists code.
      - exists []. split_and!; [done|done|constructor|done]. }
    subst r. destruct (Atoi cs) as [[|p|p]|]; [exact Hclose|apply Hcode..|exact Hclose]. }
  destruct r as [out1 k1]. destruct (write_codes codes k1) as [out2 k2] eqn:Hw. intros [= <- <-].
  destruct Hr as (ps & H1 & H2 & H3 & H4), (IH _ _ _ Hw) as (qs & G1 & G2 & G3 & G4). cbn [fst snd] in *.
  exists (ps ++ qs). rewrite render_pieces_app, pieces_text_app, H1, H2, G1, G2, <- ?app_assoc. split_and!; [done|done|by apply Forall_app|].
  intros rest Hrest. rewrite <- app_assoc. by apply H4, G4.
Qed.

Lemma escape_html_safe c : safe_piece (PText (escape_html c)).
Proof.
  intros d Hd. unfold escape_html. repeat case_decide; subst; cbn [ContainsByte];
    repeat (apply elem_of_cons in Hd as [->|Hd]; [by rewrite ?bool_decide_eq_false_2|]); by apply elem_of_nil in Hd.
Qed.

Lemma escape_html_esc c : c <> esc -> ContainsByte (escape_html c) esc = false.
Proof.
  intros Hc. destruct (escape_html_head c) as (d & t & -> & _ & Ht & Hd). cbn. rewrite Ht, orb_false_r. apply bool_decide_eq_false. naive_solver.
Qed.

Lemma ansi_loop_pieces n s k : (String.length s <= n)%nat ->
  exists ps, ansi_loop (String.length (EscapeString s)) (EscapeString s) k = render_pieces ps /\ balanced k ps /\
    pieces_text ps = EscapeString (strip_loop n s) /\ Forall safe_piece ps.
Proof.
  revert s k. induction n as [|n IH]; intros [|c s] k Hn; cbn in Hn; try lia;
    try (destruct (close_pieces_spec k) as (H1 & H2 & H3 & H4); exists (close_pieces k); cbn; split_and!; try done;
         rewrite <- (Nat.add_0_r k), <- (app_nil_r (close_pieces _)) at 1; by apply H4).
  cbn [strip_loop]. pose proof (ansi_match_escape (String c s)) as Hm.
  destruct (ansi_match (String c s)) as [[codes rest]|] eqn:Ha; cbn [fmap option_fmap option_map] in Hm.
  - apply ansi_match_length in Ha. cbn in Ha. destruct (IH rest (write_codes (Split codes ";"%char) k).2) as (qs & H1 & H2 & H3 & H4); [lia|].
    destruct (write_codes (Split codes ";"%char) k) as [out k'] eqn:Hw. cbn [snd] in *.
    destruct (write_codes_pieces _ _ _ _ Hw) as (ps & G1 & G2 & G3 & G4). exists (ps ++ qs).
    rewrite render_pieces_app, pieces_text_app, G1, G2, <- H1, H3. split_and!; [|by apply G4|done|by apply Forall_app].
    pose proof (ansi_match_length _ _ _ Hm) as Hl. revert Hm Hl. generalize (EscapeString (String c s)) as es. intros [|d t] Hm Hl; [cbn in Hl; lia|].
    cbn [String.length ansi_loop]. rewrite Hm, Hw. f_equal. cbn in Hl. apply ansi_loop_fuel; lia.
  - destruct (IH s k) as (qs & H1 & H2 & H3 & H4); [lia|]. exists (PText (escape_html c) :: qs). cbn [balanced EscapeString].
    unfold render_pieces, pieces_text in *. cbn [fmap list_fmap render_piece piece_text]. rewrite !Join_cons, <- H1, H3.
    split_and!; [|done|done|by constructor; [apply escape_html_safe|]].
    destruct (decide (c = esc)) as [->|Hc]; [|by apply ansi_loop_text, escape_html_esc].
    change (escape_html esc) with (String esc ""). cbn [String.append String.length ansi_loop]. change (EscapeString (String esc s)) with (String esc (EscapeString s)) in Hm.
    by rewrite Hm.
Qed.

(** C35: The HTML of a line of output is text and span tags with known attributes: every tag that is
    opened is closed, and the text is the escaped line without its escape sequences, so that no
    output can add markup of its own. *)
Theorem ansi_html_safe text :
  exists ps, ansiToHTML text = render_pieces ps /\ balanced 0 ps /\ pieces_text ps = EscapeString (strip_ansi text) /\ Forall safe_piece ps.
Proof. apply ansi_loop_pieces. lia. Qed.

(** ** The order of the extensions survives the command line *)

Definition extension_token (ext : ExtensionConfig) : Token := if bool_decide (xc_LocalPath ext = "") then TRemote (xc_Name ext) else TLocal (xc_LocalPath ext).

(** Values that the search for positions does not take for its flags. *)
Definition plain_extension (cwd : option string) (ext : ExtensionConfig) : Prop :=
  not_flag (xc_Name ext) /\ not_flag (xc_Config ext) /\ not_flag (xc_FilterType ext) /\ not_flag (xc_LocalPath ext) /\ is_Some (Abs cwd (xc_LocalPath ext)).

Lemma each_arg_tokens flag values : not_flag flag -> Forall not_flag values ->
  exists ts, each_arg flag values = concat (token_args <$> ts) /\ Forall good_token ts /\ (forall t, t ∈ ts -> exists a, t = TOther a).
Proof.
  intros Hf. induction values as [|v values IH]; intros Hv; [by exists []; split_and!; [|constructor|set_solver]|].
  apply Forall_cons in Hv as [Hv Hvs]. destruct (IH Hvs) as (ts & He & Hg & Ho). exists (TOther flag :: TOther v :: ts).
  unfold each_arg in *. cbn [fmap list_fmap concat token_args app]. rewrite He. split_and!; [done|by constructor; [|constructor]|set_solver].
Qed.

Lemma others_tokens args : Forall not_flag args ->
  exists ts, args = concat (token_args <$> ts) /\ Forall good_token ts /\ (forall t, t ∈ ts -> exists a, t = TOther a).
Proof.
  induction args as [|a args IH]; intros Ha; [by exists []; split_and!; [|constructor|set_solver]|].
  apply Forall_cons in Ha as [Ha Has]. destruct (IH Has) as (ts & He & Hg & Ho). exists (TOther a :: ts).
  cbn [fmap list_fmap concat token_args app]. rewrite <- He. split_and!; [done|by constructor|set_solver].
Qed.

Lemma others_not_wanted cwd ts : (forall t, t ∈ ts -> exists a, t = TOther a) -> omap (wanted cwd) ts = [].
Proof. induction ts as [|t ts IH]; intros Ho; [done|]. cbn. destruct (Ho t) as [a ->]; [by left|]. cbn. apply IH. set_solver. Qed.

Lemma FormatInt_not_flag z : not_flag (FormatInt z).
Proof. split; intros E; pose proof (FormatInt_no_byte z "l"%char eq_refl ltac:(done)) as H; pose proof (FormatInt_no_byte z "e"%char eq_refl ltac:(done)) as H'; by rewrite E in H, H'. Qed.

(** The command line as tokens. *)
Lemma buildArgs_tokens cwd listen action base exts :
  not_flag action -> Forall not_flag base -> Forall (plain_extension cwd) exts ->
  exists before after, buildArgs listen action base exts = concat (token_args <$> before ++ (extension_token <$> exts) ++ after) /\
    Forall good_token (before ++ after) /\ (forall t, t ∈ before ++ after -> exists a, t = TOther a).
Proof.
  intros Ha Hb He. set (ports := match freePorts listen 2 with Some [l; a] => ["--listen-port"; FormatInt l; "--admin-port"; FormatInt a] | _ => [] end).
  assert (Hp : Forall not_flag ports).
  { subst ports. destruct (freePorts listen 2) as [[|l [|a [|]]]|]; repeat constructor; try done; apply FormatInt_not_flag. }
  destruct (others_tokens ([action] ++ base ++ ports)) as (t1 & E1 & G1 & O1); [by rewrite !Forall_app, Forall_singleton|].
  destruct (each_arg_tokens "--config" (xc_Config <$> exts)) as (t2 & E2 & G2 & O2); [done|apply Forall_fmap; eapply Forall_impl; [exact He|]; by intros x (_ & ? & _)|].
  destruct (each_arg_tokens "--filter-type" (xc_FilterType <$> exts)) as (t3 & E3 & G3 & O3); [done|apply Forall_fmap; eapply Forall_impl; [exact He|]; by intros x (_ & _ & ? & _)|].
  exists t1, (t2 ++ if existsb (fun ext => negb (bool_decide (xc_FilterType ext = ""))) exts then t3 else []). split_and!.
  - unfold buildArgs. fold ports. rewrite !fmap_app, !concat_app, <- E1, <- E2, <- !app_assoc. f_equal. f_equal. f_equal. f_equal.
    + rewrite <- list_fmap_compose. f_equal. apply list_fmap_ext. intros _ x _. unfold extension_args, extension_token. cbn. by case_bool_decide.
    + f_equal. destruct (existsb _ exts); [done|]. done.
  - rewrite !Forall_app. split_and!; [done|done|]. by destruct (existsb _ exts).
  - intros t Ht. apply elem_of_app in Ht as [Ht|[Ht|Ht]%elem_of_app]; [by apply O1|by apply O2|]. destruct (existsb _ exts); [by apply O3|by apply elem_of_nil in Ht].
Qed.

(** C36: The command that the interface runs records every extension of the request at its place in
    the request, so that the filters run in the order the user has given, if no value on the
    command line is one of the two flags themselves. *)
Theorem ui_command_order cwd listen exe base exts :
  not_flag exe -> Forall not_flag base -> Forall (plain_extension cwd) exts ->
  exists p flags, saveExtensionPositions cwd (exe :: buildArgs listen "run" base exts) = Ok p /\
    Forall2 (fun ext w => wanted cwd (extension_token ext) = Some w) exts flags /\ recorded flags p.
Proof.
  intros Hexe Hb He. destruct (buildArgs_tokens cwd listen "run" base exts) as (before & after & E & Hg & Ho); [done..|].
  assert (Hext : Forall good_token (extension_token <$> exts)).
  { apply Forall_fmap. eapply Forall_impl; [exact He|]. intros x (Hn & _ & _ & Hl & _). unfold extension_token. cbn. by case_bool_decide. }
  assert (Hpaths : paths_known cwd (TOther exe :: before ++ (extension_token <$> exts) ++ after)).
  { intros q [Hq|[Hq|[Hq|Hq]%elem_of_app]%elem_of_app]%elem_of_cons; [done| | |].
    - destruct (Ho (TLocal q)) as [a Ha]; [set_solver|done].
    - apply list_elem_of_fmap in Hq as (x & Hx & Hin). rewrite Forall_forall in He. destruct (He x Hin) as (_ & _ & _ & _ & Habs).
      unfold extension_token in Hx. case_bool_decide; [done|]. by injection Hx as ->.
    - destruct (Ho (TLocal q)) as [a Ha]; [set_solver|done]. }
  destruct (save_positions_recorded cwd (TOther exe :: before ++ (extension_token <$> exts) ++ after) [] no_positions) as (p & Hs & Hr); [|done| |].
  { apply Forall_app in Hg as [? ?]. constructor; [done|]. by rewrite !Forall_app. }
  { split_and!; cbn; intros k; try intros i; try done; rewrite lookup_empty; set_solver. }
  assert (Hw : omap (wanted cwd) (TOther exe :: before ++ (extension_token <$> exts) ++ after) = omap (wanted cwd) (extension_token <$> exts)).
  { cbn. rewrite !omap_app, (others_not_wanted cwd before), (others_not_wanted cwd after), app_nil_r; [done|set_solver..]. }
  rewrite Hw in Hr. exists p, (omap (wanted cwd) (extension_token <$> exts)). cbn [fmap list_fmap concat token_args app] in Hs. rewrite <- E in Hs.
  split_and!; [exact Hs| |exact Hr]. clear -He. induction exts as [|x exts IH]; [constructor|]. apply Forall_cons in He as [(_ & _ & _ & _ & [q Hq]) He].
  cbn. assert (exists w, wanted cwd (extension_token x) = Some w) as [w Hw] by (unfold extension_token; case_bool_decide; cbn; rewrite ?Hq; by eexists).
  rewrite Hw. constructor; [done|by apply IH].
Qed.

Lemma ui_command_order_witness :
  exists p flags,
    saveExtensionPositions (Some "/home") ("boe" :: buildArgs (fun i => Some (10000 + Z.of_nat i)) "run" ["--dev"]
      [mkExtensionConfig "waf" "{}" "" ""; mkExtensionConfig "auth" "" "http" "ext/auth"]) = Ok p /\
    Forall2 (fun ext w => wanted (Some "/home") (extension_token ext) = Some w)
      [mkExtensionConfig "waf" "{}" "" ""; mkExtensionConfig "auth" "" "http" "ext/auth"] flags /\ recorded flags p.
Proof.
  apply (ui_command_order (Some "/home") (fun i => Some (10000 + Z.of_nat i)) "boe" ["--dev"]
    [mkExtensionConfig "waf" "{}" "" ""; mkExtensionConfig "auth" "" "http" "ext/auth"]);
    [by split|by apply Forall_singleton|]. repeat (constructor; [split_and!; try (by split); by eexists|]). constructor.
Defined.

(** ** The executor *)

(** A call of [streamCommand]: where its handler is, whether its process was started and still
    lives, whether it was signalled, and whether its context is cancelled.  [c_overtaken] records
    that another call took its place before the process was started. *)
Inductive Handler : Type := HRegistered | HStreaming | HFinishing | HReturned.
Inductive Process : Type := PNone | PAlive | PExited.

#[export] Instance Handler_eq_dec : EqDecision Handler.
Proof. solve_decision. Defined.
#[export] Instance Process_eq_dec : EqDecision Process.
Proof. solve_decision. Defined.

Record Call : Type := mkCall { c_handler : Handler; c_process : Process; c_signalled : bool; c_cancelled : bool; c_overtaken : bool }.
Record Executor : Type := mkExecutor { ex_running : option nat; ex_calls : gmap nat Call }.

Definition initial_executor : Executor := mkExecutor None ∅.

(** [killProcessGroup]: nothing happens before the process is started. *)
Definition killProcessGroup (c : Call) : Call :=
  match c_process c with
  | PNone => c
  | _ => mkCall (c_handler c) (c_process c) true (c_cancelled c) (c_overtaken c)
  end.

(** A running command that is replaced by another. *)
Definition replaced_call (c : Call) : Call :=
  let c' := killProcessGroup c in
  mkCall (c_handler c') (c_process c') (c_signalled c') (c_cancelled c') (c_overtaken c' || bool_decide (c_process c' = PNone)).

Definition cancel_call (c : Call) : Call := mkCall (c_handler c) (c_process c) (c_signalled c) true (c_overtaken c).
Definition at_handler (h : Handler) (c : Call) : Call := mkCall h (c_process c) (c_signalled c) (c_cancelled c) (c_overtaken c).
Definition with_process (p : Process) (c : Call) : Call := mkCall (c_handler c) p (c_signalled c) (c_cancelled c) (c_overtaken c).

(** [Stop]: whether a command was running. *)
Definition Stop (e : Executor) : Executor * bool :=
  match ex_running e with
  | Some i => (mkExecutor None (alter (fun c => cancel_call (killProcessGroup c)) i (ex_calls e)), true)
  | None => (e, false)
  end.

Definition handleStop (e : Executor) : Executor * Response :=
  match Stop e with
  | (e', true) => (e', mkResponse 200 "application/json" (json_object [("status", Quote "stopped")] +:+ String "010" ""))
  | (e', false) => (e', http_error "no running process" 500)
  end.

(** The first block under the lock of [streamCommand], and the deferred one with the deferred
    [cancel] that follows it: the window between those two is not modelled. *)
Definition register (i : nat) (e : Executor) : Executor :=
  mkExecutor (Some i) (<[i := mkCall HRegistered PNone false false false]> (match ex_running e with Some j => alter replaced_call j (ex_calls e) | None => ex_calls e end)).
Definition unregister (i : nat) (e : Executor) : Executor :=
  mkExecutor (if bool_decide (ex_running e = Some i) then None else ex_running e)
    (alter (fun c => at_handler HReturned (cancel_call c)) i (ex_calls e)).

(** The steps: requests, [Stop], the handlers, the processes and the client.  A cancelled context
    prevents a start, and signals a process that was started. *)
Inductive exec_step : Executor -> Executor -> Prop :=
| step_request e i : ex_calls e !! i = None -> exec_step e (register i e)
| step_stop e : exec_step e (Stop e).1
| step_start e i c : ex_calls e !! i = Some c -> c_handler c = HRegistered -> c_cancelled c = false ->
    exec_step e (mkExecutor (ex_running e) (<[i := at_handler HStreaming (with_process PAlive c)]> (ex_calls e)))
| step_start_fails e i c : ex_calls e !! i = Some c -> c_handler c = HRegistered ->
    exec_step e (mkExecutor (ex_running e) (<[i := at_handler HFinishing c]> (ex_calls e)))
| step_watch e i c : ex_calls e !! i = Some c -> c_cancelled c = true -> c_process c = PAlive ->
    exec_step e (mkExecutor (ex_running e) (<[i := killProcessGroup c]> (ex_calls e)))
| step_exit e i c : ex_calls e !! i = Some c -> c_process c = PAlive ->
    exec_step e (mkExecutor (ex_running e) (<[i := with_process PExited c]> (ex_calls e)))
| step_output_ends e i c : ex_calls e !! i = Some c -> c_handler c = HStreaming -> c_process c = PExited ->
    exec_step e (mkExecutor (ex_running e) (<[i := at_handler HFinishing c]> (ex_calls e)))
| step_output_fails e i c : ex_calls e !! i = Some c -> c_handler c = HStreaming ->
    exec_step e (mkExecutor (ex_running e) (<[i := at_handler HFinishing c]> (ex_calls e)))
| step_return e i c : ex_calls e !! i = Some c -> c_handler c = HFinishing -> exec_step e (unregister i e)
| step_disconnect e i c : ex_calls e !! i = Some c -> exec_step e (mkExecutor (ex_running e) (<[i := cancel_call c]> (ex_calls e))).

(** Every call is the current one, or was told to end, or was overtaken before it started. *)
Definition told (c : Call) : bool := c_signalled c || c_cancelled c || c_overtaken c.

Definition executor_inv (e : Executor) : Prop :=
  (forall i c, ex_calls e !! i = Some c -> ex_running e = Some i \/ told c = true) /\
  (forall i, ex_running e = Some i -> exists c, ex_calls e !! i = Some c /\ c_handler c <> HReturned).

(** A step of one call that forgets none of its marks and does not return from it. *)
Lemma executor_inv_update e i c c' :
  executor_inv e -> ex_calls e !! i = Some c -> (told c = true -> told c' = true) -> (c_handler c' = HReturned -> c_handler c = HReturned) ->
  executor_inv (mkExecutor (ex_running e) (<[i := c']> (ex_calls e))).
Proof.
  intros [H1 H2] Hc Ht Hh. split; cbn.
  - intros j cj [[<- <-]|[Hne Hj]]%lookup_insert_Some; [|by apply H1]. destruct (H1 i c Hc); [by left|right; by apply Ht].
  - intros j Hj. destruct (decide (i = j)) as [->|Hne]; [|rewrite lookup_insert_ne by done; by apply H2].
    exists c'. rewrite lookup_insert_eq. split; [done|]. destruct (H2 j Hj) as (c0 & Hc0 & Hh0). naive_solver.
Qed.

Lemma told_killed c : c_process c <> PNone -> told (killProcessGroup c) = true.
Proof. unfold killProcessGroup, told. by destruct (c_process c). Qed.

Lemma told_replaced c : told (replaced_call c) = true.
Proof.
  unfold replaced_call, told, killProcessGroup. destruct (c_process c) eqn:Hp; cbn; rewrite ?Hp; cbn; by rewrite ?orb_true_r.
Qed.

Lemma executor_inv_register e i : executor_inv e -> ex_calls e !! i = None -> executor_inv (register i e).
Proof.
  intros [H1 H2] Hi. split; cbn.
  - intros j cj [[<- <-]|[Hne Hj]]%lookup_insert_Some; [by left|right]. destruct (ex_running e) as [k|] eqn:Hk.
    + apply lookup_alter_Some in Hj as [(-> & c0 & Hc0 & ->)|[Hkj Hj]]; [apply told_replaced|]. destruct (H1 j cj Hj) as [[= ->]|?]; done.
    + by destruct (H1 j cj Hj).
  - intros j [= <-]. eexists. rewrite lookup_insert_eq. by split.
Qed.

Lemma executor_inv_stop e : executor_inv e -> executor_inv (Stop e).1.
Proof.
  intros [H1 H2]. unfold Stop. destruct (ex_running e) as [k|] eqn:Hk; [|by split; cbn; rewrite ?Hk]. split; cbn; [|done].
  intros j cj [(-> & c0 & Hc0 & ->)|[Hkj Hj]]%lookup_alter_Some; right; [unfold told; cbn; by rewrite orb_true_r|]. by destruct (H1 j cj Hj) as [[= ->]|?].
Qed.

Lemma executor_inv_unregister e i c : executor_inv e -> ex_calls e !! i = Some c -> executor_inv (unregister i e).
Proof.
  intros [H1 H2] Hc. split; cbn.
  - intros j cj [(-> & c0 & Hc0 & ->)|[Hij Hj]]%lookup_alter_Some; [right; unfold told; cbn; by rewrite orb_true_r|].
    destruct (H1 j cj Hj) as [Hr|]; [left|by right]. case_bool_decide as Hb; [congruence|done].
  - intros j. case_bool_decide as Hb; [done|]. intros Hj. rewrite lookup_alter_ne by congruence. by apply H2.
Qed.

Lemma executor_inv_step e e' : executor_inv e -> exec_step e e' -> executor_inv e'.
Proof.
  intros Hi Hs. destruct Hs as [e i Hn|e|e i c Hc Hh Hcan|e i c Hc Hh|e i c Hc Hcan Hp|e i c Hc Hp|e i c Hc Hh Hp|e i c Hc Hh|e i c Hc Hh|e i c Hc];
    [by apply executor_inv_register|by apply executor_inv_stop| | | | | | |by eapply executor_inv_unregister|];
    (eapply executor_inv_update; [done|exact Hc| |]); try done.
  - intros _. apply told_killed. by rewrite Hp.
  - unfold killProcessGroup. by rewrite Hp.
  - intros _. unfold told. cbn. by rewrite orb_true_r.
Qed.

(** C37: Whatever requests, stops, disconnections and exits come in whatever order, a live process is
    the current command of the executor, or it was signalled, or its cancelled context signals it,
    or it was overtaken by another request between its registration and its start; after [Stop]
    none is current, and [Stop] reports a command exactly if there was one. *)
Theorem executor_tracks e :
  steps exec_step initial_executor e ->
  (forall i c, ex_calls e !! i = Some c -> c_process c = PAlive -> c_overtaken c = false ->
     ex_running e = Some i \/ c_signalled c = true \/ (c_cancelled c = true /\ exists e', exec_step e e' /\ exists c', ex_calls e' !! i = Some c' /\ c_signalled c' = true)) /\
  (forall i c, ex_calls (Stop e).1 !! i = Some c -> c_process c = PAlive -> c_overtaken c = false -> c_signalled c = true \/ c_cancelled c = true) /\
  ((Stop e).2 = true <-> exists i c, ex_running e = Some i /\ ex_calls e !! i = Some c /\ c_handler c <> HReturned).
Proof.
  intros Hs. assert (Hi : executor_inv e).
  { apply (steps_invariant exec_step executor_inv initial_executor e); [exact executor_inv_step| |done].
    split; [intros i c Hc; unfold initial_executor in Hc; cbn in Hc; by rewrite lookup_empty in Hc|done]. }
  split_and!.
  - intros i c Hc Hp Ho. destruct (proj1 Hi i c Hc) as [?|Ht]; [by left|right]. unfold told in Ht. rewrite Ho, orb_false_r in Ht.
    apply orb_true_iff in Ht as [?|Hcan]; [by left|right]. split; [done|]. eexists. split; [by eapply step_watch|].
    exists (killProcessGroup c). cbn. rewrite lookup_insert_eq. split; [done|]. unfold killProcessGroup. by rewrite Hp.
  - intros i c Hc Hp Ho. destruct (executor_inv_stop e Hi) as [H1 _]. destruct (H1 i c Hc) as [Hr|Ht].
    + unfold Stop in Hr. destruct (ex_running e) eqn:E; cbn in Hr; congruence.
    + unfold told in Ht. rewrite Ho, orb_false_r in Ht. by apply orb_true_iff in Ht.
  - unfold Stop. destruct (ex_running e) as [i|] eqn:Hr; cbn; [|naive_solver]. split; [|done]. intros _.
    destruct (proj2 Hi i Hr) as (c & Hc & Hh). by exists i, c.
Qed.

(** Two requests in a row: the second replaces the first before its process is started, the first
    then starts and no [Stop] reaches it. *)
Definition overtaken_executor : Executor :=
  mkExecutor (Some 2%nat) {[ 1%nat := mkCall HStreaming PAlive false false true; 2%nat := mkCall HStreaming PAlive false false false ]}.

Lemma overtaken_survives :
  steps exec_step initial_executor overtaken_executor /\
  (exists c, ex_calls (Stop overtaken_executor).1 !! 1%nat = Some c /\ c_process c = PAlive /\ c_signalled c = false /\ c_cancelled c = false) /\
  (Stop (Stop overtaken_executor).1).2 = false.
Proof.
  split; [|by split; [eexists; split_and!; vm_compute|]].
  assert (H1 := step_request initial_executor 1 eq_refl).
  assert (H2 := step_request (register 1 initial_executor) 2 eq_refl).
  set (e2 := register 2 (register 1 initial_executor)) in *.
  assert (H3 := step_start e2 1 (mkCall HRegistered PNone false false true) eq_refl eq_refl eq_refl).
  set (e3 := mkExecutor _ _) in H3.
  assert (H4 := step_start e3 2 (mkCall HRegistered PNone false false false) eq_refl eq_refl eq_refl).
  eapply steps_cons; [exact H1|]. eapply steps_cons; [exact H2|]. eapply steps_cons; [exact H3|]. eapply steps_cons; [exact H4|].
  apply steps_nil.
Qed.

Lemma executor_tracks_witness :
  (Stop (register 1 initial_executor)).2 = true <->
  exists i c, ex_running (register 1 initial_executor) = Some i /\ ex_calls (register 1 initial_executor) !! i = Some c /\ c_handler c <> HReturned.
Proof.
  apply (executor_tracks (register 1 initial_executor)). eapply steps_snoc; [apply steps_nil|]. apply step_request. reflexivity.
Defined.

(** A local manifest without a name stops the server with a panic. *)
Lemma local_without_name_panics :
  load_local (fun _ => Some [("version", AString "1.0.0")]) {[ ["ext"] := NDir; ["ext"; "manifest.yaml"] := NFile "version: 1.0.0" ]} "/ext" ∅ =
    Err (PanicNoName "/ext").
Proof. vm_compute. reflexivity. Qed.
