(* ===== verification/CliCreate.v ===== *)
(** * cli: new extensions

    cli/cmd/create.go: the files of a new extension from the embedded templates.  The template
    engine, the order in which a Go map is iterated, the Go toolchain, the toolchain file and the
    registry are parameters. *)

From S2P Require Import Prelude GoStr GoNum GoPath GoFS GoCodec Host GoJson OPA CliPackage CliManifest CliCache.
From Stdlib Require Import Lia Ascii.

Local Open Scope Z_scope.
Local Open Scope go_scope.

(** ** Templates *)

(** The files below cli/cmd/templates/create that are embedded. *)
Definition templates_in (dir : string) (names : list string) : list string := (fun n => "templates/create/" +:+ dir +:+ "/" +:+ n +:+ ".tmpl") <$> names.
Definition templateFS : list string :=
  templates_in "ext_proc" ["Dockerfile.code"; "Dockerfile"; "Makefile"; "dockerignore"; "go.mod"; "main.go"; "main_test.go"; "manifest.yaml"; "processor.go"; "processor_test.go"] ++
  templates_in "go" ["Dockerfile.code"; "Dockerfile.plugin"; "Dockerfile"; "Makefile"; "config.schema.json"; "dockerignore"; "go.mod"; "host.go"; "main.go";
    "main_cshared.go"; "manifest.yaml"; "plugin.go"; "plugin_test.go"] ++
  templates_in "rust" ["Cargo.toml"; "Dockerfile.code"; "Dockerfile"; "Makefile"; "cargo-config.toml"; "config.schema.http.json"; "config.schema.listener.json";
    "config.schema.network.json"; "config.schema.udp_listener.json"; "dockerignore"; "gitignore"; "lib_http.rs"; "lib_listener.rs"; "lib_network.rs";
    "lib_udp_listener.rs"; "manifest_http.yaml"; "manifest_listener.yaml"; "manifest_network.yaml"; "manifest_udp_listener.yaml"] ++
  templates_in "wasm" ["Dockerfile.code"; "Dockerfile"; "Makefile"; "config.schema.json"; "dockerignore"; "gitignore"; "go.mod"; "main.go"; "main_test.go"; "manifest.yaml"].

Record Create : Type := mkCreate { cr_Type : string; cr_FilterType : string; cr_Name : string; cr_Path : string; cr_ComposerVersion : string }.

Inductive CreateError : Type :=
| ErrFilterType (type : string)
| ErrComposerVersion (reason : string)
| ErrCreateType (type : string)
| ErrReadTemplate (path : string)
| ErrCreateDir (path : string)
| ErrCreateFile (path : string)
| ErrParseTemplate (name : string)
| ErrExecuteTemplate (name : string)
| ErrTidy
| ErrParseToolchain
| ErrMissingChannel.

(** [Create.Validate] fills in the default filter type. *)
Definition Create_Validate (c : Create) : result CreateError Create :=
  let filterType := if bool_decide (cr_FilterType c = "") then "http" else cr_FilterType c in
  let c := mkCreate (cr_Type c) filterType (cr_Name c) (cr_Path c) (cr_ComposerVersion c) in
  if bool_decide (cr_Type c = "go") && negb (bool_decide (filterType = "http")) then Err (ErrFilterType (cr_Type c))
  else if bool_decide (cr_Type c = "ext_proc") && negb (bool_decide (filterType = "http")) then Err (ErrFilterType (cr_Type c))
  else if bool_decide (cr_Type c = "wasm") && negb (bool_decide (filterType = "http")) then Err (ErrFilterType (cr_Type c))
  else Ok c.

Definition named (prefix : string) (files : list (string * string)) : list (string * string) :=
  (fun f => (f.1, "templates/create/" +:+ prefix +:+ "/" +:+ f.2 +:+ ".tmpl")) <$> files.

(** The output files of each type with their templates. *)
Definition go_files : list (string * string) :=
  named "go" [("plugin.go", "plugin.go"); ("plugin_test.go", "plugin_test.go"); ("manifest.yaml", "manifest.yaml"); ("config.schema.json", "config.schema.json");
    ("Makefile", "Makefile"); ("go.mod", "go.mod"); ("Dockerfile", "Dockerfile"); ("Dockerfile.plugin", "Dockerfile.plugin"); ("Dockerfile.code", "Dockerfile.code");
    (".dockerignore", "dockerignore"); ("embedded/host.go", "host.go"); ("standalone/main.go", "main.go"); ("main/main.go", "main_cshared.go")].
Definition ext_proc_files : list (string * string) :=
  named "ext_proc" [("main.go", "main.go"); ("main_test.go", "main_test.go"); ("processor.go", "processor.go"); ("processor_test.go", "processor_test.go");
    ("manifest.yaml", "manifest.yaml"); ("go.mod", "go.mod"); ("Dockerfile", "Dockerfile"); ("Dockerfile.code", "Dockerfile.code"); (".dockerignore", "dockerignore");
    ("Makefile", "Makefile")].
Definition wasm_files : list (string * string) :=
  named "wasm" [("main.go", "main.go"); ("main_test.go", "main_test.go"); ("manifest.yaml", "manifest.yaml"); ("config.schema.json", "config.schema.json");
    ("go.mod", "go.mod"); ("Makefile", "Makefile"); ("Dockerfile", "Dockerfile"); ("Dockerfile.code", "Dockerfile.code"); (".dockerignore", "dockerignore");
    (".gitignore", "gitignore")].
Definition rust_files (filterType : string) : list (string * string) :=
  named "rust" [("src/lib.rs", "lib_" +:+ filterType +:+ ".rs"); ("Cargo.toml", "Cargo.toml"); ("manifest.yaml", "manifest_" +:+ filterType +:+ ".yaml");
    ("config.schema.json", "config.schema." +:+ filterType +:+ ".json"); (".gitignore", "gitignore"); (".dockerignore", "dockerignore");
    (".cargo/config.toml", "cargo-config.toml"); ("Dockerfile", "Dockerfile"); ("Dockerfile.code", "Dockerfile.code"); ("Makefile", "Makefile")].

Section Creating.
(** The content of an embedded file, the template engine, and the order in which a map of files is
    iterated. *)
Context (read_template : string -> option string) (parses : string -> bool) (execute : string -> gmap string string -> string * bool).
Context (iterate : list (string * string) -> list (string * string)).
(** The toolchain, the version of Go, the Rust toolchain file, and the registry. *)
Context (exec : Command -> FileSystem -> FileSystem * bool) (goVersion : string) (toolchain : option string) (resolveComposerVersion : result string string).

(** One round of [createFilesFromTemplate]. *)
Definition create_file (data : gmap string string) (repoPath : string) (f : string * string) (fs : FileSystem) : FileSystem * option CreateError :=
  let '(outputName, tmplPath) := f in
  let outputPath := JoinAll [repoPath; outputName] in
  match read_template tmplPath with
  | None => (fs, Some (ErrReadTemplate tmplPath))
  | Some content =>
      match MkdirAll fs (clean_segs (Dir outputPath)) with
      | (fs1, false) => (fs1, Some (ErrCreateDir (Dir outputPath)))
      | (fs1, true) =>
          match WriteFile fs1 (clean_segs outputPath) "" with
          | None => (fs1, Some (ErrCreateFile outputPath))
          | Some fs2 =>
              if negb (parses content) then (fs2, Some (ErrParseTemplate outputName))
              else
                let '(text, ok) := execute content data in
                match WriteFile fs2 (clean_segs outputPath) text with
                | Some fs3 => (fs3, if ok then None else Some (ErrExecuteTemplate outputName))
                | None => (fs2, Some (ErrExecuteTemplate outputName))
                end
          end
      end
  end.

Fixpoint create_files (data : gmap string string) (repoPath : string) (files : list (string * string)) (fs : FileSystem) : FileSystem * option CreateError :=
  match files with
  | [] => (fs, None)
  | f :: rest => match create_file data repoPath f fs with (fs1, None) => create_files data repoPath rest fs1 | failed => failed end
  end.

Definition createFilesFromTemplate (files : list (string * string)) (data : gmap string string) (repoPath : string) (fs : FileSystem)
    : FileSystem * option CreateError := create_files data repoPath (iterate files) fs.

Definition tidy (repoPath : string) (r : FileSystem * option CreateError) : FileSystem * option CreateError :=
  match r with
  | (fs, None) => match exec (mkCommand "go" ["mod"; "tidy"] [] repoPath) fs with (fs1, true) => (fs1, None) | (fs1, false) => (fs1, Some ErrTidy) end
  | failed => failed
  end.

Definition createGoExtension (dirs : Directories) (path name composerVersion : string) (fs : FileSystem) : FileSystem * option CreateError :=
  let repoPath := JoinAll [path; name] in
  let data := {[ "Name" := name; "LibComposerVersion" := composerVersion; "DataHome" := DataHome dirs; "GoVersion" := goVersion ]} in
  tidy repoPath (createFilesFromTemplate go_files data repoPath fs).

Definition createExtProcExtension (path name : string) (fs : FileSystem) : FileSystem * option CreateError :=
  let repoPath := JoinAll [path; name] in
  tidy repoPath (createFilesFromTemplate ext_proc_files {[ "Name" := name; "GoVersion" := goVersion ]} repoPath fs).

Definition createWasmExtension (dirs : Directories) (path name : string) (fs : FileSystem) : FileSystem * option CreateError :=
  let repoPath := JoinAll [path; name] in
  tidy repoPath (createFilesFromTemplate wasm_files {[ "Name" := name; "DataHome" := DataHome dirs; "GoVersion" := goVersion ]} repoPath fs).

(** The channel of the toolchain file; [None] when the file cannot be parsed. *)
Definition createRustExtension (path name filterType : string) (fs : FileSystem) : FileSystem * option CreateError :=
  let repoPath := JoinAll [path; name] in
  match toolchain with
  | None => (fs, Some ErrParseToolchain)
  | Some channel =>
      if bool_decide (channel = "") then (fs, Some ErrMissingChannel)
      else createFilesFromTemplate (rust_files filterType)
             {[ "Name" := name; "LibName" := RustLibNameFromName name; "RustVersion" := channel ]} repoPath fs
  end.

Definition Create_Run (c : Create) (dirs : Directories) (fs : FileSystem) : FileSystem * option CreateError :=
  if bool_decide (cr_Type c = "go") then
    if bool_decide (cr_ComposerVersion c = "") then
      match resolveComposerVersion with
      | Err reason => (fs, Some (ErrComposerVersion reason))
      | Ok v => createGoExtension dirs (cr_Path c) (cr_Name c) v fs
      end
    else createGoExtension dirs (cr_Path c) (cr_Name c) (cr_ComposerVersion c) fs
  else if bool_decide (cr_Type c = "rust") then createRustExtension (cr_Path c) (cr_Name c) (cr_FilterType c) fs
  else if bool_decide (cr_Type c = "ext_proc") then createExtProcExtension (cr_Path c) (cr_Name c) fs
  else if bool_decide (cr_Type c = "wasm") then createWasmExtension dirs (cr_Path c) (cr_Name c) fs
  else (fs, Some (ErrCreateType (cr_Type c))).
End Creating.

(** The files of a command. *)
Definition files_of (c : Create) : list (string * string) :=
  if bool_decide (cr_Type c = "go") then go_files
  else if bool_decide (cr_Type c = "rust") then rust_files (cr_FilterType c)
  else if bool_decide (cr_Type c = "ext_proc") then ext_proc_files else wasm_files.

(** The values the flag parser accepts. *)
Definition create_enums (c : Create) : Prop :=
  cr_Type c ∈ ["go"; "rust"; "ext_proc"; "wasm"] /\ cr_FilterType c ∈ [""; "http"; "network"; "listener"; "udp_listener"].

(** ** What creating leaves behind *)

(** No file of a table lies below another. *)
Definition apart (fl : list (string * string)) : Prop :=
  Forall (fun f => Forall (fun g => Split f.1 slash `prefix_of` Split g.1 slash -> f = g) fl) fl.

#[export] Instance apart_dec fl : Decision (apart fl).
Proof. unfold apart. apply _. Defined.

(** Every template a valid command names is embedded, and its files have different plain names,
    none below another. *)
Lemma create_templates_exist c c' :
  create_enums c -> Create_Validate c = Ok c' ->
  Forall (fun f => f.2 ∈ templateFS /\ Forall plain_seg (Split f.1 slash)) (files_of c') /\ NoDup (files_of c').*1 /\ apart (files_of c').
Proof.
  intros [Ht Hf]. unfold Create_Validate. destruct c as [ty ft name path v]. cbn [cr_Type cr_FilterType cr_Name cr_Path cr_ComposerVersion] in *.
  assert (Hgo : forall fl, bool_decide (Forall (fun f => f.2 ∈ templateFS /\ Forall plain_seg (Split f.1 slash)) fl /\ NoDup fl.*1 /\ apart fl) = true ->
    Forall (fun f => f.2 ∈ templateFS /\ Forall plain_seg (Split f.1 slash)) fl /\ NoDup fl.*1 /\ apart fl) by (intros fl; apply bool_decide_eq_true_1).
  repeat (apply elem_of_cons in Ht as [->|Ht]; [|]); try (by apply elem_of_nil in Ht);
  repeat (apply elem_of_cons in Hf as [->|Hf]; [cbn; intros H; try discriminate H; injection H as <-; apply Hgo; vm_compute; reflexivity|]); by apply elem_of_nil in Hf.
Qed.

Lemma Create_Validate_keeps c c' :
  create_enums c -> Create_Validate c = Ok c' -> cr_Type c' ∈ ["go"; "rust"; "ext_proc"; "wasm"] /\ cr_Type c' = cr_Type c /\ cr_Path c' = cr_Path c /\ cr_Name c' = cr_Name c.
Proof. intros [Ht _]. unfold Create_Validate. cbv zeta. repeat case_match; intros [= <-]; done. Qed.

(** The path of an output file. *)
Definition output_at (repoPath outputName : string) : list string := clean_segs repoPath ++ Split outputName slash.

Lemma output_path repoPath out :
  is_rooted repoPath = true -> Forall plain_seg (Split out slash) ->
  exists d x, output_at repoPath out = d ++ [x] /\ clean_segs (JoinAll [repoPath; out]) = d ++ [x] /\ clean_segs (Dir (JoinAll [repoPath; out])) = d /\
    Forall plain_seg (d ++ [x]).
Proof.
  intros Hr Hp. assert (Hj : JoinAll [repoPath; out] = JoinAll (repoPath :: Split out slash)).
  { assert (repoPath <> "") by (by intros ->). cbn [JoinAll]. rewrite !decide_False by done. f_equal. rewrite (Join_cons_slash _ (Split out slash)) by apply Split_nonempty.
    change "/" with (String slash ""). by rewrite Join_Split. }
  rewrite Hj. unfold output_at. assert (Hf : Forall slash_free (Split out slash)).
  { apply Forall_forall. intros w Hw. by apply (Split_no_sep out). }
  destruct (Split out slash) as [|x elems _] eqn:E using rev_ind; [by destruct (Split_nonempty out slash)|].
  destruct (JoinAll_file repoPath elems x Hr Hp Hf) as (H1 & H2 & _). exists (clean_segs repoPath ++ elems), x. rewrite <- app_assoc at 1.
  split_and!; [done|done|done|]. rewrite <- H1. apply clean_segs_plain. by apply JoinAll_rooted.
Qed.

(** Nothing has changed but the file and missing directories on the way to it. *)
Definition only_file (p : list string) (fs fs' : FileSystem) : Prop :=
  forall q : list string, fs' !! q = fs !! q \/ (q = p /\ exists c, fs' !! q = Some (NFile c)) \/ (q `prefix_of` p /\ q <> p /\ fs !! q = None /\ fs' !! q = Some NDir).

Lemma only_dirs_file d x fs fs' : only_dirs d fs fs' -> only_file (d ++ [x]) fs fs'.
Proof.
  intros Ho q. destruct (Ho q) as [?|(Hp & _ & H1 & H2)]; [by left|right; right]. split_and!; [etrans; [exact Hp|by eexists]| |done|done].
  intros ->. apply prefix_length in Hp. rewrite length_app in Hp. cbn in Hp. lia.
Qed.

Lemma only_file_write p fs fs1 c : only_file p fs fs1 -> only_file p fs (<[p := NFile c]> fs1).
Proof.
  intros Ho q. destruct (decide (p = q)) as [->|Hne]; [rewrite lookup_insert_eq; right; left; split; [done|by eexists]|]. rewrite lookup_insert_ne by done. apply Ho.
Qed.

Lemma only_file_linkless p fs fs' d todo : only_file p fs fs' -> linkless fs d todo -> linkless fs' d todo.
Proof. intros Ho Hl pre t Hpre Hn. destruct (Ho (d ++ pre)) as [E|[(_ & c & E)|(_ & _ & _ & E)]]; rewrite E in Hn; [by eapply Hl|done|done]. Qed.

Section CreateSpec.
Context (read_template : string -> option string) (parses : string -> bool) (execute : string -> gmap string string -> string * bool).
Local Abbreviation create_file := (create_file read_template parses execute).
Local Abbreviation create_files := (create_files read_template parses execute).

(** What the template of a file gives. *)
Definition rendered (data : gmap string string) (f : string * string) (text : string) : Prop :=
  exists content, read_template f.2 = Some content /\ parses content = true /\ execute content data = (text, true).

Lemma create_file_spec data repoPath f fs :
  is_rooted repoPath = true -> Forall plain_seg (Split f.1 slash) -> linkless fs [] (output_at repoPath f.1) ->
  only_file (output_at repoPath f.1) fs (create_file data repoPath f fs).1 /\
  ((create_file data repoPath f fs).2 = None -> exists text, rendered data f text /\ (create_file data repoPath f fs).1 !! output_at repoPath f.1 = Some (NFile text)).
Proof.
  intros Hr Hp Hl. destruct f as [out tmpl]. cbn [fst snd] in *. destruct (output_path repoPath out Hr Hp) as (d & x & Hat & Hs & Hd & Hplain).
  rewrite Hat in *. unfold CliCreate.create_file. rewrite Hs, Hd.
  assert (Hsame : only_file (d ++ [x]) fs fs) by (intros q; by left).
  destruct (read_template tmpl) as [content|] eqn:Hc; [|by split].
  assert (Hpd : Forall plain_seg d) by (by apply Forall_app in Hplain as [? _]).
  pose proof (MkdirAll_linkless fs d Hpd ltac:(eapply linkless_prefix; [exact Hl|by eexists])) as Ho. apply (only_dirs_file d x) in Ho.
  destruct (MkdirAll fs d) as [fs1 []]; cbn [fst] in Ho; [|by split].
  pose proof (only_file_linkless _ _ _ _ _ Ho Hl) as Hl1. destruct (WriteFile fs1 (d ++ [x]) "") as [fs2|] eqn:Hw; [|by split].
  apply WriteFile_linkless in Hw as ->; [|done|done]. pose proof (only_file_write _ _ _ "" Ho) as Ho2.
  destruct (parses content) eqn:Hparse; cbn [negb]; [|by split]. destruct (execute content data) as [text ok] eqn:He.
  destruct (WriteFile _ _ text) as [fs3|] eqn:Hw; [|by split].
  apply WriteFile_linkless in Hw as ->; [|done|by eapply only_file_linkless]. cbn [fst snd]. split; [by apply only_file_write|].
  destruct ok; [|done]. intros _. exists text. split; [by exists content|]. by rewrite lookup_insert_eq.
Qed.

(** Nothing has changed but files of the table and missing directories on the way to them. *)
Definition only_files (ps : list (list string)) (fs fs' : FileSystem) : Prop :=
  forall q : list string, fs' !! q = fs !! q \/ (q ∈ ps /\ exists c, fs' !! q = Some (NFile c)) \/
    (exists p, p ∈ ps /\ q `prefix_of` p /\ q <> p /\ fs !! q = None /\ fs' !! q = Some NDir).

Lemma only_files_linkless ps fs fs' d todo : only_files ps fs fs' -> linkless fs d todo -> linkless fs' d todo.
Proof.
  intros Ho Hl pre t Hpre Hn. destruct (Ho (d ++ pre)) as [E|[(_ & c & E)|(p & _ & _ & _ & _ & E)]]; rewrite E in Hn; [by eapply Hl|done|done].
Qed.

Lemma only_files_cons p ps fs fs1 fs2 : only_file p fs fs1 -> only_files ps fs1 fs2 -> only_files (p :: ps) fs fs2.
Proof.
  intros H1 H2 q. destruct (H2 q) as [E|[(Hq & Hc)|(p' & Hp & Hpre & Hne & Hn & E)]].
  - rewrite E. destruct (H1 q) as [E1|[(-> & Hc)|(Hpre & Hne & Hn & E1)]]; [by left|right; left|right; right; exists p]; split_and!; try done; left.
  - right; left. split; [by right|done].
  - destruct (H1 q) as [E1|[(_ & c & E1)|(_ & _ & _ & E1)]]; [|congruence|congruence]. right; right. exists p'. rewrite <- E1. split_and!; try done. by right.
Qed.

(** The files already written stay: a later file is at another path and creates directories only where nothing was. *)
Lemma create_files_spec data repoPath fl fs :
  is_rooted repoPath = true -> Forall (fun f => Forall plain_seg (Split f.1 slash) /\ linkless fs [] (output_at repoPath f.1)) fl -> NoDup fl.*1 ->
  only_files (output_at repoPath <$> fl.*1) fs (create_files data repoPath fl fs).1 /\
  ((create_files data repoPath fl fs).2 = None ->
   Forall (fun f => exists text, rendered data f text /\ (create_files data repoPath fl fs).1 !! output_at repoPath f.1 = Some (NFile text)) fl).
Proof.
  intros Hr. revert fs. induction fl as [|f fl IH]; intros fs Hall Hnd; [split; [intros q; by left|done]|].
  apply Forall_cons in Hall as [[Hp Hl] Hall]. apply NoDup_cons in Hnd as [Hnin Hnd].
  destruct (create_file_spec data repoPath f fs Hr Hp Hl) as [Ho Hdone]. cbn [CliCreate.create_files fmap list_fmap]. fold (fst <$> fl) (output_at repoPath <$> fl.*1).
  destruct (create_file data repoPath f fs) as [fs1 [e|]]; cbn [fst snd] in *.
  - split; [|done]. intros q. destruct (Ho q) as [?|[(-> & ?)|(? & ? & ? & ?)]]; [by left|right; left|right; right; eexists]; split_and!; try done; left.
  - destruct (IH fs1) as [Hos Hds]; [|done|].
    { eapply Forall_impl; [exact Hall|]. cbn. intros g [? ?]. split; [done|by eapply only_file_linkless]. }
    split; [by eapply only_files_cons|]. intros E. specialize (Hds E). destruct (Hdone eq_refl) as (text & Ht & Hat). constructor; [|done].
    exists text. split; [done|]. destruct (Hos (output_at repoPath f.1)) as [->|[(Hin & _)|(p & _ & _ & _ & Hnone & _)]]; [done| |congruence].
    exfalso. apply list_elem_of_fmap in Hin as (o & Heq & Hin). unfold output_at in Heq. apply app_inv_head in Heq.
    apply (f_equal (fun l => Join l (String slash ""))) in Heq. rewrite !Join_Split in Heq. apply Hnin. by rewrite Heq.
Qed.

(** ** Creating in a place with room *)

(** Directories may be made along the path. *)
Definition clear (fs : FileSystem) (p : list string) : Prop := forall pre : list string, pre `prefix_of` p -> fs !! pre = None \/ fs !! pre = Some NDir.
(** A file may be written there. *)
Definition room (fs : FileSystem) (p : list string) : Prop :=
  (forall pre : list string, pre `prefix_of` p -> pre <> p -> fs !! pre = None \/ fs !! pre = Some NDir) /\ (fs !! p = None \/ exists c, fs !! p = Some (NFile c)).

Lemma clear_linkless fs p : clear fs p -> linkless fs [] p.
Proof. intros Hc pre t Hpre E. destruct (Hc pre Hpre) as [H|H]; cbn [app] in E; rewrite H in E; done. Qed.

Lemma room_linkless fs p : room fs p -> linkless fs [] p.
Proof.
  intros [Hd Hp] pre t Hpre E. cbn [app] in E. destruct (decide (pre = p)) as [->|Hne]; [destruct Hp as [H|[c H]]|destruct (Hd pre Hpre Hne) as [H|H]];
  rewrite H in E; done.
Qed.

Lemma MkdirAll_clear fs p : Forall plain_seg p -> clear fs p -> exists fs', MkdirAll fs p = (fs', true) /\ dirs_to fs' p.
Proof.
  induction p as [|x p IH] using rev_ind; intros Hp Hc.
  { exists fs. split; [done|]. by intros pre Hne ?%prefix_nil_inv. }
  assert (Hpp : Forall plain_seg p) by (by apply Forall_app in Hp as [? _]).
  assert (Hcp : clear fs p) by (intros pre Hpre; apply Hc; etrans; [exact Hpre|by eexists]).
  pose proof (MkdirAll_linkless fs p Hpp (clear_linkless _ _ Hcp)) as Ho. destruct (IH Hpp Hcp) as (fs1 & Hm & Hd). rewrite Hm in Ho. cbn [fst] in Ho.
  assert (Hx : fs1 !! (p ++ [x]) = None \/ fs1 !! (p ++ [x]) = Some NDir).
  { destruct (Ho (p ++ [x])) as [E|(_ & _ & _ & E)]; [rewrite E; by apply Hc|by right]. }
  unfold MkdirAll. rewrite prefixes_snoc, foldl_app. fold (MkdirAll fs p). rewrite Hm. cbn [foldl mkdir_step].
  rewrite Stat_snoc; [|done|done|intros t E; destruct Hx as [H|H]; rewrite H in E; done]. destruct Hx as [Hx|Hx]; rewrite Hx.
  - unfold Mkdir. rewrite create_at_new by done. eexists. split; [done|]. apply dirs_to_snoc; [|by rewrite lookup_insert_eq]. apply dirs_to_insert; [done|by rewrite Hx].
  - eexists. split; [done|]. by apply dirs_to_snoc.
Qed.

Lemma WriteFile_over fs p x content c :
  Forall plain_seg (p ++ [x]) -> dirs_to fs p -> fs !! (p ++ [x]) = Some (NFile c) -> WriteFile fs (p ++ [x]) content = Some (<[p ++ [x] := NFile content]> fs).
Proof.
  intros Hp Hd Hn. unfold WriteFile, resolve. rewrite follow_dirs; cbn [app]; [|done| |by rewrite Hn].
  - replace (node_at fs (p ++ [x])) with (Some (NFile c)) by (unfold node_at; rewrite Hn; by destruct p). done.
  - intros pre Hne Hpre Hneq. apply Hd; [done|]. apply prefix_snoc_inv in Hpre as [?|?]; done.
Qed.

Lemma create_file_live data repoPath f fs text :
  is_rooted repoPath = true -> Forall plain_seg (Split f.1 slash) -> room fs (output_at repoPath f.1) -> rendered data f text ->
  (create_file data repoPath f fs).2 = None.
Proof.
  intros Hr Hp Hroom (content & Hc & Hparse & He). destruct f as [out tmpl]. cbn [fst snd] in *. destruct (output_path repoPath out Hr Hp) as (d & x & Hat & Hs & Hd & Hplain).
  rewrite Hat in *. unfold CliCreate.create_file. rewrite Hs, Hd, Hc. destruct Hroom as [Hdirs Hx].
  assert (Hpd : Forall plain_seg d) by (by apply Forall_app in Hplain as [? _]).
  assert (Hcd : clear fs d).
  { intros pre Hpre. apply Hdirs; [etrans; [exact Hpre|by eexists]|]. intros ->. apply prefix_length in Hpre. rewrite length_app in Hpre. cbn in Hpre. lia. }
  pose proof (only_dirs_file d x _ _ (MkdirAll_linkless fs d Hpd (clear_linkless _ _ Hcd))) as Ho.
  destruct (MkdirAll_clear fs d Hpd Hcd) as (fs1 & Hm & Hd1). rewrite Hm in *. cbn [fst] in Ho.
  assert (Hx1 : fs1 !! (d ++ [x]) = None \/ exists c, fs1 !! (d ++ [x]) = Some (NFile c)).
  { destruct (Ho (d ++ [x])) as [E|[(_ & E)|(_ & Hne & _)]]; [rewrite E; exact Hx|by right|done]. }
  assert (Hw : WriteFile fs1 (d ++ [x]) "" = Some (<[d ++ [x] := NFile ""]> fs1)) by (destruct Hx1 as [?|[c ?]]; [by apply WriteFile_new|by eapply WriteFile_over]).
  rewrite Hw, Hparse, He. cbn [negb]. erewrite WriteFile_over; [done|done| |by rewrite lookup_insert_eq].
  apply dirs_to_insert; [done|]. destruct Hx1 as [E|[c E]]; by rewrite E.
Qed.

Lemma only_file_room p q fs fs' : only_file p fs fs' -> ~ p `prefix_of` q -> ~ q `prefix_of` p -> room fs q -> room fs' q.
Proof.
  intros Ho Hpq Hqp [Hd Hq]. split.
  - intros pre Hpre Hne. destruct (Ho pre) as [->|[(-> & _)|(_ & _ & _ & E)]]; [by apply Hd|done|by right].
  - destruct (Ho q) as [->|[(_ & E)|(H & _)]]; [done|by right|done].
Qed.

Lemma create_files_live data repoPath fl fs :
  is_rooted repoPath = true -> Forall (fun f => Forall plain_seg (Split f.1 slash) /\ room fs (output_at repoPath f.1) /\ exists text, rendered data f text) fl ->
  NoDup fl -> apart fl -> (create_files data repoPath fl fs).2 = None.
Proof.
  intros Hr. revert fs. induction fl as [|f fl IH]; intros fs Hall Hnd Ha; [done|]. apply Forall_cons in Hall as [(Hp & Hroom & text & Ht) Hall].
  apply NoDup_cons in Hnd as [Hnin Hnd]. apply Forall_cons in Ha as [Hf Ha]. apply Forall_cons in Hf as [_ Hf].
  destruct (create_file_spec data repoPath f fs Hr Hp (room_linkless _ _ Hroom)) as [Ho _]. pose proof (create_file_live data repoPath f fs text Hr Hp Hroom Ht) as Hn.
  cbn [CliCreate.create_files]. destruct (create_file data repoPath f fs) as [fs1 [e|]]; [done|]. cbn [fst snd] in *. apply IH; [|done|].
  - apply Forall_forall. intros g Hg. rewrite Forall_forall in Hall, Hf, Ha. destruct (Hall g Hg) as (? & ? & ?). split_and!; [done| |done].
    eapply only_file_room; [exact Ho| | |done]; unfold output_at; intros Hpre%prefix_app_inv; apply Hnin.
    + by rewrite (Hf g Hg Hpre).
    + specialize (Ha g Hg). apply Forall_cons in Ha as [Ha _]. by rewrite <- (Ha Hpre).
  - eapply Forall_impl; [exact Ha|]. intros g Hg. by apply Forall_cons in Hg as [_ ?].
Qed.
End CreateSpec.

(** ** The command *)

Section CreateCommand.
Context (read_template : string -> option string) (parses : string -> bool) (execute : string -> gmap string string -> string * bool).
Context (iterate : list (string * string) -> list (string * string)).
Context (exec : Command -> FileSystem -> FileSystem * bool) (goVersion : string) (toolchain : option string) (resolveComposerVersion : result string string).
Local Abbreviation create_run := (Create_Run read_template parses execute iterate exec goVersion toolchain resolveComposerVersion).
Local Abbreviation from_template := (createFilesFromTemplate read_template parses execute iterate).

(** The toolchain file and the registry give what the command needs. *)
Definition inputs_known (c : Create) : Prop :=
  (cr_Type c = "rust" -> exists channel, toolchain = Some channel /\ channel <> "") /\
  (cr_Type c = "go" -> cr_ComposerVersion c = "" -> exists v, resolveComposerVersion = Ok v).

(** Every type does the same: the files of its table, then the module when it is in Go. *)
Lemma Create_Run_shape c dirs fs :
  cr_Type c ∈ ["go"; "rust"; "ext_proc"; "wasm"] ->
  let repoPath := JoinAll [cr_Path c; cr_Name c] in
  (exists data, data !! "Name" = Some (cr_Name c) /\
     (cr_Type c = "rust" /\ create_run c dirs fs = from_template (files_of c) data repoPath fs \/
      cr_Type c <> "rust" /\ create_run c dirs fs = tidy exec repoPath (from_template (files_of c) data repoPath fs))) \/
  (~ inputs_known c /\ exists e, create_run c dirs fs = (fs, Some e)).
Proof.
  intros Ht. unfold inputs_known, files_of. destruct c as [ty ft name path v]. unfold Create_Run. cbn [cr_Type cr_FilterType cr_Name cr_Path cr_ComposerVersion] in *. cbv zeta.
  repeat (apply elem_of_cons in Ht as [->|Ht]; [|]); [| | | |by apply elem_of_nil in Ht]; repeat first [rewrite bool_decide_true by done|rewrite bool_decide_false by done].
  - destruct (decide (v = "")) as [->|Hv]; [rewrite bool_decide_true by done|rewrite bool_decide_false by done; left; eexists; split; [|right; by split]; by rewrite lookup_insert_eq].
    destruct resolveComposerVersion as [v|reason]; [left; eexists; split; [|right; by split]; by rewrite lookup_insert_eq|].
    right. split; [|by eexists]. intros [_ H]. by destruct H.
  - unfold createRustExtension. destruct toolchain as [ch|]; [|right; split; [|by eexists]; intros [H _]; by destruct H as (? & ? & ?)].
    destruct (decide (ch = "")) as [->|Hch]; [rewrite bool_decide_true by done; right; split; [|by eexists]; intros [H _]; by destruct H as (? & [= <-] & ?)|].
    rewrite bool_decide_false by done. left. eexists. split; [|left; by split]. by rewrite lookup_insert_eq.
  - left. eexists. split; [|right; by split]. by rewrite lookup_insert_eq.
  - left. eexists. split; [|right; by split]. by rewrite lookup_insert_eq.
Qed.

Context (iterate_order : forall fl, iterate fl ≡ₚ fl).
(** What [go mod tidy] may change: go.mod and go.sum of its directory, and the caches of the
    toolchain, in which no extension is created. *)
Context (caches : list string -> Prop).
Context (tidy_local : forall dir fs q, ~ caches q -> q <> output_at dir "go.mod" -> q <> output_at dir "go.sum" ->
  (exec (mkCommand "go" ["mod"; "tidy"] [] dir) fs).1 !! q = fs !! q).

Lemma from_template_spec fl data repoPath fs :
  is_rooted repoPath = true -> Forall (fun f => f.2 ∈ templateFS /\ Forall plain_seg (Split f.1 slash)) fl -> NoDup fl.*1 -> apart fl ->
  Forall (fun f => linkless fs [] (output_at repoPath f.1)) fl ->
  let r := from_template fl data repoPath fs in
  only_files (output_at repoPath <$> fl.*1) fs r.1 /\
  (r.2 = None -> Forall (fun f => exists text, rendered read_template parses execute data f text /\ r.1 !! output_at repoPath f.1 = Some (NFile text)) fl) /\
  (Forall (fun f => room fs (output_at repoPath f.1)) fl -> Forall (fun f => exists text, rendered read_template parses execute data f text) fl -> r.2 = None).
Proof.
  intros Hr Hfiles Hnd Ha Hl. unfold createFilesFromTemplate. pose proof (iterate_order fl) as Hperm. cbv zeta.
  destruct (create_files_spec read_template parses execute data repoPath (iterate fl) fs Hr) as [Ho Hd].
  { rewrite Hperm. apply Forall_forall. intros f Hf. rewrite Forall_forall in Hfiles, Hl. split; [by apply Hfiles|by apply Hl]. }
  { by rewrite Hperm. }
  split_and!.
  - intros q. destruct (Ho q) as [?|[(Hq & ?)|(p & Hp & ?)]]; [by left|right; left|right; right; exists p]; (split; [|done]); by rewrite Hperm in *.
  - intros E. specialize (Hd E). by rewrite Hperm in Hd at 1.
  - intros Hroom Hren. apply create_files_live; [done| |rewrite Hperm; by eapply NoDup_fmap_1|unfold apart].
    + rewrite Hperm. apply Forall_forall. intros f Hf. rewrite Forall_forall in Hfiles, Hroom, Hren. split_and!; [by apply Hfiles|by apply Hroom|by apply Hren].
    + rewrite Hperm. eapply Forall_impl; [exact Ha|]. intros f Hf. by rewrite Hperm.
Qed.

Lemma output_at_ne repoPath out out' : out <> out' -> output_at repoPath out <> output_at repoPath out'.
Proof.
  unfold output_at. intros Hne E%app_inv_head. apply Hne. apply (f_equal (fun l => Join l (String slash ""))) in E. by rewrite !Join_Split in E.
Qed.

(** No table has a go.sum. *)
Lemma no_go_sum c f : f ∈ files_of c -> f.1 <> "go.sum".
Proof.
  assert (Hno : forall fl, Forall (fun f : string * string => f.1 <> "go.sum") fl -> f ∈ fl -> f.1 <> "go.sum") by (intros fl Hfl Hf; by eapply Forall_forall in Hfl).
  unfold files_of. repeat case_bool_decide; apply Hno; repeat constructor; discriminate.
Qed.

Lemma Forall_with_elem {A} (P : A -> Prop) l : Forall P l -> Forall (fun x => x ∈ l /\ P x) l.
Proof. intros Hl. apply Forall_forall. intros x Hx. split; [done|]. by eapply Forall_forall in Hl. Qed.

(** What a command has left of the files [fs1] made from the templates. *)
Definition tidied (c : Create) (repoPath : string) (fs1 fs' : FileSystem) : Prop :=
  if bool_decide (cr_Type c = "rust") then fs' = fs1
  else forall q, ~ caches q -> q <> output_at repoPath "go.mod" -> q <> output_at repoPath "go.sum" -> fs' !! q = fs1 !! q.

Lemma tidy_tidied c repoPath r : tidied c repoPath r.1 (tidy exec repoPath r).1 \/ cr_Type c = "rust".
Proof.
  unfold tidied. case_bool_decide as Ht; [by right|left]. intros q Hq H1 H2. destruct r as [fs1 [e|]]; [done|]. cbn [tidy fst].
  pose proof (tidy_local repoPath fs1 q Hq H1 H2) as H3. by destruct (exec _ fs1) as [fs2 []].
Qed.

(** C38: [boe create] with any accepted type and filter type, outside the caches of the Go
    toolchain: whatever order the table of files is iterated in, it changes nothing but the files
    of its table, missing directories on the way to them, and for all types but rust, whose
    module is tidied last, go.mod and go.sum; when it reports success every file but a tidied
    go.mod holds the text its template gives for the name, and that go.mod held it when it was
    tidied; and it does succeed when the places are free (or hold files), the templates are
    readable and render, the toolchain or registry gives the versions and the module is tidied. *)
Theorem create_complete c c' dirs fs (repoPath := JoinAll [cr_Path c; cr_Name c]) (r := create_run c' dirs fs) :
  create_enums c -> Create_Validate c = Ok c' -> is_rooted (cr_Path c) = true ->
  Forall (fun f => linkless fs [] (output_at repoPath f.1)) (files_of c') ->
  (forall q, clean_segs repoPath `prefix_of` q -> ~ caches q) ->
  (exists fs1, only_files (output_at repoPath <$> (files_of c').*1) fs fs1 /\ tidied c repoPath fs1 r.1 /\
     (r.2 = None -> exists data, data !! "Name" = Some (cr_Name c) /\
        Forall (fun f => exists text, rendered read_template parses execute data f text /\ fs1 !! output_at repoPath f.1 = Some (NFile text) /\
          (cr_Type c = "rust" \/ f.1 <> "go.mod" -> r.1 !! output_at repoPath f.1 = Some (NFile text))) (files_of c'))) /\
  (Forall (fun f => room fs (output_at repoPath f.1)) (files_of c') ->
   Forall (fun t => forall data, exists text, rendered read_template parses execute data ("", t) text) templateFS ->
   inputs_known c' -> (forall fs1, (exec (mkCommand "go" ["mod"; "tidy"] [] repoPath) fs1).2 = true) -> r.2 = None).
Proof.
  intros Hen Hv Hroot Hl Hcaches. destruct (create_templates_exist c c' Hen Hv) as (Hfiles & Hnd & Ha).
  destruct (Create_Validate_keeps c c' Hen Hv) as (Hty & Htc & Hpath & Hname).
  pose proof (Create_Run_shape c' dirs fs Hty) as Hshape. rewrite Htc, Hpath, Hname in Hshape. fold repoPath in Hshape.
  destruct Hshape as [(data & Hdata & Hrun)|(Hunknown & e & Hrun)].
  - destruct (from_template_spec (files_of c') data repoPath fs (JoinAll_rooted _ _ Hroot) Hfiles Hnd Ha Hl) as (Ho & Hd & Hlive).
    assert (Hren : Forall (fun t => forall data, exists text, rendered read_template parses execute data ("", t) text) templateFS ->
      Forall (fun f => exists text, rendered read_template parses execute data f text) (files_of c')).
    { intros Hall. eapply Forall_impl; [exact Hfiles|]. intros f [Hf _]. rewrite Forall_forall in Hall. by apply (Hall f.2 Hf data). }
    unfold r. destruct Hrun as [[Ht ->] | [Ht ->]].
    + split; [exists (from_template (files_of c') data repoPath fs).1|intros Hroom Hall _ _; by apply Hlive; [|apply Hren]].
      split; [done|]. split; [unfold tidied; by rewrite bool_decide_eq_true_2|]. intros E. exists data. split; [done|].
      eapply Forall_impl; [exact (Hd E)|]. intros f (text & H1 & H2). by exists text.
    + split; [exists (from_template (files_of c') data repoPath fs).1|].
      * assert (Htidy : tidied c repoPath (from_template (files_of c') data repoPath fs).1 (tidy exec repoPath (from_template (files_of c') data repoPath fs)).1)
          by (by destruct (tidy_tidied c repoPath (from_template (files_of c') data repoPath fs))).
        split; [done|]. split; [done|]. intros E. exists data. split; [done|].
        assert (E' : (from_template (files_of c') data repoPath fs).2 = None) by (by destruct (from_template (files_of c') data repoPath fs) as [? []]).
        eapply Forall_impl; [exact (Forall_with_elem _ _ (Hd E'))|]. intros f [Hsrc (text & H1 & H2)]. exists text. split_and!; [done..|].
        intros [?|Hmod]; [done|]. unfold tidied in Htidy. rewrite bool_decide_eq_false_2 in Htidy by done. rewrite Htidy; [done|apply Hcaches; by eexists|..].
        -- by apply output_at_ne.
        -- apply output_at_ne. by apply (no_go_sum c' f).
      * intros Hroom Hall _ Hok. specialize (Hlive Hroom (Hren Hall)). destruct (from_template (files_of c') data repoPath fs) as [fs1 oe]. cbn [snd] in Hlive. subst oe.
        cbn [tidy]. specialize (Hok fs1). destruct (exec _ fs1) as [fs2 ok]. cbn [snd] in Hok. by rewrite Hok.
  - unfold r. rewrite Hrun. split; [|done]. exists fs. split; [intros q; by left|]. split; [unfold tidied; by case_bool_decide|done].
Qed.
End CreateCommand.

(** A Go extension, with a [go mod tidy] that rewrites go.mod and writes go.sum. *)
Definition example_create : Create := mkCreate "go" "http" "x" "/w" "0.9.0".
Definition example_repo : string := JoinAll [cr_Path example_create; cr_Name example_create].
Definition example_place : FileSystem := {[ ["w"] := NDir ]}.
Definition example_tidy (c : Command) (fs : FileSystem) : FileSystem * bool :=
  (<[output_at (c_dir c) "go.sum" := NFile "sums"]> (<[output_at (c_dir c) "go.mod" := NFile "tidy"]> fs), true).
Definition example_run : FileSystem * option CreateError :=
  Create_Run Some (fun _ => true) (fun t _ => (t, true)) reverse example_tidy "1.25" (Some "1.90") (Err "offline") example_create example_dirs example_place.

Lemma example_room p : p <> ["w"] -> room example_place p.
Proof.
  intros Hp. split; [|left; by apply lookup_singleton_ne]. intros pre _ _. destruct (decide (pre = ["w"])) as [->|Hne]; [by right|left; by apply lookup_singleton_ne].
Qed.

Lemma example_tidy_local (dir : string) (fs : FileSystem) (q : list string) :
  ~ False -> q <> output_at dir "go.mod" -> q <> output_at dir "go.sum" -> (example_tidy (mkCommand "go" ["mod"; "tidy"] [] dir) fs).1 !! q = fs !! q.
Proof. intros _ H1 H2. unfold example_tidy. cbn [fst c_dir]. by rewrite !lookup_insert_ne by done. Qed.

Lemma create_complete_witness :
  example_run.2 = None /\ example_run.1 !! ["w"; "x"; "standalone"; "main.go"] = Some (NFile "templates/create/go/main.go.tmpl") /\
  example_run.1 !! ["w"; "x"; "go.mod"] = Some (NFile "tidy") /\
  exists fs1, only_files (output_at example_repo <$> (files_of example_create).*1) example_place fs1 /\
    fs1 !! ["w"; "x"; "go.mod"] = Some (NFile "templates/create/go/go.mod.tmpl").
Proof.
  assert (Hroom : Forall (fun f => room example_place (output_at example_repo f.1)) (files_of example_create)).
  { apply Forall_forall. intros f Hf. apply example_room.
    repeat (apply elem_of_cons in Hf as [->|Hf]; [vm_compute; discriminate|]). by apply elem_of_nil in Hf. }
  destruct (create_complete Some (fun _ => true) (fun t _ => (t, true)) reverse example_tidy "1.25" (Some "1.90") (Err "offline")
    (fun fl => reverse_Permutation fl) (fun _ => False) example_tidy_local example_create example_create example_dirs example_place)
    as [(fs1 & Ho & _ & Hdone) Hlive].
  - split; cbn; set_solver.
  - reflexivity.
  - reflexivity.
  - eapply Forall_impl; [exact Hroom|]. intros f. apply room_linkless.
  - intros q _ [].
  - assert (Hok : example_run.2 = None).
    { apply Hlive; [exact Hroom| | |done].
      + apply Forall_true. intros t data. exists t, t. split; [reflexivity|split; reflexivity].
      + split; [intros [=]|intros _ [=]]. }
    split_and!; [exact Hok|vm_compute; reflexivity|vm_compute; reflexivity|]. exists fs1. split; [exact Ho|].
    destruct (Hdone Hok) as (data & _ & Hall). rewrite Forall_forall in Hall.
    destruct (Hall ("go.mod", "templates/create/go/go.mod.tmpl")) as (text & (content & [= <-] & _ & [= <-]) & Hat & _); [|exact Hat].
    by apply (list_elem_of_lookup_2 _ 5).
Defined.
