(* ===== verification/CliRoot.v ===== *)
(** * cli: directories, the list of extensions and the web interface command

    cli/cmd/root.go: the directories of the tool and its log; list.go: the table of the public
    index; ui.go: the parameters of the web interface.  The environment, the working directory,
    HTTP, the JSON of an index and the order sorting gives to equal names are parameters. *)

From S2P Require Import Prelude GoStr GoNum GoPath GoFS GoCodec GoJson OPA CliManifest CliCache CliLogs CliFlags UiServer.
From Stdlib Require Import Lia Ascii.

Local Open Scope Z_scope.
Local Open Scope go_scope.

(** ** The environment in paths *)

(** [os.Expand] and what it calls. *)
Definition isShellSpecialVar (c : ascii) : bool := ContainsByte "*#$@!?-0123456789" c.
Definition isAlphaNum (c : ascii) : bool := bool_decide (c = "_"%char) || is_alnum c.
Definition dollar : ascii := "$"%char.

Fixpoint span_name (s : string) : string :=
  match s with "" => "" | String c s' => if isAlphaNum c then String c (span_name s') else "" end.

(** What lies before the closing brace. *)
Fixpoint to_brace (s : string) : option string :=
  match s with
  | "" => None
  | String c s' => if bool_decide (c = "}"%char) then Some "" else match to_brace s' with Some n => Some (String c n) | None => None end
  end.

(** The name that begins [s] and the number of bytes it takes. *)
Definition braced_name (s : string) : string * nat :=
  match to_brace s with
  | None => ("", 1%nat)
  | Some "" => ("", 2%nat)
  | Some name => (name, S (S (String.length name)))
  end.
Definition getShellName (s : string) : string * nat :=
  match s with
  | "" => ("", 0%nat)
  | String "{" s' =>
      match s' with
      | String c (String "}" _) => if isShellSpecialVar c then (String c "", 3%nat) else braced_name s'
      | _ => braced_name s'
      end
  | String c _ => if isShellSpecialVar c then (String c "", 1%nat) else (span_name s, String.length (span_name s))
  end.

(** The loop over the bytes; [skip] of them belong to a name already replaced. *)
Fixpoint expand_from (mapping : string -> string) (skip : nat) (s : string) : string :=
  match s with
  | "" => ""
  | String c s' =>
      match skip with
      | S k => expand_from mapping k s'
      | O =>
          if bool_decide (c = dollar) && negb (bool_decide (s' = "")) then
            match getShellName s' with
            | ("", O) => String c (expand_from mapping O s')
            | ("", w) => expand_from mapping w s'
            | (name, w) => mapping name +:+ expand_from mapping w s'
            end
          else String c (expand_from mapping O s')
      end
  end.
Definition Expand (mapping : string -> string) (s : string) : string := expand_from mapping O s.

Section Root.
(** [os.Getenv], and the working directory if it can be determined. *)
Context (getenv : string -> string) (cwd : option string).

Definition expandPath (path : string) : string :=
  if bool_decide (path = "") then ""
  else
    let path := if HasPrefix path "~/" then "${HOME}/" +:+ drop_bytes 2 path else path in
    let expanded := Expand getenv path in
    match Abs cwd expanded with None => expanded | Some abs => abs end.

Record RootFlags : Type := mkRootFlags { rf_ConfigHome : string; rf_DataHome : string; rf_StateHome : string; rf_RuntimeDir : string; rf_BoeLogLevel : string }.

Definition root_dirs (uid : Z) (c : RootFlags) : Directories :=
  mkDirectories (expandPath (rf_ConfigHome c)) (expandPath (rf_DataHome c)) (expandPath (rf_StateHome c))
    (expandPath (if bool_decide (rf_RuntimeDir c = "") then "/tmp/boe-" +:+ FormatInt uid else rf_RuntimeDir c)).

Inductive RootError : Type := ErrStateDir | ErrOpenLog | ErrLevel (level : string).

(** [Level.UnmarshalText] of the levels the flag parser accepts. *)
Definition parse_level (level : string) : option Z :=
  if bool_decide (level = "debug") then Some (-4)
  else if bool_decide (level = "info") then Some 0
  else if bool_decide (level = "warn") then Some 4
  else if bool_decide (level = "error") then Some 8
  else None.

(** The log is created if it is missing and appended to otherwise. *)
Definition open_append (fs : FileSystem) (p : list string) : option FileSystem :=
  match Stat fs p with
  | Some (NFile _) => Some fs
  | _ => WriteFile fs p ""
  end.

Definition initLogger (dirs : Directories) (level : string) (fs : FileSystem) : FileSystem * result RootError (string * Z) :=
  match MkdirAll fs (clean_segs (StateHome dirs)) with
  | (fs1, false) => (fs1, Err ErrStateDir)
  | (fs1, true) =>
      let path := JoinAll [StateHome dirs; "boe.log"] in
      match open_append fs1 (clean_segs path) with
      | None => (fs1, Err ErrOpenLog)
      | Some fs2 => match parse_level level with Some l => (fs2, Ok (path, l)) | None => (fs2, Err (ErrLevel level)) end
      end
  end.

Definition BeforeApply (uid : Z) (c : RootFlags) (fs : FileSystem) : FileSystem * result RootError (Directories * (string * Z)) :=
  let dirs := root_dirs uid c in
  match initLogger dirs (rf_BoeLogLevel c) fs with
  | (fs1, Ok logger) => (fs1, Ok (dirs, logger))
  | (fs1, Err e) => (fs1, Err e)
  end.
End Root.

(** ** The list of extensions *)

Section List_.
(** The response to the request: none on a transport error. *)
Context (http_get : string -> option (Z * string)) (decode_index : string -> option (list (option ManifestIndexEntry))) (sort_index : list ManifestIndexEntry -> list ManifestIndexEntry).

Inductive ListError : Type := ErrRequest | ErrStatus (code : Z) | ErrIndex | NilEntryPanic.

Definition indexURL : string := "https://builtonenvoy.io/extensions.json".

(** An entry that is null is dereferenced: by the comparison, or by the row when it is alone. *)
Definition fetchIndex (url : string) : result ListError (list ManifestIndexEntry) :=
  match http_get url with
  | None => Err ErrRequest
  | Some (status, body) =>
      if negb (status =? 200) then Err (ErrStatus status)
      else
        match decode_index body with
        | None => Err ErrIndex
        | Some entries => match mapM id entries with Some index => Ok (sort_index index) | None => Err NilEntryPanic end
        end
  end.

Definition list_row (e : ManifestIndexEntry) : list string :=
  let m := ie_Manifest e in [Name m; Version m; m_Type m; Join (FilterTypes m) ","; truncateDescription (Description m) 60].

(** The cells handed to the table writer. *)
Definition List_Run (url : string) : result ListError (list (list string)) :=
  let url := if bool_decide (url = "") then indexURL else url in
  match fetchIndex url with
  | Err e => Err e
  | Ok index => Ok (["NAME"; "VERSION"; "TYPE"; "FILTER_TYPE"; "DESCRIPTION"] :: (list_row <$> index))
  end.
End List_.

(** ** The web interface command *)

Record UIFlags : Type := mkUIFlags {
  uf_Port : Z; uf_LogLevel : string; uf_EnvoyVersion : string; uf_EnvoyVersionsURL : string; uf_EnvoyPath : string; uf_Local : list string; uf_Dev : bool;
  uf_Secure : list string; uf_Insecure : list string; uf_JSONSpec : list string; uf_TestUpstreamHost : string; uf_TestUpstreamCluster : string;
  uf_Cert : string; uf_Key : string; uf_DockerEnabled : bool; uf_DockerImage : string; uf_DockerPull : string }.

Definition ui_params (u : UIFlags) : RunParams :=
  mkRunParams (uf_LogLevel u) (uf_EnvoyVersion u) (uf_EnvoyVersionsURL u) (uf_EnvoyPath u) (uf_Dev u) (uf_Local u) (uf_Secure u) (uf_Insecure u) (uf_JSONSpec u)
    (uf_TestUpstreamHost u) (uf_TestUpstreamCluster u) (uf_Cert u) (uf_Key u) (uf_DockerEnabled u) (uf_DockerImage u) (uf_DockerPull u).

Definition browserCommand (os url : string) : option (list string) :=
  if bool_decide (os = "darwin") then Some ["open"; url]
  else if bool_decide (os = "linux") then Some ["xdg-open"; url]
  else if bool_decide (os = "windows") then Some ["rundll32"; "url.dll,FileProtocolHandler"; url]
  else None.

Inductive UIResult : Type :=
| UIServerError (e : ServerError)
| UIServe (addr : string) (exts : gmap string LocalExtension) (base : list string) (browser : option (list string)).

(** [UI.Run] up to serving: the server of the flags, its address, and the command that opens the
    browser. *)
Definition UI_Run (yaml_map : string -> option (list (string * any))) (os : string) (u : UIFlags) (fs : FileSystem) : UIResult :=
  let params := ui_params u in
  match loadLocalExtensions yaml_map fs (ui_LocalExtensions params) ∅ with
  | Err e => UIServerError e
  | Ok exts => UIServe (":" +:+ FormatInt (uf_Port u)) exts (Args (Some params)) (browserCommand os ("http://localhost:" +:+ FormatInt (uf_Port u)))
  end.

(** ** What expanding gives *)

Lemma expand_from_plain mapping s : ContainsByte s dollar = false -> expand_from mapping O s = s.
Proof.
  induction s as [|c s IH]; [done|]. cbn [ContainsByte expand_from]. intros [Hc Hs]%orb_false_iff. apply bool_decide_eq_false_1 in Hc.
  rewrite bool_decide_false by congruence. cbn [andb]. by rewrite IH.
Qed.

(** The home directory. *)
Lemma expandPath_home getenv cwd rest :
  ContainsByte rest dollar = false -> is_rooted (getenv "HOME") = true -> expandPath getenv cwd ("~/" +:+ rest) = Clean (getenv "HOME" +:+ "/" +:+ rest).
Proof.
  intros Hp Hh. assert (He : Expand getenv ("${HOME}/" +:+ rest) = getenv "HOME" +:+ String "/" (expand_from getenv O rest)) by reflexivity.
  rewrite expand_from_plain in He by done. unfold expandPath. rewrite bool_decide_false by done.
  replace (HasPrefix ("~/" +:+ rest) "~/") with true by (by destruct rest). replace (drop_bytes 2 ("~/" +:+ rest)) with rest by (by destruct rest). cbv iota zeta. rewrite He. unfold Abs.
  assert (getenv "HOME" <> "") by (by intros E; rewrite E in Hh). by rewrite is_rooted_app, Hh.
Qed.

Lemma Abs_is_rooted wd p abs : is_rooted wd = true -> Abs (Some wd) p = Some abs -> is_rooted abs = true.
Proof.
  intros Hw. unfold Abs. destruct (is_rooted p) eqn:Hp; intros [= <-].
  - rewrite (proj2 (clean_segs_Clean p ltac:(by intros ->))). done.
  - unfold Join2. assert (wd <> "") by (by intros ->). rewrite decide_False by done. rewrite (proj2 (clean_segs_Clean (wd +:+ "/" +:+ p) ltac:(by destruct wd))). by rewrite is_rooted_app.
Qed.

(** Whatever is in the environment, a path that is given becomes absolute. *)
Lemma expandPath_rooted getenv wd path : is_rooted wd = true -> path <> "" -> is_rooted (expandPath getenv (Some wd) path) = true.
Proof.
  intros Hw Hne. unfold expandPath. rewrite bool_decide_false by done. destruct (Abs _ _) as [abs|] eqn:Ha; [by eapply Abs_is_rooted|].
  unfold Abs in Ha. case_match; discriminate Ha.
Qed.

(** The four directories are absolute when the flags are given; the log is kept when the tool
    starts again. *)
Lemma root_dirs_rooted getenv wd uid c (dirs := root_dirs getenv (Some wd) uid c) :
  is_rooted wd = true -> rf_ConfigHome c <> "" -> rf_DataHome c <> "" -> rf_StateHome c <> "" ->
  Forall (fun d => is_rooted d = true) [ConfigHome dirs; DataHome dirs; StateHome dirs; RuntimeDir dirs].
Proof.
  intros Hw H1 H2 H3. repeat constructor; cbn; apply expandPath_rooted; try done. case_bool_decide; [done|done].
Qed.

Lemma initLogger_keeps dirs level fs r content :
  initLogger dirs level fs = r -> Stat (MkdirAll fs (clean_segs (StateHome dirs))).1 (clean_segs (JoinAll [StateHome dirs; "boe.log"])) = Some (NFile content) ->
  r.1 = (MkdirAll fs (clean_segs (StateHome dirs))).1.
Proof.
  intros <-. unfold initLogger, open_append. destruct (MkdirAll _ _) as [fs1 []]; [|done]. cbn [fst]. intros ->. by destruct (parse_level level).
Qed.

Example expandPath_ex :
  let env := fun n => if bool_decide (n = "HOME") then "/h" else "" in
  expandPath env (Some "/w") "~/.config/boe" = "/h/.config/boe" /\ expandPath env (Some "/w") "${UNDEFINED}/path" = "/path" /\
  expandPath env (Some "/w") "~u" = "/w/~u" /\ expandPath env (Some "/w") "${}}a$" = "/w/}a$" /\ expandPath env (Some "/w") "" = "".
Proof. vm_compute. repeat split. Qed.
