(* ===== verification/DeadCode.v ===== *)
(** * tools: the dead code linter

    tools/deadcode-lint-plugin: scanner/scanner.go (whole-program reachability from the entry
    points and FFI exports), scanner/discovery.go (targets from the extensions of a Composer
    directory) and runtime-plugin/main.go (the plugin of golangci and its diagnostics).  Loading,
    parsing and type checking packages, building SSA, rapid type analysis, YAML, module files and
    SHA-256 are parameters; a loaded package carries what the scanner reads of it, and the files of
    the disk are read through a record of operations. *)

From S2P Require Import Prelude GoStr GoNum GoPath GoFS SSELines CliFlags.
From Stdlib Require Import Lia Ascii.

Local Open Scope Z_scope.
Local Open Scope go_scope.

(** ** strings.Fields *)

Definition flush (cur : string) : list string := if bool_decide (cur = "") then [] else [cur].
Definition push_byte (cur : string) (c : ascii) : string := cur +:+ String c "".

Fixpoint fields_from (cur s : string) : list string :=
  match s with
  | "" => flush cur
  | String c s1 =>
      if ascii_space c then flush cur ++ fields_from "" s1
      else
        match s1 with
        | "" => fields_from (push_byte cur c) s1
        | String d s2 =>
            if space2 c d then flush cur ++ fields_from "" s2
            else
              match s2 with
              | "" => fields_from (push_byte cur c) s1
              | String e s3 => if space3 c d e then flush cur ++ fields_from "" s3 else fields_from (push_byte cur c) s1
              end
        end
  end.
Definition Fields (s : string) : list string := fields_from "" s.

Example Fields_ex : Fields "//export  on_init " = ["//export"; "on_init"] /\ Fields " " = [].
Proof. vm_compute. repeat split. Qed.

(** ** Programs *)

(** Positions, and functions of the SSA program: [sf_id] is the identity of the pointer. *)
Record Position : Type := mkPosition { po_Filename : string; po_Offset : Z; po_Line : Z; po_Column : Z }.
Record SsaFunc : Type := mkSsaFunc { sf_id : nat; sf_Pos : Position; sf_Origin : option Position; sf_String : string; sf_TypeParams : nat }.

#[export] Instance Position_eq_dec : EqDecision Position.
Proof. solve_decision. Defined.
#[export] Instance SsaFunc_eq_dec : EqDecision SsaFunc.
Proof. solve_decision. Defined.

(** The syntax the tool looks at. *)
Inductive Expr : Type :=
| Ident (name : string) (declared : bool)
| Selector (x : Expr) (sel : string)
| Call (callee : Expr)
| OtherExpr.
Inductive Stmt : Type := ExprStmt (x : Expr) | OtherStmt.
Record FuncDecl : Type := mkFuncDecl { fd_Name : string; fd_ident : nat; fd_Doc : option (list string); fd_Recv : bool; fd_Body : option (list Stmt) }.
Record ImportSpec : Type := mkImport { im_Path : string; im_Name : option string }.
(** A declaration that is no function is [None]. *)
Record File : Type := mkFile { f_Generated : bool; f_Imports : list ImportSpec; f_Decls : list (option FuncDecl) }.

(** A function object with its SSA function, and the interfaces of a scope with the identities of
    their methods. *)
Record FuncObj : Type := mkFuncObj { fo_Value : option SsaFunc; fo_FullName : string; fo_TypeParams : nat; fo_Exported : bool; fo_Id : string;
  fo_Params : nat; fo_Results : nat; fo_RecvType : string }.
Record Iface : Type := mkIface { if_Name : string; if_Methods : list string }.

(** A package as it is loaded, with the packages it imports in the order of their paths; two with
    the same path are the same package. *)
Inductive Package : Type := mkPackage {
  pk_PkgPath : string;
  pk_Name : string;
  pk_Errors : list string;
  pk_GoFiles : list string;
  pk_Syntax : list File;
  pk_Defs : gmap nat FuncObj;
  pk_Scope : list (option Iface);
  pk_Funcs : gmap string SsaFunc;
  pk_Imports : list Package;
}.

(** [packages.Visit] without a first function: every package once, after its imports. *)
Fixpoint visit (p : Package) (st : gset string * list Package) : gset string * list Package :=
  let '(seen, out) := st in
  if bool_decide (pk_PkgPath p ∈ seen) then st
  else
    let '(seen1, out1) := foldl (fun st q => visit q st) ({[ pk_PkgPath p ]} ∪ seen, out) (pk_Imports p) in
    (seen1, out1 ++ [p]).
Definition Visit (initial : list Package) : list Package := (foldl (fun st p => visit p st) (∅, []) initial).2.

(** ** Targets *)

Record EntrySymbol : Type := mkEntrySymbol { es_Package : string; es_Name : string }.
(** Absent build tags differ from an empty list. *)
Record Target : Type := mkTarget {
  t_Directory : string;
  t_Packages : list string;
  t_EntryPackages : list string;
  t_FFIPackages : list string;
  t_EntrySymbols : list EntrySymbol;
  t_BuildTags : option (list string);
  t_Env : gmap string string;
  t_DisableFFI : bool;
}.
Record Finding : Type := mkFinding { fi_Package : string; fi_Filename : string; fi_Offset : Z; fi_Line : Z; fi_Column : Z; fi_Function : string }.
Record Summary : Type := mkSummary { su_Roots : nat; su_FFIExports : list string }.
Record Result : Type := mkResult { rs_Findings : list Finding; rs_Targets : list Summary }.

#[export] Instance Finding_eq_dec : EqDecision Finding.
Proof. solve_decision. Defined.

Inductive ScanError : Type :=
| ErrNoTargets
| ErrTarget (i : nat) (e : ScanError)
| ErrNoDirectory
| ErrAbs
| ErrEnv
| ErrResolve
| ErrNoMatch
| ErrPackages (failures : list string)
| ErrEntrySymbol
| ErrLoad
| ErrRoot
| ErrNotFunction (path name : string)
| ErrExport (path name : string)
| ErrUnresolvedExport (path name : string)
| ErrNoEntrypoints
| ErrUnresolved (path name : string)
| ErrMissingSSA (name : string)
| ErrSourcePath
| NilPackagePanic
| ErrComposer (reason : string)
| ErrInclude (name : string)
| ErrSymlink (name : string)
| ErrAdapter (name : string)
| ErrRootPackage (pattern : string)
| ErrParse (filename : string)
| ErrNoFactory (path : string)
| ErrNoRegistration (path : string)
| ErrUnknownIncludes (names : list string)
| ErrSettings
| ErrBoth
| ErrModule (reason : string)
| ErrUnmapped (f : Finding).

(** [packages.Config]. *)
Inductive LoadMode : Type := NeedName | NeedFiles | LoadAllSyntax.
Record Config : Type := mkConfig { cf_Dir : string; cf_Env : list string; cf_BuildFlags : list string }.

(** [slices.Compact]. *)
Fixpoint Compact {A} `{EqDecision A} (l : list A) : list A :=
  match l with
  | [] => []
  | x :: l' => match Compact l' with [] => [x] | y :: r => if decide (x = y) then y :: r else x :: y :: r end
  end.

(** A loop that collects and stops at the first error. *)
Fixpoint collect {A B} (f : A -> result ScanError (list B)) (l : list A) : result ScanError (list B) :=
  match l with
  | [] => Ok []
  | x :: l' => try ys <- f x; try rest <- collect f l'; Ok (ys ++ rest)
  end.

Definition str_compare (a b : string) : Z := if str_ltb a b then -1 else if str_ltb b a then 1 else 0.

Definition compareFindings (a b : Finding) : Z :=
  let r1 := str_compare (fi_Package a) (fi_Package b) in
  if negb (r1 =? 0) then r1
  else
    let r2 := str_compare (fi_Filename a) (fi_Filename b) in
    if negb (r2 =? 0) then r2
    else if fi_Offset a <? fi_Offset b then -1
    else if fi_Offset b <? fi_Offset a then 1
    else str_compare (fi_Function a) (fi_Function b).

(** ** scanner.go *)

Section Scanner.
(** [filepath.Abs] of the process, its environment, the resolution of links, [packages.Load] (the
    SSA program included), and rapid type analysis. *)
Context (cwd : option string) (Environ : list string) (EvalSymlinks : string -> option string).
Context (Load : Config -> LoadMode -> list string -> option (list Package)) (Analyze : list SsaFunc -> list SsaFunc).
(** [types.Implements] of a receiver type, and the order that sorting findings gives. *)
Context (Implements : string -> Iface -> bool) (SortFindings : list Finding -> list Finding).

Definition bad_override (kv : string * string) : bool :=
  bool_decide (kv.1 = "") || ContainsByte kv.1 "="%char || ContainsByte kv.1 "000"%char || ContainsByte kv.2 "000"%char.

Definition loadConfig (target : Target) : result ScanError Config :=
  if bool_decide (t_Directory target = "") then Err ErrNoDirectory
  else
    match Abs cwd (t_Directory target) with
    | None => Err ErrAbs
    | Some dir =>
        if existsb bad_override (map_to_list (t_Env target)) then Err ErrEnv
        else Ok (mkConfig dir (Environ ++ ((fun kv => kv.1 +:+ "=" +:+ kv.2) <$> map_to_list (t_Env target)))
          (match t_BuildTags target with None => [] | Some tags => ["-tags=" +:+ Join tags ","] end))
    end.

Definition packageErrors (initial : list Package) : result ScanError () :=
  match concat (pk_Errors <$> Visit initial) with
  | [] => Ok ()
  | failures => Err (ErrPackages (Compact (merge_sort str_le failures)))
  end.

Definition packagePaths (cfg : Config) (patterns : list string) : result ScanError (list string) :=
  match patterns with
  | [] => Ok []
  | _ =>
      match Load cfg NeedName patterns with
      | None => Err ErrResolve
      | Some [] => Err ErrNoMatch
      | Some loaded => try _ <- packageErrors loaded; Ok (pk_PkgPath <$> loaded)
      end
  end.

(** The package of an entry symbol. *)
Definition symbol_path (cfg : Config) (symbol : EntrySymbol) : result ScanError (list string) :=
  try paths <- packagePaths cfg [es_Package symbol];
  match paths with
  | [path] => if bool_decide (es_Name symbol = "") then Err ErrEntrySymbol else Ok [path]
  | _ => Err ErrEntrySymbol
  end.

(** The set of roots, and the packages whose exports count. *)
Record Roots : Type := mkRoots { ro_funcs : list SsaFunc; ro_linked : list Package }.

Definition insert_root (fn : SsaFunc) (roots : list SsaFunc) : list SsaFunc := if decide (fn ∈ roots) then roots else roots ++ [fn].

Fixpoint addRoot (roots : list SsaFunc) (functions : list (option SsaFunc)) : result ScanError (list SsaFunc) :=
  match functions with
  | [] => Ok roots
  | None :: _ => Err ErrRoot
  | Some fn :: rest => addRoot (insert_root fn roots) rest
  end.

(** A loop over paths, each looked up; a missing package is dereferenced. *)
Fixpoint each_package (byPath : gmap string Package) (step : Package -> Roots -> result ScanError Roots) (paths : list string) (r : Roots) : result ScanError Roots :=
  match paths with
  | [] => Ok r
  | path :: rest =>
      match byPath !! path with
      | None => Err NilPackagePanic
      | Some p => try r1 <- step p r; each_package byPath step rest r1
      end
  end.

Definition link (p : Package) (r : Roots) (functions : list (option SsaFunc)) : result ScanError Roots :=
  try funcs <- addRoot (ro_funcs r) functions; Ok (mkRoots funcs (ro_linked r ++ [p])).

Definition entry_roots (p : Package) (r : Roots) : result ScanError Roots := link p r [pk_Funcs p !! "init"].
Definition main_roots (p : Package) (r : Roots) : result ScanError Roots :=
  if bool_decide (pk_Name p = "main") && bool_decide (is_Some (pk_Funcs p !! "main")) then link p r [pk_Funcs p !! "init"; pk_Funcs p !! "main"] else Ok r.
Definition symbol_roots (name : string) (p : Package) (r : Roots) : result ScanError Roots :=
  match pk_Funcs p !! name with
  | Some fn => if (sf_TypeParams fn =? 0)%nat then link p r [pk_Funcs p !! "init"; Some fn] else Err (ErrNotFunction (pk_PkgPath p) name)
  | None => Err (ErrNotFunction (pk_PkgPath p) name)
  end.

Fixpoint all_symbol_roots (byPath : gmap string Package) (symbols : list (EntrySymbol * string)) (r : Roots) : result ScanError Roots :=
  match symbols with
  | [] => Ok r
  | (symbol, path) :: rest => try r1 <- each_package byPath (symbol_roots (es_Name symbol)) [path] r; all_symbol_roots byPath rest r1
  end.

(** The packages imported for their exports; one that is missing is a nil package, which the visit
    dereferences unless exports are disabled. *)
Definition ffi_linked (byPath : gmap string Package) (ffi : list string) : option (list Package) := mapM (fun path => byPath !! path) ffi.

Definition ffi_comment (p : Package) (fn : FuncDecl) (comment : string) : result ScanError (list SsaFunc) :=
  match Fields comment with
  | [] => Ok []
  | directive :: args =>
      if bool_decide (directive = "//export") || bool_decide (directive = "//go:wasmexport") then
        match args with
        | [name] =>
            if (bool_decide (directive = "//export") && negb (bool_decide (name = fd_Name fn))) || negb (bool_decide (is_Some (fd_Body fn))) || fd_Recv fn
            then Err (ErrExport (pk_PkgPath p) (fd_Name fn))
            else
              match pk_Defs p !! fd_ident fn with
              | Some obj =>
                  match fo_Value obj with
                  | Some sf => if (fo_TypeParams obj =? 0)%nat then Ok [sf] else Err (ErrUnresolvedExport (pk_PkgPath p) (fd_Name fn))
                  | None => Err (ErrUnresolvedExport (pk_PkgPath p) (fd_Name fn))
                  end
              | None => Err (ErrUnresolvedExport (pk_PkgPath p) (fd_Name fn))
              end
        | _ => Err (ErrExport (pk_PkgPath p) (fd_Name fn))
        end
      else Ok []
  end.

(** The functions of a package in the order of its files. *)
Definition functions_of (p : Package) : list FuncDecl := omap id (concat (f_Decls <$> pk_Syntax p)).

Definition ffiRoots (p : Package) : result ScanError (list SsaFunc) :=
  collect (fun fn => collect (ffi_comment p fn) (default [] (fd_Doc fn))) (functions_of p).

(** The exports of the packages that are linked, with the roots they add. *)
Fixpoint discover (ps : list Package) (funcs : list SsaFunc) (exports : list string) : result ScanError (list SsaFunc * list string) :=
  match ps with
  | [] => Ok (funcs, exports)
  | p :: rest =>
      try functions <- ffiRoots p;
      match functions with
      | [] => discover rest funcs exports
      | _ => try funcs1 <- addRoot funcs ((Some <$> functions) ++ [pk_Funcs p !! "init"]); discover rest funcs1 (exports ++ (sf_String <$> functions))
      end
  end.

Definition isMarker (p : Package) (fn : FuncDecl) (obj : FuncObj) : bool :=
  match fd_Body fn with
  | Some [] =>
      fd_Recv fn && negb (fo_Exported obj) && (fo_Params obj =? 0)%nat && (fo_Results obj =? 0)%nat &&
      existsb (fun iface => bool_decide (fo_Id obj ∈ if_Methods iface) && Implements (fo_RecvType obj) iface) (omap id (pk_Scope p))
  | _ => false
  end.

(** The positions of live functions and of the generic functions they instantiate. *)
Definition is_live (reachable : list SsaFunc) (pos : Position) : bool :=
  existsb (fun fn => bool_decide (sf_Pos fn = pos) || bool_decide (sf_Origin fn = Some pos)) reachable.

Definition dead_function (p : Package) (reachable : list SsaFunc) (fn : FuncDecl) : result ScanError (list Finding) :=
  match pk_Defs p !! fd_ident fn with
  | None => Err (ErrUnresolved (pk_PkgPath p) (fd_Name fn))
  | Some obj =>
      match fo_Value obj with
      | None => Err (ErrMissingSSA (fo_FullName obj))
      | Some sf =>
          let pos := sf_Pos sf in
          if is_live reachable pos || isMarker p fn obj then Ok []
          else
            match Abs cwd (po_Filename pos) ≫= EvalSymlinks with
            | None => Err ErrSourcePath
            | Some filename => Ok [mkFinding (pk_PkgPath p) filename (po_Offset pos) (po_Line pos) (po_Column pos) (sf_String sf)]
            end
      end
  end.

(** The functions of files that are not generated. *)
Definition written_functions (p : Package) : list FuncDecl := omap id (concat (f_Decls <$> filter (fun f => f_Generated f = false) (pk_Syntax p))).

Definition dead_in_package (byPath : gmap string Package) (reachable : list SsaFunc) (path : string) : result ScanError (list Finding) :=
  match byPath !! path with None => Err NilPackagePanic | Some p => collect (dead_function p reachable) (written_functions p) end.

(** What the first half of [scanTarget] finds out; nothing is linked when exports are disabled. *)
Record Program : Type := mkProgram { pg_scope : list string; pg_byPath : gmap string Package; pg_linked : list Package; pg_roots : list SsaFunc; pg_exports : list string }.

Definition load_program (target : Target) : result ScanError Program :=
  try cfg <- loadConfig target;
  try scope <- packagePaths cfg (match t_Packages target with [] => ["./..."] | patterns => patterns end);
  try entries <- packagePaths cfg (t_EntryPackages target);
  try ffi <- packagePaths cfg (t_FFIPackages target);
  try symbolPaths <- collect (symbol_path cfg) (t_EntrySymbols target);
  let all := Compact (merge_sort str_le (scope ++ entries ++ ffi ++ symbolPaths)) in
  match Load cfg LoadAllSyntax all with
  | None => Err ErrLoad
  | Some initial =>
      try _ <- packageErrors initial;
      let byPath := foldl (fun m p => <[pk_PkgPath p := p]> m) ∅ initial in
      try r1 <- each_package byPath entry_roots entries (mkRoots [] []);
      try r2 <- each_package byPath main_roots scope r1;
      try r3 <- all_symbol_roots byPath (zip (t_EntrySymbols target) symbolPaths) r2;
      try linked <- (if t_DisableFFI target then Ok []
        else match ffi_linked byPath ffi with None => Err NilPackagePanic | Some linked => Ok (ro_linked r3 ++ linked) end);
      try found <- discover (Visit linked) (ro_funcs r3) [];
      if bool_decide (found.1 = []) then Err ErrNoEntrypoints else Ok (mkProgram scope byPath linked found.1 found.2)
  end.

Definition reachable_in (prog : Program) : list SsaFunc := Analyze (pg_roots prog).

Definition scanTarget (target : Target) : result ScanError (list Finding * Summary) :=
  try prog <- load_program target;
  try findings <- collect (dead_in_package (pg_byPath prog) (reachable_in prog)) (pg_scope prog);
  Ok (findings, mkSummary (length (pg_roots prog)) (merge_sort str_le (pg_exports prog))).

Fixpoint scan_targets (i : nat) (targets : list Target) : result ScanError (list Finding * list Summary) :=
  match targets with
  | [] => Ok ([], [])
  | target :: rest =>
      match scanTarget target with
      | Err e => Err (ErrTarget i e)
      | Ok (findings, summary) => try r <- scan_targets (S i) rest; Ok (findings ++ r.1, summary :: r.2)
      end
  end.

Definition Scan (targets : list Target) : result ScanError Result :=
  match targets with
  | [] => Err ErrNoTargets
  | _ => try r <- scan_targets 1 targets; Ok (mkResult (Compact (SortFindings r.1)) r.2)
  end.
End Scanner.

(** ** discovery.go *)

Definition composerFFIPackage : string := "github.com/envoyproxy/envoy/source/extensions/dynamic_modules/sdk/go/abi".
Definition sdkPath : string := "github.com/envoyproxy/envoy/source/extensions/dynamic_modules/sdk/go".
Definition factoryName : string := "WellKnownHttpFilterConfigFactories".

Record ComposerDiscovery : Type := mkDiscovery { cd_Directory : string; cd_BuildTags : option (list string); cd_Env : gmap string string; cd_Include : option (list string) }.

(** What an entry of a directory is, and the ways a file is inspected or read. *)
Inductive Kind : Type := KDir | KLink | KOther.
Inductive Inspected : Type := NotExist | InspectFails | Found (k : Kind).
Inductive ReadOutcome : Type := NoFile | ReadFails | Content (data : string).
Record Disk : Type := mkDisk { dk_Stat : string -> Inspected; dk_Lstat : string -> Inspected; dk_ReadDir : string -> option (list (string * Kind)); dk_ReadFile : string -> ReadOutcome }.

#[export] Instance Kind_eq_dec : EqDecision Kind.
Proof. solve_decision. Defined.

Section Discovery.
Context (cwd : option string) (Environ : list string) (Load : Config -> LoadMode -> list string -> option (list Package)) (disk : Disk).
(** [parser.ParseFile], [strconv.Unquote], and the type in a manifest. *)
Context (ParseFile : string -> option File) (Unquote : string -> option string) (manifest_type : string -> option string).

Definition valid_include (name : string) : bool :=
  negb (bool_decide (name = "") || bool_decide (name = ".") || bool_decide (name = "..") || ContainsByte name "/"%char || ContainsByte name "092"%char ||
    ContainsByte name "000"%char || negb (bool_decide (Base name = name))).

Fixpoint include_names (names : list string) (include : gset string) : result ScanError (gset string) :=
  match names with
  | [] => Ok include
  | name :: rest => if valid_include name then include_names rest ({[ name ]} ∪ include) else Err (ErrInclude name)
  end.
Definition includeSet (names : option (list string)) : result ScanError (option (gset string)) :=
  match names with None => Ok None | Some l => try include <- include_names l ∅; Ok (Some include) end.

Definition optionalAdapterDirectory (moduleDir name : string) : result ScanError bool :=
  match dk_Lstat disk (JoinAll [moduleDir; name]) with
  | NotExist => Ok false
  | Found KDir => Ok true
  | _ => Err (ErrAdapter name)
  end.

Definition loadRequiredPackage (cfg : Config) (pattern : string) : result ScanError Package :=
  match Load cfg NeedFiles [pattern] with
  | None => Err ErrLoad
  | Some loaded =>
      try _ <- packageErrors loaded;
      match loaded with
      | [p] => if bool_decide (pk_GoFiles p = []) then Err (ErrRootPackage pattern) else Ok p
      | _ => Err (ErrRootPackage pattern)
      end
  end.

Definition is_factory (fn : FuncDecl) : bool := negb (fd_Recv fn) && bool_decide (fd_Name fn = factoryName).

Fixpoint find_factory (path : string) (files : list string) : result ScanError () :=
  match files with
  | [] => Err (ErrNoFactory path)
  | filename :: rest =>
      match ParseFile filename with
      | None => Err (ErrParse filename)
      | Some file => if existsb is_factory (omap id (f_Decls file)) then Ok () else find_factory path rest
      end
  end.
Definition requireFactory (pkg : Package) : result ScanError () := find_factory (pk_PkgPath pkg) (pk_GoFiles pkg).

(** The names under which a file imports the SDK. *)
Fixpoint sdk_aliases (filename : string) (imports : list ImportSpec) (aliases : gset string) : result ScanError (gset string) :=
  match imports with
  | [] => Ok aliases
  | spec :: rest =>
      match Unquote (im_Path spec) with
      | None => Err (ErrParse filename)
      | Some importPath =>
          let alias := default "sdk" (im_Name spec) in
          if negb (bool_decide (importPath = sdkPath)) || bool_decide (alias = "_") || bool_decide (alias = ".") then sdk_aliases filename rest aliases
          else sdk_aliases filename rest ({[ alias ]} ∪ aliases)
      end
  end.

Fixpoint source_files (files : list string) : result ScanError (list (File * gset string)) :=
  match files with
  | [] => Ok []
  | filename :: rest =>
      match ParseFile filename with
      | None => Err (ErrParse filename)
      | Some file => try aliases <- sdk_aliases filename (f_Imports file) ∅; try l <- source_files rest; Ok ((file, aliases) :: l)
      end
  end.

Definition registers (aliases : gset string) (s : Stmt) : bool :=
  match s with
  | ExprStmt (Call (Selector (Ident name false) sel)) => bool_decide (sel = "RegisterHttpFilterConfigFactories") && bool_decide (name ∈ aliases)
  | _ => false
  end.
Definition registering_init (aliases : gset string) (fn : FuncDecl) : bool :=
  negb (fd_Recv fn) && bool_decide (fd_Name fn = "init") && match fd_Body fn with Some body => existsb (registers aliases) body | None => false end.

Definition requireRegistration (pkg : Package) : result ScanError () :=
  try files <- source_files (pk_GoFiles pkg);
  if existsb (fun fa => existsb (registering_init fa.2) (omap id (f_Decls fa.1))) files then Ok () else Err (ErrNoRegistration (pk_PkgPath pkg)).

Definition composerTarget (composerDir moduleDir name : string) (profile : ComposerDiscovery) : result ScanError Target :=
  try cfg <- loadConfig cwd Environ (mkTarget composerDir [] [] [] [] (cd_BuildTags profile) (cd_Env profile) false);
  let rootPattern := "./" +:+ name in
  try root <- loadRequiredPackage cfg rootPattern;
  try _ <- requireFactory root;
  try embeddedDir <- optionalAdapterDirectory moduleDir "embedded";
  try entryPackages <- (if embeddedDir then
      try registration <- loadRequiredPackage cfg (rootPattern +:+ "/embedded"); try _ <- requireRegistration registration; Ok [rootPattern +:+ "/embedded"]
    else try _ <- requireRegistration root; Ok [rootPattern]);
  try standaloneDir <- optionalAdapterDirectory moduleDir "standalone";
  try entrySymbols <- (if standaloneDir then
      try standalonePackage <- loadRequiredPackage cfg (rootPattern +:+ "/standalone");
      try _ <- requireFactory standalonePackage; Ok [mkEntrySymbol (rootPattern +:+ "/standalone") factoryName]
    else Ok []);
  Ok (mkTarget composerDir [rootPattern +:+ "/..."] entryPackages [composerFFIPackage] entrySymbols (cd_BuildTags profile) (cd_Env profile) false).

(** The name of a child that is a Go extension to analyse; [None] is skipped. *)
Definition go_child (dir : string) (include : option (gset string)) (child : string * Kind) : result ScanError (option string) :=
  let '(name, kind) := child in
  if match include with Some names => negb (bool_decide (name ∈ names)) | None => false end then Ok None
  else
    match kind with
    | KLink =>
        match dk_Stat disk (JoinAll [dir; name]) with
        | Found KDir => Err (ErrSymlink name)
        | Found _ => Ok None
        | _ => Err (ErrComposer name)
        end
    | KOther => Ok None
    | KDir =>
        let moduleDir := JoinAll [dir; name] in
        match dk_Lstat disk moduleDir with
        | Found KLink => Err (ErrSymlink name)
        | Found _ =>
            match dk_ReadFile disk (JoinAll [moduleDir; "manifest.yaml"]) with
            | NoFile => Ok None
            | ReadFails => Err (ErrComposer name)
            | Content manifest =>
                match manifest_type manifest with
                | None => Err (ErrComposer name)
                | Some type => if bool_decide (type = "go") then Ok (Some name) else Ok None
                end
            end
        | _ => Err (ErrComposer name)
        end
    end.

Fixpoint discover_children (dir : string) (include : option (gset string)) (profile : ComposerDiscovery) (children : list (string * Kind))
    : result ScanError (list (string * Target)) :=
  match children with
  | [] => Ok []
  | child :: rest =>
      try found <- go_child dir include child;
      match found with
      | None => discover_children dir include profile rest
      | Some name => try target <- composerTarget dir (JoinAll [dir; name]) name profile; try l <- discover_children dir include profile rest; Ok ((name, target) :: l)
      end
  end.

Definition first_package (t : Target) : string := default "" (head (t_Packages t)).
Definition target_le (a b : Target) : Prop := str_le (first_package a) (first_package b).

#[local] Instance target_le_dec a b : Decision (target_le a b).
Proof. unfold target_le. apply _. Defined.

Definition DiscoverComposer (profile : ComposerDiscovery) : result ScanError (list Target) :=
  if bool_decide (cd_Directory profile = "") then Err ErrNoDirectory
  else
    match Abs cwd (cd_Directory profile) with
    | None => Err ErrAbs
    | Some dir =>
        match dk_Stat disk dir with
        | Found KDir =>
            try include <- includeSet (cd_Include profile);
            match dk_ReadDir disk dir with
            | None => Err (ErrComposer dir)
            | Some children =>
                try targets <- discover_children dir include profile children;
                let unknown := elements (default ∅ include ∖ list_to_set targets.*1) in
                match unknown with
                | _ :: _ => Err (ErrUnknownIncludes (merge_sort str_le unknown))
                | [] => match targets with [] => Err (ErrComposer dir) | _ => Ok (merge_sort target_le targets.*2) end
                end
            end
        | _ => Err (ErrComposer dir)
        end
    end.
End Discovery.

(** ** The plugin *)

Record Settings : Type := mkSettings { st_Module : string; st_Targets : list Target; st_Composer : option ComposerDiscovery }.

(** What reading a module file gives: its path, nothing, or an error. *)
Inductive ModFile : Type := NoModFile | ModUnreadable | ModInvalid | ModNoDirective | ModPath (path : string).
Inductive Analyzer : Type := Reporter (byPackage : gmap string (list Finding)) | CacheSeed (name : string).

Definition set_directory (dir : string) (t : Target) : Target :=
  mkTarget dir (t_Packages t) (t_EntryPackages t) (t_FFIPackages t) (t_EntrySymbols t) (t_BuildTags t) (t_Env t) (t_DisableFFI t).

Section Plugin.
(** The working directory, the module files, scanning and discovery, and the digest of the settings,
    targets and findings. *)
Context (Getwd : option string) (mod_file : string -> ModFile).
Context (scan : list Target -> result ScanError Result) (discover_composer : ComposerDiscovery -> result ScanError (list Target)).
Context (digest : Settings -> list Target -> list Finding -> string).

(** The loop of [moduleDirectory], as far up as there are directories. *)
Fixpoint find_module (fuel : nat) (expected dir : string) : result ScanError string :=
  match mod_file (Join2 dir "go.mod") with
  | ModPath path => if bool_decide (path = expected) then Ok dir else Ok ""
  | ModInvalid => Err (ErrModule "parse")
  | ModNoDirective => Err (ErrModule "no directive")
  | ModUnreadable => Err (ErrModule "read")
  | NoModFile =>
      match fuel with
      | O => Ok ""
      | S fuel' => let parent := Dir dir in if bool_decide (parent = dir) then Ok "" else find_module fuel' expected parent
      end
  end.
Definition moduleDirectory (expected : string) : result ScanError string :=
  match Getwd with None => Err (ErrModule "working directory") | Some dir => find_module (length (clean_segs dir)) expected dir end.

(** Relative directories are below the module. *)
Definition in_module (dir : string) (cfg : Settings) : Settings :=
  mkSettings (st_Module cfg)
    ((fun t => if is_rooted (t_Directory t) then t else set_directory (Join2 dir (t_Directory t)) t) <$> st_Targets cfg)
    ((fun c => if bool_decide (cd_Directory c = "") || is_rooted (cd_Directory c) then c
       else mkDiscovery (Join2 dir (cd_Directory c)) (cd_BuildTags c) (cd_Env c) (cd_Include c)) <$> st_Composer cfg).

Definition by_package (findings : list Finding) : gmap string (list Finding) :=
  foldl (fun m f => <[fi_Package f := default [] (m !! fi_Package f) ++ [f]]> m) ∅ findings.

Definition run_scan (cfg : Settings) : result ScanError (list Analyzer) :=
  try targets <- (match st_Composer cfg with Some c => discover_composer c | None => Ok (st_Targets cfg) end);
  try result <- scan targets;
  Ok [Reporter (by_package (rs_Findings result)); CacheSeed ("ffideadcodecache_" +:+ digest cfg targets (rs_Findings result))].

(** [New] on decoded settings. *)
Definition New (conf : option Settings) : result ScanError (list Analyzer) :=
  match conf with
  | None => Err ErrSettings
  | Some cfg =>
      if bool_decide (is_Some (st_Composer cfg)) && negb (bool_decide (st_Targets cfg = [])) then Err ErrBoth
      else if bool_decide (st_Module cfg = "") then run_scan cfg
      else
        try dir <- moduleDirectory (st_Module cfg);
        if bool_decide (dir = "") then Ok [Reporter ∅] else run_scan (in_module dir cfg)
  end.
End Plugin.

Section Report.
(** The package that is analysed: where its functions are named. *)
Context (cwd : option string) (EvalSymlinks : string -> option string) (name_pos : FuncDecl -> Position).

Definition located (filename : string) (offset : Z) (f : Finding) : bool := bool_decide (fi_Filename f = filename) && bool_decide (fi_Offset f = offset).

(** The diagnostics of the functions in their order, and the findings that remain. *)
Fixpoint report_functions (fns : list FuncDecl) (remaining : list Finding) : result ScanError (list (nat * string) * list Finding) :=
  match fns with
  | [] => Ok ([], remaining)
  | fn :: rest =>
      let pos := name_pos fn in
      match Abs cwd (po_Filename pos) ≫= EvalSymlinks with
      | None => Err ErrSourcePath
      | Some filename =>
          let here := filter (fun f => located filename (po_Offset pos) f = true) remaining in
          try r <- report_functions rest (filter (fun f => located filename (po_Offset pos) f = false) remaining);
          Ok (((fun f => (fd_ident fn, "unreachable function: " +:+ fi_Function f)) <$> here) ++ r.1, r.2)
      end
  end.

(** An error on the first finding that could not be placed; the diagnostics stay. *)
Definition report (files : list File) (findings : list Finding) : result ScanError (list (nat * string)) :=
  match findings with
  | [] => Ok []
  | _ =>
      try r <- report_functions (omap id (concat (f_Decls <$> files))) (remove_dups findings);
      match filter (fun f => f ∈ r.2) findings with
      | f :: _ => Err (ErrUnmapped f)
      | [] => Ok r.1
      end
  end.

Definition report_package (byPackage : gmap string (list Finding)) (path : string) (files : list File) : result ScanError (list (nat * string)) :=
  report files (default [] (byPackage !! path)).
End Report.

(** ** Sorting and loops *)

Lemma collect_elems {A B} (f : A -> result ScanError (list B)) l r :
  collect f l = Ok r -> (forall y, y ∈ r <-> exists x ys, x ∈ l /\ f x = Ok ys /\ y ∈ ys) /\ (forall x, x ∈ l -> exists ys, f x = Ok ys).
Proof.
  revert r. induction l as [|x l IH]; intros r; cbn [collect].
  { intros [= <-]. split; [|by intros x ?%elem_of_nil]. intros y. split; [by intros ?%elem_of_nil|]. by intros (x & ys & ?%elem_of_nil & _). }
  destruct (f x) as [ys|] eqn:Hf; [|done]. cbn [rbind]. destruct (collect f l) as [rest|]; [|done]. cbn [rbind]. intros [= <-].
  destruct (IH rest eq_refl) as [Hin Hall]. split.
  - intros y. rewrite elem_of_app, Hin. split.
    + intros [Hy|(x' & ys' & Hx' & Hf' & Hy)]; [exists x, ys|exists x', ys']; split_and!; try done; [by left|by right].
    + intros (x' & ys' & [->|Hx']%elem_of_cons & Hf' & Hy); [left; congruence|right; by exists x', ys'].
  - intros x' [->|Hx']%elem_of_cons; [by exists ys|by apply Hall].
Qed.

Lemma Compact_elem {A} `{EqDecision A} (l : list A) x : x ∈ Compact l <-> x ∈ l.
Proof.
  induction l as [|y l IH]; [done|]. cbn [Compact]. rewrite elem_of_cons, <- IH. destruct (Compact l) as [|z r]; [by rewrite elem_of_cons|].
  destruct (decide (y = z)) as [->|]; rewrite !elem_of_cons; naive_solver.
Qed.

Lemma Compact_sublist {A} `{EqDecision A} (l : list A) : Compact l `sublist_of` l.
Proof.
  induction l as [|y l IH]; [done|]. cbn [Compact]. destruct (Compact l) as [|z r]; [by constructor|]. destruct (decide (y = z)) as [->|]; by constructor.
Qed.

Lemma StronglySorted_sublist {A} (R : relation A) l1 l2 : l1 `sublist_of` l2 -> StronglySorted R l2 -> StronglySorted R l1.
Proof.
  induction 1 as [|x l1 l2 Hs IH|x l1 l2 Hs IH]; intros Hss; [done| |].
  - apply StronglySorted_inv in Hss as [Hss Hall]. constructor; [by apply IH|]. rewrite Forall_forall in *. intros y Hy. apply Hall. by eapply elem_of_sublist.
  - apply StronglySorted_inv in Hss as [Hss _]. by apply IH.
Qed.

(** Neighbours of a compacted list differ. *)
Lemma Compact_neighbours {A} `{EqDecision A} (l l1 l2 : list A) x y : Compact l = l1 ++ x :: y :: l2 -> x <> y.
Proof.
  revert l1. induction l as [|z l IH]; intros l1; cbn [Compact]; [by destruct l1|].
  destruct (Compact l) as [|w r] eqn:E; [destruct l1 as [|? [|]]; discriminate|].
  destruct (decide (z = w)) as [->|Hne]; [apply IH|]. destruct l1 as [|? l1]; [intros [= -> -> _]; done|]. intros [= _ H]. by eapply IH.
Qed.

Lemma str_compare_le a b : str_compare a b <= 0 <-> str_le a b.
Proof. unfold str_compare, str_le. destruct (str_ltb a b) eqn:E; [rewrite (str_ltb_asym a b E)|destruct (str_ltb b a)]; split; intros; first [done|lia]. Qed.
Lemma str_compare_eq a b : str_compare a b = 0 <-> a = b.
Proof.
  unfold str_compare. destruct (str_ltb a b) eqn:E; [split; [lia|intros ->; by rewrite str_ltb_irrefl in E]|].
  destruct (str_ltb b a) eqn:E2; [split; [lia|intros ->; by rewrite str_ltb_irrefl in E2]|]. split; [intros _; by apply str_ltb_total|lia].
Qed.
Lemma str_compare_lt a b : str_compare a b < 0 <-> str_ltb a b = true.
Proof. unfold str_compare. destruct (str_ltb a b), (str_ltb b a); split; intros; first [done|lia]. Qed.

(** The order of findings as an order on their coordinates. *)
Definition finding_le (a b : Finding) : Prop := compareFindings a b <= 0.
#[export] Instance finding_le_dec a b : Decision (finding_le a b).
Proof. unfold finding_le. apply _. Defined.

Definition key (f : Finding) : string * string * Z * string := (fi_Package f, fi_Filename f, fi_Offset f, fi_Function f).

Lemma compareFindings_key a b : compareFindings a b = 0 <-> key a = key b.
Proof.
  unfold compareFindings, key. destruct (Z.eqb_spec (str_compare (fi_Package a) (fi_Package b)) 0) as [E1|E1]; cbn [negb].
  2:{ split; [lia|]. intros [= H _ _ _]. by apply str_compare_eq in H. }
  apply str_compare_eq in E1. destruct (Z.eqb_spec (str_compare (fi_Filename a) (fi_Filename b)) 0) as [E2|E2]; cbn [negb].
  2:{ split; [lia|]. intros [= _ H _ _]. by apply str_compare_eq in H. }
  apply str_compare_eq in E2. destruct (Z.ltb_spec (fi_Offset a) (fi_Offset b)); [split; [lia|intros [=]; lia]|].
  destruct (Z.ltb_spec (fi_Offset b) (fi_Offset a)); [split; [lia|intros [=]; lia]|].
  rewrite str_compare_eq, E1, E2. split; [intros ->; f_equal; f_equal; lia|by intros [=]].
Qed.

(** ** What a scan finds *)

Section ScanSpec.
Context (cwd : option string) (Environ : list string) (EvalSymlinks : string -> option string).
Context (Load : Config -> LoadMode -> list string -> option (list Package)) (Analyze : list SsaFunc -> list SsaFunc).
Context (Implements : string -> Iface -> bool) (SortFindings : list Finding -> list Finding).
Local Abbreviation load_program := (load_program cwd Environ Load).
Local Abbreviation scanTarget := (scanTarget cwd Environ EvalSymlinks Load Analyze Implements).
Local Abbreviation Scan := (Scan cwd Environ EvalSymlinks Load Analyze Implements SortFindings).

(** The reference: a function written in a package of the scope that no live function has the
    position of, and that is no marker. *)
Definition dead_at (prog : Program) (p : Package) (fn : FuncDecl) (f : Finding) : Prop :=
  exists path obj sf filename,
    path ∈ pg_scope prog /\ pg_byPath prog !! path = Some p /\ fn ∈ written_functions p /\
    pk_Defs p !! fd_ident fn = Some obj /\ fo_Value obj = Some sf /\
    (forall g, g ∈ reachable_in Analyze prog -> sf_Pos g <> sf_Pos sf /\ sf_Origin g <> Some (sf_Pos sf)) /\
    isMarker Implements p fn obj = false /\ Abs cwd (po_Filename (sf_Pos sf)) ≫= EvalSymlinks = Some filename /\
    f = mkFinding (pk_PkgPath p) filename (po_Offset (sf_Pos sf)) (po_Line (sf_Pos sf)) (po_Column (sf_Pos sf)) (sf_String sf).
Definition dead (prog : Program) (f : Finding) : Prop := exists p fn, dead_at prog p fn f.

Lemma is_live_false l pos : is_live l pos = false <-> forall g, g ∈ l -> sf_Pos g <> pos /\ sf_Origin g <> Some pos.
Proof.
  unfold is_live. rewrite <- not_true_iff_false, existsb_exists. split.
  - intros Hn g Hg. split; intros E; apply Hn; exists g; (split; [by apply list_elem_of_In|]); apply orb_true_iff; [left|right]; by apply bool_decide_eq_true_2.
  - intros Hall (g & Hg%list_elem_of_In & [E%bool_decide_eq_true_1|E%bool_decide_eq_true_1]%orb_true_iff); by destruct (Hall g Hg).
Qed.

Lemma scanTarget_dead t fs su :
  scanTarget t = Ok (fs, su) -> exists prog, load_program t = Ok prog /\ forall f, f ∈ fs <-> dead prog f.
Proof.
  unfold DeadCode.scanTarget. destruct (load_program t) as [prog|]; [|done]. cbn [rbind]. destruct (collect _ _) as [findings|] eqn:Hc; [|done]. cbn [rbind]. intros [= -> _].
  exists prog. split; [done|]. apply collect_elems in Hc as [Hin Hall]. intros f. rewrite Hin. unfold dead, dead_at. split.
  - intros (path & ys & Hpath & Hp & Hf). unfold dead_in_package in Hp. destruct (pg_byPath prog !! path) as [p|] eqn:Hby; [|done].
    apply collect_elems in Hp as [Hp _]. apply Hp in Hf as (fn & fs' & Hfn & Hd & Hf). unfold dead_function in Hd.
    destruct (pk_Defs p !! fd_ident fn) as [obj|] eqn:Hobj; [|done]. destruct (fo_Value obj) as [sf|] eqn:Hsf; [|done].
    destruct (is_live _ _ || _) eqn:Hl; [injection Hd as <-; by apply elem_of_nil in Hf|]. apply orb_false_iff in Hl as [Hl Hm].
    destruct (Abs cwd (po_Filename (sf_Pos sf)) ≫= EvalSymlinks) as [filename|] eqn:Ha; [|done]. injection Hd as <-. apply list_elem_of_singleton in Hf as ->.
    exists p, fn, path, obj, sf, filename. split_and!; try done. by apply is_live_false.
  - intros (p & fn & path & obj & sf & filename & Hpath & Hby & Hfn & Hobj & Hsf & Hl & Hm & Ha & ->).
    destruct (Hall path Hpath) as [ys Hys]. exists path, ys. split_and!; try done. unfold dead_in_package in Hys. rewrite Hby in Hys.
    apply collect_elems in Hys as [Hys _]. apply Hys. exists fn. eexists. split; [done|]. unfold dead_function. rewrite Hobj, Hsf.
    apply is_live_false in Hl. rewrite Hl, Hm, Ha. cbn. split; [done|]. by left.
Qed.

Lemma scan_targets_dead i ts r :
  scan_targets cwd Environ EvalSymlinks Load Analyze Implements i ts = Ok r -> forall f, f ∈ r.1 <-> exists t prog, t ∈ ts /\ load_program t = Ok prog /\ dead prog f.
Proof.
  revert i r. induction ts as [|t ts IH]; intros i r; cbn [scan_targets].
  { intros [= <-] f. split; [by intros ?%elem_of_nil|]. by intros (t & prog & ?%elem_of_nil & _). }
  destruct (scanTarget t) as [[fs su]|] eqn:Ht; [|done]. destruct (scan_targets _ _ _ _ _ _ (S i) ts) as [r'|] eqn:Hr; [|done]. cbn [rbind]. intros [= <-] f. cbn [fst].
  destruct (scanTarget_dead t fs su Ht) as (prog & Hp & Hd). rewrite elem_of_app, Hd, (IH _ _ Hr). split.
  - intros [?|(t' & prog' & ? & ? & ?)]; [exists t, prog|exists t', prog']; split_and!; try done; [by left|by right].
  - intros (t' & prog' & [->|Ht']%elem_of_cons & Hp' & ?); [left; congruence|right; by exists t', prog'].
Qed.

Context (SortFindings_spec : forall l, SortFindings l ≡ₚ l /\ StronglySorted finding_le (SortFindings l)).

(** The findings are exactly the dead functions of the targets, in order; without duplicates when
    coordinates and names tell them apart. *)
Lemma Scan_dead ts r :
  Scan ts = Ok r ->
  (forall f, f ∈ rs_Findings r <-> exists t prog, t ∈ ts /\ load_program t = Ok prog /\ dead prog f) /\ StronglySorted finding_le (rs_Findings r).
Proof.
  unfold DeadCode.Scan. destruct ts as [|t ts]; [done|]. destruct (scan_targets _ _ _ _ _ _ 1 _) as [q|] eqn:Hq; [|done]. cbn [rbind]. intros [= <-].
  cbn [rs_Findings]. destruct (SortFindings_spec q.1) as [Hp Hs]. split.
  - intros f. rewrite Compact_elem, Hp. by apply (scan_targets_dead 1).
  - eapply StronglySorted_sublist; [apply Compact_sublist|done].
Qed.
End ScanSpec.

(** ** What a run reports *)

Lemma by_package_lookup fs path : default [] (by_package fs !! path) = filter (fun f => fi_Package f = path) fs.
Proof.
  unfold by_package. assert (Hgen : forall m : gmap string (list Finding), default [] (foldl (fun m f => <[fi_Package f := default [] (m !! fi_Package f) ++ [f]]> m) m fs !! path) =
    default [] (m !! path) ++ filter (fun f => fi_Package f = path) fs).
  { induction fs as [|f fs IH]; intros m; cbn [foldl]; [by rewrite filter_nil, app_nil_r|]. rewrite IH, filter_cons. destruct (decide (fi_Package f = path)) as [<-|Hne].
    - rewrite lookup_insert_eq. cbn. by rewrite <- app_assoc.
    - by rewrite lookup_insert_ne. }
  by rewrite Hgen.
Qed.

Definition message (f : Finding) : string := "unreachable function: " +:+ fi_Function f.

Section ReportSpec.
Context (cwd : option string) (EvalSymlinks : string -> option string) (name_pos : FuncDecl -> Position).
Local Abbreviation report_functions := (report_functions cwd EvalSymlinks name_pos).
Local Abbreviation report := (report cwd EvalSymlinks name_pos).

(** The function a finding is about. *)
Definition placed_at (f : Finding) (fn : FuncDecl) : Prop :=
  Abs cwd (po_Filename (name_pos fn)) ≫= EvalSymlinks = Some (fi_Filename f) /\ fi_Offset f = po_Offset (name_pos fn).

Lemma report_functions_spec fns remaining r :
  report_functions fns remaining = Ok r ->
  exists done, remaining ≡ₚ done ++ r.2 /\ r.1.*2 = message <$> done /\
    (forall d, d ∈ r.1 -> exists f fn, f ∈ done /\ fn ∈ fns /\ placed_at f fn /\ d = (fd_ident fn, message f)) /\
    (forall f fn, f ∈ r.2 -> fn ∈ fns -> ~ placed_at f fn).
Proof.
  revert remaining r. induction fns as [|fn fns IH]; intros remaining r; cbn [DeadCode.report_functions].
  { intros [= <-]. exists []. split_and!; try done; by intros * ?%elem_of_nil || intros * _ ?%elem_of_nil. }
  destruct (Abs cwd _ ≫= EvalSymlinks) as [filename|] eqn:Ha; [|done].
  set (here := filter (fun f => located filename (po_Offset (name_pos fn)) f = true) remaining).
  set (rest := filter (fun f => located filename (po_Offset (name_pos fn)) f = false) remaining).
  destruct (report_functions fns rest) as [q|] eqn:Hq; [|done]. cbn [rbind]. intros [= <-]. destruct (IH rest q Hq) as (dn & Hp & Hm & Hd & Hn).
  assert (Hsplit : remaining ≡ₚ here ++ rest).
  { subst here rest. clear. induction remaining as [|f l IHl]; [done|]. rewrite !filter_cons. destruct (located _ _ f) eqn:E.
    - rewrite decide_True by done. rewrite decide_False by done. cbn. by rewrite <- IHl.
    - rewrite decide_False by done. rewrite decide_True by done. rewrite <- Permutation_middle. by rewrite <- IHl. }
  assert (Hloc : forall f, located filename (po_Offset (name_pos fn)) f = true <-> placed_at f fn).
  { intros f. unfold located, placed_at. rewrite Ha, andb_true_iff, !bool_decide_eq_true. split; [intros [<- ->]; done|intros [[= <-] ->]; done]. }
  exists (here ++ dn). cbn [fst snd]. split_and!.
  - rewrite Hsplit, <- app_assoc. by rewrite Hp.
  - rewrite !fmap_app, Hm. f_equal. rewrite <- list_fmap_compose. done.
  - intros d [Hin|Hin]%elem_of_app.
    + apply list_elem_of_fmap in Hin as (f & -> & Hf). pose proof Hf as Hf'. apply list_elem_of_filter in Hf' as [Hl _]. exists f, fn.
      split_and!; [by apply elem_of_app; left|by left|by apply Hloc|done].
    + destruct (Hd d Hin) as (f & fn' & ? & ? & ? & ?). exists f, fn'. split_and!; try done; [by apply elem_of_app; right|by right].
  - intros f fn' Hf [->|Hfn]%elem_of_cons; [|by apply Hn]. intros Hat%Hloc. assert (Hr : f ∈ rest) by (rewrite Hp; by apply elem_of_app; right).
    apply list_elem_of_filter in Hr as [Hr _]. congruence.
Qed.

(** All findings of the package are reported, each once and at a function it is about. *)
Lemma report_spec files findings ds :
  report files findings = Ok ds ->
  ds.*2 ≡ₚ message <$> remove_dups findings /\
  forall d, d ∈ ds -> exists f fn, f ∈ findings /\ Some fn ∈ concat (f_Decls <$> files) /\ placed_at f fn /\ d = (fd_ident fn, message f).
Proof.
  unfold DeadCode.report. destruct findings as [|f0 l] eqn:Hf; [intros [= <-]; split; [done|by intros d ?%elem_of_nil]|]. rewrite <- Hf. clear Hf f0 l.
  destruct (report_functions _ _) as [q|] eqn:Hq; [|done]. cbn [rbind]. destruct (filter _ findings) as [|f fs] eqn:Hfil; [|done]. intros [= <-].
  apply report_functions_spec in Hq as (dn & Hp & Hm & Hd & _). assert (Hnil : q.2 = []).
  { destruct (q.2) as [|g gs] eqn:E; [done|]. exfalso. assert (Hg : g ∈ remove_dups findings) by (rewrite Hp, elem_of_app; right; by left).
    rewrite elem_of_remove_dups in Hg. assert (Hin : g ∈ filter (fun f => f ∈ q.2) findings) by (apply list_elem_of_filter; split; [rewrite E; by left|done]).
    rewrite E, Hfil in Hin. by apply elem_of_nil in Hin. }
  rewrite Hnil, app_nil_r in Hp. split; [by rewrite Hm, Hp|]. intros d Hin. destruct (Hd d Hin) as (f & fn & Hf & Hfn & Hat & ->). exists f, fn.
  split_and!; try done; [|by apply list_elem_of_omap in Hfn as ([] & ? & [= ->])]. rewrite <- Hp in Hf. by rewrite elem_of_remove_dups in Hf.
Qed.
End ReportSpec.

(** ** Visiting packages *)

Section PackageInd.
Context (P : Package -> Prop) (step : forall p, Forall P (pk_Imports p) -> P p).

Fixpoint package_ind (p : Package) : P p :=
  step p (match p with mkPackage _ _ _ _ _ _ _ _ imports =>
    (fix go (l : list Package) : Forall P l := match l with [] => Forall_nil_2 _ | q :: l' => Forall_cons_2 _ _ _ (package_ind q) (go l') end) imports end).
End PackageInd.

(** What a program imports, directly or not. *)
Inductive imports_star : Package -> Package -> Prop :=
| imports_refl p : imports_star p p
| imports_step p q r : q ∈ pk_Imports p -> imports_star q r -> imports_star p r.

Definition paths (l : list Package) : gset string := list_to_set (pk_PkgPath <$> l).
Definition closed_in (seen : gset string) (l : list Package) : Prop := forall q i, q ∈ l -> i ∈ pk_Imports q -> pk_PkgPath i ∈ seen.

(** A visit adds packages with their paths, and everything they import is seen. *)
Definition visits (roots : list Package) (st st' : gset string * list Package) : Prop :=
  exists new, st'.2 = st.2 ++ new /\ st'.1 = st.1 ∪ paths new /\ closed_in st'.1 new /\ (forall q, q ∈ new -> exists p, p ∈ roots /\ imports_star p q).

Lemma paths_app l1 l2 : paths (l1 ++ l2) = paths l1 ∪ paths l2.
Proof. unfold paths. by rewrite fmap_app, list_to_set_app_L. Qed.

Lemma closed_in_mono s1 s2 l : s1 ⊆ s2 -> closed_in s1 l -> closed_in s2 l.
Proof. intros Hs Hc q i Hq Hi. apply Hs. by eapply Hc. Qed.

Lemma visit_all_spec ps st :
  Forall (fun p => forall st, visits [p] st (visit p st) /\ pk_PkgPath p ∈ (visit p st).1) ps ->
  visits ps st (foldl (fun st q => visit q st) st ps) /\ forall p, p ∈ ps -> pk_PkgPath p ∈ (foldl (fun st q => visit q st) st ps).1.
Proof.
  revert st. induction ps as [|p ps IH]; intros st Hall.
  { split; [|by intros p ?%elem_of_nil]. exists []. cbn. split_and!; [by rewrite app_nil_r|set_solver|by intros q i ?%elem_of_nil|by intros q ?%elem_of_nil]. }
  apply Forall_cons in Hall as [Hp Hall]. destruct (Hp st) as [(n1 & E1 & S1 & C1 & R1) Hin]. cbn [foldl].
  destruct (IH (visit p st) Hall) as [(n2 & E2 & S2 & C2 & R2) Hins]. split.
  - exists (n1 ++ n2). split_and!.
    + by rewrite E2, E1, app_assoc.
    + by rewrite S2, S1, paths_app, union_assoc_L.
    + intros q i [Hq|Hq]%elem_of_app Hi; [|by eapply C2]. rewrite S2. apply elem_of_union_l. by eapply C1.
    + intros q [Hq|Hq]%elem_of_app; [destruct (R1 q Hq) as (p' & ->%list_elem_of_singleton & ?); exists p; split; [by left|done]|].
      destruct (R2 q Hq) as (p' & ? & ?). exists p'. split; [by right|done].
  - intros p' [->|Hp']%elem_of_cons; [|by apply Hins]. rewrite S2. by apply elem_of_union_l.
Qed.

Lemma visit_spec p : forall st, visits [p] st (visit p st) /\ pk_PkgPath p ∈ (visit p st).1.
Proof.
  induction p as [p IH] using package_ind. intros [seen out].
  assert (Hv : visit p (seen, out) = if bool_decide (pk_PkgPath p ∈ seen) then (seen, out)
    else let '(seen1, out1) := foldl (fun st q => visit q st) ({[ pk_PkgPath p ]} ∪ seen, out) (pk_Imports p) in (seen1, out1 ++ [p])) by (by destruct p).
  rewrite Hv. case_bool_decide as Hin.
  { split; [|done]. exists []. cbn. split_and!; [by rewrite app_nil_r|set_solver|by intros q i ?%elem_of_nil|by intros q ?%elem_of_nil]. }
  destruct (visit_all_spec (pk_Imports p) ({[ pk_PkgPath p ]} ∪ seen, out) IH) as [(new & E & S & C & R) Hins].
  destruct (foldl _ _ _) as [seen1 out1]. cbn [fst snd] in *. subst. split; [|set_solver]. exists (new ++ [p]). cbn [fst snd]. split_and!.
  - by rewrite app_assoc.
  - rewrite paths_app. unfold paths at 3. cbn. set_solver.
  - intros q i [Hq| ->%list_elem_of_singleton]%elem_of_app Hi; [by eapply C|by apply Hins].
  - intros q [Hq| ->%list_elem_of_singleton]%elem_of_app; exists p; (split; [by left|]); [|constructor].
    destruct (R q Hq) as (i & Hi & Hstar). by eapply imports_step.
Qed.

(** Two packages with a path are the same package, among those a program is made of. *)
Definition one_per_path (roots : list Package) : Prop :=
  forall p1 p2 q1 q2, p1 ∈ roots -> p2 ∈ roots -> imports_star p1 q1 -> imports_star p2 q2 -> pk_PkgPath q1 = pk_PkgPath q2 -> q1 = q2.

Lemma Visit_complete roots p q : one_per_path roots -> p ∈ roots -> imports_star p q -> q ∈ Visit roots.
Proof.
  intros Hone Hp Hstar. unfold Visit. destruct (visit_all_spec roots (∅, [])) as [(new & E & S & C & R) Hins].
  { apply Forall_forall. intros r _. apply visit_spec. }
  destruct (foldl _ _ _) as [seen out]. cbn [fst snd] in *. rewrite union_empty_l_L in S. cbn in E. subst seen out.
  assert (Hfind : forall r r', r ∈ roots -> imports_star r r' -> pk_PkgPath r' ∈ paths new -> r' ∈ new).
  { intros r r' Hr Hrr' Hin. unfold paths in Hin. apply elem_of_list_to_set, list_elem_of_fmap in Hin as (s & Hs & Hsn). destruct (R s Hsn) as (r0 & Hr0 & Hs0).
    by rewrite (Hone r r0 r' s). }
  assert (Hgen : forall r r', imports_star r r' -> forall p0, p0 ∈ roots -> imports_star p0 r -> r ∈ new -> r' ∈ new).
  { induction 1 as [r|r i r' Hi Hir IH]; intros p0 Hp0 Hstar0 Hr; [done|]. assert (Hpi : imports_star p0 i).
    { clear -Hstar0 Hi. induction Hstar0; [by eapply imports_step; [|constructor]|]. by eapply imports_step; [|apply IHHstar0]. }
    apply (IH p0); [done|done|]. eapply Hfind; [exact Hp0|done|]. by eapply C. }
  eapply Hgen; [exact Hstar|exact Hp|constructor|]. eapply Hfind; [exact Hp|constructor|by apply Hins].
Qed.

(** ** Exports are live *)

Lemma addRoot_incl roots fns roots' : addRoot roots fns = Ok roots' -> roots ⊆ roots' /\ forall fn, Some fn ∈ fns -> fn ∈ roots'.
Proof.
  assert (Hins : forall fn l, l ⊆ insert_root fn l /\ fn ∈ insert_root fn l) by (intros fn l; unfold insert_root; case_decide; set_solver).
  revert roots. induction fns as [|[fn|] fns IH]; intros roots; cbn [addRoot]; [intros [= <-]; set_solver| |done].
  intros H. destruct (IH _ H) as [H1 H2]. destruct (Hins fn roots) as [H3 H4]. split; [set_solver|]. intros g [[= ->]|Hg]%elem_of_cons; [by apply H1|by apply H2].
Qed.

Lemma discover_spec ps funcs exports r :
  discover ps funcs exports = Ok r -> funcs ⊆ r.1 /\ forall p, p ∈ ps -> exists fs, ffiRoots p = Ok fs /\ forall g, g ∈ fs -> g ∈ r.1.
Proof.
  revert funcs exports. induction ps as [|p ps IH]; intros funcs exports; cbn [discover]; [intros [= <-]; set_solver|].
  destruct (ffiRoots p) as [fs|] eqn:Hf; [|done]. cbn [rbind]. destruct fs as [|g0 fs0] eqn:Hfs.
  - intros H. destruct (IH _ _ H) as [H1 H2]. split; [done|]. intros p' [->|Hp]%elem_of_cons; [exists []; split; [done|by intros g ?%elem_of_nil]|by apply H2].
  - rewrite <- Hfs in *. clear Hfs g0 fs0. destruct (addRoot funcs _) as [funcs1|] eqn:Ha; [|done]. cbn [rbind]. intros H. destruct (IH _ _ H) as [H1 H2].
    apply addRoot_incl in Ha as [H3 H4]. split; [set_solver|]. intros p' [->|Hp]%elem_of_cons; [|by apply H2]. exists fs. split; [done|]. intros g Hg. apply H1, H4.
    apply elem_of_app. left. apply list_elem_of_fmap. by exists g.
Qed.

(** A loop over packages keeps what is linked, and links all when every step does. *)
Lemma each_package_linked byPath step paths r r' :
  (forall p r r', step p r = Ok r' -> ro_linked r ⊆ ro_linked r') -> each_package byPath step paths r = Ok r' ->
  ro_linked r ⊆ ro_linked r' /\
  ((forall p r r', step p r = Ok r' -> p ∈ ro_linked r') -> forall path, path ∈ paths -> exists p, byPath !! path = Some p /\ p ∈ ro_linked r').
Proof.
  intros Hmono. revert r. induction paths as [|path paths IH]; intros r; cbn [each_package]; [intros [= <-]; set_solver|].
  destruct (byPath !! path) as [p|] eqn:Hp; [|done]. destruct (step p r) as [r1|] eqn:Hs; [|done]. cbn [rbind]. intros H. destruct (IH _ H) as [H1 H2]. apply Hmono in Hs as Hm.
  split; [set_solver|]. intros Hall path' [->|Hin]%elem_of_cons; [|by apply H2]. exists p. split; [done|]. apply H1. by eapply Hall.
Qed.

Lemma link_linked p r fns r' : link p r fns = Ok r' -> ro_linked r ⊆ ro_linked r' /\ p ∈ ro_linked r'.
Proof. unfold link. destruct (addRoot _ _); [|done]. cbn [rbind]. intros [= <-]. cbn. set_solver. Qed.

Lemma main_roots_linked p r r' : main_roots p r = Ok r' -> ro_linked r ⊆ ro_linked r'.
Proof. unfold main_roots. destruct (_ && _); [by intros [? _]%link_linked|by intros [= <-]]. Qed.

Lemma symbol_roots_linked name p r r' : symbol_roots name p r = Ok r' -> ro_linked r ⊆ ro_linked r'.
Proof. unfold symbol_roots. destruct (_ !! name); [|done]. destruct (_ =? _)%nat; [by intros [? _]%link_linked|done]. Qed.

Lemma all_symbol_roots_linked byPath symbols r r' : all_symbol_roots byPath symbols r = Ok r' -> ro_linked r ⊆ ro_linked r'.
Proof.
  revert r. induction symbols as [|[s path] symbols IH]; intros r; [by intros [= <-]|]. cbn [all_symbol_roots].
  destruct (each_package _ _ _ r) as [r1|] eqn:H1; [|done]. cbn [rbind]. intros H2%IH. apply each_package_linked in H1 as [H1 _]; [set_solver|]. by intros; eapply symbol_roots_linked.
Qed.

(** A function with an export directive. *)
Definition exported (fn : FuncDecl) : Prop :=
  exists comment directive args, comment ∈ default [] (fd_Doc fn) /\ Fields comment = directive :: args /\ (directive = "//export" \/ directive = "//go:wasmexport").

Lemma ffiRoots_exported p fs fn :
  ffiRoots p = Ok fs -> fn ∈ functions_of p -> exported fn ->
  exists obj sf, pk_Defs p !! fd_ident fn = Some obj /\ fo_Value obj = Some sf /\ fo_TypeParams obj = 0%nat /\ fd_Recv fn = false /\ is_Some (fd_Body fn) /\ sf ∈ fs.
Proof.
  intros [Hin Hall]%collect_elems Hfn (comment & directive & args & Hc & Hfields & Hdir). destruct (Hall fn Hfn) as [ys Hys].
  pose proof Hys as [Hin2 Hall2]%collect_elems. destruct (Hall2 comment Hc) as [zs Hzs]. pose proof Hzs as Hsf. unfold ffi_comment in Hsf. rewrite Hfields in Hsf.
  replace (bool_decide (directive = "//export") || bool_decide (directive = "//go:wasmexport")) with true in Hsf
    by (destruct Hdir as [-> | ->]; by vm_compute). destruct args as [|name []]; try done.
  destruct (_ || fd_Recv fn) eqn:Hbad; [done|]. apply orb_false_iff in Hbad as [[_ Hbody]%orb_false_iff Hrecv]. apply negb_false_iff, bool_decide_eq_true_1 in Hbody.
  destruct (pk_Defs p !! fd_ident fn) as [obj|]; [|done]. destruct (fo_Value obj) as [sf|] eqn:Hv; [|done]. destruct (Nat.eqb_spec (fo_TypeParams obj) 0); [|done].
  injection Hsf as <-. exists obj, sf. split_and!; try done. apply Hin. exists fn, ys. split_and!; try done. apply Hin2. exists comment, [sf]. split_and!; try done. by left.
Qed.

Section Exports.
Context (cwd : option string) (Environ : list string) (EvalSymlinks : string -> option string).
Context (Load : Config -> LoadMode -> list string -> option (list Package)) (Analyze : list SsaFunc -> list SsaFunc) (Implements : string -> Iface -> bool).
(** Roots are reachable. *)
Context (Analyze_roots : forall l g, g ∈ l -> g ∈ Analyze l).

(** What [load_program] links, and what its roots contain. *)
Lemma load_program_linked t prog cfg paths :
  load_program cwd Environ Load t = Ok prog -> t_DisableFFI t = false -> loadConfig cwd Environ t = Ok cfg ->
  packagePaths Load cfg (t_EntryPackages t) = Ok paths \/ packagePaths Load cfg (t_FFIPackages t) = Ok paths ->
  (forall path, path ∈ paths -> exists p, pg_byPath prog !! path = Some p /\ p ∈ pg_linked prog) /\
  (forall p, p ∈ Visit (pg_linked prog) -> exists fs, ffiRoots p = Ok fs /\ forall g, g ∈ fs -> g ∈ pg_roots prog).
Proof.
  intros Hl Hd Hcfg Hpaths. unfold load_program in Hl. rewrite Hcfg in Hl. cbn [rbind] in Hl.
  destruct (packagePaths Load cfg (match t_Packages t with [] => _ | _ => _ end)) as [scope|]; [|done]. cbn [rbind] in Hl.
  destruct (packagePaths Load cfg (t_EntryPackages t)) as [entries|]; [|done]. cbn [rbind] in Hl.
  destruct (packagePaths Load cfg (t_FFIPackages t)) as [ffi|]; [|done]. cbn [rbind] in Hl.
  destruct (collect _ _) as [symbolPaths|]; [|done]. cbn [rbind] in Hl. destruct (Load cfg LoadAllSyntax _) as [initial|]; [|done].
  destruct (packageErrors initial) as [[]|]; [|done]. cbn [rbind] in Hl. revert Hl. generalize (foldl (fun (m : gmap string Package) p => <[pk_PkgPath p := p]> m) ∅ initial). intros byPath Hl.
  destruct (each_package byPath entry_roots entries _) as [r1|] eqn:H1; [|done]. cbn [rbind] in Hl.
  destruct (each_package byPath main_roots scope r1) as [r2|] eqn:H2; [|done]. cbn [rbind] in Hl.
  destruct (all_symbol_roots byPath _ r2) as [r3|] eqn:H3; [|done]. cbn [rbind] in Hl. rewrite Hd in Hl.
  destruct (ffi_linked byPath ffi) as [linked|] eqn:Hffi; [|done]. cbn [rbind] in Hl.
  destruct (discover _ _ _) as [found|] eqn:Hf; [|done]. cbn [rbind] in Hl. destruct (bool_decide _); [done|]. injection Hl as <-. cbn [pg_byPath pg_linked pg_roots].
  apply each_package_linked in H1 as [_ H1]; [|by intros p r r' [? _]%link_linked]. specialize (H1 (fun p r r' H => proj2 (link_linked _ _ _ _ H))).
  apply each_package_linked in H2 as [H2 _]; [|by intros; eapply main_roots_linked]. apply all_symbol_roots_linked in H3.
  split; [|apply discover_spec in Hf as [_ Hf]; exact Hf]. intros path Hpath. destruct Hpaths as [[= ->]|[= ->]].
  - destruct (H1 path Hpath) as (p & Hp & Hin). exists p. split; [done|]. set_solver.
  - unfold ffi_linked in Hffi. apply mapM_Some in Hffi. pose proof (list_elem_of_lookup_1 _ _ Hpath) as [i Hi]. destruct (Forall2_lookup_l _ _ _ _ _ Hffi Hi) as (p & Hpi & Hp).
    exists p. split; [done|]. apply elem_of_app. right. by eapply list_elem_of_lookup_2.
Qed.

(** C40: every function with an export directive in a package that an entry package, or a package
    listed for its exports, imports directly or not, is a root: it is a plain function with a body
    and is never reported as dead.  Loading must give one package per path, and roots must be
    reachable. *)
Theorem exports_live t prog cfg paths path p q fn :
  load_program cwd Environ Load t = Ok prog -> t_DisableFFI t = false -> loadConfig cwd Environ t = Ok cfg ->
  packagePaths Load cfg (t_EntryPackages t) = Ok paths \/ packagePaths Load cfg (t_FFIPackages t) = Ok paths ->
  one_per_path (pg_linked prog) -> path ∈ paths -> pg_byPath prog !! path = Some p -> imports_star p q -> fn ∈ functions_of q -> exported fn ->
  (exists obj sf, pk_Defs q !! fd_ident fn = Some obj /\ fo_Value obj = Some sf /\ fo_TypeParams obj = 0%nat /\ fd_Recv fn = false /\ is_Some (fd_Body fn) /\
     sf ∈ pg_roots prog) /\
  forall f, ~ dead_at cwd EvalSymlinks Analyze Implements prog q fn f.
Proof.
  intros Hl Hd Hcfg Hpaths Hone Hpath Hp Hstar Hfn Hex. destruct (load_program_linked t prog cfg paths Hl Hd Hcfg Hpaths) as [Hlinked Hroots].
  destruct (Hlinked path Hpath) as (p' & Hp' & Hin). rewrite Hp in Hp'. injection Hp' as <-.
  destruct (Hroots q (Visit_complete _ p q Hone Hin Hstar)) as (fs & Hfs & Hall). destruct (ffiRoots_exported q fs fn Hfs Hfn Hex) as (obj & sf & Ho & Hv & Ht & Hr & Hb & Hsf).
  split; [exists obj, sf; split_and!; auto|]. intros f (path' & obj' & sf' & filename & _ & _ & _ & Ho' & Hv' & Hlive & _). rewrite Ho in Ho'. injection Ho' as <-.
  rewrite Hv in Hv'. injection Hv' as <-. by destruct (Hlive sf (Analyze_roots _ _ (Hall sf Hsf))).
Qed.
End Exports.

(** ** The linter as a whole *)

Section Lint.
Context (cwd : option string) (Environ : list string) (EvalSymlinks : string -> option string).
Context (Load : Config -> LoadMode -> list string -> option (list Package)) (Analyze : list SsaFunc -> list SsaFunc).
Context (Implements : string -> Iface -> bool) (SortFindings : list Finding -> list Finding).
Context (mod_file : string -> ModFile) (discover_composer : ComposerDiscovery -> result ScanError (list Target)) (digest : Settings -> list Target -> list Finding -> string).
Context (SortFindings_spec : forall l, SortFindings l ≡ₚ l /\ StronglySorted finding_le (SortFindings l)).
Local Abbreviation scan := (Scan cwd Environ EvalSymlinks Load Analyze Implements SortFindings).

(** The targets a configuration stands for. *)
Definition targets_of (cfg : Settings) (targets : list Target) : Prop :=
  match st_Composer cfg with Some c => discover_composer c = Ok targets | None => targets = st_Targets cfg end.

(** C39: the analyzers of a configuration report, for whatever package and in whatever order
    packages are analysed, exactly the dead functions of its targets that are in the package, each
    once and at a function it is about; an error is reported rather than a part of them. *)
Theorem lint_exact cfg byPackage seed :
  New cwd mod_file scan discover_composer digest (Some cfg) = Ok [Reporter byPackage; seed] ->
  exists cfg' targets, (cfg' = cfg \/ exists dir, moduleDirectory cwd mod_file (st_Module cfg) = Ok dir /\ cfg' = in_module dir cfg) /\ targets_of cfg' targets /\
  forall name_pos path files ds,
    report_package cwd EvalSymlinks name_pos byPackage path files = Ok ds ->
    exists fs, NoDup fs /\ ds.*2 ≡ₚ message <$> fs /\
      (forall f, f ∈ fs <-> fi_Package f = path /\ exists t prog, t ∈ targets /\ load_program cwd Environ Load t = Ok prog /\ dead cwd EvalSymlinks Analyze Implements prog f) /\
      forall d, d ∈ ds -> exists f fn, f ∈ fs /\ Some fn ∈ concat (f_Decls <$> files) /\ placed_at cwd EvalSymlinks name_pos f fn /\ d = (fd_ident fn, message f).
Proof.
  intros Hnew. assert (Hrun : exists cfg', (cfg' = cfg \/ exists dir, moduleDirectory cwd mod_file (st_Module cfg) = Ok dir /\ cfg' = in_module dir cfg) /\
    run_scan scan discover_composer digest cfg' = Ok [Reporter byPackage; seed]).
  { unfold New in Hnew. destruct (_ && _); [done|]. case_bool_decide; [exists cfg; split; [by left|done]|].
    destruct (moduleDirectory _ _ _) as [dir|]; [|done]. cbn [rbind] in Hnew. case_bool_decide; [done|]. exists (in_module dir cfg). split; [right; by exists dir|done]. }
  destruct Hrun as (cfg' & Hcfg & Hrun). unfold run_scan in Hrun.
  assert (Ht : exists targets, targets_of cfg' targets /\ (try result <- scan targets;
    Ok [Reporter (by_package (rs_Findings result)); CacheSeed ("ffideadcodecache_" +:+ digest cfg' targets (rs_Findings result))]) = Ok [Reporter byPackage; seed]).
  { unfold targets_of. destruct (st_Composer cfg') as [c|]; [|by eexists]. destruct (discover_composer c) as [targets|]; [|done]. by exists targets. }
  clear Hrun. destruct Ht as (targets & Ht & Hrun). exists cfg', targets. split_and!; [done|done|]. destruct (scan targets) as [r|] eqn:Hs; [|done]. cbn [rbind] in Hrun.
  injection Hrun as <- _. intros name_pos path files ds Hr. unfold report_package in Hr. rewrite by_package_lookup in Hr. apply report_spec in Hr as [Hperm Hd].
  destruct (Scan_dead _ _ _ _ _ _ _ SortFindings_spec _ _ Hs) as [Hdead _].
  exists (remove_dups (filter (fun f => fi_Package f = path) (rs_Findings r))). split_and!; [apply NoDup_remove_dups|done| |].
  - intros f. by rewrite elem_of_remove_dups, list_elem_of_filter, Hdead.
  - intros d Hin. destruct (Hd d Hin) as (f & fn & Hf & ?). exists f, fn. by rewrite elem_of_remove_dups.
Qed.
End Lint.

(** ** Going up, and the extensions found *)

Lemma Dir_absolute dir : is_rooted dir = true -> dir = Clean dir ->
  is_rooted (Dir dir) = true /\ Dir dir = Clean (Dir dir) /\ (Dir dir = dir \/ length (clean_segs dir) = S (length (clean_segs (Dir dir)))).
Proof.
  intros Hr Hc. assert (Hne : dir <> "") by (by intros ->). assert (Hren : dir = render_path true (clean_segs dir)).
  { rewrite Hc at 1. unfold Clean. by rewrite decide_False, Hr. }
  pose proof (clean_segs_plain dir Hr) as Hp. assert (Hf : Forall slash_free (clean_segs dir)) by (apply clean_segs_slash_free).
  destruct (clean_segs dir) as [|x elems _] eqn:E using rev_ind.
  { cbn in Hren. rewrite Hren. split_and!; try done. by left. }
  assert (Hj : dir = JoinAll ("/" :: elems ++ [x])) by (rewrite JoinAll_below by done; exact Hren).
  destruct (JoinAll_file "/" elems x eq_refl Hp Hf) as (_ & Hd & _ & Hrd). rewrite <- Hj in Hd, Hrd.
  change (clean_segs "/" ++ elems) with elems in Hd. split_and!; [done| |right; rewrite Hd, length_app; cbn; lia].
  unfold Dir. destruct (LastIndexByte dir slash); [|done]. by rewrite Clean_idem.
Qed.

(** The loop of [moduleDirectory] ends at the root: its fuel is enough. *)
Lemma find_module_enough mod_file expected n dir :
  is_rooted dir = true -> dir = Clean dir ->
  find_module mod_file (length (clean_segs dir) + n) expected dir = find_module mod_file (length (clean_segs dir)) expected dir.
Proof.
  remember (length (clean_segs dir)) as k eqn:Hk. revert dir Hk. induction k as [|k IH]; intros dir Hk Hr Hc; destruct (Dir_absolute dir Hr Hc) as (Hr' & Hc' & Hd).
  - destruct Hd as [Hd|?]; [|lia]. destruct n as [|n]; [done|]. cbn [Nat.add find_module]. rewrite Hd, bool_decide_true by done. done.
  - cbn [Nat.add find_module]. destruct (mod_file _); try done. case_bool_decide; [done|]. destruct Hd as [?|Hd]; [done|]. apply IH; [lia|done|done].
Qed.

Section DiscoverSpec.
Context (cwd : option string) (Environ : list string) (Load : Config -> LoadMode -> list string -> option (list Package)) (disk : Disk).
Context (ParseFile : string -> option File) (Unquote : string -> option string) (manifest_type : string -> option string).
Local Abbreviation composerTarget := (composerTarget cwd Environ Load disk ParseFile Unquote).
Local Abbreviation go_child := (go_child disk manifest_type).

Lemma composerTarget_packages composerDir moduleDir name profile t : composerTarget composerDir moduleDir name profile = Ok t -> t_Packages t = ["./" +:+ name +:+ "/..."].
Proof.
  unfold DeadCode.composerTarget. repeat (match goal with |- rbind ?r _ = _ -> _ => destruct r; [|done]; cbn [rbind] end). intros [= <-]. cbn. done.
Qed.

Lemma go_child_name dir include child name :
  go_child dir include child = Ok (Some name) -> child.1 = name /\ forall names, include = Some names -> name ∈ names.
Proof.
  unfold DeadCode.go_child. destruct child as [n k]. destruct include as [names|].
  - case_bool_decide as Hin; [|done]. cbn [negb]. intros H. assert (n = name) as -> by (repeat case_match; congruence). split; [done|]. by intros ? [= <-].
  - intros H. split; [|done]. cbn. repeat case_match; congruence.
Qed.

(** The targets are those of the children that are Go extensions, in their order. *)
Lemma discover_children_spec dir include profile children r :
  discover_children cwd Environ Load disk ParseFile Unquote manifest_type dir include profile children = Ok r ->
  Forall (fun nt => (exists child, child ∈ children /\ go_child dir include child = Ok (Some nt.1)) /\ composerTarget dir (JoinAll [dir; nt.1]) nt.1 profile = Ok nt.2) r /\
  forall child, child ∈ children -> go_child dir include child = Ok None \/ exists name, go_child dir include child = Ok (Some name) /\ name ∈ r.*1.
Proof.
  revert r. induction children as [|child children IH]; intros r; cbn [discover_children]; [intros [= <-]; split; [done|by intros ? ?%elem_of_nil]|].
  destruct (go_child dir include child) as [[name|]|] eqn:Hg; cbn [rbind]; [| |done].
  - destruct (composerTarget _ _ name profile) as [t|] eqn:Ht; [|done]. cbn [rbind]. destruct (discover_children _ _ _ _ _ _ _ dir _ _ children) as [l|]; [|done]. cbn [rbind].
    intros [= <-]. destruct (IH l eq_refl) as [Hall Hin]. split.
    + constructor; [split; [exists child; split; [by left|done]|done]|]. eapply Forall_impl; [exact Hall|]. intros nt [(c & ? & ?) ?]. split; [exists c; split; [by right|done]|done].
    + intros c [->|Hc]%elem_of_cons; [right; exists name; split; [done|by left]|]. destruct (Hin c Hc) as [?|(n & ? & ?)]; [by left|right; exists n; split; [done|by right]].
  - intros Hr. destruct (IH r Hr) as [Hall Hin]. split.
    + eapply Forall_impl; [exact Hall|]. intros nt [(c & ? & ?) ?]. split; [exists c; split; [by right|done]|done].
    + intros c [->|Hc]%elem_of_cons; [by left|by apply Hin].
Qed.

(** Every name that is asked for has its target, and no other extension has. *)
Lemma DiscoverComposer_included profile ts names :
  DiscoverComposer cwd Environ Load disk ParseFile Unquote manifest_type profile = Ok ts -> cd_Include profile = Some names ->
  (forall name, name ∈ names -> exists t, t ∈ ts /\ t_Packages t = ["./" +:+ name +:+ "/..."]) /\
  (forall t, t ∈ ts -> exists name, name ∈ names /\ t_Packages t = ["./" +:+ name +:+ "/..."]).
Proof.
  unfold DiscoverComposer. case_bool_decide; [done|]. destruct (Abs _ _) as [dir|]; [|done]. destruct (dk_Stat disk dir) as [| |[]]; try done. intros Hd Hi. rewrite Hi in Hd.
  cbn [includeSet] in Hd. destruct (include_names names ∅) as [include|] eqn:Hinc; [|done]. cbn [rbind] in Hd. destruct (dk_ReadDir disk dir) as [children|]; [|done].
  destruct (discover_children _ _ _ _ _ _ _ dir _ profile children) as [r|] eqn:Hr; [|done]. cbn [rbind default] in Hd.
  destruct (elements (include ∖ list_to_set r.*1)) as [|u us] eqn:Hu; cbn in Hd; rewrite Hu in Hd; [|done].
  apply discover_children_spec in Hr as [Hall _]. rewrite Forall_forall in Hall.
  assert (Hset : forall name, name ∈ include <-> name ∈ names).
  { clear -Hinc. assert (Hgen : forall acc, include_names names acc = Ok include -> forall name, name ∈ include <-> name ∈ names \/ name ∈ acc).
    { clear Hinc. induction names as [|n names IH]; intros acc; cbn [include_names]; [intros [= <-]; set_solver|]. destruct (valid_include n); [|done]. intros H name. rewrite (IH _ H). set_solver. }
    intros name. rewrite (Hgen ∅ Hinc). set_solver. }
  assert (Hsort : forall t, t ∈ ts <-> t ∈ r.*2) by (intros t; destruct r; [done|]; injection Hd as <-; by rewrite merge_sort_Permutation). split.
  - intros name Hn. assert (Hin : name ∈ r.*1).
    { destruct (decide (name ∈ r.*1)) as [?|Hno]; [done|]. exfalso. assert (Hx : name ∈ elements (include ∖ list_to_set r.*1)) by set_solver. rewrite Hu in Hx. by apply elem_of_nil in Hx. }
    apply list_elem_of_fmap in Hin as ([n t] & -> & Hin). destruct (Hall _ Hin) as [_ Ht]. exists t. split; [apply Hsort, list_elem_of_fmap; by exists (n, t)|].
    by eapply composerTarget_packages.
  - intros t Ht%Hsort. apply list_elem_of_fmap in Ht as ([n t'] & -> & Hin). destruct (Hall _ Hin) as [(child & _ & Hg) Ht]. exists n.
    apply go_child_name in Hg as [_ Hg]. split; [by apply Hset, Hg|]. by eapply composerTarget_packages.
Qed.
End DiscoverSpec.

(** ** An example *)

Definition at_offset (offset : Z) : Position := mkPosition "/m/x.go" offset offset 1.
Definition ssa (id : nat) (name : string) : SsaFunc := mkSsaFunc id (at_offset (Z.of_nat id)) None name 0.
Definition plain_obj (id : nat) (name : string) : FuncObj := mkFuncObj (Some (ssa id name)) name 0 false name 0 0 "".
Definition plain_decl (id : nat) (name : string) (doc : option (list string)) : FuncDecl := mkFuncDecl name id doc false (Some []).
Definition sdk_file : File := mkFile false [] [Some (plain_decl 10 "on_init" (Some ["//export on_init"]))].
Definition sdk_package : Package :=
  mkPackage "m/sdk" "sdk" [] ["/m/sdk.go"] [sdk_file] {[ 10%nat := plain_obj 10 "on_init" ]} [] {[ "init" := ssa 11 "init" ]} [].
Definition main_file : File := mkFile false [] [Some (plain_decl 1 "main" None); None; Some (plain_decl 2 "helper" None); Some (plain_decl 3 "unused" None)].
Definition main_package : Package :=
  mkPackage "m/x" "main" [] ["/m/x.go"] [main_file] (<[1%nat := plain_obj 1 "main"]> (<[2%nat := plain_obj 2 "helper"]> {[ 3%nat := plain_obj 3 "unused" ]})) []
    (<["init" := ssa 12 "init"]> {[ "main" := ssa 1 "main" ]}) [sdk_package].
Definition example_load (_ : Config) (_ : LoadMode) (patterns : list string) : option (list Package) :=
  Some (omap (fun p => if bool_decide (p = "./...") || bool_decide (p = "m/x") then Some main_package else if bool_decide (p = "m/sdk") then Some sdk_package else None) patterns).
Definition example_target : Target := mkTarget "/m" [] ["m/x"] [] [] None ∅ false.
Definition example_analyze (roots : list SsaFunc) : list SsaFunc := roots ++ [ssa 2 "helper"].
Definition example_sort (l : list Finding) : list Finding := merge_sort finding_le l.
Definition example_name_pos (fn : FuncDecl) : Position := at_offset (Z.of_nat (fd_ident fn)).
Definition example_finding : Finding := mkFinding "m/x" "/m/x.go" 3 3 1 "unused".


Lemma finding_le_lex a b :
  finding_le a b <-> str_lt (fi_Package a) (fi_Package b) \/ (fi_Package a = fi_Package b /\
    (str_lt (fi_Filename a) (fi_Filename b) \/ (fi_Filename a = fi_Filename b /\
      (fi_Offset a < fi_Offset b \/ (fi_Offset a = fi_Offset b /\ str_le (fi_Function a) (fi_Function b)))))).
Proof.
  assert (Hs : forall x y, str_compare x y <> 0 -> (str_compare x y <= 0 <-> str_lt x y \/ (x = y /\ False))).
  { intros x y Hne. unfold str_lt. rewrite <- str_compare_lt. split; [left; lia|intros [?|[_ []]]; lia]. }
  assert (Hd : forall x y (P : Prop), str_compare x y <> 0 -> (str_compare x y <= 0 <-> str_lt x y \/ (x = y /\ P))).
  { intros x y P Hne. rewrite (Hs x y Hne). split; [intros [?|[_ []]]; by left|]. intros [?|[-> _]]; [by left|]. by destruct Hne; apply str_compare_eq. }
  assert (Hi : forall x y (P : Prop), x = y -> (str_lt x y \/ (x = y /\ P) <-> P)).
  { intros x y P ->. unfold str_lt. rewrite str_ltb_irrefl. split; [intros [?|[_ ?]]; done|by right]. }
  unfold finding_le, compareFindings. destruct (Z.eqb_spec (str_compare (fi_Package a) (fi_Package b)) 0) as [E1|E1]; cbn [negb]; [|by apply Hd].
  apply str_compare_eq in E1. rewrite Hi by done. destruct (Z.eqb_spec (str_compare (fi_Filename a) (fi_Filename b)) 0) as [E2|E2]; cbn [negb]; [|by apply Hd].
  apply str_compare_eq in E2. rewrite Hi by done. destruct (Z.ltb_spec (fi_Offset a) (fi_Offset b)); [split; [by left|lia]|].
  destruct (Z.ltb_spec (fi_Offset b) (fi_Offset a)); [split; lia|]. rewrite str_compare_le. split; [right; split; [lia|done]|intros [?|[_ ?]]; [lia|done]].
Qed.

#[local] Instance finding_le_trans : Transitive finding_le.
Proof.
  assert (Hlt : forall x y z, str_lt x y -> str_lt y z -> str_lt x z) by (intros x y z; unfold str_lt; apply str_ltb_trans).
  intros a b c. rewrite !finding_le_lex. intros [H1|[-> H1]] [H2|[E2 H2]]; [left; by eapply Hlt|left; by rewrite <- E2|by left|]. right. split; [done|].
  destruct H1 as [H1|[-> H1]], H2 as [H2|[E3 H2]]; [left; by eapply Hlt|left; by rewrite <- E3|by left|]. right. split; [done|].
  destruct H1 as [H1|[-> H1]], H2 as [H2|[E4 H2]]; [left; lia|left; lia|by left|]. right. split; [done|]. by etrans.
Qed.

#[local] Instance finding_le_total : Total finding_le.
Proof.
  assert (Htri : forall x y, str_lt x y \/ x = y \/ str_lt y x).
  { intros x y. unfold str_lt. destruct (str_ltb x y) eqn:E1; [by left|]. destruct (str_ltb y x) eqn:E2; [by right; right|]. right; left. by apply str_ltb_total. }
  intros a b. rewrite !finding_le_lex. destruct (Htri (fi_Package a) (fi_Package b)) as [?|[->|?]]; [by left; left| |by right; left].
  destruct (Htri (fi_Filename a) (fi_Filename b)) as [?|[->|?]]; [by left; right; split; [|left]| |by right; right; split; [|left]].
  destruct (Z.lt_trichotomy (fi_Offset a) (fi_Offset b)) as [?|[->|?]]; [by left; right; split; [|right; split; [|left]]| |by right; right; split; [|right; split; [|left]]].
  destruct (total str_le (fi_Function a) (fi_Function b)); [left|right]; right; (split; [done|right; split; [done|right; by split]]).
Qed.

Lemma example_sort_spec l : example_sort l ≡ₚ l /\ StronglySorted finding_le (example_sort l).
Proof. split; [apply merge_sort_Permutation|apply (StronglySorted_merge_sort finding_le)]. Qed.

Lemma lint_exact_witness :
  exists byPackage seed fs, New (Some "/") (fun _ => NoModFile) (Scan (Some "/") [] Some example_load example_analyze (fun _ _ => false) example_sort) (fun _ => Err ErrSettings)
      (fun _ _ _ => "0") (Some (mkSettings "" [example_target] None)) = Ok [Reporter byPackage; seed] /\
    report_package (Some "/") Some example_name_pos byPackage "m/x" [main_file] = Ok [(3%nat, "unreachable function: unused")] /\
    NoDup fs /\ ["unreachable function: unused"] ≡ₚ message <$> fs.
Proof.
  destruct (New (Some "/") (fun _ => NoModFile) (Scan (Some "/") [] Some example_load example_analyze (fun _ _ => false) example_sort) (fun _ => Err ErrSettings)
      (fun _ _ _ => "0") (Some (mkSettings "" [example_target] None))) as [[|[byPackage|] [|seed []]]|] eqn:Hn; try (vm_compute in Hn; discriminate).
  destruct (lint_exact (Some "/") [] Some example_load example_analyze (fun _ _ => false) example_sort (fun _ => NoModFile) (fun _ => Err ErrSettings) (fun _ _ _ => "0")
    example_sort_spec _ _ _ Hn) as (cfg' & targets & _ & _ & Hall).
  assert (Hr : report_package (Some "/") Some example_name_pos byPackage "m/x" [main_file] = Ok [(3%nat, "unreachable function: unused")]).
  { vm_compute in Hn. injection Hn as <- <-. vm_compute. reflexivity. }
  destruct (Hall example_name_pos "m/x" [main_file] _ Hr) as (fs & Hnd & Hp & _). exists byPackage, seed, fs. split_and!; [done|exact Hr|exact Hnd|exact Hp].
Defined.

Definition example_program : Program := mkProgram ["m/x"] (foldl (fun (m : gmap string Package) p => <[pk_PkgPath p := p]> m) ∅ [main_package]) [main_package; main_package]
  [ssa 12 "init"; ssa 1 "main"; ssa 10 "on_init"; ssa 11 "init"] ["on_init"].

Lemma example_one_per_path : one_per_path [main_package; main_package].
Proof.
  assert (Hsdk : forall q, imports_star sdk_package q -> q = sdk_package).
  { intros q H. inversion H as [|? i ? Hi Hs]; subst; [done|]. by apply elem_of_nil in Hi. }
  assert (Hall : forall q, imports_star main_package q -> q = main_package \/ q = sdk_package).
  { intros q H. inversion H as [|? i ? Hi Hs]; subst; [by left|right]. apply list_elem_of_singleton in Hi as ->. by apply Hsdk. }
  assert (Hin : forall p, p ∈ [main_package; main_package] -> p = main_package) by (intros p [->| ->%list_elem_of_singleton]%elem_of_cons; done).
  intros p1 p2 q1 q2 ->%Hin ->%Hin [-> | ->]%Hall [-> | ->]%Hall; done.
Qed.

Lemma exports_live_witness :
  exists obj sf, pk_Defs sdk_package !! 10%nat = Some obj /\ fo_Value obj = Some sf /\ sf ∈ pg_roots example_program /\
    ~ dead_at (Some "/") Some example_analyze (fun _ _ => false) example_program sdk_package (plain_decl 10 "on_init" (Some ["//export on_init"]))
        (mkFinding "m/sdk" "/m/x.go" 10 10 1 "on_init").
Proof.
  destruct (exports_live (Some "/") [] Some example_load example_analyze (fun _ _ => false) ltac:(intros l g Hg; apply elem_of_app; by left) example_target example_program
    (mkConfig "/m" [] []) ["m/x"] "m/x" main_package sdk_package (plain_decl 10 "on_init" (Some ["//export on_init"]))) as [(obj & sf & Ho & Hv & _ & _ & _ & Hin) Hdead].
  - vm_compute. reflexivity.
  - reflexivity.
  - vm_compute. reflexivity.
  - left. vm_compute. reflexivity.
  - exact example_one_per_path.
  - by left.
  - vm_compute. reflexivity.
  - eapply imports_step; [by left|constructor].
  - by left.
  - exists "//export on_init", "//export", ["on_init"]. split_and!; [by left|vm_compute; reflexivity|by left].
  - exists obj, sf. split_and!; [exact Ho|exact Hv|exact Hin|apply Hdead].
Defined.
