(* ===== verification/DocGen.v ===== *)
(** * tools: the reference pages

    cli/tools/gen-manifest-reference/main.go: the reference of a JSON schema, with the conditions
    of its rules in words, and the indexes of the catalog; cli/tools/gen-cli-docs/main.go: the
    commands, flags and environment variables of the tool.  Templates, JSON and the model of the
    command line are parameters or data.  A Go map is the list of its entries in the order they are
    iterated; an entry that is null, which both programs dereference, is left out of the data. *)

From S2P Require Import Prelude GoStr GoNum GoPath GoFS CliManifest.
From Stdlib Require Import Lia Ascii.

Local Open Scope Z_scope.
Local Open Scope go_scope.

(** ** Sorting by name *)

Section SortBy.
Context {A : Type} (name : A -> string).
Definition by_name (a b : A) : Prop := str_le (name a) (name b).
#[local] Instance by_name_dec a b : Decision (by_name a b).
Proof. unfold by_name. apply _. Defined.
Definition sort_by (l : list A) : list A := merge_sort by_name l.

#[local] Instance by_name_trans : Transitive by_name.
Proof. intros a b c. unfold by_name. apply str_le_trans. Qed.
#[local] Instance by_name_total : Total by_name.
Proof. intros a b. unfold by_name. apply str_le_total. Qed.

Lemma sort_by_perm l : sort_by l ≡ₚ l.
Proof. apply merge_sort_Permutation. Qed.

(** Sorting by names that are different does not depend on the order of a map. *)
Lemma sort_by_order l1 l2 : l1 ≡ₚ l2 -> NoDup (name <$> l1) -> sort_by l1 = sort_by l2.
Proof.
  intros Hp Hnd. assert (Hs : forall l, StronglySorted by_name (sort_by l)) by (intros l; apply (StronglySorted_merge_sort by_name)).
  assert (Hinj : forall a b, a ∈ l1 -> b ∈ l1 -> name a = name b -> a = b).
  { clear -Hnd. induction l1 as [|x l IH]; intros a b Ha Hb E; [by apply elem_of_nil in Ha|]. cbn in Hnd. apply NoDup_cons in Hnd as [Hx Hnd].
    apply elem_of_cons in Ha as [->|Ha], Hb as [->|Hb]; try done; [| |by apply IH].
    - exfalso. apply Hx, list_elem_of_fmap. by exists b.
    - exfalso. apply Hx, list_elem_of_fmap. by exists a. }
  assert (Hperm : sort_by l1 ≡ₚ sort_by l2) by (by rewrite !sort_by_perm). assert (Hin : forall a, a ∈ sort_by l1 -> a ∈ l1) by (intros a; by rewrite sort_by_perm).
  pose proof (Hs l1) as H1. pose proof (Hs l2) as H2. revert Hperm H1 H2 Hin. generalize (sort_by l1) as k1, (sort_by l2) as k2. clear Hs.
  induction k1 as [|a k1 IH]; intros k2 Hk H1 H2 Hin; [by apply Permutation_nil_l in Hk|]. destruct k2 as [|b k2]; [by apply Permutation_nil_r in Hk|].
  apply StronglySorted_inv in H1 as [H1 Ha], H2 as [H2 Hb]. rewrite Forall_forall in Ha, Hb. assert (a = b) as <-.
  { assert (Hab : a ∈ b :: k2) by (rewrite <- Hk; by left). assert (Hba : b ∈ a :: k1) by (rewrite Hk; by left).
    apply elem_of_cons in Hab as [->|Hab]; [done|]. apply elem_of_cons in Hba as [->|Hba]; [done|].
    apply Hinj; [apply Hin; by left|apply Hin; by right|]. apply (anti_symm str_le); [by apply Ha|by apply Hb]. }
  f_equal. apply IH; [by apply Permutation_cons_inv in Hk|done|done|]. intros c Hc. apply Hin. by right.
Qed.
End SortBy.

(** ** Schemas *)

(** The value of a [type] keyword: a string, a list with its strings, or anything else. *)
Inductive TypeValue : Type := TypeName (s : string) | TypeList (l : list (option string)) | NoType.

Inductive Property : Type := mkProperty {
  pr_Type : TypeValue;
  pr_Ref : string;
  pr_Description : string;
  pr_MinLength : option Z;
  pr_MaxLength : option Z;
  pr_MinItems : option Z;
  pr_Pattern : string;
  pr_Enum : list string;
  pr_UniqueItems : bool;
  pr_Items : option Items;
  pr_Properties : option (list (string * Property));
  pr_Required : list string;
  pr_OneOf : list (list string);
}
with Items : Type := mkItems {
  it_Type : string;
  it_Ref : string;
  it_Enum : list string;
  it_MinLength : option Z;
  it_Pattern : string;
  it_Properties : option (list (string * Property));
  it_Required : list string;
}.

(** The if of a rule: constants of properties, required properties, a negation and a conjunction. *)
Inductive ConditionIf : Type := mkConditionIf {
  if_Properties : list (string * string);
  if_Required : list string;
  if_Not : option ConditionIf;
  if_AllOf : list ConditionIf;
}.

(** A then: the properties it requires, and those it sets to a boolean schema. *)
Record ConditionThen : Type := mkConditionThen { th_Required : list string; th_Properties : list (string * option bool) }.
Record ConditionalSchema : Type := mkConditional { co_If : option ConditionIf; co_Then : option ConditionThen }.

Inductive JSONSchema : Type := mkSchema {
  sc_Title : string;
  sc_Description : string;
  sc_Required : list string;
  sc_Properties : list (string * Property);
  sc_AllOf : list ConditionalSchema;
  sc_OneOf : list (list string);
  sc_Defs : list (string * JSONSchema);
}.

Record Constraint : Type := mkConstraint { cn_Name : string; cn_Value : string }.
Record TypeRef : Type := mkTypeRef { ty_Name : string; ty_Href : string }.
Inductive DocProperty : Type := mkDocProperty {
  dp_Name : string;
  dp_Type : TypeRef;
  dp_Description : string;
  dp_Required : bool;
  dp_Constraints : list Constraint;
  dp_EnumValues : list string;
  dp_SubProperties : list DocProperty;
  dp_OneOf : list string;
}.
Inductive TemplateData : Type := mkTemplateData {
  td_Name : string;
  td_Href : string;
  td_Title : string;
  td_Description : string;
  td_Properties : list DocProperty;
  td_OneOf : list string;
  td_CustomTypes : list TemplateData;
}.

(** ** Conditions in words *)

Definition backtick : string := "`".
Definition quoted (s : string) : string := backtick +:+ s +:+ backtick.

Definition describeNegatedCondition (inner : string) (cif : ConditionIf) : string :=
  if negb (bool_decide (if_Required cif = [])) then Join ((fun r => quoted r +:+ " is not set") <$> if_Required cif) " and "
  else if negb (bool_decide (if_Properties cif = [])) then
    Join (merge_sort str_le ((fun pv => quoted pv.1 +:+ " is not " +:+ quoted pv.2) <$> if_Properties cif)) " and "
  else if bool_decide (inner = "") then "" else "not(" +:+ inner +:+ ")".

Definition nonempty (l : list string) : list string := filter (fun s => s <> "") l.

(** [inner] above is the description of the condition that is negated. *)
Fixpoint describeCondition (cif : ConditionIf) : string :=
  match cif with
  | mkConditionIf properties required not allOf =>
      match not with
      | Some n => describeNegatedCondition (describeCondition n) n
      | None =>
          if negb (bool_decide (allOf = [])) then Join (nonempty (map describeCondition allOf)) " and "
          else if negb (bool_decide (required = [])) then Join ((fun r => quoted r +:+ " is set") <$> required) " and "
          else if negb (bool_decide (properties = [])) then
            Join (merge_sort str_le ((fun pv => quoted pv.1 +:+ " is " +:+ quoted pv.2) <$> properties)) " and "
          else ""
      end
  end.

Definition conditionalConstraints (name : string) (cond_if : ConditionIf) (cond_then : ConditionThen) : list Constraint :=
  let thenRequires := bool_decide (name ∈ th_Required cond_then) in
  let thenForbids := bool_decide ((name, Some false) ∈ th_Properties cond_then) in
  if negb thenRequires && negb thenForbids then []
  else
    let condDesc := describeCondition cond_if in
    if bool_decide (condDesc = "") then []
    else (if thenRequires then [mkConstraint "Required when" condDesc] else []) ++ (if thenForbids then [mkConstraint "Forbidden when" condDesc] else []).

(** ** Properties *)

Definition referencedTypeName (ref : string) : string := if HasPrefix ref "#/$defs/" then drop_bytes 8 ref else ref.
Definition type_href (baseType name : string) : string := "#" +:+ baseType +:+ "-" +:+ name.

Definition type_string (t : TypeValue) : string :=
  match t with TypeName s => s | TypeList l => Join (omap id l) " | " | NoType => "unknown" end.

Definition getTypeString (prop : Property) (baseType : string) : TypeRef :=
  let typeStr := type_string (pr_Type prop) in
  let ref :=
    match pr_Items prop with
    | Some items =>
        if negb (bool_decide (typeStr = "array")) then mkTypeRef typeStr ""
        else if negb (bool_decide (it_Type items = "")) then mkTypeRef ("[]" +:+ it_Type items) ""
        else if negb (bool_decide (it_Ref items = "")) then
          let name := referencedTypeName (it_Ref items) in mkTypeRef ("[]" +:+ name) (type_href baseType name)
        else mkTypeRef typeStr ""
    | None => mkTypeRef typeStr ""
    end in
  if bool_decide (pr_Ref prop = "") then ref
  else let name := referencedTypeName (pr_Ref prop) in mkTypeRef name (type_href baseType name).

Definition number_constraint (name : string) (v : option Z) : list Constraint :=
  match v with Some n => [mkConstraint name (FormatInt n)] | None => [] end.
Definition pattern_constraint (name pattern : string) : list Constraint :=
  if bool_decide (pattern = "") then [] else [mkConstraint name (quoted pattern)].

Definition collectOneOfOptions (oneOf : list (list string)) : list string :=
  (fun required => Join required ", ") <$> filter (fun required => required <> []) oneOf.

(** The constraints of the property itself, of its items, and of the rules. *)
Definition constraints_of (name : string) (prop : Property) (allOf : list ConditionalSchema) : list Constraint :=
  number_constraint "Min length" (pr_MinLength prop) ++ number_constraint "Max length" (pr_MaxLength prop) ++ number_constraint "Min items" (pr_MinItems prop) ++
  pattern_constraint "Pattern" (pr_Pattern prop) ++ (if pr_UniqueItems prop then [mkConstraint "Unique items" "Yes"] else []) ++
  match pr_Items prop with
  | Some items => pattern_constraint "Item pattern" (it_Pattern items) ++ number_constraint "Item min length" (it_MinLength items)
  | None => []
  end ++
  concat ((fun cond => match co_If cond, co_Then cond with Some i, Some t => conditionalConstraints name i t | _, _ => [] end) <$> allOf).

Definition enum_values (prop : Property) : list string :=
  match pr_Items prop with
  | Some items => if bool_decide (it_Enum items = []) then pr_Enum prop else it_Enum items
  | None => pr_Enum prop
  end.

Fixpoint convertProperty (name : string) (prop : Property) (required : bool) (allOf : list ConditionalSchema) (baseType : string) : DocProperty :=
  let nested := fun (l : list (string * Property)) (req : list string) =>
    sort_by dp_Name (map (fun np => let '(n, p) := np in convertProperty n p (bool_decide (n ∈ req)) [] baseType) l) in
  let '(mkProperty _ _ _ _ _ _ _ _ _ items properties requiredProps _) := prop in
  let own := match properties with Some l => nested l requiredProps | None => [] end in
  let subProps := match items with Some (mkItems _ _ _ _ _ (Some l) itemRequired) => nested l itemRequired | _ => own end in
  mkDocProperty name (getTypeString prop baseType) (pr_Description prop) required (constraints_of name prop allOf) (enum_values prop) subProps
    (collectOneOfOptions (pr_OneOf prop)).

(** A schema without a title is titled with its name; titles of definitions are filled in before
    they are converted. *)
Fixpoint convertSchema (name href title : string) (schema : JSONSchema) : TemplateData :=
  match schema with
  | mkSchema _ description required properties allOf oneOf defs =>
      mkTemplateData name href (if bool_decide (title = "") then name else title) description
        (sort_by dp_Name ((fun np => convertProperty np.1 np.2 (bool_decide (np.1 ∈ required)) allOf name) <$> properties))
        (collectOneOfOptions oneOf)
        (sort_by td_Title (map (fun td => let '(typeName, def) := td in
           convertSchema name (name +:+ "-" +:+ typeName) (if bool_decide (sc_Title def = "") then typeName else sc_Title def) def) defs))
  end.

(** ** The reference and the indexes *)

Inductive GenError : Type :=
| ErrReadSchema (path : string)
| ErrParseSchema (path : string)
| ErrMarshalIndex
| ErrWriteIndex (path : string)
| ErrParseTemplates
| ErrOutputDir (path : string)
| ErrOutputFile (path : string)
| ErrTemplate (path : string).

(** An entry of the index, with the path of its configuration reference when it has a schema. *)
Record IndexWithSchema : Type := mkIndexWithSchema { ix_Entry : ManifestIndexEntry; ix_ConfigReferencePath : string }.

Section Generating.
(** JSON, and the template engine: the text it gives with whether it succeeds. *)
Context (parse_schema : string -> option JSONSchema) (marshal_index : list IndexWithSchema -> option string) (marshal_sets : list ManifestIndexEntry -> option string).
Context (templates_parse : bool) (execute : list TemplateData -> string * bool).
(** The order in which the schemas of a map are iterated. *)
Context (iterate : gmap string JSONSchema -> list (string * JSONSchema)).

Definition loadSchema (fs : FileSystem) (path : string) : result GenError JSONSchema :=
  match ReadFile fs (Clean path) with
  | None => Err (ErrReadSchema path)
  | Some data => match parse_schema data with None => Err (ErrParseSchema path) | Some schema => Ok schema end
  end.

Definition render_to (fs : FileSystem) (path : string) (data : list TemplateData) : FileSystem * option GenError :=
  match WriteFile fs (clean_segs (Clean path)) "" with
  | None => (fs, Some (ErrOutputFile path))
  | Some fs1 =>
      let '(text, ok) := execute data in
      match WriteFile fs1 (clean_segs (Clean path)) text with
      | None => (fs1, Some (ErrTemplate path))
      | Some fs2 => (fs2, if ok then None else Some (ErrTemplate path))
      end
  end.

(** Schemas are sorted by the titles they are read with, before empty ones are filled in. *)
Definition reference_data (schemas : gmap string JSONSchema) : list TemplateData :=
  (fun ns => convertSchema ns.1 ns.1 (sc_Title ns.2) ns.2) <$> sort_by (fun ns => sc_Title ns.2) (iterate schemas).

Definition generateJSONSchemaReference (schemas : gmap string JSONSchema) (outputPath : string) (fs : FileSystem) : FileSystem * option GenError :=
  if negb templates_parse then (fs, Some ErrParseTemplates)
  else
    match MkdirAll fs (clean_segs (Dir outputPath)) with
    | (fs1, false) => (fs1, Some (ErrOutputDir outputPath))
    | (fs1, true) => render_to fs1 outputPath (reference_data schemas)
    end.

(** The entries of the index with the schemas found; a missing schema is skipped. *)
Fixpoint index_entries (fs : FileSystem) (extensionsDir : string) (index : list ManifestIndexEntry) (schemas : gmap string JSONSchema)
    : result GenError (list IndexWithSchema * gmap string JSONSchema) :=
  match index with
  | [] => Ok ([], schemas)
  | ext :: rest =>
      let name := Name (ie_Manifest ext) in
      let path := JoinAll [extensionsDir; SourcePath ext; "config.schema.json"] in
      match loadSchema fs path with
      | Ok schema =>
          try r <- index_entries fs extensionsDir rest (<[name := schema]> schemas);
          Ok (mkIndexWithSchema ext ("/docs/reference/extensions#" +:+ name) :: r.1, r.2)
      | Err e =>
          if exists_path fs (Clean path) then Err e
          else try r <- index_entries fs extensionsDir rest schemas; Ok (mkIndexWithSchema ext "" :: r.1, r.2)
      end
  end.

Definition write_index (fs : FileSystem) (path : string) (index : option string) : FileSystem * option GenError :=
  match index with
  | None => (fs, Some ErrMarshalIndex)
  | Some text => match WriteFile fs (clean_segs path) text with None => (fs, Some (ErrWriteIndex path)) | Some fs1 => (fs1, None) end
  end.

Definition generateExtensionIndex (all : gmap string Manifest) (path extensionsDir : string) (fs : FileSystem) : FileSystem * result GenError (gmap string JSONSchema) :=
  match index_entries fs extensionsDir (ManifestsIndex all) ∅ with
  | Err e => (fs, Err e)
  | Ok (entries, schemas) => match write_index fs path (marshal_index entries) with (fs1, None) => (fs1, Ok schemas) | (fs1, Some e) => (fs1, Err e) end
  end.

Definition generateExtensionSetIndex (all : gmap string Manifest) (path : string) (fs : FileSystem) : FileSystem * option GenError :=
  write_index fs path (marshal_sets (ExtensionSetsIndex all)).

(** [main] on its flags and the manifests it has loaded. *)
Definition gen_manifest_reference (schemaPath docs extensionIndex setIndex extensionsDir : string) (all : gmap string Manifest) (fs : FileSystem)
    : FileSystem * option GenError :=
  match loadSchema fs schemaPath with
  | Err e => (fs, Some e)
  | Ok manifestSchema =>
      match generateJSONSchemaReference {[ "reference" := manifestSchema ]} (JoinAll [docs; "reference"; "manifest.mdx"]) fs with
      | (fs1, Some e) => (fs1, Some e)
      | (fs1, None) =>
          match generateExtensionIndex all extensionIndex extensionsDir fs1 with
          | (fs2, Err e) => (fs2, Some e)
          | (fs2, Ok configSchemas) =>
              match (if bool_decide (configSchemas = ∅) then (fs2, None) else generateJSONSchemaReference configSchemas (JoinAll [docs; "reference"; "extensions.mdx"]) fs2) with
              | (fs3, Some e) => (fs3, Some e)
              | (fs3, None) => generateExtensionSetIndex all setIndex fs3
              end
          end
      end
  end.
End Generating.

(** ** The commands of the tool *)

(** A type by reflection: its kind, and the name it prints. *)
Inductive GoType : Type :=
| GoNamed (name : string)
| GoPointer (elem : GoType)
| GoSlice (elem : GoType)
| GoMapType (key elem : GoType).

(** The name of a type: empty for those that are not named. *)
Definition type_name (t : GoType) : string := match t with GoNamed n => n | _ => "" end.
Definition deref_type (t : GoType) : GoType := match t with GoPointer e => e | _ => t end.

(** No type when the value is not valid. *)
Definition getTypeName (v : option GoType) : string :=
  match v with
  | None => "unknown"
  | Some t =>
      match deref_type t with
      | GoSlice elem => "[]" +:+ type_name (deref_type elem)
      | GoMapType key elem => "map[" +:+ type_name key +:+ "]" +:+ type_name elem
      | t' => type_name t'
      end
  end.

(** What kong's model holds of flags, arguments and commands; a short name is a rune, printed. *)
Record KongFlag : Type := mkKongFlag { kf_Name : string; kf_Hidden : bool; kf_Target : option GoType; kf_Help : string; kf_Default : string; kf_Envs : list string;
  kf_Required : bool; kf_Short : string; kf_PlaceHolder : string }.
Record KongArg : Type := mkKongArg { ka_Name : string; ka_Target : option GoType; ka_Help : string; ka_Required : bool }.
Record KongNode : Type := mkKongNode { kn_Command : bool; kn_Hidden : bool; kn_Name : string; kn_Help : string; kn_Detail : string; kn_Flags : list KongFlag; kn_Positional : list KongArg }.

Record Flag : Type := mkFlag { fl_Name : string; fl_Type : string; fl_Help : string; fl_Default : string; fl_EnvVars : list string; fl_Required : bool; fl_Short : string; fl_Placeholder : string }.
Record Arg : Type := mkArg { ar_Name : string; ar_Type : string; ar_Help : string; ar_Required : bool }.
Record CommandDoc : Type := mkCommandDoc { cd_Name : string; cd_Description : string; cd_Detail : string; cd_Flags : list Flag; cd_Args : list Arg }.
Record EnvVar : Type := mkEnvVar { ev_Name : string; ev_Flag : string; ev_Help : string; ev_Default : string }.

Definition shown (f : KongFlag) : bool := negb (kf_Hidden f || bool_decide (kf_Name f = "help")).
Definition env_var (f : KongFlag) (env : string) : EnvVar := mkEnvVar env (kf_Name f) (kf_Help f) (kf_Default f).

(** The variables of the global flags, the last flag of a name first. *)
Definition global_env (flags : list KongFlag) (m : gmap string EnvVar) : gmap string EnvVar :=
  foldl (fun m f => if shown f then foldl (fun m env => <[env := env_var f env]> m) m (kf_Envs f) else m) m flags.

(** Those of a command, unless they are known. *)
Definition add_env (f : KongFlag) (m : gmap string EnvVar) (env : string) : gmap string EnvVar :=
  match m !! env with Some _ => m | None => <[env := env_var f env]> m end.
Definition command_env (node : KongNode) (m : gmap string EnvVar) : gmap string EnvVar :=
  foldl (fun m f => if shown f then foldl (add_env f) m (kf_Envs f) else m) m (kn_Flags node).

Definition flag_doc (f : KongFlag) : Flag :=
  mkFlag (kf_Name f) (getTypeName (kf_Target f)) (kf_Help f) (kf_Default f) (kf_Envs f) (kf_Required f) (kf_Short f) (kf_PlaceHolder f).
Definition arg_doc (p : KongArg) : Arg := mkArg (ka_Name p) (getTypeName (ka_Target p)) (ka_Help p) (ka_Required p).
Definition command_doc (node : KongNode) : CommandDoc :=
  mkCommandDoc (kn_Name node) (kn_Help node) (kn_Detail node) (flag_doc <$> filter (fun f => shown f = true) (kn_Flags node)) (arg_doc <$> kn_Positional node).

Definition is_command (node : KongNode) : bool := kn_Command node && negb (kn_Hidden node).

Definition env_map (flags : list KongFlag) (children : list KongNode) : gmap string EnvVar :=
  foldl (fun m node => if is_command node then command_env node m else m) (global_env flags ∅) children.

(** [parseCommands] on the flags and children of the model. *)
Definition parseCommands (flags : list KongFlag) (children : list KongNode) : list CommandDoc * list EnvVar :=
  (command_doc <$> filter (fun node => is_command node = true) children, sort_by ev_Name ((map_to_list (env_map flags children)).*2)).

Inductive Page : Type :=
| CommandPage (c : CommandDoc)
| SidebarPage (items : list (string * string))
| EnvironmentPage (vars : list EnvVar).

(** The pages [main] renders, with their paths, in order. *)
Definition gen_cli_docs (docsDir : string) (flags : list KongFlag) (children : list KongNode) : list (string * Page) :=
  let '(commands, envVars) := parseCommands flags children in
  let commands := sort_by cd_Name commands in
  ((fun c => (JoinAll [JoinAll [docsDir; "cli"]; cd_Name c +:+ ".mdx"], CommandPage c)) <$> commands) ++
  [(JoinAll [docsDir; "sidebar-cli.yaml"], SidebarPage ((fun c => (cd_Name c, "/docs/cli/" +:+ cd_Name c)) <$> commands));
   (JoinAll [docsDir; "reference"; "environment-variables.mdx"], EnvironmentPage (sort_by ev_Name envVars))].

(** ** What the conditions say *)

Section ConditionInd.
Context (P : ConditionIf -> Prop).
Context (step : forall props required not allOf, (forall n, not = Some n -> P n) -> Forall P allOf -> P (mkConditionIf props required not allOf)).

Fixpoint condition_ind (c : ConditionIf) : P c :=
  match c with
  | mkConditionIf props required not allOf =>
      step props required not allOf
        (match not as o return forall n, o = Some n -> P n with
         | Some m => fun n E => eq_rect m P (condition_ind m) n (f_equal (default m) E)
         | None => fun n E => False_ind _ (eq_ind None (fun o => match o with None => True | Some _ => False end) I _ E)
         end)
        ((fix go (l : list ConditionIf) : Forall P l := match l with [] => Forall_nil_2 _ | c' :: l' => Forall_cons_2 _ _ _ (condition_ind c') (go l') end) allOf)
  end.
End ConditionInd.

(** The meaning of a condition for a document with the given strings: every keyword holds, and a
    constant holds of a property that is absent. *)
Fixpoint schema_holds (doc : gmap string string) (c : ConditionIf) : Prop :=
  match c with
  | mkConditionIf props required not allOf =>
      Forall (fun pv => doc !! pv.1 = None \/ doc !! pv.1 = Some pv.2) props /\ Forall (fun r => is_Some (doc !! r)) required /\
      match not with Some n => ~ schema_holds doc n | None => True end /\ foldr (fun c P => schema_holds doc c /\ P) True allOf
  end.

(** What the words of a description say. *)
Inductive Phrase : Type :=
| PSet (p : string)
| PNotSet (p : string)
| PIs (p v : string)
| PIsNot (p v : string)
| PAnd (sorted : bool) (l : list Phrase)
| PNot (q : Phrase).

Fixpoint render (q : Phrase) : string :=
  match q with
  | PSet p => quoted p +:+ " is set"
  | PNotSet p => quoted p +:+ " is not set"
  | PIs p v => quoted p +:+ " is " +:+ quoted v
  | PIsNot p v => quoted p +:+ " is not " +:+ quoted v
  | PAnd sorted l => let parts := nonempty (map render l) in Join (if sorted then merge_sort str_le parts else parts) " and "
  | PNot q => if bool_decide (render q = "") then "" else "not(" +:+ render q +:+ ")"
  end.

Fixpoint says (doc : gmap string string) (q : Phrase) : Prop :=
  match q with
  | PSet p => is_Some (doc !! p)
  | PNotSet p => doc !! p = None
  | PIs p v => doc !! p = Some v
  | PIsNot p v => doc !! p <> Some v
  | PAnd _ l => foldr (fun q P => says doc q /\ P) True l
  | PNot q => ~ says doc q
  end.

Definition negated_phrase (inner : Phrase) (c : ConditionIf) : Phrase :=
  if negb (bool_decide (if_Required c = [])) then PAnd false (PNotSet <$> if_Required c)
  else if negb (bool_decide (if_Properties c = [])) then PAnd true ((fun pv => PIsNot pv.1 pv.2) <$> if_Properties c)
  else PNot inner.
Fixpoint phrase_of (c : ConditionIf) : Phrase :=
  match c with
  | mkConditionIf props required not allOf =>
      match not with
      | Some n => negated_phrase (phrase_of n) n
      | None =>
          if negb (bool_decide (allOf = [])) then PAnd false (map phrase_of allOf)
          else if negb (bool_decide (required = [])) then PAnd false (PSet <$> required)
          else if negb (bool_decide (props = [])) then PAnd true ((fun pv => PIs pv.1 pv.2) <$> props)
          else PAnd false []
      end
  end.

Lemma nonempty_all l : Forall (fun s => s <> "") l -> nonempty l = l.
Proof. unfold nonempty. induction 1 as [|s l Hs _ IH]; [done|]. by rewrite filter_cons, decide_True, IH by done. Qed.

Lemma quoted_nonempty s r : quoted s +:+ r <> "".
Proof. done. Qed.

Lemma describe_render c : describeCondition c = render (phrase_of c).
Proof.
  assert (Hall : forall {A} (f : A -> Phrase) l, (forall a, render (f a) <> "") -> nonempty (map render (f <$> l)) = (render ∘ f) <$> l).
  { intros A f l Hf. rewrite nonempty_all; [by rewrite <- list_fmap_compose|]. apply Forall_fmap, Forall_fmap, Forall_true. exact Hf. }
  induction c as [props required not allOf IHn IHa] using condition_ind. cbn [describeCondition phrase_of]. destruct not as [n|].
  - specialize (IHn n eq_refl). unfold describeNegatedCondition, negated_phrase. destruct (negb (bool_decide (if_Required n = []))).
    + cbn [render]. by rewrite (Hall _ PNotSet).
    + destruct (negb (bool_decide (if_Properties n = []))); [cbn [render]; by rewrite (Hall _ (fun pv => PIsNot pv.1 pv.2))|]. cbn [render]. by rewrite IHn.
  - destruct (negb (bool_decide (allOf = []))).
    + cbn [render]. rewrite map_map. do 2 f_equal. clear IHn. induction IHa as [|c l Hc _ IH]; [done|]. cbn. by rewrite Hc, IH.
    + destruct (negb (bool_decide (required = []))); [cbn [render]; by rewrite (Hall _ PSet)|].
      destruct (negb (bool_decide (props = []))); [cbn [render]; by rewrite (Hall _ (fun pv => PIs pv.1 pv.2))|done].
Qed.

(** Conditions with one keyword each, and no negation of several requirements or constants. *)
Fixpoint plain_condition (c : ConditionIf) : Prop :=
  match c with
  | mkConditionIf props required not allOf =>
      match not with
      | Some n => props = [] /\ required = [] /\ allOf = [] /\ (length (if_Required n) + length (if_Properties n) <= 1)%nat /\ plain_condition n
      | None =>
          match props, required, allOf with
          | _ :: _, [], [] | [], _ :: _, [] | [], [], [] => True
          | [], [], _ :: _ => foldr (fun c P => plain_condition c /\ P) True allOf
          | _, _, _ => False
          end
      end
  end.

(** The properties that are compared with constants are set. *)
Fixpoint compared_set (doc : gmap string string) (c : ConditionIf) : Prop :=
  match c with
  | mkConditionIf props required not allOf =>
      Forall (fun pv => is_Some (doc !! pv.1)) props /\ match not with Some n => compared_set doc n | None => True end /\ foldr (fun c P => compared_set doc c /\ P) True allOf
  end.

Lemma says_all {A} doc (f : A -> Phrase) l : foldr (fun q P => says doc q /\ P) True (f <$> l) <-> Forall (fun a => says doc (f a)) l.
Proof. induction l as [|a l IH]; [done|]. cbn. by rewrite IH, Forall_cons. Qed.

Lemma schema_holds_sub doc c : schema_holds doc c <->
  Forall (fun pv => doc !! pv.1 = None \/ doc !! pv.1 = Some pv.2) (if_Properties c) /\ Forall (fun r => is_Some (doc !! r)) (if_Required c) /\
  match if_Not c with Some n => ~ schema_holds doc n | None => True end /\ foldr (fun c P => schema_holds doc c /\ P) True (if_AllOf c).
Proof. by destruct c. Qed.

(** The words of a plain condition say what the schema means. *)
Lemma describe_sound doc c : plain_condition c -> compared_set doc c -> says doc (phrase_of c) <-> schema_holds doc c.
Proof.
  induction c as [props required not allOf IHn IHa] using condition_ind. cbn [plain_condition compared_set phrase_of schema_holds].
  intros Hplain (Hprops & Hnot & Hall). destruct not as [n|].
  - destruct Hplain as (-> & -> & -> & Hlen & Hpn). specialize (IHn n eq_refl Hpn Hnot). cbn. rewrite !Forall_nil.
    unfold negated_phrase. destruct n as [np nr nn na]. cbn [if_Required if_Properties] in *. destruct nr as [|r nr].
    + destruct np as [|pv np]; [cbn; rewrite IHn; naive_solver|]. destruct np; [|cbn in Hlen; lia]. cbn in Hpn, Hnot, IHn |- *.
      destruct nn; [naive_solver|]. destruct na; [|naive_solver]. destruct Hnot as [[Hs _]%Forall_cons _]. rewrite Forall_singleton, Forall_nil. destruct Hs as [v Hv]. rewrite Hv. naive_solver.
    + destruct nr; [|cbn in Hlen; lia]. destruct np; [|cbn in Hlen; lia]. cbn in Hpn |- *. destruct nn; [naive_solver|]. destruct na; [|naive_solver].
      rewrite Forall_singleton, Forall_nil, eq_None_not_Some. naive_solver.
  - destruct allOf as [|a allOf].
    + destruct required as [|r required]; [destruct props as [|pv props]|].
      * cbn. rewrite !Forall_nil. done.
      * etrans; [exact (says_all doc (fun pv => PIs pv.1 pv.2) (pv :: props))|]. cbn [says foldr]. rewrite Forall_nil.
        rewrite Forall_forall in Hprops. rewrite !Forall_forall. split; [intros H; split_and!; try done; intros x Hx; right; by apply H|].
        intros (H & _) x Hx. destruct (H x Hx) as [E|E]; [|done]. destruct (Hprops x Hx) as [v Hv]. congruence.
      * destruct props; [|done]. etrans; [exact (says_all doc PSet (r :: required))|]. cbn [says foldr]. rewrite Forall_nil. naive_solver.
    + destruct props; [|by destruct required]. destruct required; [|done]. cbn [negb]. rewrite bool_decide_false by done. cbn [negb].
      cbn [says]. rewrite !Forall_nil. assert (Hgo : forall l, Forall (fun c => plain_condition c -> compared_set doc c -> says doc (phrase_of c) <-> schema_holds doc c) l ->
        foldr (fun c P => plain_condition c /\ P) True l -> foldr (fun c P => compared_set doc c /\ P) True l ->
        foldr (fun q P => says doc q /\ P) True (map phrase_of l) <-> foldr (fun c P => schema_holds doc c /\ P) True l).
      { induction 1 as [|c l Hc _ IH]; [done|]. cbn. intros [? ?] [? ?]. by rewrite Hc, IH. }
      rewrite Hgo by done. naive_solver.
Qed.

(** A negation of two requirements is put into words that say something else. *)
Lemma negated_requirements_misdescribed :
  let c := mkConditionIf [] [] (Some (mkConditionIf [] ["a"; "b"] None [])) [] in
  describeCondition c = "`a` is not set and `b` is not set" /\ schema_holds {[ "a" := "x" ]} c /\ ~ says {[ "a" := "x" ]} (phrase_of c).
Proof.
  cbn. split; [reflexivity|]. split; [|by intros (? & _)]. split_and!; try done. intros (_ & H & _). apply Forall_cons in H as [_ H]. apply Forall_cons in H as [[v Hv] _].
  vm_compute in Hv. done.
Qed.

(** ** What the pages show *)

(** The reference does not depend on the order of the schemas when their titles differ; schemas
    without a title are not ordered among themselves, although they are shown with their names. *)
Lemma reference_order iterate1 iterate2 schemas :
  iterate1 schemas ≡ₚ iterate2 schemas -> NoDup ((fun ns => sc_Title ns.2) <$> iterate1 schemas) -> reference_data iterate1 schemas = reference_data iterate2 schemas.
Proof. intros Hp Hnd. unfold reference_data. f_equal. by apply sort_by_order. Qed.

Definition untitled (d : string) : JSONSchema := mkSchema "" d [] [] [] [] [].
Lemma untitled_schemas_unordered :
  let l := [("b", untitled "1"); ("a", untitled "2")] in
  td_Title <$> reference_data (fun _ => l) ∅ = ["b"; "a"] /\ td_Title <$> reference_data (fun _ => reverse l) ∅ = ["a"; "b"].
Proof. vm_compute. split; reflexivity. Qed.

(** The properties of a page do not depend on the order of the map they come from. *)
Lemma convertSchema_order name href title t d req ps1 ps2 allOf oneOf :
  ps1 ≡ₚ ps2 -> NoDup ps1.*1 -> convertSchema name href title (mkSchema t d req ps1 allOf oneOf []) = convertSchema name href title (mkSchema t d req ps2 allOf oneOf []).
Proof.
  intros Hp Hnd. cbn [convertSchema]. f_equal. apply sort_by_order; [by rewrite Hp|]. rewrite <- list_fmap_compose.
  erewrite list_fmap_ext; [exact Hnd|]. intros i [n p] _. cbn. by destruct p.
Qed.

Lemma global_env_acc flags m env :
  (exists f, f ∈ flags /\ shown f = true /\ env ∈ kf_Envs f /\ global_env flags m !! env = Some (env_var f env)) \/
  (global_env flags m !! env = m !! env /\ forall f, f ∈ flags -> shown f = true -> env ∉ kf_Envs f).
Proof.
  unfold global_env. revert m. induction flags as [|f flags IH]; intros m; cbn [foldl]; [right; split; [done|by intros ? ?%elem_of_nil]|].
  assert (Hin : forall l (m : gmap string EnvVar), foldl (fun m env => <[env := env_var f env]> m) m l !! env = if decide (env ∈ l) then Some (env_var f env) else m !! env).
  { induction l as [|e l IHl]; intros m'; cbn [foldl]; [by rewrite decide_False by apply not_elem_of_nil|]. rewrite IHl. destruct (decide (env ∈ l)); [by rewrite decide_True by (by right)|].
    destruct (decide (env = e)) as [->|Hne]; [rewrite decide_True by (by left); by rewrite lookup_insert_eq|]. rewrite lookup_insert_ne by done. by rewrite decide_False by (by intros [->|?]%elem_of_cons). }
  match goal with |- context [foldl _ ?m' flags] => destruct (IH m') as [(g & Hg & Hs & He & E)|(E & Hno)] end; [left; exists g; split_and!; try done; by right|].
  destruct (shown f) eqn:Hf; [rewrite Hin in E; destruct (decide (env ∈ kf_Envs f)) as [He|He]|].
  - left. exists f. split_and!; [by left|done|done|exact E].
  - right. split; [exact E|]. intros g [->|Hg]%elem_of_cons Hs; [done|by apply Hno].
  - right. split; [exact E|]. intros g [->|Hg]%elem_of_cons Hs; [congruence|by apply Hno].
Qed.

Lemma add_env_keeps f m e env v : m !! env = Some v -> add_env f m e !! env = Some v.
Proof. intros Hm. unfold add_env. destruct (m !! e) eqn:He; [done|]. rewrite lookup_insert_ne; [done|]. intros ->. congruence. Qed.

Lemma command_env_keeps node m env v : m !! env = Some v -> command_env node m !! env = Some v.
Proof.
  unfold command_env. revert m. induction (kn_Flags node) as [|f flags IH]; intros m Hm; [done|]. cbn [foldl]. apply IH. destruct (shown f); [|done].
  revert m Hm. induction (kf_Envs f) as [|e envs IHe]; intros m Hm; [done|]. cbn [foldl]. apply IHe. by apply add_env_keeps.
Qed.

(** Global flags take precedence: a variable of one is described by the last that has it, whatever
    the commands do with it. *)
Lemma env_map_global flags children env :
  (exists f, f ∈ flags /\ shown f = true /\ env ∈ kf_Envs f) ->
  exists f, f ∈ flags /\ shown f = true /\ env ∈ kf_Envs f /\ env_map flags children !! env = Some (env_var f env).
Proof.
  intros (f0 & Hf0 & Hs0 & He0). destruct (global_env_acc flags ∅ env) as [(f & Hf & Hs & He & E)|(_ & Hno)]; [|by destruct (Hno f0 Hf0 Hs0)].
  exists f. split_and!; try done. unfold env_map. revert E. generalize (global_env flags ∅). induction children as [|node children IH]; intros m E; [done|]. cbn [foldl].
  apply IH. destruct (is_command node); [by apply command_env_keeps|done].
Qed.

Lemma env_map_names flags children env v : env_map flags children !! env = Some v -> ev_Name v = env.
Proof.
  unfold env_map. assert (Hg : forall m : gmap string EnvVar, (forall e w, m !! e = Some w -> ev_Name w = e) ->
    forall e w, foldl (fun m node => if is_command node then command_env node m else m) m children !! e = Some w -> ev_Name w = e).
  { induction children as [|node children IH]; intros m Hm; [exact Hm|]. cbn [foldl]. apply IH. destruct (is_command node); [|done]. unfold command_env.
    revert m Hm. induction (kn_Flags node) as [|f fs IHf]; intros m Hm; [exact Hm|]. cbn [foldl]. apply IHf. destruct (shown f); [|done].
    revert m Hm. induction (kf_Envs f) as [|x envs IHe]; intros m Hm; [exact Hm|]. cbn [foldl]. apply IHe. intros e w. unfold add_env. destruct (m !! x); [apply Hm|].
    intros [[<- <-]|[_ ?]]%lookup_insert_Some; [done|by apply Hm]. }
  apply Hg. clear Hg. unfold global_env. assert (Hg : forall m : gmap string EnvVar, (forall e w, m !! e = Some w -> ev_Name w = e) ->
    forall e w, foldl (fun m f => if shown f then foldl (fun m env => <[env := env_var f env]> m) m (kf_Envs f) else m) m flags !! e = Some w -> ev_Name w = e).
  { induction flags as [|f flags IH]; intros m Hm; [exact Hm|]. cbn [foldl]. apply IH. destruct (shown f); [|done].
    revert m Hm. induction (kf_Envs f) as [|x envs IHe]; intros m Hm; [exact Hm|]. cbn [foldl]. apply IHe. intros e w [[<- <-]|[_ ?]]%lookup_insert_Some; [done|by apply Hm]. }
  apply Hg. by intros e w ?%lookup_empty_Some.
Qed.

(** Every variable is listed once. *)
Lemma parseCommands_env_once flags children : NoDup (ev_Name <$> (parseCommands flags children).2).
Proof.
  unfold parseCommands. cbn [snd]. rewrite (sort_by_perm ev_Name). rewrite <- list_fmap_compose.
  replace ((ev_Name ∘ snd) <$> map_to_list (env_map flags children)) with (map_to_list (env_map flags children)).*1; [apply NoDup_fst_map_to_list|].
  apply list_fmap_ext. intros i [e v] Hi. apply list_elem_of_lookup_2, elem_of_map_to_list in Hi. cbn. symmetry. by eapply env_map_names.
Qed.

Example gen_ex :
  fst <$> gen_cli_docs "/d" [] [mkKongNode true false "run" "Run" "" [] []; mkKongNode true true "healthcheck" "" "" [] []] =
    ["/d/cli/run.mdx"; "/d/sidebar-cli.yaml"; "/d/reference/environment-variables.mdx"] /\
  getTypeName (Some (GoSlice (GoPointer (GoNamed "string")))) = "[]string" /\ referencedTypeName "#/$defs/image" = "image".
Proof. vm_compute. repeat split. Qed.
