(* ===== verification/Examples.v ===== *)
(** * The examples

    composer/example/example.go: a filter that shows the calls of the host, with the body of a
    response wrapped in another; example-ext-proc/processor.go: the loop of an external processor.
    The stream is explicit state here, since the filter reads back what it has written: headers,
    dynamic metadata and the buffered bodies.  Log lines are left out. *)

From S2P Require Import Prelude GoStr GoNum Host.
From Stdlib Require Import Lia Ascii.

Local Open Scope Z_scope.
Local Open Scope go_scope.

(** ** The filter *)

(** What is done with a metric: its amount and its tags. *)
Inductive MetricOp : Type :=
| CounterAdd (metric : Z) (n : Z) (tags : list string)
| GaugeSet (metric : Z) (n : Z) (tags : list string)
| GaugeAdd (metric : Z) (n : Z) (tags : list string)
| GaugeSub (metric : Z) (n : Z) (tags : list string)
| HistogramRecord (metric : Z) (n : Z) (tags : list string).

(** The metrics that could be defined, with the identities the host gave them. *)
Record statsCollector : Type := mkStats { counterMetric : option Z; counterMetricWithTags : option Z; gaugeMetric : option Z; gaugeMetricWithTags : option Z;
  histogramMetric : option Z; histogramMetricWithTags : option Z }.

Definition tag : list string := ["tag_value"].
Definition when {A} (m : option A) (f : A -> list MetricOp) : list MetricOp := match m with Some a => f a | None => [] end.
Definition record_metrics (s : statsCollector) : list MetricOp :=
  when (counterMetric s) (fun m => [CounterAdd m 1 []]) ++ when (counterMetricWithTags s) (fun m => [CounterAdd m 1 tag]) ++
  when (gaugeMetric s) (fun m => [GaugeSet m 42 []; GaugeAdd m 2 []; GaugeSub m 1 []]) ++
  when (gaugeMetricWithTags s) (fun m => [GaugeSet m 84 tag; GaugeAdd m 4 tag; GaugeSub m 2 tag]) ++
  when (histogramMetric s) (fun m => [HistogramRecord m 7 []; HistogramRecord m 14 []; HistogramRecord m 21 []]) ++
  when (histogramMetricWithTags s) (fun m => [HistogramRecord m 14 tag; HistogramRecord m 28 tag; HistogramRecord m 42 tag]).

(** What the host answers to the definition of a metric: an identity, or a failure. *)
Definition Create (DefineCounter DefineGauge DefineHistogram : string -> list string -> option Z) : statsCollector :=
  mkStats (DefineCounter "example_counter" []) (DefineCounter "example_counter_with_tags" ["tag"]) (DefineGauge "example_gauge" [])
    (DefineGauge "example_gauge_with_tags" ["tag"]) (DefineHistogram "example_histogram" []) (DefineHistogram "example_histogram_with_tags" ["tag"]).

Definition ExtensionName : string := "example-go".

Section Filter.
Context {H : Type} `{!HeaderMap H}.

(** A stream: headers, metadata, the chunks of the buffered bodies, metrics and local replies. *)
Record Stream : Type := mkStream {
  s_request : H;
  s_response : H;
  s_metadata : gmap (string * string) MetaValue;
  s_requestBuffer : list string;
  s_responseBuffer : list string;
  s_metrics : list MetricOp;
  s_replies : list (Z * string);
}.

Definition with_request (h : H) (s : Stream) : Stream := mkStream h (s_response s) (s_metadata s) (s_requestBuffer s) (s_responseBuffer s) (s_metrics s) (s_replies s).
Definition with_response (h : H) (s : Stream) : Stream := mkStream (s_request s) h (s_metadata s) (s_requestBuffer s) (s_responseBuffer s) (s_metrics s) (s_replies s).
Definition with_metadata (ns key : string) (v : MetaValue) (s : Stream) : Stream :=
  mkStream (s_request s) (s_response s) (<[(ns, key) := v]> (s_metadata s)) (s_requestBuffer s) (s_responseBuffer s) (s_metrics s) (s_replies s).
Definition with_requestBuffer (b : list string) (s : Stream) : Stream := mkStream (s_request s) (s_response s) (s_metadata s) b (s_responseBuffer s) (s_metrics s) (s_replies s).
Definition with_responseBuffer (b : list string) (s : Stream) : Stream := mkStream (s_request s) (s_response s) (s_metadata s) (s_requestBuffer s) b (s_metrics s) (s_replies s).
Definition with_metrics (l : list MetricOp) (s : Stream) : Stream :=
  mkStream (s_request s) (s_response s) (s_metadata s) (s_requestBuffer s) (s_responseBuffer s) (s_metrics s ++ l) (s_replies s).
Definition with_reply (status : Z) (body : string) (s : Stream) : Stream :=
  mkStream (s_request s) (s_response s) (s_metadata s) (s_requestBuffer s) (s_responseBuffer s) (s_metrics s) (s_replies s ++ [(status, body)]).

(** A string or a number of the metadata: empty or zero when there is none. *)
Definition GetMetadataString (s : Stream) (ns key : string) : string := match s_metadata s !! (ns, key) with Some (MetaString v) => v | _ => "" end.
Definition GetMetadataNumber (s : Stream) (ns key : string) : Z := match s_metadata s !! (ns, key) with Some (MetaInt v) => v | _ => 0 end.

(** [host] is the attribute request.host; [None] is a panic. *)
Definition OnRequestHeaders (stats : statsCollector) (host : string) (endStream : bool) (s : Stream) : option (HeadersStatus * Stream) :=
  let s := with_metrics (record_metrics stats) s in
  if negb (bool_decide (GetOne (s_request s) "host" = host)) then None
  else
    let s := with_metadata "example-namespace" "example-key" (MetaString "example-value") s in
    if negb (bool_decide (GetMetadataString s "example-namespace" "example-key" = "example-value")) then None
    else
      let s := with_metadata "example-namespace" "example-number-key" (MetaInt 42) s in
      if negb (bool_decide (GetMetadataNumber s "example-namespace" "example-number-key" = 42)) then None
      else
        let s := with_request (HSet (s_request s) "x-example-request-header" "example-value") s in
        if negb (bool_decide (GetOne (s_request s) "x-example-request-header" = "example-value")) then None
        else if bool_decide (GetOne (s_request s) "x-send-local-response" = "true") then
          Some (HeadersStatusStop, with_reply 200 "Local Reply from ExamplePlugin" s)
        else Some (if endStream then HeadersStatusContinue else HeadersStatusStop, s).

(** The bodies are drained and one chunk is appended to the buffer; a received chunk, which is
    [None] for trailers, is left empty. *)
Definition rewriteRequestBody (s : Stream) : Stream :=
  let s := with_requestBuffer ["Modified by ExamplePlugin"] s in
  with_request (HSet (HRemove (s_request s) "content-length") "content-type" "plain/text") s.

Definition drained (received : list string) : list string := [].

Definition OnRequestBody (body : list string) (endStream : bool) (s : Stream) : BodyStatus * list string * Stream :=
  if endStream then (BodyStatusContinue, drained body, rewriteRequestBody s) else (BodyStatusStopAndBuffer, body, s).
Definition OnRequestTrailers (s : Stream) : TrailersStatus * Stream := (TrailersStatusContinue, rewriteRequestBody s).

Definition OnResponseHeaders (endStream : bool) (s : Stream) : option (HeadersStatus * Stream) :=
  let s := with_response (HSet (s_response s) "x-example-response-header" "example-value") s in
  if negb (bool_decide (GetOne (s_response s) "x-example-response-header" = "example-value")) then None
  else Some (if endStream then HeadersStatusContinue else HeadersStatusStop, s).

Definition dquote : string := String "034"%char "".
Definition wrap_body (contentType original : string) : string :=
  if Contains contentType "application/json" then
    "{" +:+ dquote +:+ "modified_by" +:+ dquote +:+ ":" +:+ dquote +:+ "ExamplePlugin" +:+ dquote +:+ "," +:+ dquote +:+ "original_body" +:+
      dquote +:+ ":" +:+ original +:+ "}"
  else "Modified by ExamplePlugin" +:+ String "010"%char ("Original Body:" +:+ String "010"%char original).

Definition rewriteResponseBody (received : option (list string)) (s : Stream) : Stream :=
  let originalBody := Join (s_responseBuffer s ++ default [] received) "" in
  let newBody := wrap_body (GetOne (s_response s) "content-type") originalBody in
  let s := with_responseBuffer [newBody] s in
  with_response (HRemove (s_response s) "content-length") s.

Definition OnResponseBody (body : list string) (endStream : bool) (s : Stream) : BodyStatus * list string * Stream :=
  if endStream then (BodyStatusContinue, drained body, rewriteResponseBody (Some body) s) else (BodyStatusStopAndBuffer, body, s).
Definition OnResponseTrailers (s : Stream) : TrailersStatus * Stream := (TrailersStatusContinue, rewriteResponseBody None s).

(** ** A response *)

(** The host appends what it is told to buffer, and passes on what is buffered and received. *)
Definition body_callback (body : list string) (endStream : bool) (s : Stream) : Stream :=
  let '(status, received, s1) := OnResponseBody body endStream s in with_responseBuffer (s_responseBuffer s1 ++ received) s1.

(** The callbacks for a body that comes in the given chunks, ended by the last chunk or by
    trailers. *)
Fixpoint send_body (chunks : list (list string)) (trailers : bool) (s : Stream) : Stream :=
  match chunks with
  | [] => if trailers then (OnResponseTrailers s).2 else s
  | [last] => if trailers then (OnResponseTrailers (body_callback last false s)).2 else body_callback last true s
  | chunk :: rest => send_body rest trailers (body_callback chunk false s)
  end.

(** However the body of a response is cut, and whether it ends with a chunk or with trailers, what
    is passed on is the whole original body wrapped once. *)
Lemma response_wrapped_once chunks trailers (s : Stream) :
  chunks <> [] ->
  let s' := send_body chunks trailers s in
  s_responseBuffer s' = [wrap_body (GetOne (s_response s) "content-type") (Join (s_responseBuffer s ++ concat chunks) "")] /\
  s_response s' = HRemove (s_response s) "content-length".
Proof.
  revert s. induction chunks as [|c chunks IH]; [done|]. intros s _. destruct chunks as [|c2 chunks].
  - cbn [send_body concat]. rewrite app_nil_r. destruct trailers; cbn; by rewrite ?app_nil_r.
  - specialize (IH (body_callback c false s) ltac:(done)). cbv zeta in *. destruct IH as [IH1 IH2].
    change (send_body (c :: c2 :: chunks) trailers s) with (send_body (c2 :: chunks) trailers (body_callback c false s)). split; [|exact IH2].
    rewrite IH1. cbn -[Join]. by rewrite <- app_assoc.
Qed.

(** A request whose host header is the attribute is served without a panic. *)
Lemma request_served `{!HeaderMapLaws H} stats host endStream (s : Stream) :
  GetOne (s_request s) "host" = host -> is_Some (OnRequestHeaders stats host endStream s) /\ is_Some (OnResponseHeaders endStream s).
Proof.
  intros Hh. unfold OnRequestHeaders, OnResponseHeaders. cbn [with_metrics s_request]. rewrite Hh, bool_decide_true by done. cbn [negb].
  unfold GetMetadataString, GetMetadataNumber. cbn [with_metadata with_metrics with_request with_response s_metadata s_request s_response].
  rewrite !lookup_insert_eq, !bool_decide_true by done. cbn [negb]. rewrite !get_set_eq, !bool_decide_true by done. cbn [negb]. split; [|done].
  by destruct (bool_decide _).
Qed.
End Filter.

(** ** The external processor *)

Inductive Message : Type :=
| RequestHeaders (headers : list (string * string))
| RequestBody (body : string)
| RequestTrailers (trailers : list (string * string))
| ResponseHeaders (headers : list (string * string))
| ResponseBody (body : string)
| ResponseTrailers (trailers : list (string * string))
| OtherMessage.

(** Headers to set, for the answers to headers and bodies. *)
Inductive Answer : Type :=
| RequestHeadersAnswer (set : list (string * string))
| RequestBodyAnswer (set : list (string * string))
| RequestTrailersAnswer
| ResponseHeadersAnswer (set : list (string * string))
| ResponseBodyAnswer (set : list (string * string))
| ResponseTrailersAnswer.

(** [None] is the nil response of a message of no known kind. *)
Definition process_message (m : Message) : option Answer :=
  match m with
  | RequestHeaders _ => Some (RequestHeadersAnswer [])
  | RequestBody _ => Some (RequestBodyAnswer [])
  | RequestTrailers _ => Some RequestTrailersAnswer
  | ResponseHeaders _ => Some (ResponseHeadersAnswer [("x-ext-proc", "processed")])
  | ResponseBody _ => Some (ResponseBodyAnswer [])
  | ResponseTrailers _ => Some ResponseTrailersAnswer
  | OtherMessage => None
  end.

(** What receiving gives, and how the loop ends. *)
Inductive Received : Type := Recv (m : Message) | RecvEOF | RecvError.
Inductive ProcessEnd : Type := ProcessDone | ReceiveFailed | SendFailed | StillOpen.

(** The loop over what is received, with whether each answer can be sent. *)
Fixpoint Process (received : list Received) (sends : list bool) : list (option Answer) * ProcessEnd :=
  match received with
  | [] => ([], StillOpen)
  | RecvEOF :: _ => ([], ProcessDone)
  | RecvError :: _ => ([], ReceiveFailed)
  | Recv m :: rest =>
      match sends with
      | false :: _ => ([], SendFailed)
      | _ => let '(sent, how) := Process rest (tail sends) in (process_message m :: sent, how)
      end
  end.

(** While sending works, every message has its answer, in order, and the loop ends with the
    stream. *)
Lemma Process_answers ms how sends :
  Forall (fun ok => ok = true) sends -> how = RecvEOF \/ how = RecvError ->
  Process ((Recv <$> ms) ++ [how]) sends = (process_message <$> ms, match how with RecvEOF => ProcessDone | _ => ReceiveFailed end).
Proof.
  intros Hs Hhow. revert sends Hs. induction ms as [|m ms IH]; intros sends Hs; [by destruct Hhow as [-> | ->]|]. cbn [fmap list_fmap app Process].
  assert (Ht : Forall (fun ok => ok = true) (tail sends)) by (by destruct Hs). specialize (IH _ Ht). cbn [fmap] in IH. rewrite IH. by destruct Hs as [|? ? ->].
Qed.

Example example_ex :
  let s := mkStream ([] : Headers) [("content-type", "application/json"); ("content-length", "2")] ∅ [] [] [] [] in
  let s' := send_body [["1"]; ["2"; "3"]] false s in
  s_responseBuffer s' = [wrap_body "application/json" "123"] /\ s_response s' = [("content-type", "application/json")].
Proof. vm_compute. repeat split. Qed.
