(* ===== verification/FaultLoad.v ===== *)
(** * dynamic-fault-injection: loading configurations

    extensions/composer/dynamic-fault-injection/internal/config/loader.go and the factories of
    plugin.go: a configuration is decoded as a document, checked against a schema that is compiled
    once, decoded again into the configuration, and built.  YAML, JSON and the schema compiler are
    parameters; the loader that all filters share is state. *)

From Stdlib Require Import Lia Ascii Floats.SpecFloat.
From S2P Require Import Prelude GoStr GoNum Host SSELines OPA FaultConfig FaultDistribution FaultFilter.

Local Open Scope Z_scope.
Local Open Scope go_scope.

Inductive LoadError : Type :=
| ErrDecode
| ErrManyDocuments
| ErrSchema
| ErrAgainstSchema
| ErrPerRouteEndpoints
| ErrParse
| ErrBuild (e : BuildError).

(** What the decoder of YAML gives for the documents of a text: the first, and what follows it. *)
Inductive NextDocument : Type := NoMore | BadDocument | OneMore.
Record Documents : Type := mkDocuments { first_document : option any; next_document : NextDocument }.

(** [sync.Once] with the compiled schema, and how often it was compiled. *)
Section Loading.
Context {Schema : Type}.
Record Loader : Type := mkLoader { ld_schema : option (option Schema); ld_compiled : nat }.
Definition NewLoader : Loader := mkLoader None 0.

Context (yaml_documents : string -> Documents) (json_valid : string -> bool) (json_decode : string -> option any).
Context (compile : option Schema) (Validate : Schema -> any -> bool).
(** The strict decoder of the configuration. *)
Context (yaml_config : string -> option FilterConfig).
Context (ParseFloat : string -> option float64) (ValidHeaderFieldName ValidHeaderFieldValue : string -> bool).
Context (choices hchoices tchoices : nat -> nat -> nat).

Definition decodeConfigInstance (data : string) : result LoadError any :=
  let trimmed := TrimSpace data in
  match first_document (yaml_documents data) with
  | None => Err ErrDecode
  | Some instance =>
      match next_document (yaml_documents data) with
      | BadDocument => Err ErrDecode
      | OneMore => Err ErrManyDocuments
      | NoMore => if json_valid trimmed then match json_decode trimmed with Some decoded => Ok decoded | None => Err ErrDecode end else Ok instance
      end
  end.

Definition getSchema (l : Loader) : Loader * option Schema :=
  match ld_schema l with
  | Some schema => (l, schema)
  | None => (mkLoader (Some compile) (S (ld_compiled l)), compile)
  end.

Definition has_endpoints (instance : any) : bool := match instance with AMap root => existsb (fun kv => bool_decide (kv.1 = "endpoints")) root | _ => false end.

Definition validateAgainstSchema (l : Loader) (data : string) (source : Source) : Loader * result LoadError () :=
  match decodeConfigInstance data with
  | Err e => (l, Err e)
  | Ok instance =>
      match getSchema l with
      | (l1, None) => (l1, Err ErrSchema)
      | (l1, Some schema) =>
          (l1, if negb (Validate schema instance) then Err ErrAgainstSchema
               else if bool_decide (source = PerRouteSource) && has_endpoints instance then Err ErrPerRouteEndpoints else Ok ())
      end
  end.

(** [Load] up to the checks that [buildFilterFactoryForSource] begins with. *)
Definition Load (l : Loader) (data : string) (source : Source) : Loader * result LoadError FilterConfig :=
  match validateAgainstSchema l data source with
  | (l1, Err e) => (l1, Err e)
  | (l1, Ok _) => (l1, match yaml_config data with None => Err ErrParse | Some decoded => Ok decoded end)
  end.

Definition build_factory (l : Loader) (data : string) (source : Source) : Loader * result LoadError latencyFaultFilterFactory :=
  match Load l data source with
  | (l1, Err e) => (l1, Err e)
  | (l1, Ok decoded) =>
      (l1, map_err ErrBuild (buildFilterFactoryForSource ParseFloat ValidHeaderFieldName ValidHeaderFieldValue choices hchoices tchoices decoded source))
  end.

(** The factories of the host and of a route. *)
Definition Create (l : Loader) (data : string) : Loader * result LoadError latencyFaultFilterFactory := build_factory l data FilterSource.
Definition CreatePerRoute (l : Loader) (data : string) : Loader * result LoadError latencyFaultFilterFactory := build_factory l data PerRouteSource.

(** The factory of a request: that of its route, if there is one. *)
Definition request_factory (factory : latencyFaultFilterFactory) (perRoute : option latencyFaultFilterFactory) : latencyFaultFilterFactory := default factory perRoute.

(** ** One schema *)

(** Any sequence of loads. *)
Fixpoint loads (l : Loader) (requests : list (string * Source)) : Loader :=
  match requests with [] => l | (data, source) :: rest => loads (Load l data source).1 rest end.

Definition once (l : Loader) : Prop := (ld_schema l = None /\ ld_compiled l = 0%nat) \/ (ld_schema l = Some compile /\ ld_compiled l = 1%nat).

Lemma Load_loader l data source : (Load l data source).1 = l \/ (Load l data source).1 = (getSchema l).1.
Proof.
  unfold Load, validateAgainstSchema. destruct (decodeConfigInstance data); [|by left]. right. by destruct (getSchema l) as [l1 [schema|]]; cbn; [case_match|].
Qed.

(** The schema is compiled once at most, however many configurations are loaded; a schema that
    does not compile fails them all. *)
Lemma schema_compiled_once requests : once (loads NewLoader requests).
Proof.
  assert (Hgen : forall l, once l -> once (loads l requests)); [|apply Hgen; by left]. induction requests as [|[data source] requests IH]; intros l Hl; [done|].
  cbn [loads]. apply IH. destruct (Load_loader l data source) as [-> | ->]; [done|]. unfold getSchema. destruct Hl as [[-> Hn]|[Hs Hn]]; [right; cbn; by rewrite Hn|rewrite Hs; by right].
Qed.

(** ** What is loaded *)

(** Whatever was loaded before, a configuration is loaded if it is one document that the schema
    accepts, has no endpoints on a route, and decodes strictly: the state of the loader does not
    matter. *)
Lemma Load_Ok l data source cfg :
  once l ->
  (Load l data source).2 = Ok cfg <->
  exists instance schema, decodeConfigInstance data = Ok instance /\ compile = Some schema /\ Validate schema instance = true /\
    (source = PerRouteSource -> has_endpoints instance = false) /\ yaml_config data = Some cfg.
Proof.
  intros Hl. assert (Hs : (getSchema l).2 = compile) by (unfold getSchema; by destruct Hl as [[-> _]|[-> _]]).
  unfold Load, validateAgainstSchema. destruct (decodeConfigInstance data) as [instance|]; [|split; [done|by intros (? & ? & ? & _)]].
  destruct (getSchema l) as [l1 [schema|]]; cbn [snd] in Hs; rewrite <- Hs; [|split; [done|by intros (? & ? & _ & ? & _)]].
  destruct (Validate schema instance) eqn:Hv; cbn [negb]; [|split; [done|intros (? & ? & [= <-] & [= <-] & ? & _); congruence]].
  destruct (bool_decide (source = PerRouteSource)) eqn:Hp; cbn [andb].
  - apply bool_decide_eq_true_1 in Hp. destruct (has_endpoints instance) eqn:He; [split; [done|intros (? & ? & [= <-] & _ & _ & Hn & _); specialize (Hn Hp); congruence]|].
    split; [|by intros (? & ? & _ & _ & _ & _ & ->)]. destruct (yaml_config data); [|done]. intros [= ->]. by exists instance, schema.
  - apply bool_decide_eq_false_1 in Hp. split; [|by intros (? & ? & _ & _ & _ & _ & ->)]. destruct (yaml_config data); [|done]. intros [= ->]. by exists instance, schema.
Qed.

(** A factory of a route never matches endpoints: it is direct. *)
Lemma per_route_direct l data fac : (CreatePerRoute l data).2 = Ok fac -> direct fac = true /\ endpoints fac = [].
Proof.
  unfold CreatePerRoute, build_factory. destruct (Load l data PerRouteSource) as [l1 [decoded|]]; [|done]. cbn [snd]. unfold buildFilterFactoryForSource.
  destruct (fault_parseConfig _ _ _ _ _) as [cfg|]; [|done]. cbn [rbind map_err]. rewrite bool_decide_true by done. cbn [orb].
  destruct (build_weighted _ _ _ _) as [d|]; [|done]. cbn [rbind]. destruct (build_load_based _ _ _ _ _) as [lb|]; [|done]. cbn [rbind map_err]. by intros [= <-].
Qed.
End Loading.

Example decode_ex :
  decodeConfigInstance (fun _ => mkDocuments (Some (AMap [])) OneMore) (fun _ => false) (fun _ => None) "{}" = Err ErrManyDocuments /\
  has_endpoints (AMap [("endpoints", AMap [])]) = true.
Proof. vm_compute. repeat split. Qed.
