(* ===== verification/CliFollow.v ===== *)
(** * cli: following the log, and starting a debug session

    The rest of cli/cmd/logs.go and cli/cmd/debug.go, and findEnvoyPid of
    cli/internal/envoy/debug.go: the log is followed while others append to it, the process of
    Envoy is looked for among the children of the tool, and paths that go through symbolic links
    are explained to the user.  What other processes do is a schedule of events. *)

From Stdlib Require Import Lia Ascii.
From S2P Require Import Prelude GoStr GoNum GoPath GoFS CliFlags CliLogs CliRunner.

(** ** Following a file *)

Definition followChunk : nat := 4096.

(** The file, the position of its descriptor, and what was written so far. *)
Record FollowState : Type := mkFollow { fw_file : string; fw_offset : nat; fw_out : string }.

(** What happens next: somebody appends to the file, or the loop gets another turn: to find its
    context done, to fail to read, or to read a chunk that is written or not. *)
Inductive FollowEvent : Type :=
| Appended (text : string)
| Cancelled
| ReadFailed
| Polled (written : bool).

Inductive FollowEnd : Type := FollowStopped | FollowReadError | FollowWriteError.

Definition unread (st : FollowState) : string := drop_bytes (fw_offset st) (fw_file st).

(** One turn.  At the end of the file nothing is read and nothing is written. *)
Definition follow_step (st : FollowState) (ev : FollowEvent) : FollowState * option FollowEnd :=
  match ev with
  | Appended text => (mkFollow (fw_file st +:+ text) (fw_offset st) (fw_out st), None)
  | Cancelled => (st, Some FollowStopped)
  | ReadFailed => (st, Some FollowReadError)
  | Polled written =>
      let chunk := take_bytes followChunk (unread st) in
      let offset := (fw_offset st + String.length chunk)%nat in
      if bool_decide (chunk = "") then (st, None)
      else if written then (mkFollow (fw_file st) offset (fw_out st +:+ chunk), None)
      else (mkFollow (fw_file st) offset (fw_out st), Some FollowWriteError)
  end.

(** [followFile]; [None] is a loop that still runs when the schedule ends. *)
Fixpoint followFile (st : FollowState) (evs : list FollowEvent) : FollowState * option FollowEnd :=
  match evs with
  | [] => (st, None)
  | ev :: rest =>
      match follow_step st ev with
      | (st', None) => followFile st' rest
      | r => r
      end
  end.

(** The texts that are appended before the loop ends. *)
Fixpoint appended (st : FollowState) (evs : list FollowEvent) : string :=
  match evs with
  | [] => ""
  | ev :: rest =>
      match follow_step st ev with
      | (st', None) => (match ev with Appended text => text | _ => "" end) +:+ appended st' rest
      | _ => ""
      end
  end.

(** [Logs.Run] on a file with [content]; [during] is appended while the last lines are copied
    and is copied with them, [between] after that and before the descriptor is moved to the end.
    Without a positive number of lines the descriptor stays where the copy ended. *)
Definition logs_start (follow : bool) (tail : Z) (content during between : string) : FollowState :=
  let out := (if bool_decide (content = "") && (0 <? tail_of follow tail)%Z then "" else logs_output follow tail content +:+ during) in
  let file := content +:+ during +:+ between in
  mkFollow file (if (0 <? tail_of follow tail)%Z then String.length file else String.length (content +:+ during)) out.

Definition Logs_Run (follow : bool) (tail : Z) (content during between : string) (evs : list FollowEvent) : FollowState * option FollowEnd :=
  let st := logs_start follow tail content during between in
  if follow then followFile st evs else (st, Some FollowStopped).

#[local] Opaque followChunk.

Definition in_file (st : FollowState) : Prop := (fw_offset st <= String.length (fw_file st))%nat.

Lemma drop_bytes_add n m s : drop_bytes (n + m) s = drop_bytes m (drop_bytes n s).
Proof. revert s. induction n as [|n IH]; intros [|c s]; cbn [drop_bytes Nat.add]; try done. by destruct m. Qed.

Lemma drop_bytes_length s : drop_bytes (String.length s) s = "".
Proof. by induction s. Qed.

Lemma drop_min n s : drop_bytes (Nat.min n (String.length s)) s = drop_bytes n s.
Proof. revert n. by induction s as [|c s IH]; intros [|n]; cbn. Qed.

Lemma unread_chunk st : take_bytes followChunk (unread st) +:+ drop_bytes (fw_offset st + String.length (take_bytes followChunk (unread st))) (fw_file st) = unread st.
Proof. rewrite drop_bytes_add, length_take_bytes. fold (unread st). rewrite drop_min. apply take_drop_bytes. Qed.

Lemma follow_step_out st ev st' e :
  in_file st -> follow_step st ev = (st', e) -> e <> Some FollowWriteError ->
  in_file st' /\ fw_out st' +:+ unread st' = fw_out st +:+ unread st +:+ match ev with Appended text => text | _ => "" end.
Proof.
  intros Hin Hs He. unfold in_file in *. destruct ev as [text| | |written]; cbn [follow_step] in Hs.
  - injection Hs as <- <-. cbn [fw_file fw_offset fw_out]. rewrite str_length_app. split; [lia|]. unfold unread. cbn [fw_file fw_offset]. by rewrite drop_bytes_app_le.
  - injection Hs as <- <-. by rewrite str_app_nil_r.
  - injection Hs as <- <-. by rewrite str_app_nil_r.
  - rewrite str_app_nil_r. case_bool_decide as Hc; [by injection Hs as <- <-|].
    destruct written; injection Hs as <- <-; [|done]. cbn [fw_file fw_offset fw_out]. split.
    + rewrite length_take_bytes. unfold unread. rewrite length_drop_bytes. lia.
    + rewrite str_app_assoc. f_equal. apply unread_chunk.
Qed.

(** What is written, and what is still to be read, is what was there and everything that was
    appended since: nothing is lost or repeated. *)
Lemma followFile_out st evs st' e :
  in_file st -> followFile st evs = (st', e) -> e <> Some FollowWriteError ->
  fw_out st' +:+ unread st' = fw_out st +:+ unread st +:+ appended st evs.
Proof.
  revert st. induction evs as [|ev evs IH]; intros st Hin Hf He; cbn [followFile appended] in *; [injection Hf as <- <-; by rewrite str_app_nil_r|].
  destruct (follow_step st ev) as [st1 [e1|]] eqn:Hs.
  - injection Hf as -> <-. destruct (follow_step_out _ _ _ _ Hin Hs He) as [_ ->]. destruct ev; by cbn in Hs.
  - destruct (follow_step_out _ _ _ _ Hin Hs ltac:(done)) as [Hin1 H1]. rewrite (IH _ Hin1 Hf He), <- str_app_assoc, H1. by rewrite !str_app_assoc.
Qed.

(** Without appends, enough turns write everything that is in the file. *)
Lemma follow_catches_up n st :
  in_file st -> (String.length (unread st) <= n * followChunk)%nat ->
  exists st', followFile st (repeat (Polled true) n) = (st', None) /\ fw_out st' = fw_out st +:+ unread st /\ unread st' = "".
Proof.
  revert st. induction n as [|n IH]; intros st Hin Hn; cbn [repeat followFile].
  { exists st. assert (E : unread st = "") by (destruct (unread st); [done|cbn in Hn; lia]). by rewrite E, str_app_nil_r. }
  destruct (follow_step st (Polled true)) as [st1 e1] eqn:Hs. destruct (follow_step_out st (Polled true) st1 e1 Hin Hs) as [Hin1 H1].
  { cbn [follow_step] in Hs. case_bool_decide; injection Hs as _ <-; done. }
  rewrite str_app_nil_r in H1. pose proof Hs as Hs'. cbn [follow_step] in Hs'. case_bool_decide as Hc; injection Hs' as Est <-.
  - subst st1. apply IH; [done|]. assert (E : unread st = "") by (destruct (unread st); by cbn in Hc). rewrite E. cbn. lia.
  - destruct (IH st1 Hin1) as (st' & Hf & Ho & Hu).
    + subst st1. unfold unread at 1. cbn [fw_offset fw_file]. rewrite length_drop_bytes, length_take_bytes. unfold unread in *. rewrite length_drop_bytes in *. unfold in_file in Hin. lia.
    + exists st'. split_and!; [done| |done]. by rewrite Ho.
Qed.

(** Following the log after its last lines: what is appended between the copy of these lines and
    the move to the end of the file is never shown, and everything that comes later is. *)
Lemma follow_skips_between tail content during between evs st' e :
  (0 < tail_of true tail)%Z -> content <> "" ->
  Logs_Run true tail content during between evs = (st', e) -> e <> Some FollowWriteError ->
  fw_out st' +:+ unread st' =
    printLastLines content (tail_of true tail) +:+ during +:+ appended (logs_start true tail content during between) evs.
Proof.
  intros Ht Hc Hr He. unfold Logs_Run in Hr. apply followFile_out in Hr; [|unfold in_file, logs_start; cbn; destruct (Z.ltb_spec 0 (tail_of true tail)); lia|done].
  rewrite Hr. unfold logs_start, unread, logs_output at 1. cbn [fw_out fw_file fw_offset]. rewrite bool_decide_false by done.
  destruct (Z.ltb_spec 0 (tail_of true tail)); [|lia]. cbn [andb]. by rewrite drop_bytes_length, str_app_assoc.
Qed.

Example follow_ex :
  (Logs_Run true 1 "a" "" "lost" [Polled true; Appended "b"; Polled true; Cancelled; Appended "c"] = (mkFollow "alostb" 6 "ab", Some FollowStopped)) /\
  (Logs_Run true (-1) "a" "" "kept" [Polled true] = (mkFollow "akept" 5 "akept", None)).
Proof. vm_compute. split; reflexivity. Qed.

(** ** The process of Envoy *)

(** A child with its command line, if it can be read; a turn of the loop, with the children that
    are found, and whether the context is done when the loop waits for the next. *)
Record Child : Type := mkChild { ch_Pid : Z; ch_Cmdline : option (list string) }.
Record Turn : Type := mkTurn { tn_children : list Child; tn_done : bool }.

Inductive PidError : Type := ErrParentProcess | ErrPidContext.

Definition is_envoy (c : Child) : bool := match ch_Cmdline c with Some args => existsb (fun a => bool_decide (a = "--use-dynamic-base-id")) args | None => false end.

(** [findEnvoyPid]; [None] is a loop that still waits. *)
Fixpoint find_pid (turns : list Turn) : option (result PidError Z) :=
  match turns with
  | [] => None
  | t :: rest =>
      match List.find is_envoy (tn_children t) with
      | Some c => Some (Ok (ch_Pid c))
      | None => if tn_done t then Some (Err ErrPidContext) else find_pid rest
      end
  end.
Definition findEnvoyPid (parent_found : bool) (turns : list Turn) : option (result PidError Z) :=
  if negb parent_found then Some (Err ErrParentProcess) else find_pid turns.

(** The process that is found has the flag of Envoy, and no child had it before. *)
Lemma find_pid_Ok turns pid :
  find_pid turns = Some (Ok pid) <->
  exists before t c after, turns = before ++ t :: after /\ List.find is_envoy (tn_children t) = Some c /\ ch_Pid c = pid /\
    Forall (fun t => tn_done t = false /\ Forall (fun c => is_envoy c = false) (tn_children t)) before.
Proof.
  induction turns as [|t turns IH]; cbn [find_pid]; [split; [done|by intros ([|] & ? & ? & ? & ? & _)]|].
  assert (Hnone : forall t', List.find is_envoy (tn_children t') = None <-> Forall (fun c => is_envoy c = false) (tn_children t')).
  { intros t'. induction (tn_children t') as [|c cs IHc]; cbn; [done|]. destruct (is_envoy c) eqn:Hc; rewrite Forall_cons, ?Hc; [naive_solver|]. rewrite IHc. naive_solver. }
  destruct (List.find is_envoy (tn_children t)) as [c|] eqn:Hf.
  - split; [intros [= <-]; by exists [], t, c, turns|]. intros ([|t1 before] & t' & c' & after & [= -> ->] & Hf' & <- & Hb); [by rewrite Hf in Hf'; injection Hf' as ->|].
    apply Forall_cons in Hb as [[_ Hb] _]. apply Hnone in Hb. congruence.
  - destruct (tn_done t) eqn:Hd.
    + split; [done|]. intros ([|t1 before] & t' & c' & after & [= -> ->] & Hf' & <- & Hb); [congruence|]. apply Forall_cons in Hb as [[? _] _]. congruence.
    + rewrite IH. split.
      * intros (before & t' & c' & after & -> & ? & ? & ?). exists (t :: before), t', c', after. split_and!; try done. constructor; [|done]. split; [done|by apply Hnone].
      * intros ([|t1 before] & t' & c' & after & [= -> ->] & Hf' & <- & Hb); [congruence|]. apply Forall_cons in Hb as [_ Hb]. by exists before, t', c', after.
Qed.

(** Envoy as the runner starts it is recognized. *)
Lemma envoy_recognized r config binary pid : is_envoy (mkChild pid (Some (binary :: envoy_args r config))) = true.
Proof. apply existsb_exists. exists "--use-dynamic-base-id". split; [|done]. right. unfold envoy_args. do 4 right. by left. Qed.

(** ** Paths through symbolic links *)

Section Symlinks.
Context (cwd : option string) (EvalSymlinks : string -> option string).

(** The loop that strips common elements at the end of both paths. *)
Fixpoint strip_links (fuel : nat) (absolute resolved : string) : string * string :=
  match fuel with
  | O => (absolute, resolved)
  | S fuel' =>
      if bool_decide (Base absolute = Base resolved) then
        let parentAbs := Dir absolute in let parentReal := Dir resolved in
        if bool_decide (EvalSymlinks parentAbs = Some parentReal) && negb (bool_decide (parentAbs = parentReal)) then strip_links fuel' parentAbs parentReal
        else (absolute, resolved)
      else (absolute, resolved)
  end.

(** [(from, to)]. *)
Definition symlinkSubstitutePath (path : string) : option (string * string) :=
  match Abs cwd path with
  | None => None
  | Some absolute =>
      match EvalSymlinks absolute with
      | None => None
      | Some resolved =>
          if bool_decide (resolved = absolute) then None
          else let r := strip_links (S (length (clean_segs absolute))) absolute resolved in Some (r.2, r.1)
      end
  end.

Definition mustEvalSymlinks (path : string) : string := default path (EvalSymlinks path).

(** The paths that are explained, with their mappings. *)
Fixpoint hinted (seen : list string) (paths : list string) : list (string * (string * string)) :=
  match paths with
  | [] => []
  | path :: rest =>
      match symlinkSubstitutePath path with
      | None => hinted seen rest
      | Some (from, to) => if bool_decide (from ∈ seen) then hinted seen rest else (path, (from, to)) :: hinted (from :: seen) rest
      end
  end.

(** The text of a hint has the path, what it resolves to, and the two prefixes, each as it is
    and quoted. *)
Context (hint : string -> string -> string -> string -> string).
Definition symlinkHints (paths : list string) : list string := (fun h => hint h.1 (mustEvalSymlinks h.1) h.2.2 h.2.1) <$> hinted [] paths.

(** *** What the mapping maps *)

Definition canonical (p : string) : Prop := is_rooted p = true /\ p = Clean p.

(** Links are resolved to a cleaned path from the root, and the tool runs in a directory. *)
Hypothesis eval_canonical : forall p r, EvalSymlinks p = Some r -> canonical r.
Hypothesis cwd_rooted : forall wd, cwd = Some wd -> is_rooted wd = true.

Lemma canonical_render p : canonical p -> p = render_path true (clean_segs p).
Proof. intros [Hr Hc]. assert (Hne : p <> "") by (by intros ->). rewrite Hc at 1. unfold Clean. by rewrite decide_False, Hr. Qed.

Lemma canonical_Dir p S x : canonical p -> clean_segs p = S ++ [x] -> canonical (Dir p) /\ clean_segs (Dir p) = S /\ Base p = x.
Proof.
  intros Hp Hs. pose proof (canonical_render _ Hp) as Hrender. destruct Hp as [Hr Hc].
  pose proof (clean_segs_plain p Hr) as Hpl. pose proof (clean_segs_slash_free p) as Hsf. rewrite Hs in Hpl, Hsf.
  destruct (JoinAll_file "/" S x eq_refl Hpl Hsf) as (H1 & H2 & H3 & H4). rewrite JoinAll_below in H1, H2, H3, H4 by done.
  change (clean_segs "/") with (@nil string) in *. cbn [app] in *. change (is_rooted "/") with true in *. rewrite Hs in Hrender. rewrite <- Hrender in H2, H3, H4.
  split_and!; [split; [done|]|done|done]. unfold Dir. destruct (LastIndexByte p slash) as [i|] eqn:Hi; [by rewrite Clean_idem|]. unfold Dir in H4. by rewrite Hi in H4.
Qed.

Lemma canonical_root p : canonical p -> clean_segs p = [] -> p = "/".
Proof. intros Hp Hs. rewrite (canonical_render _ Hp), Hs. reflexivity. Qed.

Lemma Abs_canonical p a : Abs cwd p = Some a -> canonical a.
Proof.
  unfold Abs. destruct (is_rooted p) eqn:Hr; [intros [= <-]; split; [by apply Clean_rooted|by rewrite Clean_idem]|].
  destruct cwd as [wd|] eqn:Hw; [|done]. intros [= <-]. pose proof (cwd_rooted wd eq_refl) as Hwd. assert (Hne : wd <> "") by (by intros ->).
  unfold Join2. rewrite decide_False by done. split; [apply Clean_rooted; by rewrite is_rooted_app|by rewrite Clean_idem].
Qed.

(** Two different paths with the same last element, taken apart. *)
Lemma same_base a r : canonical a -> canonical r -> a <> r -> Base a = Base r ->
  exists A R x, clean_segs a = A ++ [x] /\ clean_segs r = R ++ [x].
Proof.
  intros Ha Hr Hne Hb. destruct (clean_segs a) as [|x A _] eqn:Ea using rev_ind.
  - pose proof (canonical_root _ Ha Ea) as ->. destruct (clean_segs r) as [|y R _] eqn:Er using rev_ind.
    + by rewrite (canonical_root _ Hr Er) in Hne.
    + destruct (canonical_Dir _ _ _ Hr Er) as (_ & _ & Hy). exfalso. pose proof (clean_segs_slash_free r) as Hf. rewrite Er in Hf.
      apply Forall_app in Hf as [_ [Hf _]%Forall_cons]. rewrite <- Hy, <- Hb in Hf. by vm_compute in Hf.
  - destruct (canonical_Dir _ _ _ Ha Ea) as (_ & _ & Hx). destruct (clean_segs r) as [|y R _] eqn:Er using rev_ind.
    + exfalso. rewrite (canonical_root _ Hr Er) in Hb. pose proof (clean_segs_slash_free a) as Hf. rewrite Ea in Hf.
      apply Forall_app in Hf as [_ [Hf _]%Forall_cons]. rewrite <- Hx, Hb in Hf. by vm_compute in Hf.
    + destruct (canonical_Dir _ _ _ Hr Er) as (_ & _ & Hy). exists A, R, x. split; [done|]. by rewrite <- Hx, Hb, Hy.
Qed.

Definition minimal (to from : string) : Prop := Base to = Base from -> EvalSymlinks (Dir to) <> Some (Dir from) \/ Dir to = Dir from.

Lemma strip_links_spec fuel a r :
  canonical a -> canonical r -> a <> r -> EvalSymlinks a = Some r -> (length (clean_segs a) < fuel)%nat ->
  exists to from rest, strip_links fuel a r = (to, from) /\ clean_segs a = clean_segs to ++ rest /\ clean_segs r = clean_segs from ++ rest /\
    EvalSymlinks to = Some from /\ to <> from /\ minimal to from.
Proof.
  revert a r. induction fuel as [|fuel IH]; intros a r Ha Hr Hne He Hfuel; [lia|]. cbn [strip_links].
  assert (Hstop : minimal a r -> exists to from rest, (a, r) = (to, from) /\ clean_segs a = clean_segs to ++ rest /\ clean_segs r = clean_segs from ++ rest /\
    EvalSymlinks to = Some from /\ to <> from /\ minimal to from).
  { intros Hm. exists a, r, []. by rewrite !app_nil_r. }
  case_bool_decide as Hb; [|apply Hstop; by intros ?]. case_bool_decide as Hp; cbn [andb]; [|apply Hstop; intros _; by left].
  case_bool_decide as Hd; cbn [negb]; [apply Hstop; intros _; by right|].
  destruct (same_base a r Ha Hr Hne Hb) as (A & R & x & Ea & Er). destruct (canonical_Dir _ _ _ Ha Ea) as (Hca & Hsa & _), (canonical_Dir _ _ _ Hr Er) as (Hcr & Hsr & _).
  destruct (IH (Dir a) (Dir r)) as (to & from & rest & H1 & H2 & H3 & H4 & H5 & H6); try done.
  { rewrite Hsa. rewrite Ea, length_app in Hfuel. cbn in Hfuel. lia. }
  exists to, from, (rest ++ [x]). split_and!; try done; rewrite app_assoc; [rewrite <- H2, Hsa|rewrite <- H3, Hsr]; done.
Qed.

(** A mapping is given exactly for a path that resolves to another one.  It maps the resolved path
    to the path that the extension was built from: both continue with the same elements after the
    prefixes, the one resolves to the other, and no shorter prefixes do. *)
Lemma symlink_mapping path :
  match symlinkSubstitutePath path with
  | None => forall a, Abs cwd path = Some a -> EvalSymlinks a = None \/ EvalSymlinks a = Some a
  | Some (from, to) => exists a r rest, Abs cwd path = Some a /\ EvalSymlinks a = Some r /\ clean_segs a = clean_segs to ++ rest /\ clean_segs r = clean_segs from ++ rest /\
      EvalSymlinks to = Some from /\ to <> from /\ minimal to from
  end.
Proof.
  unfold symlinkSubstitutePath. destruct (Abs cwd path) as [a|] eqn:Ha; [|done]. destruct (EvalSymlinks a) as [r|] eqn:He; [|intros ? [= <-]; by left].
  case_bool_decide as Hne; [intros ? [= <-]; right; by rewrite He, Hne|].
  destruct (strip_links_spec (S (length (clean_segs a))) a r) as (to & from & rest & -> & ?); [by eapply Abs_canonical|by eapply eval_canonical|done|done|lia|].
  by exists a, r, rest.
Qed.

(** Every prefix is explained once, and that of every path through a link is. *)
Lemma hinted_once seen paths :
  NoDup (hinted seen paths).*2.*1 /\ (forall f, f ∈ (hinted seen paths).*2.*1 <-> f ∉ seen /\ exists p to, p ∈ paths /\ symlinkSubstitutePath p = Some (f, to)).
Proof.
  revert seen. induction paths as [|p paths IH]; intros seen; cbn [hinted]; [split; [constructor|set_solver]|].
  destruct (symlinkSubstitutePath p) as [[from to]|] eqn:Hp; [|destruct (IH seen) as [H1 H2]; split; [done|]; set_solver].
  case_bool_decide as Hs.
  - destruct (IH seen) as [H1 H2]. split; [done|]. intros f. rewrite H2. set_solver.
  - destruct (IH (from :: seen)) as [H1 H2]. cbn [fmap list_fmap fst snd]. split; [constructor; [rewrite H2; set_solver|done]|].
    intros f. rewrite elem_of_cons, H2. split; [|intros (Hf & q & to' & Hq & Hq')].
    + intros [->|(Hf & q & to' & ? & ?)]; [set_solver|]. split; [set_solver|]. exists q, to'. set_solver.
    + destruct (decide (f = from)) as [->|Hff]; [by left|]. right. split; [set_solver|]. apply elem_of_cons in Hq as [->|Hq]; [congruence|]. by exists q, to'.
Qed.
End Symlinks.

Example symlink_ex (eval := fun p : string => if bool_decide (p = "/tmp/ext/a") then Some "/private/tmp/ext/a" else if bool_decide (p = "/tmp/ext") then Some "/private/tmp/ext" else if bool_decide (p = "/tmp") then Some "/private/tmp" else Some p) :
  symlinkSubstitutePath None eval "/tmp/ext/a" = Some ("/private/tmp", "/tmp") /\ symlinkSubstitutePath None eval "/home" = None.
Proof. vm_compute. split; reflexivity. Qed.
