(* ===== verification/CliMain.v ===== *)
(** * cli: the run and debug commands as a whole

    cli/cmd/run.go and cli/cmd/debug.go from the command line to the processes that are started:
    the order of the flags, their validation, the extensions that are fetched, built and sorted,
    the runner they are handed to, and the events and docker commands of that runner. *)

From Stdlib Require Import Lia Ascii.
From S2P Require Import Prelude GoStr GoNum GoPath GoFS SSELines GoCodec GoJson CliPackage CliManifest CliCache CliDownload CliExtension CliConfig CliLogs CliFlags CliRun CliDebug CliRunner CliDocker CliFollow.

Local Open Scope Z_scope.

Record ClusterFlags : Type := mkClusterFlags { Secure : list string; Insecure : list string; JSONSpec : list string; cf_TestUpstreamHost : string; cf_TestUpstreamCluster : string }.
Record ListenerTLSFlags : Type := mkListenerTLS { Cert : string; TLSKey : string }.
Record DockerFlags : Type := mkDockerFlags { Enabled : bool; Pull : string; ImageVersion : string }.

(** The flags of [Run]; the credentials of the registry belong to its client. *)
Record Run : Type := mkRun {
  r_Envoy : EnvoyFlags;
  LogLevel : string;
  LogFormat : string;
  RunID : string;
  r_ListenPort : Z;
  r_AdminPort : Z;
  r_Extensions : list string;
  r_Local : list string;
  Dev : bool;
  r_Configs : list string;
  r_FilterTypes : list string;
  r_NativeHTTPFiltersBefore : list string;
  r_NativeHTTPFiltersAfter : list string;
  r_Clusters : ClusterFlags;
  ListenerTLS : ListenerTLSFlags;
  r_Docker : DockerFlags;
  r_Registry : string;
  dockerImplicit : bool;
}.

Record Debug : Type := mkDebugFlags { RunOpts : Run; DebugPort : Z; DebugServerPath : string; RebuildDelve : bool }.

Inductive MainError : Type :=
| MainPositions (e : FlagError)
| MainFlags (e : FlagConflict)
| MainRun (e : RunError)
| MainRunner (e : RunnerError)
| MainDocker (e : DockerError).

(** The disk that is left, the events of the runner on the host, the docker commands that were
    run, and the error. *)
Record Outcome : Type := mkOutcome { oc_fs : FileSystem; oc_events : list Event; oc_docker : list (list string); oc_error : option MainError }.

(** The runner for the host. *)
Definition runner_of (dirs : Directories) (adminEnv : string) (r : Run) (levels : string * string) (plan : RunPlan) (debug : option DebugOptions) : RunnerFuncE := {|
  rf_Params := {|
    AdminAddress := adminAddressForLocal adminEnv (r_AdminPort r);
    ListenerPort := r_ListenPort r;
    Dirs := dirs;
    Extensions := rp_Extensions plan;
    Configs := r_Configs r;
    cp_FilterTypes := r_FilterTypes r;
    NativeHTTPFiltersBefore := r_NativeHTTPFiltersBefore r;
    NativeHTTPFiltersAfter := r_NativeHTTPFiltersAfter r;
    cp_Clusters := Secure (r_Clusters r);
    ClustersInsecure := Insecure (r_Clusters r);
    ClustersJSON := JSONSpec (r_Clusters r);
    TestUpstreamHost := cf_TestUpstreamHost (r_Clusters r);
    TestUpstreamCluster := cf_TestUpstreamCluster (r_Clusters r);
    ListenerTLSCert := Cert (ListenerTLS r);
    ListenerTLSKey := TLSKey (ListenerTLS r);
  |};
  rf_DefaultLogLevel := levels.1;
  rf_ComponentLogLevel := levels.2;
  rf_LogFormat := LogFormat r;
  rf_ExtProcBinaries := rp_ExtProcBinaries plan;
  rf_Debug := debug;
|}.

(** The runner for a container. *)
Definition docker_of (goarch : string) (r : Run) (debug : option DebugOptions) : RunnerDocker := {|
  rd_Registry := r_Registry r;
  rd_ListenPort := r_ListenPort r;
  rd_AdminPort := r_AdminPort r;
  rd_RunID := RunID r;
  rd_Arch := goarch;
  rd_LocalExtensions := r_Local r;
  rd_Pull := Pull (r_Docker r);
  rd_ImageVersion := ImageVersion (r_Docker r);
  rd_Debug := debug;
  rd_ListenerTLSCert := Cert (ListenerTLS r);
  rd_ListenerTLSKey := TLSKey (ListenerTLS r);
|}.

Definition with_docker (enabled : bool) (r : Run) : Run :=
  mkRun (r_Envoy r) (LogLevel r) (LogFormat r) (RunID r) (r_ListenPort r) (r_AdminPort r) (r_Extensions r) (r_Local r) (Dev r) (r_Configs r) (r_FilterTypes r)
    (r_NativeHTTPFiltersBefore r) (r_NativeHTTPFiltersAfter r) (r_Clusters r) (ListenerTLS r) (mkDockerFlags enabled (Pull (r_Docker r)) (ImageVersion (r_Docker r)))
    (r_Registry r) (dockerImplicit r).

Section Main.
Context `{SemVer}.
Context (sort_slice : (string -> string -> bool) -> list string -> list string).
Context (yaml_parse : string -> option YNode) (decode : YNode -> option Manifest) (schema_error : Manifest -> option string).
Context (newClient : string -> option Target).
Context (exec : Command -> FileSystem -> FileSystem * bool) (dotenv : string -> option (gmap string string)) (libext : string).
Context (parse_struct : string -> option Json) (print_struct : list (string * Json) -> option string).
Context (yaml_entries : string -> option (list string)) (parse_filter : string -> option Filter) (parse_cluster : string -> option Cluster).
Context (proto_yaml : Bootstrap -> option string) (lookPath : string -> option string).
(** The machine: its system and architecture, the user, the directories and the environment. *)
Context (goos goarch : string) (euid : Z) (tempDir rand godebug_env adminEnv notesEnv : string) (cwd : option string) (environ osArgs : list string) (version : VersionInfo).
(** The processes, docker, and the order in which a map is iterated. *)
Context (starts ready : Server -> bool) (envoy : Launch -> FileSystem -> FileSystem * option string) (docker : list string -> bool).
Context (iterate : gmap string (list nat) -> list (string * list nat)).
Context (EvalSymlinks : string -> option string) (hint : string -> string -> string -> string -> string).
Context (dirs : Directories).

Local Abbreviation Run_run := (Run_run sort_slice yaml_parse decode schema_error newClient exec dotenv libext).
Local Abbreviation host_run := (host_run parse_struct print_struct yaml_entries parse_filter parse_cluster proto_yaml exec lookPath goos euid tempDir rand godebug_env starts ready envoy).

Definition downloader_of (r : Run) : Downloader := mkDownloader (r_Registry r) dirs goos goarch (Dev r) false.

(** [Run.run]. *)
Definition run (positions : extensionPositions) (levels : string * string) (r : Run) (debug : option DebugOptions) (fs : FileSystem) : Outcome :=
  if Enabled (r_Docker r) then
    let '(commands, e) := RunnerDocker_Run cwd yaml_parse decode schema_error docker fs version environ osArgs (docker_of goarch r debug) in
    mkOutcome fs [] commands (MainDocker <$> e)
  else match Run_run cwd iterate positions (downloader_of r) (r_Envoy r) (r_Extensions r) (r_Local r) (bool_decide (debug <> None)) fs with
  | (fs1, Err e) => mkOutcome fs1 [] [] (Some (MainRun e))
  | (fs1, Ok plan) =>
      let '(fs2, evs, e) := host_run (runner_of dirs adminEnv r levels plan debug) fs1 in
      mkOutcome fs2 evs [] (MainRunner <$> e)
  end.

(** The command: [BeforeResolve], [Validate] and [Run], which the parser calls in this order. *)
Definition boe_run (r : Run) (fs : FileSystem) : Outcome :=
  match saveExtensionPositions cwd osArgs with
  | Err e => mkOutcome fs [] [] (Some (MainPositions e))
  | Ok positions =>
      match Run_Validate (LogLevel r) (cf_TestUpstreamHost (r_Clusters r)) (cf_TestUpstreamCluster (r_Clusters r)) (r_Envoy r)
              (ImageVersion (r_Docker r)) (Enabled (r_Docker r)) (dockerImplicit r) with
      | Err e => mkOutcome fs [] [] (Some (MainFlags e))
      | Ok levels => run positions levels r None fs
      end
  end.

(** [Debug.Run], with the debugger that [Validate] found. *)
Definition Debug_Run (positions : extensionPositions) (levels : string * string) (d : Debug) (debugger : Debugger) (fs : FileSystem) : Outcome :=
  run positions levels (with_docker (inContainer goos (Enabled (r_Docker (RunOpts d))) debugger) (RunOpts d))
    (Some (mkDebug debugger (DebugPort d) (DebugServerPath d) (JoinAll [DataHome dirs; "tools"]) (RebuildDelve d)
             (DebugNotesFromEnv notesEnv ++ symlinkHints cwd EvalSymlinks hint (r_Local (RunOpts d))))) fs.

(** ** On the host or in a container *)

(** A run in a container leaves the work to it: nothing is fetched, built or started here. *)
Lemma run_container positions levels r debug fs : Enabled (r_Docker r) = true -> oc_fs (run positions levels r debug fs) = fs /\ oc_events (run positions levels r debug fs) = [].
Proof. intros He. unfold run. rewrite He. by destruct (RunnerDocker_Run _ _ _ _ _ _ _ _ _ _). Qed.

Lemma run_host positions levels r debug fs : Enabled (r_Docker r) = false -> oc_docker (run positions levels r debug fs) = [].
Proof. intros He. unfold run. rewrite He. destruct (Run_run _ _ _ _ _ _ _ _ _) as [fs1 [plan|]]; [|done]. by destruct (host_run _ _) as [[fs2 evs] e]. Qed.

(** Go extensions are debugged in a container where Envoy does not run natively; Rust extensions
    never are. *)
Lemma debug_go_contained positions levels d fs : goos <> "linux" -> oc_events (Debug_Run positions levels d DebuggerDelve fs) = [].
Proof. intros Hg. apply run_container. cbn [with_docker r_Docker Enabled]. unfold inContainer. rewrite bool_decide_true, bool_decide_false by done. apply orb_true_r. Qed.

Lemma debug_rust_native positions levels d fs : oc_docker (Debug_Run positions levels d DebuggerGDBRemote fs) = [].
Proof. by apply run_host. Qed.

(** ** From the command line to Envoy *)

(** The server of an ext_proc extension runs a binary of the cache. *)
Definition cached_server (exts : list Manifest) (m : Manifest) (s : Server) : Prop :=
  sv_name s = Name m /\ exists m', m' ∈ exts /\ m_Type m' = TypeExtProc /\ Name m' = Name m /\ sv_binary s = LocalCacheExtension dirs m'.

Lemma servers_cached (binaries : gmap string string) all exts :
  servers_known binaries exts ->
  (forall m, m ∈ exts -> m_Type m = TypeExtProc -> exists m', m' ∈ all /\ m_Type m' = TypeExtProc /\ Name m' = Name m /\ binaries !! Name m = Some (LocalCacheExtension dirs m')) ->
  Forall2 (cached_server all) (filter (fun m => m_Type m = TypeExtProc) exts) (omap (server_for binaries) exts).
Proof.
  intros Hk Hb. induction Hk as [|m exts Hm Hk IH]; [constructor|]. cbn [omap list_omap]. rewrite filter_cons. unfold server_for at 1.
  assert (Hrest : Forall2 (cached_server all) (filter (fun m => m_Type m = TypeExtProc) exts) (omap (server_for binaries) exts)) by (apply IH; intros m' Hm'; apply Hb; by right).
  destruct (decide (m_Type m = TypeExtProc)) as [Ht|Ht]; [rewrite bool_decide_true by done|by rewrite bool_decide_false].
  destruct (Hm Ht) as [_ [ep ->]]. destruct (Hb m ltac:(by left) Ht) as (m' & ? & ? & ? & ->). constructor; [|done]. split; [done|]. by exists m'.
Qed.

(** C8: When the command starts Envoy, it does so once and on the host, with the configuration of
    exactly the extensions of its command line in the order of their flags, whose composer
    versions agree; before that the servers of the ext_proc extensions run their binaries of the
    cache, in the same order, and accept connections; all of them are stopped in the end. *)
Theorem run_starts_envoy ts r fs l fs1 (out := boe_run r fs) :
  osArgs = concat (token_args <$> ts) -> Forall good_token ts -> Forall (fun p => is_rooted p = true) (paths_of ts) ->
  r_Extensions r = refs_of ts -> r_Local r = paths_of ts -> (forall m, iterate m ≡ₚ map_to_list m) ->
  EvEnvoy l fs1 ∈ oc_events out ->
  exists plan levels fs2 config ss dbg (runner := runner_of dirs adminEnv r levels plan None),
    Enabled (r_Docker r) = false /\ oc_docker out = [] /\ parseLogLevels (LogLevel r) = Ok levels /\
    Forall2 (fun w m => matches cwd w m = true) (omap (wanted cwd) ts) (rp_Extensions plan) /\
    (forall m1 m2, m1 ∈ rp_Extensions plan -> m2 ∈ rp_Extensions plan -> m_Type m1 = TypeGo -> m_Type m2 = TypeGo -> ComposerVersion m1 = ComposerVersion m2) /\
    RenderConfig parse_struct print_struct yaml_entries parse_filter parse_cluster fs2 (rf_Params runner) (FullConfigRenderer proto_yaml) = Ok config /\
    ln_args l = envoy_args runner config /\
    oc_events out = (EvStarted <$> ss) ++ EvEnvoy l fs1 :: dbg ++ (EvSignalled <$> ss) /\ (forall l2 fs2, EvEnvoy l2 fs2 ∉ dbg) /\
    Forall2 (cached_server (rp_Extensions plan)) (filter (fun m => m_Type m = TypeExtProc) (rp_Extensions plan)) ss /\ Forall (fun s => ready s = true) ss /\
    (exists fs3, setupDynamicModuleSearchPath rand dirs (rp_Extensions plan) fs2 = (fs3, Ok (ln_search_path l))).
Proof.
  intros Hargs Hg Hp Hrefs Hpaths Hit Hin. subst out. unfold boe_run in *.
  destruct (saveExtensionPositions cwd osArgs) as [positions|] eqn:Hpos; [|by apply elem_of_nil in Hin].
  destruct (Run_Validate _ _ _ _ _ _ _) as [levels|] eqn:Hval; [|by apply elem_of_nil in Hin].
  assert (Hlev : parseLogLevels (LogLevel r) = Ok levels).
  { unfold Run_Validate in Hval. destruct (parseLogLevels (LogLevel r)); [|done]. by repeat case_match; simplify_eq. }
  unfold run in *. destruct (Enabled (r_Docker r)); [destruct (RunnerDocker_Run _ _ _ _ _ _ _ _ _ _); by apply elem_of_nil in Hin|].
  rewrite Hrefs, Hpaths, bool_decide_false in * by (by intros []).
  destruct (Run_run _ _ _ _ _ _ _ _ _) as [fs2 [plan|]] eqn:Hplan; [|by apply elem_of_nil in Hin].
  unfold host_run in *. destruct (RunnerFuncE_Run _ _ _ _ _ _ _ _ _) as [[fs4 evs] e] eqn:Hrun. cbn [oc_events oc_docker] in *.
  destruct (envoy_started _ _ _ _ _ _ _ _ _ _ _ _ _ _ Hrun Hin) as (ss & dbg & config & Hevs & Hdbg & Hss & Hready & Hrender & Hln & Hsetup & _ & Hk).
  rewrite Hargs in Hpos. edestruct run_plan_ordered as (H1 & H2 & H3); [exact Hg|exact Hp|exact Hit|exact Hpos|exact Hplan|].
  exists plan, levels, fs2, config, ss, dbg. split_and!; try done. rewrite Hss. by apply servers_cached.
Qed.
End Main.

(** A filter in Lua and an ext_proc extension, both local. *)
Definition lua_or_proc (n : YNode) : option Manifest :=
  if bool_decide (node_Value n = "second") then
    Some (mkManifest "second" "1.0.0" "" false "" "" TypeExtProc [FilterTypeHTTP] "" "" "" "" None (Some (mkExtProc 9001 false "" None)) None "" false (mkOrigin "" "" "") false false zero_info)
  else name_only n.
Definition main_flags : Run :=
  mkRun (mkEnvoyFlags "" "") "all:error" "" "" 10000 9901 [] ["/b"; "/a"] false [] [] [] [] (mkClusterFlags [] [] [] "" "") (mkListenerTLS "" "") (mkDockerFlags false "missing" "") "r" false.
Definition main_run (flags : Run) : Outcome :=
  @boe_run rank_compare (fun _ l => l) (fun s => Some (YScalar s)) lua_or_proc (fun _ => None) (fun _ => None) (fun _ fs => (fs, true)) (fun _ => None) "so"
    (fun _ => None) (fun _ => None) (fun _ => None) (fun _ => None) (fun _ => None) (fun _ => Some "yaml") (fun _ => None)
    "linux" "arm64" 0 "/tmp" "1" "" "" None [] ["boe"; "run"; "--local"; "/b"; "--local"; "/a"] no_version
    (fun _ => true) (fun _ => true) (fun _ fs => (fs, None)) (fun _ => true) map_to_list example_dirs flags
    (union (two_locals : FileSystem) home).

Lemma run_starts_envoy_witness :
  exists l fs1 plan ss,
    EvEnvoy l fs1 ∈ oc_events (main_run main_flags) /\ Forall2 (fun w m => matches None w m = true) [WLocal "/b"; WLocal "/a"] (rp_Extensions plan) /\
    Forall2 (cached_server example_dirs (rp_Extensions plan)) (filter (fun m => m_Type m = TypeExtProc) (rp_Extensions plan)) ss.
Proof.
  assert (Hb : match oc_events (main_run main_flags) !! 1%nat with Some (EvEnvoy _ _) => true | _ => false end = true) by (vm_compute; reflexivity).
  destruct (oc_events (main_run main_flags) !! 1%nat) as [[s|s|l fs1|]|] eqn:He; [discriminate Hb..| |discriminate Hb|discriminate Hb]. clear Hb.
  apply list_elem_of_lookup_2 in He.
  destruct (@run_starts_envoy rank_compare (fun _ l => l) (fun s => Some (YScalar s)) lua_or_proc (fun _ => None) (fun _ => None) (fun _ fs => (fs, true)) (fun _ => None) "so"
    (fun _ => None) (fun _ => None) (fun _ => None) (fun _ => None) (fun _ => None) (fun _ => Some "yaml") (fun _ => None)
    "linux" "arm64" 0 "/tmp" "1" "" "" None [] ["boe"; "run"; "--local"; "/b"; "--local"; "/a"] no_version
    (fun _ => true) (fun _ => true) (fun _ fs => (fs, None)) (fun _ => true) map_to_list example_dirs
    two_tokens main_flags (union (two_locals : FileSystem) home) l fs1) as (plan & levels & fs2 & config & ss & dbg & W1 & W2 & W3 & W4 & W5 & W6 & W7 & W8 & W9 & W10 & W11 & W12).
  - reflexivity.
  - repeat constructor; discriminate.
  - repeat constructor.
  - reflexivity.
  - reflexivity.
  - intros m. reflexivity.
  - exact He.
  - exists l, fs1, plan, ss. split; [exact He|]. split; [exact W4|exact W10].
Defined.
